(* ===== verification/_CoqProject ===== *)
-Q . S2P
Prelude.v
Blocks.v
Ringbuf.v
Libc.v
Uuid.v
AttPdu.v
AttEnc.v
AttDec.v
Ecc.v
EccArith.v
EccMod.v
EccPoint.v
EccCurve.v
EccLadder.v
EccKeys.v
StateM.v
Queue.v
QueueHeap.v
QueueSpec.v
QueueLife.v
GattDb.v
GattDbStore.v
GattDbInsert.v
GattDbLife.v
GattDbAccess.v
GattDbSearch.v
GattDbChar.v
Gobex.v
GobexSpec.v
GobexApparam.v
Eir.v
EirSpec.v
EirOob.v
Ad.v
AdSpec.v
AdParse.v
AdOps.v
HfpContext.v
HfpContextSpec.v
HfpArgs.v
Io.v
Hfp.v
HfpGwParse.v
HfpGw.v
HfpGwSpec.v
HfpGwLife.v
HfpHf.v
HfpHfParse.v
HfpHfSpec.v
HfpHfLife.v
HfpExchange.v
Crypto.v
CryptoSpec.v
Att.v
AttTrace.v
AttSpec.v
AttFrame.v
AttRun.v
AttEvent.v
AttDown.v
AttLife.v
AttNew.v
AttProps.v
Sdp.v
SdpPdu.v
SdpSpec.v
SdpRecord.v
SdpParse.v
SdpProps.v
SdpDb.v
SdpRequest.v
SdpServer.v
SdpSelect.v
SdpSearch.v
SdpRepo.v
SdpAttr.v
SdpAttrSpec.v
SdpService.v
SdpSession.v
SdpLife.v
