(* ===== verification/Prelude.v ===== *)
(** * A verification of the protocol core of BlueZ 5.49

    The repository is a tutorial around the BlueZ sources (src/bluez-5.49).  This
    development models the parts of BlueZ that hold its protocol logic and do no I/O
    themselves: the byte and element containers, UUIDs, the ATT protocol data units, the
    attribute (GATT) database, the transport of its requests, the elliptic curve and the security functions of the pairing,
    the OBEX packets, extended inquiry and advertising data, the AT commands of the
    hands-free profile, and the service discovery records with the server that answers for
    them.  Paths below are relative to src/bluez-5.49.

    ** The parts and how they interact

    - attrib/att.c turns ATT requests and responses into bytes and back; it uses the UUIDs
      of lib/uuid.c and the byte order helpers of src/shared/util.h.
    - src/shared/gatt-db.c keeps the services and attributes that such requests name; it
      compares and converts UUIDs with lib/uuid.c, keeps everything in queues of
      src/shared/queue.c, and answers reads and writes through callbacks.
    - src/shared/att.c sends these PDUs: it queues requests and indications, matches what
      comes back with what waits, signs with src/shared/crypto.c, and calls its client
      through the watches of an io (src/shared/io-mainloop.c) and timers.
    - src/shared/ecc.c makes key pairs and shared secrets for pairing; src/shared/crypto.c
      turns them into confirm values and keys with the ciphers of the kernel.
    - src/shared/hfp.c is both ends of the hands-free profile: the gateway reads commands
      and answers them, the hands-free unit sends commands and reads results.  Each keeps
      two ring buffers (src/shared/ringbuf.c), is woken by the watches of an io
      (src/shared/io-mainloop.c) and calls handlers that may call it again.
    - gobex/ builds and parses OBEX packets: headers, and application parameters inside
      headers.
    - src/eir.c parses what devices advertise and writes the data of out-of-band pairing;
      src/shared/ad.c collects what this device advertises and writes it.  Both use the
      same fields, which is where they meet: what one writes the other parses.

    - lib/sdp.c reads and writes data elements and service records; the SDP server keeps
      records in src/sdpd-database.c, answers searches and reads of attributes in
      src/sdpd-request.c and registers, updates and removes the records of local clients in
      src/sdpd-service.c.

    ** Files

    - Prelude.v (this file): words as [Z] with their wrap-around ([u8] ... [u64]), bytes,
      blocks of memory with checked loads and stores ([ld], [st]; outside is [None]), the
      accessors of util.h, and the tactics [words_lia] and [len_lia].
    - Blocks.v: lemmas on loads and stores at the places of a block that is a concatenation.
    - StateM.v: the monad for code with a state and undefined behaviour, its weakest
      precondition [wp] and the tactic [wp_steps].
    - Ringbuf.v: src/shared/ringbuf.c.  The record [ringbuf] is [struct ringbuf]; the
      cursors are free-running [size_t] values.
    - Libc.v: the pieces of the C library that lib/uuid.c calls ([strtol], [sscanf],
      [snprintf] on its own formats).
    - Uuid.v: lib/uuid.c; [bt_uuid] is the tagged union [bt_uuid_t].
    - AttPdu.v: attrib/att.c, one definition per [enc_] and [dec_] function; AttEnc.v and
      AttDec.v hold the theorems on encoders and decoders against the inductive type [pdu]
      and its wire format.
    - Ecc.v and EccPoint.v: src/shared/ecc.c, the integers of four 64-bit digits and the
      points; EccArith.v, EccMod.v, EccCurve.v, EccLadder.v, EccKeys.v prove the digit
      loops, the modular arithmetic, the point formulas, the ladder and the interface.
    - Queue.v: src/shared/queue.c on an explicit heap ([mem]), callbacks being computations
      over the same heap; QueueHeap.v relates heap cells to lists, QueueSpec.v is the
      contract of the component (operations on lists) and its refinement, QueueLife.v the
      creation, destruction and re-entrant iteration.
    - GattDb.v: src/shared/gatt-db.c on a store of databases and services ([world]); its
      queues are the lists of QueueSpec.v, which the refinement of the queue justifies.
      GattDbStore.v has the reasoning on the store and the well-formed databases,
      GattDbInsert.v, GattDbLife.v, GattDbAccess.v, GattDbSearch.v and GattDbChar.v the
      insertion, removal, values, searches and characteristics.
    - Gobex.v: gobex/gobex-header.c, gobex-packet.c and gobex-apparam.c; GobexSpec.v proves
      packets, GobexApparam.v application parameters.
    - Eir.v: src/eir.c with the conversions of lib/sdp.c and src/uuid-helper.c it calls;
      EirSpec.v describes fields ([piece]) with their bytes and their effect, and proves
      parsing of fields and of arbitrary bytes; EirOob.v proves the out-of-band data.
    - Ad.v: src/shared/ad.c on the lists that its queues hold; AdSpec.v proves the generated
      bytes against the same fields, AdParse.v that src/eir.c parses them back, and AdOps.v
      the operations on the contents, with the class [Keyed] of entries with a key that
      both kinds of data implement.

    - HfpContext.v: the arguments of a command as src/shared/hfp.c reads them;
      HfpContextSpec.v has a parser of strings for each of its functions, HfpArgs.v the
      equivalence with them and the round trip of printed arguments.
    - Io.v: src/shared/io-mainloop.c, with a class [IoOwner] of the states that own an io:
      the gateway and the unit are its instances, so that the watches are written once.
    - Hfp.v: the audio gateway.  The world is the gateway, its io and the log of calls; the
      client is a function from that log to the calls it makes from inside a callback.
      HfpGwParse.v describes command lines, HfpGw.v the steps on the ring buffers,
      HfpGwSpec.v the abstract machine of lines and texts that the gateway implements, and
      HfpGwLife.v the theorems on its behaviour and its life.
    - HfpHf.v, HfpHfParse.v, HfpHfSpec.v, HfpHfLife.v: the same for the hands-free unit;
      HfpExchange.v connects the two machines.
    - Crypto.v: src/shared/crypto.c over the table of its descriptors, where any system
      call may fail; CryptoSpec.v has the formulas of the core specification.

    - Att.v: src/shared/att.c over a store of operations, the io of Io.v, the timers of
      src/shared/timeout-mainloop.c and the world of Crypto.v, with a client that is a
      function from the log to the calls it makes.  The receive buffer is a block at an
      address that bt_att_new and bt_att_set_mtu allocate and free, and received PDUs are
      pointers into it, looked up when a handler gets them.  AttTrace.v is the automaton of
      logs and its relation to the queues ([core]); AttFrame.v has the books of destroy
      functions and blocks ([accounts]) and, by partial correctness, that every function
      keeps them or leaves handlers and buffer alone; AttSpec.v, AttRun.v, AttEvent.v and
      AttDown.v show that each function keeps the relation (calls and cancelling;
      receiving; writing and timers; the end of the link), against the class [Env] of what
      the transport depends on; AttLife.v and AttNew.v compose them (events of the
      descriptor, calls of the program and the last reference; creation) and AttProps.v has
      the theorems on whole sessions.

    - Sdp.v and SdpPdu.v: lib/sdp.c, the elements and records, then their generation and
      extraction, with the outcome [run] that tells undefined behaviour from running out of
      fuel.  SdpSpec.v has the types, the wire format and the counts of elements,
      SdpRecord.v the buffers of records, SdpParse.v what the extraction reads, SdpProps.v
      the theorems, with the class [Comparison] of the orders of the sorted lists.
    - SdpDb.v: src/sdpd-database.c on a store of records; SdpRequest.v: src/sdpd-request.c
      and the requests of src/sdpd-service.c.  SdpServer.v reads requests off their bytes
      and proves the continuation of responses, SdpSelect.v the attributes and SdpSearch.v
      the records that are selected, SdpRepo.v the invariant of the repository and the
      removal of records.
    - SdpAttr.v: the setters and getters of lib/sdp.c and lib/sdp_lib.h, with theorems in
      SdpAttrSpec.v.  SdpService.v: the records of the server itself and the calls of the
      daemon in src/sdpd-service.c, and the sessions of src/sdpd-server.c.  SdpSession.v has
      the invariant of the server and the requests that keep it, SdpLife.v the daemon and
      the step relation over all of them.

    Definitions have the names of the C functions.  Local helpers of the model are the
    loops of a function and steps that several functions share.

    ** What is proved

    - Refinement of an abstract specification: the ring buffer is a bounded queue of bytes
      ([ringbuf_refines_fifo]); the linked entries of a queue are a list, for any sequence
      of operations ([queue_refines_list]); manufacturer and service data are finite maps
      ([ad_data_maps]); the audio gateway and the hands-free unit are machines over received
      lines and sent texts ([hfp_gw_refines_machine], [hfp_hf_refines_machine]), and a
      command that one sends to the other comes back as its result ([hfp_exchange]).  The
      pages with which the SDP server answers a search are those of the list of records
      that satisfy it ([sdp_search_pages]).
    - Round trips: UUIDs as text ([uuid_string_roundtrip]), ATT PDUs ([decode_wire] with
      [encode_wire]), OBEX packets and application parameters ([packet_roundtrip],
      [apparam_roundtrip]), out-of-band and advertising data ([eir_oob_roundtrip],
      [ad_parse_roundtrip]), attribute values and characteristic declarations
      ([gatt_db_attribute_write_read], [gatt_db_add_characteristic_data]), key bytes
      ([ecc_bytes_roundtrip]), arguments of AT commands ([hfp_args_roundtrip]), service
      records and the lists that are set in them ([sdp_record_roundtrip],
      [sdp_attributes_set_get]).  What does not come back is stated with each: OBEX names
      outside the basic multilingual plane, Bluetooth names cut inside a character, numbers
      within 48 of 2^31 and left-out arguments behind a range.
    - A whole session of the ATT transport, for any calls, timers, events and received
      bytes: answers in order and only to what waits, every destroy function of operations,
      handlers and settings and every receive buffer at most once ([att_trace]), and
      nothing left behind when the transport or the link ends ([att_close], [att_hangup]).
    - Safety on arbitrary input: [decode_safe] for ATT, [packet_decode_safe] for OBEX,
      [eir_parse_safe] for extended inquiry data, [sdp_extract_pdu_safe] for service
      records; what is read of those is well typed ([sdp_extract_attr_typed]).
    - The SDP server: which attributes it sends ([sdp_extract_attrs_selects]), the
      continuation of its responses ([sdp_attr_continuation]), and the repository whose
      lists stay consistent when records are removed and clients go
      ([sdp_remove_request], [sdp_collect_all]), and in every state that the daemon and the
      packets of clients reach from the start ([sdp_server_invariant]).
    - Functional correctness of the curve: exact products when no carry is lost, fast
      reduction equal to the remainder, inversion, and the ladder against the addition law
      of the curve ([vli_product_correct] ... [ecc_point_mult_correct]); termination of
      key generation and of every loop.  The functions of the pairing are those of the
      specification on integers ([crypto_pairing_spec], [crypto_sign_att_spec]).
    - Invariants and searches of the attribute database: the services stay sorted and
      disjoint ([gatt_db_insert_service_ordered]), the searches are filters of the
      attributes in order, every pending read is answered exactly once, and so is every AT
      command ([hfp_gw_serves_commands]).
    - Life cycles: of the gateway ([hfp_gw_unref_releases]), of the descriptors of
      crypto.c ([crypto_session_balanced]), and of the queue: nothing leaks and nothing is freed twice
      ([queue_session_balanced]), and which callbacks may change the queue they are called
      from ([queue_foreach_destroy], [queue_foreach_remove],
      [queue_foreach_use_after_free]).
    - Behaviour at the edges, where the code does not do what it seems to mean: the carry
      that vli_mult loses, the draw of make_key that skips the range check, scalars of one
      bit, the Prepare Write Response that its own decoder refuses, one-byte Find
      Information Responses, services that enclose others, databases that were cleared,
      partial listeners, writes behind the end of a value, the application parameter
      without data, the error pointer of the OBEX header decoder, the copy of long names
      in eir.c, names behind 30 bytes of advertising data, the removals of ad.c that
      compare the wrong way ([ad_remove_inverted]), and in hfp.c lines that wrap around the
      ring buffer ([hfp_gw_wrapped_command_drops_rest], [hfp_hf_line_faults]), answers from
      inside a handler ([hfp_gw_answer_in_callback]) and the disconnect handler
      ([hfp_gw_disconnect_faults]), and in att.c the signatures that are never checked
      ([att_signed_command]) and the buffer that is freed under a handler
      ([att_notify_freed]); in lib/sdp.c headers that are read for ever
      ([sdp_extract_attr_loops]), records that do not fit their block
      ([sdp_gen_record_pdu_overflow]) and strings copied with a byte too many
      ([sdp_copy_string_overread]); in the SDP server continuation states behind the
      response, attributes named too often, the removal of its own record, and a record
      that is registered twice ([sdp_register_invalid_handle]).

    ** Undefined behaviour, fuel and bounds

    Accesses outside a block, through NULL or to freed memory, shifts out of range and
    failed assertions are [None], so that a theorem with [Some] on the right says there are
    none.  Loops over data are structural.  The loops that are not have fuel, and running
    out of it is [None] too: [ladder_loop] counts bits down as the code does, [digit_bits] has the
    64 bits of a digit,
    [vli_mmod_fast] has fuel that [vli_mmod_fast_correct] shows to be enough for every
    product, [mod_inv_loop] has 512 rounds ([vli_mod_inv_correct]: each round halves one of
    two 256-bit numbers), [make_key_loop] has the code's own bound MAX_TRIES, the loops
    over the entries of a queue have one more step than the heap has entries when they
    start, and the parsers of gobex and of eir.c have one more than the number of bytes,
    every item taking at least two ([packet_decode_safe], [eir_parse_safe]).  The loop of
    the gateway has fuel [n]; a turn drains a byte of a buffer of 4096, and the theorems
    hold for every [n > 4096].  The scans of an argument have one more step than the text
    has bytes.  In att.c [n] bounds how deep callbacks are nested (a client whose callbacks
    send and cancel needs one level) and the handlers of one opcode, and the theorems hold
    for every [n] above the number of registrations.  Its operations are numbered with 32
    bits; the order of answers is shown as long as fewer than 2^32 - 1 are made ([few]).
    The extraction of elements needs more fuel than there are bytes, except where the code
    does not end either ([sdp_extract_attr_loops]), generation twice the depth of the
    element; [late] is the order, left open by C, in which sdp_gen_buffer reads the size it
    adds to, and the theorems hold for both.  The search for the next handle needs one
    round more than there are records ([sdp_server_invariant]).

    ** What is not modelled

    - Allocation failure is a parameter where the code tests it (malloc0, realloc in
      gatt-db.c) and excluded where it aborts (GLib, new0) and in lib/sdp.c and the SDP
      server, where the functions that test it return before anything changes.
    - What free gives back in lib/sdp.c: elements are trees that own their children.
    - The client sessions of lib/sdp.c, sdp_set_access_protos with several lists, and the
      sockets of the SDP server, whose peers and messages are arguments.
    - Random numbers, timers, file descriptors, vasprintf, the UTF-8 checks and UTF-16
      conversions of GLib and the order of its hash tables are arguments of the definitions
      that use them.
    - The callbacks of the attribute database are recorded as events and do not call the
      database again; those of the queue, of hfp.c and of att.c may;
      the theorems on sessions of att.c are for callbacks that send, cancel and change the
      MTU and destroy functions that call nothing, and for at most one handler of an opcode
      whose handlers change the MTU: a second one would get a pointer to the buffer that
      was freed ([att_notify_freed]).
    - Debug texts and hexdumps.
    - epoll is the order in which events are given to an io; the ciphers of the kernel are
      arguments.
    - att_ecode2str (a table of texts) and att_data_list_free of attrib/att.c.
    - Everything that is mostly I/O or glue: the daemon and its D-Bus interface, the HCI
      and management sockets, main loops, profiles, obexd, mesh, monitor, emulator, tools,
      the Android layer and the C++ examples of the tutorial, whose D-Bus code is
      generated.
    - Not modelled though they have logic of their own: the sessions and transfers of gobex
      over GLib's channels, the GATT client and server over chains of callbacks, and the
      key derivation of mesh/crypto.c. *)
From Stdlib Require Import ZArith Lia.
From stdpp Require Export base numbers list gmap option.

#[export] Set Default Proof Using "Type".
Local Open Scope Z_scope.

(** ** Machine integers: Z with the wrap-around written out *)

Definition u8 (x : Z) : Z := x mod 2 ^ 8.
Definition u16 (x : Z) : Z := x mod 2 ^ 16.
Definition u32 (x : Z) : Z := x mod 2 ^ 32.
Definition u64 (x : Z) : Z := x mod 2 ^ 64.

(** [size_t] is 64 bits wide on the modelled platform. *)
Abbreviation usize := u64.

Definition UINT8_MAX : Z := 255.
Definition UINT16_MAX : Z := 65535.
Definition UINT_MAX : Z := 4294967295.

Definition is_u8 (x : Z) : Prop := 0 <= x < 2 ^ 8.
Definition is_u16 (x : Z) : Prop := 0 <= x < 2 ^ 16.
Definition is_u32 (x : Z) : Prop := 0 <= x < 2 ^ 32.
Definition is_u64 (x : Z) : Prop := 0 <= x < 2 ^ 64.

#[export] Instance is_u8_dec x : Decision (is_u8 x).
Proof. unfold is_u8. apply _. Defined.
#[export] Instance is_u16_dec x : Decision (is_u16 x).
Proof. unfold is_u16. apply _. Defined.
#[export] Instance is_u32_dec x : Decision (is_u32 x).
Proof. unfold is_u32. apply _. Defined.
#[export] Instance is_u64_dec x : Decision (is_u64 x).
Proof. unfold is_u64. apply _. Defined.

Lemma u8_small x : is_u8 x -> u8 x = x.
Proof. apply Z.mod_small. Qed.
Lemma u16_small x : is_u16 x -> u16 x = x.
Proof. apply Z.mod_small. Qed.
Lemma u32_small x : is_u32 x -> u32 x = x.
Proof. apply Z.mod_small. Qed.
Lemma u64_small x : is_u64 x -> u64 x = x.
Proof. apply Z.mod_small. Qed.
Lemma u8_range x : is_u8 (u8 x).
Proof. apply Z.mod_pos_bound; lia. Qed.
Lemma u16_range x : is_u16 (u16 x).
Proof. apply Z.mod_pos_bound; lia. Qed.
Lemma u32_range x : is_u32 (u32 x).
Proof. apply Z.mod_pos_bound; lia. Qed.
Lemma u64_range x : is_u64 (u64 x).
Proof. apply Z.mod_pos_bound; lia. Qed.

Create HintDb words.
#[export] Hint Resolve u8_range u16_range u32_range u64_range : words.

(** Closes goals about wrapped integers that are linear once the wraps are unfolded
    into quotients and remainders. *)
Ltac words_lia :=
  unfold u8, u16, u32, u64, is_u8, is_u16, is_u32, is_u64,
    UINT8_MAX, UINT16_MAX, UINT_MAX in *;
  Z.to_euclidean_division_equations; lia.

(** Case analysis on a boolean comparison of the goal, recorded as a proposition. *)
Tactic Notation "case_eqb" "as" ident(H) :=
  match goal with
  | |- context [?a =? ?b] => destruct (Z.eqb_spec a b) as [H|H]
  | |- context [?a <? ?b] => destruct (Z.ltb_spec a b) as [H|H]
  | |- context [?a <=? ?b] => destruct (Z.leb_spec a b) as [H|H]
  end.
Tactic Notation "case_eqb" := let H := fresh "Hcmp" in case_eqb as H.

(** ** Byte strings *)

Abbreviation bytes := (list Z).
Definition bytes_ok (l : bytes) : Prop := Forall is_u8 l.
#[export] Instance bytes_ok_dec l : Decision (bytes_ok l).
Proof. unfold bytes_ok. apply _. Defined.

Definition zlen {A} (l : list A) : Z := Z.of_nat (length l).

Lemma zlen_nil {A} : zlen (@nil A) = 0.
Proof. reflexivity. Qed.
Lemma zlen_cons {A} (x : A) l : zlen (x :: l) = 1 + zlen l.
Proof. unfold zlen. simpl. lia. Qed.
Lemma zlen_app {A} (l k : list A) : zlen (l ++ k) = zlen l + zlen k.
Proof. unfold zlen. rewrite length_app. lia. Qed.
Lemma zlen_nonneg {A} (l : list A) : 0 <= zlen l.
Proof. unfold zlen. lia. Qed.
Lemma zlen_take {A} (l : list A) n : 0 <= n <= zlen l -> zlen (take (Z.to_nat n) l) = n.
Proof. unfold zlen. intros H. rewrite length_take. lia. Qed.
Lemma zlen_drop {A} (l : list A) n :
  0 <= n <= zlen l -> zlen (drop (Z.to_nat n) l) = zlen l - n.
Proof. unfold zlen. intros H. rewrite length_drop. lia. Qed.

#[export] Hint Resolve zlen_nonneg : words.


(** Little- and big-endian encodings of a word in [n] bytes. *)
Fixpoint le_bytes (n : nat) (x : Z) : bytes :=
  match n with
  | O => []
  | S n' => x mod 256 :: le_bytes n' (x / 256)
  end.

Fixpoint le_val (l : bytes) : Z :=
  match l with
  | [] => 0
  | b :: t => b + 256 * le_val t
  end.

Definition be_bytes (n : nat) (x : Z) : bytes := rev (le_bytes n x).
Definition be_val (l : bytes) : Z := le_val (rev l).

Lemma le_bytes_length n x : length (le_bytes n x) = n.
Proof. revert x. induction n; simpl; auto. Qed.

Lemma be_bytes_length n x : length (be_bytes n x) = n.
Proof. unfold be_bytes. rewrite length_rev. apply le_bytes_length. Qed.

(** Goals about lengths of concatenated byte strings. *)
Ltac len_lia :=
  unfold zlen in *; cbn [length] in *;
  repeat (progress rewrite ?length_app, ?length_take, ?length_drop, ?length_replicate,
    ?le_bytes_length, ?be_bytes_length, ?length_rev in *);
  cbn [length] in *; words_lia.

Lemma le_bytes_ok n x : bytes_ok (le_bytes n x).
Proof.
  revert x. induction n; intros x; simpl; constructor; [|apply IHn].
  unfold is_u8. pose proof (Z.mod_pos_bound x 256). lia.
Qed.

Lemma bytes_ok_rev l : bytes_ok l -> bytes_ok (rev l).
Proof. apply Forall_rev. Qed.

Lemma be_bytes_ok n x : bytes_ok (be_bytes n x).
Proof. apply bytes_ok_rev, le_bytes_ok. Qed.

Lemma le_val_bytes n x : le_val (le_bytes n x) = x mod 256 ^ Z.of_nat n.
Proof.
  revert x. induction n as [|n IH]; intros x.
  - simpl. rewrite Z.mod_1_r. reflexivity.
  - cbn [le_bytes le_val]. rewrite IH, Nat2Z.inj_succ, Z.pow_succ_r by lia.
    rewrite Z.rem_mul_r by lia. reflexivity.
Qed.

Lemma le_val_range l : bytes_ok l -> 0 <= le_val l < 256 ^ zlen l.
Proof.
  unfold bytes_ok. induction 1 as [|b l Hb Hl IH].
  - unfold zlen. simpl. lia.
  - unfold is_u8 in Hb. pose proof (zlen_nonneg l).
    rewrite zlen_cons, Z.pow_add_r, Z.pow_1_r by lia.
    cbn [le_val]. lia.
Qed.

Lemma le_bytes_val l : bytes_ok l -> le_bytes (length l) (le_val l) = l.
Proof.
  unfold bytes_ok. induction 1 as [|b l Hb Hl IH]; [reflexivity|].
  unfold is_u8 in Hb. cbn [length le_bytes le_val]. f_equal; [words_lia|].
  replace ((b + 256 * le_val l) / 256) with (le_val l) by words_lia. exact IH.
Qed.

Lemma be_val_bytes n x : be_val (be_bytes n x) = x mod 256 ^ Z.of_nat n.
Proof. unfold be_val, be_bytes. rewrite rev_involutive. apply le_val_bytes. Qed.

Lemma be_bytes_val l : bytes_ok l -> be_bytes (length l) (be_val l) = l.
Proof.
  intros Hl. unfold be_bytes, be_val.
  rewrite <- (length_rev l), le_bytes_val by auto using bytes_ok_rev.
  apply rev_involutive.
Qed.

Lemma be_val_range l : bytes_ok l -> 0 <= be_val l < 256 ^ zlen l.
Proof.
  intros Hl. unfold be_val. pose proof (le_val_range (rev l) (bytes_ok_rev l Hl)) as H.
  unfold zlen in *. rewrite length_rev in H. exact H.
Qed.

(** ** C objects as buffers

    A block of memory is the list of its bytes.  An access outside it is undefined
    behaviour, which is [None] in the option monad: [ld] reads [n] bytes at an offset and
    [st] overwrites the bytes at an offset. *)

Abbreviation ub A := (option A).

Definition ld (b : bytes) (off n : Z) : ub bytes :=
  if decide (0 <= off /\ 0 <= n /\ off + n <= zlen b)
  then Some (take (Z.to_nat n) (drop (Z.to_nat off) b)) else None.

Definition st (b : bytes) (off : Z) (l : bytes) : ub bytes :=
  if decide (0 <= off /\ off + zlen l <= zlen b)
  then Some (take (Z.to_nat off) b ++ l ++ drop (Z.to_nat (off + zlen l)) b) else None.

Lemma st_length b off l b' : st b off l = Some b' -> length b' = length b.
Proof.
  unfold st. intros H. case_decide as Hd; simplify_eq.
  destruct Hd as [H1 H2]. unfold zlen in *.
  rewrite !length_app, length_take, length_drop. lia.
Qed.

(** Writing right behind an already written prefix [pre]. *)
Lemma st_pre pre b l off :
  off = zlen pre -> zlen pre + zlen l <= zlen b ->
  st (pre ++ drop (length pre) b) off l
    = Some ((pre ++ l) ++ drop (length (pre ++ l)) b).
Proof.
  intros -> Hlen. unfold st, zlen in *.
  rewrite decide_True by (rewrite length_app, length_drop; lia).
  rewrite Nat2Z.id, take_app_length. rewrite <- app_assoc. do 3 f_equal.
  rewrite drop_app_ge by lia. rewrite drop_drop, length_app. f_equal. lia.
Qed.

Lemma st_0 b l :
  zlen l <= zlen b -> st b 0 l = Some (l ++ drop (length l) b).
Proof. intros H. apply (st_pre [] b l 0); [reflexivity|]. rewrite zlen_nil. lia. Qed.

(** Reading a field [l] that follows a prefix. *)
Lemma ld_mid pre l post off n :
  off = zlen pre -> n = zlen l -> ld (pre ++ l ++ post) off n = Some l.
Proof.
  intros -> ->. unfold ld. pose proof (zlen_nonneg pre). pose proof (zlen_nonneg l).
  rewrite decide_True by (rewrite !zlen_app; pose proof (zlen_nonneg post); lia).
  unfold zlen. rewrite !Nat2Z.id, drop_app_length, take_app_length. reflexivity.
Qed.

Lemma ld_all l n : n = zlen l -> ld l 0 n = Some l.
Proof. intros ->. rewrite <- (app_nil_r l) at 1. by apply (ld_mid [] l []). Qed.

Lemma ld_length b off n l : ld b off n = Some l -> zlen l = n.
Proof.
  unfold ld, zlen. intros H. case_decide; simplify_eq.
  rewrite length_take, length_drop. lia.
Qed.

(** The multi-byte accessors of src/shared/util.h and lib/bluetooth.h, on a little-endian
    host. *)
Definition get_u8 (b : bytes) (off : Z) : ub Z := le_val <$> ld b off 1.
Definition get_le16 (b : bytes) (off : Z) : ub Z := le_val <$> ld b off 2.
Definition get_le32 (b : bytes) (off : Z) : ub Z := le_val <$> ld b off 4.
Definition get_be16 (b : bytes) (off : Z) : ub Z := be_val <$> ld b off 2.
Definition get_be32 (b : bytes) (off : Z) : ub Z := be_val <$> ld b off 4.
Definition put_u8 (v : Z) (b : bytes) (off : Z) : ub bytes := st b off [u8 v].
Definition put_le16 (v : Z) (b : bytes) (off : Z) : ub bytes := st b off (le_bytes 2 v).
Definition put_be16 (v : Z) (b : bytes) (off : Z) : ub bytes := st b off (be_bytes 2 v).
Definition put_le32 (v : Z) (b : bytes) (off : Z) : ub bytes := st b off (le_bytes 4 v).
Definition put_be32 (v : Z) (b : bytes) (off : Z) : ub bytes := st b off (be_bytes 4 v).

(** ** Generic list lemmas *)

(** The string in a buffer: up to the first null byte. *)
Fixpoint until_null (l : bytes) : bytes :=
  match l with
  | [] => []
  | x :: l => if x =? 0 then [] else x :: until_null l
  end.

Lemma until_null_string s n :
  Forall (fun c => c <> 0) s -> until_null (s ++ 0 :: n) = s.
Proof.
  induction 1 as [|c s Hc Hs IH]; [done|]. cbn. rewrite (proj2 (Z.eqb_neq c 0)) by done.
  by rewrite IH.
Qed.

Lemma until_null_full s : Forall (fun c => c <> 0) s -> until_null s = s.
Proof.
  induction 1 as [|c s Hc Hs IH]; [done|]. cbn. rewrite (proj2 (Z.eqb_neq c 0)) by done.
  by rewrite IH.
Qed.

Lemma lookup_range {A} (f : nat -> A) (n i : nat) :
  (i < n)%nat -> (f <$> seq 0 n) !! i = Some (f i).
Proof.
  intros Hi. rewrite list_lookup_fmap, lookup_seq_lt by done. reflexivity.
Qed.

Lemma nth_fmap_seq (f : nat -> Z) n i d :
  (i < n)%nat -> nth i (f <$> seq 0 n) d = f i.
Proof.
  intros Hi. apply nth_lookup_Some, lookup_range, Hi.
Qed.

(** Two byte strings of the same length with the same bytes are equal. *)
Lemma bytes_ext (l k : bytes) :
  length l = length k ->
  (forall i, (i < length l)%nat -> nth i l 0 = nth i k 0) -> l = k.
Proof. intros Hlen H. eapply nth_ext; [done|]. intros n Hn. apply H, Hn. Qed.

Lemma nth_drop_eq (l : bytes) n i : nth i (drop n l) 0 = nth (n + i) l 0.
Proof.
  revert l. induction n as [|n IH]; intros [|x l]; simpl; try done.
  by destruct i.
Qed.

Lemma nth_take_eq (l : bytes) n i : (i < n)%nat -> nth i (take n l) 0 = nth i l 0.
Proof.
  revert l i. induction n as [|n IH]; intros [|x l] [|i] Hi; simpl; try done; try lia.
  apply IH. lia.
Qed.

(** A byte of the block after a store. *)
Lemma st_nth b off l b' j :
  st b off l = Some b' ->
  nth j b' 0 = if decide (off <= Z.of_nat j < off + zlen l)
               then nth (Z.to_nat (Z.of_nat j - off)) l 0 else nth j b 0.
Proof.
  unfold st. intros H. case_decide as Hd; simplify_eq. destruct Hd as [H1 H2].
  unfold zlen in *. set (o := Z.to_nat off).
  assert (length (take o b) = o) as Ho by (rewrite length_take; lia).
  case_decide as Hj.
  - rewrite app_nth2 by lia. rewrite app_nth1 by lia. f_equal. lia.
  - destruct (decide (j < o)%nat).
    + rewrite app_nth1 by lia. apply nth_take_eq. done.
    + rewrite app_nth2 by lia. rewrite app_nth2 by lia.
      rewrite nth_drop_eq. f_equal. lia.
Qed.

Lemma ld_nth b off n l i :
  ld b off n = Some l -> (Z.of_nat i < n) -> nth i l 0 = nth (Z.to_nat off + i) b 0.
Proof.
  unfold ld. intros H Hi. case_decide; simplify_eq.
  rewrite nth_take_eq by lia. apply nth_drop_eq.
Qed.

Lemma ld_is_Some b off n : 0 <= off -> 0 <= n -> off + n <= zlen b ->
  ld b off n = Some (take (Z.to_nat n) (drop (Z.to_nat off) b)).
Proof. intros. unfold ld. by rewrite decide_True. Qed.

Lemma st_is_Some b off l : 0 <= off -> off + zlen l <= zlen b -> is_Some (st b off l).
Proof. intros. unfold st. rewrite decide_True by done. eauto. Qed.

Lemma land_mask x k : 0 <= k -> Z.land x (2 ^ k - 1) = x mod 2 ^ k.
Proof.
  intros Hk. rewrite <- Z.land_ones by done. f_equal.
  rewrite Z.ones_equiv. lia.
Qed.

Lemma lor_add a b n : 0 <= n -> 0 <= a < 2 ^ n -> Z.lor a (b * 2 ^ n) = a + b * 2 ^ n.
Proof.
  intros Hn Ha.
  assert (Z.land a (b * 2 ^ n) = 0) as Hland.
  { apply Z.bits_inj'. intros i Hi. rewrite Z.land_spec, Z.bits_0.
    destruct (Z.ltb_spec i n).
    - rewrite Z.mul_pow2_bits_low by lia. apply andb_false_r.
    - rewrite <- (Z.mod_small a (2 ^ n)) by lia. rewrite Z.mod_pow2_bits_high by lia. done. }
  rewrite Z.add_nocarry_lxor, Z.lxor_lor; done.
Qed.

Lemma le16_val a : is_u16 a -> le_val (le_bytes 2 a) = a.
Proof. intros Ha. rewrite le_val_bytes. apply Z.mod_small. unfold is_u16 in Ha. lia. Qed.

(** Bodies that write field after field: each store extends the written prefix. *)
Ltac store_step :=
  unfold put_u8, put_le16, put_be16, put_be32, put_le32;
  first [ rewrite st_0 by len_lia | rewrite st_pre by len_lia ];
  cbn [mbind option_bind].
