(* ===== verification/Blocks.v ===== *)
(** Reasoning about blocks of bytes: fields in the middle of a block, blocks written from
    the start, and accesses that are defined. *)
From Stdlib Require Import ZArith Lia.
From S2P Require Import Prelude.
From stdpp Require Import base numbers list option.

Local Open Scope Z_scope.

(** ** Fields in the middle of a block *)

Lemma get_u8_mid pre x post off : off = zlen pre -> get_u8 (pre ++ [x] ++ post) off = Some x.
Proof. intros ->. unfold get_u8. rewrite (ld_mid pre [x] post) by done. cbn. f_equal. lia. Qed.

Lemma get_u8_head x post : get_u8 ([x] ++ post) 0 = Some x.
Proof. by apply (get_u8_mid [] x). Qed.

Lemma get_be16_mid pre x post off :
  is_u16 x -> off = zlen pre -> get_be16 (pre ++ be_bytes 2 x ++ post) off = Some x.
Proof.
  intros Hx ->. unfold get_be16. rewrite (ld_mid pre (be_bytes 2 x) post) by len_lia.
  cbn [fmap option_fmap option_map]. rewrite be_val_bytes. f_equal. apply Z.mod_small. exact Hx.
Qed.

Lemma get_be32_mid pre x post off :
  is_u32 x -> off = zlen pre -> get_be32 (pre ++ be_bytes 4 x ++ post) off = Some x.
Proof.
  intros Hx ->. unfold get_be32. rewrite (ld_mid pre (be_bytes 4 x) post) by len_lia.
  cbn [fmap option_fmap option_map]. rewrite be_val_bytes. f_equal. apply Z.mod_small. exact Hx.
Qed.

Lemma get_le16_mid pre x post off :
  is_u16 x -> off = zlen pre -> get_le16 (pre ++ le_bytes 2 x ++ post) off = Some x.
Proof.
  intros Hx ->. unfold get_le16. rewrite (ld_mid pre (le_bytes 2 x) post) by len_lia.
  cbn [fmap option_fmap option_map]. rewrite le_val_bytes. f_equal. apply Z.mod_small. exact Hx.
Qed.

Lemma get_le32_mid pre x post off :
  is_u32 x -> off = zlen pre -> get_le32 (pre ++ le_bytes 4 x ++ post) off = Some x.
Proof.
  intros Hx ->. unfold get_le32. rewrite (ld_mid pre (le_bytes 4 x) post) by len_lia.
  cbn [fmap option_fmap option_map]. rewrite le_val_bytes. f_equal. apply Z.mod_small. exact Hx.
Qed.

Lemma ld_end pre d off n : off = zlen pre -> n = zlen d -> ld (pre ++ d) off n = Some d.
Proof. intros. rewrite <- (app_nil_r d) at 1. by apply ld_mid. Qed.

Lemma ld_start d post n : n = zlen d -> ld (d ++ post) 0 n = Some d.
Proof. by apply (ld_mid [] d post). Qed.

Lemma get_le16_head x post : is_u16 x -> get_le16 (le_bytes 2 x ++ post) 0 = Some x.
Proof. intros. by apply (get_le16_mid [] x). Qed.

Lemma get_le32_head x post : is_u32 x -> get_le32 (le_bytes 4 x ++ post) 0 = Some x.
Proof. intros. by apply (get_le32_mid [] x). Qed.

(** ** Blocks written from the start *)

(** [b] with [pre] written over its start. *)
Definition over (pre b : bytes) : bytes := pre ++ drop (length pre) b.

Lemma over_length pre b : zlen pre <= zlen b -> zlen (over pre b) = zlen b.
Proof. intros. unfold over. rewrite zlen_app. unfold zlen in *. rewrite length_drop. lia. Qed.

Lemma st_over pre b l off :
  off = zlen pre -> zlen pre + zlen l <= zlen b -> st (over pre b) off l = Some (over (pre ++ l) b).
Proof. apply st_pre. Qed.

Lemma put_be16_over x pre b off :
  off = zlen pre -> zlen pre + 2 <= zlen b ->
  put_be16 x (over pre b) off = Some (over (pre ++ be_bytes 2 x) b).
Proof. intros. unfold put_be16. apply st_over; len_lia. Qed.

(** A store over a field in the middle. *)
Lemma st_mid a b c l off :
  off = zlen a -> zlen l = zlen b -> st (a ++ b ++ c) off l = Some (a ++ l ++ c).
Proof.
  intros -> Hl. unfold st. rewrite decide_True by len_lia.
  unfold zlen in *. rewrite Nat2Z.id, take_app_length.
  replace (Z.to_nat (Z.of_nat (length a) + Z.of_nat (length l))) with (length a + length b)%nat
    by lia.
  rewrite drop_app_ge by lia. do 4 f_equal. rewrite drop_app_ge by lia.
  replace (length a + length b - length a - length b)%nat with 0%nat by lia. done.
Qed.

Lemma st_head b c l : zlen l = zlen b -> st (b ++ c) 0 l = Some (l ++ c).
Proof. intros. by apply (st_mid [] b c). Qed.

(** ** Accesses that are defined *)

Lemma ld_total b off n :
  bytes_ok b -> 0 <= off -> 0 <= n -> off + n <= zlen b ->
  exists l, ld b off n = Some l /\ bytes_ok l /\ zlen l = n.
Proof.
  intros Hb Ho Hn Hl. pose proof (ld_is_Some b off n Ho Hn Hl) as H.
  eexists; split_and!; [done| |by eapply ld_length].
  by apply Forall_take, Forall_drop.
Qed.

Lemma get_u8_ok b off :
  bytes_ok b -> 0 <= off -> off + 1 <= zlen b -> exists x, get_u8 b off = Some x /\ is_u8 x.
Proof.
  intros Hb Ho Hn. destruct (ld_total b off 1 Hb Ho ltac:(lia) Hn) as (l & Hl & Hl2 & Hl3).
  unfold get_u8. rewrite Hl. eexists; split; [done|].
  apply le_val_range in Hl2. by rewrite Hl3 in Hl2.
Qed.

Lemma get_be16_ok b off :
  bytes_ok b -> 0 <= off -> off + 2 <= zlen b -> exists x, get_be16 b off = Some x /\ is_u16 x.
Proof.
  intros Hb Ho Hn. destruct (ld_total b off 2 Hb Ho ltac:(lia) Hn) as (l & Hl & Hl2 & Hl3).
  unfold get_be16. rewrite Hl. eexists; split; [done|].
  apply be_val_range in Hl2. by rewrite Hl3 in Hl2.
Qed.

Lemma get_be32_ok b off :
  0 <= off -> off + 4 <= zlen b -> exists x, get_be32 b off = Some x.
Proof. intros Ho Hn. unfold get_be32. rewrite ld_is_Some by lia. by eexists. Qed.

Lemma get_le16_ok b off :
  bytes_ok b -> 0 <= off -> off + 2 <= zlen b -> exists x, get_le16 b off = Some x /\ is_u16 x.
Proof.
  intros Hb Ho Hn. destruct (ld_total b off 2 Hb Ho ltac:(lia) Hn) as (l & Hl & Hl2 & Hl3).
  unfold get_le16. rewrite Hl. eexists; split; [done|].
  apply le_val_range in Hl2. by rewrite Hl3 in Hl2.
Qed.

Lemma get_le32_ok b off :
  bytes_ok b -> 0 <= off -> off + 4 <= zlen b -> exists x, get_le32 b off = Some x /\ is_u32 x.
Proof.
  intros Hb Ho Hn. destruct (ld_total b off 4 Hb Ho ltac:(lia) Hn) as (l & Hl & Hl2 & Hl3).
  unfold get_le32. rewrite Hl. eexists; split; [done|].
  apply le_val_range in Hl2. by rewrite Hl3 in Hl2.
Qed.

