(* ===== verification/Ringbuf.v ===== *)
(** The ring buffer of src/shared/ringbuf.c: a power-of-two block of memory with two
    free-running [size_t] cursors.  The external calls (malloc, writev, readv,
    vasprintf) are arguments; the tracing callback is the list of the byte runs it is
    called with. *)
From Stdlib Require Import ZArith Lia.
From stdpp Require Import base numbers list option.
From S2P Require Import Prelude.

Local Open Scope Z_scope.

Module Ringbuf.

(** *** Data *)

Record ringbuf := mk_ringbuf {
  buffer : bytes;
  size : Z;
  in_ : Z;
  out : Z;
  in_tracing : option nat;
}.

Definition RINGBUF_RESET : Z := 0.

(** A call of the tracing callback: which callback, and the bytes it is shown. *)
Definition trace := list (nat * bytes).

Definition set_in_out (rb : ringbuf) (i o : Z) : ringbuf :=
  mk_ringbuf (buffer rb) (size rb) i o (in_tracing rb).

(** *** Operations *)

(** Most significant set bit; [__builtin_clz] of a nonzero 32-bit word is [31 - log2]. *)
Definition fls (x : Z) : Z :=
  if negb (x =? 0) then 4 * 8 - (31 - Z.log2 x) else 0.

(** [1 << fls(u - 1)] on [int]: the shift is undefined from 31 on. *)
Definition align_power2 (u : Z) : ub Z :=
  let s := fls (u32 (u - 1)) in
  if s <? 31 then Some (Z.shiftl 1 s) else None.

Definition ringbuf_new (malloc : Z -> option bytes) (sz : Z) : ub (option ringbuf) :=
  if (sz <? 2) || (UINT_MAX <? sz) then Some None
  else
    real_size ← align_power2 (u32 sz);
    match malloc real_size with
    | None => Some None
    | Some b => Some (Some (mk_ringbuf b real_size RINGBUF_RESET RINGBUF_RESET None))
    end.

Definition ringbuf_set_input_tracing (r : option ringbuf) (callback : option nat)
    : bool * option ringbuf :=
  match r with
  | None => (false, None)
  | Some rb => (true, Some (mk_ringbuf (buffer rb) (size rb) (in_ rb) (out rb) callback))
  end.

Definition ringbuf_capacity (r : option ringbuf) : Z :=
  match r with None => 0 | Some rb => size rb end.

Definition ringbuf_len (r : option ringbuf) : Z :=
  match r with None => 0 | Some rb => usize (in_ rb - out rb) end.

Definition ringbuf_avail (r : option ringbuf) : Z :=
  match r with None => 0 | Some rb => usize (usize (size rb - in_ rb) + out rb) end.

(** The common tail of drain and write: advance [out], and reset an emptied buffer. *)
Definition advance_out (rb : ringbuf) (n : Z) : ringbuf :=
  let out' := usize (out rb + n) in
  if out' =? in_ rb then set_in_out rb RINGBUF_RESET RINGBUF_RESET
  else set_in_out rb (in_ rb) out'.

Definition ringbuf_drain (r : option ringbuf) (count : Z) : Z * option ringbuf :=
  match r with
  | None => (0, None)
  | Some rb =>
      let len := Z.min count (usize (in_ rb - out rb)) in
      if len =? 0 then (0, r) else (len, Some (advance_out rb len))
  end.

(** The offset of the returned pointer in the buffer, and [*len_nowrap]. *)
Definition ringbuf_peek (r : option ringbuf) (offset : Z) : option (Z * Z) :=
  match r with
  | None => None
  | Some rb =>
      let offset := Z.land (usize (out rb + offset)) (usize (size rb - 1)) in
      let len := usize (in_ rb - out rb) in
      Some (offset, Z.min len (usize (size rb - offset)))
  end.

Definition ringbuf_write (writev : Z -> list bytes -> Z) (r : option ringbuf) (fd : Z)
    : ub (Z * option ringbuf) :=
  match r with
  | None => Some (-1, r)
  | Some rb =>
      if fd <? 0 then Some (-1, r) else
      let len := usize (in_ rb - out rb) in
      if len =? 0 then Some (0, r) else
      let offset := Z.land (out rb) (usize (size rb - 1)) in
      let end_ := Z.min len (usize (size rb - offset)) in
      iov0 ← ld (buffer rb) offset end_;
      iov1 ← ld (buffer rb) 0 (usize (len - end_));
      let consumed := writev fd [iov0; iov1] in
      if consumed <? 0 then Some (-1, r)
      else Some (consumed, Some (advance_out rb consumed))
  end.

(** One tracing call, when a callback is set. *)
Definition trace_call (rb : ringbuf) (b : bytes) : trace :=
  match in_tracing rb with None => [] | Some f => [(f, b)] end.

Definition ringbuf_vprintf {F} (vasprintf : F -> option bytes) (r : option ringbuf)
    (format : option F) : ub (Z * option ringbuf * trace) :=
  match r, format with
  | Some rb, Some fmt =>
      let avail := usize (usize (size rb - in_ rb) + out rb) in
      if avail =? 0 then Some (-1, r, []) else
      match vasprintf fmt with
      | None => Some (-1, r, [])
      | Some str =>
          let len := zlen str in
          if avail <? len then Some (-1, r, []) else
          let offset := Z.land (in_ rb) (usize (size rb - 1)) in
          let end_ := Z.min len (usize (size rb - offset)) in
          run0 ← ld str 0 end_;
          b ← st (buffer rb) offset run0;
          let t0 := trace_call rb run0 in
          '(b, t1) ← (if 0 <? usize (len - end_) then
                        run1 ← ld str end_ (usize (len - end_));
                        b ← st b 0 run1;
                        Some (b, trace_call rb run1)
                      else Some (b, []));
          Some (len, Some (mk_ringbuf b (size rb) (usize (in_ rb + len)) (out rb)
                                      (in_tracing rb)), t0 ++ t1)
      end
  | _, _ => Some (-1, r, [])
  end.

(** [readv fd lens] is the data read ([None] for a failed call): it fills the first
    vector, then the second. *)
Definition ringbuf_read (readv : Z -> list Z -> option bytes) (r : option ringbuf) (fd : Z)
    : ub (Z * option ringbuf * trace) :=
  match r with
  | None => Some (-1, r, [])
  | Some rb =>
      if fd <? 0 then Some (-1, r, []) else
      let avail := usize (usize (size rb - in_ rb) + out rb) in
      if avail =? 0 then Some (-1, r, []) else
      let offset := Z.land (in_ rb) (usize (size rb - 1)) in
      let end_ := Z.min avail (usize (size rb - offset)) in
      match readv fd [end_; usize (avail - end_)] with
      | None => Some (-1, r, [])
      | Some data =>
          let consumed := zlen data in
          let len := Z.min consumed end_ in
          run0 ← ld data 0 len;
          run1 ← ld data len (usize (consumed - len));
          b ← st (buffer rb) offset run0;
          b ← st b 0 run1;
          let t0 := trace_call rb run0 in
          let t1 := if 0 <? usize (consumed - len) then trace_call rb run1 else [] in
          Some (consumed, Some (mk_ringbuf b (size rb) (usize (in_ rb + consumed)) (out rb)
                                           (in_tracing rb)), t0 ++ t1)
      end
  end.

(** *** The abstract view: a bounded queue of bytes *)

(** [m] bytes of the circular block [b], starting at cursor [p]. *)
Definition window (b : bytes) (p : Z) (m : nat) : bytes :=
  (fun i : nat => nth (Z.to_nat ((p + Z.of_nat i) mod zlen b)) b 0) <$> seq 0 m.

Definition contents (rb : ringbuf) : bytes :=
  window (buffer rb) (out rb) (Z.to_nat (usize (in_ rb - out rb))).

Definition inv (rb : ringbuf) : Prop :=
  exists k, 1 <= k <= 32 /\ size rb = 2 ^ k /\ zlen (buffer rb) = size rb /\
    is_u64 (in_ rb) /\ is_u64 (out rb) /\ usize (in_ rb - out rb) <= size rb.

(** The specification: a queue of at most [cap] bytes, and the calls of a client.
    The kernel only sees a byte stream: [writev] is a function of the concatenated vectors
    and [readv] of their total length. *)
Inductive op :=
| Drain (count : Z)
| Write (fd : Z) (kernel : bytes -> Z)
| Printf (formatted : option bytes)
| Read (fd : Z) (kernel : Z -> option bytes).

Definition op_ok (o : op) : Prop :=
  match o with
  | Drain c => 0 <= c
  | Write _ k => forall q, k q <= zlen q
  | Printf (Some s) => zlen s < 2 ^ 31
  | Printf None => True
  | Read _ k => forall a d, 0 <= a -> k a = Some d -> zlen d <= a
  end.

(** Result, new queue, and the bytes that went in. *)
Definition spec_step (cap : Z) (q : bytes) (o : op) : Z * bytes * bytes :=
  match o with
  | Drain c => let n := Z.min c (zlen q) in (n, drop (Z.to_nat n) q, [])
  | Write fd k =>
      if fd <? 0 then (-1, q, [])
      else if bool_decide (q = []) then (0, q, [])
      else let n := k q in
           if n <? 0 then (-1, q, []) else (n, drop (Z.to_nat n) q, [])
  | Printf f =>
      match f with
      | Some s => if (cap =? zlen q) || (cap - zlen q <? zlen s) then (-1, q, [])
                  else (zlen s, q ++ s, s)
      | None => (-1, q, [])
      end
  | Read fd k =>
      if fd <? 0 then (-1, q, [])
      else if cap =? zlen q then (-1, q, [])
      else match k (cap - zlen q) with
           | None => (-1, q, [])
           | Some d => (zlen d, q ++ d, d)
           end
  end.

Definition step (r : option ringbuf) (o : op) : ub (Z * option ringbuf * trace) :=
  match o with
  | Drain c => let '(n, r') := ringbuf_drain r c in Some (n, r', [])
  | Write fd k =>
      '(n, r') ← ringbuf_write (fun _ iov => k (concat iov)) r fd; Some (n, r', [])
  | Printf f => ringbuf_vprintf (fun f => f) r (Some f)
  | Read fd k => ringbuf_read (fun _ lens => k (foldr Z.add 0 lens)) r fd
  end.

Fixpoint spec_run (cap : Z) (q : bytes) (os : list op) : list Z * bytes :=
  match os with
  | [] => ([], q)
  | o :: os' =>
      let '(n, q', _) := spec_step cap q o in
      let '(ns, q'') := spec_run cap q' os' in (n :: ns, q'')
  end.

Fixpoint run (r : option ringbuf) (os : list op) : ub (list Z * option ringbuf) :=
  match os with
  | [] => Some ([], r)
  | o :: os' =>
      '(n, r', _) ← step r o;
      '(ns, r'') ← run r' os';
      Some (n :: ns, r'')
  end.

(** *** Windows of the circular block *)

Lemma window_length b p m : length (window b p m) = m.
Proof. unfold window. by rewrite length_fmap, length_seq. Qed.

Lemma window_nth b p m i : (i < m)%nat ->
  nth i (window b p m) 0 = nth (Z.to_nat ((p + Z.of_nat i) mod zlen b)) b 0.
Proof. intros Hi. unfold window. by rewrite nth_fmap_seq. Qed.

Lemma window_app b p m1 m2 :
  window b p (m1 + m2) = window b p m1 ++ window b (p + Z.of_nat m1) m2.
Proof.
  apply bytes_ext; [by rewrite length_app, !window_length|].
  rewrite window_length. intros i Hi. rewrite window_nth by done.
  destruct (decide (i < m1)%nat).
  - rewrite app_nth1 by (rewrite window_length; lia). by rewrite window_nth.
  - rewrite app_nth2 by (rewrite window_length; lia). rewrite window_length.
    rewrite window_nth by lia. do 3 f_equal. lia.
Qed.

Lemma window_drop b p m c : (c <= m)%nat ->
  drop c (window b p m) = window b (p + Z.of_nat c) (m - c).
Proof.
  intros Hc. replace m with (c + (m - c))%nat at 1 by lia.
  rewrite window_app, drop_app_ge by (rewrite window_length; lia).
  by rewrite window_length, Nat.sub_diag.
Qed.

Lemma window_mod b p q m : p mod zlen b = q mod zlen b -> window b p m = window b q m.
Proof.
  intros Hpq. apply bytes_ext; [by rewrite !window_length|].
  rewrite window_length. intros i Hi. rewrite !window_nth by done.
  rewrite <- (Zplus_mod_idemp_l p), Hpq, Zplus_mod_idemp_l. done.
Qed.

(** A window that does not wrap is a slice of the block. *)
Lemma window_linear b p m : 0 < zlen b ->
  p mod zlen b + Z.of_nat m <= zlen b ->
  window b p m = take m (drop (Z.to_nat (p mod zlen b)) b).
Proof.
  intros Hb Hm. pose proof (Z.mod_pos_bound p (zlen b) Hb) as Hp.
  apply bytes_ext.
  { rewrite window_length, length_take, length_drop. unfold zlen in *. lia. }
  rewrite window_length. intros i Hi. rewrite window_nth by done.
  rewrite nth_take_eq, nth_drop_eq by done. f_equal.
  rewrite <- Zplus_mod_idemp_l, Z.mod_small by lia. lia.
Qed.

(** The two copies of a wrapped write, byte by byte. *)
Lemma circular_store_nth b b1 b2 p l e j :
  0 < zlen b -> zlen l <= zlen b ->
  e = Z.min (zlen l) (zlen b - p mod zlen b) ->
  st b (p mod zlen b) (take (Z.to_nat e) l) = Some b1 ->
  st b1 0 (drop (Z.to_nat e) l) = Some b2 ->
  (j < length b)%nat ->
  nth j b2 0 = if decide ((Z.of_nat j - p) mod zlen b < zlen l)
               then nth (Z.to_nat ((Z.of_nat j - p) mod zlen b)) l 0 else nth j b 0.
Proof.
  intros Hb Hl He H1 H2 Hj.
  pose proof (Z.mod_pos_bound p (zlen b) Hb) as Hp.
  assert (p = zlen b * (p / zlen b) + p mod zlen b) as Hdiv by (apply Z.div_mod; lia).
  assert (Z.of_nat j < zlen b) as Hjn by (unfold zlen; lia).
  set (n := zlen b) in *. set (o := p mod n) in *. set (q := p / n) in *.
  clearbody o q.
  assert ((Z.of_nat j - p) mod n = if decide (o <= Z.of_nat j) then Z.of_nat j - o
                                   else Z.of_nat j - o + n) as ->.
  { case_decide; symmetry.
    - apply Z.mod_unique_pos with (- q); lia.
    - apply Z.mod_unique_pos with (- q - 1); lia. }
  rewrite (st_nth _ _ _ _ j H2), (st_nth _ _ _ _ j H1).
  assert (zlen (drop (Z.to_nat e) l) = zlen l - e) as -> by (apply zlen_drop; len_lia).
  assert (zlen (take (Z.to_nat e) l) = e) as -> by (apply zlen_take; len_lia).
  unfold n, zlen in *.
  repeat case_decide; try lia; rewrite ?nth_drop_eq; try done.
  - f_equal. lia.
  - rewrite nth_take_eq by lia. done.
Qed.

(** Storing behind a window of [m] bytes appends to the window. *)
Lemma circular_append b p q l m :
  0 < zlen b -> Z.of_nat m + zlen l <= zlen b ->
  q mod zlen b = (p + Z.of_nat m) mod zlen b ->
  let e := Z.min (zlen l) (zlen b - q mod zlen b) in
  exists b1 b2,
    st b (q mod zlen b) (take (Z.to_nat e) l) = Some b1 /\
    st b1 0 (drop (Z.to_nat e) l) = Some b2 /\ zlen b2 = zlen b /\
    window b2 p (m + length l) = window b p m ++ l.
Proof.
  intros Hb Hlen Hq e.
  pose proof (Z.mod_pos_bound q (zlen b) Hb) as Hqb. pose proof (zlen_nonneg l).
  assert (zlen (take (Z.to_nat e) l) = e) as He1 by (apply zlen_take; lia).
  assert (zlen (drop (Z.to_nat e) l) = zlen l - e) as He2 by (apply zlen_drop; lia).
  destruct (st_is_Some b (q mod zlen b) (take (Z.to_nat e) l)) as [b1 Hb1]; [lia..|].
  pose proof (st_length _ _ _ _ Hb1) as Hl1.
  destruct (st_is_Some b1 0 (drop (Z.to_nat e) l)) as [b2 Hb2]; [lia|unfold zlen in *; lia|].
  pose proof (st_length _ _ _ _ Hb2) as Hl2.
  assert (zlen b2 = zlen b) as Hzl by (unfold zlen; congruence).
  exists b1, b2. split_and!; try done.
  apply bytes_ext; [rewrite length_app, !window_length; done|].
  rewrite window_length. intros i Hi. rewrite window_nth, Hzl by done.
  pose proof (Z.mod_pos_bound (p + Z.of_nat i) (zlen b) Hb) as Hpb.
  erewrite (circular_store_nth b b1 b2 q l e) by (eauto; unfold zlen in *; lia).
  rewrite Z2Nat.id by lia.
  assert (((p + Z.of_nat i) mod zlen b - q) mod zlen b
          = (Z.of_nat i - Z.of_nat m) mod zlen b) as ->.
  { rewrite Zminus_mod_idemp_l, <- Zminus_mod_idemp_r, Hq, Zminus_mod_idemp_r. f_equal. lia. }
  destruct (decide (i < m)%nat) as [Him|Him].
  - rewrite app_nth1 by (rewrite window_length; lia). rewrite window_nth by done.
    replace ((Z.of_nat i - Z.of_nat m) mod zlen b)
      with (Z.of_nat i - Z.of_nat m + zlen b); [case_decide; [lia|done]|].
    apply Z.mod_unique_pos with (-1); lia.
  - rewrite app_nth2 by (rewrite window_length; lia). rewrite window_length.
    unfold zlen in *. rewrite Z.mod_small by lia. rewrite decide_True by lia.
    f_equal. lia.
Qed.

(** The two vectors a wrapped read is made of. *)
Lemma circular_slices b p m :
  0 < zlen b -> Z.of_nat m <= zlen b ->
  let e := Z.min (Z.of_nat m) (zlen b - p mod zlen b) in
  exists s0 s1, ld b (p mod zlen b) e = Some s0 /\ ld b 0 (Z.of_nat m - e) = Some s1 /\
    s0 ++ s1 = window b p m.
Proof.
  intros Hb Hm e. pose proof (Z.mod_pos_bound p (zlen b) Hb) as Hpb.
  rewrite !ld_is_Some by lia. eexists _, _. split_and!; [done..|].
  replace m with (Z.to_nat e + (m - Z.to_nat e))%nat at 2 by lia.
  rewrite window_app. f_equal.
  - rewrite window_linear by lia. done.
  - destruct (decide (e = Z.of_nat m)) as [Hem|Hem].
    { replace (m - Z.to_nat e)%nat with 0%nat by lia.
      by replace (Z.to_nat (Z.of_nat m - e)) with 0%nat by lia. }
    assert ((p + Z.of_nat (Z.to_nat e)) mod zlen b = 0) as Hz.
    { rewrite Z2Nat.id by lia. rewrite <- Zplus_mod_idemp_l.
      replace (p mod zlen b + e) with (zlen b) by lia. apply Z.mod_same. lia. }
    rewrite window_linear, Hz by (rewrite ?Hz; lia). f_equal. lia.
Qed.

(** *** Arithmetic of the cursors *)

Section Cursors.
Context (rb : ringbuf) (k : Z).
Hypothesis Hk : 1 <= k <= 32.
Hypothesis Hsize : size rb = 2 ^ k.
Hypothesis Hbuf : zlen (buffer rb) = size rb.
Hypothesis Hin : is_u64 (in_ rb).
Hypothesis Hout : is_u64 (out rb).
Hypothesis Hlen : usize (in_ rb - out rb) <= size rb.

Lemma size_bounds : 2 <= size rb <= 2 ^ 32.
Proof using All.
  rewrite Hsize. split.
  - change 2 with (2 ^ 1) at 1. apply Z.pow_le_mono_r; lia.
  - apply Z.pow_le_mono_r; lia.
Qed.

Lemma size_divides : (size rb | 2 ^ 64).
Proof using All.
  rewrite Hsize. exists (2 ^ (64 - k)). rewrite <- Z.pow_add_r by lia. f_equal. lia.
Qed.

(** Cursors that agree as [size_t] agree as positions in the block. *)
Lemma usize_mod_size x : usize x mod size rb = x mod size rb.
Proof using All.
  pose proof size_bounds. unfold u64. apply Z.mod_mod_divide, size_divides.
Qed.

Lemma offset_eq x : Z.land x (usize (size rb - 1)) = x mod size rb.
Proof using All.
  pose proof size_bounds. rewrite u64_small by (unfold is_u64; lia).
  rewrite Hsize. apply land_mask. lia.
Qed.

Lemma avail_eq :
  usize (usize (size rb - in_ rb) + out rb) = size rb - usize (in_ rb - out rb).
Proof using All. pose proof size_bounds. words_lia. Qed.

Lemma contents_length : zlen (contents rb) = usize (in_ rb - out rb).
Proof using All.
  unfold contents, zlen. rewrite window_length.
  pose proof (u64_range (in_ rb - out rb)) as H. unfold is_u64 in H.
  pose proof size_bounds. lia.
Qed.

Lemma in_mod : in_ rb mod size rb
  = (out rb + Z.of_nat (Z.to_nat (usize (in_ rb - out rb)))) mod size rb.
Proof using All.
  pose proof (u64_range (in_ rb - out rb)) as H. unfold is_u64 in H.
  rewrite Z2Nat.id by lia. rewrite <- Zplus_mod_idemp_r, usize_mod_size, Zplus_mod_idemp_r.
  f_equal. lia.
Qed.

Lemma usize_len_bounds : 0 <= usize (in_ rb - out rb) <= size rb.
Proof using All. pose proof (u64_range (in_ rb - out rb)) as H. unfold is_u64 in H. lia. Qed.

Lemma advance_out_spec n : 0 <= n <= usize (in_ rb - out rb) ->
  inv (advance_out rb n) /\ size (advance_out rb n) = size rb /\
  contents (advance_out rb n) = drop (Z.to_nat n) (contents rb).
Proof using All.
  intros Hn. pose proof size_bounds as Hsb. pose proof usize_len_bounds as Hlb.
  unfold advance_out. case_eqb.
  - split_and!; [|done|].
    + exists k. unfold set_in_out, RINGBUF_RESET. simpl. split_and!; try done; words_lia.
    + assert (n = usize (in_ rb - out rb)) as -> by words_lia.
      symmetry. apply drop_ge. pose proof contents_length. unfold zlen in *. lia.
  - assert (usize (in_ rb - usize (out rb + n)) = usize (in_ rb - out rb) - n) as Hd
      by words_lia.
    split_and!; [|done|].
    + exists k. simpl. rewrite Hd. split_and!; try done; try (apply u64_range); lia.
    + unfold contents. simpl. rewrite Hd, window_drop by lia.
      replace (Z.to_nat (usize (in_ rb - out rb) - n))
        with (Z.to_nat (usize (in_ rb - out rb)) - Z.to_nat n)%nat by lia.
      apply window_mod. rewrite Hbuf, usize_mod_size, Z2Nat.id by lia. done.
Qed.

Lemma drain_refines c : 0 <= c ->
  exists rb', ringbuf_drain (Some rb) c = (Z.min c (zlen (contents rb)), Some rb') /\
    inv rb' /\ size rb' = size rb /\
    contents rb' = drop (Z.to_nat (Z.min c (zlen (contents rb)))) (contents rb).
Proof using All.
  intros Hc. pose proof usize_len_bounds as Hlb.
  unfold ringbuf_drain. rewrite contents_length. case_eqb as He.
  - exists rb. rewrite He. split_and!; try done. exists k. split_and!; done || lia.
  - eexists. split; [done|]. apply advance_out_spec. lia.
Qed.

(** What [writev] is handed is the queue, and what it consumed leaves the queue. *)
Lemma write_refines kernel fd :
  0 <= fd -> contents rb <> [] -> (forall q, kernel q <= zlen q) ->
  exists rb',
    ringbuf_write (fun _ iov => kernel (concat iov)) (Some rb) fd
      = Some (if kernel (contents rb) <? 0 then -1 else kernel (contents rb), Some rb') /\
    inv rb' /\ size rb' = size rb /\
    contents rb' = if kernel (contents rb) <? 0 then contents rb
                   else drop (Z.to_nat (kernel (contents rb))) (contents rb).
Proof using All.
  intros Hfd Hne Hker. pose proof usize_len_bounds as Hlb. pose proof size_bounds as Hsb.
  pose proof contents_length as Hcl.
  assert (0 < zlen (contents rb)) as Hpos.
  { destruct (contents rb); [done|]. rewrite zlen_cons. pose proof (zlen_nonneg l). lia. }
  unfold ringbuf_write. destruct (Z.ltb_spec fd 0); [lia|].
  rewrite offset_eq.
  pose proof (Z.mod_pos_bound (out rb) (size rb)) as Hmb.
  rewrite (u64_small (size rb - _)) by (unfold is_u64; lia).
  destruct (Z.eqb_spec (usize (in_ rb - out rb)) 0); [lia|].
  destruct (circular_slices (buffer rb) (out rb) (Z.to_nat (usize (in_ rb - out rb))))
    as (s0 & s1 & H0 & H1 & Hs); [lia..|].
  rewrite Z2Nat.id, Hbuf in H0, H1 by lia. rewrite H0. simpl.
  rewrite (u64_small (_ - Z.min _ _)) by (unfold is_u64; lia). rewrite H1. simpl.
  rewrite app_nil_r, Hs. fold (contents rb). specialize (Hker (contents rb)).
  case_eqb; eexists; (split; [done|]).
  - split_and!; try done. exists k. split_and!; done || lia.
  - apply advance_out_spec. lia.
Qed.

(** Advancing [in] over [l] once the block holds [l] behind the queue. *)
Lemma advance_in_spec b2 l tr :
  zlen l + usize (in_ rb - out rb) <= size rb -> zlen b2 = zlen (buffer rb) ->
  window b2 (out rb) (Z.to_nat (usize (in_ rb - out rb)) + length l) = contents rb ++ l ->
  let rb' := mk_ringbuf b2 (size rb) (usize (in_ rb + zlen l)) (out rb) tr in
  inv rb' /\ size rb' = size rb /\ contents rb' = contents rb ++ l.
Proof using All.
  intros Hl Hb2 Hw rb'. pose proof usize_len_bounds. pose proof size_bounds.
  pose proof (zlen_nonneg l).
  assert (usize (usize (in_ rb + zlen l) - out rb) = usize (in_ rb - out rb) + zlen l) as Hd
    by words_lia.
  split_and!; [|done|].
  - exists k. simpl. rewrite Hd. split_and!; try done; try (apply u64_range); congruence || lia.
  - rewrite <- Hw. unfold contents. simpl. rewrite Hd. f_equal. unfold zlen. lia.
Qed.

Lemma append_at_in l :
  zlen l + usize (in_ rb - out rb) <= size rb ->
  let e := Z.min (zlen l) (size rb - in_ rb mod size rb) in
  exists b1 b2,
    ld l 0 e = Some (take (Z.to_nat e) l) /\
    ld l e (zlen l - e) = Some (drop (Z.to_nat e) l) /\
    st (buffer rb) (in_ rb mod size rb) (take (Z.to_nat e) l) = Some b1 /\
    st b1 0 (drop (Z.to_nat e) l) = Some b2 /\ 0 <= e <= zlen l /\
    (e = zlen l -> b2 = b1) /\ zlen b2 = zlen (buffer rb) /\
    window b2 (out rb) (Z.to_nat (usize (in_ rb - out rb)) + length l) = contents rb ++ l.
Proof using All.
  intros Hl e. pose proof usize_len_bounds. pose proof size_bounds.
  pose proof (zlen_nonneg l). pose proof (Z.mod_pos_bound (in_ rb) (size rb)).
  destruct (circular_append (buffer rb) (out rb) (in_ rb) l
              (Z.to_nat (usize (in_ rb - out rb)))) as (b1 & b2 & S1 & S2 & S3 & S4);
    [lia..|rewrite Hbuf; apply in_mod|].
  rewrite Hbuf in S1, S2. fold e in S1, S2.
  exists b1, b2. rewrite !ld_is_Some by lia. split_and!; try done; try lia.
  - do 2 f_equal. rewrite take_ge; [done|]. rewrite length_drop. unfold zlen in *. lia.
  - intros Heq. rewrite Heq, drop_ge in S2 by (unfold zlen; lia).
    unfold st, zlen in S2. simpl in S2. case_decide; simplify_eq. by rewrite drop_0.
Qed.

Lemma vprintf_refines s :
  zlen s < 2 ^ 31 -> size rb <> zlen (contents rb) -> zlen s <= size rb - zlen (contents rb) ->
  exists rb' tr,
    ringbuf_vprintf (fun f => f) (Some rb) (Some (Some s)) = Some (zlen s, Some rb', tr) /\
    inv rb' /\ size rb' = size rb /\ contents rb' = contents rb ++ s /\
    concat (snd <$> tr) = (if in_tracing rb is Some _ then s else []).
Proof using All.
  rewrite contents_length. intros Hs Hne Hfit.
  pose proof usize_len_bounds. pose proof size_bounds. pose proof (zlen_nonneg s).
  pose proof (Z.mod_pos_bound (in_ rb) (size rb)).
  destruct (append_at_in s) as (b1 & b2 & L0 & L1 & S0 & S1 & He & Heq & Hb2 & Hw); [lia|].
  unfold ringbuf_vprintf. rewrite avail_eq. rewrite (proj2 (Z.eqb_neq _ _)) by lia.
  rewrite (proj2 (Z.ltb_ge _ _)) by lia.
  rewrite offset_eq, (u64_small (size rb - _)) by (unfold is_u64; lia).
  rewrite L0. cbn [mbind option_bind]. rewrite S0. cbn [mbind option_bind].
  rewrite (u64_small (zlen s - _)) by (unfold is_u64; lia).
  destruct (Z.ltb_spec 0 (zlen s - Z.min (zlen s) (size rb - in_ rb mod size rb))).
  - rewrite L1. cbn [mbind option_bind]. rewrite S1. cbn [mbind option_bind].
    eexists _, _. split; [done|]. split_and!; try apply advance_in_spec; try done; try lia.
    unfold trace_call. destruct (in_tracing rb); [|done]. simpl.
    by rewrite app_nil_r, take_drop.
  - rewrite <- Heq by lia. cbn [mbind option_bind].
    eexists _, _. split; [done|]. split_and!; try apply advance_in_spec; try done; try lia.
    rewrite app_nil_r. unfold trace_call. destruct (in_tracing rb); [|done]. simpl.
    rewrite app_nil_r, take_ge; [done|]. unfold zlen in *. lia.
Qed.

Lemma read_refines fd rd d :
  0 <= fd -> size rb <> zlen (contents rb) ->
  rd (size rb - zlen (contents rb)) = Some d -> zlen d <= size rb - zlen (contents rb) ->
  exists rb' tr,
    ringbuf_read (fun _ lens => rd (foldr Z.add 0 lens)) (Some rb) fd
      = Some (zlen d, Some rb', tr) /\
    inv rb' /\ size rb' = size rb /\ contents rb' = contents rb ++ d /\
    concat (snd <$> tr) = (if in_tracing rb is Some _ then d else []).
Proof using All.
  rewrite contents_length. intros Hfd Hne Hrd Hfit.
  pose proof usize_len_bounds. pose proof size_bounds. pose proof (zlen_nonneg d).
  pose proof (Z.mod_pos_bound (in_ rb) (size rb)).
  destruct (append_at_in d) as (b1 & b2 & L0 & L1 & S0 & S1 & He & Heq & Hb2 & Hw); [lia|].
  unfold ringbuf_read. rewrite (proj2 (Z.ltb_ge _ _)) by lia.
  rewrite avail_eq. rewrite (proj2 (Z.eqb_neq _ _)) by lia.
  rewrite offset_eq, (u64_small (size rb - in_ rb mod size rb)) by (unfold is_u64; lia).
  set (a := size rb - usize (in_ rb - out rb)) in *.
  rewrite (u64_small (a - _)) by (unfold is_u64; lia). cbn [foldr].
  replace (Z.min a (size rb - in_ rb mod size rb)
           + (a - Z.min a (size rb - in_ rb mod size rb) + 0)) with a by lia.
  rewrite Hrd.
  replace (Z.min (zlen d) (Z.min a (size rb - in_ rb mod size rb)))
    with (Z.min (zlen d) (size rb - in_ rb mod size rb)) by lia.
  rewrite (u64_small (zlen d - _)) by (unfold is_u64; lia).
  rewrite L0, L1. cbn [mbind option_bind]. rewrite S0. cbn [mbind option_bind].
  rewrite S1. cbn [mbind option_bind].
  eexists _, _. split; [done|]. split_and!; try apply advance_in_spec; try done; try lia.
  unfold trace_call. destruct (in_tracing rb); [|by case_match]. case_eqb; simpl.
  - by rewrite app_nil_r, take_drop.
  - rewrite app_nil_r, take_ge; [done|]. unfold zlen in *. lia.
Qed.
End Cursors.

(** *** Allocation *)

Lemma fls_spec x : 0 < x -> fls x = Z.log2 x + 1.
Proof. intros Hx. unfold fls. case_eqb; simpl; lia. Qed.

(** The smallest power of two at least [u], when the [int] shift is defined. *)
Lemma align_power2_spec u : 2 <= u <= 2 ^ 30 ->
  exists k, 1 <= k <= 30 /\ align_power2 u = Some (2 ^ k) /\ u <= 2 ^ k < 2 * u.
Proof.
  intros Hu. exists (Z.log2 (u - 1) + 1).
  pose proof (Z.log2_nonneg (u - 1)) as H0.
  destruct (Z.log2_spec (u - 1)) as [H1 H2]; [lia|].
  assert (Z.log2 (u - 1) < 30) as H3 by (apply Z.log2_lt_pow2; lia).
  rewrite <- Z.add_1_r in H2.
  unfold align_power2. rewrite u32_small by (unfold is_u32; lia). rewrite fls_spec by lia.
  rewrite (proj2 (Z.ltb_lt _ _)) by lia. rewrite Z.shiftl_1_l.
  split_and!; try done; try lia.
  rewrite Z.pow_add_r, Z.pow_1_r in * by lia. lia.
Qed.

Lemma align_power2_undefined u : 2 ^ 30 < u <= UINT_MAX -> align_power2 u = None.
Proof.
  unfold UINT_MAX. intros Hu. unfold align_power2.
  rewrite u32_small by (unfold is_u32; lia). rewrite fls_spec by lia.
  assert (30 <= Z.log2 (u - 1)) by (apply Z.log2_le_pow2; lia).
  rewrite (proj2 (Z.ltb_ge _ _)) by lia. done.
Qed.

(** *** The ring buffer implements the queue *)

Lemma step_refines rb o : inv rb -> op_ok o ->
  exists rb' tr,
    step (Some rb) o = Some (fst (fst (spec_step (size rb) (contents rb) o)), Some rb', tr) /\
    inv rb' /\ size rb' = size rb /\
    contents rb' = snd (fst (spec_step (size rb) (contents rb) o)) /\
    concat (snd <$> tr)
      = (if in_tracing rb is Some _ then snd (spec_step (size rb) (contents rb) o) else []).
Proof.
  intros Hinv Hok. pose proof Hinv as (k & Hk & Hsz & Hbuf & Hin & Hout & Hlen).
  pose proof (contents_length rb k) as Hcl. specialize (Hcl Hk Hsz Hbuf Hin Hout Hlen).
  pose proof (usize_len_bounds rb k Hk Hsz Hbuf Hin Hout Hlen) as Hlb.
  pose proof (avail_eq rb k Hk Hsz Hbuf Hin Hout Hlen) as Hav.
  assert (exists rb' (tr : trace), Some (-1, Some rb, @nil (nat * bytes)) = Some (-1, Some rb', tr) /\
      inv rb' /\ size rb' = size rb /\ contents rb' = contents rb /\
      concat (snd <$> tr) = (if in_tracing rb is Some _ then [] else [])) as Hfail.
  { exists rb, []. split_and!; try done. by case_match. }
  destruct o as [c|fd kernel|f|fd rd]; simpl in Hok.
  - destruct (drain_refines rb k Hk Hsz Hbuf Hin Hout Hlen c Hok) as (rb' & E & ? & ? & ?).
    exists rb', []. unfold step. rewrite E. split_and!; try done. by case_match.
  - unfold step, spec_step. destruct (Z.ltb_spec fd 0) as [Hfd|Hfd].
    { unfold ringbuf_write. rewrite (proj2 (Z.ltb_lt _ _)) by lia. simpl. eauto. }
    case_bool_decide as Hq.
    { unfold ringbuf_write. rewrite (proj2 (Z.ltb_ge _ _)) by lia.
      rewrite Hq in Hcl. rewrite <- Hcl. simpl. exists rb, [].
      rewrite Hq. split_and!; try done. by case_match. }
    destruct (write_refines rb k Hk Hsz Hbuf Hin Hout Hlen kernel fd)
      as (rb' & E & ? & ? & E'); [done..|].
    rewrite E. simpl. exists rb', []. rewrite E'.
    case_eqb; split_and!; try done; by case_match.
  - unfold step, spec_step. destruct f as [s|].
    2:{ unfold ringbuf_vprintf. case_eqb; eauto. }
    destruct (Z.eqb_spec (size rb) (zlen (contents rb))) as [Hf|Hf].
    { unfold ringbuf_vprintf. rewrite Hav. rewrite (proj2 (Z.eqb_eq _ _)) by lia. simpl. eauto. }
    destruct (Z.ltb_spec (size rb - zlen (contents rb)) (zlen s)) as [Hl|Hl].
    { unfold ringbuf_vprintf. rewrite Hav. rewrite (proj2 (Z.eqb_neq _ _)) by lia.
      rewrite (proj2 (Z.ltb_lt _ _)) by lia. simpl. eauto. }
    destruct (vprintf_refines rb k Hk Hsz Hbuf Hin Hout Hlen s) as (rb' & tr & E & ?);
      [done..|]. exists rb', tr. done.
  - unfold step, spec_step. destruct (Z.ltb_spec fd 0) as [Hfd|Hfd].
    { unfold ringbuf_read. rewrite (proj2 (Z.ltb_lt _ _)) by lia. eauto. }
    destruct (Z.eqb_spec (size rb) (zlen (contents rb))) as [Hf|Hf].
    { unfold ringbuf_read. rewrite (proj2 (Z.ltb_ge _ _)) by lia. rewrite Hav.
      rewrite (proj2 (Z.eqb_eq _ _)) by lia. eauto. }
    destruct (rd (size rb - zlen (contents rb))) as [d|] eqn:Hrd.
    + destruct (read_refines rb k Hk Hsz Hbuf Hin Hout Hlen fd rd d)
        as (rb' & tr & E & ?); [done..| |exists rb', tr; done]. apply Hok; [lia|done].
    + unfold ringbuf_read. rewrite (proj2 (Z.ltb_ge _ _)) by lia. rewrite Hav.
      rewrite (proj2 (Z.eqb_neq _ _)) by lia.
      rewrite (offset_eq rb k) by done.
      pose proof (size_bounds rb k Hk Hsz Hbuf Hin Hout Hlen).
      pose proof (Z.mod_pos_bound (in_ rb) (size rb)).
      rewrite (u64_small (size rb - in_ rb mod size rb)) by (unfold is_u64; lia).
      rewrite (u64_small (_ - Z.min _ _)) by (unfold is_u64; lia). cbn [foldr].
      match goal with |- context [rd ?x] => replace x with (size rb - zlen (contents rb)) by lia end.
      rewrite Hrd. eauto.
Qed.

(** C27. Every sequence of drain, write, printf and read calls on a ring buffer in a valid
    state is defined (no access outside the block) and behaves as the bounded queue of bytes:
    same results, same final queue, the state stays valid and the capacity does not change. *)
Theorem ringbuf_refines_fifo os : forall rb, inv rb -> Forall op_ok os ->
  exists rb',
    run (Some rb) os = Some (fst (spec_run (size rb) (contents rb) os), Some rb') /\
    inv rb' /\ size rb' = size rb /\
    contents rb' = snd (spec_run (size rb) (contents rb) os).
Proof.
  induction os as [|o os IH]; intros rb Hinv Hok; [by exists rb|].
  apply Forall_cons_1 in Hok as [Ho Hok].
  destruct (step_refines rb o Hinv Ho) as (rb1 & tr & E & Hinv1 & Hs1 & Hc1 & _).
  destruct (IH rb1 Hinv1 Hok) as (rb' & E' & Hinv' & Hs' & Hc').
  exists rb'. cbn [run spec_run]. rewrite E. cbn [mbind option_bind]. rewrite E'.
  cbn [mbind option_bind]. rewrite Hs1, Hc1 in *.
  destruct (spec_step (size rb) (contents rb) o) as [[n q] t]. simpl in *.
  destruct (spec_run (size rb) q os) as [ns q'']. done.
Qed.

(** An accepted size is rounded up to a power of two, at most twice as large, and the new
    buffer is a valid empty queue. *)
Theorem ringbuf_new_spec malloc sz :
  2 <= sz <= 2 ^ 30 -> (forall n, 0 <= n -> exists b, malloc n = Some b /\ zlen b = n) ->
  exists rb, ringbuf_new malloc sz = Some (Some rb) /\ inv rb /\ contents rb = [] /\
    sz <= ringbuf_capacity (Some rb) < 2 * sz.
Proof.
  intros Hsz Hm. destruct (align_power2_spec sz Hsz) as (k & Hk & Ha & Hb).
  destruct (Hm (2 ^ k) ltac:(lia)) as (b & Eb & Hlen).
  unfold ringbuf_new. rewrite (proj2 (Z.ltb_ge _ _)) by lia.
  rewrite (proj2 (Z.ltb_ge _ _)) by (unfold UINT_MAX; lia).
  rewrite u32_small by (unfold is_u32; lia). cbn [orb]. rewrite Ha. cbn [mbind option_bind].
  rewrite Eb. eexists. split; [done|]. split; [|done].
  exists k. cbn [size in_ out buffer]. change (usize (RINGBUF_RESET - RINGBUF_RESET)) with 0.
  split_and!; done || lia.
Qed.

(** The sizes for which [ringbuf_new] shifts [1] out of the range of [int], although its
    guard lets them through, are exactly those above 2^30. *)
Theorem ringbuf_new_shift_overflow malloc sz :
  is_u64 sz -> (ringbuf_new malloc sz = None <-> 2 ^ 30 < sz <= UINT_MAX).
Proof.
  intros Hsz. unfold ringbuf_new.
  destruct (Z.ltb_spec sz 2); [simpl; split; [done|lia]|].
  destruct (Z.ltb_spec UINT_MAX sz); [simpl; split; [done|lia]|]. cbn [orb].
  unfold UINT_MAX in *. rewrite u32_small by (unfold is_u32; lia).
  destruct (decide (sz <= 2 ^ 30)).
  - destruct (align_power2_spec sz) as (k & _ & -> & _); [lia|].
    cbn [mbind option_bind]. split; [by case_match|lia].
  - rewrite align_power2_undefined by (unfold UINT_MAX; lia). split; [lia|done].
Qed.

(** *** Witnesses *)

Lemma ringbuf_new_spec_witness :
  exists rb, ringbuf_new (fun n => Some (replicate (Z.to_nat n) 0)) 5 = Some (Some rb) /\
    inv rb /\ contents rb = [] /\ 5 <= ringbuf_capacity (Some rb) < 10.
Proof.
  apply (ringbuf_new_spec (fun n => Some (replicate (Z.to_nat n) 0)) 5); [lia|].
  intros n Hn. eexists. split; [reflexivity|]. unfold zlen. rewrite length_replicate. lia.
Defined.

Lemma ringbuf_new_shift_overflow_witness :
  ringbuf_new (fun n => Some []) (2 ^ 30 + 1) = None <-> 2 ^ 30 < 2 ^ 30 + 1 <= UINT_MAX.
Proof. apply ringbuf_new_shift_overflow. unfold is_u64. lia. Defined.

Definition demo : ringbuf := mk_ringbuf [1; 2; 3; 4; 5; 6; 7; 8] 8 13 6 None.
Definition demo_ops : list op :=
  [Drain 3; Printf (Some [40; 41]); Write 4 (fun q => Z.min 5 (zlen q));
   Read 4 (fun a => Some (take (Z.to_nat a) [9; 9; 9])); Read (-1) (fun _ => None)].

Lemma ringbuf_refines_fifo_witness :
  inv demo /\ Forall op_ok demo_ops /\
  spec_run 8 (contents demo) demo_ops = ([3; 2; 5; 3; -1], [41; 9; 9; 9]) /\
  exists rb', run (Some demo) demo_ops
                = Some (fst (spec_run (size demo) (contents demo) demo_ops), Some rb') /\
    inv rb' /\ size rb' = size demo /\
    contents rb' = snd (spec_run (size demo) (contents demo) demo_ops).
Proof.
  assert (inv demo) as Hi.
  { exists 3. split_and!; try reflexivity; vm_compute; discriminate || (split; done). }
  assert (Forall op_ok demo_ops) as Ho.
  { repeat constructor; simpl; try lia.
    - intros a d Ha [= <-]. unfold zlen. rewrite length_take. lia.
    - discriminate. }
  split_and!; [exact Hi|exact Ho|vm_compute; reflexivity|].
  exact (ringbuf_refines_fifo demo_ops demo Hi Ho).
Defined.
End Ringbuf.
