(* ===== verification/Libc.v ===== *)
(** The fragment of the C library the modelled code calls on strings: [strtol] in base 16,
    the [sscanf] directives %<w>x and %1[...], the %.<n>x conversion of printf, [memcmp].
    A C string is the list of its characters before the terminating NUL; the definitions
    follow ISO C (7.21.6.2, 7.22.1.4, 7.24.4.1) in the "C" locale. *)
From Stdlib Require Import ZArith Lia Ascii String.
From stdpp Require Import base numbers list option.
From S2P Require Import Prelude.

Local Open Scope Z_scope.

Module Libc.

(** Character codes of a literal. *)
Definition chars (s : string) : bytes :=
  (fun c => Z.of_nat (nat_of_ascii c)) <$> list_ascii_of_string s.

Definition EINVAL : Z := 22.
Definition ENOBUFS : Z := 105.
Definition ECANCELED : Z := 125.
Definition ETIMEDOUT : Z := 110.

(** *** Scanning *)

Definition isspace (c : Z) : bool := (c =? 32) || ((9 <=? c) && (c <=? 13)).

Fixpoint skip_space (s : bytes) : bytes :=
  match s with
  | c :: t => if isspace c then skip_space t else s
  | [] => []
  end.

Definition hexval (c : Z) : option Z :=
  if (48 <=? c) && (c <=? 57) then Some (c - 48)
  else if (65 <=? c) && (c <=? 70) then Some (c - 55)
  else if (97 <=? c) && (c <=? 102) then Some (c - 87)
  else None.

(** At most [w] digits: the value, how many were read, and the rest. *)
Fixpoint hex_digits (w : nat) (acc : Z) (s : bytes) : Z * nat * bytes :=
  match w, s with
  | S w', c :: t =>
      match hexval c with
      | Some d => let '(v, n, r) := hex_digits w' (16 * acc + d) t in (v, S n, r)
      | None => (acc, 0%nat, s)
      end
  | _, _ => (acc, 0%nat, s)
  end.

Definition scan_sign (s : bytes) : bool * nat * bytes :=
  match s with
  | c :: t => if c =? 45 then (true, 1%nat, t)
              else if c =? 43 then (false, 1%nat, t) else (false, 0%nat, s)
  | [] => (false, 0%nat, s)
  end.

Definition is_x (c : Z) : bool := (c =? 120) || (c =? 88).

Definition LONG_MAX : Z := 2 ^ 63 - 1.
Definition LONG_MIN : Z := - 2 ^ 63.

(** [strtol(s, &endptr, 16)]: the value and the string at [endptr]. *)
Definition strtol16 (s : bytes) : Z * bytes :=
  let '(neg, _, s1) := scan_sign (skip_space s) in
  let s2 := match s1 with
            | z :: x :: h :: t =>
                if (z =? 48) && is_x x && bool_decide (is_Some (hexval h)) then h :: t else s1
            | _ => s1
            end in
  let '(v, n, r) := hex_digits (List.length s2) 0 s2 in
  if (n =? 0)%nat then (0, s)
  else (Z.max LONG_MIN (Z.min LONG_MAX (if neg : bool then - v else v)), r).

(** The %<w>x conversion: matching failure is [None]. *)
Definition scan_hex (w : nat) (s : bytes) : option (Z * bytes) :=
  let '(neg, k, s1) := scan_sign (skip_space s) in
  let w1 := (w - k)%nat in
  let '(v, n, r) :=
    match s1, w1 with
    | z :: x :: t, S (S w2) =>
        if (z =? 48) && is_x x then hex_digits w2 0 t else hex_digits w1 0 s1
    | _, _ => hex_digits w1 0 s1
    end in
  if (n =? 0)%nat then None else Some (if neg : bool then - v else v, r).

Inductive directive :=
| Lit (c : Z)
| Hex (width : nat) (bits : Z)
| OneOf (set : bytes).

(** The values assigned before the first failure. *)
Fixpoint sscanf (fmt : list directive) (s : bytes) : list Z :=
  match fmt with
  | [] => []
  | Lit c :: f =>
      match s with
      | x :: t => if x =? c then sscanf f t else []
      | [] => []
      end
  | Hex w b :: f =>
      match scan_hex w s with
      | Some (v, t) => v mod 2 ^ b :: sscanf f t
      | None => []
      end
  | OneOf set :: f =>
      match s with
      | x :: t => if bool_decide (x ∈ set) then x :: sscanf f t else []
      | [] => []
      end
  end.

Definition lits (s : string) : list directive := Lit <$> chars s.

(** *** Printing *)

Definition hex_digit (d : Z) : Z := if d <? 10 then 48 + d else 87 + d.

(** %.<n>x of an unsigned value below [16^n]: exactly [n] lower-case digits. *)
Fixpoint hex_str (n : nat) (v : Z) : bytes :=
  match n with
  | O => []
  | S n' => hex_digit ((v / 16 ^ Z.of_nat n') mod 16) :: hex_str n' v
  end.

(** What [snprintf(str, n, ...)] leaves in [str]: nothing when [n] is 0. *)
Definition snprintf (n : Z) (s : bytes) : option bytes :=
  if n =? 0 then None else Some (take (Z.to_nat (n - 1)) s).

(** The sign of [memcmp] on two objects of the same size. *)
Fixpoint memcmp (a b : bytes) : Z :=
  match a, b with
  | x :: a', y :: b' => if x <? y then -1 else if y <? x then 1 else memcmp a' b'
  | _, _ => 0
  end.

(** *** Lemmas *)

Lemma memcmp_eq a b : List.length a = List.length b -> (memcmp a b = 0 <-> a = b).
Proof.
  revert b. induction a as [|x a IH]; intros [|y b] Hlen; simplify_eq/=; [done|].
  specialize (IH b ltac:(lia)).
  destruct (Z.ltb_spec x y); [split; intros Heq; simplify_eq; lia|].
  destruct (Z.ltb_spec y x); [split; intros Heq; simplify_eq; lia|].
  assert (x = y) as -> by lia. rewrite IH. split; intros Heq; by simplify_eq.
Qed.

Lemma memcmp_antisym a b : memcmp b a = - memcmp a b.
Proof.
  revert b. induction a as [|x a IH]; intros [|y b]; simpl; try done.
  destruct (Z.ltb_spec x y), (Z.ltb_spec y x); try lia; auto.
Qed.

Lemma hex_str_length n v : List.length (hex_str n v) = n.
Proof. induction n; simpl; auto. Qed.

Lemma hexval_digit d : 0 <= d < 16 -> hexval (hex_digit d) = Some d.
Proof.
  intros Hd. unfold hexval, hex_digit.
  destruct (Z.ltb_spec d 10); repeat (case_eqb; simpl; try lia); f_equal; lia.
Qed.

Lemma hex_digits_str n w acc v r :
  (n <= w)%nat -> (w = n \/ match r with c :: _ => hexval c = None | [] => True end) ->
  hex_digits w acc (hex_str n v ++ r) = (acc * 16 ^ Z.of_nat n + v mod 16 ^ Z.of_nat n, n, r).
Proof.
  revert w acc. induction n as [|n IH]; intros w acc Hw Hr.
  - change (16 ^ Z.of_nat 0) with 1. rewrite Z.mod_1_r, Z.mul_1_r, Z.add_0_r.
    destruct w as [|w], r as [|c r]; simpl; try done.
    destruct Hr as [Hr|Hr]; [lia|]. by rewrite Hr.
  - destruct w as [|w]; [lia|]. cbn [hex_str app hex_digits].
    rewrite hexval_digit by (apply Z.mod_pos_bound; lia).
    rewrite IH by (lia || (destruct Hr; [left|right]; done || lia)).
    do 2 f_equal. rewrite Nat2Z.inj_succ, Z.pow_succ_r by lia.
    rewrite (Z.mul_comm 16 (16 ^ _)), Z.rem_mul_r by lia. ring.
Qed.

Lemma hex_digit_range d : 0 <= d < 16 ->
  48 <= hex_digit d <= 57 \/ 97 <= hex_digit d <= 102.
Proof. intros Hd. unfold hex_digit. case_eqb; lia. Qed.

Lemma hex_str_chars n v : Forall (fun c => 48 <= c <= 57 \/ 97 <= c <= 102) (hex_str n v).
Proof.
  induction n; simpl; constructor; [|done].
  apply hex_digit_range, Z.mod_pos_bound. lia.
Qed.

(** Scanning back exactly the digits printed. *)
Lemma scan_hex_str n v r :
  (0 < n)%nat -> scan_hex n (hex_str n v ++ r) = Some (v mod 16 ^ Z.of_nat n, r).
Proof.
  intros Hn. pose proof (hex_digits_str n n 0 v r ltac:(lia) (or_introl eq_refl)) as Hd.
  pose proof (hex_str_chars n v) as Hc. unfold scan_hex.
  destruct n as [|n]; [lia|]. cbn [hex_str app] in *.
  set (c := hex_digit _) in *. inversion Hc as [|? ? Hc1 Hc2]; subst.
  assert (isspace c = false) as Hs by (unfold isspace; repeat (case_eqb; try lia); done).
  cbn [skip_space]. rewrite Hs. cbn [scan_sign].
  rewrite !(proj2 (Z.eqb_neq _ _)) by lia. cbn [Nat.sub].
  destruct n as [|n].
  - cbn [hex_str app] in *. destruct r; rewrite Hd; done.
  - cbn [hex_str app] in *. inversion Hc2 as [|? ? Hc3 Hc4]; subst.
    assert (is_x (hex_digit ((v / 16 ^ Z.of_nat n) mod 16)) = false) as ->
      by (unfold is_x; rewrite !(proj2 (Z.eqb_neq _ _)) by lia; done).
    rewrite andb_false_r, Hd. done.
Qed.

(** [strtol] stops at the first character that is no digit. *)
Lemma strtol16_str n v r :
  (0 < n <= 8)%nat -> 0 <= v -> match r with c :: _ => hexval c = None | [] => True end ->
  hd 0 r ≠ 120 -> hd 0 r ≠ 88 ->
  strtol16 (hex_str n v ++ r) = (v mod 16 ^ Z.of_nat n, r).
Proof.
  intros Hn Hv Hr Hx1 Hx2.
  pose proof (hex_digits_str n (List.length (hex_str n v ++ r)) 0 v r) as Hd.
  rewrite length_app, hex_str_length in Hd. specialize (Hd ltac:(lia) (or_intror Hr)).
  assert (0 <= v mod 16 ^ Z.of_nat n < 2 ^ 32) as Hb.
  { pose proof (Z.mod_pos_bound v (16 ^ Z.of_nat n) ltac:(lia)).
    enough (16 ^ Z.of_nat n <= 16 ^ 8) by lia. apply Z.pow_le_mono_r; lia. }
  pose proof (hex_str_chars n v) as Hc. unfold strtol16.
  destruct n as [|n]; [lia|]. cbn [hex_str app] in *.
  set (c := hex_digit _) in *. inversion Hc as [|? ? Hc1 Hc2]; subst.
  assert (isspace c = false) as Hs by (unfold isspace; repeat (case_eqb; try lia); done).
  cbn [skip_space]. rewrite Hs. cbn [scan_sign].
  rewrite !(proj2 (Z.eqb_neq _ _)) by lia.
  match goal with |- context [match hex_str n v ++ r with _ => _ end] =>
    assert (match hex_str n v ++ r with
            | x :: h :: t => if (c =? 48) && is_x x && bool_decide (is_Some (hexval h))
                             then h :: t else c :: hex_str n v ++ r
            | _ => c :: hex_str n v ++ r end = c :: hex_str n v ++ r) as ->
  end.
  { destruct n as [|n].
    - simpl. destruct r as [|x [|h t]]; try done. simpl in Hx1, Hx2. unfold is_x.
      rewrite (proj2 (Z.eqb_neq x 120)), (proj2 (Z.eqb_neq x 88)) by done.
      by rewrite andb_false_r.
    - cbn [hex_str app]. inversion Hc2 as [|? ? Hc3 Hc4]; subst.
      assert (is_x (hex_digit ((v / 16 ^ Z.of_nat n) mod 16)) = false) as ->
        by (unfold is_x; rewrite !(proj2 (Z.eqb_neq _ _)) by lia; done).
      rewrite andb_false_r. destruct (hex_str n v ++ r); done. }
  cbn [List.length]. rewrite length_app, hex_str_length.
  change (S (n + List.length r)) with (S n + List.length r)%nat. rewrite Hd.
  cbn [Nat.eqb]. unfold LONG_MIN, LONG_MAX. f_equal. lia.
Qed.
End Libc.
