(* ===== verification/Uuid.v ===== *)
(** Bluetooth UUIDs: lib/uuid.c and the [bswap_128] of lib/bluetooth.h.  A [uint128_t] is
    its sixteen bytes; 16- and 32-bit UUIDs are host integers. *)
From Stdlib Require Import ZArith Lia String.
From stdpp Require Import base numbers list option.
From S2P Require Import Prelude Libc.
Import Libc.

Local Open Scope Z_scope.

Module Uuid.

(** *** Data *)

(** [bt_uuid_t]: the type tag and the union; [UUID_UNSPEC] is also the [default] case. *)
Inductive bt_uuid :=
| UUID_UNSPEC
| UUID16 (u16 : Z)
| UUID32 (u32 : Z)
| UUID128 (u128 : bytes).

#[export] Instance bt_uuid_eq_dec : EqDecision bt_uuid.
Proof. solve_decision. Defined.

Definition uuid_type (u : bt_uuid) : Z :=
  match u with UUID_UNSPEC => 0 | UUID16 _ => 16 | UUID32 _ => 32 | UUID128 _ => 128 end.

Definition bt_uuid_len (u : bt_uuid) : Z := uuid_type u / 8.

Definition bluetooth_base_uuid : bytes :=
  [0x00; 0x00; 0x00; 0x00; 0x00; 0x00; 0x10; 0x00;
   0x80; 0x00; 0x00; 0x80; 0x5F; 0x9B; 0x34; 0xFB].

Definition BASE_UUID16_OFFSET : Z := 2.
Definition BASE_UUID32_OFFSET : Z := 0.

(** *** Operations *)

(** [for (i = 0; i < 16; i++) d[15 - i] = s[i]] *)
Definition bswap_128 (s : bytes) : bytes := rev s.

(** [memcpy(&data[off], &be, n)] into the copy of the base UUID. *)
Definition patch_base (off : Z) (be : bytes) : bytes :=
  take (Z.to_nat off) bluetooth_base_uuid ++ be ++
  drop (Z.to_nat (off + zlen be)) bluetooth_base_uuid.

Definition bt_uuid16_to_uuid128 (v : Z) : bt_uuid :=
  UUID128 (patch_base BASE_UUID16_OFFSET (be_bytes 2 v)).

Definition bt_uuid32_to_uuid128 (v : Z) : bt_uuid :=
  UUID128 (patch_base BASE_UUID32_OFFSET (be_bytes 4 v)).

(** [*dst] after the call; an unspecified source leaves it unwritten. *)
Definition bt_uuid_to_uuid128 (src : bt_uuid) (dst : bt_uuid) : bt_uuid :=
  match src with
  | UUID128 _ => src
  | UUID32 v => bt_uuid32_to_uuid128 v
  | UUID16 v => bt_uuid16_to_uuid128 v
  | UUID_UNSPEC => dst
  end.

(** Reads the 128-bit members: undefined on an object that does not hold one. *)
Definition bt_uuid128_cmp (u1 u2 : bt_uuid) : ub Z :=
  match u1, u2 with
  | UUID128 a, UUID128 b => Some (memcmp a b)
  | _, _ => None
  end.

Definition bt_uuid16_create (value : Z) : bt_uuid := UUID16 (u16 value).
Definition bt_uuid32_create (value : Z) : bt_uuid := UUID32 (u32 value).
Definition bt_uuid128_create (value : bytes) : bt_uuid := UUID128 value.

(** The two locals are uninitialised ([UUID_UNSPEC]) before the conversions. *)
Definition bt_uuid_cmp (uuid1 uuid2 : bt_uuid) : ub Z :=
  bt_uuid128_cmp (bt_uuid_to_uuid128 uuid1 UUID_UNSPEC)
                 (bt_uuid_to_uuid128 uuid2 UUID_UNSPEC).

Definition DASH : Z := 45.

(** The text of the 16 bytes [data], in the format of [bt_uuid_to_string]. *)
Definition uuid128_text (data : bytes) : bytes :=
  let word off n := be_val (take n (drop off data)) in
  hex_str 8 (word 0 4)%nat ++ [DASH] ++ hex_str 4 (word 4 2)%nat ++ [DASH] ++
  hex_str 4 (word 6 2)%nat ++ [DASH] ++ hex_str 4 (word 8 2)%nat ++ [DASH] ++
  hex_str 8 (word 10 4)%nat ++ hex_str 4 (word 14 2)%nat.

Definition bt_uuid_to_string (uuid : option bt_uuid) (n : Z) : ub (Z * option bytes) :=
  match uuid with
  | None | Some UUID_UNSPEC => Some (- EINVAL, snprintf n (chars "NULL"))
  | Some u =>
      match bt_uuid_to_uuid128 u UUID_UNSPEC with
      | UUID128 data => Some (0, snprintf n (uuid128_text data))
      | _ => None
      end
  end.

Definition char_at (s : bytes) (i : nat) : Z := nth i s 0.

Definition is_uuid128 (s : bytes) : bool :=
  (zlen s =? 36) && (char_at s 8 =? DASH) && (char_at s 13 =? DASH) &&
  (char_at s 18 =? DASH) && (char_at s 23 =? DASH).

(** "0000%04hx-0000-1000-8000-00805%1[fF]9%1[bB]34%1[fF]%1[bB]" *)
Definition base_format : list directive :=
  lits "0000" ++ [Hex 4 16] ++ lits "-0000-1000-8000-00805" ++ [OneOf (chars "fF")] ++
  lits "9" ++ [OneOf (chars "bB")] ++ lits "34" ++ [OneOf (chars "fF"); OneOf (chars "bB")].

Definition is_base_uuid128 (s : bytes) : bool :=
  if negb (is_uuid128 s) then false
  else (List.length (sscanf base_format s) =? 5)%nat.

Definition is_uuid32 (s : bytes) : bool := (zlen s =? 8) || (zlen s =? 10).
Definition is_uuid16 (s : bytes) : bool := (zlen s =? 4) || (zlen s =? 6).

Definition bt_string_to_uuid16 (s : bytes) : Z + bt_uuid :=
  let '(v, endptr) := strtol16 s in
  match endptr with
  | [] => inr (bt_uuid16_create (u16 v))
  | c :: _ => if c =? DASH then inr (bt_uuid16_create (u16 v)) else inl (- EINVAL)
  end.

Definition bt_string_to_uuid32 (s : bytes) : Z + bt_uuid :=
  let '(v, endptr) := strtol16 s in
  match endptr with
  | [] => inr (bt_uuid32_create (u32 v))
  | _ => inl (- EINVAL)
  end.

(** "%08x-%04hx-%04hx-%04hx-%08x%04hx" *)
Definition uuid128_format : list directive :=
  [Hex 8 32; Lit DASH; Hex 4 16; Lit DASH; Hex 4 16; Lit DASH; Hex 4 16; Lit DASH;
   Hex 8 32; Hex 4 16].

Definition bt_string_to_uuid128 (s : bytes) : Z + bt_uuid :=
  match sscanf uuid128_format s with
  | [data0; data1; data2; data3; data4; data5] =>
      inr (bt_uuid128_create
        (be_bytes 4 data0 ++ be_bytes 2 data1 ++ be_bytes 2 data2 ++ be_bytes 2 data3 ++
         be_bytes 4 data4 ++ be_bytes 2 data5))
  | _ => inl (- EINVAL)
  end.

(** [inl] is the error code, [inr] the UUID stored in [*uuid]. *)
Definition bt_string_to_uuid (s : bytes) : Z + bt_uuid :=
  if is_base_uuid128 s then bt_string_to_uuid16 (drop 4 s)
  else if is_uuid128 s then bt_string_to_uuid128 s
  else if is_uuid32 s then bt_string_to_uuid32 s
  else if is_uuid16 s then bt_string_to_uuid16 s
  else inl (- EINVAL).

Definition bt_uuid_strcmp (a b : bytes) : ub Z :=
  match bt_string_to_uuid a with
  | inl _ => Some (- EINVAL)
  | inr u1 =>
      match bt_string_to_uuid b with
      | inl _ => Some (- EINVAL)
      | inr u2 => bt_uuid_cmp u1 u2
      end
  end.

(** Writes to [dst] at [off]; the result is the return value and the object. *)
Definition bt_uuid_to_le (src : bt_uuid) (dst : bytes) (off : Z) : ub (Z * bytes) :=
  match src with
  | UUID16 v => d ← put_le16 v dst off; Some (0, d)
  | UUID32 v =>
      match bt_uuid32_to_uuid128 v with
      | UUID128 b => d ← st dst off (bswap_128 b); Some (0, d)
      | _ => None
      end
  | UUID128 b => d ← st dst off (bswap_128 b); Some (0, d)
  | UUID_UNSPEC => Some (- EINVAL, dst)
  end.

(** *** Well-formed values, and equality of UUIDs *)

Definition uuid_ok (u : bt_uuid) : Prop :=
  match u with
  | UUID_UNSPEC => False
  | UUID16 v => is_u16 v
  | UUID32 v => is_u32 v
  | UUID128 b => List.length b = 16%nat /\ bytes_ok b
  end.

#[export] Instance uuid_ok_dec u : Decision (uuid_ok u).
Proof. destruct u; simpl; apply _. Defined.

(** The sixteen bytes a UUID stands for. *)
Definition uuid_bytes (u : bt_uuid) : bytes :=
  match bt_uuid_to_uuid128 u UUID_UNSPEC with UUID128 b => b | _ => [] end.

(** The equivalence [bt_uuid_cmp] decides. *)
#[export] Instance uuid_equiv : Equiv bt_uuid :=
  fun u v => uuid_bytes u = uuid_bytes v /\ (u = UUID_UNSPEC <-> v = UUID_UNSPEC).

#[export] Instance uuid_equivalence : Equivalence (≡@{bt_uuid}).
Proof.
  split; unfold equiv, uuid_equiv.
  - intros u. done.
  - intros u v [H1 H2]. by rewrite H1, H2.
  - intros u v w [H1 H2] [H3 H4]. by rewrite H1, H2, H3, H4.
Qed.

Lemma bt_uuid_cmp_memcmp u v : u <> UUID_UNSPEC -> v <> UUID_UNSPEC ->
  bt_uuid_cmp u v = Some (memcmp (uuid_bytes u) (uuid_bytes v)).
Proof. destruct u, v; done. Qed.

Lemma bt_uuid_cmp_unspec u v : u = UUID_UNSPEC \/ v = UUID_UNSPEC -> bt_uuid_cmp u v = None.
Proof. intros [-> | ->]; [done|]. by destruct u. Qed.

#[export] Instance bt_uuid_cmp_proper : Proper ((≡) ==> (≡) ==> (=)) bt_uuid_cmp.
Proof.
  intros u u' [H1 H2] v v' [H3 H4].
  destruct (decide (u = UUID_UNSPEC)) as [Hu|Hu].
  { rewrite !bt_uuid_cmp_unspec by (left; tauto). done. }
  destruct (decide (v = UUID_UNSPEC)) as [Hv|Hv].
  { rewrite !bt_uuid_cmp_unspec by (right; tauto). done. }
  rewrite !bt_uuid_cmp_memcmp by tauto. by rewrite H1, H3.
Qed.

Lemma patch_base_length off be :
  0 <= off -> off + zlen be <= 16 -> List.length (patch_base off be) = 16%nat.
Proof.
  intros H1 H2. unfold patch_base, zlen in *.
  rewrite !length_app, length_take, length_drop.
  change (List.length bluetooth_base_uuid) with 16%nat. lia.
Qed.

Lemma uuid_bytes_length u : uuid_ok u -> List.length (uuid_bytes u) = 16%nat.
Proof.
  destruct u; simpl; try done; [intros _; reflexivity..|]. by intros [].
Qed.

Lemma patch_base_ok off be : bytes_ok be -> bytes_ok (patch_base off be).
Proof.
  assert (bytes_ok bluetooth_base_uuid) as Hb by (repeat constructor; lia).
  intros Hbe. unfold patch_base, bytes_ok in *. rewrite !Forall_app.
  split_and!; [by apply Forall_take|done|by apply Forall_drop].
Qed.

Lemma uuid_bytes_ok u : uuid_ok u -> bytes_ok (uuid_bytes u).
Proof.
  destruct u; simpl; try done; [intros _; apply patch_base_ok, be_bytes_ok..|].
  by intros [].
Qed.

(** *** Text *)

Lemma be_word_scan (l : bytes) r n :
  bytes_ok l -> List.length l = n -> (0 < n)%nat ->
  scan_hex (2 * n) (hex_str (2 * n) (be_val l) ++ r) = Some (be_val l, r).
Proof.
  intros Hl Hn Hpos. rewrite scan_hex_str by lia.
  rewrite Z.mod_small; [done|]. pose proof (be_val_range l Hl) as H. unfold zlen in H.
  rewrite Hn in H. replace (16 ^ Z.of_nat (2 * n)) with (256 ^ Z.of_nat n); [done|].
  change 256 with (16 ^ 2). rewrite <- Z.pow_mul_r by lia. f_equal. lia.
Qed.

Lemma string_to_uuid128_text d :
  List.length d = 16%nat -> bytes_ok d ->
  bt_string_to_uuid128 (uuid128_text d) = inr (UUID128 d).
Proof.
  intros Hlen Hok.
  assert (forall off n : nat, (off + n <= 16)%nat -> (0 < n)%nat -> bytes_ok (take n (drop off d)) /\
            List.length (take n (drop off d)) = n) as Hw.
  { intros off n H1 H2. split; [by apply Forall_take, Forall_drop|].
    rewrite length_take, length_drop. lia. }
  assert (forall (l : bytes) (n : nat), bytes_ok l /\ List.length l = n ->
            be_bytes n (be_val l mod 2 ^ (8 * Z.of_nat n)) = l) as Hb.
  { intros l n [Hl <-]. pose proof (be_val_range l Hl) as Hr. unfold zlen in Hr.
    rewrite Z.pow_mul_r by lia. change (2 ^ 8) with 256.
    rewrite Z.mod_small by lia. by apply be_bytes_val. }
  unfold bt_string_to_uuid128, uuid128_text, uuid128_format.
  rewrite <- (app_nil_r (hex_str 4 (be_val (take 2 (drop 14 d))))).
  repeat (cbn [sscanf app]; first
    [ rewrite (be_word_scan _ _ 4) by (apply Hw; lia) || lia
    | rewrite (be_word_scan _ _ 2) by (apply Hw; lia) || lia
    | rewrite (Z.eqb_refl DASH) ]).
  change (2 ^ 32) with (2 ^ (8 * Z.of_nat 4)). change (2 ^ 16) with (2 ^ (8 * Z.of_nat 2)).
  rewrite !Hb by (apply Hw; lia). unfold bt_uuid128_create. do 2 f_equal.
  do 16 (destruct d as [|? d]; [discriminate Hlen|]). destruct d; [done|discriminate Hlen].
Qed.

Lemma uuid128_text_inj d d' :
  List.length d = 16%nat -> bytes_ok d -> List.length d' = 16%nat -> bytes_ok d' ->
  uuid128_text d = uuid128_text d' -> d = d'.
Proof.
  intros H1 H2 H3 H4 Heq. pose proof (string_to_uuid128_text d H1 H2) as E.
  rewrite Heq, string_to_uuid128_text in E by done. by simplify_eq.
Qed.

Lemma sscanf_lits l f s : sscanf ((Lit <$> l) ++ f) s <> [] ->
  exists t, s = l ++ t /\ sscanf f t = sscanf ((Lit <$> l) ++ f) s.
Proof.
  revert s. induction l as [|c l IH]; intros s Hs; [by exists s|].
  destruct s as [|x s]; [done|]. cbn [fmap list_fmap app sscanf] in *.
  destruct (Z.eqb_spec x c) as [->|]; [|done].
  destruct (IH s Hs) as (t & -> & Ht). by exists t.
Qed.

Lemma hex_str_app n m v :
  0 <= v -> hex_str (n + m) v = hex_str n (v / 16 ^ Z.of_nat m) ++ hex_str m v.
Proof.
  intros Hv. induction n as [|n IH]; [done|]. cbn [hex_str app Nat.add]. rewrite IH.
  do 3 f_equal. rewrite Z.div_div by lia. f_equal. rewrite <- Z.pow_add_r by lia. f_equal. lia.
Qed.

Definition text_char (c : Z) : Prop := c = DASH \/ 48 <= c <= 57 \/ 97 <= c <= 102.

Lemma hex_str_text n v : Forall text_char (hex_str n v).
Proof. eapply List.Forall_impl; [|apply hex_str_chars]. unfold text_char. simpl. lia. Qed.

Lemma uuid128_text_chars d : Forall text_char (uuid128_text d).
Proof.
  unfold uuid128_text. rewrite !Forall_app.
  split_and!; try apply hex_str_text; repeat constructor.
Qed.

Lemma uuid128_text_length d : List.length (uuid128_text d) = 36%nat.
Proof. unfold uuid128_text. by rewrite !length_app, !hex_str_length. Qed.

Definition base_tail : bytes := chars "-0000-1000-8000-00805f9b34fb".

Lemma base_text y : is_u16 y ->
  uuid128_text (patch_base 2 (be_bytes 2 y)) = chars "0000" ++ hex_str 4 y ++ base_tail.
Proof.
  intros Hy. unfold uuid128_text.
  assert (be_val (take 4 (drop 0 (patch_base 2 (be_bytes 2 y)))) = y) as ->.
  { change (take 4 _) with (0 :: 0 :: be_bytes 2 y). unfold be_val, be_bytes.
    cbn [rev]. rewrite <- app_assoc. cbn. unfold is_u16 in Hy. words_lia. }
  unfold is_u16 in Hy. rewrite (hex_str_app 4 4) by lia. rewrite Z.div_small by lia.
  rewrite <- app_assoc. reflexivity.
Qed.

Lemma sscanf_oneof set f s k :
  List.length (sscanf (OneOf set :: f) s) = S k ->
  exists c t, s = c :: t /\ c ∈ set /\ List.length (sscanf f t) = k.
Proof.
  destruct s as [|c t]; [done|]. cbn [sscanf]. case_bool_decide; [|done].
  intros [= H1]. by exists c, t.
Qed.

Lemma sscanf_lits_length l f s k : List.length (sscanf (lits l ++ f) s) = S k ->
  exists t, s = chars l ++ t /\ List.length (sscanf f t) = S k.
Proof.
  intros H. destruct (sscanf_lits (chars l) f s) as (t & Hs & Ht).
  { intros E. unfold lits in H. by rewrite E in H. }
  exists t. split; [done|]. by rewrite Ht.
Qed.

(** A printed UUID that passes the base-UUID test is a 16-bit UUID in the base. *)
Lemma base_uuid128_text d :
  List.length d = 16%nat -> bytes_ok d -> is_base_uuid128 (uuid128_text d) = true ->
  exists y, is_u16 y /\ d = patch_base 2 (be_bytes 2 y).
Proof.
  intros Hlen Hok Hbase. unfold is_base_uuid128 in Hbase.
  destruct (negb _); [done|]. apply Nat.eqb_eq in Hbase.
  assert (exists w rest, 0 <= w /\ uuid128_text d = hex_str 8 w ++ rest) as (w & rest & Hw & Htext).
  { eexists _, _. split; [|reflexivity].
    apply (be_val_range (take 4 (drop 0 d))). by apply Forall_take, Forall_drop. }
  pose proof (uuid128_text_chars d) as Hch. pose proof (uuid128_text_length d) as Hl.
  exists (w mod 2 ^ 16). split; [apply u16_range|].
  apply uuid128_text_inj; try done; [apply patch_base_ok, be_bytes_ok|].
  rewrite base_text by apply u16_range.
  rewrite Htext, (hex_str_app 4 4), <- app_assoc in * by done.
  apply sscanf_lits_length in Hbase as (t & Ht & Hbase).
  apply app_inj_1 in Ht as [H0 <-]; [|by rewrite hex_str_length].
  rewrite H0. f_equal. cbn [app sscanf] in Hbase. rewrite scan_hex_str in Hbase by lia.
  change (16 ^ Z.of_nat 4) with (2 ^ 16) in *. f_equal.
  { assert (forall v, hex_str 4 v = hex_str 4 (v mod 2 ^ 16)) as Hmod; [|apply Hmod].
    intros v. cbn [hex_str].
    change (16 ^ Z.of_nat 3) with 4096. change (16 ^ Z.of_nat 2) with 256.
    change (16 ^ Z.of_nat 1) with 16. change (16 ^ Z.of_nat 0) with 1.
    do 3 (f_equal; [f_equal; words_lia|]). do 2 f_equal. words_lia. }
  cbn [List.length] in Hbase. apply eq_add_S in Hbase.
  apply sscanf_lits_length in Hbase as (t1 & -> & Hbase).
  apply sscanf_oneof in Hbase as (c1 & t2 & -> & Hc1 & Hbase).
  apply sscanf_lits_length in Hbase as (t3 & -> & Hbase).
  apply sscanf_oneof in Hbase as (c2 & t4 & -> & Hc2 & Hbase).
  apply sscanf_lits_length in Hbase as (t5 & -> & Hbase).
  apply sscanf_oneof in Hbase as (c3 & t6 & -> & Hc3 & Hbase).
  apply sscanf_oneof in Hbase as (c4 & t7 & -> & Hc4 & _).
  rewrite !length_app, !hex_str_length in Hl. cbn in Hl.
  assert (t7 = []) as -> by (apply length_zero_iff_nil; lia).
  repeat (rewrite ?Forall_app, ?List.Forall_cons_iff in Hch).
  assert (forall c h, c ∈ [h; h - 32] -> 98 <= h <= 102 -> text_char c -> c = h) as Hcase.
  { intros c h Hc Hh Ht. unfold text_char, DASH in Ht. set_unfold in Hc. lia. }
  rewrite (Hcase c1 102), (Hcase c2 98), (Hcase c3 102), (Hcase c4 98) by (done || tauto || lia).
  reflexivity.
Qed.

Lemma string_to_uuid16_base y : is_u16 y ->
  bt_string_to_uuid16 (hex_str 4 y ++ base_tail) = inr (UUID16 y).
Proof.
  intros Hy. unfold bt_string_to_uuid16. unfold is_u16 in Hy.
  rewrite strtol16_str; try done; try lia.
  change (16 ^ Z.of_nat 4) with (2 ^ 16). cbn [base_tail].
  unfold bt_uuid16_create. rewrite Z.mod_small by lia.
  rewrite !u16_small by (unfold is_u16; rewrite ?u16_small; unfold is_u16; lia). reflexivity.
Qed.

Lemma is_uuid128_text d : is_uuid128 (uuid128_text d) = true.
Proof. reflexivity. Qed.

(** C40. Text round trip: any UUID printed into a buffer of at least MAX_LEN_UUID_STR bytes
    is parsed back, by the base-UUID branch or by the 128-bit branch, to a UUID that
    [bt_uuid_cmp] calls equal. *)
Theorem uuid_string_roundtrip u n : uuid_ok u -> 37 <= n ->
  exists s u', bt_uuid_to_string (Some u) n = Some (0, Some s) /\
    bt_string_to_uuid s = inr u' /\ uuid_ok u' /\ bt_uuid_cmp u u' = Some 0.
Proof.
  intros Hu Hn. pose proof (uuid_bytes_length u Hu) as Hlen.
  pose proof (uuid_bytes_ok u Hu) as Hok. pose proof (uuid128_text_length (uuid_bytes u)) as Hl.
  assert (u <> UUID_UNSPEC) as Hne by (by intros ->).
  assert (bt_uuid_to_string (Some u) n = Some (0, Some (uuid128_text (uuid_bytes u)))) as Hstr.
  { transitivity (Some (0, snprintf n (uuid128_text (uuid_bytes u)))); [by destruct u|].
    unfold snprintf. rewrite (proj2 (Z.eqb_neq _ _)) by lia. by rewrite take_ge by lia. }
  assert (forall u', uuid_ok u' -> uuid_bytes u' = uuid_bytes u -> bt_uuid_cmp u u' = Some 0)
    as Hcmp.
  { intros u' Hu' E. rewrite bt_uuid_cmp_memcmp by (by intros ->). f_equal.
    apply memcmp_eq; by rewrite E. }
  exists (uuid128_text (uuid_bytes u)).
  unfold bt_string_to_uuid. destruct (is_base_uuid128 _) eqn:Hb.
  - destruct (base_uuid128_text _ Hlen Hok Hb) as (y & Hy & Hd).
    exists (UUID16 y). rewrite Hstr, Hd, base_text by done.
    change (drop 4 _) with (hex_str 4 y ++ base_tail).
    split; [done|]. split; [by apply string_to_uuid16_base|]. split; [done|].
    by apply Hcmp.
  - exists (UUID128 (uuid_bytes u)). rewrite is_uuid128_text, string_to_uuid128_text by done.
    split_and!; try done. by apply Hcmp.
Qed.

(** [bt_uuid_cmp] is a decidable comparison of the sixteen bytes: on specified UUIDs it is
    defined, 0 exactly for equivalent UUIDs of whatever width, and antisymmetric. *)
Theorem bt_uuid_cmp_spec u v : uuid_ok u -> uuid_ok v ->
  exists c, bt_uuid_cmp u v = Some c /\ bt_uuid_cmp v u = Some (- c) /\ (c = 0 <-> u ≡ v).
Proof.
  intros Hu Hv.
  assert (u <> UUID_UNSPEC) by (by intros ->). assert (v <> UUID_UNSPEC) by (by intros ->).
  exists (memcmp (uuid_bytes u) (uuid_bytes v)). rewrite !bt_uuid_cmp_memcmp by done.
  split_and!; [done|by rewrite memcmp_antisym|].
  rewrite memcmp_eq by (by rewrite !uuid_bytes_length).
  unfold equiv, uuid_equiv. split; [|by intros []]. intros E. split; [done|tauto].
Qed.

Lemma uuid_string_roundtrip_witness :
  exists s u', bt_uuid_to_string (Some (UUID16 0x180f)) 37 = Some (0, Some s) /\
    bt_string_to_uuid s = inr u' /\ uuid_ok u' /\ bt_uuid_cmp (UUID16 0x180f) u' = Some 0.
Proof. apply (uuid_string_roundtrip (UUID16 0x180f) 37); [vm_compute; intuition congruence|lia]. Defined.

Lemma bt_uuid_cmp_spec_witness :
  exists c, bt_uuid_cmp (UUID16 0x180f) (UUID32 0x1810) = Some c /\
    bt_uuid_cmp (UUID32 0x1810) (UUID16 0x180f) = Some (- c) /\
    (c = 0 <-> UUID16 0x180f ≡ UUID32 0x1810).
Proof. apply bt_uuid_cmp_spec; vm_compute; intuition congruence. Defined.
End Uuid.
