(* ===== verification/AttPdu.v ===== *)
(** The ATT protocol data units of attrib/att.c: every [enc_] and [dec_] function, on
    explicit buffers.  [None] of the outer option is an access outside an object (or through
    NULL); a buffer pointer is [option bytes], an out-pointer that is only tested against
    NULL is a [bool], and what a decoder stores is the second component of its result. *)
From Stdlib Require Import ZArith Lia.
From stdpp Require Import base numbers list option.
From S2P Require Import Prelude Libc Uuid.
Import Libc Uuid.

Local Open Scope Z_scope.

Module Att.

(** *** Constants of attrib/att.h *)

Definition ATT_SIGNATURE_LEN : Z := 12.
Definition ATT_OP_ERROR : Z := 0x01.
Definition ATT_OP_MTU_REQ : Z := 0x02.
Definition ATT_OP_MTU_RESP : Z := 0x03.
Definition ATT_OP_FIND_INFO_REQ : Z := 0x04.
Definition ATT_OP_FIND_INFO_RESP : Z := 0x05.
Definition ATT_OP_FIND_BY_TYPE_REQ : Z := 0x06.
Definition ATT_OP_FIND_BY_TYPE_RESP : Z := 0x07.
Definition ATT_OP_READ_BY_TYPE_REQ : Z := 0x08.
Definition ATT_OP_READ_BY_TYPE_RESP : Z := 0x09.
Definition ATT_OP_READ_REQ : Z := 0x0A.
Definition ATT_OP_READ_RESP : Z := 0x0B.
Definition ATT_OP_READ_BLOB_REQ : Z := 0x0C.
Definition ATT_OP_READ_BLOB_RESP : Z := 0x0D.
Definition ATT_OP_READ_BY_GROUP_REQ : Z := 0x10.
Definition ATT_OP_READ_BY_GROUP_RESP : Z := 0x11.
Definition ATT_OP_WRITE_REQ : Z := 0x12.
Definition ATT_OP_WRITE_RESP : Z := 0x13.
Definition ATT_OP_WRITE_CMD : Z := 0x52.
Definition ATT_OP_PREP_WRITE_REQ : Z := 0x16.
Definition ATT_OP_PREP_WRITE_RESP : Z := 0x17.
Definition ATT_OP_EXEC_WRITE_REQ : Z := 0x18.
Definition ATT_OP_EXEC_WRITE_RESP : Z := 0x19.
Definition ATT_OP_HANDLE_NOTIFY : Z := 0x1B.
Definition ATT_OP_HANDLE_IND : Z := 0x1D.
Definition ATT_OP_HANDLE_CNF : Z := 0x1E.
Definition ATT_OP_SIGNED_WRITE_CMD : Z := 0xD2.

(** *** Data *)

Record att_data_list := mk_data_list { num : Z; len_ : Z; data : list bytes }.
Record att_range := mk_range { r_start : Z; r_end : Z }.

#[export] Instance att_data_list_eq_dec : EqDecision att_data_list.
Proof. solve_decision. Defined.
#[export] Instance att_range_eq_dec : EqDecision att_range.
Proof. solve_decision. Defined.

(** What an encoder returns: the [uint16_t] result and the buffer. *)
Abbreviation enc_result := (ub (Z * option bytes)).
(** What a decoder returns: the result and the stored values (none on failure). *)
Abbreviation dec_result A := (ub (Z * option A)).

(** Reads one byte. *)
Definition byte_at (p : bytes) (off : Z) : ub Z := p !! Z.to_nat off.

(** *** Helpers *)

Definition put_uuid_le (src : bt_uuid) (p : bytes) (off : Z) : ub bytes :=
  match src with
  | UUID16 v => put_le16 v p off
  | UUID128 b => st p off (bswap_128 b)
  | _ => None
  end.

Definition get_uuid (type : Z) (p : bytes) (off : Z) : ub bt_uuid :=
  if type =? 16 then v ← get_le16 p off; Some (bt_uuid16_create v)
  else b ← ld p off 16; Some (bt_uuid128_create (bswap_128 b)).

Definition att_data_list_alloc (n l : Z) : option att_data_list :=
  if UINT8_MAX <? l then None
  else Some (mk_data_list n l (replicate (Z.to_nat n) (replicate (Z.to_nat l) 0))).

(** [for (i = 0; i < num; i++) { memcpy(list->data[i], ptr, list->len); ptr += list->len; }] *)
Fixpoint copy_entries (p : bytes) (ptr l : Z) (n : nat) : ub (list bytes) :=
  match n with
  | O => Some []
  | S n' => e ← ld p ptr l; es ← copy_entries p (ptr + l) l n'; Some (e :: es)
  end.

Definition fill_list (list : att_data_list) (p : bytes) (ptr : Z) : ub att_data_list :=
  es ← copy_entries p ptr (len_ list) (Z.to_nat (num list));
  Some (mk_data_list (num list) (len_ list) es).

(** [for (i = 0, w = 2; i < num && w + l <= len; i++) { memcpy(ptr, data[i], l); ... }];
    [wrap] is the conversion to the type of [w]. *)
Fixpoint put_entries (wrap : Z -> Z) (entries : list bytes) (n : nat) (l len w ptr : Z)
    (p : bytes) : ub (Z * bytes) :=
  match n with
  | O => Some (w, p)
  | S n' =>
      if w + l <=? len then
        match entries with
        | [] => None
        | e :: es =>
            v ← ld e 0 l;
            p ← st p ptr v;
            put_entries wrap es n' l len (wrap (w + l)) (ptr + l) p
        end
      else Some (w, p)
  end.

(** The UUID width of a type request: [None] for the [return 0] branch. *)
Definition request_uuid_len (u : bt_uuid) : option Z :=
  match u with UUID16 _ => Some 2 | UUID128 _ => Some 16 | _ => None end.

(** Common body of the encoders of the two "by type" requests. *)
Definition enc_by_type (opcode start end_ : Z) (uuid : option bt_uuid) (pdu : option bytes)
    : enc_result :=
  match uuid with
  | None => Some (0, pdu)
  | Some u =>
      match request_uuid_len u with
      | None => Some (0, pdu)
      | Some uuid_len =>
          p ← pdu;
          p ← put_u8 opcode p 0;
          p ← put_le16 start p 1;
          p ← put_le16 end_ p 3;
          p ← put_uuid_le u p 5;
          Some (u16 (5 + uuid_len), Some p)
      end
  end.

(** *** Read By Group Type *)

Definition enc_read_by_grp_req (start end_ : Z) (uuid : option bt_uuid) (pdu : option bytes)
    (len : Z) : enc_result :=
  enc_by_type ATT_OP_READ_BY_GROUP_REQ start end_ uuid pdu.

Definition dec_read_by_grp_req (pdu : option bytes) (len : Z) (start end_ uuid : bool)
    : dec_result (Z * Z * bt_uuid) :=
  let min_len := 5 in
  match pdu with
  | None => Some (0, None)
  | Some p =>
      if negb start || negb end_ || negb uuid then Some (0, None) else
      op ← byte_at p 0;
      if negb (op =? ATT_OP_READ_BY_GROUP_REQ) then Some (0, None) else
      match (if len =? min_len + 2 then Some 16
             else if len =? min_len + 16 then Some 128 else None) with
      | None => Some (0, None)
      | Some type =>
          s ← get_le16 p 1;
          e ← get_le16 p 3;
          u ← get_uuid type p 5;
          Some (u16 len, Some (s, e, u))
      end
  end.

Definition enc_read_by_grp_resp (list : option att_data_list) (pdu : option bytes) (len : Z)
    : enc_result :=
  match list with
  | None => Some (0, pdu)
  | Some list =>
      if len <? len_ list + 2 then Some (0, pdu) else
      p ← pdu;
      p ← put_u8 ATT_OP_READ_BY_GROUP_RESP p 0;
      p ← put_u8 (len_ list) p 1;
      '(w, p) ← put_entries u16 (data list) (Z.to_nat (num list)) (len_ list) len 2 2 p;
      Some (w, Some p)
  end.

(** Common body of the decoders of the two attribute data lists. *)
Definition dec_data_list (opcode min_len min_elen : Z) (pdu : option bytes) (len : Z)
    : ub (option att_data_list) :=
  p ← pdu;
  op ← byte_at p 0;
  if negb (op =? opcode) then Some None else
  if len <? min_len then Some None else
  elen ← byte_at p 1;
  if elen <? min_elen then Some None else
  if negb (usize (len - 2) mod elen =? 0) then Some None else
  let n := u16 (usize (len - 2) / elen) in
  match att_data_list_alloc n elen with
  | None => Some None
  | Some list => l ← fill_list list p 2; Some (Some l)
  end.

Definition dec_read_by_grp_resp (pdu : option bytes) (len : Z) : ub (option att_data_list) :=
  dec_data_list ATT_OP_READ_BY_GROUP_RESP 7 5 pdu len.

(** *** Find By Type Value *)

(** [if (vlen > len - min_len) vlen = len - min_len;] *)
Definition clip (vlen len min_len : Z) : Z :=
  if usize (len - min_len) <? vlen then usize (len - min_len) else vlen.

Definition enc_find_by_type_req (start end_ : Z) (uuid : option bt_uuid) (value : bytes)
    (vlen : Z) (pdu : option bytes) (len : Z) : enc_result :=
  let min_len := 7 in
  match pdu with
  | None => Some (0, pdu)
  | Some p =>
      match uuid with
      | Some (UUID16 v) =>
          let vlen := clip vlen len min_len in
          p ← put_u8 ATT_OP_FIND_BY_TYPE_REQ p 0;
          p ← put_le16 start p 1;
          p ← put_le16 end_ p 3;
          p ← put_le16 v p 5;
          if 0 <? vlen then
            d ← ld value 0 vlen;
            p ← st p 7 d;
            Some (u16 (min_len + vlen), Some p)
          else Some (min_len, Some p)
      | _ => Some (0, pdu)
      end
  end.

(** [value] is the caller's buffer; the fields are the range, the UUID, the value read
    ([*vlen] is its length) and the buffer after the copy. *)
Definition dec_find_by_type_req (pdu : option bytes) (len : Z) (value : bytes)
    : dec_result (Z * Z * bt_uuid * bytes * bytes) :=
  match pdu with
  | None => Some (0, None)
  | Some p =>
      if len <? 7 then Some (0, None) else
      op ← byte_at p 0;
      if negb (op =? ATT_OP_FIND_BY_TYPE_REQ) then Some (0, None) else
      s ← get_le16 p 1;
      e ← get_le16 p 3;
      u ← get_le16 p 5;
      d ← ld p 7 (len - 7);
      value ← st value 0 d;
      Some (u16 len, Some (s, e, bt_uuid16_create u, d, value))
  end.

Fixpoint put_ranges (matches : list att_range) (len offset : Z) (p : bytes)
    : ub (Z * bytes) :=
  match matches with
  | [] => Some (offset, p)
  | r :: l =>
      if offset + 4 <=? len then
        p ← put_le16 (r_start r) p offset;
        p ← put_le16 (r_end r) p (offset + 2);
        put_ranges l len (u16 (offset + 4)) p
      else Some (offset, p)
  end.

Definition enc_find_by_type_resp (matches : list att_range) (pdu : option bytes) (len : Z)
    : enc_result :=
  match pdu with
  | None => Some (0, pdu)
  | Some p =>
      p ← put_u8 ATT_OP_FIND_BY_TYPE_RESP p 0;
      '(offset, p) ← put_ranges matches len 1 p;
      Some (offset, Some p)
  end.

(** The loop reads four bytes per round: [fuel] rounds, [len] being at most [4 * fuel]. *)
Fixpoint get_ranges (fuel : nat) (p : bytes) (len offset : Z) : ub (list att_range) :=
  match fuel with
  | O => Some []
  | S fuel' =>
      if offset + 4 <=? len then
        s ← get_le16 p offset;
        e ← get_le16 p (offset + 2);
        l ← get_ranges fuel' p len (offset + 4);
        Some (mk_range s e :: l)
      else Some []
  end.

Definition dec_find_by_type_resp (pdu : option bytes) (len : Z) : ub (list att_range) :=
  match pdu with
  | None => Some []
  | Some p =>
      if len <? 5 then Some [] else
      op ← byte_at p 0;
      if negb (op =? ATT_OP_FIND_BY_TYPE_RESP) then Some [] else
      if negb ((len - 1) mod 4 =? 0) then Some [] else
      get_ranges (Z.to_nat len) p len 1
  end.

(** *** Read By Type *)

Definition enc_read_by_type_req (start end_ : Z) (uuid : option bt_uuid) (pdu : option bytes)
    (len : Z) : enc_result :=
  enc_by_type ATT_OP_READ_BY_TYPE_REQ start end_ uuid pdu.

Definition dec_read_by_type_req (pdu : option bytes) (len : Z) (start end_ uuid : bool)
    : dec_result (Z * Z * bt_uuid) :=
  let min_len := 5 in
  match pdu with
  | None => Some (0, None)
  | Some p =>
      if negb start || negb end_ || negb uuid then Some (0, None) else
      match (if len =? min_len + 2 then Some 16
             else if len =? min_len + 16 then Some 128 else None) with
      | None => Some (0, None)
      | Some type =>
          op ← byte_at p 0;
          if negb (op =? ATT_OP_READ_BY_TYPE_REQ) then Some (0, None) else
          s ← get_le16 p 1;
          e ← get_le16 p 3;
          u ← get_uuid type p 5;
          Some (u16 len, Some (s, e, u))
      end
  end.

Definition enc_read_by_type_resp (list : option att_data_list) (pdu : option bytes) (len : Z)
    : enc_result :=
  match list with
  | None => Some (0, pdu)
  | Some list =>
      match pdu with
      | None => Some (0, pdu)
      | Some p =>
          let l := Z.min (usize (len - 2)) (len_ list) in
          p ← put_u8 ATT_OP_READ_BY_TYPE_RESP p 0;
          p ← put_u8 l p 1;
          '(w, p) ← put_entries usize (data list) (Z.to_nat (num list)) l len 2 2 p;
          Some (u16 w, Some p)
      end
  end.

Definition dec_read_by_type_resp (pdu : option bytes) (len : Z) : ub (option att_data_list) :=
  dec_data_list ATT_OP_READ_BY_TYPE_RESP 5 3 pdu len.

(** *** Handle and value PDUs *)

(** Common body of enc_write_cmd and enc_write_req. *)
Definition enc_handle_value (opcode handle : Z) (value : bytes) (vlen : Z)
    (pdu : option bytes) (len : Z) : enc_result :=
  let min_len := 3 in
  match pdu with
  | None => Some (0, pdu)
  | Some p =>
      let vlen := clip vlen len min_len in
      p ← put_u8 opcode p 0;
      p ← put_le16 handle p 1;
      if 0 <? vlen then
        d ← ld value 0 vlen;
        p ← st p 3 d;
        Some (u16 (min_len + vlen), Some p)
      else Some (min_len, Some p)
  end.

(** Common body of dec_write_cmd and dec_write_req; [value] is the caller's buffer (NULL when
    [None]), the result holds the handle, the bytes copied and the buffer. *)
Definition dec_handle_value (opcode : Z) (pdu : option bytes) (len : Z) (handle : bool)
    (value : option bytes) (vlen : bool) : dec_result (Z * bytes * bytes) :=
  let min_len := 3 in
  match pdu, value with
  | Some p, Some value =>
      if negb vlen || negb handle then Some (0, None) else
      if len <? min_len then Some (0, None) else
      op ← byte_at p 0;
      if negb (op =? opcode) then Some (0, None) else
      h ← get_le16 p 1;
      d ← ld p min_len (len - min_len);
      value ← st value 0 d;
      Some (u16 len, Some (h, d, value))
  | _, _ => Some (0, None)
  end.

Definition enc_write_cmd (handle : Z) (value : bytes) (vlen : Z) (pdu : option bytes)
    (len : Z) : enc_result :=
  enc_handle_value ATT_OP_WRITE_CMD handle value vlen pdu len.

Definition dec_write_cmd (pdu : option bytes) (len : Z) (handle : bool)
    (value : option bytes) (vlen : bool) : dec_result (Z * bytes * bytes) :=
  dec_handle_value ATT_OP_WRITE_CMD pdu len handle value vlen.

(** [sign] is [bt_crypto_sign_att(crypto, csrk, m, m_len, sign_cnt, signature)]: the
    twelve signature bytes, or [None] when it fails. *)
Definition enc_signed_write_cmd (sign : bytes -> option bytes) (handle : Z) (value : bytes)
    (vlen : Z) (pdu : option bytes) (len : Z) : enc_result :=
  let hdr_len := 3 in
  let min_len := hdr_len + ATT_SIGNATURE_LEN in
  match pdu with
  | None => Some (0, pdu)
  | Some p =>
      let vlen := clip vlen len min_len in
      p ← put_u8 ATT_OP_SIGNED_WRITE_CMD p 0;
      p ← put_le16 handle p 1;
      p ← (if 0 <? vlen then d ← ld value 0 vlen; st p hdr_len d else Some p);
      m ← ld p 0 (hdr_len + vlen);
      match sign m with
      | None => Some (0, Some p)
      | Some signature =>
          p ← st p (hdr_len + vlen) signature;
          Some (u16 (min_len + vlen), Some p)
      end
  end.

(** Handle, value bytes, the caller's value and signature buffers. *)
Definition dec_signed_write_cmd (pdu : option bytes) (len : Z) (handle : bool)
    (value : option bytes) (vlen : bool) (signature : bytes)
    : dec_result (Z * bytes * bytes * bytes) :=
  let hdr_len := 3 in
  let min_len := hdr_len + ATT_SIGNATURE_LEN in
  match pdu, value with
  | Some p, Some value =>
      if negb vlen || negb handle then Some (0, None) else
      if len <? min_len then Some (0, None) else
      op ← byte_at p 0;
      if negb (op =? ATT_OP_SIGNED_WRITE_CMD) then Some (0, None) else
      let n := len - min_len in
      h ← get_le16 p 1;
      d ← ld p hdr_len n;
      value ← st value 0 d;
      s ← ld p (hdr_len + n) ATT_SIGNATURE_LEN;
      signature ← st signature 0 s;
      Some (u16 len, Some (h, d, value, signature))
  | _, _ => Some (0, None)
  end.

Definition enc_write_req (handle : Z) (value : bytes) (vlen : Z) (pdu : option bytes)
    (len : Z) : enc_result :=
  enc_handle_value ATT_OP_WRITE_REQ handle value vlen pdu len.

Definition dec_write_req (pdu : option bytes) (len : Z) (handle : bool)
    (value : option bytes) (vlen : bool) : dec_result (Z * bytes * bytes) :=
  dec_handle_value ATT_OP_WRITE_REQ pdu len handle value vlen.

(** *** PDUs with fixed fields *)

(** Writes an opcode and nothing else. *)
Definition enc_opcode (opcode : Z) (pdu : option bytes) : enc_result :=
  match pdu with
  | None => Some (0, pdu)
  | Some p => p ← put_u8 opcode p 0; Some (1, Some p)
  end.

(** Writes an opcode and one or two 16-bit fields. *)
Definition enc_1x16 (opcode a : Z) (pdu : option bytes) : enc_result :=
  match pdu with
  | None => Some (0, pdu)
  | Some p => p ← put_u8 opcode p 0; p ← put_le16 a p 1; Some (3, Some p)
  end.

Definition enc_2x16 (opcode a b : Z) (pdu : option bytes) : enc_result :=
  match pdu with
  | None => Some (0, pdu)
  | Some p =>
      p ← put_u8 opcode p 0; p ← put_le16 a p 1; p ← put_le16 b p 3; Some (5, Some p)
  end.

Definition dec_1x16 (opcode : Z) (pdu : option bytes) (len : Z) (a : bool) : dec_result Z :=
  let min_len := 3 in
  match pdu with
  | None => Some (0, None)
  | Some p =>
      if negb a then Some (0, None) else
      if len <? min_len then Some (0, None) else
      op ← byte_at p 0;
      if negb (op =? opcode) then Some (0, None) else
      v ← get_le16 p 1;
      Some (min_len, Some v)
  end.

Definition dec_2x16 (opcode : Z) (pdu : option bytes) (len : Z) (a b : bool)
    : dec_result (Z * Z) :=
  let min_len := 5 in
  match pdu with
  | None => Some (0, None)
  | Some p =>
      if negb a || negb b then Some (0, None) else
      if len <? min_len then Some (0, None) else
      op ← byte_at p 0;
      if negb (op =? opcode) then Some (0, None) else
      v ← get_le16 p 1;
      w ← get_le16 p 3;
      Some (min_len, Some (v, w))
  end.

Definition enc_write_resp (pdu : option bytes) : enc_result :=
  enc_opcode ATT_OP_WRITE_RESP pdu.

Definition dec_write_resp (pdu : option bytes) (len : Z) : dec_result unit :=
  match pdu with
  | None => Some (0, None)
  | Some p =>
      op ← byte_at p 0;
      if negb (op =? ATT_OP_WRITE_RESP) then Some (0, None) else Some (u16 len, Some tt)
  end.

Definition enc_read_req (handle : Z) (pdu : option bytes) (len : Z) : enc_result :=
  enc_1x16 ATT_OP_READ_REQ handle pdu.

Definition enc_read_blob_req (handle offset : Z) (pdu : option bytes) (len : Z)
    : enc_result :=
  enc_2x16 ATT_OP_READ_BLOB_REQ handle offset pdu.

Definition dec_read_req (pdu : option bytes) (len : Z) (handle : bool) : dec_result Z :=
  dec_1x16 ATT_OP_READ_REQ pdu len handle.

Definition dec_read_blob_req (pdu : option bytes) (len : Z) (handle offset : bool)
    : dec_result (Z * Z) :=
  dec_2x16 ATT_OP_READ_BLOB_REQ pdu len handle offset.

(** Common body of the two read responses, from offset [off] of the value. *)
Definition enc_value_resp (opcode : Z) (value : bytes) (off vlen : Z) (pdu : option bytes)
    (len : Z) : enc_result :=
  match pdu with
  | None => Some (0, pdu)
  | Some p =>
      let vlen := clip vlen len 1 in
      p ← put_u8 opcode p 0;
      d ← ld value off vlen;
      p ← st p 1 d;
      Some (u16 (vlen + 1), Some p)
  end.

Definition enc_read_resp (value : bytes) (vlen : Z) (pdu : option bytes) (len : Z)
    : enc_result :=
  enc_value_resp ATT_OP_READ_RESP value 0 vlen pdu len.

Definition enc_read_blob_resp (value : bytes) (vlen offset : Z) (pdu : option bytes)
    (len : Z) : enc_result :=
  enc_value_resp ATT_OP_READ_BLOB_RESP value offset (usize (vlen - offset)) pdu len.

(** The value read is the second component (none when [value] is NULL); the buffer follows. *)
Definition dec_read_resp (pdu : option bytes) (len : Z) (value : option bytes) (vlen : Z)
    : dec_result (bytes * bytes) :=
  match pdu with
  | None => Some (- EINVAL, None)
  | Some p =>
      op ← byte_at p 0;
      if negb (op =? ATT_OP_READ_RESP) then Some (- EINVAL, None) else
      match value with
      | None => Some (len - 1, None)
      | Some value =>
          if vlen <? usize (len - 1) then Some (- ENOBUFS, None) else
          d ← ld p 1 (usize (len - 1));
          value ← st value 0 d;
          Some (len - 1, Some (d, value))
      end
  end.

Definition enc_error_resp (opcode handle status : Z) (pdu : option bytes) (len : Z)
    : enc_result :=
  p ← pdu;
  p ← put_u8 ATT_OP_ERROR p 0;
  p ← put_u8 opcode p 1;
  p ← put_le16 handle p 2;
  p ← put_u8 status p 4;
  Some (5, Some p).

(** *** Find Information *)

Definition enc_find_info_req (start end_ : Z) (pdu : option bytes) (len : Z) : enc_result :=
  enc_2x16 ATT_OP_FIND_INFO_REQ start end_ pdu.

Definition dec_find_info_req (pdu : option bytes) (len : Z) (start end_ : bool)
    : dec_result (Z * Z) :=
  dec_2x16 ATT_OP_FIND_INFO_REQ pdu len start end_.

Definition enc_find_info_resp (format : Z) (list : option att_data_list)
    (pdu : option bytes) (len : Z) : enc_result :=
  match pdu, list with
  | Some p, Some list =>
      if len <? len_ list + 2 then Some (0, pdu) else
      p ← put_u8 ATT_OP_FIND_INFO_RESP p 0;
      p ← put_u8 format p 1;
      '(w, p) ← put_entries usize (data list) (Z.to_nat (num list)) (len_ list) len 2 2 p;
      Some (u16 w, Some p)
  | _, _ => Some (0, pdu)
  end.

Definition find_info_elen (format : Z) : Z :=
  2 + (if format =? 1 then 2 else if format =? 2 then 16 else 0).

Definition dec_find_info_resp (pdu : option bytes) (len : Z) (format : bool)
    : ub (option (Z * att_data_list)) :=
  match pdu with
  | None => Some None
  | Some p =>
      if negb format then Some None else
      op ← byte_at p 0;
      if negb (op =? ATT_OP_FIND_INFO_RESP) then Some None else
      fmt ← byte_at p 1;
      let elen := find_info_elen fmt in
      let n := u16 (usize (len - 2) / elen) in
      match att_data_list_alloc n elen with
      | None => Some None
      | Some list => l ← fill_list list p 2; Some (Some (fmt, l))
      end
  end.

(** *** Notifications and indications *)

Definition enc_handle_event (opcode handle : Z) (value : bytes) (vlen : Z)
    (pdu : option bytes) (len : Z) : enc_result :=
  let min_len := 3 in
  match pdu with
  | None => Some (0, pdu)
  | Some p =>
      if len <? usize (vlen + min_len) then Some (0, pdu) else
      p ← put_u8 opcode p 0;
      p ← put_le16 handle p 1;
      d ← ld value 0 vlen;
      p ← st p 3 d;
      Some (u16 (vlen + min_len), Some p)
  end.

Definition enc_notification (handle : Z) (value : bytes) (vlen : Z) (pdu : option bytes)
    (len : Z) : enc_result :=
  enc_handle_event ATT_OP_HANDLE_NOTIFY handle value vlen pdu len.

Definition enc_indication (handle : Z) (value : bytes) (vlen : Z) (pdu : option bytes)
    (len : Z) : enc_result :=
  enc_handle_event ATT_OP_HANDLE_IND handle value vlen pdu len.

(** The handle (when asked for), the bytes copied and the caller's buffer. *)
Definition dec_indication (pdu : option bytes) (len : Z) (handle : bool) (value : bytes)
    (vlen : Z) : dec_result (option Z * bytes * bytes) :=
  let min_len := 3 in
  match pdu with
  | None => Some (0, None)
  | Some p =>
      op ← byte_at p 0;
      if negb (op =? ATT_OP_HANDLE_IND) then Some (0, None) else
      if len <? min_len then Some (0, None) else
      let dlen := u16 (Z.min (len - min_len) vlen) in
      h ← (if handle then h ← get_le16 p 1; Some (Some h) else Some None);
      d ← ld p 3 dlen;
      value ← st value 0 d;
      Some (dlen, Some (h, d, value))
  end.

Definition enc_confirmation (pdu : option bytes) (len : Z) : enc_result :=
  enc_opcode ATT_OP_HANDLE_CNF pdu.

(** *** MTU exchange *)

Definition enc_mtu_req (mtu : Z) (pdu : option bytes) (len : Z) : enc_result :=
  enc_1x16 ATT_OP_MTU_REQ mtu pdu.

Definition dec_mtu_req (pdu : option bytes) (len : Z) (mtu : bool) : dec_result Z :=
  dec_1x16 ATT_OP_MTU_REQ pdu len mtu.

Definition enc_mtu_resp (mtu : Z) (pdu : option bytes) (len : Z) : enc_result :=
  enc_1x16 ATT_OP_MTU_RESP mtu pdu.

Definition dec_mtu_resp (pdu : option bytes) (len : Z) (mtu : bool) : dec_result Z :=
  dec_1x16 ATT_OP_MTU_RESP pdu len mtu.

(** *** Prepare and Execute Write *)

Definition enc_prep_write (opcode handle offset : Z) (value : bytes) (vlen : Z)
    (pdu : option bytes) (len : Z) : enc_result :=
  let min_len := 5 in
  match pdu with
  | None => Some (0, pdu)
  | Some p =>
      let vlen := clip vlen len min_len in
      p ← put_u8 opcode p 0;
      p ← put_le16 handle p 1;
      p ← put_le16 offset p 3;
      if 0 <? vlen then
        d ← ld value 0 vlen;
        p ← st p 5 d;
        Some (u16 (min_len + vlen), Some p)
      else Some (min_len, Some p)
  end.

Definition enc_prep_write_req (handle offset : Z) (value : bytes) (vlen : Z)
    (pdu : option bytes) (len : Z) : enc_result :=
  enc_prep_write ATT_OP_PREP_WRITE_REQ handle offset value vlen pdu len.

Definition enc_prep_write_resp (handle offset : Z) (value : bytes) (vlen : Z)
    (pdu : option bytes) (len : Z) : enc_result :=
  enc_prep_write ATT_OP_PREP_WRITE_RESP handle offset value vlen pdu len.

Definition dec_prep_write (opcode : Z) (pdu : option bytes) (len : Z) (handle offset : bool)
    (value : option bytes) (vlen : bool) : dec_result (Z * Z * bytes * bytes) :=
  let min_len := 5 in
  match pdu, value with
  | Some p, Some value =>
      if negb handle || negb offset || negb vlen then Some (0, None) else
      if len <? min_len then Some (0, None) else
      op ← byte_at p 0;
      if negb (op =? opcode) then Some (0, None) else
      h ← get_le16 p 1;
      o ← get_le16 p 3;
      d ← ld p min_len (len - min_len);
      value ← st value 0 d;
      Some (u16 len, Some (h, o, d, value))
  | _, _ => Some (0, None)
  end.

Definition dec_prep_write_req (pdu : option bytes) (len : Z) (handle offset : bool)
    (value : option bytes) (vlen : bool) : dec_result (Z * Z * bytes * bytes) :=
  dec_prep_write ATT_OP_PREP_WRITE_REQ pdu len handle offset value vlen.

(** The source compares with the opcode of the request here too. *)
Definition dec_prep_write_resp (pdu : option bytes) (len : Z) (handle offset : bool)
    (value : option bytes) (vlen : bool) : dec_result (Z * Z * bytes * bytes) :=
  dec_prep_write ATT_OP_PREP_WRITE_REQ pdu len handle offset value vlen.

Definition enc_exec_write_req (flags : Z) (pdu : option bytes) (len : Z) : enc_result :=
  match pdu with
  | None => Some (0, pdu)
  | Some p =>
      if 1 <? flags then Some (0, pdu) else
      p ← put_u8 ATT_OP_EXEC_WRITE_REQ p 0;
      p ← put_u8 flags p 1;
      Some (2, Some p)
  end.

Definition dec_exec_write_req (pdu : option bytes) (len : Z) (flags : bool) : dec_result Z :=
  let min_len := 2 in
  match pdu with
  | None => Some (0, None)
  | Some p =>
      if negb flags then Some (0, None) else
      if len <? min_len then Some (0, None) else
      op ← byte_at p 0;
      if negb (op =? ATT_OP_EXEC_WRITE_REQ) then Some (0, None) else
      f ← byte_at p 1;
      Some (min_len, Some f)
  end.

Definition enc_exec_write_resp (pdu : option bytes) : enc_result :=
  enc_opcode ATT_OP_EXEC_WRITE_RESP pdu.

Definition dec_exec_write_resp (pdu : option bytes) (len : Z) : dec_result unit :=
  let min_len := 1 in
  match pdu with
  | None => Some (0, None)
  | Some p =>
      if len <? min_len then Some (0, None) else
      op ← byte_at p 0;
      if negb (op =? ATT_OP_EXEC_WRITE_RESP) then Some (0, None)
      else Some (u16 len, Some tt)
  end.

(** *** The wire format *)

Inductive pdu :=
| Error_resp (opcode handle status : Z)
| Mtu_req (mtu : Z)
| Mtu_resp (mtu : Z)
| Find_info_req (start end_ : Z)
| Find_info_resp (format : Z) (entries : list bytes)
| Find_by_type_req (start end_ uuid : Z) (value : bytes)
| Find_by_type_resp (ranges : list att_range)
| Read_by_type_req (start end_ : Z) (uuid : bt_uuid)
| Read_by_type_resp (elen : Z) (entries : list bytes)
| Read_by_grp_req (start end_ : Z) (uuid : bt_uuid)
| Read_by_grp_resp (elen : Z) (entries : list bytes)
| Read_req (handle : Z)
| Read_resp (value : bytes)
| Read_blob_req (handle offset : Z)
| Read_blob_resp (value : bytes)
| Write_req (handle : Z) (value : bytes)
| Write_resp
| Write_cmd (handle : Z) (value : bytes)
| Signed_write_cmd (handle : Z) (value signature : bytes)
| Prep_write_req (handle offset : Z) (value : bytes)
| Prep_write_resp (handle offset : Z) (value : bytes)
| Exec_write_req (flags : Z)
| Exec_write_resp
| Notification (handle : Z) (value : bytes)
| Indication (handle : Z) (value : bytes)
| Confirmation.

Definition wire_uuid (u : bt_uuid) : bytes :=
  match u with UUID16 v => le_bytes 2 v | UUID128 b => rev b | _ => [] end.

Definition wire_range (r : att_range) : bytes :=
  le_bytes 2 (r_start r) ++ le_bytes 2 (r_end r).

Definition wire (p : pdu) : bytes :=
  match p with
  | Error_resp o h s => ATT_OP_ERROR :: o :: le_bytes 2 h ++ [s]
  | Mtu_req m => ATT_OP_MTU_REQ :: le_bytes 2 m
  | Mtu_resp m => ATT_OP_MTU_RESP :: le_bytes 2 m
  | Find_info_req s e => ATT_OP_FIND_INFO_REQ :: le_bytes 2 s ++ le_bytes 2 e
  | Find_info_resp f es => ATT_OP_FIND_INFO_RESP :: f :: concat es
  | Find_by_type_req s e u v =>
      ATT_OP_FIND_BY_TYPE_REQ :: le_bytes 2 s ++ le_bytes 2 e ++ le_bytes 2 u ++ v
  | Find_by_type_resp rs => ATT_OP_FIND_BY_TYPE_RESP :: concat (wire_range <$> rs)
  | Read_by_type_req s e u =>
      ATT_OP_READ_BY_TYPE_REQ :: le_bytes 2 s ++ le_bytes 2 e ++ wire_uuid u
  | Read_by_type_resp l es => ATT_OP_READ_BY_TYPE_RESP :: l :: concat es
  | Read_by_grp_req s e u =>
      ATT_OP_READ_BY_GROUP_REQ :: le_bytes 2 s ++ le_bytes 2 e ++ wire_uuid u
  | Read_by_grp_resp l es => ATT_OP_READ_BY_GROUP_RESP :: l :: concat es
  | Read_req h => ATT_OP_READ_REQ :: le_bytes 2 h
  | Read_resp v => ATT_OP_READ_RESP :: v
  | Read_blob_req h o => ATT_OP_READ_BLOB_REQ :: le_bytes 2 h ++ le_bytes 2 o
  | Read_blob_resp v => ATT_OP_READ_BLOB_RESP :: v
  | Write_req h v => ATT_OP_WRITE_REQ :: le_bytes 2 h ++ v
  | Write_resp => [ATT_OP_WRITE_RESP]
  | Write_cmd h v => ATT_OP_WRITE_CMD :: le_bytes 2 h ++ v
  | Signed_write_cmd h v s => ATT_OP_SIGNED_WRITE_CMD :: le_bytes 2 h ++ v ++ s
  | Prep_write_req h o v => ATT_OP_PREP_WRITE_REQ :: le_bytes 2 h ++ le_bytes 2 o ++ v
  | Prep_write_resp h o v => ATT_OP_PREP_WRITE_RESP :: le_bytes 2 h ++ le_bytes 2 o ++ v
  | Exec_write_req f => [ATT_OP_EXEC_WRITE_REQ; f]
  | Exec_write_resp => [ATT_OP_EXEC_WRITE_RESP]
  | Notification h v => ATT_OP_HANDLE_NOTIFY :: le_bytes 2 h ++ v
  | Indication h v => ATT_OP_HANDLE_IND :: le_bytes 2 h ++ v
  | Confirmation => [ATT_OP_HANDLE_CNF]
  end.

Definition request_uuid_ok (u : bt_uuid) : Prop :=
  uuid_ok u /\ match u with UUID32 _ => False | _ => True end.

Definition entries_ok (min_elen max_elen l : Z) (es : list bytes) : Prop :=
  min_elen <= l <= max_elen /\ Forall (fun e => zlen e = l) es /\ es <> [].

Definition range_ok (r : att_range) : Prop := is_u16 (r_start r) /\ is_u16 (r_end r).

(** The values the fields of a PDU can have. *)
Definition pdu_ok (p : pdu) : Prop :=
  match p with
  | Error_resp o h s => is_u8 o /\ is_u16 h /\ is_u8 s
  | Mtu_req m | Mtu_resp m => is_u16 m
  | Find_info_req s e => is_u16 s /\ is_u16 e
  | Find_info_resp f es =>
      (f = 1 \/ f = 2) /\ entries_ok 4 18 (find_info_elen f) es
  | Find_by_type_req s e u v => is_u16 s /\ is_u16 e /\ is_u16 u
  | Find_by_type_resp rs => Forall range_ok rs /\ rs <> []
  | Read_by_type_req s e u | Read_by_grp_req s e u =>
      is_u16 s /\ is_u16 e /\ request_uuid_ok u
  | Read_by_type_resp l es => entries_ok 3 255 l es
  | Read_by_grp_resp l es => entries_ok 5 255 l es
  | Read_req h | Write_req h _ | Write_cmd h _ | Notification h _ | Indication h _ => is_u16 h
  | Read_blob_req h o | Prep_write_req h o _ | Prep_write_resp h o _ => is_u16 h /\ is_u16 o
  | Signed_write_cmd h v s => is_u16 h /\ zlen s = ATT_SIGNATURE_LEN
  | Exec_write_req f => 0 <= f <= 1
  | Read_resp _ | Read_blob_resp _ | Write_resp | Exec_write_resp | Confirmation => True
  end.

Definition list_of (l : Z) (es : list bytes) : option att_data_list :=
  Some (mk_data_list (zlen es) l es).

(** The encoder call that sends a PDU from a buffer. *)
Definition encode (p : pdu) (buf : bytes) : enc_result :=
  let b := Some buf in
  let len := zlen buf in
  match p with
  | Error_resp o h s => enc_error_resp o h s b len
  | Mtu_req m => enc_mtu_req m b len
  | Mtu_resp m => enc_mtu_resp m b len
  | Find_info_req s e => enc_find_info_req s e b len
  | Find_info_resp f es => enc_find_info_resp f (list_of (find_info_elen f) es) b len
  | Find_by_type_req s e u v =>
      enc_find_by_type_req s e (Some (UUID16 u)) v (zlen v) b len
  | Find_by_type_resp rs => enc_find_by_type_resp rs b len
  | Read_by_type_req s e u => enc_read_by_type_req s e (Some u) b len
  | Read_by_type_resp l es => enc_read_by_type_resp (list_of l es) b len
  | Read_by_grp_req s e u => enc_read_by_grp_req s e (Some u) b len
  | Read_by_grp_resp l es => enc_read_by_grp_resp (list_of l es) b len
  | Read_req h => enc_read_req h b len
  | Read_resp v => enc_read_resp v (zlen v) b len
  | Read_blob_req h o => enc_read_blob_req h o b len
  | Read_blob_resp v => enc_read_blob_resp v (zlen v) 0 b len
  | Write_req h v => enc_write_req h v (zlen v) b len
  | Write_resp => enc_write_resp b
  | Write_cmd h v => enc_write_cmd h v (zlen v) b len
  | Signed_write_cmd h v s => enc_signed_write_cmd (fun _ => Some s) h v (zlen v) b len
  | Prep_write_req h o v => enc_prep_write_req h o v (zlen v) b len
  | Prep_write_resp h o v => enc_prep_write_resp h o v (zlen v) b len
  | Exec_write_req f => enc_exec_write_req f b len
  | Exec_write_resp => enc_exec_write_resp b
  | Notification h v => enc_notification h v (zlen v) b len
  | Indication h v => enc_indication h v (zlen v) b len
  | Confirmation => enc_confirmation b len
  end.

(** *** Decoding *)

(** The bearer's reader: it looks at the opcode, calls the decoder of that PDU with a value
    buffer and drops the PDU when the decoder reports an error.  Error responses, Read Blob
    responses, notifications and confirmations have no decoder. *)
Definition accepted {A} (r : dec_result A) (mk : A -> pdu) : ub (option pdu) :=
  '(n, o) ← r; Some (if n =? 0 then None else mk <$> o).

Definition decode (w value : bytes) : ub (option pdu) :=
  let p := Some w in
  let len := zlen w in
  op ← byte_at w 0;
  if op =? ATT_OP_MTU_REQ then accepted (dec_mtu_req p len true) Mtu_req
  else if op =? ATT_OP_MTU_RESP then accepted (dec_mtu_resp p len true) Mtu_resp
  else if op =? ATT_OP_FIND_INFO_REQ then
    accepted (dec_find_info_req p len true true) (fun '(s, e) => Find_info_req s e)
  else if op =? ATT_OP_FIND_INFO_RESP then
    r ← dec_find_info_resp p len true;
    Some ((fun '(f, l) => Find_info_resp f (data l)) <$> r)
  else if op =? ATT_OP_FIND_BY_TYPE_REQ then
    accepted (dec_find_by_type_req p len value)
      (fun '(s, e, u, v, _) =>
         Find_by_type_req s e (match u with UUID16 x => x | _ => 0 end) v)
  else if op =? ATT_OP_FIND_BY_TYPE_RESP then
    rs ← dec_find_by_type_resp p len;
    Some (match rs with [] => None | _ => Some (Find_by_type_resp rs) end)
  else if op =? ATT_OP_READ_BY_TYPE_REQ then
    accepted (dec_read_by_type_req p len true true true)
      (fun '(s, e, u) => Read_by_type_req s e u)
  else if op =? ATT_OP_READ_BY_TYPE_RESP then
    r ← dec_read_by_type_resp p len;
    Some ((fun l => Read_by_type_resp (len_ l) (data l)) <$> r)
  else if op =? ATT_OP_READ_BY_GROUP_REQ then
    accepted (dec_read_by_grp_req p len true true true)
      (fun '(s, e, u) => Read_by_grp_req s e u)
  else if op =? ATT_OP_READ_BY_GROUP_RESP then
    r ← dec_read_by_grp_resp p len;
    Some ((fun l => Read_by_grp_resp (len_ l) (data l)) <$> r)
  else if op =? ATT_OP_READ_REQ then accepted (dec_read_req p len true) Read_req
  else if op =? ATT_OP_READ_RESP then
    '(n, o) ← dec_read_resp p len (Some value) (zlen value);
    Some (if n <? 0 then None else (fun '(v, _) => Read_resp v) <$> o)
  else if op =? ATT_OP_READ_BLOB_REQ then
    accepted (dec_read_blob_req p len true true) (fun '(h, o) => Read_blob_req h o)
  else if op =? ATT_OP_WRITE_REQ then
    accepted (dec_write_req p len true (Some value) true) (fun '(h, v, _) => Write_req h v)
  else if op =? ATT_OP_WRITE_RESP then
    accepted (dec_write_resp p len) (fun _ => Write_resp)
  else if op =? ATT_OP_WRITE_CMD then
    accepted (dec_write_cmd p len true (Some value) true) (fun '(h, v, _) => Write_cmd h v)
  else if op =? ATT_OP_SIGNED_WRITE_CMD then
    accepted (dec_signed_write_cmd p len true (Some value) true (replicate 12 0))
      (fun '(h, v, _, s) => Signed_write_cmd h v s)
  else if op =? ATT_OP_PREP_WRITE_REQ then
    accepted (dec_prep_write_req p len true true (Some value) true)
      (fun '(h, o, v, _) => Prep_write_req h o v)
  else if op =? ATT_OP_PREP_WRITE_RESP then
    accepted (dec_prep_write_resp p len true true (Some value) true)
      (fun '(h, o, v, _) => Prep_write_resp h o v)
  else if op =? ATT_OP_EXEC_WRITE_REQ then accepted (dec_exec_write_req p len true) Exec_write_req
  else if op =? ATT_OP_EXEC_WRITE_RESP then
    accepted (dec_exec_write_resp p len) (fun _ => Exec_write_resp)
  else if op =? ATT_OP_HANDLE_IND then
    '(_, o) ← dec_indication p len true value (zlen value);
    Some (o ≫= fun '(h, v, _) => h ← h; Some (Indication h v))
  else Some None.

(** The PDUs that decode to themselves.  A value list may have no empty value where the
    result doubles as the error indication. *)
Definition decodable (p : pdu) : bool :=
  match p with
  | Error_resp _ _ _ | Read_blob_resp _ | Notification _ _ | Confirmation
  | Prep_write_resp _ _ _ => false
  | _ => true
  end.

End Att.
