(* ===== verification/AttEnc.v ===== *)
(** The encoders of attrib/att.c write the wire format of their PDU. *)
From Stdlib Require Import ZArith Lia.
From stdpp Require Import base numbers list option.
From S2P Require Import Prelude Libc Uuid AttPdu.
Import Libc Uuid Att.

Local Open Scope Z_scope.

(** *** Lemmas on the entry loops *)

Lemma clip_fits vlen len m : 0 <= vlen -> 0 <= m -> m + vlen <= len < 2 ^ 64 ->
  clip vlen len m = vlen.
Proof.
  intros H1 H2 H3. unfold clip. rewrite u64_small by (unfold is_u64; lia).
  case_eqb; lia.
Qed.

Lemma put_entries_spec wrap es n l len w pre b :
  n = length es -> 0 <= l -> Forall (fun e => zlen e = l) es ->
  (forall x, 0 <= x <= len -> wrap x = x) ->
  w = zlen pre -> w + l * zlen es <= len -> len <= zlen b ->
  put_entries wrap es n l len w (zlen pre) (pre ++ drop (length pre) b)
    = Some (w + l * zlen es, (pre ++ concat es) ++ drop (length (pre ++ concat es)) b).
Proof.
  intros -> Hl Hes Hwrap. revert w pre.
  induction Hes as [|e es He Hes IH]; intros w pre -> Hw Hb.
  { simpl. rewrite app_nil_r. do 2 f_equal. unfold zlen. simpl. lia. }
  rewrite zlen_cons in *. pose proof (zlen_nonneg es). pose proof (zlen_nonneg pre).
  cbn [put_entries length]. rewrite (proj2 (Z.leb_le _ _)) by nia.
  rewrite ld_is_Some by lia. cbn [mbind option_bind].
  replace (take (Z.to_nat l) (drop (Z.to_nat 0) e)) with e
    by (rewrite take_ge; [done|rewrite length_drop; unfold zlen in He; lia]).
  rewrite st_pre by nia. cbn [mbind option_bind].
  rewrite Hwrap by nia.
  replace (zlen pre + l) with (zlen (pre ++ e)) by (rewrite zlen_app; lia).
  rewrite IH by (try done; rewrite ?zlen_app; nia).
  cbn [concat]. rewrite <- !app_assoc. do 2 f_equal. rewrite zlen_app. lia.
Qed.

Lemma put_ranges_spec rs len pre b :
  zlen pre + 4 * zlen rs <= len -> len <= zlen b -> len < 2 ^ 16 ->
  put_ranges rs len (zlen pre) (pre ++ drop (length pre) b)
    = Some (zlen pre + 4 * zlen rs,
            (pre ++ concat (wire_range <$> rs))
              ++ drop (length (pre ++ concat (wire_range <$> rs))) b).
Proof.
  revert pre. induction rs as [|r rs IH]; intros pre Hw Hb Hlen.
  { simpl. rewrite app_nil_r. do 2 f_equal. unfold zlen. simpl. lia. }
  rewrite zlen_cons in *. pose proof (zlen_nonneg rs). pose proof (zlen_nonneg pre).
  cbn [put_ranges]. rewrite (proj2 (Z.leb_le _ _)) by lia.
  do 2 store_step. rewrite u16_small by (unfold is_u16; lia).
  replace (zlen pre + 4)
    with (zlen ((pre ++ le_bytes 2 (r_start r)) ++ le_bytes 2 (r_end r))) by len_lia.
  rewrite IH by len_lia. cbn [fmap list_fmap concat]. unfold wire_range at 3 4.
  rewrite <- !app_assoc. do 2 f_equal. len_lia.
Qed.

(** *** The encoders write the wire format *)

(** [buf] after [w] was written at its start, and the result of an encoder that did so. *)
Definition written (w buf : bytes) : bytes := w ++ drop (length w) buf.

Lemma enc_done n w' w buf : n = zlen w -> w' = w ->
  Some (n, Some (w' ++ drop (length w') buf)) = Some (zlen w, Some (written w buf)).
Proof. intros -> ->. reflexivity. Qed.

Lemma ld_full v n : n = zlen v -> ld v 0 n = Some v.
Proof.
  intros ->. rewrite ld_is_Some by len_lia. change (Z.to_nat 0) with 0%nat.
  unfold zlen. rewrite Nat2Z.id, drop_0, take_ge by lia. reflexivity.
Qed.

Lemma ld_prefix pre post n : n = zlen pre -> ld (pre ++ post) 0 n = Some pre.
Proof. intros ->. apply (ld_mid [] pre post); done. Qed.

Lemma put_uuid_le_pre u pre b off : request_uuid_ok u -> off = zlen pre ->
  zlen pre + zlen (wire_uuid u) <= zlen b ->
  put_uuid_le u (pre ++ drop (length pre) b) off
  = Some ((pre ++ wire_uuid u) ++ drop (length (pre ++ wire_uuid u)) b).
Proof.
  intros [Hu Hw] -> Hb. destruct u; try done; cbn [put_uuid_le wire_uuid] in *.
  - unfold put_le16. by rewrite st_pre by len_lia.
  - unfold bswap_128. by rewrite st_pre by len_lia.
Qed.

Lemma request_uuid_len_wire u : request_uuid_ok u ->
  request_uuid_len u = Some (zlen (wire_uuid u)).
Proof.
  intros [Hu Hw]. destruct u; try done; cbn [request_uuid_len wire_uuid] in *.
  destruct Hu as [Hu _]. f_equal. len_lia.
Qed.

Ltac enc_wire :=
  try match goal with w := _ |- _ => subst w end;
  cbn [mbind option_bind]; repeat store_step;
  apply enc_done; [len_lia | rewrite ?u8_small by done; rewrite <- ?app_assoc; reflexivity].

Lemma enc_opcode_wire op buf : is_u8 op -> 1 <= zlen buf ->
  enc_opcode op (Some buf) = Some (zlen [op], Some (written [op] buf)).
Proof. intros. unfold enc_opcode. enc_wire. Qed.

Lemma enc_1x16_wire op a buf : is_u8 op -> 3 <= zlen buf ->
  enc_1x16 op a (Some buf)
    = Some (zlen (op :: le_bytes 2 a), Some (written (op :: le_bytes 2 a) buf)).
Proof. intros. unfold enc_1x16. enc_wire. Qed.

Lemma enc_2x16_wire op a b buf : is_u8 op -> 5 <= zlen buf ->
  let w := op :: le_bytes 2 a ++ le_bytes 2 b in
  enc_2x16 op a b (Some buf) = Some (zlen w, Some (written w buf)).
Proof. intros. unfold enc_2x16. enc_wire. Qed.

Lemma enc_by_type_wire op s e u buf : is_u8 op -> request_uuid_ok u ->
  let w := op :: le_bytes 2 s ++ le_bytes 2 e ++ wire_uuid u in
  zlen w <= zlen buf < 2 ^ 16 ->
  enc_by_type op s e (Some u) (Some buf) = Some (zlen w, Some (written w buf)).
Proof.
  intros Hop Hu w Hlen. subst w. unfold enc_by_type.
  rewrite request_uuid_len_wire by done. cbn [mbind option_bind].
  do 3 store_step. rewrite put_uuid_le_pre by (try done; len_lia).
  cbn [mbind option_bind]. enc_wire.
Qed.

(** The optional copy of the value after a prefix. *)
Lemma put_value_pre (r : Z) pre v buf off :
  off = zlen pre -> zlen pre + zlen v <= zlen buf < 2 ^ 16 ->
  (if 0 <? zlen v then
     d ← ld v 0 (zlen v); p ← st (pre ++ drop (length pre) buf) off d;
     Some (u16 (off + zlen v), Some p)
   else Some (off, Some (pre ++ drop (length pre) buf)))
  = Some (zlen (pre ++ v), Some (written (pre ++ v) buf)).
Proof.
  intros -> Hlen. pose proof (zlen_nonneg v). pose proof (zlen_nonneg pre).
  rewrite zlen_app. case_eqb as Hv.
  - rewrite ld_full by done. cbn [mbind option_bind]. store_step.
    rewrite u16_small by (unfold is_u16; lia). reflexivity.
  - assert (v = []) as -> by (destruct v; [done|len_lia]).
    rewrite !app_nil_r. unfold zlen at 3. cbn [length]. rewrite Z.add_0_r. reflexivity.
Qed.

Lemma enc_handle_value_wire op h v buf : is_u8 op ->
  let w := op :: le_bytes 2 h ++ v in
  zlen w <= zlen buf < 2 ^ 16 ->
  enc_handle_value op h v (zlen v) (Some buf) (zlen buf)
    = Some (zlen w, Some (written w buf)).
Proof.
  intros Hop w Hlen. subst w. unfold enc_handle_value.
  rewrite clip_fits by len_lia. do 2 store_step.
  rewrite (put_value_pre 0) by len_lia. rewrite u8_small by done. reflexivity.
Qed.

Lemma enc_prep_write_wire op h o v buf : is_u8 op ->
  let w := op :: le_bytes 2 h ++ le_bytes 2 o ++ v in
  zlen w <= zlen buf < 2 ^ 16 ->
  enc_prep_write op h o v (zlen v) (Some buf) (zlen buf)
    = Some (zlen w, Some (written w buf)).
Proof.
  intros Hop w Hlen. subst w. unfold enc_prep_write.
  rewrite clip_fits by len_lia. do 3 store_step.
  rewrite (put_value_pre 0) by len_lia. rewrite u8_small by done.
  rewrite <- !app_assoc. reflexivity.
Qed.

Lemma enc_handle_event_wire op h v buf : is_u8 op ->
  let w := op :: le_bytes 2 h ++ v in
  zlen w <= zlen buf < 2 ^ 16 ->
  enc_handle_event op h v (zlen v) (Some buf) (zlen buf)
    = Some (zlen w, Some (written w buf)).
Proof.
  intros Hop w Hlen. subst w. unfold enc_handle_event.
  rewrite u64_small by (unfold is_u64; len_lia).
  rewrite (proj2 (Z.ltb_ge _ _)) by len_lia.
  do 2 store_step. rewrite ld_full by done. enc_wire.
Qed.

(** From any offset of the value, of which [drop off v] is left. *)
Lemma enc_value_resp_wire op v off n buf : is_u8 op -> 0 <= off <= zlen v -> n = zlen v - off ->
  let w := op :: drop (Z.to_nat off) v in
  zlen w <= zlen buf < 2 ^ 16 ->
  enc_value_resp op v off n (Some buf) (zlen buf) = Some (zlen w, Some (written w buf)).
Proof.
  intros Hop Hoff -> w Hlen. subst w. rewrite zlen_cons in Hlen.
  assert (zlen (drop (Z.to_nat off) v) = zlen v - off) as Hd
    by (unfold zlen in *; rewrite length_drop; lia).
  unfold enc_value_resp. rewrite clip_fits by len_lia. store_step.
  rewrite ld_is_Some by lia. cbn [mbind option_bind].
  replace (take (Z.to_nat (zlen v - off)) (drop (Z.to_nat off) v)) with (drop (Z.to_nat off) v)
    by (symmetry; apply take_ge; unfold zlen in *; lia).
  enc_wire.
Qed.

Lemma enc_read_blob_resp_wire v off buf : 0 <= off <= zlen v -> zlen v < 2 ^ 64 ->
  let w := ATT_OP_READ_BLOB_RESP :: drop (Z.to_nat off) v in
  zlen w <= zlen buf < 2 ^ 16 ->
  enc_read_blob_resp v (zlen v) off (Some buf) (zlen buf)
    = Some (zlen w, Some (written w buf)).
Proof.
  intros Hoff Hv w Hlen. unfold enc_read_blob_resp. apply enc_value_resp_wire; [done|done| |done].
  apply u64_small. unfold is_u64. lia.
Qed.

Lemma zlen_concat (es : list bytes) l : Forall (fun e => zlen e = l) es ->
  zlen (concat es) = l * zlen es.
Proof.
  induction 1 as [|e es He Hes IH]; [simpl; unfold zlen; simpl; lia|].
  cbn [concat]. rewrite zlen_app, zlen_cons, IH, He. lia.
Qed.

Lemma zlen_ranges rs : zlen (concat (wire_range <$> rs)) = 4 * zlen rs.
Proof.
  rewrite (zlen_concat _ 4).
  - unfold zlen. rewrite length_fmap. reflexivity.
  - apply Forall_fmap, Forall_forall. intros r _. unfold compose, wire_range. len_lia.
Qed.

(** The writer of the attribute data lists, whatever the types of the cursor and of the
    result. *)
Lemma put_list_wire (wrap fin : Z -> Z) op f lo hi l es buf :
  is_u8 op -> is_u8 f -> entries_ok lo hi l es -> 0 < lo ->
  (forall x, 0 <= x <= zlen buf -> wrap x = x) -> (forall x, 0 <= x <= zlen buf -> fin x = x) ->
  let w := op :: f :: concat es in
  zlen w <= zlen buf < 2 ^ 16 ->
  (p ← put_u8 op buf 0; p ← put_u8 f p 1;
   '(n, p) ← put_entries wrap es (Z.to_nat (zlen es)) l (zlen buf) 2 2 p; Some (fin n, Some p))
  = Some (zlen w, Some (written w buf)) /\ l <= hi /\ l + 2 <= zlen buf.
Proof.
  intros Hop Hf (Hl & Hes & Hne) Hlo Hwrap Hfin w Hlen. subst w.
  rewrite !zlen_cons, (zlen_concat _ l) in * by done.
  assert (1 <= zlen es) by (destruct es; [done|len_lia]).
  split; [|nia]. assert (2 <= zlen buf) by nia. do 2 store_step. rewrite !u8_small by done.
  change (put_entries _ _ _ _ _ 2 2) with
    (put_entries wrap es (Z.to_nat (zlen es)) l (zlen buf) 2 (zlen ([op] ++ [f]))).
  rewrite put_entries_spec; [|unfold zlen; lia|lia|done|done|reflexivity|lia|lia].
  cbn [mbind option_bind]. rewrite Hfin by nia. f_equal. f_equal. lia.
Qed.

Lemma u16_id n : n < 2 ^ 16 -> forall x, 0 <= x <= n -> u16 x = x.
Proof. intros Hn x Hx. apply u16_small. unfold is_u16. lia. Qed.
Lemma u64_id n : n < 2 ^ 16 -> forall x, 0 <= x <= n -> u64 x = x.
Proof. intros Hn x Hx. apply u64_small. unfold is_u64. lia. Qed.

Lemma find_info_elen_cases f : f = 1 \/ f = 2 -> is_u8 f /\ 4 <= find_info_elen f <= 18.
Proof. intros [-> | ->]; done. Qed.

Lemma enc_find_info_resp_wire f es buf :
  f = 1 \/ f = 2 -> entries_ok 4 18 (find_info_elen f) es ->
  let w := ATT_OP_FIND_INFO_RESP :: f :: concat es in
  zlen w <= zlen buf < 2 ^ 16 ->
  enc_find_info_resp f (list_of (find_info_elen f) es) (Some buf) (zlen buf)
    = Some (zlen w, Some (written w buf)).
Proof.
  intros Hf Hes w Hn. destruct (find_info_elen_cases f Hf) as [Hu8 _].
  unfold enc_find_info_resp, list_of. cbn [len_ data num].
  destruct (put_list_wire u64 u16 ATT_OP_FIND_INFO_RESP f 4 18 (find_info_elen f) es buf) as (Hw & _ & ?);
    [done|done|exact Hes|done|apply u64_id; lia|apply u16_id; lia|done|].
  rewrite (proj2 (Z.ltb_ge _ _)) by lia. exact Hw.
Qed.

Lemma enc_read_by_grp_resp_wire l es buf : entries_ok 5 255 l es ->
  let w := ATT_OP_READ_BY_GROUP_RESP :: l :: concat es in
  zlen w <= zlen buf < 2 ^ 16 ->
  enc_read_by_grp_resp (list_of l es) (Some buf) (zlen buf)
    = Some (zlen w, Some (written w buf)).
Proof.
  intros Hes w Hn. unfold enc_read_by_grp_resp, list_of. cbn [len_ data num].
  assert (is_u8 l) by (destruct Hes; unfold is_u8; lia).
  destruct (put_list_wire u16 (fun x => x) ATT_OP_READ_BY_GROUP_RESP l 5 255 l es buf) as (Hw & _ & ?);
    [done|done|done|done|apply u16_id; lia|done|done|].
  rewrite (proj2 (Z.ltb_ge _ _)) by lia. exact Hw.
Qed.

Lemma enc_read_by_type_resp_wire l es buf : entries_ok 3 255 l es ->
  let w := ATT_OP_READ_BY_TYPE_RESP :: l :: concat es in
  zlen w <= zlen buf < 2 ^ 16 ->
  enc_read_by_type_resp (list_of l es) (Some buf) (zlen buf)
    = Some (zlen w, Some (written w buf)).
Proof.
  intros Hes w Hn. unfold enc_read_by_type_resp, list_of. cbn [len_ data num].
  assert (is_u8 l) by (destruct Hes; unfold is_u8; lia).
  destruct (put_list_wire u64 u16 ATT_OP_READ_BY_TYPE_RESP l 3 255 l es buf) as (Hw & ? & ?);
    [done|done|exact Hes|done|apply u64_id; lia|apply u16_id; lia|done|].
  rewrite u64_small by (unfold is_u64, is_u8 in *; lia). rewrite Z.min_r by lia. exact Hw.
Qed.

Lemma enc_signed_write_cmd_wire sign h v s buf :
  zlen s = ATT_SIGNATURE_LEN ->
  sign (ATT_OP_SIGNED_WRITE_CMD :: le_bytes 2 h ++ v) = Some s ->
  zlen (ATT_OP_SIGNED_WRITE_CMD :: le_bytes 2 h ++ v ++ s) <= zlen buf < 2 ^ 16 ->
  let w := ATT_OP_SIGNED_WRITE_CMD :: le_bytes 2 h ++ v ++ s in
  enc_signed_write_cmd sign h v (zlen v) (Some buf) (zlen buf)
    = Some (zlen w, Some (written w buf)).
Proof.
  intros Hs Hsign Hlen. unfold ATT_SIGNATURE_LEN in Hs.
  unfold enc_signed_write_cmd, ATT_SIGNATURE_LEN.
  rewrite clip_fits by len_lia. do 2 store_step.
  set (b := [u8 ATT_OP_SIGNED_WRITE_CMD] ++ le_bytes 2 h).
  assert (zlen b = 3) as Hb by (subst b; len_lia).
  assert ((if 0 <? zlen v then d ← ld v 0 (zlen v); st (b ++ drop (length b) buf) 3 d
     else Some (b ++ drop (length b) buf)) = Some ((b ++ v) ++ drop (length (b ++ v)) buf)) as Hv.
  { case_eqb as Hc.
    - rewrite ld_full by done. cbn [mbind option_bind]. by rewrite st_pre by len_lia.
    - assert (v = []) as -> by (destruct v; [done|len_lia]). by rewrite app_nil_r. }
  rewrite Hv. cbn [mbind option_bind].
  rewrite ld_prefix by len_lia. cbn [mbind option_bind].
  replace (sign (b ++ v)) with (Some s)
    by (subst b; rewrite <- Hsign, <- app_assoc; reflexivity).
  rewrite st_pre by len_lia. cbn [mbind option_bind].
  apply enc_done; [|subst b; rewrite <- !app_assoc; reflexivity].
  rewrite u16_small; [|unfold is_u16]; len_lia.
Qed.

(** C30. Every encoder of attrib/att.c writes exactly the wire format of its PDU at the start
    of a buffer that has room for it, leaves the rest of the buffer alone and returns the
    length written: no value, entry or range is truncated.  The Read Blob Response has the
    bytes of the attribute's value from any offset within it on, and the signature of the
    Signed Write Command is what the signer gives for the opcode, the handle and the value:
    these bytes, no others. *)
Theorem encode_wire p buf : pdu_ok p -> zlen (wire p) <= zlen buf < 2 ^ 16 ->
  encode p buf = Some (zlen (wire p), Some (written (wire p) buf)) /\
  (forall value offset, 0 <= offset <= zlen value -> zlen value < 2 ^ 64 ->
     p = Read_blob_resp (drop (Z.to_nat offset) value) ->
     enc_read_blob_resp value (zlen value) offset (Some buf) (zlen buf)
       = Some (zlen (wire p), Some (written (wire p) buf))) /\
  (forall sign h v s, p = Signed_write_cmd h v s ->
     sign (ATT_OP_SIGNED_WRITE_CMD :: le_bytes 2 h ++ v) = Some s ->
     enc_signed_write_cmd sign h v (zlen v) (Some buf) (zlen buf)
       = Some (zlen (wire p), Some (written (wire p) buf))).
Proof.
  intros Hp Hlen. split_and!; cycle 1.
  { intros value offset Hoff Hv ->. apply enc_read_blob_resp_wire; [lia|lia|exact Hlen]. }
  { intros sign h v s -> Hs. apply enc_signed_write_cmd_wire; [apply Hp|exact Hs|exact Hlen]. }
  destruct p; cbn [encode wire pdu_ok] in *;
    try (apply enc_opcode_wire; [done|len_lia]);
    try (apply enc_1x16_wire; [done|len_lia]);
    try (apply enc_2x16_wire; [done|len_lia]);
    try (apply enc_by_type_wire; [done|naive_solver|done]);
    try (apply enc_handle_value_wire; [done|done]);
    try (apply enc_prep_write_wire; [done|done]);
    try (apply enc_handle_event_wire; [done|done]);
    try (apply (enc_value_resp_wire _ _ 0); [done|len_lia|lia|done]).
  - destruct Hp as (? & ? & ?). unfold enc_error_resp. enc_wire.
  - apply enc_find_info_resp_wire; [apply Hp|apply Hp|done].
  - destruct Hp as (? & ? & ?). unfold enc_find_by_type_req. rewrite clip_fits by len_lia.
    do 4 store_step. rewrite (put_value_pre 0) by len_lia. rewrite <- !app_assoc. reflexivity.
  - rewrite zlen_cons, zlen_ranges in *. unfold enc_find_by_type_resp. store_step.
    rewrite (put_ranges_spec _ _ [u8 ATT_OP_FIND_BY_TYPE_RESP]) by len_lia.
    reflexivity.
  - by apply enc_read_by_type_resp_wire.
  - by apply enc_read_by_grp_resp_wire.
  - apply (enc_read_blob_resp_wire value 0); [len_lia|len_lia|done].
  - apply enc_signed_write_cmd_wire; [apply Hp|done|done].
  - unfold enc_exec_write_req. rewrite (proj2 (Z.ltb_ge _ _)) by lia.
    assert (is_u8 flags) by (unfold is_u8; lia). enc_wire.
Qed.

(** A Write Request, the end of a value from its byte 2 on, and a signed command whose signer
    fails on any other bytes. *)
Lemma encode_wire_witness :
  let sign m := if bool_decide (m = [0xd2; 0x2a; 0; 1; 2; 3]) then Some (replicate 12 7) else None in
  encode (Write_req 0x2a [1; 2; 3]) (replicate 23 0)
    = Some (6, Some ([0x12; 0x2a; 0; 1; 2; 3] ++ replicate 17 0)) /\
  enc_read_blob_resp [1; 2; 3; 4] 4 2 (Some (replicate 23 0)) 23
    = Some (3, Some ([0x0d; 3; 4] ++ replicate 20 0)) /\
  enc_signed_write_cmd sign 0x2a [1; 2; 3] 3 (Some (replicate 23 0)) 23
    = Some (18, Some ([0xd2; 0x2a; 0; 1; 2; 3] ++ replicate 12 7 ++ replicate 5 0)).
Proof.
  intros sign. split_and!.
  - apply (encode_wire (Write_req 0x2a [1; 2; 3]) (replicate 23 0)).
    + unfold pdu_ok, is_u16. lia.
    + vm_compute. intuition congruence.
  - apply (encode_wire (Read_blob_resp [3; 4]) (replicate 23 0) I);
      [vm_compute; intuition congruence|vm_compute; intuition congruence|done|reflexivity].
  - assert (pdu_ok (Signed_write_cmd 0x2a [1; 2; 3] (replicate 12 7))) as Hok
      by (split; [unfold is_u16; lia|reflexivity]).
    apply (encode_wire _ (replicate 23 0) Hok) with (s := replicate 12 7);
      [vm_compute; intuition congruence|reflexivity|reflexivity].
Defined.
