(* ===== verification/AttDec.v ===== *)
(** The decoders of attrib/att.c: they give back what was encoded, and never read outside
    a PDU they are handed. *)
From Stdlib Require Import ZArith Lia.
From stdpp Require Import base numbers list option.
From S2P Require Import Prelude Libc Uuid AttPdu AttEnc.
Import Libc Uuid Att.

Local Open Scope Z_scope.

Lemma ld_skip (l1 l2 : bytes) off n : zlen l1 <= off -> 0 <= n ->
  ld (l1 ++ l2) off n = ld l2 (off - zlen l1) n.
Proof.
  intros Hoff Hn. pose proof (zlen_nonneg l1). unfold ld. rewrite zlen_app.
  repeat case_decide; try (exfalso; lia); [|done].
  rewrite drop_app_ge by (unfold zlen in *; lia). do 3 f_equal. unfold zlen. lia.
Qed.

Lemma ld_head l post off n : off = 0 -> n = zlen l -> ld (l ++ post) off n = Some l.
Proof. intros ->. apply ld_prefix. Qed.

Lemma ld_whole l off n : off = 0 -> n = zlen l -> ld l off n = Some l.
Proof. intros ->. apply ld_full. Qed.

Lemma byte_at_0 b l : byte_at ([b] ++ l) 0 = Some b.
Proof. reflexivity. Qed.

(** Reads the fields of [l1 ++ l2 ++ ...] one after the other. *)
Ltac ld_step :=
  unfold get_le16; repeat rewrite ld_skip by len_lia;
  first [rewrite ld_head by len_lia | rewrite ld_whole by len_lia];
  cbn [fmap option_fmap option_map mbind option_bind]; rewrite ?le16_val by done.

(** The guards before: the length and the opcode. *)
Ltac dec_guards :=
  cbn [negb orb]; try rewrite (proj2 (Z.ltb_ge _ _)) by len_lia;
  rewrite byte_at_0; cbn [mbind option_bind]; rewrite Z.eqb_refl; cbn [negb orb].

Lemma dec_1x16_wire op a : is_u16 a ->
  let w := [op] ++ le_bytes 2 a in dec_1x16 op (Some w) (zlen w) true = Some (3, Some a).
Proof. intros Ha w. subst w. unfold dec_1x16. dec_guards. ld_step. done. Qed.

Lemma dec_2x16_wire op a b : is_u16 a -> is_u16 b ->
  let w := [op] ++ le_bytes 2 a ++ le_bytes 2 b in
  dec_2x16 op (Some w) (zlen w) true true = Some (5, Some (a, b)).
Proof. intros Ha Hb w. subst w. unfold dec_2x16. dec_guards. do 2 ld_step. done. Qed.

(** The copy into the caller's buffer. *)
Lemma st_value value d : zlen d <= zlen value -> st value 0 d = Some (written d value).
Proof. apply st_0. Qed.

Lemma dec_handle_value_wire op h v value : is_u16 h ->
  let w := [op] ++ le_bytes 2 h ++ v in
  zlen w <= zlen value ->
  dec_handle_value op (Some w) (zlen w) true (Some value) true
    = Some (u16 (zlen w), Some (h, v, written v value)).
Proof.
  intros Ha w Hv. subst w. unfold dec_handle_value. dec_guards. do 2 ld_step.
  by rewrite st_value by len_lia.
Qed.

Lemma dec_prep_write_wire op h o v value : is_u16 h -> is_u16 o ->
  let w := [op] ++ le_bytes 2 h ++ le_bytes 2 o ++ v in
  zlen w <= zlen value ->
  dec_prep_write op (Some w) (zlen w) true true (Some value) true
    = Some (u16 (zlen w), Some (h, o, v, written v value)).
Proof.
  intros Ha Ho w Hv. subst w. unfold dec_prep_write. dec_guards. do 3 ld_step.
  by rewrite st_value by len_lia.
Qed.

Lemma copy_entries_concat es l pre off : Forall (fun e => zlen e = l) es -> 0 <= l ->
  off = zlen pre -> copy_entries (pre ++ concat es) off l (length es) = Some es.
Proof.
  intros Hes Hl. revert pre off. induction Hes as [|e es He Hes IH]; intros pre off ->; [done|].
  cbn [copy_entries length concat]. rewrite ld_mid by done. cbn [mbind option_bind].
  rewrite app_assoc, IH by (rewrite ?zlen_app; lia). done.
Qed.

Lemma list_count (es : list bytes) l n : 0 < l -> zlen es < 2 ^ 16 -> n = l * zlen es -> n < 2 ^ 64 ->
  usize n mod l = 0 /\ u16 (usize n / l) = zlen es.
Proof.
  intros Hl Hes -> Hn. pose proof (zlen_nonneg es).
  rewrite u64_small by (unfold is_u64; nia).
  rewrite Z.mul_comm, Z.mod_mul, Z.div_mul, u16_small by (unfold is_u16; lia). done.
Qed.

Lemma fill_list_concat es l op f : Forall (fun e => zlen e = l) es -> 0 <= l <= 255 ->
  (l0 ← att_data_list_alloc (zlen es) l; fill_list l0 ([op; f] ++ concat es) 2)
    = list_of l es.
Proof.
  intros Hes Hl. unfold att_data_list_alloc, UINT8_MAX.
  rewrite (proj2 (Z.ltb_ge _ _)) by lia. cbn [mbind option_bind].
  unfold fill_list. cbn [num len_]. replace (Z.to_nat (zlen es)) with (length es) by len_lia.
  rewrite copy_entries_concat by (done || lia). done.
Qed.

Lemma dec_data_list_wire op minl mine hi l es :
  entries_ok mine hi l es -> 0 < mine -> hi <= 255 -> minl = 2 + mine ->
  let w := [op; l] ++ concat es in zlen w < 2 ^ 16 ->
  dec_data_list op minl mine (Some w) (zlen w) = Some (list_of l es).
Proof.
  intros (Hl & Hes & Hne) Hmine Hhi -> w Hw. subst w.
  rewrite zlen_app, (zlen_concat _ l) in * by done. change (zlen [op; l]) with 2 in *.
  assert (1 <= zlen es) by (destruct es; [done|len_lia]).
  unfold dec_data_list. cbn [mbind option_bind]. change (byte_at _ 0) with (Some op).
  change (byte_at _ 1) with (Some l). cbn [mbind option_bind]. rewrite Z.eqb_refl. cbn [negb].
  rewrite (proj2 (Z.ltb_ge _ (2 + mine))), (proj2 (Z.ltb_ge _ mine)) by nia.
  destruct (list_count es l (2 + l * zlen es - 2)) as [Hm Hd]; [lia|nia|lia|lia|].
  rewrite Hm, Hd. cbn [negb Z.eqb].
  pose proof (fill_list_concat es l op l Hes ltac:(lia)) as Hf.
  destruct (att_data_list_alloc (zlen es) l); [|done]. cbn [mbind option_bind] in Hf.
  rewrite Hf. done.
Qed.

Lemma dec_find_info_resp_wire f es : f = 1 \/ f = 2 -> entries_ok 4 18 (find_info_elen f) es ->
  let w := [ATT_OP_FIND_INFO_RESP; f] ++ concat es in zlen w < 2 ^ 16 ->
  dec_find_info_resp (Some w) (zlen w) true
    = Some (l ← list_of (find_info_elen f) es; Some (f, l)).
Proof.
  intros Hf (Hl & Hes & Hne) w Hw. subst w. set (l := find_info_elen f) in *.
  rewrite zlen_app, (zlen_concat _ l) in * by done. change (zlen [ATT_OP_FIND_INFO_RESP; f]) with 2 in *.
  unfold dec_find_info_resp. cbn [negb]. change (byte_at _ 0) with (Some ATT_OP_FIND_INFO_RESP).
  change (byte_at _ 1) with (Some f). cbn [mbind option_bind]. rewrite Z.eqb_refl. cbn [negb].
  fold l. destruct (list_count es l (2 + l * zlen es - 2)) as [Hm Hd]; [lia|nia|lia|lia|].
  rewrite Hd. pose proof (fill_list_concat es l ATT_OP_FIND_INFO_RESP f Hes ltac:(lia)) as Hfl.
  destruct (att_data_list_alloc (zlen es) l); [|done]. cbn [mbind option_bind] in Hfl.
  rewrite Hfl. done.
Qed.

Lemma get_ranges_S fuel p len offset :
  get_ranges (S fuel) p len offset =
    if offset + 4 <=? len then
      s ← get_le16 p offset; e ← get_le16 p (offset + 2);
      l ← get_ranges fuel p len (offset + 4); Some (mk_range s e :: l)
    else Some [].
Proof. reflexivity. Qed.

Lemma get_ranges_wire fuel rs pre off : (length rs <= fuel)%nat -> Forall range_ok rs ->
  off = zlen pre ->
  get_ranges (S fuel) (pre ++ concat (wire_range <$> rs)) (zlen pre + 4 * zlen rs) off = Some rs.
Proof.
  intros Hfuel Hrs. revert fuel pre off Hfuel.
  induction Hrs as [|r rs [Hs He] Hrs IH]; intros fuel pre off Hfuel ->.
  { cbn [get_ranges]. rewrite (proj2 (Z.leb_gt _ _)) by len_lia. done. }
  destruct fuel as [|fuel]; [simpl in Hfuel; lia|].
  rewrite zlen_cons. pose proof (zlen_nonneg rs).
  rewrite get_ranges_S, (proj2 (Z.leb_le _ _)) by lia.
  cbn [fmap list_fmap concat]. change (wire_range r) with
    (le_bytes 2 (r_start r) ++ le_bytes 2 (r_end r)). rewrite <- !app_assoc.
  unfold get_le16. rewrite (ld_mid pre (le_bytes 2 (r_start r)) _ (zlen pre)) by len_lia.
  cbn [fmap option_fmap option_map mbind option_bind].
  rewrite (app_assoc pre), ld_mid by len_lia.
  cbn [fmap option_fmap option_map mbind option_bind].
  rewrite !le16_val, (app_assoc (pre ++ _)) by done.
  replace (zlen pre + 4 * (1 + zlen rs)) with
    (zlen ((pre ++ le_bytes 2 (r_start r)) ++ le_bytes 2 (r_end r)) + 4 * zlen rs) by len_lia.
  rewrite IH by (simpl in Hfuel; len_lia). destruct r. done.
Qed.

Lemma get_uuid_wire u pre off : request_uuid_ok u -> off = zlen pre ->
  exists type, get_uuid type (pre ++ wire_uuid u) off = Some u /\
    ((zlen (wire_uuid u) = 2 /\ type = 16) \/ (zlen (wire_uuid u) = 16 /\ type = 128)).
Proof.
  intros [Hu Hw] ->. destruct u as [|v|v|b]; try done; cbn [wire_uuid] in *.
  - exists 16. split; [|left; done]. unfold get_uuid. cbn [Z.eqb Pos.eqb].
    ld_step. cbn [mbind option_bind]. unfold bt_uuid16_create. by rewrite u16_small.
  - exists 128. destruct Hu as [Hl _]. split; [|right; len_lia].
    unfold get_uuid. cbn [Z.eqb Pos.eqb]. ld_step.
    unfold bt_uuid128_create, bswap_128. by rewrite rev_involutive.
Qed.

Lemma dec_by_type_req_wire s e u : is_u16 s -> is_u16 e -> request_uuid_ok u ->
  (let w := [ATT_OP_READ_BY_TYPE_REQ] ++ le_bytes 2 s ++ le_bytes 2 e ++ wire_uuid u in
   dec_read_by_type_req (Some w) (zlen w) true true true = Some (u16 (zlen w), Some (s, e, u)))
  /\
  (let w := [ATT_OP_READ_BY_GROUP_REQ] ++ le_bytes 2 s ++ le_bytes 2 e ++ wire_uuid u in
   dec_read_by_grp_req (Some w) (zlen w) true true true = Some (u16 (zlen w), Some (s, e, u))).
Proof.
  intros Hs He Hu.
  split; intros w; unfold dec_read_by_type_req, dec_read_by_grp_req; cbn [negb orb];
    destruct (get_uuid_wire u (take 5 w) 5 Hu) as (t & Hg & Ht);
    try (subst w; len_lia);
    replace (zlen w) with (5 + zlen (wire_uuid u)) by (subst w; len_lia);
    replace (take 5 w ++ wire_uuid u) with w in Hg
      by (subst w; rewrite !app_assoc; rewrite take_app_le by len_lia;
          rewrite take_ge by len_lia; done);
    subst w; rewrite byte_at_0; destruct Ht as [[-> ->]|[-> ->]];
    try change (5 + 2 =? 5 + 2) with true; try change (5 + 16 =? 5 + 2) with false;
    try change (5 + 16 =? 5 + 16) with true; cbn [mbind option_bind];
    rewrite Z.eqb_refl; cbn [negb]; do 2 ld_step; rewrite Hg; done.
Qed.

Lemma dec_find_by_type_req_wire s e u v value : is_u16 s -> is_u16 e -> is_u16 u ->
  let w := [ATT_OP_FIND_BY_TYPE_REQ] ++ le_bytes 2 s ++ le_bytes 2 e ++ le_bytes 2 u ++ v in
  zlen w <= zlen value ->
  dec_find_by_type_req (Some w) (zlen w) value
    = Some (u16 (zlen w), Some (s, e, UUID16 u, v, written v value)).
Proof.
  intros Hs He Hu w Hv. subst w. unfold dec_find_by_type_req. dec_guards. do 4 ld_step.
  rewrite st_value by len_lia. cbn [mbind option_bind]. unfold bt_uuid16_create. by rewrite (u16_small u).
Qed.

Lemma dec_find_by_type_resp_wire rs : Forall range_ok rs -> rs <> [] ->
  let w := [ATT_OP_FIND_BY_TYPE_RESP] ++ concat (wire_range <$> rs) in
  dec_find_by_type_resp (Some w) (zlen w) = Some rs.
Proof.
  intros Hrs Hne w. subst w. unfold dec_find_by_type_resp.
  rewrite zlen_app, zlen_ranges. change (zlen [ATT_OP_FIND_BY_TYPE_RESP]) with 1.
  assert (1 <= zlen rs) by (destruct rs; [done|len_lia]).
  rewrite (proj2 (Z.ltb_ge _ _)) by lia. rewrite byte_at_0. cbn [mbind option_bind].
  rewrite Z.eqb_refl. cbn [negb].
  replace ((1 + 4 * zlen rs - 1) mod 4) with 0
    by (replace (1 + 4 * zlen rs - 1) with (zlen rs * 4) by lia; by rewrite Z.mod_mul).
  cbn [negb Z.eqb]. replace (Z.to_nat (1 + 4 * zlen rs)) with (S (4 * length rs)) by len_lia.
  apply (get_ranges_wire _ rs [ATT_OP_FIND_BY_TYPE_RESP]); [lia|done|done].
Qed.

Lemma dec_read_resp_wire v value : zlen v <= zlen value -> zlen v < 2 ^ 16 ->
  let w := [ATT_OP_READ_RESP] ++ v in
  dec_read_resp (Some w) (zlen w) (Some value) (zlen value)
    = Some (zlen v, Some (v, written v value)).
Proof.
  intros Hv Hlen w. subst w. unfold dec_read_resp. rewrite byte_at_0. cbn [mbind option_bind].
  rewrite Z.eqb_refl. cbn [negb]. rewrite zlen_app. change (zlen [ATT_OP_READ_RESP]) with 1.
  replace (1 + zlen v - 1) with (zlen v) by lia. pose proof (zlen_nonneg v).
  rewrite u64_small by (unfold is_u64; lia). rewrite (proj2 (Z.ltb_ge _ _)) by lia.
  ld_step. by rewrite st_value.
Qed.

Lemma dec_signed_write_cmd_wire h v s value : is_u16 h -> zlen s = ATT_SIGNATURE_LEN ->
  let w := [ATT_OP_SIGNED_WRITE_CMD] ++ le_bytes 2 h ++ v ++ s in
  zlen w <= zlen value ->
  dec_signed_write_cmd (Some w) (zlen w) true (Some value) true (replicate 12 0)
    = Some (u16 (zlen w), Some (h, v, written v value, s)).
Proof.
  intros Hh Hs w Hv. subst w. unfold dec_signed_write_cmd, ATT_SIGNATURE_LEN in *. dec_guards. do 2 ld_step. rewrite st_value by len_lia.
  cbn [mbind option_bind]. ld_step. rewrite st_value by len_lia. cbn [mbind option_bind].
  unfold written at 2. rewrite (drop_ge (replicate 12 0)) by len_lia. by rewrite app_nil_r.
Qed.

Lemma dec_indication_wire h v value : is_u16 h ->
  let w := [ATT_OP_HANDLE_IND] ++ le_bytes 2 h ++ v in
  zlen w <= zlen value -> zlen w < 2 ^ 16 ->
  dec_indication (Some w) (zlen w) true value (zlen value)
    = Some (zlen v, Some (Some h, v, written v value)).
Proof.
  intros Hh w Hv Hw. subst w. unfold dec_indication. rewrite byte_at_0. cbn [mbind option_bind].
  rewrite Z.eqb_refl. cbn [negb]. rewrite (proj2 (Z.ltb_ge _ _)) by len_lia.
  replace (Z.min _ _) with (zlen v) by len_lia.
  rewrite u16_small by (unfold is_u16; len_lia). do 2 ld_step. by rewrite st_value by len_lia.
Qed.

(** Selects the branch of the opcode. *)
Ltac dispatch :=
  unfold decode;
  match goal with |- context [byte_at (?op :: ?l) 0] =>
    change (byte_at (op :: l) 0) with (Some op) end;
  cbn [mbind option_bind];
  repeat match goal with |- (if ?a =? ?b then _ else _) = _ =>
    let v := eval vm_compute in (a =? b) in change (a =? b) with v; cbn match end.

(** Rewrites with a decoder's lemma, whose PDU is written as a concatenation. *)
Tactic Notation "use_dec" uconstr(t) :=
  let E := fresh in
  pose proof t as E; cbv zeta in E; cbn [app] in E; rewrite E by done; clear E;
  cbn [accepted mbind option_bind fmap option_fmap option_map data len_ list_of].

(** C5. Decoding what was encoded gives the PDU back, for every PDU of attrib/att.c that has a
    decoder, except the Prepare Write Response; the value buffer must be large enough. *)
Theorem decode_wire p value : pdu_ok p -> decodable p = true ->
  zlen (wire p) <= zlen value -> zlen (wire p) < 2 ^ 16 ->
  decode (wire p) value = Some (Some p).
Proof.
  intros Hp Hd Hv Hw.
  assert (u16 (zlen (wire p)) =? 0 = false) as Hnz.
  { rewrite u16_small by (unfold is_u16; pose proof (zlen_nonneg (wire p)); lia).
    apply Z.eqb_neq. destruct p; cbn [wire]; len_lia. }
  destruct p; try done; cbn [wire pdu_ok] in *; dispatch.
  - unfold dec_mtu_req. use_dec (dec_1x16_wire ATT_OP_MTU_REQ mtu). done.
  - unfold dec_mtu_resp. use_dec (dec_1x16_wire ATT_OP_MTU_RESP mtu). done.
  - destruct Hp. unfold dec_find_info_req.
    use_dec (dec_2x16_wire ATT_OP_FIND_INFO_REQ start end_). done.
  - destruct Hp. use_dec (dec_find_info_resp_wire format entries). done.
  - destruct Hp as (? & ? & ?). use_dec (dec_find_by_type_req_wire start end_ uuid value0 value).
    by rewrite Hnz.
  - destruct Hp as [? Hne]. use_dec (dec_find_by_type_resp_wire ranges). by destruct ranges.
  - destruct Hp as (? & ? & ?). destruct (dec_by_type_req_wire start end_ uuid) as [Hr _]; [done..|].
    use_dec Hr. by rewrite Hnz.
  - unfold dec_read_by_type_resp.
    use_dec (dec_data_list_wire ATT_OP_READ_BY_TYPE_RESP 5 3 255 elen entries). done.
  - destruct Hp as (? & ? & ?). destruct (dec_by_type_req_wire start end_ uuid) as [_ Hr]; [done..|].
    use_dec Hr. by rewrite Hnz.
  - unfold dec_read_by_grp_resp.
    use_dec (dec_data_list_wire ATT_OP_READ_BY_GROUP_RESP 7 5 255 elen entries). done.
  - unfold dec_read_req. use_dec (dec_1x16_wire ATT_OP_READ_REQ handle). done.
  - rewrite zlen_cons in Hv, Hw. assert (zlen value0 <= zlen value) by lia.
    assert (zlen value0 < 2 ^ 16) by lia. use_dec (dec_read_resp_wire value0 value). 
    rewrite (proj2 (Z.ltb_ge _ _)) by apply zlen_nonneg. done.
  - destruct Hp. unfold dec_read_blob_req.
    use_dec (dec_2x16_wire ATT_OP_READ_BLOB_REQ handle offset). done.
  - unfold dec_write_req. use_dec (dec_handle_value_wire ATT_OP_WRITE_REQ handle value0 value).
    by rewrite Hnz.
  - unfold dec_write_cmd. use_dec (dec_handle_value_wire ATT_OP_WRITE_CMD handle value0 value).
    by rewrite Hnz.
  - destruct Hp. use_dec (dec_signed_write_cmd_wire handle value0 signature value).
    by rewrite Hnz.
  - destruct Hp. unfold dec_prep_write_req.
    use_dec (dec_prep_write_wire ATT_OP_PREP_WRITE_REQ handle offset value0 value).
    by rewrite Hnz.
  - use_dec (dec_indication_wire handle value0 value). done.
Qed.

(** *** Decoding is memory safe *)

Lemma bind_safe {A B} (x : ub A) (f : A -> ub B) :
  is_Some x -> (forall a, x = Some a -> is_Some (f a)) -> is_Some (x ≫= f).
Proof. intros [a ->] H. by apply H. Qed.

Lemma accepted_safe {A} (r : dec_result A) mk : is_Some r -> is_Some (accepted r mk).
Proof. intros [[n o] ->]. done. Qed.

Lemma ld_safe b off n : 0 <= off -> 0 <= n -> off + n <= zlen b -> is_Some (ld b off n).
Proof. intros. rewrite ld_is_Some by done. done. Qed.

Lemma get_le16_safe b off : 0 <= off -> off + 2 <= zlen b -> is_Some (get_le16 b off).
Proof. intros. unfold get_le16. by apply fmap_is_Some, ld_safe. Qed.

Lemma byte_at_safe b off : 0 <= off -> off < zlen b -> is_Some (byte_at b off).
Proof. intros. unfold byte_at. apply lookup_lt_is_Some_2. len_lia. Qed.

Lemma copy_entries_safe p n : forall ptr l, 0 <= ptr -> 0 <= l ->
  ptr + l * Z.of_nat n <= zlen p -> is_Some (copy_entries p ptr l n).
Proof.
  induction n as [|n IH]; intros ptr l Hptr Hl Hlen; [done|].
  cbn [copy_entries]. apply bind_safe; [apply ld_safe; lia|]. intros e _.
  apply bind_safe; [apply IH; lia|]. done.
Qed.

Lemma get_ranges_safe fuel p len : forall off, 0 <= off -> len <= zlen p ->
  is_Some (get_ranges fuel p len off).
Proof.
  induction fuel as [|fuel IH]; intros off Hoff Hlen; [done|].
  rewrite get_ranges_S. case_eqb; [|done].
  repeat (apply bind_safe; [apply get_le16_safe; lia|]; intros ? _).
  apply bind_safe; [apply IH; lia|]. done.
Qed.

(** Walks through the guards and the accesses of a decoder. *)
Ltac safe_step :=
  match goal with
  | |- is_Some (Some _) => done
  | |- is_Some None => fail 1
  | |- is_Some (if ?b then _ else _) => destruct b eqn:?
  | |- is_Some (byte_at _ _ ≫= _) =>
      apply bind_safe; [apply byte_at_safe; lia|]; intros ? ?
  | |- is_Some (get_le16 _ _ ≫= _) =>
      apply bind_safe; [apply get_le16_safe; lia|]; intros ? ?
  | |- is_Some (ld _ _ _ ≫= _) =>
      apply bind_safe; [apply ld_safe; lia|];
      let H := fresh "Hld" in intros ? H; apply ld_length in H
  | |- is_Some (st _ _ _ ≫= _) => apply bind_safe; [apply st_is_Some; lia|]; intros ? ?
  end.
Ltac safe := cbn [negb orb]; rewrite ?Z.ltb_ge, ?Z.ltb_lt in *; repeat (safe_step; rewrite ?Z.ltb_ge in *).

Section Safe.
Context (w value : bytes).
Hypotheses (Hw : 1 <= zlen w < 2 ^ 16) (Hv : zlen w <= zlen value).

Lemma dec_1x16_safe op : is_Some (dec_1x16 op (Some w) (zlen w) true).
Proof using All. unfold dec_1x16. safe. Qed.

Lemma dec_2x16_safe op : is_Some (dec_2x16 op (Some w) (zlen w) true true).
Proof using All. unfold dec_2x16. safe. Qed.

Lemma dec_handle_value_safe op :
  is_Some (dec_handle_value op (Some w) (zlen w) true (Some value) true).
Proof using All. unfold dec_handle_value. safe. Qed.

Lemma dec_prep_write_safe op :
  is_Some (dec_prep_write op (Some w) (zlen w) true true (Some value) true).
Proof using All. unfold dec_prep_write. safe. Qed.

Lemma dec_signed_write_cmd_safe :
  is_Some (dec_signed_write_cmd (Some w) (zlen w) true (Some value) true (replicate 12 0)).
Proof using All. 
  unfold dec_signed_write_cmd, ATT_SIGNATURE_LEN.
  assert (zlen (replicate 12 0) = 12) by done. safe.
Qed.

Lemma dec_find_by_type_req_safe : is_Some (dec_find_by_type_req (Some w) (zlen w) value).
Proof using All. unfold dec_find_by_type_req. safe. Qed.

Lemma dec_read_resp_safe : is_Some (dec_read_resp (Some w) (zlen w) (Some value) (zlen value)).
Proof using All.
  unfold dec_read_resp. rewrite u64_small by (unfold is_u64; lia). safe.
Qed.

Lemma dec_indication_safe : is_Some (dec_indication (Some w) (zlen w) true value (zlen value)).
Proof using All.
  unfold dec_indication. safe. rewrite u16_small by (unfold is_u16; lia).
  apply bind_safe; [safe|]. intros h _. safe.
Qed.

Lemma get_uuid_safe type off : 0 <= off ->
  off + (if type =? 16 then 2 else 16) <= zlen w -> is_Some (get_uuid type w off).
Proof using All. intros Hoff Hlen. unfold get_uuid. destruct (type =? 16); safe. Qed.

Lemma dec_by_type_req_safe :
  is_Some (dec_read_by_type_req (Some w) (zlen w) true true true) /\
  is_Some (dec_read_by_grp_req (Some w) (zlen w) true true true).
Proof using All.
  unfold dec_read_by_type_req, dec_read_by_grp_req. cbn [negb orb].
  destruct (Z.eqb_spec (zlen w) (5 + 2)) as [H1|H1];
    [|destruct (Z.eqb_spec (zlen w) (5 + 16)) as [H2|H2]]; split; safe;
    (apply bind_safe; [apply get_uuid_safe; [lia|cbn [Z.eqb Pos.eqb]; lia]|done]).
Qed.

Lemma fill_list_safe n l : 0 < l -> 2 <= zlen w -> 
  is_Some (fill_list (mk_data_list (u16 (usize (zlen w - 2) / l)) l
    (replicate (Z.to_nat (u16 (usize (zlen w - 2) / l))) n)) w 2).
Proof using All.
  intros Hl Hw2. unfold fill_list. cbn [num len_].
  rewrite u64_small by (unfold is_u64; lia).
  pose proof (Z.div_pos (zlen w - 2) l ltac:(lia) Hl).
  assert ((zlen w - 2) / l * l <= zlen w - 2)
    by (rewrite Z.mul_comm; apply Z.mul_div_le; lia).
  assert ((zlen w - 2) / l <= zlen w - 2) by nia.
  rewrite u16_small by (unfold is_u16; lia).
  apply bind_safe; [apply copy_entries_safe; nia|done].
Qed.

Lemma dec_data_list_safe op minl mine : 2 <= minl -> 0 < mine ->
  is_Some (dec_data_list op minl mine (Some w) (zlen w)).
Proof using All.
  intros Hminl Hmine. unfold dec_data_list. cbn [mbind option_bind]. safe.
  unfold att_data_list_alloc. destruct (UINT8_MAX <? _); [done|].
  apply bind_safe; [apply fill_list_safe; lia|done].
Qed.

Lemma dec_find_info_resp_safe : 2 <= zlen w -> is_Some (dec_find_info_resp (Some w) (zlen w) true).
Proof using All.
  intros Hw2. unfold dec_find_info_resp. safe.
  unfold att_data_list_alloc. destruct (UINT8_MAX <? _); [done|].
  apply bind_safe; [apply fill_list_safe; [|lia]|done]. unfold find_info_elen.
  repeat case_match; lia.
Qed.

Lemma dec_find_by_type_resp_safe : is_Some (dec_find_by_type_resp (Some w) (zlen w)).
Proof using All. unfold dec_find_by_type_resp. safe. apply get_ranges_safe; lia. Qed.

End Safe.

Lemma decode_wire_witness :
  let p := Read_by_type_resp 3 [[1; 2; 3]; [4; 5; 6]] in
  decode (wire p) (replicate 32 0) = Some (Some p).
Proof. apply decode_wire; [|reflexivity|vm_compute; congruence|reflexivity].
  split; [lia|]. split; [repeat constructor|discriminate]. Defined.

(** C31. The decoders never read outside the PDU or write outside the value buffer, for any
    non-empty PDU, well formed or not, and a value buffer as long as the PDU: a PDU is decoded,
    or rejected.  The only exception is a Find Information Response that consists of its
    opcode, whose format byte is read without a length check. *)
Theorem decode_safe w value : 1 <= zlen w < 2 ^ 16 -> zlen w <= zlen value ->
  is_Some (decode w value) <-> w <> [ATT_OP_FIND_INFO_RESP].
Proof.
  intros Hw Hv. destruct w as [|op l]; [len_lia|]. set (w := op :: l) in *.
  split; [intros [r Hr] E; subst w; rewrite E in Hr; vm_compute in Hr; done|]. intros Hne.
  unfold decode. change (byte_at w 0) with (Some op). cbn [mbind option_bind].
  assert (op = ATT_OP_FIND_INFO_RESP -> 2 <= zlen w) as Hfi.
  { intros ->. subst w. destruct l; [done|]. rewrite !zlen_cons. pose proof (zlen_nonneg l). lia. }
  repeat (match goal with |- is_Some (if ?a =? ?b then _ else _) => destruct (Z.eqb_spec a b) end;
    [first
      [ apply accepted_safe; first
        [ by eapply dec_1x16_safe | by eapply dec_2x16_safe | by eapply dec_handle_value_safe
        | by eapply dec_prep_write_safe | by eapply dec_signed_write_cmd_safe
        | by eapply dec_find_by_type_req_safe | by eapply dec_by_type_req_safe
        | unfold dec_write_resp, dec_exec_write_resp, dec_exec_write_req; safe ]
      | apply bind_safe; [first
        [ by eapply dec_data_list_safe | eapply dec_find_info_resp_safe; by eauto
        | by eapply dec_find_by_type_resp_safe | by eapply dec_read_resp_safe
        | by eapply dec_indication_safe ] | intros; repeat case_match; done]
      ]|]).
  done.
Qed.

Lemma decode_safe_witness :
  is_Some (decode [0x09; 7; 1; 2] (replicate 4 0)).
Proof. apply decode_safe; [vm_compute; intuition congruence|vm_compute; congruence|discriminate].
Defined.

(** No Prepare Write Response is accepted by its decoder, which compares the opcode with the
    one of the request: what enc_prep_write_resp writes is always rejected. *)
Theorem dec_prep_write_resp_rejects h o v value :
  dec_prep_write_resp (Some (wire (Prep_write_resp h o v))) (zlen (wire (Prep_write_resp h o v)))
    true true (Some value) true = Some (0, None).
Proof.
  unfold dec_prep_write_resp, dec_prep_write. cbn [negb orb].
  rewrite (proj2 (Z.ltb_ge _ _)) by (cbn [wire]; len_lia). done.
Qed.
