(* ===== verification/Ecc.v ===== *)
(** The multi-precision arithmetic of src/shared/ecc.c: 256-bit integers as four 64-bit digits,
    least significant first, and arithmetic modulo the prime of the P-256 curve. *)
From Stdlib Require Import ZArith Lia Znumtheory.
From stdpp Require Import base numbers list option.
From S2P Require Import Prelude.

Local Open Scope Z_scope.

(** ** Data *)

Abbreviation vli := (list Z).

Definition NUM_ECC_DIGITS : nat := 4.
Definition ECC_BYTES : Z := 32.
Definition MAX_TRIES : Z := 16.

(** Reads digit [i]. *)
Definition dig (v : vli) (i : nat) : Z := nth i v 0.

(** The number a digit string stands for. *)
Fixpoint val (v : vli) : Z :=
  match v with
  | [] => 0
  | d :: t => d + 2 ^ 64 * val t
  end.

Definition digits_ok (v : vli) : Prop := Forall is_u64 v.
Definition vli_ok (v : vli) : Prop := length v = NUM_ECC_DIGITS /\ digits_ok v.

#[export] Instance digits_ok_dec v : Decision (digits_ok v).
Proof. unfold digits_ok. apply _. Defined.
#[export] Instance vli_ok_dec v : Decision (vli_ok v).
Proof. unfold vli_ok. apply _. Defined.

Record uint128_t := mk128 { m_low : Z; m_high : Z }.

Definition curve_p : vli :=
  [0xFFFFFFFFFFFFFFFF; 0x00000000FFFFFFFF; 0x0000000000000000; 0xFFFFFFFF00000001].
Definition curve_n : vli :=
  [0xF3B9CAC2FC632551; 0xBCE6FAADA7179E84; 0xFFFFFFFFFFFFFFFF; 0xFFFFFFFF00000000].
Definition curve_b : vli :=
  [0x3BCE3C3E27D2604B; 0x651D06B0CC53B0F6; 0xB3EBBD55769886BC; 0x5AC635D8AA3A93E7].

(** ** Operations *)

Definition vli_clear : vli := replicate NUM_ECC_DIGITS 0.

Definition vli_is_zero (v : vli) : bool := forallb (fun d => d =? 0) v.

Definition vli_test_bit (v : vli) (bit : Z) : Z :=
  Z.land (dig v (Z.to_nat (bit / 64))) (u64 (Z.shiftl 1 (bit mod 64))).

(** [for (i = NUM_ECC_DIGITS - 1; i >= 0 && vli[i] == 0; i--); return i + 1;] *)
Fixpoint num_digits_from (n : nat) (v : vli) : Z :=
  match n with
  | O => 0
  | S i => if dig v i =? 0 then num_digits_from i v else Z.of_nat n
  end.

Definition vli_num_digits (v : vli) : Z := num_digits_from NUM_ECC_DIGITS v.

(** [for (i = 0; digit; i++) digit >>= 1;]: a digit has at most 64 bits. *)
Fixpoint digit_bits (fuel : nat) (digit i : Z) : Z :=
  match fuel with
  | O => i
  | S fuel' => if digit =? 0 then i else digit_bits fuel' (Z.shiftr digit 1) (i + 1)
  end.

Definition vli_num_bits (v : vli) : Z :=
  let num_digits := vli_num_digits v in
  if num_digits =? 0 then 0 else
  let digit := dig v (Z.to_nat (num_digits - 1)) in
  (num_digits - 1) * 64 + digit_bits 65 digit 0.

(** From the most significant digit down. *)
Fixpoint cmp_from (n : nat) (left right : vli) : Z :=
  match n with
  | O => 0
  | S i =>
      if dig right i <? dig left i then 1
      else if dig left i <? dig right i then -1
      else cmp_from i left right
  end.

Definition vli_cmp (left right : vli) : Z := cmp_from NUM_ECC_DIGITS left right.

Fixpoint diff_from (n : nat) (left right : vli) (diff : Z) : Z :=
  match n with
  | O => diff
  | S i => diff_from i left right (Z.lor diff (Z.lxor (dig left i) (dig right i)))
  end.

Definition vli_equal (left right : vli) : bool :=
  diff_from NUM_ECC_DIGITS left right 0 =? 0.

(** The loops over the digits carry from one digit to the next; the carry out is the second
    component. *)
Fixpoint lshift_loop (in_ : vli) (shift carry : Z) : vli * Z :=
  match in_ with
  | [] => ([], carry)
  | temp :: t =>
      let '(r, c) := lshift_loop t shift (Z.shiftr temp (64 - shift)) in
      (Z.lor (u64 (Z.shiftl temp shift)) carry :: r, c)
  end.

Definition vli_lshift (in_ : vli) (shift : Z) : vli * Z := lshift_loop in_ shift 0.

(** From the most significant digit down. *)
Fixpoint rshift1_loop (v : vli) : vli * Z :=
  match v with
  | [] => ([], 0)
  | temp :: t =>
      let '(r, carry) := rshift1_loop t in
      (Z.lor (Z.shiftr temp 1) carry :: r, u64 (Z.shiftl temp 63))
  end.

Definition vli_rshift1 (v : vli) : vli := fst (rshift1_loop v).

Fixpoint add_loop (left right : vli) (carry : Z) : vli * Z :=
  match left, right with
  | l :: left', r :: right' =>
      let sum := u64 (l + r + carry) in
      let carry := if negb (sum =? l) then (if sum <? l then 1 else 0) else carry in
      let '(result, c) := add_loop left' right' carry in
      (sum :: result, c)
  | _, _ => ([], carry)
  end.

Definition vli_add (left right : vli) : vli * Z := add_loop left right 0.

Fixpoint sub_loop (left right : vli) (borrow : Z) : vli * Z :=
  match left, right with
  | l :: left', r :: right' =>
      let diff := u64 (l - r - borrow) in
      let borrow := if negb (diff =? l) then (if l <? diff then 1 else 0) else borrow in
      let '(result, b) := sub_loop left' right' borrow in
      (diff :: result, b)
  | _, _ => ([], borrow)
  end.

Definition vli_sub (left right : vli) : vli * Z := sub_loop left right 0.

Definition mul_64_64 (left right : Z) : uint128_t :=
  let a0 := Z.land left 0xffffffff in
  let a1 := Z.shiftr left 32 in
  let b0 := Z.land right 0xffffffff in
  let b1 := Z.shiftr right 32 in
  let m0 := u64 (a0 * b0) in
  let m1 := u64 (a0 * b1) in
  let m2 := u64 (a1 * b0) in
  let m3 := u64 (a1 * b1) in
  let m2 := u64 (m2 + Z.shiftr m0 32) in
  let m2 := u64 (m2 + m1) in
  let m3 := if m2 <? m1 then u64 (m3 + 0x100000000) else m3 in
  mk128 (Z.lor (Z.land m0 0xffffffff) (u64 (Z.shiftl m2 32))) (u64 (m3 + Z.shiftr m2 32)).

Definition add_128_128 (a b : uint128_t) : uint128_t :=
  let low := u64 (m_low a + m_low b) in
  mk128 low (u64 (m_high a + m_high b + (if low <? m_low a then 1 else 0))).

(** The digits [i] of the left operand that meet digit [k - i] of the right one. *)
Definition column (k : nat) : list nat :=
  let min := (if k <? NUM_ECC_DIGITS then 0 else (k + 1) - NUM_ECC_DIGITS)%nat in
  filter (fun i => i <= k)%nat (seq min (NUM_ECC_DIGITS - min)).

(** One round of the inner loops: the accumulator is [r01] and, above it, [r2]. *)
Definition acc_product (product : uint128_t) (st : uint128_t * Z) : uint128_t * Z :=
  let '(r01, r2) := st in
  let r01 := add_128_128 r01 product in
  (r01, u64 (r2 + (if m_high r01 <? m_high product then 1 else 0))).

Definition mult_column (left right : vli) (k : nat) (st : uint128_t * Z) : uint128_t * Z :=
  foldl (fun st i => acc_product (mul_64_64 (dig left i) (dig right (k - i)%nat)) st)
    st (column k).

Definition double_product (product : uint128_t) (r2 : Z) : uint128_t * Z :=
  (mk128 (u64 (Z.shiftl (m_low product) 1))
         (Z.lor (u64 (Z.shiftl (m_high product) 1)) (Z.shiftr (m_low product) 63)),
   u64 (r2 + Z.shiftr (m_high product) 63)).

Definition square_term (left : vli) (k : nat) (st : uint128_t * Z) (i : nat)
    : uint128_t * Z :=
  let product := mul_64_64 (dig left i) (dig left (k - i)%nat) in
  let '(r01, r2) := st in
  if (i <? k - i)%nat then
    let '(product, r2) := double_product product r2 in acc_product product (r01, r2)
  else acc_product product (r01, r2).

Definition square_column (left : vli) (k : nat) (st : uint128_t * Z) : uint128_t * Z :=
  foldl (square_term left k) st (filter (fun i => i <= k - i)%nat (column k)).

(** The outer loops: after a column its low digit is stored and the accumulator shifts. *)
Fixpoint columns (column : nat -> uint128_t * Z -> uint128_t * Z) (n k : nat)
    (r01 : uint128_t) : vli :=
  match n with
  | O => [m_low r01]
  | S n' =>
      let '(r01, r2) := column k (r01, 0) in
      m_low r01 :: columns column n' (S k) (mk128 (m_high r01) r2)
  end.

Definition vli_mult (left right : vli) : vli :=
  columns (mult_column left right) (NUM_ECC_DIGITS * 2 - 1) 0 (mk128 0 0).

Definition vli_square (left : vli) : vli :=
  columns (square_column left) (NUM_ECC_DIGITS * 2 - 1) 0 (mk128 0 0).

Definition vli_mod_add (left right mod_ : vli) : vli :=
  let '(result, carry) := vli_add left right in
  if negb (carry =? 0) || (0 <=? vli_cmp result mod_) then fst (vli_sub result mod_)
  else result.

Definition vli_mod_sub (left right mod_ : vli) : vli :=
  let '(result, borrow) := vli_sub left right in
  if negb (borrow =? 0) then fst (vli_add result mod_) else result.

(** The two reduction loops at the end of vli_mmod_fast; [None] when the fuel is spent. *)
Fixpoint mmod_up (fuel : nat) (result : vli) (carry : Z) : option vli :=
  match fuel with
  | O => None
  | S fuel' =>
      let '(result, c) := vli_add result curve_p in
      let carry := carry + c in
      if carry <? 0 then mmod_up fuel' result carry else Some result
  end.

Fixpoint mmod_down (fuel : nat) (result : vli) (carry : Z) : option vli :=
  match fuel with
  | O => None
  | S fuel' =>
      if negb (carry =? 0) || negb (vli_cmp curve_p result =? 1) then
        let '(result, b) := vli_sub result curve_p in mmod_down fuel' result (carry - b)
      else Some result
  end.

Definition MMOD_FUEL : nat := 16.

Definition vli_mmod_fast (product : vli) : option vli :=
  let p i := dig product i in
  let hi := 0xffffffff00000000 in
  let lo := 0xffffffff in
  let shl x := u64 (Z.shiftl x 32) in
  let shr x := Z.shiftr x 32 in
  (* t *)
  let result := take NUM_ECC_DIGITS product in
  (* s1 *)
  let '(tmp, c) := vli_lshift [0; Z.land (p 5%nat) hi; p 6%nat; p 7%nat] 1 in
  let carry := c in
  let '(result, c) := vli_add result tmp in
  let carry := carry + c in
  (* s2 *)
  let '(tmp, c) := vli_lshift
    [dig tmp 0; shl (p 6%nat); Z.lor (shr (p 6%nat)) (shl (p 7%nat)); shr (p 7%nat)] 1 in
  let carry := carry + c in
  let '(result, c) := vli_add result tmp in
  let carry := carry + c in
  (* s3 *)
  let tmp := [p 4%nat; Z.land (p 5%nat) lo; 0; p 7%nat] in
  let '(result, c) := vli_add result tmp in
  let carry := carry + c in
  (* s4 *)
  let tmp := [Z.lor (shr (p 4%nat)) (shl (p 5%nat));
              Z.lor (shr (p 5%nat)) (Z.land (p 6%nat) hi);
              p 7%nat; Z.lor (shr (p 6%nat)) (shl (p 4%nat))] in
  let '(result, c) := vli_add result tmp in
  let carry := carry + c in
  (* d1 *)
  let tmp := [Z.lor (shr (p 5%nat)) (shl (p 6%nat)); shr (p 6%nat); 0;
              Z.lor (Z.land (p 4%nat) lo) (shl (p 5%nat))] in
  let '(result, b) := vli_sub result tmp in
  let carry := carry - b in
  (* d2 *)
  let tmp := [p 6%nat; p 7%nat; 0; Z.lor (shr (p 4%nat)) (Z.land (p 5%nat) hi)] in
  let '(result, b) := vli_sub result tmp in
  let carry := carry - b in
  (* d3 *)
  let tmp := [Z.lor (shr (p 6%nat)) (shl (p 7%nat)); Z.lor (shr (p 7%nat)) (shl (p 4%nat));
              Z.lor (shr (p 4%nat)) (shl (p 5%nat)); shl (p 6%nat)] in
  let '(result, b) := vli_sub result tmp in
  let carry := carry - b in
  (* d4 *)
  let tmp := [p 7%nat; Z.land (p 4%nat) hi; p 5%nat; Z.land (p 6%nat) hi] in
  let '(result, b) := vli_sub result tmp in
  let carry := carry - b in
  if carry <? 0 then mmod_up MMOD_FUEL result carry
  else mmod_down MMOD_FUEL result carry.

Definition vli_mod_mult_fast (left right : vli) : option vli :=
  vli_mmod_fast (vli_mult left right).

Definition vli_mod_square_fast (left : vli) : option vli := vli_mmod_fast (vli_square left).

Definition EVEN (v : vli) : bool := Z.land (dig v 0) 1 =? 0.

(** [vli_rshift1(u); if (carry) u[NUM_ECC_DIGITS - 1] |= 0x8000000000000000;] *)
Definition rshift1_carry (u : vli) (carry : Z) : vli :=
  let u := vli_rshift1 u in
  if negb (carry =? 0) then
    <[NUM_ECC_DIGITS - 1 := Z.lor (dig u (NUM_ECC_DIGITS - 1)) 0x8000000000000000]>%nat u
  else u.

(** [if (!EVEN(u)) carry = vli_add(u, u, mod);] and the halving that follows it. *)
Definition halve (u mod_ : vli) : vli :=
  let '(u, carry) := if EVEN u then (u, 0) else vli_add u mod_ in rshift1_carry u carry.

Record inv_state := mk_inv { ia : vli; ib : vli; iu : vli; iv : vli }.

(** The loop body for [cmp_result = vli_cmp(a, b)], not zero. *)
Definition mod_inv_step (mod_ : vli) (cmp_result : Z) (s : inv_state) : inv_state :=
  let '(mk_inv a b u v) := s in
  if EVEN a then mk_inv (vli_rshift1 a) b (halve u mod_) v
  else if EVEN b then mk_inv a (vli_rshift1 b) u (halve v mod_)
  else if 0 <? cmp_result then
    let a := vli_rshift1 (fst (vli_sub a b)) in
    let u := if vli_cmp u v <? 0 then fst (vli_add u mod_) else u in
    mk_inv a b (halve (fst (vli_sub u v)) mod_) v
  else
    let b := vli_rshift1 (fst (vli_sub b a)) in
    let v := if vli_cmp v u <? 0 then fst (vli_add v mod_) else v in
    mk_inv a b u (halve (fst (vli_sub v u)) mod_).

Fixpoint mod_inv_loop (fuel : nat) (mod_ : vli) (s : inv_state) : option vli :=
  let cmp_result := vli_cmp (ia s) (ib s) in
  if cmp_result =? 0 then Some (iu s) else
  match fuel with
  | O => None
  | S fuel' => mod_inv_loop fuel' mod_ (mod_inv_step mod_ cmp_result s)
  end.

(** Every round halves [a] or [b]. *)
Definition INV_FUEL : nat := 512.

Definition vli_mod_inv (input mod_ : vli) : option vli :=
  if vli_is_zero input then Some vli_clear
  else mod_inv_loop INV_FUEL mod_ (mk_inv input mod_ [1; 0; 0; 0] vli_clear).
