(* ===== verification/EccArith.v ===== *)
(** The digit loops of src/shared/ecc.c compute sums, differences, shifts and products with
    their carries; the products are exact unless the accumulator loses a carry. *)
From Stdlib Require Import List ZArith Lia Znumtheory.
From stdpp Require Import base numbers list option.
From S2P Require Import Prelude Ecc.

Local Open Scope Z_scope.

(** ** Digits *)

Lemma u64_shl32 d : is_u64 d -> u64 (Z.shiftl d 32) = (d mod 2 ^ 32) * 2 ^ 32.
Proof. intros Hd. rewrite Z.shiftl_mul_pow2 by lia. words_lia. Qed.

Lemma shr32 d : Z.shiftr d 32 = d / 2 ^ 32.
Proof. rewrite Z.shiftr_div_pow2 by lia. done. Qed.

Lemma land_lo d : Z.land d 0xffffffff = d mod 2 ^ 32.
Proof. apply (land_mask d 32). lia. Qed.

Lemma land_hi d : is_u64 d -> Z.land d 0xffffffff00000000 = (d / 2 ^ 32) * 2 ^ 32.
Proof.
  intros Hd. change 0xffffffff00000000 with (Z.shiftl (Z.ones 32) 32).
  apply Z.bits_inj'. intros i Hi. rewrite Z.land_spec, Z.shiftl_spec by lia.
  destruct (Z.ltb_spec i 32).
  - rewrite Z.mul_pow2_bits_low by lia. rewrite (Z.testbit_neg_r _ (i - 32)) by lia.
    apply andb_false_r.
  - rewrite Z.mul_pow2_bits by lia. rewrite Z.div_pow2_bits by lia.
    replace (i - 32 + 32) with i by lia. destruct (Z.ltb_spec i 64).
    + rewrite Z.ones_spec_low by lia. apply andb_true_r.
    + rewrite Z.ones_spec_high by lia. rewrite andb_false_r. symmetry.
      rewrite <- (u64_small d) by done. unfold u64. apply Z.mod_pow2_bits_high. lia.
Qed.

Lemma val_range v : digits_ok v -> 0 <= val v < 2 ^ (64 * zlen v).
Proof.
  induction 1 as [|d v Hd Hv IH]; [unfold zlen; simpl; lia|].
  rewrite zlen_cons. pose proof (zlen_nonneg v). unfold is_u64 in Hd.
  replace (64 * (1 + zlen v)) with (64 + 64 * zlen v) by lia.
  rewrite Z.pow_add_r by lia. cbn [val]. nia.
Qed.

(** A four-digit number, digit by digit. *)
Lemma vli_inv v : vli_ok v -> exists a b c d, v = [a; b; c; d] /\
  is_u64 a /\ is_u64 b /\ is_u64 c /\ is_u64 d.
Proof.
  intros [Hl Hd]. unfold NUM_ECC_DIGITS in Hl.
  destruct v as [|a [|b [|c [|d [|]]]]]; try done.
  unfold digits_ok in Hd. rewrite !List.Forall_cons_iff in Hd. destruct Hd as (? & ? & ? & ? & _). eauto 10.
Qed.

Lemma vli_range v : vli_ok v -> 0 <= val v < 2 ^ 256.
Proof.
  intros [Hl Hd]. pose proof (val_range v Hd) as H. unfold zlen in H. rewrite Hl in H. exact H.
Qed.

Lemma val_inj l r : digits_ok l -> digits_ok r -> length l = length r -> val l = val r -> l = r.
Proof.
  intros Hl. revert r. induction Hl as [|a l Ha Hl IH]; intros [|b r] Hr Hlen E; try done.
  unfold digits_ok in Hr. rewrite List.Forall_cons_iff in Hr. destruct Hr as [Hb Hr]. cbn [val] in E. injection Hlen as Hlen.
  unfold is_u64 in *.
  assert (val l = val r) as E' by lia. f_equal; [lia|auto].
Qed.

Ltac digits v :=
  let H := fresh in
  match goal with Hv : vli_ok v |- _ =>
    destruct (vli_inv v Hv) as (?d & ?d & ?d & ?d & H & ? & ? & ? & ?); rewrite H in * end.

(** ** Addition, subtraction, comparison *)

Lemma add_loop_spec l r c : length l = length r -> digits_ok l -> digits_ok r ->
  c = 0 \/ c = 1 ->
  let '(s, c') := add_loop l r c in
  length s = length l /\ digits_ok s /\ (c' = 0 \/ c' = 1) /\
  val s + 2 ^ (64 * zlen l) * c' = val l + val r + c.
Proof.
  intros Hlen Hl. revert r c Hlen. induction Hl as [|a l Ha Hl IH]; intros [|b r] c Hlen Hr Hc;
    try done; cbn [add_loop].
  { unfold zlen. simpl. split_and!; try done. lia. }
  unfold digits_ok in Hr. rewrite List.Forall_cons_iff in Hr. destruct Hr as [Hb Hr]. injection Hlen as Hlen.
  set (c1 := if negb _ then _ else _).
  assert ((c1 = 0 \/ c1 = 1) /\ u64 (a + b + c) + 2 ^ 64 * c1 = a + b + c) as [Hc1 Hs].
  { subst c1. unfold u64, is_u64 in *. destruct (Z.eqb_spec ((a + b + c) mod 2 ^ 64) a) as [E|E];
      cbn [negb]; [words_lia|]. case_eqb; words_lia. }
  specialize (IH r c1 Hlen Hr Hc1). destruct (add_loop l r c1) as [s c'].
  destruct IH as (Hl1 & Hd & Hc' & IH). rewrite zlen_cons. pose proof (zlen_nonneg l).
  replace (64 * (1 + zlen l)) with (64 + 64 * zlen l) by lia. rewrite Z.pow_add_r by lia.
  cbn [val length]. split_and!; [by f_equal|constructor; auto with words|done|lia].
Qed.

Lemma sub_loop_spec l r c : length l = length r -> digits_ok l -> digits_ok r ->
  c = 0 \/ c = 1 ->
  let '(s, c') := sub_loop l r c in
  length s = length l /\ digits_ok s /\ (c' = 0 \/ c' = 1) /\
  val s - 2 ^ (64 * zlen l) * c' = val l - val r - c.
Proof.
  intros Hlen Hl. revert r c Hlen. induction Hl as [|a l Ha Hl IH]; intros [|b r] c Hlen Hr Hc;
    try done; cbn [sub_loop].
  { unfold zlen. simpl. split_and!; try done. lia. }
  unfold digits_ok in Hr. rewrite List.Forall_cons_iff in Hr. destruct Hr as [Hb Hr]. injection Hlen as Hlen.
  set (c1 := if negb _ then _ else _).
  assert ((c1 = 0 \/ c1 = 1) /\ u64 (a - b - c) - 2 ^ 64 * c1 = a - b - c) as [Hc1 Hs].
  { subst c1. unfold u64, is_u64 in *. destruct (Z.eqb_spec ((a - b - c) mod 2 ^ 64) a) as [E|E];
      cbn [negb]; [words_lia|]. case_eqb; words_lia. }
  specialize (IH r c1 Hlen Hr Hc1). destruct (sub_loop l r c1) as [s c'].
  destruct IH as (Hl1 & Hd & Hc' & IH). rewrite zlen_cons. pose proof (zlen_nonneg l).
  replace (64 * (1 + zlen l)) with (64 + 64 * zlen l) by lia. rewrite Z.pow_add_r by lia.
  cbn [val length]. split_and!; [by f_equal|constructor; auto with words|done|lia].
Qed.

Lemma vli_add_spec l r : vli_ok l -> vli_ok r ->
  let '(s, c) := vli_add l r in
  vli_ok s /\ (c = 0 \/ c = 1) /\ val s + 2 ^ 256 * c = val l + val r.
Proof.
  intros [Hl1 Hl2] [Hr1 Hr2]. unfold vli_add.
  pose proof (add_loop_spec l r 0 ltac:(congruence) Hl2 Hr2 ltac:(auto)) as H.
  destruct (add_loop l r 0) as [s c]. destruct H as (H1 & H2 & H3 & H4).
  unfold zlen in H4. rewrite Hl1 in H4. split; [split; congruence|]. split; [done|].
  change (64 * Z.of_nat NUM_ECC_DIGITS) with 256 in H4. lia.
Qed.

Lemma vli_sub_spec l r : vli_ok l -> vli_ok r ->
  let '(s, c) := vli_sub l r in
  vli_ok s /\ (c = 0 \/ c = 1) /\ val s - 2 ^ 256 * c = val l - val r.
Proof.
  intros [Hl1 Hl2] [Hr1 Hr2]. unfold vli_sub.
  pose proof (sub_loop_spec l r 0 ltac:(congruence) Hl2 Hr2 ltac:(auto)) as H.
  destruct (sub_loop l r 0) as [s c]. destruct H as (H1 & H2 & H3 & H4).
  unfold zlen in H4. rewrite Hl1 in H4. split; [split; congruence|]. split; [done|].
  change (64 * Z.of_nat NUM_ECC_DIGITS) with 256 in H4. lia.
Qed.

Lemma vli_cmp_spec l r : vli_ok l -> vli_ok r ->
  vli_cmp l r = match val l ?= val r with Eq => 0 | Lt => -1 | Gt => 1 end.
Proof.
  intros Hl Hr. digits l. digits r. unfold vli_cmp, is_u64 in *.
  change NUM_ECC_DIGITS with 4%nat. cbn [cmp_from dig nth val].
  repeat (case_eqb; [symmetry; try (rewrite (proj2 (Z.compare_gt_iff _ _)) by lia; done);
    try (rewrite (proj2 (Z.compare_lt_iff _ _)) by lia; done)|]).
  rewrite (proj2 (Z.compare_eq_iff _ _)) by lia. done.
Qed.

Lemma vli_is_zero_spec v : vli_ok v -> vli_is_zero v = (val v =? 0).
Proof.
  intros Hv. digits v. unfold is_u64 in *. cbn [vli_is_zero forallb val].
  apply eq_true_iff_eq. rewrite !andb_true_iff, !Z.eqb_eq. lia.
Qed.

(** ** Shifts *)

Lemma shr_val d n : 0 <= n -> Z.shiftr d n = d / 2 ^ n.
Proof. apply Z.shiftr_div_pow2. Qed.

Lemma lshift1_loop_spec v c : digits_ok v -> c = 0 \/ c = 1 ->
  let '(r, c') := lshift_loop v 1 c in
  length r = length v /\ digits_ok r /\ (c' = 0 \/ c' = 1) /\
  val r + 2 ^ (64 * zlen v) * c' = 2 * val v + c.
Proof.
  intros Hv. revert c. induction Hv as [|d v Hd Hv IH]; intros c Hc; cbn [lshift_loop].
  { unfold zlen. simpl. split_and!; [done|constructor|done|lia]. }
  unfold is_u64 in Hd. rewrite shr_val by lia. change (64 - 1) with 63.
  assert (d / 2 ^ 63 = 0 \/ d / 2 ^ 63 = 1) as Hq by words_lia.
  specialize (IH (d / 2 ^ 63) Hq). destruct (lshift_loop v 1 (d / 2 ^ 63)) as [r c'].
  destruct IH as (Hl & Hr & Hc' & IH). rewrite Z.shiftl_mul_pow2 by lia.
  assert (u64 (d * 2 ^ 1) = (d mod 2 ^ 63) * 2 ^ 1) as -> by words_lia.
  rewrite Z.lor_comm, lor_add by lia. rewrite zlen_cons. pose proof (zlen_nonneg v).
  replace (64 * (1 + zlen v)) with (64 + 64 * zlen v) by lia. rewrite Z.pow_add_r by lia.
  cbn [val length]. split_and!; [by f_equal|constructor; [words_lia|done]|done|].
  assert (d = 2 ^ 63 * (d / 2 ^ 63) + d mod 2 ^ 63) by (apply Z.div_mod; lia). lia.
Qed.

Lemma vli_lshift1_spec v : vli_ok v ->
  let '(r, c) := vli_lshift v 1 in
  vli_ok r /\ (c = 0 \/ c = 1) /\ val r + 2 ^ 256 * c = 2 * val v.
Proof.
  intros [Hl Hv]. unfold vli_lshift.
  pose proof (lshift1_loop_spec v 0 Hv ltac:(auto)) as H.
  destruct (lshift_loop v 1 0) as [r c]. destruct H as (H1 & H2 & H3 & H4).
  unfold zlen in H4. rewrite Hl in H4. change (64 * Z.of_nat NUM_ECC_DIGITS) with 256 in H4.
  split; [split; congruence|]. split; [done|lia].
Qed.

Lemma rshift1_loop_spec v : digits_ok v ->
  let '(r, c) := rshift1_loop v in
  length r = length v /\ digits_ok r /\ c = (val v mod 2) * 2 ^ 63 /\ val r = val v / 2.
Proof.
  induction 1 as [|d v Hd Hv IH]; cbn [rshift1_loop]; [split_and!; try done; constructor|].
  destruct (rshift1_loop v) as [r c]. destruct IH as (Hl & Hr & -> & IH).
  unfold is_u64 in Hd. rewrite shr_val by lia. change (2 ^ 1) with 2.
  pose proof (Z.mod_pos_bound (val v) 2 ltac:(lia)).
  rewrite lor_add by words_lia. cbn [val length]. rewrite IH.
  split_and!; [by f_equal|constructor; [words_lia|done]| |].
  - rewrite Z.shiftl_mul_pow2 by lia. words_lia.
  - words_lia.
Qed.

Lemma vli_rshift1_spec v : vli_ok v -> vli_ok (vli_rshift1 v) /\ val (vli_rshift1 v) = val v / 2.
Proof.
  intros [Hl Hv]. unfold vli_rshift1. pose proof (rshift1_loop_spec v Hv) as H.
  destruct (rshift1_loop v) as [r c]. destruct H as (H1 & H2 & _ & H4).
  split; [split; cbn; congruence|done].
Qed.

(** ** Products of digits *)

Definition v128 (a : uint128_t) : Z := m_low a + 2 ^ 64 * m_high a.
Definition ok128 (a : uint128_t) : Prop := is_u64 (m_low a) /\ is_u64 (m_high a).

Lemma mul_64_64_spec l r : is_u64 l -> is_u64 r ->
  ok128 (mul_64_64 l r) /\ v128 (mul_64_64 l r) = l * r.
Proof.
  intros Hl Hr. unfold is_u64, mul_64_64 in *. rewrite !land_lo, !shr32.
  assert (l = 2 ^ 32 * (l / 2 ^ 32) + l mod 2 ^ 32) as El by (apply Z.div_mod; lia).
  assert (r = 2 ^ 32 * (r / 2 ^ 32) + r mod 2 ^ 32) as Er by (apply Z.div_mod; lia).
  assert (0 <= l mod 2 ^ 32 < 2 ^ 32 /\ 0 <= l / 2 ^ 32 < 2 ^ 32) as [Hl0 Hl1] by words_lia.
  assert (0 <= r mod 2 ^ 32 < 2 ^ 32 /\ 0 <= r / 2 ^ 32 < 2 ^ 32) as [Hr0 Hr1] by words_lia.
  set (a0 := l mod 2 ^ 32) in *. set (a1 := l / 2 ^ 32) in *.
  set (b0 := r mod 2 ^ 32) in *. set (b1 := r / 2 ^ 32) in *.
  assert (forall x y, 0 <= x < 2 ^ 32 -> 0 <= y < 2 ^ 32 -> 0 <= x * y <= (2 ^ 32 - 1) ^ 2) as Hb
    by (intros; nia).
  pose proof (Hb a0 b0 Hl0 Hr0). pose proof (Hb a0 b1 Hl0 Hr1).
  pose proof (Hb a1 b0 Hl1 Hr0). pose proof (Hb a1 b1 Hl1 Hr1).
  replace (l * r) with (a0 * b0 + 2 ^ 32 * (a0 * b1 + a1 * b0) + 2 ^ 64 * (a1 * b1))
    by (rewrite El, Er; ring).
  clear El Er. generalize dependent (a0 * b0). intros p0 Hp0. generalize dependent (a0 * b1).
  intros p1 Hp1. generalize dependent (a1 * b0). intros p2 Hp2. generalize dependent (a1 * b1).
  intros p3 Hp3. clear Hb. clearbody a0 a1 b0 b1.
  rewrite (u64_small p0), (u64_small p1), (u64_small p2), (u64_small p3)
    by (unfold is_u64; lia).
  rewrite (u64_small (p2 + _)) by words_lia.
  set (m2 := p2 + p0 / 2 ^ 32). assert (m2 <= 2 ^ 64 - 2 ^ 32 /\ 0 <= m2) by (subst m2; words_lia).
  unfold ok128, v128. cbn [m_low m_high].
  rewrite (u64_shl32 (u64 _)) by auto with words.
  assert (0 <= p0 mod 2 ^ 32 < 2 ^ 32) by (apply Z.mod_pos_bound; lia).
  rewrite lor_add by lia. split; [split|].
  - words_lia.
  - apply u64_range.
  - case_eqb as Hc; (subst m2; words_lia).
Qed.

Lemma add_128_128_spec a b : ok128 a -> ok128 b ->
  ok128 (add_128_128 a b) /\ v128 (add_128_128 a b) = (v128 a + v128 b) mod 2 ^ 128.
Proof.
  intros [Ha1 Ha2] [Hb1 Hb2]. unfold ok128, v128, add_128_128, is_u64 in *.
  cbn [m_low m_high]. split; [split; apply u64_range|].
  case_eqb; words_lia.
Qed.

(** ** Product scanning

    A round adds a 128-bit product to the accumulator.  It counts the carry by comparing the
    high words, and misses it in exactly one case: the high word of the accumulator is all
    ones and the low words carry. *)

Definition carry_lost (product r01 : uint128_t) : bool :=
  (m_high r01 =? 2 ^ 64 - 1) && (2 ^ 64 <=? m_low r01 + m_low product).

(** The accumulator as a number. *)
Definition acc_val (st : uint128_t * Z) : Z := v128 (fst st) + 2 ^ 128 * snd st.
Definition acc_ok (st : uint128_t * Z) : Prop := ok128 (fst st) /\ is_u64 (snd st).

Lemma acc_ok_0 r01 : ok128 r01 -> acc_ok (r01, 0).
Proof. intros H. split; [done|]. unfold is_u64. cbn. lia. Qed.

Lemma acc_product_spec p st : ok128 p -> acc_ok st -> snd st < 2 ^ 64 - 1 ->
  acc_ok (acc_product p st) /\
  acc_val (acc_product p st)
    = acc_val st + v128 p - (if carry_lost p (fst st) then 2 ^ 128 else 0).
Proof.
  intros [Hp1 Hp2] [[Hr1 Hr2] Hs] Hlt. destruct st as [r r2], p as [pl ph], r as [rl rh].
  unfold acc_ok, acc_val, ok128, v128, acc_product, add_128_128, carry_lost, is_u64 in *.
  cbn [m_low m_high fst snd] in *. split; [split_and!; apply u64_range|].
  destruct (Z.eqb_spec rh (2 ^ 64 - 1)), (Z.leb_spec (2 ^ 64) (rl + pl)); cbn [andb];
    repeat case_eqb; words_lia.
Qed.

(** [mult_column] and [square_column] with the rounds checked. *)
Definition round_ok (product : uint128_t) (st : uint128_t * Z) : bool :=
  negb (carry_lost product (fst st)).

Fixpoint rounds_ok {A} (step : uint128_t * Z -> A -> uint128_t * Z)
    (ok : uint128_t * Z -> A -> bool) (l : list A) (st : uint128_t * Z) : bool :=
  match l with
  | [] => true
  | a :: l => ok st a && rounds_ok step ok l (step st a)
  end.

Fixpoint columns_ok (column : nat -> uint128_t * Z -> uint128_t * Z)
    (ok : nat -> uint128_t * Z -> bool) (n k : nat) (r01 : uint128_t) : bool :=
  match n with
  | O => true
  | S n' =>
      ok k (r01, 0) &&
      let '(r01, r2) := column k (r01, 0) in
      columns_ok column ok n' (S k) (mk128 (m_high r01) r2)
  end.

(** No round of [vli_mult left right] loses a carry. *)
Definition mult_exact (left right : vli) : bool :=
  columns_ok (mult_column left right)
    (fun k st =>
       rounds_ok
         (fun st i => acc_product (mul_64_64 (dig left i) (dig right (k - i)%nat)) st)
         (fun st i => round_ok (mul_64_64 (dig left i) (dig right (k - i)%nat)) st)
         (column k) st)
    (NUM_ECC_DIGITS * 2 - 1) 0 (mk128 0 0).

(** No round of [vli_square left] loses a carry. *)
Definition square_exact (left : vli) : bool :=
  columns_ok (square_column left)
    (fun k st =>
       rounds_ok (square_term left k)
         (fun st i =>
            let product := mul_64_64 (dig left i) (dig left (k - i)%nat) in
            if (i <? k - i)%nat then round_ok (fst (double_product product 0)) st
            else round_ok product st)
         (filter (fun i => i <= k - i)%nat (column k)) st)
    (NUM_ECC_DIGITS * 2 - 1) 0 (mk128 0 0).

Definition sum_list (l : list Z) : Z := foldr Z.add 0 l.

(** A column whose every round adds the value of its term. *)
Lemma rounds_spec {A} (step : uint128_t * Z -> A -> uint128_t * Z) ok (term : A -> Z) l :
  (forall a st, acc_ok st -> snd st < 2 ^ 64 - 2 -> ok st a = true ->
     acc_ok (step st a) /\ acc_val (step st a) = acc_val st + term a) ->
  (forall a, 0 <= term a < 2 ^ 129) ->
  forall st, acc_ok st -> acc_val st < 2 ^ 128 * 2 -> (length l <= 4)%nat ->
  rounds_ok step ok l st = true ->
  acc_ok (foldl step st l) /\ acc_val (foldl step st l) = acc_val st + sum_list (term <$> l).
Proof.
  intros Hstep Hterm st Hst Hv Hl Hok.
  assert (forall l st, acc_ok st -> acc_val st + 2 ^ 129 * zlen l < 2 ^ 140 ->
    rounds_ok step ok l st = true ->
    acc_ok (foldl step st l) /\ acc_val (foldl step st l) = acc_val st + sum_list (term <$> l))
    as Hgen; [|apply Hgen; [done| |done]; unfold zlen; lia].
  clear st Hst Hv l Hl Hok. induction l as [|a l IH]; intros st Hst Hv Hok.
  { split; [done|]. unfold sum_list. simpl. lia. }
  cbn [rounds_ok] in Hok. apply andb_true_iff in Hok as [Ha Hok].
  rewrite zlen_cons in Hv. pose proof (zlen_nonneg l). specialize (Hterm a) as Ht.
  assert (snd st < 2 ^ 64 - 2).
  { destruct st as [r r2], Hst as [[? ?] ?]. unfold acc_val, v128, is_u64 in *.
    cbn [fst snd] in *. lia. }
  destruct (Hstep a st Hst ltac:(done) Ha) as [Hst' Hval].
  destruct (IH (step st a) Hst' ltac:(lia) Hok) as [IH1 IH2].
  cbn [foldl]. split; [done|]. rewrite IH2, Hval. cbn. unfold sum_list. lia.
Qed.

(** The digits of all the columns. *)
Lemma columns_spec column ok (s : nat -> Z) n :
  (forall k st, acc_ok st -> snd st = 0 -> ok k st = true ->
     acc_ok (column k st) /\ acc_val (column k st) = acc_val st + s k) ->
  forall k r01, ok128 r01 -> columns_ok column ok n k r01 = true ->
  let r := columns column n k r01 in
  length r = S n /\ digits_ok r /\
  exists c, 0 <= c /\ val r + 2 ^ (64 * Z.of_nat (S n)) * c
    = v128 r01 + sum_list ((fun j => s (k + j)%nat * 2 ^ (64 * Z.of_nat j)) <$> seq 0 n).
Proof.
  intros Hcol. induction n as [|n IH]; intros k r01 [H1 H2] Hok; cbn [columns].
  - split; [done|]. split; [constructor; [done|constructor]|]. exists (m_high r01).
    unfold is_u64 in *. split; [lia|]. unfold v128, sum_list. cbn [val foldr fmap list_fmap seq].
    change (64 * Z.of_nat 1) with 64. lia.
  - cbn [columns_ok] in Hok. apply andb_true_iff in Hok as [Ha Hok].
    destruct (Hcol k (r01, 0) (acc_ok_0 _ (conj H1 H2)) eq_refl Ha) as [Hst Hv].
    destruct (column k (r01, 0)) as [r r2]. destruct Hst as [[Hl Hh] H2'].
    destruct (IH (S k) (mk128 (m_high r) r2) ltac:(done) Hok) as (IH1 & IH2 & c & Hc & IH3).
    split; [simpl; by f_equal|]. split; [by constructor|]. exists c. split; [done|].
    unfold acc_val in Hv. cbn [fst snd] in *. unfold v128 in *. cbn [m_low m_high val] in *.
    cbn [seq fmap list_fmap]. rewrite <- seq_shift, <- list_fmap_compose.
    change (sum_list (?a :: ?l)) with (a + sum_list l).
    rewrite Nat.add_0_r. change (2 ^ (64 * Z.of_nat 0)) with 1.
    assert (forall l, sum_list (((fun j => s (k + j)%nat * 2 ^ (64 * Z.of_nat j)) ∘ S) <$> l)
      = 2 ^ 64 * sum_list ((fun j => s (S k + j)%nat * 2 ^ (64 * Z.of_nat j)) <$> l)) as ->.
    { induction l as [|x l IHl]; [done|]. cbn [fmap list_fmap].
      change (sum_list (?a :: ?l)) with (a + sum_list l). rewrite IHl. unfold compose.
      replace (64 * Z.of_nat (S x)) with (64 + 64 * Z.of_nat x) by lia.
      rewrite Z.pow_add_r by lia. replace (k + S x)%nat with (S k + x)%nat by lia. lia. }
    replace (64 * Z.of_nat (S (S n))) with (64 + 64 * Z.of_nat (S n)) by lia.
    rewrite Z.pow_add_r by lia. lia.
Qed.

Lemma dig_ok v i : vli_ok v -> is_u64 (dig v i).
Proof.
  intros Hv. digits v. destruct i as [|[|[|[|i]]]]; cbn [dig nth]; try done.
  destruct i; unfold is_u64; lia.
Qed.

Lemma column_length k : (length (column k) <= 4)%nat.
Proof.
  unfold column. etrans; [apply length_filter|]. rewrite length_seq. unfold NUM_ECC_DIGITS. lia.
Qed.

Lemma digit_product_bound x y : is_u64 x -> is_u64 y -> 0 <= x * y < 2 ^ 128.
Proof. unfold is_u64. nia. Qed.

(** The value of a product from its seven columns. *)
Lemma product_value l (s : nat -> Z) n c total :
  length l = 8%nat -> digits_ok l -> 0 <= c -> 0 <= total < 2 ^ 512 ->
  val l + 2 ^ (64 * Z.of_nat 8) * c
    = v128 (mk128 0 0) + sum_list ((fun j => s (0 + j)%nat * 2 ^ (64 * Z.of_nat j)) <$> seq 0 n) ->
  sum_list ((fun j => s j * 2 ^ (64 * Z.of_nat j)) <$> seq 0 n) = total ->
  val l = total.
Proof.
  intros Hl Hd Hc Ht E Es. pose proof (val_range l Hd) as Hr. unfold zlen in Hr. rewrite Hl in Hr.
  change (64 * Z.of_nat 8) with 512 in *. unfold v128 in E. cbn [m_low m_high Nat.add] in E.
  rewrite Es in E. lia.
Qed.

Lemma vli_product_bound l r : vli_ok l -> vli_ok r -> 0 <= val l * val r < 2 ^ 512.
Proof.
  intros Hl Hr. apply vli_range in Hl, Hr. change (2 ^ 512) with (2 ^ 256 * 2 ^ 256). nia.
Qed.

Definition mult_terms (left right : vli) (k : nat) : Z :=
  sum_list ((fun i => dig left i * dig right (k - i)%nat) <$> column k).

Definition square_terms (left : vli) (k : nat) : Z :=
  sum_list ((fun i => (if (i <? k - i)%nat then 2 else 1) * (dig left i * dig left (k - i)%nat))
    <$> filter (fun i => i <= k - i)%nat (column k)).

Lemma ok128_0 : ok128 (mk128 0 0).
Proof. by split. Qed.

Lemma acc_val_small st : acc_ok st -> snd st = 0 -> acc_val st < 2 ^ 128 * 2.
Proof.
  intros [[? ?] ?] E. unfold acc_val, v128, is_u64 in *. rewrite E. lia.
Qed.

Lemma mult_column_spec l r k st : vli_ok l -> vli_ok r -> acc_ok st -> snd st = 0 ->
  rounds_ok (fun st i => acc_product (mul_64_64 (dig l i) (dig r (k - i)%nat)) st)
    (fun st i => round_ok (mul_64_64 (dig l i) (dig r (k - i)%nat)) st) (column k) st = true ->
  acc_ok (mult_column l r k st) /\
  acc_val (mult_column l r k st) = acc_val st + mult_terms l r k.
Proof.
  intros Hl Hr Hst H0 Hok. unfold mult_column, mult_terms.
  eapply rounds_spec; [| |done|by apply acc_val_small|apply column_length|exact Hok].
  - intros i st' Hst' Hlt Hrd. cbv beta in *. apply negb_true_iff in Hrd.
    destruct (mul_64_64_spec (dig l i) (dig r (k - i)%nat)) as [Hp Hv]; [by apply dig_ok..|].
    destruct (acc_product_spec _ _ Hp Hst' ltac:(lia)) as [H1 H2].
    split; [done|]. rewrite H2, Hrd, Hv. lia.
  - intros i. cbv beta.
    pose proof (digit_product_bound _ _ (dig_ok l i Hl) (dig_ok r (k - i)%nat Hr)). lia.
Qed.

(** Evaluates the powers of two, for [ring]. *)
Ltac pow_consts :=
  repeat match goal with
  | |- context [2 ^ ?e] =>
      let v := eval vm_compute in (2 ^ e) in change (2 ^ e) with v
  end.

Lemma mult_terms_sum l r : vli_ok l -> vli_ok r ->
  sum_list ((fun j => mult_terms l r j * 2 ^ (64 * Z.of_nat j)) <$> seq 0 7) = val l * val r.
Proof.
  intros Hl Hr. digits l. digits r. unfold mult_terms, sum_list.
  change (seq 0 7) with [0; 1; 2; 3; 4; 5; 6]%nat. cbn [fmap list_fmap foldr].
  change (column 0) with [0%nat]. change (column 1) with [0; 1]%nat.
  change (column 2) with [0; 1; 2]%nat. change (column 3) with [0; 1; 2; 3]%nat.
  change (column 4) with [1; 2; 3]%nat. change (column 5) with [2; 3]%nat.
  change (column 6) with [3]%nat. cbn [fmap list_fmap foldr dig nth Nat.sub val].
  pow_consts. ring.
Qed.

(** Seven columns give the product. *)
Lemma columns_product column ok (s : nat -> Z) total :
  (forall k st, acc_ok st -> snd st = 0 -> ok k st = true ->
     acc_ok (column k st) /\ acc_val (column k st) = acc_val st + s k) ->
  sum_list ((fun j => s j * 2 ^ (64 * Z.of_nat j)) <$> seq 0 7) = total ->
  0 <= total < 2 ^ 512 ->
  columns_ok column ok 7 0 (mk128 0 0) = true ->
  let r := columns column 7 0 (mk128 0 0) in
  length r = 8%nat /\ digits_ok r /\ val r = total.
Proof.
  intros Hcol Hs Ht Hok.
  destruct (columns_spec column ok s 7 Hcol 0 (mk128 0 0) ok128_0 Hok)
    as (Hlen & Hd & c & Hc & E).
  cbv zeta. split; [exact Hlen|]. split; [exact Hd|].
  exact (product_value _ s 7 c total Hlen Hd Hc Ht E Hs).
Qed.

Lemma vli_mult_spec l r : vli_ok l -> vli_ok r -> mult_exact l r = true ->
  length (vli_mult l r) = 8%nat /\ digits_ok (vli_mult l r) /\ val (vli_mult l r) = val l * val r.
Proof.
  unfold mult_exact, vli_mult. change (NUM_ECC_DIGITS * 2 - 1)%nat with 7%nat.
  intros Hl Hr Hex. eapply columns_product; [|by apply mult_terms_sum| |exact Hex].
  - intros k st Hst H0 Hok. exact (mult_column_spec l r k st Hl Hr Hst H0 Hok).
  - by apply vli_product_bound.
Qed.

Lemma double_product_spec p : ok128 p ->
  ok128 (fst (double_product p 0)) /\
  v128 (fst (double_product p 0)) + 2 ^ 128 * (m_high p / 2 ^ 63) = 2 * v128 p.
Proof.
  intros [Hl Hh]. unfold ok128, v128, double_product, is_u64 in *. cbn [fst m_low m_high].
  rewrite shr_val, !Z.shiftl_mul_pow2 by lia.
  assert (u64 (m_high p * 2 ^ 1) = (m_high p mod 2 ^ 63) * 2 ^ 1) as -> by words_lia.
  rewrite Z.lor_comm, lor_add by words_lia. words_lia.
Qed.

Lemma square_term_spec l k i st : vli_ok l -> acc_ok st -> snd st < 2 ^ 64 - 2 ->
  (let product := mul_64_64 (dig l i) (dig l (k - i)%nat) in
   if (i <? k - i)%nat then round_ok (fst (double_product product 0)) st
   else round_ok product st) = true ->
  acc_ok (square_term l k st i) /\
  acc_val (square_term l k st i) = acc_val st +
    (if (i <? k - i)%nat then 2 else 1) * (dig l i * dig l (k - i)%nat).
Proof.
  intros Hl Hst Hlt Hok. cbv zeta in Hok. unfold square_term.
  destruct (mul_64_64_spec (dig l i) (dig l (k - i)%nat)) as [Hp Hv]; [by apply dig_ok..|].
  set (p := mul_64_64 _ _) in *. destruct st as [r01 r2].
  destruct (i <? k - i)%nat; apply negb_true_iff in Hok; cbn [fst] in Hok.
  - destruct (double_product_spec p Hp) as [Hp' Hv']. cbn [snd] in Hlt.
    destruct Hst as [Hr Hr2]. cbn [fst snd] in *. destruct Hp as [Hpl Hph].
    change (double_product p r2) with (fst (double_product p 0), u64 (r2 + Z.shiftr (m_high p) 63)).
    cbv iota beta. rewrite shr_val by lia. unfold is_u64 in Hph, Hr2.
    assert (u64 (r2 + m_high p / 2 ^ 63) = r2 + m_high p / 2 ^ 63) as -> by words_lia.
    destruct (acc_product_spec (fst (double_product p 0)) (r01, r2 + m_high p / 2 ^ 63))
      as [H1 H2]; [done|split; [done|cbn; words_lia]|cbn; words_lia|].
    cbn [fst] in H2. rewrite Hok in H2. split; [done|]. rewrite H2.
    unfold acc_val. cbn [fst snd]. lia.
  - destruct (acc_product_spec p (r01, r2) Hp Hst ltac:(cbn in *; lia)) as [H1 H2].
    cbn [fst] in H2. rewrite Hok in H2. split; [done|]. rewrite H2, Hv. lia.
Qed.

Lemma square_column_spec l k st : vli_ok l -> acc_ok st -> snd st = 0 ->
  rounds_ok (square_term l k)
    (fun st i =>
       let product := mul_64_64 (dig l i) (dig l (k - i)%nat) in
       if (i <? k - i)%nat then round_ok (fst (double_product product 0)) st
       else round_ok product st)
    (filter (fun i => i <= k - i)%nat (column k)) st = true ->
  acc_ok (square_column l k st) /\
  acc_val (square_column l k st) = acc_val st + square_terms l k.
Proof.
  intros Hl Hst H0 Hok. unfold square_column, square_terms.
  eapply rounds_spec; [| |done|by apply acc_val_small| |exact Hok].
  - intros i st' Hst' Hlt Hrd. by apply square_term_spec.
  - intros i. pose proof (digit_product_bound _ _ (dig_ok l i Hl) (dig_ok l (k - i)%nat Hl)).
    cbv beta. destruct (i <? k - i)%nat; lia.
  - etrans; [apply length_filter|apply column_length].
Qed.

Lemma square_terms_sum l : vli_ok l ->
  sum_list ((fun j => square_terms l j * 2 ^ (64 * Z.of_nat j)) <$> seq 0 7) = val l * val l.
Proof.
  intros Hl. digits l. unfold square_terms, sum_list.
  change (seq 0 7) with [0; 1; 2; 3; 4; 5; 6]%nat. cbn [fmap list_fmap foldr].
  change (filter _ (column 0)) with [0%nat]. change (filter _ (column 1)) with [0]%nat.
  change (filter _ (column 2)) with [0; 1]%nat. change (filter _ (column 3)) with [0; 1]%nat.
  change (filter _ (column 4)) with [1; 2]%nat. change (filter _ (column 5)) with [2]%nat.
  change (filter _ (column 6)) with [3]%nat.
  cbn [fmap list_fmap foldr dig nth Nat.sub Nat.ltb Nat.leb val].
  pow_consts. ring.
Qed.

Lemma vli_square_spec l : vli_ok l -> square_exact l = true ->
  length (vli_square l) = 8%nat /\ digits_ok (vli_square l) /\
  val (vli_square l) = val l * val l.
Proof.
  unfold square_exact, vli_square. change (NUM_ECC_DIGITS * 2 - 1)%nat with 7%nat.
  intros Hl Hex. eapply columns_product; [|by apply square_terms_sum| |exact Hex].
  - intros k st Hst H0 Hok. exact (square_column_spec l k st Hl Hst H0 Hok).
  - by apply vli_product_bound.
Qed.
