(* ===== verification/EccMod.v ===== *)
(** Arithmetic modulo the prime of P-256 in src/shared/ecc.c: modular sums and differences, the
    fast reduction, inversion, and the properties of the multi-precision arithmetic. *)
From Stdlib Require Import List ZArith Lia Znumtheory.
From stdpp Require Import base numbers list option.
From S2P Require Import Prelude Ecc EccArith.

Local Open Scope Z_scope.

(** ** Modular addition and subtraction *)

Lemma vli_mod_add_spec a b m : vli_ok a -> vli_ok b -> vli_ok m ->
  val a < val m -> val b < val m ->
  vli_ok (vli_mod_add a b m) /\ val (vli_mod_add a b m) = (val a + val b) mod val m.
Proof.
  intros Ha Hb Hm Ham Hbm. unfold vli_mod_add.
  pose proof (vli_range _ Ha). pose proof (vli_range _ Hb). pose proof (vli_range _ Hm).
  pose proof (vli_add_spec a b Ha Hb) as Hadd. destruct (vli_add a b) as [r c].
  destruct Hadd as (Hr & Hc & Hv). pose proof (vli_range _ Hr).
  pose proof (vli_sub_spec r m Hr Hm) as Hsub. destruct (vli_sub r m) as [r' c'].
  destruct Hsub as (Hr' & Hc' & Hv'). pose proof (vli_range _ Hr'). cbn [fst].
  rewrite vli_cmp_spec by done.
  destruct (Z.ltb_spec (val a + val b) (val m)).
  - rewrite Z.mod_small by lia. destruct (Z.compare_spec (val r) (val m)); try lia.
    replace c with 0 by lia. split; [done|]. cbn. lia.
  - replace ((val a + val b) mod val m) with (val a + val b - val m)
      by (symmetry; rewrite <- (Z_mod_plus_full _ (-1)); rewrite Z.mod_small; lia).
    destruct (Z.compare_spec (val r) (val m)); cbn; (destruct (Z.eqb_spec c 0); cbn;
      try lia; split; [done|lia]).
Qed.

Lemma vli_mod_sub_spec a b m : vli_ok a -> vli_ok b -> vli_ok m ->
  val a < val m -> val b < val m ->
  vli_ok (vli_mod_sub a b m) /\ val (vli_mod_sub a b m) = (val a - val b) mod val m.
Proof.
  intros Ha Hb Hm Ham Hbm. unfold vli_mod_sub.
  pose proof (vli_range _ Ha). pose proof (vli_range _ Hb). pose proof (vli_range _ Hm).
  pose proof (vli_sub_spec a b Ha Hb) as Hsub. destruct (vli_sub a b) as [r c].
  destruct Hsub as (Hr & Hc & Hv). pose proof (vli_range _ Hr).
  pose proof (vli_add_spec r m Hr Hm) as Hadd. destruct (vli_add r m) as [r' c'].
  destruct Hadd as (Hr' & Hc' & Hv'). pose proof (vli_range _ Hr'). cbn [fst].
  destruct (Z.eqb_spec c 0); cbn [negb].
  - split; [done|]. rewrite Z.mod_small; lia.
  - split; [done|]. rewrite <- (Z_mod_plus_full _ 1). rewrite Z.mod_small; lia.
Qed.

(** ** Fast reduction *)

Definition p256 : Z := val curve_p.

Lemma curve_p_ok : vli_ok curve_p.
Proof. apply (bool_decide_unpack _). vm_compute. exact I. Qed.

Lemma p256_eq : p256 = 2 ^ 256 - 2 ^ 224 + 2 ^ 192 + 2 ^ 96 - 1.
Proof. reflexivity. Qed.

Lemma mmod_up_spec fuel r carry : vli_ok r -> carry < 0 ->
  - (p256 * Z.of_nat fuel) <= val r + 2 ^ 256 * carry ->
  exists r', mmod_up fuel r carry = Some r' /\ vli_ok r' /\
    val r' = (val r + 2 ^ 256 * carry) mod p256.
Proof.
  revert r carry. pose proof p256_eq as Ep.
  induction fuel as [|fuel IH]; intros r carry Hr Hc Hf; pose proof (vli_range _ Hr).
  { lia. }
  cbn [mmod_up]. pose proof (vli_add_spec r curve_p Hr curve_p_ok) as Ha.
  destruct (vli_add r curve_p) as [r1 c]. destruct Ha as (Hr1 & Hc1 & Hv).
  fold p256 in Hv. pose proof (vli_range _ Hr1).
  rewrite <- (Z_mod_plus_full _ 1). case_eqb as Hlt.
  - destruct (IH r1 (carry + c)) as (r' & E & Hr' & Hv'); [done|lia|lia|].
    exists r'. split; [done|]. split; [done|]. rewrite Hv'. f_equal. lia.
  - exists r1. split; [done|]. split; [done|]. rewrite Z.mod_small; lia.
Qed.

Lemma mmod_down_spec fuel r carry : vli_ok r -> 0 <= carry ->
  val r + 2 ^ 256 * carry < p256 * Z.of_nat fuel ->
  exists r', mmod_down fuel r carry = Some r' /\ vli_ok r' /\
    val r' = (val r + 2 ^ 256 * carry) mod p256.
Proof.
  revert r carry. pose proof p256_eq as Ep.
  induction fuel as [|fuel IH]; intros r carry Hr Hc Hf; pose proof (vli_range _ Hr).
  { lia. }
  cbn [mmod_down]. pose proof (vli_sub_spec r curve_p Hr curve_p_ok) as Ha.
  destruct (vli_sub r curve_p) as [r1 c]. destruct Ha as (Hr1 & Hc1 & Hv).
  rewrite vli_cmp_spec by auto using curve_p_ok. fold p256 in *. pose proof (vli_range _ Hr1).
  destruct (Z.ltb_spec (val r + 2 ^ 256 * carry) p256) as [Hlt|Hge].
  - replace carry with 0 in * by lia. rewrite (proj2 (Z.compare_gt_iff _ _)) by lia.
    exists r. split; [done|]. split; [done|]. rewrite Z.mod_small; lia.
  - assert (negb (carry =? 0) || negb (match p256 ?= val r with Eq => 0 | Lt => -1 | Gt => 1 end =? 1)
      = true) as ->.
    { destruct (Z.eqb_spec carry 0); [|done]. destruct (Z.compare_spec p256 (val r)); try done. lia. }
    rewrite <- (Z_mod_plus_full _ (-1)).
    destruct (IH r1 (carry - c)) as (r' & E & Hr' & Hv'); [done|lia|lia|].
    exists r'. split; [done|]. split; [done|]. rewrite Hv'. f_equal. lia.
Qed.

(** A digit from its two 32-bit words. *)
Lemma digit_words d : is_u64 d -> exists lo hi,
  d mod 2 ^ 32 = lo /\ d / 2 ^ 32 = hi /\ d = lo + 2 ^ 32 * hi /\
  0 <= lo < 2 ^ 32 /\ 0 <= hi < 2 ^ 32.
Proof. intros Hd. do 2 eexists. split; [done|]. split; [done|]. unfold is_u64 in Hd. words_lia. Qed.

Lemma add_step r tmp carry r' c : vli_ok r -> vli_add r tmp = (r', c) -> vli_ok tmp ->
  vli_ok r' /\ val r' + 2 ^ 256 * (carry + c) = val r + 2 ^ 256 * carry + val tmp.
Proof.
  intros Hr E Ht. pose proof (vli_add_spec r tmp Hr Ht) as H. rewrite E in H.
  destruct H as (H1 & H2 & H3). split; [done|lia].
Qed.

Lemma sub_step r tmp carry r' c : vli_ok r -> vli_sub r tmp = (r', c) -> vli_ok tmp ->
  vli_ok r' /\ val r' + 2 ^ 256 * (carry - c) = val r + 2 ^ 256 * carry - val tmp.
Proof.
  intros Hr E Ht. pose proof (vli_sub_spec r tmp Hr Ht) as H. rewrite E in H.
  destruct H as (H1 & H2 & H3). split; [done|lia].
Qed.

Lemma vli_ok_4 a b c d : is_u64 a -> is_u64 b -> is_u64 c -> is_u64 d -> vli_ok [a; b; c; d].
Proof. intros. split; [done|]. repeat (constructor; [done|]). constructor. Qed.

(** Shifting a number whose lowest digit is zero. *)
Lemma lshift_step b c d r carry : is_u64 b -> is_u64 c -> is_u64 d ->
  vli_lshift [0; b; c; d] 1 = (r, carry) ->
  vli_ok r /\ dig r 0 = 0 /\ val r + 2 ^ 256 * carry = 2 * val [0; b; c; d].
Proof.
  intros Hb Hc Hd E. assert (vli_ok [0; b; c; d]) as Hok by (apply vli_ok_4; done).
  pose proof (vli_lshift1_spec _ Hok) as H. rewrite E in H. destruct H as (H1 & _ & H3).
  split; [done|]. split; [|done]. unfold vli_lshift in E. cbn [lshift_loop] in E.
  repeat (match type of E with context [let '(_, _) := ?x in _] => destruct x end).
  injection E as <- _. reflexivity.
Qed.

(** The words of the product in the sums and differences of the algorithm. *)
Ltac mmod_words :=
  rewrite ?land_hi, ?land_lo, ?u64_shl32, ?shr32 by done;
  repeat match goal with H : _ mod 2 ^ 32 = _ |- _ => rewrite H end;
  repeat match goal with H : _ / 2 ^ 32 = _ |- _ => rewrite H end;
  rewrite ?lor_add by lia.

Ltac mmod_ok := apply vli_ok_4; unfold is_u64; lia.

Lemma vli_mmod_fast_words p0 p1 p2 p3 p4 p5 p6 p7 :
  digits_ok [p0; p1; p2; p3; p4; p5; p6; p7] ->
  exists r, vli_mmod_fast [p0; p1; p2; p3; p4; p5; p6; p7] = Some r /\ vli_ok r /\
    val r = val [p0; p1; p2; p3; p4; p5; p6; p7] mod p256.
Proof.
  intros Hd. unfold digits_ok in Hd. rewrite !List.Forall_cons_iff in Hd.
  destruct Hd as (H0 & H1 & H2 & H3 & H4 & H5 & H6 & H7 & _).
  destruct (digit_words p4 H4) as (c8 & c9 & L4 & R4 & E4 & B8 & B9).
  destruct (digit_words p5 H5) as (c10 & c11 & L5 & R5 & E5 & B10 & B11).
  destruct (digit_words p6 H6) as (c12 & c13 & L6 & R6 & E6 & B12 & B13).
  destruct (digit_words p7 H7) as (c14 & c15 & L7 & R7 & E7 & B14 & B15).
  unfold vli_mmod_fast. cbn [dig nth take NUM_ECC_DIGITS]. mmod_words.
  assert (vli_ok [p0; p1; p2; p3]) as Ht by (apply vli_ok_4; done).
  destruct (vli_lshift _ 1) as [tmp l1] eqn:El1.
  apply lshift_step in El1 as (Hs1 & Hs10 & Vs1); [|unfold is_u64; lia..].
  destruct (vli_add _ tmp) as [r1 k1] eqn:Ek1.
  destruct (add_step _ _ l1 _ _ Ht Ek1 Hs1) as [Hr1 V1]. rewrite Hs10.
  destruct (vli_lshift _ 1) as [tmp2 l2] eqn:El2.
  apply lshift_step in El2 as (Hs2 & _ & Vs2); [|unfold is_u64; lia..].
  destruct (vli_add r1 tmp2) as [r2 k2] eqn:Ek2.
  destruct (add_step _ _ (l1 + k1 + l2) _ _ Hr1 Ek2 Hs2) as [Hr2 V2].
  destruct (vli_add r2 _) as [r3 k3] eqn:Ek3.
  destruct (add_step r2 _ (l1 + k1 + l2 + k2) _ _ Hr2 Ek3 ltac:(mmod_ok)) as [Hr3 V3].
  destruct (vli_add r3 _) as [r4 k4] eqn:Ek4.
  destruct (add_step r3 _ (l1 + k1 + l2 + k2 + k3) _ _ Hr3 Ek4 ltac:(mmod_ok)) as [Hr4 V4].
  destruct (vli_sub r4 _) as [r5 k5] eqn:Ek5.
  destruct (sub_step r4 _ (l1 + k1 + l2 + k2 + k3 + k4) _ _ Hr4 Ek5 ltac:(mmod_ok)) as [Hr5 V5].
  destruct (vli_sub r5 _) as [r6 k6] eqn:Ek6.
  destruct (sub_step r5 _ (l1 + k1 + l2 + k2 + k3 + k4 - k5) _ _ Hr5 Ek6 ltac:(mmod_ok))
    as [Hr6 V6].
  destruct (vli_sub r6 _) as [r7 k7] eqn:Ek7.
  destruct (sub_step r6 _ (l1 + k1 + l2 + k2 + k3 + k4 - k5 - k6) _ _ Hr6 Ek7 ltac:(mmod_ok))
    as [Hr7 V7].
  destruct (vli_sub r7 _) as [r8 k8] eqn:Ek8.
  destruct (sub_step r7 _ (l1 + k1 + l2 + k2 + k3 + k4 - k5 - k6 - k7) _ _ Hr7 Ek8 ltac:(mmod_ok))
    as [Hr8 V8].
  set (carry := l1 + k1 + l2 + k2 + k3 + k4 - k5 - k6 - k7 - k8) in *.
  pose proof p256_eq as Ep. pose proof (vli_range _ Hr8) as Rr.
  assert (val r8 + 2 ^ 256 * carry = val [p0; p1; p2; p3; p4; p5; p6; p7] + p256 *
    (- c8 - 4294967297 * c9 - 18446744078004518912 * c10
     - 79228162532711081667253501951 * c11
     - 340282367000166625977638945021017194495 * c12
     - 1461501637671185285124623296161210883009696235519 * c13
     - 6277101736848182401166692341332123086285927382448418586623 * c14
     - 26959946673427741530053695850515137729844644212646842236464328081408 * c15)) as Ev.
  { unfold is_u64 in *. cbn [val] in *. rewrite Ep. lia. }
  assert (- (4 * 2 ^ 256) <= val r8 + 2 ^ 256 * carry < 7 * 2 ^ 256) as Hb.
  { unfold is_u64 in *. cbn [val] in *. lia. }
  rewrite <- (Z_mod_plus_full _ (- c8 - 4294967297 * c9 - 18446744078004518912 * c10
     - 79228162532711081667253501951 * c11
     - 340282367000166625977638945021017194495 * c12
     - 1461501637671185285124623296161210883009696235519 * c13
     - 6277101736848182401166692341332123086285927382448418586623 * c14
     - 26959946673427741530053695850515137729844644212646842236464328081408 * c15)),
    (Z.mul_comm _ p256), <- Ev.
  case_eqb as Hc.
  - apply mmod_up_spec; [done|done|unfold MMOD_FUEL; lia].
  - apply mmod_down_spec; [done|done|unfold MMOD_FUEL; lia].
Qed.

(** ** Modular inversion *)

Lemma EVEN_spec v : vli_ok v -> EVEN v = Z.even (val v).
Proof.
  intros Hv. digits v. unfold EVEN. cbn [dig nth val].
  rewrite Z.even_add, Z.even_mul. cbn [orb]. change (Z.even (2 ^ 64)) with true. cbn [orb].
  change 1 with (2 ^ 1 - 1). rewrite land_mask by lia. change (2 ^ 1) with 2.
  rewrite Zeven_mod. unfold Zeq_bool. destruct (d mod 2) eqn:E; by destruct (Z.even d).
Qed.

Lemma rshift1_carry_spec u c : vli_ok u -> c = 0 \/ c = 1 ->
  vli_ok (rshift1_carry u c) /\ val (rshift1_carry u c) = (val u + 2 ^ 256 * c) / 2.
Proof.
  intros Hu Hc. unfold rshift1_carry. destruct (vli_rshift1_spec u Hu) as [Hr Hv].
  pose proof (vli_range _ Hu). set (w := vli_rshift1 u) in *. clearbody w.
  destruct Hc as [-> | ->]; cbn [Z.eqb negb].
  - rewrite Z.add_0_r. done.
  - pose proof (vli_range _ Hr). digits w. unfold is_u64 in *. cbn [val] in *.
    cbn [insert list_insert dig nth NUM_ECC_DIGITS Nat.sub].
    change 0x8000000000000000 with (1 * 2 ^ 63). rewrite lor_add by words_lia.
    split; [apply vli_ok_4; unfold is_u64; words_lia|]. cbn [val].
    replace (val u + 2 ^ 256 * 1) with (val u + 2 ^ 255 * 2) by lia.
    rewrite Z.div_add by lia. lia.
Qed.

Lemma halve_spec u m : vli_ok u -> vli_ok m -> Z.odd (val m) = true -> val u < val m ->
  vli_ok (halve u m) /\ val (halve u m) < val m /\
  exists k, 2 * val (halve u m) = val u + k * val m.
Proof.
  intros Hu Hm Hodd Hlt. unfold halve. rewrite EVEN_spec by done.
  pose proof (vli_range _ Hu). pose proof (vli_range _ Hm).
  destruct (Z.even (val u)) eqn:Ee.
  - destruct (rshift1_carry_spec u 0 Hu ltac:(auto)) as [Hr Hv]. rewrite Hv.
    apply Z.even_spec in Ee as [k Hk]. split; [done|]. split; [words_lia|].
    exists 0. rewrite Hk. words_lia.
  - pose proof (vli_add_spec u m Hu Hm) as Ha. destruct (vli_add u m) as [s c].
    destruct Ha as (Hs & Hc & Ha). destruct (rshift1_carry_spec s c Hs Hc) as [Hr Hv].
    rewrite Hv, Ha. assert (Z.Odd (val u)) as [i Hi]
      by (apply Z.odd_spec; rewrite <- Z.negb_even, Ee; done).
    apply Z.odd_spec in Hodd as [j Hj]. split; [done|]. split; [words_lia|].
    exists 1. words_lia.
Qed.

Lemma gcd_odd_2 m : Z.odd m = true -> Z.gcd m 2 = 1.
Proof.
  intros Hm. apply Z.odd_spec in Hm as [j ->].
  replace (2 * j + 1) with (1 + j * 2) by lia.
  rewrite Z.gcd_comm, Z.gcd_add_mult_diag_r. done.
Qed.

Lemma div_double m x : Z.odd m = true -> (m | 2 * x) -> (m | x).
Proof. intros Hm Hd. apply (Z.gauss m 2 x Hd). by apply gcd_odd_2. Qed.

Lemma odd_divisor d b : Z.odd b = true -> (d | b) -> Z.odd d = true.
Proof.
  intros Hb [q ->]. rewrite Z.odd_mul in Hb. by apply andb_true_iff in Hb as [_ ?].
Qed.

Lemma gcd_half a b : Z.odd b = true -> Z.gcd (2 * a) b = Z.gcd a b.
Proof.
  intros Hb. apply Z.divide_antisym_nonneg; try apply Z.gcd_nonneg.
  - apply Z.gcd_greatest; [|apply Z.gcd_divide_r].
    apply div_double; [|apply Z.gcd_divide_l].
    eapply odd_divisor; [exact Hb|apply Z.gcd_divide_r].
  - apply Z.gcd_greatest; [|apply Z.gcd_divide_r].
    apply Z.divide_mul_r, Z.gcd_divide_l.
Qed.

Lemma gcd_half_r a b : Z.odd a = true -> Z.gcd a (2 * b) = Z.gcd a b.
Proof. intros. rewrite Z.gcd_comm, gcd_half by done. apply Z.gcd_comm. Qed.

(** The invariant of the loop: [u * x = a] and [v * x = b] modulo [m], and the greatest common
    divisor of [a] and [b] does not change. *)
Record inv_ok (x : Z) (m : vli) (s : inv_state) : Prop := {
  inv_a : vli_ok (ia s); inv_b : vli_ok (ib s); inv_u : vli_ok (iu s); inv_v : vli_ok (iv s);
  inv_pos : 0 < val (ia s) /\ 0 < val (ib s);
  inv_lt : val (iu s) < val m /\ val (iv s) < val m;
  inv_ua : (val m | val (iu s) * x - val (ia s));
  inv_vb : (val m | val (iv s) * x - val (ib s));
  inv_gcd : Z.gcd (val (ia s)) (val (ib s)) = Z.gcd x (val m)
}.

Lemma halve_cong u m x a : vli_ok u -> vli_ok m -> Z.odd (val m) = true -> val u < val m ->
  (val m | val u * x - 2 * a) ->
  vli_ok (halve u m) /\ val (halve u m) < val m /\ (val m | val (halve u m) * x - a).
Proof.
  intros Hu Hm Hodd Hlt Hd. destruct (halve_spec u m Hu Hm Hodd Hlt) as (Hr & Hl & k & Hk).
  split; [done|]. split; [done|]. apply div_double; [done|].
  replace (2 * (val (halve u m) * x - a)) with (val u * x - 2 * a + k * x * val m) by nia.
  apply Z.divide_add_r; [done|]. by exists (k * x).
Qed.

(** [if (u < v) u += mod; u -= v;] *)
Lemma reduced_sub u v m : vli_ok u -> vli_ok v -> vli_ok m -> val u < val m -> val v < val m ->
  let r := fst (vli_sub (if vli_cmp u v <? 0 then fst (vli_add u m) else u) v) in
  vli_ok r /\ val r < val m /\ (val m | val r - (val u - val v)).
Proof.
  intros Hu Hv Hm Hum Hvm r. subst r. rewrite vli_cmp_spec by done.
  pose proof (vli_range _ Hu). pose proof (vli_range _ Hv). pose proof (vli_range _ Hm).
  pose proof (vli_add_spec u m Hu Hm) as Ha. destruct (vli_add u m) as [s c].
  destruct Ha as (Hs & Hc & Ha). cbn [fst]. pose proof (vli_range _ Hs).
  set (w := if _ : bool then s else u).
  assert (vli_ok w) as Hw by (subst w; case_match; done).
  assert ((val u < val v /\ w = s) \/ (val v <= val u /\ w = u)) as Hcase.
  { subst w. destruct (Z.compare_spec (val u) (val v)); cbn; [right|left|right];
      (split; [lia|done]). }
  clearbody w. pose proof (vli_sub_spec w v Hw Hv) as Hd. destruct (vli_sub w v) as [r b].
  destruct Hd as (Hr & Hb & Hd). cbn [fst]. pose proof (vli_range _ Hr). split; [done|].
  destruct Hcase as [[? ->] | [? ->]].
  - split; [lia|]. exists 1. lia.
  - split; [lia|]. exists 0. lia.
Qed.

(** Half of the difference of two odd numbers. *)
Lemma odd_diff_half a b : vli_ok a -> vli_ok b -> Z.odd (val a) = true -> Z.odd (val b) = true ->
  val b < val a ->
  let r := vli_rshift1 (fst (vli_sub a b)) in
  vli_ok r /\ 2 * val r = val a - val b.
Proof.
  intros Ha Hb Hoa Hob Hlt r. subst r. pose proof (vli_range _ Ha). pose proof (vli_range _ Hb).
  pose proof (vli_sub_spec a b Ha Hb) as Hd. destruct (vli_sub a b) as [r c].
  destruct Hd as (Hr & Hc & Hd). cbn [fst]. pose proof (vli_range _ Hr).
  destruct (vli_rshift1_spec r Hr) as [Hr' Hv]. split; [done|]. rewrite Hv.
  apply Z.odd_spec in Hoa as [i Hi], Hob as [j Hj]. words_lia.
Qed.

Lemma even_half a : vli_ok a -> EVEN a = true ->
  vli_ok (vli_rshift1 a) /\ 2 * val (vli_rshift1 a) = val a.
Proof.
  intros Ha He. rewrite EVEN_spec in He by done. apply Z.even_spec in He as [i Hi].
  destruct (vli_rshift1_spec a Ha) as [Hr Hv]. split; [done|]. rewrite Hv. words_lia.
Qed.

(** One round keeps the invariant and halves [a] or [b]. *)
Lemma mod_inv_step_spec x m s : vli_ok m -> Z.odd (val m) = true -> inv_ok x m s ->
  vli_cmp (ia s) (ib s) <> 0 ->
  let s' := mod_inv_step m (vli_cmp (ia s) (ib s)) s in
  inv_ok x m s' /\
  ((2 * val (ia s') <= val (ia s) /\ ib s' = ib s) \/
   (2 * val (ib s') <= val (ib s) /\ ia s' = ia s)).
Proof.
  intros Hm Hodd [Ha Hb Hu Hv Hpos Hlt Hua Hvb Hg] Hcmp.
  destruct s as [a b u v]. cbn [ia ib iu iv] in *.
  assert (Z.odd (Z.gcd (val a) (val b)) = true) as Hgo.
  { rewrite Hg. eapply odd_divisor; [exact Hodd|apply Z.gcd_divide_r]. }
  unfold mod_inv_step. destruct (EVEN a) eqn:Ea; [|destruct (EVEN b) eqn:Eb].
  - destruct (even_half a Ha Ea) as [Ha' Va]. rewrite <- Va in Hua.
    destruct (halve_cong u m x _ Hu Hm Hodd (proj1 Hlt) Hua) as (Hu' & Hlu & Hd).
    split; [|left; cbn [ia ib]; split; [lia|done]]. split; cbn [ia ib iu iv]; try done; try lia.
    rewrite <- Hg, <- Va. symmetry. apply gcd_half.
    destruct (Z.odd (val b)) eqn:Ob; [done|exfalso].
    assert (2 | Z.gcd (val a) (val b)) as [q Hq].
    { apply Z.gcd_greatest; [exists (val (vli_rshift1 a)); lia|].
      rewrite <- Z.negb_even in Ob. apply negb_false_iff, Z.even_spec in Ob as [k Hk].
      exists k. lia. }
    rewrite Hq, Z.odd_mul, andb_false_r in Hgo. done.
  - rewrite EVEN_spec in Ea by done. assert (Z.odd (val a) = true) as Oa
      by (rewrite <- Z.negb_even, Ea; done).
    destruct (even_half b Hb Eb) as [Hb' Vb]. rewrite <- Vb in Hvb.
    destruct (halve_cong v m x _ Hv Hm Hodd (proj2 Hlt) Hvb) as (Hv' & Hlv & Hd).
    split; [|right; cbn [ia ib]; split; [lia|done]]. split; cbn [ia ib iu iv]; try done; try lia.
    rewrite <- Hg, <- Vb. symmetry. by apply gcd_half_r.
  - rewrite EVEN_spec in Ea, Eb by done.
    assert (Z.odd (val a) = true) as Oa by (rewrite <- Z.negb_even, Ea; done).
    assert (Z.odd (val b) = true) as Ob by (rewrite <- Z.negb_even, Eb; done).
    rewrite vli_cmp_spec in * by done. destruct (Z.compare_spec (val a) (val b)) as [E|E|E];
      [done|cbn [Z.ltb]; change (0 <? -1) with false|change (0 <? 1) with true]; cbv iota.
    + destruct (odd_diff_half b a Hb Ha Ob Oa E) as [Hb' Vb].
      destruct (reduced_sub v u m Hv Hu Hm (proj2 Hlt) (proj1 Hlt)) as (Hr & Hrl & Hrd).
      set (b' := vli_rshift1 _) in *. set (r := fst (vli_sub _ u)) in *.
      assert (val m | val r * x - 2 * val b') as Hd.
      { rewrite Vb. replace (val r * x - (val b - val a)) with
          ((val r - (val v - val u)) * x + (val v * x - val b) - (val u * x - val a)) by ring.
        apply Z.divide_sub_r; [|done]. apply Z.divide_add_r; [|done]. by apply Z.divide_mul_l. }
      destruct (halve_cong r m x _ Hr Hm Hodd Hrl Hd) as (Hv' & Hlv & Hd').
      split; [|right; cbn [ia ib]; split; [lia|done]].
      split; cbn [ia ib iu iv]; try done; try lia.
      rewrite <- Hg, <- (gcd_half_r _ _ Oa), Vb. apply Z.gcd_sub_diag_r.
    + destruct (odd_diff_half a b Ha Hb Oa Ob E) as [Ha' Va].
      destruct (reduced_sub u v m Hu Hv Hm (proj1 Hlt) (proj2 Hlt)) as (Hr & Hrl & Hrd).
      set (a' := vli_rshift1 _) in *. set (r := fst (vli_sub _ v)) in *.
      assert (val m | val r * x - 2 * val a') as Hd.
      { rewrite Va. replace (val r * x - (val a - val b)) with
          ((val r - (val u - val v)) * x + (val u * x - val a) - (val v * x - val b)) by ring.
        apply Z.divide_sub_r; [|done]. apply Z.divide_add_r; [|done]. by apply Z.divide_mul_l. }
      destruct (halve_cong r m x _ Hr Hm Hodd Hrl Hd) as (Hu' & Hlu & Hd').
      split; [|left; cbn [ia ib]; split; [lia|done]].
      split; cbn [ia ib iu iv]; try done; try lia.
      rewrite <- Hg, <- (gcd_half _ _ Ob), Va, Z.gcd_comm, Z.gcd_sub_diag_r. apply Z.gcd_comm.
Qed.

Lemma mod_inv_loop_spec x m fuel s (i j : nat) : vli_ok m -> Z.odd (val m) = true ->
  inv_ok x m s -> val (ia s) < 2 ^ Z.of_nat i -> val (ib s) < 2 ^ Z.of_nat j ->
  (i + j <= fuel + 2)%nat ->
  exists r, mod_inv_loop fuel m s = Some r /\ vli_ok r /\ val r < val m /\
    (val m | val r * x - Z.gcd x (val m)).
Proof.
  intros Hm Hodd. revert s i j. induction fuel as [|fuel IH]; intros s i j Hs Hi Hj Hf;
    pose proof (inv_pos _ _ _ Hs) as [Hpa Hpb]; cbn [mod_inv_loop];
    (destruct (Z.eqb_spec (vli_cmp (ia s) (ib s)) 0) as [E|E];
     [exists (iu s); split; [done|]; split; [apply Hs|]; split; [apply Hs|];
      rewrite <- (inv_gcd _ _ _ Hs); rewrite vli_cmp_spec in E by apply Hs;
      destruct (Z.compare_spec (val (ia s)) (val (ib s))) as [E'|E'|E']; try done;
      rewrite <- E', Z.gcd_diag_nonneg by lia; apply Hs|]).
  - exfalso. destruct i as [|i], j as [|j]; simpl in Hi, Hj; try lia.
    assert (i = 0 /\ j = 0)%nat as [-> ->] by lia. rewrite vli_cmp_spec in E by apply Hs.
    replace (val (ia s)) with 1 in E by lia. replace (val (ib s)) with 1 in E by lia. done.
  - destruct (mod_inv_step_spec x m s Hm Hodd Hs E) as [Hs' Hstep].
    set (s' := mod_inv_step _ _ _) in *. pose proof (inv_pos _ _ _ Hs') as [Hpa' Hpb'].
    destruct Hstep as [[Hle Heq] | [Hle Heq]].
    + destruct i as [|i]; [simpl in Hi; lia|]. rewrite Nat2Z.inj_succ, Z.pow_succ_r in Hi by lia.
      apply (IH s' i j); [done|lia|by rewrite Heq|lia].
    + destruct j as [|j]; [simpl in Hj; lia|]. rewrite Nat2Z.inj_succ, Z.pow_succ_r in Hj by lia.
      apply (IH s' i j); [done|by rewrite Heq|lia|lia].
Qed.

(** ** Bits and equality *)

Lemma diff_from_spec n l r d : 0 <= d -> (forall i, (i < n)%nat -> 0 <= dig l i /\ 0 <= dig r i) ->
  diff_from n l r d = 0 <-> d = 0 /\ forall i, (i < n)%nat -> dig l i = dig r i.
Proof.
  revert d. induction n as [|n IH]; intros d Hd Hn; cbn [diff_from].
  { split; [intros ->; split; [done|lia]|by intros [-> _]]. }
  destruct (Hn n ltac:(lia)) as [Hln Hrn].
  rewrite IH; [|apply Z.lor_nonneg; split; [done|by apply Z.lxor_nonneg]|intros; apply Hn; lia].
  rewrite Z.lor_eq_0_iff, Z.lxor_eq_0_iff. split.
  - intros [[-> E] H]. split; [done|]. intros i Hi. destruct (decide (i = n)) as [->|]; [done|].
    apply H. lia.
  - intros [-> H]. split; [split; [done|apply H; lia]|]. intros i Hi. apply H. lia.
Qed.

Lemma vli_equal_spec l r : vli_ok l -> vli_ok r -> vli_equal l r = true <-> l = r.
Proof.
  intros Hl Hr. unfold vli_equal. rewrite Z.eqb_eq, diff_from_spec; [|done|].
  - split; [|by intros ->]. intros [_ H]. digits l. digits r.
    pose proof (H 0%nat ltac:(vm_compute; lia)). pose proof (H 1%nat ltac:(vm_compute; lia)).
    pose proof (H 2%nat ltac:(vm_compute; lia)). pose proof (H 3%nat ltac:(vm_compute; lia)).
    cbn in *. congruence.
  - intros i _. pose proof (dig_ok l i Hl). pose proof (dig_ok r i Hr). unfold is_u64 in *. lia.
Qed.

Lemma digit_bits_spec fuel d i : 0 <= d < 2 ^ Z.of_nat fuel ->
  digit_bits (S fuel) d i = i + (if d =? 0 then 0 else Z.log2 d + 1).
Proof.
  revert d i. induction fuel as [|fuel IH]; intros d i Hd.
  { change (2 ^ Z.of_nat 0) with 1 in Hd. replace d with 0 by lia. cbn. lia. }
  cbn [digit_bits]. fold (digit_bits fuel). destruct (Z.eqb_spec d 0) as [->|Hne]; [lia|].
  rewrite Nat2Z.inj_succ, Z.pow_succ_r in Hd by lia.
  change (if _ : bool then i + 1 else _) with (digit_bits (S fuel) (Z.shiftr d 1) (i + 1)).
  rewrite IH by (rewrite shr_val by lia; change (2 ^ 1) with 2; words_lia).
  rewrite shr_val by lia. change (2 ^ 1) with 2. destruct (Z.eqb_spec (d / 2) 0) as [E|E].
  - replace d with 1 by words_lia. cbn. lia.
  - assert (2 <= d) by words_lia.
    replace (Z.log2 d) with (Z.succ (Z.log2 (d / 2))); [lia|].
    rewrite <- Z.log2_double by words_lia. symmetry.
    destruct (Z.Even_or_Odd d) as [[k ->] | [k ->]].
    + f_equal. words_lia.
    + replace ((2 * k + 1) / 2) with k by words_lia.
      rewrite Z.log2_succ_double, Z.log2_double by lia. done.
Qed.

Lemma log2_digits d x n : 0 < d < 2 ^ 64 -> 0 <= n -> 0 <= x < 2 ^ n ->
  Z.log2 (x + 2 ^ n * d) = n + Z.log2 d.
Proof.
  intros Hd Hn Hx. apply Z.log2_unique; [pose proof (Z.log2_nonneg d); lia|].
  pose proof (Z.log2_spec d ltac:(lia)) as [H1 H2].
  rewrite <- Z.add_succ_r, !Z.pow_add_r by (pose proof (Z.log2_nonneg d); lia).
  split; nia.
Qed.

Lemma vli_num_bits_spec v : vli_ok v ->
  vli_num_bits v = if val v =? 0 then 0 else Z.log2 (val v) + 1.
Proof.
  intros Hv. digits v. unfold vli_num_bits, vli_num_digits. change NUM_ECC_DIGITS with 4%nat.
  cbn [num_digits_from dig nth val]. unfold is_u64 in *.
  destruct (Z.eqb_spec d2 0) as [->|]; [destruct (Z.eqb_spec d1 0) as [->|];
    [destruct (Z.eqb_spec d0 0) as [->|]; [destruct (Z.eqb_spec d 0) as [->|]|]|]|];
    [done|..]; rewrite (proj2 (Z.eqb_neq _ 0)) by lia;
    cbn [Z.of_nat Pos.of_succ_nat Pos.succ Z.eqb];
    match goal with |- context [Z.to_nat ?e] =>
      let v := eval vm_compute in (Z.to_nat e) in change (Z.to_nat e) with v end;
    cbn [nth]; rewrite (digit_bits_spec 64)
      by (change (2 ^ Z.of_nat 64) with (2 ^ 64); lia); do 2 rewrite (proj2 (Z.eqb_neq _ 0)) by lia.
  - replace (d + 2 ^ 64 * _) with d by lia. lia.
  - replace (d + 2 ^ 64 * _) with (d + 2 ^ 64 * d0) by lia. rewrite log2_digits by lia. lia.
  - replace (d + 2 ^ 64 * _) with ((d + 2 ^ 64 * d0) + 2 ^ 128 * d1) by lia.
    rewrite log2_digits by lia. lia.
  - replace (d + 2 ^ 64 * _) with ((d + 2 ^ 64 * d0 + 2 ^ 128 * d1) + 2 ^ 192 * d2) by lia.
    rewrite log2_digits by lia. lia.
Qed.

Lemma val_testbit v i : digits_ok v -> 0 <= i ->
  Z.testbit (val v) i = Z.testbit (dig v (Z.to_nat (i / 64))) (i mod 64).
Proof.
  intros Hv. revert i. induction Hv as [|d v Hd Hv IH]; intros i Hi; cbn [val].
  { unfold dig. destruct (Z.to_nat (i / 64)); cbn; by rewrite !Z.bits_0. }
  unfold is_u64 in Hd. rewrite Z.mul_comm, <- lor_add, Z.lor_spec by lia.
  destruct (Z.ltb_spec i 64).
  - rewrite Z.div_small, Z.mod_small, Z.mul_pow2_bits_low by lia. apply orb_false_r.
  - rewrite Z.mul_pow2_bits by lia. rewrite <- (Z.mod_small d (2 ^ 64)) at 1 by lia.
    rewrite Z.mod_pow2_bits_high by lia. cbn [orb]. rewrite IH by lia.
    replace (Z.to_nat (i / 64)) with (S (Z.to_nat ((i - 64) / 64))) by words_lia.
    cbn [dig nth]. f_equal. words_lia.
Qed.

Lemma vli_test_bit_spec v i : vli_ok v -> 0 <= i < 256 ->
  vli_test_bit v i <> 0 <-> Z.testbit (val v) i = true.
Proof.
  intros Hv Hi. rewrite val_testbit by (apply Hv || lia). unfold vli_test_bit.
  pose proof (Z.mod_pos_bound i 64 ltac:(lia)). set (j := i mod 64) in *.
  set (d := dig v _). rewrite Z.shiftl_mul_pow2, Z.mul_1_l by lia.
  rewrite u64_small by (unfold is_u64; split; [apply Z.pow_nonneg; lia|
    apply Z.pow_lt_mono_r; lia]).
  split.
  - intros Hne. destruct (Z.testbit d j) eqn:E; [done|]. exfalso. apply Hne.
    apply Z.bits_inj'. intros k Hk. rewrite Z.land_spec, Z.bits_0, Z.pow2_bits_eqb by lia.
    destruct (Z.eqb_spec j k) as [->|]; [by rewrite E|apply andb_false_r].
  - intros E H0. assert (Z.testbit (Z.land d (2 ^ j)) j = true) as Hb
      by (rewrite Z.land_spec, E, Z.pow2_bits_true by lia; done).
    rewrite H0, Z.bits_0 in Hb. done.
Qed.

(** ** The properties *)

(** Addition and subtraction of 256-bit numbers return the digits and the carry of the exact
    result, comparison is the comparison of the numbers, and the equality test, which looks at
    every digit, decides equality. *)
Theorem vli_arith_correct l r : vli_ok l -> vli_ok r ->
  (let '(s, c) := vli_add l r in vli_ok s /\ (c = 0 \/ c = 1) /\ val s + 2 ^ 256 * c = val l + val r) /\
  (let '(d, b) := vli_sub l r in vli_ok d /\ (b = 0 \/ b = 1) /\ val d - 2 ^ 256 * b = val l - val r) /\
  vli_cmp l r = match val l ?= val r with Eq => 0 | Lt => -1 | Gt => 1 end /\
  (vli_equal l r = true <-> l = r) /\
  vli_num_bits l = (if val l =? 0 then 0 else Z.log2 (val l) + 1) /\
  (forall i, 0 <= i < 256 -> vli_test_bit l i <> 0 <-> Z.testbit (val l) i = true).
Proof.
  intros Hl Hr. split; [by apply vli_add_spec|]. split; [by apply vli_sub_spec|].
  split; [by apply vli_cmp_spec|]. split; [by apply vli_equal_spec|].
  split; [by apply vli_num_bits_spec|]. intros i Hi. by apply vli_test_bit_spec.
Qed.

Lemma vli_arith_correct_witness :
  vli_cmp curve_b curve_n = -1 /\ vli_num_bits curve_b = 255 /\ (vli_test_bit curve_b 254 <> 0).
Proof.
  destruct (vli_arith_correct curve_b curve_n) as (_ & _ & -> & _ & -> & Hb);
    [apply (bool_decide_unpack _); vm_compute; exact I..|].
  split; [vm_compute; reflexivity|]. split; [vm_compute; reflexivity|].
  apply Hb; [lia|vm_compute; reflexivity].
Defined.

(** The product and the square of 256-bit numbers are exact whenever no round of the
    product scanning loses a carry. *)
Theorem vli_product_correct l r : vli_ok l -> vli_ok r ->
  (mult_exact l r = true -> digits_ok (vli_mult l r) /\ val (vli_mult l r) = val l * val r) /\
  (square_exact l = true -> digits_ok (vli_square l) /\ val (vli_square l) = val l * val l).
Proof.
  intros Hl Hr. split; intros Hex.
  - by destruct (vli_mult_spec l r Hl Hr Hex) as (_ & ? & ?).
  - by destruct (vli_square_spec l Hl Hex) as (_ & ? & ?).
Qed.

Lemma vli_product_correct_witness :
  (digits_ok (vli_mult curve_b curve_n) /\
   val (vli_mult curve_b curve_n) = val curve_b * val curve_n) /\
  (digits_ok (vli_square curve_b) /\ val (vli_square curve_b) = val curve_b * val curve_b).
Proof.
  destruct (vli_product_correct curve_b curve_n) as [H1 H2];
    [apply (bool_decide_unpack _); vm_compute; exact I..|].
  split; [apply H1; vm_compute; reflexivity|apply H2; vm_compute; reflexivity].
Defined.

(** A carry can be lost: the comparison of the high words misses it when the high word of
    the accumulator is all ones.  Two numbers below the prime of the curve have a product that
    is too small by 2^256, and so is the reduced one wrong. *)
Theorem vli_mult_lost_carry :
  let l := [0xFFFFFFFFFFFFFFFF; 0xFFFFFFFFFFFFFFFE; 0; 0] in
  let r := [0xFFFFFFFFFFFFFFFF; 0xFFFFFFFFFFFFFFFE; 0xFFFFFFFFFFFFFFFF; 0] in
  mult_exact l r = false /\ val l < p256 /\ val r < p256 /\
  val (vli_mult l r) = val l * val r - 2 ^ 256 /\
  vli_mod_mult_fast l r
    = Some [0xfffffffe; 0x300000003; 0xfffffffeffffffff; 0xfffffffc00000000] /\
  (val l * val r) mod p256
    <> val [0xfffffffe; 0x300000003; 0xfffffffeffffffff; 0xfffffffc00000000].
Proof. vm_compute. repeat split; congruence. Qed.

Lemma vli_mmod_fast_correct_aux product : length product = 8%nat -> digits_ok product ->
  exists r, vli_mmod_fast product = Some r /\ vli_ok r /\ val r = val product mod p256.
Proof.
  intros Hl Hd. do 9 (destruct product as [|? product]; try done).
  by apply vli_mmod_fast_words.
Qed.

(** C28. The fast reduction terminates on every 512-bit product and gives its remainder modulo
    the prime of the curve. *)
Theorem vli_mmod_fast_correct product : length product = 8%nat -> digits_ok product ->
  exists r, vli_mmod_fast product = Some r /\ vli_ok r /\ val r = val product mod p256.
Proof. apply vli_mmod_fast_correct_aux. Qed.

Lemma vli_mmod_fast_correct_witness :
  let product := replicate 8 (2 ^ 64 - 1) in
  exists r, vli_mmod_fast product = Some r /\ vli_ok r /\ val r = val product mod p256.
Proof.
  apply (vli_mmod_fast_correct (replicate 8 (2 ^ 64 - 1))); [reflexivity|].
  apply (bool_decide_unpack _). vm_compute. exact I.
Defined.

Lemma vli_mod_inv_correct_aux x m : vli_ok x -> vli_ok m -> Z.odd (val m) = true -> 1 < val m ->
  exists r, vli_mod_inv x m = Some r /\ vli_ok r /\ val r < val m /\
    if val x =? 0 then val r = 0 else (val r * val x) mod val m = Z.gcd (val x) (val m) mod val m.
Proof.
  intros Hx Hm Hodd Hgt. unfold vli_mod_inv. rewrite vli_is_zero_spec by done.
  pose proof (vli_range _ Hx). pose proof (vli_range _ Hm).
  destruct (Z.eqb_spec (val x) 0) as [E|E].
  { exists vli_clear. split; [done|]. split; [|split; [cbn; lia|done]].
    apply (bool_decide_unpack _). vm_compute. exact I. }
  destruct (mod_inv_loop_spec (val x) m INV_FUEL (mk_inv x m [1; 0; 0; 0] vli_clear) 256 256)
    as (r & Er & Hr & Hlt & Hd); [done|done| |cbn [ia]; lia|cbn [ib]; lia|unfold INV_FUEL; lia|].
  - split; cbn [ia ib iu iv]; try done; try lia.
    + apply (bool_decide_unpack _). vm_compute. exact I.
    + apply (bool_decide_unpack _). vm_compute. exact I.
    + split; cbn; lia.
    + exists 0. cbn. lia.
    + exists (-1). cbn. lia.
  - exists r. split; [done|]. split; [done|]. split; [done|].
    destruct Hd as [q Hq]. replace (val r * val x) with (Z.gcd (val x) (val m) + q * val m) by lia.
    by rewrite Z_mod_plus_full.
Qed.

(** Modular inversion terminates, and its result times the input is the greatest common
    divisor of the input and the odd modulus: the inverse when they have no common factor, and
    zero for a zero input. *)
Theorem vli_mod_inv_correct x m : vli_ok x -> vli_ok m -> Z.odd (val m) = true -> 1 < val m ->
  exists r, vli_mod_inv x m = Some r /\ vli_ok r /\ val r < val m /\
    if val x =? 0 then val r = 0 else (val r * val x) mod val m = Z.gcd (val x) (val m) mod val m.
Proof. apply vli_mod_inv_correct_aux. Qed.

Lemma vli_mod_inv_correct_witness :
  exists r, vli_mod_inv curve_b curve_p = Some r /\ vli_ok r /\ val r < val curve_p /\
    if val curve_b =? 0 then val r = 0
    else (val r * val curve_b) mod val curve_p = Z.gcd (val curve_b) (val curve_p) mod val curve_p.
Proof.
  apply (vli_mod_inv_correct curve_b curve_p);
    [apply (bool_decide_unpack _); vm_compute; exact I..|vm_compute; reflexivity|
     vm_compute; reflexivity].
Defined.
