(* ===== verification/EccPoint.v ===== *)
(** The point operations and the interface of src/shared/ecc.c: Jacobian and co-Z formulas,
    the Montgomery ladder, point validation, key generation and the shared secret.

    [None] means that the fuel of a reduction or of an inversion was spent, which EccMod.v
    excludes.  The operations take a flag: with [checked = false] they are the code; with
    [checked = true] they are the same, and also stop at a product that loses a carry (see
    EccArith.v), so that a run that succeeds is one whose products are all exact. *)
From Stdlib Require Import ZArith Lia.
From stdpp Require Import base numbers list option.
From S2P Require Import Prelude Ecc EccArith.

Local Open Scope Z_scope.

Record ecc_point := mk_point { px : vli; py : vli }.

Definition curve_g : ecc_point := mk_point
  [0xF4A13945D898C296; 0x77037D812DEB33A0; 0xF8BCE6E563A440F2; 0x6B17D1F2E12C4247]
  [0xCBB6406837BF51F5; 0x2BCE33576B315ECE; 0x8EE7EB4A7C0F9E16; 0x4FE342E2FE1A7F9B].

Definition ecc_point_is_zero (point : ecc_point) : bool :=
  vli_is_zero (px point) && vli_is_zero (py point).

(** *** Bytes *)

(** [digit[0] << 0 | ... | digit[7] << 56] *)
Definition digit_of_bytes (digit : bytes) : Z :=
  foldl Z.lor 0 ((fun i => Z.shiftl (nth i digit 0) (8 * Z.of_nat i)) <$> seq 0 8).

(** The loop fills the digits from the last to the first. *)
Definition ecc_bytes2native (b : bytes) : vli :=
  (fun i => digit_of_bytes (take 8 (drop (8 * i) b))) <$> seq 0 NUM_ECC_DIGITS.

Definition bytes_of_digit (d : Z) : bytes :=
  (fun i => u8 (Z.shiftr d (8 * Z.of_nat i))) <$> seq 0 8.

Definition ecc_native2bytes (native : vli) : bytes := concat (bytes_of_digit <$> native).

Section Points.
Context (checked : bool).

Definition mul (left right : vli) : option vli :=
  if checked && negb (mult_exact left right) then None else vli_mod_mult_fast left right.
Definition sqr (left : vli) : option vli :=
  if checked && negb (square_exact left) then None else vli_mod_square_fast left.
Definition madd (left right : vli) : vli := vli_mod_add left right curve_p.
Definition msub (left right : vli) : vli := vli_mod_sub left right curve_p.

(** [x1 / 2] modulo [curve_p]. *)
Definition half (x1 : vli) : vli :=
  if negb (vli_test_bit x1 0 =? 0) then
    let '(x1, carry) := vli_add x1 curve_p in
    let x1 := vli_rshift1 x1 in
    <[NUM_ECC_DIGITS - 1 := Z.lor (dig x1 (NUM_ECC_DIGITS - 1)) (u64 (Z.shiftl carry 63))]>%nat x1
  else vli_rshift1 x1.

Definition ecc_point_double_jacobian (x1 y1 z1 : vli) : option (vli * vli * vli) :=
  if vli_is_zero z1 then Some (x1, y1, z1) else
  t4 ← sqr y1;
  t5 ← mul x1 t4;
  t4 ← sqr t4;
  y1 ← mul y1 z1;
  z1 ← sqr z1;
  let x1 := madd x1 z1 in
  let z1 := madd z1 z1 in
  let z1 := msub x1 z1 in
  x1 ← mul x1 z1;
  let z1 := madd x1 x1 in
  let x1 := madd x1 z1 in
  let x1 := half x1 in
  z1 ← sqr x1;
  let z1 := msub z1 t5 in
  let z1 := msub z1 t5 in
  let t5 := msub t5 z1 in
  x1 ← mul x1 t5;
  let t4 := msub x1 t4 in
  let x1 := z1 in
  let z1 := y1 in
  let y1 := t4 in
  Some (x1, y1, z1).

Definition apply_z (x1 y1 z : vli) : option (vli * vli) :=
  t1 ← sqr z;
  x1 ← mul x1 t1;
  t1 ← mul t1 z;
  y1 ← mul y1 t1;
  Some (x1, y1).

(** The result is (x1, y1, x2, y2). *)
Definition xycz_initial_double (x1 y1 : vli) (initial_z : option vli)
    : option (vli * vli * vli * vli) :=
  let x2 := x1 in
  let y2 := y1 in
  let z := default [1; 0; 0; 0] initial_z in
  '(x1, y1) ← apply_z x1 y1 z;
  '(x1, y1, z) ← ecc_point_double_jacobian x1 y1 z;
  '(x2, y2) ← apply_z x2 y2 z;
  Some (x1, y1, x2, y2).

Definition xycz_add (x1 y1 x2 y2 : vli) : option (vli * vli * vli * vli) :=
  let t5 := msub x2 x1 in
  t5 ← sqr t5;
  x1 ← mul x1 t5;
  x2 ← mul x2 t5;
  let y2 := msub y2 y1 in
  t5 ← sqr y2;
  let t5 := msub t5 x1 in
  let t5 := msub t5 x2 in
  let x2 := msub x2 x1 in
  y1 ← mul y1 x2;
  let x2 := msub x1 t5 in
  y2 ← mul y2 x2;
  let y2 := msub y2 y1 in
  let x2 := t5 in
  Some (x1, y1, x2, y2).

Definition xycz_add_c (x1 y1 x2 y2 : vli) : option (vli * vli * vli * vli) :=
  let t5 := msub x2 x1 in
  t5 ← sqr t5;
  x1 ← mul x1 t5;
  x2 ← mul x2 t5;
  let t5 := madd y2 y1 in
  let y2 := msub y2 y1 in
  let t6 := msub x2 x1 in
  y1 ← mul y1 t6;
  let t6 := madd x1 x2 in
  x2 ← sqr y2;
  let x2 := msub x2 t6 in
  let t7 := msub x1 x2 in
  y2 ← mul y2 t7;
  let y2 := msub y2 y1 in
  t7 ← sqr t5;
  let t7 := msub t7 t6 in
  let t6 := msub t7 x1 in
  t6 ← mul t6 t5;
  let y1 := msub t6 y1 in
  let x1 := t7 in
  Some (x1, y1, x2, y2).

(** The arrays [rx] and [ry] of the ladder: the points R0 and R1. *)
Record ladder := mk_ladder { r0 : vli * vli; r1 : vli * vli }.
Definition r_get (r : ladder) (i : bool) : vli * vli := if i then r1 r else r0 r.
Definition r_set (r : ladder) (i : bool) (v : vli * vli) : ladder :=
  if i then mk_ladder (r0 r) v else mk_ladder v (r1 r).

(** Runs a co-Z operation on R[i] and R[1 - i]. *)
Definition on_points (op : vli -> vli -> vli -> vli -> option (vli * vli * vli * vli))
    (i : bool) (r : ladder) : option ladder :=
  let '(x1, y1) := r_get r i in
  let '(x2, y2) := r_get r (negb i) in
  '(x1, y1, x2, y2) ← op x1 y1 x2 y2;
  Some (r_set (r_set r i (x1, y1)) (negb i) (x2, y2)).

(** [nb = !vli_test_bit(scalar, i)], an index into the arrays. *)
Definition ladder_nb (scalar : vli) (i : Z) : bool := vli_test_bit scalar i =? 0.

(** [for (i = ...; i > 0; i--)] *)
Fixpoint ladder_loop (scalar : vli) (i : nat) (r : ladder) : option ladder :=
  match i with
  | O => Some r
  | S i' =>
      let nb := ladder_nb scalar (Z.of_nat i) in
      r ← on_points xycz_add_c (negb nb) r;
      r ← on_points xycz_add nb r;
      ladder_loop scalar i' r
  end.

(** The ladder up to the inversion: the points, [nb] and the denominator. *)
Definition mult_ladder (point : ecc_point) (scalar : vli) (initial_z : option vli)
    (num_bits : Z) : option (ladder * bool * vli) :=
  '(x1, y1, x0, y0) ← xycz_initial_double (px point) (py point) initial_z;
  r ← ladder_loop scalar (Z.to_nat (num_bits - 2)) (mk_ladder (x0, y0) (x1, y1));
  let nb := ladder_nb scalar 0 in
  r ← on_points xycz_add_c (negb nb) r;
  let z := msub (fst (r1 r)) (fst (r0 r)) in
  z ← mul z (snd (r_get r (negb nb)));
  z ← mul z (px point);
  Some (r, nb, z).

Definition ecc_point_mult (point : ecc_point) (scalar : vli) (initial_z : option vli)
    (num_bits : Z) : option ecc_point :=
  '(r, nb, z) ← mult_ladder point scalar initial_z num_bits;
  z ← vli_mod_inv z curve_p;
  z ← mul z (py point);
  z ← mul z (fst (r_get r (negb nb)));
  r ← on_points xycz_add nb r;
  '(x0, y0) ← apply_z (fst (r0 r)) (snd (r0 r)) z;
  Some (mk_point x0 y0).

Definition ecc_valid_point (point : ecc_point) : option bool :=
  if ecc_point_is_zero point then Some false else
  if negb (vli_cmp curve_p (px point) =? 1) || negb (vli_cmp curve_p (py point) =? 1)
  then Some false else
  tmp1 ← sqr (py point);
  tmp2 ← sqr (px point);
  let tmp2 := msub tmp2 [3; 0; 0; 0] in
  tmp2 ← mul tmp2 (px point);
  let tmp2 := madd tmp2 curve_b in
  Some (vli_equal tmp1 tmp2).

Definition ecc_valid_public_key (public_key : bytes) : option bool :=
  ecc_valid_point
    (mk_point (ecc_bytes2native public_key) (ecc_bytes2native (drop 32 public_key))).

(** [random i] is the outcome of the [i]-th call of get_random_number, [None] when it fails.
    [pk] is not initialised before the first multiplication.  [continue] evaluates the
    condition of the loop.  The outcome [Some None] is the return value [false]. *)
Fixpoint make_key_loop (random : nat -> option vli) (fuel : nat) (tries : nat)
    (pk : ecc_point) : option (option (vli * ecc_point)) :=
  match fuel with
  | O => None
  | S fuel' =>
      match random tries with
      | None => Some None
      | Some priv =>
          if MAX_TRIES <=? Z.of_nat tries then Some None else
          pk ← (if vli_is_zero priv then Some pk
                else if negb (vli_cmp curve_n priv =? 1) then Some pk
                else ecc_point_mult curve_g priv None (vli_num_bits priv));
          if ecc_point_is_zero pk then make_key_loop random fuel' (S tries) pk
          else Some (Some (priv, pk))
      end
  end.

(** The public and the private key. *)
Definition ecc_make_key (random : nat -> option vli) (uninit : ecc_point)
    : option (option (bytes * bytes)) :=
  r ← make_key_loop random (Z.to_nat MAX_TRIES + 1) 0 uninit;
  Some ('(priv, pk) ← r;
        Some (ecc_native2bytes (px pk) ++ ecc_native2bytes (py pk), ecc_native2bytes priv)).

(** The return value and the bytes written to [secret]. *)
Definition ecdh_shared_secret (rand : option vli) (public_key private_key : bytes)
    : option (bool * option bytes) :=
  match rand with
  | None => Some (false, None)
  | Some rand =>
      let pk := mk_point (ecc_bytes2native public_key) (ecc_bytes2native (drop 32 public_key)) in
      valid ← ecc_valid_point pk;
      if negb valid then Some (false, None) else
      let priv := ecc_bytes2native private_key in
      product ← ecc_point_mult pk priv (Some rand) (vli_num_bits priv);
      Some (negb (ecc_point_is_zero product), Some (ecc_native2bytes (px product)))
  end.

End Points.
