(* ===== verification/EccCurve.v ===== *)
(** The point formulas of src/shared/ecc.c compute the chord and tangent law of the curve
    y^2 = x^3 - 3x + b in Jacobian and co-Z coordinates, and the interface validates public
    keys and round-trips bytes. *)
From Stdlib Require Import List ZArith Lia Znumtheory Zdiv Zpow_facts Setoid.
From stdpp Require Import base numbers list option.
From S2P Require Import Prelude Ecc EccArith EccMod EccPoint.

Local Open Scope Z_scope.

(** ** Congruence modulo the prime *)

Definition eqp (a b : Z) : Prop := eqm p256 a b.
Local Infix "≡p" := eqp (at level 70).

#[export] Instance eqp_equivalence : Equivalence eqp.
Proof. unfold eqp. split; [intros ?; apply eqm_refl|intros ??; apply eqm_sym|intros ???; apply eqm_trans]. Qed.
#[export] Instance eqp_add : Proper (eqp ==> eqp ==> eqp) Z.add.
Proof. apply Zplus_eqm. Qed.
#[export] Instance eqp_sub : Proper (eqp ==> eqp ==> eqp) Z.sub.
Proof. apply Zminus_eqm. Qed.
#[export] Instance eqp_mul : Proper (eqp ==> eqp ==> eqp) Z.mul.
Proof. apply Zmult_eqm. Qed.
#[export] Instance eqp_opp : Proper (eqp ==> eqp) Z.opp.
Proof. apply Zopp_eqm. Qed.

#[export] Instance eqp_pow : Proper (eqp ==> eq ==> eqp) Z.pow.
Proof.
  intros a b E n ? <-. unfold eqp, eqm in *. pose proof p256_eq.
  rewrite (Zpower_mod a), (Zpower_mod b) by lia. by rewrite E.
Qed.

Lemma eqp_mod a : a mod p256 ≡p a.
Proof. apply Zmod_eqm. Qed.
Lemma eqp_eq a b : a = b -> a ≡p b.
Proof. by intros ->. Qed.

Lemma eqp_divide a b : a ≡p b <-> (p256 | a - b).
Proof.
  unfold eqp, eqm. pose proof p256_eq. split.
  - intros E. exists (a / p256 - b / p256).
    pose proof (Z.div_mod a p256 ltac:(lia)). pose proof (Z.div_mod b p256 ltac:(lia)). nia.
  - intros [k Hk]. replace a with (b + k * p256) by lia. apply Z_mod_plus_full.
Qed.

(** The prime is odd: two can be cancelled. *)
Lemma eqp_double a b : 2 * a ≡p 2 * b -> a ≡p b.
Proof.
  rewrite !eqp_divide. intros H. apply div_double; [reflexivity|].
  by replace (2 * (a - b)) with (2 * a - 2 * b) by lia.
Qed.

(** Equal reduced numbers. *)
Lemma eqp_reduced a b : 0 <= a < p256 -> 0 <= b < p256 -> a ≡p b <-> a = b.
Proof.
  intros Ha Hb. split; [|by intros ->]. unfold eqp, eqm. by rewrite !Z.mod_small.
Qed.

(** ** Field operations *)

#[local] Opaque vli_mult vli_square vli_mmod_fast vli_mod_add vli_mod_sub vli_mod_inv
  mult_exact square_exact.

Definition reduced (v : vli) : Prop := vli_ok v /\ val v < p256.

Lemma reduced_ok v : reduced v -> vli_ok v.
Proof. by intros []. Qed.
#[local] Hint Resolve reduced_ok curve_p_ok : core.

Lemma mmod_reduced product r : length product = 8%nat -> digits_ok product ->
  vli_mmod_fast product = Some r -> reduced r /\ val r ≡p val product.
Proof.
  intros Hl Hd E. destruct (vli_mmod_fast_correct_aux product Hl Hd) as (r' & E' & Hr & Hv).
  rewrite E in E'. injection E' as <-. pose proof p256_eq. split.
  - split; [done|]. rewrite Hv. apply Z.mod_pos_bound. lia.
  - rewrite Hv. apply eqp_mod.
Qed.

Lemma mul_spec a b r : vli_ok a -> vli_ok b -> mul true a b = Some r ->
  mul false a b = Some r /\ reduced r /\ val r ≡p val a * val b.
Proof.
  intros Ha Hb. unfold mul. cbn [andb]. destruct (mult_exact a b) eqn:Hex; [|done]. cbn [negb].
  intros E. split; [done|]. destruct (vli_mult_spec a b Ha Hb Hex) as (Hl & Hd & Hv).
  destruct (mmod_reduced _ _ Hl Hd E) as [Hr He]. split; [exact Hr|]. rewrite <- Hv. exact He.
Qed.

Lemma sqr_spec a r : vli_ok a -> sqr true a = Some r ->
  sqr false a = Some r /\ reduced r /\ val r ≡p val a * val a.
Proof.
  intros Ha. unfold sqr. cbn [andb]. destruct (square_exact a) eqn:Hex; [|done]. cbn [negb].
  intros E. split; [done|]. destruct (vli_square_spec a Ha Hex) as (Hl & Hd & Hv).
  destruct (mmod_reduced _ _ Hl Hd E) as [Hr He]. split; [exact Hr|]. rewrite <- Hv. exact He.
Qed.

Lemma madd_spec a b : reduced a -> reduced b ->
  reduced (madd a b) /\ val (madd a b) ≡p val a + val b.
Proof.
  intros [Ha Hla] [Hb Hlb]. pose proof p256_eq.
  destruct (vli_mod_add_spec a b curve_p) as [Hr Hv]; auto. fold p256 in *. split.
  - split; [done|]. unfold madd. rewrite Hv. apply Z.mod_pos_bound. lia.
  - unfold madd. rewrite Hv. apply eqp_mod.
Qed.

Lemma msub_spec a b : reduced a -> reduced b ->
  reduced (msub a b) /\ val (msub a b) ≡p val a - val b.
Proof.
  intros [Ha Hla] [Hb Hlb]. pose proof p256_eq.
  destruct (vli_mod_sub_spec a b curve_p) as [Hr Hv]; auto. fold p256 in *. split.
  - split; [done|]. unfold msub. rewrite Hv. apply Z.mod_pos_bound. lia.
  - unfold msub. rewrite Hv. apply eqp_mod.
Qed.

Lemma test_bit_0 v : vli_ok v -> vli_test_bit v 0 = val v mod 2.
Proof.
  intros Hv. unfold vli_test_bit. change (u64 (Z.shiftl 1 (0 mod 64))) with (2 ^ 1 - 1).
  rewrite land_mask by lia. change (Z.to_nat (0 / 64)) with 0%nat.
  digits v. cbn [dig nth val]. words_lia.
Qed.

Lemma half_rshift1_carry x c : vli_ok x -> c = 0 \/ c = 1 ->
  (let x1 := vli_rshift1 x in
   <[NUM_ECC_DIGITS - 1 := Z.lor (dig x1 (NUM_ECC_DIGITS - 1)) (u64 (Z.shiftl c 63))]>%nat x1)
  = rshift1_carry x c.
Proof.
  intros Hx [-> | ->]; unfold rshift1_carry; cbn [Z.eqb negb]; [|done].
  destruct (vli_rshift1_spec x Hx) as [Hr _]. cbv zeta. generalize dependent (vli_rshift1 x).
  intros w Hw. change (u64 (Z.shiftl 0 63)) with 0. rewrite Z.lor_0_r. by digits w.
Qed.

Lemma half_eq a : vli_ok a ->
  half a = if val a mod 2 =? 0 then vli_rshift1 a
           else rshift1_carry (fst (vli_add a curve_p)) (snd (vli_add a curve_p)).
Proof.
  intros Ha. unfold half. rewrite test_bit_0 by done.
  destruct (val a mod 2 =? 0); cbn [negb]; [done|].
  pose proof (vli_add_spec a curve_p Ha curve_p_ok) as Hadd.
  destruct (vli_add a curve_p) as [s c]. destruct Hadd as (Hs & Hc & _). cbn [fst snd].
  by apply half_rshift1_carry.
Qed.

Lemma half_even x r : x mod 2 = 0 -> r = x / 2 -> 2 * r = x.
Proof. words_lia. Qed.

Lemma half_odd x r : x mod 2 <> 0 -> r = (x + p256) / 2 -> 2 * r = x + p256.
Proof. pose proof p256_eq as ->. words_lia. Qed.

Lemma half_spec_even a : reduced a -> val a mod 2 = 0 ->
  reduced (vli_rshift1 a) /\ 2 * val (vli_rshift1 a) = val a.
Proof.
  intros [Ha Hl] E. pose proof (vli_range _ Ha) as Hra.
  destruct (vli_rshift1_spec a Ha) as [Hr Hv]. pose proof (half_even _ _ E Hv) as H2.
  split; [split; [exact Hr|lia]|done].
Qed.

Lemma half_spec_odd a : reduced a -> val a mod 2 <> 0 ->
  let r := rshift1_carry (fst (vli_add a curve_p)) (snd (vli_add a curve_p)) in
  reduced r /\ 2 * val r = val a + p256.
Proof.
  intros [Ha Hl] E. pose proof (vli_range _ Ha) as Hra.
  pose proof (vli_add_spec a curve_p Ha curve_p_ok) as Hadd.
  destruct (vli_add a curve_p) as [s c]. destruct Hadd as (Hs & Hc & Hadd). cbn [fst snd].
  destruct (rshift1_carry_spec s c Hs Hc) as [Hr Hv]. rewrite Hadd in Hv.
  pose proof (half_odd _ _ E Hv) as H2. cbv zeta.
  split; [split; [exact Hr|lia]|exact H2].
Qed.

Lemma eqp_add_p x a : x = a + p256 -> x ≡p a.
Proof. intros ->. apply eqp_divide. exists 1. lia. Qed.

Lemma half_eq_even a : reduced a -> val a mod 2 = 0 -> half a = vli_rshift1 a.
Proof. intros [Ha _] E. rewrite (half_eq a Ha), E. reflexivity. Qed.

Lemma half_eq_odd a : reduced a -> val a mod 2 <> 0 ->
  half a = rshift1_carry (fst (vli_add a curve_p)) (snd (vli_add a curve_p)).
Proof. intros [Ha _] E. rewrite (half_eq a Ha). apply Z.eqb_neq in E. rewrite E. reflexivity. Qed.

Lemma half_spec a : reduced a -> reduced (half a) /\ 2 * val (half a) ≡p val a.
Proof.
  intros Ha. destruct (decide (val a mod 2 = 0)) as [E|E].
  - rewrite half_eq_even by assumption. destruct (half_spec_even a Ha E) as [Hr Hv].
    split; [exact Hr|exact (eqp_eq _ _ Hv)].
  - rewrite half_eq_odd by assumption. destruct (half_spec_odd a Ha E) as [Hr Hv].
    split; [exact Hr|exact (eqp_add_p _ _ Hv)].
Qed.

#[local] Opaque mul sqr.

Lemma ecc_bind_run {A B} (mx : option A) (f : A -> option B) x r :
  mx = Some x -> f x = r -> (mx ≫= f) = r.
Proof. by intros -> <-. Qed.

(** Runs a successful checked operation: every product is replaced by its specification, and
    the unchecked run by the same values. *)
Ltac bind_step H :=
  let t := fresh "t" in let E := fresh "E" in let E' := fresh "E" in
  let R := fresh "R" in let V := fresh "V" in
  apply bind_Some in H as (t & E & H);
  first [apply mul_spec in E as (E' & R & V); [|auto 20..]
        |apply sqr_spec in E as (E' & R & V); [|auto 20..]];
  cbv beta in H.

(** The unchecked run, from the equations that [bind_step] left. *)
Ltac run :=
  repeat (eapply ecc_bind_run; [eassumption|]; cbv beta); reflexivity.

Lemma madd_red a b : reduced a -> reduced b -> reduced (madd a b).
Proof. intros. by apply madd_spec. Qed.
Lemma msub_red a b : reduced a -> reduced b -> reduced (msub a b).
Proof. intros. by apply msub_spec. Qed.
Lemma half_red a : reduced a -> reduced (half a).
Proof. intros. by apply half_spec. Qed.
#[local] Hint Resolve madd_red msub_red half_red : core.
#[local] Opaque madd msub half.

(** Replaces the values of intermediate results by what they are congruent to. *)
Ltac values :=
  repeat match goal with
  | |- context [val (madd ?a ?b)] => rewrite (proj2 (madd_spec a b ltac:(auto 20) ltac:(auto 20)))
  | |- context [val (msub ?a ?b)] => rewrite (proj2 (msub_spec a b ltac:(auto 20) ltac:(auto 20)))
  | V : val ?t ≡p _ |- context [val ?t] => rewrite V
  end.

Lemma apply_z_spec x y z r : vli_ok x -> vli_ok y -> vli_ok z -> apply_z true x y z = Some r ->
  apply_z false x y z = Some r /\ reduced (fst r) /\ reduced (snd r) /\
  val (fst r) ≡p val x * val z ^ 2 /\ val (snd r) ≡p val y * val z ^ 3.
Proof.
  intros Hx Hy Hz H. unfold apply_z in *. do 4 bind_step H. injection H as <-. cbn [fst snd].
  split; [run|]. split; [done|]. split; [done|].
  split; values; apply eqp_eq; ring.
Qed.

(** ** Affine points

    A point is a pair of coordinates modulo the prime.  [chord P Q R] says that R is the third
    point of the line through P and Q, mirrored: their sum; [tangent P R] that R is the double
    of P.  Both are stated without division, by the slope of the line. *)

Definition neg_point (P : Z * Z) : Z * Z := (fst P, - snd P).

Definition chord (P Q R : Z * Z) : Prop :=
  exists l, l * (fst Q - fst P) ≡p snd Q - snd P /\
    fst R ≡p l * l - fst P - fst Q /\ snd R ≡p l * (fst P - fst R) - snd P.

Definition tangent (P R : Z * Z) : Prop :=
  exists l, 2 * l * snd P ≡p 3 * fst P ^ 2 - 3 /\
    fst R ≡p l * l - 2 * fst P /\ snd R ≡p l * (fst P - fst R) - snd P.

(** (x, y) stands for P with the Jacobian denominator z. *)
Definition rep (P : Z * Z) (z : Z) (x y : vli) : Prop :=
  reduced x /\ reduced y /\ val x ≡p fst P * z ^ 2 /\ val y ≡p snd P * z ^ 3.

Lemma xycz_add_raw x1 y1 x2 y2 x1' y1' x2' y2' :
  reduced x1 -> reduced y1 -> reduced x2 -> reduced y2 ->
  xycz_add true x1 y1 x2 y2 = Some (x1', y1', x2', y2') ->
  xycz_add false x1 y1 x2 y2 = Some (x1', y1', x2', y2') /\
  reduced x1' /\ reduced y1' /\ reduced x2' /\ reduced y2' /\
  (let d := val x2 - val x1 in
   val x1' ≡p val x1 * d ^ 2 /\ val y1' ≡p val y1 * d ^ 3 /\
   val x2' ≡p (val y2 - val y1) ^ 2 - val x1 * d ^ 2 - val x2 * d ^ 2 /\
   val y2' ≡p (val y2 - val y1) * (val x1 * d ^ 2 - val x2') - val y1 * d ^ 3).
Proof.
  intros Hx1 Hy1 Hx2 Hy2 H. unfold xycz_add in *. cbv zeta in *. do 6 bind_step H.
  injection H as <- <- <- <-. split; [run|]. do 4 (split; [auto 20|]).
  cbv zeta. split; [|split; [|split]]; values; apply eqp_eq; ring.
Qed.

Lemma xycz_add_c_raw x1 y1 x2 y2 x1' y1' x2' y2' :
  reduced x1 -> reduced y1 -> reduced x2 -> reduced y2 ->
  xycz_add_c true x1 y1 x2 y2 = Some (x1', y1', x2', y2') ->
  xycz_add_c false x1 y1 x2 y2 = Some (x1', y1', x2', y2') /\
  reduced x1' /\ reduced y1' /\ reduced x2' /\ reduced y2' /\
  (let d := val x2 - val x1 in
   val x2' ≡p (val y2 - val y1) ^ 2 - val x1 * d ^ 2 - val x2 * d ^ 2 /\
   val y2' ≡p (val y2 - val y1) * (val x1 * d ^ 2 - val x2') - val y1 * d ^ 3 /\
   val x1' ≡p (val y2 + val y1) ^ 2 - val x1 * d ^ 2 - val x2 * d ^ 2 /\
   val y1' ≡p (val y2 + val y1) * (val x1' - val x1 * d ^ 2) - val y1 * d ^ 3).
Proof.
  intros Hx1 Hy1 Hx2 Hy2 H. unfold xycz_add_c in *. cbv zeta in *. do 8 bind_step H.
  injection H as <- <- <- <-. split; [run|]. do 4 (split; [auto 20|]).
  cbv zeta. split; [|split; [|split]]; values; apply eqp_eq; ring.
Qed.

Lemma chord_scaled P Q l z x1 y1 x2 y2 : rep P z x1 y1 -> rep Q z x2 y2 ->
  l * (fst Q - fst P) ≡p snd Q - snd P ->
  val y2 - val y1 ≡p l * (z * (val x2 - val x1)).
Proof.
  intros (_ & _ & X1 & Y1) (_ & _ & X2 & Y2) Hl. rewrite X1, X2, Y1, Y2.
  transitivity ((snd Q - snd P) * z ^ 3); [apply eqp_eq; ring|].
  rewrite <- Hl. apply eqp_eq. ring.
Qed.

(** Co-Z addition: P is rescaled to the new denominator and Q replaced by P + Q. *)
Lemma xycz_add_rep P Q R z x1 y1 x2 y2 x1' y1' x2' y2' :
  rep P z x1 y1 -> rep Q z x2 y2 -> chord P Q R ->
  xycz_add true x1 y1 x2 y2 = Some (x1', y1', x2', y2') ->
  let z' := z * (val x2 - val x1) in
  xycz_add false x1 y1 x2 y2 = Some (x1', y1', x2', y2') /\
  rep P z' x1' y1' /\ rep R z' x2' y2'.
Proof.
  intros HP HQ (l & Hl & HX & HY) H. pose proof (chord_scaled P Q l z _ _ _ _ HP HQ Hl) as Hs.
  destruct HP as (Hx1 & Hy1 & X1 & Y1), HQ as (Hx2 & Hy2 & X2 & Y2).
  destruct (xycz_add_raw _ _ _ _ _ _ _ _ Hx1 Hy1 Hx2 Hy2 H)
    as (Hrun & ? & ? & ? & ? & Ex1 & Ey1 & Ex2 & Ey2).
  set (d := val x2 - val x1) in *. cbv zeta. split; [done|].
  assert (val x2' ≡p fst R * (z * d) ^ 2) as Ex2'.
  { rewrite Ex2, Hs, X1, X2, HX. apply eqp_eq. ring. }
  split; (split; [done|]; split; [done|]; split).
  - rewrite Ex1, X1. apply eqp_eq. ring.
  - rewrite Ey1, Y1. apply eqp_eq. ring.
  - exact Ex2'.
  - rewrite Ey2, Ex2', Hs, X1, Y1, HY. apply eqp_eq. ring.
Qed.

(** Conjugate co-Z addition: P becomes P - Q and Q becomes P + Q. *)
Lemma xycz_add_c_rep P Q S R z x1 y1 x2 y2 x1' y1' x2' y2' :
  rep P z x1 y1 -> rep Q z x2 y2 -> chord P Q R -> chord P (neg_point Q) S ->
  xycz_add_c true x1 y1 x2 y2 = Some (x1', y1', x2', y2') ->
  let z' := z * (val x2 - val x1) in
  xycz_add_c false x1 y1 x2 y2 = Some (x1', y1', x2', y2') /\
  rep S z' x1' y1' /\ rep R z' x2' y2'.
Proof.
  intros HP HQ (l & Hl & HX & HY) (m & Hm & HX' & HY') H.
  pose proof (chord_scaled P Q l z _ _ _ _ HP HQ Hl) as Hs.
  destruct HP as (Hx1 & Hy1 & X1 & Y1), HQ as (Hx2 & Hy2 & X2 & Y2).
  destruct (xycz_add_c_raw _ _ _ _ _ _ _ _ Hx1 Hy1 Hx2 Hy2 H)
    as (Hrun & ? & ? & ? & ? & Ex2 & Ey2 & Ex1 & Ey1).
  set (d := val x2 - val x1) in *. cbv zeta. split; [done|]. cbn [neg_point fst snd] in *.
  assert (val y2 + val y1 ≡p - (m * (z * d))) as Hs'.
  { subst d. rewrite X1, X2, Y1, Y2.
    transitivity (- ((- snd Q - snd P) * z ^ 3)); [apply eqp_eq; ring|].
    rewrite <- Hm. apply eqp_eq. ring. }
  assert (val x2' ≡p fst R * (z * d) ^ 2) as Ex2'.
  { rewrite Ex2, Hs, X1, X2, HX. apply eqp_eq. ring. }
  assert (val x1' ≡p fst S * (z * d) ^ 2) as Ex1'.
  { rewrite Ex1, Hs', X1, X2, HX'. apply eqp_eq. ring. }
  split; (split; [done|]; split; [done|]; split).
  - exact Ex1'.
  - rewrite Ey1, Ex1', Hs', X1, Y1, HY'. apply eqp_eq. ring.
  - exact Ex2'.
  - rewrite Ey2, Ex2', Hs, X1, Y1, HY. apply eqp_eq. ring.
Qed.

Lemma double_raw x1 y1 z1 x y z : reduced x1 -> reduced y1 -> vli_ok z1 ->
  vli_is_zero z1 = false ->
  ecc_point_double_jacobian true x1 y1 z1 = Some (x, y, z) ->
  ecc_point_double_jacobian false x1 y1 z1 = Some (x, y, z) /\
  reduced x /\ reduced y /\ reduced z /\
  exists b, 2 * b ≡p 3 * (val x1 ^ 2 - val z1 ^ 4) /\
    val x ≡p b ^ 2 - 2 * (val x1 * val y1 ^ 2) /\
    val y ≡p b * (val x1 * val y1 ^ 2 - val x) - val y1 ^ 4 /\
    val z ≡p val y1 * val z1.
Proof.
  intros Hx1 Hy1 Hz1 Hnz H. unfold ecc_point_double_jacobian in *. rewrite Hnz in *.
  cbv zeta in *. do 8 bind_step H.
  injection H as <- <- <-. split; [run|]. do 3 (split; [auto 20|]).
  match type of V5 with context [half ?a] =>
    destruct (half_spec a ltac:(auto 20)) as [Rh Vh]; exists (val (half a)) end.
  split; [rewrite Vh|split; [|split]]; values; apply eqp_eq; ring.
Qed.

(** Doubling a point that is not at infinity. *)
Lemma double_rep P R x1 y1 z1 x y z : rep P (val z1) x1 y1 -> vli_ok z1 ->
  vli_is_zero z1 = false -> tangent P R ->
  ecc_point_double_jacobian true x1 y1 z1 = Some (x, y, z) ->
  ecc_point_double_jacobian false x1 y1 z1 = Some (x, y, z) /\ reduced z /\
  rep R (val z) x y /\ val z ≡p val y1 * val z1.
Proof.
  intros (Hx1 & Hy1 & X1 & Y1) Hz1 Hnz (l & Hl & HX & HY) H.
  destruct (double_raw _ _ _ _ _ _ Hx1 Hy1 Hz1 Hnz H) as (Hrun & ? & ? & ? & b & Hb & Ex & Ey & Ez).
  set (Z := val z1) in *.
  assert (b ≡p l * (snd P * Z ^ 4)) as Eb.
  { apply eqp_double. rewrite Hb, X1.
    transitivity ((3 * fst P ^ 2 - 3) * Z ^ 4); [apply eqp_eq; ring|].
    rewrite <- Hl. apply eqp_eq. ring. }
  assert (val x ≡p fst R * val z ^ 2) as Ex'.
  { rewrite Ex, Eb, Ez, X1, Y1, HX. apply eqp_eq. ring. }
  split; [done|]. split; [done|]. split; [|done]. split; [done|]. split; [done|]. split; [exact Ex'|].
  rewrite Ey, Ex', Eb, Ez, X1, Y1, HY. apply eqp_eq. ring.
Qed.
