(* ===== verification/EccLadder.v ===== *)
(** The Montgomery ladder of src/shared/ecc.c multiplies a point by a scalar, and the interface
    of the component. *)
From Stdlib Require Import List ZArith Lia Znumtheory Zdiv Zpow_facts Setoid.
From stdpp Require Import base numbers list option.
From S2P Require Import Prelude Ecc EccArith EccMod EccPoint EccCurve.

Local Open Scope Z_scope.
Local Infix "≡p" := eqp (at level 70).

#[local] Opaque vli_mult vli_square vli_mmod_fast vli_mod_add vli_mod_sub vli_mod_inv
  mult_exact square_exact mul sqr madd msub half xycz_add xycz_add_c apply_z
  ecc_point_double_jacobian.

Lemma bind_Some_inv {A B} (mx : option A) (f : A -> option B) y :
  (mx ≫= f) = Some y -> exists x, mx = Some x /\ f x = Some y.
Proof. destruct mx; [eauto|done]. Qed.

(** ** The ladder

    [pts k] is the k-th multiple of the point.  What a step relies on: the sum and the
    difference of the two points, and the sum of these. *)
Record ladder_law (pts : Z -> Z * Z) (m : Z) (bit : bool) : Prop := {
  law_sum : if bit then chord (pts (m + 1)) (pts m) (pts (2 * m + 1))
            else chord (pts m) (pts (m + 1)) (pts (2 * m + 1));
  law_diff : if bit then chord (pts (m + 1)) (neg_point (pts m)) (pts 1)
             else chord (pts m) (neg_point (pts (m + 1))) (neg_point (pts 1));
  law_next : if bit then chord (pts (2 * m + 1)) (pts 1) (pts (2 * m + 2))
             else chord (pts (2 * m + 1)) (neg_point (pts 1)) (pts (2 * m))
}.

(** R0 is the m-th multiple and R1 the next one, with a common denominator. *)
Definition ladder_at (pts : Z -> Z * Z) (m z : Z) (r : ladder) : Prop :=
  rep (pts m) z (fst (r0 r)) (snd (r0 r)) /\ rep (pts (m + 1)) z (fst (r1 r)) (snd (r1 r)).

Lemma on_points_inv op i r r' : on_points op i r = Some r' ->
  exists x1 y1 x2 y2,
    op (fst (r_get r i)) (snd (r_get r i)) (fst (r_get r (negb i))) (snd (r_get r (negb i)))
      = Some (x1, y1, x2, y2) /\
    r_get r' i = (x1, y1) /\ r_get r' (negb i) = (x2, y2).
Proof.
  unfold on_points. destruct (r_get r i) as [a b], (r_get r (negb i)) as [c d]. cbn [fst snd].
  intros H. apply bind_Some_inv in H as ([[[x1 y1] x2] y2] & E & H). injection H as <-.
  exists x1, y1, x2, y2. split; [done|]. by destruct i.
Qed.

Lemma on_points_run op op' i r r' : on_points op i r = Some r' ->
  (forall x1 y1 x2 y2, op (fst (r_get r i)) (snd (r_get r i)) (fst (r_get r (negb i)))
      (snd (r_get r (negb i))) = Some (x1, y1, x2, y2) ->
    op' (fst (r_get r i)) (snd (r_get r i)) (fst (r_get r (negb i)))
      (snd (r_get r (negb i))) = Some (x1, y1, x2, y2)) ->
  on_points op' i r = Some r'.
Proof.
  unfold on_points. destruct (r_get r i) as [a b], (r_get r (negb i)) as [c d]. cbn [fst snd].
  intros H Hop. apply bind_Some_inv in H as ([[[x1 y1] x2] y2] & E & H).
  eapply ecc_bind_run; [by apply Hop|exact H].
Qed.

(** The conjugate addition: [P] is the difference and [Q] the sum. *)
Lemma ladder_diff pts m z r r' bit : ladder_at pts m z r -> ladder_law pts m bit ->
  on_points (xycz_add_c true) bit r = Some r' ->
  on_points (xycz_add_c false) bit r = Some r' /\
  exists z', 
    rep (if bit then pts 1 else neg_point (pts 1)) z' (fst (r_get r' bit)) (snd (r_get r' bit)) /\
    rep (pts (2 * m + 1)) z' (fst (r_get r' (negb bit))) (snd (r_get r' (negb bit))).
Proof.
  intros [H0 H1] [Hs Hd _] H. destruct (on_points_inv _ _ _ _ H) as (x1 & y1 & x2 & y2 & E & G1 & G2).
  rewrite G1, G2. cbn [fst snd].
  destruct bit; cbn [r_get negb] in E;
    (edestruct xycz_add_c_rep as (Hrun & HS & HR); [..|exact E|];
      [exact H1 || exact H0|exact H0 || exact H1|exact Hs|exact Hd|]);
    (split; [eapply on_points_run; [exact H|]; intros ???? E'; cbn [r_get negb] in *;
       rewrite E in E'; injection E' as <- <- <- <-; exact Hrun|]); eauto.
Qed.

(** The addition of the sum and the difference: the points of the next prefix. *)
Lemma ladder_sum pts m z r r' bit : ladder_law pts m bit ->
  rep (if bit then pts 1 else neg_point (pts 1)) z (fst (r_get r bit)) (snd (r_get r bit)) ->
  rep (pts (2 * m + 1)) z (fst (r_get r (negb bit))) (snd (r_get r (negb bit))) ->
  on_points (xycz_add true) (negb bit) r = Some r' ->
  on_points (xycz_add false) (negb bit) r = Some r' /\
  ladder_at pts (2 * m + (if bit then 1 else 0))
    (z * (val (fst (r_get r bit)) - val (fst (r_get r (negb bit))))) r'.
Proof.
  intros [_ _ Hn] HD HS H.
  destruct (on_points_inv _ _ _ _ H) as (x1 & y1 & x2 & y2 & E & G1 & G2).
  rewrite negb_involutive in *.
  assert (chord (pts (2 * m + 1)) (if bit then pts 1 else neg_point (pts 1))
    (if bit then pts (2 * m + 2) else pts (2 * m))) as Hc by (destruct bit; exact Hn).
  destruct (xycz_add_rep _ _ _ _ _ _ _ _ _ _ _ _ HS HD Hc E) as (Hrun & H1 & H2).
  split.
  - eapply on_points_run; [exact H|]. intros ???? E'. rewrite negb_involutive in *.
    rewrite E in E'. injection E' as <- <- <- <-. exact Hrun.
  - destruct bit; cbn [r_get negb] in *; split; rewrite ?G1, ?G2; cbn [fst snd].
    + exact H1.
    + replace (2 * m + 1 + 1) with (2 * m + 2) by lia. exact H2.
    + rewrite Z.add_0_r. exact H2.
    + rewrite Z.add_0_r. exact H1.
Qed.

Lemma ladder_nb_spec scalar i : vli_ok scalar -> 0 <= i < 256 ->
  ladder_nb scalar i = negb (Z.testbit (val scalar) i).
Proof.
  intros Hs Hi. unfold ladder_nb. pose proof (vli_test_bit_spec scalar i Hs Hi) as [H1 H2].
  destruct (Z.eqb_spec (vli_test_bit scalar i) 0) as [E|E];
    destruct (Z.testbit (val scalar) i); try done; exfalso; naive_solver.
Qed.

Lemma prefix_step n i : 0 <= i ->
  n / 2 ^ i = 2 * (n / 2 ^ (i + 1)) + (if Z.testbit n i then 1 else 0).
Proof.
  intros Hi. rewrite Z.pow_add_r, <- Z.div_div by lia. change (2 ^ 1) with 2.
  pose proof (Z.testbit_spec' n i Hi) as Hb.
  pose proof (Z.div_mod (n / 2 ^ i) 2 ltac:(lia)).
  destruct (Z.testbit n i); cbn [Z.b2z] in Hb; lia.
Qed.

Lemma ladder_loop_spec pts scalar n : vli_ok scalar -> Z.of_nat n < 256 -> forall r r' z,
  (forall i, 0 < i <= Z.of_nat n ->
     ladder_law pts (val scalar / 2 ^ (i + 1)) (Z.testbit (val scalar) i)) ->
  ladder_at pts (val scalar / 2 ^ (Z.of_nat n + 1)) z r ->
  ladder_loop true scalar n r = Some r' ->
  ladder_loop false scalar n r = Some r' /\ exists z', ladder_at pts (val scalar / 2) z' r'.
Proof.
  intros Hs Hn. induction n as [|n IH]; intros r r' z Hlaw Hat H; cbn [ladder_loop] in *.
  { injection H as <-. split; [done|]. exists z. exact Hat. }
  remember (Z.of_nat (S n)) as i eqn:Ei. rewrite ladder_nb_spec in H by (done || lia).
  rewrite ladder_nb_spec by (done || lia). rewrite negb_involutive in *.
  apply bind_Some_inv in H as (ra & Ea & H). apply bind_Some_inv in H as (rb & Eb & H).
  destruct (ladder_diff _ _ _ _ _ _ Hat (Hlaw i ltac:(lia)) Ea) as (Ra & z1 & HD & HS).
  destruct (ladder_sum _ _ _ _ _ _ (Hlaw i ltac:(lia)) HD HS Eb) as (Rb & Hat').
  rewrite <- prefix_step in Hat' by lia. replace i with (Z.of_nat n + 1) in Hat' by lia.
  destruct (IH ltac:(lia) rb r' _ (fun j Hj => Hlaw j ltac:(lia)) Hat' H) as (Rc & Hz).
  split; [|exact Hz].
  eapply ecc_bind_run; [exact Ra|]. eapply ecc_bind_run; [exact Rb|]. exact Rc.
Qed.

(** ** The initial doubling *)

Lemma initial_double_spec x y iz P R r : reduced x -> reduced y ->
  P = (val x, val y) -> tangent P R ->
  (forall z, iz = Some z -> vli_ok z /\ vli_is_zero z = false) ->
  xycz_initial_double true x y iz = Some r ->
  xycz_initial_double false x y iz = Some r /\
  exists z, let '(x1, y1, x0, y0) := r in rep P z x0 y0 /\ rep R z x1 y1.
Proof.
  intros Hx Hy HP HR Hiz H. unfold xycz_initial_double in *.
  set (z0 := default [1; 0; 0; 0] iz) in *.
  assert (vli_ok z0 /\ vli_is_zero z0 = false) as [Hz0 Hnz].
  { subst z0. destruct iz as [z|]; cbn [default]; [by apply Hiz|].
    split; [apply (bool_decide_unpack _); vm_compute; exact I|reflexivity]. }
  clearbody z0. clear Hiz.
  apply bind_Some_inv in H as ([x1 y1] & E1 & H). apply bind_Some_inv in H as ([[x1' y1'] z'] & E2 & H).
  apply bind_Some_inv in H as ([x2 y2] & E3 & H). injection H as <-.
  destruct (apply_z_spec _ _ _ _ (reduced_ok _ Hx) (reduced_ok _ Hy) Hz0 E1)
    as (R1 & Hx1 & Hy1 & Vx1 & Vy1). cbn [fst snd] in *.
  assert (rep P (val z0) x1 y1) as Hrep by (subst P; repeat (split; [assumption|]); exact Vy1).
  destruct (double_rep _ _ _ _ _ _ _ _ Hrep Hz0 Hnz HR E2) as (R2 & Hz' & HR' & _).
  destruct (apply_z_spec _ _ _ _ (reduced_ok _ Hx) (reduced_ok _ Hy) (reduced_ok _ Hz') E3)
    as (R3 & Hx2 & Hy2 & Vx2 & Vy2). cbn [fst snd] in *.
  split.
  - eapply ecc_bind_run; [exact R1|]. cbv beta iota. eapply ecc_bind_run; [exact R2|]. cbv beta iota.
    eapply ecc_bind_run; [exact R3|]. reflexivity.
  - exists (val z'). split; [subst P; repeat (split; [assumption|]); exact Vy2|exact HR'].
Qed.

(** ** The whole multiplication *)

(** After the ladder: the last difference and sum, and the denominator to invert. *)
Lemma mult_ladder_spec pts point scalar iz n r nb d :
  vli_ok scalar -> reduced (px point) -> reduced (py point) ->
  n = vli_num_bits scalar -> 2 <= n ->
  (forall z, iz = Some z -> vli_ok z /\ vli_is_zero z = false) ->
  pts 1 = (val (px point), val (py point)) -> tangent (pts 1) (pts 2) ->
  (forall i, 0 <= i < n - 1 ->
     ladder_law pts (val scalar / 2 ^ (i + 1)) (Z.testbit (val scalar) i)) ->
  mult_ladder true point scalar iz n = Some (r, nb, d) ->
  mult_ladder false point scalar iz n = Some (r, nb, d) /\
  let bit := Z.testbit (val scalar) 0 in
  nb = negb bit /\ reduced d /\ exists z,
    rep (if bit then pts 1 else neg_point (pts 1)) z (fst (r_get r bit)) (snd (r_get r bit)) /\
    rep (pts (2 * (val scalar / 2) + 1)) z (fst (r_get r (negb bit))) (snd (r_get r (negb bit))) /\
    val d ≡p (val (fst (r1 r)) - val (fst (r0 r))) * val (snd (r_get r bit)) * val (px point).
Proof.
  intros Hs Hx Hy En Hn Hiz HP1 HP2 Hlaw H. unfold mult_ladder in *.
  rewrite (vli_num_bits_spec scalar Hs) in En. pose proof (vli_range _ Hs) as Hrs.
  destruct (Z.eqb_spec (val scalar) 0); [lia|].
  assert (Z.log2 (val scalar) < 256) as Hlog by (apply Z.log2_lt_pow2; lia).
  apply bind_Some_inv in H as ([[[x1 y1] x0] y0] & E1 & H).
  apply bind_Some_inv in H as (ra & E2 & H). rewrite ladder_nb_spec in H by (done || lia).
  rewrite ladder_nb_spec by (done || lia). rewrite negb_involutive in *. apply bind_Some_inv in H as (rb & E3 & H).
  destruct (initial_double_spec _ _ _ _ _ _ Hx Hy HP1 HP2 Hiz E1) as (R1 & z & H0 & H1).
  assert (val scalar / 2 ^ (Z.of_nat (Z.to_nat (n - 2)) + 1) = 1) as Hpre.
  { replace (Z.of_nat (Z.to_nat (n - 2)) + 1) with (Z.log2 (val scalar)) by lia.
    pose proof (Z.log2_spec (val scalar) ltac:(lia)) as [? Hlt].
    rewrite Z.pow_succ_r in Hlt by apply Z.log2_nonneg.
    symmetry. apply (Z.div_unique _ _ 1 (val scalar - 2 ^ Z.log2 (val scalar))); lia. }
  destruct (ladder_loop_spec pts scalar (Z.to_nat (n - 2)) Hs ltac:(lia)
    (mk_ladder (x0, y0) (x1, y1)) ra z) as (R2 & za & Hat);
    [intros i Hi; apply Hlaw; lia|rewrite Hpre; split; [exact H0|exact H1]|exact E2|].
  replace (val scalar / 2) with (val scalar / 2 ^ (0 + 1)) in * by done.
  destruct (ladder_diff _ _ _ _ _ _ Hat (Hlaw 0 ltac:(lia)) E3) as (R3 & zb & HD & HS).
  set (bit := Z.testbit (val scalar) 0) in *.
  assert (reduced (fst (r1 rb)) /\ reduced (fst (r0 rb)) /\ reduced (snd (r_get rb bit))) as (? & ? & ?).
  { destruct HD as (? & ? & _), HS as (? & ? & _).
    destruct bit; split; [assumption|split; assumption|assumption|split; assumption]. }
  pose proof (msub_red (fst (r1 rb)) (fst (r0 rb)) ltac:(done) ltac:(done)) as Hm.
  apply bind_Some_inv in H as (d1 & E4 & H). apply mul_spec in E4 as (R4 & Hd1 & V1);
    [|by apply reduced_ok..].
  apply bind_Some_inv in H as (d2 & E5 & H). apply mul_spec in E5 as (R5 & Hd2 & V2);
    [|by apply reduced_ok..].
  injection H as <- <- <-. split.
  - eapply ecc_bind_run; [exact R1|]. cbv beta iota. eapply ecc_bind_run; [exact R2|].
    eapply ecc_bind_run; [exact R3|]. eapply ecc_bind_run; [exact R4|]. eapply ecc_bind_run; [exact R5|].
    reflexivity.
  - split; [done|]. split; [done|]. exists zb. split; [exact HD|]. split; [exact HS|].
    rewrite V2, V1. by rewrite (proj2 (msub_spec (fst (r1 rb)) (fst (r0 rb)) ltac:(done) ltac:(done))).
Qed.

(** The denominator that the final inversion computes is the inverse of the one of the sum. *)
Lemma final_denominator (bit : bool) (x y : Z) z zi d xb xn r1x r0x yb :
  zi * d ≡p 1 -> d ≡p (r1x - r0x) * yb * x ->
  xb - xn = (if bit then r1x - r0x else r0x - r1x) ->
  xb ≡p x * z ^ 2 -> yb ≡p (if bit then y else - y) * z ^ 3 ->
  z * (xb - xn) * (zi * y * xb) ≡p 1.
Proof.
  intros Hi Hd Hx Hxb Hyb. rewrite <- Hi, Hd, Hyb, Hx, Hxb. destruct bit; apply eqp_eq; ring.
Qed.

Lemma vli_mod_inv_spec d r : vli_ok d -> vli_mod_inv d curve_p = Some r ->
  reduced r /\ (Z.gcd (val d) p256 = 1 -> val r * val d ≡p 1).
Proof.
  intros Hd E.
  destruct (vli_mod_inv_correct_aux d curve_p Hd curve_p_ok) as (r' & E' & Hr & Hlt & Hv);
    [reflexivity|reflexivity|]. rewrite E in E'. injection E' as <-.
  split; [split; [exact Hr|exact Hlt]|]. change (val curve_p) with p256 in Hv. intros Hg.
  destruct (Z.eqb_spec (val d) 0) as [E0|_].
  - exfalso. rewrite E0 in Hg. vm_compute in Hg. discriminate.
  - rewrite Hg in Hv. exact Hv.
Qed.

(** C1. The ladder computes the scalar multiple.  The multiples of the point are given by
    [pts], of which the ladder only uses the doubling of the point and, for every prefix of the
    scalar, one chord through consecutive multiples, one for their difference and one for the
    next multiple.  For a scalar of at least two bits, any random non-zero initial denominator,
    products without lost carries and an invertible final denominator, the result is the
    multiple by the scalar, with reduced coordinates. *)
Theorem ecc_point_mult_correct pts point scalar iz r :
  vli_ok scalar -> reduced (px point) -> reduced (py point) -> 2 <= vli_num_bits scalar ->
  (forall z, iz = Some z -> vli_ok z /\ vli_is_zero z = false) ->
  pts 1 = (val (px point), val (py point)) -> tangent (pts 1) (pts 2) ->
  (forall i, 0 <= i < vli_num_bits scalar - 1 ->
     ladder_law pts (val scalar / 2 ^ (i + 1)) (Z.testbit (val scalar) i)) ->
  (forall l nb d, mult_ladder true point scalar iz (vli_num_bits scalar) = Some (l, nb, d) ->
     Z.gcd (val d) p256 = 1) ->
  ecc_point_mult true point scalar iz (vli_num_bits scalar) = Some r ->
  ecc_point_mult false point scalar iz (vli_num_bits scalar) = Some r /\
  reduced (px r) /\ reduced (py r) /\
  val (px r) ≡p fst (pts (val scalar)) /\ val (py r) ≡p snd (pts (val scalar)).
Proof.
  intros Hs Hx Hy Hn Hiz HP1 HP2 Hlaw Hgcd H. unfold ecc_point_mult in *.
  apply bind_Some_inv in H as ([[l nb] d] & E1 & H). specialize (Hgcd l nb d E1).
  destruct (mult_ladder_spec pts point scalar iz _ l nb d Hs Hx Hy eq_refl Hn Hiz HP1 HP2 Hlaw E1)
    as (R1 & -> & Hd & z & HD & HS & Vd).
  set (bit := Z.testbit (val scalar) 0) in *. rewrite negb_involutive in H.
  apply bind_Some_inv in H as (zi & Ei & H).
  destruct (vli_mod_inv_spec d zi (reduced_ok _ Hd) Ei) as [Hzi Vi]. specialize (Vi Hgcd).
  apply bind_Some_inv in H as (z1 & E2 & H). apply mul_spec in E2 as (R2 & Hz1 & V1);
    [|by apply reduced_ok..].
  assert (reduced (fst (r_get l bit))) as Hxb by (destruct HD as [? _]; assumption).
  apply bind_Some_inv in H as (z2 & E3 & H). apply mul_spec in E3 as (R3 & Hz2 & V2);
    [|by apply reduced_ok..].
  apply bind_Some_inv in H as (l' & E4 & H).
  assert (Hlaw0 : ladder_law pts (val scalar / 2) bit) by exact (Hlaw 0 ltac:(lia)).
  destruct (ladder_sum _ _ _ _ _ _ Hlaw0 HD HS E4) as (R4 & [Hat _]).
  apply bind_Some_inv in H as ([x0 y0] & E5 & H). injection H as <-.
  destruct Hat as (Hx0 & Hy0 & Vx0 & Vy0).
  destruct (apply_z_spec _ _ _ _ (reduced_ok _ Hx0) (reduced_ok _ Hy0) (reduced_ok _ Hz2) E5)
    as (R5 & Hrx & Hry & Vrx & Vry). cbn [fst snd px py] in *.
  pose proof (prefix_step (val scalar) 0 ltac:(lia)) as Hpre. fold bit in Hpre.
  change (2 ^ (0 + 1)) with 2 in Hpre. change (2 ^ 0) with 1 in Hpre. rewrite Z.div_1_r in Hpre.
  rewrite <- Hpre in Vx0, Vy0.
  set (zz := z * _) in *.
  assert (zz * val z2 ≡p 1) as Hone.
  { rewrite V2, V1. subst zz. destruct HD as (_ & _ & VxD & VyD).
    apply (final_denominator bit (val (px point)) (val (py point)) z (val zi) (val d) _ _
      (val (fst (r1 l))) (val (fst (r0 l))) (val (snd (r_get l bit))) Vi Vd).
    - destruct bit; reflexivity.
    - rewrite VxD. destruct bit; [|cbn [neg_point fst]]; rewrite HP1; apply eqp_eq; reflexivity.
    - rewrite VyD. destruct bit; [|cbn [neg_point snd]]; rewrite HP1; apply eqp_eq; reflexivity. }
  split; [|split; [exact Hrx|]; split; [exact Hry|]; split].
  - eapply ecc_bind_run; [exact R1|]. cbv beta iota. rewrite negb_involutive.
    eapply ecc_bind_run; [exact Ei|]. eapply ecc_bind_run; [exact R2|]. eapply ecc_bind_run; [exact R3|].
    eapply ecc_bind_run; [exact R4|]. eapply ecc_bind_run; [exact R5|]. reflexivity.
  - rewrite Vrx, Vx0. transitivity (fst (pts (val scalar)) * (zz * val z2) ^ 2);
      [apply eqp_eq; ring|]. rewrite Hone. apply eqp_eq. ring.
  - rewrite Vry, Vy0. transitivity (snd (pts (val scalar)) * (zz * val z2) ^ 3);
      [apply eqp_eq; ring|]. rewrite Hone. apply eqp_eq. ring.
Qed.

(** The first multiples of the base point. *)
Definition demo_pts (k : Z) : Z * Z :=
  if k =? 1 then (val (px curve_g), val (py curve_g))
  else if k =? 2 then (0x7cf27b188d034f7e8a52380304b51ac3c08969e277f21b35a60b48fc47669978, 0x7775510db8ed040293d9ac69f7430dbba7dade63ce982299e04b79d227873d1)
  else (0x5ecbe4d1a6330a44c8f7ef951d4bf165e6c6b721efada985fb41661bc6e7fd6c, 0x8734640c4998ff7e374b06ce1a64a2ecd82ab036384fb83d9a79b127a27d5032).

(** The inverse is known once one is. *)
Lemma vli_mod_inv_eq d c : vli_ok d -> reduced c -> Z.gcd (val d) p256 = 1 ->
  (val c * val d) mod p256 = 1 -> vli_mod_inv d curve_p = Some c.
Proof.
  intros Hd [Hc Hlc] Hg H1.
  destruct (vli_mod_inv_correct_aux d curve_p Hd curve_p_ok) as (r & E & Hr & Hlt & _);
    [reflexivity|reflexivity|].
  destruct (vli_mod_inv_spec d r Hd E) as [_ Vr]. specialize (Vr Hg). rewrite E. f_equal.
  pose proof (vli_range _ Hr). pose proof (vli_range _ Hc).
  apply val_inj; [apply Hr|apply Hc|transitivity NUM_ECC_DIGITS; [apply Hr|symmetry; apply Hc]|].
  apply eqp_reduced; [split; [lia|exact Hlt]|lia|].
  assert (val c * val d ≡p 1) as Vc by exact H1.
  transitivity (val r * (val c * val d)); [rewrite Vc; apply eqp_eq; ring|].
  transitivity (val c * (val r * val d)); [apply eqp_eq; ring|]. rewrite Vr. apply eqp_eq. ring.
Qed.

Definition demo_inv : vli := [3109105128992877164; 17830135741877770036; 11515716997404253917; 14837240172714423304].

Definition demo_ladder : ladder * bool * vli :=
  (mk_ladder
     ([3979430359614687295; 14351562938611197926; 10188426984937970062; 7180395658579486089],
      [8953964218126509774; 13906069500690967300; 12639495164548529265; 10729791822496392726])
     ([13104581065682462012; 16649740183460502494; 10935186434571239594; 3557269025928419307],
      [13775368908718053848; 13742097459810544225; 2253002255456412296; 211489598920356090]),
   true,
   [13634081144542716263; 366576425256314569; 16072957494924211523; 7285315282503112112]).

Lemma demo_ladder_eq :
  mult_ladder true curve_g [2; 0; 0; 0] (Some [5; 0; 0; 0]) 2 = Some demo_ladder.
Proof. vm_compute. reflexivity. Qed.

Lemma demo_inv_eq : vli_mod_inv (snd demo_ladder) curve_p = Some demo_inv.
Proof.
  apply vli_mod_inv_eq.
  - apply (bool_decide_unpack _). vm_compute. exact I.
  - split; [apply (bool_decide_unpack _); vm_compute; exact I|reflexivity].
  - vm_compute. reflexivity.
  - vm_compute. reflexivity.
Qed.

Definition demo_double : ecc_point := mk_point
  [11964737083406719352; 13873736548487404341; 9967090510939364035; 9003393950442278782]
  [11386427643415524305; 13438088067519447593; 2971701507003789531; 537992211385471040].

Lemma demo_mult :
  ecc_point_mult true curve_g [2; 0; 0; 0] (Some [5; 0; 0; 0]) 2 = Some demo_double.
Proof.
  unfold ecc_point_mult. eapply ecc_bind_run; [exact demo_ladder_eq|]. cbv beta iota delta [demo_ladder].
  eapply ecc_bind_run; [exact demo_inv_eq|]. vm_compute. reflexivity.
Qed.

Lemma ecc_point_mult_correct_witness :
  exists r, ecc_point_mult false curve_g [2; 0; 0; 0] (Some [5; 0; 0; 0]) 2 = Some r /\
    val (px r) ≡p 0x7cf27b188d034f7e8a52380304b51ac3c08969e277f21b35a60b48fc47669978 /\ val (py r) ≡p 0x7775510db8ed040293d9ac69f7430dbba7dade63ce982299e04b79d227873d1.
Proof.
  exists demo_double. pose proof demo_mult as E.
  destruct (ecc_point_mult_correct demo_pts curve_g [2; 0; 0; 0] (Some [5; 0; 0; 0]) demo_double)
    as (H1 & _ & _ & H2 & H3).
  - apply (bool_decide_unpack _). vm_compute. exact I.
  - split; [apply (bool_decide_unpack _); vm_compute; exact I|reflexivity].
  - split; [apply (bool_decide_unpack _); vm_compute; exact I|reflexivity].
  - vm_compute. discriminate.
  - intros z Ez. injection Ez as <-. split; [apply (bool_decide_unpack _); vm_compute; exact I|reflexivity].
  - reflexivity.
  - exists 0xa249bcb3191802d3cb56fc75a8731f848e7b2caf080f3477a4e4d904a671af9d.
    vm_compute. repeat split.
  - intros i Hi. change (vli_num_bits [2; 0; 0; 0] - 1) with 1 in Hi. replace i with 0 by lia.
    change (val [2; 0; 0; 0] / 2 ^ (0 + 1)) with 1. change (Z.testbit _ 0) with false.
    split.
    + exists 0x28cdb0fe6681d140c59fb73f85f16459ca4cee083742bada762de4ca226a8086. vm_compute. repeat split.
    + exists 0xa249bcb3191802d3cb56fc75a8731f848e7b2caf080f3477a4e4d904a671af9d. vm_compute. repeat split.
    + exists 0xd7324f00997e2ec03a6048c07a0e9ba635b311f8c8bd452589d21b35dd957f79. vm_compute. repeat split.
  - intros l nb d El. change (vli_num_bits _) with 2 in El. rewrite demo_ladder_eq in El.
    injection El as <- <- <-. vm_compute. reflexivity.
  - exact E.
  - split; [exact H1|]. split; [exact H2|exact H3].
Defined.
