(* ===== verification/EccKeys.v ===== *)
(** The interface of src/shared/ecc.c: every operation terminates, keys round-trip through
    bytes, points are validated against the curve equation, and what key generation and the
    shared secret accept. *)
From Stdlib Require Import List ZArith Lia Znumtheory Setoid.
From stdpp Require Import base numbers list option.
From S2P Require Import Prelude Ecc EccArith EccMod EccPoint EccCurve EccLadder.

Local Open Scope Z_scope.
Local Infix "≡p" := eqp (at level 70).

(** ** Totality

    The operations of the code give a result on all digits, reduced or not, and whether or not
    a product lost a carry: no loop runs out of fuel. *)

Definition total {A} (P : A -> Prop) (o : option A) : Prop := exists x, o = Some x /\ P x.

Lemma total_bind {A B} (P : A -> Prop) (Q : B -> Prop) o (f : A -> option B) :
  total P o -> (forall x, P x -> total Q (f x)) -> total Q (o ≫= f).
Proof. intros (x & -> & Hx) Hf. exact (Hf x Hx). Qed.

Lemma total_some {A} (P : A -> Prop) x : P x -> total P (Some x).
Proof. intros Hx. by exists x. Qed.

Lemma acc_product_ok p st : acc_ok (acc_product p st).
Proof. destruct st. repeat split; apply u64_range. Qed.

Lemma square_term_ok l k st i : acc_ok (square_term l k st i).
Proof.
  unfold square_term. destruct st. destruct (i <? k - i)%nat; [|apply acc_product_ok].
  destruct (double_product _ _). apply acc_product_ok.
Qed.

Lemma foldl_ok {A} (f : uint128_t * Z -> A -> uint128_t * Z) l st :
  (forall st a, acc_ok (f st a)) -> acc_ok st -> acc_ok (foldl f st l).
Proof. intros Hf. revert st. induction l as [|a l IH]; intros st Hst; cbn; auto. Qed.

Lemma columns_digits column n k r01 :
  (forall k st, acc_ok st -> acc_ok (column k st)) -> ok128 r01 ->
  length (columns column n k r01) = S n /\ digits_ok (columns column n k r01).
Proof.
  intros Hcol. revert k r01. induction n as [|n IH]; intros k r01 Hr; cbn [columns].
  { split; [done|]. constructor; [apply Hr|constructor]. }
  pose proof (Hcol k (r01, 0) (acc_ok_0 _ Hr)) as Hst. destruct (column k (r01, 0)) as [r r2].
  destruct Hst as [[Hl Hh] H2]. destruct (IH (S k) (mk128 (m_high r) r2)) as [H3 H4]; [by split|].
  split; [cbn [length]; by rewrite H3|by constructor].
Qed.

Lemma mmod_total product : length product = 8%nat -> digits_ok product ->
  total vli_ok (vli_mmod_fast product).
Proof.
  intros Hl Hd. destruct (vli_mmod_fast_correct_aux product Hl Hd) as (r & E & Hr & _). by exists r.
Qed.

#[local] Opaque vli_mmod_fast.

Lemma mul_total a b : total vli_ok (mul false a b).
Proof.
  unfold mul. cbn [andb]. apply mmod_total; apply columns_digits; try apply ok128_0;
    intros k st Hst; apply foldl_ok; try done; intros; apply acc_product_ok.
Qed.

Lemma sqr_total a : total vli_ok (sqr false a).
Proof.
  unfold sqr. cbn [andb]. apply mmod_total; apply columns_digits; try apply ok128_0;
    intros k st Hst; apply foldl_ok; try done; intros; apply square_term_ok.
Qed.

Lemma madd_ok a b : vli_ok a -> vli_ok b -> vli_ok (madd a b).
Proof.
  intros Ha Hb. unfold madd, vli_mod_add. pose proof (vli_add_spec a b Ha Hb) as H.
  destruct (vli_add a b) as [r c]. destruct H as [Hr _].
  pose proof (vli_sub_spec r curve_p Hr curve_p_ok) as H. destruct (vli_sub r curve_p) as [r' b'].
  destruct H as [Hr' _]. case_match; [exact Hr'|exact Hr].
Qed.

Lemma msub_ok a b : vli_ok a -> vli_ok b -> vli_ok (msub a b).
Proof.
  intros Ha Hb. unfold msub, vli_mod_sub. pose proof (vli_sub_spec a b Ha Hb) as H.
  destruct (vli_sub a b) as [r c]. destruct H as [Hr _].
  pose proof (vli_add_spec r curve_p Hr curve_p_ok) as H. destruct (vli_add r curve_p) as [r' b'].
  destruct H as [Hr' _]. case_match; [exact Hr'|exact Hr].
Qed.

Lemma half_ok a : vli_ok a -> vli_ok (half a).
Proof.
  intros Ha. rewrite half_eq by exact Ha. destruct (val a mod 2 =? 0).
  - apply (vli_rshift1_spec a Ha).
  - pose proof (vli_add_spec a curve_p Ha curve_p_ok) as H. destruct (vli_add a curve_p) as [s c].
    destruct H as (Hs & Hc & _). apply (rshift1_carry_spec s c Hs Hc).
Qed.

#[local] Opaque mul sqr madd msub half vli_mod_inv.
#[local] Hint Resolve madd_ok msub_ok half_ok mul_total sqr_total : core.

(** All the components of a tuple are digit strings. *)
Definition ok2 (r : vli * vli) : Prop := vli_ok (fst r) /\ vli_ok (snd r).
Definition ok4 (r : vli * vli * vli * vli) : Prop :=
  let '(a, b, c, d) := r in vli_ok a /\ vli_ok b /\ vli_ok c /\ vli_ok d.

Ltac total_steps :=
  repeat (eapply total_bind; [auto|intros ? ?; cbv beta zeta]); apply total_some.

Lemma double_total x y z : vli_ok x -> vli_ok y -> vli_ok z ->
  total (fun r => let '(a, b, c) := r in vli_ok a /\ vli_ok b /\ vli_ok c)
    (ecc_point_double_jacobian false x y z).
Proof.
  intros Hx Hy Hz. unfold ecc_point_double_jacobian. cbv zeta.
  destruct (vli_is_zero z); [by apply total_some|].
  total_steps. split; [|split]; auto 20.
Qed.

Lemma apply_z_total x y z : total ok2 (apply_z false x y z).
Proof. unfold apply_z. total_steps. by split. Qed.

Lemma initial_double_total x y iz : vli_ok x -> vli_ok y ->
  (forall z, iz = Some z -> vli_ok z) -> total ok4 (xycz_initial_double false x y iz).
Proof.
  intros Hx Hy Hz. unfold xycz_initial_double. cbv zeta.
  eapply total_bind; [apply apply_z_total|]. intros [x1 y1] [H1 H2]. cbn [fst snd] in *.
  eapply total_bind; [apply double_total; [done|done|]|].
  { destruct iz as [z|]; cbn [default]; [by apply Hz|].
    apply (bool_decide_unpack _). vm_compute. exact I. }
  intros [[x1' y1'] z'] (H3 & H4 & H5).
  eapply total_bind; [apply apply_z_total|]. intros [x2 y2] [H6 H7]. apply total_some.
  cbn [fst snd] in *. by split_and!.
Qed.

Lemma xycz_add_total x1 y1 x2 y2 : vli_ok x1 -> vli_ok y1 -> vli_ok x2 -> vli_ok y2 ->
  total ok4 (xycz_add false x1 y1 x2 y2).
Proof. intros. unfold xycz_add. cbv zeta. total_steps. split_and!; auto 20. Qed.

Lemma xycz_add_c_total x1 y1 x2 y2 : vli_ok x1 -> vli_ok y1 -> vli_ok x2 -> vli_ok y2 ->
  total ok4 (xycz_add_c false x1 y1 x2 y2).
Proof. intros. unfold xycz_add_c. cbv zeta. total_steps. split_and!; auto 20. Qed.

Definition ladder_ok (r : ladder) : Prop := ok2 (r0 r) /\ ok2 (r1 r).

Lemma on_points_total op i r :
  (forall x1 y1 x2 y2, vli_ok x1 -> vli_ok y1 -> vli_ok x2 -> vli_ok y2 ->
     total ok4 (op x1 y1 x2 y2)) ->
  ladder_ok r -> total ladder_ok (on_points op i r).
Proof.
  intros Hop [H0 H1]. unfold on_points. destruct r as [[a b] [c d]]. cbn [r_get r0 r1] in *.
  destruct H0, H1. destruct i; cbn [negb r_get r0 r1 fst snd] in *;
    (eapply total_bind; [by apply Hop|]); intros [[[x1 y1] x2] y2] (? & ? & ? & ?);
    apply total_some; (split; split; assumption).
Qed.

Lemma ladder_loop_total scalar n r : ladder_ok r -> total ladder_ok (ladder_loop false scalar n r).
Proof.
  revert r. induction n as [|n IH]; intros r Hr; cbn [ladder_loop]; [by apply total_some|].
  eapply total_bind; [by apply on_points_total; [apply xycz_add_c_total|]|]. intros ra Ha.
  eapply total_bind; [by apply on_points_total; [apply xycz_add_total|]|]. intros rb Hb.
  by apply IH.
Qed.

Lemma mod_inv_total d : vli_ok d -> total vli_ok (vli_mod_inv d curve_p).
Proof.
  intros Hd. destruct (vli_mod_inv_correct_aux d curve_p Hd curve_p_ok) as (r & E & Hr & _);
    [reflexivity|reflexivity|]. by exists r.
Qed.

Definition point_ok (pt : ecc_point) : Prop := vli_ok (px pt) /\ vli_ok (py pt).

Lemma ecc_point_mult_total pt scalar iz n : point_ok pt ->
  (forall z, iz = Some z -> vli_ok z) ->
  total point_ok (ecc_point_mult false pt scalar iz n).
Proof.
  intros [Hx Hy] Hiz. unfold ecc_point_mult, mult_ladder.
  eapply (total_bind (fun r => ladder_ok (fst (fst r)) /\ vli_ok (snd r))).
  - eapply total_bind; [by apply initial_double_total|]. intros [[[x1 y1] x0] y0] (? & ? & ? & ?).
    eapply total_bind; [apply ladder_loop_total; split; split; assumption|]. intros ra Ha.
    eapply total_bind; [by apply on_points_total; [apply xycz_add_c_total|]|]. intros rb Hb.
    eapply total_bind; [apply mul_total|]. intros d1 Hd1.
    eapply total_bind; [apply mul_total|]. intros d2 Hd2. by apply total_some.
  - intros [[r nb] d] [Hr Hd]. cbn [fst snd] in *.
    eapply total_bind; [by apply mod_inv_total|]. intros zi Hzi.
    eapply total_bind; [apply mul_total|]. intros z1 Hz1.
    eapply total_bind; [apply mul_total|]. intros z2 Hz2.
    eapply total_bind; [by apply on_points_total; [apply xycz_add_total|]|]. intros r' Hr'.
    eapply total_bind; [apply apply_z_total|]. intros [x0 y0] [H0 H1]. by apply total_some.
Qed.

Lemma ecc_valid_point_total pt : total (fun _ => True) (ecc_valid_point false pt).
Proof.
  unfold ecc_valid_point. destruct (ecc_point_is_zero pt); [by apply total_some|].
  destruct (_ || _); [by apply total_some|]. cbv zeta. total_steps. done.
Qed.

(** ** Bytes *)

Lemma digit_of_bytes_val b : length b = 8%nat -> bytes_ok b -> digit_of_bytes b = le_val b.
Proof.
  intros Hl Hb. do 9 (destruct b as [|? b]; try done).
  unfold bytes_ok in Hb. rewrite !List.Forall_cons_iff in Hb. unfold is_u8 in Hb.
  unfold digit_of_bytes. change (seq 0 8) with [0; 1; 2; 3; 4; 5; 6; 7]%nat.
  cbn [fmap list_fmap nth foldl le_val]. change (8 * Z.of_nat 0) with 0.
  rewrite Z.lor_0_l, Z.shiftl_0_r. rewrite !Z.shiftl_mul_pow2 by lia.
  change (8 * Z.of_nat 1) with 8.
  change (8 * Z.of_nat 2) with 16. change (8 * Z.of_nat 3) with 24.
  change (8 * Z.of_nat 4) with 32. change (8 * Z.of_nat 5) with 40.
  change (8 * Z.of_nat 6) with 48. change (8 * Z.of_nat 7) with 56.
  repeat match goal with
  | |- context [Z.lor ?a (?b * 2 ^ ?n)] =>
      lazymatch a with context [Z.lor] => fail | _ => rewrite (lor_add a b n) by lia end
  end.
  lia.
Qed.

Lemma bytes_of_digit_le d : bytes_of_digit d = le_bytes 8 d.
Proof.
  unfold bytes_of_digit, u8. change (seq 0 8) with [0; 1; 2; 3; 4; 5; 6; 7]%nat.
  cbn [fmap list_fmap le_bytes]. rewrite !Z.div_div by lia.
  rewrite !shr_val by lia. change (d / 2 ^ (8 * Z.of_nat 0)) with (d / 1).
  rewrite Z.div_1_r. reflexivity.
Qed.

Lemma le_val_app l k : le_val (l ++ k) = le_val l + 256 ^ zlen l * le_val k.
Proof.
  induction l as [|b l IH]; [unfold zlen; simpl; lia|].
  rewrite zlen_cons, Z.pow_add_r by (pose proof (zlen_nonneg l); lia).
  cbn [le_val app]. rewrite IH. lia.
Qed.

Lemma bytes_ok_take_drop n m b : bytes_ok b -> bytes_ok (take n (drop m b)).
Proof. intros Hb. by apply Forall_take, Forall_drop. Qed.

Lemma bytes2native_digits b : 32 <= zlen b -> bytes_ok b ->
  ecc_bytes2native b = (fun i => le_val (take 8 (drop (8 * i) b))) <$> seq 0 4.
Proof.
  intros Hl Hb. unfold ecc_bytes2native. change NUM_ECC_DIGITS with 4%nat.
  apply list_fmap_ext. intros i x Hx. apply lookup_seq in Hx as [-> Hi].
  apply digit_of_bytes_val; [|by apply bytes_ok_take_drop].
  rewrite length_take, length_drop. unfold zlen in Hl. lia.
Qed.

Lemma bytes2native_spec b : 32 <= zlen b -> bytes_ok b ->
  vli_ok (ecc_bytes2native b) /\ val (ecc_bytes2native b) = le_val (take 32 b).
Proof.
  intros Hl Hb. rewrite bytes2native_digits by done.
  assert (forall i, (i < 4)%nat -> is_u64 (le_val (take 8 (drop (8 * i) b)))) as Hr.
  { intros i Hi. pose proof (le_val_range _ (bytes_ok_take_drop 8 (8 * i) b Hb)) as H.
    assert (zlen (take 8 (drop (8 * i) b)) = 8) as E by len_lia. rewrite E in H. exact H. }
  split; [split; [done|]|].
  - apply Forall_fmap, Forall_forall. intros i Hi. apply in_seq in Hi. apply Hr. lia.
  - assert (take 32 b = take 8 (drop (8 * 0) b) ++ take 8 (drop (8 * 1) b) ++
      take 8 (drop (8 * 2) b) ++ take 8 (drop (8 * 3) b)) as ->.
    { change (8 * 0)%nat with 0%nat. change (8 * 1)%nat with 8%nat.
      change (8 * 2)%nat with (8 + 8)%nat. change (8 * 3)%nat with (8 + 8 + 8)%nat.
      rewrite drop_0, <- !drop_drop, !take_take_drop. reflexivity. }
    rewrite !le_val_app. assert (forall i, (i < 4)%nat -> zlen (take 8 (drop (8 * i) b)) = 8) as E.
    { intros i Hi. len_lia. }
    rewrite !E by lia. cbn [seq fmap list_fmap val]. lia.
Qed.

Lemma native2bytes_le v : vli_ok v -> ecc_native2bytes v = le_bytes 32 (val v).
Proof.
  intros Hv. digits v. unfold is_u64 in *. unfold ecc_native2bytes. cbn [fmap list_fmap concat].
  rewrite !bytes_of_digit_le, app_nil_r. 
  assert (forall n m x, le_bytes (n + m) x = le_bytes n x ++ le_bytes m (x / 256 ^ Z.of_nat n)) as Hsplit.
  { clear. intros n m. induction n as [|n IH]; intros x; cbn [Nat.add le_bytes app].
    - change (256 ^ Z.of_nat 0) with 1. by rewrite Z.div_1_r.
    - rewrite IH, Nat2Z.inj_succ, Z.pow_succ_r, Z.div_div by lia. done. }
  assert (forall n x y, le_bytes n (x + 256 ^ Z.of_nat n * y) = le_bytes n x) as Hlow.
  { clear. induction n as [|n IH]; intros x y; cbn [le_bytes]; [done|].
    rewrite Nat2Z.inj_succ, Z.pow_succ_r by lia.
    replace (x + 256 * 256 ^ Z.of_nat n * y) with (x + (256 ^ Z.of_nat n * y) * 256) by lia.
    rewrite Z_mod_plus_full, Z.div_add by lia. by rewrite IH. }
  assert (forall d t, 0 <= d < 2 ^ 64 -> (d + 2 ^ 64 * t) / 256 ^ Z.of_nat 8 = t) as Hdiv
    by (intros; change (256 ^ Z.of_nat 8) with (2 ^ 64); words_lia).
  change 32%nat with (8 + (8 + (8 + 8)))%nat. rewrite !Hsplit. cbn [val]. rewrite !Hdiv by lia.
  change (2 ^ 64) with (256 ^ Z.of_nat 8). rewrite !Hlow. reflexivity.
Qed.

(** A number and its 32 little-endian bytes determine each other: both conversions are
    inverse to each other, and stand for the same number. *)
Theorem ecc_bytes_roundtrip v b : vli_ok v -> bytes_ok b -> zlen b = ECC_BYTES ->
  ecc_bytes2native (ecc_native2bytes v) = v /\ ecc_native2bytes (ecc_bytes2native b) = b /\
  zlen (ecc_native2bytes v) = ECC_BYTES /\ val (ecc_bytes2native b) = le_val b.
Proof.
  unfold ECC_BYTES. intros Hv Hb Hl. rewrite native2bytes_le by done.
  destruct (bytes2native_spec b ltac:(lia) Hb) as [Hn Hval].
  rewrite take_ge in Hval by (unfold zlen in Hl; lia).
  destruct (bytes2native_spec (le_bytes 32 (val v))) as [Hn' Hval'];
    [len_lia|apply le_bytes_ok|].
  rewrite take_ge in Hval' by (rewrite le_bytes_length; lia).
  split_and!.
  - apply val_inj; [apply Hn'|apply Hv|transitivity NUM_ECC_DIGITS; [apply Hn'|symmetry; apply Hv]|].
    rewrite Hval', le_val_bytes. apply Z.mod_small. apply vli_range in Hv.
    change (256 ^ Z.of_nat 32) with (2 ^ 256). lia.
  - rewrite native2bytes_le by done. rewrite Hval.
    replace 32%nat with (length b) by (unfold zlen in Hl; lia). by apply le_bytes_val.
  - len_lia.
  - done.
Qed.

Lemma ecc_bytes_roundtrip_witness :
  ecc_bytes2native (ecc_native2bytes curve_b) = curve_b /\
  ecc_native2bytes (ecc_bytes2native (replicate 32 7)) = replicate 32 7.
Proof.
  destruct (ecc_bytes_roundtrip curve_b (replicate 32 7)) as (H1 & H2 & _);
    [apply (bool_decide_unpack _); vm_compute; exact I..|reflexivity|].
  split; [exact H1|exact H2].
Defined.

(** ** Validation *)

Lemma curve_b_reduced : reduced curve_b.
Proof. split; [apply (bool_decide_unpack _); vm_compute; exact I|reflexivity]. Qed.
Lemma three_reduced : reduced [3; 0; 0; 0].
Proof. split; [apply (bool_decide_unpack _); vm_compute; exact I|reflexivity]. Qed.

Definition on_curve (x y : Z) : Prop :=
  0 <= x < p256 /\ 0 <= y < p256 /\ (y * y) mod p256 = (x * x * x - 3 * x + val curve_b) mod p256.

Lemma zero_not_on_curve : ~ on_curve 0 0.
Proof. intros (_ & _ & H). vm_compute in H. discriminate. Qed.

Lemma cmp_p v : vli_ok v -> (vli_cmp curve_p v =? 1) = (val v <? p256).
Proof.
  intros Hv. rewrite vli_cmp_spec by (exact Hv || exact curve_p_ok).
  change (val curve_p) with p256.
  destruct (Z.compare_spec p256 (val v)); destruct (Z.ltb_spec (val v) p256); cbn; lia.
Qed.

Lemma reduced_eq a b : reduced a -> reduced b -> a = b <-> val a ≡p val b.
Proof.
  intros [Ha Hla] [Hb Hlb]. split; [by intros ->|]. intros E.
  apply val_inj; [apply Ha|apply Hb|transitivity NUM_ECC_DIGITS; [apply Ha|symmetry; apply Hb]|].
  apply (proj1 (eqp_reduced _ _ (conj (proj1 (vli_range _ Ha)) Hla)
    (conj (proj1 (vli_range _ Hb)) Hlb)) E).
Qed.

(** The evaluation of the curve equation. *)
Definition equation_check (checked : bool) (pt : ecc_point) : option bool :=
  tmp1 ← sqr checked (py pt);
  tmp2 ← sqr checked (px pt);
  tmp2 ← mul checked (msub tmp2 [3; 0; 0; 0]) (px pt);
  Some (vli_equal tmp1 (madd tmp2 curve_b)).

Lemma equation_check_spec pt b : point_ok pt -> equation_check true pt = Some b ->
  equation_check false pt = Some b /\
  (b = true <-> val (py pt) * val (py pt) ≡p
     val (px pt) * val (px pt) * val (px pt) - 3 * val (px pt) + val curve_b).
Proof.
  intros [Hx Hy] H. unfold equation_check in *.
  apply bind_Some_inv in H as (t1 & E1 & H). apply sqr_spec in E1 as (R1 & Ht1 & V1); [|done].
  apply bind_Some_inv in H as (t2 & E2 & H). apply sqr_spec in E2 as (R2 & Ht2 & V2); [|done].
  destruct (msub_spec t2 [3; 0; 0; 0] Ht2 three_reduced) as [Hs Vs].
  apply bind_Some_inv in H as (t3 & E3 & H).
  apply mul_spec in E3 as (R3 & Ht3 & V3); [|apply Hs|done].
  destruct (madd_spec t3 curve_b Ht3 curve_b_reduced) as [Ha Va]. injection H as <-.
  split.
  - eapply ecc_bind_run; [exact R1|]. eapply ecc_bind_run; [exact R2|]. eapply ecc_bind_run; [exact R3|].
    reflexivity.
  - rewrite vli_equal_spec by (apply Ht1 || apply Ha). rewrite reduced_eq by assumption.
    rewrite V1, Va, V3, Vs, V2. change (val [3; 0; 0; 0]) with 3.
    assert ((val (px pt) * val (px pt) - 3) * val (px pt) + val curve_b =
      val (px pt) * val (px pt) * val (px pt) - 3 * val (px pt) + val curve_b) as -> by ring.
    reflexivity.
Qed.

Lemma ecc_valid_point_spec pt b : point_ok pt -> ecc_valid_point true pt = Some b ->
  ecc_valid_point false pt = Some b /\ (b = true <-> on_curve (val (px pt)) (val (py pt))).
Proof.
  intros Hpt H. pose proof Hpt as [Hx Hy].
  assert (forall c, ecc_valid_point c pt =
    if (val (px pt) =? 0) && (val (py pt) =? 0) then Some false
    else if negb (val (px pt) <? p256) || negb (val (py pt) <? p256) then Some false
    else equation_check c pt) as Heq.
  { intros c. unfold ecc_valid_point, ecc_point_is_zero.
    rewrite !vli_is_zero_spec, !cmp_p by done. reflexivity. }
  rewrite Heq in *. pose proof (vli_range _ Hx). pose proof (vli_range _ Hy).
  destruct ((val (px pt) =? 0) && (val (py pt) =? 0)) eqn:Ez.
  { apply andb_true_iff in Ez as [Ex%Z.eqb_eq Ey%Z.eqb_eq]. rewrite Ex, Ey.
    injection H as <-. split; [done|]. split; [done|]. intros Hc. by destruct zero_not_on_curve. }
  unfold on_curve. destruct (Z.ltb_spec (val (px pt)) p256); cbn [negb orb] in *;
    [|injection H as <-; split; [done|]; split; [done|intros (? & _); lia]].
  destruct (Z.ltb_spec (val (py pt)) p256); cbn [negb orb] in *;
    [|injection H as <-; split; [done|]; split; [done|intros (_ & ? & _); lia]].
  destruct (equation_check_spec pt b Hpt H) as [Hrun Hb]. split; [exact Hrun|].
  rewrite Hb. split; [intros; split; [lia|split; [lia|assumption]]|by intros (_ & _ & ?)].
Qed.

Lemma ecc_public_key_ok key : bytes_ok key -> zlen key = 64 ->
  point_ok (mk_point (ecc_bytes2native key) (ecc_bytes2native (drop 32 key))).
Proof.
  intros Hb Hl. split; cbn [px py]; apply bytes2native_spec; try done; try lia; try len_lia.
  by apply Forall_drop.
Qed.

(** A public key is accepted exactly when its two halves are the coordinates, below the
    prime, of a point of the curve y^2 = x^3 - 3x + b (products without lost carries). *)
Theorem ecc_valid_public_key_correct key b : bytes_ok key -> zlen key = 64 ->
  ecc_valid_public_key true key = Some b ->
  ecc_valid_public_key false key = Some b /\
  (b = true <-> on_curve (le_val (take 32 key)) (le_val (drop 32 key))).
Proof.
  intros Hb Hl H. destruct (ecc_valid_point_spec _ b (ecc_public_key_ok key Hb Hl) H) as [H1 H2].
  split; [exact H1|]. cbn [px py] in H2.
  destruct (bytes2native_spec key ltac:(lia) Hb) as [_ E1].
  destruct (bytes2native_spec (drop 32 key)) as [_ E2]; [len_lia|by apply Forall_drop|].
  rewrite take_ge in E2 by (unfold zlen in Hl; rewrite length_drop; lia).
  rewrite E1, E2 in H2. exact H2.
Qed.

Definition demo_key : bytes := ecc_native2bytes (px curve_g) ++ ecc_native2bytes (py curve_g).

Lemma ecc_valid_public_key_correct_witness :
  ecc_valid_public_key true demo_key = Some true /\
  on_curve (le_val (take 32 demo_key)) (le_val (drop 32 demo_key)).
Proof.
  assert (ecc_valid_public_key true demo_key = Some true) as E by (vm_compute; reflexivity).
  split; [exact E|]. apply (ecc_valid_public_key_correct demo_key true);
    [apply (bool_decide_unpack _); vm_compute; exact I|reflexivity|exact E|reflexivity].
Defined.

(** ** Key generation and the shared secret *)

(** C39. The shared secret always terminates.  It is refused when the random denominator cannot be
    drawn or the public key is not valid, and then nothing is written; what is written
    otherwise are the 32 bytes of the x coordinate of the product, and success means that the
    product is not the point at infinity. *)
Theorem ecdh_shared_secret_correct rand key priv :
  bytes_ok key -> zlen key = 64 -> (forall z, rand = Some z -> vli_ok z) ->
  exists ok secret, ecdh_shared_secret false rand key priv = Some (ok, secret) /\
    (rand = None -> ok = false /\ secret = None) /\
    (ecc_valid_public_key false key <> Some true -> ok = false /\ secret = None) /\
    (forall z, rand = Some z -> ecc_valid_public_key false key = Some true ->
       let pt := mk_point (ecc_bytes2native key) (ecc_bytes2native (drop 32 key)) in
       let k := ecc_bytes2native priv in
       exists q, ecc_point_mult false pt k rand (vli_num_bits k) = Some q /\
         secret = Some (le_bytes 32 (val (px q))) /\
         (ok = false <-> val (px q) = 0 /\ val (py q) = 0)).
Proof.
  intros Hb Hl Hr. pose proof (ecc_public_key_ok key Hb Hl) as Hpt.
  unfold ecdh_shared_secret, ecc_valid_public_key.
  set (pt := mk_point _ _) in *. destruct rand as [z|].
  2:{ exists false, None. split; [done|]. split; [done|]. split; [done|]. done. }
  destruct (ecc_valid_point_total pt) as (v & Ev & _). rewrite Ev. destruct v.
  - destruct (ecc_point_mult_total pt (ecc_bytes2native priv) (Some z)
      (vli_num_bits (ecc_bytes2native priv)) Hpt Hr) as (q & Eq & Hqx & Hqy).
    exists (negb (ecc_point_is_zero q)), (Some (ecc_native2bytes (px q))).
    split; [|split; [done|split; [done|]]].
    + eapply ecc_bind_run; [reflexivity|]. cbn [negb]. cbv beta iota zeta.
      eapply ecc_bind_run; [exact Eq|]. reflexivity.
    + intros z' [= <-] _. cbv zeta. exists q. split; [exact Eq|].
      split; [by rewrite native2bytes_le|]. unfold ecc_point_is_zero.
      rewrite !vli_is_zero_spec by done. rewrite negb_false_iff, andb_true_iff, !Z.eqb_eq. done.
  - exists false, None. split; [reflexivity|]. split; [done|]. split; [done|]. done.
Qed.

Lemma ecdh_shared_secret_correct_witness :
  ecdh_shared_secret false (Some [5; 0; 0; 0]) (replicate 64 1) (replicate 32 1)
    = Some (false, None).
Proof.
  destruct (ecdh_shared_secret_correct (Some [5; 0; 0; 0]) (replicate 64 1) (replicate 32 1))
    as (ok & secret & E & _ & Hv & _).
  - apply (bool_decide_unpack _). vm_compute. exact I.
  - reflexivity.
  - intros z [= <-]. apply (bool_decide_unpack _). vm_compute. exact I.
  - destruct Hv as [-> ->]; [vm_compute; discriminate|]. exact E.
Defined.

(** What one successful draw gives. *)
Definition key_pair (random : nat -> option vli) (r : vli * ecc_point) : Prop :=
  let '(k, pk) := r in
  (exists i, (i < 16)%nat /\ random i = Some k) /\ 0 < val k < val curve_n /\
  ecc_point_mult false curve_g k None (vli_num_bits k) = Some pk /\
  ecc_point_is_zero pk = false /\ point_ok pk.

Lemma curve_g_ok : point_ok curve_g.
Proof. split; apply (bool_decide_unpack _); vm_compute; exact I. Qed.

Lemma make_key_loop_spec random : (forall i k, random i = Some k -> vli_ok k) ->
  forall fuel tries pk, (fuel + tries = 17)%nat ->
  exists r, make_key_loop false random fuel tries pk = r /\
    ((1 <= fuel)%nat -> exists r', r = Some r' /\
      (ecc_point_is_zero pk = true -> forall kp, r' = Some kp -> key_pair random kp)).
Proof.
  intros Hr. induction fuel as [|fuel IH]; intros tries pk Hf; eexists; (split; [reflexivity|]);
    [lia|]. intros _. cbn [make_key_loop].
  destruct (random tries) as [k|] eqn:Ek; [|exists None; split; [done|done]].
  destruct (Z.leb_spec MAX_TRIES (Z.of_nat tries)) as [Hm|Hm];
    [exists None; split; [done|done]|]. unfold MAX_TRIES in Hm.
  pose proof (Hr _ _ Ek) as Hk.
  destruct (IH (S tries)) with (pk := pk) as (r1 & E1 & H1); [lia|].
  destruct (H1 ltac:(lia)) as (r1' & -> & Hz1). clear H1.
  assert (forall b : bool, exists r',
    (if ecc_point_is_zero pk then make_key_loop false random fuel (S tries) pk
     else Some (Some (k, pk))) = Some r' /\
    (ecc_point_is_zero pk = true -> forall kp, r' = Some kp -> key_pair random kp)) as Hcont.
  { intros _. destruct (ecc_point_is_zero pk) eqn:Ez; [|eexists; split; [done|done]].
    exists r1'. split; [exact E1|]. intros _. by apply Hz1. }
  rewrite vli_is_zero_spec by done. destruct (Z.eqb_spec (val k) 0) as [|Hnz];
    [exact (Hcont true)|].
  destruct (Z.eqb_spec (vli_cmp curve_n k) 1) as [Hlt|]; cbn [negb]; [|exact (Hcont true)].
  rewrite vli_cmp_spec in Hlt by (done || (apply (bool_decide_unpack _); vm_compute; exact I)).
  destruct (Z.compare_spec (val curve_n) (val k)) as [|_|Hkn]; try done.
  destruct (ecc_point_mult_total curve_g k None (vli_num_bits k) curve_g_ok ltac:(done))
    as (q & Eq & Hq). pose proof (vli_range _ Hk).
  destruct (IH (S tries)) with (pk := q) as (r2 & E2 & H2); [lia|].
  destruct (H2 ltac:(lia)) as (r2' & -> & Hz2).
  destruct (ecc_point_is_zero q) eqn:Ez.
  - exists r2'. split; [|intros _; by apply Hz2].
    eapply ecc_bind_run; [exact Eq|]. cbv beta. rewrite Ez. exact E2.
  - exists (Some (k, q)). split.
    + eapply ecc_bind_run; [exact Eq|]. cbv beta. rewrite Ez. reflexivity.
    + intros _ kp [= <-]. split; [exists tries; split; [lia|exact Ek]|].
      split; [lia|]. split; [exact Eq|]. split; [exact Ez|exact Hq].
Qed.

(** Key generation always returns, after at most sixteen draws.  If the uninitialised point
    happens to be zero, a returned key pair is one: the private key is a draw between 1 and
    n - 1, and the public key is the result of the multiplication of the base point by it. *)
Theorem ecc_make_key_correct random uninit : (forall i k, random i = Some k -> vli_ok k) ->
  exists r, ecc_make_key false random uninit = Some r /\
    (ecc_point_is_zero uninit = true -> forall pub priv, r = Some (pub, priv) ->
     exists k pk, key_pair random (k, pk) /\ priv = le_bytes 32 (val k) /\
       pub = le_bytes 32 (val (px pk)) ++ le_bytes 32 (val (py pk))).
Proof.
  intros Hr. destruct (make_key_loop_spec random Hr 17 0 uninit eq_refl) as (r & E & H).
  destruct (H ltac:(lia)) as (r' & -> & Hz). unfold ecc_make_key.
  change (Z.to_nat MAX_TRIES + 1)%nat with 17%nat.
  eexists. split; [eapply ecc_bind_run; [exact E|]; reflexivity|].
  intros Hu pub priv Hp. destruct r' as [[k pk]|]; [|done]. cbn in Hp. injection Hp as <- <-.
  specialize (Hz Hu (k, pk) eq_refl) as Hkp. exists k, pk. split; [exact Hkp|].
  destruct Hkp as ((i & _ & Ei) & _ & _ & _ & [Hx Hy]).
  rewrite !native2bytes_le by (assumption || exact (Hr i k Ei)). split; reflexivity.
Qed.

Lemma ecc_make_key_correct_witness :
  ecc_make_key false (fun _ => Some vli_clear) (mk_point vli_clear vli_clear) = Some None.
Proof.
  destruct (ecc_make_key_correct (fun _ => Some vli_clear) (mk_point vli_clear vli_clear))
    as (r & E & H).
  - intros _ k [= <-]. apply (bool_decide_unpack _). vm_compute. exact I.
  - rewrite E. destruct r as [[pub priv]|]; [|reflexivity].
    destruct (H eq_refl pub priv eq_refl) as (k & pk & ((i & _ & [= <-]) & [Hk _] & _) & _).
    vm_compute in Hk. discriminate.
Defined.

(** The condition of the loop is also evaluated after a [continue]: with an uninitialised
    point that is not zero, a zero draw ends the loop, and the key pair returned has the
    private key zero. *)
Theorem ecc_make_key_uninitialised checked uninit : ecc_point_is_zero uninit = false ->
  exists pub, ecc_make_key checked (fun _ => Some vli_clear) uninit
    = Some (Some (pub, replicate 32 0)).
Proof.
  intros Hz. unfold ecc_make_key. change (Z.to_nat MAX_TRIES + 1)%nat with 17%nat.
  cbn [make_key_loop]. eexists. eapply ecc_bind_run.
  - eapply ecc_bind_run; [reflexivity|]. cbv beta. rewrite Hz. reflexivity.
  - reflexivity.
Qed.

Lemma ecc_make_key_uninitialised_witness :
  exists pub, ecc_make_key false (fun _ => Some vli_clear) (mk_point curve_b curve_b)
    = Some (Some (pub, replicate 32 0)).
Proof. apply ecc_make_key_uninitialised. reflexivity. Defined.

(** A scalar of one bit is processed as if it had a second one: multiplying by 1, a private
    key that key generation accepts, gives what multiplying by 3 gives. *)
Theorem ecc_point_mult_one checked pt iz :
  let one := [1; 0; 0; 0] in
  let three := [3; 0; 0; 0] in
  val one = 1 /\ val three = 3 /\ val one < val curve_n /\
  ecc_point_mult checked pt one iz (vli_num_bits one)
    = ecc_point_mult checked pt three iz (vli_num_bits three).
Proof. repeat split. Qed.
