(* ===== verification/StateM.v ===== *)
(** The monad of C code that updates a state and may do something undefined, with a
    weakest precondition for it: the components with a heap or an object store are
    written in this monad. *)
From stdpp Require Import base option list.

(** A computation over states [S]; [None] is undefined behaviour or a loop that does not
    end. *)
Definition M (S A : Type) : Type := S -> option (A * S).

#[export] Instance M_ret S : MRet (M S) := fun A a s => Some (a, s).
#[export] Instance M_bind S : MBind (M S) := fun A B f e s =>
  match e s with Some (a, s') => f a s' | None => None end.
#[export] Instance M_fmap S : FMap (M S) := fun A B f e s =>
  match e s with Some (a, s') => Some (f a, s') | None => None end.

Section ops.
Context {S : Type}.

Definition gets {A} (f : S -> A) : M S A := fun s => Some (f s, s).
Definition modify (f : S -> S) : M S unit := fun s => Some (tt, f s).
Definition undef {A} : M S A := fun _ => None.
Definition get_some {A} (f : S -> option A) : M S A := fun s =>
  match f s with Some a => Some (a, s) | None => None end.
Definition when (b : bool) (e : M S unit) : M S unit := if b then e else mret tt.

(** [wp e Q s]: from [s], [e] is defined, ends, and ends in a state with [Q]. *)
Definition wp {A} (e : M S A) (Q : A -> S -> Prop) (s : S) : Prop :=
  exists a s', e s = Some (a, s') /\ Q a s'.

Lemma wp_ret {A} (a : A) Q s : Q a s -> wp (mret a) Q s.
Proof. intros H. exists a, s. auto. Qed.

Lemma wp_bind {A B} (e : M S A) (f : A -> M S B) Q s :
  wp e (fun a s' => wp (f a) Q s') s -> wp (e ≫= f) Q s.
Proof.
  intros (a & s' & He & b & s'' & Hf & HQ). exists b, s''. split; [|done].
  cbv [mbind M_bind]. rewrite He. exact Hf.
Qed.

Lemma wp_fmap {A B} (e : M S A) (f : A -> B) Q s :
  wp e (fun a s' => Q (f a) s') s -> wp (f <$> e) Q s.
Proof.
  intros (a & s' & He & HQ). exists (f a), s'. split; [|done].
  cbv [fmap M_fmap]. by rewrite He.
Qed.

Lemma wp_mono {A} (e : M S A) (P Q : A -> S -> Prop) s :
  (forall a s', P a s' -> Q a s') -> wp e P s -> wp e Q s.
Proof. intros H (a & s' & He & HP). exists a, s'. auto. Qed.

Lemma wp_gets {A} (f : S -> A) Q s : Q (f s) s -> wp (gets f) Q s.
Proof. intros H. exists (f s), s. auto. Qed.

Lemma wp_modify (f : S -> S) Q s : Q tt (f s) -> wp (modify f) Q s.
Proof. intros H. exists tt, (f s). auto. Qed.

Lemma wp_get_some {A} (f : S -> option A) a Q s :
  f s = Some a -> Q a s -> wp (get_some f) Q s.
Proof. intros Hf H. exists a, s. unfold get_some. by rewrite Hf. Qed.

Lemma wp_when_true e Q s : wp e Q s -> wp (when true e) Q s.
Proof. done. Qed.
Lemma wp_when_false e Q s : Q tt s -> wp (when false e) Q s.
Proof. apply wp_ret. Qed.

Lemma bind_run {A B} (e : M S A) (f : A -> M S B) s a s' :
  e s = Some (a, s') -> (e ≫= f) s = f a s'.
Proof. intros He. cbv [mbind M_bind]. by rewrite He. Qed.

(** A computation is undefined when it is after a prefix. *)
Lemma bind_none {A B} (e : M S A) (f : A -> M S B) s :
  wp e (fun a s' => f a s' = None) s -> (e ≫= f) s = None.
Proof. intros (a & s' & He & H). cbv [mbind M_bind]. by rewrite He. Qed.

Lemma bind_none_l {A B} (e : M S A) (f : A -> M S B) s : e s = None -> (e ≫= f) s = None.
Proof. intros He. cbv [mbind M_bind]. by rewrite He. Qed.

(** What a computation with a weakest precondition returns. *)
Lemma wp_run {A} (e : M S A) Q s a s' : wp e Q s -> e s = Some (a, s') -> Q a s'.
Proof. intros (b & t & He & HQ) H. rewrite He in H. by simplify_eq. Qed.
End ops.

(** Steps through the prefix of a computation whose steps are unconditional. *)
Ltac wp_step :=
  lazymatch goal with
  | |- wp (_ ≫= _) _ _ => apply wp_bind
  | |- wp (_ <$> _) _ _ => apply wp_fmap
  | |- wp (mret _) _ _ => apply wp_ret
  | |- wp (gets _) _ _ => apply wp_gets
  | |- wp (modify _) _ _ => apply wp_modify
  | |- wp (when true _) _ _ => apply wp_when_true
  | |- wp (when false _) _ _ => apply wp_when_false
  end.
Ltac wp_steps := repeat (wp_step; cbn beta).
