(* ===== verification/Queue.v ===== *)
(** The queue of src/shared/queue.c: a singly linked list with head and tail pointers, an
    element counter and a reference count, on an explicit heap of queue objects and
    entries.  Entries that are freed leave the heap, so that a use after free is
    undefined.  Element data are [void *] values (0 is NULL).  Callbacks are computations
    over the same heap, so that they may call the queue functions again. *)
From Stdlib Require Import ZArith Lia.
From stdpp Require Import base numbers list option gmap fin_maps.
From S2P Require Import Prelude StateM.

Local Open Scope Z_scope.

(** ** The heap *)

Abbreviation loc := positive.

Record queue_entry := Entry { data : Z; next : option loc }.

Record queue := Queue {
  ref_count : Z;
  head : option loc;
  tail : option loc;
  entries : Z;
}.

(** The heap, with the rest of the program's state in [user]. *)
Record mem (U : Type) := Mem {
  queues : gmap loc queue;
  cells : gmap loc queue_entry;
  user : U;
}.
Arguments Mem {U} _ _ _.
Arguments queues {U} _.
Arguments cells {U} _.
Arguments user {U} _.

Section operations.
Context {U : Type}.
Abbreviation P := (M (mem U)).

Definition get_q (q : loc) : P queue := get_some (fun m => queues m !! q).
Definition get_e (l : loc) : P queue_entry := get_some (fun m => cells m !! l).

Definition put_q (q : loc) (r : queue) : P unit :=
  modify (fun m => Mem (<[q := r]> (queues m)) (cells m) (user m)).
Definition put_e (l : loc) (e : queue_entry) : P unit :=
  modify (fun m => Mem (queues m) (<[l := e]> (cells m)) (user m)).

Definition set_ref_count (q : loc) (x : Z) : P unit :=
  r ← get_q q; put_q q (Queue x (head r) (tail r) (entries r)).
Definition set_head (q : loc) (x : option loc) : P unit :=
  r ← get_q q; put_q q (Queue (ref_count r) x (tail r) (entries r)).
Definition set_tail (q : loc) (x : option loc) : P unit :=
  r ← get_q q; put_q q (Queue (ref_count r) (head r) x (entries r)).
Definition set_entries (q : loc) (x : Z) : P unit :=
  r ← get_q q; put_q q (Queue (ref_count r) (head r) (tail r) x).
Definition set_next (l : loc) (x : option loc) : P unit :=
  e ← get_e l; put_e l (Entry (data e) x).

(** [free]: the block must be allocated, and is not afterwards. *)
Definition free_q (q : loc) : P unit :=
  _ ← get_q q; modify (fun m => Mem (delete q (queues m)) (cells m) (user m)).
Definition free_e (l : loc) : P unit :=
  _ ← get_e l; modify (fun m => Mem (queues m) (delete l (cells m)) (user m)).

(** Loops over the linked list take at most one step per entry of the heap, or never
    end. *)
Definition loop_fuel : P nat := gets (fun m => S (size (cells m))).

(** ** Operations *)

Definition queue_ref (q : option loc) : P (option loc) :=
  match q with
  | None => mret None
  | Some q =>
    r ← get_q q;
    set_ref_count q (ref_count r + 1);;
    mret (Some q)
  end.

Definition queue_unref (q : loc) : P unit :=
  r ← get_q q;
  set_ref_count q (ref_count r - 1);;
  r ← get_q q;
  when (ref_count r =? 0) (free_q q).

(** [new0] does not return when there is no memory. *)
Definition queue_new : P (option loc) :=
  q ← gets (fun m => fresh (dom (queues m)));
  put_q q (Queue 0 None None 0);;
  set_head q None;;
  set_tail q None;;
  set_entries q 0;;
  queue_ref (Some q).

Definition queue_entry_new (data : Z) : P loc :=
  l ← gets (fun m => fresh (dom (cells m)));
  put_e l (Entry data None);;
  mret l.

Definition queue_push_tail (q : option loc) (data : Z) : P bool :=
  match q with
  | None => mret false
  | Some q =>
    entry ← queue_entry_new data;
    r ← get_q q;
    match tail r with Some t => set_next t (Some entry) | None => mret tt end;;
    set_tail q (Some entry);;
    r ← get_q q;
    match head r with None => set_head q (Some entry) | Some _ => mret tt end;;
    r ← get_q q;
    set_entries q (u32 (entries r + 1));;
    mret true
  end.

Definition queue_push_head (q : option loc) (data : Z) : P bool :=
  match q with
  | None => mret false
  | Some q =>
    entry ← queue_entry_new data;
    r ← get_q q;
    set_next entry (head r);;
    set_head q (Some entry);;
    r ← get_q q;
    match tail r with None => set_tail q (Some entry) | Some _ => mret tt end;;
    r ← get_q q;
    set_entries q (u32 (entries r + 1));;
    mret true
  end.

(** The traversal shared by the searching loops: from [entry], whose predecessor is
    [prev], the first entry whose data satisfy [f], with its predecessor. *)
Fixpoint find_entry (n : nat) (f : Z -> bool) (prev entry : option loc)
    : P (option (option loc * loc)) :=
  match n, entry with
  | O, _ => undef
  | S n, None => mret None
  | S n, Some l =>
    e ← get_e l;
    if f (data e) then mret (Some (prev, l)) else find_entry n f (Some l) (next e)
  end.

Definition queue_push_after (q : option loc) (entry data : Z) : P bool :=
  match q with
  | None => mret false
  | Some q =>
    r ← get_q q;
    n ← loop_fuel;
    found ← find_entry n (Z.eqb entry) None (head r);
    match found with
    | None => mret false
    | Some (_, qentry) =>
      new_entry ← queue_entry_new data;
      e ← get_e qentry;
      set_next new_entry (next e);;
      match next e with None => set_tail q (Some new_entry) | Some _ => mret tt end;;
      set_next qentry (Some new_entry);;
      r ← get_q q;
      set_entries q (u32 (entries r + 1));;
      mret true
    end
  end.

Definition queue_pop_head (q : option loc) : P Z :=
  match q with
  | None => mret 0
  | Some q =>
    r ← get_q q;
    match head r with
    | None => mret 0
    | Some entry =>
      e ← get_e entry;
      match next e with
      | None => set_head q None;; set_tail q None
      | Some n => set_head q (Some n)
      end;;
      e ← get_e entry;
      free_e entry;;
      r ← get_q q;
      set_entries q (u32 (entries r - 1));;
      mret (data e)
    end
  end.

Definition queue_peek_head (q : option loc) : P Z :=
  match q with
  | None => mret 0
  | Some q =>
    r ← get_q q;
    match head r with None => mret 0 | Some l => data <$> get_e l end
  end.

Definition queue_peek_tail (q : option loc) : P Z :=
  match q with
  | None => mret 0
  | Some q =>
    r ← get_q q;
    match tail r with None => mret 0 | Some l => data <$> get_e l end
  end.

(** [while (entry && queue->head && queue->ref_count > 1)].  The callback may add
    entries without end, so the number of rounds is an argument. *)
Fixpoint foreach_loop (n : nat) (q : loc) (function : Z -> P unit) (entry : option loc)
    : P unit :=
  match n, entry with
  | O, _ => undef
  | S n, None => mret tt
  | S n, Some l =>
    r ← get_q q;
    if (match head r with Some _ => true | None => false end) && (1 <? ref_count r) then
      e ← get_e l;
      function (data e);;
      foreach_loop n q function (next e)
    else mret tt
  end.

Definition queue_foreach (n : nat) (q : option loc) (function : option (Z -> P unit))
    : P unit :=
  match q, function with
  | Some q, Some function =>
    r ← get_q q;
    match head r with
    | None => mret tt
    | Some entry =>
      _ ← queue_ref (Some q);
      foreach_loop n q function (Some entry);;
      queue_unref q
    end
  | _, _ => mret tt
  end.

Definition direct_match (a b : Z) : bool := a =? b.

Definition queue_find (q : option loc) (function : option (Z -> Z -> bool)) (match_data : Z)
    : P Z :=
  match q with
  | None => mret 0
  | Some q =>
    let function := match function with None => direct_match | Some f => f end in
    r ← get_q q;
    n ← loop_fuel;
    found ← find_entry n (fun d => function d match_data) None (head r);
    match found with None => mret 0 | Some (_, l) => data <$> get_e l end
  end.

(** The common end of [queue_remove] and [queue_remove_if]: unlinks and frees an entry. *)
Definition unlink (q : loc) (prev : option loc) (entry : loc) : P Z :=
  e ← get_e entry;
  match prev with Some p => set_next p (next e) | None => set_head q (next e) end;;
  e ← get_e entry;
  match next e with None => set_tail q prev | Some _ => mret tt end;;
  e ← get_e entry;
  free_e entry;;
  r ← get_q q;
  set_entries q (u32 (entries r - 1));;
  mret (data e).

Definition queue_remove (q : option loc) (data : Z) : P bool :=
  match q with
  | None => mret false
  | Some q =>
    r ← get_q q;
    n ← loop_fuel;
    found ← find_entry n (Z.eqb data) None (head r);
    match found with
    | None => mret false
    | Some (prev, entry) => _ ← unlink q prev entry; mret true
    end
  end.

Definition queue_remove_if (q : option loc) (function : option (Z -> bool)) : P Z :=
  match q, function with
  | Some q, Some function =>
    r ← get_q q;
    n ← loop_fuel;
    found ← find_entry n function None (head r);
    match found with
    | None => mret 0
    | Some (prev, entry) => unlink q prev entry
    end
  | _, _ => mret 0
  end.

Definition call_destroy (destroy : option (Z -> P unit)) (data : Z) : P unit :=
  match destroy with Some destroy => destroy data | None => mret tt end.

Fixpoint remove_all_if (n : nat) (q : loc) (function : Z -> bool)
    (destroy : option (Z -> P unit)) (entry : option loc) (count : Z) : P Z :=
  match n, entry with
  | O, _ => undef
  | S n, None => mret count
  | S n, Some l =>
    r ← get_q q;
    let before := entries r in
    data ← queue_remove_if (Some q) (Some function);
    r ← get_q q;
    if before =? entries r then mret count
    else
      call_destroy destroy data;;
      remove_all_if n q function destroy entry (u32 (count + 1))
  end.

Fixpoint free_all (n : nat) (destroy : option (Z -> P unit)) (entry : option loc)
    (count : Z) : P Z :=
  match n, entry with
  | O, _ => undef
  | S n, None => mret count
  | S n, Some tmp =>
    e ← get_e tmp;
    call_destroy destroy (data e);;
    free_e tmp;;
    free_all n destroy (next e) (u32 (count + 1))
  end.

(** A destroy callback may add entries for [function] without end: the number of rounds is
    an argument in that case.  The other loop walks a list that is out of reach. *)
Definition queue_remove_all (n : nat) (q : option loc) (function : option (Z -> bool))
    (destroy : option (Z -> P unit)) : P Z :=
  match q with
  | None => mret 0
  | Some q =>
    r ← get_q q;
    match function with
    | Some function => remove_all_if n q function destroy (head r) 0
    | None =>
      n ← loop_fuel;
      set_head q None;;
      set_tail q None;;
      set_entries q 0;;
      free_all n destroy (head r) 0
    end
  end.

Definition queue_destroy (q : option loc) (destroy : option (Z -> P unit)) : P unit :=
  match q with
  | None => mret tt
  | Some q =>
    _ ← queue_remove_all 0 (Some q) None destroy;
    queue_unref q
  end.

Definition queue_get_entries (q : option loc) : P (option loc) :=
  match q with None => mret None | Some q => head <$> get_q q end.

Definition queue_length (q : option loc) : P Z :=
  match q with None => mret 0 | Some q => entries <$> get_q q end.

Definition queue_isempty (q : option loc) : P bool :=
  match q with None => mret true | Some q => (fun r => entries r =? 0) <$> get_q q end.

End operations.
