(* ===== verification/QueueHeap.v ===== *)
(** The linked lists of Queue.v as lists of (address, data) pairs: what a heap cell
    operation does to the list it is in, whatever else the heap holds. *)
From Stdlib Require Import ZArith Lia.
From S2P Require Import Prelude StateM Queue.
From stdpp Require Import base numbers list option gmap fin_maps.

Local Open Scope Z_scope.

Abbreviation node := (loc * Z)%type.
Abbreviation heap := (gmap loc queue_entry).

(** From [p] the entries of [ls] are linked in order, and the last one points to [e]. *)
Fixpoint path (E : heap) (p : option loc) (ls : list node) (e : option loc) : Prop :=
  match ls with
  | [] => p = e
  | (l, d) :: r => p = Some l /\ exists nx, E !! l = Some (Entry d nx) /\ path E nx r e
  end.

Definition first (ls : list node) : option loc := fst <$> hd_error ls.
Definition final (ls : list node) : option loc := fst <$> (last ls : option node).

(** The heap [E] holds the list [ls] from [p], and besides it exactly the heap [F]. *)
Record lists (E : heap) (p : option loc) (ls : list node) (F : heap) : Prop := {
  lists_path : path E p ls None;
  lists_nodup : NoDup ls.*1;
  lists_frame : forall l, l ∉ ls.*1 -> E !! l = F !! l;
  lists_disjoint : forall l, l ∈ ls.*1 -> F !! l = None;
}.

Lemma path_app E p xs ys e :
  path E p (xs ++ ys) e <-> exists q, path E p xs q /\ path E q ys e.
Proof.
  revert p. induction xs as [|[l d] xs IH]; intros p; cbn [app path].
  - split; [intros H; by exists p | by intros (q & -> & H)].
  - split.
    + intros (-> & nx & Hl & (q & H1 & H2)%IH). exists q. split; [|done].
      split; [done|]. by exists nx.
    + intros (q & (-> & nx & Hl & H1) & H2). split; [done|]. exists nx. split; [done|].
      apply IH. by exists q.
Qed.

Lemma path_frame E E' p ls e :
  (forall l, l ∈ ls.*1 -> E' !! l = E !! l) -> path E p ls e -> path E' p ls e.
Proof.
  revert p. induction ls as [|[l d] ls IH]; intros p HE; cbn [path]; [done|].
  intros (-> & nx & Hl & Hp). split; [done|]. exists nx. split.
  - rewrite HE; [done|]. cbn. set_solver.
  - apply IH; [|done]. intros k Hk. apply HE. cbn. set_solver.
Qed.

Lemma path_first E p ls : path E p ls None -> p = first ls.
Proof. destruct ls as [|[l d] ls]; cbn; [done | by intros [-> _]]. Qed.

Lemma lists_first E p ls F : lists E p ls F -> p = first ls.
Proof. intros H. eapply path_first, lists_path, H. Qed.

(** The entry at any position of the list. *)
Lemma lists_lookup E p xs l d ys F :
  lists E p (xs ++ (l, d) :: ys) F -> E !! l = Some (Entry d (first ys)).
Proof.
  intros [Hp _ _ _]. apply path_app in Hp as (q & _ & _ & nx & Hl & Hy).
  apply path_first in Hy as ->. exact Hl.
Qed.

Lemma first_app_cons xs l d ys l' d' ys' :
  l = l' -> first (xs ++ (l, d) :: ys) = first (xs ++ (l', d') :: ys').
Proof. intros ->. by destruct xs. Qed.

Lemma final_app_cons xs x ys : final (xs ++ x :: ys) = final (x :: ys).
Proof. unfold final. by rewrite last_app_cons. Qed.

Lemma final_cons_cons x y ys : final (x :: y :: ys) = final (y :: ys).
Proof. done. Qed.

Lemma final_snoc xs l d : final (xs ++ [(l, d)]) = Some l.
Proof. unfold final. by rewrite last_snoc. Qed.

Lemma first_nil : first [] = None.
Proof. done. Qed.
Lemma final_nil : final [] = None.
Proof. done. Qed.
Lemma first_cons l d xs : first ((l, d) :: xs) = Some l.
Proof. done. Qed.

(** The first address of a list that is not empty. *)
Definition first_of (xs : list node) (l : loc) : loc := default l (first xs).

Lemma first_app xs l d ys : first (xs ++ (l, d) :: ys) = Some (first_of xs l).
Proof. by destruct xs as [|[k e] xs]. Qed.

Lemma final_cons_snoc x xs l d : final (x :: xs ++ [(l, d)]) = Some l.
Proof. rewrite app_comm_cons. apply final_snoc. Qed.

Lemma nil_or_snoc {A} (xs : list A) : xs = [] \/ exists ys y, xs = ys ++ [y].
Proof. destruct xs using rev_ind; eauto. Qed.

(** A new cell is on none of the lists of a heap. *)
Lemma lists_fresh E p ls F n : lists E p ls F -> E !! n = None -> n ∉ ls.*1 /\ F !! n = None.
Proof.
  intros [Hp Hnd Hf Hd] Hn.
  assert (n ∉ ls.*1) as Hni.
  { intros ([l d] & Heq & Hi)%list_elem_of_fmap. cbn in Heq. subst.
    apply list_elem_of_split in Hi as (xs & ys & ->).
    assert (lists E p (xs ++ (l, d) :: ys) F) as HL by by constructor.
    apply lists_lookup in HL. congruence. }
  split; [done|]. rewrite <- Hf by done. done.
Qed.

(** ** Surgery on a list *)

(** Facts about the addresses of a list written as a concatenation. *)
Ltac nodes :=
  repeat (progress rewrite ?fmap_app, ?fmap_cons in * || cbn [fst] in * );
  repeat match goal with
  | H : NoDup (_ ++ _) |- _ => apply NoDup_app in H as (? & ? & ?)
  | H : NoDup (_ :: _) |- _ => apply NoDup_cons in H as [? ?]
  end.

(** Lookups in a heap after a store at [a], at another address. *)
Ltac other := first [rewrite lookup_insert_ne by set_solver | rewrite lookup_delete_ne by set_solver].

Lemma lists_cons E p ls F n d :
  lists E p ls F -> E !! n = None -> lists (<[n := Entry d p]> E) (Some n) ((n, d) :: ls) F.
Proof.
  intros HL Hn. destruct (lists_fresh _ _ _ _ _ HL Hn) as [Hni HFn].
  destruct HL as [Hp Hnd Hf Hd]. constructor; cbn [fmap list_fmap fst].
  - cbn. split; [done|]. exists p. split; [by rewrite lookup_insert_eq|].
    eapply path_frame, Hp. intros l Hl. by other.
  - apply NoDup_cons. done.
  - intros l [Hl1 Hl2]%not_elem_of_cons. other. by apply Hf.
  - intros l [->|Hl]%elem_of_cons; [done | by apply Hd].
Qed.

Lemma lists_insert_after E p xs t d0 ys F n d :
  lists E p (xs ++ (t, d0) :: ys) F -> E !! n = None ->
  lists (<[t := Entry d0 (Some n)]> (<[n := Entry d (first ys)]> E)) p
    (xs ++ (t, d0) :: (n, d) :: ys) F.
Proof.
  intros HL Hn. destruct (lists_fresh _ _ _ _ _ HL Hn) as [Hni HFn].
  destruct HL as [Hp Hnd Hf Hd].
  apply path_app in Hp as (q & Hx & -> & nx & Ht & Hy).
  pose proof (path_first _ _ _ Hy) as ->.
  assert (t <> n) as Htn by (intros ->; congruence).
  nodes. constructor.
  - apply path_app. exists (Some t). split.
    + eapply path_frame, Hx. intros l Hl. do 2 other. done.
    + cbn. split; [done|]. exists (Some n). split; [by rewrite lookup_insert_eq|].
      split; [done|]. exists (first ys). split.
      { other. by rewrite lookup_insert_eq. }
      eapply path_frame, Hy. intros l Hl. do 2 other. done.
  - nodes. apply NoDup_app. split_and!; [done|set_solver|].
    repeat apply NoDup_cons_2; set_solver.
  - intros l Hl. nodes. do 2 other. apply Hf. nodes. set_solver.
  - intros l Hl. nodes. destruct (decide (l = n)) as [->|]; [done|].
    apply Hd. nodes. set_solver.
Qed.

Lemma lists_tail E p l d ys F :
  lists E p ((l, d) :: ys) F -> lists (delete l E) (first ys) ys F.
Proof.
  intros [Hp Hnd Hf Hd]. destruct Hp as (-> & nx & Hl & Hy).
  pose proof (path_first _ _ _ Hy) as ->. nodes. constructor.
  - eapply path_frame, Hy. intros k Hk. by other.
  - done.
  - intros k Hk. destruct (decide (k = l)) as [->|].
    + rewrite lookup_delete_eq. symmetry. apply Hd. nodes. set_solver.
    + other. apply Hf. nodes. set_solver.
  - intros k Hk. apply Hd. nodes. set_solver.
Qed.

Lemma lists_remove_after E p xs t d0 l d ys F :
  lists E p (xs ++ (t, d0) :: (l, d) :: ys) F ->
  lists (delete l (<[t := Entry d0 (first ys)]> E)) p (xs ++ (t, d0) :: ys) F.
Proof.
  intros [Hp Hnd Hf Hd].
  apply path_app in Hp as (q & Hx & -> & nx & Ht & -> & ny & Hl & Hy).
  pose proof (path_first _ _ _ Hy) as ->. nodes. constructor.
  - apply path_app. exists (Some t). split.
    + eapply path_frame, Hx. intros k Hk. do 2 other. done.
    + cbn. split; [done|]. exists (first ys). split.
      { other. by rewrite lookup_insert_eq. }
      eapply path_frame, Hy. intros k Hk. do 2 other. done.
  - nodes. apply NoDup_app. split_and!; [done|set_solver|].
    apply NoDup_cons_2; set_solver.
  - intros k Hk. nodes. destruct (decide (k = l)) as [->|].
    + rewrite lookup_delete_eq. symmetry. apply Hd. nodes. set_solver.
    + do 2 other. apply Hf. nodes. set_solver.
  - intros k Hk. apply Hd. nodes. set_solver.
Qed.

(** A list is no longer than the heap it is in. *)
Lemma lists_size E p ls F : lists E p ls F -> (length ls <= size E)%nat.
Proof.
  intros HL. assert (list_to_set ls.*1 ⊆@{gset loc} dom E) as Hsub.
  { intros l. rewrite elem_of_list_to_set, elem_of_dom.
    intros ([k d] & -> & (xs & ys & ->)%list_elem_of_split)%list_elem_of_fmap.
    eexists. eapply lists_lookup, HL. }
  apply subseteq_size in Hsub. rewrite size_dom in Hsub.
  rewrite size_list_to_set in Hsub by apply HL. by rewrite length_fmap in Hsub.
Qed.
