(* ===== verification/QueueSpec.v ===== *)
(** What the operations of Queue.v do to the list of data a queue holds, and the
    refinement of the list of elements by the linked entries. *)
From Stdlib Require Import ZArith Lia.
From S2P Require Import Prelude StateM Queue QueueHeap.
From stdpp Require Import base numbers list option gmap fin_maps.

Local Open Scope Z_scope.

(** ** The abstract queue: a list of data *)

(** The list split at the first element that satisfies [f]. *)
Fixpoint split_find {A} (f : A -> bool) (xs : list A) : option (list A * A * list A) :=
  match xs with
  | [] => None
  | x :: xs =>
    if f x then Some ([], x, xs)
    else match split_find f xs with
         | Some (a, y, b) => Some (x :: a, y, b)
         | None => None
         end
  end.

Inductive op (U : Type) :=
  | Push_tail (d : Z)
  | Push_head (d : Z)
  | Push_after (e d : Z)
  | Pop_head
  | Peek_head
  | Peek_tail
  | Foreach (g : Z -> U -> U)
  | Find (f : option (Z -> Z -> bool)) (d : Z)
  | Remove (d : Z)
  | Remove_if (f : Z -> bool)
  | Remove_all (f : option (Z -> bool)) (g : option (Z -> U -> U))
  | Length
  | Isempty.
Arguments Push_tail {U} _.
Arguments Push_head {U} _.
Arguments Push_after {U} _ _.
Arguments Pop_head {U}.
Arguments Peek_head {U}.
Arguments Peek_tail {U}.
Arguments Foreach {U} _.
Arguments Find {U} _ _.
Arguments Remove {U} _.
Arguments Remove_if {U} _.
Arguments Remove_all {U} _ _.
Arguments Length {U}.
Arguments Isempty {U}.

(** The result of an operation: a boolean, a datum (0 for NULL) or a count. *)
Inductive res := RUnit | RBool (b : bool) | RData (d : Z) | RCount (n : Z).

Definition destroyed {U} (g : option (Z -> U -> U)) (xs : list Z) (u : U) : U :=
  match g with Some g => fold_left (fun u d => g d u) xs u | None => u end.

Definition spec {U} (o : op U) (xs : list Z) (u : U) : res * list Z * U :=
  match o with
  | Push_tail d => (RBool true, xs ++ [d], u)
  | Push_head d => (RBool true, d :: xs, u)
  | Push_after e d =>
    match split_find (Z.eqb e) xs with
    | Some (a, x, b) => (RBool true, a ++ x :: d :: b, u)
    | None => (RBool false, xs, u)
    end
  | Pop_head => (RData (hd 0 xs), tl xs, u)
  | Peek_head => (RData (hd 0 xs), xs, u)
  | Peek_tail => (RData (List.last xs 0), xs, u)
  | Foreach g => (RUnit, xs, destroyed (Some g) xs u)
  | Find f d =>
    let f := match f with Some f => f | None => direct_match end in
    (RData (match split_find (fun x => f x d) xs with Some (_, x, _) => x | None => 0 end),
     xs, u)
  | Remove d =>
    match split_find (Z.eqb d) xs with
    | Some (a, x, b) => (RBool true, a ++ b, u)
    | None => (RBool false, xs, u)
    end
  | Remove_if f =>
    match split_find f xs with
    | Some (a, x, b) => (RData x, a ++ b, u)
    | None => (RData 0, xs, u)
    end
  | Remove_all (Some f) g =>
    (RCount (u32 (zlen (List.filter f xs))), List.filter (fun x => negb (f x)) xs,
     destroyed g (List.filter f xs) u)
  | Remove_all None g => (RCount (u32 (zlen xs)), [], destroyed g xs u)
  | Length => (RCount (u32 (zlen xs)), xs, u)
  | Isempty => (RBool (u32 (zlen xs) =? 0), xs, u)
  end.

Fixpoint spec_run {U} (os : list (op U)) (xs : list Z) (u : U) : list res * list Z * U :=
  match os with
  | [] => ([], xs, u)
  | o :: os =>
    let '(r, xs, u) := spec o xs u in
    let '(rs, xs, u) := spec_run os xs u in
    (r :: rs, xs, u)
  end.

Section refinement.
Context {U : Type}.
Abbreviation P := (M (mem U)).

(** A callback that uses the user state only. *)
Definition callback (g : Z -> U -> U) (d : Z) : P unit :=
  modify (fun m => Mem (queues m) (cells m) (g d (user m))).

(** An operation of the code; [n] bounds the rounds of the loops that callbacks could
    prolong. *)
Definition exec (n : nat) (q : loc) (o : op U) : P res :=
  match o with
  | Push_tail d => RBool <$> queue_push_tail (Some q) d
  | Push_head d => RBool <$> queue_push_head (Some q) d
  | Push_after e d => RBool <$> queue_push_after (Some q) e d
  | Pop_head => RData <$> queue_pop_head (Some q)
  | Peek_head => RData <$> queue_peek_head (Some q)
  | Peek_tail => RData <$> queue_peek_tail (Some q)
  | Foreach g => (fun _ => RUnit) <$> queue_foreach n (Some q) (Some (callback g))
  | Find f d => RData <$> queue_find (Some q) f d
  | Remove d => RBool <$> queue_remove (Some q) d
  | Remove_if f => RData <$> queue_remove_if (Some q) (Some f)
  | Remove_all f g => RCount <$> queue_remove_all n (Some q) f (callback <$> g)
  | Length => RCount <$> queue_length (Some q)
  | Isempty => RBool <$> queue_isempty (Some q)
  end.

Fixpoint exec_run (n : nat) (q : loc) (os : list (op U)) : P (list res) :=
  match os with
  | [] => mret []
  | o :: os => r ← exec n q o; rs ← exec_run n q os; mret (r :: rs)
  end.

(** The queue at [q] holds [ls], referenced [rc] times; besides it the heap holds exactly
    the queues [G] and the entries [F]. *)
Definition holds (q : loc) (rc : Z) (G : gmap loc queue) (F : heap) (ls : list node)
    (u : U) (m : mem U) : Prop :=
  exists cs, m = Mem (<[q := Queue rc (first ls) (final ls) (u32 (zlen ls))]> G) cs u /\
    lists cs (first ls) ls F.

Definition contents (q : loc) (rc : Z) (G : gmap loc queue) (F : heap) (xs : list Z)
    (u : U) (m : mem U) : Prop :=
  exists ls, holds q rc G F ls u m /\ ls.*2 = xs.

(** ** Weakest preconditions of the heap operations *)

Implicit Types (Q : unit -> mem U -> Prop) (cs : heap) (G : gmap loc queue).

Lemma wp_get_q q r G cs (u : U) (Q : queue -> mem U -> Prop) :
  Q r (Mem (<[q := r]> G) cs u) -> wp (get_q q) Q (Mem (<[q := r]> G) cs u).
Proof. apply wp_get_some. cbn. apply lookup_insert_eq. Qed.

Lemma wp_put_q q r r' G cs (u : U) Q :
  Q tt (Mem (<[q := r']> G) cs u) -> wp (put_q q r') Q (Mem (<[q := r]> G) cs u).
Proof.
  intros H. apply wp_modify. cbn. by rewrite insert_insert_eq.
Qed.

Lemma wp_get_e l e G cs (u : U) (Q : queue_entry -> mem U -> Prop) :
  cs !! l = Some e -> Q e (Mem G cs u) -> wp (get_e l) Q (Mem G cs u).
Proof. intros Hl. by apply wp_get_some. Qed.

Lemma wp_set_next l e x G cs (u : U) Q :
  cs !! l = Some e -> Q tt (Mem G (<[l := Entry (data e) x]> cs) u) ->
  wp (set_next l x) Q (Mem G cs u).
Proof. intros Hl H. apply wp_bind. eapply wp_get_e; [done|]. by apply wp_modify. Qed.

Lemma wp_free_e l e G cs (u : U) Q :
  cs !! l = Some e -> Q tt (Mem G (delete l cs) u) -> wp (free_e l) Q (Mem G cs u).
Proof. intros Hl H. apply wp_bind. eapply wp_get_e; [done|]. by apply wp_modify. Qed.

Lemma wp_entry_new d G cs (u : U) (Q : loc -> mem U -> Prop) :
  (forall l, cs !! l = None -> Q l (Mem G (<[l := Entry d None]> cs) u)) ->
  wp (queue_entry_new d) Q (Mem G cs u).
Proof.
  intros H. apply wp_bind, wp_gets, wp_bind, wp_modify, wp_ret. apply H. cbn.
  apply not_elem_of_dom, is_fresh.
Qed.

Lemma wp_callback g d G cs (u : U) Q :
  Q tt (Mem G cs (g d u)) -> wp (callback g d) Q (Mem G cs u).
Proof. intros H. by apply wp_modify. Qed.

Lemma u32_succ x : u32 (u32 x + 1) = u32 (x + 1).
Proof. unfold u32. by rewrite Zplus_mod_idemp_l. Qed.
Lemma u32_pred x : u32 (u32 x - 1) = u32 (x - 1).
Proof. unfold u32. by rewrite Zminus_mod_idemp_l. Qed.
End refinement.

Ltac cell_lookup :=
  repeat rewrite lookup_insert_ne by congruence;
  first [eassumption | by rewrite lookup_insert_eq].

(** One step of symbolic execution on a heap that displays the queue. *)
Ltac q_step :=
  first
    [ wp_step
    | apply wp_get_q
    | apply wp_put_q
    | eapply wp_get_e; [cell_lookup|]
    | eapply wp_set_next; [cell_lookup|]
    | eapply wp_free_e; [cell_lookup|] ];
  cbn beta.
Ltac q_simp :=
  cbn [Queue.ref_count Queue.head Queue.tail Queue.entries data next];
  rewrite ?final_snoc, ?first_app, ?first_cons, ?first_nil, ?final_nil.
Ltac q_steps :=
  q_simp;
  repeat (first [progress unfold set_ref_count, set_head, set_tail, set_entries, loop_fuel | q_step];
          q_simp).

Section specs.
Context {U : Type}.
Variables (q : loc) (rc : Z) (G : gmap loc queue) (F : heap).
Implicit Types (ls : list node) (u : U) (m : mem U).

(** Shows [holds] from the pieces of the state: the pointers and the counter are those of
    the list by computation. *)
Lemma holds_intro ls h t n u cs :
  h = first ls -> t = final ls -> n = u32 (zlen ls) -> lists cs h ls F ->
  holds q rc G F ls u (Mem (<[q := Queue rc h t n]> G) cs u).
Proof. intros -> -> -> H. by exists cs. Qed.

Lemma count_succ n k : k = n + 1 -> u32 (u32 n + 1) = u32 k.
Proof. intros ->. apply u32_succ. Qed.
Lemma count_pred n k : k = n - 1 -> u32 (u32 n - 1) = u32 k.
Proof. intros ->. apply u32_pred. Qed.

Ltac held :=
  apply holds_intro;
  [ try by rewrite ?first_app, ?first_cons, ?first_nil
  | try by rewrite ?final_cons_snoc, ?final_snoc, ?final_app_cons, ?final_cons_cons
  | first [apply count_succ | apply count_pred];
    repeat rewrite ?zlen_app, ?zlen_cons, ?zlen_nil; lia
  | ].

Lemma push_tail_spec ls d u m :
  holds q rc G F ls u m ->
  wp (queue_push_tail (Some q) d)
    (fun b m' => b = true /\ exists n, holds q rc G F (ls ++ [(n, d)]) u m') m.
Proof.
  intros (cs & -> & HL). cbn [queue_push_tail]. wp_step. apply wp_entry_new.
  intros n Hn. destruct (nil_or_snoc ls) as [->|(xs & [t d0] & ->)].
  - q_steps. split; [done|]. exists n. held. apply (lists_cons _ _ _ _ n d HL Hn).
  - pose proof (lists_lookup _ _ _ _ _ _ _ HL) as Ht. cbn in Ht.
    assert (t <> n) as Htn by congruence.
    q_steps. split; [done|]. exists n. rewrite <- app_assoc. cbn [app]. held.
    rewrite <- (first_app xs t d0 []). by apply (lists_insert_after _ _ _ _ _ []).
Qed.

Lemma push_head_spec ls d u m :
  holds q rc G F ls u m ->
  wp (queue_push_head (Some q) d)
    (fun b m' => b = true /\ exists n, holds q rc G F ((n, d) :: ls) u m') m.
Proof.
  intros (cs & -> & HL). cbn [queue_push_head]. wp_step. apply wp_entry_new.
  intros n Hn. q_steps. rewrite insert_insert_eq.
  destruct (nil_or_snoc ls) as [->|(xs & [t d0] & ->)];
    q_steps; (split; [done|]); exists n; rewrite ?first_app; held;
    rewrite <- ?(first_app xs t d0 []); by apply lists_cons.
Qed.

Lemma pop_head_spec ls u m :
  holds q rc G F ls u m ->
  wp (queue_pop_head (Some q))
    (fun d m' => d = hd 0 ls.*2 /\ holds q rc G F (tl ls) u m') m.
Proof.
  intros (cs & -> & HL). cbn [queue_pop_head].
  destruct ls as [|[l d] ls]; q_steps; [split; [done|]; by exists cs|].
  pose proof (lists_lookup _ _ [] _ _ _ _ HL) as Hl.
  destruct ls as [|[k d'] ls]; cbn in Hl; q_steps; (split; [done|]); cbn [tl]; held;
    apply (lists_tail _ _ _ _ _ _ HL).
Qed.

Lemma peek_head_spec ls u m :
  holds q rc G F ls u m ->
  wp (queue_peek_head (Some q)) (fun d m' => d = hd 0 ls.*2 /\ m' = m) m.
Proof.
  intros (cs & -> & HL). cbn [queue_peek_head].
  destruct ls as [|[l d] ls]; q_steps; [done|].
  pose proof (lists_lookup _ _ [] _ _ _ _ HL) as Hl. by q_steps.
Qed.

Lemma peek_tail_spec ls u m :
  holds q rc G F ls u m ->
  wp (queue_peek_tail (Some q)) (fun d m' => d = List.last ls.*2 0 /\ m' = m) m.
Proof.
  intros (cs & -> & HL). cbn [queue_peek_tail].
  destruct (nil_or_snoc ls) as [->|(xs & [t d] & ->)]; q_steps; [done|].
  pose proof (lists_lookup _ _ _ _ _ _ _ HL) as Ht. q_steps.
  rewrite fmap_app. change ([(t, d)].*2) with [d]. by rewrite List.last_last.
Qed.

(** The search loop finds the first match and its predecessor. *)
Lemma find_entry_spec n f xs ys u m :
  holds q rc G F (xs ++ ys) u m -> (length ys < n)%nat ->
  find_entry n f (final xs) (first ys) m
    = Some (match split_find (f ∘ snd) ys with
            | Some (a, (l, _), _) => Some (final (xs ++ a), l)
            | None => None
            end, m).
Proof.
  intros (cs & -> & HL). revert xs n HL.
  induction ys as [|[l d] ys IH]; intros xs n HL Hn; (destruct n as [|n]; [cbn in Hn; lia|]).
  { done. }
  pose proof (lists_lookup _ _ _ _ _ _ _ HL) as Hl.
  cbn [find_entry first hd_error fmap option_fmap option_map fst].
  unfold get_e at 1, get_some. cbv [mbind M_bind]. cbn [cells]. rewrite Hl.
  cbn [data next split_find]. change ((f ∘ snd) (l, d)) with (f d).
  destruct (f d).
  { by rewrite app_nil_r. }
  rewrite (app_assoc xs [(l, d)] ys : xs ++ (l, d) :: ys = _) in HL |- *.
  rewrite <- (final_snoc xs l d), (IH (xs ++ [(l, d)]) n) by (cbn in Hn; first [done | lia]).
  destruct (split_find (f ∘ snd) ys) as [[[a [k e]] b]|]; [|done].
  by rewrite <- app_assoc.
Qed.

Lemma split_find_app {A} (f : A -> bool) xs a x b :
  split_find f xs = Some (a, x, b) -> xs = a ++ x :: b /\ f x = true.
Proof.
  revert a. induction xs as [|y xs IH]; intros a H; cbn in H; [done|].
  destruct (f y) eqn:Hy; [by simplify_eq|].
  destruct (split_find f xs) as [[[a' x'] b']|]; [|done]. simplify_eq.
  destruct (IH a' eq_refl) as [-> Hx]. done.
Qed.

Lemma split_find_fmap {A B} (g : A -> B) (f : B -> bool) xs :
  split_find f (g <$> xs) =
    match split_find (f ∘ g) xs with
    | Some (a, x, b) => Some (g <$> a, g x, g <$> b)
    | None => None
    end.
Proof.
  induction xs as [|x xs IH]; cbn; [done|]. change ((f ∘ g) x) with (f (g x)).
  destruct (f (g x)); [done|]. change (list_fmap A B g xs) with (g <$> xs). rewrite IH.
  by destruct (split_find (f ∘ g) xs) as [[[? ?] ?]|].
Qed.

(** Running the search from the head of the queue, with the fuel of the code. *)
Lemma wp_find f ls u m Q :
  holds q rc G F ls u m ->
  Q (match split_find (f ∘ snd) ls with
     | Some (a, (l, _), _) => Some (final a, l)
     | None => None
     end) m ->
  wp (find_entry (S (size (cells m))) f None (first ls)) Q m.
Proof.
  intros Hm HQ. eexists _, _. split; [|exact HQ]. apply (find_entry_spec _ f [] ls u).
  - done.
  - destruct Hm as (cs & -> & HL). apply lists_size in HL. cbn. lia.
Qed.

Lemma unlink_spec xs l d ys u m :
  holds q rc G F (xs ++ (l, d) :: ys) u m ->
  wp (unlink q (final xs) l) (fun r m' => r = d /\ holds q rc G F (xs ++ ys) u m') m.
Proof.
  intros (cs & -> & HL). pose proof (lists_lookup _ _ _ _ _ _ _ HL) as Hl.
  unfold unlink. destruct (nil_or_snoc xs) as [->|(as_ & [t d0] & ->)].
  - cbn [app] in *. q_steps.
    destruct ys as [|[k e] ys]; cbn [first hd_error fmap option_fmap option_map fst] in *;
      q_steps; (split; [done|]); held; apply (lists_tail _ _ _ _ _ _ HL).
  - rewrite <- !app_assoc in *. cbn [app] in *.
    pose proof (lists_lookup _ _ _ _ _ _ _ HL) as Ht. cbn in Ht.
    assert (t <> l) as Htl by (intros ->; destruct HL as [_ Hnd _ _]; nodes; set_solver).
    q_steps.
    destruct ys as [|[k e] ys]; cbn [first hd_error fmap option_fmap option_map fst] in *;
      q_steps; (split; [done|]); rewrite ?app_nil_r; held;
      erewrite <- first_app;
      apply (lists_remove_after _ _ _ _ _ _ _ _ _ HL).
Qed.

(** ** The operations against the abstract queue *)

(** The state an operation leaves is that of the abstract operation. *)
Definition post (o : op U) (xs : list Z) (u : U) (r : res) (m : mem U) : Prop :=
  exists ls' u', holds q rc G F ls' u' m /\ spec o xs u = (r, ls'.*2, u').

Lemma push_after_spec e d ls u m :
  holds q rc G F ls u m ->
  wp (queue_push_after (Some q) e d) (fun b => post (Push_after e d) ls.*2 u (RBool b)) m.
Proof.
  intros (cs & -> & HL). cbn [queue_push_after]. q_steps.
  eapply wp_find; [by exists cs|].
  unfold post. cbn [spec]. rewrite split_find_fmap.
  destruct (split_find (Z.eqb e ∘ snd) ls) as [[[a [l e0]] b]|] eqn:Hs; q_steps.
  2:{ exists ls, u. split; [by exists cs | done]. }
  apply split_find_app in Hs as [-> _].
  apply wp_entry_new. intros n Hn.
  pose proof (lists_lookup _ _ _ _ _ _ _ HL) as Hl.
  assert (l <> n) as Hln by congruence. q_steps. rewrite insert_insert_eq.
  assert (lists (<[l:=Entry e0 (Some n)]> (<[n:=Entry d (first b)]> cs))
    (Some (first_of a l)) (a ++ (l, e0) :: (n, d) :: b) F) as HL'.
  { erewrite <- first_app. by apply lists_insert_after. }
  destruct b as [|[k e1] b]; cbn [first hd_error fmap option_fmap option_map fst] in *;
    q_steps; [exists (a ++ [(l, e0); (n, d)]), u | exists (a ++ (l, e0) :: (n, d) :: (k, e1) :: b), u];
    (split; [held; exact HL' | by rewrite !fmap_app]).
Qed.

Lemma find_spec f d ls u m :
  holds q rc G F ls u m ->
  wp (queue_find (Some q) f d) (fun x => post (Find f d) ls.*2 u (RData x)) m.
Proof.
  intros (cs & -> & HL). cbn [queue_find]. q_steps.
  eapply wp_find; [by exists cs|]. unfold post. cbn [spec]. rewrite split_find_fmap.
  match goal with |- context [split_find ?h ls] => destruct (split_find h ls) as [[[a [l e0]] b]|] eqn:Hs end;
    q_steps.
  2:{ exists ls, u. split; [by exists cs | done]. }
  apply split_find_app in Hs as [-> _].
  pose proof (lists_lookup _ _ _ _ _ _ _ HL) as Hl. q_steps.
  exists (a ++ (l, e0) :: b), u.
  rewrite <- (first_app a l e0 b). split; [by exists cs | done].
Qed.

Lemma remove_if_spec f ls u m :
  holds q rc G F ls u m ->
  wp (queue_remove_if (Some q) (Some f)) (fun x => post (Remove_if f) ls.*2 u (RData x)) m.
Proof.
  intros (cs & -> & HL). cbn [queue_remove_if]. q_steps.
  eapply wp_find; [by exists cs|]. unfold post. cbn [spec]. rewrite split_find_fmap.
  destruct (split_find (f ∘ snd) ls) as [[[a [l e0]] b]|] eqn:Hs; q_steps.
  2:{ exists ls, u. split; [by exists cs | done]. }
  apply split_find_app in Hs as [-> _].
  eapply wp_mono, unlink_spec; [|by exists cs]. intros r m' [-> Hm'].
  exists (a ++ b), u. split; [done|]. by rewrite fmap_app.
Qed.

Lemma remove_spec d ls u m :
  holds q rc G F ls u m ->
  wp (queue_remove (Some q) d) (fun b => post (Remove d) ls.*2 u (RBool b)) m.
Proof.
  intros (cs & -> & HL). cbn [queue_remove]. q_steps.
  eapply wp_find; [by exists cs|]. unfold post. cbn [spec]. rewrite split_find_fmap.
  destruct (split_find (Z.eqb d ∘ snd) ls) as [[[a [l e0]] b]|] eqn:Hs; q_steps.
  2:{ exists ls, u. split; [by exists cs | done]. }
  apply split_find_app in Hs as [-> _].
  eapply wp_mono, unlink_spec; [|by exists cs]. intros r m' [-> Hm']. q_steps.
  exists (a ++ b), u. split; [done|]. by rewrite fmap_app.
Qed.

Lemma call_destroy_spec g d (m : mem U) Q :
  Q tt (Mem (queues m) (cells m) (destroyed g [d] (user m))) ->
  wp (call_destroy (callback <$> g) d) Q m.
Proof.
  destruct m as [qs cs v]. destruct g as [g|]; intros H; [by apply wp_modify | by apply wp_ret].
Qed.

Lemma destroyed_cons g d xs u : destroyed g (d :: xs) u = destroyed g xs (destroyed g [d] u).
Proof. by destruct g. Qed.

Lemma free_all_spec n g ls u G' cs k :
  lists cs (first ls) ls F -> (length ls < n)%nat ->
  wp (free_all n (callback <$> g) (first ls) (u32 k))
    (fun c m' => c = u32 (k + zlen ls) /\
      exists cs', m' = Mem G' cs' (destroyed g ls.*2 u) /\ lists cs' None [] F)
    (Mem G' cs u).
Proof.
  revert n u cs k. induction ls as [|[l d] ls IH]; intros n u cs k HL Hn;
    (destruct n as [|n]; [cbn in Hn; lia|]).
  { cbn. apply wp_ret. split; [by rewrite Z.add_0_r|]. exists cs. by destruct g. }
  pose proof (lists_lookup _ _ [] _ _ _ _ HL) as Hl. cbn [free_all]. q_steps.
  apply call_destroy_spec. cbn [queues cells user]. q_steps. rewrite u32_succ.
  eapply wp_mono, IH; [|by eapply lists_tail|cbn in Hn; lia].
  intros c m' (-> & cs' & -> & HL'). split; [f_equal; rewrite zlen_cons; lia|].
  exists cs'. split; [|done]. by rewrite fmap_cons, (destroyed_cons g _ ls.*2).
Qed.

(** What the first match says of the filters. *)
Lemma split_find_none {A} (f : A -> bool) xs :
  split_find f xs = None ->
  List.filter f xs = [] /\ List.filter (fun x => negb (f x)) xs = xs.
Proof.
  induction xs as [|x xs IH]; cbn; [done|]. destruct (f x); [done|].
  destruct (split_find f xs) as [[[? ?] ?]|]; [done|]. intros _. cbn.
  destruct (IH eq_refl) as [-> ->]. done.
Qed.

Lemma split_find_filter {A} (f : A -> bool) xs a x b :
  split_find f xs = Some (a, x, b) ->
  List.filter f xs = x :: List.filter f (a ++ b) /\
  List.filter (fun x => negb (f x)) xs = List.filter (fun x => negb (f x)) (a ++ b).
Proof.
  revert a. induction xs as [|y xs IH]; intros a H; cbn in H; [done|].
  destruct (f y) eqn:Hy.
  - simplify_eq. cbn. by rewrite Hy.
  - destruct (split_find f xs) as [[[a' x'] b']|]; [|done]. simplify_eq.
    cbn. rewrite Hy. cbn. destruct (IH a' eq_refl) as [-> ->]. done.
Qed.

Lemma remove_all_if_spec n f g l ls u m k :
  holds q rc G F ls u m -> (length (List.filter f ls.*2) < n)%nat ->
  wp (remove_all_if n q f (callback <$> g) (Some l) (u32 k))
    (fun c m' => exists ls', c = u32 (k + zlen (List.filter f ls.*2)) /\
      holds q rc G F ls' (destroyed g (List.filter f ls.*2) u) m' /\
      ls'.*2 = List.filter (fun x => negb (f x)) ls.*2) m.
Proof.
  revert ls u m k. induction n as [|n IH]; intros ls u m k Hm Hn; [lia|].
  cbn [remove_all_if]. destruct Hm as (cs & -> & HL). q_steps.
  eapply wp_mono, remove_if_spec; [|by exists cs].
  intros x m' (ls' & u' & (cs' & -> & HL') & Hs). cbn [spec] in Hs.
  destruct (split_find f ls.*2) as [[[a y] b]|] eqn:Hf;
    injection Hs as <- Hl <-; q_steps.
  - pose proof (split_find_app _ _ _ _ _ Hf) as [Hls _].
    assert (zlen ls = 1 + zlen ls') as Hlen.
    { unfold zlen. rewrite <- (length_fmap snd ls), <- (length_fmap snd ls'), Hls, <- Hl.
      rewrite !length_app. cbn [length]. lia. }
    destruct (Z.eqb_spec (u32 (zlen ls)) (u32 (zlen ls'))) as [He|_].
    { exfalso. rewrite Hlen in He. clear -He. words_lia. }
    q_steps. apply call_destroy_spec. cbn [queues cells user]. q_steps. rewrite u32_succ.
    apply split_find_filter in Hf as [Hf1 Hf2]. rewrite Hf1, Hf2, Hl in *.
    eapply wp_mono, (IH ls' _ _ (k + 1)); [|by exists cs'|cbn in Hn; lia].
    intros c m' (ls'' & -> & Hm'' & Hls''). exists ls''. split_and!.
    + f_equal. rewrite zlen_cons. lia.
    + by rewrite destroyed_cons.
    + done.
  - apply split_find_none in Hf as [-> ->].
    assert (zlen ls = zlen ls') as ->.
    { unfold zlen. by rewrite <- (length_fmap snd ls), Hl, length_fmap. }
    rewrite Z.eqb_refl. q_steps. exists ls'. split_and!.
    + by rewrite Z.add_0_r.
    + exists cs'. split; [|done]. by destruct g.
    + done.
Qed.

Lemma remove_all_spec n f g ls u m :
  holds q rc G F ls u m -> (length ls < n)%nat ->
  wp (queue_remove_all n (Some q) f (callback <$> g))
    (fun c => post (Remove_all f g) ls.*2 u (RCount c)) m.
Proof.
  intros Hm Hn. cbn [queue_remove_all]. destruct f as [f|].
  - destruct ls as [|[l d] ls].
    { destruct Hm as (cs & -> & HL). q_steps. destruct n; [cbn in Hn; lia|]. cbn.
      apply wp_ret. exists [], u. split; [by exists cs | by destruct g]. }
    assert (length (List.filter f ((l, d) :: ls).*2) < n)%nat as Hn'.
    { pose proof (List.filter_length_le f ((l, d) :: ls).*2) as H.
      rewrite length_fmap in H. lia. }
    eapply wp_mono; [|].
    2:{ pose proof Hm as Hm'. destruct Hm as (cs & -> & HL). q_steps. change 0 with (u32 0).
        by apply remove_all_if_spec. }
    intros c m' (ls' & -> & Hm' & Hls'). eexists ls', _. split; [exact Hm'|].
    cbn [spec]. by rewrite Hls'.
  - destruct Hm as (cs & -> & HL). q_steps. change 0 with (u32 0).
    eapply wp_mono, free_all_spec; [|done|].
    2:{ apply lists_size in HL. cbn. lia. }
    intros c m' (-> & cs' & -> & HL'). exists [], (destroyed g ls.*2 u). split.
    + by exists cs'.
    + cbn. unfold zlen. by rewrite length_fmap.
Qed.

Lemma foreach_loop_spec n g xs ys u m :
  1 <= rc -> holds q (rc + 1) G F (xs ++ ys) u m -> (length ys < n)%nat ->
  wp (foreach_loop n q (callback g) (first ys))
    (fun _ m' => holds q (rc + 1) G F (xs ++ ys) (destroyed (Some g) ys.*2 u) m') m.
Proof.
  intros Hrc. revert xs u m n.
  induction ys as [|[l d] ys IH]; intros xs u m n Hm Hn; (destruct n as [|n]; [cbn in Hn; lia|]).
  { by apply wp_ret. }
  destruct Hm as (cs & -> & HL). pose proof (lists_lookup _ _ _ _ _ _ _ HL) as Hl.
  rewrite first_cons. cbn [foreach_loop]. q_steps.
  replace (1 <? rc + 1) with true by lia. cbn [andb]. q_steps.
  unfold callback at 1. q_steps. cbn [queues cells user].
  rewrite (app_assoc xs [(l, d)] ys : xs ++ (l, d) :: ys = _) in *.
  apply IH; [|cbn in Hn; lia]. exists cs.
  rewrite <- app_assoc in *. cbn [app] in *. by rewrite first_app in *.
Qed.

Lemma foreach_spec n g ls u m :
  1 <= rc -> holds q rc G F ls u m -> (length ls < n)%nat ->
  wp (queue_foreach n (Some q) (Some (callback g)))
    (fun _ => post (Foreach g) ls.*2 u RUnit) m.
Proof.
  intros Hrc (cs & -> & HL) Hn. cbn [queue_foreach]. q_steps.
  destruct ls as [|[l d] ls]; q_steps.
  { exists [], u. split; [by exists cs | done]. }
  unfold queue_ref. q_steps. rewrite <- (first_cons l d ls).
  eapply wp_mono; [|apply (foreach_loop_spec n g []); [done|by exists cs|done]].
  intros _ m' (cs' & -> & HL'). unfold queue_unref. q_steps.
  replace (rc + 1 - 1 =? 0) with false by lia. q_steps.
  eexists ((l, d) :: ls), _. split; [|done].
  rewrite Z.add_simpl_r. by exists cs'.
Qed.

Lemma exec_spec n o ls u m :
  1 <= rc -> holds q rc G F ls u m -> (length ls < n)%nat ->
  wp (exec n q o) (fun r => post o ls.*2 u r) m.
Proof.
  intros Hrc Hm Hn. destruct o as [d|d|e d| | | |g|f d|d|f|f g| |]; cbn [exec]; wp_step.
  - eapply wp_mono, push_tail_spec, Hm. intros b m' (-> & k & Hm').
    eexists _, u. split; [exact Hm'|]. by rewrite fmap_app.
  - eapply wp_mono, push_head_spec, Hm. intros b m' (-> & k & Hm').
    eexists _, u. by split; [exact Hm'|].
  - by eapply push_after_spec.
  - eapply wp_mono, pop_head_spec, Hm. intros d m' [-> Hm'].
    eexists _, u. split; [exact Hm'|]. by destruct ls.
  - eapply wp_mono, peek_head_spec, Hm. intros d m' [-> ->]. by exists ls, u.
  - eapply wp_mono, peek_tail_spec, Hm. intros d m' [-> ->]. by exists ls, u.
  - by apply foreach_spec.
  - by eapply find_spec.
  - by eapply remove_spec.
  - by eapply remove_if_spec.
  - by apply remove_all_spec.
  - destruct Hm as (cs & -> & HL). cbn [queue_length]. q_steps. exists ls, u.
    split; [by exists cs|]. cbn. unfold zlen. by rewrite length_fmap.
  - destruct Hm as (cs & -> & HL). cbn [queue_isempty]. q_steps. exists ls, u.
    split; [by exists cs|]. cbn. unfold zlen. by rewrite length_fmap.
Qed.

Lemma spec_length (o : op U) xs u r xs' u' :
  spec o xs u = (r, xs', u') -> (length xs' <= S (length xs))%nat.
Proof.
  destruct o as [d|d|e d| | | |g|f d|d|f|[f|] g| |]; cbn; intros H;
    repeat match type of H with
    | context [split_find ?f xs] =>
      destruct (split_find f xs) as [[[a x] b]|] eqn:Hs;
        [apply split_find_app in Hs as [-> _]|]
    end;
    simplify_eq; rewrite ?length_app; cbn; rewrite ?length_app; cbn; try lia.
  - destruct xs; cbn; lia.
  - etrans; [apply List.filter_length_le | lia].
Qed.
End specs.

(** A sequence of operations. *)
Lemma exec_run_spec {U} (q : loc) rc (G : gmap loc queue) (F : heap)
    (os : list (op U)) xs u m n rs xs' u' :
  1 <= rc -> contents q rc G F xs u m -> (length xs + length os < n)%nat ->
  spec_run os xs u = (rs, xs', u') ->
  exists m', exec_run n q os m = Some (rs, m') /\ contents q rc G F xs' u' m'.
Proof.
  intros Hrc. revert xs u m rs. induction os as [|o os IH]; intros xs u m rs Hm Hn Hs.
  { cbn in Hs. simplify_eq. by exists m. }
  destruct Hm as (ls & Hm & <-). cbn [spec_run] in Hs. cbn [length] in Hn.
  rewrite length_fmap in Hn.
  destruct (exec_spec q rc G F n o ls u m Hrc Hm) as (r & m1 & Hr & ls1 & u1 & Hm1 & Ho); [lia|].
  rewrite Ho in Hs. destruct (spec_run os ls1.*2 u1) as [[rs1 xs1] u2] eqn:Hs1. simplify_eq.
  apply spec_length in Ho. rewrite !length_fmap in Ho.
  destruct (IH ls1.*2 u1 m1 rs1) as (m2 & Hr2 & Hm2); [by exists ls1|rewrite length_fmap; lia|done|].
  exists m2. split; [|done]. cbn [exec_run]. cbv [mbind M_bind]. by rewrite Hr, Hr2.
Qed.

(** C3. The queue refines the list of its data: any sequence of operations on a queue that
    is referenced runs without undefined behaviour, ends, returns what the same operations
    return on the list, calls the callbacks on the same data in the same order, and
    leaves a queue that holds the final list; other queues and entries of the heap stay as
    they are, and no entry is leaked.  This holds for every length: the counter is the
    length modulo 2^32. *)
Theorem queue_refines_list {U} (q : loc) rc (G : gmap loc queue) (F : heap)
    (os : list (op U)) xs u m n rs xs' u' :
  1 <= rc -> contents q rc G F xs u m -> (length xs + length os < n)%nat ->
  spec_run os xs u = (rs, xs', u') ->
  exists m', exec_run n q os m = Some (rs, m') /\ contents q rc G F xs' u' m'.
Proof. apply exec_run_spec. Qed.

(** A queue that holds 7 and 8. *)
Definition demo : mem (list Z) :=
  Mem {[1%positive := Queue 1 (Some 2%positive) (Some 4%positive) 2]}
    {[2%positive := Entry 7 (Some 4%positive); 4%positive := Entry 8 None]} [].

Lemma demo_contents : contents 1 1 ∅ ∅ [7; 8] [] demo.
Proof.
  exists [(2%positive, 7); (4%positive, 8)]. split; [|reflexivity].
  eexists. split; [reflexivity|]. constructor.
  - split; [reflexivity|]. exists (Some 4%positive). split; [reflexivity|].
    split; [reflexivity|]. exists None. split; reflexivity.
  - by apply (bool_decide_unpack _).
  - intros l Hl. cbn in Hl. rewrite !lookup_insert_ne by set_solver.
    rewrite lookup_singleton_ne by set_solver. reflexivity.
  - reflexivity.
Qed.

Lemma queue_refines_list_witness :
  let os := [Push_tail 9; Find (Some (fun a b => b <? a)) 7; Remove_if (Z.eqb 8);
             Remove_all (Some Z.odd) (Some (fun d u => d :: u)); Isempty] in
  exists m', exec_run 20 1 os demo
    = Some ([RBool true; RData 8; RData 8; RCount 2; RBool true], m') /\
    contents 1 1 ∅ ∅ [] [9; 7] m'.
Proof.
  intros os. apply (queue_refines_list 1 1 ∅ ∅ os [7; 8] []).
  - lia.
  - apply demo_contents.
  - cbn. lia.
  - reflexivity.
Defined.
