(* ===== verification/QueueLife.v ===== *)
(** The life of a queue (creation and destruction) and the iteration of
    src/shared/queue.c with callbacks that change the queue they are called from. *)
From Stdlib Require Import ZArith Lia.
From S2P Require Import Prelude StateM Queue QueueHeap QueueSpec.
From stdpp Require Import base numbers list option gmap fin_maps.

Local Open Scope Z_scope.

Lemma lists_nil cs F : lists cs None [] F -> cs = F.
Proof. intros [_ _ Hf _]. apply map_eq. intros l. apply Hf. set_solver. Qed.

Section life.
Context {U : Type}.
Implicit Types (u : U) (m : mem U).

Lemma queue_new_spec m :
  wp queue_new (fun q m' => exists q', q = Some q' /\ queues m !! q' = None /\
    contents q' 1 (queues m) (cells m) [] (user m) m') m.
Proof.
  destruct m as [qs cs u]. unfold queue_new. q_step. q_step. cbn [queues].
  set (q := fresh (dom qs)). q_step. unfold put_q. q_step. cbn [queues cells user].
  unfold queue_ref. q_steps. exists q. split_and!.
  - done.
  - apply not_elem_of_dom, is_fresh.
  - exists []. split; [|done]. exists cs. split; [done|]. by constructor; [..|apply NoDup_nil_2|done|set_solver].
Qed.

Lemma wp_free_q q r G cs u Q :
  Q tt (Mem (delete q G) cs u) -> wp (free_q q) Q (Mem (<[q := r]> G) cs u).
Proof.
  intros H. unfold free_q. q_step. apply wp_get_q, wp_modify. cbn.
  by rewrite delete_insert_eq.
Qed.

Lemma queue_unref_last q h t n G cs u Q :
  Q tt (Mem (delete q G) cs u) ->
  wp (queue_unref q) Q (Mem (<[q := Queue 1 h t n]> G) cs u).
Proof.
  intros H. unfold queue_unref. q_steps. change (1 - 1 =? 0) with true. q_steps.
  by apply wp_free_q.
Qed.

Lemma queue_unref_more q rc h t n G cs u Q :
  1 < rc -> Q tt (Mem (<[q := Queue (rc - 1) h t n]> G) cs u) ->
  wp (queue_unref q) Q (Mem (<[q := Queue rc h t n]> G) cs u).
Proof.
  intros Hrc H. unfold queue_unref. q_steps.
  replace (rc - 1 =? 0) with false by lia. by q_steps.
Qed.

(** Destroying a queue that is referenced once, or from inside an iteration. *)
Lemma queue_destroy_spec q rc G F ls u m g Q :
  holds q rc G F ls u m ->
  (rc = 1 -> Q tt (Mem (delete q G) F (destroyed g ls.*2 u))) ->
  (1 < rc ->
   Q tt (Mem (<[q := Queue (rc - 1) None None 0]> G) F (destroyed g ls.*2 u))) ->
  1 <= rc ->
  wp (queue_destroy (Some q) (callback <$> g)) Q m.
Proof.
  intros (cs & -> & HL) H1 Hm Hrc. unfold queue_destroy. q_step.
  cbn [queue_remove_all]. q_steps. change 0 with (u32 0).
  eapply wp_mono, free_all_spec; [|exact HL|].
  2:{ apply lists_size in HL. cbn. lia. }
  intros c m' (-> & cs' & -> & ->%lists_nil).
  destruct (decide (rc = 1)) as [->|Hne].
  - apply queue_unref_last. by apply H1.
  - apply queue_unref_more; [lia|]. apply Hm. lia.
Qed.

(** A program that makes a queue, uses it, and destroys it. *)
Definition session (n : nat) (os : list (op U)) (g : option (Z -> U -> U))
    : M (mem U) (list res) :=
  q ← queue_new;
  match q with
  | Some q' =>
    rs ← exec_run n q' os;
    queue_destroy q (callback <$> g);;
    mret rs
  | None => undef
  end.
End life.

(** A queue that is made, used by any operations and destroyed gives the results of the
    same operations on a list that is empty at first, destroys what is left of that list
    in order, and leaves the heap exactly as it was: nothing is leaked and nothing is
    freed twice. *)
Theorem queue_session_balanced {U} (os : list (op U)) g (m : mem U) n rs xs u :
  (length os < n)%nat -> spec_run os [] (user m) = (rs, xs, u) ->
  session n os g m = Some (rs, Mem (queues m) (cells m) (destroyed g xs u)).
Proof.
  intros Hn Hs. destruct (queue_new_spec m) as (q & m0 & Hq & q' & -> & Hnone & Hm0).
  destruct (exec_run_spec q' 1 (queues m) (cells m) os [] (user m) m0 n rs xs u) as (m1 & Hr & ls & Hm1 & <-);
    [lia|done|done|done|].
  destruct (queue_destroy_spec q' 1 (queues m) (cells m) ls u m1 g
    (fun _ m' => m' = Mem (queues m) (cells m) (destroyed g ls.*2 u)) Hm1) as ([] & m2 & Hd & ->);
    [intros _; by rewrite delete_id|lia|lia|].
  unfold session. cbv [mbind M_bind]. rewrite Hq, Hr, Hd. done.
Qed.

Lemma queue_session_balanced_witness :
  let m := Mem {[3%positive := Queue 1 None None 0]} {[5%positive := Entry 4 None]} [] in
  let os := [Push_tail 7; Push_head 8; Push_after 8 9; Push_tail 10; Remove 9;
             Push_after 11 12; Foreach (fun d u => u ++ [d]); Length; Pop_head] in
  let destroy := Some (fun d u => u ++ [100 + d]) in
  session 10 os destroy m
    = Some ([RBool true; RBool true; RBool true; RBool true; RBool true; RBool false; RUnit;
             RCount 3; RData 8], Mem (queues m) (cells m) [8; 7; 10; 107; 110]).
Proof.
  apply (queue_session_balanced
    [Push_tail 7; Push_head 8; Push_after 8 9; Push_tail 10; Remove 9;
     Push_after 11 12; Foreach (fun d u => u ++ [d]); Length; Pop_head]
    (Some (fun d u => u ++ [100 + d])) _ 10 _ [7; 10] [8; 7; 10]); [cbn; lia | reflexivity].
Defined.

(** ** Callbacks that change the queue they are called from *)

Section reentry.
Context {U : Type}.
Variables (g : Z -> U -> U) (q : loc) (G : gmap loc queue) (F : heap).
Implicit Types (u : U) (m : mem U).

(** A callback that notes the element and destroys the queue at some elements. *)
Definition destroying (stop : Z -> bool) (d : Z) : M (mem U) unit :=
  callback g d;;
  if stop d then queue_destroy (Some q) None else mret tt.

(** A callback that notes the element and removes it from the queue at some elements. *)
Definition removing (f : Z -> bool) (d : Z) : M (mem U) unit :=
  callback g d;;
  if f d then _ ← queue_remove (Some q) d; mret tt else mret tt.

(** The elements up to the first one with [stop]. *)
Definition visited (stop : Z -> bool) (xs : list Z) : list Z :=
  match split_find stop xs with Some (a, x, _) => a ++ [x] | None => xs end.

Lemma visited_cons stop x xs :
  visited stop (x :: xs) = if stop x then [x] else x :: visited stop xs.
Proof.
  unfold visited. cbn. destruct (stop x); [done|].
  by destruct (split_find stop xs) as [[[? ?] ?]|].
Qed.

Lemma foreach_destroying_loop n stop xs ys u m :
  holds q 2 G F (xs ++ ys) u m -> (length ys < n)%nat ->
  wp (foreach_loop n q (destroying stop) (first ys))
    (fun _ m' => exists cs r, m' = Mem (<[q := r]> G) cs (destroyed (Some g) (visited stop ys.*2) u) /\
       if existsb stop ys.*2 then r = Queue 1 None None 0 /\ cs = F
       else holds q 2 G F (xs ++ ys) (user m') m') m.
Proof.
  revert xs u m n.
  induction ys as [|[l d] ys IH]; intros xs u m n Hm Hn; (destruct n as [|n]; [cbn in Hn; lia|]).
  { destruct Hm as (cs & -> & HL). apply wp_ret. eexists cs, _. split; [done|]. by exists cs. }
  destruct Hm as (cs & -> & HL). pose proof (lists_lookup _ _ _ _ _ _ _ HL) as Hl.
  rewrite first_cons. cbn [foreach_loop]. q_steps. cbn [andb].
  change (1 <? 2) with true. cbn iota. q_steps.
  unfold destroying at 1. q_step. apply wp_callback.
  rewrite fmap_cons, visited_cons. cbn [snd existsb].
  rewrite <- (first_app xs l d ys). destruct (stop d) eqn:Hd; cbn [orb].
  - change (queue_destroy (Some q) None)
      with (queue_destroy (Some q) (@callback U <$> None)).
    eapply queue_destroy_spec; [by exists cs|lia| |lia]. intros _. change (2 - 1) with 1.
    destruct n as [|n]; [cbn in Hn; lia|]. cbn [foreach_loop].
    destruct (first ys); q_steps; cbn [andb]; q_steps; eexists F, _; split; done.
  - q_steps. rewrite (app_assoc xs [(l, d)] ys : xs ++ (l, d) :: ys = _) in *.
    apply (IH (xs ++ [(l, d)])); [|cbn in Hn; lia]. exists cs.
    rewrite <- app_assoc in *. cbn [app] in *. by rewrite first_app in *.
Qed.
End reentry.

(** Iterating over a queue is safe when the callback destroys the queue it is called
    from: the elements up to and including that one are visited, none after it, and both
    the queue and its entries are gone afterwards, neither leaked nor freed twice. *)
Theorem queue_foreach_destroy {U} (g : Z -> U -> U) q G F stop xs u m n :
  contents q 1 G F xs u m -> (length xs < n)%nat -> existsb stop xs = true ->
  queue_foreach n (Some q) (Some (destroying g q stop)) m
    = Some (tt, Mem (delete q G) F (destroyed (Some g) (visited stop xs) u)).
Proof.
  intros (ls & (cs & -> & HL) & <-) Hn Hstop. rewrite length_fmap in Hn.
  assert (wp (queue_foreach n (Some q) (Some (destroying g q stop)))
    (fun _ m' => m' = Mem (delete q G) F (destroyed (Some g) (visited stop ls.*2) u))
    (Mem (<[q := Queue 1 (first ls) (final ls) (u32 (zlen ls))]> G) cs u)) as Hwp.
  { cbn [queue_foreach]. q_steps. destruct ls as [|[l d] ls]; [done|]. q_steps.
    unfold queue_ref. q_steps. rewrite <- (first_cons l d ls).
    eapply wp_mono; [|apply (foreach_destroying_loop g q G F n stop []); [by exists cs|done]].
    intros _ m' (cs' & r & -> & H). cbn [app] in H. rewrite Hstop in H.
    destruct H as [-> ->]. by apply queue_unref_last. }
  by destruct Hwp as ([] & m' & -> & ->).
Qed.

Lemma queue_foreach_destroy_witness :
  queue_foreach 5 (Some 1%positive)
    (Some (destroying (fun d u => d :: u) 1%positive (Z.eqb 7))) demo
    = Some (tt, Mem (delete 1%positive ∅) ∅ [7]).
Proof.
  apply (queue_foreach_destroy (fun d u => d :: u) 1 ∅ ∅ (Z.eqb 7) [7; 8] [] _ 5);
    [apply demo_contents | cbn; lia | reflexivity].
Defined.

Section removal.
Context {U : Type}.
Variables (g : Z -> U -> U) (q : loc) (rc : Z) (G : gmap loc queue) (F : heap).
Implicit Types (u : U) (m : mem U).

Lemma split_find_here d xs (l : loc) ys :
  d ∉ xs.*2 -> split_find (Z.eqb d ∘ snd) (xs ++ (l, d) :: ys) = Some (xs, (l, d), ys).
Proof.
  induction xs as [|[k e] xs IH]; intros Hd; cbn; [by rewrite Z.eqb_refl|].
  cbn in Hd. apply not_elem_of_cons in Hd as [Hne Hd].
  rewrite (proj2 (Z.eqb_neq d e)) by done. by rewrite IH.
Qed.

(** Removing a datum unlinks the first entry that holds it and moves no other. *)
Lemma remove_node_spec xs l d ys u m :
  holds q rc G F (xs ++ (l, d) :: ys) u m -> d ∉ xs.*2 ->
  wp (queue_remove (Some q) d) (fun b m' => b = true /\ holds q rc G F (xs ++ ys) u m') m.
Proof.
  intros (cs & -> & HL) Hd. cbn [queue_remove]. q_step. apply wp_get_q. cbn [Queue.head].
  q_step. unfold loop_fuel. q_step. q_step.
  eapply wp_find; [by exists cs|]. rewrite split_find_here by done. q_step.
  eapply wp_mono, unlink_spec; [|by exists cs]. intros r m' [-> Hm']. by q_step.
Qed.

End removal.

Lemma foreach_removing_loop {U} (g : Z -> U -> U) q rc G F n f xs ys u m :
  1 < rc -> NoDup (xs ++ ys).*2 -> holds q rc G F (xs ++ ys) u m -> (length ys < n)%nat ->
  wp (foreach_loop n q (removing g q f) (first ys))
    (fun _ m' => exists zs, holds q rc G F (xs ++ zs) (destroyed (Some g) ys.*2 u) m' /\
       zs.*2 = List.filter (fun x => negb (f x)) ys.*2) m.
Proof.
  intros Hrc. revert xs u m n.
  induction ys as [|[l d] ys IH]; intros xs u m n Hnd Hm Hn;
    (destruct n as [|n]; [cbn in Hn; lia|]).
  { apply wp_ret. by exists []. }
  destruct Hm as (cs & -> & HL). pose proof (lists_lookup _ _ _ _ _ _ _ HL) as Hl.
  rewrite first_cons. cbn [foreach_loop]. q_steps.
  replace (1 <? rc) with true by lia. cbn [andb]. q_steps.
  unfold removing at 1. q_step. apply wp_callback.
  rewrite fmap_cons, (destroyed_cons (Some g) _ ys.*2). cbn [snd List.filter].
  rewrite <- (first_app xs l d ys). destruct (f d) eqn:Hd; cbn [negb].
  - q_step. eapply wp_mono, remove_node_spec; [|by exists cs|].
    + intros b m' [-> Hm']. q_step. apply IH; [|done|cbn in Hn; lia].
      rewrite fmap_app in Hnd |- *. apply NoDup_app in Hnd as (? & H & [_ ?]%NoDup_cons). apply NoDup_app. set_solver.
    + rewrite fmap_app in Hnd. cbn in Hnd. apply NoDup_app in Hnd as (_ & H & _). set_solver.
  - q_step. rewrite (app_assoc xs [(l, d)] ys : xs ++ (l, d) :: ys = _) in *.
    eapply wp_mono, (IH (xs ++ [(l, d)])); [|done|by exists cs|cbn in Hn; lia].
    intros _ m' (zs & Hm' & Hzs). exists ((l, d) :: zs).
    rewrite <- app_assoc in Hm'. split; [exact Hm'|]. cbn. by rewrite Hzs.
Qed.

(** Iterating over a queue of distinct data is safe when the callback removes the
    element it is called with: every element is visited once, in order, and exactly the
    elements the callback chose are gone. *)
Theorem queue_foreach_remove {U} (g : Z -> U -> U) q rc G F f xs u m n :
  1 <= rc -> NoDup xs -> contents q rc G F xs u m -> (length xs < n)%nat ->
  exists m', queue_foreach n (Some q) (Some (removing g q f)) m = Some (tt, m') /\
    contents q rc G F (List.filter (fun x => negb (f x)) xs) (destroyed (Some g) xs u) m'.
Proof.
  intros Hrc Hnd (ls & (cs & -> & HL) & <-) Hn. rewrite length_fmap in Hn.
  assert (wp (queue_foreach n (Some q) (Some (removing g q f)))
    (fun _ => contents q rc G F (List.filter (fun x => negb (f x)) ls.*2)
                (destroyed (Some g) ls.*2 u))
    (Mem (<[q := Queue rc (first ls) (final ls) (u32 (zlen ls))]> G) cs u)) as Hwp.
  { cbn [queue_foreach]. q_steps. destruct ls as [|[l d] ls].
    { apply wp_ret. exists []. split; [by exists cs|done]. }
    q_steps. unfold queue_ref. q_steps. rewrite <- (first_cons l d ls).
    eapply wp_mono; [|apply (foreach_removing_loop g q (rc + 1) G F n f []);
      [lia|done|by exists cs|done]].
    intros _ m' (zs & (cs' & -> & HL') & Hzs). apply queue_unref_more; [lia|].
    rewrite Z.add_simpl_r. exists zs. split; [by exists cs'|done]. }
  by destruct Hwp as ([] & m' & ? & ?); exists m'.
Qed.

Lemma queue_foreach_remove_witness :
  exists m', queue_foreach 5 (Some 1%positive)
    (Some (removing (fun d u => d :: u) 1%positive Z.even)) demo = Some (tt, m') /\
    contents 1 1 ∅ ∅ [7] [8; 7] m'.
Proof.
  apply (queue_foreach_remove (fun d u => d :: u) 1 1 ∅ ∅ Z.even [7; 8] []);
    [lia | by apply (bool_decide_unpack _) | apply demo_contents | cbn; lia].
Defined.

(** A callback that removes the datum [y] when it is called with [x]. *)
Definition removing_other {U} (q : loc) (x y d : Z) : M (mem U) unit :=
  if d =? x then _ ← queue_remove (Some q) y; mret tt else mret tt.

Lemma foreach_loop_freed {U} n q rc G F l x k y ls (u : U) (m : mem U) :
  1 < rc -> x <> y -> holds q rc G F ((l, x) :: (k, y) :: ls) u m ->
  foreach_loop n q (removing_other q x y) (Some l) m = None.
Proof.
  intros Hrc Hxy (cs & -> & HL). destruct n as [|n]; [done|].
  pose proof (lists_lookup _ _ [] _ _ _ _ HL) as Hl.
  cbn [foreach_loop]. apply bind_none, wp_get_q. cbn [Queue.head Queue.ref_count].
  rewrite first_cons. replace (1 <? rc) with true by lia. cbn [andb].
  apply bind_none. eapply wp_get_e; [exact Hl|]. cbn [data next]. rewrite first_cons.
  apply bind_none. unfold removing_other at 1. rewrite Z.eqb_refl. apply wp_bind.
  eapply wp_mono, (remove_node_spec q rc G F [(l, x)] k y ls); [|by exists cs|set_solver].
  intros b m' [-> (cs' & -> & HL')]. apply wp_ret.
  destruct n as [|n]; [done|]. cbn [foreach_loop].
  apply bind_none, wp_get_q. cbn [Queue.head Queue.ref_count app]. rewrite first_cons.
  replace (1 <? rc) with true by lia. cbn [andb].
  cbv [mbind M_bind]. unfold get_e, get_some. cbn [cells].
  destruct HL as [_ Hnd _ Hd], HL' as [_ _ Hf _].
  rewrite Hf, Hd; [done|set_solver|]. nodes. set_solver.
Qed.

(** The iteration reads the next pointer before it calls the callback: a callback that
    removes the element after the one it is called with makes it read a freed entry. *)
Theorem queue_foreach_use_after_free {U} q rc G F x y xs (u : U) (m : mem U) n :
  1 <= rc -> x <> y -> contents q rc G F (x :: y :: xs) u m ->
  queue_foreach n (Some q) (Some (removing_other q x y)) m = None.
Proof.
  intros Hrc Hxy (ls & (cs & -> & HL) & Hls).
  destruct ls as [|[l d] [|[k e] ls]]; [done|done|].
  cbn in Hls. injection Hls as -> -> <-.
  cbn [queue_foreach]. apply bind_none, wp_get_q. cbn [Queue.head]. rewrite first_cons.
  apply bind_none. unfold queue_ref. q_steps.
  cbv [mbind M_bind]. erewrite (foreach_loop_freed n q (rc + 1) G F); [done|lia|done|].
  by exists cs.
Qed.

Lemma queue_foreach_use_after_free_witness :
  queue_foreach 5 (Some 1%positive) (Some (removing_other 1 7 8)) demo = None.
Proof.
  apply (queue_foreach_use_after_free 1 1 ∅ ∅ 7 8 [] []); [lia | lia | apply demo_contents].
Defined.
