(* ===== verification/GattDb.v ===== *)
(** The attribute database of src/shared/gatt-db.c: databases and services live in an
    explicit store and are referred to by address; an attribute is addressed by its
    service and its slot in the service's array.  The queues of the database are the lists
    they hold (the operations are those of QueueSpec.v).  Functions that the caller passes
    in are numbers, and calling one is an event.  malloc0 and realloc are arguments. *)
From Stdlib Require Import ZArith Lia.
From S2P Require Import Prelude Uuid StateM QueueSpec.
From stdpp Require Import base numbers list option gmap.
Import Uuid.

Local Open Scope Z_scope.

(** ** Data *)

Definition BT_ATT_PERM_READ : Z := 0x01.
Definition BT_ATT_OP_READ_REQ : Z := 0x0a.
Definition BT_ATT_ERROR_INVALID_OFFSET : Z := 0x07.
Definition BT_GATT_CHRC_PROP_EXT_PROP : Z := 0x80.
Definition ECANCELED : Z := 125.
Definition ETIMEDOUT : Z := 110.

Definition primary_service_uuid : bt_uuid := UUID16 0x2800.
Definition secondary_service_uuid : bt_uuid := UUID16 0x2801.
Definition characteristic_uuid : bt_uuid := UUID16 0x2803.
Definition included_service_uuid : bt_uuid := UUID16 0x2802.
Definition ext_desc_uuid : bt_uuid := UUID16 0x2900.

Abbreviation addr := positive.
(** A [struct gatt_db_attribute *]: the service and the slot of its array. *)
Abbreviation aptr := (addr * nat)%type.

(** A callback and the [user_data] it is called with. *)
Abbreviation fn := (Z * Z)%type.

Record pending := Pending { p_attrib : aptr; p_id : Z; timeout_id : Z; p_func : fn }.

#[export] Instance pending_eq_dec : EqDecision pending.
Proof. solve_decision. Defined.

Record gatt_db_attribute := Attribute {
  handle : Z;
  uuid : bt_uuid;
  permissions : Z;
  value_len : Z;
  value : option bytes;
  read_func : option Z;
  write_func : option Z;
  user_data : Z;
  read_id : Z;
  pending_reads : list pending;
  write_id : Z;
  pending_writes : list pending;
}.

Record gatt_db_service := Service {
  s_db : option addr;
  active : bool;
  claimed : bool;
  num_handles : Z;
  attributes : list (option gatt_db_attribute);
}.

Record notify := Notify {
  n_id : Z;
  service_added : option Z;
  service_removed : option Z;
  destroy : option Z;
  n_user_data : Z;
}.

Record gatt_db := Db {
  ref_count : Z;
  next_handle : Z;
  services : list addr;
  notify_list : option (list notify);
  next_notify_id : Z;
}.

(** Calls of the caller's functions and of the timer functions. *)
Inductive event :=
  | ServiceChanged (f : fn) (attr : aptr)
  | Destroyed (f : fn)
  | ReadFunc (f : fn) (attr : aptr) (id offset opcode : Z)
  | WriteFunc (f : fn) (attr : aptr) (id offset : Z) (value : bytes) (opcode : Z)
  | ReadDone (f : fn) (attr : aptr) (err : Z) (value : option bytes)
  | WriteDone (f : fn) (attr : aptr) (err : Z)
  | Visit (f : fn) (attr : aptr)
  | TimeoutRemove (id : Z).

Record world := World {
  dbs : gmap addr gatt_db;
  svcs : gmap addr gatt_db_service;
  events : list event;
}.

Abbreviation P := (M world).

(** ** The store *)

Definition get_db (d : addr) : P gatt_db := get_some (fun w => dbs w !! d).
Definition put_db (d : addr) (x : gatt_db) : P unit :=
  modify (fun w => World (<[d := x]> (dbs w)) (svcs w) (events w)).
Definition get_svc (s : addr) : P gatt_db_service := get_some (fun w => svcs w !! s).
Definition put_svc (s : addr) (x : gatt_db_service) : P unit :=
  modify (fun w => World (dbs w) (<[s := x]> (svcs w)) (events w)).
Definition emit (e : event) : P unit :=
  modify (fun w => World (dbs w) (svcs w) (events w ++ [e])).
Definition of_ub {A} (x : ub A) : P A := get_some (fun _ => x).

Definition set_ref_count (d : addr) (x : Z) : P unit :=
  r ← get_db d;
  put_db d (Db x (next_handle r) (services r) (notify_list r) (next_notify_id r)).
Definition set_next_handle (d : addr) (x : Z) : P unit :=
  r ← get_db d;
  put_db d (Db (ref_count r) x (services r) (notify_list r) (next_notify_id r)).
Definition set_services (d : addr) (x : list addr) : P unit :=
  r ← get_db d;
  put_db d (Db (ref_count r) (next_handle r) x (notify_list r) (next_notify_id r)).
Definition set_notify_list (d : addr) (x : option (list notify)) : P unit :=
  r ← get_db d;
  put_db d (Db (ref_count r) (next_handle r) (services r) x (next_notify_id r)).
Definition set_next_notify_id (d : addr) (x : Z) : P unit :=
  r ← get_db d;
  put_db d (Db (ref_count r) (next_handle r) (services r) (notify_list r) x).

(** [service->attributes[i]] *)
Definition get_slot (s : addr) (i : nat) : P (option gatt_db_attribute) :=
  v ← get_svc s; of_ub (attributes v !! i).
Definition set_slot (s : addr) (i : nat) (a : option gatt_db_attribute) : P unit :=
  v ← get_svc s;
  _ ← of_ub (attributes v !! i);
  put_svc s (Service (s_db v) (active v) (claimed v) (num_handles v)
               (<[i := a]> (attributes v))).
(** An attribute that is dereferenced. *)
Definition get_attr (p : aptr) : P gatt_db_attribute :=
  a ← get_slot (fst p) (snd p); of_ub a.
Definition put_attr (p : aptr) (a : gatt_db_attribute) : P unit :=
  _ ← get_attr p; set_slot (fst p) (snd p) (Some a).

Fixpoint each {A} (f : A -> P unit) (l : list A) : P unit :=
  match l with
  | [] => mret tt
  | x :: l => f x;; each f l
  end.

(** [for (i = 0; i < service->num_handles; i++)] over the slots that are not NULL. *)
Definition used_slots (s : addr) : P (list (aptr * gatt_db_attribute)) :=
  v ← get_svc s;
  if num_handles v <=? zlen (attributes v) then
    mret (omap (fun '(i, a) => (fun a => ((s, i), a)) <$> a)
            (imap pair (take (Z.to_nat (num_handles v)) (attributes v))))
  else undef.

(** [queue_find] with a match function that reads the store. *)
Fixpoint find_service (f : addr -> P bool) (l : list addr) : P (option addr) :=
  match l with
  | [] => mret None
  | s :: l =>
    b ← f s;
    if (b : bool) then mret (Some s) else find_service f l
  end.

Definition remove_first {A} `{EqDecision A} (x : A) (l : list A) : list A :=
  match split_find (fun y => bool_decide (x = y)) l with
  | Some (a, _, b) => a ++ b
  | None => l
  end.

(** [queue_push_after]: NULL result when the entry is not there. *)
Definition push_after {A} `{EqDecision A} (e x : A) (l : list A) : option (list A) :=
  match split_find (fun y => bool_decide (e = y)) l with
  | Some (a, y, b) => Some (a ++ y :: x :: b)
  | None => None
  end.

Definition uuid_differs (u v : bt_uuid) : P bool :=
  c ← of_ub (bt_uuid_cmp u v); mret (negb (c =? 0)).

(** ** Attributes *)

Definition set_attribute_data (p : aptr) (rf wf : option Z) (perm ud : Z) : P unit :=
  a ← get_attr p;
  put_attr p (Attribute (handle a) (uuid a) perm (value_len a) (value a) rf wf ud
                (read_id a) (pending_reads a) (write_id a) (pending_writes a)).

Definition pending_read_result (p : pending) (err : Z) (data : option bytes) : P unit :=
  when (0 <? timeout_id p) (emit (TimeoutRemove (timeout_id p)));;
  emit (ReadDone (p_func p) (p_attrib p) err data).

Definition pending_read_free (p : pending) : P unit :=
  pending_read_result p (- ECANCELED) None.

Definition pending_write_result (p : pending) (err : Z) : P unit :=
  when (0 <? timeout_id p) (emit (TimeoutRemove (timeout_id p)));;
  emit (WriteDone (p_func p) (p_attrib p) err).

Definition pending_write_free (p : pending) : P unit :=
  pending_write_result p (- ECANCELED).

Definition attribute_destroy (a : option gatt_db_attribute) : P unit :=
  match a with
  | None => mret tt
  | Some a =>
    each pending_read_free (pending_reads a);;
    each pending_write_free (pending_writes a)
  end.

Section allocation.
(** [malloc0(n)] and [realloc(p, n)]: a block, or NULL. *)
Variables (malloc0 : Z -> option bytes) (realloc : option bytes -> Z -> option bytes).

Definition new_attribute (handle : Z) (type : bt_uuid) (val : bytes) (len : Z)
    : ub (option gatt_db_attribute) :=
  let attribute v :=
    Attribute handle type 0 len v None None 0 0 [] 0 [] in
  if negb (len =? 0) then
    match malloc0 len with
    | None => Some None
    | Some b =>
      src ← ld val 0 len;
      b ← st b 0 src;
      Some (Some (attribute (Some b)))
    end
  else Some (Some (attribute None)).

(** ** The life of a database *)

Definition gatt_db_ref (d : option addr) : P (option addr) :=
  match d with
  | None => mret None
  | Some d => r ← get_db d; set_ref_count d (ref_count r + 1);; mret (Some d)
  end.

Definition gatt_db_new : P (option addr) :=
  d ← gets (fun w => fresh (dom (dbs w)));
  put_db d (Db 0 0 [] (Some []) 0);;
  set_next_handle d 0x0001;;
  gatt_db_ref (Some d).

Definition notify_destroy (n : notify) : P unit :=
  match destroy n with
  | Some f => emit (Destroyed (f, n_user_data n))
  | None => mret tt
  end.

Definition match_notify_id (n : notify) (id : Z) : bool := n_id n =? id.

(** Calls the function without looking whether there is one. *)
Definition handle_notify (attr : aptr) (added : bool) (n : notify) : P unit :=
  f ← of_ub (if added then service_added n else service_removed n);
  emit (ServiceChanged (f, n_user_data n) attr).

Definition attribute_destroy_all (s : addr) : P unit :=
  l ← used_slots s; each (fun x => attribute_destroy (Some (snd x))) l.

(** [gatt_db_service_destroy], with [notify_service_changed] as an argument because the
    two, [gatt_db_destroy] and [gatt_db_unref] call each other. *)
Definition service_destroy_with (changed : option addr -> addr -> bool -> P unit) (s : addr)
    : P unit :=
  v ← get_svc s;
  when (active v) (changed (s_db v) s false);;
  attribute_destroy_all s;;
  modify (fun w => World (dbs w) (delete s (svcs w)) (events w)).

(** [queue_isempty(db->notify_list)] *)
Definition nobody_listens (d : gatt_db) : bool :=
  match notify_list d with None => true | Some l => bool_decide (l = []) end.

(** The calls of the listeners, between the taking and the giving back of a reference. *)
Definition notify_service_changed_with (unref : addr -> P unit) (d : option addr) (s : addr)
    (added : bool) : P unit :=
  d ← of_ub d;
  r ← get_db d;
  if nobody_listens r then mret tt
  else
    a ← get_slot s 0;
    _ ← gatt_db_ref (Some d);
    each (handle_notify (s, 0%nat) added) (default [] (notify_list r));;
    unref d.

(** In [gatt_db_destroy] the list of listeners is gone, so that the notification of a
    service that is destroyed returns at once. *)
Definition gatt_db_destroy (d : option addr) : P unit :=
  match d with
  | None => mret tt
  | Some d =>
    r ← get_db d;
    each notify_destroy (default [] (notify_list r));;
    set_notify_list d None;;
    r ← get_db d;
    each (service_destroy_with (notify_service_changed_with (fun _ => undef))) (services r);;
    modify (fun w => World (delete d (dbs w)) (svcs w) (events w))
  end.

Definition gatt_db_unref (d : option addr) : P unit :=
  match d with
  | None => mret tt
  | Some d =>
    r ← get_db d;
    set_ref_count d (ref_count r - 1);;
    r ← get_db d;
    if negb (ref_count r =? 0) then mret tt else gatt_db_destroy (Some d)
  end.

Definition notify_service_changed : option addr -> addr -> bool -> P unit :=
  notify_service_changed_with (fun d => gatt_db_unref (Some d)).

Definition gatt_db_service_destroy : addr -> P unit :=
  service_destroy_with notify_service_changed.

Definition gatt_db_isempty (d : option addr) : P bool :=
  match d with
  | None => mret true
  | Some d => (fun r => bool_decide (services r = [])) <$> get_db d
  end.

(** ** UUIDs in attribute values *)

(** The bytes written to [dst]: the return value is their number. *)
Definition uuid_to_le (u : bt_uuid) : ub bytes :=
  match u with
  | UUID16 v => Some (le_bytes 2 v)
  | _ =>
    match bt_uuid_to_uuid128 u UUID_UNSPEC with
    | UUID128 b => Some (bswap_128 b)
    | _ => None
    end
  end.

(** [None] in the inner option is the result false. *)
Definition le_to_uuid (src : bytes) (off len : Z) : ub (option bt_uuid) :=
  if len =? 2 then v ← get_le16 src off; Some (Some (bt_uuid16_create v))
  else if len =? 4 then v ← get_le32 src off; Some (Some (bt_uuid32_create v))
  else if negb (len =? 16) then Some None
  else b ← ld src off 16; Some (Some (bt_uuid128_create (bswap_128 b))).

(** The UUID stored in [*uuid], or the result false, which leaves it unwritten. *)
Definition gatt_db_attribute_get_service_uuid (attrib : option aptr) : P (option bt_uuid) :=
  match attrib with
  | None => mret None
  | Some (s, _) =>
    a ← get_attr (s, 0%nat);
    if value_len a =? 2 then
      b ← of_ub (value a); v ← of_ub (get_le16 b 0);
      mret (Some (bt_uuid16_create v))
    else if value_len a =? 16 then
      b ← of_ub (value a); v ← of_ub (ld b 0 16);
      mret (Some (bt_uuid128_create (bswap_128 v)))
    else mret None
  end.

(** [bt_uuid_cmp] on a UUID that may not have been written. *)
Definition read_uuid (u : option bt_uuid) : P bt_uuid := of_ub u.

(** ** Services *)

Definition gatt_db_service_create (uuid : bt_uuid) (handle : Z) (primary : bool)
    (num_handles : Z) : P (option addr) :=
  if num_handles <? 1 then mret None
  else
    s ← gets (fun w => fresh (dom (svcs w)));
    put_svc s (Service None false false 0 (replicate (Z.to_nat num_handles) None));;
    let type := if primary then primary_service_uuid else secondary_service_uuid in
    value ← of_ub (uuid_to_le uuid);
    a ← of_ub (new_attribute handle type value (zlen value));
    set_slot s 0 a;;
    match a with
    | None => gatt_db_service_destroy s;; mret None
    | Some _ =>
      set_attribute_data (s, 0%nat) None None BT_ATT_PERM_READ 0;;
      mret (Some s)
    end.

Definition gatt_db_service_get_handles (s : addr) : P (Z * Z) :=
  a ← get_attr (s, 0%nat);
  v ← get_svc s;
  mret (handle a, u16 (handle a + num_handles v - 1)).

Definition gatt_db_remove_service (d : option addr) (attrib : option aptr) : P bool :=
  match d, attrib with
  | Some d, Some (s, _) =>
    r ← get_db d;
    set_services d (remove_first s (services r));;
    gatt_db_service_destroy s;;
    mret true
  | _, _ => mret false
  end.

Definition match_range (start end_ : Z) (s : addr) : P bool :=
  '(svc_start, svc_end) ← gatt_db_service_get_handles s;
  mret ((svc_start <=? end_) && (start <=? svc_end)).

(** [queue_remove_all] with [match_range]: removes and destroys one service after the
    other; [n] is more than the number of services. *)
Fixpoint remove_matching (n : nat) (d : addr) (f : addr -> P bool) : P unit :=
  match n with
  | O => mret tt
  | S n =>
    r ← get_db d;
    found ← find_service f (services r);
    match found with
    | None => mret tt
    | Some s =>
      set_services d (remove_first s (services r));;
      gatt_db_service_destroy s;;
      remove_matching n d f
    end
  end.

Definition gatt_db_clear_range (d : option addr) (start_handle end_handle : Z) : P bool :=
  match d with
  | None => mret false
  | Some d =>
    if end_handle <? start_handle then mret false
    else
      r ← get_db d;
      (if (start_handle =? 1) && (end_handle =? UINT16_MAX) then
         set_services d [];;
         each gatt_db_service_destroy (services r)
       else
         remove_matching (S (length (services r))) d (match_range start_handle end_handle));;
      e ← gatt_db_isempty (Some d);
      when e (set_next_handle d 0);;
      mret true
  end.

Definition gatt_db_clear (d : option addr) : P bool := gatt_db_clear_range d 1 UINT16_MAX.

(** The result is the service the range runs into; [after] is the last one before it. *)
Fixpoint find_insert_loc (l : list addr) (start end_ : Z) (after : option addr)
    : P (option addr * option addr) :=
  match l with
  | [] => mret (None, after)
  | s :: l =>
    '(cur_start, cur_end) ← gatt_db_service_get_handles s;
    if (cur_start <=? start) && (start <=? cur_end) then mret (Some s, after)
    else if (cur_start <=? end_) && (end_ <=? cur_end) then mret (Some s, after)
    else if end_ <? cur_start then mret (None, after)
    else find_insert_loc l start end_ (Some s)
  end.

Definition gatt_db_insert_service (d : option addr) (hdl : Z) (u : bt_uuid)
    (primary : bool) (num : Z) : P (option aptr) :=
  match d with
  | None => mret None
  | Some d =>
    if hdl <? 1 then mret None
    else if (num <? 1) || (UINT16_MAX <? hdl + num - 1) then mret None
    else
      r ← get_db d;
      '(service, after) ← find_insert_loc (services r) hdl (u16 (hdl + num - 1)) None;
      match service with
      | Some s =>
        let type := if primary then primary_service_uuid else secondary_service_uuid in
        val ← gatt_db_attribute_get_service_uuid (Some (s, 0%nat));
        a ← get_attr (s, 0%nat);
        v ← get_svc s;
        differs ← uuid_differs (uuid a) type;
        if (differs : bool) then mret None
        else
          val ← read_uuid val;
          differs ← uuid_differs val u;
          if negb (differs : bool) && (num_handles v =? num) && (handle a =? hdl)
          then mret (Some (s, 0%nat)) else mret None
      | None =>
        service ← gatt_db_service_create u hdl primary num;
        match service with
        | None => mret None
        | Some s =>
          r ← get_db d;
          match (match after with
                 | Some e => push_after e s (services r)
                 | None => Some (s :: services r)
                 end) with
          | None => gatt_db_service_destroy s;; mret None
          | Some l =>
            set_services d l;;
            v ← get_svc s;
            put_svc s (Service (Some d) (active v) (claimed v) (num_handles v) (attributes v));;
            a ← get_attr (s, 0%nat);
            put_attr (s, 0%nat)
              (Attribute hdl (uuid a) (permissions a) (value_len a) (value a)
                 (read_func a) (write_func a) (user_data a) (read_id a) (pending_reads a)
                 (write_id a) (pending_writes a));;
            v ← get_svc s;
            put_svc s (Service (s_db v) (active v) (claimed v) num (attributes v));;
            r ← get_db d;
            set_next_handle d (u16 (Z.max (hdl + num) (next_handle r)));;
            mret (Some (s, 0%nat))
          end
        end
      end
  end.

Definition gatt_db_add_service (d : option addr) (u : bt_uuid) (primary : bool) (num : Z)
    : P (option aptr) :=
  d' ← of_ub d;
  r ← get_db d';
  gatt_db_insert_service d (next_handle r) u primary num.

(** ** Listeners *)

Definition gatt_db_register (d : option addr) (added removed : option Z) (ud : Z)
    (destroy : option Z) : P Z :=
  match d with
  | None => mret 0
  | Some d =>
    match added, removed with
    | None, None => mret 0
    | _, _ =>
      r ← get_db d;
      when (next_notify_id r <? 1) (set_next_notify_id d 1);;
      r ← get_db d;
      let id := next_notify_id r in
      set_next_notify_id d (u32 (id + 1));;
      match notify_list r with
      | None => mret 0
      | Some l =>
        set_notify_list d (Some (l ++ [Notify id added removed destroy ud]));;
        mret id
      end
    end
  end.

Definition gatt_db_unregister (d : option addr) (id : Z) : P bool :=
  match d with
  | None => mret false
  | Some d =>
    if id =? 0 then mret false
    else
      r ← get_db d;
      match split_find (fun n => match_notify_id n id) (default [] (notify_list r)) with
      | None => mret false
      | Some (a, n, b) =>
        set_notify_list d (Some (a ++ b));;
        notify_destroy n;;
        mret true
      end
  end.

(** ** Characteristics, descriptors and included services *)

(** The first free slot among the first [num_handles - end_offset], or 0. *)
Fixpoint free_index (l : list (option gatt_db_attribute)) (i bound : Z) : ub Z :=
  if i <? bound then
    match l with
    | [] => None
    | Some _ :: l => free_index l (i + 1) bound
    | None :: _ => Some i
    end
  else Some i.

Definition get_attribute_index (s : addr) (end_offset : Z) : P Z :=
  v ← get_svc s;
  i ← of_ub (free_index (attributes v) 0 (num_handles v - end_offset));
  mret (if i =? num_handles v - end_offset then 0 else u16 i).

Definition get_handle_at_index (s : addr) (index : Z) : P Z :=
  handle <$> get_attr (s, Z.to_nat index).

Definition attribute_update (s : addr) (index : Z) : P aptr :=
  previous_handle ← get_handle_at_index s (index - 1);
  let p := (s, Z.to_nat index) in
  a ← get_attr p;
  put_attr p (Attribute (u16 (previous_handle + 1)) (uuid a) (permissions a) (value_len a)
                (value a) (read_func a) (write_func a) (user_data a) (read_id a)
                (pending_reads a) (write_id a) (pending_writes a));;
  mret p.

Definition service_insert_characteristic (s : addr) (hdl : Z) (u : bt_uuid)
    (perm properties : Z) (rf wf : option Z) (ud : Z) : P (option aptr) :=
  first ← get_attr (s, 0%nat);
  if negb (hdl =? 0) && (hdl <=? handle first) then mret None
  else if hdl =? UINT16_MAX then mret None
  else
    i ← get_attribute_index s 1;
    if i =? 0 then mret None
    else
      hdl ← (if hdl =? 0 then (fun h => u16 (h + 2)) <$> get_handle_at_index s (i - 1)
             else mret hdl);
      le ← of_ub (uuid_to_le u);
      let value := [properties] ++ le_bytes 2 hdl ++ le in
      a ← of_ub (new_attribute (u16 (hdl - 1)) characteristic_uuid value (zlen value));
      set_slot s (Z.to_nat i) a;;
      match a with
      | None => mret None
      | Some _ =>
        set_attribute_data (s, Z.to_nat i) None None BT_ATT_PERM_READ 0;;
        let i := i + 1 in
        a ← of_ub (new_attribute hdl u [] 0);
        set_slot s (Z.to_nat i) a;;
        match a with
        | None => undef (* not reached: there is no value to allocate *)
        | Some _ =>
          set_attribute_data (s, Z.to_nat i) rf wf perm ud;;
          mret (Some (s, Z.to_nat i))
        end
      end.

Definition service_insert_descriptor (s : addr) (hdl : Z) (u : bt_uuid) (perm : Z)
    (rf wf : option Z) (ud : Z) : P (option aptr) :=
  i ← get_attribute_index s 0;
  if i =? 0 then mret None
  else
    first ← get_attr (s, 0%nat);
    if negb (hdl =? 0) && (hdl <=? handle first) then mret None
    else
      hdl ← (if hdl =? 0 then (fun h => u16 (h + 1)) <$> get_handle_at_index s (i - 1)
             else mret hdl);
      a ← of_ub (new_attribute hdl u [] 0);
      set_slot s (Z.to_nat i) a;;
      match a with
      | None => mret None
      | Some _ =>
        set_attribute_data (s, Z.to_nat i) rf wf perm ud;;
        mret (Some (s, Z.to_nat i))
      end.

Definition service_insert_included (s : addr) (hdl : Z) (include : aptr) : P (option aptr) :=
  let included := fst include in
  inc ← get_attr (included, 0%nat);
  vi ← get_svc included;
  tail ← (if value_len inc =? 2 then b ← of_ub (value inc); of_ub (ld b 0 2) else mret []);
  let value := le_bytes 2 (handle inc) ++ le_bytes 2 (handle inc + num_handles vi - 1) ++ tail in
  index ← get_attribute_index s 0;
  if index =? 0 then mret None
  else
    first ← get_attr (s, 0%nat);
    if negb (hdl =? 0) && (hdl <=? handle first) then mret None
    else
      hdl ← (if hdl =? 0 then (fun h => u16 (h + 1)) <$> get_handle_at_index s (index - 1)
             else mret hdl);
      a ← of_ub (new_attribute hdl included_service_uuid value (zlen value));
      set_slot s (Z.to_nat index) a;;
      match a with
      | None => mret None
      | Some _ =>
        set_attribute_data (s, Z.to_nat index) None None BT_ATT_PERM_READ 0;;
        Some <$> attribute_update s index
      end.

(** ** Lookup *)

Definition find_service_for_handle (hdl : Z) (s : addr) : P bool :=
  '(start, end_) ← gatt_db_service_get_handles s;
  mret ((start <=? hdl) && (hdl <=? end_)).

Definition gatt_db_get_service (d : option addr) (hdl : Z) : P (option aptr) :=
  match d with
  | None => mret None
  | Some d =>
    if hdl =? 0 then mret None
    else
      r ← get_db d;
      s ← find_service (find_service_for_handle hdl) (services r);
      mret ((fun s => (s, 0%nat)) <$> s)
  end.

Definition gatt_db_get_attribute (d : option addr) (hdl : Z) : P (option aptr) :=
  attrib ← gatt_db_get_service d hdl;
  match attrib with
  | None => mret None
  | Some (s, _) =>
    l ← used_slots s;
    mret (match split_find (fun x => handle (snd x) =? hdl) l with
          | Some (_, x, _) => Some (fst x)
          | None => None
          end)
  end.

(** The match function compares whatever is in the variable when the service has no
    UUID. *)
Definition find_service_with_uuid (u : bt_uuid) (s : addr) : P bool :=
  svc_uuid ← gatt_db_attribute_get_service_uuid (Some (s, 0%nat));
  svc_uuid ← read_uuid svc_uuid;
  negb <$> uuid_differs u svc_uuid.

Definition gatt_db_get_service_with_uuid (d : option addr) (u : option bt_uuid)
    : P (option aptr) :=
  match d, u with
  | Some d, Some u =>
    r ← get_db d;
    s ← find_service (find_service_with_uuid u) (services r);
    mret ((fun s => (s, 0%nat)) <$> s)
  | _, _ => mret None
  end.

(** ** The functions on attributes and on handles *)

Definition gatt_db_insert_characteristic (d : option addr) (hdl : Z) (u : bt_uuid)
    (perm properties : Z) (rf wf : option Z) (ud : Z) : P (option aptr) :=
  attrib ← gatt_db_get_service d hdl;
  match attrib with
  | None => mret None
  | Some (s, _) => service_insert_characteristic s hdl u perm properties rf wf ud
  end.

Definition gatt_db_service_insert_characteristic (attrib : option aptr) (hdl : Z)
    (u : bt_uuid) (perm properties : Z) (rf wf : option Z) (ud : Z) : P (option aptr) :=
  match attrib with
  | None => mret None
  | Some (s, _) =>
    if hdl =? 0 then mret None
    else service_insert_characteristic s hdl u perm properties rf wf ud
  end.

Definition gatt_db_service_add_characteristic (attrib : option aptr) (u : bt_uuid)
    (perm properties : Z) (rf wf : option Z) (ud : Z) : P (option aptr) :=
  match attrib with
  | None => mret None
  | Some (s, _) => service_insert_characteristic s 0 u perm properties rf wf ud
  end.

Definition gatt_db_insert_descriptor (d : option addr) (hdl : Z) (u : bt_uuid) (perm : Z)
    (rf wf : option Z) (ud : Z) : P (option aptr) :=
  attrib ← gatt_db_get_service d hdl;
  match attrib with
  | None => mret None
  | Some (s, _) => service_insert_descriptor s hdl u perm rf wf ud
  end.

Definition gatt_db_service_insert_descriptor (attrib : option aptr) (hdl : Z) (u : bt_uuid)
    (perm : Z) (rf wf : option Z) (ud : Z) : P (option aptr) :=
  match attrib with
  | None => mret None
  | Some (s, _) =>
    if hdl =? 0 then mret None else service_insert_descriptor s hdl u perm rf wf ud
  end.

Definition gatt_db_service_add_descriptor (attrib : option aptr) (u : bt_uuid) (perm : Z)
    (rf wf : option Z) (ud : Z) : P (option aptr) :=
  match attrib with
  | None => mret None
  | Some (s, _) => service_insert_descriptor s 0 u perm rf wf ud
  end.

Definition gatt_db_service_add_included (attrib include : option aptr) : P (option aptr) :=
  match attrib, include with
  | Some (s, _), Some include => service_insert_included s 0 include
  | _, _ => mret None
  end.

Definition gatt_db_service_insert_included (attrib : option aptr) (hdl : Z)
    (include : option aptr) : P (option aptr) :=
  match attrib, include with
  | Some (s, _), Some include =>
    if hdl =? 0 then mret None else service_insert_included s hdl include
  | _, _ => mret None
  end.

Definition gatt_db_insert_included (d : option addr) (hdl : Z) (include : aptr)
    : P (option aptr) :=
  attrib ← gatt_db_get_service d hdl;
  match attrib with
  | None => mret None
  | Some (s, _) => service_insert_included s hdl include
  end.

Definition gatt_db_service_set_active (attrib : option aptr) (x : bool) : P bool :=
  match attrib with
  | None => mret false
  | Some (s, _) =>
    v ← get_svc s;
    if eqb (active v) x then mret true
    else
      put_svc s (Service (s_db v) x (claimed v) (num_handles v) (attributes v));;
      notify_service_changed (s_db v) s x;;
      mret true
  end.

Definition gatt_db_service_get_active (attrib : option aptr) : P bool :=
  match attrib with None => mret false | Some (s, _) => active <$> get_svc s end.

Definition gatt_db_service_set_claimed (attrib : option aptr) (x : bool) : P bool :=
  match attrib with
  | None => mret false
  | Some (s, _) =>
    v ← get_svc s;
    put_svc s (Service (s_db v) (active v) x (num_handles v) (attributes v));;
    mret true
  end.

Definition gatt_db_service_get_claimed (attrib : option aptr) : P bool :=
  match attrib with None => mret false | Some (s, _) => claimed <$> get_svc s end.

(** ** Searches.  The queue given to a search, or the calls of its callback, are the
    attributes found, in order. *)

Fixpoint read_group_loop (start_handle end_handle : Z) (type : bt_uuid) (uuid_size : Z)
    (l : list addr) : P (list aptr) :=
  match l with
  | [] => mret []
  | s :: l =>
    v ← get_svc s;
    if negb (active v) then read_group_loop start_handle end_handle type uuid_size l
    else
      a ← get_attr (s, 0%nat);
      differs ← uuid_differs type (uuid a);
      if (differs : bool) then read_group_loop start_handle end_handle type uuid_size l
      else
        let grp_start := handle a in
        let grp_end := u16 (grp_start + num_handles v - 1) in
        if (grp_end <? start_handle) || (end_handle <? grp_start) then
          read_group_loop start_handle end_handle type uuid_size l
        else if (grp_start <? start_handle) || (end_handle <? grp_start) then
          read_group_loop start_handle end_handle type uuid_size l
        else if uuid_size =? 0 then
          cons (s, 0%nat) <$> read_group_loop start_handle end_handle type (value_len a) l
        else if negb (uuid_size =? value_len a) then mret []
        else cons (s, 0%nat) <$> read_group_loop start_handle end_handle type uuid_size l
  end.

Definition gatt_db_read_by_group_type (d : addr) (start_handle end_handle : Z)
    (type : bt_uuid) : P (list aptr) :=
  r ← get_db d; read_group_loop start_handle end_handle type 0 (services r).

(** [search_data->value]: NULL, or a value of that length to compare with. *)
Definition value_matches (val : option bytes) (a : gatt_db_attribute) : P bool :=
  match val with
  | None => mret true
  | Some x =>
    if negb (zlen x =? value_len a) then mret false
    else if zlen x =? 0 then mret true
    else b ← of_ub (value a); y ← of_ub (ld b 0 (zlen x)); mret (bool_decide (y = x))
  end.

Fixpoint find_in_slots (f : fn) (u : bt_uuid) (start_handle end_handle : Z)
    (val : option bytes) (l : list (aptr * gatt_db_attribute)) (num_of_res : Z) : P Z :=
  match l with
  | [] => mret num_of_res
  | (p, a) :: l =>
    if (handle a <? start_handle) || (end_handle <? handle a) then
      find_in_slots f u start_handle end_handle val l num_of_res
    else
      differs ← uuid_differs u (uuid a);
      if (differs : bool) then find_in_slots f u start_handle end_handle val l num_of_res
      else
        m ← value_matches val a;
        if (m : bool) then
          emit (Visit f p);;
          find_in_slots f u start_handle end_handle val l (u32 (num_of_res + 1))
        else find_in_slots f u start_handle end_handle val l num_of_res
  end.

Fixpoint find_by_type (f : fn) (u : bt_uuid) (start_handle end_handle : Z)
    (val : option bytes) (l : list addr) (num_of_res : Z) : P Z :=
  match l with
  | [] => mret num_of_res
  | s :: l =>
    v ← get_svc s;
    if negb (active v) then find_by_type f u start_handle end_handle val l num_of_res
    else
      slots ← used_slots s;
      n ← find_in_slots f u start_handle end_handle val slots num_of_res;
      find_by_type f u start_handle end_handle val l n
  end.

Definition gatt_db_find_by_type (d : addr) (start_handle end_handle : Z) (type : bt_uuid)
    (f : fn) : P Z :=
  r ← get_db d; find_by_type f type start_handle end_handle None (services r) 0.

(** The counter is not initialised: [junk] is what the stack holds. *)
Definition gatt_db_find_by_type_value (junk : Z) (d : addr) (start_handle end_handle : Z)
    (type : bt_uuid) (val : option bytes) (f : fn) : P Z :=
  r ← get_db d; find_by_type f type start_handle end_handle val (services r) junk.

Fixpoint read_by_type_slots (u : bt_uuid) (start_handle end_handle : Z)
    (l : list (aptr * gatt_db_attribute)) : P (list aptr) :=
  match l with
  | [] => mret []
  | (p, a) :: l =>
    if handle a <? start_handle then read_by_type_slots u start_handle end_handle l
    else if end_handle <? handle a then mret []
    else
      differs ← uuid_differs u (uuid a);
      if (differs : bool) then read_by_type_slots u start_handle end_handle l
      else cons p <$> read_by_type_slots u start_handle end_handle l
  end.

Definition read_by_type (u : bt_uuid) (start_handle end_handle : Z) (s : addr)
    : P (list aptr) :=
  v ← get_svc s;
  if negb (active v) then mret []
  else slots ← used_slots s; read_by_type_slots u start_handle end_handle slots.

Fixpoint collect (f : addr -> P (list aptr)) (l : list addr) : P (list aptr) :=
  match l with
  | [] => mret []
  | s :: l => x ← f s; y ← collect f l; mret (x ++ y)
  end.

Definition gatt_db_read_by_type (d : addr) (start_handle end_handle : Z) (type : bt_uuid)
    : P (list aptr) :=
  r ← get_db d; collect (read_by_type type start_handle end_handle) (services r).

Fixpoint find_info_slots (start_handle end_handle : Z)
    (l : list (aptr * gatt_db_attribute)) : list aptr :=
  match l with
  | [] => []
  | (p, a) :: l =>
    if handle a <? start_handle then find_info_slots start_handle end_handle l
    else if end_handle <? handle a then []
    else p :: find_info_slots start_handle end_handle l
  end.

Definition find_information (start_handle end_handle : Z) (s : addr) : P (list aptr) :=
  v ← get_svc s;
  if negb (active v) then mret []
  else
    a ← get_attr (s, 0%nat);
    if handle a + num_handles v - 1 <? start_handle then mret []
    else find_info_slots start_handle end_handle <$> used_slots s.

Definition gatt_db_find_information (d : addr) (start_handle end_handle : Z)
    : P (list aptr) :=
  r ← get_db d; collect (find_information start_handle end_handle) (services r).

Definition foreach_service_in_range (f : fn) (u : option bt_uuid) (start end_ : Z) (s : addr)
    : P unit :=
  svc_start ← get_handle_at_index s 0;
  if (end_ <? svc_start) || (svc_start <? start) then mret tt
  else
    match u with
    | None => emit (Visit f (s, 0%nat))
    | Some u =>
      x ← gatt_db_attribute_get_service_uuid (Some (s, 0%nat));
      x ← read_uuid x;
      differs ← uuid_differs x u;
      if (differs : bool) then mret tt else emit (Visit f (s, 0%nat))
    end.

Definition gatt_db_foreach_service_in_range (d : option addr) (u : option bt_uuid)
    (f : option fn) (start_handle end_handle : Z) : P unit :=
  match d, f with
  | Some d, Some f =>
    if end_handle <? start_handle then mret tt
    else r ← get_db d; each (foreach_service_in_range f u start_handle end_handle) (services r)
  | _, _ => mret tt
  end.

Definition gatt_db_foreach_service (d : option addr) (u : option bt_uuid) (f : option fn)
    : P unit :=
  gatt_db_foreach_service_in_range d u f 0x0001 0xffff.

Fixpoint visit_slots (f : fn) (u : option bt_uuid) (l : list (aptr * gatt_db_attribute))
    : P unit :=
  match l with
  | [] => mret tt
  | (p, a) :: l =>
    differs ← match u with Some u => uuid_differs u (uuid a) | None => mret false end;
    (if (differs : bool) then mret tt else emit (Visit f p));;
    visit_slots f u l
  end.

Definition gatt_db_service_foreach (attrib : option aptr) (u : option bt_uuid)
    (f : option fn) : P unit :=
  match attrib, f with
  | Some (s, _), Some f => l ← used_slots s; visit_slots f u l
  | _, _ => mret tt
  end.

Definition gatt_db_service_foreach_char (attrib : option aptr) (f : option fn) : P unit :=
  gatt_db_service_foreach attrib (Some characteristic_uuid) f.

Definition gatt_db_service_foreach_incl (attrib : option aptr) (f : option fn) : P unit :=
  gatt_db_service_foreach attrib (Some included_service_uuid) f.

Fixpoint desc_slots (l : list (aptr * gatt_db_attribute)) : P (list aptr) :=
  match l with
  | [] => mret []
  | (p, a) :: l =>
    chrc ← uuid_differs characteristic_uuid (uuid a);
    if negb chrc then mret []
    else
      incl ← uuid_differs included_service_uuid (uuid a);
      if negb incl then mret [] else cons p <$> desc_slots l
  end.

(** The attributes [gatt_db_service_foreach_desc] calls its function on: from two slots
    after the declaration up to the next declaration. *)
Definition descriptors (attrib : aptr) : P (list aptr) :=
  a ← get_attr attrib;
  differs ← uuid_differs characteristic_uuid (uuid a);
  if (differs : bool) then mret []
  else
    l ← used_slots (fst attrib);
    desc_slots (List.filter (fun x => (S (S (snd attrib)) <=? snd (fst x))%nat) l).

Definition gatt_db_service_foreach_desc (attrib : option aptr) (f : option fn) : P unit :=
  match attrib, f with
  | Some attrib, Some f => l ← descriptors attrib; each (fun p => emit (Visit f p)) l
  | _, _ => mret tt
  end.

(** ** What an attribute says *)

Definition gatt_db_attribute_get_type (attrib : option aptr) : P (option bt_uuid) :=
  match attrib with None => mret None | Some p => (fun a => Some (uuid a)) <$> get_attr p end.

Definition gatt_db_attribute_get_handle (attrib : option aptr) : P Z :=
  match attrib with None => mret 0 | Some p => handle <$> get_attr p end.

Definition gatt_db_attribute_get_service_handles (attrib : option aptr)
    : P (option (Z * Z)) :=
  match attrib with
  | None => mret None
  | Some (s, _) => Some <$> gatt_db_service_get_handles s
  end.

(** Start and end handle, whether the service is primary, and the UUID if it is one. *)
Definition gatt_db_attribute_get_service_data (attrib : option aptr)
    : P (option (Z * Z * bool * option bt_uuid)) :=
  match attrib with
  | None => mret None
  | Some (s, _) =>
    decl ← get_attr (s, 0%nat);
    '(start, end_) ← gatt_db_service_get_handles s;
    primary ← uuid_differs (uuid decl) secondary_service_uuid;
    u ← of_ub (le_to_uuid (default [] (value decl)) 0 (value_len decl));
    mret (Some (start, end_, primary, u))
  end.

Definition gatt_db_attribute_get_permissions (attrib : option aptr) : P Z :=
  match attrib with None => mret 0 | Some p => permissions <$> get_attr p end.

Definition gatt_db_attribute_get_user_data (attrib : option aptr) : P Z :=
  match attrib with None => mret 0 | Some p => user_data <$> get_attr p end.

Definition gatt_db_attribute_get_incl_data (attrib : option aptr)
    : P (option (Z * Z * Z)) :=
  match attrib with
  | None => mret None
  | Some p =>
    a ← get_attr p;
    differs ← uuid_differs included_service_uuid (uuid a);
    if (differs : bool) then mret None
    else
      match value a with
      | None => mret None
      | Some b =>
        if (value_len a <? 4) || (6 <? value_len a) then mret None
        else
          start ← of_ub (get_le16 b 0);
          end_ ← of_ub (get_le16 b 2);
          mret (Some (handle a, start, end_))
      end
  end.

(** ** Reading *)

Definition set_reads (a : gatt_db_attribute) (id : Z) (l : list pending) : gatt_db_attribute :=
  Attribute (handle a) (uuid a) (permissions a) (value_len a) (value a) (read_func a)
    (write_func a) (user_data a) id l (write_id a) (pending_writes a).

Definition set_writes (a : gatt_db_attribute) (id : Z) (l : list pending) : gatt_db_attribute :=
  Attribute (handle a) (uuid a) (permissions a) (value_len a) (value a) (read_func a)
    (write_func a) (user_data a) (read_id a) (pending_reads a) id l.

Definition set_value (a : gatt_db_attribute) (len : Z) (b : option bytes) : gatt_db_attribute :=
  Attribute (handle a) (uuid a) (permissions a) len b (read_func a) (write_func a)
    (user_data a) (read_id a) (pending_reads a) (write_id a) (pending_writes a).

(** [queue_remove(p->attrib->pending_reads, p)], then the result. *)
Definition read_timeout (p : pending) : P bool :=
  a ← get_attr (p_attrib p);
  put_attr (p_attrib p) (set_reads a (read_id a) (remove_first p (pending_reads a)));;
  pending_read_result (Pending (p_attrib p) (p_id p) 0 (p_func p)) (- ETIMEDOUT) None;;
  mret false.

(** The error and the bytes for a value stored in the database. *)
Definition stored_value (a : gatt_db_attribute) (offset : Z) : ub (Z * option bytes) :=
  if value_len a <? offset then Some (BT_ATT_ERROR_INVALID_OFFSET, None)
  else if offset =? value_len a then Some (0, None)
  else b ← value a; x ← ld b offset (value_len a - offset); Some (0, Some x).

(** [tid] is what [timeout_add] returns. *)
Definition gatt_db_attribute_read (tid : Z) (attrib : option aptr) (offset opcode : Z)
    (f : option fn) : P bool :=
  match attrib, f with
  | Some p, Some f =>
    a ← get_attr p;
    match read_func a with
    | Some rf =>
      let id := u32 (read_id a + 1) in
      put_attr p (set_reads a id (pending_reads a ++ [Pending p id tid f]));;
      emit (ReadFunc (rf, user_data a) p id offset opcode);;
      mret true
    | None =>
      '(err, data) ← of_ub (stored_value a offset);
      emit (ReadDone f p err data);;
      mret true
    end
  | _, _ => mret false
  end.

Definition find_pending (id : Z) (p : pending) : bool := p_id p =? id.

Definition gatt_db_attribute_read_result (attrib : option aptr) (id err : Z)
    (val : option bytes) : P bool :=
  match attrib with
  | None => mret false
  | Some q =>
    if id =? 0 then mret false
    else
      a ← get_attr q;
      match split_find (find_pending id) (pending_reads a) with
      | None => mret false
      | Some (x, p, y) =>
        put_attr q (set_reads a (read_id a) (x ++ y));;
        pending_read_result p err val;;
        mret true
      end
  end.

(** ** Extended properties: [read_ext_prop] is called on the descriptors with a pointer
    to the result, and reads the descriptor with a callback that stores there. *)

(** The callback [read_ext_prop_value]. *)
Definition EXT_PROP_VALUE : fn := (-1, 0).

Definition read_ext_prop_value (err : Z) (val : option bytes) (ext_prop : Z) : ub Z :=
  match val with
  | Some b =>
    if negb (err =? 0) || negb (zlen b =? 2) then Some ext_prop else get_u8 b 0
  | None => Some ext_prop
  end.

Definition read_ext_prop (tid : Z) (p : aptr) (ext_prop : Z) : P Z :=
  if negb (ext_prop =? 0) then mret ext_prop
  else
    a ← get_attr p;
    differs ← uuid_differs ext_desc_uuid (uuid a);
    if (differs : bool) then mret ext_prop
    else
      match read_func a with
      | Some _ =>
        _ ← gatt_db_attribute_read tid (Some p) 0 BT_ATT_OP_READ_REQ (Some EXT_PROP_VALUE);
        mret ext_prop
      | None =>
        '(err, data) ← of_ub (stored_value a 0);
        of_ub (read_ext_prop_value err data ext_prop)
      end.

Fixpoint ext_prop_loop (tid : Z) (l : list aptr) (ext_prop : Z) : P Z :=
  match l with
  | [] => mret ext_prop
  | p :: l => x ← read_ext_prop tid p ext_prop; ext_prop_loop tid l x
  end.

Definition get_char_extended_prop (tid : Z) (attrib : aptr) : P Z :=
  a ← get_attr attrib;
  differs ← uuid_differs characteristic_uuid (uuid a);
  if (differs : bool) then mret 0
  else
    b ← of_ub (value a);
    props ← of_ub (get_u8 b 0);
    if Z.land props BT_GATT_CHRC_PROP_EXT_PROP =? 0 then mret 0
    else l ← descriptors attrib; x ← ext_prop_loop tid l 0; mret (u8 x).

(** Handle, value handle, properties, extended properties and UUID of a
    characteristic. *)
Definition gatt_db_attribute_get_char_data (tid : Z) (attrib : option aptr)
    : P (option (Z * Z * Z * Z * option bt_uuid)) :=
  match attrib with
  | None => mret None
  | Some p =>
    a ← get_attr p;
    differs ← uuid_differs characteristic_uuid (uuid a);
    if (differs : bool) then mret None
    else
      match value a with
      | None => mret None
      | Some b =>
        if negb (value_len a =? 5) && negb (value_len a =? 19) then mret None
        else
          props ← of_ub (get_u8 b 0);
          ext ← get_char_extended_prop tid p;
          vh ← of_ub (get_le16 b 1);
          u ← of_ub (le_to_uuid b 3 (value_len a - 3));
          mret (Some (handle a, vh, props, ext, u))
      end
  end.

(** ** Writing *)

Definition write_timeout (p : pending) : P bool :=
  a ← get_attr (p_attrib p);
  put_attr (p_attrib p) (set_writes a (write_id a) (remove_first p (pending_writes a)));;
  pending_write_result (Pending (p_attrib p) (p_id p) 0 (p_func p)) (- ETIMEDOUT);;
  mret false.

(** The value after a write of [val] at [offset], or NULL when there is no memory. *)
Definition written_value (a : gatt_db_attribute) (offset : Z) (val : bytes)
    : ub (option gatt_db_attribute) :=
  let len := zlen val in
  let grow := match value a with
              | None => true
              | Some _ => (value_len a <=? offset) || (value_len a - offset <? len)
              end in
  if grow then
    match realloc (value a) (len + offset) with
    | None => Some None
    | Some buf =>
      buf ← (if value_len a =? 0 then st buf 0 (replicate (Z.to_nat offset) 0) else Some buf);
      buf ← st buf offset val;
      Some (Some (set_value a (u16 (len + offset)) (Some buf)))
    end
  else
    b ← value a;
    b ← st b offset val;
    Some (Some (set_value a (value_len a) (Some b))).

Definition gatt_db_attribute_write (tid : Z) (attrib : option aptr) (offset : Z) (val : bytes)
    (opcode : Z) (f : option fn) : P bool :=
  match attrib, f with
  | Some p, Some f =>
    a ← get_attr p;
    match write_func a with
    | Some wf =>
      let id := u32 (write_id a + 1) in
      put_attr p (set_writes a id (pending_writes a ++ [Pending p id tid f]));;
      emit (WriteFunc (wf, user_data a) p id offset val opcode);;
      mret true
    | None =>
      if zlen val =? 0 then emit (WriteDone f p 0);; mret true
      else
        a' ← of_ub (written_value a offset val);
        match a' with
        | None => mret false
        | Some a' => put_attr p a';; emit (WriteDone f p 0);; mret true
        end
    end
  | _, _ => mret false
  end.

Definition gatt_db_attribute_write_result (attrib : option aptr) (id err : Z) : P bool :=
  match attrib with
  | None => mret false
  | Some q =>
    if id =? 0 then mret false
    else
      a ← get_attr q;
      match split_find (find_pending id) (pending_writes a) with
      | None => mret false
      | Some (x, p, y) =>
        put_attr q (set_writes a (write_id a) (x ++ y));;
        pending_write_result p err;;
        mret true
      end
  end.

Definition gatt_db_attribute_reset (attrib : option aptr) : P bool :=
  match attrib with
  | None => mret false
  | Some p =>
    a ← get_attr p;
    match value a with
    | None => mret true
    | Some _ =>
      if value_len a =? 0 then mret true
      else put_attr p (set_value a 0 None);; mret true
    end
  end.

End allocation.
