(* ===== verification/GattDbStore.v ===== *)
(** Reasoning about the store of GattDb.v: what its operations need and do, the
    well-formed databases, and the ranges of their services. *)
From Stdlib Require Import ZArith Lia Sorting.Sorted.
From S2P Require Import Prelude Uuid StateM QueueSpec GattDb.
From stdpp Require Import base numbers list option gmap.
Import Uuid.

Local Open Scope Z_scope.

(** ** Weakest preconditions *)

Section wp.
Implicit Types (w : world) (s d : addr) (v : gatt_db_service) (r : gatt_db).

Lemma wp_get_db d r w Q : dbs w !! d = Some r -> Q r w -> wp (get_db d) Q w.
Proof. intros H1 H2. exists r, w. unfold get_db, get_some. by rewrite H1. Qed.
Lemma wp_put_db d r w Q :
  Q tt (World (<[d := r]> (dbs w)) (svcs w) (events w)) -> wp (put_db d r) Q w.
Proof. intros H. by apply wp_modify. Qed.
Lemma wp_get_svc s v w Q : svcs w !! s = Some v -> Q v w -> wp (get_svc s) Q w.
Proof. intros H1 H2. exists v, w. unfold get_svc, get_some. by rewrite H1. Qed.
Lemma wp_put_svc s v w Q :
  Q tt (World (dbs w) (<[s := v]> (svcs w)) (events w)) -> wp (put_svc s v) Q w.
Proof. intros H. by apply wp_modify. Qed.
Lemma wp_emit e w Q : Q tt (World (dbs w) (svcs w) (events w ++ [e])) -> wp (emit e) Q w.
Proof. intros H. by apply wp_modify. Qed.
Lemma wp_of_ub {A} (x : ub A) a w Q : x = Some a -> Q a w -> wp (of_ub x) Q w.
Proof. intros Hx H. exists a, w. unfold of_ub, get_some. by rewrite Hx. Qed.

(** The attribute of a service at a slot. *)
Definition slot v (i : nat) : option gatt_db_attribute := attributes v !! i ≫= id.
Definition attr_at w (p : aptr) : option gatt_db_attribute :=
  v ← svcs w !! fst p; slot v (snd p).

Lemma wp_get_slot s i v a w Q :
  svcs w !! s = Some v -> attributes v !! i = Some a -> Q a w -> wp (get_slot s i) Q w.
Proof. intros Hs Ha H. apply wp_bind. eapply wp_get_svc; [done|]. by eapply wp_of_ub. Qed.

Lemma wp_get_attr p a w Q : attr_at w p = Some a -> Q a w -> wp (get_attr p) Q w.
Proof.
  destruct p as [s i]. unfold attr_at, slot. cbn.
  intros (v & Hs & (x & Hi & Hx)%bind_Some)%bind_Some H. cbn in Hx. subst x.
  apply wp_bind. eapply wp_get_slot; [done..|]. by eapply wp_of_ub.
Qed.

(** A service with another attribute in a slot. *)
Definition with_slot v (i : nat) (a : option gatt_db_attribute) : gatt_db_service :=
  Service (s_db v) (active v) (claimed v) (num_handles v) (<[i := a]> (attributes v)).

Lemma wp_set_slot s i a v w Q :
  svcs w !! s = Some v -> (i < length (attributes v))%nat ->
  Q tt (World (dbs w) (<[s := with_slot v i a]> (svcs w)) (events w)) ->
  wp (set_slot s i a) Q w.
Proof.
  intros Hs Hi H. apply wp_bind. eapply wp_get_svc; [done|].
  destruct (lookup_lt_is_Some_2 _ _ Hi) as [x Hx].
  apply wp_bind. eapply wp_of_ub; [done|]. by apply wp_put_svc.
Qed.

Lemma wp_put_attr s i a b v w Q :
  svcs w !! s = Some v -> slot v i = Some b ->
  Q tt (World (dbs w) (<[s := with_slot v i (Some a)]> (svcs w)) (events w)) ->
  wp (put_attr (s, i) a) Q w.
Proof.
  intros Hs Hb H. apply wp_bind. eapply wp_get_attr.
  { unfold attr_at. cbn. by rewrite Hs. }
  apply bind_Some in Hb as (x & Hx & _). eapply wp_set_slot; [done| |done].
  by apply lookup_lt_is_Some; eauto.
Qed.

(** ** Ranges *)

Definition decl v : option gatt_db_attribute := slot v 0.
Definition start_handle v : Z := from_option handle 0 (decl v).
Definition end_handle v : Z := start_handle v + num_handles v - 1.

(** The value of a declaration: the bytes of a UUID of 2 or 16 bytes. *)
Record decl_ok (a : gatt_db_attribute) (b : bytes) : Prop := {
  decl_type : uuid_ok (uuid a);
  decl_value : value a = Some b;
  decl_length : zlen b = value_len a;
  decl_width : value_len a = 2 \/ value_len a = 16;
  decl_bytes : bytes_ok b;
}.

Record svc_ok v : Prop := {
  svc_length : zlen (attributes v) = num_handles v;
  svc_decl : exists a b, decl v = Some a /\ decl_ok a b;
  svc_start : 1 <= start_handle v;
  svc_end : end_handle v <= UINT16_MAX;
  svc_num : 1 <= num_handles v;
}.

Lemma wp_get_handles s v w Q :
  svcs w !! s = Some v -> svc_ok v -> Q (start_handle v, end_handle v) w ->
  wp (gatt_db_service_get_handles s) Q w.
Proof.
  intros Hs Hok H. destruct (svc_decl v Hok) as (a & b & Ha & _).
  unfold gatt_db_service_get_handles. apply wp_bind. eapply wp_get_attr.
  { unfold attr_at. cbn. rewrite Hs. exact Ha. }
  apply wp_bind. eapply wp_get_svc; [done|]. apply wp_ret.
  destruct Hok as [_ _ H1 H2 H3]. unfold end_handle, start_handle in *. rewrite Ha in *.
  cbn in *. rewrite u16_small; [done|]. unfold UINT16_MAX in *. unfold is_u16. lia.
Qed.

(** The store has the databases [r] at [d]: its services are there, are distinct, are as
    they must be and belong to it. *)
Record db_wf d r w : Prop := {
  wf_db : dbs w !! d = Some r;
  wf_nodup : NoDup (services r);
  wf_services : forall s, s ∈ services r ->
    exists v, svcs w !! s = Some v /\ svc_ok v /\ s_db v = Some d;
  wf_refs : 1 <= ref_count r;
}.

Definition before w (s t : addr) : Prop :=
  exists v u, svcs w !! s = Some v /\ svcs w !! t = Some u /\ end_handle v < start_handle u.

(** The services are in order of their handles and do not overlap. *)
Definition ordered r w : Prop := StronglySorted (before w) (services r).

End wp.

(** ** UUIDs in values *)

Lemma le_to_uuid_value b : bytes_ok b -> zlen b = 2 \/ zlen b = 16 ->
  exists u, le_to_uuid b 0 (zlen b) = Some (Some u) /\ uuid_ok u.
Proof.
  intros Hb Hl. pose proof (le_val_range _ Hb) as Hr. unfold le_to_uuid.
  assert (b = [] ++ b ++ []) as Hbb by by rewrite app_nil_r.
  destruct Hl as [Hl|Hl]; rewrite Hl in *; cbn [Z.eqb Pos.eqb negb].
  - unfold get_le16. rewrite Hbb, (ld_mid [] b []) by (try done; by rewrite zlen_nil).
    eexists. split; [done|]. cbn. apply u16_range.
  - rewrite Hbb, (ld_mid [] b []) by (try done; by rewrite zlen_nil).
    eexists. split; [done|]. cbn. unfold bswap_128. split.
    + rewrite length_rev. unfold zlen in Hl. lia.
    + by apply bytes_ok_rev.
Qed.

(** The little-endian form of a UUID reads back as an equivalent UUID. *)
Lemma uuid_to_le_value u : uuid_ok u ->
  exists b u', uuid_to_le u = Some b /\ (zlen b = 2 \/ zlen b = 16) /\ bytes_ok b /\
    le_to_uuid b 0 (zlen b) = Some (Some u') /\ uuid_ok u' /\ u' ≡ u.
Proof.
  intros Hu. assert (forall l, ld l 0 (zlen l) = Some l) as Hld.
  { intros l. rewrite <- (app_nil_r l) at 1. by apply (ld_mid [] l []). }
  pose proof (uuid_bytes_length u Hu) as Hlen. pose proof (uuid_bytes_ok u Hu) as Hok.
  destruct u as [|v|v|l]; cbn in Hu; [done| | |].
  - exists (le_bytes 2 v), (UUID16 v). split_and!; [done|left; done|apply le_bytes_ok| |done|done].
    unfold le_to_uuid. change (zlen (le_bytes 2 v)) with 2. cbn [Z.eqb Pos.eqb].
    unfold get_le16. rewrite (Hld (le_bytes 2 v) : ld (le_bytes 2 v) 0 2 = _).
    cbn [fmap option_fmap option_map mbind option_bind].
    unfold bt_uuid16_create. by rewrite le16_val, u16_small.
  - set (l := uuid_bytes (UUID32 v)) in *.
    exists (rev l), (UUID128 l). change (uuid_to_le (UUID32 v)) with (Some (bswap_128 l)).
    assert (zlen (rev l) = 16) as Hz by (unfold zlen; rewrite length_rev; lia).
    split_and!; [done|by right|by apply bytes_ok_rev| |done|split; [done|split; done]].
    rewrite Hz. unfold le_to_uuid. cbn [Z.eqb Pos.eqb negb].
    rewrite <- Hz, Hld. cbn. unfold bswap_128, bt_uuid128_create. by rewrite rev_involutive.
  - exists (rev l), (UUID128 l). cbn in Hlen, Hok.
    assert (zlen (rev l) = 16) as Hz by (unfold zlen; rewrite length_rev; lia).
    split_and!; [done|by right|by apply bytes_ok_rev| |done|split; [done|split; done]].
    rewrite Hz. unfold le_to_uuid. cbn [Z.eqb Pos.eqb negb].
    rewrite <- Hz, Hld. cbn. unfold bswap_128, bt_uuid128_create. by rewrite rev_involutive.
Qed.

Lemma uuid_ok_specified u : uuid_ok u -> u <> UUID_UNSPEC.
Proof. by destruct u. Qed.

Lemma wp_uuid_differs u u' w Q :
  uuid_ok u -> uuid_ok u' ->
  (forall b, (b = false <-> u ≡ u') -> Q b w) -> wp (uuid_differs u u') Q w.
Proof.
  intros Hu Hu' H. unfold uuid_differs. apply wp_bind.
  eapply wp_of_ub.
  { apply bt_uuid_cmp_memcmp; by apply uuid_ok_specified. }
  apply wp_ret, H. rewrite negb_false_iff, Z.eqb_eq, Libc.Libc.memcmp_eq
    by by rewrite !uuid_bytes_length.
  unfold equiv, uuid_equiv. split; [|by intros []]. intros ->. split; [done|].
  split; intros ->; done.
Qed.

Lemma primary_not_secondary : ~ primary_service_uuid ≡ secondary_service_uuid.
Proof. intros [H _]. by vm_compute in H. Qed.

(** One step of symbolic execution; the lookups are left to the context. *)
Ltac g_step :=
  first
    [ wp_step
    | apply wp_put_db
    | apply wp_put_svc
    | apply wp_emit
    | eapply wp_get_db; [first [eassumption | cbn [dbs svcs events]; by rewrite ?lookup_insert_eq]|]
    | eapply wp_get_svc; [first [eassumption | cbn [dbs svcs events]; by rewrite ?lookup_insert_eq]|]
    | eapply wp_get_attr; [eassumption|]
    | eapply wp_of_ub; [first [eassumption | reflexivity]|] ];
  cbn beta.
Ltac g_steps :=
  repeat (first [progress unfold set_ref_count, set_next_handle, set_services,
                   set_notify_list, set_next_notify_id | g_step];
          cbn [dbs svcs events GattDb.ref_count next_handle services notify_list
               next_notify_id]).
