(* ===== verification/GattDbInsert.v ===== *)
(** Insertion of services into the database of GattDb.v: the order of the services and
    their handle ranges, and the data of a new declaration. *)
From Stdlib Require Import ZArith Lia Sorting.Sorted.
From S2P Require Import Prelude Uuid StateM QueueSpec GattDb GattDbStore.
From stdpp Require Import base numbers list option gmap sorting.
Import Uuid.

Local Open Scope Z_scope.

(** ** The UUID and the data of a service *)

Definition kind_uuid (primary : bool) : bt_uuid :=
  if primary then primary_service_uuid else secondary_service_uuid.

Lemma kind_uuid_ok primary : uuid_ok (kind_uuid primary).
Proof. by destruct primary; vm_compute. Qed.

(** The service at [s] declares the UUID [u]. *)
Definition declares (v : gatt_db_service) (a : gatt_db_attribute) (u : bt_uuid) : Prop :=
  exists b, decl v = Some a /\ decl_ok a b /\ le_to_uuid b 0 (zlen b) = Some (Some u) /\
    uuid_ok u.

Lemma svc_declares v : svc_ok v -> exists a u, declares v a u.
Proof.
  intros Hok. destruct (svc_decl v Hok) as (a & b & Ha & Hd).
  destruct (le_to_uuid_value b (decl_bytes a b Hd)) as (u & Hu & Huok).
  { rewrite (decl_length a b Hd). apply Hd. }
  exists a, u, b. done.
Qed.

Lemma wp_service_uuid s i v a u w Q :
  svcs w !! s = Some v -> declares v a u -> Q (Some u) w ->
  wp (gatt_db_attribute_get_service_uuid (Some (s, i))) Q w.
Proof.
  intros Hs (b & Ha & [_ Hv Hl Hw Hb] & Hu & _) H.
  unfold gatt_db_attribute_get_service_uuid. apply wp_bind. eapply wp_get_attr.
  { unfold attr_at. cbn. rewrite Hs. exact Ha. }
  unfold le_to_uuid in Hu. rewrite Hl in Hu.
  destruct Hw as [Hw|Hw]; rewrite Hw in *; cbn [Z.eqb Pos.eqb negb] in *.
  - destruct (get_le16 b 0) as [x|] eqn:Hx; [|done]. cbn in Hu. simplify_eq.
    apply wp_bind. eapply wp_of_ub; [done|]. apply wp_bind. eapply wp_of_ub; [done|].
    by apply wp_ret.
  - destruct (ld b 0 16) as [x|] eqn:Hx; [|done]. cbn in Hu. simplify_eq.
    apply wp_bind. eapply wp_of_ub; [done|]. apply wp_bind. eapply wp_of_ub; [done|].
    by apply wp_ret.
Qed.

Lemma wp_service_data s i v a u w Q :
  svcs w !! s = Some v -> svc_ok v -> declares v a u ->
  (forall primary, (primary = false <-> uuid a ≡ secondary_service_uuid) ->
     Q (Some (start_handle v, end_handle v, primary, Some u)) w) ->
  wp (gatt_db_attribute_get_service_data (Some (s, i))) Q w.
Proof.
  intros Hs Hok (b & Ha & Hd & Hu & _) H.
  unfold gatt_db_attribute_get_service_data. apply wp_bind. eapply wp_get_attr.
  { unfold attr_at. cbn. rewrite Hs. exact Ha. }
  apply wp_bind. eapply wp_get_handles; [done..|].
  apply wp_bind, wp_uuid_differs; [apply Hd|by vm_compute|]. intros primary Hp.
  apply wp_bind. eapply wp_of_ub.
  { rewrite (decl_value a b Hd), <- (decl_length a b Hd). exact Hu. }
  apply wp_ret. by apply H.
Qed.

(** ** The place of a new range *)

(** One end of the range is inside the service. *)
Definition overlaps (hdl end_ : Z) (v : gatt_db_service) : Prop :=
  start_handle v <= hdl <= end_handle v \/ start_handle v <= end_ <= end_handle v.

(** The service lies strictly inside the range. *)
Definition enclosed (hdl end_ : Z) (v : gatt_db_service) : Prop :=
  hdl < start_handle v /\ end_handle v < end_.

Definition service_of (w : world) (s : addr) (R : gatt_db_service -> Prop) : Prop :=
  exists v, svcs w !! s = Some v /\ svc_ok v /\ R v.

Lemma wp_find_insert_loc w l hdl end_ after Q :
  hdl <= end_ ->
  (forall s, s ∈ l -> exists v, svcs w !! s = Some v /\ svc_ok v) ->
  (forall s v, s ∈ l -> svcs w !! s = Some v -> ~ enclosed hdl end_ v) ->
  (forall s after', s ∈ l -> service_of w s (overlaps hdl end_) -> Q (Some s, after') w) ->
  (forall l1 l2, l = l1 ++ l2 ->
     Forall (fun s => service_of w s (fun v => end_handle v < hdl)) l1 ->
     (l2 = [] \/ exists s l3, l2 = s :: l3 /\
        service_of w s (fun v => end_ < start_handle v)) ->
     Q (None, match last l1 with Some s => Some s | None => after end) w) ->
  wp (find_insert_loc l hdl end_ after) Q w.
Proof.
  intros Hle. revert after Q.
  induction l as [|s l IH]; intros after Q Hl Hne Hin Hout; cbn [find_insert_loc].
  { apply wp_ret. apply (Hout [] []); [done|by constructor|by left]. }
  destruct (Hl s) as (v & Hs & Hok); [set_solver|].
  apply wp_bind. eapply wp_get_handles; [done..|].
  destruct ((start_handle v <=? hdl) && (hdl <=? end_handle v)) eqn:H1.
  { apply wp_ret, Hin; [set_solver|]. exists v. split_and!; [done..|]. left. lia. }
  destruct ((start_handle v <=? end_) && (end_ <=? end_handle v)) eqn:H2.
  { apply wp_ret, Hin; [set_solver|]. exists v. split_and!; [done..|]. right. lia. }
  destruct (Z.ltb_spec end_ (start_handle v)) as [H3|H3].
  { apply wp_ret. apply (Hout [] (s :: l)); [done|by constructor|]. right.
    exists s, l. split; [done|]. by exists v. }
  assert (end_handle v < hdl) as H4.
  { specialize (Hne s v ltac:(set_solver) Hs). unfold enclosed in Hne. lia. }
  apply IH.
  - intros t Ht. apply Hl. set_solver.
  - intros t u Ht. apply Hne. set_solver.
  - intros t after' Ht. apply Hin. set_solver.
  - intros l1 l2 -> Hl1 Hl2.
    specialize (Hout (s :: l1) l2 eq_refl). rewrite last_cons in Hout.
    destruct (last l1); (apply Hout; [|done]); (constructor; [|done]); by exists v.
Qed.

(** ** A new service *)

(** [malloc0] of C, as far as it is relied on: a block has the size that was asked for. *)
Definition malloc_ok (malloc0 : Z -> option bytes) : Prop :=
  forall n b, 0 <= n -> malloc0 n = Some b -> zlen b = n.

Definition new_decl (hdl : Z) (primary : bool) (b : bytes) : gatt_db_attribute :=
  Attribute hdl (kind_uuid primary) BT_ATT_PERM_READ (zlen b) (Some b) None None 0 0 [] 0 [].

Definition new_service (d : addr) (hdl : Z) (primary : bool) (b : bytes) (num : Z)
    : gatt_db_service :=
  Service (Some d) false false num
    (Some (new_decl hdl primary b) :: replicate (Z.to_nat (num - 1)) None).

Lemma new_attribute_value malloc0 hdl type b blk :
  0 < zlen b -> malloc0 (zlen b) = Some blk -> zlen blk = zlen b ->
  new_attribute malloc0 hdl type b (zlen b)
    = Some (Some (Attribute hdl type 0 (zlen b) (Some b) None None 0 0 [] 0 [])).
Proof.
  intros Hb Hm Hl. unfold new_attribute. rewrite (proj2 (Z.eqb_neq _ _)) by lia. cbn [negb].
  rewrite Hm. rewrite <- (app_nil_r b) at 1. rewrite (ld_mid [] b []) by done.
  cbn [mbind option_bind]. rewrite st_0 by lia.
  rewrite drop_ge by (unfold zlen in Hl; lia). cbn. by rewrite app_nil_r.
Qed.

Lemma new_attribute_none malloc0 hdl type b :
  0 < zlen b -> malloc0 (zlen b) = None ->
  new_attribute malloc0 hdl type b (zlen b) = Some None.
Proof.
  intros Hb Hm. unfold new_attribute. rewrite (proj2 (Z.eqb_neq _ _)) by lia. cbn [negb].
  by rewrite Hm.
Qed.

(** The service as [gatt_db_service_create] leaves it: its size is not recorded yet. *)
Definition created (hdl : Z) (primary : bool) (b : bytes) (num : Z) : gatt_db_service :=
  Service None false false 0
    (Some (new_decl hdl primary b) :: replicate (Z.to_nat (num - 1)) None).

Lemma wp_service_create malloc0 u hdl primary num b w Q :
  malloc_ok malloc0 -> uuid_to_le u = Some b -> 0 < zlen b -> 1 <= num ->
  (malloc0 (zlen b) = None -> Q None w) ->
  (forall s, svcs w !! s = None ->
     Q (Some s) (World (dbs w) (<[s := created hdl primary b num]> (svcs w)) (events w))) ->
  wp (gatt_db_service_create malloc0 u hdl primary num) Q w.
Proof.
  intros Hmal Hb Hlen Hnum Hnone Hsome. unfold gatt_db_service_create.
  rewrite (proj2 (Z.ltb_ge _ _)) by lia.
  apply wp_bind, wp_gets. set (s := fresh (dom (svcs w))).
  assert (svcs w !! s = None) as Hs by (apply not_elem_of_dom, is_fresh).
  assert (replicate (Z.to_nat num) (@None gatt_db_attribute)
    = None :: replicate (Z.to_nat (num - 1)) None) as ->.
  { replace (Z.to_nat num) with (S (Z.to_nat (num - 1))) by lia. done. }
  apply wp_bind, wp_put_svc, wp_bind. eapply wp_of_ub; [exact Hb|]. apply wp_bind.
  change (if primary then primary_service_uuid else secondary_service_uuid)
    with (kind_uuid primary).
  destruct (malloc0 (zlen b)) as [blk|] eqn:Hm.
  - eapply wp_of_ub; [by eapply new_attribute_value, Hmal; [..|lia|]|].
    apply wp_bind. eapply wp_set_slot; [apply lookup_insert_eq|cbn; lia|].
    cbn [dbs svcs events]. rewrite insert_insert_eq.
    apply wp_bind. unfold set_attribute_data. apply wp_bind. eapply wp_get_attr.
    { unfold attr_at. cbn. by rewrite lookup_insert_eq. }
    eapply wp_put_attr; [apply lookup_insert_eq|done|].
    cbn [dbs svcs events]. rewrite insert_insert_eq. apply wp_ret.
    by apply Hsome.
  - eapply wp_of_ub; [by apply new_attribute_none|].
    apply wp_bind. eapply wp_set_slot; [apply lookup_insert_eq|cbn; lia|].
    cbn [dbs svcs events]. rewrite insert_insert_eq.
    apply wp_bind. unfold gatt_db_service_destroy, service_destroy_with.
    apply wp_bind. eapply wp_get_svc; [apply lookup_insert_eq|]. cbn [active with_slot].
    apply wp_bind, wp_when_false, wp_bind. unfold attribute_destroy_all. apply wp_bind.
    unfold used_slots. apply wp_bind. eapply wp_get_svc; [apply lookup_insert_eq|].
    cbn [num_handles with_slot]. rewrite (proj2 (Z.leb_le _ _)) by apply zlen_nonneg.
    apply wp_ret. cbn [Z.to_nat take imap omap]. apply wp_ret, wp_modify.
    cbn [dbs svcs events]. rewrite delete_insert_id by done. apply wp_ret.
    destruct w. by apply Hnone.
Qed.

(** ** Insertion *)

Lemma push_after_last {A} `{EqDecision A} (l1 l2 : list A) e x :
  NoDup (l1 ++ e :: l2) -> push_after e x (l1 ++ e :: l2) = Some (l1 ++ e :: x :: l2).
Proof.
  intros Hnd. unfold push_after.
  assert (split_find (fun y => bool_decide (e = y)) (l1 ++ e :: l2) = Some (l1, e, l2)) as ->;
    [|done].
  apply NoDup_app in Hnd as (_ & Hd & _). revert Hd.
  induction l1 as [|y l1 IH]; intros Hd; cbn.
  - by rewrite bool_decide_eq_true_2.
  - rewrite bool_decide_eq_false_2 by (intros ->; set_solver). rewrite IH; [done|].
    intros z Hz. apply Hd. set_solver.
Qed.

Lemma before_frame w w' s t :
  (svcs w' !! s = svcs w !! s) -> (svcs w' !! t = svcs w !! t) -> before w s t -> before w' s t.
Proof. intros Hs Ht (v & u & H1 & H2 & H3). exists v, u. by rewrite Hs, Ht. Qed.

Lemma StronglySorted_impl_in {A} (R R' : A -> A -> Prop) l :
  (forall x y, x ∈ l -> y ∈ l -> R x y -> R' x y) -> StronglySorted R l -> StronglySorted R' l.
Proof.
  intros H. induction 1 as [|x l Hl IH Hx]; constructor.
  - apply IH. intros y z Hy Hz. apply H; set_solver.
  - rewrite Forall_forall in Hx |- *. intros y Hy. apply H; set_solver.
Qed.

Section insertion.
Variables (malloc0 : Z -> option bytes) (d : addr) (r : gatt_db) (w : world).
Hypothesis Hmalloc : malloc_ok malloc0.
Hypothesis Hwf : db_wf d r w.
Hypothesis Hord : ordered r w.

Lemma new_service_ok hdl primary b num :
  1 <= hdl -> 1 <= num -> hdl + num - 1 <= UINT16_MAX -> bytes_ok b ->
  zlen b = 2 \/ zlen b = 16 -> svc_ok (new_service d hdl primary b num).
Proof.
  intros H1 H2 H3 Hb Hw. constructor; cbn [new_service attributes num_handles].
  - rewrite zlen_cons. unfold zlen. rewrite length_replicate. lia.
  - eexists _, b. split; [done|]. constructor; cbn; [apply kind_uuid_ok|done..].
  - done.
  - done.
  - done.
Qed.

(** The database and the store after the new service was linked between [l1] and [l2]. *)
Definition linked (l : list addr) (nh : Z) : gatt_db :=
  Db (ref_count r) nh l (notify_list r) (next_notify_id r).

Lemma linked_wf l1 l2 s v nh :
  services r = l1 ++ l2 -> svcs w !! s = None -> svc_ok v -> s_db v = Some d ->
  Forall (fun t => service_of w t (fun u => end_handle u < start_handle v)) l1 ->
  (l2 = [] \/ exists t l3, l2 = t :: l3 /\
     service_of w t (fun u => end_handle v < start_handle u)) ->
  let r' := linked (l1 ++ s :: l2) nh in
  let w' := World (<[d := r']> (dbs w)) (<[s := v]> (svcs w)) (events w) in
  db_wf d r' w' /\ ordered r' w'.
Proof using All.
  intros Hl Hs Hok Hdb H1 H2 r' w'.
  destruct Hwf as [Hd Hnd Hsv Hrc]. unfold ordered in Hord. rewrite Hl in Hnd, Hsv, Hord.
  assert (forall t, t ∈ l1 ++ l2 -> t <> s) as Hne.
  { intros t Ht ->. destruct (Hsv s Ht) as (x & Hx & _). congruence. }
  assert (forall t, t ∈ l1 ++ l2 -> svcs w' !! t = svcs w !! t) as Hsame.
  { intros t Ht. cbn. rewrite lookup_insert_ne; [done|]. symmetry. by apply Hne. }
  assert (forall t, t ∈ l1 ++ l2 -> exists x, svcs w' !! t = Some x /\ svc_ok x /\ s_db x = Some d)
    as Hold by (intros t Ht; rewrite Hsame by done; by apply Hsv).
  assert (svcs w' !! s = Some v) as Hnew by (cbn; by rewrite lookup_insert_eq).
  split.
  - constructor; cbn.
    + by rewrite lookup_insert_eq.
    + rewrite <- Permutation_middle. apply NoDup_cons. split; [|done].
      intros H. by apply (Hne s).
    + intros t [Ht|[->|Ht]%elem_of_cons]%elem_of_app.
      * apply Hold. set_solver.
      * by exists v.
      * apply Hold. set_solver.
    + done.
  - unfold ordered. cbn [services linked r'].
    assert (StronglySorted (before w') (l1 ++ l2)) as HS.
    { eapply StronglySorted_impl_in, Hord. intros x y Hx Hy.
      apply before_frame; by apply Hsame. }
    apply StronglySorted_app in HS as (H12 & HS1 & HS2).
    assert (Forall (before w' s) l2) as Hafter.
    { destruct H2 as [->|(t & l3 & -> & u & Ht & Hu & Hlt)]; [constructor|].
      assert (svcs w' !! t = Some u) as Ht' by (rewrite Hsame by set_solver; done).
      apply StronglySorted_inv in HS2 as [_ H3]. constructor; [by exists v, u|].
      rewrite Forall_forall in H3 |- *. intros x Hx. specialize (H3 x Hx).
      destruct H3 as (u' & y & Hu' & Hy & Hlt'). exists v, y. split_and!; [done..|].
      rewrite Ht' in Hu'. simplify_eq. destruct Hu as [_ _ _ _ Hn].
      unfold end_handle in *. lia. }
    apply StronglySorted_app. split_and!; [|done|].
    + intros x y Hx [->|Hy]%elem_of_cons; [|by apply H12].
      rewrite Forall_forall in H1. destruct (H1 x Hx) as (u & Hxu & _ & Hlt).
      exists u, v. split_and!; [|done|done]. rewrite Hsame by set_solver. done.
    + constructor; done.
Qed.

(** What a successful insertion promises: the attribute declares a service of this
    database with the range, kind and UUID that were asked for. *)
Definition declares_request (p : aptr) (hdl : Z) (u : bt_uuid) (primary : bool) (num : Z)
    (r' : gatt_db) (w' : world) : Prop :=
  fst p ∈ services r' /\
  exists u', u' ≡ u /\
    gatt_db_attribute_get_service_data (Some p) w'
      = Some (Some (hdl, hdl + num - 1, primary, Some u'), w').

Lemma declares_request_intro s v a u' hdl u primary num r' w' :
  s ∈ services r' -> svcs w' !! s = Some v -> svc_ok v -> declares v a u' ->
  start_handle v = hdl -> num_handles v = num -> uuid a ≡ kind_uuid primary -> u' ≡ u ->
  declares_request (s, 0%nat) hdl u primary num r' w'.
Proof.
  intros Hs Hv Hok Ha <- <- Hk Hu. split; [done|]. exists u'. split; [done|].
  destruct (wp_service_data s 0 v a u' w'
    (fun x y => x = Some (start_handle v, end_handle v, primary, Some u') /\ y = w') Hv Hok Ha)
    as (x & y & -> & -> & ->); [|done].
  intros p Hp. do 3 f_equal. split; [|done]. do 3 f_equal.
  rewrite Hk in Hp. destruct primary; cbn in Hp.
  - destruct p; [done|]. exfalso. by apply primary_not_secondary, Hp.
  - by apply Hp.
Qed.

(** Why an insertion returns NULL. *)
Definition refused (hdl num : Z) : Prop :=
  hdl < 1 \/ num < 1 \/ UINT16_MAX < hdl + num - 1 \/
  (exists s, s ∈ services r /\ service_of w s (overlaps hdl (hdl + num - 1))) \/
  exists n, malloc0 n = None.

(** The end of an insertion: the new service is linked behind [l1] and filled in. *)
Lemma wp_insert_new l1 l2 s hdl primary b num u u' after Q :
  services r = l1 ++ l2 -> svcs w !! s = None ->
  1 <= hdl -> 1 <= num -> hdl + num - 1 <= UINT16_MAX ->
  bytes_ok b -> zlen b = 2 \/ zlen b = 16 ->
  le_to_uuid b 0 (zlen b) = Some (Some u') -> uuid_ok u' -> u' ≡ u ->
  Forall (fun t => service_of w t (fun v => end_handle v < hdl)) l1 ->
  (l2 = [] \/ exists t l3, l2 = t :: l3 /\
     service_of w t (fun v => hdl + num - 1 < start_handle v)) ->
  after = last l1 ->
  (forall r' w', db_wf d r' w' -> ordered r' w' ->
     declares_request (s, 0%nat) hdl u primary num r' w' -> Q (Some (s, 0%nat)) w') ->
  wp (r ← get_db d;
      match (match after with
             | Some e => push_after e s (services r)
             | None => Some (s :: services r)
             end) with
      | None => gatt_db_service_destroy s;; mret None
      | Some l =>
        set_services d l;;
        v ← get_svc s;
        put_svc s (Service (Some d) (active v) (claimed v) (num_handles v) (attributes v));;
        a ← get_attr (s, 0%nat);
        put_attr (s, 0%nat)
          (Attribute hdl (uuid a) (permissions a) (value_len a) (value a)
             (read_func a) (write_func a) (user_data a) (read_id a) (pending_reads a)
             (write_id a) (pending_writes a));;
        v ← get_svc s;
        put_svc s (Service (s_db v) (active v) (claimed v) num (attributes v));;
        r ← get_db d;
        set_next_handle d (u16 (Z.max (hdl + num) (next_handle r)));;
        mret (Some (s, 0%nat))
      end) Q (World (dbs w) (<[s := created hdl primary b num]> (svcs w)) (events w)).
Proof using All.
  intros Hl Hs H1 H2 H3 Hb Hw Hu' Huok Huu Hl1 Hl2 -> HQ.
  pose proof (wf_db d r w Hwf) as Hd. pose proof (wf_nodup d r w Hwf) as Hnd.
  apply wp_bind. eapply wp_get_db; [exact Hd|].
  assert (match last l1 with
          | Some e => push_after e s (services r)
          | None => Some (s :: services r)
          end = Some (l1 ++ s :: l2)) as ->.
  { rewrite Hl in *. destruct l1 as [|e l _] using rev_ind; [done|].
    rewrite last_snoc, <- !app_assoc in *. by apply push_after_last. }
  unfold set_services, set_next_handle. g_steps. rewrite !insert_insert_eq.
  eapply wp_get_attr.
  { unfold attr_at. cbn. by rewrite lookup_insert_eq. }
  g_step. eapply wp_put_attr; [apply lookup_insert_eq|done|].
  cbn [dbs svcs events]. rewrite insert_insert_eq. g_steps. rewrite !insert_insert_eq.
  destruct (linked_wf l1 l2 s (new_service d hdl primary b num)
    (u16 (Z.max (hdl + num) (next_handle r)))) as [Hwf' Hord']; try done.
  { by apply new_service_ok. }
  eapply HQ; [exact Hwf'|exact Hord'|].
  eapply declares_request_intro.
  - cbn. set_solver.
  - cbn. apply lookup_insert_eq.
  - by apply new_service_ok.
  - exists b. split_and!; [done| |done|done].
    constructor; cbn; [apply kind_uuid_ok|done..].
  - done.
  - done.
  - done.
  - done.
Qed.
End insertion.

Lemma wp_existing s v a u0 hdl u primary num w Q :
  svcs w !! s = Some v -> svc_ok v -> declares v a u0 -> uuid_ok u ->
  (uuid a ≡ kind_uuid primary -> u0 ≡ u -> num_handles v = num -> start_handle v = hdl ->
     Q (Some (s, 0%nat)) w) ->
  Q None w ->
  wp (val ← gatt_db_attribute_get_service_uuid (Some (s, 0%nat));
      a ← get_attr (s, 0%nat);
      v ← get_svc s;
      differs ← uuid_differs (uuid a) (kind_uuid primary);
      if (differs : bool) then mret None
      else
        val ← read_uuid val;
        differs ← uuid_differs val u;
        if negb (differs : bool) && (num_handles v =? num) && (handle a =? hdl)
        then mret (Some (s, 0%nat)) else mret None) Q w.
Proof.
  intros Hs Hok Hd Hu H HN. pose proof Hd as (b & Ha & Hdo & _ & Huok).
  apply wp_bind. eapply wp_service_uuid; [done..|].
  apply wp_bind. eapply wp_get_attr.
  { unfold attr_at. cbn. rewrite Hs. exact Ha. }
  apply wp_bind. eapply wp_get_svc; [done|].
  apply wp_bind, wp_uuid_differs; [apply Hdo|apply kind_uuid_ok|]. intros [|] Hk; [by apply wp_ret|].
  unfold read_uuid. apply wp_bind. eapply wp_of_ub; [done|].
  apply wp_bind, wp_uuid_differs; [done..|]. intros [|] Hk'; cbn [negb andb]; [by apply wp_ret|].
  destruct (Z.eqb_spec (num_handles v) num) as [Hn|Hn]; cbn [andb]; [|by apply wp_ret].
  destruct (Z.eqb_spec (handle a) hdl) as [Hh|Hh]; [|by apply wp_ret].
  apply wp_ret, H; [by apply Hk|by apply Hk'|done|]. unfold start_handle. by rewrite Ha.
Qed.

(** C2. Insertion keeps the database in order: on a well-formed database whose services are
    ordered by handle and do not overlap, and for a range that does not strictly enclose a
    service, [gatt_db_insert_service] is defined and leaves such a database.  If it
    returns an attribute, that attribute declares a service of the database with exactly
    the range, kind and UUID that were asked for, whether it was new or there already; if
    it returns NULL nothing has changed, and the handle or the range was out of bounds, or
    an end of the range was taken, or there was no memory. *)
Theorem gatt_db_insert_service_ordered malloc0 d r w hdl u primary num :
  malloc_ok malloc0 -> db_wf d r w -> ordered r w -> uuid_ok u ->
  (forall s v, s ∈ services r -> svcs w !! s = Some v -> ~ enclosed hdl (hdl + num - 1) v) ->
  exists res w', gatt_db_insert_service malloc0 (Some d) hdl u primary num w = Some (res, w') /\
    exists r', db_wf d r' w' /\ ordered r' w' /\
    match res with
    | Some p => declares_request p hdl u primary num r' w'
    | None => w' = w /\ refused malloc0 r w hdl num
    end.
Proof.
  intros Hmal Hwf Hord Hu Hne.
  enough (wp (gatt_db_insert_service malloc0 (Some d) hdl u primary num)
    (fun res w' => exists r', db_wf d r' w' /\ ordered r' w' /\
       match res with
       | Some p => declares_request p hdl u primary num r' w'
       | None => w' = w /\ refused malloc0 r w hdl num
       end) w) as (res & w' & Hres & H) by by exists res, w'.
  assert (refused malloc0 r w hdl num ->
    exists r', db_wf d r' w /\ ordered r' w /\ w = w /\ refused malloc0 r w hdl num)
    as Hnone by (intros H; by exists r).
  unfold gatt_db_insert_service. unfold refused in *.
  destruct (Z.ltb_spec hdl 1) as [H1|H1]; [apply wp_ret; auto|].
  destruct (Z.ltb_spec num 1) as [H2|H2]; cbn [orb]; [apply wp_ret; auto|].
  destruct (Z.ltb_spec UINT16_MAX (hdl + num - 1)) as [H3|H3]; [apply wp_ret; auto|].
  apply wp_bind. eapply wp_get_db; [apply Hwf|]. apply wp_bind.
  rewrite (u16_small (hdl + num - 1)) by (unfold is_u16, UINT16_MAX in *; lia).
  apply wp_find_insert_loc; [lia| |exact Hne| |].
  - intros s Hs. destruct (wf_services d r w Hwf s Hs) as (v & Hv & Hok & _). by exists v.
  - intros s after Hs Hov. pose proof Hov as (v & Hv & Hok & _).
    destruct (svc_declares v Hok) as (a & u0 & Hd).
    eapply wp_existing; [done..| |].
    + intros Hk Hu0 Hn Hh. exists r. split_and!; [done..|].
      by eapply declares_request_intro.
    + apply Hnone. do 3 right. left. by exists s.
  - intros l1 l2 Hl Hl1 Hl2.
    destruct (uuid_to_le_value u Hu) as (b & u' & Hb & Hw & Hbok & Hu' & Huok & Huu).
    apply wp_bind. eapply wp_service_create; [done|exact Hb|lia|lia| |].
    + intros Hm. apply wp_ret, Hnone. do 4 right. by exists (zlen b).
    + intros s Hs. eapply (wp_insert_new malloc0 d r w Hmal Hwf Hord l1 l2); try done.
      * by destruct (last l1).
      * intros r' w' Hwf' Hord' Hdecl. by exists r'.
Qed.

(** ** Witnesses *)

Definition demo_malloc (n : Z) : option bytes := Some (replicate (Z.to_nat n) 0).

(** A database with the battery service at the handles 5 to 8. *)
Definition demo_db : gatt_db := Db 1 9 [1%positive] (Some []) 0.
Definition demo_svc : gatt_db_service := new_service 1 5 true [0x0f; 0x18] 4.
Definition demo_world : world := World {[1%positive := demo_db]} {[1%positive := demo_svc]} [].

Lemma demo_malloc_ok : malloc_ok demo_malloc.
Proof.
  intros n b Hn H. unfold demo_malloc in H. simplify_eq.
  unfold zlen. rewrite length_replicate. lia.
Qed.

Lemma demo_svc_ok : svc_ok demo_svc.
Proof.
  apply new_service_ok; [lia|lia|unfold UINT16_MAX; lia| |by left].
  by apply (bool_decide_unpack _).
Qed.

Lemma demo_wf : db_wf 1 demo_db demo_world.
Proof.
  constructor; [done|by apply (bool_decide_unpack _)| |done].
  intros s ->%list_elem_of_singleton. exists demo_svc. split_and!; [done|apply demo_svc_ok|done].
Qed.

Lemma demo_ordered : ordered demo_db demo_world.
Proof. repeat constructor. Qed.

Lemma gatt_db_insert_service_ordered_witness :
  exists res w', gatt_db_insert_service demo_malloc (Some 1%positive) 9 (UUID16 0x180a) true 2
      demo_world = Some (res, w') /\
    exists r', db_wf 1 r' w' /\ ordered r' w' /\
    match res with
    | Some p => declares_request p 9 (UUID16 0x180a) true 2 r' w'
    | None => w' = demo_world /\ refused demo_malloc demo_db demo_world 9 2
    end.
Proof.
  apply gatt_db_insert_service_ordered.
  - apply demo_malloc_ok.
  - apply demo_wf.
  - apply demo_ordered.
  - by apply (bool_decide_unpack _).
  - intros s v Hs Hv. apply list_elem_of_singleton in Hs as ->. vm_compute in Hv.
    injection Hv as <-. intros [H _]. vm_compute in H. done.
Defined.

(** The search for the place of a new range looks at the ends of the range only: a range
    that encloses a service is accepted, and afterwards the handles of that service
    belong to two services. *)
Theorem gatt_db_insert_service_encloses :
  exists w', gatt_db_insert_service demo_malloc (Some 1%positive) 4 (UUID16 0x180a) true 6
      demo_world = Some (Some (2%positive, 0%nat), w') /\
    gatt_db_service_get_handles 1 w' = Some ((5, 8), w') /\
    gatt_db_service_get_handles 2 w' = Some ((4, 9), w').
Proof. eexists. split_and!; vm_compute; reflexivity. Qed.
