(* ===== verification/GattDbLife.v ===== *)
(** Removal of services from the database of GattDb.v, the notification of listeners, and
    the database after it was cleared. *)
From Stdlib Require Import ZArith Lia Sorting.Sorted.
From S2P Require Import Prelude Uuid StateM QueueSpec GattDb GattDbStore GattDbInsert.
From stdpp Require Import base numbers list option gmap.
Import Uuid.

Local Open Scope Z_scope.

(** Computations that only add events. *)
Definition only_events (e : P unit) (w : world) : Prop :=
  wp e (fun _ w' => exists l, w' = World (dbs w) (svcs w) (events w ++ l)) w.

Lemma only_events_ret w : only_events (mret tt) w.
Proof. apply wp_ret. exists []. rewrite app_nil_r. by destruct w. Qed.

Lemma only_events_emit e w : only_events (emit e) w.
Proof. apply wp_emit. by exists [e]. Qed.

Lemma only_events_seq e1 e2 w :
  only_events e1 w -> (forall l, only_events e2 (World (dbs w) (svcs w) (events w ++ l))) ->
  only_events (e1;; e2) w.
Proof.
  intros H1 H2. apply wp_bind. eapply wp_mono, H1. intros [] w' [l ->].
  eapply wp_mono, H2. intros [] w' [k ->]. cbn. exists (l ++ k). by rewrite app_assoc.
Qed.

Lemma only_events_each {A} (f : A -> P unit) l w :
  (forall x k, x ∈ l -> only_events (f x) (World (dbs w) (svcs w) (events w ++ k))) ->
  only_events (each f l) w.
Proof.
  revert w. induction l as [|x l IH]; intros w H; [apply only_events_ret|].
  apply only_events_seq.
  - specialize (H x []). rewrite app_nil_r in H. destruct w. apply H. set_solver.
  - intros k. apply IH. intros y k' Hy. cbn. rewrite <- app_assoc. apply H. set_solver.
Qed.

Lemma only_events_when b e w : only_events e w -> only_events (when b e) w.
Proof. destruct b; [done|]. intros _. apply only_events_ret. Qed.

Lemma attribute_destroy_events a w : only_events (attribute_destroy a) w.
Proof.
  destruct a as [a|]; [|apply only_events_ret].
  apply only_events_seq; [|intros l]; apply only_events_each; intros x k _;
    apply only_events_seq; intros; try apply only_events_emit;
    apply only_events_when, only_events_emit.
Qed.

Lemma attribute_destroy_all_events s v w :
  svcs w !! s = Some v -> num_handles v <= zlen (attributes v) ->
  only_events (attribute_destroy_all s) w.
Proof.
  intros Hs Hl. apply wp_bind. unfold used_slots. apply wp_bind. eapply wp_get_svc; [done|].
  rewrite (proj2 (Z.leb_le _ _)) by done. apply wp_ret.
  apply only_events_each. intros x k _. apply attribute_destroy_events.
Qed.

(** The listeners can all be called: both functions are there. *)
Definition listeners_ok (r : gatt_db) : Prop :=
  Forall (fun n => is_Some (service_added n) /\ is_Some (service_removed n))
    (default [] (notify_list r)).

Lemma handle_notify_events p added n w :
  is_Some (service_added n) -> is_Some (service_removed n) ->
  only_events (handle_notify p added n) w.
Proof.
  intros [f Hf] [g Hg]. unfold handle_notify. apply wp_bind.
  destruct added; (eapply wp_of_ub; [done|]); apply only_events_emit.
Qed.

Lemma notify_events d r s v added w :
  dbs w !! d = Some r -> 1 <= ref_count r -> listeners_ok r -> svcs w !! s = Some v ->
  is_Some (attributes v !! 0%nat) ->
  only_events (notify_service_changed (Some d) s added) w.
Proof.
  intros Hd Hrc Hl Hs [a Ha]. unfold notify_service_changed, notify_service_changed_with.
  apply wp_bind. eapply wp_of_ub; [done|]. apply wp_bind. eapply wp_get_db; [done|].
  destruct (nobody_listens r); [apply only_events_ret|].
  apply wp_bind. eapply wp_get_slot; [done..|]. apply wp_bind. unfold gatt_db_ref. g_steps.
  eapply wp_mono.
  2:{ apply only_events_each. intros n k Hn.
      unfold listeners_ok in Hl. rewrite Forall_forall in Hl.
      apply handle_notify_events; by apply Hl. }
  intros [] w' [l ->]. cbn [dbs svcs events].
  unfold gatt_db_unref. g_steps. rewrite insert_insert_eq.
  replace (ref_count r + 1 - 1) with (ref_count r) by lia.
  replace (ref_count r =? 0) with false by lia. cbn [negb]. apply wp_ret.
  exists l. f_equal. destruct r. by apply insert_id.
Qed.

(** A service is destroyed: the store is as before without it. *)
Lemma wp_service_destroy d r s v w Q :
  dbs w !! d = Some r -> 1 <= ref_count r -> listeners_ok r ->
  svcs w !! s = Some v -> svc_ok v -> s_db v = Some d ->
  (forall l, Q tt (World (dbs w) (delete s (svcs w)) (events w ++ l))) ->
  wp (gatt_db_service_destroy s) Q w.
Proof.
  intros Hd Hrc Hl Hs Hok Hdb HQ. unfold gatt_db_service_destroy, service_destroy_with.
  apply wp_bind. eapply wp_get_svc; [done|].
  pose proof (svc_length v Hok) as Hlen. pose proof (svc_num v Hok) as Hnum.
  apply wp_bind. eapply wp_mono.
  2:{ rewrite Hdb. apply only_events_when. eapply notify_events; [done..|].
      apply lookup_lt_is_Some. unfold zlen in Hlen. lia. }
  intros [] w' [l ->]. apply wp_bind. eapply wp_mono.
  2:{ eapply attribute_destroy_all_events; [done|lia]. }
  intros [] w' [k ->]. apply wp_modify. cbn. rewrite <- app_assoc. apply HQ.
Qed.

Fixpoint delete_all (l : list addr) (m : gmap addr gatt_db_service)
    : gmap addr gatt_db_service :=
  match l with [] => m | s :: l => delete_all l (delete s m) end.

Lemma delete_all_None l m s : m !! s = None -> delete_all l m !! s = None.
Proof.
  revert m. induction l as [|t l IH]; intros m Hm; cbn; [done|]. apply IH.
  rewrite lookup_delete_None. by right.
Qed.

Lemma delete_all_lookup l m s : s ∈ l -> delete_all l m !! s = None.
Proof.
  revert m. induction l as [|t l IH]; intros m Hin; cbn; [set_solver|].
  apply elem_of_cons in Hin as [->|Hin]; [|by apply IH].
  apply delete_all_None, lookup_delete_eq.
Qed.

Lemma wp_destroy_each d r l w Q :
  dbs w !! d = Some r -> 1 <= ref_count r -> listeners_ok r -> NoDup l ->
  (forall s, s ∈ l -> exists v, svcs w !! s = Some v /\ svc_ok v /\ s_db v = Some d) ->
  (forall k, Q tt (World (dbs w) (delete_all l (svcs w)) (events w ++ k))) ->
  wp (each gatt_db_service_destroy l) Q w.
Proof.
  intros Hd Hrc Hlis. revert w Hd. induction l as [|s l IH]; intros w Hd Hnd Hl HQ.
  { apply wp_ret. specialize (HQ []). rewrite app_nil_r in HQ. by destruct w. }
  apply NoDup_cons in Hnd as [Hs Hnd]. destruct (Hl s) as (v & Hv & Hok & Hdb); [set_solver|].
  apply wp_bind. eapply wp_service_destroy; [done..|]. intros k. apply IH; cbn; [done|done| |].
  - intros t Ht. rewrite lookup_delete_ne by (intros ->; done). apply Hl. set_solver.
  - intros k'. rewrite <- app_assoc. apply HQ.
Qed.

(** The database that is left when all services are gone. *)
Definition cleared (r : gatt_db) : gatt_db :=
  Db (ref_count r) 0 [] (notify_list r) (next_notify_id r).

Lemma clear_spec d r w :
  db_wf d r w -> listeners_ok r ->
  wp (gatt_db_clear (Some d)) (fun b w' => b = true /\
    dbs w' = <[d := cleared r]> (dbs w) /\ svcs w' = delete_all (services r) (svcs w)) w.
Proof.
  intros [Hd Hnd Hs Hrc] Hl. unfold gatt_db_clear, gatt_db_clear_range.
  change (UINT16_MAX <? 1) with false. change ((1 =? 1) && (UINT16_MAX =? UINT16_MAX)) with true.
  cbn iota. g_steps. eapply wp_destroy_each.
  - apply lookup_insert_eq.
  - done.
  - done.
  - done.
  - done.
  - intros k. unfold gatt_db_isempty. cbn [dbs svcs events]. g_steps.
    rewrite bool_decide_eq_true_2 by done. g_steps. split_and!; [done| |done].
    by rewrite insert_insert_eq.
Qed.

(** Clearing a database destroys every service and then makes it unusable for
    [gatt_db_add_service]: the next handle becomes 0, which is not a handle, so that no
    service can be added any more without naming a handle. *)
Theorem gatt_db_clear_then_add d r w :
  db_wf d r w -> listeners_ok r ->
  exists w', gatt_db_clear (Some d) w = Some (true, w') /\
    (forall s, s ∈ services r -> svcs w' !! s = None) /\
    forall malloc0 u primary num,
      gatt_db_add_service malloc0 (Some d) u primary num w' = Some (None, w').
Proof.
  intros Hwf Hl. destruct (clear_spec d r w Hwf Hl) as (b & w' & Hc & -> & Hd & Hs).
  exists w'. split_and!; [done| |].
  - intros s Hin. rewrite Hs. by apply delete_all_lookup.
  - intros malloc0 u primary num. unfold gatt_db_add_service. cbv [mbind M_bind of_ub get_db get_some].
    rewrite Hd, lookup_insert_eq. done.
Qed.

Lemma gatt_db_clear_then_add_witness :
  exists w', gatt_db_clear (Some 1%positive) demo_world = Some (true, w') /\
    (forall s, s ∈ services demo_db -> svcs w' !! s = None) /\
    forall malloc0 u primary num,
      gatt_db_add_service malloc0 (Some 1%positive) u primary num w' = Some (None, w').
Proof. apply gatt_db_clear_then_add; [apply demo_wf | constructor]. Defined.

(** ** Listeners without a function *)

Lemma each_none {A} (f : A -> P unit) l w :
  (exists x, x ∈ l /\ forall w, f x w = None) -> each f l w = None.
Proof.
  intros (x & Hx & Hf). revert w. induction l as [|y l IH]; intros w; [set_solver|].
  cbn. cbv [mbind M_bind]. destruct (f y w) as [[[] w']|] eqn:Hy; [|done].
  apply elem_of_cons in Hx as [->|Hx]; [congruence|]. by apply IH.
Qed.

(** Notifying a listener whose function is missing. *)
Lemma notify_missing d r n s a v w :
  dbs w !! d = Some r -> n ∈ default [] (notify_list r) -> service_removed n = None ->
  svcs w !! s = Some v -> attributes v !! 0%nat = Some a ->
  notify_service_changed (Some d) s false w = None.
Proof.
  intros Hd Hn Hr Hs Ha. unfold notify_service_changed, notify_service_changed_with.
  apply bind_none. eapply wp_of_ub; [done|]. apply bind_none. eapply wp_get_db; [done|].
  assert (nobody_listens r = false) as ->.
  { unfold nobody_listens. destruct (notify_list r) as [l|]; cbn in Hn; [|set_solver].
    apply bool_decide_eq_false_2. intros ->. set_solver. }
  apply bind_none. eapply wp_get_slot; [done..|]. apply bind_none. unfold gatt_db_ref. g_steps.
  cbv [mbind M_bind]. rewrite each_none; [done|]. exists n. split; [done|].
  intros w'. unfold handle_notify. by rewrite Hr.
Qed.

Lemma remove_missing d r n s i v w :
  dbs w !! d = Some r -> n ∈ default [] (notify_list r) -> service_removed n = None ->
  svcs w !! s = Some v -> svc_ok v -> s_db v = Some d -> active v = true ->
  gatt_db_remove_service (Some d) (Some (s, i)) w = None.
Proof.
  intros Hd Hn Hr Hs Hok Hdb Hact. unfold gatt_db_remove_service, set_services.
  apply bind_none. eapply wp_get_db; [done|]. apply bind_none. g_steps.
  cbv [mbind M_bind]. unfold gatt_db_service_destroy, service_destroy_with.
  pose proof (svc_length v Hok). pose proof (svc_num v Hok).
  destruct (lookup_lt_is_Some_2 (attributes v) 0) as [a Ha]; [unfold zlen in *; lia|].
  erewrite (bind_none (get_svc s)); [done|]. eapply wp_get_svc; [done|].
  rewrite Hact, Hdb. cbn [when]. cbv [mbind M_bind].
  erewrite notify_missing; [done|apply lookup_insert_eq|cbn; exact Hn|done..].
Qed.

(** [gatt_db_register] accepts a listener with only one of its two functions, but the
    notification calls the function it needs without looking: removing an active service
    while a listener without [service_removed] is registered calls a null pointer. *)
Theorem gatt_db_register_partial d r w f ud des s i v :
  db_wf d r w -> notify_list r <> None ->
  s ∈ services r -> svcs w !! s = Some v -> active v = true ->
  exists id w', gatt_db_register (Some d) (Some f) None ud des w = Some (id, w') /\
    gatt_db_remove_service (Some d) (Some (s, i)) w' = None.
Proof.
  intros [Hd Hnd Hsv Hrc] Hl Hs Hv Hact. destruct (notify_list r) as [l|] eqn:Hnl; [|done].
  destruct (Hsv s Hs) as (v' & Hv' & Hok & Hdb). rewrite Hv in Hv'. injection Hv' as <-.
  enough (wp (gatt_db_register (Some d) (Some f) None ud des)
    (fun _ w' => gatt_db_remove_service (Some d) (Some (s, i)) w' = None) w)
    as (id & w' & H1 & H2) by by exists id, w'.
  unfold gatt_db_register. g_steps. destruct (next_notify_id r <? 1);
    g_steps; rewrite Hnl; g_steps;
    (eapply remove_missing;
     [apply lookup_insert_eq
     |cbn; apply elem_of_app; right; by apply list_elem_of_singleton|done..]).
Qed.

Lemma gatt_db_register_partial_witness :
  let w := World (dbs demo_world)
    {[1%positive := Service (Some 1%positive) true false 4 (attributes demo_svc)]} [] in
  exists id w', gatt_db_register (Some 1%positive) (Some 77) None 0 None w = Some (id, w') /\
    gatt_db_remove_service (Some 1%positive) (Some (1%positive, 0%nat)) w' = None.
Proof.
  eapply (gatt_db_register_partial 1 demo_db); [|done|by apply list_elem_of_singleton|reflexivity|done].
  constructor; [done|by apply (bool_decide_unpack _)| |done].
  intros s ->%list_elem_of_singleton. eexists. split_and!; [reflexivity| |reflexivity].
  destruct demo_svc_ok as [H1 H2 H3 H4 H5]. constructor; assumption.
Defined.
