(* ===== verification/GattDbAccess.v ===== *)
(** Reading and writing attribute values of the database of GattDb.v: values stored in the
    database, and reads that the owner of the attribute answers later. *)
From Stdlib Require Import ZArith Lia.
From S2P Require Import Prelude Uuid StateM QueueSpec GattDb GattDbStore.
From stdpp Require Import base numbers list option gmap.
Import Uuid.

Local Open Scope Z_scope.

(** ** Stored values *)

(** The attribute stores the bytes [c]; its block may be longer. *)
Definition stores (a : gatt_db_attribute) (c : bytes) : Prop :=
  value_len a = zlen c /\
  match value a with
  | Some b => exists rest, b = c ++ rest
  | None => c = []
  end.

(** [realloc] of C: the new block has the size asked for and starts with the old one as far
    as it fits; the rest is arbitrary. *)
Definition realloc_ok (realloc : option bytes -> Z -> option bytes) : Prop :=
  forall p n b, 0 <= n -> realloc p n = Some b ->
    zlen b = n /\ forall o, p = Some o -> take (Z.to_nat n) o `prefix_of` b.

(** The bytes after a write of [val] at [offset]: a first write fills up with zeros. *)
Definition overwrite (c : bytes) (offset : Z) (val : bytes) : bytes :=
  let c := if decide (c = []) then replicate (Z.to_nat offset) 0 else c in
  take (Z.to_nat offset) c ++ val ++ drop (Z.to_nat (offset + zlen val)) c.

Lemma overwrite_length c offset val :
  0 <= offset -> offset <= zlen c \/ c = [] ->
  zlen (overwrite c offset val) = Z.max (zlen c) (offset + zlen val).
Proof.
  intros H0 Hc. unfold overwrite. case_decide as Hd.
  - subst. rewrite take_ge, drop_ge by len_lia. len_lia.
  - destruct Hc as [Hc|]; [|done]. len_lia.
Qed.

Lemma st_app l r offset val :
  0 <= offset -> offset + zlen val <= zlen l ->
  st (l ++ r) offset val
    = Some ((take (Z.to_nat offset) l ++ val ++ drop (Z.to_nat (offset + zlen val)) l) ++ r).
Proof.
  intros H0 Hl. unfold st. rewrite decide_True by len_lia.
  rewrite take_app_le, drop_app_le by len_lia. by rewrite <- !app_assoc.
Qed.

Section values.
Variable realloc : option bytes -> Z -> option bytes.
Hypothesis Hrealloc : realloc_ok realloc.

(** The block after [realloc] still starts with the stored bytes. *)
Lemma realloc_stores a c n b :
  stores a c -> zlen c <= n -> realloc (value a) n = Some b ->
  exists rest, b = c ++ rest /\ zlen c + zlen rest = n.
Proof using Hrealloc.
  intros [_ Hc] Hn Hb. pose proof (zlen_nonneg c).
  assert (length c <= Z.to_nat n)%nat as Hle by (unfold zlen in Hn; lia).
  assert (0 <= n) as Hn0 by lia. destruct (Hrealloc _ _ _ Hn0 Hb) as [Hlen Hpre].
  enough (exists rest, b = c ++ rest) as [rest ->].
  { exists rest. split; [done|]. by rewrite <- zlen_app. }
  destruct (value a) as [o|]; [|subst; by exists b].
  destruct Hc as [rest ->]. destruct (Hpre _ eq_refl) as [k ->].
  rewrite take_app_ge by done. rewrite <- app_assoc. eauto.
Qed.

(** The two stores into a block that has just been grown. *)
Lemma grown_stores c rest offset val (len : Z) :
  len = zlen c -> 0 <= offset -> offset <= zlen c \/ c = [] ->
  zlen c + zlen rest = offset + zlen val ->
  exists buf, (if len =? 0 then st (c ++ rest) 0 (replicate (Z.to_nat offset) 0)
               else Some (c ++ rest)) = Some buf /\
    st buf offset val = Some (overwrite c offset val).
Proof.
  intros -> H0 Hoff Hlen. unfold overwrite. case_decide as Hd.
  - subst c. cbn [app] in *. change (zlen [] =? 0) with true. cbn iota.
    rewrite zlen_nil in Hlen.
    rewrite st_0 by len_lia. eexists. split; [done|]. rewrite st_pre by len_lia.
    rewrite (take_ge (replicate _ _)), drop_ge, drop_ge by len_lia.
    by rewrite !app_nil_r.
  - assert (zlen c =? 0 = false) as ->.
    { apply Z.eqb_neq. destruct c; [done|]. rewrite zlen_cons. pose proof (zlen_nonneg c). lia. }
    eexists. split; [done|]. destruct Hoff as [Hoff|]; [|done].
    unfold st. rewrite decide_True by len_lia. rewrite take_app_le, !drop_ge by len_lia. done.
Qed.

Lemma written_value_spec a c offset val :
  stores a c -> 0 < zlen val -> 0 <= offset -> offset + zlen val <= UINT16_MAX ->
  offset <= zlen c \/ c = [] ->
  exists res, written_value realloc a offset val = Some res /\
    match res with
    | Some a' => stores a' (overwrite c offset val) /\ exists len b, a' = set_value a len b
    | None => exists n, realloc (value a) n = None
    end.
Proof using Hrealloc.
  intros Hst Hv H0 Hmax Hoff. pose proof Hst as [Hlen Hval].
  pose proof (zlen_nonneg c). pose proof (overwrite_length c offset val H0 Hoff) as Hol.
  unfold written_value.
  destruct (match value a with
            | Some _ => (value_len a <=? offset) || (value_len a - offset <? zlen val)
            | None => true end) eqn:Hgrow.
  - assert (zlen c <= zlen val + offset) as Hle.
    { destruct (value a); [lia|]. subst. rewrite zlen_nil. lia. }
    destruct (realloc (value a) (zlen val + offset)) as [buf|] eqn:Hb.
    2:{ exists None. split; [done|]. by eexists. }
    destruct (realloc_stores a c _ buf Hst Hle Hb) as (rest & -> & Hrest).
    destruct (grown_stores c rest offset val (value_len a)) as (buf & -> & Hs); [done..|lia|].
    cbn [mbind option_bind]. rewrite Hs. cbn [mbind option_bind].
    eexists. split; [done|]. split; [|eauto]. split; cbn.
    + rewrite u16_small by (unfold is_u16, UINT16_MAX in *; lia). lia.
    + exists []. by rewrite app_nil_r.
  - destruct (value a) as [b|]; [|done]. destruct Hval as [rest ->].
    apply orb_false_iff in Hgrow as [Hg1%Z.leb_gt Hg2%Z.ltb_ge].
    cbn [mbind option_bind]. rewrite st_app by lia. cbn [mbind option_bind].
    eexists. split; [done|]. split; [|eauto]. split; cbn; [lia|].
    exists rest. unfold overwrite. rewrite decide_False; [done|].
    intros ->. rewrite zlen_nil in *. lia.
Qed.

Lemma stored_value_spec a c offset :
  stores a c -> 0 <= offset ->
  stored_value a offset =
    Some (if zlen c <? offset then (BT_ATT_ERROR_INVALID_OFFSET, None)
          else if offset =? zlen c then (0, None)
          else (0, Some (drop (Z.to_nat offset) c))).
Proof.
  intros [Hlen Hval] H0. unfold stored_value. rewrite Hlen.
  destruct (Z.ltb_spec (zlen c) offset); [done|].
  destruct (Z.eqb_spec offset (zlen c)); [done|].
  destruct (value a) as [b|]; [|subst; rewrite zlen_nil in *; lia].
  destruct Hval as [rest ->]. cbn [mbind option_bind].
  rewrite ld_is_Some by len_lia. cbn [mbind option_bind]. do 3 f_equal.
  rewrite drop_app_le by len_lia. rewrite take_app_le by len_lia.
  by rewrite take_ge by len_lia.
Qed.
End values.

(** C29. Writing a value that is stored in the database and reading it back, at any offset
    that is not behind the end: the write answers success and the bytes read are the old
    ones with the new ones laid over them, and a read at an offset behind the end is
    answered with the error Invalid Offset.  The write fails only without memory. *)
Theorem gatt_db_attribute_write_read realloc w s i a c offset val op op' f g tid offset' :
  realloc_ok realloc -> attr_at w (s, i) = Some a -> stores a c ->
  write_func a = None -> read_func a = None ->
  0 < zlen val -> 0 <= offset -> 0 <= offset' -> offset + zlen val <= UINT16_MAX ->
  offset <= zlen c \/ c = [] ->
  exists b w', gatt_db_attribute_write realloc tid (Some (s, i)) offset val op (Some f) w
      = Some (b, w') /\
    if b : bool then
      let c' := overwrite c offset val in
      events w' = events w ++ [WriteDone f (s, i) 0] /\
      exists w'', gatt_db_attribute_read tid (Some (s, i)) offset' op' (Some g) w'
          = Some (true, w'') /\
        events w'' = events w' ++
          [ReadDone g (s, i) (if zlen c' <? offset' then BT_ATT_ERROR_INVALID_OFFSET else 0)
             (if offset' <? zlen c' then Some (drop (Z.to_nat offset') c') else None)]
    else w' = w /\ exists n, realloc (value a) n = None.
Proof.
  intros Hre Ha Hst Hwf Hrf Hv H0 H0' Hmax Hoff.
  pose proof Ha as (v & Hs & Hi)%bind_Some. cbn in Hs, Hi.
  destruct (written_value_spec realloc Hre a c offset val Hst Hv H0 Hmax Hoff)
    as (res & Hres & Hspec).
  unfold gatt_db_attribute_write. cbv [mbind M_bind].
  destruct (wp_get_attr (s, i) a w (fun x y => x = a /\ y = w) Ha) as (x & y & -> & -> & ->);
    [done|]. rewrite Hwf. rewrite (proj2 (Z.eqb_neq (zlen val) 0)) by lia.
  cbv [of_ub get_some]. rewrite Hres. destruct res as [a'|].
  - destruct Hspec as [Hst' (len & blk & Ha')].
    destruct (wp_put_attr s i a' a v w (fun _ y => y = World (dbs w)
      (<[s := with_slot v i (Some a')]> (svcs w)) (events w)) Hs Hi eq_refl)
      as ([] & y & -> & ->).
    eexists true, _. split; [reflexivity|]. split; [done|].
    enough (wp (gatt_db_attribute_read tid (Some (s, i)) offset' op' (Some g))
      (fun b w'' => b = true /\ events w'' = (events w ++ [WriteDone f (s, i) 0]) ++
         [ReadDone g (s, i)
            (if zlen (overwrite c offset val) <? offset' then BT_ATT_ERROR_INVALID_OFFSET else 0)
            (if offset' <? zlen (overwrite c offset val)
             then Some (drop (Z.to_nat offset') (overwrite c offset val)) else None)])
      (World (dbs w) (<[s := with_slot v i (Some a')]> (svcs w))
         (events w ++ [WriteDone f (s, i) 0]))) as (b & w'' & Hrd & -> & Hev).
    { exists w''. done. }
    unfold gatt_db_attribute_read. apply wp_bind. eapply wp_get_attr.
    { unfold attr_at. cbn. rewrite lookup_insert_eq. cbn. unfold slot. cbn.
      rewrite list_lookup_insert_eq; [done|]. unfold slot in Hi.
      apply bind_Some in Hi as (z & Hz & _). by apply lookup_lt_Some in Hz. }
    replace (read_func a') with (@None Z) by (subst a'; by symmetry).
    apply wp_bind. eapply wp_of_ub; [by apply stored_value_spec|].
    destruct (Z.ltb_spec (zlen (overwrite c offset val)) offset'),
      (Z.ltb_spec offset' (zlen (overwrite c offset val))),
      (Z.eqb_spec offset' (zlen (overwrite c offset val))); try lia;
      apply wp_bind, wp_emit, wp_ret; done.
  - eexists false, w. split; [done|]. split; [done|]. exact Hspec.
Qed.

(** A [realloc] that fills new memory with [x], and a store with one attribute. *)
Definition fill_realloc (x : Z) (p : option bytes) (n : Z) : option bytes :=
  let o := take (Z.to_nat n) (default [] p) in
  Some (o ++ replicate (Z.to_nat n - length o) x).

Lemma fill_realloc_ok x : realloc_ok (fill_realloc x).
Proof.
  intros p n b Hn H. unfold fill_realloc in H. injection H as <-. split.
  - unfold zlen. rewrite length_app, length_replicate, length_take. lia.
  - intros o ->. cbn. by apply prefix_app_r.
Qed.

Definition demo_attr (b : bytes) : gatt_db_attribute :=
  Attribute 6 (UUID16 0x2a19) 3 (zlen b) (Some b) None None 0 0 [] 0 [].
Definition attr_world (b : bytes) : world :=
  World ∅ {[1%positive := Service None true false 2 [None; Some (demo_attr b)]]} [].

Lemma gatt_db_attribute_write_read_witness :
  let w := attr_world [1; 2; 3] in
  exists b w', gatt_db_attribute_write (fill_realloc 0xaa) 7 (Some (1%positive, 1%nat)) 2
      [8; 9] 0x12 (Some (21, 0)) w = Some (b, w') /\
    if b : bool then
      events w' = [] ++ [WriteDone (21, 0) (1%positive, 1%nat) 0] /\
      exists w'', gatt_db_attribute_read 7 (Some (1%positive, 1%nat)) 1 0x0a (Some (20, 0)) w'
          = Some (true, w'') /\
        events w'' = events w' ++ [ReadDone (20, 0) (1%positive, 1%nat) 0 (Some [2; 8; 9])]
    else w' = w /\ exists n, fill_realloc 0xaa (Some [1; 2; 3]) n = None.
Proof.
  apply (gatt_db_attribute_write_read (fill_realloc 0xaa) (attr_world [1; 2; 3]) 1 1
    (demo_attr [1; 2; 3]) [1; 2; 3] 2 [8; 9] 0x12 0x0a (21, 0) (20, 0) 7 1);
    try reflexivity; try lia.
  - apply fill_realloc_ok.
  - split; [reflexivity|]. exists []. reflexivity.
  - vm_compute. intros H. discriminate H.
  - left. vm_compute. intros H. discriminate H.
Defined.

(** Memory that was never written can be read: a write behind the end of a value that
    is not empty leaves the bytes in between as the allocator delivered them, and a read
    returns them. *)
Theorem gatt_db_attribute_write_gap x :
  exists w' w'', gatt_db_attribute_write (fill_realloc x) 7 (Some (1%positive, 1%nat)) 3 [5]
      0x12 (Some (21, 0)) (attr_world [1]) = Some (true, w') /\
    gatt_db_attribute_read 7 (Some (1%positive, 1%nat)) 0 0x0a (Some (20, 0)) w'
      = Some (true, w'') /\
    events w'' = [WriteDone (21, 0) (1%positive, 1%nat) 0;
                  ReadDone (20, 0) (1%positive, 1%nat) 0 (Some [1; x; x; 5])].
Proof.
  eexists _, _. split; [vm_compute; reflexivity|].
  split; [vm_compute; reflexivity|reflexivity].
Qed.

(** ** Reads that are answered later *)

(** What happens to an attribute: a read, an answer of its owner, or the timer of a read
    that has not been answered. *)
Inductive step (p : aptr) : world -> list fn -> world -> Prop :=
  | step_read tid offset op f w w' :
      gatt_db_attribute_read tid (Some p) offset op (Some f) w = Some (true, w') ->
      step p w [f] w'
  | step_result id err val b w w' :
      gatt_db_attribute_read_result (Some p) id err val w = Some (b, w') -> step p w [] w'
  | step_timeout q a b w w' :
      attr_at w p = Some a -> q ∈ pending_reads a -> read_timeout q w = Some (b, w') ->
      step p w [] w'.

(** Reachable states, with the callbacks of the reads on the way. *)
Inductive steps (p : aptr) : world -> list fn -> world -> Prop :=
  | steps_nil w : steps p w [] w
  | steps_snoc w fs w' gs w'' : steps p w fs w' -> step p w' gs w'' -> steps p w (fs ++ gs) w''.

(** The callbacks that were called with the outcome of a read of [p]. *)
Definition answered (p : aptr) (l : list event) : list fn :=
  omap (fun e => match e with
                 | ReadDone f q _ _ => if decide (q = p) then Some f else None
                 | _ => None
                 end) l.

(** The reads [fs] of [p] since the world [w0] are answered or wait in the attribute. *)
Definition balanced (p : aptr) (n : nat) (fs : list fn) (w : world) : Prop :=
  exists a, attr_at w p = Some a /\ Forall (fun q => p_attrib q = p) (pending_reads a) /\
    fs ≡ₚ answered p (drop n (events w)) ++ (p_func <$> pending_reads a) /\
    (n <= length (events w))%nat.

Lemma answered_app p l k : answered p (l ++ k) = answered p l ++ answered p k.
Proof. unfold answered. apply omap_app. Qed.

Lemma answered_done p f err val : answered p [ReadDone f p err val] = [f].
Proof. cbn. by rewrite decide_True. Qed.

(** The answer to a pending read of [p], with the cancellation of its timer. *)
Lemma wp_read_result p q err val w Q :
  p_attrib q = p ->
  (forall k, answered p k = [p_func q] -> Q tt (World (dbs w) (svcs w) (events w ++ k))) ->
  wp (pending_read_result q err val) Q w.
Proof.
  intros <- HQ. unfold pending_read_result. apply wp_bind.
  destruct (0 <? timeout_id q); cbn [when].
  - apply wp_emit, wp_emit. cbn. rewrite <- app_assoc. apply HQ.
    rewrite answered_app, answered_done. done.
  - apply wp_ret, wp_emit, HQ, answered_done.
Qed.

(** The store after an attribute got other pending reads, and more events. *)
Lemma balanced_update p n fs gs w s i v a id l k :
  p = (s, i) -> svcs w !! s = Some v -> slot v i = Some a ->
  Forall (fun q => p_attrib q = p) l ->
  gs ≡ₚ answered p (drop n (events w ++ k)) ++ (p_func <$> l) ->
  (n <= length (events w))%nat -> fs = gs ->
  balanced p n fs
    (World (dbs w) (<[s := with_slot v i (Some (set_reads a id l))]> (svcs w)) (events w ++ k)).
Proof.
  intros -> Hs Hi Hl Hg Hn ->. exists (set_reads a id l). split_and!; [|done|done|].
  - unfold attr_at. cbn. rewrite lookup_insert_eq. cbn. unfold slot in *. cbn.
    apply bind_Some in Hi as (z & Hz & _). apply lookup_lt_Some in Hz.
    by rewrite list_lookup_insert_eq.
  - cbn. rewrite length_app. lia.
Qed.

Lemma get_attr_run p a w : attr_at w p = Some a -> get_attr p w = Some (a, w).
Proof.
  intros Ha. by destruct (wp_get_attr p a w (fun x y => x = a /\ y = w) Ha) as (x & y & -> & -> & ->).
Qed.

Lemma remove_first_split {A} `{EqDecision A} (x : A) l :
  x ∈ l -> exists k m, l = k ++ x :: m /\ remove_first x l = k ++ m.
Proof.
  intros Hx. unfold remove_first.
  destruct (split_find (fun y => bool_decide (x = y)) l) as [[[k y] m]|] eqn:Hs.
  - apply split_find_app in Hs as [-> Hy]. apply bool_decide_eq_true in Hy as <-. eauto.
  - exfalso. induction l as [|z l IH]; [set_solver|]. cbn in Hs. case_bool_decide; [done|].
    destruct (split_find _ l) as [[[? ?] ?]|]; [done|]. apply IH; [set_solver|done].
Qed.

(** An answer takes the pending read [q] out of the middle and calls its callback. *)
Lemma answered_balanced p n fs a q k l w s i v id :
  p = (s, i) -> svcs w !! s = Some v -> slot v i = Some a ->
  Forall (fun q => p_attrib q = p) (pending_reads a) ->
  fs ≡ₚ answered p (drop n (events w)) ++ (p_func <$> pending_reads a) ->
  (n <= length (events w))%nat -> pending_reads a = k ++ q :: l ->
  forall q' err val, p_attrib q' = p -> p_func q' = p_func q ->
  wp (pending_read_result q' err val) (fun _ => balanced p n fs)
    (World (dbs w) (<[s := with_slot v i (Some (set_reads a id (k ++ l)))]> (svcs w)) (events w)).
Proof.
  intros Hp Hs Hi Hat Hfs Hn Hpend q' err val Hq' Hf.
  apply (wp_read_result p); [done|]. intros evs Hevs. cbn [dbs svcs events].
  eapply balanced_update; [done..| | |done|done].
  - rewrite Hpend in Hat. apply Forall_app in Hat as [? [_ ?]%Forall_cons]. by apply Forall_app.
  - rewrite Hfs, Hpend, drop_app_le, answered_app, Hevs, Hf by done.
    rewrite !fmap_app, fmap_cons. rewrite <- app_assoc. f_equiv. cbn.
    by rewrite Permutation_middle.
Qed.

Lemma step_balanced p n w fs gs w' :
  balanced p n fs w -> step p w gs w' -> balanced p n (fs ++ gs) w'.
Proof.
  intros Hbal Hstep. pose proof Hbal as (a & Ha & Hat & Hfs & Hn). destruct p as [s i].
  pose proof Ha as (v & Hs & Hi)%bind_Some. cbn in Hs, Hi.
  destruct Hstep as [tid offset op f w w' H|id err val b w w' H|q a' b w w' Ha' Hq H].
  - unfold gatt_db_attribute_read in H.
    rewrite (bind_run _ _ w a w) in H by by apply get_attr_run. destruct (read_func a) as [rf|].
    + revert H. apply (wp_run _ (fun _ => balanced (s, i) n (fs ++ [f]))). apply wp_bind. eapply wp_put_attr; [done..|].
      apply wp_bind, wp_emit, wp_ret. cbn [dbs svcs events].
      eapply balanced_update; [done|done|done| | |done|done].
      * apply Forall_app. split; [done|]. by constructor.
      * rewrite drop_app_le, answered_app by done. cbn. rewrite fmap_app, app_nil_r.
        rewrite Hfs. by rewrite app_assoc.
    + destruct (stored_value a offset) as [[err data]|]; [|done].
      cbv [mbind M_bind of_ub get_some emit modify mret M_ret] in H. injection H as <-.
      exists a. split_and!; [done|done| |].
      * cbn [events]. rewrite drop_app_le, answered_app, answered_done by done.
        rewrite Hfs. rewrite <- !app_assoc. f_equiv. apply Permutation_app_comm.
      * cbn. rewrite length_app. lia.
  - rewrite app_nil_r. revert H. apply (wp_run _ (fun _ => balanced (s, i) n fs)).
    unfold gatt_db_attribute_read_result. destruct (id =? 0); [by apply wp_ret|].
    apply wp_bind. eapply wp_get_attr; [done|].
    destruct (split_find (find_pending id) (pending_reads a)) as [[[k q] l]|] eqn:Hsp;
      [|by apply wp_ret].
    apply split_find_app in Hsp as [Hpend _].
    apply wp_bind. eapply wp_put_attr; [done..|]. apply wp_bind.
    eapply wp_mono; [|eapply answered_balanced; try done].
    + intros [] w1 H1. by apply wp_ret.
    + rewrite Hpend in Hat. apply Forall_app in Hat as [_ [? _]%Forall_cons]. done.
  - rewrite app_nil_r. rewrite Ha in Ha'. injection Ha' as <-.
    revert H. apply (wp_run _ (fun _ => balanced (s, i) n fs)).
    rewrite Forall_forall in Hat. pose proof (Hat q Hq) as Hpq.
    rewrite <- Forall_forall in Hat.
    unfold read_timeout. rewrite Hpq. apply wp_bind. eapply wp_get_attr; [done|].
    destruct (remove_first_split q _ Hq) as (k & l & Hpend & ->).
    apply wp_bind. eapply wp_put_attr; [done..|]. apply wp_bind.
    eapply wp_mono; [|by eapply (answered_balanced (s, i))].
    intros [] w1 H1. by apply wp_ret.
Qed.

Lemma steps_balanced p a w0 fs w :
  steps p w0 fs w -> attr_at w0 p = Some a -> pending_reads a = [] ->
  balanced p (length (events w0)) fs w.
Proof.
  intros Hsteps Ha Hp. induction Hsteps as [w|w1 fs w2 gs w3 _ IH Hstep].
  - exists a. rewrite Hp, drop_ge by done. split_and!; [done|constructor|done|done].
  - eapply step_balanced, Hstep. by apply IH.
Qed.

(** Destroying an attribute answers the reads that wait, and no others. *)
Lemma wp_reads_free p n l w :
  (n <= length (events w))%nat -> Forall (fun q => p_attrib q = p) l ->
  wp (each pending_read_free l) (fun _ w' => (n <= length (events w'))%nat /\
    answered p (drop n (events w')) = answered p (drop n (events w)) ++ (p_func <$> l)) w.
Proof.
  revert w. induction l as [|q l IH]; intros w1 H1 H2; cbn [each].
  { apply wp_ret. by rewrite app_nil_r. }
  apply Forall_cons in H2 as [Hq Hl]. apply wp_bind, (wp_read_result p); [done|].
  intros k Hk. eapply wp_mono, IH; [|cbn; rewrite length_app; lia|done].
  intros [] w2 [H3 H4]. split; [done|]. rewrite H4. cbn [events].
  rewrite drop_app_le, answered_app, Hk by done. by rewrite <- app_assoc.
Qed.

Lemma wp_writes_free p n l w :
  (n <= length (events w))%nat ->
  wp (each pending_write_free l)
    (fun _ w' => answered p (drop n (events w')) = answered p (drop n (events w))) w.
Proof.
  revert w. induction l as [|q l IH]; intros w1 H1; cbn [each]; [by apply wp_ret|].
  unfold pending_write_free at 1, pending_write_result. apply wp_bind, wp_bind.
  destruct (0 <? timeout_id q); cbn [when]; [apply wp_emit, wp_emit|apply wp_ret, wp_emit];
    (eapply wp_mono, IH; [|cbn; rewrite !length_app; lia]);
    intros [] w2 H; rewrite H; cbn [events];
    rewrite ?drop_app_le, ?answered_app by (rewrite ?length_app; lia); cbn;
    by rewrite ?app_nil_r.
Qed.

(** C4. Every read is answered exactly once: in every state that reads, answers of the owner
    and timers can reach, the callbacks of the reads so far are, counted with multiplicity,
    those that were called and those of the reads that still wait in the attribute; and
    when the attribute is destroyed all of them have been called. *)
Theorem gatt_db_reads_answered p a w0 fs w :
  attr_at w0 p = Some a -> pending_reads a = [] -> steps p w0 fs w ->
  exists a', attr_at w p = Some a' /\
    fs ≡ₚ answered p (drop (length (events w0)) (events w)) ++ (p_func <$> pending_reads a') /\
    exists w', attribute_destroy (Some a') w = Some (tt, w') /\
      answered p (drop (length (events w0)) (events w')) ≡ₚ fs.
Proof.
  intros Ha Hp Hsteps. set (n := length (events w0)).
  assert (balanced p n fs w) as (a' & Ha' & Hat & Hfs & Hn).
  { by eapply steps_balanced. }
  exists a'. split_and!; [done..|].
  assert (wp (attribute_destroy (Some a')) (fun _ w' =>
    answered p (drop n (events w')) ≡ₚ fs) w) as ([] & w' & Hd & Hfin); [|by exists w'].
  cbn [attribute_destroy]. apply wp_bind. eapply wp_mono, wp_reads_free; [|done..].
  intros [] w1 [H1 H2]. eapply wp_mono, wp_writes_free; [|done]. intros [] w2 H3. by rewrite H3, H2, Hfs.
Qed.

Lemma gatt_db_reads_answered_witness :
  let p := (1%positive, 1%nat) in
  let a := Attribute 6 (UUID16 0x2a19) 3 0 None (Some 30) None 31 0 [] 0 [] in
  let w0 := World ∅ {[1%positive := Service None true false 2 [None; Some a]]} [] in
  exists w a', attr_at w p = Some a' /\
    [(20, 0); (22, 0)] ≡ₚ answered p (drop 0 (events w)) ++ (p_func <$> pending_reads a') /\
    exists w', attribute_destroy (Some a') w = Some (tt, w') /\
      answered p (drop 0 (events w')) ≡ₚ [(20, 0); (22, 0)].
Proof.
  intros p a w0. eexists. eapply (gatt_db_reads_answered p a w0); [reflexivity|reflexivity|].
  eapply (steps_snoc p w0 [(20, 0); (22, 0)] _ []).
  - eapply (steps_snoc p w0 [(20, 0)] _ [(22, 0)]).
    + eapply (steps_snoc p w0 [] _ [(20, 0)]); [apply steps_nil|].
      apply (step_read p 7 0 0x0a). vm_compute. reflexivity.
    + apply (step_read p 8 0 0x0a). vm_compute. reflexivity.
  - apply (step_result p 1 0 (Some [9])) with (b := true). vm_compute. reflexivity.
Defined.
