(* ===== verification/GattDbSearch.v ===== *)
(** The searches of the database of GattDb.v against their descriptions as filters of the
    services and attributes. *)
From Stdlib Require Import ZArith Lia Sorting.Sorted.
From S2P Require Import Prelude Uuid StateM QueueSpec GattDb GattDbStore GattDbInsert GattDbAccess.
From stdpp Require Import base numbers list option gmap sorting.
Import Uuid.

Local Open Scope Z_scope.

(** ** The slots of a service *)

Definition slots_of (s : addr) (v : gatt_db_service) : list (aptr * gatt_db_attribute) :=
  omap (fun '(i, a) => (fun a => ((s, i), a)) <$> a) (imap pair (attributes v)).

Lemma wp_used_slots s v w Q :
  svcs w !! s = Some v -> num_handles v = zlen (attributes v) -> Q (slots_of s v) w ->
  wp (used_slots s) Q w.
Proof.
  intros Hs Hl H. unfold used_slots. apply wp_bind. eapply wp_get_svc; [done|].
  rewrite (proj2 (Z.leb_le _ _)) by lia. apply wp_ret.
  rewrite take_ge; [exact H|]. unfold zlen in Hl. lia.
Qed.

Lemma elem_of_slots s v p a : (p, a) ∈ slots_of s v <-> fst p = s /\ slot v (snd p) = Some a.
Proof.
  unfold slots_of. rewrite list_elem_of_omap. split.
  - intros ([i x] & Hx & H). apply list_elem_of_lookup in Hx as [j Hj].
    rewrite list_lookup_imap in Hj. apply fmap_Some in Hj as (y & Hy & Hxy). simplify_eq.
    destruct y as [y|]; [|done]. cbn in H. simplify_eq. split; [done|].
    unfold slot. cbn. by rewrite Hy.
  - destruct p as [t i]. cbn. intros [-> H]. exists (i, Some a). split; [|done].
    apply bind_Some in H as (x & Hx & Hxa). cbn in Hxa. subst x.
    apply list_elem_of_lookup. exists i. by rewrite list_lookup_imap, Hx.
Qed.

(** ** Lookup by handle *)

Definition in_service (w : world) (h : Z) (s : addr) : Prop :=
  exists v, svcs w !! s = Some v /\ start_handle v <= h <= end_handle v.

Lemma wp_find_for_handle w h l Q :
  (forall s, s ∈ l -> exists v, svcs w !! s = Some v /\ svc_ok v) ->
  (forall s, s ∈ l -> in_service w h s -> Q (Some s) w) ->
  ((forall s, s ∈ l -> ~ in_service w h s) -> Q None w) ->
  wp (find_service (find_service_for_handle h) l) Q w.
Proof.
  induction l as [|s l IH]; intros Hl Hin Hout; cbn [find_service].
  { apply wp_ret, Hout. intros s Hs. set_solver. }
  destruct (Hl s) as (v & Hs & Hok); [set_solver|].
  apply wp_bind. unfold find_service_for_handle. apply wp_bind.
  eapply wp_get_handles; [done..|]. apply wp_ret.
  destruct ((start_handle v <=? h) && (h <=? end_handle v)) eqn:He.
  - apply wp_ret, Hin; [set_solver|]. exists v. split; [done|lia].
  - apply IH.
    + intros t Ht. apply Hl. set_solver.
    + intros t Ht. apply Hin. set_solver.
    + intros H. apply Hout. intros t [->|Ht]%elem_of_cons; [|by apply H].
      intros (v' & Hv' & Hr). rewrite Hs in Hv'. simplify_eq. lia.
Qed.

Lemma StronglySorted_total {A} (R : A -> A -> Prop) l x y :
  StronglySorted R l -> x ∈ l -> y ∈ l -> x = y \/ R x y \/ R y x.
Proof.
  intros HS Hx Hy. induction HS as [|z l HS IH Hz]; [set_solver|].
  rewrite Forall_forall in Hz.
  apply elem_of_cons in Hx as [->|Hx]; apply elem_of_cons in Hy as [->|Hy]; auto.
Qed.

(** The services of an ordered database that share a handle are the same. *)
Lemma ordered_unique r w h s t :
  ordered r w -> s ∈ services r -> t ∈ services r ->
  in_service w h s -> in_service w h t -> s = t.
Proof.
  intros Hord Hs Ht (v & Hv & Hrv) (u & Hu & Hru).
  destruct (StronglySorted_total _ _ s t Hord Hs Ht)
    as [?|[(v' & u' & H1 & H2 & H3)|(u' & v' & H1 & H2 & H3)]]; [done| |];
    rewrite H1 in *; rewrite H2 in *; simplify_eq; lia.
Qed.

(** What [gatt_db_get_attribute] may answer for the handle [h]. *)
Definition attribute_at (r : gatt_db) (w : world) (h : Z) (p : aptr) : Prop :=
  fst p ∈ services r /\ in_service w h (fst p) /\
  exists a, attr_at w p = Some a /\ handle a = h.

(** Lookup by handle is sound and complete on an ordered database: the attribute
    returned is in the one service whose range holds the handle and has that handle, and
    NULL means that there is no such attribute in any service; the store is not changed. *)
Theorem gatt_db_get_attribute_spec d r w h :
  db_wf d r w -> ordered r w -> h <> 0 ->
  exists res, gatt_db_get_attribute (Some d) h w = Some (res, w) /\
    match res with
    | Some p => attribute_at r w h p /\
        (forall q, attribute_at r w h q -> fst q = fst p)
    | None => forall p, ~ attribute_at r w h p
    end.
Proof.
  intros Hwf Hord Hh.
  enough (wp (gatt_db_get_attribute (Some d) h) (fun res w' => w' = w /\
    match res with
    | Some p => attribute_at r w h p /\
        (forall q, attribute_at r w h q -> fst q = fst p)
    | None => forall p, ~ attribute_at r w h p
    end) w) as (res & w' & Hr & -> & H) by by exists res.
  unfold gatt_db_get_attribute, gatt_db_get_service. rewrite (proj2 (Z.eqb_neq h 0)) by done.
  apply wp_bind, wp_bind. eapply wp_get_db; [apply Hwf|]. apply wp_bind.
  apply wp_find_for_handle.
  - intros s Hs. destruct (wf_services d r w Hwf s Hs) as (v & Hv & Hok & _). by exists v.
  - intros s Hs Hin. apply wp_ret. cbn.
    destruct (wf_services d r w Hwf s Hs) as (v & Hv & Hok & _).
    apply wp_bind. eapply wp_used_slots; [done|symmetry; apply Hok|]. apply wp_ret.
    split; [done|].
    destruct (split_find (fun x => handle (snd x) =? h) (slots_of s v))
      as [[[k [p a]] l]|] eqn:Hsp.
    + apply split_find_app in Hsp as [Hsl Hah]. cbn in Hah |- *.
      assert ((p, a) ∈ slots_of s v) as [Hps Hpa]%elem_of_slots by (rewrite Hsl; set_solver).
      split.
      * split_and!; [by rewrite Hps|by rewrite Hps|]. exists a.
        split; [|lia]. unfold attr_at. by rewrite Hps, Hv.
      * intros q (Hq & Hqin & _). rewrite Hps. by eapply ordered_unique.
    + intros q (Hq & Hqin & a & Ha & Hha).
      assert (fst q = s) as Hqs by (by eapply ordered_unique).
      apply split_find_none in Hsp as [Hnone _].
      assert ((q, a) ∈ List.filter (fun x => handle (snd x) =? h) (slots_of s v)) as Hin'.
      { apply list_elem_of_In, filter_In. split; [|cbn; lia].
        apply list_elem_of_In, elem_of_slots. split; [done|].
        unfold attr_at in Ha. by rewrite Hqs, Hv in Ha. }
      rewrite Hnone in Hin'. set_solver.
  - intros Hno. apply wp_ret. cbn. apply wp_ret. split; [done|].
    intros p (Hp & Hin & _). by apply (Hno (fst p)).
Qed.

Lemma gatt_db_get_attribute_spec_witness :
  exists res, gatt_db_get_attribute (Some 1%positive) 5 demo_world = Some (res, demo_world) /\
    match res with
    | Some p => attribute_at demo_db demo_world 5 p /\
        (forall q, attribute_at demo_db demo_world 5 q -> fst q = fst p)
    | None => forall p, ~ attribute_at demo_db demo_world 5 p
    end.
Proof.
  apply gatt_db_get_attribute_spec; [apply demo_wf | apply demo_ordered | lia].
Defined.

(** ** Primary services of a range *)

(** The service is active, of the type and starts in the range. *)
Definition group_matches (w : world) (lo hi : Z) (type : bt_uuid) (s : addr)
    : bool :=
  match svcs w !! s with
  | Some v =>
    match decl v with
    | Some a => active v && bool_decide (bt_uuid_cmp type (uuid a) = Some 0) &&
        (lo <=? handle a) && (handle a <=? hi)
    | None => false
    end
  | None => false
  end.

Definition group_size (w : world) (s : addr) : Z :=
  match svcs w !! s ≫= decl with Some a => value_len a | None => 0 end.

Fixpoint take_while {A} (f : A -> bool) (l : list A) : list A :=
  match l with
  | [] => []
  | x :: l => if f x then x :: take_while f l else []
  end.

(** The answer: the matches up to the first one whose UUID has another size. *)
Definition same_size (w : world) (l : list addr) : list addr :=
  match l with
  | [] => []
  | s :: l => s :: take_while (fun t => group_size w t =? group_size w s) l
  end.

Lemma read_group_loop_spec w lo hi type size l :
  uuid_ok type ->
  (forall s, s ∈ l -> exists v, svcs w !! s = Some v /\ svc_ok v) ->
  read_group_loop lo hi type size l w =
    Some ((fun s => (s, 0%nat)) <$>
            (let m := List.filter (group_matches w lo hi type) l in
             if size =? 0 then same_size w m
             else take_while (fun t => group_size w t =? size) m), w).
Proof.
  intros Hty. revert size. induction l as [|s l IH]; intros size Hl.
  { cbn. by destruct (size =? 0). }
  destruct (Hl s) as (v & Hs & Hok); [set_solver|].
  assert (forall t, t ∈ l -> exists v, svcs w !! t = Some v /\ svc_ok v) as Hl'
    by (intros t Ht; apply Hl; set_solver).
  destruct (svc_decl v Hok) as (a & b & Ha & Hd).
  cbn [read_group_loop].
  rewrite (bind_run _ _ w v w) by (unfold get_svc, get_some; by rewrite Hs).
  assert (group_matches w lo hi type s =
    active v && bool_decide (bt_uuid_cmp type (uuid a) = Some 0) &&
      (lo <=? handle a) && (handle a <=? hi)) as Hm.
  { unfold group_matches. by rewrite Hs, Ha. }
  assert (group_size w s = value_len a) as Hsz by (unfold group_size; rewrite Hs; cbn; by rewrite Ha).
  cbn [List.filter]. rewrite Hm. destruct (active v); cbn [negb andb]; [|by apply IH].
  rewrite (bind_run _ _ w a w).
  2:{ apply get_attr_run. unfold attr_at. cbn. rewrite Hs. exact Ha. }
  assert (exists c, bt_uuid_cmp type (uuid a) = Some c) as [c Hc].
  { eexists. apply bt_uuid_cmp_memcmp; apply uuid_ok_specified; [done|apply Hd]. }
  unfold uuid_differs. rewrite (bind_run _ _ w (negb (c =? 0)) w)
    by (cbv [mbind M_bind of_ub get_some]; by rewrite Hc).
  rewrite Hc. destruct (Z.eqb_spec c 0) as [->|Hne]; cbn [negb].
  2:{ rewrite bool_decide_eq_false_2 by congruence. by apply IH. }
  rewrite bool_decide_eq_true_2 by done. cbn [andb].
  assert (handle a = start_handle v) as Hh
    by (unfold start_handle; by rewrite Ha).
  pose proof (svc_num v Hok). pose proof (svc_start v Hok). pose proof (svc_end v Hok).
  unfold end_handle in *. rewrite (u16_small (handle a + num_handles v - 1))
    by (unfold is_u16, UINT16_MAX in *; lia).
  destruct ((lo <=? handle a) && (handle a <=? hi)) eqn:Hr.
  - replace ((handle a + num_handles v - 1 <? lo) || (hi <? handle a))
      with false by lia.
    replace ((handle a <? lo) || (hi <? handle a)) with false by lia.
    assert (value_len a <> 0) as Hv0 by (destruct (decl_width a b Hd); lia).
    destruct (Z.eqb_spec size 0) as [Hs0|Hs0].
    + cbv [fmap M_fmap]. rewrite IH by done. cbn [same_size].
      rewrite (proj2 (Z.eqb_neq (value_len a) 0)) by done. rewrite Hsz. done.
    + cbn [take_while]. rewrite Hsz, (Z.eqb_sym (value_len a)).
      destruct (Z.eqb_spec size (value_len a)) as [He|He]; cbn [negb]; [|done].
      cbv [fmap M_fmap]. rewrite IH by done. by rewrite (proj2 (Z.eqb_neq size 0)) by done.
  - rewrite <- IH by done.
    destruct ((handle a + num_handles v - 1 <? lo) || (hi <? handle a)); [done|].
    replace ((handle a <? lo) || (hi <? handle a)) with true by lia. done.
Qed.

(** [gatt_db_read_by_group_type] on a well-formed database returns, in the order of the
    services, the declarations of the active services of the type that start in the
    range, up to the first one whose UUID has another size than the first. *)
Theorem gatt_db_read_by_group_type_spec d r w lo hi type :
  db_wf d r w -> uuid_ok type ->
  gatt_db_read_by_group_type d lo hi type w =
    Some ((fun s => (s, 0%nat)) <$>
            same_size w (List.filter (group_matches w lo hi type) (services r)), w).
Proof.
  intros Hwf Hty. unfold gatt_db_read_by_group_type.
  rewrite (bind_run _ _ w r w) by (unfold get_db, get_some; by rewrite (wf_db d r w Hwf)).
  rewrite read_group_loop_spec; [done|done|].
  intros s Hs. destruct (wf_services d r w Hwf s Hs) as (v & Hv & Hok & _). by exists v.
Qed.

Lemma gatt_db_read_by_group_type_spec_witness :
  gatt_db_read_by_group_type 1 1 0xffff (UUID16 0x2800) demo_world =
    Some ((fun s => (s, 0%nat)) <$>
            same_size demo_world (List.filter (group_matches demo_world 1 0xffff (UUID16 0x2800))
                                    [1%positive]), demo_world).
Proof. apply (gatt_db_read_by_group_type_spec 1 demo_db); [apply demo_wf | done]. Defined.

(** ** Attributes of a type *)

(** The attribute is in the range, of the type and, if a value is given, has it. *)
Definition type_matches (lo hi : Z) (type : bt_uuid) (val : option bytes)
    (a : gatt_db_attribute) : bool :=
  (lo <=? handle a) && (handle a <=? hi) &&
  bool_decide (bt_uuid_cmp type (uuid a) = Some 0) &&
  match val with
  | None => true
  | Some x => bool_decide (take (Z.to_nat (value_len a)) (default [] (value a)) = x)
  end.

Definition found_in (w : world) (lo hi : Z) (type : bt_uuid) (val : option bytes) (s : addr)
    : list aptr :=
  match svcs w !! s with
  | Some v =>
    if active v
    then fst <$> List.filter (fun x => type_matches lo hi type val (snd x)) (slots_of s v)
    else []
  | None => []
  end.

(** Attributes as the functions of the database make them. *)
Definition attr_ok (a : gatt_db_attribute) : Prop := uuid_ok (uuid a) /\ exists c, stores a c.

Definition visit (f : fn) (w : world) (l : list aptr) : world :=
  World (dbs w) (svcs w) (events w ++ (Visit f <$> l)).

Lemma visit_nil f w : visit f w [] = w.
Proof. unfold visit. cbn. rewrite app_nil_r. by destruct w. Qed.

Lemma visit_visit f w l k : visit f (visit f w l) k = visit f w (l ++ k).
Proof. unfold visit. cbn. by rewrite fmap_app, app_assoc. Qed.

Lemma value_matches_spec val a w :
  attr_ok a ->
  value_matches val a w =
    Some (match val with
          | None => true
          | Some x => bool_decide (take (Z.to_nat (value_len a)) (default [] (value a)) = x)
          end, w).
Proof.
  intros [_ (c & Hlen & Hval)]. destruct val as [x|]; [|done]. unfold value_matches.
  assert (take (Z.to_nat (value_len a)) (default [] (value a)) = c) as ->.
  { rewrite Hlen. unfold zlen. rewrite Nat2Z.id. destruct (value a) as [b|]; cbn.
    - destruct Hval as [rest ->]. apply take_app_length.
    - subst. done. }
  rewrite Hlen. destruct (Z.eqb_spec (zlen x) (zlen c)) as [He|He]; cbn [negb].
  2:{ rewrite bool_decide_eq_false_2; [done|]. by intros ->. }
  destruct (Z.eqb_spec (zlen x) 0) as [H0|H0].
  { assert (x = []) as -> by (destruct x; [done|rewrite zlen_cons in H0; pose proof (zlen_nonneg x); lia]).
    assert (c = []) as -> by (destruct c; [done|rewrite zlen_cons in He; pose proof (zlen_nonneg c); unfold zlen in *; cbn in *; lia]).
    done. }
  destruct (value a) as [b|]; [|subst; done]. destruct Hval as [rest ->].
  cbv [mbind M_bind of_ub get_some]. rewrite He.
  rewrite (ld_mid [] c rest) by done. done.
Qed.

Lemma find_in_slots_spec f type lo hi val l k w :
  uuid_ok type -> is_u32 k -> Forall (fun x => attr_ok (snd x)) l ->
  let m := List.filter (fun x => type_matches lo hi type val (snd x)) l in
  find_in_slots f type lo hi val l k w = Some (u32 (k + zlen m), visit f w (fst <$> m)).
Proof.
  intros Hty. revert k w. induction l as [|[p a] l IH]; intros k w Hk Hl m.
  { cbn. rewrite visit_nil, Z.add_0_r, u32_small by done. done. }
  apply Forall_cons in Hl as [Ha Hl]. cbn in Ha. subst m. cbn [find_in_slots List.filter snd].
  set (X := match val with
            | None => true
            | Some x => bool_decide (take (Z.to_nat (value_len a)) (default [] (value a)) = x)
            end).
  assert (type_matches lo hi type val a = (lo <=? handle a) && (handle a <=? hi) &&
    bool_decide (bt_uuid_cmp type (uuid a) = Some 0) && X) as -> by done.
  destruct ((lo <=? handle a) && (handle a <=? hi)) eqn:Hr; cbn [andb].
  2:{ replace ((handle a <? lo) || (hi <? handle a)) with true by lia. by apply IH. }
  replace ((handle a <? lo) || (hi <? handle a)) with false by lia.
  assert (exists c, bt_uuid_cmp type (uuid a) = Some c) as [c Hc].
  { eexists. apply bt_uuid_cmp_memcmp; apply uuid_ok_specified; [done|apply Ha]. }
  unfold uuid_differs. rewrite (bind_run _ _ w (negb (c =? 0)) w)
    by (cbv [mbind M_bind of_ub get_some]; by rewrite Hc).
  rewrite Hc. destruct (Z.eqb_spec c 0) as [->|Hne]; cbn [negb].
  2:{ rewrite bool_decide_eq_false_2 by congruence. by apply IH. }
  rewrite (bool_decide_eq_true_2 (Some 0 = Some 0)) by done. cbn [andb].
  rewrite (bind_run _ _ w _ w) by by apply value_matches_spec.
  fold X. destruct X; [|by apply IH].
  rewrite (bind_run _ _ w tt (visit f w [p])) by done.
  rewrite IH by (done || apply u32_range).
  rewrite zlen_cons, fmap_cons, visit_visit. do 2 f_equal.
  unfold u32. rewrite Zplus_mod_idemp_l. f_equal. lia.
Qed.

Lemma find_by_type_loop_spec f type lo hi val l k w :
  uuid_ok type -> is_u32 k ->
  (forall s, s ∈ l -> exists v, svcs w !! s = Some v /\ num_handles v = zlen (attributes v) /\
     forall i a, slot v i = Some a -> attr_ok a) ->
  let m := concat (found_in w lo hi type val <$> l) in
  find_by_type f type lo hi val l k w = Some (u32 (k + zlen m), visit f w m).
Proof.
  intros Hty. revert k w. induction l as [|s l IH]; intros k w Hk Hl m.
  { cbn. rewrite visit_nil, Z.add_0_r, u32_small by done. done. }
  destruct (Hl s) as (v & Hs & Hn & Hok); [set_solver|].
  assert (forall t, t ∈ l -> exists v, svcs w !! t = Some v /\
     num_handles v = zlen (attributes v) /\ forall i a, slot v i = Some a -> attr_ok a) as Hl'
    by (intros t Ht; apply Hl; set_solver).
  subst m. cbn [find_by_type fmap list_fmap concat]. 
  assert (found_in w lo hi type val s = if active v
    then fst <$> List.filter (fun x => type_matches lo hi type val (snd x)) (slots_of s v)
    else []) as -> by (unfold found_in; by rewrite Hs).
  rewrite (bind_run _ _ w v w) by (unfold get_svc, get_some; by rewrite Hs).
  destruct (active v); cbn [negb]; [|by apply IH].
  rewrite (bind_run _ _ w (slots_of s v) w).
  2:{ by destruct (wp_used_slots s v w (fun x y => x = slots_of s v /\ y = w) Hs Hn)
        as (x & y & -> & -> & ->). }
  erewrite bind_run.
  2:{ apply find_in_slots_spec; [done|done|]. rewrite Forall_forall.
      intros [p a] [_ Ha]%elem_of_slots. by eapply Hok. }
  rewrite IH; [|apply u32_range|done]. rewrite visit_visit.
  match goal with |- context [found_in (visit f w ?x)] =>
    change (found_in (visit f w x)) with (found_in w) end.
  unfold zlen. rewrite length_app, length_fmap. do 2 f_equal.
  unfold u32. rewrite Zplus_mod_idemp_l. f_equal. lia.
Qed.

(** The searches by type call the callback on exactly the attributes of active services
    that are in the range, have the type and, where a value is given, that value, in
    order.  [gatt_db_find_by_type] returns their number; [gatt_db_find_by_type_value] does
    not initialise its counter and returns their number added to whatever the stack
    held. *)
Theorem gatt_db_find_by_type_spec d r w lo hi type val f junk :
  db_wf d r w -> uuid_ok type -> is_u32 junk ->
  (forall p a, fst p ∈ services r -> attr_at w p = Some a -> attr_ok a) ->
  let m val := concat (found_in w lo hi type val <$> services r) in
  gatt_db_find_by_type d lo hi type f w = Some (u32 (zlen (m None)), visit f w (m None)) /\
  gatt_db_find_by_type_value junk d lo hi type val f w
    = Some (u32 (junk + zlen (m val)), visit f w (m val)).
Proof.
  intros Hwf Hty Hj Hok m.
  assert (forall s, s ∈ services r -> exists v, svcs w !! s = Some v /\
    num_handles v = zlen (attributes v) /\ forall i a, slot v i = Some a -> attr_ok a) as Hl.
  { intros s Hs. destruct (wf_services d r w Hwf s Hs) as (v & Hv & Hsv & _).
    exists v. split_and!; [done|symmetry; apply Hsv|]. intros i a Ha.
    apply (Hok (s, i)); [done|]. unfold attr_at. cbn. by rewrite Hv. }
  unfold gatt_db_find_by_type, gatt_db_find_by_type_value.
  rewrite !(bind_run _ _ w r w) by (unfold get_db, get_some; by rewrite (wf_db d r w Hwf)).
  split; rewrite find_by_type_loop_spec; try done.
Qed.

Lemma gatt_db_find_by_type_spec_witness :
  let w := World (dbs demo_world)
    {[1%positive := Service (Some 1%positive) true false 4 (attributes demo_svc)]} [] in
  gatt_db_find_by_type 1 1 0xffff (UUID16 0x2800) (9, 9) w
    = Some (1, visit (9, 9) w [(1%positive, 0%nat)]) /\
  gatt_db_find_by_type_value 41 1 1 0xffff (UUID16 0x2800) (Some [0x0f; 0x18]) (9, 9) w
    = Some (42, visit (9, 9) w [(1%positive, 0%nat)]).
Proof.
  intros w. apply (gatt_db_find_by_type_spec 1 demo_db w 1 0xffff (UUID16 0x2800)
    (Some [0x0f; 0x18]) (9, 9) 41).
  - constructor; [done|by apply (bool_decide_unpack _)| |done].
    intros s ->%list_elem_of_singleton. eexists. split_and!; [reflexivity| |reflexivity].
    destruct demo_svc_ok as [H1 H2 H3 H4 H5]. constructor; assumption.
  - done.
  - unfold is_u32. lia.
  - intros [s i] a Hs Ha. cbn in Hs. apply list_elem_of_singleton in Hs as ->.
    unfold attr_at in Ha. cbn in Ha. unfold slot in Ha.
    destruct i as [|[|[|[|i]]]]; cbn in Ha; try discriminate Ha. injection Ha as <-.
    split; [done|]. exists [0x0f; 0x18]. split; [done|]. by exists [].
Defined.
