(* ===== verification/GattDbChar.v ===== *)
(** Characteristics in the database of GattDb.v: the two attributes a characteristic is
    made of, and the data read back from its declaration. *)
From Stdlib Require Import ZArith Lia.
From S2P Require Import Prelude Uuid StateM QueueSpec GattDb GattDbStore GattDbInsert GattDbAccess.
From stdpp Require Import base numbers list option gmap.
Import Uuid.

Local Open Scope Z_scope.

(** The first free slot of a service. *)
Lemma free_index_app k l i bound :
  Forall is_Some k -> i + zlen k < bound ->
  free_index (k ++ None :: l) i bound = Some (i + zlen k).
Proof.
  revert i. induction k as [|[a|] k IH]; intros i Hk Hb.
  - rewrite zlen_nil in *. cbn. rewrite (proj2 (Z.ltb_lt i bound)) by lia. f_equal. lia.
  - rewrite zlen_cons in *. pose proof (zlen_nonneg k). cbn.
    rewrite (proj2 (Z.ltb_lt i bound)) by lia.
    apply List.Forall_cons_iff in Hk as [_ Hk]. rewrite IH by (done || lia). f_equal. lia.
  - apply List.Forall_cons_iff in Hk as [[? [=]] _].
Qed.

Lemma wp_attribute_index s v k l off w Q :
  svcs w !! s = Some v -> attributes v = k ++ None :: l -> Forall is_Some k ->
  0 <= off -> zlen k < num_handles v - off -> num_handles v <= UINT16_MAX ->
  Q (zlen k) w -> wp (get_attribute_index s off) Q w.
Proof.
  intros Hs Hk Hsome Hoff Hlt Hn H. unfold get_attribute_index. pose proof (zlen_nonneg k).
  apply wp_bind. eapply wp_get_svc; [done|]. apply wp_bind. eapply wp_of_ub.
  { rewrite Hk. apply free_index_app; [done|lia]. }
  apply wp_ret. rewrite Z.add_0_l.
  rewrite (proj2 (Z.eqb_neq (zlen k) (num_handles v - off))) by lia.
  rewrite u16_small; [done|]. unfold is_u16, UINT16_MAX in *. lia.
Qed.

(** The bytes of a characteristic declaration. *)
Definition char_value (properties hdl : Z) (le : bytes) : bytes :=
  [properties] ++ le_bytes 2 hdl ++ le.

Lemma char_value_fields properties hdl le :
  is_u16 hdl ->
  get_u8 (char_value properties hdl le) 0 = Some properties /\
  get_le16 (char_value properties hdl le) 1 = Some hdl /\
  zlen (char_value properties hdl le) = 3 + zlen le.
Proof.
  intros Hh. unfold char_value. split_and!.
  - unfold get_u8. rewrite (ld_mid [] [properties] (le_bytes 2 hdl ++ le) 0 1
      eq_refl eq_refl : ld ([properties] ++ le_bytes 2 hdl ++ le) 0 1 = _).
    cbn [fmap option_fmap option_map le_val]. f_equal. lia.
  - unfold get_le16. rewrite (ld_mid [properties] (le_bytes 2 hdl)) by done.
    cbn [fmap option_fmap option_map]. by rewrite le16_val.
  - len_lia.
Qed.

(** Reading a UUID behind a prefix. *)
Lemma le_to_uuid_app pre le u :
  zlen le = 2 \/ zlen le = 16 -> le_to_uuid le 0 (zlen le) = Some (Some u) ->
  le_to_uuid (pre ++ le) (zlen pre) (zlen le) = Some (Some u).
Proof.
  intros Hw. assert (ld (pre ++ le) (zlen pre) (zlen le) = ld le 0 (zlen le)) as Hld.
  { pose proof (ld_mid pre le [] (zlen pre) (zlen le) eq_refl eq_refl) as H1.
    pose proof (ld_mid [] le [] 0 (zlen le) eq_refl eq_refl) as H2.
    rewrite app_nil_r in H1, H2. cbn [app] in H2. congruence. }
  unfold le_to_uuid, get_le16. destruct Hw as [Hw|Hw]; rewrite Hw in *;
    cbn [Z.eqb Pos.eqb negb]; by rewrite Hld.
Qed.

(** The two attributes of a characteristic. *)
Definition char_decl (hdl properties : Z) (le : bytes) : gatt_db_attribute :=
  Attribute (u16 (hdl - 1)) characteristic_uuid BT_ATT_PERM_READ (3 + zlen le)
    (Some (char_value properties hdl le)) None None 0 0 [] 0 [].
Definition char_attr (hdl : Z) (u : bt_uuid) (perm : Z) (rf wf : option Z) (ud : Z)
    : gatt_db_attribute :=
  Attribute hdl u perm 0 None rf wf ud 0 [] 0 [].

Definition with_char (v : gatt_db_service) (i : nat) (a b : gatt_db_attribute)
    : gatt_db_service :=
  with_slot (with_slot v i (Some a)) (S i) (Some b).

(** The handle the new characteristic value gets: the one that was asked for, or the second
    one after the last attribute. *)
Definition char_handle (hdl : Z) (prev : gatt_db_attribute) : Z :=
  if hdl =? 0 then u16 (handle prev + 2) else hdl.

Lemma wp_insert_characteristic malloc0 s v k prev l hdl u le perm properties rf wf ud w Q :
  malloc_ok malloc0 -> (forall n, is_Some (malloc0 n)) ->
  svcs w !! s = Some v -> svc_ok v ->
  attributes v = (k ++ [Some prev]) ++ None :: l -> Forall is_Some k ->
  l <> [] -> is_u16 hdl ->
  hdl = 0 \/ start_handle v < hdl < UINT16_MAX ->
  uuid_to_le u = Some le -> 0 < zlen le ->
  let i := S (length k) in
  let h := char_handle hdl prev in
  Q (Some (s, S i)) (World (dbs w)
    (<[s := with_char v i (char_decl h properties le) (char_attr h u perm rf wf ud)]> (svcs w))
    (events w)) ->
  wp (service_insert_characteristic malloc0 s hdl u perm properties rf wf ud) Q w.
Proof.
  intros Hmal Htot Hs Hok Hk Hsome Hl Hu16 Hhdl Hle Hlen i h HQ.
  pose proof (svc_decl v Hok) as (a & b & Ha & _). pose proof (svc_length v Hok) as Hz.
  pose proof (svc_start v Hok). pose proof (svc_end v Hok). unfold end_handle in *.
  assert (attr_at w (s, 0%nat) = Some a) as Ha0 by (unfold attr_at; cbn; by rewrite Hs).
  assert (start_handle v = handle a) as Hst by (unfold start_handle; by rewrite Ha).
  assert (zlen (k ++ [Some prev]) = Z.of_nat i) as Hzk by (subst i; len_lia).
  assert (Z.of_nat i + 2 <= num_handles v) as Hroom.
  { rewrite <- Hz, Hk, zlen_app, Hzk, zlen_cons. destruct l; [done|].
    rewrite zlen_cons. pose proof (zlen_nonneg l). lia. }
  assert (length (attributes v) = Z.to_nat (num_handles v)) as Hlv by (unfold zlen in Hz; lia).
  unfold service_insert_characteristic. apply wp_bind. eapply wp_get_attr; [exact Ha0|].
  replace (negb (hdl =? 0) && (hdl <=? handle a)) with false by lia.
  replace (hdl =? UINT16_MAX) with false by (unfold UINT16_MAX in *; lia).
  apply wp_bind. eapply wp_attribute_index; [done|exact Hk| |lia|lia| |].
  { apply Forall_app. split; [done|]. repeat constructor. by exists prev. }
  { unfold UINT16_MAX in *. lia. }
  rewrite Hzk, (proj2 (Z.eqb_neq (Z.of_nat i) 0)) by (unfold i; lia).
  apply wp_bind. apply (wp_mono _ (fun x w' => x = h /\ w' = w)).
  2:{ subst h. unfold char_handle. destruct (hdl =? 0); [|by apply wp_ret].
      apply wp_fmap. unfold get_handle_at_index. apply wp_fmap. eapply wp_get_attr; [|done].
      unfold attr_at. cbn. rewrite Hs. cbn. unfold slot.
      replace (Z.to_nat (Z.of_nat i - 1)) with (length k) by (unfold i; lia).
      rewrite Hk, <- app_assoc. cbn [app]. by rewrite list_lookup_middle by done. }
  intros x w' [-> ->]. apply wp_bind. eapply wp_of_ub; [exact Hle|].
  destruct (Htot (zlen ([properties] ++ le_bytes 2 h ++ le))) as [blk Hblk].
  assert (zlen ([properties] ++ le_bytes 2 h ++ le) = 3 + zlen le) as Hzv by len_lia.
  apply wp_bind. eapply wp_of_ub.
  { eapply new_attribute_value; [lia|exact Hblk|]. apply Hmal; [lia|done]. }
  apply wp_bind. eapply wp_set_slot; [done|lia|].
  rewrite Nat2Z.id. apply wp_bind. unfold set_attribute_data at 1. apply wp_bind.
  cbn [dbs svcs events].
  assert (forall x v, (i < length (attributes v))%nat -> slot (with_slot v i (Some x)) i = Some x)
    as Hslot.
  { intros x v' Hi. unfold slot. cbn. by rewrite list_lookup_insert_eq. }
  eapply wp_get_attr.
  { unfold attr_at. cbn. rewrite lookup_insert_eq. cbn. apply Hslot. lia. }
  eapply wp_put_attr; [apply lookup_insert_eq|apply Hslot; lia|].
  cbn [dbs svcs events]. rewrite insert_insert_eq.
  apply wp_bind. eapply wp_of_ub; [reflexivity|].
  replace (Z.to_nat (Z.of_nat i + 1)) with (S i) by lia.
  apply wp_bind. eapply wp_set_slot; [apply lookup_insert_eq|cbn; rewrite !length_insert; lia|].
  cbn [dbs svcs events]. rewrite insert_insert_eq.
  apply wp_bind. unfold set_attribute_data. apply wp_bind. eapply wp_get_attr.
  { unfold attr_at. cbn. rewrite lookup_insert_eq. cbn. unfold slot. cbn.
    by rewrite list_lookup_insert_eq by (rewrite !length_insert; lia). }
  eapply wp_put_attr; [apply lookup_insert_eq| |].
  { unfold slot. cbn. by rewrite list_lookup_insert_eq by (rewrite !length_insert; lia). }
  cbn [dbs svcs events]. rewrite insert_insert_eq. apply wp_ret.
  unfold with_char, with_slot in *. cbn in *.
  rewrite !list_insert_insert_eq. unfold char_decl in HQ. rewrite <- Hzv in HQ. exact HQ.
Qed.

Lemma wp_get_char_data tid p hdl properties le u w Q :
  attr_at w p = Some (char_decl hdl properties le) -> is_u16 hdl ->
  Z.land properties BT_GATT_CHRC_PROP_EXT_PROP = 0 ->
  zlen le = 2 \/ zlen le = 16 -> le_to_uuid le 0 (zlen le) = Some (Some u) ->
  Q (Some (u16 (hdl - 1), hdl, properties, 0, Some u)) w ->
  wp (gatt_db_attribute_get_char_data tid (Some p)) Q w.
Proof.
  intros Ha Hh Hprop Hw Hu HQ. destruct (char_value_fields properties hdl le Hh) as (H1 & H2 & H3).
  unfold gatt_db_attribute_get_char_data. apply wp_bind. eapply wp_get_attr; [done|].
  apply wp_bind, wp_uuid_differs; [by vm_compute..|]. intros [|] Hd; [by discriminate (proj2 Hd (reflexivity _))|].
  cbn [value char_decl value_len].
  assert (negb (3 + zlen le =? 5) && negb (3 + zlen le =? 19) = false) as ->
    by (destruct Hw as [-> | ->]; done).
  apply wp_bind. eapply wp_of_ub; [exact H1|]. apply wp_bind. unfold get_char_extended_prop.
  apply wp_bind. eapply wp_get_attr; [done|].
  apply wp_bind, wp_uuid_differs; [by vm_compute..|]. intros [|] Hd'; [by discriminate (proj2 Hd' (reflexivity _))|].
  apply wp_bind. eapply wp_of_ub; [done|]. apply wp_bind. eapply wp_of_ub; [exact H1|].
  rewrite Hprop. apply wp_ret. apply wp_bind. eapply wp_of_ub; [exact H2|].
  apply wp_bind. eapply wp_of_ub.
  { replace (3 + zlen le - 3) with (zlen le) by lia. unfold char_value. rewrite app_assoc.
    change 3 with (zlen ([properties] ++ le_bytes 2 hdl)). by apply le_to_uuid_app. }
  by apply wp_ret.
Qed.

(** Adding a characteristic to a service with two free slots behind an attribute: the
    declaration gets the next handle and the value the one after, and reading the data of
    the declaration gives back these handles, the properties and an equivalent UUID. *)
Theorem gatt_db_add_characteristic_data malloc0 s j v k prev l u perm properties rf wf ud tid w :
  malloc_ok malloc0 -> (forall n, is_Some (malloc0 n)) ->
  svcs w !! s = Some v -> svc_ok v ->
  attributes v = (k ++ [Some prev]) ++ None :: l -> Forall is_Some k -> l <> [] ->
  0 <= handle prev -> handle prev + 2 <= UINT16_MAX -> uuid_ok u ->
  Z.land properties BT_GATT_CHRC_PROP_EXT_PROP = 0 ->
  let i := S (length k) in
  exists w' u',
    gatt_db_service_add_characteristic malloc0 (Some (s, j)) u perm properties rf wf ud w
      = Some (Some (s, S i), w') /\
    u' ≡ u /\
    gatt_db_attribute_get_char_data tid (Some (s, i)) w'
      = Some (Some (handle prev + 1, handle prev + 2, properties, 0, Some u'), w') /\
    gatt_db_attribute_get_handle (Some (s, S i)) w' = Some (handle prev + 2, w') /\
    gatt_db_attribute_get_type (Some (s, S i)) w' = Some (Some u, w').
Proof.
  intros Hmal Htot Hs Hok Hk Hsome Hl H0 H2 Hu Hprop i.
  destruct (uuid_to_le_value u Hu) as (le & u' & Hle & Hw & _ & Hu' & _ & Huu).
  assert (u16 (handle prev + 2) = handle prev + 2) as Hu16
    by (apply u16_small; unfold is_u16, UINT16_MAX in *; lia).
  enough (wp (gatt_db_service_add_characteristic malloc0 (Some (s, j)) u perm properties rf wf ud)
    (fun x w' => x = Some (s, S i) /\
       attr_at w' (s, i) = Some (char_decl (handle prev + 2) properties le) /\
       attr_at w' (s, S i) = Some (char_attr (handle prev + 2) u perm rf wf ud)) w)
    as (x & w' & Hadd & -> & Hi & HSi).
  { exists w', u'. split_and!; [done|done| | |].
    - destruct (wp_get_char_data tid (s, i) (handle prev + 2) properties le u' w'
        (fun x y => x = Some (handle prev + 1, handle prev + 2, properties, 0, Some u') /\ y = w'))
        as (x & y & -> & -> & ->); try done.
      + unfold is_u16, UINT16_MAX in *. lia.
      + split; [|done]. do 5 f_equal. rewrite u16_small; [lia|].
        unfold is_u16, UINT16_MAX in *. lia.
    - unfold gatt_db_attribute_get_handle. cbv [fmap M_fmap].
      by rewrite (get_attr_run _ _ _ HSi).
    - unfold gatt_db_attribute_get_type. cbv [fmap M_fmap].
      by rewrite (get_attr_run _ _ _ HSi). }
  unfold gatt_db_service_add_characteristic.
  eapply wp_insert_characteristic; try done; [by left|lia|].
  unfold char_handle. cbn [Z.eqb]. rewrite Hu16. fold i.
  assert (length (attributes v) = S (S (length k + length l)))%nat as Hlen
    by (rewrite Hk, !length_app; cbn; lia).
  assert (0 < length l)%nat by (destruct l; [done|cbn; lia]).
  split_and!; [done| |]; unfold attr_at; cbn; rewrite lookup_insert_eq; cbn; unfold slot; cbn.
  - rewrite list_lookup_insert_ne by lia.
    by rewrite list_lookup_insert_eq by (unfold i; lia).
  - rewrite list_lookup_insert_eq; [done|]. rewrite length_insert. unfold i. lia.
Qed.

Lemma gatt_db_add_characteristic_data_witness :
  exists w' u',
    gatt_db_service_add_characteristic demo_malloc (Some (1%positive, 0%nat)) (UUID16 0x2a19) 1 2
      (Some 3) None 4 demo_world = Some (Some (1%positive, 2%nat), w') /\
    u' ≡ UUID16 0x2a19 /\
    gatt_db_attribute_get_char_data 7 (Some (1%positive, 1%nat)) w'
      = Some (Some (6, 7, 2, 0, Some u'), w') /\
    gatt_db_attribute_get_handle (Some (1%positive, 2%nat)) w' = Some (7, w') /\
    gatt_db_attribute_get_type (Some (1%positive, 2%nat)) w' = Some (Some (UUID16 0x2a19), w').
Proof.
  apply (gatt_db_add_characteristic_data demo_malloc 1 0 demo_svc []
    (new_decl 5 true [0x0f; 0x18]) [None; None]); try done.
  - apply demo_malloc_ok.
  - apply demo_svc_ok.
Defined.

(** The handle that is asked for is not checked against the end of the service, nor
    against the attributes that are there: a characteristic inserted right behind the
    service declaration gets the handle of the service declaration for its own
    declaration, one far behind the end of the service is accepted although no lookup can
    find it, and an included service does not get the handle that was asked for. *)
Theorem gatt_db_insert_unchecked :
  let insert h := gatt_db_service_insert_characteristic demo_malloc (Some (1%positive, 0%nat)) h
    (UUID16 0x2a19) 1 2 None None 0 in
  (exists w', insert 6 demo_world = Some (Some (1%positive, 2%nat), w') /\
     gatt_db_attribute_get_handle (Some (1%positive, 1%nat)) w' = Some (5, w') /\
     gatt_db_attribute_get_handle (Some (1%positive, 0%nat)) w' = Some (5, w')) /\
  (exists w', insert 100 demo_world = Some (Some (1%positive, 2%nat), w') /\
     gatt_db_attribute_get_handle (Some (1%positive, 2%nat)) w' = Some (100, w') /\
     gatt_db_get_attribute (Some 1%positive) 100 w' = Some (None, w')) /\
  (exists w', gatt_db_service_insert_included demo_malloc (Some (1%positive, 0%nat)) 8
     (Some (1%positive, 0%nat)) demo_world = Some (Some (1%positive, 1%nat), w') /\
     gatt_db_attribute_get_handle (Some (1%positive, 1%nat)) w' = Some (6, w')).
Proof.
  split; [|split]; eexists; (split; [vm_compute; reflexivity|]);
    repeat split; vm_compute; reflexivity.
Qed.
