(* ===== verification/Gobex.v ===== *)
(** OBEX packets: gobex/gobex-header.c, gobex/gobex-packet.c and gobex/gobex-apparam.c.
    Buffers are blocks of bytes, so that an access outside is undefined; so is a failed
    [g_assert].  The conversions between UTF-8 and UTF-16 and the order in which a hash
    table is traversed are GLib's and are arguments.  A reference to an external buffer
    ([G_OBEX_DATA_REF]) is the bytes it refers to. *)
From Stdlib Require Import ZArith Lia.
From S2P Require Import Prelude.
From stdpp Require Import base numbers list option gmap.

Local Open Scope Z_scope.

(** ** Headers *)

Definition G_OBEX_HDR_ENC_UNICODE : Z := 0x00.
Definition G_OBEX_HDR_ENC_BYTES : Z := 0x40.
Definition G_OBEX_HDR_ENC_UINT8 : Z := 0x80.
Definition G_OBEX_HDR_ENC_UINT32 : Z := 0xc0.
Definition G_OBEX_HDR_ENC (id : Z) : Z := Z.land id 0xc0.

Definition G_OBEX_HDR_INVALID : Z := 0x00.
Definition G_OBEX_HDR_BODY : Z := 0x48.
Definition G_OBEX_HDR_BODY_END : Z := 0x49.
Definition G_OBEX_HDR_APPARAM : Z := 0x4c.
Definition G_OBEX_RSP_CONTINUE : Z := 0x10.
Definition G_OBEX_RSP_SUCCESS : Z := 0x20.
Definition FINAL_BIT : Z := 0x80.
Definition ENOBUFS : Z := 105.

Inductive GObexDataPolicy := G_OBEX_DATA_INHERIT | G_OBEX_DATA_COPY | G_OBEX_DATA_REF.

#[export] Instance policy_eq_dec : EqDecision GObexDataPolicy.
Proof. solve_decision. Defined.

(** The errors stored in [*err]. *)
Inductive GObexError := G_OBEX_ERROR_PARSE_ERROR | G_OBEX_ERROR_INVALID_ARGS.

(** The union [v] of a header. *)
Inductive header_value :=
  | VString (s : bytes)
  | VData (d : bytes)
  | VExtdata (d : bytes)
  | VU8 (x : Z)
  | VU32 (x : Z).

Record GObexHeader := Header {
  h_id : Z;
  extdata : bool;
  vlen : Z;
  hlen : Z;
  v : header_value;
}.

(** ** Application parameters *)

Record apparam_tag := Tag { t_id : Z; t_len : Z; t_data : bytes }.

(** The hash table from ids to tags. *)
Abbreviation GObexApparam := (gmap Z apparam_tag).

(** [len] is a byte: a longer length is cut. *)
Definition tag_new (id len : Z) (data : bytes) : ub apparam_tag :=
  d ← ld data 0 (u8 len); Some (Tag id (u8 len) d).

(** The tag at [off], and the number of bytes parsed. *)
Definition apparam_tag_decode (data : bytes) (off size : Z) : ub (option (apparam_tag * Z)) :=
  if size <? 2 then Some None
  else
    id ← get_u8 data off;
    len ← get_u8 data (off + 1);
    if size - 2 <? len then Some None
    else
      d ← ld data (off + 2) len;
      tag ← tag_new id len d;
      Some (Some (tag, 2 + t_len tag)).

Fixpoint apparam_decode_loop (n : nat) (data : bytes) (size count : Z) (tags : GObexApparam)
    : ub (Z * GObexApparam) :=
  match n with
  | O => None
  | S n =>
    if count <? size then
      r ← apparam_tag_decode data count (size - count);
      match r with
      | None => Some (count, tags)
      | Some (tag, parsed) =>
        apparam_decode_loop n data size (count + parsed) (<[t_id tag := tag]> tags)
      end
    else Some (count, tags)
  end.

Definition g_obex_apparam_decode (data : bytes) (size : Z) : ub (option GObexApparam) :=
  if size <? 2 then Some None
  else
    '(count, tags) ← apparam_decode_loop (S (Z.to_nat size)) data size 0 ∅;
    if negb (count =? size) then Some None else Some (Some tags).

(** Writes the id, the length and the data at [off]. *)
Definition tag_encode (tag : apparam_tag) (buf : bytes) (off len : Z) : ub (Z * bytes) :=
  let count := 2 + t_len tag in
  if len <? count then Some (- ENOBUFS, buf)
  else
    d ← ld (t_data tag) 0 (t_len tag);
    buf ← st buf off ([t_id tag; t_len tag] ++ d);
    Some (count, buf).

Fixpoint tags_encode (tags : list apparam_tag) (buf : bytes) (len count : Z)
    : ub (Z * bytes) :=
  match tags with
  | [] => Some (count, buf)
  | tag :: tags =>
    '(ret, buf) ← tag_encode tag buf count (len - count);
    if ret <? 0 then Some (ret, buf) else tags_encode tags buf len (count + ret)
  end.

(** [iter] is the order of the traversal of the hash table. *)
Definition g_obex_apparam_encode (iter : GObexApparam -> list apparam_tag)
    (apparam : option GObexApparam) (buf : bytes) (len : Z) : ub (Z * bytes) :=
  match apparam with
  | None => Some (0, buf)
  | Some tags => tags_encode (iter tags) buf len 0
  end.

Definition g_obex_apparam_set_bytes (apparam : option GObexApparam) (id : Z) (value : bytes)
    (len : Z) : ub GObexApparam :=
  let tags := default ∅ apparam in
  tag ← tag_new id len value;
  Some (<[id := tag]> tags).

Definition g_obex_apparam_set_uint8 (apparam : option GObexApparam) (id value : Z)
    : ub GObexApparam := g_obex_apparam_set_bytes apparam id [value] 1.
Definition g_obex_apparam_set_uint16 (apparam : option GObexApparam) (id value : Z)
    : ub GObexApparam := g_obex_apparam_set_bytes apparam id (be_bytes 2 value) 2.
Definition g_obex_apparam_set_uint32 (apparam : option GObexApparam) (id value : Z)
    : ub GObexApparam := g_obex_apparam_set_bytes apparam id (be_bytes 4 value) 4.
Definition g_obex_apparam_set_uint64 (apparam : option GObexApparam) (id value : Z)
    : ub GObexApparam := g_obex_apparam_set_bytes apparam id (be_bytes 8 value) 8.

(** [value] is the string without its terminator; a long one is cut in place. *)
Definition g_obex_apparam_set_string (apparam : option GObexApparam) (id : Z) (value : bytes)
    : ub GObexApparam :=
  let len := zlen value + 1 in
  if UINT8_MAX <? len
  then g_obex_apparam_set_bytes apparam id (take 254 value ++ [0]) UINT8_MAX
  else g_obex_apparam_set_bytes apparam id (value ++ [0]) len.

Definition g_obex_apparam_find_tag (apparam : GObexApparam) (id : Z) : option apparam_tag :=
  apparam !! id.

(** Does not look at the length of the tag. *)
Definition g_obex_apparam_get_uint8 (apparam : GObexApparam) (id : Z) : ub (option Z) :=
  match g_obex_apparam_find_tag apparam id with
  | None => Some None
  | Some tag => x ← get_u8 (t_data tag) 0; Some (Some x)
  end.

Definition get_be (n : Z) (apparam : GObexApparam) (id : Z) : ub (option Z) :=
  match g_obex_apparam_find_tag apparam id with
  | None => Some None
  | Some tag =>
    if t_len tag <? n then Some None
    else x ← be_val <$> ld (t_data tag) 0 n; Some (Some x)
  end.
Definition g_obex_apparam_get_uint16 := get_be 2.
Definition g_obex_apparam_get_uint32 := get_be 4.
Definition g_obex_apparam_get_uint64 := get_be 8.

Definition g_obex_apparam_get_string (apparam : GObexApparam) (id : Z) : option bytes :=
  match g_obex_apparam_find_tag apparam id with
  | None => None
  | Some tag => Some (until_null (take (Z.to_nat (t_len tag)) (t_data tag)))
  end.

Definition g_obex_apparam_get_bytes (apparam : GObexApparam) (id : Z) : option (bytes * Z) :=
  match g_obex_apparam_find_tag apparam id with
  | None => None
  | Some tag => Some (t_data tag, t_len tag)
  end.

Section obex.
(** GLib: [g_utf8_to_utf16], [g_utf8_strlen], and [g_convert] from UTF-16BE to UTF-8. *)
Variables (g_utf8_to_utf16 : bytes -> option (list Z)) (g_utf8_strlen : bytes -> Z)
  (g_convert : bytes -> option bytes).

(** The size in bytes with the terminator, and the code units in network byte order; -1
    when the string is not valid. *)
Definition utf8_to_utf16 (utf8 : bytes) : Z * bytes :=
  match utf8 with
  | [] => (0, [])
  | _ =>
    match g_utf8_to_utf16 utf8 with
    | None => (-1, [])
    | Some l => (Z.shiftl (zlen l + 1) 1, concat (be_bytes 2 <$> l) ++ [0; 0])
    end
  end.

(** Writes the header at [off], with room for [buf_len] bytes. *)
Definition g_obex_header_encode (h : GObexHeader) (buf : bytes) (off buf_len : Z)
    : ub (Z * bytes) :=
  if buf_len <? hlen h then Some (-1, buf)
  else
    buf ← st buf off [h_id h];
    let off := off + 1 in
    if G_OBEX_HDR_ENC (h_id h) =? G_OBEX_HDR_ENC_UNICODE then
      match v h with
      | VString s =>
        let '(utf16_len, utf16) := utf8_to_utf16 s in
        if (utf16_len <? 0) || (buf_len <? u16 utf16_len) then Some (-1, buf)
        else if negb (utf16_len + 3 =? hlen h) then None
        else
          buf ← put_be16 (u16 (utf16_len + 3)) buf off;
          buf ← st buf (off + 2) utf16;
          Some (hlen h, buf)
      | _ => None
      end
    else if G_OBEX_HDR_ENC (h_id h) =? G_OBEX_HDR_ENC_BYTES then
      buf ← put_be16 (u16 (hlen h)) buf off;
      d ← match v h with
          | VExtdata d => if extdata h then Some d else None
          | VData d => if extdata h then None else Some d
          | _ => None
          end;
      d ← ld d 0 (vlen h);
      buf ← st buf (off + 2) d;
      Some (hlen h, buf)
    else if G_OBEX_HDR_ENC (h_id h) =? G_OBEX_HDR_ENC_UINT8 then
      match v h with
      | VU8 x => buf ← put_u8 x buf off; Some (hlen h, buf)
      | _ => None
      end
    else
      match v h with
      | VU32 x => buf ← put_be32 x buf off; Some (hlen h, buf)
      | _ => None
      end.

(** The end at the label [failed] reads [*err]. *)
Definition failed {A} (err : bool) (e : GObexError) : ub (GObexError + A) :=
  if err then Some (inl e) else None.

(** Decodes a header at [off]; [err] tells whether the caller passes a place for the error.
    The result is the header and the number of bytes parsed. *)
Definition g_obex_header_decode (data : bytes) (off len : Z) (data_policy : GObexDataPolicy)
    (err : bool) : ub (GObexError + GObexHeader * Z) :=
  if len <? 2 then Some (inl G_OBEX_ERROR_PARSE_ERROR)
  else
    id ← get_u8 data off;
    let off := off + 1 in
    if G_OBEX_HDR_ENC id =? G_OBEX_HDR_ENC_UNICODE then
      if len <? 3 then failed err G_OBEX_ERROR_PARSE_ERROR
      else
        hdr_len ← get_be16 data off;
        let off := off + 2 in
        if hdr_len =? 3 then
          Some (inr (Header id false 0 hdr_len (VString []), hdr_len))
        else if (len <? hdr_len) || (hdr_len <? 5) then failed err G_OBEX_ERROR_PARSE_ERROR
        else
          utf16 ← ld data off (hdr_len - 5);
          match g_convert utf16 with
          | None => failed err G_OBEX_ERROR_PARSE_ERROR
          | Some s => Some (inr (Header id false (zlen s) hdr_len (VString s), hdr_len))
          end
    else if G_OBEX_HDR_ENC id =? G_OBEX_HDR_ENC_BYTES then
      if len <? 3 then failed err G_OBEX_ERROR_PARSE_ERROR
      else
        hdr_len ← get_be16 data off;
        let off := off + 2 in
        if len <? hdr_len then failed err G_OBEX_ERROR_PARSE_ERROR
        else if hdr_len <? 3 then failed err G_OBEX_ERROR_PARSE_ERROR
        else
          match data_policy with
          | G_OBEX_DATA_COPY =>
            d ← ld data off (hdr_len - 3);
            Some (inr (Header id false (hdr_len - 3) hdr_len (VData d), hdr_len))
          | G_OBEX_DATA_REF =>
            d ← ld data off (hdr_len - 3);
            Some (inr (Header id true (hdr_len - 3) hdr_len (VExtdata d), hdr_len))
          | G_OBEX_DATA_INHERIT => failed err G_OBEX_ERROR_INVALID_ARGS
          end
    else if G_OBEX_HDR_ENC id =? G_OBEX_HDR_ENC_UINT8 then
      x ← get_u8 data off;
      Some (inr (Header id false 1 2 (VU8 x), 2))
    else
      if len <? 5 then failed err G_OBEX_ERROR_PARSE_ERROR
      else
        x ← get_be32 data off;
        Some (inr (Header id false 4 5 (VU32 x), 5)).

Definition g_obex_header_get_unicode (h : GObexHeader) : option bytes :=
  if negb (G_OBEX_HDR_ENC (h_id h) =? G_OBEX_HDR_ENC_UNICODE) then None
  else match v h with VString s => Some s | _ => None end.

Definition g_obex_header_get_bytes (h : GObexHeader) : option (bytes * Z) :=
  if negb (G_OBEX_HDR_ENC (h_id h) =? G_OBEX_HDR_ENC_BYTES) then None
  else match v h with VData d | VExtdata d => Some (d, vlen h) | _ => None end.

Definition g_obex_header_get_apparam (h : GObexHeader) : ub (option GObexApparam) :=
  match g_obex_header_get_bytes h with
  | None => Some None
  | Some (val, len) => g_obex_apparam_decode val len
  end.

Definition g_obex_header_get_uint8 (h : GObexHeader) : option Z :=
  if negb (G_OBEX_HDR_ENC (h_id h) =? G_OBEX_HDR_ENC_UINT8) then None
  else match v h with VU8 x => Some x | _ => None end.

Definition g_obex_header_get_uint32 (h : GObexHeader) : option Z :=
  if negb (G_OBEX_HDR_ENC (h_id h) =? G_OBEX_HDR_ENC_UINT32) then None
  else match v h with VU32 x => Some x | _ => None end.

Definition g_obex_header_new_unicode (id : Z) (str : bytes) : option GObexHeader :=
  if negb (G_OBEX_HDR_ENC id =? G_OBEX_HDR_ENC_UNICODE) then None
  else
    let len := g_utf8_strlen str in
    Some (Header id false len (if len =? 0 then 3 else 3 + (len + 1) * 2) (VString str)).

Definition g_obex_header_new_bytes (id : Z) (data : bytes) (len : Z)
    : ub (option GObexHeader) :=
  if negb (G_OBEX_HDR_ENC id =? G_OBEX_HDR_ENC_BYTES) then Some None
  else d ← ld data 0 len; Some (Some (Header id false len (len + 3) (VData d))).

Definition g_obex_header_new_tag (iter : GObexApparam -> list apparam_tag) (id : Z)
    (apparam : option GObexApparam) : ub (option GObexHeader) :=
  '(len, buf) ← g_obex_apparam_encode iter apparam (replicate 1024 0) 1024;
  if len <? 0 then Some None else g_obex_header_new_bytes id buf len.

Definition g_obex_header_new_apparam (iter : GObexApparam -> list apparam_tag)
    (apparam : option GObexApparam) : ub (option GObexHeader) :=
  g_obex_header_new_tag iter G_OBEX_HDR_APPARAM apparam.

Definition g_obex_header_new_uint8 (id val : Z) : option GObexHeader :=
  if negb (G_OBEX_HDR_ENC id =? G_OBEX_HDR_ENC_UINT8) then None
  else Some (Header id false 1 2 (VU8 val)).

Definition g_obex_header_new_uint32 (id val : Z) : option GObexHeader :=
  if negb (G_OBEX_HDR_ENC id =? G_OBEX_HDR_ENC_UINT32) then None
  else Some (Header id false 4 5 (VU32 val)).

Definition g_obex_header_get_id (h : GObexHeader) : Z := h_id h.
Definition g_obex_header_get_length (h : GObexHeader) : Z := u16 (hlen h).

(** The variable arguments of a list of headers: an id and the value for its encoding. *)
Inductive header_arg :=
  | ArgUnicode (id : Z) (str : bytes)
  | ArgBytes (id : Z) (data : bytes) (len : Z)
  | ArgUint8 (id val : Z)
  | ArgUint32 (id val : Z).

Definition header_of_arg (a : header_arg) : ub (option GObexHeader) :=
  match a with
  | ArgUnicode id str => Some (g_obex_header_new_unicode id str)
  | ArgBytes id data len => g_obex_header_new_bytes id data len
  | ArgUint8 id val => Some (g_obex_header_new_uint8 id (u8 val))
  | ArgUint32 id val => Some (g_obex_header_new_uint32 id val)
  end.

(** The list ends with [G_OBEX_HDR_INVALID]; a header that cannot be made is dereferenced. *)
Fixpoint create_list_loop (args : list header_arg) (l : list GObexHeader) (total_len : Z)
    : ub (list GObexHeader * Z) :=
  match args with
  | [] => Some (l, total_len)
  | a :: args =>
    h ← header_of_arg a;
    h ← h;
    create_list_loop args (l ++ [h]) (total_len + hlen h)
  end.

Definition g_obex_header_create_list (args : list header_arg) : ub (list GObexHeader * Z) :=
  create_list_loop args [] 0.

(** ** Packets *)

(** [get_body] is called with the room there is, and returns a count and the bytes it
    wrote. *)
Record GObexPacket := Packet {
  opcode : Z;
  final : bool;
  data_policy : GObexDataPolicy;
  p_data : option bytes;
  data_len : Z;
  p_hlen : Z;
  headers : list GObexHeader;
  get_body_fn : option (Z -> Z * bytes);
}.

Definition g_obex_packet_get_header (p : GObexPacket) (id : Z) : option GObexHeader :=
  List.find (fun h => g_obex_header_get_id h =? id) (headers p).

Definition g_obex_packet_get_body (p : GObexPacket) : option GObexHeader :=
  match g_obex_packet_get_header p G_OBEX_HDR_BODY with
  | Some h => Some h
  | None => g_obex_packet_get_header p G_OBEX_HDR_BODY_END
  end.

Definition g_obex_packet_get_operation (p : GObexPacket) : Z * bool := (opcode p, final p).

Definition with_headers (p : GObexPacket) (l : list GObexHeader) (n : Z) : GObexPacket :=
  Packet (opcode p) (final p) (data_policy p) (p_data p) (data_len p) n l (get_body_fn p).

Definition g_obex_packet_prepend_header (p : GObexPacket) (h : GObexHeader) : GObexPacket :=
  with_headers p (h :: headers p) (p_hlen p + g_obex_header_get_length h).

Definition g_obex_packet_add_header (p : GObexPacket) (h : GObexHeader) : GObexPacket :=
  with_headers p (headers p ++ [h]) (p_hlen p + g_obex_header_get_length h).

(** The result FALSE leaves the packet as it is. *)
Definition g_obex_packet_add_body (p : GObexPacket) (func : Z -> Z * bytes)
    : option GObexPacket :=
  match get_body_fn p with
  | Some _ => None
  | None => Some (Packet (opcode p) (final p) (data_policy p) (p_data p) (data_len p)
                    (p_hlen p) (headers p) (Some func))
  end.

Definition g_obex_packet_add_unicode (p : GObexPacket) (id : Z) (str : bytes)
    : option GObexPacket :=
  g_obex_packet_add_header p <$> g_obex_header_new_unicode id str.

Definition g_obex_packet_add_bytes (p : GObexPacket) (id : Z) (data : bytes) (len : Z)
    : ub (option GObexPacket) :=
  match g_obex_header_new_bytes id data len with
  | Some (Some h) => Some (Some (g_obex_packet_add_header p h))
  | Some None => Some None
  | None => None
  end.

Definition g_obex_packet_add_uint8 (p : GObexPacket) (id val : Z) : option GObexPacket :=
  g_obex_packet_add_header p <$> g_obex_header_new_uint8 id val.

Definition g_obex_packet_add_uint32 (p : GObexPacket) (id val : Z) : option GObexPacket :=
  g_obex_packet_add_header p <$> g_obex_header_new_uint32 id val.

Definition g_obex_packet_get_data (p : GObexPacket) : option bytes * Z :=
  if data_len p =? 0 then (None, 0) else (p_data p, data_len p).

(** [g_memdup] of nothing is NULL. *)
Definition g_obex_packet_set_data (p : GObexPacket) (data : bytes) (len : Z)
    (policy : GObexDataPolicy) : ub (bool * GObexPacket) :=
  match p_data p with
  | Some _ => Some (false, p)
  | None =>
    d ← ld data 0 len;
    let d := match policy with
             | G_OBEX_DATA_COPY => if len =? 0 then None else Some d
             | _ => Some d
             end in
    Some (true, Packet (opcode p) (final p) policy d len (p_hlen p) (headers p)
                  (get_body_fn p))
  end.

Definition g_obex_packet_new_valist (opcode : Z) (final : bool) (args : list header_arg)
    : ub GObexPacket :=
  '(l, n) ← g_obex_header_create_list args;
  Some (Packet opcode final G_OBEX_DATA_COPY None 0 n l None).

Definition g_obex_packet_new (opcode : Z) (final : bool) (args : list header_arg)
    : ub GObexPacket := g_obex_packet_new_valist opcode final args.

(** [while (len > 0)]; every header takes at least a byte, so [n] is more than [len]. *)
Fixpoint parse_headers (n : nat) (p : GObexPacket) (data : bytes) (off len : Z)
    (policy : GObexDataPolicy) (err : bool) : ub (GObexError + GObexPacket) :=
  match n with
  | O => None
  | S n =>
    if 0 <? len then
      r ← g_obex_header_decode data off len policy err;
      match r with
      | inl e => Some (inl e)
      | inr (h, parsed) =>
        parse_headers n (with_headers p (headers p ++ [h]) (p_hlen p + parsed)) data
          (off + parsed) (len - parsed) policy err
      end
    else Some (inr p)
  end.

Definition g_obex_packet_decode (data : bytes) (len header_offset : Z)
    (policy : GObexDataPolicy) (err : bool) : ub (GObexError + GObexPacket) :=
  if decide (policy = G_OBEX_DATA_INHERIT) then Some (inl G_OBEX_ERROR_INVALID_ARGS)
  else if len <? 3 + header_offset then Some (inl G_OBEX_ERROR_PARSE_ERROR)
  else
    op ← get_u8 data 0;
    packet_len ← get_be16 data 1;
    if negb (packet_len =? len) then Some (inl G_OBEX_ERROR_PARSE_ERROR)
    else
      let final := negb (Z.land op FINAL_BIT =? 0) in
      let op := Z.land op (Z.lnot FINAL_BIT) in
      p ← g_obex_packet_new op final [];
      p ← (if header_offset =? 0 then Some p
           else
             d ← ld data 3 header_offset;
             snd <$> g_obex_packet_set_data p d header_offset policy);
      parse_headers (S (Z.to_nat len)) p data (3 + header_offset)
        (len - (3 + header_offset)) policy err.

(** The body header at [off]; the result is what the producer returns. *)
Definition get_body (f : Z -> Z * bytes) (buf : bytes) (off len : Z) : ub (Z * bytes) :=
  if len <? 3 then Some (- ENOBUFS, buf)
  else
    let '(ret, d) := f (len - 3) in
    buf ← st buf (off + 3) d;
    if ret <? 0 then Some (ret, buf)
    else
      buf ← st buf off [if 0 <? ret then G_OBEX_HDR_BODY else G_OBEX_HDR_BODY_END];
      buf ← put_be16 (u16 (ret + 3)) buf (off + 1);
      Some (ret, buf).

Fixpoint encode_headers (l : list GObexHeader) (buf : bytes) (len count : Z)
    : ub (Z * bytes) :=
  match l with
  | [] => Some (count, buf)
  | h :: l =>
    if len <=? count then Some (- ENOBUFS, buf)
    else
      '(ret, buf) ← g_obex_header_encode h buf count (len - count);
      if ret <? 0 then Some (ret, buf) else encode_headers l buf len (count + ret)
  end.

Definition g_obex_packet_encode (p : GObexPacket) (buf : bytes) (len : Z) : ub (Z * bytes) :=
  if len <? 3 + data_len p + p_hlen p then Some (- ENOBUFS, buf)
  else
    buf ← st buf 0 [if final p then Z.lor (opcode p) FINAL_BIT else opcode p];
    buf ← (if 0 <? data_len p then
             d ← p_data p; d ← ld d 0 (data_len p); st buf 3 d
           else Some buf);
    '(count, buf) ← encode_headers (headers p) buf len (3 + data_len p);
    if count <? 0 then Some (count, buf)
    else
      r ← match get_body_fn p with
          | None => Some (count, buf)
          | Some f =>
            '(ret, buf) ← get_body f buf count (len - count);
            if ret <? 0 then Some (ret, buf)
            else
              buf ← (if ret =? 0 then
                       let op := if opcode p =? G_OBEX_RSP_CONTINUE
                                 then G_OBEX_RSP_SUCCESS
                                 else if final p then Z.lor (opcode p) FINAL_BIT else opcode p in
                       st buf 0 [Z.lor op FINAL_BIT]
                     else Some buf);
              Some (count + (ret + 3), buf)
          end;
      let '(count, buf) := r in
      if count <? 0 then Some (count, buf)
      else
        buf ← put_be16 (u16 count) buf 1;
        Some (count, buf).

End obex.
