(* ===== verification/GobexSpec.v ===== *)
(** Round trips and safety of the OBEX packets of Gobex.v. *)
From Stdlib Require Import ZArith Lia.
From S2P Require Import Prelude Blocks Gobex.
From stdpp Require Import base numbers list option gmap.

Local Open Scope Z_scope.

(** Code units in network byte order. *)
Definition units (l : list Z) : bytes := concat (be_bytes 2 <$> l).

Lemma zlen_units l : zlen (units l) = 2 * zlen l.
Proof.
  induction l as [|x l IH]; [done|].
  change (units (x :: l)) with (be_bytes 2 x ++ units l). rewrite zlen_app, zlen_cons, IH. len_lia.
Qed.

Section headers.
Variables (g_utf8_to_utf16 : bytes -> option (list Z)) (g_utf8_strlen : bytes -> Z)
  (g_convert : bytes -> option bytes).

(** The headers that the constructors make: a Unicode string that GLib converts both ways
    and that has no character outside the basic plane, or a value, in less than 64 KiB. *)
Inductive header_ok : GObexHeader -> Prop :=
  | ok_empty id :
      is_u8 id -> G_OBEX_HDR_ENC id = G_OBEX_HDR_ENC_UNICODE -> g_utf8_strlen [] = 0 ->
      header_ok (Header id false (g_utf8_strlen []) 3 (VString []))
  | ok_unicode id s l :
      is_u8 id -> G_OBEX_HDR_ENC id = G_OBEX_HDR_ENC_UNICODE -> s <> [] -> l <> [] ->
      g_utf8_to_utf16 s = Some l -> g_utf8_strlen s = zlen l -> g_convert (units l) = Some s ->
      3 + (zlen l + 1) * 2 <= UINT16_MAX ->
      header_ok (Header id false (g_utf8_strlen s) (3 + (zlen l + 1) * 2) (VString s))
  | ok_data id d :
      is_u8 id -> G_OBEX_HDR_ENC id = G_OBEX_HDR_ENC_BYTES -> zlen d + 3 <= UINT16_MAX ->
      header_ok (Header id false (zlen d) (zlen d + 3) (VData d))
  | ok_extdata id d :
      is_u8 id -> G_OBEX_HDR_ENC id = G_OBEX_HDR_ENC_BYTES -> zlen d + 3 <= UINT16_MAX ->
      header_ok (Header id true (zlen d) (zlen d + 3) (VExtdata d))
  | ok_u8 id x :
      is_u8 id -> G_OBEX_HDR_ENC id = G_OBEX_HDR_ENC_UINT8 -> is_u8 x ->
      header_ok (Header id false 1 2 (VU8 x))
  | ok_u32 id x :
      is_u8 id -> G_OBEX_HDR_ENC id = G_OBEX_HDR_ENC_UINT32 -> is_u32 x ->
      header_ok (Header id false 4 5 (VU32 x)).

(** The bytes of a header behind its id. *)
Definition payload (h : GObexHeader) : bytes :=
  match v h with
  | VString s =>
    be_bytes 2 (hlen h) ++
    match s with
    | [] => []
    | _ => units (default [] (g_utf8_to_utf16 s)) ++ [0; 0]
    end
  | VData d | VExtdata d => be_bytes 2 (hlen h) ++ d
  | VU8 x => [x]
  | VU32 x => be_bytes 4 x
  end.

Definition wire (h : GObexHeader) : bytes := [h_id h] ++ payload h.

(** What is decoded from the bytes of a header. *)
Definition decoded (policy : GObexDataPolicy) (h : GObexHeader) : GObexHeader :=
  match v h with
  | VString s => Header (h_id h) false (zlen s) (hlen h) (VString s)
  | VData d | VExtdata d =>
    match policy with
    | G_OBEX_DATA_REF => Header (h_id h) true (vlen h) (hlen h) (VExtdata d)
    | _ => Header (h_id h) false (vlen h) (hlen h) (VData d)
    end
  | _ => h
  end.

Lemma wire_length h : header_ok h -> zlen (wire h) = hlen h.
Proof.
  intros []; unfold wire, payload; cbn [v hlen h_id].
  - len_lia.
  - destruct s as [|c s]; [done|]. rewrite H3. change (default [] (Some l)) with l.
    rewrite !zlen_app, zlen_units. len_lia.
  - len_lia.
  - len_lia.
  - len_lia.
  - len_lia.
Qed.

Lemma hlen_range h : header_ok h -> 2 <= hlen h <= UINT16_MAX.
Proof.
  intros []; cbn [hlen]; unfold UINT16_MAX in *; try lia.
  - pose proof (zlen_nonneg l). lia.
  - pose proof (zlen_nonneg d). lia.
  - pose proof (zlen_nonneg d). lia.
Qed.

Lemma hlen_u16 h : header_ok h -> u16 (hlen h) = hlen h.
Proof.
  intros H. apply u16_small. apply hlen_range in H. unfold is_u16, UINT16_MAX in *. lia.
Qed.

(** Encoding writes exactly the bytes of the header. *)
Lemma header_encode_spec h pre b n :
  header_ok h -> hlen h <= n -> zlen pre + hlen h <= zlen b ->
  g_obex_header_encode g_utf8_to_utf16 h (over pre b) (zlen pre) n
    = Some (hlen h, over (pre ++ wire h) b).
Proof.
  intros Hok Hn Hb. pose proof (wire_length h Hok) as Hw. pose proof (hlen_u16 h Hok) as Hu.
  pose proof (hlen_range h Hok) as Hr.
  unfold g_obex_header_encode. rewrite (proj2 (Z.ltb_ge _ _)) by lia.
  rewrite st_over by (done || len_lia). cbn [mbind option_bind].
  assert (forall l, pre ++ [h_id h] ++ l = (pre ++ [h_id h]) ++ l) as Happ
    by (intros; by rewrite app_assoc).
  unfold wire. rewrite Happ.
  destruct Hok as [id Hid He|id s l Hid He Hs Hl H1 H2 H3 H4|id d Hid He H1|id d Hid He H1
                  |id x Hid He H1|id x Hid He H1];
    cbn [h_id v hlen vlen extdata payload] in *; rewrite He.
  - cbn [Z.eqb utf8_to_utf16 orb negb Z.ltb Z.compare]. rewrite (u16_small 0) by done.
    rewrite (proj2 (Z.ltb_ge n 0)) by lia. cbn [Z.add Z.eqb Pos.eqb negb].
    change (u16 3) with 3.
    rewrite put_be16_over by len_lia. cbn [mbind option_bind].
    rewrite st_over by len_lia. cbn [mbind option_bind]. by rewrite <- !app_assoc.
  - cbn [Z.eqb]. pose proof (zlen_nonneg l).
    unfold utf8_to_utf16. destruct s as [|c s]; [done|]. rewrite H1. change (default [] (Some l)) with l.
    rewrite Z.shiftl_mul_pow2 by lia. change (2 ^ 1) with 2.
    rewrite (proj2 (Z.ltb_ge ((zlen l + 1) * 2) 0)) by lia. cbn [orb].
    rewrite (u16_small ((zlen l + 1) * 2)) by (unfold is_u16, UINT16_MAX in *; lia).
    rewrite (proj2 (Z.ltb_ge n _)) by lia.
    replace ((zlen l + 1) * 2 + 3) with (3 + (zlen l + 1) * 2) by lia.
    rewrite !Z.eqb_refl, Hu. cbn [negb].
    rewrite put_be16_over by len_lia. cbn [mbind option_bind]. fold (units l).
    pose proof (zlen_units l).
    rewrite st_over by (rewrite ?zlen_app; len_lia). cbn [mbind option_bind].
    by rewrite <- !app_assoc.
  - cbn [Z.eqb Pos.eqb]. change (G_OBEX_HDR_ENC_BYTES =? G_OBEX_HDR_ENC_UNICODE) with false.
    cbn iota. rewrite Z.eqb_refl, Hu.
    rewrite put_be16_over by len_lia. cbn [mbind option_bind].
    rewrite ld_all by done. cbn [mbind option_bind].
    rewrite st_over by len_lia. cbn [mbind option_bind]. by rewrite <- !app_assoc.
  - change (G_OBEX_HDR_ENC_BYTES =? G_OBEX_HDR_ENC_UNICODE) with false.
    cbn iota. rewrite Z.eqb_refl, Hu.
    rewrite put_be16_over by len_lia. cbn [mbind option_bind].
    rewrite ld_all by done. cbn [mbind option_bind].
    rewrite st_over by len_lia. cbn [mbind option_bind]. by rewrite <- !app_assoc.
  - change (G_OBEX_HDR_ENC_UINT8 =? G_OBEX_HDR_ENC_UNICODE) with false.
    change (G_OBEX_HDR_ENC_UINT8 =? G_OBEX_HDR_ENC_BYTES) with false. cbn iota.
    rewrite Z.eqb_refl. unfold put_u8. rewrite (u8_small x) by done.
    rewrite st_over by len_lia. done.
  - change (G_OBEX_HDR_ENC_UINT32 =? G_OBEX_HDR_ENC_UNICODE) with false.
    change (G_OBEX_HDR_ENC_UINT32 =? G_OBEX_HDR_ENC_BYTES) with false.
    change (G_OBEX_HDR_ENC_UINT32 =? G_OBEX_HDR_ENC_UINT8) with false. cbn iota.
    unfold put_be32. rewrite st_over by len_lia. done.
Qed.

(** Decoding the bytes of a header gives the header. *)
Lemma header_decode_spec h pre post n policy err :
  header_ok h -> hlen h <= n -> policy <> G_OBEX_DATA_INHERIT ->
  g_obex_header_decode g_convert (pre ++ wire h ++ post) (zlen pre) n policy err
    = Some (inr (decoded policy h, hlen h)).
Proof.
  intros Hok Hn Hpol. pose proof (hlen_range h Hok) as Hr.
  assert (is_u16 (hlen h)) as Hu by (unfold is_u16, UINT16_MAX in *; lia).
  unfold g_obex_header_decode. rewrite (proj2 (Z.ltb_ge n 2)) by lia.
  unfold wire. rewrite <- app_assoc. rewrite (get_u8_mid pre _ _ (zlen pre)) by done. cbn [mbind option_bind].
  assert (forall l, pre ++ [h_id h] ++ l = (pre ++ [h_id h]) ++ l) as Happ
    by (intros; by rewrite app_assoc).
  rewrite Happ.
  assert (zlen (pre ++ [h_id h]) = zlen pre + 1) as Hz by len_lia.
  assert (forall l, zlen ((pre ++ [h_id h]) ++ be_bytes 2 l) = zlen pre + 1 + 2) as Hz2
    by (intros; len_lia).
  destruct Hok as [id Hid He|id s l Hid He Hs Hl H1 H2 H3 H4|id d Hid He H1|id d Hid He H1
                  |id x Hid He H1|id x Hid He H1];
    cbn [h_id v hlen vlen extdata payload] in *; rewrite He; rewrite ?Z.eqb_refl;
    unfold decoded; cbn [h_id v hlen vlen extdata].
  - rewrite (proj2 (Z.ltb_ge n 3)) by lia. rewrite <- (app_assoc (be_bytes 2 _)).
    rewrite get_be16_mid by done. done.
  - pose proof (zlen_nonneg l). rewrite (proj2 (Z.ltb_ge n 3)) by lia.
    rewrite <- (app_assoc (be_bytes 2 _)), get_be16_mid by done. cbn [mbind option_bind].
    rewrite (proj2 (Z.eqb_neq _ 3)) by (destruct l; [done|]; rewrite zlen_cons in *;
      pose proof (zlen_nonneg l); lia).
    replace ((n <? 3 + (zlen l + 1) * 2) || (3 + (zlen l + 1) * 2 <? 5)) with false by lia.
    destruct s as [|c s]; [done|]. rewrite H1. change (default [] (Some l)) with l.
    rewrite <- (app_assoc (units l)), (app_assoc (pre ++ [id])).
    rewrite (ld_mid _ (units l)) by (rewrite ?zlen_units; lia || done).
    cbn [mbind option_bind]. by rewrite H3.
  - rewrite (proj2 (Z.ltb_ge n 3)) by (pose proof (zlen_nonneg d); lia).
    change (G_OBEX_HDR_ENC_BYTES =? G_OBEX_HDR_ENC_UNICODE) with false. cbn iota.
    rewrite <- (app_assoc (be_bytes 2 _)), get_be16_mid by done. cbn [mbind option_bind].
    pose proof (zlen_nonneg d). rewrite (proj2 (Z.ltb_ge n _)) by lia.
    rewrite (proj2 (Z.ltb_ge _ 3)) by lia. rewrite (app_assoc (pre ++ [id])).
    rewrite (ld_mid _ d) by (rewrite ?Hz2; lia). replace (zlen d + 3 - 3) with (zlen d) by lia.
    by destruct policy.
  - rewrite (proj2 (Z.ltb_ge n 3)) by (pose proof (zlen_nonneg d); lia).
    change (G_OBEX_HDR_ENC_BYTES =? G_OBEX_HDR_ENC_UNICODE) with false. cbn iota.
    rewrite <- (app_assoc (be_bytes 2 _)), get_be16_mid by done. cbn [mbind option_bind].
    pose proof (zlen_nonneg d). rewrite (proj2 (Z.ltb_ge n _)) by lia.
    rewrite (proj2 (Z.ltb_ge _ 3)) by lia. rewrite (app_assoc (pre ++ [id])).
    rewrite (ld_mid _ d) by (rewrite ?Hz2; lia). replace (zlen d + 3 - 3) with (zlen d) by lia.
    by destruct policy.
  - change (G_OBEX_HDR_ENC_UINT8 =? G_OBEX_HDR_ENC_UNICODE) with false.
    change (G_OBEX_HDR_ENC_UINT8 =? G_OBEX_HDR_ENC_BYTES) with false. cbn iota.
    by rewrite get_u8_mid.
  - change (G_OBEX_HDR_ENC_UINT32 =? G_OBEX_HDR_ENC_UNICODE) with false.
    change (G_OBEX_HDR_ENC_UINT32 =? G_OBEX_HDR_ENC_BYTES) with false.
    change (G_OBEX_HDR_ENC_UINT32 =? G_OBEX_HDR_ENC_UINT8) with false. cbn iota.
    rewrite (proj2 (Z.ltb_ge n 5)) by lia. by rewrite get_be32_mid.
Qed.

(** ** Packets *)

Definition headers_length (l : list GObexHeader) : Z := foldr (fun h n => hlen h + n) 0 l.

Record packet_ok (p : GObexPacket) : Prop := {
  packet_opcode : 0 <= opcode p < 0x80;
  packet_data : match p_data p with
                | Some d => data_len p = zlen d /\ d <> []
                | None => data_len p = 0
                end;
  packet_headers : Forall header_ok (headers p);
  packet_hlen : p_hlen p = headers_length (headers p);
  packet_body : get_body_fn p = None;
  packet_size : 3 + data_len p + p_hlen p <= UINT16_MAX;
}.

(** The packet that is decoded from the bytes of [p]. *)
Definition decoded_packet (policy : GObexDataPolicy) (p : GObexPacket) : GObexPacket :=
  Packet (opcode p) (final p) (if data_len p =? 0 then G_OBEX_DATA_COPY else policy) (p_data p)
    (data_len p) (p_hlen p) (decoded policy <$> headers p) None.

Definition wires (l : list GObexHeader) : bytes := concat (wire <$> l).

Lemma wires_length l : Forall header_ok l -> zlen (wires l) = headers_length l.
Proof.
  induction 1 as [|h l Hh Hl IH]; [done|].
  change (wires (h :: l)) with (wire h ++ wires l). rewrite zlen_app, wire_length, IH by done.
  done.
Qed.

Lemma headers_length_nonneg l : Forall header_ok l -> 0 <= headers_length l.
Proof. intros H. rewrite <- wires_length by done. apply zlen_nonneg. Qed.

Lemma encode_headers_spec l pre b n :
  Forall header_ok l -> zlen pre + headers_length l <= n -> n <= zlen b ->
  encode_headers g_utf8_to_utf16 l (over pre b) n (zlen pre)
    = Some (zlen pre + headers_length l, over (pre ++ wires l) b).
Proof.
  intros Hl. revert pre. induction Hl as [|h l Hh Hl IH]; intros pre Hn Hb.
  { cbn. by rewrite Z.add_0_r, app_nil_r. }
  cbn [encode_headers headers_length foldr] in *.
  pose proof (hlen_range h Hh) as Hr. pose proof (headers_length_nonneg l Hl) as Hn0.
  unfold headers_length in Hn0, IH |- *.
  rewrite (proj2 (Z.leb_gt n (zlen pre))) by lia.
  rewrite header_encode_spec by (done || lia). cbn [mbind option_bind].
  rewrite (proj2 (Z.ltb_ge (hlen h) 0)) by lia.
  pose proof (wire_length h Hh) as Hw.
  replace (zlen pre + hlen h) with (zlen (pre ++ wire h)) by (rewrite zlen_app; lia).
  rewrite IH by (rewrite ?zlen_app; lia).
  rewrite zlen_app, Hw. change (wires (h :: l)) with (wire h ++ wires l).
  rewrite app_assoc. do 2 f_equal. lia.
Qed.

Lemma parse_headers_spec l pre post p n k policy err :
  Forall header_ok l -> k = headers_length l -> (length l < n)%nat ->
  policy <> G_OBEX_DATA_INHERIT ->
  parse_headers g_convert n p (pre ++ wires l ++ post) (zlen pre) k policy err
    = Some (inr (with_headers p (headers p ++ (decoded policy <$> l)) (p_hlen p + k))).
Proof.
  intros Hl -> Hn Hpol. revert pre p n Hn.
  induction Hl as [|h l Hh Hl IH]; intros pre p n Hn; (destruct n as [|n]; [cbn in Hn; lia|]).
  { cbn. rewrite app_nil_r, Z.add_0_r. by destruct p. }
  cbn [parse_headers headers_length foldr].
  pose proof (hlen_range h Hh) as Hr. pose proof (headers_length_nonneg l Hl) as Hn0.
  unfold headers_length in Hn0, IH |- *.
  rewrite (proj2 (Z.ltb_lt 0 _)) by lia.
  change (wires (h :: l)) with (wire h ++ wires l). rewrite <- (app_assoc (wire h)).
  rewrite header_decode_spec by (done || lia). cbn [mbind option_bind].
  pose proof (wire_length h Hh) as Hw. rewrite app_assoc.
  replace (zlen pre + hlen h) with (zlen (pre ++ wire h)) by (rewrite zlen_app; lia).
  replace (hlen h + foldr (fun h n => hlen h + n) 0 l - hlen h)
    with (foldr (fun h n => hlen h + n) 0 l) by lia.
  rewrite IH by (cbn in Hn; lia). unfold with_headers. cbn.
  rewrite <- app_assoc. cbn. do 3 f_equal. lia.
Qed.
End headers.

(** The first byte of a packet, taken apart again. *)
Definition first_byte (op : Z) (final : bool) : Z :=
  if final then Z.lor op FINAL_BIT else op.

Definition first_byte_good (op : Z) (final : bool) : bool :=
  let b := first_byte op final in
  (Z.land b (Z.lnot FINAL_BIT) =? op) && eqb (negb (Z.land b FINAL_BIT =? 0)) final &&
  (0 <=? b) && (b <? 256).

Lemma first_byte_spec op final : 0 <= op < 0x80 -> first_byte_good op final = true.
Proof.
  intros Hop.
  assert (forallb (fun n => first_byte_good (Z.of_nat n) true && first_byte_good (Z.of_nat n) false)
    (seq 0 128) = true) as Hall by (vm_compute; reflexivity).
  rewrite List.forallb_forall in Hall. specialize (Hall (Z.to_nat op)).
  rewrite Z2Nat.id in Hall by lia.
  destruct (andb_prop _ _ (Hall ltac:(apply List.in_seq; lia))) as [H1 H2].
  by destruct final.
Qed.

Section packets.
Variables (g_utf8_to_utf16 : bytes -> option (list Z)) (g_utf8_strlen : bytes -> Z)
  (g_convert : bytes -> option bytes).
Abbreviation packet_ok := (packet_ok g_utf8_to_utf16 g_utf8_strlen g_convert).

Definition packet_bytes (p : GObexPacket) : bytes := default [] (p_data p).
Definition packet_total (p : GObexPacket) : Z := 3 + data_len p + p_hlen p.
Definition packet_wire (p : GObexPacket) : bytes :=
  [first_byte (opcode p) (final p)] ++ be_bytes 2 (packet_total p) ++ packet_bytes p ++
  wires g_utf8_to_utf16 (headers p).

Lemma packet_data_length p : packet_ok p -> data_len p = zlen (packet_bytes p).
Proof.
  intros [_ Hd _ _ _ _]. unfold packet_bytes. by destruct (p_data p); [destruct Hd|].
Qed.

Lemma packet_wire_length p : packet_ok p -> zlen (packet_wire p) = packet_total p.
Proof.
  intros Hok. pose proof (packet_data_length p Hok) as Hd. destruct Hok as [_ _ Hh Hhl _ _].
  unfold packet_wire, packet_total. rewrite !zlen_app, (wires_length _ _ _ _ Hh), <- Hhl, <- Hd.
  len_lia.
Qed.

(** The bytes in front of the headers; the two of the length are written at the end. *)
Lemma put_packet_data p (b0 x1 x2 : Z) buf :
  match p_data p with Some d => data_len p = zlen d /\ d <> [] | None => data_len p = 0 end ->
  3 + data_len p <= zlen buf ->
  data_len p = zlen (packet_bytes p) /\
  (if 0 <? data_len p
   then d ← p_data p; d ← ld d 0 (data_len p); st (over [b0; x1; x2] buf) 3 d
   else Some (over [b0; x1; x2] buf)) = Some (over ([b0; x1; x2] ++ packet_bytes p) buf).
Proof.
  intros Hdata Hbuf. unfold packet_bytes in *.
  destruct (p_data p) as [d|]; cbn [default from_option] in *.
  - destruct Hdata as [Hd Hne]. change (id d) with d in *. split; [done|].
    rewrite (proj2 (Z.ltb_lt 0 _)).
    2:{ destruct d; [done|]. rewrite zlen_cons in Hd. pose proof (zlen_nonneg d). lia. }
    cbn [mbind option_bind]. rewrite Hd. rewrite ld_all by done. cbn [mbind option_bind].
    rewrite st_over; [done|done|]. change (zlen [b0; x1; x2]) with 3. lia.
  - rewrite Hdata. cbn. done.
Qed.

Lemma packet_encode_spec p buf n :
  packet_ok p -> packet_total p <= n -> n <= zlen buf ->
  g_obex_packet_encode g_utf8_to_utf16 p buf n
    = Some (packet_total p, over (packet_wire p) buf).
Proof.
  intros Hok Hn Hbuf.
  pose proof (packet_wire_length p Hok) as Hwl. destruct Hok as [Hop Hdata Hh Hhl Hbody Hsize].
  pose proof (headers_length_nonneg _ _ _ _ Hh) as Hl0.
  pose proof (wires_length _ _ _ _ Hh) as Hw. unfold packet_total in *.
  pose proof (zlen_nonneg (packet_bytes p)) as Hd0.
  set (b0 := first_byte (opcode p) (final p)).
  assert (3 + data_len p <= zlen buf) as Hroom by lia.
  destruct (put_packet_data p b0 0 0 buf Hdata Hroom) as [Hd _].
  destruct buf as [|x0 [|x1 [|x2 r]]]; [unfold zlen in *; cbn [length] in *; lia..|].
  set (buf := x0 :: x1 :: x2 :: r) in *.
  unfold g_obex_packet_encode. rewrite (proj2 (Z.ltb_ge n _)) by lia.
  fold (first_byte (opcode p) (final p)). fold b0.
  rewrite st_0 by (subst buf; len_lia). cbn [mbind option_bind].
  change ([b0] ++ drop (length [b0]) buf) with (over [b0; x1; x2] buf).
  rewrite (proj2 (put_packet_data p b0 x1 x2 buf Hdata Hroom)). cbn [mbind option_bind].
  assert (zlen ([b0; x1; x2] ++ packet_bytes p) = 3 + data_len p) as Hpre
    by (rewrite zlen_app, Hd; done).
  rewrite <- Hpre, (encode_headers_spec _ g_utf8_strlen g_convert)
    by (rewrite ?Hpre; done || lia).
  rewrite Hbody, Hpre, <- Hhl. cbn [mbind option_bind].
  rewrite (proj2 (Z.ltb_ge (3 + data_len p + p_hlen p) 0)) by lia. cbn [mbind option_bind].
  rewrite u16_small by (unfold is_u16, UINT16_MAX in *; lia).
  unfold over, packet_wire, packet_total, put_be16.
  rewrite <- !app_assoc. change ([b0; x1; x2] ++ ?l) with ([b0] ++ [x1; x2] ++ l).
  rewrite st_mid by (done || len_lia). cbn [mbind option_bind].
  by do 2 f_equal.
Qed.

(** A header with a name whose characters are not as many as its UTF-16 units, as
    [g_obex_header_new_unicode] makes it. *)
Definition unicode_header (id : Z) (s : bytes) : GObexHeader :=
  Header id false (g_utf8_strlen s) (3 + (g_utf8_strlen s + 1) * 2) (VString s).

Lemma header_encode_assert id s l b off n :
  G_OBEX_HDR_ENC id = G_OBEX_HDR_ENC_UNICODE -> s <> [] -> g_utf8_to_utf16 s = Some l ->
  zlen l <> g_utf8_strlen s -> 3 + (zlen l + 1) * 2 <= n <= UINT16_MAX ->
  3 + (g_utf8_strlen s + 1) * 2 <= n -> 0 <= off < zlen b ->
  g_obex_header_encode g_utf8_to_utf16 (unicode_header id s) b off n = None.
Proof.
  intros He Hs Hl Hne Hn Hlen Hb. pose proof (zlen_nonneg l). unfold UINT16_MAX in *.
  unfold g_obex_header_encode, unicode_header. cbn [hlen h_id v]. rewrite (proj2 (Z.ltb_ge _ _)) by lia.
  destruct (st b off [id]) as [b'|]; [|done].
  cbn [mbind option_bind]. rewrite He, Z.eqb_refl. unfold utf8_to_utf16. destruct s as [|c s]; [done|].
  rewrite Hl, Z.shiftl_mul_pow2 by lia. change (2 ^ 1) with 2.
  rewrite (proj2 (Z.ltb_ge _ _)) by lia. rewrite u16_small by (unfold is_u16; lia).
  rewrite (proj2 (Z.ltb_ge _ _)) by lia. cbn [orb]. by rewrite (proj2 (Z.eqb_neq _ _)) by lia.
Qed.

Lemma encode_headers_assert l1 h l2 pre b n :
  Forall (header_ok g_utf8_to_utf16 g_utf8_strlen g_convert) l1 ->
  zlen pre + headers_length l1 < n -> n <= zlen b ->
  (forall b', zlen b' = zlen b ->
    g_obex_header_encode g_utf8_to_utf16 h b' (zlen pre + headers_length l1)
      (n - (zlen pre + headers_length l1)) = None) ->
  encode_headers g_utf8_to_utf16 (l1 ++ h :: l2) (over pre b) n (zlen pre) = None.
Proof.
  intros Hl. revert pre. induction Hl as [|h1 l1 Hh Hl IH]; intros pre Hn Hb Hnone.
  - cbn in *. rewrite Z.add_0_r in *. rewrite (proj2 (Z.leb_gt n (zlen pre))) by lia.
    rewrite Hnone; [done|]. unfold over, zlen in *. rewrite length_app, length_drop. lia.
  - cbn [app encode_headers headers_length foldr] in *.
    pose proof (hlen_range _ _ _ h1 Hh) as Hr. pose proof (headers_length_nonneg _ _ _ l1 Hl) as Hn0.
    unfold headers_length in Hn0, IH, Hnone |- *.
    rewrite (proj2 (Z.leb_gt n (zlen pre))) by lia.
    rewrite (header_encode_spec _ g_utf8_strlen g_convert) by (done || lia). cbn [mbind option_bind].
    rewrite (proj2 (Z.ltb_ge (hlen h1) 0)) by lia.
    pose proof (wire_length _ _ _ h1 Hh) as Hw.
    replace (zlen pre + hlen h1) with (zlen (pre ++ wire g_utf8_to_utf16 h1)) by (rewrite zlen_app; lia).
    apply IH; rewrite ?zlen_app, ?Hw; [lia|done|].
    intros b' Hb'. rewrite <- !Z.add_assoc. by apply Hnone.
Qed.

(** A name outside the basic plane ends the encoder in its assertion. *)
Lemma packet_encode_assert p id s l post buf n :
  packet_ok p -> G_OBEX_HDR_ENC id = G_OBEX_HDR_ENC_UNICODE -> s <> [] ->
  g_utf8_to_utf16 s = Some l -> 0 < g_utf8_strlen s -> zlen l <> g_utf8_strlen s ->
  0 <= headers_length post ->
  let h := unicode_header id s in
  let p' := with_headers p (headers p ++ h :: post) (p_hlen p + hlen h + headers_length post) in
  packet_total p' <= n -> packet_total p + 3 + (zlen l + 1) * 2 <= n -> n <= zlen buf ->
  n <= UINT16_MAX ->
  g_obex_packet_encode g_utf8_to_utf16 p' buf n = None.
Proof.
  intros Hok He Hs Hl Hlen Hne Hpost h p' Hn Hroom Hbuf Hmax. destruct Hok as [Hop Hdata Hh Hhl Hbody Hsize].
  pose proof (headers_length_nonneg _ _ _ _ Hh) as Hl0. pose proof (zlen_nonneg l) as Hl1.
  unfold packet_total in *. change (data_len p') with (data_len p) in *.
  assert (0 <= data_len p) as Hd0.
  { destruct (p_data p) as [d|]; [|lia]. destruct Hdata as [-> _]. apply zlen_nonneg. }
  set (b0 := first_byte (opcode p) (final p)).
  assert (3 + data_len p <= zlen buf) as Hr by lia.
  destruct (put_packet_data p b0 0 0 buf Hdata Hr) as [Hd _].
  destruct buf as [|x0 [|x1 [|x2 r]]]; [unfold zlen in *; cbn [length] in *; lia..|].
  set (buf := x0 :: x1 :: x2 :: r) in *.
  unfold g_obex_packet_encode. rewrite (proj2 (Z.ltb_ge n _)) by (change (data_len p') with (data_len p); lia).
  change (opcode p') with (opcode p). change (final p') with (final p).
  change (data_len p') with (data_len p). change (p_data p') with (p_data p).
  fold (first_byte (opcode p) (final p)). fold b0.
  rewrite st_0 by (subst buf; len_lia). cbn [mbind option_bind].
  change ([b0] ++ drop (length [b0]) buf) with (over [b0; x1; x2] buf).
  rewrite (proj2 (put_packet_data p b0 x1 x2 buf Hdata Hr)). cbn [mbind option_bind].
  assert (zlen ([b0; x1; x2] ++ packet_bytes p) = 3 + data_len p) as Hpre
    by (rewrite zlen_app, Hd; done).
  rewrite <- Hpre. cbn [p' with_headers headers].
  rewrite encode_headers_assert; [done|exact Hh|rewrite Hpre; lia|lia|].
  intros b' Hb'. rewrite Hpre. apply (header_encode_assert id s l); try done; try lia.
  cbn [p' with_headers p_hlen h unicode_header hlen] in Hn. unfold headers_length in *. lia.
Qed.

Lemma headers_count l :
  Forall (header_ok g_utf8_to_utf16 g_utf8_strlen g_convert) l ->
  2 * Z.of_nat (length l) <= headers_length l.
Proof.
  induction 1 as [|h l Hh Hl IH]; [done|]. apply hlen_range in Hh.
  unfold headers_length in *. cbn [foldr length]. lia.
Qed.

Lemma packet_decode_spec p policy err :
  packet_ok p -> policy <> G_OBEX_DATA_INHERIT ->
  g_obex_packet_decode g_utf8_strlen g_convert (packet_wire p) (packet_total p) (data_len p)
    policy err = Some (inr (decoded_packet policy p)).
Proof.
  intros Hok Hpol. pose proof (packet_data_length p Hok) as Hd.
  destruct Hok as [Hop Hdata Hh Hhl Hbody Hsize].
  pose proof (headers_length_nonneg _ _ _ _ Hh) as Hl0.
  pose proof (headers_count _ Hh) as Hcount.
  pose proof (zlen_nonneg (packet_bytes p)) as Hd0.
  pose proof (first_byte_spec (opcode p) (final p) Hop) as Hb0. unfold first_byte_good in Hb0.
  unfold g_obex_packet_decode, packet_wire. set (b0 := first_byte (opcode p) (final p)) in *.
  rewrite !andb_true_iff, Z.eqb_eq, eqb_true_iff in Hb0. destruct Hb0 as [[[Hb1 Hb2] _] _].
  assert (is_u16 (packet_total p)) as Htot
    by (unfold is_u16, packet_total, UINT16_MAX in *; lia).
  rewrite decide_False by done.
  rewrite (proj2 (Z.ltb_ge (packet_total p) _)) by (unfold packet_total; lia).
  rewrite get_u8_head. cbn [mbind option_bind].
  rewrite (get_be16_mid [b0]) by done. cbn [mbind option_bind].
  rewrite Z.eqb_refl. cbn [negb]. rewrite Hb1, Hb2.
  assert (zlen ([b0] ++ be_bytes 2 (packet_total p)) = 3) as H3 by len_lia.
  set (q := Packet (opcode p) (final p) (if data_len p =? 0 then G_OBEX_DATA_COPY else policy)
    (p_data p) (data_len p) 0 [] None).
  assert ((if data_len p =? 0
           then Some (Packet (opcode p) (final p) G_OBEX_DATA_COPY None 0 0 [] None)
           else d ← ld ([b0] ++ be_bytes 2 (packet_total p) ++ packet_bytes p ++
                         wires g_utf8_to_utf16 (headers p)) 3 (data_len p);
                snd <$> g_obex_packet_set_data
                  (Packet (opcode p) (final p) G_OBEX_DATA_COPY None 0 0 [] None) d
                  (data_len p) policy) = Some q) as Hq.
  { subst q. unfold packet_bytes in *. destruct (p_data p) as [d|] eqn:Hpd.
    - destruct Hdata as [_ Hne]. cbn [default from_option] in *. change (id d) with d in *.
      rewrite (proj2 (Z.eqb_neq _ 0)).
      2:{ destruct d; [done|]. rewrite zlen_cons in Hd. pose proof (zlen_nonneg d). lia. }
      rewrite app_assoc, (ld_mid _ d) by (done || lia).
      cbn [mbind option_bind]. unfold g_obex_packet_set_data. cbn [p_data].
      rewrite Hd. rewrite ld_all by done.
      cbn [mbind option_bind fmap option_fmap option_map snd].
      assert (zlen d =? 0 = false) as Hz.
      { apply Z.eqb_neq. destruct d; [done|]. rewrite zlen_cons. pose proof (zlen_nonneg d). lia. }
      rewrite Hz. by destruct policy.
    - rewrite Hdata. done. }
  unfold g_obex_packet_new, g_obex_packet_new_valist, g_obex_header_create_list.
  cbn [create_list_loop mbind option_bind]. cbn [mbind option_bind] in Hq. rewrite Hq.
  cbn [mbind option_bind].
  rewrite app_assoc, (app_assoc (_ ++ be_bytes 2 _)).
  rewrite <- (app_nil_r (wires _ _)).
  assert (zlen (([b0] ++ be_bytes 2 (packet_total p)) ++ packet_bytes p) = 3 + data_len p) as Hpre
    by (rewrite zlen_app; lia).
  rewrite <- Hpre at 1. rewrite (parse_headers_spec _ g_utf8_strlen).
  - unfold decoded_packet, with_headers, q. cbn. do 3 f_equal. unfold packet_total. lia.
  - done.
  - unfold packet_total. lia.
  - unfold packet_total. lia.
  - done.
Qed.
End packets.

(** ** Decoding arbitrary bytes *)

(** A header is rejected, or it is one of the [n] bytes at [off], and takes at least two. *)
Lemma header_decode_total g_convert data off n policy :
  bytes_ok data -> 0 <= off -> off + n <= zlen data ->
  exists r, g_obex_header_decode g_convert data off n policy true = Some r /\
    match r with
    | inl e => e = G_OBEX_ERROR_INVALID_ARGS -> policy = G_OBEX_DATA_INHERIT
    | inr (h, parsed) => hlen h = parsed /\ 2 <= parsed <= n
    end.
Proof.
  intros Hb Ho Hn. unfold g_obex_header_decode, failed.
  destruct (Z.ltb_spec n 2); [by eexists|].
  destruct (get_u8_ok data off) as (id & -> & Hid); [done|lia..|]. cbn [mbind option_bind].
  destruct (get_u8_ok data (off + 1)) as (x & Hx & _); [done|lia..|].
  destruct (G_OBEX_HDR_ENC id =? G_OBEX_HDR_ENC_UNICODE).
  { destruct (Z.ltb_spec n 3); [by eexists|].
    destruct (get_be16_ok data (off + 1)) as (k & -> & Hk); [done|lia..|]. cbn [mbind option_bind].
    destruct (Z.eqb_spec k 3) as [->|]; [eexists; (split; [reflexivity|cbn; lia])|].
    destruct (Z.ltb_spec n k); [by eexists|]. destruct (Z.ltb_spec k 5); [by eexists|].
    cbn [orb]. rewrite ld_is_Some by lia.
    cbn [mbind option_bind]. destruct (g_convert _); [|by eexists].
    eexists; (split; [reflexivity|cbn; lia]). }
  destruct (G_OBEX_HDR_ENC id =? G_OBEX_HDR_ENC_BYTES).
  { destruct (Z.ltb_spec n 3); [by eexists|].
    destruct (get_be16_ok data (off + 1)) as (k & -> & Hk); [done|lia..|]. cbn [mbind option_bind].
    destruct (Z.ltb_spec n k); [by eexists|]. destruct (Z.ltb_spec k 3); [by eexists|].
    rewrite ld_is_Some by lia.
    destruct policy; eexists; (split; [reflexivity|cbn; done || lia]). }
  destruct (G_OBEX_HDR_ENC id =? G_OBEX_HDR_ENC_UINT8).
  { rewrite Hx. eexists; (split; [reflexivity|cbn; lia]). }
  destruct (Z.ltb_spec n 5); [by eexists|].
  destruct (get_be32_ok data (off + 1)) as [y ->]; [lia..|]. eexists; (split; [reflexivity|cbn; lia]).
Qed.

Lemma headers_length_snoc l h : headers_length (l ++ [h]) = headers_length l + hlen h.
Proof. induction l as [|x l IH]; cbn in *; [|fold (headers_length (l ++ [h])) (headers_length l) in *]; lia. Qed.

Lemma parse_headers_total g_convert n data p off k policy :
  bytes_ok data -> 0 <= off -> off + k <= zlen data -> 0 <= k < Z.of_nat n ->
  p_hlen p = headers_length (headers p) ->
  exists r, parse_headers g_convert n p data off k policy true = Some r /\
    match r with
    | inl e => e = G_OBEX_ERROR_INVALID_ARGS -> policy = G_OBEX_DATA_INHERIT
    | inr q => p_hlen q = p_hlen p + k /\ p_hlen q = headers_length (headers q) /\
               opcode q = opcode p /\ data_len q = data_len p /\ p_data q = p_data p /\
               get_body_fn q = get_body_fn p
    end.
Proof.
  intros Hb. revert p off k. induction n as [|n IH]; intros p off k Ho Hn Hk Hp; [lia|].
  cbn [parse_headers]. destruct (Z.ltb_spec 0 k).
  2:{ eexists; split; [done|]. cbn. split_and!; lia || done. }
  destruct (header_decode_total g_convert data off k policy Hb) as (r & -> & Hr); [lia..|].
  cbn [mbind option_bind]. destruct r as [e|[h parsed]]; [by eexists|]. destruct Hr as [Hh Hr].
  destruct (IH (with_headers p (headers p ++ [h]) (p_hlen p + parsed)) (off + parsed)
    (k - parsed)) as (r & -> & Hr'); [lia..| |].
  { cbn. rewrite headers_length_snoc. lia. }
  eexists; split; [done|]. destruct r as [e|q]; [done|]. cbn in Hr'.
  destruct Hr' as (? & ? & ? & ? & ? & ?). split_and!; lia || done.
Qed.

(** C7. Packet round trip: a packet made of the header constructors, of less than 64 KiB and
    without a body producer, in whose Unicode headers every character is one UTF-16 unit (in
    the basic multilingual plane), is encoded into any buffer with room for it, the bytes
    behind it stay, and decoding the encoded bytes, with either policy for the data, gives the
    same operation, data and headers.  With a header behind these whose name has other
    characters, which the constructor makes too, the encoder ends in the failure of its
    assertion, whatever header follows. *)
Theorem packet_roundtrip g_utf8_to_utf16 g_utf8_strlen g_convert p buf n policy err :
  packet_ok g_utf8_to_utf16 g_utf8_strlen g_convert p ->
  policy <> G_OBEX_DATA_INHERIT ->
  packet_total p <= n -> n <= zlen buf ->
  (exists data,
    g_obex_packet_encode g_utf8_to_utf16 p buf n
      = Some (packet_total p, data ++ drop (Z.to_nat (packet_total p)) buf) /\
    zlen data = packet_total p /\
    g_obex_packet_decode g_utf8_strlen g_convert data (packet_total p) (data_len p) policy err
      = Some (inr (decoded_packet policy p))) /\
  (forall id s l post,
    G_OBEX_HDR_ENC id = G_OBEX_HDR_ENC_UNICODE -> s <> [] -> g_utf8_to_utf16 s = Some l ->
    0 < g_utf8_strlen s -> zlen l <> g_utf8_strlen s -> 0 <= headers_length post ->
    let h := unicode_header g_utf8_strlen id s in
    let p' := with_headers p (headers p ++ h :: post) (p_hlen p + hlen h + headers_length post) in
    packet_total p' <= n -> packet_total p + 3 + (zlen l + 1) * 2 <= n -> n <= UINT16_MAX ->
    g_obex_header_new_unicode g_utf8_strlen id s = Some h /\
    g_obex_packet_encode g_utf8_to_utf16 p' buf n = None).
Proof.
  intros Hok Hpol Hn Hbuf. split.
  2:{ intros id s l post He Hs Hl Hlen Hne Hp h p' H1 H2 H3. split.
      { unfold g_obex_header_new_unicode. rewrite He, Z.eqb_refl. cbn [negb].
        by rewrite (proj2 (Z.eqb_neq (g_utf8_strlen s) 0)) by lia. }
      by eapply packet_encode_assert. }
  pose proof (packet_wire_length _ _ _ p Hok) as Hw.
  exists (packet_wire g_utf8_to_utf16 p). rewrite <- Hw at 2. unfold zlen. rewrite Nat2Z.id.
  split_and!.
  - by eapply packet_encode_spec.
  - done.
  - by eapply packet_decode_spec.
Qed.

(** UTF-8 of one byte per character, for the examples. *)
Definition ascii_to_utf16 (s : bytes) : option (list Z) :=
  if forallb (fun c => c <? 128) s then Some s else None.

Fixpoint ascii_of_utf16 (l : bytes) : option bytes :=
  match l with
  | [] => Some []
  | x :: y :: l =>
    if (x =? 0) && (y <? 128) then cons y <$> ascii_of_utf16 l else None
  | _ => None
  end.

(** A PUT request with a connection id, a name, a type and the end of the body. *)
Definition put_request : GObexPacket :=
  Packet 0x02 true G_OBEX_DATA_COPY None 0 27
    [Header 0xcb false 4 5 (VU32 1);
     Header 0x01 false 4 13 (VString [102; 105; 108; 101]);
     Header 0x42 false 3 6 (VData [97; 47; 98]);
     Header 0x49 true 0 3 (VExtdata [])] None.

(** The same with one character that takes two UTF-16 units. *)
Definition smiley : bytes := [0xf0; 0x9f; 0x98; 0x80].
Definition wide_to_utf16 (s : bytes) : option (list Z) :=
  if bool_decide (s = smiley) then Some [0xd83d; 0xde00] else ascii_to_utf16 s.
Definition wide_strlen (s : bytes) : Z := if bool_decide (s = smiley) then 1 else zlen s.

Lemma put_request_ok : packet_ok wide_to_utf16 wide_strlen ascii_of_utf16 put_request.
Proof.
  split; [cbn; lia|done| |done|done|vm_compute; discriminate].
  repeat apply Forall_cons_2; [..|apply Forall_nil_2].
  - apply ok_u32; done.
  - apply (ok_unicode wide_to_utf16 wide_strlen ascii_of_utf16 0x01 [102; 105; 108; 101] [102; 105; 108; 101]); done.
  - apply (ok_data wide_to_utf16 wide_strlen ascii_of_utf16 0x42 [97; 47; 98]); done.
  - apply (ok_extdata wide_to_utf16 wide_strlen ascii_of_utf16 0x49 []); done.
Qed.

Lemma packet_roundtrip_witness :
  (exists data,
    g_obex_packet_encode wide_to_utf16 put_request (replicate 45 7) 40
      = Some (30, data ++ replicate 15 7) /\
    zlen data = 30 /\
    g_obex_packet_decode wide_strlen ascii_of_utf16 data 30 0 G_OBEX_DATA_COPY false
      = Some (inr (decoded_packet G_OBEX_DATA_COPY put_request))) /\
  g_obex_packet_encode wide_to_utf16
    (with_headers put_request (headers put_request ++ [unicode_header wide_strlen 0x05 smiley]) 34)
    (replicate 45 7) 40 = None.
Proof.
  split.
  - refine (proj1 (packet_roundtrip wide_to_utf16 wide_strlen ascii_of_utf16 put_request (replicate 45 7) 40
      G_OBEX_DATA_COPY false put_request_ok _ _ _)); [discriminate|vm_compute; discriminate..].
  - refine (proj2 (proj2 (packet_roundtrip wide_to_utf16 wide_strlen ascii_of_utf16 put_request (replicate 45 7) 40
      G_OBEX_DATA_COPY false put_request_ok _ _ _) 0x05 smiley [0xd83d; 0xde00] [] _ _ _ _ _ _ _ _ _));
      first [discriminate|reflexivity|vm_compute; discriminate|vm_compute; reflexivity].
Defined.

Lemma opcode_range op : is_u8 op -> 0 <= Z.land op (Z.lnot FINAL_BIT) < 0x80.
Proof.
  intros Hop.
  assert (forallb (fun n => let x := Z.land (Z.of_nat n) (Z.lnot FINAL_BIT) in
    (0 <=? x) && (x <? 0x80)) (seq 0 256) = true) as Hall by (vm_compute; reflexivity).
  rewrite List.forallb_forall in Hall. unfold is_u8 in Hop. specialize (Hall (Z.to_nat op)).
  rewrite Z2Nat.id in Hall by lia.
  specialize (Hall ltac:(apply List.in_seq; lia)). cbv zeta in Hall. lia.
Qed.

(** C32. Decoding is safe and total on arbitrary bytes: with a place for the error it never
    reads outside the [len] bytes and always ends; a packet it accepts says its own length,
    has its data and its headers fill the bytes exactly, and a 7-bit operation code; without
    a place for the error the same bytes can make it dereference NULL. *)
Theorem packet_decode_safe g_utf8_strlen g_convert data len off policy :
  bytes_ok data -> 0 <= off -> len = zlen data ->
  (exists r, g_obex_packet_decode g_utf8_strlen g_convert data len off policy true = Some r /\
     match r with
     | inl e => e = G_OBEX_ERROR_INVALID_ARGS <-> policy = G_OBEX_DATA_INHERIT
     | inr p =>
       get_be16 data 1 = Some len /\ 0 <= opcode p < 0x80 /\
       data_len p = off /\ p_hlen p = headers_length (headers p) /\
       3 + data_len p + p_hlen p = len
     end) /\
  g_obex_packet_decode g_utf8_strlen g_convert [0x80; 0; 4; 0x48] 4 0 G_OBEX_DATA_COPY false
    = Some (inl G_OBEX_ERROR_PARSE_ERROR) /\
  g_obex_packet_decode g_utf8_strlen g_convert [0x80; 0; 5; 0x48; 0] 5 0 G_OBEX_DATA_COPY false
    = None.
Proof.
  intros Hb Ho ->. split; [|by split; vm_compute].
  unfold g_obex_packet_decode. case_decide as Hpol; [by eexists|].
  destruct (Z.ltb_spec (zlen data) (3 + off)); [by eexists|].
  destruct (get_u8_ok data 0) as (op & -> & Hop); [done|lia..|]. cbn [mbind option_bind].
  destruct (get_be16_ok data 1) as (n & Hn & _); [done|lia..|]. rewrite Hn. cbn [mbind option_bind].
  destruct (Z.eqb_spec n (zlen data)) as [->|]; [|by eexists]. cbn [negb].
  pose proof (opcode_range op Hop) as Hop'.
  unfold g_obex_packet_new, g_obex_packet_new_valist, g_obex_header_create_list.
  cbn [create_list_loop mbind option_bind].
  set (p0 := Packet _ _ _ _ _ _ _ _).
  assert (exists p, (if off =? 0 then Some p0
                     else d ← ld data 3 off; snd <$> g_obex_packet_set_data p0 d off policy)
                    = Some p /\ data_len p = off /\ p_hlen p = 0 /\ headers p = [] /\
                      opcode p = Z.land op (Z.lnot FINAL_BIT)) as (p & Hp & Hd & Hh & Hl & Hpo).
  { destruct (Z.eqb_spec off 0) as [->|]; [by eexists|].
    destruct (ld_total data 3 off) as (d & -> & _ & Hd); [done|lia..|]. cbn [mbind option_bind].
    unfold g_obex_packet_set_data. cbn [p_data p0]. rewrite ld_is_Some by lia. by eexists. }
  cbn [mbind option_bind] in Hp. rewrite Hp. cbn [mbind option_bind].
  destruct (parse_headers_total g_convert (S (Z.to_nat (zlen data))) data p (3 + off)
    (zlen data - (3 + off)) policy Hb) as (r & -> & Hr); [lia..|by rewrite Hh, Hl|].
  eexists; split; [done|]. destruct r as [e|q].
  { split; [done|]. intros ->. done. }
  destruct Hr as (? & ? & -> & -> & _). rewrite Hd, Hpo. split_and!; try done; lia.
Qed.


(** A PUT request in which the name takes the whole packet. *)
Lemma packet_decode_safe_witness :
  exists r,
    g_obex_packet_decode zlen ascii_of_utf16 [0x82; 0; 11; 0x01; 0; 8; 0; 97; 0; 0; 0] 11 0
      G_OBEX_DATA_REF true = Some r /\
    match r with
    | inl e => e = G_OBEX_ERROR_INVALID_ARGS <-> G_OBEX_DATA_REF = G_OBEX_DATA_INHERIT
    | inr p =>
      get_be16 [0x82; 0; 11; 0x01; 0; 8; 0; 97; 0; 0; 0] 1 = Some 11 /\ 0 <= opcode p < 0x80 /\
      data_len p = 0 /\ p_hlen p = headers_length (headers p) /\
      3 + data_len p + p_hlen p = 11
    end.
Proof.
  refine (proj1 (packet_decode_safe zlen ascii_of_utf16
    [0x82; 0; 11; 0x01; 0; 8; 0; 97; 0; 0; 0] 11 0 G_OBEX_DATA_REF _ _ _)).
  - apply (bool_decide_unpack _). vm_compute. reflexivity.
  - discriminate.
  - reflexivity.
Defined.
