(* ===== verification/GobexApparam.v ===== *)
(** OBEX application parameters: round trip of the encoding, and what the getters return. *)
From Stdlib Require Import ZArith Lia.
From S2P Require Import Prelude Blocks Gobex GobexSpec.
From stdpp Require Import base numbers list option gmap.

Local Open Scope Z_scope.

(** A tag made by [tag_new], under its own id. *)
Record tag_ok (t : apparam_tag) : Prop := {
  tag_id : is_u8 (t_id t);
  tag_len : is_u8 (t_len t);
  tag_data : zlen (t_data t) = t_len t;
}.

Definition apparam_ok (m : GObexApparam) : Prop :=
  map_Forall (fun id t => t_id t = id /\ tag_ok t) m.

(** The bytes of a tag. *)
Definition tag_wire (t : apparam_tag) : bytes := [t_id t; t_len t] ++ t_data t.
Definition tags_wire (l : list apparam_tag) : bytes := concat (tag_wire <$> l).
Definition apparam_size (m : GObexApparam) : Z := zlen (tags_wire (map_to_list m).*2).

Lemma tag_wire_length t : tag_ok t -> zlen (tag_wire t) = 2 + t_len t.
Proof. intros [_ _ H]. unfold tag_wire. rewrite zlen_app, H. len_lia. Qed.

Lemma tags_wire_cons t l : tags_wire (t :: l) = tag_wire t ++ tags_wire l.
Proof. done. Qed.

Lemma zlen_tags_wire_perm l k : l ≡ₚ k -> zlen (tags_wire l) = zlen (tags_wire k).
Proof.
  induction 1 as [|t l k _ IH|t u l|l k k' _ IH1 _ IH2]; rewrite ?tags_wire_cons, ?zlen_app;
    lia.
Qed.

Lemma tag_encode_spec t pre b n :
  tag_ok t -> 2 + t_len t <= n -> zlen pre + (2 + t_len t) <= zlen b ->
  tag_encode t (over pre b) (zlen pre) n = Some (2 + t_len t, over (pre ++ tag_wire t) b).
Proof.
  intros Ht Hn Hb. pose proof (tag_wire_length t Ht) as Hw. destruct Ht as [_ _ Hd].
  unfold tag_encode. rewrite (proj2 (Z.ltb_ge n _)) by lia.
  rewrite ld_all by done.
  cbn [mbind option_bind]. fold (tag_wire t). rewrite st_over by lia. done.
Qed.

Lemma tags_encode_spec l pre b n :
  Forall tag_ok l -> zlen pre + zlen (tags_wire l) <= n -> n <= zlen b ->
  tags_encode l (over pre b) n (zlen pre)
    = Some (zlen pre + zlen (tags_wire l), over (pre ++ tags_wire l) b).
Proof.
  intros Hl. revert pre. induction Hl as [|t l Ht Hl IH]; intros pre Hn Hb.
  { cbn. by rewrite app_nil_r, Z.add_0_r. }
  rewrite tags_wire_cons, zlen_app in *. pose proof (tag_wire_length t Ht) as Hw.
  pose proof (zlen_nonneg (tags_wire l)). pose proof (zlen_nonneg (tag_wire t)).
  cbn [tags_encode]. rewrite tag_encode_spec by (done || lia). cbn [mbind option_bind].
  rewrite (proj2 (Z.ltb_ge _ 0)) by lia.
  replace (zlen pre + (2 + t_len t)) with (zlen (pre ++ tag_wire t)) by (rewrite zlen_app; lia).
  rewrite IH by (rewrite ?zlen_app; lia). rewrite zlen_app, <- app_assoc. do 2 f_equal. lia.
Qed.

(** When the tags do not fit, the buffer holds those that do. *)
Lemma tags_encode_short l pre b n :
  Forall tag_ok l -> n < zlen pre + zlen (tags_wire l) -> zlen pre <= n -> n <= zlen b ->
  exists k, l = k ++ drop (length k) l /\
    tags_encode l (over pre b) n (zlen pre) = Some (- ENOBUFS, over (pre ++ tags_wire k) b).
Proof.
  intros Hl. revert pre. induction Hl as [|t l Ht Hl IH]; intros pre Hn Hp Hb.
  { unfold tags_wire in Hn. cbn in Hn. rewrite zlen_nil in Hn. lia. }
  rewrite tags_wire_cons, zlen_app in *. pose proof (tag_wire_length t Ht) as Hw.
  pose proof (zlen_nonneg (tag_wire t)). cbn [tags_encode].
  destruct (Z.ltb_spec (n - zlen pre) (2 + t_len t)).
  { exists []. split; [done|]. unfold tag_encode. rewrite (proj2 (Z.ltb_lt _ _)) by lia.
    cbn [mbind option_bind]. unfold tags_wire. cbn. by rewrite app_nil_r. }
  rewrite tag_encode_spec by (done || lia). cbn [mbind option_bind].
  rewrite (proj2 (Z.ltb_ge _ 0)) by lia.
  replace (zlen pre + (2 + t_len t)) with (zlen (pre ++ tag_wire t)) by (rewrite zlen_app; lia).
  destruct (IH (pre ++ tag_wire t)) as (k & Hk & He); [rewrite ?zlen_app; lia..|].
  exists (t :: k). split; [by cbn; f_equal|].
  by rewrite tags_wire_cons, He, <- app_assoc.
Qed.

Lemma tag_decode_spec t pre post n :
  tag_ok t -> 2 + t_len t <= n ->
  apparam_tag_decode (pre ++ tag_wire t ++ post) (zlen pre) n = Some (Some (t, 2 + t_len t)).
Proof.
  intros [Hid Hl Hd] Hn. unfold apparam_tag_decode, tag_wire.
  rewrite (proj2 (Z.ltb_ge n 2)) by (unfold is_u8 in *; lia).
  rewrite <- !app_assoc. change ([t_id t; t_len t] ++ ?l) with ([t_id t] ++ [t_len t] ++ l).
  rewrite (get_u8_mid pre _ _ (zlen pre)) by done. cbn [mbind option_bind]. rewrite (app_assoc pre).
  rewrite (get_u8_mid (pre ++ [t_id t])) by len_lia. cbn [mbind option_bind].
  rewrite (proj2 (Z.ltb_ge _ (t_len t))) by lia. rewrite (app_assoc (pre ++ _)).
  rewrite (ld_mid _ (t_data t)) by len_lia. cbn [mbind option_bind].
  unfold tag_new. rewrite u8_small by done.
  rewrite ld_all by done.
  cbn [mbind option_bind]. by destruct t.
Qed.

Definition add_tag (m : GObexApparam) (t : apparam_tag) : GObexApparam := <[t_id t := t]> m.

Lemma decode_loop_spec l pre n m :
  Forall tag_ok l -> (length l < n)%nat ->
  apparam_decode_loop n (pre ++ tags_wire l) (zlen (pre ++ tags_wire l)) (zlen pre) m
    = Some (zlen (pre ++ tags_wire l), foldl add_tag m l).
Proof.
  intros Hl. revert pre n m. induction Hl as [|t l Ht Hl IH]; intros pre n m Hn;
    (destruct n as [|n]; [cbn in Hn; lia|]); cbn [apparam_decode_loop].
  { unfold tags_wire. cbn [fmap list_fmap concat]. rewrite app_nil_r, Z.ltb_irrefl. done. }
  pose proof (tag_wire_length t Ht) as Hw. destruct (tag_len t Ht) as [Hlen _].
  pose proof (zlen_nonneg (tags_wire l)).
  rewrite tags_wire_cons, !zlen_app. rewrite (proj2 (Z.ltb_lt _ _)) by lia.
  rewrite tag_decode_spec by (done || lia). cbn [mbind option_bind].
  specialize (IH (pre ++ tag_wire t) n (add_tag m t)). rewrite <- app_assoc, !zlen_app in IH.
  rewrite <- Hw. fold (add_tag m t). rewrite IH by (cbn in Hn; lia). done.
Qed.

Lemma add_tags_union l m :
  NoDup (t_id <$> l) ->
  foldl add_tag m l = list_to_map ((fun t => (t_id t, t)) <$> l) ∪ m.
Proof.
  revert m. induction l as [|t l IH]; intros m Hnd; cbn.
  { by rewrite (left_id_L ∅ (∪)). }
  cbn in Hnd. apply NoDup_cons in Hnd as [Ht Hnd]. rewrite IH by done. unfold add_tag.
  rewrite <- insert_union_l, insert_union_r; [done|].
  apply not_elem_of_list_to_map_1. rewrite <- list_fmap_compose. exact Ht.
Qed.

Lemma apparam_tags (m : GObexApparam) :
  apparam_ok m -> (fun t => (t_id t, t)) <$> (map_to_list m).*2 = map_to_list m.
Proof.
  intros Hm. rewrite <- list_fmap_compose.
  assert (Forall (fun kt => t_id kt.2 = kt.1) (map_to_list m)) as Hl.
  { apply Forall_forall. intros [k t] Hk. apply elem_of_map_to_list in Hk. by apply Hm in Hk as []. }
  induction Hl as [|[k t] l Hk Hl IH]; [done|]. cbn in *. by rewrite Hk, IH.
Qed.

Lemma add_tags_of_map l (m : GObexApparam) :
  apparam_ok m -> l ≡ₚ (map_to_list m).*2 -> foldl add_tag ∅ l = m.
Proof.
  intros Hm Hl. pose proof (apparam_tags m Hm) as Ht.
  assert (NoDup (((fun t => (t_id t, t)) <$> l).*1)) as Hnd.
  { rewrite Hl, Ht. apply NoDup_fst_map_to_list. }
  rewrite add_tags_union.
  2:{ by rewrite <- list_fmap_compose in Hnd. }
  rewrite (right_id_L ∅ (∪)). rewrite <- (list_to_map_to_list m).
  apply list_to_map_proper; [done|]. by rewrite Hl, Ht.
Qed.

Lemma apparam_tags_ok l (m : GObexApparam) :
  apparam_ok m -> l ≡ₚ (map_to_list m).*2 -> Forall tag_ok l.
Proof.
  intros Hm ->. apply Forall_forall. intros t Ht.
  apply list_elem_of_fmap in Ht as ([k u] & -> & Ht). apply elem_of_map_to_list in Ht.
  by apply Hm in Ht as [].
Qed.

Lemma tags_encode_length l b n off r b' :
  tags_encode l b n off = Some (r, b') -> length b' = length b.
Proof.
  revert b off. induction l as [|t l IH]; intros b off; cbn; [by intros [= _ ->]|].
  unfold tag_encode. destruct (Z.ltb_spec (n - off) (2 + t_len t)); cbn [mbind option_bind].
  { rewrite (proj2 (Z.ltb_lt _ 0)) by done. by intros [= _ ->]. }
  destruct (ld (t_data t) 0 (t_len t)) as [d|]; [|done]. cbn [mbind option_bind].
  destruct (st b off _) as [b1|] eqn:Hst; [|done]. cbn [mbind option_bind].
  apply st_length in Hst. case_match; [intros [= _ ->]; done|].
  intros He. apply IH in He. congruence.
Qed.

Lemma tags_wire_2 l : Forall tag_ok l -> 2 * Z.of_nat (length l) <= zlen (tags_wire l).
Proof.
  induction 1 as [|t l Ht Hl IH]; [done|]. rewrite tags_wire_cons, zlen_app, tag_wire_length by done.
  destruct (tag_len t Ht). cbn [length]. lia.
Qed.

(** C33. Application parameters round trip: whatever the order in which the hash table is
    traversed, encoding writes the tags at the start of the buffer, or fails with -ENOBUFS
    when they do not fit; decoding the bytes of a table that is not empty gives the table
    back. *)
Theorem apparam_roundtrip (iter : GObexApparam -> list apparam_tag) (m : GObexApparam) buf n :
  apparam_ok m -> iter m ≡ₚ (map_to_list m).*2 -> 0 <= n <= zlen buf ->
  exists data,
    zlen data = apparam_size m /\
    (if apparam_size m <=? n then
       g_obex_apparam_encode iter (Some m) buf n
         = Some (apparam_size m, data ++ drop (Z.to_nat (apparam_size m)) buf)
     else exists buf',
       g_obex_apparam_encode iter (Some m) buf n = Some (- ENOBUFS, buf') /\
       zlen buf' = zlen buf) /\
    (m <> ∅ -> g_obex_apparam_decode data (zlen data) = Some (Some m)).
Proof.
  intros Hm Hiter Hn. exists (tags_wire (iter m)).
  pose proof (apparam_tags_ok _ m Hm Hiter) as Htags.
  assert (zlen (tags_wire (iter m)) = apparam_size m) as Hsize
    by by apply zlen_tags_wire_perm.
  split_and!; [done| |].
  - unfold g_obex_apparam_encode. rewrite <- Hsize. destruct (Z.leb_spec (zlen (tags_wire (iter m))) n).
    + pose proof (tags_encode_spec (iter m) [] buf n Htags) as H'.
      rewrite zlen_nil in H'. change (over [] buf) with buf in H'. rewrite H' by lia.
      unfold over, zlen. by rewrite Nat2Z.id.
    + destruct (tags_encode_short (iter m) [] buf n Htags) as (k & Hk & He); rewrite ?zlen_nil;
        try lia. rewrite zlen_nil in He. change (over [] buf) with buf in He.
      eexists. split; [exact He|]. apply tags_encode_length in He. unfold zlen. congruence.
  - intros Hne. unfold g_obex_apparam_decode.
    destruct (iter m) as [|t l] eqn:Hl.
    { destruct Hne. apply map_to_list_empty_iff. apply Permutation_nil in Hiter.
      by destruct (map_to_list m). }
    rewrite <- Hl in *. pose proof (tags_wire_2 (iter m) Htags) as H2.
    rewrite (proj2 (Z.ltb_ge _ 2)) by (rewrite Hl in *; cbn [length] in *; lia).
    pose proof (decode_loop_spec (iter m) [] (S (Z.to_nat (zlen (tags_wire (iter m))))) ∅ Htags)
      as Hdec.
    cbn [app] in Hdec. rewrite zlen_nil in Hdec. rewrite Hdec by lia. cbn [mbind option_bind].
    rewrite Z.eqb_refl. cbn [negb]. do 2 f_equal. by apply add_tags_of_map.
Qed.

(** A list of tags, and the same tags in the reverse order. *)
Definition folder_tags : GObexApparam :=
  list_to_map [(1, Tag 1 2 [0x04; 0x00]); (3, Tag 3 1 [1]); (0x10, Tag 0x10 4 [112; 98; 46; 0])].

Lemma apparam_roundtrip_witness :
  exists data,
    zlen data = 13 /\
    g_obex_apparam_encode (fun m => reverse (map_to_list m).*2) (Some folder_tags)
      (replicate 20 0) 16 = Some (13, data ++ replicate 7 0) /\
    (folder_tags <> ∅ -> g_obex_apparam_decode data (zlen data) = Some (Some folder_tags)).
Proof.
  refine (apparam_roundtrip (fun m => reverse (map_to_list m).*2) folder_tags
    (replicate 20 0) 16 _ _ _).
  - intros id t Ht. unfold folder_tags in Ht. cbn in Ht.
    repeat (apply lookup_insert_Some in Ht as [[<- <-]|[_ Ht]]; [done|]). done.
  - apply reverse_Permutation.
  - split; vm_compute; discriminate.
Defined.

Lemma set_get_be (m : GObexApparam) id n value :
  (n < 128)%nat ->
  exists m', g_obex_apparam_set_bytes (Some m) id (be_bytes n value) (Z.of_nat n) = Some m' /\
    get_be (Z.of_nat n) m' id = Some (Some (value mod 256 ^ Z.of_nat n)) /\
    get_be (2 * Z.of_nat n) m' id = (if decide (n = 0%nat) then Some (Some 0) else Some None) /\
    delete id m' = delete id m.
Proof.
  intros Hn. unfold g_obex_apparam_set_bytes, tag_new. cbn [default].
  rewrite u8_small by (unfold is_u8; lia).
  rewrite ld_all by len_lia. cbn [mbind option_bind].
  eexists. split; [done|]. unfold get_be, g_obex_apparam_find_tag.
  rewrite lookup_insert_eq, delete_insert_eq. cbn [t_len t_data]. rewrite Z.ltb_irrefl.
  split_and!; [| |done].
  - rewrite ld_all by len_lia.
    cbn [fmap option_fmap option_map mbind option_bind]. by rewrite be_val_bytes.
  - case_decide as H0; [by subst n|]. by rewrite (proj2 (Z.ltb_lt _ _)) by lia.
Qed.

Lemma set_get_string (m : GObexApparam) id s :
  Forall (fun c => c <> 0) s ->
  exists ms, g_obex_apparam_set_string (Some m) id s = Some ms /\
    g_obex_apparam_get_string ms id = Some (take 254 s) /\ delete id ms = delete id m.
Proof.
  intros Hs. unfold g_obex_apparam_set_string, g_obex_apparam_set_bytes, tag_new.
  assert (exists n, n = zlen (take 254 s) + 1 /\ is_u8 n /\
    (if UINT8_MAX <? zlen s + 1 then n = UINT8_MAX else n = zlen s + 1 /\ take 254 s = s))
    as (n & Hn & Hn8 & Hcase).
  { eexists; split; [done|]. unfold zlen, UINT8_MAX, is_u8. rewrite length_take.
    destruct (Z.ltb_spec 255 (Z.of_nat (length s) + 1)); [lia|].
    split; [lia|]. split; [lia|]. apply take_ge. lia. }
  assert (exists ms, Some ms = (tag ← (d ← ld (take 254 s ++ [0]) 0 (u8 n);
                                  Some (Tag id (u8 n) d));
                          Some (<[id := tag]> m)) /\
    g_obex_apparam_get_string ms id = Some (take 254 s) /\ delete id ms = delete id m)
    as (ms & Hms & Hget & Hdel).
  { rewrite u8_small by done. rewrite ld_all by (rewrite ?zlen_app; done).
    eexists; split; [done|]. unfold g_obex_apparam_get_string, g_obex_apparam_find_tag.
    rewrite lookup_insert_eq, delete_insert_eq. split; [|done]. cbn [t_len t_data].
    rewrite take_ge by (rewrite length_app; unfold zlen in Hn; cbn [length]; lia).
    by rewrite until_null_string by by apply Forall_take. }
  exists ms. split; [|done]. rewrite Hms. cbn [default]. destruct (UINT8_MAX <? zlen s + 1).
  - by rewrite Hcase.
  - destruct Hcase as [-> ->]. done.
Qed.

(** Getting what was set: each setter adds its tag and keeps the others, and the getter
    of its width gives the value back, at its width; a longer string is cut to 254 bytes.
    The wider getters reject a tag that is too short, but the one for a byte does not look
    at the length: a received tag without data makes it read outside. *)
Theorem apparam_get_set (m : GObexApparam) id value :
  g_obex_apparam_set_uint8 (Some m) id (u8 value) = Some (<[id := Tag id 1 [u8 value]]> m) /\
  g_obex_apparam_get_uint8 (<[id := Tag id 1 [u8 value]]> m) id = Some (Some (u8 value)) /\
  (exists m16, g_obex_apparam_set_uint16 (Some m) id value = Some m16 /\
     g_obex_apparam_get_uint16 m16 id = Some (Some (u16 value)) /\
     g_obex_apparam_get_uint32 m16 id = Some None /\ delete id m16 = delete id m) /\
  (exists m32, g_obex_apparam_set_uint32 (Some m) id value = Some m32 /\
     g_obex_apparam_get_uint32 m32 id = Some (Some (u32 value)) /\
     g_obex_apparam_get_uint64 m32 id = Some None /\ delete id m32 = delete id m) /\
  (exists m64, g_obex_apparam_set_uint64 (Some m) id value = Some m64 /\
     g_obex_apparam_get_uint64 m64 id = Some (Some (u64 value)) /\ delete id m64 = delete id m) /\
  (forall s, Forall (fun c => c <> 0) s ->
     exists ms, g_obex_apparam_set_string (Some m) id s = Some ms /\
       g_obex_apparam_get_string ms id = Some (take 254 s) /\ delete id ms = delete id m) /\
  (g_obex_apparam_decode [id; 0] 2 = Some (Some {[id := Tag id 0 []]}) /\
   g_obex_apparam_get_uint16 {[id := Tag id 0 []]} id = Some None /\
   g_obex_apparam_get_uint8 {[id := Tag id 0 []]} id = None).
Proof.
  unfold g_obex_apparam_set_uint16, g_obex_apparam_set_uint32, g_obex_apparam_set_uint64,
    g_obex_apparam_get_uint16, g_obex_apparam_get_uint32, g_obex_apparam_get_uint64.
  split_and!.
  - done.
  - unfold g_obex_apparam_get_uint8, g_obex_apparam_find_tag. rewrite lookup_insert_eq.
    cbn [t_data]. by rewrite (get_u8_head (u8 value) [] : get_u8 [u8 value] 0 = _).
  - destruct (set_get_be m id 2 value) as (m' & ? & ? & ?); [lia|]. by exists m'.
  - destruct (set_get_be m id 4 value) as (m' & ? & ? & ?); [lia|]. by exists m'.
  - destruct (set_get_be m id 8 value) as (m' & ? & ? & _ & ?); [lia|]. by exists m'.
  - apply set_get_string.
  - assert (apparam_tag_decode [id; 0] 0 2 = Some (Some (Tag id 0 [], 2))) as Htag
      by by destruct id.
    unfold g_obex_apparam_decode. cbn [apparam_decode_loop Z.ltb Z.compare Z.to_nat Pos.to_nat].
    change (2 - 0) with 2. by rewrite Htag.
  - unfold get_be, g_obex_apparam_find_tag. by rewrite lookup_singleton_eq.
  - unfold g_obex_apparam_get_uint8, g_obex_apparam_find_tag. by rewrite lookup_singleton_eq.
Qed.

(** A name of 300 characters is cut. *)
Lemma apparam_get_set_witness :
  exists ms, g_obex_apparam_set_string (Some ∅) 2 (replicate 300 65) = Some ms /\
    g_obex_apparam_get_string ms 2 = Some (replicate 254 65) /\ delete 2 ms = ∅.
Proof.
  refine (proj1 (proj2 (proj2 (proj2 (proj2 (proj2 (apparam_get_set ∅ 2 0)))))) (replicate 300 65)
    _).
  apply (bool_decide_unpack _). vm_compute. reflexivity.
Defined.

