(* ===== verification/Eir.v ===== *)
(** Extended inquiry response and advertising data: src/eir.c, with the UUID text of
    src/uuid-helper.c and the UUID conversions of lib/sdp.c it calls.  A handler of a field
    gets the field's data as a block of its own, so that reading past the field is
    undefined.  The checks and the trimming of strings by GLib are arguments. *)
From Stdlib Require Import ZArith Lia.
From S2P Require Import Prelude Uuid.
From stdpp Require Import base numbers list option.

Local Open Scope Z_scope.

(** ** Constants of src/eir.h *)

Definition EIR_FLAGS : Z := 0x01.
Definition EIR_UUID16_SOME : Z := 0x02.
Definition EIR_UUID16_ALL : Z := 0x03.
Definition EIR_UUID32_SOME : Z := 0x04.
Definition EIR_UUID32_ALL : Z := 0x05.
Definition EIR_UUID128_SOME : Z := 0x06.
Definition EIR_UUID128_ALL : Z := 0x07.
Definition EIR_NAME_SHORT : Z := 0x08.
Definition EIR_NAME_COMPLETE : Z := 0x09.
Definition EIR_TX_POWER : Z := 0x0A.
Definition EIR_CLASS_OF_DEV : Z := 0x0D.
Definition EIR_SSP_HASH : Z := 0x0E.
Definition EIR_SSP_RANDOMIZER : Z := 0x0F.
Definition EIR_DEVICE_ID : Z := 0x10.
Definition EIR_SOLICIT16 : Z := 0x14.
Definition EIR_SOLICIT128 : Z := 0x15.
Definition EIR_SVC_DATA16 : Z := 0x16.
Definition EIR_GAP_APPEARANCE : Z := 0x19.
Definition EIR_SOLICIT32 : Z := 0x1F.
Definition EIR_SVC_DATA32 : Z := 0x20.
Definition EIR_SVC_DATA128 : Z := 0x21.
Definition EIR_MANUFACTURER_DATA : Z := 0xFF.

Definition EIR_SD_MAX_LEN : Z := 238.
Definition EIR_MSD_MAX_LEN : Z := 236.
Definition HCI_MAX_NAME_LENGTH : Z := 248.
Definition HCI_MAX_EIR_LENGTH : Z := 240.
Definition PNP_INFO_SVCLASS_ID : Z := 0x1200.
Definition EIR_OOB_MIN : Z := 2 + 6.
Definition SIZEOF_UUID128 : Z := 16.

(** ** UUIDs of the SDP library *)

(** [uuid_t]: the type and the union. *)
Inductive uuid_t :=
  | SDP_UUID_UNSPEC
  | SDP_UUID16 (uuid16 : Z)
  | SDP_UUID32 (uuid32 : Z)
  | SDP_UUID128 (uuid128 : bytes).

(** [htons] and [htonl] on a little-endian host. *)
Definition htons (x : Z) : Z := le_val (be_bytes 2 x).
Definition htonl (x : Z) : Z := le_val (be_bytes 4 x).

(** The value is added to two, or the first four, bytes of the base UUID. *)
Definition sdp_uuid16_to_uuid128 (uuid16 : Z) : bytes :=
  let data1 := le_val (take 2 (drop 2 Uuid.bluetooth_base_uuid)) in
  let data1 := u16 (data1 + htons uuid16) in
  take 2 Uuid.bluetooth_base_uuid ++ le_bytes 2 data1 ++ drop 4 Uuid.bluetooth_base_uuid.

Definition sdp_uuid32_to_uuid128 (uuid32 : Z) : bytes :=
  let data0 := le_val (take 4 Uuid.bluetooth_base_uuid) in
  let data0 := u32 (data0 + htonl uuid32) in
  le_bytes 4 data0 ++ drop 4 Uuid.bluetooth_base_uuid.

(** NULL for an unknown type.  The format is that of [bt_uuid_to_string]. *)
Definition bt_uuid2string (uuid : uuid_t) : option bytes :=
  match uuid with
  | SDP_UUID16 v => Some (Uuid.uuid128_text (sdp_uuid16_to_uuid128 v))
  | SDP_UUID32 v => Some (Uuid.uuid128_text (sdp_uuid32_to_uuid128 v))
  | SDP_UUID128 d => Some (Uuid.uuid128_text d)
  | SDP_UUID_UNSPEC => None
  end.

(** ** Data *)

Record eir_msd := Msd { company : Z; msd_data : bytes; msd_len : Z }.
Record eir_sd := Sd { sd_uuid : bytes; sd_data : bytes; sd_len : Z }.

Record eir_data := Eir {
  services : list bytes;
  flags : Z;
  name : option bytes;
  class : Z;
  appearance : Z;
  name_complete : bool;
  tx_power : Z;
  hash : option bytes;
  randomizer : option bytes;
  eir_addr : bytes;
  did_vendor : Z;
  did_product : Z;
  did_version : Z;
  did_source : Z;
  msd_list : list eir_msd;
  sd_list : list eir_sd;
}.

(** Assignments to the members. *)
Definition set_services (e : eir_data) (x : list bytes) : eir_data :=
  Eir x (flags e) (name e) (class e) (appearance e) (name_complete e) (tx_power e) (hash e)
    (randomizer e) (eir_addr e) (did_vendor e) (did_product e) (did_version e) (did_source e)
    (msd_list e) (sd_list e).
Definition set_flags (e : eir_data) (x : Z) : eir_data :=
  Eir (services e) x (name e) (class e) (appearance e) (name_complete e) (tx_power e) (hash e)
    (randomizer e) (eir_addr e) (did_vendor e) (did_product e) (did_version e) (did_source e)
    (msd_list e) (sd_list e).
Definition set_name (e : eir_data) (x : option bytes) (complete : bool) : eir_data :=
  Eir (services e) (flags e) x (class e) (appearance e) complete (tx_power e) (hash e)
    (randomizer e) (eir_addr e) (did_vendor e) (did_product e) (did_version e) (did_source e)
    (msd_list e) (sd_list e).
Definition set_class (e : eir_data) (x : Z) : eir_data :=
  Eir (services e) (flags e) (name e) x (appearance e) (name_complete e) (tx_power e) (hash e)
    (randomizer e) (eir_addr e) (did_vendor e) (did_product e) (did_version e) (did_source e)
    (msd_list e) (sd_list e).
Definition set_appearance (e : eir_data) (x : Z) : eir_data :=
  Eir (services e) (flags e) (name e) (class e) x (name_complete e) (tx_power e) (hash e)
    (randomizer e) (eir_addr e) (did_vendor e) (did_product e) (did_version e) (did_source e)
    (msd_list e) (sd_list e).
Definition set_tx_power (e : eir_data) (x : Z) : eir_data :=
  Eir (services e) (flags e) (name e) (class e) (appearance e) (name_complete e) x (hash e)
    (randomizer e) (eir_addr e) (did_vendor e) (did_product e) (did_version e) (did_source e)
    (msd_list e) (sd_list e).
Definition set_hash (e : eir_data) (x : option bytes) : eir_data :=
  Eir (services e) (flags e) (name e) (class e) (appearance e) (name_complete e) (tx_power e) x
    (randomizer e) (eir_addr e) (did_vendor e) (did_product e) (did_version e) (did_source e)
    (msd_list e) (sd_list e).
Definition set_randomizer (e : eir_data) (x : option bytes) : eir_data :=
  Eir (services e) (flags e) (name e) (class e) (appearance e) (name_complete e) (tx_power e)
    (hash e) x (eir_addr e) (did_vendor e) (did_product e) (did_version e) (did_source e)
    (msd_list e) (sd_list e).
Definition set_addr (e : eir_data) (x : bytes) : eir_data :=
  Eir (services e) (flags e) (name e) (class e) (appearance e) (name_complete e) (tx_power e)
    (hash e) (randomizer e) x (did_vendor e) (did_product e) (did_version e) (did_source e)
    (msd_list e) (sd_list e).
Definition set_did (e : eir_data) (source vendor product version : Z) : eir_data :=
  Eir (services e) (flags e) (name e) (class e) (appearance e) (name_complete e) (tx_power e)
    (hash e) (randomizer e) (eir_addr e) vendor product version source (msd_list e) (sd_list e).
Definition set_msd_list (e : eir_data) (x : list eir_msd) : eir_data :=
  Eir (services e) (flags e) (name e) (class e) (appearance e) (name_complete e) (tx_power e)
    (hash e) (randomizer e) (eir_addr e) (did_vendor e) (did_product e) (did_version e)
    (did_source e) x (sd_list e).
Definition set_sd_list (e : eir_data) (x : list eir_sd) : eir_data :=
  Eir (services e) (flags e) (name e) (class e) (appearance e) (name_complete e) (tx_power e)
    (hash e) (randomizer e) (eir_addr e) (did_vendor e) (did_product e) (did_version e)
    (did_source e) (msd_list e) x.

(** The numbers stay. *)
Definition eir_data_free (e : eir_data) : eir_data :=
  Eir [] (flags e) None (class e) (appearance e) (name_complete e) (tx_power e) None None
    (eir_addr e) (did_vendor e) (did_product e) (did_version e) (did_source e) [] [].

(** ** Parsing *)

Definition append_service (e : eir_data) (uuid : uuid_t) : eir_data :=
  match bt_uuid2string uuid with
  | None => e
  | Some uuid_str => set_services e (services e ++ [uuid_str])
  end.

(** The [n] UUIDs from [off] on. *)
Fixpoint parse_uuid16_loop (n : nat) (e : eir_data) (data : bytes) (off : Z) : ub eir_data :=
  match n with
  | O => Some e
  | S n =>
    v ← get_le16 data off;
    parse_uuid16_loop n (append_service e (SDP_UUID16 v)) data (off + 2)
  end.
Definition eir_parse_uuid16 (e : eir_data) (data : bytes) (len : Z) : ub eir_data :=
  parse_uuid16_loop (Z.to_nat (len / 2)) e data 0.

Fixpoint parse_uuid32_loop (n : nat) (e : eir_data) (data : bytes) (off : Z) : ub eir_data :=
  match n with
  | O => Some e
  | S n =>
    v ← get_le32 data off;
    parse_uuid32_loop n (append_service e (SDP_UUID32 v)) data (off + 4)
  end.
Definition eir_parse_uuid32 (e : eir_data) (data : bytes) (len : Z) : ub eir_data :=
  parse_uuid32_loop (Z.to_nat (len / 4)) e data 0.

(** The bytes of each UUID are swapped; its type is known, so that the string is never
    NULL and the pointer always advances. *)
Fixpoint parse_uuid128_loop (n : nat) (e : eir_data) (data : bytes) (off : Z) : ub eir_data :=
  match n with
  | O => Some e
  | S n =>
    d ← ld data off 16;
    parse_uuid128_loop n (append_service e (SDP_UUID128 (rev d))) data (off + 16)
  end.
Definition eir_parse_uuid128 (e : eir_data) (data : bytes) (len : Z) : ub eir_data :=
  parse_uuid128_loop (Z.to_nat (len / 16)) e data 0.

(** [strncpy]: the string and null bytes up to the length. *)
Definition strncpy (s : bytes) (len : Z) : bytes :=
  let s := until_null s in s ++ replicate (Z.to_nat len - length s) 0.

(** [char] is signed: the characters from 128 on are not ASCII. *)
Definition ascii_or_space (c : Z) : Z := if c <? 128 then c else 32.

Section glib.
(** GLib: whether all bytes are valid UTF-8 (without null bytes), and the removal of white
    space around a string. *)
Variables (g_utf8_validate : bytes -> bool) (g_strstrip : bytes -> bytes).

(** The copy is a block of 250 bytes, and the string in it must end. *)
Definition name2utf8 (name : bytes) (len : Z) : ub bytes :=
  s ← ld name 0 len;
  if g_utf8_validate s then Some (until_null s)
  else
    utf8_name ← st (replicate (Z.to_nat (HCI_MAX_NAME_LENGTH + 2)) 0) 0 (strncpy s len);
    if existsb (Z.eqb 0) utf8_name
    then Some (g_strstrip (ascii_or_space <$> until_null utf8_name))
    else None.

Definition eir_parse_msd (e : eir_data) (data : bytes) (len : Z) : ub eir_data :=
  if (len <? 2) || (2 + EIR_MSD_MAX_LEN <? len) then Some e
  else
    company ← get_le16 data 0;
    d ← ld data 2 (len - 2);
    Some (set_msd_list e (msd_list e ++ [Msd company d (len - 2)])).

(** [data] is at [off] in the field; the block of the entry has 238 bytes. *)
Definition eir_parse_sd (e : eir_data) (service : uuid_t) (data : bytes) (off len : Z)
    : ub eir_data :=
  match bt_uuid2string service with
  | None => Some e
  | Some uuid =>
    d ← ld data off len;
    if EIR_SD_MAX_LEN <? len then None
    else Some (set_sd_list e (sd_list e ++ [Sd uuid d len]))
  end.

Definition eir_parse_uuid16_data (e : eir_data) (data : bytes) (len : Z) : ub eir_data :=
  if (len <? 2) || (EIR_SD_MAX_LEN <? len) then Some e
  else v ← get_le16 data 0; eir_parse_sd e (SDP_UUID16 v) data 2 (len - 2).

Definition eir_parse_uuid32_data (e : eir_data) (data : bytes) (len : Z) : ub eir_data :=
  if (len <? 4) || (EIR_SD_MAX_LEN <? len) then Some e
  else v ← get_le32 data 0; eir_parse_sd e (SDP_UUID32 v) data 4 (len - 4).

Definition eir_parse_uuid128_data (e : eir_data) (data : bytes) (len : Z) : ub eir_data :=
  if (len <? 16) || (EIR_SD_MAX_LEN <? len) then Some e
  else d ← ld data 0 16; eir_parse_sd e (SDP_UUID128 (rev d)) data 16 (len - 16).

(** The length without the null bytes at the end. *)
Fixpoint trim_nulls (n : nat) (data : bytes) (len : Z) : ub Z :=
  match n with
  | O => Some len
  | S n =>
    if 0 <? len then
      c ← get_u8 data (len - 1);
      if c =? 0 then trim_nulls n data (len - 1) else Some len
    else Some len
  end.

(** The bytes as a signed number. *)
Definition i8 (x : Z) : Z := if x <? 128 then x else x - 256.

(** The switch over the type of a field. *)
Definition parse_field (e : eir_data) (type : Z) (data : bytes) (data_len : Z) : ub eir_data :=
  if (type =? EIR_UUID16_SOME) || (type =? EIR_UUID16_ALL) then eir_parse_uuid16 e data data_len
  else if (type =? EIR_UUID32_SOME) || (type =? EIR_UUID32_ALL)
  then eir_parse_uuid32 e data data_len
  else if (type =? EIR_UUID128_SOME) || (type =? EIR_UUID128_ALL)
  then eir_parse_uuid128 e data data_len
  else if type =? EIR_FLAGS then
    if 0 <? data_len then x ← get_u8 data 0; Some (set_flags e x) else Some e
  else if (type =? EIR_NAME_SHORT) || (type =? EIR_NAME_COMPLETE) then
    data_len ← trim_nulls (Z.to_nat data_len) data data_len;
    s ← name2utf8 data data_len;
    Some (set_name e (Some s) (type =? EIR_NAME_COMPLETE))
  else if type =? EIR_TX_POWER then
    if data_len <? 1 then Some e else x ← get_u8 data 0; Some (set_tx_power e (i8 x))
  else if type =? EIR_CLASS_OF_DEV then
    if data_len <? 3 then Some e
    else
      d0 ← get_u8 data 0; d1 ← get_u8 data 1; d2 ← get_u8 data 2;
      Some (set_class e (Z.lor (Z.lor d0 (Z.shiftl d1 8)) (Z.shiftl d2 16)))
  else if type =? EIR_GAP_APPEARANCE then
    if data_len <? 2 then Some e else x ← get_le16 data 0; Some (set_appearance e x)
  else if type =? EIR_SSP_HASH then
    if data_len <? 16 then Some e else d ← ld data 0 16; Some (set_hash e (Some d))
  else if type =? EIR_SSP_RANDOMIZER then
    if data_len <? 16 then Some e else d ← ld data 0 16; Some (set_randomizer e (Some d))
  else if type =? EIR_DEVICE_ID then
    if data_len <? 8 then Some e
    else
      d0 ← get_u8 data 0; d1 ← get_u8 data 1; d2 ← get_u8 data 2; d3 ← get_u8 data 3;
      d4 ← get_u8 data 4; d5 ← get_u8 data 5; d6 ← get_u8 data 6; d7 ← get_u8 data 7;
      Some (set_did e (Z.lor d0 (Z.shiftl d1 8)) (Z.lor d2 (Z.shiftl d3 8))
              (Z.lor d4 (Z.shiftl d5 8)) (Z.lor d6 (Z.shiftl d7 8)))
  else if type =? EIR_SVC_DATA16 then eir_parse_uuid16_data e data data_len
  else if type =? EIR_SVC_DATA32 then eir_parse_uuid32_data e data data_len
  else if type =? EIR_SVC_DATA128 then eir_parse_uuid128_data e data data_len
  else if type =? EIR_MANUFACTURER_DATA then eir_parse_msd e data data_len
  else Some e.

(** The loop, at [off] with [len] bytes done; each field takes at least a byte. *)
Fixpoint parse_loop (n : nat) (e : eir_data) (eir_data : bytes) (off len eir_len : Z)
    : ub Eir.eir_data :=
  match n with
  | O => None
  | S n =>
    if len <? eir_len - 1 then
      field_len ← get_u8 eir_data off;
      if field_len =? 0 then Some e
      else
        let len := u16 (len + (field_len + 1)) in
        if eir_len <? len then Some e
        else
          let data_len := u8 (field_len - 1) in
          type ← get_u8 eir_data (off + 1);
          data ← ld eir_data (off + 2) data_len;
          e ← parse_field e type data data_len;
          parse_loop n e eir_data (off + (field_len + 1)) len eir_len
    else Some e
  end.

(** The data are at [off] of a block; NULL is [None].  [eir_len] is a byte. *)
Definition eir_parse (e : eir_data) (eir_data : option (bytes * Z)) (eir_len : Z)
    : ub Eir.eir_data :=
  let e := set_tx_power (set_flags e 0) 127 in
  match eir_data with
  | None => Some e
  | Some (eir_data, off) => parse_loop (S (Z.to_nat eir_len)) e eir_data off 0 eir_len
  end.

(** The call of [eir_parse] cuts the length to a byte. *)
Definition eir_parse_oob (e : eir_data) (eir_data : bytes) (eir_len : Z)
    : ub (Z * Eir.eir_data) :=
  if eir_len <? EIR_OOB_MIN then Some (-1, e)
  else
    l ← get_le16 eir_data 0;
    if negb (eir_len =? l) then Some (-1, e)
    else
      let eir_len := u16 (eir_len - 2) in
      addr ← ld eir_data 2 6;
      let e := set_addr e addr in
      let eir_len := u16 (eir_len - 6) in
      if 0 <? eir_len then
        e ← eir_parse e (Some (eir_data, 8)) (u8 eir_len); Some (0, e)
      else Some (0, e).
End glib.

(** ** Generation *)

(** [l] is what is left of the records' service classes, [ptr] where the field starts,
    [done] the UUIDs stored so far, in the order of the bytes in the field. *)
Fixpoint generate_uuid128_loop (l : list uuid_t) (buf : bytes) (ptr len : Z)
    (done : list bytes) : ub (bytes * Z * list bytes * bool) :=
  match l with
  | [] => Some (buf, len, done, false)
  | SDP_UUID128 d :: l =>
    if HCI_MAX_EIR_LENGTH <? len + 2 + SIZEOF_UUID128 then Some (buf, len, done, true)
    else if existsb (fun x => bool_decide (x = rev d)) done
    then generate_uuid128_loop l buf ptr len done
    else
      buf ← st buf (ptr + 2 + zlen done * SIZEOF_UUID128) (rev d);
      generate_uuid128_loop l buf ptr (u16 (len + SIZEOF_UUID128)) (done ++ [rev d])
  | _ :: l => generate_uuid128_loop l buf ptr len done
  end.

Definition eir_generate_uuid128 (l : list uuid_t) (buf : bytes) (ptr eir_len : Z)
    : ub (bytes * Z) :=
  '(buf, len, done, truncated) ← generate_uuid128_loop l buf ptr eir_len [];
  if (0 <? zlen done) || truncated then
    buf ← put_u8 (zlen done * SIZEOF_UUID128 + 1) buf ptr;
    buf ← st buf (ptr + 1) [if truncated : bool then EIR_UUID128_SOME else EIR_UUID128_ALL];
    Some (buf, u16 (len + 2))
  else Some (buf, eir_len).

(** The 16-bit UUIDs that are offered; the array of them has 120 elements. *)
Fixpoint group_uuid16 (l : list uuid_t) (uuid16 : list Z) (eir_optional_len : Z)
    : ub (list Z * Z * bool) :=
  match l with
  | [] => Some (uuid16, eir_optional_len, false)
  | SDP_UUID16 v :: l =>
    if v <? 0x1100 then group_uuid16 l uuid16 eir_optional_len
    else if v =? PNP_INFO_SVCLASS_ID then group_uuid16 l uuid16 eir_optional_len
    else if HCI_MAX_EIR_LENGTH <? eir_optional_len + 2 + 2
    then Some (uuid16, eir_optional_len, true)
    else if existsb (Z.eqb v) uuid16 then group_uuid16 l uuid16 eir_optional_len
    else if HCI_MAX_EIR_LENGTH / 2 <=? zlen uuid16 then None
    else group_uuid16 l (uuid16 ++ [v]) (u16 (eir_optional_len + 2))
  | _ :: l => group_uuid16 l uuid16 eir_optional_len
  end.

(** A length and a type byte and the data, at [ptr]; the result is the pointer behind. *)
Definition put_field (buf : bytes) (ptr type : Z) (d : bytes) : ub (bytes * Z) :=
  buf ← st buf ptr ([u8 (zlen d + 1); type] ++ d);
  Some (buf, ptr + (2 + zlen d)).

(** The block, the pointer and [eir_optional_len] while the fields are written. *)
Abbreviation oob := (bytes * Z * Z)%type.

Definition put_class (cod : Z) (s : oob) : ub oob :=
  let '(data, ptr, eir_optional_len) := s in
  if 0 <? cod then
    '(data, ptr) ← put_field data ptr EIR_CLASS_OF_DEV
      [u8 cod; u8 (Z.shiftr cod 8); u8 (Z.shiftr cod 16)];
    Some (data, ptr, u16 (eir_optional_len + 5))
  else Some s.

(** The hash or the randomizer. *)
Definition put_key (type : Z) (key : option bytes) (s : oob) : ub oob :=
  let '(data, ptr, eir_optional_len) := s in
  match key with
  | Some key =>
    key ← ld key 0 16;
    '(data, ptr) ← put_field data ptr type key;
    Some (data, ptr, u16 (eir_optional_len + 18))
  | None => Some s
  end.

(** [name] is the string without its terminator. *)
Definition put_name (name : bytes) (s : oob) : ub oob :=
  let '(data, ptr, eir_optional_len) := s in
  let name_len := zlen name in
  if 0 <? name_len then
    let type := if 48 <? name_len then EIR_NAME_SHORT else EIR_NAME_COMPLETE in
    let name_len := if 48 <? name_len then 48 else name_len in
    name ← ld name 0 name_len;
    '(data, ptr) ← put_field data ptr type name;
    Some (data, ptr, u16 (eir_optional_len + (name_len + 2)))
  else Some s.

Definition put_did (did_vendor did_product did_version did_source : Z) (s : oob) : ub oob :=
  let '(data, ptr, eir_optional_len) := s in
  if negb (did_vendor =? 0) then
    '(data, ptr) ← put_field data ptr EIR_DEVICE_ID
      (le_bytes 2 did_source ++ le_bytes 2 did_vendor ++ le_bytes 2 did_product ++
       le_bytes 2 did_version);
    Some (data, ptr, u16 (eir_optional_len + 10))
  else Some s.

Definition put_uuid16 (uuids : list uuid_t) (s : oob) : ub oob :=
  let '(data, ptr, eir_optional_len) := s in
  '(uuid16, eir_optional_len, truncated) ← group_uuid16 uuids [] eir_optional_len;
  if 0 <? zlen uuid16 then
    '(data, ptr) ← put_field data ptr
      (if truncated : bool then EIR_UUID16_SOME else EIR_UUID16_ALL)
      (concat (le_bytes 2 <$> uuid16));
    Some (data, ptr, u16 (eir_optional_len + 2))
  else Some (data, ptr, eir_optional_len).

Definition eir_create_oob (addr name : bytes) (cod : Z) (hash randomizer : option bytes)
    (did_vendor did_product did_version did_source : Z) (uuids : list uuid_t) (data : bytes)
    : ub (Z * bytes) :=
  addr ← ld addr 0 6;
  data ← st data 2 addr;
  s ← put_class cod (data, 8, 0);
  s ← put_key EIR_SSP_HASH hash s;
  s ← put_key EIR_SSP_RANDOMIZER randomizer s;
  s ← put_name name s;
  s ← put_did did_vendor did_product did_version did_source s;
  s ← put_uuid16 uuids s;
  let '(data, ptr, eir_optional_len) := s in
  '(data, eir_optional_len) ←
    (if eir_optional_len <=? HCI_MAX_EIR_LENGTH - 2
     then eir_generate_uuid128 uuids data ptr eir_optional_len
     else Some (data, eir_optional_len));
  let eir_total_len := u16 (8 + eir_optional_len) in
  data ← put_le16 eir_total_len data 0;
  Some (eir_total_len, data).
