(* ===== verification/EirSpec.v ===== *)
(** The fields of extended inquiry and advertising data of Eir.v: what each kind of field
    does when it is parsed, and that arbitrary bytes are parsed safely. *)
From Stdlib Require Import ZArith Lia.
From S2P Require Import Prelude Uuid Blocks Eir.
From stdpp Require Import base numbers list option.

Local Open Scope Z_scope.

(** The bytes in the other order. *)
Abbreviation swap := (rev (A:=Z)).

(** The cases of membership in a list of constants. *)
Ltac elem_cases H :=
  apply list_elem_of_In in H; cbn [In] in H; repeat destruct H as [<-|H]; [..|destruct H].

(** ** Fields *)

(** The type and the data of a field, and its bytes. *)
Definition field : Type := Z * bytes.
Definition field_wire (f : field) : bytes := [zlen f.2 + 1; f.1] ++ f.2.
Definition fields_wire (l : list field) : bytes := concat (field_wire <$> l).

Lemma zlen_field_wire f : zlen (field_wire f) = 2 + zlen f.2.
Proof. unfold field_wire. rewrite zlen_app. len_lia. Qed.

Lemma fields_wire_cons f l : fields_wire (f :: l) = field_wire f ++ fields_wire l.
Proof. done. Qed.

Lemma fields_wire_app l k : fields_wire (l ++ k) = fields_wire l ++ fields_wire k.
Proof. unfold fields_wire. by rewrite fmap_app, concat_app. Qed.

Section parsing.
Variables (g_utf8_validate : bytes -> bool) (g_strstrip : bytes -> bytes).
Abbreviation parse_field := (parse_field g_utf8_validate g_strstrip).
Abbreviation parse_loop := (parse_loop g_utf8_validate g_strstrip).

Fixpoint parse_fields (e : eir_data) (l : list field) : ub eir_data :=
  match l with
  | [] => Some e
  | f :: l => e ← parse_field e f.1 f.2 (zlen f.2); parse_fields e l
  end.

(** The loop over the bytes of fields parses the fields. *)
Lemma parse_loop_fields l n e pre post len eir_len :
  eir_len = len + zlen (fields_wire l) -> 0 <= len -> eir_len <= UINT8_MAX ->
  zlen (fields_wire l) < Z.of_nat n ->
  parse_loop n e (pre ++ fields_wire l ++ post) (zlen pre) len eir_len = parse_fields e l.
Proof.
  revert n e pre len. induction l as [|[t d] l IH]; intros n e pre len -> Hlen Hmax Hn;
    (destruct n as [|n];
      [match type of Hn with zlen ?x < _ => pose proof (zlen_nonneg x) end; lia|]).
  { cbn [parse_loop parse_fields]. change (zlen (fields_wire [])) with 0.
    by rewrite (proj2 (Z.ltb_ge len _)) by lia. }
  rewrite fields_wire_cons, zlen_app, zlen_field_wire in *. cbn [fst snd] in *.
  pose proof (zlen_nonneg (fields_wire l)). pose proof (zlen_nonneg d).
  unfold UINT8_MAX in *. cbn [Eir.parse_loop parse_fields fst snd].
  rewrite (proj2 (Z.ltb_lt len _)) by lia. unfold field_wire. cbn [fst snd].
  change ([zlen d + 1; t] ++ d) with ([zlen d + 1] ++ [t] ++ d). rewrite <- !app_assoc.
  rewrite (get_u8_mid pre _ _ (zlen pre)) by done. cbn [mbind option_bind].
  rewrite (proj2 (Z.eqb_neq (zlen d + 1) 0)) by lia.
  rewrite (u16_small (len + _)) by (unfold is_u16; lia).
  rewrite (proj2 (Z.ltb_ge _ (len + (zlen d + 1 + 1)))) by lia.
  replace (zlen d + 1 - 1) with (zlen d) by lia. rewrite (u8_small (zlen d)) by (unfold is_u8; lia).
  rewrite (app_assoc pre). rewrite (get_u8_mid (pre ++ [zlen d + 1])) by len_lia.
  cbn [mbind option_bind]. rewrite (app_assoc (pre ++ _)).
  rewrite (ld_mid _ d) by len_lia. cbn [mbind option_bind].
  destruct (parse_field e t d (zlen d)) as [e'|]; [|done]. cbn [mbind option_bind].
  rewrite (app_assoc (_ ++ [t])).
  replace (zlen pre + (zlen d + 1 + 1))
    with (zlen (((pre ++ [zlen d + 1]) ++ [t]) ++ d)) by len_lia.
  apply IH; lia.
Qed.

End parsing.

(** ** Pieces: the fields the encoders write *)

Inductive piece :=
  | PUuid16 (type : Z) (l : list Z)
  | PUuid32 (type : Z) (l : list Z)
  | PUuid128 (type : Z) (l : list bytes)
  | PName (type : Z) (s : bytes)
  | PClass (c : Z)
  | PAppearance (v : Z)
  | PHash (d : bytes)
  | PRandomizer (d : bytes)
  | PDid (source vendor product version : Z)
  | PManufacturer (company : Z) (d : bytes)
  | PServiceData (u : uuid_t) (d : bytes)
  | PSolicit (type : Z) (d : bytes).

(** A UUID as it is written, little-endian. *)
Definition uuid_le (u : uuid_t) : bytes :=
  match u with
  | SDP_UUID16 v => le_bytes 2 v
  | SDP_UUID32 v => le_bytes 4 v
  | SDP_UUID128 d => rev d
  | SDP_UUID_UNSPEC => []
  end.

Definition service_data_type (u : uuid_t) : Z :=
  match u with
  | SDP_UUID16 _ => EIR_SVC_DATA16
  | SDP_UUID32 _ => EIR_SVC_DATA32
  | _ => EIR_SVC_DATA128
  end.

Definition piece_field (p : piece) : field :=
  match p with
  | PUuid16 t l => (t, concat (le_bytes 2 <$> l))
  | PUuid32 t l => (t, concat (le_bytes 4 <$> l))
  | PUuid128 t l => (t, concat (swap <$> l))
  | PName t s => (t, s)
  | PClass c => (EIR_CLASS_OF_DEV, le_bytes 3 c)
  | PAppearance v => (EIR_GAP_APPEARANCE, le_bytes 2 v)
  | PHash d => (EIR_SSP_HASH, d)
  | PRandomizer d => (EIR_SSP_RANDOMIZER, d)
  | PDid s v p n => (EIR_DEVICE_ID, le_bytes 2 s ++ le_bytes 2 v ++ le_bytes 2 p ++ le_bytes 2 n)
  | PManufacturer c d => (EIR_MANUFACTURER_DATA, le_bytes 2 c ++ d)
  | PServiceData u d => (service_data_type u, uuid_le u ++ d)
  | PSolicit t d => (t, d)
  end.

Definition uuid_t_ok (u : uuid_t) : Prop :=
  match u with
  | SDP_UUID16 v => is_u16 v
  | SDP_UUID32 v => is_u32 v
  | SDP_UUID128 d => length d = 16%nat
  | SDP_UUID_UNSPEC => False
  end.

Definition uuid_text (u : uuid_t) : bytes := default [] (bt_uuid2string u).

Definition add_services (e : eir_data) (l : list uuid_t) : eir_data :=
  set_services e (services e ++ (uuid_text <$> l)).

(** What parsing a piece does to the result. *)
Definition piece_effect (e : eir_data) (p : piece) : eir_data :=
  match p with
  | PUuid16 _ l => add_services e (SDP_UUID16 <$> l)
  | PUuid32 _ l => add_services e (SDP_UUID32 <$> l)
  | PUuid128 _ l => add_services e (SDP_UUID128 <$> l)
  | PName t s => set_name e (Some s) (t =? EIR_NAME_COMPLETE)
  | PClass c => set_class e c
  | PAppearance v => set_appearance e v
  | PHash d => set_hash e (Some d)
  | PRandomizer d => set_randomizer e (Some d)
  | PDid s v p n => set_did e s v p n
  | PManufacturer c d => set_msd_list e (msd_list e ++ [Msd c d (zlen d)])
  | PServiceData u d => set_sd_list e (sd_list e ++ [Sd (uuid_text u) d (zlen d)])
  | PSolicit _ _ => e
  end.

(** *** UUID lists *)

Lemma append_service_known e u : uuid_t_ok u -> append_service e u = add_services e [u].
Proof. by destruct u. Qed.

Lemma add_services_nil e : add_services e [] = e.
Proof. unfold add_services, set_services. cbn. rewrite app_nil_r. by destruct e. Qed.

Lemma add_services_app e l k : add_services (add_services e l) k = add_services e (l ++ k).
Proof. unfold add_services, set_services. cbn. by rewrite fmap_app, app_assoc. Qed.

Lemma parse_uuid16_loop_spec l e pre :
  Forall is_u16 l ->
  parse_uuid16_loop (length l) e (pre ++ concat (le_bytes 2 <$> l)) (zlen pre)
    = Some (add_services e (SDP_UUID16 <$> l)).
Proof.
  intros Hl. revert e pre. induction Hl as [|v l Hv Hl IH]; intros e pre;
    cbn [length parse_uuid16_loop]; rewrite ?fmap_nil, ?fmap_cons; cbn [concat].
  { by rewrite add_services_nil. }
  rewrite get_le16_mid by done. cbn [mbind option_bind].
  rewrite append_service_known by done. rewrite app_assoc.
  replace (zlen pre + 2) with (zlen (pre ++ le_bytes 2 v)) by len_lia.
  rewrite IH, add_services_app. done.
Qed.

Lemma parse_uuid32_loop_spec l e pre :
  Forall is_u32 l ->
  parse_uuid32_loop (length l) e (pre ++ concat (le_bytes 4 <$> l)) (zlen pre)
    = Some (add_services e (SDP_UUID32 <$> l)).
Proof.
  intros Hl. revert e pre. induction Hl as [|v l Hv Hl IH]; intros e pre;
    cbn [length parse_uuid32_loop]; rewrite ?fmap_nil, ?fmap_cons; cbn [concat].
  { by rewrite add_services_nil. }
  rewrite get_le32_mid by done. cbn [mbind option_bind].
  rewrite append_service_known by done. rewrite app_assoc.
  replace (zlen pre + 4) with (zlen (pre ++ le_bytes 4 v)) by len_lia.
  rewrite IH, add_services_app. done.
Qed.

Lemma parse_uuid128_loop_spec l e pre :
  Forall (fun d => length d = 16%nat) l ->
  parse_uuid128_loop (length l) e (pre ++ concat (swap <$> l)) (zlen pre)
    = Some (add_services e (SDP_UUID128 <$> l)).
Proof.
  intros Hl. revert e pre. induction Hl as [|d l Hd Hl IH]; intros e pre;
    cbn [length parse_uuid128_loop]; rewrite ?fmap_nil, ?fmap_cons; cbn [concat].
  { by rewrite add_services_nil. }
  rewrite (ld_mid pre (rev d)) by len_lia. cbn [mbind option_bind].
  rewrite rev_involutive, append_service_known by done. rewrite app_assoc.
  replace (zlen pre + 16) with (zlen (pre ++ rev d)) by len_lia.
  rewrite IH, add_services_app. done.
Qed.

Lemma zlen_concat_map {A} (f : A -> bytes) (k : Z) (l : list A) :
  Forall (fun a => zlen (f a) = k) l -> zlen (concat (f <$> l)) = k * zlen l.
Proof.
  induction 1 as [|a l Ha Hl IH]; [change (0 = k * 0); lia|].
  rewrite fmap_cons. cbn [concat]. rewrite zlen_app, zlen_cons, IH, Ha. lia.
Qed.

Lemma parse_uuid_lists e :
  (forall l, Forall is_u16 l ->
     eir_parse_uuid16 e (concat (le_bytes 2 <$> l)) (zlen (concat (le_bytes 2 <$> l)))
       = Some (add_services e (SDP_UUID16 <$> l))) /\
  (forall l, Forall is_u32 l ->
     eir_parse_uuid32 e (concat (le_bytes 4 <$> l)) (zlen (concat (le_bytes 4 <$> l)))
       = Some (add_services e (SDP_UUID32 <$> l))) /\
  (forall l, Forall (fun d => length d = 16%nat) l ->
     eir_parse_uuid128 e (concat (swap <$> l)) (zlen (concat (swap <$> l)))
       = Some (add_services e (SDP_UUID128 <$> l))).
Proof.
  split_and!; intros l Hl.
  - rewrite (zlen_concat_map _ 2) by (apply Forall_forall; intros; len_lia).
    unfold eir_parse_uuid16. rewrite (Z.mul_comm 2), Z.div_mul by lia. unfold zlen. rewrite Nat2Z.id.
    by apply (parse_uuid16_loop_spec l e []).
  - rewrite (zlen_concat_map _ 4) by (apply Forall_forall; intros; len_lia).
    unfold eir_parse_uuid32. rewrite (Z.mul_comm 4), Z.div_mul by lia. unfold zlen. rewrite Nat2Z.id.
    by apply (parse_uuid32_loop_spec l e []).
  - rewrite (zlen_concat_map _ 16).
    2:{ eapply Forall_impl; [|exact Hl]. intros d Hd. cbn in Hd. len_lia. }
    unfold eir_parse_uuid128. rewrite (Z.mul_comm 16), Z.div_mul by lia. unfold zlen.
    rewrite Nat2Z.id. by apply (parse_uuid128_loop_spec l e []).
Qed.

Section pieces.
Variables (g_utf8_validate : bytes -> bool) (g_strstrip : bytes -> bytes).
Abbreviation parse_field := (parse_field g_utf8_validate g_strstrip).

(** A string that GLib takes for UTF-8, without null bytes. *)
Definition name_ok (s : bytes) : Prop :=
  g_utf8_validate s = true /\ Forall (fun c => c <> 0) s.

Definition piece_ok (p : piece) : Prop :=
  match p with
  | PUuid16 t l => t ∈ [EIR_UUID16_SOME; EIR_UUID16_ALL] /\ Forall is_u16 l
  | PUuid32 t l => t ∈ [EIR_UUID32_SOME; EIR_UUID32_ALL] /\ Forall is_u32 l
  | PUuid128 t l => t ∈ [EIR_UUID128_SOME; EIR_UUID128_ALL] /\ Forall (fun d => length d = 16%nat) l
  | PName t s => t ∈ [EIR_NAME_SHORT; EIR_NAME_COMPLETE] /\ name_ok s
  | PClass c => 0 <= c < 2 ^ 24
  | PAppearance v => is_u16 v
  | PHash d | PRandomizer d => length d = 16%nat
  | PDid s v p n => is_u16 s /\ is_u16 v /\ is_u16 p /\ is_u16 n
  | PManufacturer c d => is_u16 c /\ zlen d <= EIR_MSD_MAX_LEN
  | PServiceData u d => uuid_t_ok u /\ zlen (uuid_le u ++ d) <= EIR_SD_MAX_LEN
  | PSolicit t d => t ∈ [EIR_SOLICIT16; EIR_SOLICIT32; EIR_SOLICIT128]
  end.

(** *** The effect of each kind of piece *)

Lemma name2utf8_valid s : name_ok s -> name2utf8 g_utf8_validate g_strstrip s (zlen s) = Some s.
Proof.
  intros [Hv Hs]. unfold name2utf8. rewrite ld_all by done. cbn [mbind option_bind].
  rewrite Hv. f_equal. pose proof (until_null_full s Hs) as H. exact H.
Qed.

Lemma trim_nulls_valid s :
  Forall (fun c => c <> 0) s -> trim_nulls (length s) s (zlen s) = Some (zlen s).
Proof.
  intros Hs. destruct s as [|c s _] using rev_ind; [done|].
  apply Forall_app in Hs as [_ Hc]. apply Forall_cons_1 in Hc as [Hc _].
  rewrite length_app, Nat.add_comm, zlen_app. change (zlen [c]) with 1. cbn [length Nat.add trim_nulls].
  pose proof (zlen_nonneg s). rewrite (proj2 (Z.ltb_lt 0 _)) by lia.
  rewrite <- (app_nil_r [c]) at 1. rewrite (get_u8_mid s c []) by lia. cbn [mbind option_bind].
  by rewrite (proj2 (Z.eqb_neq c 0)).
Qed.

Lemma parse_name e t s :
  t ∈ [EIR_NAME_SHORT; EIR_NAME_COMPLETE] -> name_ok s ->
  parse_field e t s (zlen s) = Some (set_name e (Some s) (t =? EIR_NAME_COMPLETE)).
Proof.
  intros Ht Hs. pose proof (trim_nulls_valid s (proj2 Hs)) as Htrim.
  pose proof (name2utf8_valid s Hs) as Hname. unfold zlen in *.
  elem_cases Ht; unfold Eir.parse_field; cbn -[Z.of_nat trim_nulls name2utf8];
    rewrite Nat2Z.id, Htrim; cbn [mbind option_bind]; by rewrite Hname.
Qed.

Lemma parse_sd e u d k n :
  uuid_t_ok u -> k = zlen (uuid_le u) -> n = zlen d -> zlen d <= EIR_SD_MAX_LEN ->
  eir_parse_sd e u (uuid_le u ++ d) k n = Some (piece_effect e (PServiceData u d)).
Proof.
  intros Hu -> -> Hd. unfold eir_parse_sd.
  rewrite ld_end by done. cbn [mbind option_bind].
  rewrite (proj2 (Z.ltb_ge _ (zlen d))) by lia. by destruct u.
Qed.

Lemma parse_service_data e u d :
  uuid_t_ok u -> zlen (uuid_le u ++ d) <= EIR_SD_MAX_LEN ->
  parse_field e (service_data_type u) (uuid_le u ++ d) (zlen (uuid_le u ++ d))
    = Some (piece_effect e (PServiceData u d)).
Proof.
  intros Hu Hl. rewrite zlen_app in *. pose proof (zlen_nonneg d).
  assert (zlen (uuid_le u) = match u with SDP_UUID16 _ => 2 | SDP_UUID32 _ => 4 | _ => 16 end)
    as Hul by (destruct u; cbn [uuid_t_ok uuid_le] in *; [done|len_lia..]).
  destruct u as [|v|v|b]; [done|..]; unfold Eir.parse_field; cbn -[zlen le_bytes rev app eir_parse_uuid16_data eir_parse_uuid32_data
      eir_parse_uuid128_data piece_effect]; cbn [uuid_t_ok] in Hu.
  - unfold eir_parse_uuid16_data. change (le_bytes 2 v) with (uuid_le (SDP_UUID16 v)).
    rewrite Hul. replace ((2 + zlen d <? 2) || _) with false by (unfold EIR_SD_MAX_LEN in *; lia).
    cbn [uuid_le]. rewrite get_le16_head by done. cbn [mbind option_bind].
    apply parse_sd; lia || done.
  - unfold eir_parse_uuid32_data. change (le_bytes 4 v) with (uuid_le (SDP_UUID32 v)).
    rewrite Hul. replace ((4 + zlen d <? 4) || _) with false by (unfold EIR_SD_MAX_LEN in *; lia).
    cbn [uuid_le]. rewrite get_le32_head by done. cbn [mbind option_bind].
    apply parse_sd; lia || done.
  - unfold eir_parse_uuid128_data. change (rev b) with (uuid_le (SDP_UUID128 b)).
    rewrite Hul. replace ((16 + zlen d <? 16) || _) with false by (unfold EIR_SD_MAX_LEN in *; lia).
    rewrite ld_start by done. cbn [mbind option_bind uuid_le]. rewrite rev_involutive.
    apply parse_sd; lia || done.
Qed.

Lemma le_byte_pair x : is_u16 x -> exists a b, le_bytes 2 x = [a; b] /\ Z.lor a (Z.shiftl b 8) = x.
Proof.
  intros Hx. exists (x mod 256), (x / 256 mod 256). split; [done|].
  rewrite Z.shiftl_mul_pow2, lor_add by words_lia. unfold is_u16 in Hx. words_lia.
Qed.

Lemma get_u8_cons l k x : l !! k = Some x -> get_u8 l (Z.of_nat k) = Some x.
Proof.
  intros Hx. apply list_elem_of_split_length in Hx as (a & b & -> & ->).
  by apply (get_u8_mid a x b).
Qed.

Lemma parse_class e c :
  0 <= c < 2 ^ 24 -> parse_field e EIR_CLASS_OF_DEV (le_bytes 3 c) 3 = Some (set_class e c).
Proof.
  intros Hc. unfold Eir.parse_field. cbn -[get_u8 le_bytes].
  change (le_bytes 3 c) with [c mod 256; c / 256 mod 256; c / 256 / 256 mod 256].
  rewrite (get_u8_cons _ 0 (c mod 256)) by done.
  rewrite (get_u8_cons _ 1 (c / 256 mod 256)) by done.
  rewrite (get_u8_cons _ 2 (c / 256 / 256 mod 256)) by done. cbn [mbind option_bind].
  rewrite !Z.shiftl_mul_pow2, (lor_add (c mod 256)), lor_add by words_lia.
  do 2 f_equal. words_lia.
Qed.

(** A piece is parsed to its effect. *)
Lemma piece_parse e p :
  piece_ok p ->
  parse_field e (piece_field p).1 (piece_field p).2 (zlen (piece_field p).2)
    = Some (piece_effect e p).
Proof.
  destruct (parse_uuid_lists e) as (H16 & H32 & H128).
  destruct p as [t l|t l|t l|t s|c|v|d|d|s v pr n|c d|u d|t d]; cbn [piece_ok piece_field fst snd];
    intros Hok.
  - destruct Hok as [Ht Hl]. elem_cases Ht; exact (H16 l Hl).
  - destruct Hok as [Ht Hl]. elem_cases Ht; exact (H32 l Hl).
  - destruct Hok as [Ht Hl]. elem_cases Ht; exact (H128 l Hl).
  - destruct Hok as [Ht Hs]. by apply parse_name.
  - apply parse_class. exact Hok.
  - change (parse_field e EIR_GAP_APPEARANCE (le_bytes 2 v) 2 = Some (set_appearance e v)).
    unfold Eir.parse_field. cbn -[le_bytes]. rewrite <- (app_nil_r (le_bytes 2 v)).
    by rewrite get_le16_head.
  - unfold zlen. rewrite Hok. change (parse_field e EIR_SSP_HASH d 16 = Some (set_hash e (Some d))).
    unfold Eir.parse_field. cbn. rewrite ld_all by (unfold zlen; lia). done.
  - unfold zlen. rewrite Hok.
    change (parse_field e EIR_SSP_RANDOMIZER d 16 = Some (set_randomizer e (Some d))).
    unfold Eir.parse_field. cbn. rewrite ld_all by (unfold zlen; lia). done.
  - destruct Hok as (H1 & H2 & H3 & H4).
    destruct (le_byte_pair s H1) as (s0 & s1 & -> & <-).
    destruct (le_byte_pair v H2) as (v0 & v1 & -> & <-).
    destruct (le_byte_pair pr H3) as (p0 & p1 & -> & <-).
    destruct (le_byte_pair n H4) as (n0 & n1 & -> & <-).
    unfold Eir.parse_field. cbn -[get_u8]. 
    rewrite (get_u8_cons _ 0 s0), (get_u8_cons _ 1 s1), (get_u8_cons _ 2 v0),
      (get_u8_cons _ 3 v1), (get_u8_cons _ 4 p0), (get_u8_cons _ 5 p1), (get_u8_cons _ 6 n0),
      (get_u8_cons _ 7 n1) by done. done.
  - destruct Hok as [Hc Hd]. unfold EIR_MSD_MAX_LEN in Hd. pose proof (zlen_nonneg d).
    unfold Eir.parse_field. cbn -[zlen le_bytes app eir_parse_msd]. unfold eir_parse_msd.
    rewrite zlen_app. change (zlen (le_bytes 2 c)) with 2. unfold EIR_MSD_MAX_LEN.
    replace ((2 + zlen d <? 2) || (2 + 236 <? 2 + zlen d)) with false by lia.
    rewrite get_le16_head by done. cbn [mbind option_bind].
    rewrite ld_end by (done || lia). cbn [mbind option_bind]. do 4 f_equal. f_equal. lia.
  - destruct Hok as [Hu Hd]. by apply parse_service_data.
  - elem_cases Hok; done.
Qed.

(** *** Names that are not UTF-8

    What the parser makes of the name [s]: where it is not UTF-8, as when it was cut inside a
    character, every byte that is not ASCII becomes a space. *)
Definition shown_name (s : bytes) : bytes :=
  if g_utf8_validate s then s else g_strstrip (ascii_or_space <$> s).

Definition piece_shown (e : eir_data) (p : piece) : eir_data :=
  match p with
  | PName t s => set_name e (Some (shown_name s)) (t =? EIR_NAME_COMPLETE)
  | _ => piece_effect e p
  end.

(** As [piece_ok], with any name of a C string that fits the copy. *)
Definition piece_sent (p : piece) : Prop :=
  match p with
  | PName t s => t ∈ [EIR_NAME_SHORT; EIR_NAME_COMPLETE] /\
      Forall (fun c => c <> 0) s /\ zlen s <= HCI_MAX_NAME_LENGTH
  | _ => piece_ok p
  end.

Lemma name2utf8_shown s : Forall (fun c => c <> 0) s -> zlen s <= HCI_MAX_NAME_LENGTH ->
  name2utf8 g_utf8_validate g_strstrip s (zlen s) = Some (shown_name s).
Proof.
  intros Hs Hlen. unfold name2utf8, shown_name. rewrite ld_all by done. cbn [mbind option_bind].
  rewrite (until_null_full s Hs). destruct (g_utf8_validate s); [done|].
  unfold strncpy. rewrite (until_null_full s Hs).
  replace (Z.to_nat (zlen s) - length s)%nat with 0%nat by (unfold zlen; lia).
  cbn [replicate]. rewrite app_nil_r.
  set (n := (Z.to_nat (HCI_MAX_NAME_LENGTH + 2) - length s - 1)%nat).
  rewrite st_0 by (unfold zlen in *; rewrite length_replicate; unfold HCI_MAX_NAME_LENGTH in *; lia).
  cbn [mbind option_bind]. rewrite drop_replicate.
  replace (Z.to_nat (HCI_MAX_NAME_LENGTH + 2) - length s)%nat with (S n)
    by (unfold n, HCI_MAX_NAME_LENGTH, zlen in *; lia).
  cbn [replicate]. rewrite existsb_app. cbn [existsb]. rewrite Z.eqb_refl. cbn [orb].
  rewrite orb_true_r. by rewrite until_null_string.
Qed.

Lemma piece_parse_shown e p :
  piece_sent p ->
  parse_field e (piece_field p).1 (piece_field p).2 (zlen (piece_field p).2)
    = Some (piece_shown e p).
Proof.
  destruct p as [t l|t l|t l|t s|c|v|d|d|s v pr n|c d|u d|t d]; try apply piece_parse.
  intros (Ht & Hs & Hlen). pose proof (trim_nulls_valid s Hs) as Htrim.
  pose proof (name2utf8_shown s Hs Hlen) as Hname. unfold zlen in *. cbn [piece_field fst snd piece_shown].
  elem_cases Ht; unfold Eir.parse_field; cbn -[Z.of_nat trim_nulls name2utf8 shown_name];
    rewrite Nat2Z.id, Htrim; cbn [mbind option_bind]; by rewrite Hname.
Qed.

Lemma pieces_parse_shown l e :
  Forall piece_sent l ->
  parse_fields g_utf8_validate g_strstrip e (piece_field <$> l) = Some (foldl piece_shown e l).
Proof.
  intros Hl. revert e. induction Hl as [|p l Hp Hl IH]; intros e; [done|].
  rewrite fmap_cons. cbn [parse_fields foldl].
  rewrite piece_parse_shown by done. cbn [mbind option_bind]. apply IH.
Qed.

(** Fields made of pieces are parsed to their effects. *)
Lemma pieces_parse l e :
  Forall piece_ok l ->
  parse_fields g_utf8_validate g_strstrip e (piece_field <$> l) = Some (foldl piece_effect e l).
Proof.
  intros Hl. revert e. induction Hl as [|p l Hp Hl IH]; intros e; [done|].
  rewrite fmap_cons. cbn [parse_fields foldl].
  rewrite piece_parse by done. cbn [mbind option_bind]. apply IH.
Qed.
End pieces.

(** ** Arbitrary bytes *)

(** What every parsed result looks like. *)
Record eir_ok (e : eir_data) : Prop := {
  services_ok : Forall (fun s => length s = 36%nat) (services e);
  hash_ok : forall d, hash e = Some d \/ randomizer e = Some d -> zlen d = 16;
  msd_ok : Forall (fun m => is_u16 (company m) /\ zlen (msd_data m) = msd_len m /\
                            msd_len m <= EIR_MSD_MAX_LEN) (msd_list e);
  sd_ok : Forall (fun s => length (sd_uuid s) = 36%nat /\ zlen (sd_data s) = sd_len s /\
                           sd_len s <= EIR_MSD_MAX_LEN) (sd_list e);
}.

(** A computation that is defined and keeps the result in shape. *)
Definition good (e : eir_data) (r : ub eir_data) : Prop :=
  exists e', r = Some e' /\ (eir_ok e -> eir_ok e').

Lemma good_same e : good e (Some e).
Proof. by exists e. Qed.

Lemma good_some e e' :
  services e' = services e -> hash e' = hash e -> randomizer e' = randomizer e ->
  msd_list e' = msd_list e -> sd_list e' = sd_list e -> good e (Some e').
Proof.
  intros H1 H2 H3 H4 H5. exists e'. split; [done|].
  intros [Hs Hh Hm Hd]. split; rewrite ?H1, ?H2, ?H3, ?H4, ?H5; assumption.
Qed.

Lemma good_trans e e' r : (eir_ok e -> eir_ok e') -> good e' r -> good e r.
Proof. intros H (e'' & -> & H'). exists e''. auto. Qed.

Lemma uuid_text_length u s : bt_uuid2string u = Some s -> length s = 36%nat.
Proof.
  destruct u; cbn [bt_uuid2string]; [done|..]; intros [= <-]; apply Uuid.uuid128_text_length.
Qed.

Lemma append_service_ok e u : eir_ok e -> eir_ok (append_service e u).
Proof.
  intros []. unfold append_service. destruct (bt_uuid2string u) eqn:Hu; [|done].
  split; cbn; [|done..]. apply Forall_app. split; [done|].
  apply Forall_singleton. by eapply uuid_text_length.
Qed.

Lemma parse_uuid_loops_good n e data off :
  bytes_ok data -> 0 <= off ->
  (off + 2 * Z.of_nat n <= zlen data -> good e (parse_uuid16_loop n e data off)) /\
  (off + 4 * Z.of_nat n <= zlen data -> good e (parse_uuid32_loop n e data off)) /\
  (off + 16 * Z.of_nat n <= zlen data -> good e (parse_uuid128_loop n e data off)).
Proof.
  intros Hb. revert e off. induction n as [|n IH]; intros e off Ho;
    cbn [parse_uuid16_loop parse_uuid32_loop parse_uuid128_loop].
  { split_and!; intros; apply good_same. }
  split_and!; intros Hn.
  - destruct (get_le16_ok data off) as (v & -> & _); [done|lia..|]. cbn [mbind option_bind].
    eapply good_trans; [apply append_service_ok|]. eapply IH; lia.
  - destruct (get_le32_ok data off) as (v & -> & _); [done|lia..|]. cbn [mbind option_bind].
    eapply good_trans; [apply append_service_ok|]. eapply IH; lia.
  - rewrite ld_is_Some by lia. cbn [mbind option_bind].
    eapply good_trans; [apply append_service_ok|]. eapply IH; lia.
Qed.

Lemma parse_uuids_good e data :
  bytes_ok data ->
  good e (eir_parse_uuid16 e data (zlen data)) /\ good e (eir_parse_uuid32 e data (zlen data)) /\
  good e (eir_parse_uuid128 e data (zlen data)).
Proof.
  intros Hb. pose proof (zlen_nonneg data).
  split_and!; (eapply parse_uuid_loops_good; [done|lia|]); rewrite Z2Nat.id by (apply Z.div_pos; lia);
    pose proof (Z.mul_div_le (zlen data) 2 ltac:(lia)); pose proof (Z.mul_div_le (zlen data) 4 ltac:(lia));
    pose proof (Z.mul_div_le (zlen data) 16 ltac:(lia)); lia.
Qed.

Lemma parse_msd_good e data : bytes_ok data -> good e (eir_parse_msd e data (zlen data)).
Proof.
  intros Hb. unfold eir_parse_msd.
  destruct ((zlen data <? 2) || (2 + EIR_MSD_MAX_LEN <? zlen data)) eqn:Hl; [apply good_same|].
  destruct (get_le16_ok data 0) as (v & -> & Hv); [done|lia..|]. cbn [mbind option_bind].
  destruct (ld_total data 2 (zlen data - 2)) as (d & -> & _ & Hd); [done|lia..|].
  cbn [mbind option_bind]. eexists; split; [done|]. intros []. split; cbn; [done..| |done].
  apply Forall_app. split; [done|]. apply Forall_singleton. cbn.
  unfold EIR_MSD_MAX_LEN in *. split_and!; done || lia.
Qed.

Lemma parse_sd_good e u data off len :
  bytes_ok data -> 0 <= off -> 0 <= len <= EIR_MSD_MAX_LEN -> off + len <= zlen data ->
  good e (eir_parse_sd e u data off len).
Proof.
  intros Hb Ho Hl Hn. unfold eir_parse_sd, EIR_MSD_MAX_LEN in *.
  destruct (bt_uuid2string u) as [s|] eqn:Hu; [|apply good_same].
  destruct (ld_total data off len) as (d & -> & _ & Hd); [done|lia..|]. cbn [mbind option_bind].
  rewrite (proj2 (Z.ltb_ge _ len)) by (unfold EIR_SD_MAX_LEN; lia).
  eexists; split; [done|]. intros []. split; cbn; [done..|].
  apply Forall_app. split; [done|]. apply Forall_singleton. cbn. unfold EIR_MSD_MAX_LEN.
  apply uuid_text_length in Hu. split_and!; done || lia.
Qed.

Lemma parse_service_data_good e data :
  bytes_ok data ->
  good e (eir_parse_uuid16_data e data (zlen data)) /\
  good e (eir_parse_uuid32_data e data (zlen data)) /\
  good e (eir_parse_uuid128_data e data (zlen data)).
Proof.
  intros Hb. unfold eir_parse_uuid16_data, eir_parse_uuid32_data, eir_parse_uuid128_data.
  split_and!; (case_match eqn:Hl; [apply good_same|]; unfold EIR_SD_MAX_LEN in Hl).
  - destruct (get_le16_ok data 0) as (v & -> & Hv); [done|lia..|]. cbn [mbind option_bind].
    apply parse_sd_good; unfold EIR_MSD_MAX_LEN; lia || done.
  - destruct (get_le32_ok data 0) as (v & -> & Hv); [done|lia..|]. cbn [mbind option_bind].
    apply parse_sd_good; unfold EIR_MSD_MAX_LEN; lia || done.
  - rewrite ld_is_Some by lia. cbn [mbind option_bind].
    apply parse_sd_good; unfold EIR_MSD_MAX_LEN; lia || done.
Qed.

Lemma trim_nulls_total n data len :
  bytes_ok data -> 0 <= len <= zlen data ->
  exists k, trim_nulls n data len = Some k /\ 0 <= k <= len.
Proof.
  intros Hb. revert len. induction n as [|n IH]; intros len Hl; cbn; [exists len; split; [done|lia]|].
  destruct (Z.ltb_spec 0 len); [|exists len; split; [done|lia]].
  destruct (get_u8_ok data (len - 1)) as (c & -> & _); [done|lia..|]. cbn [mbind option_bind].
  destruct (c =? 0); [|exists len; split; [done|lia]].
  destruct (IH (len - 1)) as (k & -> & Hk); [lia|]. exists k. split; [done|lia].
Qed.

Section safety.
Variables (g_utf8_validate : bytes -> bool) (g_strstrip : bytes -> bytes).

(** Names up to 249 bytes fit the copy with their terminator. *)
Lemma name2utf8_total s len :
  0 <= len <= zlen s -> (forall s, g_utf8_validate s = true) \/ len <= 249 ->
  is_Some (name2utf8 g_utf8_validate g_strstrip s len).
Proof.
  intros Hl Hv. unfold name2utf8. rewrite ld_is_Some by lia. cbn [mbind option_bind].
  set (d := take _ _). assert (zlen d = len) as Hd.
  { unfold d. rewrite zlen_take; [done|]. rewrite drop_0. lia. }
  destruct (g_utf8_validate d) eqn:Hvd; [by eexists|].
  destruct Hv as [Hv|Hv]; [by rewrite Hv in Hvd|].
  assert (length (until_null d) <= length d)%nat as Hu.
  { clear. induction d as [|c d IH]; [done|]. cbn. destruct (c =? 0); cbn; lia. }
  assert (zlen (strncpy d len) = len) as Hs.
  { unfold strncpy. rewrite zlen_app. unfold zlen in *. rewrite length_replicate. lia. }
  change (Z.to_nat (HCI_MAX_NAME_LENGTH + 2)) with 250%nat.
  unfold st. rewrite decide_True by (unfold zlen in *; rewrite length_replicate; lia).
  cbn [mbind option_bind]. rewrite !existsb_app, drop_replicate.
  replace (existsb (Z.eqb 0) (replicate (250 - Z.to_nat (0 + zlen (strncpy d len))) 0)) with true.
  { rewrite !orb_true_r. by eexists. }
  destruct (250 - _)%nat eqn:Hn; [lia|done].
Qed.

Lemma parse_field_good e t data :
  bytes_ok data -> (forall s, g_utf8_validate s = true) \/ zlen data <= 249 ->
  good e (parse_field g_utf8_validate g_strstrip e t data (zlen data)).
Proof.
  intros Hb Hname. pose proof (zlen_nonneg data) as Hn.
  destruct (parse_uuids_good e data Hb) as (? & ? & ?).
  destruct (parse_service_data_good e data Hb) as (? & ? & ?).
  assert (forall n, n <= zlen data -> 0 <= n -> exists d, ld data 0 n = Some d /\ zlen d = n) as Hld.
  { intros n H5 H6. destruct (ld_total data 0 n) as (d & Hd & _ & Hd'); [done|lia..|]. eauto. }
  assert (forall k, 0 <= k < zlen data -> exists x, get_u8 data k = Some x) as Hu8.
  { intros k Hk. destruct (get_u8_ok data k) as (x & Hx & _); [done|lia..|]. eauto. }
  unfold parse_field.
  case_match; [assumption|]. case_match; [assumption|]. case_match; [assumption|].
  case_match.
  { destruct (Z.ltb_spec 0 (zlen data)); [|apply good_same].
    destruct (Hu8 0) as [x ->]; [lia|]. by apply good_some. }
  case_match.
  { destruct (trim_nulls_total (Z.to_nat (zlen data)) data (zlen data)) as (k & -> & Hk); [done|lia|].
    cbn [mbind option_bind]. destruct (name2utf8_total data k) as [s ->]; [lia| |].
    - destruct Hname; [by left|right; lia].
    - by apply good_some. }
  case_match.
  { destruct (Z.ltb_spec (zlen data) 1); [apply good_same|].
    destruct (Hu8 0) as [x ->]; [lia|]. by apply good_some. }
  case_match.
  { destruct (Z.ltb_spec (zlen data) 3); [apply good_same|].
    destruct (Hu8 0) as [x0 ->]; [lia|]. destruct (Hu8 1) as [x1 ->]; [lia|].
    destruct (Hu8 2) as [x2 ->]; [lia|]. by apply good_some. }
  case_match.
  { destruct (Z.ltb_spec (zlen data) 2); [apply good_same|].
    destruct (get_le16_ok data 0) as (x & -> & _); [done|lia..|]. by apply good_some. }
  case_match.
  { destruct (Z.ltb_spec (zlen data) 16); [apply good_same|].
    destruct (Hld 16) as (d & -> & Hd); [lia..|]. eexists; split; [done|].
    intros [Hs Hh Hm Hsd]. split; [done| |done..]. cbn. intros x [[= <-]|Hx]; [done|eauto]. }
  case_match.
  { destruct (Z.ltb_spec (zlen data) 16); [apply good_same|].
    destruct (Hld 16) as (d & -> & Hd); [lia..|]. eexists; split; [done|].
    intros [Hs Hh Hm Hsd]. split; [done| |done..]. cbn. intros x [Hx|[= <-]]; [eauto|done]. }
  case_match.
  { destruct (Z.ltb_spec (zlen data) 8); [apply good_same|].
    destruct (Hu8 0) as [x0 ->]; [lia|]. destruct (Hu8 1) as [x1 ->]; [lia|].
    destruct (Hu8 2) as [x2 ->]; [lia|]. destruct (Hu8 3) as [x3 ->]; [lia|].
    destruct (Hu8 4) as [x4 ->]; [lia|]. destruct (Hu8 5) as [x5 ->]; [lia|].
    destruct (Hu8 6) as [x6 ->]; [lia|]. destruct (Hu8 7) as [x7 ->]; [lia|].
    by apply good_some. }
  case_match; [assumption|]. case_match; [assumption|]. case_match; [assumption|].
  case_match; [by apply parse_msd_good|]. apply good_same.
Qed.

Lemma parse_loop_good n e data off len eir_len :
  bytes_ok data -> (forall s, g_utf8_validate s = true) \/ eir_len <= 251 ->
  0 <= off -> 0 <= len <= eir_len -> off + (eir_len - len) <= zlen data ->
  eir_len <= UINT8_MAX -> eir_len - len < Z.of_nat n ->
  good e (parse_loop g_utf8_validate g_strstrip n e data off len eir_len).
Proof.
  intros Hb Hname. revert e off len. induction n as [|n IH]; intros e off len Ho Hl Hd Hm Hn; [lia|].
  cbn [parse_loop]. destruct (Z.ltb_spec len (eir_len - 1)); [|apply good_same].
  destruct (get_u8_ok data off) as (k & -> & Hk); [done|lia..|]. cbn [mbind option_bind].
  destruct (Z.eqb_spec k 0); [apply good_same|]. unfold is_u8, UINT8_MAX in *.
  rewrite (u16_small (len + _)) by (unfold is_u16; lia).
  destruct (Z.ltb_spec eir_len (len + (k + 1))); [apply good_same|].
  destruct (get_u8_ok data (off + 1)) as (t & -> & _); [done|lia..|]. cbn [mbind option_bind].
  rewrite (u8_small (k - 1)) by (unfold is_u8; lia).
  destruct (ld_total data (off + 2) (k - 1)) as (d & -> & Hdb & Hdl); [done|lia..|].
  cbn [mbind option_bind]. rewrite <- Hdl.
  destruct (parse_field_good e t d Hdb) as (e' & -> & He'); [destruct Hname; [by left|right; lia]|].
  cbn [mbind option_bind]. eapply good_trans; [exact He'|]. apply IH; lia.
Qed.

Lemma eir_parse_good e data off eir_len :
  bytes_ok data -> (forall s, g_utf8_validate s = true) \/ eir_len <= 251 ->
  0 <= off -> 0 <= eir_len <= UINT8_MAX -> off + eir_len <= zlen data ->
  good e (eir_parse g_utf8_validate g_strstrip e (Some (data, off)) eir_len).
Proof.
  intros Hb Hname Ho Hl Hd. unfold eir_parse.
  eapply good_trans; [|apply parse_loop_good]; try (done || lia).
  intros []. by split.
Qed.
End safety.

(** C36. Parsing extended inquiry data is safe on arbitrary bytes: up to 251 bytes, or 255
    when GLib takes every name for UTF-8, nothing outside the [eir_len] bytes is read, every
    field is read within its own data, the loop ends, and the result is in shape (texts of
    36 characters, hashes of 16 bytes, data that fit their blocks).  The bound is exact: 252
    bytes with a long enough name that is not UTF-8 overrun the copy of the name.  The data
    of an out-of-band exchange are checked against their own length first. *)
Theorem eir_parse_safe g_utf8_validate g_strstrip e data eir_len :
  bytes_ok data -> 0 <= eir_len <= UINT8_MAX -> eir_len <= zlen data ->
  ((forall s, g_utf8_validate s = true) \/ eir_len <= 251 ->
   exists e', eir_parse g_utf8_validate g_strstrip e (Some (data, 0)) eir_len = Some e' /\
              (eir_ok e -> eir_ok e')) /\
  (g_utf8_validate (replicate 250 0xff) = false ->
   eir_parse g_utf8_validate g_strstrip e
     (Some ([251; EIR_NAME_COMPLETE] ++ replicate 250 0xff, 0)) 252 = None) /\
  (forall n, 0 <= n <= zlen data -> n <= 259 ->
   exists r e', eir_parse_oob g_utf8_validate g_strstrip e data n = Some (r, e') /\
     (r = 0 <-> 8 <= n /\ get_le16 data 0 = Some n) /\
     (eir_ok e -> eir_ok e')).
Proof.
  intros Hb Hl Hd. split_and!.
  - intros Hname. by apply eir_parse_good.
  - intros Hname. unfold eir_parse.
    etransitivity.
    { apply (parse_loop_fields g_utf8_validate g_strstrip
        [(EIR_NAME_COMPLETE, replicate 250 0xff)] _ _ [] []); vm_compute; reflexivity || discriminate. }
    cbn [parse_fields fst snd]. unfold parse_field.
    change (zlen (replicate 250 0xff)) with 250.
    change (trim_nulls (Z.to_nat 250) (replicate 250 0xff) 250) with (Some 250).
    change ((e ← (n ← Some 250; s ← name2utf8 g_utf8_validate g_strstrip (replicate 250 0xff) n;
                  Some (set_name (set_tx_power (set_flags e 0) 127) (Some s) true));
             Some e) = None).
    cbn [mbind option_bind]. unfold name2utf8. rewrite ld_all by done.
    cbn [mbind option_bind]. rewrite Hname.
    vm_compute. done.
  - intros n Hn Hmax. unfold eir_parse_oob. destruct (Z.ltb_spec n EIR_OOB_MIN).
    { exists (-1), e. split; [done|]. split; [|done]. split; [done|]. intros [? _].
      unfold EIR_OOB_MIN in *. lia. }
    unfold EIR_OOB_MIN in *.
    destruct (get_le16_ok data 0) as (l & Hl16 & _); [done|lia..|]. rewrite Hl16.
    cbn [mbind option_bind]. destruct (Z.eqb_spec n l) as [<-|Hne]; cbn [negb].
    2:{ exists (-1), e. split; [done|]. split; [|done]. split; [done|]. intros [_ [= ->]]. done. }
    destruct (ld_total data 2 6) as (addr & -> & _); [done|lia..|]. cbn [mbind option_bind].
    rewrite (u16_small (n - 2)), (u16_small (n - 2 - 6)) by (unfold is_u16; lia).
    destruct (Z.ltb_spec 0 (n - 2 - 6)).
    2:{ eexists 0, _. split; [done|]. split; [done|]. intros []. by split. }
    rewrite (u8_small (n - 2 - 6)) by (unfold is_u8; lia). unfold UINT8_MAX in *.
    destruct (eir_parse_good g_utf8_validate g_strstrip (set_addr e addr) data 8 (n - 2 - 6))
      as (e' & -> & He'); [done|right; lia|unfold UINT8_MAX; lia..|]. cbn [mbind option_bind].
    exists 0, e'. split; [done|]. split; [done|]. intros []. apply He'. by split.
Qed.

(** Flags, a name with a null byte at the end, and a field that claims too much. *)
Lemma eir_parse_safe_witness :
  exists e',
    eir_parse (fun _ => true) (fun s => s) (Eir [] 0 None 0 0 false 0 None None [] 0 0 0 0 [] [])
      (Some ([2; 1; 6; 4; 9; 65; 66; 0; 9; 3; 0x0a; 0x18], 0)) 12 = Some e' /\
    (eir_ok (Eir [] 0 None 0 0 false 0 None None [] 0 0 0 0 [] []) -> eir_ok e').
Proof.
  refine (proj1 (eir_parse_safe (fun _ => true) (fun s => s)
    (Eir [] 0 None 0 0 false 0 None None [] 0 0 0 0 [] [])
    [2; 1; 6; 4; 9; 65; 66; 0; 9; 3; 0x0a; 0x18] 12 _ _ _) _).
  - apply (bool_decide_unpack _). vm_compute. reflexivity.
  - split; discriminate.
  - discriminate.
  - right. discriminate.
Defined.
