(* ===== verification/EirOob.v ===== *)
(** Out-of-band data: what src/eir.c generates is parsed back by it. *)
From Stdlib Require Import ZArith Lia.
From S2P Require Import Prelude Uuid Blocks Eir EirSpec.
From stdpp Require Import base numbers list option.

Local Open Scope Z_scope.

(** ** Lists without duplicates *)

Definition add_new {A} `{EqDecision A} (acc : list A) (x : A) : list A :=
  if decide (x ∈ acc) then acc else acc ++ [x].

(** The elements of a list, each at its first place. *)
Definition firsts {A} `{EqDecision A} (l : list A) : list A := foldl add_new [] l.

Section firsts.
Context {A : Type} `{EqDecision A}.

Lemma add_new_old (acc : list A) x : x ∈ acc -> add_new acc x = acc.
Proof. intros. unfold add_new. by rewrite decide_True. Qed.

Lemma add_new_new (acc : list A) x : x ∉ acc -> add_new acc x = acc ++ [x].
Proof. intros. unfold add_new. by rewrite decide_False. Qed.

Lemma foldl_add_new_prefix (l acc : list A) : exists k, foldl add_new acc l = acc ++ k.
Proof.
  revert acc. induction l as [|x l IH]; intros acc; cbn; [exists []; by rewrite app_nil_r|].
  unfold add_new at 2. case_decide; [apply IH|].
  destruct (IH (acc ++ [x])) as [k ->]. exists (x :: k). by rewrite <- app_assoc.
Qed.

Lemma take_add_new_full k (l acc : list A) :
  length acc = k -> take k (foldl add_new acc l) = acc.
Proof. intros <-. destruct (foldl_add_new_prefix l acc) as [k ->]. apply take_app_length. Qed.
End firsts.

(** The 16-bit service classes that are offered, and the 128-bit UUIDs. *)
Definition offered16 (u : uuid_t) : option Z :=
  match u with
  | SDP_UUID16 v => if (v <? 0x1100) || (v =? PNP_INFO_SVCLASS_ID) then None else Some v
  | _ => None
  end.

Definition offered128 (u : uuid_t) : option bytes :=
  match u with SDP_UUID128 d => Some d | _ => None end.

Lemma existsb_elem (v : Z) l : existsb (Z.eqb v) l = bool_decide (v ∈ l).
Proof.
  apply eq_true_iff_eq. rewrite existsb_exists, bool_decide_eq_true. split.
  - intros (x & Hx & ->%Z.eqb_eq). by apply list_elem_of_In.
  - intros Hv. exists v. by rewrite Z.eqb_refl, <- list_elem_of_In.
Qed.

(** At most [(238 - n) / 2] UUIDs of two bytes fit behind [n] bytes. *)
Lemma group_uuid16_spec l acc n k :
  0 <= n <= 238 -> k = (238 - n) / 2 -> zlen acc <= k ->
  exists more,
    group_uuid16 l acc (n + 2 * zlen acc)
      = Some (take (Z.to_nat k) (foldl add_new acc (omap offered16 l)),
              n + 2 * zlen (take (Z.to_nat k) (foldl add_new acc (omap offered16 l))), more).
Proof.
  intros Hn Hk. revert acc. induction l as [|u l IH]; intros acc Hacc.
  { exists false. cbn. rewrite take_ge by (unfold zlen in *; lia). done. }
  destruct u as [|v|v|d]; try by apply IH.
  cbn [group_uuid16 omap list_omap offered16].
  destruct (Z.ltb_spec v 0x1100); [by apply IH|]. cbn [orb].
  destruct (Z.eqb_spec v PNP_INFO_SVCLASS_ID); [by apply IH|].
  fold (omap offered16 l).
  unfold HCI_MAX_EIR_LENGTH.
  pose proof (Z.mul_div_le (238 - n) 2 ltac:(lia)) as Hd1.
  pose proof (Z.mul_succ_div_gt (238 - n) 2 ltac:(lia)) as Hd2.
  destruct (Z.ltb_spec 240 (n + 2 * zlen acc + 2 + 2)).
  { exists true. rewrite take_add_new_full by (unfold zlen in *; lia). done. }
  cbn [foldl]. rewrite existsb_elem. case_bool_decide.
  { rewrite add_new_old by done. by apply IH. }
  rewrite add_new_new by done. change (240 / 2) with 120.
  rewrite (proj2 (Z.leb_gt 120 (zlen acc))) by lia.
  rewrite u16_small by (unfold is_u16; pose proof (zlen_nonneg acc); lia).
  assert (zlen (acc ++ [v]) = zlen acc + 1) as Hz by len_lia.
  destruct (IH (acc ++ [v])) as [more Hm]; [lia|]. exists more. rewrite <- Hm. f_equal. lia.
Qed.

(** ** The 128-bit UUIDs, written in place *)

(** The bytes of [b] behind a written part count as written. *)
Lemma over_skip pre b n :
  over pre b = over (pre ++ take n (drop (length pre) b)) b.
Proof.
  unfold over. rewrite <- app_assoc. f_equal. rewrite length_app, length_take, length_drop.
  rewrite <- (take_drop n (drop (length pre) b)) at 1. f_equal. rewrite drop_drop.
  destruct (decide (n <= length b - length pre)%nat).
  - f_equal. lia.
  - rewrite !drop_ge; [done|lia..].
Qed.

Lemma existsb_swapped (d : bytes) l :
  existsb (fun x => bool_decide (x = rev d)) (swap <$> l) = bool_decide (d ∈ l).
Proof.
  apply eq_true_iff_eq. rewrite existsb_exists, bool_decide_eq_true. split.
  - intros (x & Hx & ->%bool_decide_eq_true). apply list_elem_of_In, list_elem_of_fmap in Hx.
    destruct Hx as (y & Hy & Hx). apply (f_equal swap) in Hy. rewrite !rev_involutive in Hy.
    by subst.
  - intros Hd. exists (rev d). rewrite bool_decide_eq_true. split; [|done].
    apply list_elem_of_In, list_elem_of_fmap. by exists d.
Qed.

(** [pre] is what was written up to the data of the field; [room] UUIDs fit. *)
Lemma generate_uuid128_loop_spec l acc pre b n k :
  Forall uuid_t_ok l -> 0 <= n <= 240 -> k = Z.max 0 ((238 - n) / 16) -> zlen acc <= k ->
  2 <= zlen pre -> zlen pre + 16 * k <= zlen b ->
  Forall (fun d => length d = 16%nat) acc ->
  exists more,
    let r := take (Z.to_nat k) (foldl add_new acc (omap offered128 l)) in
    generate_uuid128_loop l (over (pre ++ concat (swap <$> acc)) b) (zlen pre - 2)
        (n + 16 * zlen acc) (swap <$> acc)
      = Some (over (pre ++ concat (swap <$> r)) b, n + 16 * zlen r, swap <$> r, more).
Proof.
  intros Hl Hn Hk Hacc Hpre Hb. revert acc Hacc. induction Hl as [|u l Hu Hl IH]; intros acc Hacc Hok.
  { exists false. cbn. rewrite take_ge by (unfold zlen in *; lia). done. }
  destruct u as [|v|v|d]; try by apply IH.
  cbn [generate_uuid128_loop omap list_omap offered128]. fold (omap offered128 l).
  unfold HCI_MAX_EIR_LENGTH, SIZEOF_UUID128.
  pose proof (Z.mul_div_le (238 - n) 16 ltac:(lia)) as Hd1.
  pose proof (Z.mul_succ_div_gt (238 - n) 16 ltac:(lia)) as Hd2.
  pose proof (zlen_nonneg acc) as Hacc0.
  assert (zlen (concat (swap <$> acc)) = 16 * zlen acc) as Hconc.
  { apply zlen_concat_map. eapply Forall_impl; [|exact Hok]. intros x Hx. cbn in Hx. len_lia. }
  destruct (Z.ltb_spec 240 (n + 16 * zlen acc + 2 + 16)).
  { exists true. cbn zeta. rewrite take_add_new_full by (unfold zlen in *; lia). done. }
  cbn [foldl]. rewrite existsb_swapped. case_bool_decide as Hin.
  { rewrite add_new_old by done. by apply IH. }
  rewrite add_new_new by done. cbn [uuid_t_ok] in Hu.
  assert (zlen (swap <$> acc) = zlen acc) as Hz by (unfold zlen; by rewrite length_fmap).
  rewrite Hz. rewrite st_over by (rewrite zlen_app, Hconc; len_lia || lia).
  cbn [mbind option_bind].
  rewrite u16_small by (unfold is_u16; lia).
  destruct (IH (acc ++ [d])) as [more Hm].
  { rewrite zlen_app. change (zlen [d]) with 1. lia. }
  { apply Forall_app. split; [done|]. by apply Forall_singleton. }
  exists more. cbn zeta in *. rewrite <- Hm. rewrite fmap_app. cbn [fmap list_fmap].
  rewrite concat_app. cbn [concat]. rewrite app_nil_r, <- app_assoc, zlen_app.
  change (zlen [d]) with 1. f_equal. lia.
Qed.

(** ** The fields of the data *)

(** The field of the 128-bit UUIDs: absent when there are none and none was left out. *)
Definition uuid128_pieces (l : list bytes) (more : bool) : list piece :=
  if (0 <? zlen l) || more
  then [PUuid128 (if more then EIR_UUID128_SOME else EIR_UUID128_ALL) l] else [].

Lemma Forall_foldl_add_new {A} `{EqDecision A} (P : A -> Prop) (l acc : list A) :
  Forall P acc -> Forall P l -> Forall P (foldl add_new acc l).
Proof.
  intros Hacc Hl. revert acc Hacc. induction Hl as [|x l Hx Hl IH]; intros acc Hacc; [done|].
  cbn [foldl]. apply IH. unfold add_new. case_decide; [done|].
  apply Forall_app. split; [done|]. by apply Forall_singleton.
Qed.

Lemma offered128_length l k :
  Forall uuid_t_ok l ->
  Forall (fun d => length d = 16%nat) (take k (firsts (omap offered128 l))).
Proof.
  intros Hl. apply Forall_take, Forall_foldl_add_new; [done|].
  induction Hl as [|u l Hu Hl IH]; [done|]. destruct u; [done|exact IH|exact IH|by apply Forall_cons_2].
Qed.

Lemma offered16_u16 l k :
  Forall uuid_t_ok l -> Forall is_u16 (take k (firsts (omap offered16 l))).
Proof.
  intros Hl. apply Forall_take, Forall_foldl_add_new; [done|].
  induction Hl as [|u l Hu Hl IH]; [done|]. destruct u as [|v|v|d]; [done| |exact IH|exact IH].
  cbn [omap list_omap offered16]. destruct (_ || _); [exact IH|by apply Forall_cons_2].
Qed.

Lemma generate_uuid128_spec l pre b n k :
  Forall uuid_t_ok l -> 0 <= n <= 238 -> k = (238 - n) / 16 ->
  zlen pre + 2 + 16 * k <= zlen b ->
  exists more,
    let W := fields_wire (piece_field <$> uuid128_pieces
               (take (Z.to_nat k) (firsts (omap offered128 l))) more) in
    eir_generate_uuid128 l (over pre b) (zlen pre) n = Some (over (pre ++ W) b, n + zlen W) /\
    zlen W <= 2 + 16 * k.
Proof.
  intros Hl Hn Hk Hb.
  assert (0 <= k) as Hk0 by (subst k; apply Z.div_pos; lia).
  pose proof (Z.mul_div_le (238 - n) 16 ltac:(lia)) as Hd1. rewrite <- Hk in Hd1.
  set (hd := take 2 (drop (length pre) b)).
  assert (zlen hd = 2) as Hhd.
  { unfold hd. apply (zlen_take _ 2). rewrite <- (Nat2Z.id (length pre)), zlen_drop; unfold zlen in *; lia. }
  destruct (generate_uuid128_loop_spec l [] (pre ++ hd) b n k Hl) as [more Hloop];
    [lia|lia|done|rewrite zlen_app; pose proof (zlen_nonneg pre); lia|rewrite zlen_app; lia|done|].
  cbn zeta in Hloop. cbn [fmap list_fmap concat] in Hloop. rewrite app_nil_r in Hloop.
  change (zlen []) with 0 in Hloop. rewrite zlen_app, Hhd in Hloop.
  replace (zlen pre + 2 - 2) with (zlen pre) in Hloop by lia.
  replace (n + 16 * 0) with n in Hloop by lia.
  exists more. fold (firsts (omap offered128 l)) in Hloop.
  set (r := take (Z.to_nat k) (firsts (omap offered128 l))) in *.
  assert (zlen r <= k) as Hr by (unfold zlen, r; rewrite length_take; lia).
  cbn zeta. unfold eir_generate_uuid128. rewrite (over_skip pre b 2). fold hd.
  rewrite Hloop. cbn [mbind option_bind].
  assert (zlen (swap <$> r) = zlen r) as -> by (unfold zlen; by rewrite length_fmap).
  unfold uuid128_pieces. destruct ((0 <? zlen r) || more) eqn:Hfield.
  2:{ apply orb_false_iff in Hfield as [Hr0 _]. apply Z.ltb_ge in Hr0.
      destruct r as [|x r]; [|rewrite zlen_cons in Hr0; pose proof (zlen_nonneg r); lia].
      cbn [fmap list_fmap concat fields_wire]. rewrite !app_nil_r. change (zlen []) with 0.
      split; [|lia]. rewrite Z.add_0_r. unfold hd. by rewrite <- over_skip. }
  pose proof (offered128_length l (Z.to_nat k) Hl) as Hr16. fold r in Hr16.
  assert (zlen (concat (swap <$> r)) = 16 * zlen r) as Hconc.
  { apply zlen_concat_map. eapply Forall_impl; [|exact Hr16]. intros x Hx. cbn in Hx. len_lia. }
  pose proof (zlen_nonneg r).
  set (t := if more then EIR_UUID128_SOME else EIR_UUID128_ALL).
  assert (fields_wire (piece_field <$> [PUuid128 t r])
          = [16 * zlen r + 1; t] ++ concat (swap <$> r)) as HW.
  { unfold fields_wire. cbn [fmap list_fmap piece_field concat]. rewrite app_nil_r.
    unfold field_wire. cbn [fst snd]. by rewrite Hconc. }
  rewrite HW. unfold SIZEOF_UUID128, put_u8.
  rewrite u8_small by (unfold is_u8; lia).
  unfold over. clearbody hd. destruct hd as [|h0 [|h1 [|]]]; try (unfold zlen in Hhd; cbn in Hhd; lia).
  rewrite <- !app_assoc. change ([h0; h1] ++ ?x) with ([h0] ++ [h1] ++ x).
  rewrite st_mid by done. cbn [mbind option_bind].
  rewrite (app_assoc pre), st_mid by (rewrite ?zlen_app; done || len_lia). cbn [mbind option_bind].
  rewrite zlen_app, Hconc. rewrite u16_small by (unfold is_u16; lia).
  change (zlen [16 * zlen r + 1; t]) with 2. split; [|lia].
  rewrite (Z.mul_comm (zlen r)).
  replace (n + 16 * zlen r + 2) with (n + (2 + 16 * zlen r)) by lia.
  by rewrite <- !app_assoc, !length_app.
Qed.

(** ** The other fields *)

Definition class_pieces (cod : Z) : list piece :=
  if 0 <? cod then [PClass (cod mod 2 ^ 24)] else [].
Definition hash_pieces (d : option bytes) : list piece := PHash <$> option_list d.
Definition randomizer_pieces (d : option bytes) : list piece := PRandomizer <$> option_list d.
Definition name_pieces (name : bytes) : list piece :=
  if 0 <? zlen name
  then [PName (if 48 <? zlen name then EIR_NAME_SHORT else EIR_NAME_COMPLETE) (take 48 name)]
  else [].
Definition did_pieces (vendor product version source : Z) : list piece :=
  if negb (vendor =? 0) then [PDid source vendor product version] else [].
Definition uuid16_pieces (l : list Z) (more : bool) : list piece :=
  if 0 <? zlen l then [PUuid16 (if more then EIR_UUID16_SOME else EIR_UUID16_ALL) l] else [].

(** The state after [pre] was written, the first eight bytes being the header. *)
Definition at_end (b pre : bytes) : oob := (over pre b, zlen pre, zlen pre - 8).

Definition wire_of (l : list piece) : bytes := fields_wire (piece_field <$> l).

Lemma wire_of_one p : wire_of [p] = field_wire (piece_field p).
Proof. unfold wire_of, fields_wire. cbn [fmap list_fmap concat]. apply app_nil_r. Qed.

Lemma put_field_spec pre b t d :
  zlen d <= 254 -> zlen pre + 2 + zlen d <= zlen b ->
  put_field (over pre b) (zlen pre) t d
    = Some (over (pre ++ field_wire (t, d)) b, zlen (pre ++ field_wire (t, d))).
Proof.
  intros Hd Hb. pose proof (zlen_nonneg d). unfold put_field, field_wire. cbn [fst snd].
  rewrite u8_small by (unfold is_u8; lia).
  rewrite st_over by (rewrite ?zlen_app; len_lia). cbn [mbind option_bind].
  rewrite !zlen_app. do 2 f_equal. 
Qed.

(** A stage that writes one field. *)
Lemma put_field_stage pre b p t d n :
  piece_field p = (t, d) -> n = zlen d + 2 ->
  8 <= zlen pre -> zlen pre + 2 + zlen d <= zlen b -> zlen d <= 254 -> zlen pre < 1000 ->
  ('(data, ptr) ← put_field (over pre b) (zlen pre) t d;
   Some (data, ptr, u16 (zlen pre - 8 + n))) = Some (at_end b (pre ++ wire_of [p])).
Proof.
  intros Hp -> Hpre Hb Hd Hmax. rewrite put_field_spec by lia. cbn [mbind option_bind].
  unfold at_end. pose proof (zlen_nonneg d).
  rewrite wire_of_one, Hp, !zlen_app, zlen_field_wire. cbn [snd].
  rewrite u16_small by (unfold is_u16; lia). do 2 f_equal. lia.
Qed.

Lemma zlen_wire_of_one p : zlen (wire_of [p]) = 2 + zlen (piece_field p).2.
Proof. by rewrite wire_of_one, zlen_field_wire. Qed.

(** A stage that writes nothing. *)
Lemma at_end_nil b pre : Some (at_end b pre) = Some (at_end b (pre ++ wire_of [])).
Proof. by rewrite app_nil_r. Qed.

Section stages.
Variables (b pre : bytes).
Hypotheses (Hpre : 8 <= zlen pre < 1000).

Abbreviation fits l := (zlen pre + zlen (wire_of l) <= zlen b).
Abbreviation stage f l := (f (at_end b pre) = Some (at_end b (pre ++ wire_of l))).

Lemma class_bytes cod :
  [u8 cod; u8 (Z.shiftr cod 8); u8 (Z.shiftr cod 16)] = le_bytes 3 (cod mod 2 ^ 24).
Proof.
  rewrite !Z.shiftr_div_pow2 by lia. cbn [le_bytes]. unfold u8.
  replace (cod mod 2 ^ 8) with (cod mod 2 ^ 24 mod 256) by words_lia.
  replace ((cod / 2 ^ 8) mod 2 ^ 8) with (cod mod 2 ^ 24 / 256 mod 256) by words_lia.
  replace ((cod / 2 ^ 16) mod 2 ^ 8) with (cod mod 2 ^ 24 / 256 / 256 mod 256) by words_lia.
  done.
Qed.

Lemma put_class_spec cod : fits (class_pieces cod) -> stage (put_class cod) (class_pieces cod).
Proof using All.
  unfold class_pieces, put_class, at_end. destruct (0 <? cod); intros Hb; [|apply at_end_nil].
  rewrite class_bytes. rewrite zlen_wire_of_one in Hb.
  apply put_field_stage; done || lia || (cbn [piece_field snd] in Hb; len_lia).
Qed.

Lemma put_key_spec type (piece_of : bytes -> piece) key :
  (forall d, piece_field (piece_of d) = (type, d)) ->
  (forall d, key = Some d -> length d = 16%nat) ->
  fits (piece_of <$> option_list key) ->
  stage (put_key type key) (piece_of <$> option_list key).
Proof using All.
  intros Hp Hkey. unfold put_key, at_end. destruct key as [d|]; intros Hb; [|apply at_end_nil].
  specialize (Hkey d eq_refl). change (piece_of <$> option_list (Some d)) with [piece_of d] in *.
  rewrite zlen_wire_of_one, Hp in Hb. cbn [snd] in Hb. rewrite ld_all by len_lia.
  cbn [mbind option_bind]. apply put_field_stage; done || len_lia.
Qed.

Lemma put_name_spec name : fits (name_pieces name) -> stage (put_name name) (name_pieces name).
Proof using All.
  unfold name_pieces, put_name, at_end. destruct (Z.ltb_spec 0 (zlen name)); intros Hb;
    [|apply at_end_nil].
  assert (ld name 0 (if 48 <? zlen name then 48 else zlen name) = Some (take 48 name)) as ->.
  { destruct (Z.ltb_spec 48 (zlen name)).
    - rewrite ld_is_Some by lia. by rewrite drop_0.
    - rewrite take_ge by (unfold zlen in *; lia). by apply ld_all. }
  assert ((if 48 <? zlen name then 48 else zlen name) = zlen (take 48 name)) as Hlen.
  { unfold zlen. rewrite length_take. destruct (Z.ltb_spec 48 (Z.of_nat (length name))); lia. }
  rewrite Hlen. cbn [mbind option_bind]. rewrite zlen_wire_of_one in Hb. cbn [piece_field snd] in Hb.
  apply put_field_stage; try done || lia. unfold zlen. rewrite length_take. lia.
Qed.

Lemma put_did_spec vendor product version source :
  fits (did_pieces vendor product version source) ->
  stage (put_did vendor product version source) (did_pieces vendor product version source).
Proof using All.
  unfold did_pieces, put_did, at_end. destruct (negb (vendor =? 0)); intros Hb;
    [|apply at_end_nil].
  rewrite zlen_wire_of_one in Hb. cbn [piece_field snd] in Hb.
  apply put_field_stage; done || len_lia.
Qed.

Lemma put_uuid16_spec uuids k :
  Forall uuid_t_ok uuids -> zlen pre - 8 <= 238 -> k = (238 - (zlen pre - 8)) / 2 ->
  zlen pre + 2 + 2 * k <= zlen b ->
  exists more,
    let r := take (Z.to_nat k) (firsts (omap offered16 uuids)) in
    stage (put_uuid16 uuids) (uuid16_pieces r more) /\
    zlen (wire_of (uuid16_pieces r more)) = (if 0 <? zlen r then 2 + 2 * zlen r else 0).
Proof using All.
  intros Hl Hn Hk Hb. unfold put_uuid16, at_end.
  destruct (group_uuid16_spec uuids [] (zlen pre - 8) k) as [more Hgroup]; [lia|done|subst k; apply Z.div_pos; lia|].
  change (zlen []) with 0 in Hgroup. rewrite Z.mul_0_r, Z.add_0_r in Hgroup. rewrite Hgroup.
  fold (firsts (omap offered16 uuids)). cbn [mbind option_bind]. exists more. cbn zeta.
  set (r := take _ _). unfold uuid16_pieces.
  pose proof (Z.mul_div_le (238 - (zlen pre - 8)) 2 ltac:(lia)) as Hd1. rewrite <- Hk in Hd1.
  assert (0 <= k) by (subst k; apply Z.div_pos; lia).
  assert (zlen r <= k) as Hr by (unfold zlen, r; rewrite length_take; lia).
  assert (zlen (concat (le_bytes 2 <$> r)) = 2 * zlen r) as Hconc.
  { apply zlen_concat_map, Forall_forall. intros; len_lia. }
  pose proof (zlen_nonneg r). destruct (Z.ltb_spec 0 (zlen r)).
  - rewrite zlen_wire_of_one. cbn [piece_field snd]. split; [|lia].
    rewrite put_field_spec by lia. cbn [mbind option_bind].
    unfold at_end. rewrite wire_of_one. cbn [piece_field].
    rewrite !zlen_app, zlen_field_wire. cbn [snd]. rewrite u16_small by (unfold is_u16; lia).
    do 2 f_equal. lia.
  - replace (zlen r) with 0 by lia. cbn [wire_of]. change (wire_of []) with (@nil Z).
    rewrite app_nil_r. split; [|done]. do 2 f_equal. lia.
Qed.
End stages.

Lemma wire_of_app l k : wire_of (l ++ k) = wire_of l ++ wire_of k.
Proof. unfold wire_of. by rewrite fmap_app, fields_wire_app. Qed.

(** ** The whole data *)

Section create.
Variables (addr name : bytes) (cod : Z) (hash randomizer : option bytes)
  (did_vendor did_product did_version did_source : Z) (uuids : list uuid_t).
Hypotheses (Haddr : length addr = 6%nat)
  (Hhash : forall d, hash = Some d -> length d = 16%nat)
  (Hrand : forall d, randomizer = Some d -> length d = 16%nat)
  (Huuids : Forall uuid_t_ok uuids).

Definition fixed_pieces : list piece :=
  class_pieces cod ++ hash_pieces hash ++ randomizer_pieces randomizer ++ name_pieces name ++
  did_pieces did_vendor did_product did_version did_source.

(** The UUIDs that fit: two bytes each up to byte 238, then sixteen bytes each. *)
Definition uuids16 : list Z :=
  take (Z.to_nat ((238 - zlen (wire_of fixed_pieces)) / 2)) (firsts (omap offered16 uuids)).
Definition room128 : Z :=
  Z.max 0 ((238 - (zlen (wire_of fixed_pieces) +
                   (if 0 <? zlen uuids16 then 2 + 2 * zlen uuids16 else 0))) / 16).
Definition uuids128 : list bytes := take (Z.to_nat room128) (firsts (omap offered128 uuids)).

Definition oob_pieces (more16 more128 : bool) : list piece :=
  fixed_pieces ++ uuid16_pieces uuids16 more16 ++ uuid128_pieces uuids128 more128.

Lemma piece_lengths :
  zlen (wire_of (class_pieces cod)) <= 5 /\
  zlen (wire_of (hash_pieces hash)) <= 18 /\
  zlen (wire_of (randomizer_pieces randomizer)) <= 18 /\
  zlen (wire_of (name_pieces name)) <= 50 /\
  zlen (wire_of (did_pieces did_vendor did_product did_version did_source)) <= 10.
Proof using All.
  split_and!.
  - unfold class_pieces. destruct (0 <? cod); [by rewrite zlen_wire_of_one|done].
  - unfold hash_pieces. destruct hash as [d|]; [|done].
    change (PHash <$> option_list (Some d)) with [PHash d].
    rewrite zlen_wire_of_one. cbn [piece_field snd]. specialize (Hhash d eq_refl). unfold zlen. lia.
  - unfold randomizer_pieces. destruct randomizer as [d|]; [|done].
    change (PRandomizer <$> option_list (Some d)) with [PRandomizer d].
    rewrite zlen_wire_of_one. cbn [piece_field snd]. specialize (Hrand d eq_refl). unfold zlen. lia.
  - unfold name_pieces. destruct (0 <? zlen name); [|done].
    rewrite zlen_wire_of_one. cbn [piece_field snd]. unfold zlen. rewrite length_take. lia.
  - unfold did_pieces. destruct (negb (did_vendor =? 0)); [by rewrite zlen_wire_of_one|done].
Qed.

Lemma fixed_length : 0 <= zlen (wire_of fixed_pieces) <= 101.
Proof using All.
  pose proof piece_lengths. pose proof (zlen_nonneg (wire_of fixed_pieces)).
  unfold fixed_pieces in *. rewrite !wire_of_app, !zlen_app in *. lia.
Qed.

(** The fields that do not depend on the services. *)
Lemma put_fixed {A} pre b (f : oob -> ub A) :
  8 <= zlen pre < 100 -> zlen pre + 240 <= zlen b ->
  (s ← put_class cod (at_end b pre);
   s ← put_key EIR_SSP_HASH hash s;
   s ← put_key EIR_SSP_RANDOMIZER randomizer s;
   s ← put_name name s;
   s ← put_did did_vendor did_product did_version did_source s;
   f s)
  = f (at_end b (pre ++ wire_of fixed_pieces)).
Proof using All.
  intros Hpre Hb. destruct piece_lengths as (H1 & H2 & H3 & H4 & H5).
  pose proof (zlen_nonneg (wire_of (class_pieces cod))).
  pose proof (zlen_nonneg (wire_of (hash_pieces hash))).
  pose proof (zlen_nonneg (wire_of (randomizer_pieces randomizer))).
  pose proof (zlen_nonneg (wire_of (name_pieces name))).
  unfold fixed_pieces. rewrite !wire_of_app.
  rewrite put_class_spec by lia. cbn [mbind option_bind].
  unfold hash_pieces, randomizer_pieces in *.
  rewrite put_key_spec with (type := EIR_SSP_HASH) (piece_of := PHash) by (rewrite ?zlen_app; done || lia).
  cbn [mbind option_bind].
  rewrite put_key_spec with (type := EIR_SSP_RANDOMIZER) (piece_of := PRandomizer) by (rewrite ?zlen_app; done || lia).
  cbn [mbind option_bind]. rewrite put_name_spec by (rewrite ?zlen_app; lia).
  cbn [mbind option_bind]. rewrite put_did_spec by (rewrite ?zlen_app; lia).
  by rewrite <- !app_assoc.
Qed.

Lemma create_spec data :
  248 <= zlen data ->
  exists more16 more128,
    let W := wire_of (oob_pieces more16 more128) in
    eir_create_oob addr name cod hash randomizer did_vendor did_product did_version did_source
      uuids data = Some (8 + zlen W, over (le_bytes 2 (8 + zlen W) ++ addr ++ W) data) /\
    zlen W <= 240.
Proof using All.
  intros Hdata. pose proof fixed_length as Hfix.
  destruct data as [|x0 [|x1 r]]; [unfold zlen in Hdata; cbn in Hdata; lia..|].
  set (data := x0 :: x1 :: r) in *. set (pre := [x0; x1] ++ addr).
  assert (zlen pre = 8) as Hpre by (unfold pre; rewrite zlen_app; unfold zlen; rewrite Haddr; done).
  unfold eir_create_oob. rewrite ld_all by (unfold zlen; lia). cbn [mbind option_bind].
  change (st data 2 addr) with (st (over [x0; x1] data) 2 addr).
  rewrite st_over by (unfold zlen in *; cbn [length]; lia || done). fold pre. cbn [mbind option_bind].
  assert ((over pre data, 8, 0) = at_end data pre) as -> by (unfold at_end; by rewrite Hpre).
  rewrite put_fixed by lia.
  pose proof (Z.mul_div_le (238 - zlen (wire_of fixed_pieces)) 2 ltac:(lia)) as Hk16.
  destruct (put_uuid16_spec data (pre ++ wire_of fixed_pieces) ltac:(rewrite zlen_app; lia)
    uuids ((238 - zlen (wire_of fixed_pieces)) / 2) Huuids) as (more16 & Hput16 & Hlen16).
  { rewrite zlen_app. lia. }
  { rewrite zlen_app. f_equal. lia. }
  { rewrite zlen_app. lia. }
  fold uuids16 in Hput16, Hlen16. rewrite Hput16. cbn [mbind option_bind].
  set (P16 := uuid16_pieces uuids16 more16) in *.
  set (n1 := zlen (wire_of fixed_pieces) + (if 0 <? zlen uuids16 then 2 + 2 * zlen uuids16 else 0)).
  assert (zlen uuids16 <= (238 - zlen (wire_of fixed_pieces)) / 2) as H16.
  { unfold uuids16, zlen. rewrite length_take.
    pose proof (Z.div_pos (238 - zlen (wire_of fixed_pieces)) 2 ltac:(lia) ltac:(lia)).
    unfold zlen in *. lia. }
  assert (0 <= n1 <= 240) as Hn1.
  { pose proof (zlen_nonneg uuids16). unfold n1. destruct (0 <? zlen uuids16); lia. }
  set (pre1 := (pre ++ wire_of fixed_pieces) ++ wire_of P16).
  assert (zlen pre1 = 8 + n1) as Hpre1 by (unfold pre1; rewrite !zlen_app; lia).
  unfold at_end. replace (zlen pre1 - 8) with n1 by lia. unfold HCI_MAX_EIR_LENGTH.
  assert (exists more128,
    (if n1 <=? 240 - 2 then eir_generate_uuid128 uuids (over pre1 data) (zlen pre1) n1
     else Some (over pre1 data, n1))
    = Some (over (pre1 ++ wire_of (uuid128_pieces uuids128 more128)) data,
            n1 + zlen (wire_of (uuid128_pieces uuids128 more128))) /\
    n1 + zlen (wire_of (uuid128_pieces uuids128 more128)) <= 240) as (more128 & -> & Hlen128).
  { unfold uuids128, room128. fold n1. destruct (Z.leb_spec n1 (240 - 2)).
    - pose proof (Z.mul_div_le (238 - n1) 16 ltac:(lia)).
      pose proof (Z.div_pos (238 - n1) 16 ltac:(lia) ltac:(lia)).
      destruct (generate_uuid128_spec uuids pre1 data n1 ((238 - n1) / 16)) as (m & Hg & Hw);
        [done|lia|done|lia|].
      exists m. rewrite Z.max_r by lia. split; [exact Hg|].
      fold (wire_of (uuid128_pieces (take (Z.to_nat ((238 - n1) / 16))
        (firsts (omap offered128 uuids))) m)) in Hw. lia.
    - exists false. rewrite Z.max_l.
      + change (wire_of (uuid128_pieces (take (Z.to_nat 0) _) false)) with (@nil Z).
        rewrite app_nil_r. change (zlen []) with 0. split; [do 2 f_equal|]; lia.
      + apply Z.lt_succ_r, Z.div_lt_upper_bound; lia. }
  cbn [mbind option_bind]. exists more16, more128. cbn zeta.
  assert (zlen (wire_of (oob_pieces more16 more128))
          = n1 + zlen (wire_of (uuid128_pieces uuids128 more128))) as HW.
  { unfold oob_pieces. rewrite !wire_of_app, !zlen_app. fold P16. lia. }
  rewrite <- HW. pose proof (zlen_nonneg (wire_of (oob_pieces more16 more128))).
  rewrite u16_small by (unfold is_u16; lia). split; [|lia]. unfold put_le16, over.
  unfold pre1, pre. rewrite <- !app_assoc.
  rewrite st_head by done. cbn [mbind option_bind].
  unfold oob_pieces. rewrite !wire_of_app. fold P16.
  rewrite <- !app_assoc, !length_app. done.
Qed.

(** What parsing the generated data does to [e]; [shown] is the name as the parser shows it. *)
Definition oob_result (shown : bytes) (e : eir_data) : eir_data :=
  Eir (services e ++ (uuid_text <$> (SDP_UUID16 <$> uuids16) ++ (SDP_UUID128 <$> uuids128))) 0
    (if 0 <? zlen name then Some shown else Eir.name e)
    (if 0 <? cod then cod mod 2 ^ 24 else class e) (appearance e)
    (if 0 <? zlen name then negb (48 <? zlen name) else name_complete e) 127
    (match hash with Some d => Some d | None => Eir.hash e end)
    (match randomizer with Some d => Some d | None => Eir.randomizer e end) addr
    (if did_vendor =? 0 then Eir.did_vendor e else did_vendor)
    (if did_vendor =? 0 then Eir.did_product e else did_product)
    (if did_vendor =? 0 then Eir.did_version e else did_version)
    (if did_vendor =? 0 then Eir.did_source e else did_source) (msd_list e) (sd_list e).

Lemma oob_effect g_utf8_validate g_strstrip e more16 more128 :
  foldl (piece_shown g_utf8_validate g_strstrip) (set_tx_power (set_flags (set_addr e addr) 0) 127)
    (oob_pieces more16 more128)
  = oob_result (shown_name g_utf8_validate g_strstrip (take 48 name)) e.
Proof using All.
  unfold oob_pieces, fixed_pieces, class_pieces, hash_pieces, randomizer_pieces, name_pieces,
    did_pieces, uuid16_pieces, uuid128_pieces, oob_result.
  assert (forall l (m : bool) e, foldl (piece_shown g_utf8_validate g_strstrip) e
    (if 0 <? zlen l then [PUuid16 (if m then EIR_UUID16_SOME else EIR_UUID16_ALL) l] else [])
    = add_services e (SDP_UUID16 <$> l)) as H16.
  { intros l m e'. destruct (Z.ltb_spec 0 (zlen l)); [done|].
    destruct l as [|x l]; [by rewrite add_services_nil|].
    rewrite zlen_cons in *. pose proof (zlen_nonneg l). lia. }
  assert (forall l (m : bool) e, foldl (piece_shown g_utf8_validate g_strstrip) e
    (if (0 <? zlen l) || m
     then [PUuid128 (if m then EIR_UUID128_SOME else EIR_UUID128_ALL) l] else [])
    = add_services e (SDP_UUID128 <$> l)) as H128.
  { intros l m e'. destruct (Z.ltb_spec 0 (zlen l)); [done|]. destruct m; [done|].
    destruct l as [|x l]; [by rewrite add_services_nil|].
    rewrite zlen_cons in *. pose proof (zlen_nonneg l). lia. }
  rewrite !foldl_app, H16, H128, add_services_app. unfold add_services.
  destruct (0 <? cod), hash, randomizer, (0 <? zlen name), (did_vendor =? 0), (48 <? zlen name);
    reflexivity.
Qed.

Lemma oob_pieces_ok g_utf8_validate more16 more128 :
  0 <= cod -> Forall (fun c => c <> 0) name ->
  is_u16 did_vendor -> is_u16 did_product -> is_u16 did_version -> is_u16 did_source ->
  Forall (piece_sent g_utf8_validate) (oob_pieces more16 more128).
Proof using All.
  intros Hcod Hname Hv Hp Hn Hs. unfold oob_pieces, fixed_pieces. rewrite !Forall_app.
  split_and!.
  - unfold class_pieces. destruct (0 <? cod); [|done]. apply Forall_singleton. cbn.
    apply Z.mod_pos_bound. lia.
  - unfold hash_pieces. destruct hash as [d|]; [|done]. apply Forall_singleton. by apply Hhash.
  - unfold randomizer_pieces. destruct randomizer as [d|]; [|done].
    apply Forall_singleton. by apply Hrand.
  - unfold name_pieces. destruct (Z.ltb_spec 0 (zlen name)) as [Hlen|]; [|done].
    apply Forall_singleton. split; [destruct (48 <? zlen name); apply list_elem_of_In; cbn; auto|].
    split; [by apply Forall_take|]. unfold zlen. rewrite length_take. unfold HCI_MAX_NAME_LENGTH. lia.
  - unfold did_pieces. destruct (negb (did_vendor =? 0)); [|done]. by apply Forall_singleton.
  - unfold uuid16_pieces. destruct (0 <? zlen uuids16); [|done]. apply Forall_singleton.
    split; [destruct more16; apply list_elem_of_In; cbn; auto|]. by apply offered16_u16.
  - unfold uuid128_pieces. destruct ((0 <? zlen uuids128) || more128); [|done].
    apply Forall_singleton.
    split; [destruct more128; apply list_elem_of_In; cbn; auto|]. by apply offered128_length.
Qed.
End create.


