(* ===== verification/Ad.v ===== *)
(** Advertising data: src/shared/ad.c.  The queues of [struct bt_ad] are the lists they hold
    (QueueSpec.v); whether malloc and realloc succeed is an argument.  Buffers are blocks of
    exactly the bytes allocated. *)
From Stdlib Require Import ZArith Lia.
From S2P Require Import Prelude Libc Uuid Eir.
From stdpp Require Import base numbers list option.

Local Open Scope Z_scope.

Definition MAX_ADV_DATA_LEN : Z := 31.

Record bt_ad_manufacturer_data := Manuf {
  manufacturer_id : Z;
  manuf_data : bytes;
  manuf_len : Z;
}.

Record bt_ad_service_data := SvcData {
  svc_uuid : Uuid.bt_uuid;
  svc_data : bytes;
  svc_len : Z;
}.

Record bt_ad := Ad {
  ref_count : Z;
  ad_name : option bytes;
  ad_appearance : Z;
  service_uuids : list Uuid.bt_uuid;
  manufacturer_data : list bt_ad_manufacturer_data;
  solicit_uuids : list Uuid.bt_uuid;
  service_data : list bt_ad_service_data;
}.

Definition with_ref_count (a : bt_ad) (x : Z) : bt_ad :=
  Ad x (ad_name a) (ad_appearance a) (service_uuids a) (manufacturer_data a) (solicit_uuids a)
    (service_data a).
Definition with_name (a : bt_ad) (x : option bytes) : bt_ad :=
  Ad (ref_count a) x (ad_appearance a) (service_uuids a) (manufacturer_data a) (solicit_uuids a)
    (service_data a).
Definition with_appearance (a : bt_ad) (x : Z) : bt_ad :=
  Ad (ref_count a) (ad_name a) x (service_uuids a) (manufacturer_data a) (solicit_uuids a)
    (service_data a).
Definition with_service_uuids (a : bt_ad) (x : list Uuid.bt_uuid) : bt_ad :=
  Ad (ref_count a) (ad_name a) (ad_appearance a) x (manufacturer_data a) (solicit_uuids a)
    (service_data a).
Definition with_manufacturer_data (a : bt_ad) (x : list bt_ad_manufacturer_data) : bt_ad :=
  Ad (ref_count a) (ad_name a) (ad_appearance a) (service_uuids a) x (solicit_uuids a)
    (service_data a).
Definition with_solicit_uuids (a : bt_ad) (x : list Uuid.bt_uuid) : bt_ad :=
  Ad (ref_count a) (ad_name a) (ad_appearance a) (service_uuids a) (manufacturer_data a) x
    (service_data a).
Definition with_service_data (a : bt_ad) (x : list bt_ad_service_data) : bt_ad :=
  Ad (ref_count a) (ad_name a) (ad_appearance a) (service_uuids a) (manufacturer_data a)
    (solicit_uuids a) x.

(** ** Life *)

Definition bt_ad_ref (ad : option bt_ad) : option bt_ad :=
  match ad with
  | None => None
  | Some a => Some (with_ref_count a (ref_count a + 1))
  end.

Definition bt_ad_new : option bt_ad := bt_ad_ref (Some (Ad 0 None UINT16_MAX [] [] [] [])).

(** [None] when the object is freed, with everything in it. *)
Definition bt_ad_unref (ad : option bt_ad) : option bt_ad :=
  match ad with
  | None => None
  | Some a => if ref_count a - 1 =? 0 then None else Some (with_ref_count a (ref_count a - 1))
  end.

(** ** The length of the data *)

Fixpoint uuid_list_length_loop (l : list Uuid.bt_uuid) (uuid16 uuid32 uuid128 : bool)
    (length : Z) : Z :=
  match l with
  | [] =>
    let length := if uuid16 then usize (length + 2) else length in
    let length := if uuid32 then usize (length + 2) else length in
    if uuid128 then usize (length + 2) else length
  | uuid :: l =>
    let length := usize (length + Uuid.bt_uuid_len uuid) in
    match uuid with
    | Uuid.UUID16 _ => uuid_list_length_loop l true uuid32 uuid128 length
    | Uuid.UUID32 _ => uuid_list_length_loop l uuid16 true uuid128 length
    | _ => uuid_list_length_loop l uuid16 uuid32 true length
    end
  end.
Definition uuid_list_length (uuid_queue : list Uuid.bt_uuid) : Z :=
  uuid_list_length_loop uuid_queue false false false 0.

Definition mfg_data_length (l : list bt_ad_manufacturer_data) : Z :=
  foldl (fun length data => usize (length + (2 + 2 + manuf_len data))) 0 l.

Definition uuid_data_length (l : list bt_ad_service_data) : Z :=
  foldl (fun length data =>
    usize (length + (2 + Uuid.bt_uuid_len (svc_uuid data) + svc_len data))) 0 l.

(** The room that is left, which may wrap around. *)
Definition name_length (name : option bytes) (pos : Z) : Z :=
  match name with
  | None => 0
  | Some name =>
    let len := usize (2 + zlen name) in
    if usize (MAX_ADV_DATA_LEN - pos) <? len then usize (MAX_ADV_DATA_LEN - pos) else len
  end.

Definition calculate_length (a : bt_ad) : Z :=
  let length := uuid_list_length (service_uuids a) in
  let length := usize (length + uuid_list_length (solicit_uuids a)) in
  let length := usize (length + mfg_data_length (manufacturer_data a)) in
  let length := usize (length + uuid_data_length (service_data a)) in
  let length := usize (length + name_length (ad_name a) length) in
  usize (length + (if negb (ad_appearance a =? UINT16_MAX) then 4 else 0)).

(** ** Serialization *)

(** The buffer and the position, a byte. *)
Abbreviation cursor := (bytes * Z)%type.

(** Bytes stored at the position, which moves behind them. *)
Definition emit (s : cursor) (l : bytes) : ub cursor :=
  let '(buf, pos) := s in
  buf ← st buf pos l;
  Some (buf, u8 (pos + zlen l)).

(** A UUID stored at the position in little-endian order. *)
Definition emit_uuid (s : cursor) (uuid : Uuid.bt_uuid) : ub cursor :=
  let '(buf, pos) := s in
  buf ← match uuid with
        | Uuid.UUID32 v => put_le32 v buf pos
        | _ => snd <$> Uuid.bt_uuid_to_le uuid buf pos
        end;
  Some (buf, u8 (pos + Uuid.bt_uuid_len uuid)).

(** [length_pos] is where the length of the field goes, once a UUID of the type was met. *)
Fixpoint serialize_uuids_loop (entries : list Uuid.bt_uuid) (uuid_type ad_type : Z)
    (s : cursor) (added : option Z) : ub (cursor * option Z) :=
  match entries with
  | [] => Some (s, added)
  | uuid :: entries =>
    if Uuid.uuid_type uuid =? uuid_type then
      '(s, added) ←
        match added with
        | Some _ => Some (s, added)
        | None =>
          let '(buf, pos) := s in
          s ← emit (buf, u8 (pos + 1)) [ad_type];
          Some (s, Some pos)
        end;
      s ← emit_uuid s uuid;
      serialize_uuids_loop entries uuid_type ad_type s added
    else serialize_uuids_loop entries uuid_type ad_type s added
  end.

Definition serialize_uuids (uuids : list Uuid.bt_uuid) (uuid_type ad_type : Z) (s : cursor)
    : ub cursor :=
  '(s, added) ← serialize_uuids_loop uuids uuid_type ad_type s None;
  match added with
  | None => Some s
  | Some length_pos =>
    let '(buf, pos) := s in
    buf ← put_u8 (pos - length_pos - 1) buf length_pos;
    Some (buf, pos)
  end.

Definition serialize_service_uuids (uuids : list Uuid.bt_uuid) (s : cursor) : ub cursor :=
  s ← serialize_uuids uuids 16 EIR_UUID16_ALL s;
  s ← serialize_uuids uuids 32 EIR_UUID32_ALL s;
  serialize_uuids uuids 128 EIR_UUID128_ALL s.

Definition serialize_solicit_uuids (uuids : list Uuid.bt_uuid) (s : cursor) : ub cursor :=
  s ← serialize_uuids uuids 16 EIR_SOLICIT16 s;
  s ← serialize_uuids uuids 32 EIR_SOLICIT32 s;
  serialize_uuids uuids 128 EIR_SOLICIT128 s.

Fixpoint serialize_manuf_data (l : list bt_ad_manufacturer_data) (s : cursor) : ub cursor :=
  match l with
  | [] => Some s
  | data :: l =>
    s ← emit s [u8 (manuf_len data + 2 + 1)];
    s ← emit s [EIR_MANUFACTURER_DATA];
    s ← emit s (le_bytes 2 (manufacturer_id data));
    d ← ld (manuf_data data) 0 (manuf_len data);
    s ← emit s d;
    serialize_manuf_data l s
  end.

(** No type byte for a UUID of another length. *)
Fixpoint serialize_service_data (l : list bt_ad_service_data) (s : cursor) : ub cursor :=
  match l with
  | [] => Some s
  | data :: l =>
    let uuid_len := Uuid.bt_uuid_len (svc_uuid data) in
    s ← emit s [u8 (uuid_len + svc_len data + 1)];
    s ← match svc_uuid data with
        | Uuid.UUID16 _ => emit s [EIR_SVC_DATA16]
        | Uuid.UUID32 _ => emit s [EIR_SVC_DATA32]
        | Uuid.UUID128 _ => emit s [EIR_SVC_DATA128]
        | Uuid.UUID_UNSPEC => Some s
        end;
    s ← emit_uuid s (svc_uuid data);
    d ← ld (svc_data data) 0 (svc_len data);
    s ← emit s d;
    serialize_service_data l s
  end.

(** The length of a string as an [int]. *)
Definition int_strlen (s : bytes) : Z :=
  let n := u32 (zlen s) in if n <? 2 ^ 31 then n else n - 2 ^ 32.

(** [len] may become negative: as a size for memcpy it is then larger than any block. *)
Definition serialize_name (name : option bytes) (s : cursor) : ub cursor :=
  match name with
  | None => Some s
  | Some name =>
    let room := MAX_ADV_DATA_LEN - (s.2 + 2) in
    let len := int_strlen name in
    let short := room <? len in
    let len := if short then room else len in
    s ← emit s [u8 (len + 1)];
    s ← emit s [if short then EIR_NAME_SHORT else EIR_NAME_COMPLETE];
    d ← ld name 0 len;
    emit s d
  end.

Definition serialize_appearance (value : Z) (s : cursor) : ub cursor :=
  if value =? UINT16_MAX then Some s
  else
    s ← emit s [3];
    s ← emit s [EIR_GAP_APPEARANCE];
    emit s (le_bytes 2 value).

Section allocation.
(** Whether malloc and realloc return memory for a size, and the two bytes at an address of
    the process that is not one of the objects ([None] when it is not mapped). *)
Variables (malloc realloc : Z -> bool) (mem_u16 : Z -> ub Z).

(** The data (or NULL) and [*length], which is only written when there is an object. *)
Definition bt_ad_generate (ad : option bt_ad) (length : Z) : ub (option bytes * Z) :=
  match ad with
  | None => Some (None, length)
  | Some a =>
    let length := calculate_length a in
    if MAX_ADV_DATA_LEN <? length then Some (None, length)
    else if negb (malloc length) then Some (None, length)
    else
      s ← serialize_service_uuids (service_uuids a) (replicate (Z.to_nat length) 0, 0);
      s ← serialize_solicit_uuids (solicit_uuids a) s;
      s ← serialize_manuf_data (manufacturer_data a) s;
      s ← serialize_service_data (service_data a) s;
      s ← serialize_name (ad_name a) s;
      s ← serialize_appearance (ad_appearance a) s;
      Some (Some s.1, length)
  end.

(** ** UUIDs *)

(** The list split at the first element that satisfies a predicate which may be undefined. *)
Fixpoint split_find_ub {A} (f : A -> ub bool) (l : list A) : ub (option (list A * A * list A)) :=
  match l with
  | [] => Some None
  | x :: l =>
    b ← f x;
    if b : bool then Some (Some ([], x, l))
    else
      r ← split_find_ub f l;
      match r with
      | Some (a, y, c) => Some (Some (x :: a, y, c))
      | None => Some None
      end
  end.

Definition queue_add_uuid (queue : list Uuid.bt_uuid) (uuid : Uuid.bt_uuid)
    : bool * list Uuid.bt_uuid := (true, queue ++ [uuid]).

(** The result of the comparison: true for UUIDs that differ. *)
Definition uuid_match (data match_uuid : Uuid.bt_uuid) : ub bool :=
  r ← Uuid.bt_uuid_cmp data match_uuid; Some (negb (r =? 0)).

Definition queue_remove_uuid (queue : list Uuid.bt_uuid) (uuid : option Uuid.bt_uuid)
    : ub (bool * list Uuid.bt_uuid) :=
  match uuid with
  | None => Some (false, queue)
  | Some uuid =>
    r ← split_find_ub (fun x => uuid_match x uuid) queue;
    match r with
    | Some (a, _, c) => Some (true, a ++ c)
    | None => Some (false, queue)
    end
  end.

(** An operation on the object: [false] for NULL. *)
Definition on_ad (ad : option bt_ad) (f : bt_ad -> ub (bool * bt_ad)) : ub (bool * option bt_ad) :=
  match ad with
  | None => Some (false, None)
  | Some a => '(r, a) ← f a; Some (r, Some a)
  end.

Definition bt_ad_add_service_uuid (ad : option bt_ad) (uuid : Uuid.bt_uuid)
    : ub (bool * option bt_ad) :=
  on_ad ad (fun a =>
    let '(r, q) := queue_add_uuid (service_uuids a) uuid in Some (r, with_service_uuids a q)).

Definition bt_ad_remove_service_uuid (ad : option bt_ad) (uuid : option Uuid.bt_uuid)
    : ub (bool * option bt_ad) :=
  on_ad ad (fun a =>
    '(r, q) ← queue_remove_uuid (service_uuids a) uuid; Some (r, with_service_uuids a q)).

Definition bt_ad_clear_service_uuid (ad : option bt_ad) : option bt_ad :=
  (fun a => with_service_uuids a []) <$> ad.

Definition bt_ad_add_solicit_uuid (ad : option bt_ad) (uuid : Uuid.bt_uuid)
    : ub (bool * option bt_ad) :=
  on_ad ad (fun a =>
    let '(r, q) := queue_add_uuid (solicit_uuids a) uuid in Some (r, with_solicit_uuids a q)).

Definition bt_ad_remove_solicit_uuid (ad : option bt_ad) (uuid : option Uuid.bt_uuid)
    : ub (bool * option bt_ad) :=
  on_ad ad (fun a =>
    '(r, q) ← queue_remove_uuid (solicit_uuids a) uuid; Some (r, with_solicit_uuids a q)).

Definition bt_ad_clear_solicit_uuid (ad : option bt_ad) : option bt_ad :=
  (fun a => with_solicit_uuids a []) <$> ad.

(** ** Manufacturer data *)

Definition manufacturer_id_data_match (m : bt_ad_manufacturer_data) (id : Z) : bool :=
  manufacturer_id m =? id.

(** Replaces the data of an entry. *)
Definition replace_data (old : bytes) (len : Z) (data : bytes) : ub bytes :=
  if realloc len || (len =? 0) then ld data 0 len else None.

Definition bt_ad_add_manufacturer_data (ad : option bt_ad) (manufacturer_id : Z) (data : bytes)
    (len : Z) : ub (bool * option bt_ad) :=
  on_ad ad (fun a =>
    if MAX_ADV_DATA_LEN - 2 - 2 <? len then Some (false, a)
    else
      r ← split_find_ub (fun m => Some (manufacturer_id_data_match m manufacturer_id))
            (manufacturer_data a);
      match r with
      | Some (l1, new_data, l2) =>
        same ← (if manuf_len new_data =? len then
                  d1 ← ld (manuf_data new_data) 0 len;
                  d2 ← ld data 0 len;
                  Some (Libc.memcmp d1 d2 =? 0)
                else Some false);
        if same : bool then Some (false, a)
        else
          d ← replace_data (manuf_data new_data) len data;
          Some (true, with_manufacturer_data a
                        (l1 ++ Manuf (Ad.manufacturer_id new_data) d len :: l2))
      | None =>
        if negb (malloc len) then Some (false, a)
        else
          d ← ld data 0 len;
          Some (true, with_manufacturer_data a
                        (manufacturer_data a ++ [Manuf manufacturer_id d len]))
      end).

Definition manufacturer_data_match (m1 m2 : bt_ad_manufacturer_data) : ub bool :=
  if negb (manufacturer_id m1 =? manufacturer_id m2) then Some false
  else if negb (manuf_len m1 =? manuf_len m2) then Some false
  else
    d1 ← ld (manuf_data m1) 0 (manuf_len m1);
    d2 ← ld (manuf_data m2) 0 (manuf_len m1);
    Some (Libc.memcmp d1 d2 =? 0).

Definition bt_ad_has_manufacturer_data (ad : option bt_ad)
    (data : option bt_ad_manufacturer_data) : ub bool :=
  match ad with
  | None => Some false
  | Some a =>
    match data with
    | None => Some (negb (zlen (manufacturer_data a) =? 0))
    | Some data =>
      r ← split_find_ub (fun m => manufacturer_data_match m data) (manufacturer_data a);
      Some (match r with Some _ => true | None => false end)
    end
  end.

Definition bt_ad_foreach_manufacturer_data {U} (ad : option bt_ad)
    (func : bt_ad_manufacturer_data -> U -> U) (user_data : U) : U :=
  match ad with
  | None => user_data
  | Some a => foldl (fun u m => func m u) user_data (manufacturer_data a)
  end.

(** Called with the entry and the id, it takes the id for the address of an entry, whose
    first member is the id. *)
Definition manuf_match (data : bt_ad_manufacturer_data) (elem : Z) : ub bool :=
  let manuf_id := u16 (u32 elem) in
  manuf ← mem_u16 elem;
  Some (manuf =? manuf_id).

Definition bt_ad_remove_manufacturer_data (ad : option bt_ad) (manufacturer_id : Z)
    : ub (bool * option bt_ad) :=
  on_ad ad (fun a =>
    r ← split_find_ub (fun m => manuf_match m manufacturer_id) (manufacturer_data a);
    match r with
    | None => Some (false, a)
    | Some (l1, _, l2) => Some (true, with_manufacturer_data a (l1 ++ l2))
    end).

Definition bt_ad_clear_manufacturer_data (ad : option bt_ad) : option bt_ad :=
  (fun a => with_manufacturer_data a []) <$> ad.

(** ** Service data *)

Definition service_uuid_match (s : bt_ad_service_data) (uuid : Uuid.bt_uuid) : ub bool :=
  r ← Uuid.bt_uuid_cmp (svc_uuid s) uuid; Some (r =? 0).

Definition bt_ad_add_service_data (ad : option bt_ad) (uuid : Uuid.bt_uuid) (data : bytes)
    (len : Z) : ub (bool * option bt_ad) :=
  on_ad ad (fun a =>
    if usize (MAX_ADV_DATA_LEN - 2 - Uuid.bt_uuid_len uuid) <? len then Some (false, a)
    else
      r ← split_find_ub (fun s => service_uuid_match s uuid) (service_data a);
      match r with
      | Some (l1, new_data, l2) =>
        same ← (if svc_len new_data =? len then
                  d1 ← ld (svc_data new_data) 0 len;
                  d2 ← ld data 0 len;
                  Some (Libc.memcmp d1 d2 =? 0)
                else Some false);
        if same : bool then Some (false, a)
        else
          d ← replace_data (svc_data new_data) len data;
          Some (true, with_service_data a (l1 ++ SvcData (svc_uuid new_data) d len :: l2))
      | None =>
        if negb (malloc len) then Some (false, a)
        else
          d ← ld data 0 len;
          Some (true, with_service_data a (service_data a ++ [SvcData uuid d len]))
      end).

Definition service_data_match (s1 s2 : bt_ad_service_data) : ub bool :=
  r ← Uuid.bt_uuid_cmp (svc_uuid s1) (svc_uuid s2);
  if negb (r =? 0) then Some false
  else if negb (svc_len s1 =? svc_len s2) then Some false
  else
    d1 ← ld (svc_data s1) 0 (svc_len s1);
    d2 ← ld (svc_data s2) 0 (svc_len s1);
    Some (Libc.memcmp d1 d2 =? 0).

Definition bt_ad_has_service_data (ad : option bt_ad) (data : option bt_ad_service_data)
    : ub bool :=
  match ad with
  | None => Some false
  | Some a =>
    match data with
    | None => Some (negb (zlen (service_data a) =? 0))
    | Some data =>
      r ← split_find_ub (fun s => service_data_match s data) (service_data a);
      Some (match r with Some _ => true | None => false end)
    end
  end.

Definition bt_ad_foreach_service_data {U} (ad : option bt_ad)
    (func : bt_ad_service_data -> U -> U) (user_data : U) : U :=
  match ad with
  | None => user_data
  | Some a => foldl (fun u s => func s u) user_data (service_data a)
  end.

(** Called with the entry and the UUID, it takes each for the other; the UUID is the first
    member of the entry. *)
Definition uuid_data_match (data : bt_ad_service_data) (elem : Uuid.bt_uuid) : ub bool :=
  r ← Uuid.bt_uuid_cmp elem (svc_uuid data); Some (r =? 0).

Definition bt_ad_remove_service_data (ad : option bt_ad) (uuid : Uuid.bt_uuid)
    : ub (bool * option bt_ad) :=
  on_ad ad (fun a =>
    r ← split_find_ub (fun s => uuid_data_match s uuid) (service_data a);
    match r with
    | None => Some (false, a)
    | Some (l1, _, l2) => Some (true, with_service_data a (l1 ++ l2))
    end).

Definition bt_ad_clear_service_data (ad : option bt_ad) : option bt_ad :=
  (fun a => with_service_data a []) <$> ad.

(** ** Name and appearance *)

Definition bt_ad_add_name (ad : option bt_ad) (name : bytes) : ub (bool * option bt_ad) :=
  on_ad ad (fun a => Some (true, with_name a (Some name))).
Definition bt_ad_clear_name (ad : option bt_ad) : option bt_ad :=
  (fun a => with_name a None) <$> ad.
Definition bt_ad_add_appearance (ad : option bt_ad) (appearance : Z)
    : ub (bool * option bt_ad) :=
  on_ad ad (fun a => Some (true, with_appearance a appearance)).
Definition bt_ad_clear_appearance (ad : option bt_ad) : option bt_ad :=
  (fun a => with_appearance a UINT16_MAX) <$> ad.
End allocation.
