(* ===== verification/AdSpec.v ===== *)
(** Advertising data: what src/shared/ad.c generates, and that src/eir.c parses it back. *)
From Stdlib Require Import ZArith Lia.
From S2P Require Import Prelude Libc Uuid Blocks Eir EirSpec EirOob Ad.
From stdpp Require Import base numbers list option gmap.

Local Open Scope Z_scope.

(** ** The fields of an advertisement *)

Definition is16 (u : Uuid.bt_uuid) : option Z :=
  match u with Uuid.UUID16 v => Some v | _ => None end.
Definition is32 (u : Uuid.bt_uuid) : option Z :=
  match u with Uuid.UUID32 v => Some v | _ => None end.
Definition is128 (u : Uuid.bt_uuid) : option bytes :=
  match u with Uuid.UUID128 b => Some b | _ => None end.

(** The same UUID in the SDP library. *)
Definition to_sdp (u : Uuid.bt_uuid) : uuid_t :=
  match u with
  | Uuid.UUID16 v => SDP_UUID16 v
  | Uuid.UUID32 v => SDP_UUID32 v
  | Uuid.UUID128 b => SDP_UUID128 b
  | Uuid.UUID_UNSPEC => SDP_UUID_UNSPEC
  end.

(** One field for the elements of a list, if there are any. *)
Definition group {A} (f : list A -> piece) (l : list A) : list piece :=
  match l with [] => [] | _ => [f l] end.

Definition service_pieces (l : list Uuid.bt_uuid) : list piece :=
  group (PUuid16 EIR_UUID16_ALL) (omap is16 l) ++
  group (PUuid32 EIR_UUID32_ALL) (omap is32 l) ++
  group (PUuid128 EIR_UUID128_ALL) (omap is128 l).

Definition solicit_pieces (l : list Uuid.bt_uuid) : list piece :=
  group (fun k => PSolicit EIR_SOLICIT16 (concat (le_bytes 2 <$> k))) (omap is16 l) ++
  group (fun k => PSolicit EIR_SOLICIT32 (concat (le_bytes 4 <$> k))) (omap is32 l) ++
  group (fun k => PSolicit EIR_SOLICIT128 (concat (swap <$> k))) (omap is128 l).

Definition manuf_piece (m : bt_ad_manufacturer_data) : piece :=
  PManufacturer (manufacturer_id m) (manuf_data m).
Definition svc_piece (s : bt_ad_service_data) : piece :=
  PServiceData (to_sdp (svc_uuid s)) (svc_data s).

(** Everything but the name and the appearance. *)
Definition base_pieces (a : bt_ad) : list piece :=
  service_pieces (service_uuids a) ++ solicit_pieces (solicit_uuids a) ++
  (manuf_piece <$> manufacturer_data a) ++ (svc_piece <$> service_data a).

Definition base_length (a : bt_ad) : Z := zlen (wire_of (base_pieces a)).

(** The name is cut to what the other fields leave of 31 bytes. *)
Definition ad_name_pieces (a : bt_ad) : list piece :=
  match ad_name a with
  | None => []
  | Some s =>
    let room := MAX_ADV_DATA_LEN - (base_length a + 2) in
    [PName (if room <? zlen s then EIR_NAME_SHORT else EIR_NAME_COMPLETE)
       (take (Z.to_nat room) s)]
  end.

Definition appearance_pieces (a : bt_ad) : list piece :=
  if ad_appearance a =? UINT16_MAX then [] else [PAppearance (ad_appearance a)].

Definition ad_pieces (a : bt_ad) : list piece :=
  base_pieces a ++ ad_name_pieces a ++ appearance_pieces a.

(** The length that is calculated. *)
Definition ad_total (a : bt_ad) : Z :=
  base_length a +
  match ad_name a with
  | None => 0
  | Some s => if MAX_ADV_DATA_LEN <? base_length a then 2 + zlen s
              else Z.min (2 + zlen s) (MAX_ADV_DATA_LEN - base_length a)
  end +
  (if ad_appearance a =? UINT16_MAX then 0 else 4).

Record ad_ok (a : bt_ad) : Prop := {
  ad_services : Forall Uuid.uuid_ok (service_uuids a);
  ad_solicits : Forall Uuid.uuid_ok (solicit_uuids a);
  ad_manuf : Forall (fun m => is_u16 (manufacturer_id m) /\ zlen (manuf_data m) = manuf_len m)
               (manufacturer_data a);
  ad_svc : Forall (fun s => Uuid.uuid_ok (svc_uuid s) /\ zlen (svc_data s) = svc_len s)
             (service_data a);
  ad_appear : is_u16 (ad_appearance a);
  ad_size : base_length a < 2 ^ 32;
  ad_name_size : forall s, ad_name a = Some s -> zlen s < 2 ^ 31;
}.

(** ** Lengths *)

Lemma uuid_ok_sdp u : Uuid.uuid_ok u -> uuid_t_ok (to_sdp u).
Proof. destruct u; cbn; tauto. Qed.

Lemma uuid_le_length u : Uuid.uuid_ok u -> zlen (uuid_le (to_sdp u)) = Uuid.bt_uuid_len u.
Proof.
  destruct u as [|v|v|b]; cbn [Uuid.uuid_ok to_sdp uuid_le]; [done|done|done|].
  intros [H _]. change (Uuid.bt_uuid_len (Uuid.UUID128 b)) with 16. len_lia.
Qed.

(** Sums of two kinds of lists of fields. *)
Lemma wire_of_cons p l : wire_of (p :: l) = field_wire (piece_field p) ++ wire_of l.
Proof. done. Qed.

Lemma zlen_group {A} (f : list A -> piece) (g : list A -> bytes) k l :
  (forall l, (piece_field (f l)).2 = g l) -> zlen (g l) = k * zlen l ->
  zlen (wire_of (group f l)) = k * zlen l + (if 0 <? zlen l then 2 else 0).
Proof.
  intros Hf Hg. destruct l as [|x l]; [change (0 = k * 0 + 0); lia|].
  cbn [group]. rewrite zlen_wire_of_one, Hf, Hg.
  rewrite (proj2 (Z.ltb_lt 0 _)) by (rewrite zlen_cons; pose proof (zlen_nonneg l); lia). lia.
Qed.

Definition two_if (b : bool) : Z := if b then 2 else 0.

Lemma uuid_list_length_loop_spec l f16 f32 f128 n :
  Forall Uuid.uuid_ok l -> 0 <= n ->
  n + 2 * zlen (omap is16 l) + 4 * zlen (omap is32 l) + 16 * zlen (omap is128 l) + 6 < 2 ^ 64 ->
  uuid_list_length_loop l f16 f32 f128 n
    = n + 2 * zlen (omap is16 l) + 4 * zlen (omap is32 l) + 16 * zlen (omap is128 l) +
      two_if (f16 || (0 <? zlen (omap is16 l))) + two_if (f32 || (0 <? zlen (omap is32 l))) +
      two_if (f128 || (0 <? zlen (omap is128 l))).
Proof.
  intros Hl. revert f16 f32 f128 n. induction Hl as [|u l Hu Hl IH]; intros f16 f32 f128 n Hn Hmax.
  { cbn [uuid_list_length_loop omap list_omap] in *. change (zlen []) with 0 in *.
    cbn [Z.ltb Z.compare]. unfold two_if.
    destruct f16, f32, f128; cbn [orb];
      rewrite ?(u64_small (n + 2)), ?(u64_small (n + 2 + 2)), ?(u64_small (n + 2 + 2 + 2))
        by (unfold is_u64; lia); lia. }
  pose proof (zlen_nonneg (omap is16 l)). pose proof (zlen_nonneg (omap is32 l)).
  pose proof (zlen_nonneg (omap is128 l)).
  assert (forall x, 0 <? 1 + zlen (omap is16 l) = true /\ 0 <? 1 + zlen (omap is32 l) = true /\
    0 <? 1 + zlen (omap is128 l) = true /\ (x || true = true)) as Hpos.
  { intros x. rewrite !(proj2 (Z.ltb_lt 0 _)), orb_true_r by lia. done. }
  destruct u as [|v|v|b]; [done|..]; cbn [uuid_list_length_loop omap list_omap is16 is32 is128] in *;
    fold (omap is16 l) (omap is32 l) (omap is128 l) in *; rewrite zlen_cons in *;
    destruct (Hpos f16) as (P1 & P2 & P3 & _).
  - change (Uuid.bt_uuid_len (Uuid.UUID16 v)) with 2. rewrite u64_small by (unfold is_u64; lia).
    rewrite IH by lia. rewrite P1, orb_true_r. cbn [orb two_if]. lia.
  - change (Uuid.bt_uuid_len (Uuid.UUID32 v)) with 4. rewrite u64_small by (unfold is_u64; lia).
    rewrite IH by lia. rewrite P2, orb_true_r. cbn [orb two_if]. lia.
  - change (Uuid.bt_uuid_len (Uuid.UUID128 b)) with 16. rewrite u64_small by (unfold is_u64; lia).
    rewrite IH by lia. rewrite P3, orb_true_r. cbn [orb two_if]. lia.
Qed.

Lemma is128_length l :
  Forall Uuid.uuid_ok l -> Forall (fun d => length d = 16%nat) (omap is128 l).
Proof.
  induction 1 as [|u l Hu Hl IH]; [done|]. destruct u as [|v|v|b]; [done|exact IH|exact IH|].
  apply Forall_cons_2; [apply Hu|exact IH].
Qed.

Lemma uuid_concats l :
  Forall Uuid.uuid_ok l ->
  zlen (concat (le_bytes 2 <$> omap is16 l)) = 2 * zlen (omap is16 l) /\
  zlen (concat (le_bytes 4 <$> omap is32 l)) = 4 * zlen (omap is32 l) /\
  zlen (concat (swap <$> omap is128 l)) = 16 * zlen (omap is128 l).
Proof.
  intros Hl. split_and!; apply zlen_concat_map.
  - apply Forall_forall. intros; len_lia.
  - apply Forall_forall. intros; len_lia.
  - eapply Forall_impl; [exact (is128_length l Hl)|]. intros d Hd. cbn in Hd. len_lia.
Qed.

Lemma service_length l :
  Forall Uuid.uuid_ok l ->
  zlen (wire_of (service_pieces l))
    = 2 * zlen (omap is16 l) + 4 * zlen (omap is32 l) + 16 * zlen (omap is128 l) +
      two_if (0 <? zlen (omap is16 l)) + two_if (0 <? zlen (omap is32 l)) +
      two_if (0 <? zlen (omap is128 l)).
Proof.
  intros Hl. destruct (uuid_concats l Hl) as (H1 & H2 & H3).
  unfold service_pieces. rewrite !wire_of_app, !zlen_app.
  rewrite (zlen_group (PUuid16 _) _ 2 _ (fun _ => eq_refl) H1),
    (zlen_group (PUuid32 _) _ 4 _ (fun _ => eq_refl) H2),
    (zlen_group (PUuid128 _) _ 16 _ (fun _ => eq_refl) H3). unfold two_if. lia.
Qed.

Lemma solicit_length l :
  Forall Uuid.uuid_ok l ->
  zlen (wire_of (solicit_pieces l)) = zlen (wire_of (service_pieces l)).
Proof.
  intros Hl. rewrite service_length by done. destruct (uuid_concats l Hl) as (H1 & H2 & H3).
  unfold solicit_pieces. rewrite !wire_of_app, !zlen_app.
  rewrite (zlen_group (fun k => PSolicit _ (concat (le_bytes 2 <$> k))) _ 2 _ (fun _ => eq_refl) H1),
    (zlen_group (fun k => PSolicit _ (concat (le_bytes 4 <$> k))) _ 4 _ (fun _ => eq_refl) H2),
    (zlen_group (fun k => PSolicit _ (concat (swap <$> k))) _ 16 _ (fun _ => eq_refl) H3).
  unfold two_if. lia.
Qed.

Lemma uuid_list_length_spec l :
  Forall Uuid.uuid_ok l -> zlen (wire_of (service_pieces l)) < 2 ^ 63 ->
  uuid_list_length l = zlen (wire_of (service_pieces l)).
Proof.
  intros Hl. rewrite service_length by done. intros Hmax. unfold uuid_list_length.
  pose proof (zlen_nonneg (omap is16 l)). pose proof (zlen_nonneg (omap is32 l)).
  pose proof (zlen_nonneg (omap is128 l)).
  rewrite uuid_list_length_loop_spec; [cbn [orb]; lia|done|lia|].
  unfold two_if in *.
  destruct (0 <? zlen (omap is16 l)), (0 <? zlen (omap is32 l)), (0 <? zlen (omap is128 l)); lia.
Qed.

(** Sums of lengths in [size_t]. *)
Lemma foldl_usize {A} (f : A -> Z) (pc : A -> piece) l n :
  Forall (fun x => f x = zlen (wire_of [pc x])) l -> 0 <= n ->
  n + zlen (wire_of (pc <$> l)) < 2 ^ 64 ->
  foldl (fun n x => usize (n + f x)) n l = n + zlen (wire_of (pc <$> l)).
Proof.
  intros Hl. revert n. induction Hl as [|x l Hx Hl IH]; intros n Hn Hmax.
  { change (n = n + 0). lia. }
  rewrite fmap_cons in *. change (pc x :: (pc <$> l)) with ([pc x] ++ (pc <$> l)) in *.
  rewrite wire_of_app, zlen_app in *. cbn [foldl].
  pose proof (zlen_nonneg (wire_of [pc x])). pose proof (zlen_nonneg (wire_of (pc <$> l))).
  rewrite Hx, u64_small by (unfold is_u64; lia). rewrite IH by lia. lia.
Qed.

Lemma manuf_wire_length m :
  zlen (manuf_data m) = manuf_len m -> 2 + 2 + manuf_len m = zlen (wire_of [manuf_piece m]).
Proof.
  intros Hm. rewrite zlen_wire_of_one. cbn [manuf_piece piece_field snd].
  rewrite zlen_app, Hm. change (zlen (le_bytes 2 _)) with 2. lia.
Qed.

Lemma svc_wire_length s :
  Uuid.uuid_ok (svc_uuid s) -> zlen (svc_data s) = svc_len s ->
  2 + Uuid.bt_uuid_len (svc_uuid s) + svc_len s = zlen (wire_of [svc_piece s]).
Proof.
  intros Hu Hs. rewrite zlen_wire_of_one. cbn [svc_piece piece_field snd].
  rewrite zlen_app, Hs, uuid_le_length by done. lia.
Qed.

Lemma calculate_length_spec a : ad_ok a -> calculate_length a = ad_total a.
Proof.
  intros [Hsvc Hsol Hm Hs Ha Hsize Hname]. unfold calculate_length, ad_total, base_length, base_pieces in *.
  rewrite !wire_of_app, !zlen_app in *.
  rewrite solicit_length in * by done.
  pose proof (zlen_nonneg (wire_of (service_pieces (service_uuids a)))).
  pose proof (zlen_nonneg (wire_of (service_pieces (solicit_uuids a)))).
  pose proof (zlen_nonneg (wire_of (manuf_piece <$> manufacturer_data a))).
  pose proof (zlen_nonneg (wire_of (svc_piece <$> service_data a))).
  rewrite !uuid_list_length_spec by (done || lia).
  assert (mfg_data_length (manufacturer_data a) = zlen (wire_of (manuf_piece <$> manufacturer_data a)))
    as ->.
  { unfold mfg_data_length. rewrite (foldl_usize _ manuf_piece); [lia| |lia|lia].
    eapply Forall_impl; [exact Hm|]. intros m [_ H']. by apply manuf_wire_length. }
  assert (uuid_data_length (service_data a) = zlen (wire_of (svc_piece <$> service_data a))) as ->.
  { unfold uuid_data_length. rewrite (foldl_usize _ svc_piece); [lia| |lia|lia].
    eapply Forall_impl; [exact Hs|]. intros s [H' H'']. by apply svc_wire_length. }
  set (n1 := zlen (wire_of (service_pieces (service_uuids a)))) in *.
  set (n2 := zlen (wire_of (service_pieces (solicit_uuids a)))) in *.
  set (n3 := zlen (wire_of (manuf_piece <$> manufacturer_data a))) in *.
  set (n4 := zlen (wire_of (svc_piece <$> service_data a))) in *.
  rewrite (u64_small (n1 + n2)), (u64_small (n1 + n2 + n3)), (u64_small (n1 + n2 + n3 + n4))
    by (unfold is_u64; lia).
  replace (n1 + (n2 + (n3 + n4))) with (n1 + n2 + n3 + n4) in * by lia.
  set (n := n1 + n2 + n3 + n4) in *. unfold name_length, MAX_ADV_DATA_LEN.
  assert ((if negb (ad_appearance a =? UINT16_MAX) then 4 else 0)
          = (if ad_appearance a =? UINT16_MAX then 0 else 4)) as ->
    by (by destruct (ad_appearance a =? UINT16_MAX)).
  assert (forall x, 0 <= x < 2 ^ 63 ->
    usize (x + (if ad_appearance a =? UINT16_MAX then 0 else 4))
    = x + (if ad_appearance a =? UINT16_MAX then 0 else 4)) as Happ.
  { intros x Hx. apply u64_small. unfold is_u64. destruct (ad_appearance a =? UINT16_MAX); lia. }
  destruct (ad_name a) as [s|].
  2:{ rewrite Z.add_0_r, (u64_small n) by (unfold is_u64; lia). apply Happ. lia. }
  specialize (Hname s eq_refl). pose proof (zlen_nonneg s).
  rewrite (u64_small (2 + zlen s)) by (unfold is_u64; lia).
  destruct (Z.ltb_spec 31 n).
  - assert (usize (31 - n) = 2 ^ 64 + 31 - n) as ->.
    { unfold u64. rewrite <- (Z.mod_add (31 - n) 1) by lia. rewrite Z.mod_small; lia. }
    rewrite (proj2 (Z.ltb_ge _ (2 + zlen s))) by lia.
    rewrite (u64_small (n + _)) by (unfold is_u64; lia). apply Happ. lia.
  - rewrite (u64_small (31 - n)) by (unfold is_u64; lia).
    destruct (Z.ltb_spec (31 - n) (2 + zlen s)).
    + rewrite Z.min_r, (u64_small (n + _)) by (unfold is_u64; lia). apply Happ. lia.
    + rewrite Z.min_l, (u64_small (n + _)) by (unfold is_u64; lia). apply Happ. lia.
Qed.

(** ** Serialization *)

Section serialize.
Variable b : bytes.
Hypothesis Hb : zlen b <= MAX_ADV_DATA_LEN.

(** The cursor behind what was written. *)
Definition at_pos (pre : bytes) : cursor := (over pre b, zlen pre).

Lemma emit_spec pre l :
  zlen pre + zlen l <= zlen b -> emit (at_pos pre) l = Some (at_pos (pre ++ l)).
Proof using All.
  intros Hl. pose proof (zlen_nonneg pre). pose proof (zlen_nonneg l).
  unfold emit, at_pos, MAX_ADV_DATA_LEN in *.
  rewrite st_over by lia. cbn [mbind option_bind].
  rewrite zlen_app, u8_small by (unfold is_u8; lia). done.
Qed.

Lemma emit_uuid_spec pre u :
  Uuid.uuid_ok u -> zlen pre + Uuid.bt_uuid_len u <= zlen b ->
  emit_uuid (at_pos pre) u = Some (at_pos (pre ++ uuid_le (to_sdp u))).
Proof using All.
  intros Hu Hl. pose proof (zlen_nonneg pre). pose proof (uuid_le_length u Hu) as Hlen.
  assert (0 <= Uuid.bt_uuid_len u) by (rewrite <- Hlen; apply zlen_nonneg).
  unfold emit_uuid, at_pos, MAX_ADV_DATA_LEN in *.
  assert (match u with
          | Uuid.UUID32 v => put_le32 v (over pre b) (zlen pre)
          | _ => snd <$> Uuid.bt_uuid_to_le u (over pre b) (zlen pre)
          end = Some (over (pre ++ uuid_le (to_sdp u)) b)) as ->.
  { destruct u as [|v|v|d]; [done|..]; cbn [Uuid.bt_uuid_to_le to_sdp uuid_le] in *;
      unfold put_le16, put_le32, Uuid.bswap_128; rewrite st_over by lia; done. }
  cbn [mbind option_bind]. rewrite zlen_app, Hlen, u8_small by (unfold is_u8; lia). done.
Qed.

(** *** UUIDs of one width *)

Definition le_of_type (t : Z) (u : Uuid.bt_uuid) : option bytes :=
  if Uuid.uuid_type u =? t then Some (uuid_le (to_sdp u)) else None.

Lemma serialize_uuids_loop_added l t ad_type pre p :
  Forall Uuid.uuid_ok l ->
  zlen pre + zlen (concat (omap (le_of_type t) l)) <= zlen b ->
  serialize_uuids_loop l t ad_type (at_pos pre) (Some p)
    = Some (at_pos (pre ++ concat (omap (le_of_type t) l)), Some p).
Proof using All.
  intros Hl. revert pre. induction Hl as [|u l Hu Hl IH]; intros pre Hfit.
  { cbn. by rewrite app_nil_r. }
  cbn [serialize_uuids_loop omap list_omap] in *. fold (omap (le_of_type t) l) in *.
  change (le_of_type t u) with
    (if Uuid.uuid_type u =? t then Some (uuid_le (to_sdp u)) else None) in *.
  destruct (Uuid.uuid_type u =? t); [|by apply IH].
  cbn [concat] in *. rewrite zlen_app, uuid_le_length in Hfit by done.
  pose proof (zlen_nonneg (concat (omap (le_of_type t) l))).
  cbn [mbind option_bind]. rewrite emit_uuid_spec by (done || lia). cbn [mbind option_bind].
  rewrite IH by (rewrite zlen_app, uuid_le_length by done; lia). by rewrite <- app_assoc.
Qed.

Lemma serialize_uuids_loop_none l t ad_type pre :
  Forall Uuid.uuid_ok l ->
  (omap (le_of_type t) l <> [] ->
   zlen pre + 2 + zlen (concat (omap (le_of_type t) l)) <= zlen b) ->
  serialize_uuids_loop l t ad_type (at_pos pre) None
    = Some (match omap (le_of_type t) l with
            | [] => (at_pos pre, None)
            | les => (at_pos (pre ++ take 1 (drop (length pre) b) ++ [ad_type] ++ concat les),
                      Some (zlen pre))
            end).
Proof using All.
  intros Hl. induction Hl as [|u l Hu Hl IH]; intros Hfit; [done|].
  cbn [serialize_uuids_loop omap list_omap] in *. fold (omap (le_of_type t) l) in *.
  change (le_of_type t u) with
    (if Uuid.uuid_type u =? t then Some (uuid_le (to_sdp u)) else None) in *.
  destruct (Uuid.uuid_type u =? t); [|by apply IH].
  specialize (Hfit ltac:(done)). cbn [concat] in *. rewrite zlen_app, uuid_le_length in Hfit by done.
  pose proof (zlen_nonneg (concat (omap (le_of_type t) l))). pose proof (zlen_nonneg pre).
  assert (0 <= Uuid.bt_uuid_len u) by (rewrite <- uuid_le_length by done; apply zlen_nonneg).
  set (h := take 1 (drop (length pre) b)).
  assert (zlen h = 1) as Hh.
  { unfold h, zlen in *. rewrite length_take, length_drop. lia. }
  unfold at_pos at 1. unfold MAX_ADV_DATA_LEN in Hb.
  rewrite (u8_small (zlen pre + 1)) by (unfold is_u8; lia).
  rewrite (over_skip pre b 1). fold h.
  replace (zlen pre + 1) with (zlen (pre ++ h)) by (rewrite zlen_app; lia).
  fold (at_pos (pre ++ h)). rewrite emit_spec by (rewrite zlen_app; change (zlen [ad_type]) with 1; lia).
  cbn [mbind option_bind].
  rewrite emit_uuid_spec by (try done; rewrite !zlen_app; change (zlen [ad_type]) with 1; lia).
  cbn [mbind option_bind].
  rewrite serialize_uuids_loop_added by
    (try done; rewrite !zlen_app, uuid_le_length by done; change (zlen [ad_type]) with 1; lia).
  by rewrite <- !app_assoc.
Qed.

Lemma serialize_uuids_spec l t ad_type pre :
  Forall Uuid.uuid_ok l ->
  let W := match omap (le_of_type t) l with
           | [] => []
           | les => field_wire (ad_type, concat les)
           end in
  zlen pre + zlen W <= zlen b ->
  serialize_uuids l t ad_type (at_pos pre) = Some (at_pos (pre ++ W)).
Proof using All.
  intros Hl W Hfit. unfold serialize_uuids.
  rewrite serialize_uuids_loop_none; [|done|].
  2:{ intros Hne. unfold W in Hfit. destruct (omap (le_of_type t) l); [done|].
      rewrite zlen_field_wire in Hfit. cbn [snd] in Hfit. lia. }
  cbn [mbind option_bind]. unfold W in *. destruct (omap (le_of_type t) l) as [|x les].
  { by rewrite app_nil_r. }
  rewrite zlen_field_wire in Hfit. cbn [snd] in Hfit. set (d := concat (x :: les)) in *.
  pose proof (zlen_nonneg d). pose proof (zlen_nonneg pre). unfold MAX_ADV_DATA_LEN in Hb.
  set (h := take 1 (drop (length pre) b)).
  assert (zlen h = 1) as Hh.
  { unfold h, zlen in *. rewrite length_take, length_drop. lia. }
  unfold at_pos, put_u8. rewrite !zlen_app, Hh. change (zlen [ad_type]) with 1.
  replace (zlen pre + (1 + (1 + zlen d)) - zlen pre - 1) with (zlen d + 1) by lia.
  rewrite u8_small by (unfold is_u8; lia). unfold over, field_wire. cbn [fst snd].
  rewrite <- !app_assoc. rewrite st_mid by done. cbn [mbind option_bind].
  rewrite !zlen_app. change (zlen [zlen d + 1; ad_type]) with 2.
  replace (zlen pre + (1 + (1 + zlen d))) with (zlen pre + (2 + zlen d)) by lia.
  rewrite !length_app. unfold zlen in Hh. cbn [length]. 
  replace (length h) with 1%nat by lia. done.
Qed.

(** The encodings of the UUIDs of each width. *)
Lemma les_of_type l :
  Forall Uuid.uuid_ok l ->
  omap (le_of_type 16) l = le_bytes 2 <$> omap is16 l /\
  omap (le_of_type 32) l = le_bytes 4 <$> omap is32 l /\
  omap (le_of_type 128) l = swap <$> omap is128 l.
Proof using Type.
  induction 1 as [|u l Hu Hl (H1 & H2 & H3)]; [done|].
  destruct u as [|v|v|d]; [done|..]; cbn [omap list_omap is16 is32 is128];
    fold (omap (le_of_type 16) l) (omap (le_of_type 32) l) (omap (le_of_type 128) l)
      (omap is16 l) (omap is32 l) (omap is128 l);
    rewrite H1, H2, H3; done.
Qed.

Lemma serialize_group {A} (f : list A -> piece) (g : A -> bytes) l k t ad_type pre :
  Forall Uuid.uuid_ok l -> omap (le_of_type t) l = g <$> k ->
  (forall k, piece_field (f k) = (ad_type, concat (g <$> k))) ->
  zlen pre + zlen (wire_of (group f k)) <= zlen b ->
  serialize_uuids l t ad_type (at_pos pre) = Some (at_pos (pre ++ wire_of (group f k))).
Proof using All.
  intros Hl Hk Hf Hfit.
  assert (wire_of (group f k) = match omap (le_of_type t) l with
           | [] => []
           | les => field_wire (ad_type, concat les)
           end) as HW.
  { rewrite Hk. destruct k as [|x k]; [done|]. cbn [group]. rewrite wire_of_one, Hf. done. }
  rewrite HW in *. by apply serialize_uuids_spec.
Qed.

Lemma serialize_service_uuids_spec l pre :
  Forall Uuid.uuid_ok l ->
  zlen pre + zlen (wire_of (service_pieces l)) <= zlen b ->
  serialize_service_uuids l (at_pos pre) = Some (at_pos (pre ++ wire_of (service_pieces l))).
Proof using All.
  intros Hl Hfit. destruct (les_of_type l Hl) as (H1 & H2 & H3).
  unfold service_pieces, serialize_service_uuids in *. rewrite !wire_of_app, !zlen_app in *.
  pose proof (zlen_nonneg (wire_of (group (PUuid32 EIR_UUID32_ALL) (omap is32 l)))).
  pose proof (zlen_nonneg (wire_of (group (PUuid128 EIR_UUID128_ALL) (omap is128 l)))).
  rewrite (serialize_group (PUuid16 EIR_UUID16_ALL) _ _ _ _ _ _ Hl H1) by (done || lia).
  cbn [mbind option_bind].
  rewrite (serialize_group (PUuid32 EIR_UUID32_ALL) _ _ _ _ _ _ Hl H2)
    by (rewrite ?zlen_app; done || lia).
  cbn [mbind option_bind].
  rewrite (serialize_group (PUuid128 EIR_UUID128_ALL) _ _ _ _ _ _ Hl H3)
    by (rewrite ?zlen_app; done || lia).
  by rewrite <- !app_assoc.
Qed.

Lemma serialize_solicit_uuids_spec l pre :
  Forall Uuid.uuid_ok l ->
  zlen pre + zlen (wire_of (solicit_pieces l)) <= zlen b ->
  serialize_solicit_uuids l (at_pos pre) = Some (at_pos (pre ++ wire_of (solicit_pieces l))).
Proof using All.
  intros Hl Hfit. destruct (les_of_type l Hl) as (H1 & H2 & H3).
  unfold solicit_pieces, serialize_solicit_uuids in *. rewrite !wire_of_app, !zlen_app in *.
  pose proof (zlen_nonneg (wire_of (group (fun k => PSolicit EIR_SOLICIT32 (concat (le_bytes 4 <$> k)))
    (omap is32 l)))).
  pose proof (zlen_nonneg (wire_of (group (fun k => PSolicit EIR_SOLICIT128 (concat (swap <$> k)))
    (omap is128 l)))).
  rewrite (serialize_group (fun k => PSolicit _ (concat (le_bytes 2 <$> k))) _ _ _ _ _ _ Hl H1)
    by (done || lia).
  cbn [mbind option_bind].
  rewrite (serialize_group (fun k => PSolicit _ (concat (le_bytes 4 <$> k))) _ _ _ _ _ _ Hl H2)
    by (rewrite ?zlen_app; done || lia).
  cbn [mbind option_bind].
  rewrite (serialize_group (fun k => PSolicit _ (concat (swap <$> k))) _ _ _ _ _ _ Hl H3)
    by (rewrite ?zlen_app; done || lia).
  by rewrite <- !app_assoc.
Qed.

(** *** Data *)

Lemma serialize_manuf_data_spec l pre :
  Forall (fun m => is_u16 (manufacturer_id m) /\ zlen (manuf_data m) = manuf_len m) l ->
  zlen pre + zlen (wire_of (manuf_piece <$> l)) <= zlen b ->
  serialize_manuf_data l (at_pos pre) = Some (at_pos (pre ++ wire_of (manuf_piece <$> l))).
Proof using All.
  intros Hl. revert pre. induction Hl as [|m l [Hid Hm] Hl IH]; intros pre Hfit.
  { cbn. by rewrite app_nil_r. }
  rewrite fmap_cons in *. rewrite wire_of_cons, zlen_app, zlen_field_wire in *.
  cbn [manuf_piece piece_field snd] in *. rewrite zlen_app, Hm in Hfit.
  change (zlen (le_bytes 2 _)) with 2 in Hfit.
  pose proof (zlen_nonneg (wire_of (manuf_piece <$> l))). pose proof (zlen_nonneg pre).
  pose proof (zlen_nonneg (manuf_data m)). unfold MAX_ADV_DATA_LEN in Hb.
  cbn [serialize_manuf_data]. rewrite (u8_small (_ + 2 + 1)) by (unfold is_u8; lia).
  rewrite emit_spec by (change (zlen [_]) with 1; lia). cbn [mbind option_bind].
  rewrite emit_spec by (rewrite zlen_app; change (zlen [_]) with 1; lia). cbn [mbind option_bind].
  rewrite emit_spec by (rewrite !zlen_app; change (zlen [_]) with 1;
    change (zlen (le_bytes 2 _)) with 2; lia). cbn [mbind option_bind].
  rewrite ld_all by lia. cbn [mbind option_bind].
  rewrite emit_spec by (rewrite !zlen_app; change (zlen [_]) with 1;
    change (zlen (le_bytes 2 _)) with 2; lia). cbn [mbind option_bind].
  unfold field_wire. cbn [fst snd]. rewrite zlen_app, Hm. change (zlen (le_bytes 2 _)) with 2.
  replace (2 + manuf_len m + 1) with (manuf_len m + 2 + 1) by lia.
  rewrite IH.
  2:{ rewrite !zlen_app. change (zlen [_]) with 1. change (zlen (le_bytes 2 _)) with 2. lia. }
  by rewrite <- !app_assoc.
Qed.

Lemma serialize_service_data_spec l pre :
  Forall (fun s => Uuid.uuid_ok (svc_uuid s) /\ zlen (svc_data s) = svc_len s) l ->
  zlen pre + zlen (wire_of (svc_piece <$> l)) <= zlen b ->
  serialize_service_data l (at_pos pre) = Some (at_pos (pre ++ wire_of (svc_piece <$> l))).
Proof using All.
  intros Hl. revert pre. induction Hl as [|s l [Hu Hs] Hl IH]; intros pre Hfit.
  { cbn. by rewrite app_nil_r. }
  rewrite fmap_cons in *. rewrite wire_of_cons, zlen_app, zlen_field_wire in *.
  cbn [svc_piece piece_field snd] in *. rewrite zlen_app, Hs, uuid_le_length in Hfit by done.
  pose proof (zlen_nonneg (wire_of (svc_piece <$> l))). pose proof (zlen_nonneg pre).
  pose proof (zlen_nonneg (svc_data s)). unfold MAX_ADV_DATA_LEN in Hb.
  assert (0 <= Uuid.bt_uuid_len (svc_uuid s)) by (rewrite <- uuid_le_length by done; apply zlen_nonneg).
  cbn [serialize_service_data]. rewrite (u8_small (_ + _ + 1)) by (unfold is_u8; lia).
  rewrite emit_spec by (change (zlen [_]) with 1; lia). cbn [mbind option_bind].
  set (t := service_data_type (to_sdp (svc_uuid s))).
  match goal with |- (?e ≫= _) = _ =>
    assert (e = emit (at_pos (pre ++ [Uuid.bt_uuid_len (svc_uuid s) + svc_len s + 1])) [t]) as -> end.
  { unfold t. destruct (svc_uuid s); done. }
  rewrite emit_spec by (rewrite zlen_app; change (zlen [_]) with 1; lia). cbn [mbind option_bind].
  rewrite emit_uuid_spec by (rewrite ?zlen_app; change (zlen [_]) with 1; done || lia).
  cbn [mbind option_bind]. rewrite ld_all by lia. cbn [mbind option_bind].
  rewrite emit_spec by (rewrite !zlen_app, uuid_le_length by done; change (zlen [_]) with 1; lia).
  cbn [mbind option_bind].
  unfold field_wire. cbn [fst snd]. rewrite zlen_app, Hs, uuid_le_length by done.
  rewrite IH.
  2:{ rewrite !zlen_app, uuid_le_length by done. change (zlen [_]) with 1. lia. }
  by rewrite <- !app_assoc.
Qed.
End serialize.

(** ** The generated data *)

Lemma base_spec {A} a N (f : cursor -> ub A) :
  ad_ok a -> 0 <= N <= MAX_ADV_DATA_LEN -> base_length a <= N ->
  (s ← serialize_service_uuids (service_uuids a) (replicate (Z.to_nat N) 0, 0);
   s ← serialize_solicit_uuids (solicit_uuids a) s;
   s ← serialize_manuf_data (manufacturer_data a) s;
   s ← serialize_service_data (service_data a) s;
   f s)
  = f (at_pos (replicate (Z.to_nat N) 0) (wire_of (base_pieces a))).
Proof.
  intros [Hsvc Hsol Hm Hs _ _ _] HN Hfit. set (b := replicate (Z.to_nat N) 0).
  assert (zlen b = N) as HbN by (unfold b, zlen; rewrite length_replicate; lia).
  assert (zlen b <= MAX_ADV_DATA_LEN) as Hb by lia.
  unfold base_length, base_pieces in *. rewrite !wire_of_app, !zlen_app in *.
  pose proof (zlen_nonneg (wire_of (service_pieces (service_uuids a)))).
  pose proof (zlen_nonneg (wire_of (solicit_pieces (solicit_uuids a)))).
  pose proof (zlen_nonneg (wire_of (manuf_piece <$> manufacturer_data a))).
  pose proof (zlen_nonneg (wire_of (svc_piece <$> service_data a))).
  change (b, 0) with (at_pos b []).
  rewrite serialize_service_uuids_spec by (try done; change (zlen []) with 0; lia).
  cbn [mbind option_bind app].
  rewrite serialize_solicit_uuids_spec by (done || lia). cbn [mbind option_bind].
  rewrite serialize_manuf_data_spec by (try done; rewrite zlen_app; lia). cbn [mbind option_bind].
  rewrite serialize_service_data_spec by (try done; rewrite !zlen_app; lia).
  cbn [mbind option_bind]. by rewrite <- !app_assoc.
Qed.

Lemma int_strlen_small s : zlen s < 2 ^ 31 -> int_strlen s = zlen s.
Proof.
  intros Hs. pose proof (zlen_nonneg s). unfold int_strlen.
  rewrite u32_small by (unfold is_u32; lia). by rewrite (proj2 (Z.ltb_lt _ _)) by lia.
Qed.

Lemma serialize_name_spec b pre s :
  zlen b <= MAX_ADV_DATA_LEN -> zlen pre <= 29 -> zlen s < 2 ^ 31 ->
  let room := MAX_ADV_DATA_LEN - (zlen pre + 2) in
  let p := PName (if room <? zlen s then EIR_NAME_SHORT else EIR_NAME_COMPLETE)
             (take (Z.to_nat room) s) in
  zlen pre + zlen (wire_of [p]) <= zlen b ->
  serialize_name (Some s) (at_pos b pre) = Some (at_pos b (pre ++ wire_of [p])).
Proof.
  intros Hb Hpre Hs room p Hfit. rewrite zlen_wire_of_one in Hfit. cbn [p piece_field snd] in Hfit.
  pose proof (zlen_nonneg s). pose proof (zlen_nonneg pre). unfold MAX_ADV_DATA_LEN in *.
  assert (zlen (take (Z.to_nat room) s) = Z.min room (zlen s)) as Hlen.
  { unfold zlen. rewrite length_take. lia. }
  assert ((if room <? zlen s then room else zlen s) = Z.min room (zlen s)) as Hmin.
  { destruct (Z.ltb_spec room (zlen s)); lia. }
  rewrite Hlen in Hfit. unfold serialize_name. cbn [at_pos snd]. unfold MAX_ADV_DATA_LEN.
  rewrite int_strlen_small by done.
  fold room. fold (at_pos b pre). rewrite Hmin.
  rewrite u8_small by (unfold is_u8; lia).
  rewrite emit_spec by (unfold MAX_ADV_DATA_LEN; done || (change (zlen [_]) with 1; lia)).
  cbn [mbind option_bind].
  rewrite emit_spec by (unfold MAX_ADV_DATA_LEN; done || (rewrite zlen_app; change (zlen [_]) with 1; lia)).
  cbn [mbind option_bind]. rewrite ld_is_Some by lia. rewrite drop_0. cbn [mbind option_bind].
  assert (take (Z.to_nat (Z.min room (zlen s))) s = take (Z.to_nat room) s) as ->.
  { destruct (Z.min_spec room (zlen s)) as [[_ ->]|[? ->]]; [done|].
    unfold zlen in *. rewrite Nat2Z.id, !take_ge by lia. done. }
  rewrite emit_spec by (unfold MAX_ADV_DATA_LEN; done || (rewrite !zlen_app, Hlen; change (zlen [_]) with 1; lia)).
  rewrite wire_of_one. unfold field_wire. cbn [p piece_field fst snd]. rewrite Hlen.
  by rewrite <- !app_assoc.
Qed.

Lemma serialize_appearance_spec b pre a :
  zlen b <= MAX_ADV_DATA_LEN -> zlen pre + zlen (wire_of (appearance_pieces a)) <= zlen b ->
  serialize_appearance (ad_appearance a) (at_pos b pre)
    = Some (at_pos b (pre ++ wire_of (appearance_pieces a))).
Proof.
  intros Hb. unfold appearance_pieces, serialize_appearance.
  destruct (ad_appearance a =? UINT16_MAX); intros Hfit; [by rewrite app_nil_r|].
  rewrite zlen_wire_of_one in Hfit. cbn [piece_field snd] in Hfit.
  change (zlen (le_bytes 2 _)) with 2 in Hfit.
  rewrite emit_spec by (try done; change (zlen [_]) with 1; lia). cbn [mbind option_bind].
  rewrite emit_spec by (try done; rewrite !zlen_app; change (zlen [_]) with 1; lia).
  cbn [mbind option_bind].
  rewrite emit_spec by (try done; rewrite !zlen_app; change (zlen [_]) with 1;
    change (zlen (le_bytes 2 _)) with 2; lia).
  rewrite wire_of_one. by rewrite <- !app_assoc.
Qed.

Lemma emit_overflow b pre l :
  zlen pre <= zlen b < zlen pre + zlen l -> emit (at_pos b pre) l = None.
Proof.
  intros H. unfold emit, at_pos. unfold st at 1. rewrite decide_False; [done|].
  rewrite over_length by lia. lia.
Qed.

(** A name behind 30 or 31 bytes is written outside the block. *)
Lemma serialize_name_overflow b pre s :
  zlen b = MAX_ADV_DATA_LEN -> 30 <= zlen pre <= 31 -> zlen s < 2 ^ 31 ->
  serialize_name (Some s) (at_pos b pre) = None.
Proof.
  intros Hb Hpre Hs. unfold MAX_ADV_DATA_LEN in *. pose proof (zlen_nonneg s).
  unfold serialize_name. cbn [at_pos snd]. unfold MAX_ADV_DATA_LEN. fold (at_pos b pre).
  rewrite int_strlen_small by done.
  set (room := 31 - (zlen pre + 2)). assert (room < 0) by lia.
  rewrite (proj2 (Z.ltb_lt room (zlen s))) by lia.
  destruct (decide (zlen pre = 30)) as [H30|H30].
  - rewrite emit_spec by (unfold MAX_ADV_DATA_LEN; change (zlen [_]) with 1; lia).
    cbn [mbind option_bind].
    by rewrite emit_overflow by (rewrite ?zlen_app; change (zlen [_]) with 1; lia).
  - by rewrite emit_overflow by (change (zlen [_]) with 1; lia).
Qed.

Lemma zlen_ad_pieces a :
  ad_total a <= MAX_ADV_DATA_LEN -> ad_name a = None \/ base_length a <= 29 ->
  zlen (wire_of (ad_pieces a)) = ad_total a /\
  zlen (wire_of (base_pieces a)) + zlen (wire_of (ad_name_pieces a)) <= ad_total a.
Proof.
  intros Htot Hname. unfold ad_pieces. rewrite !wire_of_app, !zlen_app.
  unfold ad_total, ad_name_pieces, appearance_pieces in *. fold (base_length a).
  unfold MAX_ADV_DATA_LEN in *.
  assert (zlen (wire_of (if ad_appearance a =? UINT16_MAX then [] else [PAppearance (ad_appearance a)]))
          = (if ad_appearance a =? UINT16_MAX then 0 else 4)) as ->
    by (destruct (ad_appearance a =? UINT16_MAX); [done|by rewrite zlen_wire_of_one]).
  assert (0 <= (if ad_appearance a =? UINT16_MAX then 0 else 4)) by (destruct (_ =? _); lia).
  destruct (ad_name a) as [s|].
  2:{ change (zlen (wire_of [])) with 0. lia. }
  destruct Hname as [|Hname]; [done|]. rewrite (proj2 (Z.ltb_ge 31 _)) in * by lia.
  rewrite zlen_wire_of_one. cbn [piece_field snd]. pose proof (zlen_nonneg s).
  unfold zlen at 1 3. rewrite length_take. unfold zlen in *. lia.
Qed.

Lemma generate_spec malloc a len :
  ad_ok a -> malloc (ad_total a) = true -> ad_total a <= MAX_ADV_DATA_LEN ->
  ad_name a = None \/ base_length a <= 29 ->
  bt_ad_generate malloc (Some a) len = Some (Some (wire_of (ad_pieces a)), ad_total a).
Proof.
  intros Ha Hmalloc Htot Hname. destruct (zlen_ad_pieces a Htot Hname) as [Hlen Hlen'].
  unfold bt_ad_generate. rewrite calculate_length_spec by done.
  rewrite (proj2 (Z.ltb_ge _ _)) by lia. rewrite Hmalloc. cbn [negb].
  pose proof (zlen_nonneg (wire_of (base_pieces a))).
  pose proof (zlen_nonneg (wire_of (ad_name_pieces a))).
  set (b := replicate (Z.to_nat (ad_total a)) 0).
  assert (zlen b = ad_total a) as Hb by (unfold b, zlen; rewrite length_replicate; lia).
  unfold b. rewrite base_spec by (done || (unfold base_length; lia)). fold b.
  assert (serialize_name (ad_name a) (at_pos b (wire_of (base_pieces a)))
          = Some (at_pos b (wire_of (base_pieces a) ++ wire_of (ad_name_pieces a)))) as ->.
  { unfold ad_name_pieces in *. destruct (ad_name a) as [s|] eqn:Hs; [|cbn; by rewrite app_nil_r].
    destruct Hname as [|Hname]; [done|].
    apply serialize_name_spec; try (unfold base_length in *; lia).
    by apply (ad_name_size a Ha). }
  cbn [mbind option_bind]. unfold ad_pieces in *. rewrite !wire_of_app, !zlen_app in Hlen.
  rewrite serialize_appearance_spec by (rewrite ?zlen_app; lia). cbn [mbind option_bind].
  unfold at_pos. cbn [fst]. do 3 f_equal. rewrite !wire_of_app, app_assoc.
  unfold over. rewrite drop_ge; [apply app_nil_r|]. rewrite !length_app. unfold zlen in *. lia.
Qed.

(** C38. Advertising data are generated exactly: the services, solicitations, manufacturer and
    service data, the name (cut to the room that is left) and the appearance, in at most 31
    bytes; more is refused with NULL and the length that was needed.  A name behind 30 or 31
    bytes of other data overruns the block. *)
Theorem bt_ad_generate_spec malloc a len :
  ad_ok a -> malloc (ad_total a) = true ->
  (MAX_ADV_DATA_LEN < ad_total a -> bt_ad_generate malloc (Some a) len = Some (None, ad_total a)) /\
  (ad_total a <= MAX_ADV_DATA_LEN -> ad_name a = None \/ base_length a <= 29 ->
   bt_ad_generate malloc (Some a) len = Some (Some (wire_of (ad_pieces a)), ad_total a) /\
   zlen (wire_of (ad_pieces a)) = ad_total a) /\
  (ad_total a <= MAX_ADV_DATA_LEN -> ad_name a <> None -> 29 < base_length a ->
   bt_ad_generate malloc (Some a) len = None).
Proof.
  intros Ha Hmalloc. split_and!.
  - intros Htot. unfold bt_ad_generate. rewrite calculate_length_spec by done.
    by rewrite (proj2 (Z.ltb_lt _ _)) by lia.
  - intros Htot Hname. split; [by apply generate_spec|]. by apply zlen_ad_pieces.
  - intros Htot Hname Hbase. unfold bt_ad_generate. rewrite calculate_length_spec by done.
    rewrite (proj2 (Z.ltb_ge _ _)) by lia. rewrite Hmalloc. cbn [negb].
    destruct (ad_name a) as [s|] eqn:Hs; [|done].
    assert (ad_total a = MAX_ADV_DATA_LEN /\ base_length a <= 31) as [Htot' Hbase'].
    { unfold ad_total, MAX_ADV_DATA_LEN in *. rewrite Hs in *. pose proof (zlen_nonneg s).
      destruct (Z.ltb_spec 31 (base_length a)), (ad_appearance a =? UINT16_MAX); lia. }
    rewrite base_spec by (done || (unfold MAX_ADV_DATA_LEN in *; lia)).
    rewrite serialize_name_overflow;
      [done| |unfold base_length in *; lia|by apply (ad_name_size a Ha)].
    unfold zlen. rewrite length_replicate. rewrite Htot'. done.
Qed.

(** Two services, a solicitation, manufacturer and service data, and a name that is cut. *)
Definition sample_ad : bt_ad :=
  Ad 1 (Some [72; 101; 97; 114; 116; 32; 82; 97; 116; 101]) 0x0340
    [Uuid.UUID16 0x180d; Uuid.UUID16 0x180f] [Manuf 0x0059 [1; 2] 2]
    [Uuid.UUID16 0x1805] [SvcData (Uuid.UUID16 0x2a37) [7] 1].

Lemma sample_ad_ok : ad_ok sample_ad.
Proof.
  split; cbn [sample_ad service_uuids solicit_uuids manufacturer_data service_data ad_appearance];
    try (repeat (apply Forall_cons_2; [cbn; unfold is_u16, zlen; cbn; lia|]); by apply Forall_nil).
  - unfold is_u16. lia.
  - vm_compute. reflexivity.
  - intros s [= <-]. vm_compute. reflexivity.
Qed.

Lemma bt_ad_generate_spec_witness :
  bt_ad_generate (fun _ => true) (Some (with_appearance sample_ad UINT16_MAX)) 0
    = Some (Some (wire_of (ad_pieces (with_appearance sample_ad UINT16_MAX))), 31) /\
  wire_of (ad_pieces (with_appearance sample_ad UINT16_MAX))
    = [5; 3; 13; 24; 15; 24; 3; 20; 5; 24; 5; 255; 89; 0; 1; 2; 4; 22; 55; 42; 7;
       9; 8; 72; 101; 97; 114; 116; 32; 82; 97] /\
  bt_ad_generate (fun _ => true) (Some sample_ad) 0 = Some (None, 35).
Proof.
  split; [|split; [vm_compute; reflexivity|]].
  - apply (bt_ad_generate_spec (fun _ => true) (with_appearance sample_ad UINT16_MAX) 0).
    + destruct sample_ad_ok. by split.
    + reflexivity.
    + vm_compute. discriminate.
    + right. vm_compute. discriminate.
  - apply (bt_ad_generate_spec (fun _ => true) sample_ad 0 sample_ad_ok eq_refl).
    vm_compute. reflexivity.
Defined.
