(* ===== verification/AdParse.v ===== *)
(** Generated advertising data are parsed back, and the operations on the contents of an
    advertisement. *)
From Stdlib Require Import ZArith Lia.
From S2P Require Import Prelude Libc Uuid Blocks Eir EirSpec EirOob Ad AdSpec.
From stdpp Require Import base numbers list option gmap.

Local Open Scope Z_scope.

(** ** Parsing what was generated *)

(** The text that lib/uuid.c gives for a UUID. *)
Definition uuid_str (u : Uuid.bt_uuid) : bytes := Uuid.uuid128_text (Uuid.uuid_bytes u).

Definition of_width (t : Z) (l : list Uuid.bt_uuid) : list Uuid.bt_uuid :=
  List.filter (fun u => Uuid.uuid_type u =? t) l.

(** Adding to the base UUID stores the value, the bytes being zero. *)
Lemma sdp_uuid_bytes u : Uuid.uuid_ok u -> uuid_text (to_sdp u) = uuid_str u.
Proof.
  assert (forall n x, le_bytes n (le_val (be_bytes n x)) = be_bytes n x) as Hle.
  { intros n x. rewrite <- (be_bytes_length n x) at 1. apply le_bytes_val, be_bytes_ok. }
  destruct u as [|v|v|d]; [done|..]; intros Hu; unfold uuid_text, uuid_str;
    cbn [to_sdp bt_uuid2string default from_option]; [..|done];
    unfold sdp_uuid16_to_uuid128, sdp_uuid32_to_uuid128, htons, htonl;
    cbn [le_val take drop Uuid.bluetooth_base_uuid].
  - pose proof (le_val_range _ (be_bytes_ok 2 v)) as Hr. change (zlen (be_bytes 2 v)) with 2 in Hr.
    rewrite u16_small by (unfold is_u16; lia). rewrite Z.add_0_l, Hle. done.
  - pose proof (le_val_range _ (be_bytes_ok 4 v)) as Hr. change (zlen (be_bytes 4 v)) with 4 in Hr.
    rewrite u32_small by (unfold is_u32; lia). rewrite Z.add_0_l, Hle. done.
Qed.

Lemma of_width_text l :
  Forall Uuid.uuid_ok l ->
  uuid_text <$> (SDP_UUID16 <$> omap is16 l) = uuid_str <$> of_width 16 l /\
  uuid_text <$> (SDP_UUID32 <$> omap is32 l) = uuid_str <$> of_width 32 l /\
  uuid_text <$> (SDP_UUID128 <$> omap is128 l) = uuid_str <$> of_width 128 l.
Proof.
  induction 1 as [|u l Hu Hl (H1 & H2 & H3)]; [done|]. pose proof (sdp_uuid_bytes u Hu) as Ht.
  destruct u as [|v|v|d]; [done|..]; unfold of_width in *;
    cbn [omap list_omap is16 is32 is128 List.filter Uuid.uuid_type Z.eqb Pos.eqb];
    fold (omap is16 l) (omap is32 l) (omap is128 l);
    rewrite ?fmap_cons, ?H1, ?H2, ?H3, <- ?Ht; done.
Qed.

Definition ad_result (a : bt_ad) (e : eir_data) : eir_data :=
  let room := MAX_ADV_DATA_LEN - (base_length a + 2) in
  Eir (services e ++ (uuid_str <$> (of_width 16 (service_uuids a) ++ of_width 32 (service_uuids a) ++
                                    of_width 128 (service_uuids a)))) 0
    (match ad_name a with Some s => Some (take (Z.to_nat room) s) | None => name e end)
    (class e) (if ad_appearance a =? UINT16_MAX then appearance e else ad_appearance a)
    (match ad_name a with Some s => negb (room <? zlen s) | None => name_complete e end) 127
    (hash e) (randomizer e) (eir_addr e) (did_vendor e) (did_product e) (did_version e)
    (did_source e)
    (msd_list e ++ ((fun m => Msd (manufacturer_id m) (manuf_data m) (manuf_len m))
                    <$> manufacturer_data a))
    (sd_list e ++ ((fun s => Sd (uuid_str (svc_uuid s)) (svc_data s) (svc_len s))
                   <$> service_data a)).

Lemma group_effect {A} (f : list A -> piece) (k : list A) (g : A -> uuid_t) e :
  (forall e l, piece_effect e (f l) = add_services e (g <$> l)) ->
  foldl piece_effect e (group f k) = add_services e (g <$> k).
Proof.
  intros Hf. destruct k as [|x k]; cbn [group foldl]; [by rewrite add_services_nil|apply Hf].
Qed.

Lemma solicit_effect e l : foldl piece_effect e (solicit_pieces l) = e.
Proof.
  unfold solicit_pieces. rewrite !foldl_app.
  by destruct (omap is16 l), (omap is32 l), (omap is128 l).
Qed.

Lemma manuf_effect e l :
  Forall (fun m => is_u16 (manufacturer_id m) /\ zlen (manuf_data m) = manuf_len m) l ->
  foldl piece_effect e (manuf_piece <$> l)
  = set_msd_list e (msd_list e ++
      ((fun m => Msd (manufacturer_id m) (manuf_data m) (manuf_len m)) <$> l)).
Proof.
  intros Hl. revert e. induction Hl as [|m l [_ Hm] Hl IH]; intros e.
  { cbn. rewrite app_nil_r. by destruct e. }
  rewrite !fmap_cons. cbn [foldl manuf_piece piece_effect]. rewrite IH, Hm. cbn.
  by rewrite <- app_assoc.
Qed.

Lemma svc_effect e l :
  Forall (fun s => Uuid.uuid_ok (svc_uuid s) /\ zlen (svc_data s) = svc_len s) l ->
  foldl piece_effect e (svc_piece <$> l)
  = set_sd_list e (sd_list e ++
      ((fun s => Sd (uuid_str (svc_uuid s)) (svc_data s) (svc_len s)) <$> l)).
Proof.
  intros Hl. revert e. induction Hl as [|s l [Hu Hs] Hl IH]; intros e.
  { cbn. rewrite app_nil_r. by destruct e. }
  rewrite !fmap_cons. cbn [foldl svc_piece piece_effect]. rewrite IH, Hs, sdp_uuid_bytes by done.
  unfold set_sd_list. cbn [sd_list services flags name class appearance name_complete tx_power hash
    randomizer eir_addr did_vendor did_product did_version did_source msd_list].
  by rewrite <- app_assoc.
Qed.

Lemma ad_effect a e :
  ad_ok a ->
  foldl piece_effect (set_tx_power (set_flags e 0) 127) (ad_pieces a) = ad_result a e.
Proof.
  intros [Hsvc Hsol Hm Hs _ _ _]. unfold ad_pieces, base_pieces, service_pieces.
  rewrite !foldl_app, solicit_effect.
  rewrite (group_effect (PUuid16 EIR_UUID16_ALL) _ SDP_UUID16),
    (group_effect (PUuid32 EIR_UUID32_ALL) _ SDP_UUID32),
    (group_effect (PUuid128 EIR_UUID128_ALL) _ SDP_UUID128) by done.
  rewrite !add_services_app, manuf_effect, svc_effect by done.
  destruct (of_width_text (service_uuids a) Hsvc) as (H1 & H2 & H3).
  unfold add_services, ad_result. rewrite !fmap_app, H1, H2, H3.
  unfold ad_name_pieces, appearance_pieces.
  destruct (ad_name a), (ad_appearance a =? UINT16_MAX); cbn [foldl piece_effect];
    try (destruct (_ <? _)); reflexivity.
Qed.

(** Every field is shorter than all of them together. *)
Lemma wire_of_bounds l :
  Forall (fun p => zlen (piece_field p).2 <= zlen (wire_of l)) l.
Proof.
  induction l as [|p l IH]; [done|]. rewrite wire_of_cons, zlen_app, zlen_field_wire.
  pose proof (zlen_nonneg (wire_of l)). pose proof (zlen_nonneg (piece_field p).2).
  apply Forall_cons_2; [lia|]. eapply Forall_impl; [exact IH|]. cbn. lia.
Qed.

Section pieces.
Variables (g_utf8_validate : bytes -> bool) (g_strstrip : bytes -> bytes).
Abbreviation piece_ok := (piece_ok g_utf8_validate).

Lemma group_ok {A} (f : list A -> piece) l :
  piece_ok (f l) -> Forall piece_ok (group f l).
Proof. intros Hf. destruct l; [done|]. by apply Forall_singleton. Qed.

Lemma uuid_values_ok l :
  Forall Uuid.uuid_ok l -> Forall is_u16 (omap is16 l) /\ Forall is_u32 (omap is32 l).
Proof.
  induction 1 as [|u l Hu Hl [IH1 IH2]]; [done|].
  destruct u as [|v|v|d]; [done|..]; split; try assumption; apply Forall_cons_2; assumption.
Qed.

Lemma uuid_pieces_ok l :
  Forall Uuid.uuid_ok l ->
  Forall piece_ok (service_pieces l) /\ Forall piece_ok (solicit_pieces l).
Proof.
  intros Hl. destruct (uuid_values_ok l Hl) as [H16 H32]. pose proof (is128_length l Hl) as H128.
  unfold service_pieces, solicit_pieces. rewrite !Forall_app.
  split_and!; apply group_ok; cbn [EirSpec.piece_ok]; try (split; [|assumption]);
    apply (bool_decide_unpack _); reflexivity.
Qed.

Lemma data_pieces_ok a n :
  ad_ok a -> zlen (wire_of (base_pieces a)) <= n -> n <= EIR_MSD_MAX_LEN ->
  Forall piece_ok (base_pieces a).
Proof.
  intros [Hsvc Hsol Hm Hs _ _ _] Hn Hmax. pose proof (wire_of_bounds (base_pieces a)) as Hb.
  unfold base_pieces in *. rewrite !Forall_app in *.
  destruct Hb as (_ & _ & Hbm & Hbs).
  split_and!; [by apply uuid_pieces_ok|by apply uuid_pieces_ok|..].
  - rewrite Forall_fmap in *. unfold EIR_MSD_MAX_LEN in *.
    eapply Forall_impl; [exact (proj2 (Forall_and _ _) (conj Hm Hbm))|].
    intros m [[Hid _] Hlen]. cbn [compose manuf_piece piece_field snd] in Hlen. rewrite zlen_app in Hlen.
    change (zlen (le_bytes 2 (manufacturer_id m))) with 2 in Hlen.
    cbn [compose manuf_piece EirSpec.piece_ok]. split; [exact Hid|]. unfold EIR_MSD_MAX_LEN. lia.
  - rewrite Forall_fmap in *. unfold EIR_MSD_MAX_LEN in *.
    eapply Forall_impl; [exact (proj2 (Forall_and _ _) (conj Hs Hbs))|].
    intros s [[Hu _] Hlen]. cbn [compose svc_piece piece_field snd] in Hlen. cbn [compose svc_piece EirSpec.piece_ok].
    split; [by apply uuid_ok_sdp|]. unfold EIR_SD_MAX_LEN. lia.
Qed.

(** The part of the name that fits. *)
Definition cut_name (a : bt_ad) : bytes :=
  take (Z.to_nat (MAX_ADV_DATA_LEN - (base_length a + 2))) (default [] (ad_name a)).

Lemma ad_pieces_ok a :
  ad_ok a -> base_length a <= MAX_ADV_DATA_LEN -> name_ok g_utf8_validate (cut_name a) ->
  Forall piece_ok (ad_pieces a).
Proof.
  intros Ha Hbase Hname. unfold ad_pieces. rewrite !Forall_app. split_and!.
  - apply (data_pieces_ok a MAX_ADV_DATA_LEN); [done..|]. discriminate.
  - unfold ad_name_pieces. unfold cut_name in Hname.
    destruct (ad_name a); [|done]. cbn [default from_option] in Hname. apply Forall_singleton.
    split; [|exact Hname]. destruct (_ <? _); apply (bool_decide_unpack _); reflexivity.
  - unfold appearance_pieces. destruct (_ =? _); [done|]. apply Forall_singleton. apply Ha.
Qed.

(** C35. What src/shared/ad.c generates is what src/eir.c understands: advertising data that
    fit 31 bytes (with a name in UTF-8 without null bytes in the part that is sent) are
    generated, and parsing them gives back the UUIDs of the services grouped by their width,
    the manufacturer and the service data in order, the name with the mark whether it is
    complete, and the appearance; nothing else of the result changes but the flags and the
    power, which are reset. *)
Theorem ad_parse_roundtrip malloc a len e :
  ad_ok a -> malloc (ad_total a) = true -> ad_total a <= MAX_ADV_DATA_LEN ->
  ad_name a = None \/ base_length a <= 29 -> name_ok g_utf8_validate (cut_name a) ->
  exists d, bt_ad_generate malloc (Some a) len = Some (Some d, zlen d) /\
    eir_parse g_utf8_validate g_strstrip e (Some (d, 0)) (zlen d) = Some (ad_result a e).
Proof.
  intros Ha Hmalloc Htot Hbase Hname. destruct (zlen_ad_pieces a Htot Hbase) as [Hlen Hlen'].
  exists (wire_of (ad_pieces a)). split; [rewrite Hlen; by apply generate_spec|].
  pose proof (zlen_nonneg (wire_of (ad_name_pieces a))). fold (base_length a) in Hlen'.
  pose proof (parse_loop_fields g_utf8_validate g_strstrip (piece_field <$> ad_pieces a)
    (S (Z.to_nat (ad_total a))) (set_tx_power (set_flags e 0) 127) [] [] 0 (ad_total a)) as Hloop.
  fold (wire_of (ad_pieces a)) in Hloop. rewrite app_nil_r, Hlen in Hloop.
  cbn [app] in Hloop. change (zlen (@nil Z)) with 0 in Hloop.
  unfold eir_parse. rewrite Hlen, Hloop
    by (pose proof (zlen_nonneg (wire_of (base_pieces a))); unfold base_length, MAX_ADV_DATA_LEN,
        UINT8_MAX in *; lia).
  rewrite pieces_parse by (apply ad_pieces_ok; done || lia). f_equal. by apply ad_effect.
Qed.
End pieces.

Lemma ad_parse_roundtrip_witness :
  let a := with_appearance sample_ad UINT16_MAX in
  exists d, bt_ad_generate (fun _ => true) (Some a) 0 = Some (Some d, zlen d) /\
    eir_parse (fun _ => true) (fun s => s)
      (Eir [] 0 None 0 0 false 0 None None [] 0 0 0 0 [] []) (Some (d, 0)) (zlen d)
    = Some (ad_result a (Eir [] 0 None 0 0 false 0 None None [] 0 0 0 0 [] [])).
Proof.
  apply (ad_parse_roundtrip (fun _ => true) (fun s => s)).
  - destruct sample_ad_ok. by split.
  - reflexivity.
  - vm_compute. discriminate.
  - right. vm_compute. discriminate.
  - split; [reflexivity|]. apply (bool_decide_unpack _). vm_compute. reflexivity.
Defined.
