(* ===== verification/AdOps.v ===== *)
(** The contents of an advertisement: manufacturer and service data as finite maps, and what
    the operations that remove something do. *)
From Stdlib Require Import ZArith Lia.
From S2P Require Import Prelude Libc Uuid Blocks Eir Ad.
From stdpp Require Import base numbers list option gmap fin_maps.

Local Open Scope Z_scope.

(** ** Searching *)

Lemma split_find_ub_some {A} (f : A -> ub bool) l1 x l2 :
  Forall (fun y => f y = Some false) l1 -> f x = Some true ->
  split_find_ub f (l1 ++ x :: l2) = Some (Some (l1, x, l2)).
Proof.
  intros Hl Hx. induction Hl as [|y l1 Hy Hl IH]; cbn [app split_find_ub].
  - by rewrite Hx.
  - rewrite Hy. cbn [mbind option_bind]. by rewrite IH.
Qed.

Lemma split_find_ub_none {A} (f : A -> ub bool) l :
  Forall (fun y => f y = Some false) l -> split_find_ub f l = Some None.
Proof.
  intros Hl. induction Hl as [|y l Hy Hl IH]; [done|]. cbn [split_find_ub].
  rewrite Hy. cbn [mbind option_bind]. by rewrite IH.
Qed.

(** The first element with a decidable property, if there is one. *)
Lemma first_split {A} (P : A -> Prop) `{forall x, Decision (P x)} l :
  (exists l1 x l2, l = l1 ++ x :: l2 /\ Forall (fun y => ~ P y) l1 /\ P x) \/
  Forall (fun y => ~ P y) l.
Proof.
  induction l as [|x l IH]; [by right|]. destruct (decide (P x)) as [Hx|Hx].
  { left. exists [], x, l. done. }
  destruct IH as [(l1 & y & l2 & -> & Hl1 & Hy)|Hl].
  - left. exists (x :: l1), y, l2. split_and!; [done|by apply Forall_cons_2|done].
  - right. by apply Forall_cons_2.
Qed.

(** ** Keyed data

    What the two lists of data have in common: an entry has a key and data of a length, which
    can be replaced. *)
Class Keyed (E K : Type) := {
  key : E -> K;
  payload : E -> bytes;
  size : E -> Z;
  set_payload : E -> bytes -> Z -> E;
}.

Class KeyedLaws (E K : Type) `{Keyed E K} := {
  key_set : forall e d n, key (set_payload e d n) = key e;
  payload_set : forall e d n, payload (set_payload e d n) = d;
  size_set : forall e d n, size (set_payload e d n) = n;
}.

Section keyed.
Context {E K : Type} `{KeyedLaws E K} `{Countable K}.

Definition entries (l : list E) : gmap K bytes :=
  list_to_map ((fun e => (key e, payload e)) <$> l).

Record entries_ok (l : list E) : Prop := {
  keys_distinct : NoDup (key <$> l);
  sizes_exact : Forall (fun e => zlen (payload e) = size e) l;
}.

(** Whether an entry holds some data. *)
Definition same_data (e : E) (data : bytes) (len : Z) : ub bool :=
  if size e =? len then
    d1 ← ld (payload e) 0 len;
    d2 ← ld data 0 len;
    Some (Libc.memcmp d1 d2 =? 0)
  else Some false.

(** The body of both operations that add data. *)
Definition add_entry (malloc realloc : Z -> bool) (found : E -> ub bool) (new : bytes -> E)
    (l : list E) (data : bytes) (len : Z) : ub (bool * list E) :=
  r ← split_find_ub found l;
  match r with
  | Some (l1, x, l2) =>
    same ← same_data x data len;
    if same : bool then Some (false, l)
    else
      d ← replace_data realloc (payload x) len data;
      Some (true, l1 ++ set_payload x d len :: l2)
  | None =>
    if negb (malloc len) then Some (false, l)
    else
      d ← ld data 0 len;
      Some (true, l ++ [new d])
  end.

Lemma entries_fst (l : list E) : ((fun e => (key e, payload e)) <$> l).*1 = key <$> l.
Proof. rewrite <- list_fmap_compose. done. Qed.

Lemma entries_lookup l1 x l2 :
  Forall (fun e => key e <> key x) l1 -> entries (l1 ++ x :: l2) !! key x = Some (payload x).
Proof.
  intros Hl. unfold entries. induction Hl as [|y l1 Hy Hl IH]; cbn.
  - apply lookup_insert_eq.
  - rewrite lookup_insert_ne by done. exact IH.
Qed.

Lemma entries_lookup_none l k :
  Forall (fun e => key e <> k) l -> entries l !! k = None.
Proof.
  intros Hl. unfold entries. induction Hl as [|y l Hy Hl IH]; cbn; [done|].
  by rewrite lookup_insert_ne.
Qed.

Lemma entries_domain l k : is_Some (entries l !! k) <-> k ∈ key <$> l.
Proof.
  destruct (first_split (fun e => key e = k) l) as [(l1 & x & l2 & -> & Hl1 & <-)|Hnone].
  - rewrite entries_lookup by done. split; [|by eexists]. intros _.
    apply list_elem_of_fmap. exists x. split; [done|]. apply elem_of_app. right. left.
  - rewrite entries_lookup_none by done. split; [by intros [? ?]|].
    intros (y & -> & Hy)%list_elem_of_fmap. by destruct (proj1 (Forall_forall _ _) Hnone y Hy).
Qed.

Lemma entries_delete l1 x l2 :
  NoDup (key <$> (l1 ++ x :: l2)) ->
  entries (l1 ++ l2) = delete (key x) (entries (l1 ++ x :: l2)).
Proof.
  induction l1 as [|y l1 IH]; cbn [app]; rewrite fmap_cons, NoDup_cons; intros [Hx Hnd].
  - unfold entries. cbn. rewrite delete_insert_id; [done|].
    apply eq_None_not_Some. fold (entries l2). by rewrite entries_domain.
  - specialize (IH Hnd). unfold entries in *. cbn. rewrite IH. rewrite delete_insert_ne; [done|].
    intros Heq. apply Hx. rewrite <- Heq. apply list_elem_of_fmap. exists x. split; [done|].
    apply elem_of_app. right. left.
Qed.

Lemma entries_set l1 x l2 d n :
  Forall (fun e => key e <> key x) l1 ->
  entries (l1 ++ set_payload x d n :: l2) = <[key x := d]> (entries (l1 ++ x :: l2)).
Proof using All.
  intros Hl. unfold entries. induction Hl as [|y l1 Hy Hl IH]; cbn.
  - rewrite key_set, payload_set. by rewrite insert_insert_eq.
  - rewrite IH. by rewrite insert_insert_ne.
Qed.

Lemma entries_snoc l x :
  Forall (fun e => key e <> key x) l ->
  entries (l ++ [x]) = <[key x := payload x]> (entries l).
Proof.
  intros Hl. unfold entries. induction Hl as [|y l Hy Hl IH]; cbn; [done|].
  rewrite IH. by rewrite insert_insert_ne.
Qed.

Lemma same_data_spec e data len :
  zlen (payload e) = size e -> 0 <= len <= zlen data ->
  same_data e data len = Some (bool_decide (payload e = take (Z.to_nat len) data)).
Proof.
  intros He Hl. unfold same_data. destruct (Z.eqb_spec (size e) len) as [<-|Hne].
  - rewrite (ld_all (payload e)) by done. cbn [mbind option_bind].
    rewrite ld_is_Some by lia. cbn [mbind option_bind]. rewrite drop_0. f_equal.
    apply eq_bool_prop_intro. rewrite bool_decide_spec, <- Libc.memcmp_eq.
    + by rewrite Is_true_true, Z.eqb_eq.
    + rewrite length_take. unfold zlen in *. lia.
  - f_equal. symmetry. apply bool_decide_eq_false. intros Heq. apply Hne. rewrite <- He, Heq.
    apply zlen_take. lia.
Qed.

Lemma replace_data_spec realloc old len data :
  realloc len = true \/ len = 0 -> 0 <= len <= zlen data ->
  replace_data realloc old len data = Some (take (Z.to_nat len) data).
Proof.
  intros Hr Hl. unfold replace_data. rewrite ld_is_Some, drop_0 by lia.
  destruct Hr as [-> | ->]; [done|]. by rewrite orb_true_r.
Qed.

(** What adding data promises of the entries: the map is updated, a new key goes to the end,
    and nothing else is lost. *)
Definition added (l l' : list E) (r : bool) (k : K) (d : bytes) : Prop :=
  entries_ok l' /\
  entries l' = (if r then <[k := d]> (entries l) else entries l) /\
  key <$> l' = (key <$> l) ++ (if r && bool_decide (k ∉ key <$> l) then [k] else []).

Lemma added_none l k d : entries_ok l -> added l l false k d.
Proof. intros Hok. split_and!; [done..|by rewrite app_nil_r]. Qed.

Lemma added_set l1 x l2 d n :
  entries_ok (l1 ++ x :: l2) -> Forall (fun e => key e <> key x) l1 -> zlen d = n ->
  added (l1 ++ x :: l2) (l1 ++ set_payload x d n :: l2) true (key x) d.
Proof using All.
  intros [Hnd Hsz] Hl1 Hd.
  assert (key <$> (l1 ++ set_payload x d n :: l2) = key <$> (l1 ++ x :: l2)) as Hk.
  { by rewrite !fmap_app, !fmap_cons, key_set. }
  split_and!; [|by apply entries_set|].
  - split; [by rewrite Hk|]. rewrite Forall_app, Forall_cons in *.
    split_and!; [apply Hsz| |apply Hsz]. by rewrite payload_set, size_set.
  - rewrite bool_decide_eq_false_2; [by rewrite app_nil_r|]. intros Hn. apply Hn.
    apply entries_domain. eexists. by apply entries_lookup.
Qed.

Lemma added_snoc l x :
  entries_ok l -> Forall (fun e => key e <> key x) l -> zlen (payload x) = size x ->
  added l (l ++ [x]) true (key x) (payload x).
Proof.
  intros [Hnd Hsz] Hl Hx.
  assert (key x ∉ key <$> l) as Hnin.
  { rewrite <- entries_domain, entries_lookup_none by done. by intros [? ?]. }
  split_and!; [|by apply entries_snoc|].
  - split; [|apply Forall_app_2; [done|by apply Forall_singleton]].
    rewrite fmap_app. apply NoDup_app. split_and!; [done| |apply NoDup_singleton].
    by intros y Hy ->%list_elem_of_singleton.
  - rewrite fmap_app. cbn [andb]. by rewrite bool_decide_eq_true_2.
Qed.

(** Searching by key. *)
Lemma find_entry (found : E -> ub bool) l k :
  Forall (fun e => found e = Some (bool_decide (key e = k))) l ->
  (exists l1 x l2, l = l1 ++ x :: l2 /\ key x = k /\ Forall (fun e => key e <> k) l1 /\
     split_find_ub found l = Some (Some (l1, x, l2))) \/
  (Forall (fun e => key e <> k) l /\ split_find_ub found l = Some None).
Proof.
  intros Hfound.
  assert (forall l', Forall (fun e => found e = Some (bool_decide (key e = k))) l' ->
    Forall (fun e => key e <> k) l' -> Forall (fun e => found e = Some false) l') as Hfalse.
  { intros l' H1' H2'. eapply Forall_impl; [exact (proj2 (Forall_and _ _) (conj H1' H2'))|].
    intros y [-> Hy]. by rewrite bool_decide_eq_false_2. }
  destruct (first_split (fun e => key e = k) l) as [(l1 & x & l2 & -> & Hl1 & <-)|Hnone].
  - left. exists l1, x, l2. split_and!; [done..|].
    rewrite Forall_app, Forall_cons in Hfound. destruct Hfound as (Hf1 & Hfx & Hf2).
    apply split_find_ub_some; [by apply Hfalse|]. by rewrite Hfx, bool_decide_eq_true_2.
  - right. split; [done|]. apply split_find_ub_none. by apply Hfalse.
Qed.

(** Adding is insertion into the map, refused when the data are there already (or memory is
    not). *)
Lemma add_entry_spec malloc realloc found new l k data len :
  entries_ok l -> 0 <= len <= zlen data -> realloc len = true \/ len = 0 ->
  Forall (fun e => found e = Some (bool_decide (key e = k))) l ->
  (forall d, key (new d) = k /\ payload (new d) = d /\ size (new d) = len) ->
  let d := take (Z.to_nat len) data in
  exists r l', add_entry malloc realloc found new l data len = Some (r, l') /\ added l l' r k d /\
    (r = true <-> entries l !! k <> Some d /\ (malloc len = true \/ is_Some (entries l !! k))) /\
    (forall P : E -> Prop, Forall P l -> (forall x, P x -> P (set_payload x d len)) -> P (new d) ->
     Forall P l').
Proof using All.
  intros Hok Hl Hrealloc Hfound Hnew d. unfold add_entry.
  assert (zlen d = len) as Hd by (apply zlen_take; lia).
  destruct (find_entry found l k Hfound)
    as [(l1 & x & l2 & -> & <- & Hl1 & ->)|[Hnone ->]].
  - assert (zlen (payload x) = size x) as Hx.
    { destruct Hok as [_ Hsz]. rewrite Forall_app, Forall_cons in Hsz. apply Hsz. }
    cbn [mbind option_bind]. rewrite same_data_spec by done. fold d. cbn [mbind option_bind].
    rewrite entries_lookup by done. case_bool_decide as Heq.
    + eexists _, _. split_and!; [done|by apply added_none| |done].
      split; [done|]. intros [Hn _]. by rewrite Heq in Hn.
    + rewrite replace_data_spec by done. cbn [mbind option_bind]. fold d.
      eexists _, _. split_and!; [done|by apply added_set| |].
      * split; [|done]. intros _. split; [congruence|]. right. by eexists.
      * intros P. rewrite !Forall_app, !Forall_cons. naive_solver.
  - cbn [mbind option_bind]. rewrite entries_lookup_none by done.
    destruct (malloc len); cbn [negb].
    + rewrite ld_is_Some, drop_0 by lia. cbn [mbind option_bind]. fold d.
      destruct (Hnew d) as (Hk & Hp & Hs). eexists _, _. split_and!; [done| | |].
      * pose proof (added_snoc l (new d) Hok) as Hadd. rewrite Hk, Hp, Hs in Hadd. by apply Hadd.
      * split; [|done]. intros _. split; [done|by left].
      * intros P HP _ Hnew'. apply Forall_app_2; [done|]. by apply Forall_singleton.
    + eexists _, _. split_and!; [done|by apply added_none| |done].
      split; [done|]. by intros [_ [?|[? ?]]].
Qed.

End keyed.

#[export] Instance manuf_keyed : Keyed bt_ad_manufacturer_data Z := {
  key := manufacturer_id;
  payload := manuf_data;
  size := manuf_len;
  set_payload m d n := Manuf (manufacturer_id m) d n;
}.
#[export] Instance manuf_keyed_laws : KeyedLaws bt_ad_manufacturer_data Z.
Proof. by split. Qed.

#[export] Instance svc_keyed : Keyed bt_ad_service_data bytes := {
  key s := Uuid.uuid_bytes (svc_uuid s);
  payload := svc_data;
  size := svc_len;
  set_payload s d n := SvcData (svc_uuid s) d n;
}.
#[export] Instance svc_keyed_laws : KeyedLaws bt_ad_service_data bytes.
Proof. by split. Qed.

Definition manuf_map (a : bt_ad) : gmap Z bytes := entries (manufacturer_data a).
Definition svc_map (a : bt_ad) : gmap bytes bytes := entries (service_data a).

Definition uuids_ok (l : list bt_ad_service_data) : Prop :=
  Forall (fun s => Uuid.uuid_ok (svc_uuid s)) l.

Lemma with_manufacturer_data_same a : with_manufacturer_data a (manufacturer_data a) = a.
Proof. by destruct a. Qed.
Lemma with_service_data_same a : with_service_data a (service_data a) = a.
Proof. by destruct a. Qed.

(** The operations on an object are [add_entry] behind a bound on the length. *)
Lemma add_manufacturer_data_entry malloc realloc a id data len :
  len <= 27 ->
  bt_ad_add_manufacturer_data malloc realloc (Some a) id data len
  = ('(r, l) ← add_entry malloc realloc (fun m => Some (manufacturer_id_data_match m id))
                 (fun d => Manuf id d len) (manufacturer_data a) data len;
     Some (r, Some (with_manufacturer_data a l))).
Proof.
  intros Hlen. unfold bt_ad_add_manufacturer_data, on_ad, add_entry, same_data, MAX_ADV_DATA_LEN.
  rewrite (proj2 (Z.ltb_ge _ len)) by lia.
  destruct (split_find_ub _ _) as [[[[l1 x] l2]|]|]; [..|done]; cbn [mbind option_bind].
  - cbn [size payload manuf_keyed].
    match goal with |- context [?c ≫= _] => destruct c as [[|]|] end; cbn [mbind option_bind];
      [by rewrite with_manufacturer_data_same| |done].
    by destruct (replace_data _ _ _ _).
  - destruct (malloc len); cbn [negb]; [by destruct (ld data 0 len)|].
    cbn [mbind option_bind]. by rewrite with_manufacturer_data_same.
Qed.

Lemma add_service_data_entry malloc realloc a uuid data len :
  Uuid.uuid_ok uuid -> len <= 29 - Uuid.bt_uuid_len uuid ->
  bt_ad_add_service_data malloc realloc (Some a) uuid data len
  = ('(r, l) ← add_entry malloc realloc (fun s => service_uuid_match s uuid)
                 (fun d => SvcData uuid d len) (service_data a) data len;
     Some (r, Some (with_service_data a l))).
Proof.
  intros Hu Hlen. unfold bt_ad_add_service_data, on_ad, add_entry, same_data, MAX_ADV_DATA_LEN.
  assert (usize (31 - 2 - Uuid.bt_uuid_len uuid) = 29 - Uuid.bt_uuid_len uuid) as ->
    by (by destruct uuid).
  rewrite (proj2 (Z.ltb_ge _ len)) by lia.
  destruct (split_find_ub _ _) as [[[[l1 x] l2]|]|]; [..|done]; cbn [mbind option_bind].
  - cbn [size payload svc_keyed].
    match goal with |- context [?c ≫= _] => destruct c as [[|]|] end; cbn [mbind option_bind];
      [by rewrite with_service_data_same| |done].
    by destruct (replace_data _ _ _ _).
  - destruct (malloc len); cbn [negb]; [by destruct (ld data 0 len)|].
    cbn [mbind option_bind]. by rewrite with_service_data_same.
Qed.

Lemma uuid_cmp_key u v :
  Uuid.uuid_ok u -> Uuid.uuid_ok v ->
  exists r, Uuid.bt_uuid_cmp u v = Some r /\ (r = 0 <-> Uuid.uuid_bytes u = Uuid.uuid_bytes v).
Proof.
  intros Hu Hv. rewrite Uuid.bt_uuid_cmp_memcmp by (intros ->; done).
  eexists; split; [done|]. apply Libc.memcmp_eq. by rewrite !Uuid.uuid_bytes_length.
Qed.

Lemma cmp_matches u v :
  Uuid.uuid_ok u -> Uuid.uuid_ok v ->
  (r ← Uuid.bt_uuid_cmp u v; Some (r =? 0))
    = Some (bool_decide (Uuid.uuid_bytes u = Uuid.uuid_bytes v)).
Proof.
  intros Hu Hv. destruct (uuid_cmp_key u v Hu Hv) as (r & -> & Hr). cbn. f_equal.
  apply eq_bool_prop_intro. by rewrite bool_decide_spec, Is_true_true, Z.eqb_eq.
Qed.

(** What the operations keep of the data of an advertisement. *)
Record data_ok (a : bt_ad) : Prop := {
  manuf_entries : entries_ok (manufacturer_data a);
  manuf_shape : Forall (fun m => is_u16 (manufacturer_id m) /\ manuf_len m <= 27)
                  (manufacturer_data a);
  svc_entries : entries_ok (service_data a);
  svc_shape : Forall (fun s => Uuid.uuid_ok (svc_uuid s) /\ svc_len s <= 27) (service_data a);
}.

Lemma svc_uuids_ok a : data_ok a -> uuids_ok (service_data a).
Proof. intros Ha. eapply Forall_impl; [exact (svc_shape a Ha)|]. by intros s []. Qed.

Lemma add_manufacturer_data_spec malloc realloc a id data len :
  data_ok a -> is_u16 id -> 0 <= len <= zlen data -> realloc len = true \/ len = 0 ->
  let d := take (Z.to_nat len) data in
  exists r l', bt_ad_add_manufacturer_data malloc realloc (Some a) id data len
             = Some (r, Some (with_manufacturer_data a l')) /\
    data_ok (with_manufacturer_data a l') /\ added (manufacturer_data a) l' r id d /\
    (r = true <-> len <= 27 /\ manuf_map a !! id <> Some d /\
                  (malloc len = true \/ is_Some (manuf_map a !! id))).
Proof.
  intros [Hm Hms Hs Hss] Hid Hl Hr d. destruct (Z.ltb_spec 27 len) as [Hlen|Hlen].
  { exists false, (manufacturer_data a). rewrite with_manufacturer_data_same. split_and!; try done.
    - unfold bt_ad_add_manufacturer_data, on_ad, MAX_ADV_DATA_LEN.
      by rewrite (proj2 (Z.ltb_lt _ len)) by lia.
    - by apply added_none.
    - split; [done|]. lia. }
  rewrite add_manufacturer_data_entry by done.
  destruct (add_entry_spec malloc realloc (fun m => Some (manufacturer_id_data_match m id))
    (fun d => Manuf id d len) (manufacturer_data a) id data len Hm Hl Hr)
    as (r & l' & -> & Hadd & Hiff & HP).
  - apply Forall_forall. intros m _. f_equal. unfold manufacturer_id_data_match.
    apply eq_bool_prop_intro. by rewrite bool_decide_spec, Is_true_true, Z.eqb_eq.
  - done.
  - exists r, l'. split_and!; [done| |done|by rewrite Hiff; unfold manuf_map; tauto].
    split; [apply Hadd| |done..]. apply (HP _ Hms); [|done]. by intros x [].
Qed.

Lemma add_service_data_spec malloc realloc a uuid data len :
  data_ok a -> Uuid.uuid_ok uuid -> 0 <= len <= zlen data -> realloc len = true \/ len = 0 ->
  let d := take (Z.to_nat len) data in
  let k := Uuid.uuid_bytes uuid in
  exists r l', bt_ad_add_service_data malloc realloc (Some a) uuid data len
             = Some (r, Some (with_service_data a l')) /\
    data_ok (with_service_data a l') /\ added (service_data a) l' r k d /\
    (r = true <-> len <= 29 - Uuid.bt_uuid_len uuid /\ svc_map a !! k <> Some d /\
                  (malloc len = true \/ is_Some (svc_map a !! k))).
Proof.
  intros Ha Hu Hl Hr d k. pose proof (svc_uuids_ok a Ha) as Huu. destruct Ha as [Hm Hms Hs Hss].
  destruct (Z.ltb_spec (29 - Uuid.bt_uuid_len uuid) len) as [Hlen|Hlen].
  { exists false, (service_data a). rewrite with_service_data_same. split_and!; try done.
    - unfold bt_ad_add_service_data, on_ad, MAX_ADV_DATA_LEN.
      assert (usize (31 - 2 - Uuid.bt_uuid_len uuid) = 29 - Uuid.bt_uuid_len uuid) as ->
        by (by destruct uuid).
      by rewrite (proj2 (Z.ltb_lt _ len)) by lia.
    - by apply added_none.
    - split; [done|]. lia. }
  rewrite add_service_data_entry by done.
  destruct (add_entry_spec malloc realloc (fun s => service_uuid_match s uuid)
    (fun d => SvcData uuid d len) (service_data a) k data len Hs Hl Hr)
    as (r & l' & -> & Hadd & Hiff & HP).
  - eapply Forall_impl; [exact Huu|]. intros s Hsu. by apply cmp_matches.
  - done.
  - assert (2 <= Uuid.bt_uuid_len uuid) by (by destruct uuid).
    exists r, l'. split_and!; [done| |done|by rewrite Hiff; unfold svc_map; tauto].
    split; [done..|apply Hadd|]. apply (HP _ Hss); [by intros x []; split; cbn; [|lia]|].
    split; cbn; [done|lia].
Qed.

(** Matching entries: same key, same data. *)
Lemma has_entry {E K} `{KeyedLaws E K, Countable K} (found : E -> ub bool) (l : list E) k d :
  entries_ok l ->
  Forall (fun e => found e = Some (bool_decide (key e = k /\ payload e = d))) l ->
  (r ← split_find_ub found l; Some (match r with Some _ => true | None => false end))
  = Some (bool_decide (entries l !! k = Some d)).
Proof.
  intros [Hnd _] Hf.
  destruct (first_split (fun e => key e = k) l) as [(l1 & x & l2 & -> & Hl1 & <-)|Hnone].
  - rewrite entries_lookup by done. rewrite Forall_app, Forall_cons in Hf. destruct Hf as (Hf1 & Hfx & Hf2).
    assert (Forall (fun e => found e = Some false) l1) as Hn1.
    { eapply Forall_impl; [exact (proj2 (Forall_and _ _) (conj Hf1 Hl1))|].
      intros y [-> Hy]. by rewrite bool_decide_eq_false_2 by tauto. }
    destruct (decide (payload x = d)) as [Hd|Hd].
    + rewrite split_find_ub_some; [|done|by rewrite Hfx, bool_decide_eq_true_2].
      cbn. by rewrite bool_decide_eq_true_2 by congruence.
    + rewrite split_find_ub_none; [cbn; by rewrite bool_decide_eq_false_2 by congruence|].
      apply Forall_app_2; [done|]. apply Forall_cons_2; [by rewrite Hfx, bool_decide_eq_false_2 by tauto|].
      rewrite fmap_app, fmap_cons, NoDup_app, NoDup_cons in Hnd. destruct Hnd as (_ & _ & Hx & _).
      apply Forall_forall. intros y Hy. rewrite (proj1 (Forall_forall _ _) Hf2 y Hy).
      rewrite bool_decide_eq_false_2; [done|]. intros [Hk _]. apply Hx.
      rewrite <- Hk. apply list_elem_of_fmap. by exists y.
  - rewrite entries_lookup_none by done. rewrite split_find_ub_none; [cbn; by rewrite bool_decide_eq_false_2|].
    eapply Forall_impl; [exact (proj2 (Forall_and _ _) (conj Hf Hnone))|].
    intros y [-> Hy]. by rewrite bool_decide_eq_false_2 by tauto.
Qed.

Lemma compare_data d1 d2 n1 n2 :
  zlen d1 = n1 -> zlen d2 = n2 ->
  (if negb (n1 =? n2) then Some false
   else x ← ld d1 0 n1; y ← ld d2 0 n1; Some (Libc.memcmp x y =? 0)) = Some (bool_decide (d1 = d2)).
Proof.
  intros <- <-. destruct (Z.eqb_spec (zlen d1) (zlen d2)) as [Heq|Hne]; cbn [negb].
  - rewrite (ld_all d1), (ld_all d2) by done. cbn. f_equal.
    apply eq_bool_prop_intro. rewrite bool_decide_spec, Is_true_true, Z.eqb_eq.
    apply Libc.memcmp_eq. unfold zlen in Heq. lia.
  - f_equal. symmetry. apply bool_decide_eq_false_2. congruence.
Qed.

Lemma remove_service_data_spec a uuid :
  data_ok a -> Uuid.uuid_ok uuid ->
  exists l', bt_ad_remove_service_data (Some a) uuid
      = Some (bool_decide (is_Some (svc_map a !! Uuid.uuid_bytes uuid)),
              Some (with_service_data a l')) /\
    data_ok (with_service_data a l') /\ entries l' = delete (Uuid.uuid_bytes uuid) (svc_map a).
Proof.
  intros Ha Hu. pose proof (svc_uuids_ok a Ha) as Huu. unfold svc_map.
  assert (Forall (fun s => uuid_data_match s uuid
      = Some (bool_decide (key s = Uuid.uuid_bytes uuid))) (service_data a)) as Hf.
  { eapply Forall_impl; [exact Huu|]. intros s Hs. unfold uuid_data_match.
    rewrite cmp_matches by done. f_equal. apply bool_decide_ext. done. }
  unfold bt_ad_remove_service_data, on_ad.
  destruct (find_entry _ _ _ Hf) as [(l1 & x & l2 & Hl & Hk & Hl1 & ->)|[Hnone ->]];
    cbn [mbind option_bind]; rewrite <- ?Hk in *.
  - exists (l1 ++ l2). destruct Ha as [Hm Hms [Hnd Hsz] Hss]. rewrite Hl in *.
    rewrite entries_lookup by done. rewrite bool_decide_eq_true_2 by done.
    split_and!; [done| |by apply entries_delete].
    assert (forall P, Forall P (l1 ++ x :: l2) -> Forall P (l1 ++ l2)) as HP.
    { intros P. rewrite !Forall_app, Forall_cons. tauto. }
    split; [done..| |by apply HP]. split; [|by apply HP].
    rewrite !fmap_app, fmap_cons, NoDup_app, NoDup_cons in Hnd.
    change (NoDup (key <$> (l1 ++ l2))). rewrite fmap_app, NoDup_app. destruct Hnd as (H1 & H2 & _ & H3). split_and!; [done| |done].
    intros y Hy Hy'. apply (H2 y Hy). by right.
  - exists (service_data a). rewrite with_service_data_same. rewrite entries_lookup_none by done.
    rewrite bool_decide_eq_false_2 by (by intros [? ?]). split_and!; [done..|].
    symmetry. apply delete_id. by apply entries_lookup_none.
Qed.

(** Manufacturer and service data are finite maps from company identifiers and UUIDs
    (compared at 128 bits) to data: adding inserts (a new key at the end of the list), and
    returns false exactly when the data are too long for 31 bytes, already there, or not
    allocated; searching is lookup; removing service data is deletion.  Keys stay distinct
    and lengths exact. *)
Theorem ad_data_maps malloc realloc a :
  data_ok a -> (forall n, realloc n = true) ->
  (forall id data len, is_u16 id -> 0 <= len <= zlen data ->
     let d := take (Z.to_nat len) data in
     exists r l', bt_ad_add_manufacturer_data malloc realloc (Some a) id data len
                = Some (r, Some (with_manufacturer_data a l')) /\
       data_ok (with_manufacturer_data a l') /\ added (manufacturer_data a) l' r id d /\
       (r = true <-> len <= 27 /\ manuf_map a !! id <> Some d /\
                     (malloc len = true \/ is_Some (manuf_map a !! id)))) /\
  (forall uuid data len, Uuid.uuid_ok uuid -> 0 <= len <= zlen data ->
     let d := take (Z.to_nat len) data in
     let k := Uuid.uuid_bytes uuid in
     exists r l', bt_ad_add_service_data malloc realloc (Some a) uuid data len
                = Some (r, Some (with_service_data a l')) /\
       data_ok (with_service_data a l') /\ added (service_data a) l' r k d /\
       (r = true <-> len <= 29 - Uuid.bt_uuid_len uuid /\ svc_map a !! k <> Some d /\
                     (malloc len = true \/ is_Some (svc_map a !! k)))) /\
  (forall m, zlen (manuf_data m) = manuf_len m ->
     bt_ad_has_manufacturer_data (Some a) (Some m)
     = Some (bool_decide (manuf_map a !! manufacturer_id m = Some (manuf_data m)))) /\
  (forall s, Uuid.uuid_ok (svc_uuid s) -> zlen (svc_data s) = svc_len s ->
     bt_ad_has_service_data (Some a) (Some s)
     = Some (bool_decide (svc_map a !! Uuid.uuid_bytes (svc_uuid s) = Some (svc_data s)))) /\
  (forall uuid, Uuid.uuid_ok uuid ->
     exists l', bt_ad_remove_service_data (Some a) uuid
         = Some (bool_decide (is_Some (svc_map a !! Uuid.uuid_bytes uuid)),
                 Some (with_service_data a l')) /\
       data_ok (with_service_data a l') /\
       entries l' = delete (Uuid.uuid_bytes uuid) (svc_map a)).
Proof.
  intros Ha Hr. split_and!.
  - intros. apply add_manufacturer_data_spec; auto.
  - intros. apply add_service_data_spec; auto.
  - intros m Hm. cbn [bt_ad_has_manufacturer_data]. apply has_entry; [apply Ha|].
    eapply Forall_impl; [exact (sizes_exact _ (manuf_entries a Ha))|]. intros x Hx.
    cbn [key payload size manuf_keyed] in *. unfold manufacturer_data_match.
    rewrite compare_data by done. destruct (Z.eqb_spec (manufacturer_id x) (manufacturer_id m));
      cbn [negb]; f_equal; apply bool_decide_ext || (symmetry; apply bool_decide_eq_false_2); tauto.
  - intros s Hs Hlen. cbn [bt_ad_has_service_data]. apply has_entry; [apply Ha|].
    eapply Forall_impl; [exact (proj2 (Forall_and _ _)
      (conj (svc_uuids_ok a Ha) (sizes_exact _ (svc_entries a Ha))))|]. intros x [Hu Hx].
    cbn [key payload size svc_keyed] in *. unfold service_data_match.
    destruct (uuid_cmp_key (svc_uuid x) (svc_uuid s) Hu Hs) as (r & -> & Hr0).
    cbn [mbind option_bind]. rewrite compare_data by done. destruct (Z.eqb_spec r 0);
      cbn [negb]; f_equal; apply bool_decide_ext || (symmetry; apply bool_decide_eq_false_2); tauto.
  - intros uuid Hu. by apply remove_service_data_spec.
Qed.

(** ** Removing *)

Lemma uuid_match_differs u v :
  Uuid.uuid_ok u -> Uuid.uuid_ok v ->
  uuid_match u v = Some (bool_decide (Uuid.uuid_bytes u <> Uuid.uuid_bytes v)).
Proof.
  intros Hu Hv. unfold uuid_match. destruct (uuid_cmp_key u v Hu Hv) as (r & -> & Hr). cbn. f_equal.
  apply eq_bool_prop_intro. rewrite bool_decide_spec, Is_true_true, negb_true_iff, Z.eqb_neq. tauto.
Qed.

Lemma queue_remove_uuid_spec l u :
  Forall Uuid.uuid_ok l -> Uuid.uuid_ok u ->
  (Forall (fun x => Uuid.uuid_bytes x = Uuid.uuid_bytes u) l ->
   queue_remove_uuid l (Some u) = Some (false, l)) /\
  (forall l1 x l2, l = l1 ++ x :: l2 ->
     Forall (fun y => Uuid.uuid_bytes y = Uuid.uuid_bytes u) l1 ->
     Uuid.uuid_bytes x <> Uuid.uuid_bytes u ->
     queue_remove_uuid l (Some u) = Some (true, l1 ++ l2)).
Proof.
  intros Hl Hu. unfold queue_remove_uuid.
  assert (forall k, Forall Uuid.uuid_ok k ->
    Forall (fun x => Uuid.uuid_bytes x = Uuid.uuid_bytes u) k ->
    Forall (fun x => uuid_match x u = Some false) k) as Hfalse.
  { intros k Hk1 Hk2. eapply Forall_impl; [exact (proj2 (Forall_and _ _) (conj Hk1 Hk2))|].
    intros x [Hx Heq]. rewrite uuid_match_differs by done. by rewrite bool_decide_eq_false_2 by tauto. }
  split.
  - intros Hall. by rewrite split_find_ub_none by auto.
  - intros l1 x l2 -> Hl1 Hx. rewrite Forall_app, Forall_cons in Hl. destruct Hl as (? & ? & ?).
    rewrite split_find_ub_some; [done|by apply Hfalse|].
    rewrite uuid_match_differs by done. by rewrite bool_decide_eq_true_2.
Qed.

(** Three removals do not do what their names say.  Removing a service or solicitation
    UUID removes the first UUID that differs from it, and returns false when all are equal to
    it.  Removing manufacturer data never looks at the data: it takes the company identifier
    for an address, so that it is undefined on a list that is not empty when nothing is
    mapped there, and otherwise compares the identifier with the memory there, which removes
    the first entry or none. *)
Theorem ad_remove_inverted mem_u16 a u id :
  Forall Uuid.uuid_ok (service_uuids a) -> Forall Uuid.uuid_ok (solicit_uuids a) ->
  Uuid.uuid_ok u -> is_u16 id ->
  (forall l1 x l2, service_uuids a = l1 ++ x :: l2 ->
     Forall (fun y => Uuid.uuid_bytes y = Uuid.uuid_bytes u) l1 ->
     Uuid.uuid_bytes x <> Uuid.uuid_bytes u ->
     bt_ad_remove_service_uuid (Some a) (Some u)
     = Some (true, Some (with_service_uuids a (l1 ++ l2)))) /\
  (Forall (fun y => Uuid.uuid_bytes y = Uuid.uuid_bytes u) (service_uuids a) ->
   bt_ad_remove_service_uuid (Some a) (Some u) = Some (false, Some a)) /\
  (forall l1 x l2, solicit_uuids a = l1 ++ x :: l2 ->
     Forall (fun y => Uuid.uuid_bytes y = Uuid.uuid_bytes u) l1 ->
     Uuid.uuid_bytes x <> Uuid.uuid_bytes u ->
     bt_ad_remove_solicit_uuid (Some a) (Some u)
     = Some (true, Some (with_solicit_uuids a (l1 ++ l2)))) /\
  (Forall (fun y => Uuid.uuid_bytes y = Uuid.uuid_bytes u) (solicit_uuids a) ->
   bt_ad_remove_solicit_uuid (Some a) (Some u) = Some (false, Some a)) /\
  bt_ad_remove_manufacturer_data mem_u16 (Some a) id
  = match manufacturer_data a, mem_u16 id with
    | [], _ => Some (false, Some a)
    | _, None => None
    | _ :: l, Some v =>
      if v =? id then Some (true, Some (with_manufacturer_data a l)) else Some (false, Some a)
    end.
Proof.
  intros Hsvc Hsol Hu Hid.
  destruct (queue_remove_uuid_spec _ u Hsvc Hu) as [Hsvc1 Hsvc2].
  destruct (queue_remove_uuid_spec _ u Hsol Hu) as [Hsol1 Hsol2].
  unfold bt_ad_remove_service_uuid, bt_ad_remove_solicit_uuid, on_ad. split_and!.
  - intros l1 x l2 Hl H1 Hx. by rewrite (Hsvc2 l1 x l2).
  - intros Hall. rewrite Hsvc1 by done. by destruct a.
  - intros l1 x l2 Hl H1 Hx. by rewrite (Hsol2 l1 x l2).
  - intros Hall. rewrite Hsol1 by done. by destruct a.
  - unfold bt_ad_remove_manufacturer_data, on_ad, manuf_match.
    rewrite (u32_small id), (u16_small id) by (unfold is_u16, is_u32 in *; lia).
    destruct (manufacturer_data a) as [|m l]; [done|]. cbn [split_find_ub].
    destruct (mem_u16 id) as [v|]; [|done]. cbn [mbind option_bind].
    destruct (v =? id) eqn:Hv; [done|].
    rewrite split_find_ub_none; [done|]. apply Forall_forall. by intros.
Qed.

Definition two_services : bt_ad :=
  Ad 1 None UINT16_MAX [Uuid.UUID16 0x180d; Uuid.UUID16 0x180f] [Manuf 0x0059 [1; 2] 2] [] [].

(** Removing 0x180d removes 0x180f. *)
Lemma ad_remove_inverted_witness :
  bt_ad_remove_service_uuid (Some two_services) (Some (Uuid.UUID16 0x180d))
  = Some (true, Some (with_service_uuids two_services [Uuid.UUID16 0x180d])) /\
  bt_ad_remove_manufacturer_data (fun _ => None) (Some two_services) 0x0059 = None.
Proof.
  assert (forall v, 0 <= v < 65536 -> is_u16 v) as H16 by (intros v Hv; exact Hv).
  assert (Forall Uuid.uuid_ok (service_uuids two_services)) as Hsvc.
  { apply Forall_cons_2; [apply H16; lia|]. apply Forall_cons_2; [apply H16; lia|]. apply Forall_nil_2. }
  assert (Uuid.uuid_ok (Uuid.UUID16 0x180d)) as Hu by (apply H16; lia).
  destruct (ad_remove_inverted (fun _ => None) two_services (Uuid.UUID16 0x180d) 0x0059
    Hsvc (Forall_nil_2 _) Hu (H16 0x0059 ltac:(lia))) as (H1 & _ & _ & _ & H5).
  split; [|exact H5].
  apply (H1 [Uuid.UUID16 0x180d] (Uuid.UUID16 0x180f) []); [reflexivity| |discriminate].
  apply Forall_cons_2; [reflexivity|apply Forall_nil_2].
Defined.

Lemma ad_data_maps_witness :
  data_ok two_services /\
  exists l', bt_ad_add_manufacturer_data (fun _ => true) (fun _ => true) (Some two_services) 0x0059 [3] 1
             = Some (true, Some (with_manufacturer_data two_services l')) /\
    entries l' = <[0x0059 := [3]]> (manuf_map two_services).
Proof.
  assert (data_ok two_services) as Hok.
  { split; [split| |split|]; cbn.
    - apply NoDup_singleton.
    - apply Forall_cons_2; [reflexivity|apply Forall_nil_2].
    - apply Forall_cons_2; [cbn; unfold is_u16; lia|apply Forall_nil_2].
    - apply NoDup_nil_2.
    - apply Forall_nil_2.
    - apply Forall_nil_2. }
  split; [exact Hok|].
  destruct (ad_data_maps (fun _ => true) (fun _ => true) two_services Hok (fun _ => eq_refl)) as (H1 & _).
  destruct (H1 0x0059 [3] 1) as (r & l' & Hadd & _ & (_ & He & _) & Hr).
  - unfold is_u16. lia.
  - split; vm_compute; discriminate.
  - assert (r = true) as ->.
    { apply Hr. split; [lia|]. split; [vm_compute; discriminate|]. left. reflexivity. }
    exists l'. split; [exact Hadd|exact He].
Defined.
