(* ===== verification/HfpContext.v ===== *)
(** The arguments of AT commands and results: the [hfp_context_] functions of
    src/shared/hfp.c.  A context is the memory from the start of a string to the end of its
    block and an offset; the string ends at a null byte, which the functions have to find
    before the end of the block. *)
From Stdlib Require Import ZArith Lia String.
From S2P Require Import Prelude Blocks Libc.
From stdpp Require Import base numbers list option.

Local Open Scope Z_scope.

Record hfp_context := Ctx { data : bytes; offset : Z }.

Definition set_offset (c : hfp_context) (x : Z) : hfp_context := Ctx (data c) x.

(** Characters. *)
Definition SP : Z := 32.
Definition QUOTE : Z := 34.
Definition LPAR : Z := 40.
Definition RPAR : Z := 41.
Definition COMMA : Z := 44.
Definition MINUS : Z := 45.
Definition is_digit (c : Z) : bool := (48 <=? c) && (c <=? 57).

(** The first offset from [off] on whose character does not satisfy [p]. *)
Fixpoint scan_while (n : nat) (p : Z -> bool) (data : bytes) (off : Z) : ub Z :=
  match n with
  | O => None
  | S n =>
    c ← get_u8 data off;
    if p c then scan_while n p data (u32 (off + 1)) else Some off
  end.

(** More steps than the block has bytes: the loop ends or leaves the block. *)
Definition scan (p : Z -> bool) (data : bytes) (off : Z) : ub Z :=
  scan_while (S (length data)) p data off.

Definition skip_whitespace (c : hfp_context) : ub hfp_context :=
  off ← scan (fun x => x =? SP) (data c) (offset c);
  Some (set_offset c off).

Definition next_field (c : hfp_context) : ub hfp_context :=
  x ← get_u8 (data c) (offset c);
  Some (if x =? COMMA then set_offset c (u32 (offset c + 1)) else c).

(** The result of an operation on [int], undefined when it does not fit. *)
Definition int_ok (x : Z) : ub Z := if (- 2 ^ 31 <=? x) && (x <? 2 ^ 31) then Some x else None.

(** [tmp = tmp * 10 + data[i++] - '0'] while there are digits. *)
Fixpoint number_loop (n : nat) (data : bytes) (i tmp : Z) : ub (Z * Z) :=
  match n with
  | O => None
  | S n =>
    c ← get_u8 data i;
    if is_digit c then
      t ← int_ok (tmp * 10);
      t ← int_ok (t + c);
      number_loop n data (u32 (i + 1)) (t - 48)
    else Some (i, tmp)
  end.

(** The number, when there is one ([false] is [None]). *)
Definition hfp_context_get_number (c : hfp_context) : ub (option Z * hfp_context) :=
  c ← skip_whitespace c;
  '(i, tmp) ← number_loop (S (length (data c))) (data c) (offset c) 0;
  if i =? offset c then Some (None, c)
  else
    c ← skip_whitespace (set_offset c i);
    c ← next_field c;
    Some (Some (u32 tmp), c).

Definition hfp_context_get_number_default (c : hfp_context) (default_val : Z)
    : ub (option Z * hfp_context) :=
  c ← skip_whitespace c;
  x ← get_u8 (data c) (offset c);
  if x =? COMMA then Some (Some default_val, set_offset c (u32 (offset c + 1)))
  else hfp_context_get_number c.

Definition hfp_context_open_container (c : hfp_context) : ub (bool * hfp_context) :=
  c ← skip_whitespace c;
  x ← get_u8 (data c) (offset c);
  if x =? LPAR then Some (true, set_offset c (u32 (offset c + 1))) else Some (false, c).

Definition hfp_context_close_container (c : hfp_context) : ub (bool * hfp_context) :=
  c ← skip_whitespace c;
  x ← get_u8 (data c) (offset c);
  if x =? RPAR then
    c ← next_field (set_offset c (u32 (offset c + 1)));
    Some (true, c)
  else Some (false, c).

(** Copies characters that satisfy [p] to [buf] from [i] on; [inl] when [len] characters
    were copied and there is another one. *)
Fixpoint copy_while (n : nat) (p : Z -> bool) (data : bytes) (off : Z) (buf : bytes)
    (i len : Z) : ub (bytes + Z * bytes * Z) :=
  match n with
  | O => None
  | S n =>
    c ← get_u8 data off;
    if p c then
      if i =? len then Some (inl buf)
      else
        buf ← st buf i [c];
        copy_while n p data (u32 (off + 1)) buf (i + 1) len
    else Some (inr (off, buf, i))
  end.

(** [buf] is the block the caller passes, of which [len] bytes may be used. *)
Definition hfp_context_get_string (c : hfp_context) (buf : bytes) (len : Z)
    : ub (bool * hfp_context * bytes) :=
  c ← skip_whitespace c;
  x ← get_u8 (data c) (offset c);
  if negb (x =? QUOTE) then Some (false, c, buf)
  else
    r ← copy_while (S (length (data c))) (fun x => negb (x =? 0) && negb (x =? QUOTE)) (data c)
          (u32 (offset c + 1)) buf 0 len;
    match r with
    | inl buf => Some (false, c, buf)
    | inr (off, buf, i) =>
      if i =? len then Some (false, c, buf)
      else
        buf ← st buf i [0];
        x ← get_u8 (data c) off;
        if x =? QUOTE then
          c ← skip_whitespace (set_offset c (u32 (off + 1)));
          c ← next_field c;
          Some (true, c, buf)
        else Some (false, c, buf)
    end.

Definition hfp_context_get_unquoted_string (c : hfp_context) (buf : bytes) (len : Z)
    : ub (bool * hfp_context * bytes) :=
  c ← skip_whitespace c;
  x ← get_u8 (data c) (offset c);
  if (x =? QUOTE) || (x =? RPAR) || (x =? LPAR) then Some (false, c, buf)
  else
    r ← copy_while (S (length (data c)))
          (fun x => negb (x =? 0) && negb (x =? COMMA) && negb (x =? RPAR)) (data c)
          (offset c) buf 0 len;
    match r with
    | inl buf => Some (false, c, buf)
    | inr (off, buf, i) =>
      if i =? len then Some (false, c, buf)
      else
        buf ← st buf i [0];
        c ← next_field (set_offset c off);
        Some (true, c, buf)
    end.

Definition hfp_context_has_next (c : hfp_context) : ub bool :=
  x ← get_u8 (data c) (offset c); Some (negb (x =? 0)).

Definition hfp_context_skip_field (c : hfp_context) : ub hfp_context :=
  off ← scan (fun x => negb (x =? 0) && negb (x =? COMMA)) (data c) (offset c);
  next_field (set_offset c off).

(** On failure the offset is what it was. *)
Definition hfp_context_get_range (c : hfp_context) : ub (option (Z * Z) * hfp_context) :=
  let failed (c' : hfp_context) : ub (option (Z * Z) * hfp_context) :=
    Some (None, set_offset c' (offset c)) in
  '(l, c1) ← hfp_context_get_number c;
  match l with
  | None => failed c1
  | Some l =>
    x ← get_u8 (data c1) (offset c1);
    if negb (x =? MINUS) then failed c1
    else
      '(h, c2) ← hfp_context_get_number (set_offset c1 (u32 (offset c1 + 1)));
      match h with
      | None => failed c2
      | Some h =>
        c3 ← next_field c2;
        Some (Some (l, h), c3)
      end
  end.
