(* ===== verification/HfpContextSpec.v ===== *)
(** The argument parser of HfpContext.v against parsers on strings, and the arguments it
    reads back from their text. *)
From Stdlib Require Import ZArith Lia String.
From S2P Require Import Prelude Blocks Libc HfpContext.
From stdpp Require Import base numbers list option.

Local Open Scope Z_scope.

(** ** Parsers on strings *)

Fixpoint drop_while (p : Z -> bool) (s : bytes) : bytes :=
  match s with
  | [] => []
  | x :: s' => if p x then drop_while p s' else s
  end.
Fixpoint take_while (p : Z -> bool) (s : bytes) : bytes :=
  match s with
  | [] => []
  | x :: s' => if p x then x :: take_while p s' else []
  end.

Definition drop_sp : bytes -> bytes := drop_while (fun x => x =? SP).
Definition skip_comma (s : bytes) : bytes :=
  match s with x :: s' => if x =? COMMA then s' else s | [] => s end.
(** The character at the start, the null byte at the end of the string. *)
Definition peek (s : bytes) : Z := match s with x :: _ => x | [] => 0 end.

Definition dec_value (ds : bytes) : Z := foldl (fun t c => 10 * t + (c - 48)) 0 ds.

(** Undefined when the value, or the sum with the character code on the way to it, does not
    fit an [int]. *)
Definition p_number (s : bytes) : ub (option Z * bytes) :=
  let s := drop_sp s in
  let ds := take_while is_digit s in
  if bool_decide (ds = []) then Some (None, s)
  else if dec_value ds + 48 <? 2 ^ 31
  then Some (Some (dec_value ds), skip_comma (drop_sp (drop_while is_digit s)))
  else None.

Definition p_number_default (s : bytes) (d : Z) : ub (option Z * bytes) :=
  let s := drop_sp s in
  if peek s =? COMMA then Some (Some d, tail s) else p_number s.

Definition p_open (s : bytes) : bool * bytes :=
  let s := drop_sp s in if peek s =? LPAR then (true, tail s) else (false, s).
Definition p_close (s : bytes) : bool * bytes :=
  let s := drop_sp s in if peek s =? RPAR then (true, skip_comma (tail s)) else (false, s).

Definition in_quotes (x : Z) : bool := negb (x =? 0) && negb (x =? QUOTE).
Definition unquoted (x : Z) : bool := negb (x =? 0) && negb (x =? COMMA) && negb (x =? RPAR).

(** At most [len - 1] characters. *)
Definition p_string (s : bytes) (len : Z) : option bytes * bytes :=
  let s := drop_sp s in
  if negb (peek s =? QUOTE) then (None, s)
  else
    let t := take_while in_quotes (tail s) in
    let r := drop_while in_quotes (tail s) in
    if len <=? zlen t then (None, s)
    else if peek r =? QUOTE then (Some t, skip_comma (drop_sp (tail r))) else (None, s).

Definition p_unquoted (s : bytes) (len : Z) : option bytes * bytes :=
  let s := drop_sp s in
  let x := peek s in
  if (x =? QUOTE) || (x =? RPAR) || (x =? LPAR) then (None, s)
  else
    let t := take_while unquoted s in
    if len <=? zlen t then (None, s) else (Some t, skip_comma (drop_while unquoted s)).

Definition p_skip_field (s : bytes) : bytes :=
  skip_comma (drop_while (fun x => negb (x =? 0) && negb (x =? COMMA)) s).

Definition p_range (s : bytes) : ub (option (Z * Z) * bytes) :=
  '(l, s1) ← p_number s;
  match l with
  | None => Some (None, s)
  | Some l =>
    if negb (peek s1 =? MINUS) then Some (None, s)
    else
      '(h, s2) ← p_number (tail s1);
      match h with
      | None => Some (None, s)
      | Some h => Some (Some (l, h), skip_comma s2)
      end
  end.

(** ** Contexts and strings *)

Definition no_null (s : bytes) : Prop := Forall (fun c => c <> 0) s.

(** [c] is in the block [D] with the string [s] ahead. *)
Definition ctx_at (D s : bytes) (c : hfp_context) : Prop :=
  data c = D /\ zlen D < 2 ^ 32 /\ no_null s /\
  exists pre post, D = pre ++ s ++ 0 :: post /\ offset c = zlen pre.

(** A computation on contexts follows one on strings. *)
Definition follows {A} (D : bytes) (r : ub (A * hfp_context)) (sp : ub (A * bytes)) : Prop :=
  match sp with
  | None => r = None
  | Some (a, s) => exists c, r = Some (a, c) /\ ctx_at D s c
  end.
Definition moves (D : bytes) (r : ub hfp_context) (s : bytes) : Prop :=
  exists c, r = Some c /\ ctx_at D s c.

Lemma ctx_peek D s c : ctx_at D s c -> get_u8 (data c) (offset c) = Some (peek s).
Proof.
  intros (-> & _ & _ & pre & post & -> & ->). destruct s as [|x s]; cbn [app].
  - by apply (get_u8_mid pre 0 post).
  - by apply (get_u8_mid pre x (s ++ 0 :: post)).
Qed.

Lemma ctx_peek' D s c : ctx_at D s c -> get_u8 D (offset c) = Some (peek s).
Proof. intros Hc. pose proof Hc as [<- _]. by eapply ctx_peek. Qed.

Lemma ctx_tail D x s c : ctx_at D (x :: s) c -> ctx_at D s (Ctx D (u32 (offset c + 1))).
Proof.
  intros (Hd & Hlen & Hs & pre & post & HD & Ho). apply Forall_cons_1 in Hs as [_ Hs].
  pose proof (zlen_nonneg pre). pose proof (zlen_nonneg (s ++ 0 :: post)).
  split_and!; [done..|]. exists (pre ++ [x]), post. cbn [offset].
  split; [by rewrite HD, <- app_assoc|]. rewrite Ho, zlen_app. change (zlen [x]) with 1.
  apply u32_small. rewrite HD in Hlen. cbn [app] in Hlen. rewrite zlen_app, zlen_cons in Hlen.
  unfold is_u32. lia.
Qed.

Lemma ctx_fuel D s c : ctx_at D s c -> (length s < S (length D))%nat.
Proof.
  intros (_ & _ & _ & pre & post & -> & _). rewrite !length_app. lia.
Qed.

Lemma ctx_set D s c : ctx_at D s c -> ctx_at D s (Ctx D (offset c)).
Proof. intros (Hd & H). by split. Qed.

Lemma follows_bind {A B} D r sp (f : A -> hfp_context -> ub (B * hfp_context)) g :
  follows D r sp -> (forall a s c, ctx_at D s c -> follows D (f a c) (g a s)) ->
  follows D ('(a, c) ← r; f a c) ('(a, s) ← sp; g a s).
Proof.
  intros Hr Hf. destruct sp as [[a s]|]; cbn in *; [|by rewrite Hr].
  destruct Hr as (c & -> & Hc). cbn. by apply Hf.
Qed.

Lemma moves_bind {B} D r s (f : hfp_context -> ub (B * hfp_context)) sp :
  moves D r s -> (forall c, ctx_at D s c -> follows D (f c) sp) -> follows D (c ← r; f c) sp.
Proof. intros (c & -> & Hc) Hf. by apply Hf. Qed.

(** ** Loops *)

Lemma scan_moves D p s c :
  p 0 = false -> ctx_at D s c ->
  exists off, scan p (data c) (offset c) = Some off /\ ctx_at D (drop_while p s) (Ctx D off).
Proof.
  intros Hp Hc. pose proof (ctx_fuel D s c Hc) as Hn. pose proof Hc as (Hd & _).
  unfold scan. rewrite Hd. revert Hn. generalize (S (length D)). revert c Hc Hd.
  induction s as [|x s IH]; intros c Hc Hd n Hn; (destruct n as [|n]; [cbn in Hn; lia|]);
    cbn [scan_while drop_while]; rewrite (ctx_peek' D _ c Hc);
    cbn [peek mbind option_bind].
  - rewrite Hp. eexists; split; [done|]. by apply ctx_set.
  - destruct (p x).
    + apply ctx_tail in Hc. apply (IH _ Hc eq_refl n). cbn in Hn. lia.
    + eexists; split; [done|]. by apply ctx_set.
Qed.

Lemma skip_whitespace_moves D s c : ctx_at D s c -> moves D (skip_whitespace c) (drop_sp s).
Proof.
  intros Hc. pose proof Hc as (Hd & _). unfold skip_whitespace, set_offset.
  destruct (scan_moves D (fun x => x =? SP) s c eq_refl Hc) as (off & -> & H').
  rewrite Hd. by eexists.
Qed.

Lemma next_field_moves D s c : ctx_at D s c -> moves D (next_field c) (skip_comma s).
Proof.
  intros Hc. pose proof Hc as (Hd & _). unfold next_field, set_offset. rewrite (ctx_peek D s c Hc).
  rewrite Hd. cbn [mbind option_bind]. eexists; split; [done|].
  destruct s as [|x s]; [done|]. cbn [peek skip_comma].
  destruct (x =? COMMA); [by eapply ctx_tail|done].
Qed.

Lemma int_ok_small x : 0 <= x -> int_ok x = if x <? 2 ^ 31 then Some x else None.
Proof. intros Hx. unfold int_ok. by rewrite (proj2 (Z.leb_le _ x)) by lia. Qed.

Lemma dec_value_from ds t :
  foldl (fun t c => 10 * t + (c - 48)) t ds = t * 10 ^ zlen ds + dec_value ds.
Proof.
  revert t. unfold dec_value. induction ds as [|d ds IH]; intros t.
  { cbn [foldl]. change (10 ^ zlen (@nil Z)) with 1. lia. }
  cbn [foldl]. rewrite (IH (10 * t + (d - 48))), (IH (10 * 0 + (d - 48))).
  rewrite zlen_cons, Z.pow_add_r by (pose proof (zlen_nonneg ds); lia).
  change (10 ^ 1) with 10. ring.
Qed.

Lemma dec_value_nonneg ds : Forall (fun c => is_digit c = true) ds -> 0 <= dec_value ds.
Proof.
  induction 1 as [|d ds Hd Hds IH]; [done|]. unfold dec_value. cbn [foldl].
  rewrite dec_value_from. unfold is_digit in Hd. assert (0 <= 10 ^ zlen ds) by (apply Z.pow_nonneg; lia). nia.
Qed.

Lemma take_while_all p s : Forall (fun c => p c = true) (take_while p s).
Proof. induction s as [|x s IH]; cbn; [done|]. destruct (p x) eqn:Hx; [by constructor|done]. Qed.

(** The loop from a value [tmp] that it computed so far. *)
Lemma number_loop_moves D s c tmp :
  ctx_at D s c -> 0 <= tmp ->
  let ds := take_while is_digit s in
  let v := foldl (fun t c => 10 * t + (c - 48)) tmp ds in
  forall n, (length s < n)%nat ->
  if bool_decide (ds = []) || (v + 48 <? 2 ^ 31)
  then exists i, number_loop n (data c) (offset c) tmp = Some (i, v) /\
         ctx_at D (drop_while is_digit s) (Ctx D i) /\ i = offset c + zlen ds
  else number_loop n (data c) (offset c) tmp = None.
Proof.
  intros Hc Htmp. pose proof Hc as (Hd & _). rewrite Hd. revert c Hc Hd tmp Htmp.
  induction s as [|x s IH]; intros c Hc Hd tmp Htmp ds v n Hn; (destruct n as [|n]; [cbn in Hn; lia|]);
    cbn [number_loop]; rewrite (ctx_peek' D _ c Hc);
    cbn [peek mbind option_bind].
  { cbn. exists (offset c). split_and!; [done|by apply ctx_set|]. change (zlen []) with 0. lia. }
  subst ds v. cbn [take_while drop_while]. destruct (is_digit x) eqn:Hx.
  2:{ cbn. exists (offset c). split_and!; [done|by apply ctx_set|]. change (zlen []) with 0. lia. }
  rewrite bool_decide_eq_false_2 by done. cbn [orb foldl].
  set (ds := take_while is_digit s). set (t1 := 10 * tmp + (x - 48)).
  assert (0 <= x - 48 < 10) as Hdig by (unfold is_digit in Hx; lia).
  assert (t1 <= foldl (fun t c => 10 * t + (c - 48)) t1 ds) as Hmono.
  { rewrite dec_value_from. pose proof (dec_value_nonneg ds (take_while_all _ _)).
    assert (0 < 10 ^ zlen ds) by (apply Z.pow_pos_nonneg; [lia|apply zlen_nonneg]).
    unfold t1. nia. }
  rewrite !int_ok_small by lia.
  destruct (Z.ltb_spec (tmp * 10 + x) (2 ^ 31)) as [H1|H1].
  - rewrite (proj2 (Z.ltb_lt (tmp * 10) _)) by lia. cbn [mbind option_bind].
    rewrite int_ok_small by lia. rewrite (proj2 (Z.ltb_lt (tmp * 10 + x) _)) by lia.
    cbn [mbind option_bind]. replace (tmp * 10 + x - 48) with t1 by (unfold t1; lia).
    pose proof (ctx_tail D x s c Hc) as Hc'.
    specialize (IH _ Hc' eq_refl t1 ltac:(lia) n ltac:(cbn in Hn; lia)). fold ds in IH. cbn in IH.
    assert (u32 (offset c + 1) = offset c + 1) as Hu.
    { destruct Hc as (_ & Hlen & _ & pre & post & HD & Ho). apply u32_small. rewrite HD in Hlen.
      cbn [app] in Hlen. rewrite zlen_app, zlen_cons in Hlen. pose proof (zlen_nonneg pre).
      pose proof (zlen_nonneg (s ++ 0 :: post)). unfold is_u32. lia. }
    destruct (foldl _ t1 ds + 48 <? 2 ^ 31) eqn:Hv.
    + rewrite orb_true_r in IH. destruct IH as (i & -> & Hci & ->). eexists; split_and!; [done..|].
      rewrite zlen_cons, Hu. lia.
    + rewrite orb_false_r in IH. case_bool_decide as Hds; [|done].
      rewrite Hds in Hv. cbn in Hv. apply Z.ltb_ge in Hv. unfold t1 in Hv. lia.
  - rewrite (proj2 (Z.ltb_ge (_ + 48) _)) by (unfold t1 in *; lia).
    destruct (Z.ltb_spec (tmp * 10) (2 ^ 31)); [|done]. cbn [mbind option_bind].
    rewrite int_ok_small by lia. by rewrite (proj2 (Z.ltb_ge (tmp * 10 + x) _)) by lia.
Qed.

(** Copying into a block. *)
Lemma copy_while_moves D p s c buf0 t0 len :
  p 0 = false -> ctx_at D s c -> zlen t0 <= len -> len <= zlen buf0 ->
  let t := take_while p s in
  forall n, (length s < n)%nat ->
  if len <? zlen t0 + zlen t
  then exists buf, copy_while n p (data c) (offset c) (over t0 buf0) (zlen t0) len = Some (inl buf) /\
         zlen buf = zlen buf0
  else exists off, copy_while n p (data c) (offset c) (over t0 buf0) (zlen t0) len
           = Some (inr (off, over (t0 ++ t) buf0, zlen t0 + zlen t)) /\
         ctx_at D (drop_while p s) (Ctx D off).
Proof.
  intros Hp Hc. pose proof Hc as (Hd & _). rewrite Hd. revert c Hc Hd t0.
  induction s as [|x s IH]; intros c Hc Hd t0 Ht0 Hlen t n Hn; (destruct n as [|n]; [cbn in Hn; lia|]);
    cbn [copy_while]; rewrite (ctx_peek' D _ c Hc); cbn [peek mbind option_bind].
  { rewrite Hp. subst t. cbn [take_while drop_while]. change (zlen []) with 0.
    rewrite (proj2 (Z.ltb_ge len _)) by lia. rewrite app_nil_r, Z.add_0_r.
    eexists; split; [done|]. by apply ctx_set. }
  subst t. cbn [take_while drop_while]. destruct (p x).
  2:{ change (zlen []) with 0. rewrite (proj2 (Z.ltb_ge len _)) by lia. rewrite app_nil_r, Z.add_0_r.
      eexists; split; [done|]. by apply ctx_set. }
  pose proof (zlen_nonneg (take_while p s)). pose proof (zlen_nonneg t0). rewrite zlen_cons.
  destruct (Z.eqb_spec (zlen t0) len) as [->|Hne].
  - rewrite (proj2 (Z.ltb_lt len _)) by lia. eexists; split; [done|]. apply over_length. lia.
  - rewrite st_over by (rewrite ?zlen_cons, ?zlen_nil; lia). cbn [mbind option_bind].
    assert (zlen (t0 ++ [x]) = zlen t0 + 1) as Hl by (by rewrite zlen_app).
    specialize (IH _ (ctx_tail D x s c Hc) eq_refl (t0 ++ [x]) ltac:(lia) Hlen n
                  ltac:(cbn in Hn; lia)).
    cbn zeta in IH. rewrite <- app_assoc, Hl in IH. cbn [app offset] in IH.
    by replace (zlen t0 + (1 + zlen (take_while p s))) with (zlen t0 + 1 + zlen (take_while p s))
      by lia.
Qed.

(** ** The functions *)

Lemma get_number_follows D s c :
  ctx_at D s c -> follows D (hfp_context_get_number c) (p_number s).
Proof.
  intros Hc. unfold hfp_context_get_number, p_number.
  apply (moves_bind D _ _ _ _ (skip_whitespace_moves D s c Hc)). clear c Hc. intros c Hc.
  set (s1 := drop_sp s) in *.
  pose proof (number_loop_moves D s1 c 0 Hc ltac:(lia)) as Hloop. cbn zeta in Hloop.
  change (foldl _ 0 (take_while is_digit s1)) with (dec_value (take_while is_digit s1)) in Hloop.
  pose proof (ctx_fuel D s1 c Hc) as Hfuel. pose proof Hc as (Hd & _).
  rewrite <- Hd in Hfuel. specialize (Hloop _ Hfuel).
  set (ds := take_while is_digit s1) in *.
  case_bool_decide as Hds; cbn [orb] in Hloop.
  - destruct Hloop as (i & -> & Hci & ->). cbn [mbind option_bind].
    rewrite Hds. change (zlen []) with 0. rewrite Z.add_0_r, Z.eqb_refl. by eexists.
  - destruct (dec_value ds + 48 <? 2 ^ 31) eqn:Hv; [|by rewrite Hloop].
    destruct Hloop as (i & -> & Hci & ->). cbn [mbind option_bind].
    rewrite (proj2 (Z.eqb_neq _ (offset c))).
    2:{ destruct ds; [done|]. rewrite zlen_cons. pose proof (zlen_nonneg ds). lia. }
    unfold set_offset. rewrite Hd.
    apply (moves_bind D _ _ _ _ (skip_whitespace_moves D _ _ Hci)). intros c1 Hc1.
    apply (moves_bind D _ _ _ _ (next_field_moves D _ _ Hc1)). intros c2 Hc2.
    eexists; split; [|done]. do 3 f_equal. apply Z.ltb_lt in Hv.
    pose proof (dec_value_nonneg ds (take_while_all _ _)).
    apply u32_small. unfold is_u32. lia.
Qed.

Lemma drop_sp_idem s : drop_sp (drop_sp s) = drop_sp s.
Proof.
  unfold drop_sp. induction s as [|x s IH]; [done|]. cbn [drop_while].
  destruct (x =? SP) eqn:Hx; [done|]. cbn [drop_while]. by rewrite Hx.
Qed.

(** The character ahead and the context behind it. *)
Lemma ctx_next D s c x :
  ctx_at D s c -> x <> 0 -> peek s = x ->
  ctx_at D (tail s) (set_offset c (u32 (offset c + 1))).
Proof.
  intros Hc Hx Hs. pose proof Hc as (Hd & _). unfold set_offset. rewrite Hd.
  destruct s as [|y s]; [done|]. by apply (ctx_tail D y).
Qed.

Lemma get_number_default_follows D s c d :
  ctx_at D s c -> follows D (hfp_context_get_number_default c d) (p_number_default s d).
Proof.
  intros Hc. unfold hfp_context_get_number_default, p_number_default.
  apply (moves_bind D _ _ _ _ (skip_whitespace_moves D s c Hc)). clear c Hc. intros c Hc.
  rewrite (ctx_peek D _ c Hc). cbn [mbind option_bind].
  destruct (Z.eqb_spec (peek (drop_sp s)) COMMA) as [Hx|Hx].
  - eexists; split; [done|]. by apply (ctx_next D _ _ COMMA).
  - replace (p_number s) with (p_number (drop_sp s)); [by apply get_number_follows|].
    unfold p_number. by rewrite drop_sp_idem.
Qed.

Lemma open_follows D s c :
  ctx_at D s c -> follows D (hfp_context_open_container c) (Some (p_open s)).
Proof.
  intros Hc. unfold hfp_context_open_container, p_open.
  apply (moves_bind D _ _ _ _ (skip_whitespace_moves D s c Hc)). clear c Hc. intros c Hc.
  rewrite (ctx_peek D _ c Hc). cbn [mbind option_bind].
  destruct (Z.eqb_spec (peek (drop_sp s)) LPAR) as [Hx|Hx]; (eexists; split; [done|]);
    [by apply (ctx_next D _ _ LPAR)|done].
Qed.

Lemma close_follows D s c :
  ctx_at D s c -> follows D (hfp_context_close_container c) (Some (p_close s)).
Proof.
  intros Hc. unfold hfp_context_close_container, p_close.
  apply (moves_bind D _ _ _ _ (skip_whitespace_moves D s c Hc)). clear c Hc. intros c Hc.
  rewrite (ctx_peek D _ c Hc). cbn [mbind option_bind].
  destruct (Z.eqb_spec (peek (drop_sp s)) RPAR) as [Hx|Hx]; [|by eexists].
  apply (moves_bind D _ _ _ _ (next_field_moves D _ _ (ctx_next D _ _ RPAR Hc ltac:(done) Hx))).
  intros c' Hc'. by eexists.
Qed.

Lemma has_next_spec D s c :
  ctx_at D s c -> hfp_context_has_next c = Some (negb (bool_decide (s = []))).
Proof.
  intros Hc. unfold hfp_context_has_next. rewrite (ctx_peek D _ c Hc). cbn. f_equal.
  destruct Hc as (_ & _ & Hs & _). destruct s as [|x s]; [done|].
  apply Forall_cons_1 in Hs as [Hx _]. cbn. by rewrite (proj2 (Z.eqb_neq x 0)).
Qed.

Lemma skip_field_moves D s c :
  ctx_at D s c -> moves D (hfp_context_skip_field c) (p_skip_field s).
Proof.
  intros Hc. pose proof Hc as (Hd & _). unfold hfp_context_skip_field, p_skip_field.
  destruct (scan_moves D (fun x => negb (x =? 0) && negb (x =? COMMA)) s c eq_refl Hc)
    as (off & -> & H'). cbn [mbind option_bind]. unfold set_offset. rewrite Hd.
  by apply next_field_moves.
Qed.

Lemma get_range_follows D s c :
  ctx_at D s c -> follows D (hfp_context_get_range c) (p_range s).
Proof.
  intros Hc. unfold hfp_context_get_range, p_range.
  assert (forall c', data c' = D -> ctx_at D s (set_offset c' (offset c))) as Hback.
  { intros c' Hd'. unfold set_offset. rewrite Hd'. by apply ctx_set. }
  assert (forall s' c', ctx_at D s' c' -> ctx_at D s (set_offset c' (offset c))) as Hback'.
  { intros s' c' [Hd' _]. by apply Hback. }
  apply (follows_bind D _ _ (fun l c1 => _) (fun l s1 => _) (get_number_follows D s c Hc)).
  intros [l|] s1 c1 Hc1; [|eexists; split; [done|by eapply Hback']].
  rewrite (ctx_peek D _ c1 Hc1). cbn [mbind option_bind].
  destruct (Z.eqb_spec (peek s1) MINUS) as [Hx|Hx]; cbn [negb];
    [|eexists; split; [done|by eapply Hback']].
  apply (follows_bind D _ _ (fun h c2 => _) (fun h s2 => _)
    (get_number_follows D _ _ (ctx_next D _ _ MINUS Hc1 ltac:(done) Hx))).
  intros [h|] s2 c2 Hc2; [|eexists; split; [done|by eapply Hback']].
  apply (moves_bind D _ _ _ _ (next_field_moves D _ _ Hc2)). intros c3 Hc3. by eexists.
Qed.

(** The strings: what is returned, the context behind, and the block of the caller. *)
Definition reads (D : bytes) (r : ub (bool * hfp_context * bytes)) (sp : option bytes * bytes)
    (buf : bytes) : Prop :=
  exists c buf', r = Some (bool_decide (is_Some sp.1), c, buf') /\ ctx_at D sp.2 c /\
    zlen buf' = zlen buf /\
    (forall t, sp.1 = Some t -> buf' = over (t ++ [0]) buf).

Lemma get_string_reads D s c buf len :
  ctx_at D s c -> 0 <= len <= zlen buf ->
  reads D (hfp_context_get_string c buf len) (p_string s len) buf.
Proof.
  intros Hc Hlen. unfold hfp_context_get_string, p_string.
  destruct (skip_whitespace_moves D s c Hc) as (c1 & -> & Hc1). cbn [mbind option_bind].
  set (s1 := drop_sp s) in *. rewrite (ctx_peek D _ c1 Hc1). cbn [mbind option_bind].
  destruct (Z.eqb_spec (peek s1) QUOTE) as [Hx|Hx]; cbn [negb]; [|by eexists _, _].
  pose proof (ctx_next D _ _ QUOTE Hc1 ltac:(done) Hx) as Hc2.
  pose proof (copy_while_moves D in_quotes (tail s1) _ buf [] len eq_refl Hc2
    ltac:(change (zlen []) with 0; lia) ltac:(lia)) as Hcopy. cbn zeta in Hcopy.
  pose proof (ctx_fuel D _ _ Hc2) as Hn. pose proof Hc2 as (Hd & _). cbn in Hd.
  rewrite <- Hd in Hn. specialize (Hcopy _ Hn). cbn [data offset set_offset app] in Hcopy.
  change (zlen []) with 0 in Hcopy. change (over [] buf) with buf in Hcopy.
  change (fun x => negb (x =? 0) && negb (x =? QUOTE)) with in_quotes.
  set (t := take_while in_quotes (tail s1)) in *. rewrite Z.add_0_l in Hcopy.
  destruct (Z.ltb_spec len (zlen t)) as [Hl|Hl].
  { destruct Hcopy as (b & -> & Hb). cbn [mbind option_bind].
    rewrite (proj2 (Z.leb_le len _)) by lia. by eexists _, _. }
  destruct Hcopy as (off & -> & Hc3). cbn [mbind option_bind].
  destruct (Z.eqb_spec (zlen t) len) as [He|He].
  { rewrite (proj2 (Z.leb_le len _)) by lia. eexists _, _. split_and!; [done..| |done].
    apply over_length. lia. }
  rewrite (proj2 (Z.leb_gt len _)) by lia.
  rewrite st_over by (done || (change (zlen [0]) with 1; lia)). cbn [mbind option_bind].
  assert (zlen (over (t ++ [0]) buf) = zlen buf) as Hov
    by (apply over_length; rewrite zlen_app; change (zlen [0]) with 1; lia).
  rewrite Hd. pose proof (ctx_peek' D _ _ Hc3) as Hp. cbn [offset] in Hp. rewrite Hp.
  cbn [mbind option_bind].
  destruct (Z.eqb_spec (peek (drop_while in_quotes (tail s1))) QUOTE) as [Hq|Hq].
  - pose proof (ctx_next D _ _ QUOTE Hc3 ltac:(done) Hq) as Hc4. unfold set_offset in *.
    cbn [data offset] in Hc4. rewrite Hd.
    destruct (skip_whitespace_moves D _ _ Hc4) as (c5 & -> & Hc5). cbn [mbind option_bind].
    destruct (next_field_moves D _ _ Hc5) as (c6 & -> & Hc6). cbn [mbind option_bind].
    eexists _, _. split_and!; [done..|]. by intros ? [= <-].
  - by eexists _, _.
Qed.

Lemma get_unquoted_string_reads D s c buf len :
  ctx_at D s c -> 0 <= len <= zlen buf ->
  reads D (hfp_context_get_unquoted_string c buf len) (p_unquoted s len) buf.
Proof.
  intros Hc Hlen. unfold hfp_context_get_unquoted_string, p_unquoted.
  destruct (skip_whitespace_moves D s c Hc) as (c1 & -> & Hc1). cbn [mbind option_bind].
  set (s1 := drop_sp s) in *. rewrite (ctx_peek D _ c1 Hc1). cbn [mbind option_bind].
  destruct ((peek s1 =? QUOTE) || (peek s1 =? RPAR) || (peek s1 =? LPAR)); [by eexists _, _|].
  pose proof (copy_while_moves D unquoted s1 _ buf [] len eq_refl Hc1
    ltac:(change (zlen []) with 0; lia) ltac:(lia)) as Hcopy. cbn zeta in Hcopy.
  pose proof (ctx_fuel D _ _ Hc1) as Hn. pose proof Hc1 as (Hd & _).
  rewrite <- Hd in Hn. specialize (Hcopy _ Hn). cbn [app] in Hcopy.
  change (zlen []) with 0 in Hcopy. change (over [] buf) with buf in Hcopy.
  change (fun x => negb (x =? 0) && negb (x =? COMMA) && negb (x =? RPAR)) with unquoted.
  set (t := take_while unquoted s1) in *. rewrite Z.add_0_l in Hcopy.
  destruct (Z.ltb_spec len (zlen t)) as [Hl|Hl].
  { destruct Hcopy as (b & -> & Hb). cbn [mbind option_bind].
    rewrite (proj2 (Z.leb_le len _)) by lia. by eexists _, _. }
  destruct Hcopy as (off & -> & Hc3). cbn [mbind option_bind].
  destruct (Z.eqb_spec (zlen t) len) as [He|He].
  { rewrite (proj2 (Z.leb_le len _)) by lia. eexists _, _. split_and!; [done..| |done].
    apply over_length. lia. }
  rewrite (proj2 (Z.leb_gt len _)) by lia.
  rewrite st_over by (done || (change (zlen [0]) with 1; lia)). cbn [mbind option_bind].
  unfold set_offset. rewrite Hd. destruct (next_field_moves D _ _ Hc3) as (c6 & -> & Hc6).
  cbn [mbind option_bind]. eexists _, _. split_and!; [done..| |by intros ? [= <-]].
  apply over_length. rewrite zlen_app. change (zlen [0]) with 1. lia.
Qed.
