(* ===== verification/HfpArgs.v ===== *)
(** Arguments of AT commands as text, and that the parser of HfpContext.v reads them back. *)
From Stdlib Require Import ZArith Lia String.
From S2P Require Import Prelude Blocks Libc HfpContext HfpContextSpec.
From stdpp Require Import base numbers list option.

Local Open Scope Z_scope.

(** ** Decimal numbers *)

(** The digits of [n], which has at most [k] + 1 of them. *)
Fixpoint dec_digits (k : nat) (n : Z) : bytes :=
  match k with
  | O => [48 + n mod 10]
  | S k => if n <? 10 then [48 + n mod 10] else dec_digits k (n / 10) ++ [48 + n mod 10]
  end.

(** The [%u] conversion of printf. *)
Definition dec_str (n : Z) : bytes := dec_digits 9 n.

Lemma dec_digits_all k n : 0 <= n -> Forall (fun c => is_digit c = true) (dec_digits k n).
Proof.
  revert n. induction k as [|k IH]; intros n Hn; cbn [dec_digits];
    pose proof (Z.mod_pos_bound n 10 ltac:(lia));
    [|destruct (n <? 10); [|apply Forall_app; split; [by apply IH, Z.div_pos|]]];
    (apply Forall_singleton; unfold is_digit; lia).
Qed.

Lemma dec_digits_nonempty k n : dec_digits k n <> [].
Proof. destruct k; cbn; [done|]. destruct (n <? 10); [done|]. by destruct (dec_digits k (n / 10)). Qed.

Lemma dec_value_digits k n :
  0 <= n < 10 ^ Z.of_nat (S k) -> dec_value (dec_digits k n) = n.
Proof.
  revert n. induction k as [|k IH]; intros n Hn; cbn [dec_digits].
  { change (10 ^ Z.of_nat 1) with 10 in Hn. unfold dec_value. cbn [foldl].
    rewrite Z.mod_small by lia. lia. }
  destruct (Z.ltb_spec n 10).
  { unfold dec_value. cbn [foldl]. rewrite Z.mod_small by lia. lia. }
  unfold dec_value. rewrite foldl_app. cbn [foldl]. fold (dec_value (dec_digits k (n / 10))).
  rewrite Nat2Z.inj_succ, Z.pow_succ_r in Hn by lia.
  rewrite IH by (split; [apply Z.div_pos; lia|apply Z.div_lt_upper_bound; lia]).
  pose proof (Z.div_mod n 10 ltac:(lia)). lia.
Qed.

(** ** Arguments *)

Inductive arg :=
  | ANum (n : Z)
  | ADefault (d : Z)
  | AStr (s : bytes)
  | AUnq (s : bytes)
  | ARange (l h : Z)
  | AGroup (args : list arg).

(** Elements separated by commas. *)
Fixpoint commas (l : list bytes) : bytes :=
  match l with
  | [] => []
  | [x] => x
  | x :: l => x ++ COMMA :: commas l
  end.

(** An argument that is left out is empty. *)
Fixpoint arg_text (a : arg) : bytes :=
  match a with
  | ANum n => dec_str n
  | ADefault _ => []
  | AStr s => QUOTE :: s ++ [QUOTE]
  | AUnq s => s
  | ARange l h => dec_str l ++ MINUS :: dec_str h
  | AGroup args => LPAR :: commas (arg_text <$> args) ++ [RPAR]
  end.
Definition args_text (args : list arg) : bytes := commas (arg_text <$> args).

(** A client that expects arguments of the kinds of [args] and returns what it reads; its
    strings go to a block of [len] bytes. *)
Section read.
Variable len : Z.

Definition buffer : bytes := replicate (Z.to_nat len) 0.

Definition string_arg (f : bytes -> arg) (r : ub (bool * hfp_context * bytes))
    : ub (option arg * hfp_context) :=
  '(b, c, buf) ← r;
  Some (if b : bool then Some (f (until_null buf)) else None, c).

(** The elements of a list, until one is not of its kind. *)
Definition read_list (f : arg -> hfp_context -> ub (option arg * hfp_context)) :
    list arg -> hfp_context -> ub (option (list arg) * hfp_context) :=
  fix read_list args c :=
    match args with
    | [] => Some (Some [], c)
    | a :: args =>
      '(v, c) ← f a c;
      match v : option arg with
      | None => Some (None, c)
      | Some v =>
        '(r, c) ← read_list args c;
        Some (match r : option (list arg) with Some l => Some (v :: l) | None => None end, c)
      end
    end.

Fixpoint read_arg (a : arg) (c : hfp_context) : ub (option arg * hfp_context) :=
  match a with
  | ANum _ => '(v, c) ← hfp_context_get_number c; Some (option_map ANum v, c)
  | ADefault d => '(v, c) ← hfp_context_get_number_default c d; Some (option_map ADefault v, c)
  | AStr _ => string_arg AStr (hfp_context_get_string c buffer len)
  | AUnq _ => string_arg AUnq (hfp_context_get_unquoted_string c buffer len)
  | ARange _ _ =>
    '(v, c) ← hfp_context_get_range c; Some (option_map (fun x => ARange x.1 x.2) v, c)
  | AGroup args =>
    '(b, c) ← hfp_context_open_container c;
    if negb b then Some (None, c)
    else
      '(r, c) ← read_list read_arg args c;
      match r with
      | None => Some (None, c)
      | Some args =>
        '(b, c) ← hfp_context_close_container c;
        Some (if b : bool then Some (AGroup args) else None, c)
      end
  end.

Definition read_args : list arg -> hfp_context -> ub (option (list arg) * hfp_context) :=
  read_list read_arg.
End read.

(** What the text must not look like for its kind. *)
Definition num_ok (n : Z) : Prop := 0 <= n < 2 ^ 31 - 48.

(** An argument that is left out needs a comma behind it, and a range must not be in front of
    it. *)
Definition adjacent_ok (a : arg) (next : option arg) : bool :=
  match a, next with
  | ADefault _, None => false
  | ARange _ _, Some (ADefault _) => false
  | _, _ => true
  end.
Fixpoint chain_ok (args : list arg) : bool :=
  match args with
  | [] => true
  | a :: args => adjacent_ok a (head args) && chain_ok args
  end.

Inductive arg_ok (len : Z) : arg -> Prop :=
  | ok_num n : num_ok n -> arg_ok len (ANum n)
  | ok_default d : arg_ok len (ADefault d)
  | ok_str s : no_null s -> Forall (fun x => x <> QUOTE) s -> zlen s < len -> arg_ok len (AStr s)
  | ok_unq x s : x <> SP -> x <> QUOTE -> x <> LPAR -> Forall (fun x => unquoted x = true) (x :: s) ->
      zlen (x :: s) < len -> arg_ok len (AUnq (x :: s))
  | ok_range l h : num_ok l -> num_ok h -> arg_ok len (ARange l h)
  | ok_group args : Forall (arg_ok len) args -> chain_ok args = true -> arg_ok len (AGroup args).

(** ** Reading back *)

Lemma while_app p t r :
  Forall (fun c => p c = true) t -> r = [] \/ p (peek r) = false ->
  take_while p (t ++ r) = t /\ drop_while p (t ++ r) = r.
Proof.
  intros Ht Hr. induction Ht as [|x t Hx Ht [IH1 IH2]]; cbn.
  - destruct Hr as [->|Hr]; [done|]. destruct r as [|x r]; [done|]. cbn in *. by rewrite Hr.
  - by rewrite Hx, IH1, IH2.
Qed.

Lemma drop_sp_none s : peek s <> SP -> drop_sp s = s.
Proof.
  intros Hs. destruct s as [|x s]; [done|]. cbn in *. by rewrite (proj2 (Z.eqb_neq x SP)).
Qed.

(** What comes behind an argument. *)
Definition ends (r : bytes) : Prop := r = [] \/ peek r = COMMA \/ peek r = RPAR.

Lemma ends_not r x : ends r -> x <> 0 -> x <> COMMA -> x <> RPAR -> peek r <> x.
Proof. intros [-> |[-> | ->]]; cbn; congruence. Qed.

Lemma ends_no_digit r : ends r -> r = [] \/ is_digit (peek r) = false.
Proof. intros [-> |[-> | ->]]; [by left|by right..]. Qed.

Lemma peek_app x t r : peek ((x :: t) ++ r) = x.
Proof. done. Qed.

Lemma dec_str_peek n r : 0 <= n -> is_digit (peek (dec_str n ++ r)) = true.
Proof.
  intros Hn. pose proof (dec_digits_all 9 n Hn) as Hall. fold (dec_str n) in Hall.
  pose proof (dec_digits_nonempty 9 n) as Hne. fold (dec_str n) in Hne.
  destruct (dec_str n) as [|x t]; [done|]. by apply Forall_cons_1 in Hall as [Hx _].
Qed.

Lemma p_number_dec n r :
  num_ok n -> r = [] \/ is_digit (peek r) = false ->
  p_number (dec_str n ++ r) = Some (Some n, skip_comma (drop_sp r)).
Proof.
  intros Hn Hr. unfold num_ok in Hn. pose proof (dec_str_peek n r ltac:(lia)) as Hp.
  unfold p_number. rewrite drop_sp_none.
  2:{ intros He. rewrite He in Hp. done. }
  destruct (while_app is_digit (dec_str n) r (dec_digits_all 9 n ltac:(lia)) Hr) as [-> ->].
  rewrite bool_decide_eq_false_2 by apply dec_digits_nonempty.
  unfold dec_str at 1 2. rewrite dec_value_digits.
  2:{ change (10 ^ Z.of_nat 10) with 10000000000. lia. }
  by rewrite (proj2 (Z.ltb_lt _ _)) by lia.
Qed.

(** With 48, the code of the digit 0, it does not fit an [int]. *)
Lemma p_number_overflow n r :
  2 ^ 31 - 48 <= n < 10 ^ 10 -> r = [] \/ is_digit (peek r) = false ->
  p_number (dec_str n ++ r) = None.
Proof.
  intros Hn Hr. pose proof (dec_str_peek n r ltac:(lia)) as Hp.
  unfold p_number. rewrite drop_sp_none.
  2:{ intros He. rewrite He in Hp. done. }
  destruct (while_app is_digit (dec_str n) r (dec_digits_all 9 n ltac:(lia)) Hr) as [-> _].
  rewrite bool_decide_eq_false_2 by apply dec_digits_nonempty.
  unfold dec_str. rewrite dec_value_digits by (change (Z.of_nat 10) with 10; lia).
  by rewrite (proj2 (Z.ltb_ge _ _)) by lia.
Qed.

Lemma p_string_quoted s r len :
  no_null s -> Forall (fun x => x <> QUOTE) s -> zlen s < len -> peek r <> SP ->
  p_string ((QUOTE :: s ++ [QUOTE]) ++ r) len = (Some s, skip_comma r).
Proof.
  intros Hs Hq Hl Hr. unfold p_string. cbn [app]. rewrite <- app_assoc. cbn [app].
  rewrite drop_sp_none by done. cbn [peek tail]. rewrite Z.eqb_refl. cbn [negb].
  destruct (while_app in_quotes s (QUOTE :: r)) as [-> ->]; [|by right|].
  { eapply Forall_impl; [|exact (Forall_and Hs Hq)]. cbn. intros x [Hx1 Hx2]. unfold in_quotes.
    by rewrite (proj2 (Z.eqb_neq x 0)), (proj2 (Z.eqb_neq x QUOTE)). }
  rewrite (proj2 (Z.leb_gt len _)) by lia. cbn [peek tail]. rewrite Z.eqb_refl.
  by rewrite drop_sp_none.
Qed.

Lemma p_unquoted_text x s r len :
  x <> SP -> x <> QUOTE -> x <> LPAR -> Forall (fun x => unquoted x = true) (x :: s) ->
  zlen (x :: s) < len -> ends r ->
  p_unquoted ((x :: s) ++ r) len = (Some (x :: s), skip_comma r).
Proof.
  intros H1 H2 H3 Hs Hl Hr. unfold p_unquoted. rewrite drop_sp_none by done. rewrite peek_app.
  assert (x <> RPAR) as H4.
  { apply Forall_cons_1 in Hs as [Hx _]. intros ->. done. }
  rewrite (proj2 (Z.eqb_neq x QUOTE)), (proj2 (Z.eqb_neq x RPAR)), (proj2 (Z.eqb_neq x LPAR)) by done.
  cbn [orb]. destruct (while_app unquoted (x :: s) r Hs) as [-> ->].
  { destruct Hr as [->|[-> | ->]]; [by left|by right..]. }
  by rewrite (proj2 (Z.leb_gt len _)) by lia.
Qed.

Lemma p_range_dec l h r :
  num_ok l -> num_ok h -> ends r ->
  p_range ((dec_str l ++ MINUS :: dec_str h) ++ r) = Some (Some (l, h), skip_comma (skip_comma r)).
Proof.
  intros Hl Hh Hr. unfold p_range. rewrite <- app_assoc. cbn [app].
  rewrite p_number_dec by (done || by right). cbn [mbind option_bind].
  rewrite drop_sp_none by done. cbn [skip_comma peek tail].
  change (MINUS =? COMMA) with false. cbn [peek tail]. rewrite Z.eqb_refl. cbn [negb].
  rewrite p_number_dec; [|done|destruct Hr as [->|[-> | ->]]; [by left|by right..]].
  cbn [mbind option_bind]. by rewrite drop_sp_none by (by apply ends_not).
Qed.

Definition fits_rest (a : arg) (r : bytes) : Prop :=
  match a with
  | ADefault _ => exists r', r = COMMA :: r'
  | ARange _ _ => skip_comma (skip_comma r) = skip_comma r
  | _ => True
  end.

Section roundtrip.
Variable len : Z.
Hypothesis Hlen : 0 <= len.

(** Reads [a] and stops behind the comma. *)
Definition reads_back (a : arg) : Prop :=
  forall D r c, fits_rest a r -> ends r -> ctx_at D (arg_text a ++ r) c ->
  exists c', read_arg len a c = Some (Some a, c') /\ ctx_at D (skip_comma r) c'.

Lemma string_arg_reads D r sp f t s :
  reads D r sp (buffer len) -> sp = (Some t, s) -> no_null t ->
  exists c, string_arg f r = Some (Some (f t), c) /\ ctx_at D s c.
Proof using Type.
  intros (c & buf & -> & Hc & _ & Hbuf) -> Ht. exists c. split; [|done].
  unfold string_arg. cbn [mbind option_bind fst]. rewrite bool_decide_eq_true_2 by (by eexists).
  rewrite (Hbuf t eq_refl). unfold over. rewrite <- app_assoc. cbn [app].
  by rewrite until_null_string.
Qed.

Lemma follows_some {A} D (r : ub (A * hfp_context)) a s :
  follows D r (Some (a, s)) -> exists c, r = Some (a, c) /\ ctx_at D s c.
Proof using Type. done. Qed.

Lemma commas_cons x y l : commas (x :: y :: l) = x ++ COMMA :: commas (y :: l).
Proof using Type. done. Qed.

(** The start of the text of an argument that is not left out. *)
Lemma arg_text_start a r :
  arg_ok len a -> (forall d, a <> ADefault d) -> peek (arg_text a ++ r) <> COMMA.
Proof using Type.
  intros Ha Hd. destruct Ha as [n Hn|d|s|x s H1 H2 H3 Hs Hl|l h Hl Hh|args].
  - pose proof (dec_str_peek n r ltac:(unfold num_ok in *; lia)) as Hp. intros He.
    cbn [arg_text] in He. by rewrite He in Hp.
  - by destruct (Hd d).
  - done.
  - cbn. apply Forall_cons_1 in Hs as [Hx _]. intros ->. done.
  - cbn [arg_text]. rewrite <- app_assoc.
    pose proof (dec_str_peek l ((MINUS :: dec_str h) ++ r) ltac:(unfold num_ok in *; lia)) as Hp.
    intros He. by rewrite He in Hp.
  - done.
Qed.

Lemma skip_comma_none s : peek s <> COMMA -> skip_comma s = s.
Proof using Type. destruct s as [|x s]; [done|]. cbn. intros H. by rewrite (proj2 (Z.eqb_neq x _)). Qed.

Lemma read_list_spec D args : forall c r,
  Forall (arg_ok len) args -> Forall reads_back args -> chain_ok args = true ->
  r = [] \/ peek r = RPAR ->
  ctx_at D (commas (arg_text <$> args) ++ r) c ->
  exists c', read_list (read_arg len) args c = Some (Some args, c') /\ ctx_at D r c'.
Proof using Type.
  induction args as [|a args IH]; intros c r Hok Hrb Hchain Hr Hc.
  { by exists c. }
  apply Forall_cons_1 in Hok as [Ha Hok]. apply Forall_cons_1 in Hrb as [Hrb Hrbs].
  cbn [chain_ok] in Hchain. apply andb_true_iff in Hchain as [Hadj Hchain].
  assert (exists rest, commas (arg_text <$> a :: args) ++ r = arg_text a ++ rest /\
    fits_rest a rest /\ ends rest /\
    skip_comma rest = commas (arg_text <$> args) ++ r) as (rest & Heq & Hfit & Hends & Hskip).
  { destruct args as [|b args].
    - exists r. split_and!; [done| |destruct Hr; [by left|by right; right]|].
      + destruct a; cbn in *; try done. destruct Hr as [-> |Hr]; [done|].
        by rewrite !(skip_comma_none r) by (by rewrite Hr).
      + destruct Hr as [-> |Hr]; [done|]. by rewrite (skip_comma_none r) by (by rewrite Hr).
    - exists (COMMA :: commas (arg_text <$> b :: args) ++ r).
      rewrite !fmap_cons, commas_cons, <- app_assoc. split_and!; [done| |by right; left|done].
      destruct a; cbn [fits_rest]; try done; [by eexists|].
      cbn [skip_comma]. change (COMMA =? COMMA) with true. cbn iota. apply skip_comma_none.
      apply Forall_cons_1 in Hok as [Hb _].
      destruct args as [|b' args]; [|rewrite !fmap_cons, commas_cons, <- app_assoc];
        (apply arg_text_start; [done|by intros d ->]). }
  rewrite Heq in Hc. destruct (Hrb D rest c Hfit Hends Hc) as (c1 & Hread & Hc1).
  rewrite Hskip in Hc1.
  destruct (IH c1 r Hok Hrbs Hchain Hr Hc1) as (c2 & Hread2 & Hc2).
  exists c2. split; [|done]. cbn [read_list]. fold (read_list (read_arg len)).
  rewrite Hread. cbn [mbind option_bind]. by rewrite Hread2.
Qed.

Lemma read_arg_spec a : arg_ok len a -> reads_back a.
Proof using All.
  revert a. fix IH 2. intros a Ha D r c Hfit Hends Hc.
  destruct Ha as [n Hn|d|s H1 H2 H3|x s H1 H2 H3 Hs Hl|l h Hl Hh|args Hargs Hchain];
    cbn [read_arg arg_text fits_rest] in *.
  - pose proof (get_number_follows D _ c Hc) as Hf.
    rewrite p_number_dec in Hf by (done || by apply ends_no_digit).
    rewrite drop_sp_none in Hf by (by apply ends_not). destruct Hf as (c' & -> & Hc'). by exists c'.
  - destruct Hfit as [r' ->]. pose proof (get_number_default_follows D _ c d Hc) as Hf.
    destruct Hf as (c' & -> & Hc'). by exists c'.
  - eapply (string_arg_reads D _ _ AStr); [apply (get_string_reads D _ c _ len Hc)| |done].
    + unfold buffer, zlen. rewrite length_replicate. lia.
    + apply p_string_quoted; try done. by apply ends_not.
  - eapply (string_arg_reads D _ _ AUnq); [apply (get_unquoted_string_reads D _ c _ len Hc)| |].
    + unfold buffer, zlen. rewrite length_replicate. lia.
    + by apply p_unquoted_text.
    + eapply Forall_impl; [|exact Hs]. intros y Hy ->. done.
  - pose proof (get_range_follows D _ c Hc) as Hf. rewrite p_range_dec, Hfit in Hf by done.
    destruct Hf as (c' & -> & Hc'). by exists c'.
  - assert (Forall reads_back args) as Hrb.
    { clear Hchain Hc. induction Hargs as [|b l Hb Hl IHl]; [apply Forall_nil_2|].
      apply Forall_cons_2; [by apply IH|exact IHl]. }
    destruct (open_follows D _ c Hc) as (c1 & -> & Hc1). cbn [mbind option_bind].
    cbn in Hc1. rewrite <- app_assoc in Hc1.
    destruct (read_list_spec D args c1 (RPAR :: r) Hargs Hrb Hchain ltac:(by right) Hc1)
      as (c2 & -> & Hc2). cbn [mbind option_bind].
    destruct (close_follows D _ c2 Hc2) as (c3 & -> & Hc3). by exists c3.
Qed.
End roundtrip.

Lemma commas_no_null l : Forall no_null l -> no_null (commas l).
Proof.
  induction 1 as [|x l Hx Hl IH]; [constructor|]. destruct l as [|y l]; [done|].
  rewrite commas_cons. apply Forall_app; split; [done|]. by constructor.
Qed.

Lemma dec_str_no_null n : 0 <= n -> no_null (dec_str n).
Proof.
  intros Hn. eapply Forall_impl; [|exact (dec_digits_all 9 n Hn)]. by intros x Hx ->.
Qed.

Lemma arg_text_no_null len a : arg_ok len a -> no_null (arg_text a).
Proof.
  revert a. fix IH 2. intros a Ha.
  destruct Ha as [n Hn|d|s H1 H2 H3|x s H1 H2 H3 Hs Hl|l h Hl Hh|args Hargs Hchain];
    cbn [arg_text]; unfold num_ok in *.
  - apply dec_str_no_null. lia.
  - constructor.
  - constructor; [done|]. apply Forall_app; split; [done|]. by constructor.
  - eapply Forall_impl; [|exact Hs]. by intros y Hy ->.
  - apply Forall_app; split; [|constructor; [done|]]; apply dec_str_no_null; lia.
  - constructor; [done|]. apply Forall_app; split; [|by constructor]. apply commas_no_null.
    clear Hchain. induction Hargs as [|b l Hb Hl IHl]; [apply Forall_nil_2|].
    apply Forall_cons_2; [by apply IH|exact IHl].
Qed.

(** C37. Arguments of AT commands round trip: numbers below 2^31 - 48, numbers that are left
    out (with a comma behind them), strings with and without quotes that fit the buffer,
    ranges that no left-out argument follows, and nested groups, printed with commas between
    them, are read back by the functions for their kinds, to the end of the string.  The two
    exceptions are errors of the code: a number from 2^31 - 48 on overflows an int when it is
    read, and behind a range an argument that is left out is skipped, so that the next function
    reads the argument after it. *)
Theorem hfp_args_roundtrip len args pre post :
  (0 <= len -> Forall (arg_ok len) args -> chain_ok args = true ->
   zlen (pre ++ args_text args ++ 0 :: post) < 2 ^ 32 ->
   exists c, read_args len args (Ctx (pre ++ args_text args ++ 0 :: post) (zlen pre))
             = Some (Some args, c) /\
     hfp_context_has_next c = Some false) /\
  (forall n r D c, 2 ^ 31 - 48 <= n < 10 ^ 10 -> ends r -> ctx_at D (dec_str n ++ r) c ->
     hfp_context_get_number c = None) /\
  (forall l h r D c, num_ok l -> num_ok h ->
     ctx_at D ((dec_str l ++ MINUS :: dec_str h) ++ COMMA :: COMMA :: r) c ->
     exists c', hfp_context_get_range c = Some (Some (l, h), c') /\ ctx_at D r c').
Proof.
  split_and!.
  2:{ intros n r D c Hn Hr Hc. pose proof (get_number_follows D _ c Hc) as Hf.
      by rewrite p_number_overflow in Hf by (done || by destruct Hr as [->|[-> | ->]]; [left|right..]). }
  2:{ intros l h r D c Hl Hh Hc. pose proof (get_range_follows D _ c Hc) as Hf.
      rewrite p_range_dec in Hf by (done || by right; left). exact Hf. }
  intros Hlen Hargs Hchain Hsz.
  assert (no_null (args_text args)) as Hnull.
  { apply commas_no_null, Forall_fmap. eapply Forall_impl; [|exact Hargs]. apply arg_text_no_null. }
  set (D := pre ++ args_text args ++ 0 :: post).
  assert (ctx_at D (commas (arg_text <$> args) ++ []) (Ctx D (zlen pre))) as Hc.
  { rewrite app_nil_r. split_and!; [done..|]. by exists pre, post. }
  destruct (read_list_spec len D args (Ctx D (zlen pre)) [] Hargs) as (c & Hread & Hc'); [|done|by left|done|].
  - eapply Forall_impl; [|exact Hargs]. intros a Ha. by apply read_arg_spec.
  - exists c. split; [exact Hread|]. by rewrite (has_next_spec D [] c Hc').
Qed.

(** The functions that read arguments are parsers of strings: on a string that ends inside
    its block they do not read outside it, end, leave the context at the rest that the parser
    leaves, and return its result; a number is undefined exactly when its value plus 48, the
    sum on the way to it, does not fit an int. *)
Theorem hfp_context_parses D s c buf len d :
  ctx_at D s c -> 0 <= len <= zlen buf ->
  follows D (hfp_context_get_number c) (p_number s) /\
  follows D (hfp_context_get_number_default c d) (p_number_default s d) /\
  follows D (hfp_context_open_container c) (Some (p_open s)) /\
  follows D (hfp_context_close_container c) (Some (p_close s)) /\
  follows D (hfp_context_get_range c) (p_range s) /\
  reads D (hfp_context_get_string c buf len) (p_string s len) buf /\
  reads D (hfp_context_get_unquoted_string c buf len) (p_unquoted s len) buf /\
  moves D (hfp_context_skip_field c) (p_skip_field s) /\
  hfp_context_has_next c = Some (negb (bool_decide (s = []))).
Proof.
  intros Hc Hlen. split_and!.
  - by apply get_number_follows.
  - by apply get_number_default_follows.
  - by apply open_follows.
  - by apply close_follows.
  - by apply get_range_follows.
  - by apply get_string_reads.
  - by apply get_unquoted_string_reads.
  - by apply skip_field_moves.
  - by eapply has_next_spec.
Qed.

(** ("call",(0,1)),,2-5,AB as arguments; the number 2147483600; and 2-5,,7, where 7 is next. *)
Lemma hfp_args_roundtrip_witness :
  let args := [AGroup [AStr [99; 97; 108; 108]; AGroup [ANum 0; ANum 1]]; ADefault 7; ARange 2 5;
               AUnq [65; 66]] in
  args_text args = Libc.chars "(" ++ [34; 99; 97; 108; 108; 34] ++ Libc.chars ",(0,1)),,2-5,AB" /\
  (exists c, read_args 16 args (Ctx (args_text args ++ [0]) 0) = Some (Some args, c) /\
    hfp_context_has_next c = Some false) /\
  hfp_context_get_number (Ctx (Libc.chars "2147483600" ++ [0]) 0) = None /\
  (exists c, hfp_context_get_range (Ctx (Libc.chars "2-5,,7" ++ [0]) 0) = Some (Some (2, 5), c) /\
    ctx_at (Libc.chars "2-5,,7" ++ [0]) (Libc.chars "7") c).
Proof.
  intros args. split; [reflexivity|].
  assert (num_ok 0 /\ num_ok 1 /\ num_ok 2 /\ num_ok 5) as (? & ? & ? & ?) by (unfold num_ok; lia).
  assert (forall s, forallb (fun c => negb (c =? 0)) s = true -> zlen (s ++ [0]) < 2 ^ 32 ->
    ctx_at (s ++ [0]) s (Ctx (s ++ [0]) 0)) as Hat.
  { intros s Hs Hlen. split_and!; [reflexivity|exact Hlen| |exists [], []; split; reflexivity].
    apply Forall_forall. intros x Hx ->. rewrite List.forallb_forall in Hs.
    discriminate (Hs 0 Hx). }
  destruct (hfp_args_roundtrip 16 args [] []) as (G1 & G2 & G3). split; [|split].
  - apply G1.
    + lia.
    + repeat first [apply Forall_nil_2 | apply Forall_cons_2 | constructor | assumption | discriminate
                   | reflexivity].
    + reflexivity.
    + vm_compute. reflexivity.
  - apply (G2 2147483600 [] (Libc.chars "2147483600" ++ [0])); [lia|left; reflexivity|].
    apply Hat; vm_compute; reflexivity.
  - apply (G3 2 5 (Libc.chars "7")); [assumption..|]. apply Hat; vm_compute; reflexivity.
Defined.

(** The offset of a comma in a block, and a number that is too large. *)
Lemma hfp_context_parses_witness :
  hfp_context_get_number (Ctx [32; 52; 50; 44; 55; 0] 0)
    = Some (Some 42, Ctx [32; 52; 50; 44; 55; 0] 4) /\
  hfp_context_get_number (Ctx (Libc.chars "2147483647" ++ [0]) 0) = None.
Proof.
  assert (forall D s, zlen D < 2 ^ 32 -> no_null s -> D = s ++ [0] -> ctx_at D s (Ctx D 0)) as Hat.
  { intros D s HD Hs ->. split_and!; [reflexivity|exact HD|exact Hs|]. exists [], []. split; reflexivity. }
  split.
  - destruct (hfp_context_parses _ [32; 52; 50; 44; 55] (Ctx [32; 52; 50; 44; 55; 0] 0) [] 0 0
      (Hat [32; 52; 50; 44; 55; 0] [32; 52; 50; 44; 55] eq_refl ltac:(repeat constructor; discriminate) eq_refl)
      ltac:(split; discriminate))
      as ((c & Hc & _) & _).
    rewrite Hc. vm_compute in Hc. injection Hc as <-. reflexivity.
  - apply (hfp_context_parses _ (Libc.chars "2147483647") (Ctx (Libc.chars "2147483647" ++ [0]) 0) [] 0 0
      (Hat (Libc.chars "2147483647" ++ [0]) (Libc.chars "2147483647") eq_refl ltac:(repeat constructor; discriminate) eq_refl)
      ltac:(split; discriminate)).
Defined.
