(* ===== verification/Io.v ===== *)
(** File descriptor watches: src/shared/io-mainloop.c.  The callbacks are names ([C] and, for
    the destroy functions, [D]) that the owner of the io interprets; the main loop is the
    argument [mainloop_modify] (whether a change of the events of a descriptor succeeds). *)
From Stdlib Require Import ZArith Lia.
From S2P Require Import Prelude StateM.
From stdpp Require Import base numbers list option.

Local Open Scope Z_scope.

Definition EPOLLIN : Z := 0x001.
Definition EPOLLOUT : Z := 0x004.
Definition EPOLLERR : Z := 0x008.
Definition EPOLLHUP : Z := 0x010.
Definition EPOLLRDHUP : Z := 0x2000.

Definition ENOTCONN : Z := 107.

(** A callback with its destroy function. *)
Record watch (C D : Type) := Watch { callback : option C; destroy : option D }.
Arguments Watch {C D}.
Arguments callback {C D}.
Arguments destroy {C D}.

Definition no_watch {C D} : watch C D := Watch None None.

Record io (C D : Type) := Io {
  ref_count : Z;
  fd : Z;
  events : Z;
  close_on_destroy : bool;
  read_watch : watch C D;
  write_watch : watch C D;
  disconnect_watch : watch C D;
}.
Arguments Io {C D}.
Arguments ref_count {C D}.
Arguments fd {C D}.
Arguments events {C D}.
Arguments close_on_destroy {C D}.
Arguments read_watch {C D}.
Arguments write_watch {C D}.
Arguments disconnect_watch {C D}.

Section assignments.
Context {C D : Type}.
Definition set_ref_count (i : io C D) (x : Z) : io C D :=
  Io x (fd i) (events i) (close_on_destroy i) (read_watch i) (write_watch i) (disconnect_watch i).
Definition set_fd (i : io C D) (x : Z) : io C D :=
  Io (ref_count i) x (events i) (close_on_destroy i) (read_watch i) (write_watch i)
    (disconnect_watch i).
Definition set_events (i : io C D) (x : Z) : io C D :=
  Io (ref_count i) (fd i) x (close_on_destroy i) (read_watch i) (write_watch i)
    (disconnect_watch i).
Definition set_close_on_destroy (i : io C D) (x : bool) : io C D :=
  Io (ref_count i) (fd i) (events i) x (read_watch i) (write_watch i) (disconnect_watch i).
Definition set_read_watch (i : io C D) (x : watch C D) : io C D :=
  Io (ref_count i) (fd i) (events i) (close_on_destroy i) x (write_watch i) (disconnect_watch i).
Definition set_write_watch (i : io C D) (x : watch C D) : io C D :=
  Io (ref_count i) (fd i) (events i) (close_on_destroy i) (read_watch i) x (disconnect_watch i).
Definition set_disconnect_watch (i : io C D) (x : watch C D) : io C D :=
  Io (ref_count i) (fd i) (events i) (close_on_destroy i) (read_watch i) (write_watch i) x.

(** [mainloop_add_fd] may fail. *)
Definition io_new (mainloop_add : Z -> Z -> bool) (fd : Z) : option (io C D) :=
  if fd <? 0 then None
  else if negb (mainloop_add fd 0) then None
  else Some (Io 1 fd 0 false no_watch no_watch no_watch).
End assignments.

(** The owner's world: where its io is ([None] when it is freed), what its callbacks do, and
    the descriptors that are closed. *)
Class IoOwner (W C D : Type) := {
  io_of : W -> option (io C D);
  with_io : W -> option (io C D) -> W;
  run_destroy : D -> M W unit;
  close_fd : Z -> M W unit;
}.

Section watches.
Context {W C D : Type} `{IoOwner W C D}.
Variable mainloop_modify : Z -> Z -> bool.

Definition get_io : M W (io C D) := get_some io_of.
Definition put_io (i : io C D) : M W unit := modify (fun w => with_io w (Some i)).
Definition free_io : M W unit := modify (fun w => with_io w None).

Definition io_ref : M W unit := i ← get_io; put_io (set_ref_count i (ref_count i + 1)).
Definition io_unref : M W unit :=
  i ← get_io;
  if ref_count i - 1 =? 0 then free_io else put_io (set_ref_count i (ref_count i - 1)).

Definition destroy_watch (w : watch C D) : M W unit :=
  match destroy w with Some d => run_destroy d | None => mret tt end.

Definition io_cleanup : M W unit :=
  i ← get_io; destroy_watch (write_watch i);;
  i ← get_io; destroy_watch (read_watch i);;
  i ← get_io; destroy_watch (disconnect_watch i);;
  i ← get_io;
  when (close_on_destroy i) (close_fd (fd i));;
  i ← get_io; put_io (set_fd i (-1)).

(** The main loop, which calls the destroy function of the descriptor's watch; a descriptor
    that was removed is -1. *)
Definition mainloop_remove_fd : M W unit :=
  i ← get_io; if fd i <? 0 then mret tt else io_cleanup.

Definition io_destroy : M W unit :=
  i ← get_io;
  put_io (set_read_watch i (Watch None (destroy (read_watch i))));;
  i ← get_io;
  put_io (set_write_watch i (Watch None (destroy (write_watch i))));;
  i ← get_io;
  put_io (set_disconnect_watch i (Watch None (destroy (disconnect_watch i))));;
  mainloop_remove_fd;;
  io_unref.

(** [None] is a NULL io. *)
Definition io_get_fd (i : option (io C D)) : Z :=
  match i with None => - ENOTCONN | Some i => fd i end.

Definition io_set_close_on_destroy (do_close : bool) : M W bool :=
  i ← get_io; put_io (set_close_on_destroy i do_close);; mret true.

(** The three functions that set a handler differ in the watch and its event. *)
Definition io_set_handler (watch_of : io C D -> watch C D)
    (set_watch : io C D -> watch C D -> io C D) (event : Z)
    (callback : option C) (destroy : option D) : M W bool :=
  i ← get_io;
  if fd i <? 0 then mret false
  else
    destroy_watch (watch_of i);;
    i ← get_io;
    let events' := match callback with
                   | Some _ => Z.lor (events i) event
                   | None => Z.land (events i) (Z.lnot event)
                   end in
    put_io (set_watch i (Watch callback destroy));;
    i ← get_io;
    if events' =? events i then mret true
    else if negb (mainloop_modify (fd i) events') then mret false
    else put_io (set_events i events');; mret true.

Definition io_set_read_handler : option C -> option D -> M W bool :=
  io_set_handler read_watch set_read_watch EPOLLIN.
Definition io_set_write_handler : option C -> option D -> M W bool :=
  io_set_handler write_watch set_write_watch EPOLLOUT.
Definition io_set_disconnect_handler : option C -> option D -> M W bool :=
  io_set_handler disconnect_watch set_disconnect_watch EPOLLRDHUP.

(** [writev] of the kernel, without EINTR: a length, or minus the error. *)
Definition io_send (writev : Z -> list bytes -> Z) (iov : list bytes) : M W Z :=
  i ← get_io;
  if fd i <? 0 then mret (- ENOTCONN) else mret (writev (fd i) iov).

Definition io_shutdown (shutdown : Z -> bool) : M W bool :=
  i ← get_io;
  if fd i <? 0 then mret false else mret (shutdown (fd i)).

(** *** The main loop calls *)

Variable run : C -> M W bool.

(** A watch whose callback returned false is removed. *)
Definition drop_watch (watch_of : io C D -> watch C D)
    (set_watch : io C D -> watch C D -> io C D) (event : Z) : M W unit :=
  i ← get_io;
  destroy_watch (watch_of i);;
  i ← get_io;
  put_io (set_events (set_watch i no_watch) (Z.land (events i) (Z.lnot event))).

Definition dispatch (watch_of : io C D -> watch C D)
    (set_watch : io C D -> watch C D -> io C D) (event : Z) : M W unit :=
  i ← get_io;
  match callback (watch_of i) with
  | None => mret tt
  | Some c =>
    keep ← run c;
    if keep : bool then mret tt else drop_watch watch_of set_watch event
  end.

Definition io_callback (ev : Z) : M W unit :=
  io_ref;;
  stop ← (if negb (Z.land ev (Z.lor EPOLLRDHUP (Z.lor EPOLLHUP EPOLLERR)) =? 0) then
            i ← get_io;
            put_io (set_write_watch
                      (set_read_watch i (Watch None (destroy (read_watch i))))
                      (Watch None (destroy (write_watch i))));;
            i ← get_io;
            match callback (disconnect_watch i) with
            | None => mainloop_remove_fd;; mret true
            | Some _ =>
              dispatch disconnect_watch set_disconnect_watch EPOLLRDHUP;; mret false
            end
          else mret false);
  if stop : bool then io_unref
  else
    when (negb (Z.land ev EPOLLIN =? 0)) (dispatch read_watch set_read_watch EPOLLIN);;
    when (negb (Z.land ev EPOLLOUT =? 0)) (dispatch write_watch set_write_watch EPOLLOUT);;
    io_unref.
End watches.
