(* ===== verification/Hfp.v ===== *)
(** The audio gateway of the hands-free profile: [struct hfp_gw] of src/shared/hfp.c, which
    reads AT commands from a ring buffer and answers them.  A callback of the client may call
    the gateway again before it returns: what it calls is an argument ([client]).  [None] for
    the gateway is freed memory.  The calls to the descriptor go through the io (Io.v), whose
    watches the gateway owns. *)
From Stdlib Require Import ZArith Lia String.
From S2P Require Import Prelude Blocks Libc Ringbuf StateM Io HfpContext HfpArgs.
From stdpp Require Import base numbers list option.

Local Open Scope Z_scope.

Definition CR : Z := 13.
Definition LF : Z := 10.
Definition crlf (s : bytes) : bytes := [CR; LF] ++ s ++ [CR; LF].

Inductive hfp_result :=
  | HFP_RESULT_OK | HFP_RESULT_CONNECT | HFP_RESULT_RING | HFP_RESULT_NO_CARRIER
  | HFP_RESULT_ERROR | HFP_RESULT_NO_DIALTONE | HFP_RESULT_BUSY | HFP_RESULT_NO_ANSWER
  | HFP_RESULT_DELAYED | HFP_RESULT_BLACKLISTED | HFP_RESULT_CME_ERROR.

Inductive hfp_gw_cmd_type :=
  | HFP_GW_CMD_TYPE_READ | HFP_GW_CMD_TYPE_SET | HFP_GW_CMD_TYPE_TEST | HFP_GW_CMD_TYPE_COMMAND.

(** A destroy callback is present or not; a callback with its user data is the number of the
    latter. *)
Record cmd_handler := Handler {
  prefix : bytes;
  user_data : Z;
  destroy : bool;
}.

Record callback := Callback { cb_data : Z; cb_destroy : bool }.

Record hfp_gw := Gw {
  ref_count : Z;
  fd : Z;
  close_on_unref : bool;
  has_io : bool;
  read_buf : option Ringbuf.ringbuf;
  write_buf : option Ringbuf.ringbuf;
  cmd_handlers : option (list cmd_handler);
  writer_active : bool;
  result_pending : bool;
  command_callback : option callback;
  debug_callback : option callback;
  disconnect_callback : option callback;
  in_disconnect : bool;
  destroyed : bool;
}.

(** What the client and the kernel see; [EvTrace] is a call of [read_tracing] or
    [write_tracing] (0 and 1). *)
Inductive event :=
  | EvHandler (user_data : Z) (context : hfp_context) (type : hfp_gw_cmd_type)
  | EvCommand (command : bytes) (user_data : Z)
  | EvDestroy (user_data : Z)
  | EvDisconnect (user_data : Z)
  | EvTrace (call : nat * bytes)
  | EvClose (fd : Z).

(** The callbacks the gateway gives to its io. *)
Inductive io_fn := CanWriteData | CanReadData | IoDisconnected.
Inductive io_destroy_fn := WriteWatchDestroy | ReadWatchDestroy | DisconnectWatchDestroy.

Record world := World {
  gw : option hfp_gw;
  gw_io : option (io io_fn io_destroy_fn);
  log : list event;
}.

Abbreviation P := (M world).

Definition get_gw : P hfp_gw := get_some gw.
Definition put_gw (g : hfp_gw) : P unit := modify (fun w => World (Some g) (gw_io w) (log w)).
Definition free_gw : P unit := modify (fun w => World None (gw_io w) (log w)).
Definition emit (e : event) : P unit := modify (fun w => World (gw w) (gw_io w) (log w ++ [e])).
Definition emit_all (l : list event) : P unit :=
  modify (fun w => World (gw w) (gw_io w) (log w ++ l)).
Definition of_ub {A} (x : ub A) : P A :=
  fun w => match x with Some a => Some (a, w) | None => None end.

(** Assignments. *)
Definition set_ref (g : hfp_gw) (x : Z) : hfp_gw :=
  Gw x (fd g) (close_on_unref g) (has_io g) (read_buf g) (write_buf g) (cmd_handlers g)
    (writer_active g) (result_pending g) (command_callback g) (debug_callback g)
    (disconnect_callback g) (in_disconnect g) (destroyed g).
Definition set_close (g : hfp_gw) (x : bool) : hfp_gw :=
  Gw (ref_count g) (fd g) x (has_io g) (read_buf g) (write_buf g) (cmd_handlers g)
    (writer_active g) (result_pending g) (command_callback g) (debug_callback g)
    (disconnect_callback g) (in_disconnect g) (destroyed g).
Definition set_io (g : hfp_gw) (x : bool) : hfp_gw :=
  Gw (ref_count g) (fd g) (close_on_unref g) x (read_buf g) (write_buf g) (cmd_handlers g)
    (writer_active g) (result_pending g) (command_callback g) (debug_callback g)
    (disconnect_callback g) (in_disconnect g) (destroyed g).
Definition set_read_buf (g : hfp_gw) (x : option Ringbuf.ringbuf) : hfp_gw :=
  Gw (ref_count g) (fd g) (close_on_unref g) (has_io g) x (write_buf g) (cmd_handlers g)
    (writer_active g) (result_pending g) (command_callback g) (debug_callback g)
    (disconnect_callback g) (in_disconnect g) (destroyed g).
Definition set_write_buf (g : hfp_gw) (x : option Ringbuf.ringbuf) : hfp_gw :=
  Gw (ref_count g) (fd g) (close_on_unref g) (has_io g) (read_buf g) x (cmd_handlers g)
    (writer_active g) (result_pending g) (command_callback g) (debug_callback g)
    (disconnect_callback g) (in_disconnect g) (destroyed g).
Definition set_handlers (g : hfp_gw) (x : option (list cmd_handler)) : hfp_gw :=
  Gw (ref_count g) (fd g) (close_on_unref g) (has_io g) (read_buf g) (write_buf g) x
    (writer_active g) (result_pending g) (command_callback g) (debug_callback g)
    (disconnect_callback g) (in_disconnect g) (destroyed g).
Definition set_writer (g : hfp_gw) (x : bool) : hfp_gw :=
  Gw (ref_count g) (fd g) (close_on_unref g) (has_io g) (read_buf g) (write_buf g)
    (cmd_handlers g) x (result_pending g) (command_callback g) (debug_callback g)
    (disconnect_callback g) (in_disconnect g) (destroyed g).
Definition set_pending (g : hfp_gw) (x : bool) : hfp_gw :=
  Gw (ref_count g) (fd g) (close_on_unref g) (has_io g) (read_buf g) (write_buf g)
    (cmd_handlers g) (writer_active g) x (command_callback g) (debug_callback g)
    (disconnect_callback g) (in_disconnect g) (destroyed g).
Definition set_command (g : hfp_gw) (x : option callback) : hfp_gw :=
  Gw (ref_count g) (fd g) (close_on_unref g) (has_io g) (read_buf g) (write_buf g)
    (cmd_handlers g) (writer_active g) (result_pending g) x (debug_callback g)
    (disconnect_callback g) (in_disconnect g) (destroyed g).
Definition set_debug (g : hfp_gw) (x : option callback) : hfp_gw :=
  Gw (ref_count g) (fd g) (close_on_unref g) (has_io g) (read_buf g) (write_buf g)
    (cmd_handlers g) (writer_active g) (result_pending g) (command_callback g) x
    (disconnect_callback g) (in_disconnect g) (destroyed g).
Definition set_disconnect (g : hfp_gw) (x : option callback) : hfp_gw :=
  Gw (ref_count g) (fd g) (close_on_unref g) (has_io g) (read_buf g) (write_buf g)
    (cmd_handlers g) (writer_active g) (result_pending g) (command_callback g)
    (debug_callback g) x (in_disconnect g) (destroyed g).
Definition set_in_disconnect (g : hfp_gw) (x : bool) : hfp_gw :=
  Gw (ref_count g) (fd g) (close_on_unref g) (has_io g) (read_buf g) (write_buf g)
    (cmd_handlers g) (writer_active g) (result_pending g) (command_callback g)
    (debug_callback g) (disconnect_callback g) x (destroyed g).
Definition set_destroyed (g : hfp_gw) (x : bool) : hfp_gw :=
  Gw (ref_count g) (fd g) (close_on_unref g) (has_io g) (read_buf g) (write_buf g)
    (cmd_handlers g) (writer_active g) (result_pending g) (command_callback g)
    (debug_callback g) (disconnect_callback g) (in_disconnect g) x.

(** ** Strings *)

Definition isupper (c : Z) : bool := (65 <=? c) && (c <=? 90).
Definition islower (c : Z) : bool := (97 <=? c) && (c <=? 122).
Definition isalpha (c : Z) : bool := isupper c || islower c.
Definition toupper (c : Z) : Z := if islower c then c - 32 else c.

(** The number of characters before the first one in a set, or the null byte. *)
Definition strcspn (data : bytes) (off : Z) (set : bytes) : ub Z :=
  e ← scan (fun c => negb (c =? 0) && negb (existsb (Z.eqb c) set)) data off; Some (e - off).
Definition strlen (data : bytes) (off : Z) : ub Z := strcspn data off [].

(** [memchr] on [len] bytes of a block at [off]: the offset of the first [c], or -1. *)
Fixpoint index_of (c : Z) (l : bytes) : option Z :=
  match l with
  | [] => None
  | x :: l => if x =? c then Some 0
              else match index_of c l with Some i => Some (i + 1) | None => None end
  end.
Definition memchr (data : bytes) (off c len : Z) : ub (option Z) :=
  l ← ld data off len;
  Some (match index_of c l with Some i => Some (off + i) | None => None end).

(** ** Handlers *)

Definition match_handler_prefix (p : bytes) (h : cmd_handler) : bool := bool_decide (prefix h = p).

(** [queue_find] and [queue_remove_if] on the handlers; [None] is no queue. *)
Definition find_handler (q : option (list cmd_handler)) (p : bytes) : option cmd_handler :=
  match q with Some l => List.find (match_handler_prefix p) l | None => None end.

Fixpoint remove_handler (l : list cmd_handler) (p : bytes) : list cmd_handler :=
  match l with
  | [] => []
  | x :: l => if match_handler_prefix p x then l else x :: remove_handler l p
  end.

(** [free] for the parts, which are not objects of the model. *)
Definition destroy_cmd_handler (h : cmd_handler) : P unit :=
  when (destroy h) (emit (EvDestroy (user_data h))).

Fixpoint destroy_handlers (l : list cmd_handler) : P unit :=
  match l with
  | [] => mret tt
  | h :: l => destroy_cmd_handler h;; destroy_handlers l
  end.

Definition destroy_callback (c : option callback) : P unit :=
  match c with
  | Some c => when (cb_destroy c) (emit (EvDestroy (cb_data c)))
  | None => mret tt
  end.

(** ** The functions the io calls when it drops a watch *)

Definition write_watch_destroy : P unit := g ← get_gw; put_gw (set_writer g false).
Definition read_watch_destroy : P unit := mret tt.
Definition disconnect_watch_destroy : P unit :=
  g ← get_gw;
  destroy_callback (disconnect_callback g);;
  if destroyed g then free_gw else mret tt.

#[export] Instance GwIo : IoOwner world io_fn io_destroy_fn := {
  io_of := gw_io;
  with_io w i := World (gw w) i (log w);
  run_destroy d := match d with
                   | WriteWatchDestroy => write_watch_destroy
                   | ReadWatchDestroy => read_watch_destroy
                   | DisconnectWatchDestroy => disconnect_watch_destroy
                   end;
  close_fd f := emit (EvClose f);
}.

(** What a callback calls. *)
Inductive gw_op :=
  | OpResult (result : hfp_result)
  | OpError (error : Z)
  | OpInfo (format text : bytes)
  | OpRegister (p : bytes) (user_data : Z) (destroy : bool)
  | OpUnregister (p : bytes)
  | OpSetCommand (c : option callback)
  | OpUnref.

Section gateway.
(** Whether malloc, strdup and asprintf get memory of a size, whether the main loop takes new
    events for a descriptor, and what the client's callback calls after some events, of which
    the last is the call of the callback. *)
Variables (malloc : Z -> bool) (mainloop_modify : Z -> Z -> bool)
  (client : list event -> list gw_op).

(** [hfp->io] may be NULL. *)
Definition on_io (e : P bool) : P bool := g ← get_gw; if has_io g then e else mret false.

(** *** Writing *)

(** [writev] of the kernel. *)
Definition can_write_data (writev : Z -> list bytes -> Z) : P bool :=
  g ← get_gw;
  '(n, wb) ← of_ub (Ringbuf.ringbuf_write writev (write_buf g) (fd g));
  put_gw (set_write_buf g wb);;
  if n <? 0 then mret false
  else mret (0 <? Ringbuf.ringbuf_len wb).

Definition wakeup_writer : P unit :=
  g ← get_gw;
  if writer_active g then mret tt
  else if Ringbuf.ringbuf_len (write_buf g) =? 0 then mret tt
  else
    set ← on_io (io_set_write_handler mainloop_modify (Some CanWriteData)
                   (Some WriteWatchDestroy));
    if negb set then mret tt
    else g ← get_gw; put_gw (set_writer g true).

(** [ringbuf_printf] of a text: its length, or a negative number. *)
Definition printf (text : bytes) : P Z :=
  g ← get_gw;
  '(len, wb, tr) ← of_ub (Ringbuf.ringbuf_vprintf
    (fun t : bytes => if malloc (zlen t + 1) then Some t else None) (write_buf g) (Some text));
  put_gw (set_write_buf g wb);;
  emit_all (EvTrace <$> tr);;
  mret len.

(** *** Registration *)

Definition hfp_gw_register (p : bytes) (user_data : Z) (destroy : bool) : P bool :=
  if negb (malloc (zlen p + 1)) then mret false
  else
    g ← get_gw;
    match find_handler (cmd_handlers g) p with
    | Some _ => mret false
    | None =>
      match cmd_handlers g with
      | None => mret false
      | Some l => put_gw (set_handlers g (Some (l ++ [Handler p user_data destroy])));; mret true
      end
    end.

Definition hfp_gw_unregister (p : bytes) : P bool :=
  if negb (malloc (zlen p + 1)) then mret false
  else
    g ← get_gw;
    match find_handler (cmd_handlers g) p, cmd_handlers g with
    | Some h, Some l =>
      put_gw (set_handlers g (Some (remove_handler l p)));;
      destroy_cmd_handler h;;
      mret true
    | _, _ => mret false
    end.

Definition hfp_gw_set_command_handler (c : option callback) : P bool :=
  g ← get_gw;
  destroy_callback (command_callback g);;
  put_gw (set_command g c);;
  mret true.

(** The tracing callbacks of the two buffers: 0 is [read_tracing], 1 [write_tracing]. *)
Definition hfp_gw_set_debug (c : option callback) : P bool :=
  g ← get_gw;
  destroy_callback (debug_callback g);;
  let trace (n : nat) := match c with Some _ => Some n | None => None end in
  put_gw (set_write_buf
            (set_read_buf (set_debug g c)
               (Ringbuf.ringbuf_set_input_tracing (read_buf g) (trace 0%nat)).2)
            (Ringbuf.ringbuf_set_input_tracing (write_buf g) (trace 1%nat)).2);;
  mret true.

Definition hfp_gw_set_close_on_unref (do_close : bool) : P bool :=
  g ← get_gw; put_gw (set_close g do_close);; mret true.

Definition hfp_gw_set_disconnect_handler (c : option callback) : P bool :=
  g ← get_gw;
  destroy_callback (disconnect_callback g);;
  set ← on_io (io_set_disconnect_handler mainloop_modify (Some IoDisconnected)
                 (Some DisconnectWatchDestroy));
  g ← get_gw;
  if negb set then put_gw (set_disconnect g None);; mret false
  else put_gw (set_disconnect g c);; mret true.

(** [shutdown] of the kernel. *)
Definition hfp_gw_disconnect (shutdown : Z -> bool) : P bool := on_io (io_shutdown shutdown).

(** *** References *)

Definition hfp_gw_ref : P unit := g ← get_gw; put_gw (set_ref g (ref_count g + 1)).

Definition hfp_gw_unref : P unit :=
  g ← get_gw;
  put_gw (set_ref g (ref_count g - 1));;
  if negb (ref_count g - 1 =? 0) then mret tt
  else
    hfp_gw_set_command_handler None;;
    on_io (io_set_write_handler mainloop_modify None None);;
    on_io (io_set_read_handler mainloop_modify None None);;
    on_io (io_set_disconnect_handler mainloop_modify None None);;
    on_io (io_destroy;; mret true);;
    g ← get_gw; put_gw (set_io g false);;
    g ← get_gw; when (close_on_unref g) (emit (EvClose (fd g)));;
    hfp_gw_set_debug None;;
    g ← get_gw; put_gw (set_write_buf (set_read_buf g None) None);;
    g ← get_gw;
    destroy_handlers (match cmd_handlers g with Some l => l | None => [] end);;
    g ← get_gw; put_gw (set_handlers g None);;
    g ← get_gw;
    if negb (in_disconnect g) then free_gw else put_gw (set_destroyed g true).

(** *** Results and input

    [process] is [process_input], which these functions call again. *)
Section with_process.
Variable process : P unit.

(** The end of a final result: commands that arrived meanwhile are read. *)
Definition finish_result : P unit :=
  g ← get_gw;
  if result_pending g then put_gw (set_pending g false);; process else mret tt.

Definition result_text (result : hfp_result) : option bytes :=
  match result with
  | HFP_RESULT_OK => Some (Libc.chars "OK")
  | HFP_RESULT_ERROR => Some (Libc.chars "ERROR")
  | _ => None
  end.

Definition send_final (text : bytes) : P bool :=
  len ← printf (crlf text);
  if len <? 0 then mret false
  else
    wakeup_writer;;
    finish_result;;
    mret true.

Definition send_result (result : hfp_result) : P bool :=
  match result_text result with
  | None => mret false
  | Some str => send_final str
  end.

(** [error] as an [unsigned int]. *)
Definition error_text (error : Z) : bytes := Libc.chars "+CME ERROR: " ++ dec_str (u32 error).
Definition send_error (error : Z) : P bool := send_final (error_text error).

(** [text] is [format] with its arguments. *)
Definition send_info (format text : bytes) : P bool :=
  if negb (malloc (zlen format + 5)) then mret false
  else
    len ← printf (crlf text);
    if len <? 0 then mret false
    else
      g ← get_gw;
      if result_pending g then mret true
      else wakeup_writer;; mret true.

Definition run_op (o : gw_op) : P unit :=
  match o with
  | OpResult r => send_result r;; mret tt
  | OpError e => send_error e;; mret tt
  | OpInfo f t => send_info f t;; mret tt
  | OpRegister p u d => hfp_gw_register p u d;; mret tt
  | OpUnregister p => hfp_gw_unregister p;; mret tt
  | OpSetCommand c => hfp_gw_set_command_handler c;; mret tt
  | OpUnref => hfp_gw_unref
  end.

Fixpoint run_ops (l : list gw_op) : P unit :=
  match l with
  | [] => mret tt
  | o :: l => run_op o;; run_ops l
  end.

(** A callback of the client. *)
Definition call (e : event) : P unit := emit e;; l ← gets log; run_ops (client l).

(** [data] is the memory from the start of the command on. *)
Definition handle_unknown_at_command (data : bytes) : P unit :=
  g ← get_gw;
  match command_callback g with
  | Some c =>
    put_gw (set_pending g true);;
    call (EvCommand (until_null data) (cb_data c))
  | None => send_result HFP_RESULT_ERROR;; mret tt
  end.

(** The command type and where its arguments start; [d] when the command is D. *)
Definition command_type (data : bytes) (off : Z) (d : bool) : ub (hfp_gw_cmd_type * Z) :=
  if d then Some (HFP_GW_CMD_TYPE_SET, off)
  else
    c ← get_u8 data off;
    if c =? 61 then
      c ← get_u8 data (u32 (off + 1));
      if c =? 63 then Some (HFP_GW_CMD_TYPE_TEST, u32 (u32 (off + 1) + 1))
      else Some (HFP_GW_CMD_TYPE_SET, u32 (off + 1))
    else if c =? 63 then Some (HFP_GW_CMD_TYPE_READ, u32 (off + 1))
    else Some (HFP_GW_CMD_TYPE_COMMAND, off).

(** The name of the command at [off]: a letter, or what is before a separator. *)
Definition command_prefix (data : bytes) (off : Z) : option (option bytes) :=
  match get_u8 data off with
  | None => None
  | Some c =>
    if isalpha c then Some (Some [toupper c])
    else
      match strcspn data off [59; 63; 61] with
      | None => None
      | Some n =>
        let pref_len := u8 n in
        if (17 <? pref_len) || (pref_len <? 2) then Some None
        else match ld data off pref_len with
             | None => None
             | Some p => Some (Some (map toupper p))
             end
      end
  end.

(** What the line is parsed to: the prefix, the type and the offset of the arguments;
    [Some None] is an early return. *)
Definition parse_at_command (data : bytes) : option (option (bytes * hfp_gw_cmd_type * Z)) :=
  match skip_whitespace (Ctx data 0) with
  | None => None
  | Some c =>
    match strlen data (offset c) with
    | None => None
    | Some n =>
      if n <? 3 then Some None
      else
        match get_u8 data (offset c), get_u8 data (u32 (offset c + 1)) with
        | Some a, Some t =>
          if negb ((a =? 65) && (t =? 84)) && negb ((a =? 97) && (t =? 116)) then Some None
          else
            let off := u32 (offset c + 2) in
            match command_prefix data off with
            | None => None
            | Some None => Some None
            | Some (Some p) =>
              match command_type data (u32 (off + zlen p)) (bool_decide (head p = Some 68)) with
              | None => None
              | Some (type, off) => Some (Some (p, type, off))
              end
            end
        | _, _ => None
        end
    end
  end.

Definition handle_at_command (data : bytes) : P bool :=
  r ← of_ub (parse_at_command data);
  match r with
  | None => mret false
  | Some (p, type, off) =>
    g ← get_gw;
    match find_handler (cmd_handlers g) p with
    | None => handle_unknown_at_command data;; mret true
    | Some h =>
      put_gw (set_pending g true);;
      call (EvHandler (user_data h) (Ctx data off) type);;
      mret true
    end
  end.

Definition with_buffer (rb : Ringbuf.ringbuf) (b : bytes) : Ringbuf.ringbuf :=
  Ringbuf.mk_ringbuf b (Ringbuf.size rb) (Ringbuf.in_ rb) (Ringbuf.out rb) (Ringbuf.in_tracing rb).

(** The first complete command: the memory from its start on, and [count]; a null byte is
    stored over its end.  A command that is in two pieces is copied.  [None] is an early
    return. *)
Definition next_command (rb : Ringbuf.ringbuf)
    : option (option (bytes * Z) * Ringbuf.ringbuf) :=
  match Ringbuf.ringbuf_peek (Some rb) 0 with
  | None => Some (None, rb)
  | Some (str, len) =>
    match memchr (Ringbuf.buffer rb) str CR len with
    | None => None
    | Some (Some ptr) =>
      match st (Ringbuf.buffer rb) ptr [0] with
      | None => None
      | Some b => Some (Some (drop (Z.to_nat str) b, ptr - str), with_buffer rb b)
      end
    | Some None =>
      if len =? Ringbuf.ringbuf_len (Some rb) then Some (None, rb)
      else
        match Ringbuf.ringbuf_peek (Some rb) len with
        | None => Some (None, rb)
        | Some (str2, len2) =>
          match memchr (Ringbuf.buffer rb) str2 CR len2 with
          | None => None
          | Some None => Some (None, rb)
          | Some (Some ptr) =>
            match st (Ringbuf.buffer rb) ptr [0] with
            | None => None
            | Some b =>
              let count := usize (len2 + len) in
              if negb (malloc count) then Some (None, with_buffer rb b)
              else
                match ld b str len, ld b str2 len2 with
                | Some d1, Some d2 => Some (Some (d1 ++ d2, count), with_buffer rb b)
                | _, _ => None
                end
            end
          end
        end
    end
  end.

(** One turn of the loop: whether to read again. *)
Definition process_turn : P bool :=
  g ← get_gw;
  match read_buf g with
  | None => mret false
  | Some rb =>
    '(r, rb) ← of_ub (next_command rb);
    put_gw (set_read_buf g (Some rb));;
    match r with
    | None => mret false
    | Some (data, count) =>
      handled ← handle_at_command data;
      g ← get_gw;
      let read_again := if handled : bool then negb (result_pending g) else true in
      put_gw (set_read_buf g (Ringbuf.ringbuf_drain (read_buf g) (usize (count + 1))).2);;
      mret read_again
    end
  end.
End with_process.

(** [n] bounds the turns of the loop and the nesting of calls. *)
Fixpoint process_input (n : nat) : P unit :=
  match n with
  | O => undef
  | S n =>
    again ← process_turn (process_input n);
    if again : bool then process_input n else mret tt
  end.

(** [readv] of the kernel. *)
Definition can_read_data (n : nat) (readv : Z -> list Z -> option bytes) : P bool :=
  g ← get_gw;
  '(bytes_read, rb, tr) ← of_ub (Ringbuf.ringbuf_read readv (read_buf g) (fd g));
  put_gw (set_read_buf g rb);;
  emit_all (EvTrace <$> tr);;
  if bytes_read <? 0 then mret false
  else if result_pending g then mret true
  else process_input n;; mret true.

Definition hfp_gw_send_result (n : nat) (result : hfp_result) : P bool :=
  send_result (process_input n) result.
Definition hfp_gw_send_error (n : nat) (error : Z) : P bool := send_error (process_input n) error.
Definition hfp_gw_send_info : bytes -> bytes -> P bool := send_info.

Definition io_disconnected (n : nat) : P bool :=
  g ← get_gw;
  put_gw (set_in_disconnect g true);;
  match disconnect_callback g with
  | Some c => call (process_input n) (EvDisconnect (cb_data c))
  | None => mret tt
  end;;
  g ← get_gw;
  put_gw (set_in_disconnect g false);;
  mret false.

(** The event loop's call for events [ev] of the descriptor. *)
Definition gw_event (n : nat) (readv : Z -> list Z -> option bytes)
    (writev : Z -> list bytes -> Z) (ev : Z) : P unit :=
  io_callback
    (fun c => match c with
              | CanReadData => can_read_data n readv
              | CanWriteData => can_write_data writev
              | IoDisconnected => io_disconnected n
              end) ev.

(** *** Creation *)

(** [new_buf] is the allocation of the buffers.  [None] is a NULL result, after which nothing
    of what was allocated is left. *)
Definition hfp_gw_new (new_buf : Z -> option bytes) (mainloop_add : Z -> Z -> bool) (fd : Z)
    : P bool :=
  if fd <? 0 then mret false
  else
    rb ← of_ub (Ringbuf.ringbuf_new new_buf 4096);
    match rb with
    | None => mret false
    | Some rb =>
      wb ← of_ub (Ringbuf.ringbuf_new new_buf 4096);
      match wb with
      | None => mret false
      | Some wb =>
        match io_new mainloop_add fd with
        | None => mret false
        | Some i =>
          modify (fun w => with_io w (Some i));;
          put_gw (Gw 0 fd false true (Some rb) (Some wb) (Some []) false false None None None
                     false false);;
          set ← io_set_read_handler mainloop_modify (Some CanReadData) (Some ReadWatchDestroy);
          if negb set then io_destroy;; free_gw;; mret false
          else hfp_gw_ref;; mret true
        end
      end
    end.
End gateway.
