(* ===== verification/HfpGwParse.v ===== *)
(** The command lines of the gateway (Hfp.v) against a parser of strings, and the text that it
    reads back. *)
From Stdlib Require Import ZArith Lia String.
From S2P Require Import Prelude Blocks Libc Ringbuf StateM HfpContext HfpContextSpec HfpArgs Hfp.
From stdpp Require Import base numbers list option.

Local Open Scope Z_scope.

(** ** The parser on strings *)

Definition no_separator (c : Z) : bool := negb (existsb (Z.eqb c) [59; 63; 61]).

(** The prefix length is an 8-bit integer. *)
Definition p_prefix (s : bytes) : option (bytes * bytes) :=
  if isalpha (peek s) then Some ([toupper (peek s)], tail s)
  else
    let k := u8 (zlen (take_while no_separator s)) in
    if (17 <? k) || (k <? 2) then None
    else Some (map toupper (take (Z.to_nat k) s), drop (Z.to_nat k) s).

Definition p_type (d : bool) (s : bytes) : hfp_gw_cmd_type * bytes :=
  if d then (HFP_GW_CMD_TYPE_SET, s)
  else if peek s =? 61 then
    if peek (tail s) =? 63 then (HFP_GW_CMD_TYPE_TEST, tail (tail s))
    else (HFP_GW_CMD_TYPE_SET, tail s)
  else if peek s =? 63 then (HFP_GW_CMD_TYPE_READ, tail s)
  else (HFP_GW_CMD_TYPE_COMMAND, s).

(** The prefix, the type and the text of the arguments. *)
Definition p_command (s : bytes) : option (bytes * hfp_gw_cmd_type * bytes) :=
  let s := drop_sp s in
  if zlen s <? 3 then None
  else
    let a := peek s in
    let t := peek (tail s) in
    if negb ((a =? 65) && (t =? 84)) && negb ((a =? 97) && (t =? 116)) then None
    else
      match p_prefix (tail (tail s)) with
      | None => None
      | Some (p, s) =>
        let '(type, s) := p_type (bool_decide (head p = Some 68)) s in
        Some (p, type, s)
      end.

(** ** Moving in a string *)

Lemma ctx_skip D a s c : ctx_at D (a ++ s) c -> ctx_at D s (Ctx D (offset c + zlen a)).
Proof.
  intros (Hd & Hlen & Hs & pre & post & HD & Ho). apply Forall_app in Hs as [_ Hs].
  split_and!; [done..|]. exists (pre ++ a), post. cbn [offset].
  split; [by rewrite HD, <- !app_assoc|]. rewrite Ho, zlen_app. lia.
Qed.

Lemma ctx_small D s c : ctx_at D s c -> 0 <= offset c /\ offset c + zlen s + 1 < 2 ^ 32.
Proof.
  intros (_ & Hlen & _ & pre & post & HD & Ho).
  pose proof (zlen_nonneg pre). pose proof (zlen_nonneg s). pose proof (zlen_nonneg post).
  rewrite HD, !zlen_app, zlen_cons in Hlen. lia.
Qed.

Lemma u32_step D a s c n :
  ctx_at D (a ++ s) c -> n = zlen a -> u32 (offset c + n) = offset c + zlen a.
Proof.
  intros Hc ->. pose proof (ctx_small D (a ++ s) c Hc) as [H1 H2]. rewrite zlen_app in H2.
  pose proof (zlen_nonneg a). pose proof (zlen_nonneg s). apply u32_small. unfold is_u32. lia.
Qed.

Lemma ctx_drop D n s c :
  ctx_at D s c -> (n <= length s)%nat -> ctx_at D (drop n s) (Ctx D (offset c + Z.of_nat n)).
Proof.
  intros Hc Hn. rewrite <- (take_drop n s) in Hc. apply ctx_skip in Hc.
  unfold zlen in Hc. by rewrite length_take, Nat.min_l in Hc.
Qed.

Lemma ctx_ld D a s c : ctx_at D (a ++ s) c -> ld D (offset c) (zlen a) = Some a.
Proof.
  intros (_ & _ & _ & pre & post & HD & Ho). rewrite HD, <- app_assoc. by apply ld_mid.
Qed.

Lemma take_drop_while p s : take_while p s ++ drop_while p s = s.
Proof. induction s as [|x s IH]; cbn; [done|]. destruct (p x); cbn; [by rewrite IH|done]. Qed.

Lemma scan_offset D p s c :
  p 0 = false -> ctx_at D s c -> scan p D (offset c) = Some (offset c + zlen (take_while p s)).
Proof.
  intros Hp Hc. pose proof (ctx_fuel D s c Hc) as Hn. unfold scan. revert Hn.
  generalize (S (length D)). revert c Hc.
  induction s as [|x s IH]; intros c Hc n Hn; (destruct n as [|n]; [cbn in Hn; lia|]);
    cbn [scan_while take_while]; rewrite (ctx_peek' D _ c Hc); cbn [peek mbind option_bind].
  - rewrite Hp. change (zlen []) with 0. f_equal. lia.
  - destruct (p x); [|change (zlen []) with 0; f_equal; lia].
    pose proof (u32_step D [x] s c 1 Hc eq_refl) as Hu. change (zlen [x]) with 1 in Hu.
    apply ctx_tail in Hc. specialize (IH _ Hc n ltac:(cbn in Hn; lia)). cbn [offset] in IH.
    rewrite IH, Hu, zlen_cons. f_equal. lia.
Qed.

Lemma take_while_ext p q s : no_null s -> (forall c, c <> 0 -> p c = q c) ->
  take_while p s = take_while q s.
Proof.
  intros Hs Hpq. induction Hs as [|x s Hx Hs IH]; cbn; [done|]. rewrite (Hpq x Hx).
  by destruct (q x); [rewrite IH|].
Qed.

Lemma take_while_true s : take_while (fun _ => true) s = s.
Proof. induction s; cbn; congruence. Qed.

Lemma strcspn_spec D set s c :
  ctx_at D s c ->
  strcspn D (offset c) set = Some (zlen (take_while (fun x => negb (existsb (Z.eqb x) set)) s)).
Proof.
  intros Hc. pose proof Hc as (_ & _ & Hs & _). unfold strcspn.
  rewrite (scan_offset D _ s c eq_refl Hc). cbn [mbind option_bind]. f_equal.
  rewrite (take_while_ext _ (fun x => negb (existsb (Z.eqb x) set)) s Hs); [lia|].
  intros x Hx. by rewrite (proj2 (Z.eqb_neq x 0)).
Qed.

Lemma skip_whitespace_offset D s c :
  ctx_at D s c ->
  skip_whitespace c = Some (Ctx D (offset c + zlen (take_while (fun x => x =? SP) s))) /\
  ctx_at D (drop_sp s) (Ctx D (offset c + zlen (take_while (fun x => x =? SP) s))).
Proof.
  intros Hc. pose proof Hc as (Hd & _). unfold skip_whitespace, set_offset. rewrite Hd.
  rewrite (scan_offset D (fun x => x =? SP) s c eq_refl Hc). split; [done|].
  apply ctx_skip. unfold drop_sp. by rewrite take_drop_while.
Qed.

Lemma strlen_spec D s c : ctx_at D s c -> strlen D (offset c) = Some (zlen s).
Proof.
  intros Hc. unfold strlen. rewrite (strcspn_spec D [] s c Hc).
  cbn [existsb negb]. by rewrite take_while_true.
Qed.

(** ** The parts of a line *)

Lemma command_prefix_spec D s c :
  ctx_at D s c -> s <> [] ->
  match p_prefix s with
  | None => command_prefix D (offset c) = Some None
  | Some (p, s') =>
    command_prefix D (offset c) = Some (Some p) /\ ctx_at D s' (Ctx D (offset c + zlen p))
  end.
Proof.
  intros Hc Hne. unfold p_prefix, command_prefix. rewrite (ctx_peek' D s c Hc).
  destruct (isalpha (peek s)).
  - split; [done|]. destruct s as [|x s]; [done|]. by apply (ctx_skip D [x]).
  - rewrite (strcspn_spec D _ s c Hc). fold no_separator.
    set (t := take_while no_separator s).
    assert (u8 (zlen t) <= zlen s) as Hk.
    { pose proof (take_drop_while no_separator s) as Ht. fold t in Ht.
      rewrite <- Ht, zlen_app. pose proof (zlen_nonneg (drop_while no_separator s)).
      pose proof (zlen_nonneg t). words_lia. }
    pose proof (u8_range (zlen t)) as Hu. unfold is_u8 in Hu.
    destruct ((17 <? u8 (zlen t)) || (u8 (zlen t) <? 2)); [done|].
    pose proof Hc as Hc'. rewrite <- (take_drop (Z.to_nat (u8 (zlen t))) s) in Hc'.
    pose proof (ctx_ld D _ _ c Hc') as Hld. rewrite zlen_take in Hld by lia. rewrite Hld.
    split; [done|].
    pose proof (ctx_drop D (Z.to_nat (u8 (zlen t))) s c Hc ltac:(unfold zlen in *; lia)) as Hd.
    rewrite Z2Nat.id in Hd by lia.
    assert (zlen (map toupper (take (Z.to_nat (u8 (zlen t))) s)) = u8 (zlen t)) as ->; [|done].
    unfold zlen at 1. rewrite length_map. fold (zlen (take (Z.to_nat (u8 (zlen t))) s)).
    apply zlen_take. lia.
Qed.

Lemma tail_ctx D s c :
  ctx_at D s c -> peek s <> 0 ->
  u32 (offset c + 1) = offset c + 1 /\ ctx_at D (tail s) (Ctx D (offset c + 1)).
Proof.
  intros Hc Hp. destruct s as [|x s]; [done|].
  pose proof (u32_step D [x] s c 1 Hc eq_refl) as Hu. change (zlen [x]) with 1 in Hu.
  split; [done|]. rewrite <- Hu. by eapply ctx_tail.
Qed.

Lemma command_type_spec D d s c :
  ctx_at D s c ->
  exists off, command_type D (offset c) d = Some ((p_type d s).1, off) /\
    ctx_at D (p_type d s).2 (Ctx D off).
Proof.
  intros Hc. unfold command_type, p_type. destruct d.
  { eexists; split; [done|]. by apply ctx_set. }
  rewrite (ctx_peek' D s c Hc). cbn [mbind option_bind].
  destruct (Z.eqb_spec (peek s) 61) as [H61|H61].
  - destruct (tail_ctx D s c Hc ltac:(lia)) as [-> Hc1].
    pose proof (ctx_peek' D _ _ Hc1) as Hp. cbn [offset] in Hp. rewrite Hp.
    cbn [mbind option_bind].
    destruct (Z.eqb_spec (peek (tail s)) 63) as [H63|H63]; cbn [fst snd].
    + destruct (tail_ctx D _ _ Hc1 ltac:(lia)) as [Hu Hc2]. cbn [offset] in Hu, Hc2.
      rewrite Hu. by eexists.
    + by eexists.
  - destruct (Z.eqb_spec (peek s) 63) as [H63|H63]; cbn [fst snd].
    + destruct (tail_ctx D s c Hc ltac:(lia)) as [-> Hc1]. by eexists.
    + eexists; split; [done|]. by apply ctx_set.
Qed.

(** ** A line *)

Lemma parse_at_command_spec D s :
  ctx_at D s (Ctx D 0) ->
  match p_command s with
  | None => parse_at_command D = Some None
  | Some (p, type, args) =>
    exists off, parse_at_command D = Some (Some (p, type, off)) /\ ctx_at D args (Ctx D off)
  end.
Proof.
  intros Hc. unfold p_command, parse_at_command.
  destruct (skip_whitespace_moves D s _ Hc) as (c & -> & Hc1). clear Hc.
  rewrite (strlen_spec D _ c Hc1). set (s1 := drop_sp s) in *.
  destruct (Z.ltb_spec (zlen s1) 3) as [H3|H3]; [done|].
  destruct s1 as [|a [|t [|x s2]]]; [by cbn in H3..|].
  rewrite (ctx_peek' D _ c Hc1). cbn [peek tail].
  pose proof (u32_step D [a] _ c 1 Hc1 eq_refl) as Hu1. change (zlen [a]) with 1 in Hu1.
  pose proof (u32_step D [a; t] _ c 2 Hc1 eq_refl) as Hu2. change (zlen [a; t]) with 2 in Hu2.
  rewrite Hu1, Hu2.
  pose proof (ctx_peek' D _ _ (ctx_skip D [a] _ c Hc1)) as Hp. cbn [offset] in Hp.
  change (zlen [a]) with 1 in Hp. rewrite Hp. cbn [peek].
  destruct (negb ((a =? 65) && (t =? 84)) && negb ((a =? 97) && (t =? 116))); [done|].
  pose proof (ctx_skip D [a; t] _ c Hc1) as Hc2. change (zlen [a; t]) with 2 in Hc2.
  pose proof (command_prefix_spec D _ _ Hc2 ltac:(done)) as Hpre. cbn [offset] in Hpre.
  destruct (p_prefix (x :: s2)) as [[p s3]|]; [|by rewrite Hpre].
  destruct Hpre as [-> Hc3].
  rewrite u32_small.
  2:{ pose proof (ctx_small D s3 _ Hc3) as Hs. cbn [offset] in Hs.
      pose proof (ctx_small D _ c Hc1). pose proof (zlen_nonneg s3). pose proof (zlen_nonneg p).
      unfold is_u32. lia. }
  destruct (command_type_spec D (bool_decide (head p = Some 68)) s3 _ Hc3) as (off & Ht & Hc4).
  cbn [offset] in Ht. rewrite Ht. destruct (p_type _ s3) as [ty s4]. by eexists.
Qed.

(** ** Printing a command *)

Definition type_text (t : hfp_gw_cmd_type) : bytes :=
  match t with
  | HFP_GW_CMD_TYPE_READ => Libc.chars "?"
  | HFP_GW_CMD_TYPE_SET => Libc.chars "="
  | HFP_GW_CMD_TYPE_TEST => Libc.chars "=?"
  | HFP_GW_CMD_TYPE_COMMAND => []
  end.

(** A command and its arguments; D has no separator. *)
Definition command_text (p : bytes) (t : hfp_gw_cmd_type) (args : bytes) : bytes :=
  Libc.chars "AT" ++ p ++
  (if bool_decide (head p = Some 68) then [] else type_text t) ++ args.

(** The names a command line can carry: an upper-case letter, or between 2 and 17 characters,
    no separator and no letter at first. *)
Definition name_ok (p : bytes) : Prop :=
  Forall (fun c => c <> 0 /\ no_separator c = true /\ islower c = false) p /\
  (if isalpha (peek p) then length p = 1%nat else (2 <= length p <= 17)%nat).

(** The text of the arguments does not continue the type or the name. *)
Definition args_ok (p : bytes) (t : hfp_gw_cmd_type) (args : bytes) : Prop :=
  no_null args /\
  (if bool_decide (head p = Some 68) then t = HFP_GW_CMD_TYPE_SET
   else match t with
        | HFP_GW_CMD_TYPE_SET => peek args <> 63
        | HFP_GW_CMD_TYPE_COMMAND =>
          if isalpha (peek p) then peek args <> 61 /\ peek args <> 63
          else args = [] \/ peek args = 59
        | _ => True
        end).

Lemma map_toupper_name p :
  Forall (fun c => c <> 0 /\ no_separator c = true /\ islower c = false) p -> map toupper p = p.
Proof.
  induction 1 as [|c p H Hp IH]; [done|]. destruct H as (_ & _ & Hc). cbn. unfold toupper at 1. by rewrite Hc, IH.
Qed.

Lemma take_while_app p s r :
  Forall (fun c => p c = true) s -> peek r = 0 \/ p (peek r) = false -> r = [] \/ peek r <> 0 ->
  take_while p (s ++ r) = s.
Proof.
  intros Hs Hr Hn. induction Hs as [|c s Hc Hs IH]; cbn.
  - destruct r as [|x r]; [done|]. cbn in *. destruct Hr as [H0 | ->]; [|done]. by destruct Hn.
  - by rewrite Hc, IH.
Qed.

(** What follows the name. *)
Lemma type_follows p t args :
  name_ok p -> args_ok p t args ->
  let r := (if bool_decide (head p = Some 68) then [] else type_text t) ++ args in
  p_type (bool_decide (head p = Some 68)) r = (t, args) /\
  (isalpha (peek p) = false -> r = [] \/ (peek r <> 0 /\ no_separator (peek r) = false)).
Proof.
  intros (Hp & Hl) (Hnull & Hargs). cbn zeta. case_bool_decide as Hd.
  { subst t. split; [done|]. intros Ha. destruct p; [done|]. cbn in *. simplify_eq. }
  destruct t; cbn [type_text app]; (split; [|intros Ha; try (right; split; done)]).
  - done.
  - unfold p_type. cbn. destruct (peek args =? 63) eqn:He; [|done]. lia.
  - done.
  - unfold p_type. destruct (isalpha (peek p)).
    + destruct Hargs as [H1 H2]. by rewrite (proj2 (Z.eqb_neq _ _) H1), (proj2 (Z.eqb_neq _ _) H2).
    + destruct Hargs as [->|H]; [done|]. by rewrite H.
  - rewrite Ha in Hargs. destruct Hargs as [->|H]; [by left|]. right. by rewrite H.
Qed.

Lemma p_prefix_name p r :
  name_ok p ->
  (isalpha (peek p) = false -> r = [] \/ (peek r <> 0 /\ no_separator (peek r) = false)) ->
  p_prefix (p ++ r) = Some (p, r).
Proof.
  intros (Hp & Hl) Hr. unfold p_prefix.
  destruct p as [|c p]; [cbn in Hl; lia|]. cbn [app peek] in *.
  destruct (isalpha c).
  - destruct p; [|done]. cbn [tail app]. apply Forall_cons_1 in Hp as [(_ & _ & Hc) _].
    unfold toupper. by rewrite Hc.
  - change (c :: p ++ r) with ((c :: p) ++ r). specialize (Hr eq_refl).
    rewrite take_while_app.
    + rewrite u8_small by (unfold is_u8, zlen; lia).
      assert (2 <= zlen (c :: p) <= 17) as Hz by (unfold zlen; lia).
      rewrite (proj2 (Z.ltb_ge _ _)), (proj2 (Z.ltb_ge _ _)) by lia. cbn [orb].
      unfold zlen. rewrite Nat2Z.id, take_app_length, drop_app_length.
      by rewrite map_toupper_name.
    + eapply Forall_impl; [|exact Hp]. by intros x (_ & H & _).
    + destruct Hr as [->|[_ H]]; [by left|by right].
    + destruct Hr as [->|[H _]]; [by left|by right].
Qed.

Lemma p_command_text p t args :
  name_ok p -> args_ok p t args -> p_command (command_text p t args) = Some (p, t, args).
Proof.
  intros Hp Ha. destruct (type_follows p t args Hp Ha) as [Ht Hr]. unfold p_command, command_text.
  set (r := (if bool_decide _ then _ else _) ++ args) in *.
  change (drop_sp _) with (65 :: 84 :: p ++ r).
  cbn [peek tail]. rewrite !zlen_cons, zlen_app.
  assert (1 <= zlen p).
  { destruct Hp as [_ Hl]. unfold zlen. destruct (isalpha (peek p)); lia. }
  pose proof (zlen_nonneg r). rewrite (proj2 (Z.ltb_ge _ _)) by lia. cbn [Z.eqb Pos.eqb andb negb].
  rewrite (p_prefix_name p r Hp Hr). by rewrite Ht.
Qed.

Lemma command_text_no_null p t args :
  name_ok p -> no_null args -> no_null (command_text p t args).
Proof.
  intros [Hp _] Ha. unfold command_text.
  repeat apply Forall_app_2; [by repeat constructor| | |done].
  - eapply Forall_impl; [|exact Hp]. by intros c [H _].
  - case_bool_decide; [constructor|]. destruct t; repeat constructor; done.
Qed.
