(* ===== verification/HfpGw.v ===== *)
(** The gateway's read buffer while the data in it does not wrap, and what each function of
    Hfp.v does to the parts of the state that decide what is delivered. *)
From Stdlib Require Import ZArith Lia String.
From S2P Require Import Prelude Blocks Libc Ringbuf StateM Io HfpContext HfpContextSpec HfpArgs Hfp HfpGwParse.
From stdpp Require Import base numbers list option.

Local Open Scope Z_scope.

(** ** The read buffer *)

(** [q] is in one piece and ends at [used]. *)
Definition lin (rb : Ringbuf.ringbuf) (used : Z) (q : bytes) : Prop :=
  Ringbuf.size rb = 4096 /\ Ringbuf.in_ rb = used /\ (q = [] -> used = 0) /\
  exists pre post, Ringbuf.buffer rb = pre ++ q ++ post /\ zlen (pre ++ q ++ post) = 4096 /\
    Ringbuf.out rb = zlen pre /\ used = zlen pre + zlen q.

Lemma mask_4096 x : 0 <= x < 4096 -> Z.land (usize x) (usize (4096 - 1)) = x.
Proof.
  intros Hx. rewrite !u64_small by (unfold is_u64; lia).
  change (4096 - 1) with (2 ^ 12 - 1). rewrite land_mask by lia. apply Z.mod_small. lia.
Qed.

Lemma lin_peek rb used q :
  lin rb used q ->
  exists pre post, Ringbuf.buffer rb = pre ++ q ++ post /\ zlen (pre ++ q ++ post) = 4096 /\
    used = zlen pre + zlen q /\ Ringbuf.out rb = zlen pre /\
    Ringbuf.ringbuf_peek (Some rb) 0 = Some (zlen pre, zlen q) /\
    Ringbuf.ringbuf_len (Some rb) = zlen q.
Proof.
  intros (Hs & Hin & Hq & pre & post & Hb & Hl & Ho & Hu). exists pre, post.
  pose proof (zlen_nonneg pre). pose proof (zlen_nonneg q). pose proof (zlen_nonneg post).
  rewrite !zlen_app in Hl.
  assert (zlen pre < 4096).
  { destruct q; [|rewrite zlen_cons in Hl; pose proof (zlen_nonneg q); lia].
    specialize (Hq eq_refl). lia. }
  split_and!; try done.
  - by rewrite !zlen_app.
  - unfold Ringbuf.ringbuf_peek. rewrite Hs, Ho, Hin, Z.add_0_r, mask_4096 by lia.
    rewrite !u64_small by (unfold is_u64; lia). do 2 f_equal. lia.
  - cbn. rewrite Ho, Hin, u64_small by (unfold is_u64; lia). lia.
Qed.

Lemma index_of_none c l : c ∉ l -> index_of c l = None.
Proof.
  induction l as [|x l IH]; intros Hc; cbn; [done|].
  apply not_elem_of_cons in Hc as [H1 H2]. rewrite (proj2 (Z.eqb_neq _ _)) by done.
  by rewrite IH.
Qed.

Lemma index_of_app c l r : c ∉ l -> index_of c (l ++ c :: r) = Some (zlen l).
Proof.
  induction l as [|x l IH]; intros Hc; cbn [index_of app].
  - by rewrite Z.eqb_refl.
  - apply not_elem_of_cons in Hc as [H1 H2]. rewrite (proj2 (Z.eqb_neq _ _)) by done.
    rewrite IH by done. rewrite zlen_cons. f_equal. lia.
Qed.

Lemma lin_no_command malloc rb used q :
  lin rb used q -> CR ∉ q -> next_command malloc rb = Some (None, rb).
Proof.
  intros Hl Hq. destruct (lin_peek rb used q Hl) as (pre & post & Hb & Hz & _ & _ & Hp & Hlen).
  unfold next_command. rewrite Hp. unfold memchr. rewrite Hb, ld_mid by done.
  cbn [mbind option_bind]. rewrite index_of_none by done. by rewrite Hlen, Z.eqb_refl.
Qed.

(** The memory of the command is the string, a null byte and what is behind it. *)
Lemma lin_next_command malloc rb used l rest :
  lin rb used (l ++ CR :: rest) -> CR ∉ l ->
  exists post rb', next_command malloc rb = Some (Some (l ++ 0 :: post, zlen l), rb') /\
    zlen (l ++ 0 :: post) <= 4096 /\ lin rb' used (l ++ 0 :: rest).
Proof.
  intros Hl Hcr. pose proof Hl as (Hs & Hin & _).
  destruct (lin_peek rb used _ Hl) as (pre & post & Hb & Hz & Hu & Ho & Hp & Hlen).
  unfold next_command. rewrite Hp. unfold memchr. rewrite Hb, ld_mid by done.
  cbn [mbind option_bind]. rewrite index_of_app by done.
  rewrite <- app_assoc. cbn [app]. rewrite (app_assoc pre l).
  change (CR :: rest ++ post) with ([CR] ++ rest ++ post).
  rewrite (st_mid (pre ++ l) [CR] (rest ++ post) [0]) by (rewrite ?zlen_app; done).
  replace (Z.to_nat (zlen pre)) with (length pre) by (unfold zlen; lia).
  rewrite <- (app_assoc pre l). rewrite drop_app_length. cbn [app].
  exists (rest ++ post), (with_buffer rb (pre ++ l ++ 0 :: rest ++ post)).
  replace (zlen pre + zlen l - zlen pre) with (zlen l) by lia.
  split_and!.
  - done.
  - rewrite !zlen_app, !zlen_cons, !zlen_app in *. pose proof (zlen_nonneg pre). lia.
  - split_and!; [done..|by destruct l|]. exists pre, post. cbn [Ringbuf.buffer with_buffer].
    split_and!; [by rewrite <- app_assoc| |done|].
    + rewrite !zlen_app, !zlen_cons in *. lia.
    + rewrite !zlen_app, !zlen_cons in *. lia.
Qed.

Definition end_of (used : Z) (q : bytes) : Z := if bool_decide (q = []) then 0 else used.

Lemma lin_drain rb used l rest n :
  lin rb used (l ++ rest) -> n = zlen l -> 0 < n ->
  exists rb', Ringbuf.ringbuf_drain (Some rb) n = (n, Some rb') /\ lin rb' (end_of used rest) rest.
Proof.
  intros (Hs & Hin & Hq & pre & post & Hb & Hl & Ho & Hu) -> Hn.
  pose proof (zlen_nonneg pre). pose proof (zlen_nonneg rest). pose proof (zlen_nonneg post).
  rewrite !zlen_app in *. cbn [Ringbuf.ringbuf_drain]. rewrite Ho, Hin.
  rewrite (u64_small (used - _)) by (unfold is_u64; lia).
  replace (Z.min (zlen l) (used - zlen pre)) with (zlen l) by lia.
  rewrite (proj2 (Z.eqb_neq _ _)) by lia. eexists; split; [done|].
  unfold Ringbuf.advance_out, end_of. rewrite Ho, Hin, u64_small by (unfold is_u64; lia).
  case_eqb as He; case_bool_decide as Hr; subst.
  - split_and!; [done..|]. exists [], (pre ++ l ++ post). cbn.
    rewrite Hb, !zlen_app. cbn [app]. rewrite app_nil_r. split_and!; try done. unfold zlen in *. cbn in *. lia.
  - destruct rest; [done|]. rewrite zlen_cons in *. pose proof (zlen_nonneg rest). lia.
  - exfalso. change (zlen []) with 0 in *. lia.
  - split_and!; [done..|]. exists (pre ++ l), post. cbn.
    rewrite Hb, !zlen_app, <- !app_assoc. split_and!; try done; lia.
Qed.

Lemma st_nil b : st b 0 [] = Some b.
Proof. unfold st. rewrite decide_True by (pose proof (zlen_nonneg b); change (@zlen Z []) with 0; lia). done. Qed.

(** What the kernel has for the descriptor fits behind the data. *)
Lemma lin_read rb used q d fd :
  lin rb used q -> 0 <= fd -> 0 < zlen d -> used + zlen d <= 4096 ->
  exists rb' tr, Ringbuf.ringbuf_read (fun _ _ => Some d) (Some rb) fd
    = Some (zlen d, Some rb', tr) /\ lin rb' (used + zlen d) (q ++ d).
Proof.
  intros (Hs & Hin & Hq & pre & post & Hb & Hl & Ho & Hu) Hfd Hd Hfit.
  pose proof (zlen_nonneg pre). pose proof (zlen_nonneg q). pose proof (zlen_nonneg post).
  rewrite !zlen_app in *. cbn [Ringbuf.ringbuf_read]. rewrite (proj2 (Z.ltb_ge _ _)) by lia.
  rewrite Hs, Ho, Hin.
  rewrite (u64_small (4096 - used)) by (unfold is_u64; lia).
  rewrite (u64_small (4096 - used + zlen pre)) by (unfold is_u64; lia).
  rewrite (proj2 (Z.eqb_neq _ _)) by lia.
  replace (Z.land used (usize (4096 - 1))) with used
    by (rewrite <- (u64_small used) at 2 by (unfold is_u64; lia); symmetry; apply mask_4096; lia).
  rewrite (u64_small (4096 - used)) by (unfold is_u64; lia).
  replace (Z.min (zlen d) (Z.min (4096 - used + zlen pre) (4096 - used))) with (zlen d) by lia.
  rewrite Z.sub_diag. change (usize 0) with 0.
  rewrite (ld_all d) by done. rewrite ld_is_Some by lia. cbn [mbind option_bind Z.to_nat take].
  rewrite Hb, (app_assoc pre q). rewrite <- (take_drop (length d) post).
  assert (zlen d <= zlen post) as Hdp by lia.
  rewrite (st_mid (pre ++ q) _ _ d) by
    (rewrite ?zlen_app; try done; unfold zlen in *; rewrite length_take; lia).
  cbn [mbind option_bind]. rewrite st_nil. cbn [mbind option_bind].
  eexists _, _. split; [done|]. rewrite u64_small by (unfold is_u64; lia).
  split_and!; [done..|by destruct d; [|destruct q]|].
  exists pre, (drop (length d) post). cbn. rewrite <- !app_assoc, !zlen_app. split_and!; try done; [|lia].
  unfold zlen in *. rewrite length_drop. lia.
Qed.

(** Formatting is a function of the format and its arguments. *)
Lemma vprintf_with {F} (v : F -> option bytes) r x :
  Ringbuf.ringbuf_vprintf v r (Some x) = Ringbuf.ringbuf_vprintf (fun f => f) r (Some (v x)).
Proof. by destruct r. Qed.

(** Whether a text fits behind [out] in a buffer of 4096 bytes, and there is memory to format
    it. *)
Definition print_ok (malloc : Z -> bool) (text out : bytes) : bool :=
  let avail := 4096 - zlen out in
  malloc (zlen text + 1) && negb (avail =? 0) && (zlen text <=? avail).

Lemma ring_printf (malloc : Z -> bool) text wb :
  zlen text < 2 ^ 31 -> Ringbuf.inv wb -> Ringbuf.size wb = 4096 ->
  exists n wb' tr,
    Ringbuf.ringbuf_vprintf (fun t : bytes => if malloc (zlen t + 1) then Some t else None)
      (Some wb) (Some text) = Some (n, Some wb', tr) /\
    Ringbuf.inv wb' /\ Ringbuf.size wb' = 4096 /\
    Ringbuf.contents wb' = Ringbuf.contents wb ++
      (if print_ok malloc text (Ringbuf.contents wb) then text else []) /\
    (n <? 0) = negb (print_ok malloc text (Ringbuf.contents wb)).
Proof.
  intros Ht Hinv Hsz. rewrite vprintf_with.
  pose proof (Ringbuf.step_refines wb
    (Ringbuf.Printf (if malloc (zlen text + 1) then Some text else None)) Hinv) as Hstep.
  destruct Hstep as (wb' & tr & Hs & Hinv' & Hsz' & Hout' & _).
  { cbn. by destruct (malloc (zlen text + 1)). }
  cbn [Ringbuf.step] in Hs. rewrite Hs. eexists _, wb', tr. split; [done|].
  split; [done|]. split; [by rewrite Hsz'|].
  cbn [Ringbuf.spec_step] in *. rewrite Hsz in *. unfold print_ok.
  assert ((4096 - zlen (Ringbuf.contents wb) =? 0) = (4096 =? zlen (Ringbuf.contents wb))) as ->
    by (destruct (Z.eqb_spec (4096 - zlen (Ringbuf.contents wb)) 0),
          (Z.eqb_spec 4096 (zlen (Ringbuf.contents wb))); done || lia).
  pose proof (zlen_nonneg text).
  destruct (malloc (zlen text + 1)); cbn [andb negb fst snd] in *; [|by rewrite app_nil_r].
  destruct (4096 =? zlen (Ringbuf.contents wb)); cbn [andb orb negb fst snd] in *;
    [by rewrite app_nil_r|].
  destruct (Z.ltb_spec (4096 - zlen (Ringbuf.contents wb)) (zlen text));
    [rewrite (proj2 (Z.leb_gt _ _)) by lia|rewrite (proj2 (Z.leb_le _ _)) by lia];
    cbn [andb orb negb fst snd] in *; [by rewrite app_nil_r|].
  split; [done|]. apply Z.ltb_ge. lia.
Qed.

(** [writev] takes everything. *)
Lemma ring_write_all wb fd :
  Ringbuf.inv wb -> 0 <= fd ->
  exists n wb', Ringbuf.ringbuf_write (fun _ iov => zlen (concat iov)) (Some wb) fd
      = Some (n, Some wb') /\
    Ringbuf.inv wb' /\ Ringbuf.size wb' = Ringbuf.size wb /\ Ringbuf.contents wb' = [].
Proof.
  intros Hinv Hfd.
  destruct (Ringbuf.step_refines wb (Ringbuf.Write fd zlen) Hinv)
    as (wb' & tr & Hs & Hinv' & Hsz' & Hout' & _); [intros q; lia|].
  cbn [Ringbuf.step Ringbuf.spec_step] in *.
  destruct (Ringbuf.ringbuf_write _ (Some wb) fd) as [[n r]|]; [|done].
  cbn in Hs. injection Hs as _ -> _. exists n, wb'. split_and!; try done.
  rewrite Hout', (proj2 (Z.ltb_ge _ _)) by done. case_bool_decide; [done|].
  rewrite (proj2 (Z.ltb_ge _ _)) by apply zlen_nonneg. cbn [fst snd].
  apply drop_ge. unfold zlen. lia.
Qed.

(** ** A command in two pieces *)

Lemma index_of_le c l i : index_of c l = Some i -> 0 <= i < zlen l.
Proof.
  revert i. induction l as [|x l IH]; intros i; cbn; [done|].
  destruct (x =? c); [intros [= <-]; rewrite zlen_cons; pose proof (zlen_nonneg l); lia|].
  destruct (index_of c l) as [j|]; [|done]. intros [= <-]. specialize (IH j eq_refl).
  rewrite zlen_cons. lia.
Qed.

Lemma index_of_mem c l r : c ∈ l -> index_of c (l ++ r) = index_of c l /\ is_Some (index_of c l).
Proof.
  induction l as [|x l IH]; intros Hc; [by apply elem_of_nil in Hc|]. cbn.
  destruct (Z.eqb_spec x c) as [->|Hx]; [done|].
  apply elem_of_cons in Hc as [->|Hc]; [done|]. destruct (IH Hc) as [-> [j ->]]. done.
Qed.

(** When the end of the first command is behind the end of the ring buffer, what the loop
    drains is everything. *)
Lemma wrapped_command malloc rb c rest :
  Ringbuf.inv rb -> Ringbuf.size rb <= 2 ^ 31 -> (forall n, malloc n = true) ->
  Ringbuf.contents rb = c ++ CR :: rest -> CR ∉ c ->
  Ringbuf.size rb - Ringbuf.out rb mod Ringbuf.size rb <= zlen c ->
  exists data count rb', next_command malloc rb = Some (Some (data, count), rb') /\
    Ringbuf.ringbuf_len (Some rb') <= count /\ is_u64 (count + 1) /\ Ringbuf.inv rb'.
Proof.
  intros (k & Hk & Hs & Hb & Hin & Hout & Hlen) Hs31 Hm Hc Hcr Hwrap.
  pose proof (Ringbuf.contents_length rb k Hk Hs Hb Hin Hout Hlen) as Hcl.
  pose proof (Ringbuf.size_bounds rb k Hk Hs Hb Hin Hout Hlen) as Hsb.
  pose proof (Ringbuf.usize_len_bounds rb k Hk Hs Hb Hin Hout Hlen) as Hlb.
  pose proof (Z.mod_pos_bound (Ringbuf.out rb) (Ringbuf.size rb) ltac:(lia)) as Hmb.
  set (o := Ringbuf.out rb mod Ringbuf.size rb) in *.
  set (total := usize (Ringbuf.in_ rb - Ringbuf.out rb)) in *.
  pose proof (zlen_nonneg rest).
  assert (zlen c + 1 + zlen rest = total) as Htot
    by (rewrite <- Hcl, Hc, zlen_app, zlen_cons; lia).
  destruct (Ringbuf.circular_slices (Ringbuf.buffer rb) (Ringbuf.out rb) (Z.to_nat total))
    as (s0 & s1 & H0 & H1 & Hw); [lia..|].
  rewrite Z2Nat.id, Hb in H0, H1 by lia. fold o in H0, H1.
  replace (Z.min total (Ringbuf.size rb - o)) with (Ringbuf.size rb - o) in H0, H1 by lia.
  change (s0 ++ s1 = Ringbuf.contents rb) in Hw. rewrite Hc in Hw.
  assert (zlen s0 = Ringbuf.size rb - o) as Hs0 by (by eapply ld_length).
  assert (exists c1, c = s0 ++ c1 /\ s1 = c1 ++ CR :: rest) as (c1 & -> & ->).
  { exists (drop (length s0) c).
    assert (take (length s0) c = s0) as Ht.
    { pose proof (take_app_length s0 s1) as Ht. rewrite Hw, take_app_le in Ht; [done|].
      unfold zlen in *. lia. }
    rewrite <- (take_drop (length s0) c) in Hw at 1. rewrite Ht, <- app_assoc in Hw.
    apply app_inv_head in Hw. split; [|done]. by rewrite <- Ht at 1; rewrite take_drop. }
  assert (CR ∉ s0) as Hcr0 by (intros ?; apply Hcr, elem_of_app; by left).
  assert (forall x, Ringbuf.ringbuf_peek (Some rb) x
    = Some (usize (Ringbuf.out rb + x) mod Ringbuf.size rb,
            Z.min total (usize (Ringbuf.size rb
              - usize (Ringbuf.out rb + x) mod Ringbuf.size rb)))) as Hpeek.
  { intros x. unfold Ringbuf.ringbuf_peek.
    by rewrite (Ringbuf.offset_eq rb k Hk Hs Hb Hin Hout Hlen). }
  assert (forall x, usize x mod Ringbuf.size rb = x mod Ringbuf.size rb) as Hmod
    by (intros; by apply (Ringbuf.usize_mod_size rb k)).
  unfold next_command. rewrite Hpeek, Hmod, Z.add_0_r. fold o.
  rewrite (u64_small (Ringbuf.size rb - o)) by (unfold is_u64; lia).
  replace (Z.min total (Ringbuf.size rb - o)) with (Ringbuf.size rb - o) by lia.
  unfold memchr at 1. rewrite H0. cbn [mbind option_bind]. rewrite index_of_none by done.
  cbn [Ringbuf.ringbuf_len]. fold total. rewrite (proj2 (Z.eqb_neq _ _)) by lia.
  rewrite Hpeek, Hmod.
  assert ((Ringbuf.out rb + (Ringbuf.size rb - o)) mod Ringbuf.size rb = 0) as ->.
  { rewrite <- Zplus_mod_idemp_l. fold o. rewrite Zplus_minus. apply Z.mod_same. lia. }
  rewrite Z.sub_0_r, (u64_small (Ringbuf.size rb)) by (unfold is_u64; lia).
  replace (Z.min total (Ringbuf.size rb)) with total by lia.
  unfold memchr. rewrite (ld_is_Some _ 0 total) by lia. cbn [mbind option_bind].
  change (Z.to_nat 0) with 0%nat. rewrite drop_0.
  destruct (index_of_mem CR (c1 ++ CR :: rest)
    (drop (length (c1 ++ CR :: rest)) (take (Z.to_nat total) (Ringbuf.buffer rb))))
    as [Hidx [j Hj]]; [apply elem_of_app; right; by left|].
  assert (take (Z.to_nat total) (Ringbuf.buffer rb)
          = (c1 ++ CR :: rest)
            ++ drop (length (c1 ++ CR :: rest)) (take (Z.to_nat total) (Ringbuf.buffer rb))) as ->.
  { rewrite <- (take_drop (length (c1 ++ CR :: rest)) (take _ _)) at 1. f_equal.
    pose proof (ld_length _ _ _ _ H1) as Hl1. rewrite ld_is_Some in H1 by lia.
    injection H1 as H1. rewrite drop_0 in H1.
    rewrite take_take. etrans; [|exact H1]. f_equal. unfold zlen in *. lia. }
  rewrite Hidx, Hj. pose proof (index_of_le _ _ _ Hj) as Hjb.
  pose proof (ld_length _ _ _ _ H1) as Hl1.
  destruct (st_is_Some (Ringbuf.buffer rb) (0 + j) [0]) as [b Hst]; [lia| |].
  { change (zlen [0]) with 1. lia. }
  rewrite Hst. pose proof (st_length _ _ _ _ Hst) as Hb'.
  assert (zlen b = Ringbuf.size rb) as Hbz by (rewrite <- Hb; unfold zlen; lia).
  rewrite Hm, u64_small by (unfold is_u64; lia). cbn [negb].
  rewrite !ld_is_Some by lia. eexists _, _, _. split; [done|]. cbn [Ringbuf.ringbuf_len].
  change (usize (Ringbuf.in_ (with_buffer rb b) - Ringbuf.out (with_buffer rb b))) with total.
  split_and!; [lia|unfold is_u64; lia|].
  exists k. unfold with_buffer. cbn [Ringbuf.size Ringbuf.buffer Ringbuf.in_ Ringbuf.out].
  split_and!; first [done|lia].
Qed.

Lemma drain_all rb n :
  Ringbuf.inv rb -> Ringbuf.ringbuf_len (Some rb) <= n ->
  exists rb', (Ringbuf.ringbuf_drain (Some rb) n).2 = Some rb' /\ Ringbuf.contents rb' = [].
Proof.
  intros (k & Hk & Hs & Hb & Hin & Hout & Hlen) Hn.
  pose proof (Ringbuf.contents_length rb k Hk Hs Hb Hin Hout Hlen) as Hcl.
  cbn [Ringbuf.ringbuf_len] in Hn. pose proof (zlen_nonneg (Ringbuf.contents rb)).
  destruct (Ringbuf.drain_refines rb k Hk Hs Hb Hin Hout Hlen n) as (rb' & -> & _ & _ & Hc); [lia|].
  exists rb'. split; [done|]. rewrite Hc. apply drop_ge. unfold zlen in *. lia.
Qed.
