(* ===== verification/HfpGwSpec.v ===== *)
(** What the gateway of Hfp.v promises: an abstract machine over the lines that were received
    and the text that was sent, and the proof that the gateway implements it while the data it
    has buffered does not wrap around the end of the ring buffer and the client answers
    commands after its callback returned. *)
From Stdlib Require Import ZArith Lia String.
From S2P Require Import Prelude Blocks Libc Ringbuf StateM Io HfpContext HfpContextSpec HfpArgs Hfp HfpGwParse HfpGw.
From stdpp Require Import base numbers list option.

Local Open Scope Z_scope.

(** ** The abstract machine *)

(** The complete lines, and the rest. *)
Fixpoint lines (q : bytes) : list bytes * bytes :=
  match q with
  | [] => ([], [])
  | x :: q =>
    let '(ls, rest) := lines q in
    if x =? CR then ([] :: ls, rest)
    else match ls with
         | [] => ([], x :: rest)
         | l :: ls => ((x :: l) :: ls, rest)
         end
  end.

Definition join_lines (ls : list bytes) : bytes := concat (map (fun l => l ++ [CR]) ls).

(** What a callback of the client is told. *)
Inductive delivery :=
  | DHandler (user_data : Z) (type : hfp_gw_cmd_type) (args : bytes)
  | DUnknown (command : bytes) (user_data : Z).

Inductive fate := Trash | Reject | Deliver (d : delivery).

(** What happens to a line, given the handlers and the handler of unknown commands. *)
Definition classify (hs : list cmd_handler) (cb : option callback) (line : bytes) : fate :=
  let s := until_null line in
  match p_command s with
  | None => Trash
  | Some (p, t, args) =>
    match find_handler (Some hs) p with
    | Some h => Deliver (DHandler (user_data h) t args)
    | None => match cb with
              | Some c => Deliver (DUnknown s (cb_data c))
              | None => Reject
              end
    end
  end.

(** The data buffered and where it ends, whether a result is awaited, the text to send and
    what was delivered. *)
Record agw := Agw {
  a_used : Z;
  a_in : bytes;
  a_pending : bool;
  a_out : bytes;
  a_served : list delivery;
}.

Inductive action :=
  | Recv (d : bytes)
  | Writable
  | Result (r : hfp_result)
  | Error (error : Z).

Section machine.
(** What the client sends as unsolicited or intermediate texts when it is told something:
    formats and texts. *)
Variables (malloc : Z -> bool) (hs : list cmd_handler) (cb : option callback)
  (react : delivery -> list (bytes * bytes)).

Definition a_print (text : bytes) (a : agw) : bool * agw :=
  if print_ok malloc text (a_out a)
  then (true, Agw (a_used a) (a_in a) (a_pending a) (a_out a ++ text) (a_served a))
  else (false, a).

Definition a_info (a : agw) (i : bytes * bytes) : agw :=
  if malloc (zlen i.1 + 5) then (a_print (crlf i.2) a).2 else a.

Definition a_deliver (d : delivery) (a : agw) : agw :=
  foldl a_info (Agw (a_used a) (a_in a) true (a_out a) (a_served a ++ [d])) (react d).

Definition a_reject (a : agw) : agw := (a_print (crlf (Libc.chars "ERROR")) a).2.

Definition a_drop (q : bytes) (a : agw) : agw :=
  Agw (end_of (a_used a) q) q (a_pending a) (a_out a) (a_served a).

(** Lines until one is delivered. *)
Fixpoint a_lines (ls : list bytes) (rest : bytes) (a : agw) : agw :=
  match ls with
  | [] => a
  | l :: ls =>
    match classify hs cb l with
    | Trash => a_lines ls rest (a_drop (join_lines ls ++ rest) a)
    | Reject => a_lines ls rest (a_drop (join_lines ls ++ rest) (a_reject a))
    | Deliver d => a_drop (join_lines ls ++ rest) (a_deliver d a)
    end
  end.

Definition a_process (a : agw) : agw := a_lines (lines (a_in a)).1 (lines (a_in a)).2 a.

Definition a_final (text : bytes) (a : agw) : agw :=
  let '(sent, a) := a_print (crlf text) a in
  if sent && a_pending a
  then a_process (Agw (a_used a) (a_in a) false (a_out a) (a_served a))
  else a.

Definition a_step (a : agw) (x : action) : agw :=
  match x with
  | Recv d =>
    let a := Agw (a_used a + zlen d) (a_in a ++ d) (a_pending a) (a_out a) (a_served a) in
    if a_pending a then a else a_process a
  | Writable => Agw (a_used a) (a_in a) (a_pending a) [] (a_served a)
  | Result r => match result_text r with Some text => a_final text a | None => a end
  | Error e => a_final (error_text e) a
  end.

(** The data that arrives does not wrap. *)
Definition fits (a : agw) (x : action) : Prop :=
  match x with
  | Recv d => 0 < zlen d /\ a_used a + zlen d <= 4096
  | _ => True
  end.

Fixpoint fit (a : agw) (l : list action) : Prop :=
  match l with [] => True | x :: l => fits a x /\ fit (a_step a x) l end.
End machine.

(** ** The gateway does the same *)

Definition told (e : event) (d : delivery) : Prop :=
  match e, d with
  | EvHandler u c t, DHandler u' t' args => u = u' /\ t = t' /\ exists D, ctx_at D args c
  | EvCommand s u, DUnknown s' u' => s = s' /\ u = u'
  | _, _ => False
  end.
Definition is_told (e : event) : bool :=
  match e with EvHandler _ _ _ | EvCommand _ _ => true | _ => false end.
Definition told_log (l : list event) (ds : list delivery) : Prop :=
  Forall2 told (List.filter is_told l) ds.

(** Its io has the gateway's own watch for writing, or none. *)
Definition io_ready (i : io io_fn io_destroy_fn) : Prop :=
  Io.destroy (write_watch i) = None \/ Io.destroy (write_watch i) = Some WriteWatchDestroy.

Definition ready (hs : list cmd_handler) (cb : option callback) (w : world) (a : agw) : Prop :=
  exists g i rb wb,
    gw w = Some g /\ gw_io w = Some i /\ io_ready i /\ has_io g = true /\ 0 <= fd g /\
    read_buf g = Some rb /\ lin rb (a_used a) (a_in a) /\
    write_buf g = Some wb /\ Ringbuf.inv wb /\ Ringbuf.size wb = 4096 /\
    Ringbuf.contents wb = a_out a /\
    cmd_handlers g = Some hs /\ command_callback g = cb /\
    result_pending g = a_pending a /\ told_log (log w) (a_served a).

Lemma zlen_crlf text : zlen (crlf text) = zlen text + 4.
Proof. unfold crlf. rewrite !zlen_app. change (zlen [CR; LF]) with 2. lia. Qed.

Lemma until_null_split l post :
  exists post', l ++ 0 :: post = until_null l ++ 0 :: post' /\ no_null (until_null l) /\
    until_null (until_null l) = until_null l.
Proof.
  induction l as [|x l (post' & IH & Hn & Hi)]; cbn [app until_null].
  { exists post. by split_and!; [| constructor |]. }
  destruct (Z.eqb_spec x 0) as [->|Hx].
  - exists (l ++ 0 :: post). by split_and!; [| constructor |].
  - exists post'. cbn [app until_null]. rewrite (proj2 (Z.eqb_neq _ _)) by done.
    rewrite IH, Hi. split_and!; [done|by constructor|done].
Qed.

Lemma lines_spec q :
  q = join_lines (lines q).1 ++ (lines q).2 /\ Forall (fun l => CR ∉ l) (lines q).1 /\
  CR ∉ (lines q).2.
Proof.
  induction q as [|x q (IH & Hls & Hr)]; cbn [lines].
  { split_and!; [done|constructor|set_solver]. }
  destruct (lines q) as [ls rest]. cbn [fst snd] in *.
  destruct (Z.eqb_spec x CR) as [->|Hx].
  { cbn [fst snd]. split_and!; [by rewrite IH|constructor; [set_solver|done]|done]. }
  destruct ls as [|l ls]; cbn [fst snd].
  - split_and!; [by rewrite IH|constructor|set_solver].
  - apply Forall_cons_1 in Hls as [Hl Hls].
    split_and!; [by rewrite IH|constructor; [set_solver|done]|done].
Qed.

Lemma lines_length q : (length (lines q).1 <= length q)%nat.
Proof.
  induction q as [|x q IH]; cbn; [done|]. destruct (lines q) as [ls rest]. cbn in *.
  destruct (x =? CR); [cbn; lia|]. destruct ls; cbn in *; lia.
Qed.

Lemma dec_digits_length n v : (length (dec_digits n v) <= S n)%nat.
Proof.
  revert v. induction n as [|n IH]; intros v; cbn [dec_digits]; [done|].
  destruct (v <? 10); [cbn; lia|]. rewrite length_app. specialize (IH (v / 10)). cbn. lia.
Qed.

Lemma error_text_small e : zlen (error_text e) < 2 ^ 30.
Proof.
  unfold error_text. rewrite zlen_app. change (zlen (Libc.chars "+CME ERROR: ")) with 12.
  pose proof (dec_digits_length 9 (u32 e)). unfold dec_str, zlen. lia.
Qed.

Section refinement.
Context (malloc : Z -> bool) (mainloop_modify : Z -> Z -> bool)
  (client : list event -> list gw_op) (hs : list cmd_handler) (cb : option callback)
  (react : delivery -> list (bytes * bytes)).

(** The client answers what it is told with the texts [react] and nothing else. *)
Hypothesis client_reacts : forall l e d, told e d ->
  client (l ++ [e]) = map (fun i => OpInfo i.1 i.2) (react d).
Hypothesis texts_small : forall d, Forall (fun i => zlen i.2 < 2 ^ 30) (react d).

Abbreviation ready := (ready hs cb).
Abbreviation wakeup := (wakeup_writer mainloop_modify).

Definition run_action (n : nat) (x : action) : P unit :=
  match x with
  | Recv d => can_read_data malloc mainloop_modify client n (fun _ _ => Some d);; mret tt
  | Writable => can_write_data (fun _ iov => zlen (concat iov));; mret tt
  | Result r => hfp_gw_send_result malloc mainloop_modify client n r;; mret tt
  | Error e => hfp_gw_send_error malloc mainloop_modify client n e;; mret tt
  end.

Fixpoint run_actions (n : nat) (l : list action) : P unit :=
  match l with
  | [] => mret tt
  | x :: l => run_action n x;; run_actions n l
  end.

(** *** Reading and changing the gateway *)

Lemma wp_get_gw Q w a :
  ready w a ->
  (forall g, gw w = Some g -> Q g w) -> wp get_gw Q w.
Proof using Type.
  intros (g & i & rb & wb & Hg & _) HQ. apply (wp_get_some _ g); auto.
Qed.

Lemma told_log_app l e ds : is_told e = false -> told_log l ds -> told_log (l ++ [e]) ds.
Proof using Type.
  intros He H. unfold told_log in *. rewrite List.filter_app. cbn. rewrite He.
  by rewrite app_nil_r.
Qed.

Lemma told_log_traces l tr ds : told_log l ds -> told_log (l ++ (EvTrace <$> tr)) ds.
Proof using Type.
  intros H. unfold told_log in *. rewrite List.filter_app.
  assert (List.filter is_told (EvTrace <$> tr) = []) as -> by (induction tr; done).
  by rewrite app_nil_r.
Qed.

Lemma told_log_told l e d ds : told e d -> told_log l ds -> told_log (l ++ [e]) (ds ++ [d]).
Proof using Type.
  intros He H. unfold told_log in *. rewrite List.filter_app.
  assert (is_told e = true) as Ht by (destruct e; done). cbn. rewrite Ht.
  apply Forall2_app; [done|]. by constructor.
Qed.

(** *** Writing *)

Lemma wp_print text a w :
  zlen text < 2 ^ 31 -> ready w a ->
  wp (printf malloc text)
    (fun len w' => ready w' (a_print malloc text a).2 /\
                   (len <? 0) = negb (a_print malloc text a).1) w.
Proof using Type.
  intros Ht (g & i & rb & wb & Hg & Hi & Hio & Hhas & Hfd & Hrb & Hlin & Hwb & Hinv & Hsz & Hout
             & Hhs & Hcb & Hp & Htold).
  unfold printf. apply wp_bind, (wp_get_some _ g); [done|].
  rewrite Hwb. destruct (ring_printf malloc text wb Ht Hinv Hsz)
    as (n & wb' & tr & Hs & Hinv' & Hsz' & Hout' & Hn).
  apply wp_bind. unfold of_ub. rewrite Hs. eexists _, _. split; [done|].
  apply wp_bind, wp_modify, wp_bind, wp_modify, wp_ret. rewrite Hn, Hout in *. unfold a_print.
  destruct (print_ok malloc text (a_out a)); (split; [|done]); eexists _, i, rb, wb'; cbn;
    rewrite ?app_nil_r in *; split_and!; try done; by apply told_log_traces.
Qed.

Lemma ready_io w a g i :
  ready w a -> gw w = Some g -> io_ready i -> ready (World (Some g) (Some i) (log w)) a.
Proof using Type.
  intros (g' & i' & rb & wb & Hg & _ & _ & Hrest) Hg' Hi. rewrite Hg in Hg'. injection Hg' as ->.
  by exists g, i, rb, wb.
Qed.

Lemma ready_writer w a g b :
  ready w a -> gw w = Some g -> ready (World (Some (set_writer g b)) (gw_io w) (log w)) a.
Proof using Type.
  intros (g' & i & rb & wb & Hg & Hrest) Hg'. rewrite Hg in Hg'. injection Hg' as ->.
  by exists (set_writer g b), i, rb, wb.
Qed.

Lemma wp_destroy_write_watch w a i :
  ready w a -> io_ready i ->
  wp (destroy_watch (write_watch i)) (fun _ w' => ready w' a /\ gw_io w' = gw_io w) w.
Proof using Type.
  intros Hw Hi. unfold destroy_watch. destruct Hi as [-> | ->]; [by apply wp_ret|].
  pose proof Hw as (g & _ & _ & _ & Hg & _).
  cbn [run_destroy GwIo]. unfold write_watch_destroy.
  apply wp_bind, (wp_get_some _ g); [done|]. apply wp_modify. split; [|done].
  by apply ready_writer.
Qed.

Lemma wp_wakeup a w : ready w a -> wp wakeup (fun _ w' => ready w' a) w.
Proof using Type.
  intros Hw. pose proof Hw as (g & i & rb & wb & Hg & Hi & Hio & Hhas & _).
  unfold wakeup_writer. apply wp_bind, (wp_get_some _ g); [done|].
  destruct (writer_active g); [by apply wp_ret|].
  destruct (_ =? 0); [by apply wp_ret|].
  unfold on_io. do 2 apply wp_bind. apply (wp_get_some _ g); [done|]. rewrite Hhas.
  unfold io_set_write_handler, io_set_handler.
  apply wp_bind, (wp_get_some _ i); [done|].
  destruct (Io.fd i <? 0); [by do 2 apply wp_ret|].
  apply wp_bind. eapply wp_mono; [|by apply wp_destroy_write_watch].
  intros ? w1 (Hw1 & Hi1). pose proof Hw1 as (g1 & _ & _ & _ & Hg1 & _).
  rewrite Hi in Hi1. apply wp_bind, (wp_get_some _ i); [done|]. apply wp_bind, wp_modify.
  apply wp_bind. eapply wp_get_some; [reflexivity|].
  set (i2 := set_write_watch i (Watch (Some CanWriteData) (Some WriteWatchDestroy))).
  assert (ready (with_io w1 (Some i2)) a) as Hw2.
  { change (ready (World (gw w1) (Some i2) (log w1)) a). rewrite Hg1.
    apply ready_io; [done..|by right]. }
  assert (forall b w', ready w' a ->
    wp (if negb b then mret tt else g ← get_gw; put_gw (set_writer g true))
       (fun _ w' => ready w' a) w') as Hend.
  { intros b w' Hw'. destruct b; cbn [negb]; [|by apply wp_ret].
    pose proof Hw' as (g' & _ & _ & _ & Hg' & _).
    apply wp_bind, (wp_get_some _ g'); [done|]. apply wp_modify. by apply ready_writer. }
  destruct (_ =? _); [by apply wp_ret, Hend|].
  destruct (negb (mainloop_modify _ _)); [by apply wp_ret, Hend|].
  apply wp_bind, wp_modify, wp_ret, Hend.
  change (ready (World (gw w1) (Some (set_events i2 (Z.lor (events i) EPOLLOUT))) (log w1)) a).
  rewrite Hg1. apply ready_io; [done..|by right].
Qed.

(** The kernel takes everything. *)
Lemma wp_writable w a :
  ready w a ->
  wp (can_write_data (fun _ iov => zlen (concat iov)))
    (fun _ w' => ready w' (Agw (a_used a) (a_in a) (a_pending a) [] (a_served a))) w.
Proof using Type.
  intros (g & i & rb & wb & Hg & Hi & Hio & Hhas & Hfd & Hrb & Hlin & Hwb & Hinv & Hsz & Hout
          & Hrest).
  destruct (ring_write_all wb (fd g) Hinv Hfd) as (n & wb' & Hwr & Hinv' & Hsz' & Hnil).
  unfold can_write_data. apply wp_bind, (wp_get_some _ g); [done|]. rewrite Hwb.
  apply wp_bind. unfold of_ub. rewrite Hwr. eexists _, _. split; [done|].
  apply wp_bind, wp_modify.
  assert (ready (World (Some (set_write_buf g (Some wb'))) (gw_io w) (log w))
            (Agw (a_used a) (a_in a) (a_pending a) [] (a_served a))) as Hready.
  { exists (set_write_buf g (Some wb')), i, rb, wb'. cbn. rewrite Hsz' in *.
    split_and!; try done; apply Hrest. }
  destruct (n <? 0); by apply wp_ret.
Qed.

(** *** What a callback of the client does *)

Lemma a_print_pending text a : a_pending (a_print malloc text a).2 = a_pending a.
Proof using Type. unfold a_print. by destruct (print_ok _ _ _). Qed.

Lemma wp_info f t a w :
  zlen t < 2 ^ 30 -> ready w a ->
  wp (send_info malloc mainloop_modify f t) (fun _ w' => ready w' (a_info malloc a (f, t))) w.
Proof using Type.
  intros Ht Hw. unfold send_info, a_info. cbn [fst snd].
  destruct (malloc (zlen f + 5)); cbn [negb]; [|by apply wp_ret].
  apply wp_bind. eapply wp_mono; [|apply wp_print; [rewrite zlen_crlf; lia|done]].
  intros len w1 [Hw1 ->].
  destruct (a_print malloc (crlf t) a).1; cbn [negb]; [|by apply wp_ret].
  pose proof Hw1 as (g1 & _ & _ & _ & Hg1 & _). apply wp_bind, (wp_get_some _ g1); [done|].
  destruct (result_pending g1); [by apply wp_ret|].
  apply wp_bind. eapply wp_mono; [|by apply wp_wakeup]. intros ? w2 Hw2. by apply wp_ret.
Qed.

Section with_process.
Variable process : P unit.

Lemma wp_run_infos l : forall a w,
  Forall (fun i : bytes * bytes => zlen i.2 < 2 ^ 30) l -> ready w a ->
  wp (run_ops malloc mainloop_modify process (map (fun i => OpInfo i.1 i.2) l))
    (fun _ w' => ready w' (foldl (a_info malloc) a l)) w.
Proof using Type.
  induction l as [|[f t] l IH]; intros a w Hl Hw; cbn [map run_ops foldl]; [by apply wp_ret|].
  apply Forall_cons_1 in Hl as [Ht Hl]. cbn [run_op fst snd].
  do 2 apply wp_bind. eapply wp_mono; [|by apply wp_info].
  intros b w1 Hw1. by apply wp_ret, IH.
Qed.

(** The gateway tells the client and runs what it does in return. *)
Lemma wp_call e d w a :
  told e d -> ready w a ->
  wp (call malloc mainloop_modify client process e)
    (fun _ w' => ready w' (foldl (a_info malloc)
       (Agw (a_used a) (a_in a) (a_pending a) (a_out a) (a_served a ++ [d])) (react d))) w.
Proof using All.
  intros Hd (g & i & rb & wb & Hg & Hi & Hio & Hhas & Hfd & Hrb & Hlin & Hwb & Hinv & Hsz & Hout
             & Hhs & Hcb & Hp & Htold).
  unfold call. apply wp_bind, wp_modify, wp_bind, wp_gets. cbn [log].
  rewrite (client_reacts _ e d Hd). apply wp_run_infos; [done|].
  exists g, i, rb, wb. cbn. split_and!; try done. by apply told_log_told.
Qed.

Lemma ready_pending w a g b :
  ready w a -> gw w = Some g ->
  ready (World (Some (set_pending g b)) (gw_io w) (log w))
    (Agw (a_used a) (a_in a) b (a_out a) (a_served a)).
Proof using Type.
  intros (g' & i & rb & wb & Hg & Hi & Hio & Hhas & Hfd & Hrb & Hlin & Hwb & Hinv & Hsz & Hout
          & Hhs & Hcb & Hp & Htold) Hg'.
  rewrite Hg in Hg'. injection Hg' as ->. by exists (set_pending g b), i, rb, wb.
Qed.

(** A final result when none is awaited. *)
Lemma wp_send_final text a w :
  zlen text < 2 ^ 30 -> ready w a -> a_pending a = false ->
  wp (send_final malloc mainloop_modify process text)
    (fun _ w' => ready w' (a_print malloc (crlf text) a).2) w.
Proof using Type.
  intros Ht Hw Ha. unfold send_final.
  apply wp_bind. eapply wp_mono; [|apply wp_print; [rewrite zlen_crlf; lia|done]].
  intros len w1 [Hw1 ->].
  destruct (a_print malloc (crlf text) a).1; cbn [negb]; [|by apply wp_ret].
  apply wp_bind. eapply wp_mono; [|by apply wp_wakeup]. intros ? w2 Hw2.
  pose proof Hw2 as (g2 & _ & _ & _ & Hg2 & _ & _ & _ & _ & _ & _ & _ & _ & _ & _ & _ & _ & Hp & _).
  unfold finish_result. do 2 apply wp_bind. apply (wp_get_some _ g2); [done|].
  rewrite Hp, a_print_pending, Ha. by do 2 apply wp_ret.
Qed.

Lemma wp_handle D s a w :
  ctx_at D s (Ctx D 0) -> ready w a -> a_pending a = false ->
  wp (handle_at_command malloc mainloop_modify client process D)
    (fun b w' =>
       match classify hs cb s with
       | Trash => b = false /\ ready w' a
       | Reject => b = true /\ ready w' (a_reject malloc a)
       | Deliver d => b = true /\ ready w' (a_deliver malloc react d a)
       end) w.
Proof using All.
  intros HD Hw Ha. unfold handle_at_command, classify.
  assert (until_null s = s) as -> by (apply until_null_full; apply HD).
  pose proof (parse_at_command_spec D s HD) as Hparse.
  pose proof Hw as (g & i & rb & wb & Hg & Hi & Hio & Hhas & Hfd & Hrb & Hlin & Hwb & Hinv & Hsz
                    & Hout & Hhs & Hcb & Hp & Htold).
  destruct (p_command s) as [[[p t] args]|].
  2:{ apply wp_bind. unfold of_ub. rewrite Hparse. eexists _, _. split; [done|]. by apply wp_ret. }
  destruct Hparse as (off & Hparse & Hctx).
  apply wp_bind. unfold of_ub. rewrite Hparse. eexists _, _. split; [done|].
  apply wp_bind, (wp_get_some _ g); [done|]. rewrite Hhs.
  destruct (find_handler (Some hs) p) as [h|].
  - apply wp_bind, wp_modify, wp_bind.
    pose proof (ready_pending w a g true Hw Hg) as Hw1.
    eapply wp_mono; [|apply (wp_call _ (DHandler (user_data h) t args)); [|exact Hw1]].
    + intros ? w2 Hw2. by apply wp_ret.
    + split_and!; [done..|]. by exists D.
  - apply wp_bind. unfold handle_unknown_at_command. apply wp_bind, (wp_get_some _ g); [done|].
    set (f := match cb with Some _ => _ | None => Reject end).
    assert (f = match command_callback g with
                | Some c => Deliver (DUnknown s (cb_data c)) | None => Reject end) as Hf
      by (by rewrite Hcb).
    clearbody f. destruct (command_callback g) as [c|]; subst f.
    + apply wp_bind, wp_modify.
      pose proof (ready_pending w a g true Hw Hg) as Hw1.
      eapply wp_mono; [|apply (wp_call _ (DUnknown s (cb_data c))); [|exact Hw1]].
      * intros ? w2 Hw2. by apply wp_ret.
      * destruct HD as (_ & _ & Hs & pre & post & HD & H0). cbn in H0.
        destruct pre; [|rewrite zlen_cons in H0; pose proof (zlen_nonneg pre); lia].
        rewrite HD. cbn [app]. by rewrite until_null_string.
    + unfold send_result. cbn [result_text]. apply wp_bind.
      eapply wp_mono; [|apply wp_send_final; [|done..]].
      * intros b w2 Hw2. by do 2 apply wp_ret.
      * done.
Qed.
End with_process.

(** *** The loop *)

Definition set_in (q : bytes) (a : agw) : agw :=
  Agw (a_used a) q (a_pending a) (a_out a) (a_served a).

Lemma a_print_in q text a :
  a_print malloc text (set_in q a)
  = ((a_print malloc text a).1, set_in q (a_print malloc text a).2).
Proof using Type. unfold a_print. cbn [a_out set_in]. by destruct (print_ok _ _ _). Qed.

Lemma a_infos_in q l : forall a,
  foldl (a_info malloc) (set_in q a) l = set_in q (foldl (a_info malloc) a l).
Proof using Type.
  induction l as [|i l IH]; intros a; [done|]. cbn [foldl]. rewrite <- IH. f_equal.
  unfold a_info. destruct (malloc _); [|done]. by rewrite a_print_in.
Qed.

Lemma a_infos_kept l : forall a,
  let a' := foldl (a_info malloc) a l in
  a_used a' = a_used a /\ a_in a' = a_in a /\ a_pending a' = a_pending a.
Proof using Type.
  induction l as [|i l IH]; intros a; [done|]. cbn [foldl].
  destruct (IH (a_info malloc a i)) as (-> & -> & ->).
  unfold a_info, a_print. destruct (malloc (zlen i.1 + 5)); [|done]. by destruct (print_ok _ _ _).
Qed.

Lemma a_deliver_in q d a :
  a_deliver malloc react d (set_in q a) = set_in q (a_deliver malloc react d a).
Proof using Type. unfold a_deliver. rewrite <- a_infos_in. done. Qed.

Lemma a_reject_in q a : a_reject malloc (set_in q a) = set_in q (a_reject malloc a).
Proof using Type. unfold a_reject. by rewrite a_print_in. Qed.

Lemma a_deliver_kept d a :
  a_used (a_deliver malloc react d a) = a_used a /\ a_pending (a_deliver malloc react d a) = true.
Proof using Type. unfold a_deliver. edestruct a_infos_kept as (-> & _ & ->). done. Qed.

Lemma a_reject_kept a :
  a_used (a_reject malloc a) = a_used a /\ a_pending (a_reject malloc a) = a_pending a.
Proof using Type. unfold a_reject, a_print. by destruct (print_ok _ _ _). Qed.

Lemma ready_drain w a l n rest :
  ready w (set_in (l ++ rest) a) -> n = zlen l -> 0 < n ->
  exists g, gw w = Some g /\ result_pending g = a_pending a /\
    ready (World (Some (set_read_buf g (Ringbuf.ringbuf_drain (read_buf g) n).2)) (gw_io w) (log w))
      (a_drop rest a).
Proof using Type.
  intros (g & i & rb & wb & Hg & Hi & Hio & Hhas & Hfd & Hrb & Hlin & Hrest) Hn Hpos.
  destruct (lin_drain rb _ l rest n Hlin Hn Hpos) as (rb' & Hd & Hlin').
  exists g. split_and!; [done|apply Hrest|]. rewrite Hrb, Hd.
  by exists (set_read_buf g (Some rb')), i, rb', wb.
Qed.

(** A turn without a complete line, and with one. *)
Lemma wp_turn_none process a w :
  ready w a -> CR ∉ a_in a ->
  wp (process_turn malloc mainloop_modify client process)
    (fun again w' => again = false /\ ready w' a) w.
Proof using Type.
  intros Hw Hcr. pose proof Hw as (g & i & rb & wb & Hg & Hi & Hio & Hhas & Hfd & Hrb & Hlin & Hrest).
  unfold process_turn. apply wp_bind, (wp_get_some _ g); [done|]. rewrite Hrb.
  apply wp_bind. unfold of_ub. rewrite (lin_no_command malloc rb _ _ Hlin Hcr).
  eexists _, _. split; [done|]. apply wp_bind, wp_modify, wp_ret. split; [done|].
  by exists (set_read_buf g (Some rb)), i, rb, wb.
Qed.

Lemma wp_turn_line process a w l rest :
  ready w a -> a_pending a = false -> a_in a = l ++ CR :: rest -> CR ∉ l ->
  wp (process_turn malloc mainloop_modify client process)
    (fun again w' =>
       match classify hs cb l with
       | Trash => again = true /\ ready w' (a_drop rest a)
       | Reject => again = true /\ ready w' (a_drop rest (a_reject malloc a))
       | Deliver d => again = false /\ ready w' (a_drop rest (a_deliver malloc react d a))
       end) w.
Proof using All.
  intros Hw Ha Hin Hcr.
  pose proof Hw as (g & i & rb & wb & Hg & Hi & Hio & Hhas & Hfd & Hrb & Hlin & Hrest).
  rewrite Hin in Hlin.
  destruct (lin_next_command malloc rb _ l rest Hlin Hcr) as (post & rb' & Hnext & Hsz & Hlin').
  unfold process_turn. apply wp_bind, (wp_get_some _ g); [done|]. rewrite Hrb.
  apply wp_bind. unfold of_ub. rewrite Hnext. eexists _, _. split; [done|].
  apply wp_bind, wp_modify, wp_bind.
  destruct (until_null_split l post) as (post' & HD & Hnn & Hidem).
  assert (classify hs cb (until_null l) = classify hs cb l) as Hcl
    by (unfold classify; by rewrite Hidem).
  assert (ctx_at (l ++ 0 :: post) (until_null l) (Ctx (l ++ 0 :: post) 0)) as HD'.
  { split_and!; [done|lia|done|]. by exists [], post'. }
  assert (ready (World (Some (set_read_buf g (Some rb'))) (gw_io w) (log w))
            (set_in (l ++ 0 :: rest) a)) as Hw1.
  { by exists (set_read_buf g (Some rb')), i, rb', wb. }
  eapply wp_mono; [|by apply (wp_handle process _ _ _ _ HD' Hw1)].
  rewrite Hcl. intros b w2. cbn beta.
  assert (forall a2, ready w2 (set_in (l ++ 0 :: rest) a2) ->
    wp (g ← get_gw;
        let read_again := if b : bool then negb (result_pending g) else true in
        put_gw (set_read_buf g (Ringbuf.ringbuf_drain (read_buf g) (usize (zlen l + 1))).2);;
        mret read_again)
      (fun again w' => again = (if b : bool then negb (a_pending a2) else true) /\
                       ready w' (a_drop rest a2)) w2) as Hend.
  { intros a2 Hw2. pose proof (zlen_nonneg l).
    assert (zlen l <= 4096) by (rewrite zlen_app in Hsz; pose proof (zlen_nonneg (0 :: post)); lia).
    rewrite u64_small by (unfold is_u64; lia).
    destruct (ready_drain w2 a2 (l ++ [0]) (zlen l + 1) rest) as (g2 & Hg2 & Hp & Hw3).
    - by rewrite <- app_assoc.
    - by rewrite zlen_app.
    - lia.
    - apply wp_bind, (wp_get_some _ g2); [done|]. apply wp_bind, wp_modify, wp_ret.
      by rewrite Hp. }
  destruct (classify hs cb l) as [| |d].
  - intros [-> Hw2]. eapply wp_mono; [|by apply Hend]. by intros ? ? [-> H].
  - rewrite a_reject_in. intros [-> Hw2]. eapply wp_mono; [|by apply Hend].
    intros ? ? [-> H]. destruct (a_reject_kept a) as [_ ->]. by rewrite Ha.
  - rewrite a_deliver_in. intros [-> Hw2]. eapply wp_mono; [|by apply Hend].
    intros ? ? [-> H]. destruct (a_deliver_kept d a) as [_ ->]. done.
Qed.

Lemma wp_lines ls rest : forall n a w,
  ready w a -> a_pending a = false -> a_in a = join_lines ls ++ rest -> (length ls < n)%nat ->
  Forall (fun l => CR ∉ l) ls -> CR ∉ rest ->
  wp (process_input malloc mainloop_modify client n)
    (fun _ w' => ready w' (a_lines malloc hs cb react ls rest a)) w.
Proof using All.
  induction ls as [|l ls IH]; intros n a w Hw Ha Hin Hn Hls Hrest;
    (destruct n as [|n]; [cbn in Hn; lia|]); cbn [process_input a_lines]; apply wp_bind.
  - eapply wp_mono; [|apply (wp_turn_none _ a); [done|by rewrite Hin]].
    intros again w1 [-> Hw1]. by apply wp_ret.
  - apply Forall_cons_1 in Hls as [Hl Hls].
    eapply wp_mono; [|apply (wp_turn_line _ a w l (join_lines ls ++ rest)); [done..| |done]].
    2:{ rewrite Hin. unfold join_lines. cbn. by rewrite <- !app_assoc. }
    intros again w1. cbn beta. destruct (classify hs cb l) as [| |d]; intros [-> Hw1].
    + apply IH; try done. cbn in Hn. lia.
    + apply IH; try done; [|cbn in Hn; lia]. cbn. by destruct (a_reject_kept a) as [_ ->].
    + by apply wp_ret.
Qed.

Lemma ready_len w a : ready w a -> zlen (a_in a) <= 4096.
Proof using Type.
  intros (g & i & rb & wb & _ & _ & _ & _ & _ & _ & (_ & _ & _ & pre & post & _ & Hl & _) & _).
  rewrite !zlen_app in Hl. pose proof (zlen_nonneg pre). pose proof (zlen_nonneg post). lia.
Qed.

Lemma wp_process n a w :
  (4096 < n)%nat -> ready w a -> a_pending a = false ->
  wp (process_input malloc mainloop_modify client n)
    (fun _ w' => ready w' (a_process malloc hs cb react a)) w.
Proof using All.
  intros Hn Hw Ha. destruct (lines_spec (a_in a)) as (Hq & Hls & Hr).
  apply wp_lines; try done. pose proof (ready_len w a Hw) as Hl. unfold zlen in Hl.
  pose proof (lines_length (a_in a)). lia.
Qed.

(** *** The actions *)

Lemma wp_final n text a w :
  (4096 < n)%nat -> zlen text < 2 ^ 30 -> ready w a ->
  wp (send_final malloc mainloop_modify (process_input malloc mainloop_modify client n) text)
    (fun _ w' => ready w' (a_final malloc hs cb react text a)) w.
Proof using All.
  intros Hn Ht Hw. unfold send_final, a_final.
  apply wp_bind. eapply wp_mono; [|apply wp_print; [rewrite zlen_crlf; lia|done]].
  intros len w1 [Hw1 ->]. pose proof (a_print_pending (crlf text) a) as Hpend.
  destruct (a_print malloc (crlf text) a) as [sent a1]. cbn [fst snd] in *.
  destruct sent; cbn [negb andb]; [|by apply wp_ret].
  apply wp_bind. eapply wp_mono; [|by apply wp_wakeup]. intros ? w2 Hw2.
  pose proof Hw2 as (g2 & _ & _ & _ & Hg2 & _ & _ & _ & _ & _ & _ & _ & _ & _ & _ & _ & _ & Hp & _).
  unfold finish_result. do 2 apply wp_bind. apply (wp_get_some _ g2); [done|]. rewrite Hp.
  destruct (a_pending a1); [|by do 2 apply wp_ret].
  apply wp_bind, wp_modify.
  eapply wp_mono; [|apply (wp_process n (Agw (a_used a1) (a_in a1) false (a_out a1) (a_served a1)));
    [done|by apply (ready_pending w2)|done]].
  intros ? w3 Hw3. by apply wp_ret.
Qed.

Lemma wp_recv n d a w :
  (4096 < n)%nat -> ready w a -> 0 < zlen d -> a_used a + zlen d <= 4096 ->
  wp (can_read_data malloc mainloop_modify client n (fun _ _ => Some d))
    (fun _ w' => ready w' (a_step malloc hs cb react a (Recv d))) w.
Proof using All.
  intros Hn (g & i & rb & wb & Hg & Hi & Hio & Hhas & Hfd & Hrb & Hlin & Hwb & Hinv & Hsz & Hout
             & Hhs & Hcb & Hp & Htold) Hd Hfit.
  destruct (lin_read rb _ _ d (fd g) Hlin Hfd Hd Hfit) as (rb' & tr & Hread & Hlin').
  unfold can_read_data. apply wp_bind, (wp_get_some _ g); [done|]. rewrite Hrb.
  apply wp_bind. unfold of_ub. rewrite Hread. eexists _, _. split; [done|].
  apply wp_bind, wp_modify, wp_bind, wp_modify. rewrite (proj2 (Z.ltb_ge _ _)) by lia.
  rewrite Hp. cbn [a_step].
  set (a1 := Agw (a_used a + zlen d) (a_in a ++ d) (a_pending a) (a_out a) (a_served a)).
  match goal with |- wp _ _ ?w1 => assert (ready w1 a1) as Hw1 end.
  { exists (set_read_buf g (Some rb')), i, rb', wb. cbn.
    split_and!; try done. by apply told_log_traces. }
  change (a_pending a1) with (a_pending a).
  destruct (a_pending a) eqn:Ha; [by apply wp_ret|].
  apply wp_bind. eapply wp_mono; [|by apply wp_process]. intros ? w2 Hw2. by apply wp_ret.
Qed.

Lemma wp_action n x a w :
  (4096 < n)%nat -> ready w a -> fits a x ->
  wp (run_action n x) (fun _ w' => ready w' (a_step malloc hs cb react a x)) w.
Proof using All.
  intros Hn Hw Hx. destruct x as [d| |r|e]; cbn [run_action fits] in *; apply wp_bind.
  - destruct Hx. eapply wp_mono; [|by apply wp_recv]. intros ? w1 Hw1. by apply wp_ret.
  - eapply wp_mono; [|by apply wp_writable]. intros ? w1 Hw1. by apply wp_ret.
  - unfold hfp_gw_send_result, send_result. cbn [a_step].
    destruct (result_text r) as [text|] eqn:Hr; [|by do 2 apply wp_ret].
    eapply wp_mono; [|apply wp_final; [done| |done]].
    + intros ? w1 Hw1. by apply wp_ret.
    + destruct r; inversion Hr; subst; done.
  - unfold hfp_gw_send_error, send_error. cbn [a_step].
    eapply wp_mono; [|apply wp_final; [done| |done]].
    + intros ? w1 Hw1. by apply wp_ret.
    + apply error_text_small.
Qed.

Lemma wp_actions n l : forall a w,
  (4096 < n)%nat -> ready w a -> fit malloc hs cb react a l ->
  wp (run_actions n l) (fun _ w' => ready w' (foldl (a_step malloc hs cb react) a l)) w.
Proof using All.
  induction l as [|x l IH]; intros a w Hn Hw Hl; cbn [run_actions foldl]; [by apply wp_ret|].
  destruct Hl as [Hx Hl]. apply wp_bind. eapply wp_mono; [|by apply wp_action].
  intros ? w1 Hw1. by apply IH.
Qed.
End refinement.
