(* ===== verification/HfpGwLife.v ===== *)
(** The gateway of Hfp.v: it refines its abstract machine, serves commands in order, and the
    three situations in which it does not (a command in two pieces, an answer from inside the
    callback, the last reference dropped in the disconnect callback). *)
From Stdlib Require Import ZArith Lia String.
From S2P Require Import Prelude Blocks Libc Ringbuf StateM Io HfpContext HfpContextSpec HfpArgs Hfp HfpGwParse HfpGw HfpGwSpec.
From stdpp Require Import base numbers list option.

Local Open Scope Z_scope.

(** ** Commands in order *)

Definition command := (bytes * hfp_gw_cmd_type * bytes)%type.
Definition text_of (c : command) : bytes := command_text c.1.1 c.1.2 c.2.

(** A command that some handler is registered for. *)
Definition command_ok (hs : list cmd_handler) (c : command) : Prop :=
  name_ok c.1.1 /\ args_ok c.1.1 c.1.2 c.2 /\ CR ∉ text_of c /\
  is_Some (find_handler (Some hs) c.1.1).

Definition delivery_of (hs : list cmd_handler) (c : command) : delivery :=
  DHandler (match find_handler (Some hs) c.1.1 with Some h => user_data h | None => 0 end)
    c.1.2 c.2.

Fixpoint answers (k : nat) : list action :=
  match k with O => [] | S k => Writable :: Result HFP_RESULT_OK :: answers k end.

Lemma lines_line l q : CR ∉ l -> lines (l ++ CR :: q) = (l :: (lines q).1, (lines q).2).
Proof.
  induction l as [|x l IH]; intros Hl; cbn [lines app].
  - by destruct (lines q).
  - apply not_elem_of_cons in Hl as [Hx Hl]. rewrite (IH Hl).
    by rewrite (proj2 (Z.eqb_neq _ _)) by done.
Qed.

Lemma lines_join ls : Forall (fun l => CR ∉ l) ls -> lines (join_lines ls) = (ls, []).
Proof.
  induction 1 as [|l ls Hl Hls IH]; [done|]. unfold join_lines. cbn [map concat].
  rewrite <- app_assoc. cbn [app]. rewrite (lines_line l _ Hl). unfold join_lines in IH. by rewrite IH.
Qed.

Section serve.
Context (malloc : Z -> bool) (hs : list cmd_handler) (cb : option callback)
  (react : delivery -> list (bytes * bytes)).
Hypothesis memory : forall n, malloc n = true.

Abbreviation step := (a_step malloc hs cb react).

Lemma classify_command c : command_ok hs c -> classify hs cb (text_of c) = Deliver (delivery_of hs c).
Proof using Type.
  destruct c as [[p t] args]. intros (Hp & Ha & _ & [h Hh]). unfold classify, delivery_of, text_of.
  cbn [fst snd] in *. rewrite until_null_full by (apply command_text_no_null; [done|apply Ha]).
  rewrite p_command_text by done. by rewrite Hh.
Qed.

Lemma served_infos l : forall a, a_served (foldl (a_info malloc) a l) = a_served a.
Proof using Type.
  induction l as [|i l IH]; intros a; [done|]. cbn [foldl]. rewrite IH.
  unfold a_info, a_print. destruct (malloc (zlen i.1 + 5)); [|done]. by destruct (print_ok _ _ _).
Qed.

Lemma process_command c cs a :
  command_ok hs c -> Forall (command_ok hs) cs -> a_in a = join_lines (text_of <$> c :: cs) ->
  let a' := a_process malloc hs cb react a in
  a_in a' = join_lines (text_of <$> cs) /\ a_pending a' = true /\
  a_served a' = a_served a ++ [delivery_of hs c].
Proof using Type.
  intros Hc Hcs Hin. unfold a_process. rewrite Hin, lines_join.
  2:{ apply Forall_fmap. constructor; [apply Hc|]. eapply Forall_impl; [|exact Hcs].
      by intros x (_ & _ & H & _). }
  cbn [fst snd fmap list_fmap a_lines]. rewrite classify_command by done.
  cbn [a_drop a_in a_pending a_served]. rewrite app_nil_r. split_and!; [done|..].
  - by edestruct (a_deliver_kept malloc react) as [_ ->].
  - unfold a_deliver. by rewrite served_infos.
Qed.

Lemma answer_final a :
  a_pending a = true ->
  step (step a Writable) (Result HFP_RESULT_OK)
  = a_process malloc hs cb react
      (Agw (a_used a) (a_in a) false (crlf (Libc.chars "OK")) (a_served a)).
Proof using memory.
  intros Ha. cbn [a_step result_text]. unfold a_final, a_print, print_ok. rewrite memory.
  cbn [a_out a_pending]. by rewrite Ha.
Qed.

Lemma answers_serve cs : forall a,
  Forall (command_ok hs) cs -> a_pending a = true -> a_in a = join_lines (text_of <$> cs) ->
  let a' := foldl step a (answers (S (length cs))) in
  a_in a' = [] /\ a_pending a' = false /\
  a_served a' = a_served a ++ map (delivery_of hs) cs.
Proof using memory.
  induction cs as [|c cs IH]; intros a Hcs Ha Hin; cbn [answers length foldl];
    rewrite (answer_final a) by done.
  - unfold a_process. cbn [a_in]. rewrite Hin. cbn. by rewrite app_nil_r.
  - apply Forall_cons_1 in Hcs as [Hc Hcs].
    match goal with |- context [a_process _ _ _ _ ?b] =>
      destruct (process_command c cs b Hc Hcs Hin) as (H1 & H2 & H3) end.
    cbn [answers foldl] in IH. destruct (IH _ Hcs H2 H1) as (-> & -> & ->).
    rewrite H3. cbn [map a_served]. by rewrite <- app_assoc.
Qed.

Lemma fit_answers k : forall a, fit malloc hs cb react a (answers k).
Proof using Type. induction k as [|k IH]; intros a; cbn; [done|]. by split_and!. Qed.
End serve.

(** C21. The gateway implements its abstract machine, on two conditions: the received data do
    not wrap in the ring buffer (a reception may not reach behind its 4096 bytes, counted
    from when it was last empty, [fit]), and the callbacks of the client send nothing but
    information texts, of less than 2^30 bytes, with the results and errors coming from the
    program when the callback has returned.  A result that is sent from inside a handler, as
    the handlers of unit/test-hfp.c do, is excluded: the gateway then reads the same command
    again ([hfp_gw_answer_in_callback]).  From any state that corresponds to one of the
    machine's, any such sequence of receptions, transmissions, results and errors is defined,
    ends, and leads to the state the machine leads to; the callbacks are called with what the
    machine delivers, in its order. *)
Theorem hfp_gw_refines_machine malloc mainloop_modify client hs cb react n l w a :
  (forall l e d, told e d -> client (l ++ [e]) = map (fun i => OpInfo i.1 i.2) (react d)) ->
  (forall d, Forall (fun i => zlen i.2 < 2 ^ 30) (react d)) ->
  (4096 < n)%nat -> ready hs cb w a -> fit malloc hs cb react a l ->
  exists w', run_actions malloc mainloop_modify client n l w = Some (tt, w') /\
    ready hs cb w' (foldl (a_step malloc hs cb react) a l).
Proof.
  intros Hclient Hsmall Hn Hw Hl.
  destruct (wp_actions malloc mainloop_modify client hs cb react Hclient Hsmall n l a w Hn Hw Hl)
    as ([] & w' & Hrun & Hw').
  by exists w'.
Qed.

(** Commands that arrive together are served one at a time: when a client answers each
    after its callback returned, every command is given to the handler of its name with its
    type and arguments, once and in order, and nothing is left in the buffer. *)
Theorem hfp_gw_serves_commands malloc mainloop_modify client hs cb react n w out served c cs :
  (forall l e d, told e d -> client (l ++ [e]) = map (fun i => OpInfo i.1 i.2) (react d)) ->
  (forall d, Forall (fun i => zlen i.2 < 2 ^ 30) (react d)) ->
  (forall k, malloc k = true) -> (4096 < n)%nat ->
  ready hs cb w (Agw 0 [] false out served) ->
  Forall (command_ok hs) (c :: cs) -> zlen (join_lines (text_of <$> c :: cs)) <= 4096 ->
  exists w' a', run_actions malloc mainloop_modify client n
      (Recv (join_lines (text_of <$> c :: cs)) :: answers (length (c :: cs))) w = Some (tt, w') /\
    ready hs cb w' a' /\ a_in a' = [] /\ a_pending a' = false /\
    told_log (log w') (served ++ map (delivery_of hs) (c :: cs)).
Proof.
  intros Hclient Hsmall Hmem Hn Hw Hcs Hlen.
  set (l := Recv (join_lines (text_of <$> c :: cs)) :: answers (length (c :: cs))).
  assert (fit malloc hs cb react (Agw 0 [] false out served) l) as Hfit.
  { split; [|apply fit_answers]. cbn [fits a_used]. split; [|lia].
    unfold join_lines. cbn [fmap list_fmap map concat]. rewrite zlen_app, zlen_app.
    change (zlen [CR]) with 1. pose proof (zlen_nonneg (text_of c)).
    pose proof (zlen_nonneg (concat (map (fun l => l ++ [CR]) (text_of <$> cs)))). unfold fmap in *. lia. }
  destruct (wp_actions malloc mainloop_modify client hs cb react Hclient Hsmall n l _ w Hn Hw Hfit)
    as ([] & w' & Hrun & Hw').
  pose proof Hcs as Hcs0. apply Forall_cons_1 in Hcs as [Hc Hcs].
  eexists w', _. split; [done|]. split; [exact Hw'|].
  unfold l in *. cbn [foldl a_step a_pending a_in a_used a_out a_served app] in *.
  match goal with |- context [a_process _ _ _ _ ?b] => set (b0 := b) in * end.
  destruct (process_command malloc hs cb react c cs b0 Hc Hcs eq_refl) as (H1 & H2 & H3).
  destruct (answers_serve malloc hs cb react Hmem cs _ Hcs H2 H1) as (H4 & H5 & H6).
  cbn [length] in *. split_and!; [done..|].
  destruct Hw' as (g & i & rb & wb & H). destruct H as (_ & _ & _ & _ & _ & _ & _ & _ & _ & _ & _ & _ & _ & _ & Ht).
  rewrite H6, H3 in Ht. by rewrite <- app_assoc in Ht.
Qed.

(** ** A command in two pieces *)

(** A command that wraps around the end of the ring buffer takes everything behind it
    along: the loop finds it, and then drains all of the buffer, the complete commands after
    it included. *)
Theorem hfp_gw_wrapped_command_drops_rest malloc rb c rest :
  Ringbuf.inv rb -> Ringbuf.size rb <= 2 ^ 31 -> (forall n, malloc n = true) ->
  Ringbuf.contents rb = c ++ CR :: rest -> CR ∉ c ->
  Ringbuf.size rb - Ringbuf.out rb mod Ringbuf.size rb <= zlen c ->
  exists data count rb' rb'', next_command malloc rb = Some (Some (data, count), rb') /\
    (Ringbuf.ringbuf_drain (Some rb') (usize (count + 1))).2 = Some rb'' /\
    Ringbuf.contents rb'' = [].
Proof.
  intros Hinv Hs Hm Hc Hcr Hw.
  destruct (wrapped_command malloc rb c rest Hinv Hs Hm Hc Hcr Hw)
    as (data & count & rb' & Hn & Hl & Hu & Hinv').
  destruct (drain_all rb' (usize (count + 1)) Hinv') as (rb'' & Hd & He).
  { rewrite u64_small by done. lia. }
  by exists data, count, rb', rb''.
Qed.

(** ** Concrete gateways *)

Definition plenty {A} : A -> bool := fun _ => true.
Definition plenty2 {A B} : A -> B -> bool := fun _ _ => true.
Definition new_buf (n : Z) : option bytes := Some (replicate (Z.to_nat n) 0).

(** A new gateway on descriptor 7 with two handlers. *)
Definition start (mainloop_modify : Z -> Z -> bool) : P unit :=
  hfp_gw_new mainloop_modify new_buf plenty2 7;;
  hfp_gw_register plenty (Libc.chars "+AA") 1 true;;
  hfp_gw_register plenty (Libc.chars "+BB") 2 true;;
  mret tt.

Definition handlers : list cmd_handler :=
  [Handler (Libc.chars "+AA") 1 true; Handler (Libc.chars "+BB") 2 true].

Definition empty_ring : Ringbuf.ringbuf := Ringbuf.mk_ringbuf (replicate 4096 0) 4096 0 0 None.

Definition started : world :=
  World
    (Some (Gw 1 7 false true (Some empty_ring) (Some empty_ring) (Some handlers) false false None
             None None false false))
    (Some (Io 1 7 EPOLLIN false (Watch (Some CanReadData) (Some ReadWatchDestroy)) no_watch no_watch))
    [].

Lemma start_started : start plenty2 (World None None []) = Some (tt, started).
Proof. vm_compute. reflexivity. Qed.

Lemma started_ready : ready handlers None started (Agw 0 [] false [] []).
Proof.
  exists (Gw 1 7 false true (Some empty_ring) (Some empty_ring) (Some handlers) false false None
             None None false false),
    (Io 1 7 EPOLLIN false (Watch (Some CanReadData) (Some ReadWatchDestroy)) no_watch no_watch),
    empty_ring, empty_ring.
  split_and!; try reflexivity; try done.
  - by left.
  - split_and!; try done. by exists [], (replicate 4096 0).
  - exists 12. split_and!; done.
  - constructor.
Qed.

(** The client of the examples sends one text for each command. *)
Definition info_client (l : list event) : list gw_op :=
  match list.last l with
  | Some (EvHandler _ _ _ | EvCommand _ _) => [OpInfo (Libc.chars "%s") (Libc.chars "+CIEV: 1")]
  | _ => []
  end.
Definition info_react (d : delivery) : list (bytes * bytes) :=
  [(Libc.chars "%s", Libc.chars "+CIEV: 1")].

Lemma info_client_reacts l e d : told e d ->
  info_client (l ++ [e]) = map (fun i => OpInfo i.1 i.2) (info_react d).
Proof. intros H. unfold info_client. rewrite last_snoc. by destruct e. Qed.

Lemma info_react_small d : Forall (fun i => zlen i.2 < 2 ^ 30) (info_react d).
Proof. by repeat constructor. Qed.

Lemma hfp_gw_refines_machine_witness :
  exists w', run_actions plenty plenty2 info_client (Z.to_nat 4097)
      [Recv (Libc.chars "AT+AA"); Recv (Libc.chars "?" ++ [13] ++ Libc.chars "ATZ" ++ [13]);
       Writable; Result HFP_RESULT_OK] started = Some (tt, w') /\
    ready handlers None w'
      (foldl (a_step plenty handlers None info_react) (Agw 0 [] false [] [])
        [Recv (Libc.chars "AT+AA"); Recv (Libc.chars "?" ++ [13] ++ Libc.chars "ATZ" ++ [13]);
         Writable; Result HFP_RESULT_OK]).
Proof.
  apply (hfp_gw_refines_machine plenty plenty2 info_client handlers None info_react).
  - apply info_client_reacts.
  - apply info_react_small.
  - lia.
  - apply started_ready.
  - vm_compute. split_and!; done.
Defined.

Definition two_commands : command * list command :=
  ((Libc.chars "+AA", HFP_GW_CMD_TYPE_READ, []),
   [(Libc.chars "+BB", HFP_GW_CMD_TYPE_SET, Libc.chars "1,2")]).

Lemma hfp_gw_serves_commands_witness :
  exists w' a', run_actions plenty plenty2 info_client (Z.to_nat 4097)
      (Recv (join_lines (text_of <$> two_commands.1 :: two_commands.2)) :: answers 2) started
        = Some (tt, w') /\
    ready handlers None w' a' /\ a_in a' = [] /\ a_pending a' = false /\
    told_log (log w') [DHandler 1 HFP_GW_CMD_TYPE_READ [];
                       DHandler 2 HFP_GW_CMD_TYPE_SET (Libc.chars "1,2")].
Proof.
  apply (hfp_gw_serves_commands plenty plenty2 info_client handlers None info_react
           (Z.to_nat 4097) started [] [] two_commands.1 two_commands.2).
  - apply info_client_reacts.
  - apply info_react_small.
  - done.
  - lia.
  - apply started_ready.
  - repeat constructor; try (by vm_compute; lia); try done.
    all: try (by apply (bool_decide_unpack _); vm_compute).
    all: vm_compute; try done; try (eexists; reflexivity).
  - by vm_compute.
Defined.

(** The ring of the example: A and B at its end, CR C CR at its start. *)
Definition wrapped_ring : Ringbuf.ringbuf :=
  Ringbuf.mk_ringbuf [13; 67; 13; 0; 0; 0; 65; 66] 8 11 6 None.

Lemma hfp_gw_wrapped_command_drops_rest_witness :
  exists data count rb' rb'', next_command plenty wrapped_ring = Some (Some (data, count), rb') /\
    (Ringbuf.ringbuf_drain (Some rb') (usize (count + 1))).2 = Some rb'' /\
    Ringbuf.contents rb'' = [].
Proof.
  apply (hfp_gw_wrapped_command_drops_rest plenty wrapped_ring [65; 66] [67; 13]).
  - exists 3. vm_compute. repeat split; discriminate.
  - done.
  - done.
  - reflexivity.
  - by apply (bool_decide_unpack _).
  - vm_compute. discriminate.
Defined.

(** ** An answer from inside the callback *)

Definition sync_client (l : list event) : list gw_op :=
  match list.last l with Some (EvHandler _ _ _) => [OpResult HFP_RESULT_OK] | _ => [] end.

(** Whose handlers were called. *)
Definition called (l : list event) : list Z :=
  omap (fun e => match e with EvHandler u _ _ => Some u | _ => None end) l.

(** A handler that sends its result before it returns makes the gateway read on from the
    start of the same command: of two commands in the buffer, the first is given to its
    handler twice and the second never. *)
Theorem hfp_gw_answer_in_callback :
  exists g w', (start plenty2;;
     can_read_data plenty plenty2 sync_client 5
       (fun _ _ => Some (Libc.chars "AT+AA" ++ [13] ++ Libc.chars "AT+BB" ++ [13])))
     (World None None []) = Some (true, w') /\
    gw w' = Some g /\ called (log w') = [1; 1] /\ Ringbuf.ringbuf_len (read_buf g) = 0 /\
    result_pending g = false.
Proof. eexists _, _. split; [vm_compute; reflexivity|]. by split_and!. Qed.

(** ** The last reference *)

(** The watches are the gateway's own; without a watch for the disconnection there is none of
    the client's data that would be destroyed with it. *)
Definition own_watches (i : io io_fn io_destroy_fn) : Prop :=
  (Io.destroy (write_watch i) = None \/ Io.destroy (write_watch i) = Some WriteWatchDestroy) /\
  (Io.destroy (read_watch i) = None \/ Io.destroy (read_watch i) = Some ReadWatchDestroy) /\
  (Io.destroy (disconnect_watch i) = None \/
   Io.destroy (disconnect_watch i) = Some DisconnectWatchDestroy).

Definition destroys (c : option callback) : list event :=
  match c with Some c => if cb_destroy c then [EvDestroy (cb_data c)] else [] | None => [] end.

Definition handler_destroys (l : list cmd_handler) : list event :=
  List.concat (map (fun h => if destroy h then [EvDestroy (user_data h)] else []) l).

(** A computation that only adds to the log. *)
Definition logs {A} (e : P A) (l : list event) : Prop :=
  forall w, exists a, e w = Some (a, World (gw w) (gw_io w) (log w ++ l)).

Lemma wp_logs {A} (e : P A) l Q w :
  logs e l -> (forall a, Q a (World (gw w) (gw_io w) (log w ++ l))) -> wp e Q w.
Proof. intros H HQ. destruct (H w) as [a He]. by exists a, (World (gw w) (gw_io w) (log w ++ l)). Qed.

Lemma logs_nothing : logs (mret tt) [].
Proof. intros w. exists tt. rewrite app_nil_r. by destruct w. Qed.

Lemma destroy_callback_logs c : logs (destroy_callback c) (destroys c).
Proof.
  destruct c as [c|]; [|apply logs_nothing]. cbn. destruct (cb_destroy c); [|apply logs_nothing].
  intros w. by exists tt.
Qed.

Lemma destroy_handlers_logs l : logs (destroy_handlers l) (handler_destroys l).
Proof.
  induction l as [|h l IH]; [apply logs_nothing|]. intros w. cbn [destroy_handlers].
  unfold handler_destroys. cbn [map concat]. fold (handler_destroys l).
  destruct (IH (World (gw w) (gw_io w) (log w ++ if destroy h then [EvDestroy (user_data h)] else [])))
    as [[] IH']. exists tt. cbn in IH'. rewrite <- app_assoc in IH'. rewrite <- IH'.
  unfold destroy_cmd_handler, when, mbind, M_bind, emit, modify. destruct (destroy h); [done|].
  rewrite app_nil_r. by destruct w.
Qed.

Lemma disconnect_watch_run g i l :
  destroyed g = false ->
  disconnect_watch_destroy (World (Some g) i l)
  = Some (tt, World (Some g) i (l ++ destroys (disconnect_callback g))).
Proof.
  intros Hd. unfold disconnect_watch_destroy. erewrite bind_run by reflexivity.
  destruct (destroy_callback_logs (disconnect_callback g) (World (Some g) i l)) as [[] H].
  erewrite bind_run by exact H. by rewrite Hd.
Qed.

Section last_reference.
Variable mainloop_modify : Z -> Z -> bool.

(** Taking a handler away from the io. *)
Lemma wp_clear watch_of set_watch ev g g' i l d Q :
  has_io g = true -> 0 <= Io.fd i ->
  destroy_watch (watch_of i) (World (Some g) (Some i) l)
    = Some (tt, World (Some g') (Some i) (l ++ d)) ->
  (forall b e, Q b (World (Some g') (Some (set_events (set_watch i no_watch) e)) (l ++ d))) ->
  wp (on_io (io_set_handler mainloop_modify watch_of set_watch ev None None)) Q
    (World (Some g) (Some i) l).
Proof.
  intros Hio Hfd Hd HQ. unfold on_io. apply wp_bind, (wp_get_some _ g); [done|]. rewrite Hio.
  unfold io_set_handler. apply wp_bind, (wp_get_some _ i); [done|].
  rewrite (proj2 (Z.ltb_ge _ _)) by done.
  apply wp_bind. eexists tt, _. split; [exact Hd|].
  apply wp_bind, (wp_get_some _ i); [done|]. apply wp_bind, wp_modify.
  set (i1 := set_watch i (Watch None None)) in *. apply wp_bind, (wp_get_some _ i1); [done|].
  assert (i1 = set_events i1 (events i1)) as Hi1 by (by destruct i1).
  destruct (_ =? _); [apply wp_ret; cbn; rewrite Hi1; apply HQ|].
  destruct (negb _); [apply wp_ret; cbn; rewrite Hi1; apply HQ|].
  apply wp_bind, wp_modify, wp_ret, HQ.
Qed.

Lemma io_destroy_idle g i l :
  write_watch i = no_watch -> read_watch i = no_watch -> disconnect_watch i = no_watch ->
  close_on_destroy i = false -> Io.ref_count i = 1 ->
  io_destroy (World (Some g) (Some i) l) = Some (tt, World (Some g) None l).
Proof.
  destruct i as [irc ifd iev icl rw ww dw]. cbn. intros -> -> -> -> ->.
  unfold io_destroy. do 3 (erewrite bind_run by reflexivity; erewrite bind_run by reflexivity).
  unfold mainloop_remove_fd.
  assert (forall f, exists i', (i0 ← get_io; if Io.fd i0 <? 0 then mret tt else io_cleanup)
     (World (Some g) (Some (Io 1 f iev false no_watch no_watch no_watch)) l)
     = Some (tt, World (Some g) (Some i') l) /\ Io.ref_count i' = 1) as Hrm.
  { intros f. erewrite bind_run by reflexivity. cbn [Io.fd].
    destruct (f <? 0); eexists; split; reflexivity. }
  destruct (Hrm ifd) as (i' & Hr & Hi'). erewrite bind_run by exact Hr.
  unfold io_unref. erewrite bind_run by reflexivity. by rewrite Hi'.
Qed.

(** Dropping the last reference outside the disconnect callback frees the gateway and its
    io, closes the descriptor if that was asked for, and calls every destroy function once:
    that of the command handler, of the disconnect handler, of the debug handler and of the
    registered handlers, in their order. *)
Theorem hfp_gw_unref_releases g i l hs :
  has_io g = true -> 0 <= Io.fd i -> own_watches i -> close_on_destroy i = false ->
  Io.ref_count i = 1 -> ref_count g = 1 -> in_disconnect g = false -> destroyed g = false ->
  cmd_handlers g = Some hs ->
  hfp_gw_unref mainloop_modify (World (Some g) (Some i) l)
  = Some (tt, World None None
      (l ++ destroys (command_callback g) ++
       (if Io.destroy (disconnect_watch i) then destroys (disconnect_callback g) else []) ++
       (if close_on_unref g then [EvClose (fd g)] else []) ++
       destroys (debug_callback g) ++ handler_destroys hs)).
Proof.
  intros Hio Hfd (Hww & Hrw & Hdw) Hclose Hiref Href Hdis Hdest Hhs.
  match goal with |- _ = ?r =>
    assert (wp (hfp_gw_unref mainloop_modify)
              (fun u w => Some (u, w) = r) (World (Some g) (Some i) l)) as (u & w & -> & ->);
      [|done] end.
  destruct g as [rc f cl hi rb wb ch wa rp cc dc xc ind des], i as [irc ifd iev icl rw ww dw].
  cbn in *. subst hi irc rc ind des ch icl.
  unfold hfp_gw_unref. apply wp_bind. eapply wp_get_some; [reflexivity|].
  apply wp_bind, wp_modify. cbn -[destroy_callback destroy_handlers on_io hfp_gw_set_debug].
  (* the command handler *)
  unfold hfp_gw_set_command_handler. do 2 apply wp_bind. eapply wp_get_some; [reflexivity|].
  apply wp_bind. eapply wp_logs; [apply destroy_callback_logs|intros ?].
  cbn [command_callback set_ref]. apply wp_bind, wp_modify, wp_ret.
  (* the watches *)
  apply wp_bind. unfold io_set_write_handler.
  eapply (wp_clear write_watch set_write_watch EPOLLOUT _
            (Gw 0 f cl true rb wb (Some hs) (if Io.destroy ww then false else wa) rp None dc xc false false) _ _ []);
    [done|done| |].
  { rewrite app_nil_r. unfold destroy_watch. cbn. by destruct Hww as [-> | ->]. }
  intros b1 e1. rewrite app_nil_r.
  apply wp_bind. unfold io_set_read_handler.
  eapply (wp_clear read_watch set_read_watch EPOLLIN _
            (Gw 0 f cl true rb wb (Some hs) (if Io.destroy ww then false else wa) rp None dc xc false false) _ _ []);
    [done|done| |].
  { rewrite app_nil_r. unfold destroy_watch. cbn. by destruct Hrw as [-> | ->]. }
  intros b2 e2. rewrite app_nil_r.
  apply wp_bind. unfold io_set_disconnect_handler.
  eapply (wp_clear disconnect_watch set_disconnect_watch EPOLLRDHUP _
            (Gw 0 f cl true rb wb (Some hs) (if Io.destroy ww then false else wa) rp None dc xc false false) _ _
            (if Io.destroy dw then destroys xc else []));
    [done|done| |].
  { unfold destroy_watch. cbn. destruct Hdw as [-> | ->]; [by rewrite app_nil_r|].
    by apply disconnect_watch_run. }
  intros b3 e3.
  (* the io is destroyed *)
  apply wp_bind. unfold on_io. eapply (wp_bind get_gw), wp_get_some; [reflexivity|].
  cbn [has_io]. apply wp_bind. eexists _, _. split; [by apply io_destroy_idle|]. apply wp_ret.
  apply wp_bind. eapply wp_get_some; [reflexivity|]. apply wp_bind, wp_modify.
  apply wp_bind. eapply wp_get_some; [reflexivity|].
  apply wp_bind. eapply (wp_logs _ (if cl then [EvClose f] else [])).
  { intros w. cbn [close_on_unref set_io fd]. destruct cl; [by exists tt|apply logs_nothing]. }
  intros ?. unfold hfp_gw_set_debug. do 2 apply wp_bind. eapply wp_get_some; [reflexivity|].
  apply wp_bind. eapply wp_logs; [apply destroy_callback_logs|intros ?].
  apply wp_bind, wp_modify, wp_ret.
  apply wp_bind. eapply wp_get_some; [reflexivity|]. apply wp_bind, wp_modify.
  apply wp_bind. eapply wp_get_some; [reflexivity|].
  apply wp_bind. eapply wp_logs; [apply destroy_handlers_logs|intros ?].
  apply wp_bind. eapply wp_get_some; [reflexivity|]. apply wp_bind, wp_modify.
  apply wp_bind. eapply wp_get_some; [reflexivity|].
  apply wp_modify. cbn. by rewrite <- !app_assoc.
Qed.
End last_reference.

Lemma hfp_gw_unref_releases_witness :
  hfp_gw_unref plenty2 started
  = Some (tt, World None None [EvDestroy 1; EvDestroy 2]).
Proof.
  apply (hfp_gw_unref_releases plenty2
    (Gw 1 7 false true (Some empty_ring) (Some empty_ring) (Some handlers) false false None
             None None false false)
    (Io 1 7 EPOLLIN false (Watch (Some CanReadData) (Some ReadWatchDestroy)) no_watch no_watch)
    [] handlers); try reflexivity; try lia; try done.
  split_and!; [by left|by right|by left].
Defined.

(** A client that drops its reference when it is told of the disconnection. *)
Definition leaving_client (l : list event) : list gw_op :=
  match list.last l with Some (EvDisconnect _) => [OpUnref] | _ => [] end.

(** Two faults in the handling of the disconnection.  When the last reference is dropped in
    the disconnect callback, the gateway is never freed: dropping it takes away the io's
    destroy function, which was to free it.  When the disconnect handler is replaced, the
    destroy function of the old one is called twice. *)
Theorem hfp_gw_disconnect_faults :
  (exists g w', (start plenty2;;
     hfp_gw_set_disconnect_handler plenty2 (Some (Callback 5 true));;
     gw_event plenty plenty2 leaving_client 5 (fun _ _ => None) (fun _ _ => -1) EPOLLHUP)
     (World None None []) = Some (tt, w') /\
    gw w' = Some g /\ ref_count g = 0 /\ destroyed g = true /\ gw_io w' = None) /\
  (exists w', (start plenty2;;
     hfp_gw_set_disconnect_handler plenty2 (Some (Callback 5 true));;
     hfp_gw_set_disconnect_handler plenty2 None) (World None None []) = Some (true, w') /\
    log w' = [EvDestroy 5; EvDestroy 5]).
Proof.
  split; [eexists _, _|eexists]; (split; [vm_compute; reflexivity|]); repeat split.
Qed.
