(* ===== verification/HfpHf.v ===== *)
(** The hands-free unit: [struct hfp_hf] of src/shared/hfp.c, which sends AT commands, matches
    final results with the commands in the order they were sent and gives unsolicited results
    to handlers.  As in Hfp.v, a callback of the client may call the unit again ([client]);
    [None] for the unit is freed memory.  The loop works on the ring buffer in place: it reads
    the buffer again after every callback. *)
From Stdlib Require Import ZArith Lia String.
From S2P Require Import Prelude Blocks Libc Ringbuf StateM Io HfpContext HfpArgs Hfp.
From stdpp Require Import base numbers list option.

Local Open Scope Z_scope.

Definition HFP_ERROR_AG_FAILURE : Z := 0.
Definition HFP_ERROR_NETWORK_NOT_ALLOWED : Z := 32.

(** A command whose result is awaited: [cmd] is its address, [resp_data] stands for the
    callback with its user data. *)
Record cmd_response := Cmd { cmd : Z; resp_data : Z }.

Record event_handler := EventHandler {
  prefix : bytes;
  user_data : Z;
  destroy : bool;
}.

Record hfp_hf := Hf {
  ref_count : Z;
  fd : Z;
  close_on_unref : bool;
  has_io : bool;
  read_buf : option Ringbuf.ringbuf;
  write_buf : option Ringbuf.ringbuf;
  writer_active : bool;
  cmd_queue : option (list cmd_response);
  event_handlers : option (list event_handler);
  debug_callback : option callback;
  disconnect_callback : option callback;
  in_disconnect : bool;
  destroyed : bool;
}.

Inductive event :=
  | EvResponse (result : hfp_result) (cme_err : Z) (resp_data : Z)
  | EvEvent (user_data : Z) (context : hfp_context)
  | EvDestroy (user_data : Z)
  | EvDisconnect (user_data : Z)
  | EvTrace (call : nat * bytes)
  | EvClose (fd : Z).

(** [next_cmd] is the address the next command gets. *)
Record world := World {
  hf : option hfp_hf;
  hf_io : option (io io_fn io_destroy_fn);
  log : list event;
  next_cmd : Z;
}.

Abbreviation P := (M world).

Definition get_hf : P hfp_hf := get_some hf.
Definition put_hf (h : hfp_hf) : P unit :=
  modify (fun w => World (Some h) (hf_io w) (log w) (next_cmd w)).
Definition free_hf : P unit := modify (fun w => World None (hf_io w) (log w) (next_cmd w)).
Definition emit_all (l : list event) : P unit :=
  modify (fun w => World (hf w) (hf_io w) (log w ++ l) (next_cmd w)).
Definition emit (e : event) : P unit := emit_all [e].
Definition new_cmd : P Z := fun w =>
  Some (next_cmd w, World (hf w) (hf_io w) (log w) (next_cmd w + 1)).
Definition of_ub {A} (x : ub A) : P A :=
  fun w => match x with Some a => Some (a, w) | None => None end.

(** Assignments. *)
Definition set_ref (h : hfp_hf) (x : Z) : hfp_hf :=
  Hf x (fd h) (close_on_unref h) (has_io h) (read_buf h) (write_buf h) (writer_active h)
    (cmd_queue h) (event_handlers h) (debug_callback h) (disconnect_callback h)
    (in_disconnect h) (destroyed h).
Definition set_close (h : hfp_hf) (x : bool) : hfp_hf :=
  Hf (ref_count h) (fd h) x (has_io h) (read_buf h) (write_buf h) (writer_active h)
    (cmd_queue h) (event_handlers h) (debug_callback h) (disconnect_callback h)
    (in_disconnect h) (destroyed h).
Definition set_io (h : hfp_hf) (x : bool) : hfp_hf :=
  Hf (ref_count h) (fd h) (close_on_unref h) x (read_buf h) (write_buf h) (writer_active h)
    (cmd_queue h) (event_handlers h) (debug_callback h) (disconnect_callback h)
    (in_disconnect h) (destroyed h).
Definition set_read_buf (h : hfp_hf) (x : option Ringbuf.ringbuf) : hfp_hf :=
  Hf (ref_count h) (fd h) (close_on_unref h) (has_io h) x (write_buf h) (writer_active h)
    (cmd_queue h) (event_handlers h) (debug_callback h) (disconnect_callback h)
    (in_disconnect h) (destroyed h).
Definition set_write_buf (h : hfp_hf) (x : option Ringbuf.ringbuf) : hfp_hf :=
  Hf (ref_count h) (fd h) (close_on_unref h) (has_io h) (read_buf h) x (writer_active h)
    (cmd_queue h) (event_handlers h) (debug_callback h) (disconnect_callback h)
    (in_disconnect h) (destroyed h).
Definition set_writer (h : hfp_hf) (x : bool) : hfp_hf :=
  Hf (ref_count h) (fd h) (close_on_unref h) (has_io h) (read_buf h) (write_buf h) x
    (cmd_queue h) (event_handlers h) (debug_callback h) (disconnect_callback h)
    (in_disconnect h) (destroyed h).
Definition set_queue (h : hfp_hf) (x : option (list cmd_response)) : hfp_hf :=
  Hf (ref_count h) (fd h) (close_on_unref h) (has_io h) (read_buf h) (write_buf h)
    (writer_active h) x (event_handlers h) (debug_callback h) (disconnect_callback h)
    (in_disconnect h) (destroyed h).
Definition set_handlers (h : hfp_hf) (x : option (list event_handler)) : hfp_hf :=
  Hf (ref_count h) (fd h) (close_on_unref h) (has_io h) (read_buf h) (write_buf h)
    (writer_active h) (cmd_queue h) x (debug_callback h) (disconnect_callback h)
    (in_disconnect h) (destroyed h).
Definition set_debug (h : hfp_hf) (x : option callback) : hfp_hf :=
  Hf (ref_count h) (fd h) (close_on_unref h) (has_io h) (read_buf h) (write_buf h)
    (writer_active h) (cmd_queue h) (event_handlers h) x (disconnect_callback h)
    (in_disconnect h) (destroyed h).
Definition set_disconnect (h : hfp_hf) (x : option callback) : hfp_hf :=
  Hf (ref_count h) (fd h) (close_on_unref h) (has_io h) (read_buf h) (write_buf h)
    (writer_active h) (cmd_queue h) (event_handlers h) (debug_callback h) x (in_disconnect h)
    (destroyed h).
Definition set_in_disconnect (h : hfp_hf) (x : bool) : hfp_hf :=
  Hf (ref_count h) (fd h) (close_on_unref h) (has_io h) (read_buf h) (write_buf h)
    (writer_active h) (cmd_queue h) (event_handlers h) (debug_callback h)
    (disconnect_callback h) x (destroyed h).
Definition set_destroyed (h : hfp_hf) (x : bool) : hfp_hf :=
  Hf (ref_count h) (fd h) (close_on_unref h) (has_io h) (read_buf h) (write_buf h)
    (writer_active h) (cmd_queue h) (event_handlers h) (debug_callback h)
    (disconnect_callback h) (in_disconnect h) x.

(** ** Handlers and commands *)

Definition match_handler_event_prefix (p : bytes) (h : event_handler) : bool :=
  bool_decide (prefix h = p).

(** [queue_find], [queue_remove_if] and [queue_remove]; [None] is no queue. *)
Definition find_handler (q : option (list event_handler)) (p : bytes) : option event_handler :=
  match q with Some l => List.find (match_handler_event_prefix p) l | None => None end.

Fixpoint remove_handler (l : list event_handler) (p : bytes) : list event_handler :=
  match l with
  | [] => []
  | x :: l => if match_handler_event_prefix p x then l else x :: remove_handler l p
  end.

Fixpoint remove_cmd (l : list cmd_response) (c : Z) : list cmd_response :=
  match l with
  | [] => []
  | x :: l => if cmd x =? c then l else x :: remove_cmd l c
  end.

Definition destroy_event_handler (h : event_handler) : P unit :=
  when (destroy h) (emit (EvDestroy (user_data h))).

Fixpoint destroy_handlers (l : list event_handler) : P unit :=
  match l with
  | [] => mret tt
  | h :: l => destroy_event_handler h;; destroy_handlers l
  end.

Definition destroy_callback (c : option callback) : P unit :=
  match c with
  | Some c => when (cb_destroy c) (emit (EvDestroy (cb_data c)))
  | None => mret tt
  end.

(** ** The functions the io calls when it drops a watch *)

Definition hf_write_watch_destroy : P unit := h ← get_hf; put_hf (set_writer h false).
Definition read_watch_destroy : P unit := mret tt.
Definition hf_disconnect_watch_destroy : P unit :=
  h ← get_hf;
  destroy_callback (disconnect_callback h);;
  if destroyed h then free_hf else mret tt.

#[export] Instance HfIo : IoOwner world io_fn io_destroy_fn := {
  io_of := hf_io;
  with_io w i := World (hf w) i (log w) (next_cmd w);
  run_destroy d := match d with
                   | WriteWatchDestroy => hf_write_watch_destroy
                   | ReadWatchDestroy => read_watch_destroy
                   | DisconnectWatchDestroy => hf_disconnect_watch_destroy
                   end;
  close_fd f := emit (EvClose f);
}.

(** What a callback calls. *)
Inductive hf_op :=
  | OpSend (resp_data : Z) (format text : bytes)
  | OpRegister (p : bytes) (user_data : Z) (destroy : bool)
  | OpUnregister (p : bytes)
  | OpUnref.

Section unit.
(** As in Hfp.v. *)
Variables (malloc : Z -> bool) (mainloop_modify : Z -> Z -> bool)
  (client : list event -> list hf_op).

(** [hfp->io] may be NULL. *)
Definition on_io (e : P bool) : P bool := h ← get_hf; if has_io h then e else mret false.

(** *** Writing *)

Definition hf_can_write_data (writev : Z -> list bytes -> Z) : P bool :=
  h ← get_hf;
  '(n, wb) ← of_ub (Ringbuf.ringbuf_write writev (write_buf h) (fd h));
  put_hf (set_write_buf h wb);;
  if n <? 0 then mret false
  else mret (0 <? Ringbuf.ringbuf_len wb).

Definition hf_wakeup_writer : P unit :=
  h ← get_hf;
  if writer_active h then mret tt
  else if Ringbuf.ringbuf_len (write_buf h) =? 0 then mret tt
  else
    set ← on_io (io_set_write_handler mainloop_modify (Some CanWriteData)
                   (Some WriteWatchDestroy));
    if negb set then mret tt
    else h ← get_hf; put_hf (set_writer h true).

Definition printf (text : bytes) : P Z :=
  h ← get_hf;
  '(len, wb, tr) ← of_ub (Ringbuf.ringbuf_vprintf
    (fun t : bytes => if malloc (zlen t + 1) then Some t else None) (write_buf h) (Some text));
  put_hf (set_write_buf h wb);;
  emit_all (EvTrace <$> tr);;
  mret len.

(** [format] with its arguments is [text]; [has_cb] says whether [resp_cb] is a function. *)
Definition hfp_hf_send_command (has_cb : bool) (resp_data : Z) (format text : bytes) : P bool :=
  if negb has_cb then mret false
  else if negb (malloc (zlen format + 2)) then mret false
  else
    c ← new_cmd;
    len ← printf (text ++ [CR]);
    if len <? 0 then mret false
    else
      h ← get_hf;
      match cmd_queue h with
      | None =>
        put_hf (set_write_buf h (Ringbuf.ringbuf_drain (write_buf h) len).2);;
        mret false
      | Some q =>
        put_hf (set_queue h (Some (q ++ [Cmd c resp_data])));;
        hf_wakeup_writer;;
        mret true
      end.

(** *** Registration *)

Definition hfp_hf_register (has_cb : bool) (p : bytes) (user_data : Z) (destroy : bool)
    : P bool :=
  if negb has_cb then mret false
  else if negb (malloc (zlen p + 1)) then mret false
  else
    h ← get_hf;
    match find_handler (event_handlers h) p with
    | Some _ => mret false
    | None =>
      match event_handlers h with
      | None => mret false
      | Some l =>
        put_hf (set_handlers h (Some (l ++ [EventHandler p user_data destroy])));; mret true
      end
    end.

Definition hfp_hf_unregister (p : bytes) : P bool :=
  h ← get_hf;
  match find_handler (event_handlers h) p, event_handlers h with
  | Some e, Some l =>
    put_hf (set_handlers h (Some (remove_handler l p)));;
    destroy_event_handler e;;
    mret true
  | _, _ => mret false
  end.

(** The tracing callbacks of the two buffers: 0 is [hf_read_tracing], 1 [hf_write_tracing]. *)
Definition hfp_hf_set_debug (c : option callback) : P bool :=
  h ← get_hf;
  destroy_callback (debug_callback h);;
  let trace (n : nat) := match c with Some _ => Some n | None => None end in
  put_hf (set_write_buf
            (set_read_buf (set_debug h c)
               (Ringbuf.ringbuf_set_input_tracing (read_buf h) (trace 0%nat)).2)
            (Ringbuf.ringbuf_set_input_tracing (write_buf h) (trace 1%nat)).2);;
  mret true.

Definition hfp_hf_set_close_on_unref (do_close : bool) : P bool :=
  h ← get_hf; put_hf (set_close h do_close);; mret true.

Definition hfp_hf_set_disconnect_handler (c : option callback) : P bool :=
  h ← get_hf;
  destroy_callback (disconnect_callback h);;
  set ← on_io (io_set_disconnect_handler mainloop_modify (Some IoDisconnected)
                 (Some DisconnectWatchDestroy));
  h ← get_hf;
  if negb set then put_hf (set_disconnect h None);; mret false
  else put_hf (set_disconnect h c);; mret true.

Definition hfp_hf_disconnect (shutdown : Z -> bool) : P bool := on_io (io_shutdown shutdown).

(** *** References *)

Definition hfp_hf_ref : P unit := h ← get_hf; put_hf (set_ref h (ref_count h + 1)).

Definition hfp_hf_unref : P unit :=
  h ← get_hf;
  put_hf (set_ref h (ref_count h - 1));;
  if negb (ref_count h - 1 =? 0) then mret tt
  else
    on_io (io_set_write_handler mainloop_modify None None);;
    on_io (io_set_read_handler mainloop_modify None None);;
    on_io (io_set_disconnect_handler mainloop_modify None None);;
    on_io (io_destroy;; mret true);;
    h ← get_hf; put_hf (set_io h false);;
    h ← get_hf; when (close_on_unref h) (emit (EvClose (fd h)));;
    hfp_hf_set_debug None;;
    h ← get_hf; put_hf (set_write_buf (set_read_buf h None) None);;
    h ← get_hf;
    destroy_handlers (match event_handlers h with Some l => l | None => [] end);;
    h ← get_hf; put_hf (set_queue (set_handlers h None) None);;
    h ← get_hf;
    if negb (in_disconnect h) then free_hf else put_hf (set_destroyed h true).

(** *** Callbacks *)

Definition run_op (o : hf_op) : P unit :=
  match o with
  | OpSend r f t => hfp_hf_send_command true r f t;; mret tt
  | OpRegister p u d => hfp_hf_register true p u d;; mret tt
  | OpUnregister p => hfp_hf_unregister p;; mret tt
  | OpUnref => hfp_hf_unref
  end.

Fixpoint run_ops (l : list hf_op) : P unit :=
  match l with
  | [] => mret tt
  | o :: l => run_op o;; run_ops l
  end.

Definition call (e : event) : P unit := emit e;; l ← gets log; run_ops (client l).

(** *** Lines *)

Definition hf_skip_whitespace : hfp_context -> ub hfp_context := skip_whitespace.

(** The result a line reports, and its error; the context is behind the separator. *)
Definition is_response (p : bytes) (c : hfp_context) : option (option (hfp_result * Z)) :=
  if bool_decide (p = Libc.chars "OK") then Some (Some (HFP_RESULT_OK, 0))
  else if bool_decide (p = Libc.chars "ERROR") then Some (Some (HFP_RESULT_ERROR, 0))
  else if bool_decide (p = Libc.chars "NO CARRIER") then Some (Some (HFP_RESULT_NO_CARRIER, 0))
  else if bool_decide (p = Libc.chars "NO ANSWER") then Some (Some (HFP_RESULT_NO_ANSWER, 0))
  else if bool_decide (p = Libc.chars "BUSY") then Some (Some (HFP_RESULT_BUSY, 0))
  else if bool_decide (p = Libc.chars "DELAYED") then Some (Some (HFP_RESULT_DELAYED, 0))
  else if bool_decide (p = Libc.chars "BLACKLISTED") then Some (Some (HFP_RESULT_BLACKLISTED, 0))
  else if bool_decide (p = Libc.chars "+CME ERROR") then
    match hfp_context_get_number c with
    | None => None
    | Some (Some v, _) =>
      Some (Some (HFP_RESULT_CME_ERROR,
                  if v <=? HFP_ERROR_NETWORK_NOT_ALLOWED then v else HFP_ERROR_AG_FAILURE))
    | Some (None, _) => Some (Some (HFP_RESULT_CME_ERROR, HFP_ERROR_AG_FAILURE))
    end
  else Some None.

(** The prefix of a line and the offset behind its separator; [Some None] is an early
    return. *)
Definition parse_line (data : bytes) : option (option (bytes * Z)) :=
  match hf_skip_whitespace (Ctx data 0) with
  | None => None
  | Some c =>
    match strlen data (offset c) with
    | None => None
    | Some n =>
      if n <? 2 then Some None
      else
        match strcspn data (offset c) [59; 58] with
        | None => None
        | Some n =>
          let pref_len := u8 n in
          if (17 <? pref_len) || (pref_len <? 2) then Some None
          else
            match ld data (offset c) pref_len with
            | None => None
            | Some p => Some (Some (map toupper p, u32 (offset c + (pref_len + 1))))
            end
        end
    end
  end.

(** [data] is the memory from the start of the line on. *)
Definition hf_call_prefix_handler (data : bytes) : P unit :=
  r ← of_ub (parse_line data);
  match r with
  | None => mret tt
  | Some (p, off) =>
    resp ← of_ub (is_response p (Ctx data off));
    h ← get_hf;
    match resp with
    | Some (result, cme_err) =>
      match cmd_queue h with
      | None | Some [] => mret tt
      | Some (c :: _) =>
        call (EvResponse result cme_err (resp_data c));;
        h ← get_hf;
        put_hf (set_queue h (match cmd_queue h with
                             | Some q => Some (remove_cmd q (cmd c))
                             | None => None
                             end));;
        hf_wakeup_writer
      end
    | None =>
      match find_handler (event_handlers h) p with
      | None => mret tt
      | Some e => call (EvEvent (user_data e) (Ctx data off))
      end
    end
  end.

(** [find_cr_lf] on [len] bytes at [str]: the offset of the pointer it returns in the
    block.  [ptr] and [offset] are the code's variables. *)
Fixpoint find_cr_lf_loop (n : nat) (b : bytes) (str len : Z) (ptr : option Z) (offset : Z)
    : option (option Z) :=
  match n with
  | O => None
  | S n =>
    match ptr with
    | None => Some None
    | Some ptr =>
      let count := ptr - str in
      match (if count <? usize (len - 1)
             then match get_u8 b (ptr + 1) with Some x => Some (x =? LF) | None => None end
             else Some false) with
      | None => None
      | Some true => Some (Some ptr)
      | Some false =>
        let offset := usize (offset + (count + 1)) in
        if len <=? offset then Some None
        else
          match memchr b (str + offset) CR (len - offset) with
          | None => None
          | Some ptr => find_cr_lf_loop n b str len ptr offset
          end
      end
    end
  end.

(** Every turn moves [offset], which stays below [len]. *)
Definition find_cr_lf (b : bytes) (str len : Z) : option (option Z) :=
  match memchr b str CR len with
  | None => None
  | Some ptr => find_cr_lf_loop (S (Z.to_nat len)) b str len ptr 0
  end.

(** The block of the ring buffer, which is freed with it. *)
Definition get_ring : P Ringbuf.ringbuf :=
  h ← get_hf; match read_buf h with Some rb => mret rb | None => undef end.
Definition store (off : Z) (l : bytes) : P unit :=
  rb ← get_ring;
  b ← of_ub (st (Ringbuf.buffer rb) off l);
  h ← get_hf;
  put_hf (set_read_buf h (Some (with_buffer rb b))).

Definition drop_from (b : bytes) (off : Z) : bytes := drop (Z.to_nat off) b.

(** The lines in the first piece, [len] bytes at [str]: the final [offset]. *)
Fixpoint lines_loop (n : nat) (str len offset : Z) : P Z :=
  match n with
  | O => undef
  | S n =>
    rb ← get_ring;
    ptr ← of_ub (find_cr_lf (Ringbuf.buffer rb) (str + offset) (usize (len - offset)));
    match ptr : option Z with
    | None => mret offset
    | Some ptr =>
      let count := ptr - (str + offset) in
      if count =? 0 then lines_loop n str len (usize (offset + 2))
      else
        store ptr [0];;
        rb ← get_ring;
        hf_call_prefix_handler (drop_from (Ringbuf.buffer rb) (str + offset));;
        lines_loop n str len (usize (offset + (count + 2)))
    end
  end.

(** The line that continues at the start of the block: what is added to [offset]. *)
Definition wrapped_line (str len : Z) : P Z :=
  rb ← get_ring;
  match Ringbuf.ringbuf_peek (Some rb) len with
  | None => mret 0
  | Some (str2, len2) =>
    ptr ← of_ub (find_cr_lf (Ringbuf.buffer rb) str2 len2);
    ptr ← of_ub (match ptr with
                 | Some ptr => Some (Some ptr)
                 | None => memchr (Ringbuf.buffer rb) str2 LF len2
                 end);
    match ptr : option Z with
    | None => mret 0
    | Some ptr =>
      let count := ptr - str2 in
      if negb (count =? 0) then
        store ptr [0];;
        rb ← get_ring;
        if negb (malloc (usize (len + count))) then mret 0
        else
          d1 ← of_ub (ld (Ringbuf.buffer rb) str len);
          d2 ← of_ub (ld (Ringbuf.buffer rb) str2 count);
          hf_call_prefix_handler (d1 ++ d2);;
          mret count
      else
        store (str + usize (len - 1)) [0];;
        rb ← get_ring;
        hf_call_prefix_handler (drop_from (Ringbuf.buffer rb) str);;
        mret count
    end
  end.

Definition hf_process_input : P unit :=
  h ← get_hf;
  match Ringbuf.ringbuf_peek (read_buf h) 0 with
  | None => mret tt
  | Some (str, len) =>
    offset ← lines_loop (S (Z.to_nat len)) str len 0;
    h ← get_hf;
    offset ← (if len =? Ringbuf.ringbuf_len (read_buf h) then mret offset
              else count ← wrapped_line str len; mret (usize (offset + count)));
    h ← get_hf;
    put_hf (set_read_buf h (Ringbuf.ringbuf_drain (read_buf h) offset).2)
  end.

Definition hf_can_read_data (readv : Z -> list Z -> option bytes) : P bool :=
  h ← get_hf;
  '(bytes_read, rb, tr) ← of_ub (Ringbuf.ringbuf_read readv (read_buf h) (fd h));
  put_hf (set_read_buf h rb);;
  emit_all (EvTrace <$> tr);;
  if bytes_read <? 0 then mret false
  else hf_process_input;; mret true.

Definition hf_io_disconnected : P bool :=
  h ← get_hf;
  put_hf (set_in_disconnect h true);;
  match disconnect_callback h with
  | Some c => call (EvDisconnect (cb_data c))
  | None => mret tt
  end;;
  h ← get_hf;
  put_hf (set_in_disconnect h false);;
  mret false.

Definition hf_event (readv : Z -> list Z -> option bytes) (writev : Z -> list bytes -> Z) (ev : Z)
    : P unit :=
  io_callback
    (fun c => match c with
              | CanReadData => hf_can_read_data readv
              | CanWriteData => hf_can_write_data writev
              | IoDisconnected => hf_io_disconnected
              end) ev.

(** *** Creation *)

(** [None] is a NULL result; the queue of commands that is then left is not represented. *)
Definition hfp_hf_new (new_buf : Z -> option bytes) (mainloop_add : Z -> Z -> bool) (fd : Z)
    : P bool :=
  if fd <? 0 then mret false
  else
    rb ← of_ub (Ringbuf.ringbuf_new new_buf 4096);
    match rb with
    | None => mret false
    | Some rb =>
      wb ← of_ub (Ringbuf.ringbuf_new new_buf 4096);
      match wb with
      | None => mret false
      | Some wb =>
        match io_new mainloop_add fd with
        | None => mret false
        | Some i =>
          modify (fun w => with_io w (Some i));;
          put_hf (Hf 0 fd false true (Some rb) (Some wb) false (Some []) (Some []) None None
                     false false);;
          set ← io_set_read_handler mainloop_modify (Some CanReadData) (Some ReadWatchDestroy);
          if negb set then io_destroy;; free_hf;; mret false
          else hfp_hf_ref;; mret true
        end
      end
    end.
End unit.
