(* ===== verification/HfpHfParse.v ===== *)
(** The result lines of the hands-free unit (HfpHf.v) against a parser of strings, and the
    search for the ends of lines. *)
From Stdlib Require Import ZArith Lia String.
From S2P Require Import Prelude Blocks Libc Ringbuf StateM Io HfpContext HfpContextSpec HfpArgs Hfp HfpGwParse HfpGw HfpHf.
From stdpp Require Import base numbers list option.

Local Open Scope Z_scope.

(** ** Lines *)

Definition in_prefix (c : Z) : bool := negb (existsb (Z.eqb c) [59; 58]).

(** The prefix, and the text behind the separator; [None] in its place when the line ends
    before one. *)
Definition p_line (s : bytes) : option (bytes * option bytes) :=
  let s := drop_sp s in
  if zlen s <? 2 then None
  else
    let k := u8 (zlen (take_while in_prefix s)) in
    if (17 <? k) || (k <? 2) then None
    else Some (map toupper (take (Z.to_nat k) s),
               match drop (Z.to_nat k) s with [] => None | _ :: r => Some r end).

Lemma parse_line_spec D s :
  ctx_at D s (Ctx D 0) ->
  match p_line s with
  | None => parse_line D = Some None
  | Some (p, r) =>
    exists off, parse_line D = Some (Some (p, off)) /\
      match r with
      | Some r => ctx_at D r (Ctx D off)
      | None => off = zlen s + 1
      end
  end.
Proof.
  intros Hc. unfold parse_line, p_line, hf_skip_whitespace.
  destruct (skip_whitespace_offset D s _ Hc) as [-> Hc1].
  set (c := Ctx D (offset (Ctx D 0) + zlen (take_while (fun x => x =? SP) s))) in *.
  assert (offset c + zlen (drop_sp s) = zlen s) as Hend.
  { unfold c, drop_sp. cbn [offset]. rewrite Z.add_0_l, <- zlen_app. by rewrite take_drop_while. }
  rewrite (strlen_spec D _ c Hc1). set (s1 := drop_sp s) in *.
  destruct (Z.ltb_spec (zlen s1) 2) as [H2|H2]; [done|].
  rewrite (strcspn_spec D _ s1 c Hc1). fold in_prefix.
  set (t := take_while in_prefix s1). set (k := u8 (zlen t)).
  assert (k <= zlen s1) as Hk.
  { pose proof (take_drop_while in_prefix s1) as Ht. fold t in Ht.
    rewrite <- Ht, zlen_app. pose proof (zlen_nonneg (drop_while in_prefix s1)).
    pose proof (zlen_nonneg t). unfold k. words_lia. }
  pose proof (u8_range (zlen t)) as Hu. fold k in Hu. unfold is_u8 in Hu.
  destruct ((17 <? k) || (k <? 2)); [done|].
  pose proof Hc1 as Hc2. rewrite <- (take_drop (Z.to_nat k) s1) in Hc2.
  pose proof (ctx_ld D _ _ c Hc2) as Hld. rewrite zlen_take in Hld by lia. rewrite Hld.
  pose proof (ctx_small D _ c Hc1) as [Hsm1 Hsm2].
  eexists. split; [done|]. apply ctx_skip in Hc2. rewrite zlen_take in Hc2 by lia.
  destruct (drop (Z.to_nat k) s1) as [|x r] eqn:Hd.
  - assert (k = zlen s1) as ->.
    { assert (length (drop (Z.to_nat k) s1) = 0%nat) as Hl by (by rewrite Hd).
      rewrite length_drop in Hl. unfold zlen in *. lia. }
    rewrite u32_small by (unfold is_u32; lia). lia.
  - rewrite Z.add_assoc. apply (ctx_tail D x r (Ctx D (offset c + k))). done.
Qed.

(** ** The ends of lines *)

Lemma memchr_mid pre l post c off n :
  off = zlen pre -> n = zlen l ->
  memchr (pre ++ l ++ post) off c n
  = Some (match index_of c l with Some i => Some (zlen pre + i) | None => None end).
Proof. intros -> ->. unfold memchr. by rewrite ld_mid. Qed.

(** A line with its end. *)
Lemma find_cr_lf_line pre l q post str len :
  CR ∉ l -> str = zlen pre -> len = zlen (l ++ CR :: LF :: q) -> len < 2 ^ 63 ->
  find_cr_lf (pre ++ (l ++ CR :: LF :: q) ++ post) str len = Some (Some (zlen pre + zlen l)).
Proof.
  intros Hl -> -> Hsz. unfold find_cr_lf. rewrite memchr_mid by done.
  rewrite index_of_app by done. cbn [find_cr_lf_loop].
  rewrite zlen_app, !zlen_cons in Hsz |- *. pose proof (zlen_nonneg l). pose proof (zlen_nonneg q).
  replace (zlen pre + zlen l - zlen pre) with (zlen l) by lia.
  rewrite u64_small by (unfold is_u64; lia). rewrite (proj2 (Z.ltb_lt _ _)) by lia.
  assert (pre ++ (l ++ CR :: LF :: q) ++ post = (pre ++ l ++ [CR]) ++ [LF] ++ q ++ post) as ->
    by (by rewrite <- !app_assoc).
  rewrite get_u8_mid by (rewrite !zlen_app; change (zlen [CR]) with 1; lia). done.
Qed.

(** No line end: no CR, or one at the very end. *)
Definition no_line (q : bytes) : Prop := CR ∉ q \/ exists r, q = r ++ [CR] /\ CR ∉ r.

Lemma find_cr_lf_none pre q post str len :
  no_line q -> str = zlen pre -> len = zlen q -> len < 2 ^ 63 ->
  find_cr_lf (pre ++ q ++ post) str len = Some None.
Proof.
  intros Hq -> -> Hsz. unfold find_cr_lf. rewrite memchr_mid by done.
  destruct Hq as [Hq | (r & -> & Hr)].
  - rewrite index_of_none by done. done.
  - rewrite index_of_app by done. cbn [find_cr_lf_loop].
    rewrite zlen_app in Hsz |- *. change (zlen [CR]) with 1 in *. pose proof (zlen_nonneg r).
    replace (zlen pre + zlen r - zlen pre) with (zlen r) by lia.
    rewrite !u64_small by (unfold is_u64; lia).
    rewrite (proj2 (Z.ltb_ge (zlen r) _)) by lia. rewrite Z.add_0_l.
    by rewrite (proj2 (Z.leb_le _ _)) by lia.
Qed.

(** The complete lines and the rest; [None] when a CR is not followed by LF. *)
Fixpoint crlf_lines (q : bytes) : option (list bytes * bytes) :=
  match q with
  | [] => Some ([], [])
  | x :: q1 =>
    if x =? CR then
      match q1 with
      | [] => Some ([], [CR])
      | y :: q2 =>
        if y =? LF then
          match crlf_lines q2 with Some (ls, rest) => Some ([] :: ls, rest) | None => None end
        else None
      end
    else
      match crlf_lines q1 with
      | Some ([], rest) => Some ([], x :: rest)
      | Some (l :: ls, rest) => Some ((x :: l) :: ls, rest)
      | None => None
      end
  end.

Definition join_crlf (ls : list bytes) : bytes := concat (map (fun l => l ++ [CR; LF]) ls).

Lemma crlf_lines_ind_aux q : forall n, (length q <= n)%nat -> forall ls rest,
  crlf_lines q = Some (ls, rest) ->
  q = join_crlf ls ++ rest /\ Forall (fun l => CR ∉ l) ls /\ no_line rest.
Proof.
  intros n. revert q. induction n as [|n IH]; intros q Hn ls rest Hq.
  { destruct q; [|cbn in Hn; lia]. cbn in Hq. simplify_eq. split_and!; [done|constructor|left; set_solver]. }
  destruct q as [|x q1]; cbn [crlf_lines] in Hq.
  { simplify_eq. split_and!; [done|constructor|left; set_solver]. }
  destruct (Z.eqb_spec x CR) as [->|Hx].
  - destruct q1 as [|y q2].
    { simplify_eq. split_and!; [done|constructor|right; exists []; split; [done|set_solver]]. }
    destruct (Z.eqb_spec y LF) as [->|]; [|done].
    destruct (crlf_lines q2) as [[ls2 rest2]|] eqn:Hq2; [|done]. simplify_eq.
    destruct (IH q2 ltac:(cbn in Hn; lia) _ _ Hq2) as (-> & Hls & Hr).
    split_and!; [done|constructor; [set_solver|done]|done].
  - destruct (crlf_lines q1) as [[[|l ls2] rest2]|] eqn:Hq1; [..|done]; simplify_eq;
      destruct (IH q1 ltac:(cbn in Hn; lia) _ _ Hq1) as (-> & Hls & Hr).
    + split_and!; [done|constructor|]. destruct Hr as [Hr | (r & -> & Hr)]; [left; set_solver|].
      right. exists (x :: r). split; [done|set_solver].
    + apply Forall_cons_1 in Hls as [Hl Hls].
      split_and!; [done|constructor; [set_solver|done]|done].
Qed.

Lemma crlf_lines_spec q ls rest :
  crlf_lines q = Some (ls, rest) ->
  q = join_crlf ls ++ rest /\ Forall (fun l => CR ∉ l) ls /\ no_line rest.
Proof. by apply (crlf_lines_ind_aux q (length q)). Qed.

Lemma crlf_lines_line l q :
  CR ∉ l -> crlf_lines (l ++ CR :: LF :: q)
  = match crlf_lines q with Some (ls, rest) => Some (l :: ls, rest) | None => None end.
Proof.
  induction l as [|x l IH]; intros Hl; [done|]. apply not_elem_of_cons in Hl as [Hx Hl].
  cbn [crlf_lines app]. rewrite (proj2 (Z.eqb_neq x CR)) by done. rewrite IH by done.
  by destruct (crlf_lines q) as [[ls rest]|].
Qed.

Lemma crlf_lines_join ls : Forall (fun l => CR ∉ l) ls -> crlf_lines (join_crlf ls) = Some (ls, []).
Proof.
  induction 1 as [|l ls Hl Hls IH]; [done|]. unfold join_crlf in *. cbn [map concat].
  rewrite <- app_assoc. cbn [app]. rewrite crlf_lines_line by done. by rewrite IH.
Qed.

(** A number is not read at the end of a line. *)
Lemma get_number_lf D off :
  get_u8 D off = Some LF -> hfp_context_get_number (Ctx D off) = Some (None, Ctx D off).
Proof.
  intros Hlf. unfold hfp_context_get_number, skip_whitespace, scan.
  cbn [data offset scan_while]. rewrite Hlf. cbn [mbind option_bind].
  change (LF =? SP) with false. cbn [set_offset data offset mbind option_bind number_loop].
  rewrite Hlf. cbn [mbind option_bind]. change (is_digit LF) with false. cbn.
  by rewrite Z.eqb_refl.
Qed.
