(* ===== verification/HfpHfSpec.v ===== *)
(** What the hands-free unit of HfpHf.v promises: an abstract machine over the lines that were
    received, the commands whose result is awaited and the text that was sent, and the proof
    that the unit implements it while the data it has buffered does not wrap around the end of
    the ring buffer. *)
From Stdlib Require Import ZArith Lia String.
From S2P Require Import Prelude Blocks Libc Ringbuf StateM Io HfpContext HfpContextSpec HfpArgs Hfp HfpGwParse HfpGw HfpHf HfpHfParse.
From stdpp Require Import base numbers list option.

Local Open Scope Z_scope.

(** ** The abstract machine *)

(** The result a prefix stands for, with the text behind the separator; [None] when reading
    the number of an error overflows. *)
Definition p_response (p : bytes) (r : option bytes) : option (option (hfp_result * Z)) :=
  if bool_decide (p = Libc.chars "OK") then Some (Some (HFP_RESULT_OK, 0))
  else if bool_decide (p = Libc.chars "ERROR") then Some (Some (HFP_RESULT_ERROR, 0))
  else if bool_decide (p = Libc.chars "NO CARRIER") then Some (Some (HFP_RESULT_NO_CARRIER, 0))
  else if bool_decide (p = Libc.chars "NO ANSWER") then Some (Some (HFP_RESULT_NO_ANSWER, 0))
  else if bool_decide (p = Libc.chars "BUSY") then Some (Some (HFP_RESULT_BUSY, 0))
  else if bool_decide (p = Libc.chars "DELAYED") then Some (Some (HFP_RESULT_DELAYED, 0))
  else if bool_decide (p = Libc.chars "BLACKLISTED") then Some (Some (HFP_RESULT_BLACKLISTED, 0))
  else if bool_decide (p = Libc.chars "+CME ERROR") then
    match r with
    | None => Some (Some (HFP_RESULT_CME_ERROR, HFP_ERROR_AG_FAILURE))
    | Some r =>
      match p_number r with
      | None => None
      | Some (Some v, _) =>
        Some (Some (HFP_RESULT_CME_ERROR,
                    if v <=? HFP_ERROR_NETWORK_NOT_ALLOWED then v else HFP_ERROR_AG_FAILURE))
      | Some (None, _) => Some (Some (HFP_RESULT_CME_ERROR, HFP_ERROR_AG_FAILURE))
      end
    end
  else Some None.

(** What a callback of the client is told; an event without a separator has no text. *)
Inductive delivery :=
  | DResponse (result : hfp_result) (cme_err : Z) (resp_data : Z)
  | DEvent (user_data : Z) (args : option bytes).

Inductive fate := Ignored | Final (result : hfp_result) (cme_err : Z) | Event (d : delivery).

Definition classify (hs : list event_handler) (s : bytes) : option fate :=
  match p_line s with
  | None => Some Ignored
  | Some (p, r) =>
    match p_response p r with
    | None => None
    | Some (Some (result, e)) => Some (Final result e)
    | Some None =>
      match find_handler (Some hs) p with
      | None => Some Ignored
      | Some h => Some (Event (DEvent (user_data h) r))
      end
    end
  end.

Record ahf := Ahf {
  h_used : Z;
  h_in : bytes;
  h_out : bytes;
  h_queue : list cmd_response;
  h_next : Z;
  h_served : list delivery;
}.

Inductive action :=
  | Recv (d : bytes)
  | Writable
  | Send (resp_data : Z) (format text : bytes).

Section machine.
(** The commands the client sends when it is told something: callbacks, formats, texts. *)
Variables (malloc : Z -> bool) (hs : list event_handler)
  (react : delivery -> list (Z * bytes * bytes)).

Definition h_print (text : bytes) (a : ahf) : bool * ahf :=
  if print_ok malloc text (h_out a)
  then (true, Ahf (h_used a) (h_in a) (h_out a ++ text) (h_queue a) (h_next a) (h_served a))
  else (false, a).

(** A number is used up for a command that is not sent. *)
Definition h_send (a : ahf) (x : Z * bytes * bytes) : ahf :=
  let '(u, format, text) := x in
  if malloc (zlen format + 2) then
    let '(sent, a1) := h_print (text ++ [CR]) a in
    Ahf (h_used a1) (h_in a1) (h_out a1)
      (if sent : bool then h_queue a1 ++ [Cmd (h_next a1) u] else h_queue a1)
      (h_next a1 + 1) (h_served a1)
  else a.

Definition h_tell (d : delivery) (a : ahf) : ahf :=
  foldl h_send
    (Ahf (h_used a) (h_in a) (h_out a) (h_queue a) (h_next a) (h_served a ++ [d])) (react d).

Definition h_pop (a : ahf) : ahf :=
  Ahf (h_used a) (h_in a) (h_out a) (tail (h_queue a)) (h_next a) (h_served a).

Definition h_line (a : ahf) (l : bytes) : ahf :=
  match classify hs l with
  | Some (Final result e) =>
    match h_queue a with
    | [] => a
    | c :: _ => h_pop (h_tell (DResponse result e (resp_data c)) a)
    end
  | Some (Event d) => h_tell d a
  | _ => a
  end.

Definition h_process (a : ahf) : ahf :=
  match crlf_lines (h_in a) with
  | None => a
  | Some (ls, rest) =>
    let a' := foldl h_line a ls in
    Ahf (end_of (h_used a) rest) rest (h_out a') (h_queue a') (h_next a') (h_served a')
  end.

Definition h_step (a : ahf) (x : action) : ahf :=
  match x with
  | Recv d =>
    h_process (Ahf (h_used a + zlen d) (h_in a ++ d) (h_out a) (h_queue a) (h_next a) (h_served a))
  | Writable => Ahf (h_used a) (h_in a) [] (h_queue a) (h_next a) (h_served a)
  | Send u f t => h_send a (u, f, t)
  end.

(** The data that arrives does not wrap, has no CR without LF, and its lines are strings
    whose error numbers do not overflow. *)
Definition fits (a : ahf) (x : action) : Prop :=
  match x with
  | Recv d =>
    0 < zlen d /\ h_used a + zlen d <= 4096 /\
    exists ls rest, crlf_lines (h_in a ++ d) = Some (ls, rest) /\
      Forall (fun l => no_null l /\ is_Some (classify hs l)) ls
  | Writable => True
  | Send _ _ t => zlen t < 2 ^ 30
  end.

Fixpoint fit (a : ahf) (l : list action) : Prop :=
  match l with [] => True | x :: l => fits a x /\ fit (h_step a x) l end.
End machine.

(** ** The unit does the same *)

Definition told (e : event) (d : delivery) : Prop :=
  match e, d with
  | EvResponse r e u, DResponse r' e' u' => r = r' /\ e = e' /\ u = u'
  | EvEvent u c, DEvent u' args =>
    u = u' /\ match args with Some s => exists D, ctx_at D s c | None => True end
  | _, _ => False
  end.
Definition is_told (e : event) : bool :=
  match e with EvResponse _ _ _ | EvEvent _ _ => true | _ => false end.
Definition told_log (l : list event) (ds : list delivery) : Prop :=
  Forall2 told (List.filter is_told l) ds.

Definition io_ready (i : io io_fn io_destroy_fn) : Prop :=
  Io.destroy (write_watch i) = None \/ Io.destroy (write_watch i) = Some WriteWatchDestroy.

Definition ready (hs : list event_handler) (w : world) (a : ahf) : Prop :=
  exists h i rb wb,
    hf w = Some h /\ hf_io w = Some i /\ io_ready i /\ has_io h = true /\ 0 <= fd h /\
    read_buf h = Some rb /\ lin rb (h_used a) (h_in a) /\
    write_buf h = Some wb /\ Ringbuf.inv wb /\ Ringbuf.size wb = 4096 /\
    Ringbuf.contents wb = h_out a /\
    event_handlers h = Some hs /\ cmd_queue h = Some (h_queue a) /\ next_cmd w = h_next a /\
    told_log (log w) (h_served a).

Section refinement.
Context (malloc : Z -> bool) (mainloop_modify : Z -> Z -> bool)
  (client : list event -> list hf_op) (hs : list event_handler)
  (react : delivery -> list (Z * bytes * bytes)).

(** The client answers what it is told with the commands [react] and nothing else. *)
Hypothesis client_reacts : forall l e d, told e d ->
  client (l ++ [e]) = map (fun x => OpSend x.1.1 x.1.2 x.2) (react d).
Hypothesis texts_small : forall d, Forall (fun x => zlen x.2 < 2 ^ 30) (react d).

Abbreviation ready := (ready hs).
Abbreviation wakeup := (hf_wakeup_writer mainloop_modify).

Definition run_action (x : action) : P unit :=
  match x with
  | Recv d => hf_can_read_data malloc mainloop_modify client (fun _ _ => Some d);; mret tt
  | Writable => hf_can_write_data (fun _ iov => zlen (concat iov));; mret tt
  | Send u f t => hfp_hf_send_command malloc mainloop_modify true u f t;; mret tt
  end.

Fixpoint run_actions (l : list action) : P unit :=
  match l with
  | [] => mret tt
  | x :: l => run_action x;; run_actions l
  end.

Lemma hf_told_log_traces l tr ds : told_log l ds -> told_log (l ++ (EvTrace <$> tr)) ds.
Proof using Type.
  intros H. unfold told_log in *. rewrite List.filter_app.
  assert (List.filter is_told (EvTrace <$> tr) = []) as -> by (induction tr; done).
  by rewrite app_nil_r.
Qed.

Lemma hf_told_log_told l e d ds : told e d -> told_log l ds -> told_log (l ++ [e]) (ds ++ [d]).
Proof using Type.
  intros He H. unfold told_log in *. rewrite List.filter_app.
  assert (is_told e = true) as Ht by (destruct e; done). cbn. rewrite Ht.
  apply Forall2_app; [done|]. by constructor.
Qed.

(** *** Writing *)

Lemma hf_wp_print text a w :
  zlen text < 2 ^ 31 -> ready w a ->
  wp (printf malloc text)
    (fun len w' => ready w' (h_print malloc text a).2 /\
                   (len <? 0) = negb (h_print malloc text a).1) w.
Proof using Type.
  intros Ht (h & i & rb & wb & Hh & Hi & Hio & Hhas & Hfd & Hrb & Hlin & Hwb & Hinv & Hsz & Hout
             & Hhs & Hq & Hnext & Htold).
  unfold printf. apply wp_bind, (wp_get_some _ h); [done|].
  rewrite Hwb. destruct (ring_printf malloc text wb Ht Hinv Hsz)
    as (n & wb' & tr & Hs & Hinv' & Hsz' & Hout' & Hn).
  apply wp_bind. unfold of_ub. rewrite Hs. eexists _, _. split; [done|].
  apply wp_bind, wp_modify, wp_bind, wp_modify, wp_ret. rewrite Hn, Hout in *. unfold h_print.
  destruct (print_ok malloc text (h_out a)); (split; [|done]); eexists _, i, rb, wb'; cbn;
    rewrite ?app_nil_r in *; split_and!; try done; by apply hf_told_log_traces.
Qed.

Lemma hf_ready_io w a h i :
  ready w a -> hf w = Some h -> io_ready i ->
  ready (World (Some h) (Some i) (log w) (next_cmd w)) a.
Proof using Type.
  intros (h' & i' & rb & wb & Hh & _ & _ & Hrest) Hh' Hi. rewrite Hh in Hh'. injection Hh' as ->.
  by exists h, i, rb, wb.
Qed.

Lemma hf_ready_writer w a h b :
  ready w a -> hf w = Some h ->
  ready (World (Some (set_writer h b)) (hf_io w) (log w) (next_cmd w)) a.
Proof using Type.
  intros (h' & i & rb & wb & Hh & Hrest) Hh'. rewrite Hh in Hh'. injection Hh' as ->.
  by exists (set_writer h b), i, rb, wb.
Qed.

Lemma hf_wp_destroy_write_watch w a i :
  ready w a -> io_ready i ->
  wp (destroy_watch (write_watch i)) (fun _ w' => ready w' a /\ hf_io w' = hf_io w) w.
Proof using Type.
  intros Hw Hi. unfold destroy_watch. destruct Hi as [-> | ->]; [by apply wp_ret|].
  pose proof Hw as (h & _ & _ & _ & Hh & _).
  cbn [run_destroy HfIo]. unfold hf_write_watch_destroy.
  apply wp_bind, (wp_get_some _ h); [done|]. apply wp_modify. split; [|done].
  by apply hf_ready_writer.
Qed.

Lemma hf_wp_wakeup a w : ready w a -> wp wakeup (fun _ w' => ready w' a) w.
Proof using Type.
  intros Hw. pose proof Hw as (h & i & rb & wb & Hh & Hi & Hio & Hhas & _).
  unfold hf_wakeup_writer. apply wp_bind, (wp_get_some _ h); [done|].
  destruct (writer_active h); [by apply wp_ret|].
  destruct (_ =? 0); [by apply wp_ret|].
  unfold on_io. do 2 apply wp_bind. apply (wp_get_some _ h); [done|]. rewrite Hhas.
  unfold io_set_write_handler, io_set_handler.
  apply wp_bind, (wp_get_some _ i); [done|].
  destruct (Io.fd i <? 0); [by do 2 apply wp_ret|].
  apply wp_bind. eapply wp_mono; [|by apply hf_wp_destroy_write_watch].
  intros ? w1 (Hw1 & Hi1). pose proof Hw1 as (h1 & _ & _ & _ & Hh1 & _).
  rewrite Hi in Hi1. apply wp_bind, (wp_get_some _ i); [done|]. apply wp_bind, wp_modify.
  apply wp_bind. eapply wp_get_some; [reflexivity|].
  set (i2 := set_write_watch i (Watch (Some CanWriteData) (Some WriteWatchDestroy))).
  assert (ready (with_io w1 (Some i2)) a) as Hw2.
  { change (ready (World (hf w1) (Some i2) (log w1) (next_cmd w1)) a). rewrite Hh1.
    apply hf_ready_io; [done..|by right]. }
  assert (forall b w', ready w' a ->
    wp (if negb b then mret tt else h ← get_hf; put_hf (set_writer h true))
       (fun _ w' => ready w' a) w') as Hend.
  { intros b w' Hw'. destruct b; cbn [negb]; [|by apply wp_ret].
    pose proof Hw' as (h' & _ & _ & _ & Hh' & _).
    apply wp_bind, (wp_get_some _ h'); [done|]. apply wp_modify. by apply hf_ready_writer. }
  destruct (_ =? _); [by apply wp_ret, Hend|].
  destruct (negb (mainloop_modify _ _)); [by apply wp_ret, Hend|].
  apply wp_bind, wp_modify, wp_ret, Hend.
  change (ready (World (hf w1) (Some (set_events i2 (Z.lor (events i) EPOLLOUT))) (log w1)
                   (next_cmd w1)) a).
  rewrite Hh1. apply hf_ready_io; [done..|by right].
Qed.

Lemma hf_wp_writable w a :
  ready w a ->
  wp (hf_can_write_data (fun _ iov => zlen (concat iov)))
    (fun _ w' => ready w' (h_step malloc hs react a Writable)) w.
Proof using Type.
  intros (h & i & rb & wb & Hh & Hi & Hio & Hhas & Hfd & Hrb & Hlin & Hwb & Hinv & Hsz & Hout
          & Hrest).
  destruct (ring_write_all wb (fd h) Hinv Hfd) as (n & wb' & Hwr & Hinv' & Hsz' & Hnil).
  unfold hf_can_write_data. apply wp_bind, (wp_get_some _ h); [done|]. rewrite Hwb.
  apply wp_bind. unfold of_ub. rewrite Hwr. eexists _, _. split; [done|].
  apply wp_bind, wp_modify. cbn [h_step].
  assert (ready (World (Some (set_write_buf h (Some wb'))) (hf_io w) (log w) (next_cmd w))
            (Ahf (h_used a) (h_in a) [] (h_queue a) (h_next a) (h_served a))) as Hready.
  { exists (set_write_buf h (Some wb')), i, rb, wb'. cbn. rewrite Hsz' in *.
    split_and!; try done; apply Hrest. }
  destruct (n <? 0); by apply wp_ret.
Qed.

(** *** Sending a command *)

Lemma wp_send u f t a w :
  zlen t < 2 ^ 30 -> ready w a ->
  wp (hfp_hf_send_command malloc mainloop_modify true u f t)
    (fun _ w' => ready w' (h_send malloc a (u, f, t))) w.
Proof using Type.
  intros Ht Hw. unfold hfp_hf_send_command, h_send. cbn [negb].
  destruct (malloc (zlen f + 2)); cbn [negb]; [|by apply wp_ret].
  apply wp_bind. eexists _, _. split; [reflexivity|]. cbn beta.
  set (a0 := Ahf (h_used a) (h_in a) (h_out a) (h_queue a) (h_next a + 1) (h_served a)).
  match goal with |- wp _ _ ?w0 => assert (ready w0 a0) as Hw0 end.
  { destruct Hw as (h & i & rb & wb & Hh & Hi & Hio & Hhas & Hfd & Hrb & Hlin & Hwb & Hinv & Hsz
             & Hout & Hhs & Hq & Hnext & Htold).
    exists h, i, rb, wb. cbn. split_and!; try done. lia. }
  assert (next_cmd w = h_next a) as Hn by (by destruct Hw as (h & i & rb & wb & Hw); apply Hw).
  rewrite Hn in Hw0 |- *.
  apply wp_bind. eapply wp_mono; [|apply (hf_wp_print (t ++ [CR]) a0 _); [|exact Hw0]].
  2:{ rewrite zlen_app. change (zlen [CR]) with 1. lia. }
  intros len w1 [Hw1 ->]. unfold h_print in *. cbn [h_out a0] in *.
  destruct (print_ok malloc (t ++ [CR]) (h_out a)); cbn [negb fst snd] in *;
    [|apply wp_ret; by destruct a].
  destruct Hw1 as (h & i & rb & wb & Hh & Hi & Hio & Hhas & Hfd & Hrb & Hlin & Hwb & Hinv & Hsz
             & Hout & Hhs & Hq & Hnext & Htold).
  apply wp_bind, (wp_get_some _ h); [done|]. rewrite Hq.
  apply wp_bind, wp_modify, wp_bind.
  eapply wp_mono; [|apply hf_wp_wakeup]. { intros ? w2 Hw2. apply wp_ret, Hw2. }
  exists (set_queue h (Some (h_queue a ++ [Cmd (h_next a) u]))), i, rb, wb. cbn. by split_and!.
Qed.

Lemma wp_run_sends l : forall a w,
  Forall (fun x : Z * bytes * bytes => zlen x.2 < 2 ^ 30) l -> ready w a ->
  wp (run_ops malloc mainloop_modify (map (fun x => OpSend x.1.1 x.1.2 x.2) l))
    (fun _ w' => ready w' (foldl (h_send malloc) a l)) w.
Proof using Type.
  induction l as [|[[u f] t] l IH]; intros a w Hl Hw; cbn [map run_ops foldl]; [by apply wp_ret|].
  apply Forall_cons_1 in Hl as [Ht Hl]. cbn [run_op fst snd].
  do 2 apply wp_bind. eapply wp_mono; [|by apply wp_send].
  intros b w1 Hw1. by apply wp_ret, IH.
Qed.

Lemma hf_wp_call e d w a :
  told e d -> ready w a ->
  wp (call malloc mainloop_modify client e) (fun _ w' => ready w' (h_tell malloc react d a)) w.
Proof using All.
  intros Hd (h & i & rb & wb & Hh & Hi & Hio & Hhas & Hfd & Hrb & Hlin & Hwb & Hinv & Hsz & Hout
             & Hhs & Hq & Hnext & Htold).
  unfold call. apply wp_bind, wp_modify, wp_bind, wp_gets. cbn [log].
  rewrite (client_reacts _ e d Hd). apply wp_run_sends; [done|].
  exists h, i, rb, wb. cbn. split_and!; try done. by apply hf_told_log_told.
Qed.

(** *** A line *)

Definition set_in (q : bytes) (a : ahf) : ahf :=
  Ahf (h_used a) q (h_out a) (h_queue a) (h_next a) (h_served a).

Lemma h_send_frame q a x : h_send malloc (set_in q a) x = set_in q (h_send malloc a x).
Proof using Type.
  destruct x as [[u f] t]. unfold h_send. destruct (malloc _); [|done].
  unfold h_print. cbn [h_out set_in]. by destruct (print_ok _ _ _).
Qed.

Lemma h_sends_frame q l : forall a,
  foldl (h_send malloc) (set_in q a) l = set_in q (foldl (h_send malloc) a l).
Proof using Type.
  induction l as [|x l IH]; intros a; [done|]. cbn [foldl]. by rewrite h_send_frame, IH.
Qed.

Lemma h_tell_frame q d a : h_tell malloc react d (set_in q a) = set_in q (h_tell malloc react d a).
Proof using Type. unfold h_tell. rewrite <- h_sends_frame. done. Qed.

Lemma h_line_frame q a l :
  h_line malloc hs react (set_in q a) l = set_in q (h_line malloc hs react a l).
Proof using Type.
  unfold h_line. destruct (classify hs l) as [[| r e | d]|]; [done| |apply h_tell_frame|done].
  cbn [h_queue set_in]. destruct (h_queue a); [done|]. by rewrite h_tell_frame.
Qed.

Lemma h_sends_kept l : forall a,
  h_used (foldl (h_send malloc) a l) = h_used a /\ h_in (foldl (h_send malloc) a l) = h_in a /\
  exists new, h_queue (foldl (h_send malloc) a l) = h_queue a ++ new.
Proof using Type.
  induction l as [|[[u f] t] l IH]; intros a; cbn [foldl].
  { split_and!; [done..|]. exists []. by rewrite app_nil_r. }
  destruct (IH (h_send malloc a (u, f, t))) as (-> & -> & new & ->).
  unfold h_send. destruct (malloc _); [|by split_and!; [..|eexists]].
  unfold h_print. destruct (print_ok _ _ _); (split_and!; [done..|]); cbn; [|by eexists].
  eexists. by rewrite <- app_assoc.
Qed.

Lemma h_line_used a l : h_used (h_line malloc hs react a l) = h_used a.
Proof using Type.
  unfold h_line. destruct (classify hs l) as [[| r e | d]|]; [done| | |done].
  - destruct (h_queue a); [done|]. unfold h_pop, h_tell. cbn [h_used].
    by edestruct h_sends_kept as [-> _].
  - unfold h_tell. by edestruct h_sends_kept as [-> _].
Qed.

Lemma is_response_spec D (s p : bytes) r off x :
  (match r with
   | Some r => ctx_at D r (Ctx D off)
   | None => off = zlen s + 1 /\ get_u8 D (zlen s + 1) = Some LF
   end) ->
  p_response p r = Some x -> is_response p (Ctx D off) = Some x.
Proof using Type.
  intros Hr. unfold p_response, is_response. repeat case_bool_decide; try done.
  destruct r as [r|].
  - pose proof (get_number_follows D r _ Hr) as Hf.
    destruct (p_number r) as [[v s']|]; [|done]. destruct Hf as (c & -> & _). by destruct v.
  - destruct Hr as [-> Hlf]. by rewrite get_number_lf.
Qed.

Lemma wp_line D (s post : bytes) a w :
  D = s ++ 0 :: LF :: post -> zlen D <= 4096 -> no_null s -> is_Some (classify hs s) ->
  ready w a ->
  wp (hf_call_prefix_handler malloc mainloop_modify client D)
    (fun _ w' => ready w' (h_line malloc hs react a s)) w.
Proof using All.
  intros HD Hlen Hs [f Hf] Hw.
  assert (ctx_at D s (Ctx D 0)) as Hc.
  { split_and!; [done|lia|done|]. by exists [], (LF :: post). }
  assert (get_u8 D (zlen s + 1) = Some LF) as Hlf.
  { rewrite HD. change (0 :: LF :: post) with ([0] ++ [LF] ++ post).
    rewrite (app_assoc s [0]). apply get_u8_mid. rewrite zlen_app. done. }
  pose proof (parse_line_spec D s Hc) as Hparse.
  unfold hf_call_prefix_handler, h_line. rewrite Hf. unfold classify in Hf.
  destruct (p_line s) as [[p r]|].
  2:{ injection Hf as <-. apply wp_bind. unfold of_ub. rewrite Hparse. eexists _, _. split; [done|].
      by apply wp_ret. }
  destruct Hparse as (off & Hparse & Hoff).
  apply wp_bind. unfold of_ub. rewrite Hparse. eexists _, _. split; [done|].
  assert (forall x, p_response p r = Some x -> is_response p (Ctx D off) = Some x) as Hresp.
  { intros x. apply (is_response_spec D s). by destruct r. }
  destruct (p_response p r) as [x|]; [|done]. specialize (Hresp x eq_refl).
  apply wp_bind. rewrite Hresp. eexists _, _. split; [done|].
  pose proof Hw as (h & i & rb & wb & Hh & Hi & Hio & Hhas & Hfd & Hrb & Hlin & Hwb & Hinv & Hsz
                    & Hout & Hhs & Hq & Hnext & Htold).
  apply wp_bind, (wp_get_some _ h); [done|].
  destruct x as [[res e]|].
  - injection Hf as <-. rewrite Hq. destruct (h_queue a) as [|c q] eqn:Hqa; [by apply wp_ret|].
    apply wp_bind. eapply wp_mono; [|by apply (hf_wp_call _ (DResponse res e (resp_data c)))].
    intros ? w1 Hw1. pose proof Hw1 as (h1 & i1 & rb1 & wb1 & Hh1 & Hi1 & Hio1 & Hhas1 & Hfd1
      & Hrb1 & Hlin1 & Hwb1 & Hinv1 & Hsz1 & Hout1 & Hhs1 & Hq1 & Hnext1 & Htold1).
    apply wp_bind, (wp_get_some _ h1); [done|]. apply wp_bind, wp_modify.
    eapply wp_mono; [|apply hf_wp_wakeup; eexists (set_queue h1 (Some (tail (h_queue (h_tell malloc react (DResponse res e (resp_data c)) a))))), i1, rb1, wb1; cbn].
    + intros ? w2 Hw2. exact Hw2.
    + split_and!; try done. rewrite Hq1. do 2 f_equal.
      assert (exists new, h_queue (h_tell malloc react (DResponse res e (resp_data c)) a)
                          = c :: q ++ new) as [new ->].
      { unfold h_tell. edestruct h_sends_kept as (_ & _ & new & ->). cbn. rewrite Hqa. by exists new. }
      cbn. by rewrite Z.eqb_refl.
  - rewrite Hhs. destruct (find_handler (Some hs) p) as [e|]; injection Hf as <-; [|by apply wp_ret].
    eapply wp_mono; [|apply (hf_wp_call _ (DEvent (user_data e) r)); [|exact Hw]].
    + intros ? w2 Hw2. exact Hw2.
    + split; [done|]. destruct r; [|done]. by exists D.
Qed.

(** *** The loop *)

(** The ring of a ready unit: the block around the data. *)
Lemma ready_ring w a :
  ready w a ->
  exists h rb pre post, hf w = Some h /\ read_buf h = Some rb /\
    Ringbuf.buffer rb = pre ++ h_in a ++ post /\ zlen (pre ++ h_in a ++ post) = 4096 /\
    zlen pre = h_used a - zlen (h_in a) /\
    (forall q, zlen q = zlen (h_in a) -> (q = [] -> h_in a = []) ->
       ready (World (Some (set_read_buf h (Some (with_buffer rb (pre ++ q ++ post)))))
                (hf_io w) (log w) (next_cmd w)) (set_in q a)).
Proof using Type.
  intros (h & i & rb & wb & Hh & Hi & Hio & Hhas & Hfd & Hrb & Hlin & Hrest).
  pose proof Hlin as (Hsz & Hin & Hnil & pre & post & Hb & Hl & Ho & Hu).
  exists h, rb, pre, post. split_and!; try done; [lia|].
  intros q Hq Hqnil.
  assert (lin (with_buffer rb (pre ++ q ++ post)) (h_used a) q) as Hlin'.
  { split_and!; [done|done|by intros ?; apply Hnil, Hqnil|]. exists pre, post. cbn.
    rewrite !zlen_app in *. split_and!; try done; lia. }
  by exists (set_read_buf h (Some (with_buffer rb (pre ++ q ++ post)))), i,
    (with_buffer rb (pre ++ q ++ post)), wb.
Qed.

Lemma join_crlf_cons l ls : join_crlf (l :: ls) = l ++ CR :: LF :: join_crlf ls.
Proof using Type. unfold join_crlf. cbn [map concat]. by rewrite <- app_assoc. Qed.

Lemma wp_get_ring w a Q :
  ready w a -> (forall h rb, hf w = Some h -> read_buf h = Some rb -> Q rb w) -> wp get_ring Q w.
Proof using Type.
  intros (h & i & rb & wb & Hh & Hi & Hio & Hhas & Hfd & Hrb & _) HQ.
  apply wp_bind, (wp_get_some _ h); [done|]. rewrite Hrb. apply wp_ret. by eapply HQ.
Qed.

Lemma wp_loop ls rest str len : forall n seen a w,
  (length ls < n)%nat ->
  ready w (set_in (seen ++ join_crlf ls ++ rest) a) ->
  Forall (fun l => CR ∉ l) ls -> no_line rest ->
  Forall (fun l => no_null l /\ is_Some (classify hs l)) ls ->
  len = zlen (seen ++ join_crlf ls ++ rest) -> str = h_used a - len ->
  wp (lines_loop malloc mainloop_modify client n str len (zlen seen))
    (fun offset w' => exists seen', offset = zlen seen' /\ zlen (seen' ++ rest) = len /\
       ready w' (set_in (seen' ++ rest) (foldl (h_line malloc hs react) a ls))) w.
Proof using All.
  induction ls as [|l ls IH]; intros n seen a w Hn Hw Hcr Hrest Hok Hlen Hstr;
    (destruct n as [|n]; [cbn in Hn; lia|]); cbn [lines_loop];
    destruct (ready_ring w _ Hw) as (h & rb & pre & post & Hh & Hrb & Hb & Hsz & Hpre & Hset);
    cbn [h_in h_used set_in] in *; pose proof (zlen_nonneg seen); pose proof (zlen_nonneg pre);
    pose proof (zlen_nonneg post); pose proof (zlen_nonneg rest);
    (apply wp_bind; eapply wp_get_ring; [exact Hw|]; intros h' rb' Hh' Hrb';
     rewrite Hh in Hh'; injection Hh' as <-; rewrite Hrb in Hrb'; injection Hrb' as <-).
  - change (join_crlf [] ++ rest) with rest in *. cbn [foldl].
    apply wp_bind. unfold of_ub. rewrite Hb.
    rewrite !zlen_app in Hsz. rewrite !zlen_app in Hlen. rewrite !zlen_app in Hpre.
    rewrite u64_small by (unfold is_u64; lia).
    rewrite <- app_assoc, (app_assoc pre).
    rewrite (find_cr_lf_none (pre ++ seen)); [|done|rewrite zlen_app; lia|lia|lia].
    eexists _, _. split; [done|]. apply wp_ret. exists seen.
    rewrite zlen_app. split_and!; [done|lia|done].
  - apply Forall_cons_1 in Hcr as [Hl Hcr]. apply Forall_cons_1 in Hok as [[Hnn Hcl] Hok].
    rewrite join_crlf_cons in *. set (more := join_crlf ls ++ rest) in *.
    assert (seen ++ (l ++ CR :: LF :: join_crlf ls) ++ rest = seen ++ (l ++ CR :: LF :: more))
      as Heq by (unfold more; by rewrite <- app_assoc).
    rewrite Heq in *. clear Heq. pose proof (zlen_nonneg l). pose proof (zlen_nonneg more).
    repeat rewrite ?zlen_app, ?zlen_cons in Hsz. repeat rewrite ?zlen_app, ?zlen_cons in Hlen.
    repeat rewrite ?zlen_app, ?zlen_cons in Hpre.
    apply wp_bind. unfold of_ub. rewrite Hb, u64_small by (unfold is_u64; lia).
    rewrite <- (app_assoc seen), (app_assoc pre seen).
    rewrite (find_cr_lf_line (pre ++ seen)); try done;
      [|rewrite zlen_app; lia|rewrite !zlen_app, !zlen_cons; lia|lia].
    eexists _, _. split; [done|]. cbn beta iota.
    rewrite zlen_app.
    replace (zlen pre + zlen seen + zlen l - (str + zlen seen)) with (zlen l) by lia.
    destruct (Z.eqb_spec (zlen l) 0) as [Hl0|Hl0].
    + assert (l = []) as -> by (destruct l; [done|rewrite zlen_cons in Hl0; pose proof (zlen_nonneg l); lia]).
      rewrite u64_small by (unfold is_u64; lia).
      replace (zlen seen + 2) with (zlen (seen ++ [CR; LF])) by (by rewrite zlen_app).
      cbn [foldl]. change (h_line malloc hs react a []) with a.
      apply IH; try done; [cbn in Hn; lia| |].
      * rewrite <- app_assoc. exact Hw.
      * rewrite !zlen_app. change (zlen [CR; LF]) with 2. unfold more in *. rewrite zlen_app in *. lia.
    + set (q := seen ++ l ++ 0 :: LF :: more) in *.
      specialize (Hset q ltac:(unfold q; rewrite !zlen_app, !zlen_cons; lia)
                    ltac:(unfold q; by destruct seen, l)).
      unfold store. apply wp_bind, wp_bind. eapply wp_get_ring; [exact Hw|]. intros h' rb' Hh' Hrb'.
      rewrite Hh in Hh'. injection Hh' as <-. rewrite Hrb in Hrb'. injection Hrb' as <-.
      apply wp_bind. unfold of_ub. rewrite Hb.
      assert (pre ++ (seen ++ l ++ CR :: LF :: more) ++ post
              = (pre ++ seen ++ l) ++ [CR] ++ (LF :: more ++ post)) as -> by (by rewrite <- !app_assoc).
      rewrite st_mid by (rewrite ?zlen_app; done || lia).
      eexists _, _. split; [done|].
      assert ((pre ++ seen ++ l) ++ [0] ++ (LF :: more ++ post) = pre ++ q ++ post) as ->
        by (unfold q; by rewrite <- !app_assoc).
      apply wp_bind, (wp_get_some _ h); [done|]. apply wp_modify.
      apply wp_bind. eapply wp_get_ring; [exact Hset|]. intros h1 rb1 Hh1 Hrb1.
      cbn [hf] in Hh1. injection Hh1 as <-. cbn in Hrb1. injection Hrb1 as <-.
      unfold drop_from. cbn [Ringbuf.buffer with_buffer].
      assert (drop (Z.to_nat (str + zlen seen)) (pre ++ q ++ post) = l ++ 0 :: LF :: more ++ post)
        as ->.
      { replace (Z.to_nat (str + zlen seen)) with (length (pre ++ seen))
          by (rewrite length_app; unfold zlen in *; lia).
        unfold q. rewrite <- !app_assoc, (app_assoc pre seen), drop_app_length. done. }
      apply wp_bind. eapply wp_mono; [|apply (wp_line _ l (more ++ post)); [done| |done|done|exact Hset]].
      2:{ cbn [app]. rewrite !zlen_app, !zlen_cons, !zlen_app. lia. }
      intros ? w2. rewrite !h_line_frame. intros Hw2.
      rewrite u64_small by (unfold is_u64; lia).
      replace (zlen seen + (zlen l + 2)) with (zlen (seen ++ l ++ [0; LF]))
        by (rewrite !zlen_app; done).
      cbn [foldl]. apply IH; try done; [cbn in Hn; lia| | |].
      * rewrite <- !app_assoc. exact Hw2.
      * rewrite !zlen_app. change (zlen [0; LF]) with 2. unfold more in *. rewrite zlen_app in *. lia.
      * by rewrite h_line_used.
Qed.

Lemma hf_wp_process ls rest a w :
  ready w a -> crlf_lines (h_in a) = Some (ls, rest) ->
  Forall (fun l => no_null l /\ is_Some (classify hs l)) ls ->
  wp (hf_process_input malloc mainloop_modify client)
    (fun _ w' => ready w' (h_process malloc hs react a)) w.
Proof using All.
  intros Hw Hq Hok. unfold h_process. rewrite Hq. cbn zeta. destruct (crlf_lines_spec _ _ _ Hq) as (Hin & Hcr & Hrest).
  pose proof Hw as (h & i & rb & wb & Hh & Hi & Hio & Hhas & Hfd & Hrb & Hlin & _).
  destruct (lin_peek rb _ _ Hlin) as (pre & post & _ & Hsz & Hu & Ho & Hp & _).
  unfold hf_process_input. apply wp_bind, (wp_get_some _ h); [done|]. rewrite Hrb, Hp.
  apply wp_bind. change 0 with (zlen (@nil Z)) at 1.
  assert (h_in a = [] ++ join_crlf ls ++ rest) as Hin' by done.
  eapply wp_mono; [|apply (wp_loop ls rest (zlen pre) (zlen (h_in a)) _ [] a w); try done].
  - intros offset w1 (seen & -> & Hlen & Hw1).
    assert (h_used (foldl (h_line malloc hs react) a ls) = h_used a) as Hused.
    { clear. revert a. induction ls as [|l ls IH]; intros a; [done|]. cbn [foldl].
      rewrite IH. apply h_line_used. }
    set (a1 := foldl (h_line malloc hs react) a ls) in *.
    destruct Hw1 as (h1 & i1 & rb1 & wb1 & Hh1 & Hi1 & Hio1 & Hhas1 & Hfd1 & Hrb1 & Hlin1 & Hrest1).
    destruct (lin_peek rb1 _ _ Hlin1) as (_ & _ & _ & _ & _ & _ & _ & Hl1).
    apply wp_bind, (wp_get_some _ h1); [done|]. rewrite Hrb1, Hl1. cbn [h_in set_in].
    rewrite Hlen, Z.eqb_refl. apply wp_bind, wp_ret, wp_bind, (wp_get_some _ h1); [done|].
    apply wp_modify. rewrite Hrb1.
    destruct (Z.eqb_spec (zlen seen) 0) as [H0|H0].
    + assert (seen = []) as -> by (destruct seen as [|x l]; [done|rewrite zlen_cons in H0; pose proof (zlen_nonneg l); lia]).
      assert ((Ringbuf.ringbuf_drain (Some rb1) (zlen (@nil Z))).2 = Some rb1) as ->.
      { cbn [Ringbuf.ringbuf_drain]. change (zlen (@nil Z)) with 0.
        pose proof (u64_range (Ringbuf.in_ rb1 - Ringbuf.out rb1)) as Hr. unfold is_u64 in Hr.
        rewrite Z.min_l by lia. done. }
      exists (set_read_buf h1 (Some rb1)), i1, rb1, wb1. split_and!; try done; try apply Hrest1.
      cbn [h_used h_in set_in app] in *. rewrite Hused in Hlin1. unfold end_of.
      case_bool_decide as Hr; [|done]. destruct Hlin1 as (? & ? & Hnil & Hx). specialize (Hnil Hr).
      rewrite Hnil in *. done.
    + pose proof (zlen_nonneg seen).
      destruct (lin_drain rb1 _ seen rest (zlen seen) Hlin1 eq_refl) as (rb2 & Hd & Hlin2); [lia|].
      rewrite Hd. cbn [h_used set_in] in Hlin2. rewrite Hused in Hlin2.
      by exists (set_read_buf h1 (Some rb2)), i1, rb2, wb1.
  - rewrite Hin. cbn [app]. rewrite zlen_app. pose proof (zlen_nonneg rest).
    assert (Z.of_nat (length ls) <= zlen (join_crlf ls)).
    { clear. induction ls as [|l ls IH]; [done|]. rewrite join_crlf_cons, zlen_app, !zlen_cons.
      cbn [length]. pose proof (zlen_nonneg l). lia. }
    lia.
  - rewrite <- Hin'. by destruct a.
  - by rewrite <- Hin'.
  - lia.
Qed.

(** *** The actions *)

Lemma hf_wp_recv d a w :
  ready w a -> fits hs a (Recv d) ->
  wp (hf_can_read_data malloc mainloop_modify client (fun _ _ => Some d))
    (fun _ w' => ready w' (h_step malloc hs react a (Recv d))) w.
Proof using All.
  intros (h & i & rb & wb & Hh & Hi & Hio & Hhas & Hfd & Hrb & Hlin & Hwb & Hinv & Hsz & Hout
          & Hhs & Hq & Hnext & Htold) (Hd & Hfit & ls & rest & Hlines & Hok).
  destruct (lin_read rb _ _ d (fd h) Hlin Hfd Hd Hfit) as (rb' & tr & Hread & Hlin').
  unfold hf_can_read_data. apply wp_bind, (wp_get_some _ h); [done|]. rewrite Hrb.
  apply wp_bind. unfold of_ub. rewrite Hread. eexists _, _. split; [done|].
  apply wp_bind, wp_modify, wp_bind, wp_modify. rewrite (proj2 (Z.ltb_ge _ _)) by lia.
  set (a1 := Ahf (h_used a + zlen d) (h_in a ++ d) (h_out a) (h_queue a) (h_next a) (h_served a)).
  match goal with |- wp _ _ ?w1 => assert (ready w1 a1) as Hw1 end.
  { exists (set_read_buf h (Some rb')), i, rb', wb. cbn.
    split_and!; try done. by apply hf_told_log_traces. }
  apply wp_bind. eapply wp_mono; [|by apply (hf_wp_process ls rest a1)]. intros ? w2 Hw2.
  by apply wp_ret.
Qed.

Lemma hf_wp_action x a w :
  ready w a -> fits hs a x ->
  wp (run_action x) (fun _ w' => ready w' (h_step malloc hs react a x)) w.
Proof using All.
  intros Hw Hx. destruct x as [d| |u f t]; cbn [run_action]; apply wp_bind.
  - eapply wp_mono; [|by apply hf_wp_recv]. intros ? w1 Hw1. by apply wp_ret.
  - eapply wp_mono; [|by apply hf_wp_writable]. intros ? w1 Hw1. by apply wp_ret.
  - eapply wp_mono; [|by apply wp_send]. intros ? w1 Hw1. by apply wp_ret.
Qed.

Lemma hf_wp_actions l : forall a w,
  ready w a -> fit malloc hs react a l ->
  wp (run_actions l) (fun _ w' => ready w' (foldl (h_step malloc hs react) a l)) w.
Proof using All.
  induction l as [|x l IH]; intros a w Hw Hl; cbn [run_actions foldl]; [by apply wp_ret|].
  destruct Hl as [Hx Hl]. apply wp_bind. eapply wp_mono; [|by apply hf_wp_action].
  intros ? w1 Hw1. by apply IH.
Qed.
End refinement.
