(* ===== verification/HfpHfLife.v ===== *)
(** The hands-free unit of HfpHf.v: it refines its abstract machine, and what goes wrong when a
    line wraps around the end of the ring buffer or a CR is alone. *)
From Stdlib Require Import ZArith Lia String.
From S2P Require Import Prelude Blocks Libc Ringbuf StateM Io HfpContext HfpContextSpec HfpArgs Hfp HfpGwParse HfpGw HfpHf HfpHfParse HfpHfSpec.
From stdpp Require Import base numbers list option.

Local Open Scope Z_scope.

(** C23. The hands-free unit implements its abstract machine for well-formed input ([fit]): the
    received data do not wrap in the ring buffer of 4096 bytes, every CR in them is followed by
    LF, the lines have no null bytes and no number in them that overflows an int
    ([hfp_hf_line_faults] shows such a line to be undefined), and the callbacks of the client
    send nothing but commands, of less than 2^30 bytes.  From any state that corresponds to one
    of the machine's, any such sequence of receptions, transmissions and commands is defined,
    ends, and leads to the state the machine leads to; the final results are given to the
    commands in the order they were sent, the other lines to the handlers of their prefixes,
    in their order. *)
Theorem hfp_hf_refines_machine malloc mainloop_modify client hs react l w a :
  (forall l e d, told e d ->
     client (l ++ [e]) = map (fun x => OpSend x.1.1 x.1.2 x.2) (react d)) ->
  (forall d, Forall (fun x => zlen x.2 < 2 ^ 30) (react d)) ->
  ready hs w a -> fit malloc hs react a l ->
  exists w', run_actions malloc mainloop_modify client l w = Some (tt, w') /\
    ready hs w' (foldl (h_step malloc hs react) a l).
Proof.
  intros Hclient Hsmall Hw Hl.
  destruct (hf_wp_actions malloc mainloop_modify client hs react Hclient Hsmall l a w Hw Hl)
    as ([] & w' & Hrun & Hw').
  by exists w'.
Qed.

(** ** Concrete units *)

Definition plenty {A} : A -> bool := fun _ => true.
Definition plenty2 {A B} : A -> B -> bool := fun _ _ => true.
Definition silent {A} : list event -> list A := fun _ => [].

(** A ring with [s] in it, the first [k] bytes at the end of the block. *)
Definition ring (k : nat) (s : bytes) : Ringbuf.ringbuf :=
  Ringbuf.mk_ringbuf (drop k s ++ replicate (4096 - length s) 0 ++ take k s) 4096
    (4096 - Z.of_nat k + zlen s) (4096 - Z.of_nat k) None.

Definition empty_ring : Ringbuf.ringbuf := Ringbuf.mk_ringbuf (replicate 4096 0) 4096 0 0 None.

Definition handlers : list event_handler := [EventHandler (Libc.chars "+CIEV") 5 true].

Definition unit_with (rb : Ringbuf.ringbuf) (q : list cmd_response) : hfp_hf :=
  Hf 1 7 false true (Some rb) (Some empty_ring) false (Some q) (Some handlers) None None false
    false.

(** A unit on descriptor 7 that awaits the results of [q]. *)
Definition started (rb : Ringbuf.ringbuf) (q : list cmd_response) : world :=
  World (Some (unit_with rb q))
    (Some (Io 1 7 EPOLLIN false (Watch (Some CanReadData) (Some ReadWatchDestroy)) no_watch no_watch))
    [] 3.

Lemma hf_start_started :
  (hfp_hf_new plenty2 (fun n => Some (replicate (Z.to_nat n) 0)) plenty2 7;;
   hfp_hf_register plenty true (Libc.chars "+CIEV") 5 true) (World None None [] 3)
  = Some (true, started empty_ring []).
Proof. vm_compute. reflexivity. Qed.

Lemma hf_started_ready : ready handlers (started empty_ring []) (Ahf 0 [] [] [] 3 []).
Proof.
  exists (unit_with empty_ring []),
    (Io 1 7 EPOLLIN false (Watch (Some CanReadData) (Some ReadWatchDestroy)) no_watch no_watch),
    empty_ring, empty_ring.
  split_and!; try reflexivity; try done.
  - by left.
  - split_and!; try done. by exists [], (replicate 4096 0).
  - exists 12. split_and!; done.
  - constructor.
Qed.

Lemma lines_ok hs ls :
  forallb (fun l => forallb (fun c => negb (c =? 0)) l && bool_decide (is_Some (classify hs l))) ls
    = true ->
  Forall (fun l => no_null l /\ is_Some (classify hs l)) ls.
Proof.
  intros H. apply List.Forall_forall. intros l Hl.
  apply (proj1 (forallb_forall _ _) H) in Hl. apply andb_prop in Hl as [Hn Hc].
  apply bool_decide_eq_true in Hc. split; [|done].
  apply List.Forall_forall. intros c Hcl. apply (proj1 (forallb_forall _ _) Hn) in Hcl.
  by destruct (Z.eqb_spec c 0).
Qed.

Definition exchange : list action :=
  [Send 11 (Libc.chars "AT+CIND?") (Libc.chars "AT+CIND?");
   Send 12 (Libc.chars "AT+COPS?") (Libc.chars "AT+COPS?"); Writable;
   Recv (crlf (Libc.chars "+CIEV: 1,0") ++ crlf (Libc.chars "OK"));
   Recv (crlf (Libc.chars "+CME ERROR: 30"))].

Lemma hfp_hf_refines_machine_witness :
  exists w', run_actions plenty plenty2 silent exchange (started empty_ring []) = Some (tt, w') /\
    ready handlers w' (Ahf 0 [] [] [] 5
      [DEvent 5 (Some (Libc.chars " 1,0")); DResponse HFP_RESULT_OK 0 11;
       DResponse HFP_RESULT_CME_ERROR 30 12]).
Proof.
  apply (hfp_hf_refines_machine plenty plenty2 silent handlers (fun _ => []) exchange
           (started empty_ring []) (Ahf 0 [] [] [] 3 [])).
  - done.
  - by constructor.
  - apply hf_started_ready.
  - split; [by vm_compute|]. split; [by vm_compute|]. split; [done|].
    split; [|split; [|done]]; (split; [by vm_compute|]; split; [by vm_compute|]);
      eexists _, _; (split; [vm_compute; reflexivity|]); by apply lines_ok.
Defined.

(** ** Lines that wrap, and a CR that is alone *)

(** The results a unit that awaits two commands reports for the data in its ring. *)
Definition reported (k : nat) (s : bytes) : option (list event) :=
  match hf_process_input plenty plenty2 silent (started (ring k s) [Cmd 1 11; Cmd 2 12]) with
  | Some (_, w) => Some (log w)
  | None => None
  end.

(** Results are handled correctly only when their line is in one piece: one that begins at
    the end of the block is searched for the end of its string outside the copy that is made of
    it; one whose end of line wraps is not reported; after another line, the other line is
    reported again in its place.  A line behind two CRs that are not ends of lines is not
    found. *)
Theorem hfp_hf_line_faults :
  reported 2 (crlf (Libc.chars "OK")) = None /\
  reported 4 (crlf (Libc.chars "OK")) = Some [] /\
  reported 6 (crlf (Libc.chars "OK")) = Some [EvResponse HFP_RESULT_OK 0 11] /\
  reported 6 (Libc.chars "OK" ++ [CR; LF] ++ Libc.chars "ERROR" ++ [CR; LF])
    = Some [EvResponse HFP_RESULT_OK 0 11; EvResponse HFP_RESULT_OK 0 12] /\
  find_cr_lf (Libc.chars "ab" ++ [CR] ++ Libc.chars "cd" ++ [CR] ++ Libc.chars "OK" ++ [CR; LF]) 0 10
    = Some None.
Proof. vm_compute. split_and!; reflexivity. Qed.
