(* ===== verification/HfpExchange.v ===== *)
(** A hands-free unit and a gateway that talk to each other: what the one sends (HfpHf.v), the
    other reads (Hfp.v). *)
From Stdlib Require Import ZArith Lia String.
From S2P Require Import Prelude Blocks Libc Ringbuf StateM Io HfpContext HfpContextSpec HfpArgs Hfp HfpGwParse HfpGw HfpGwSpec HfpGwLife HfpHf HfpHfParse HfpHfSpec HfpHfLife.
From stdpp Require Import base numbers list option.

Local Open Scope Z_scope.

(** How the gateway ends a command, and what the unit's client is told of it. *)
Inductive reply := ROk | RError | RCme (error : Z).

Definition reply_ok (r : reply) : Prop :=
  match r with RCme e => 0 <= e <= HFP_ERROR_NETWORK_NOT_ALLOWED | _ => True end.
Definition reply_action (r : reply) : HfpGwSpec.action :=
  match r with
  | ROk => Result HFP_RESULT_OK
  | RError => Result HFP_RESULT_ERROR
  | RCme e => HfpGwSpec.Error e
  end.
Definition reply_text (r : reply) : bytes :=
  match r with ROk => Libc.chars "OK" | RError => Libc.chars "ERROR" | RCme e => error_text e end.
Definition reply_result (r : reply) : hfp_result :=
  match r with
  | ROk => HFP_RESULT_OK | RError => HFP_RESULT_ERROR | RCme _ => HFP_RESULT_CME_ERROR
  end.
Definition reply_error (r : reply) : Z := match r with RCme e => e | _ => 0 end.

(** A text the gateway sends before the result that the unit gives to a handler, as [d]. *)
Definition info_ok (hs : list event_handler) (t : bytes) (d : HfpHfSpec.delivery) : Prop :=
  no_null t /\ CR ∉ t /\ HfpHfSpec.classify hs t = Some (Event d).

(** ** Texts and lines *)

Definition sent (texts : list bytes) : bytes := concat (map crlf texts).

Lemma sent_lines texts : sent texts = join_crlf (flat_map (fun t => [[]; t]) texts).
Proof.
  induction texts as [|t texts IH]; [done|]. unfold sent in *. cbn [map concat flat_map app].
  rewrite !join_crlf_cons, IH. unfold crlf. by rewrite <- !app_assoc.
Qed.

Definition line_of (p : bytes) (r : option bytes) (s : bytes) : bool :=
  bool_decide (p_line s = Some (p, r)) && forallb (fun c => negb (c =? 0) && negb (c =? CR)) s.

Lemma line_of_spec p r s : line_of p r s = true -> p_line s = Some (p, r) /\ no_null s /\ CR ∉ s.
Proof.
  intros H. apply andb_prop in H as [H1 H2]. apply bool_decide_eq_true in H1.
  assert (forall c, c ∈ s -> c <> 0 /\ c <> CR) as Hs.
  { intros c Hc. apply list_elem_of_In in Hc. apply (proj1 (forallb_forall _ _) H2) in Hc.
    apply andb_prop in Hc as [Ha Hb]. split; intros ->; done. }
  split_and!; [done| |].
  - apply List.Forall_forall. intros c Hc. apply list_elem_of_In in Hc. by destruct (Hs _ Hc).
  - intros Hc. by destruct (Hs _ Hc).
Qed.

Lemma error_lines e : 0 <= e <= 32 ->
  line_of (Libc.chars "+CME ERROR") (Some (SP :: dec_str e)) (error_text e) = true.
Proof.
  intros He.
  assert (forallb (fun n : nat =>
    line_of (Libc.chars "+CME ERROR") (Some (SP :: dec_str (Z.of_nat n))) (error_text (Z.of_nat n)))
    (seq 0 33) = true) as H by (vm_compute; reflexivity).
  apply (proj1 (forallb_forall _ _)) with (x := Z.to_nat e) in H.
  - by rewrite Z2Nat.id in H by lia.
  - apply in_seq. lia.
Qed.

Lemma p_response_cme r :
  p_response (Libc.chars "+CME ERROR") (Some r)
  = match p_number r with
    | None => None
    | Some (Some v, _) =>
      Some (Some (HFP_RESULT_CME_ERROR,
                  if v <=? HFP_ERROR_NETWORK_NOT_ALLOWED then v else HFP_ERROR_AG_FAILURE))
    | Some (None, _) => Some (Some (HFP_RESULT_CME_ERROR, HFP_ERROR_AG_FAILURE))
    end.
Proof. reflexivity. Qed.

Lemma reply_line hs r : reply_ok r ->
  classify hs (reply_text r) = Some (Final (reply_result r) (reply_error r)) /\
  no_null (reply_text r) /\ CR ∉ reply_text r.
Proof.
  intros Hr. destruct r as [| |e]; cbn [reply_text reply_result reply_error].
  - assert (line_of (Libc.chars "OK") None (Libc.chars "OK") = true) as H by reflexivity.
    apply line_of_spec in H as (Hl & Hn & Hc). split; [|done]. unfold classify. by rewrite Hl.
  - assert (line_of (Libc.chars "ERROR") None (Libc.chars "ERROR") = true) as H by reflexivity.
    apply line_of_spec in H as (Hl & Hn & Hc). split; [|done]. unfold classify. by rewrite Hl.
  - cbn [reply_ok] in Hr. pose proof (error_lines e Hr) as H.
    apply line_of_spec in H as (Hl & Hn & Hc). split; [|done]. unfold classify. rewrite Hl.
    rewrite p_response_cme. pose proof (p_number_dec e []) as Hp. rewrite app_nil_r in Hp.
    change (p_number (SP :: dec_str e)) with (p_number (dec_str e)).
    unfold HFP_ERROR_NETWORK_NOT_ALLOWED in *.
    rewrite Hp; [|unfold num_ok; lia|by left]. by rewrite (proj2 (Z.leb_le _ _)) by lia.
Qed.

(** ** The machines *)

Section exchange.
Context (malloc : Z -> bool).
Hypothesis memory : forall n, malloc n = true.

Lemma print_fits text out : 0 < zlen text -> zlen out + zlen text <= 4096 ->
  print_ok malloc text out = true.
Proof using memory.
  intros Ht Hl. unfold print_ok. rewrite memory.
  rewrite (proj2 (Z.eqb_neq _ _)), (proj2 (Z.leb_le _ _)) by lia. done.
Qed.

Lemma zlen_sent_cons t ts : zlen (sent (t :: ts)) = zlen t + 4 + zlen (sent ts).
Proof using Type. unfold sent. cbn [map concat]. by rewrite zlen_app, zlen_crlf. Qed.

(** The gateway prints the texts of its client. *)
Lemma infos_out (l : list (bytes * bytes)) : forall a,
  zlen (a_out a) + zlen (sent (map snd l)) <= 4096 ->
  a_out (foldl (a_info malloc) a l) = a_out a ++ sent (map snd l).
Proof using memory.
  induction l as [|[f t] l IH]; intros a Hl; cbn [foldl map snd] in *.
  { unfold sent. by rewrite app_nil_r. }
  rewrite zlen_sent_cons in Hl. pose proof (zlen_nonneg t). pose proof (zlen_nonneg (sent (map snd l))).
  unfold a_info at 2. cbn [fst snd]. rewrite memory. unfold a_print.
  rewrite print_fits by (rewrite zlen_crlf; lia).
  rewrite IH; cbn [a_out snd]; rewrite ?zlen_app, ?zlen_crlf; [|lia].
  unfold sent. cbn [map concat]. by rewrite <- app_assoc.
Qed.

(** The lines of the texts, for a unit that is silent when it is told of events. *)
Lemma info_lines hs (ts : list bytes) (ds : list HfpHfSpec.delivery) : forall a,
  Forall2 (info_ok hs) ts ds ->
  let a' := foldl (h_line malloc hs (fun _ => [])) a (flat_map (fun t => [[]; t]) ts) in
  a' = Ahf (h_used a) (h_in a) (h_out a) (h_queue a) (h_next a) (h_served a ++ ds).
Proof using Type.
  intros a H. revert a. induction H as [|t d ts ds (Hn & Hc & Hcl) Hts IH]; intros a.
  - cbn. rewrite app_nil_r. by destruct a.
  - cbn [flat_map app foldl]. change (h_line malloc hs (fun _ => []) a []) with a.
    cbn zeta in IH. rewrite IH. unfold h_line. rewrite Hcl. cbn.
    by rewrite <- app_assoc.
Qed.

Lemma reply_line_step hs r c q a :
  reply_ok r -> h_queue a = c :: q ->
  foldl (h_line malloc hs (fun _ => [])) a [[]; reply_text r]
  = Ahf (h_used a) (h_in a) (h_out a) q (h_next a)
      (h_served a ++ [DResponse (reply_result r) (reply_error r) (resp_data c)]).
Proof using Type.
  intros Hr Hq. cbn [foldl]. change (h_line malloc hs (fun _ => []) a []) with a.
  unfold h_line. destruct (reply_line hs r Hr) as (-> & _). rewrite Hq. cbn. by rewrite Hq.
Qed.
End exchange.

Lemma process_one malloc hs cb react c a :
  command_ok hs c -> a_in a = text_of c ++ [CR] ->
  a_process malloc hs cb react a
  = a_drop [] (a_deliver malloc react (delivery_of hs c) a).
Proof.
  intros Hc Hin. unfold a_process. rewrite Hin.
  assert (CR ∉ text_of c) as Hcr by apply Hc.
  change (text_of c ++ [CR]) with (text_of c ++ CR :: []). rewrite lines_line by done.
  cbn [lines fst snd a_lines]. by rewrite (classify_command hs cb).
Qed.

Lemma reply_step malloc hs cb react a r :
  a_step malloc hs cb react a (reply_action r) = a_final malloc hs cb react (reply_text r) a.
Proof. by destruct r. Qed.

Lemma sent_snoc ts t : sent (ts ++ [t]) = sent ts ++ crlf t.
Proof. unfold sent. rewrite map_app, concat_app. cbn. by rewrite app_nil_r. Qed.

Lemma sent_crlf_lines hs ts :
  Forall (fun t => no_null t /\ CR ∉ t /\ is_Some (classify hs t)) ts ->
  crlf_lines (sent ts) = Some (flat_map (fun t => [[]; t]) ts, []) /\
  Forall (fun l => no_null l /\ is_Some (classify hs l)) (flat_map (fun t => [[]; t]) ts).
Proof.
  intros Hts. rewrite sent_lines. split.
  - apply crlf_lines_join. induction Hts as [|t ts (Hn & Hc & Hcl) Hts IH]; [constructor|].
    cbn [flat_map app]. repeat constructor; [|done|done]. apply not_elem_of_nil.
  - induction Hts as [|t ts (Hn & Hc & Hcl) Hts IH]; [constructor|].
    cbn [flat_map app]. constructor; [split; [constructor|by eexists]|]. by constructor.
Qed.

(** C15. A command and its answer: the text of a command that a unit sends makes the gateway
    call the handler of its name with its type and arguments; the texts the gateway's client
    sends and the result it ends with make the unit give the texts to their handlers and then
    the result, with its error, to the command; nothing is left on either side. *)
Theorem hfp_exchange malloc mg mh clientg clienth react hsg cb hsf n wg wh c u f infos ds r nxt sg sh :
  (forall k, malloc k = true) -> (4096 < n)%nat ->
  (forall l e d, HfpGwSpec.told e d ->
     clientg (l ++ [e]) = map (fun i => OpInfo i.1 i.2) (react d)) ->
  (forall d, Forall (fun i => zlen i.2 < 2 ^ 30) (react d)) ->
  (forall l, clienth l = []) ->
  HfpGwSpec.ready hsg cb wg (Agw 0 [] false [] sg) ->
  HfpHfSpec.ready hsf wh (Ahf 0 [] [] [] nxt sh) ->
  command_ok hsg c -> zlen (text_of c) < 4096 ->
  react (delivery_of hsg c) = infos -> Forall2 (info_ok hsf) (map snd infos) ds ->
  reply_ok r -> zlen (sent (map snd infos ++ [reply_text r])) <= 4096 ->
  exists wh1 wg1 wh2 ag,
    HfpHfSpec.run_actions malloc mh clienth [Send u f (text_of c)] wh = Some (tt, wh1) /\
    HfpHfSpec.ready hsf wh1 (Ahf 0 [] (text_of c ++ [CR]) [Cmd nxt u] (nxt + 1) sh) /\
    HfpGwSpec.run_actions malloc mg clientg n
      [HfpGwSpec.Recv (text_of c ++ [CR]); reply_action r] wg = Some (tt, wg1) /\
    HfpGwSpec.ready hsg cb wg1 ag /\ a_in ag = [] /\ a_pending ag = false /\
    a_served ag = sg ++ [delivery_of hsg c] /\
    a_out ag = sent (map snd infos ++ [reply_text r]) /\
    HfpHfSpec.run_actions malloc mh clienth
      [Writable; Recv (sent (map snd infos ++ [reply_text r]))] wh1 = Some (tt, wh2) /\
    HfpHfSpec.ready hsf wh2
      (Ahf 0 [] [] [] (nxt + 1)
         (sh ++ ds ++ [DResponse (reply_result r) (reply_error r) u])).
Proof.
  intros Hmem Hn Hcg Hsmall Hch Hwg Hwh Hc Hlc Hreact Hinfos Hr Hsz.
  assert (forall l e d, HfpHfSpec.told e d -> clienth (l ++ [e])
            = map (fun x : Z * bytes * bytes => OpSend x.1.1 x.1.2 x.2) ((fun _ => []) d)) as Hch'
    by (intros; apply Hch).
  pose proof (zlen_nonneg (text_of c)) as Htc.
  (* the command is sent *)
  destruct (HfpHfSpec.hf_wp_actions malloc mh clienth hsf (fun _ => []) Hch' ltac:(by constructor)
              [Send u f (text_of c)] _ wh Hwh) as ([] & wh1 & Hrun1 & Hwh1).
  { split; [cbn [fits]; lia|done]. }
  cbn [foldl h_step h_send] in Hwh1. rewrite Hmem in Hwh1. unfold h_print in Hwh1.
  rewrite print_fits in Hwh1;
    [|done|rewrite zlen_app; change (zlen [CR]) with 1; lia
     |cbn [h_out]; rewrite zlen_app; change (zlen (@nil Z)) with 0; change (zlen [CR]) with 1; lia].
  cbn [h_used h_in h_out h_queue h_next h_served app] in Hwh1.
  (* the gateway reads it and answers *)
  set (ag1 := a_step malloc hsg cb react (Agw 0 [] false [] sg) (HfpGwSpec.Recv (text_of c ++ [CR]))).
  assert (ag1 = Agw 0 [] true (sent (map snd infos)) (sg ++ [delivery_of hsg c])) as Hag1.
  { unfold ag1. cbn [a_step a_used a_in a_pending a_out a_served app].
    rewrite (process_one malloc hsg cb react c) by done.
    match goal with |- a_drop [] ?x = _ => assert (a_pending x = true /\ a_out x = sent (map snd infos)
      /\ a_served x = sg ++ [delivery_of hsg c]) as (H1 & H2 & H3) end.
    { unfold a_deliver. rewrite Hreact. rewrite served_infos, infos_out; [|done|].
      - edestruct (a_infos_kept malloc) as (_ & _ & ->). done.
      - cbn [a_out]. change (zlen (@nil Z)) with 0. unfold sent in *.
        rewrite map_app, concat_app, zlen_app in Hsz. pose proof (zlen_nonneg (concat (map crlf [reply_text r]))).
        lia. }
    unfold a_drop. by rewrite H1, H2, H3. }
  destruct (HfpGwSpec.wp_actions malloc mg clientg hsg cb react Hcg Hsmall n
    [HfpGwSpec.Recv (text_of c ++ [CR]); reply_action r] _ wg Hn Hwg) as ([] & wg1 & Hrun2 & Hwg1).
  { split; [|split; [|done]].
    - cbn [HfpGwSpec.fits a_used]. rewrite zlen_app. change (zlen [CR]) with 1. lia.
    - by destruct r. }
  cbn [foldl] in Hwg1. fold ag1 in Hwg1. rewrite Hag1 in Hwg1.
  match type of Hwg1 with HfpGwSpec.ready _ _ _ ?x => set (ag2 := x) in * end.
  assert (ag2 = Agw 0 [] false (sent (map snd infos ++ [reply_text r])) (sg ++ [delivery_of hsg c])) as Hag2.
  { unfold ag2. rewrite reply_step. unfold a_final, a_print. cbn [a_out a_pending a_used a_in a_served].
    rewrite sent_snoc, zlen_app in Hsz. rewrite print_fits; [|done|rewrite zlen_crlf; pose proof (zlen_nonneg (reply_text r)); lia|done].
    cbn. by rewrite sent_snoc. }
  (* the unit reads the answer *)
  set (ts := map snd infos ++ [reply_text r]) in *.
  assert (Forall (fun t => no_null t /\ CR ∉ t /\ is_Some (classify hsf t)) ts) as Hts.
  { apply Forall_app_2.
    - clear -Hinfos. induction Hinfos as [|t d l ds (Hn & Hc & Hcl) H IH]; constructor; [|done].
      by rewrite Hcl.
    - constructor; [|constructor]. destruct (reply_line hsf r Hr) as (-> & ? & ?). by split_and!. }
  destruct (sent_crlf_lines hsf ts Hts) as [Hlines Hok].
  destruct (HfpHfSpec.hf_wp_actions malloc mh clienth hsf (fun _ => []) Hch' ltac:(by constructor)
              [Writable; Recv (sent ts)] _ wh1 Hwh1) as ([] & wh2 & Hrun3 & Hwh2).
  { split; [done|]. split; [|done]. cbn [fits h_step h_used h_in app].
    split; [|split; [lia|by eexists _, _]].
    unfold ts. rewrite sent_snoc, zlen_app, zlen_crlf.
    pose proof (zlen_nonneg (sent (map snd infos))). pose proof (zlen_nonneg (reply_text r)). lia. }
  exists wh1, wg1, wh2, (Agw 0 [] false (sent ts) (sg ++ [delivery_of hsg c])).
  rewrite Hag2 in Hwg1. split_and!; try done.
  cbn [foldl h_step h_used h_in h_out h_queue h_next h_served app] in Hwh2.
  unfold h_process in Hwh2. cbn [h_in h_used] in Hwh2. rewrite Hlines in Hwh2. cbn zeta in Hwh2.
  unfold ts in Hwh2. rewrite flat_map_app, foldl_app in Hwh2.
  rewrite (info_lines malloc hsf (map snd infos) ds) in Hwh2 by done.
  cbn [flat_map app] in Hwh2.
  rewrite (reply_line_step malloc hsf r (Cmd nxt u) []) in Hwh2 by done.
  cbn [h_used h_in h_out h_queue h_next h_served resp_data] in Hwh2. by rewrite <- app_assoc in Hwh2.
Qed.

Lemma hfp_exchange_witness :
  exists wh1 wg1 wh2 ag,
    HfpHfSpec.run_actions plenty plenty2 silent [Send 11 [] (Libc.chars "AT+AA?")]
      (HfpHfLife.started HfpHfLife.empty_ring []) = Some (tt, wh1) /\
    HfpHfSpec.ready HfpHfLife.handlers wh1
      (Ahf 0 [] (Libc.chars "AT+AA?" ++ [CR]) [Cmd 3 11] 4 []) /\
    HfpGwSpec.run_actions plenty plenty2 info_client (Z.to_nat 4097)
      [HfpGwSpec.Recv (Libc.chars "AT+AA?" ++ [CR]); HfpGwSpec.Error 30] HfpGwLife.started
      = Some (tt, wg1) /\
    HfpGwSpec.ready HfpGwLife.handlers None wg1 ag /\ a_in ag = [] /\ a_pending ag = false /\
    a_served ag = [DHandler 1 HFP_GW_CMD_TYPE_READ []] /\
    a_out ag = crlf (Libc.chars "+CIEV: 1") ++ crlf (Libc.chars "+CME ERROR: 30") /\
    HfpHfSpec.run_actions plenty plenty2 silent
      [Writable; Recv (crlf (Libc.chars "+CIEV: 1") ++ crlf (Libc.chars "+CME ERROR: 30"))] wh1
      = Some (tt, wh2) /\
    HfpHfSpec.ready HfpHfLife.handlers wh2
      (Ahf 0 [] [] [] 4 [DEvent 5 (Some (Libc.chars " 1")); DResponse HFP_RESULT_CME_ERROR 30 11]).
Proof.
  apply (hfp_exchange plenty plenty2 plenty2 info_client silent info_react HfpGwLife.handlers None
    HfpHfLife.handlers (Z.to_nat 4097) HfpGwLife.started (HfpHfLife.started HfpHfLife.empty_ring [])
    (Libc.chars "+AA", HFP_GW_CMD_TYPE_READ, []) 11 [] [(Libc.chars "%s", Libc.chars "+CIEV: 1")]
    [DEvent 5 (Some (Libc.chars " 1"))] (RCme 30) 3 [] []); try reflexivity.
  - lia.
  - apply info_client_reacts.
  - apply info_react_small.
  - apply HfpGwLife.started_ready.
  - apply HfpHfLife.hf_started_ready.
  - repeat constructor; try (by vm_compute; lia); try done.
    all: try (by apply (bool_decide_unpack _); vm_compute).
    all: vm_compute; try done; try (eexists; reflexivity).
  - constructor; [|constructor]. split_and!; [|by apply (bool_decide_unpack _)|reflexivity].
    by repeat constructor.
  - done.
  - by vm_compute.
Defined.
