(* ===== verification/Crypto.v ===== *)
(** The security functions of src/shared/crypto.c over the ciphers of the kernel: sockets of
    the algorithms ecb(aes) and cmac(aes), each for one key.  The ciphers and which system
    calls fail are arguments.  Arrays hold numbers least significant byte first; the kernel
    takes them most significant byte first. *)
From Stdlib Require Import ZArith Lia.
From S2P Require Import Prelude Blocks StateM.
From stdpp Require Import base numbers list option.

Local Open Scope Z_scope.

Definition CMAC_MSG_MAX : Z := 80.

Record bt_crypto := BtCrypto {
  ref_count : Z;
  ecb_aes : Z;
  urandom : Z;
  cmac_aes : Z;
}.

Inductive alg := EcbAes | CmacAes | Urandom.

(** An open descriptor: its algorithm, the key once it was accepted, and what can be read. *)
Record sock := Sock { s_alg : alg; s_key : option bytes; s_out : option bytes }.

(** The descriptors that are open, the next one, the number of system calls so far, and the
    object ([None] when it is freed). *)
Record world := World {
  socks : list (Z * sock);
  next_fd : Z;
  calls : nat;
  crypto : option bt_crypto;
}.

Abbreviation K := (M world).

Fixpoint find_sock (l : list (Z * sock)) (fd : Z) : option sock :=
  match l with
  | [] => None
  | (x, s) :: l => if x =? fd then Some s else find_sock l fd
  end.
Definition drop_sock (l : list (Z * sock)) (fd : Z) : list (Z * sock) :=
  List.filter (fun x => negb (fst x =? fd)) l.

Definition of_ub {A} (x : ub A) : K A :=
  fun w => match x with Some a => Some (a, w) | None => None end.

Section kernel.
(** Whether the n-th system call fails, and the ciphers: of a key and a block, of a key and a
    message. *)
Variables (fails : nat -> bool) (aes : bytes -> bytes -> bytes) (cmac : bytes -> bytes -> bytes)
  (random : nat -> Z -> bytes).

(** A system call: whether it succeeds. *)
Definition sys : K bool := fun w =>
  Some (negb (fails (calls w)), World (socks w) (next_fd w) (S (calls w)) (crypto w)).

Definition open_fd (s : sock) : K Z := fun w =>
  Some (next_fd w, World ((next_fd w, s) :: socks w) (next_fd w + 1) (calls w) (crypto w)).
Definition close (fd : Z) : K unit :=
  modify (fun w => World (drop_sock (socks w) fd) (next_fd w) (calls w) (crypto w)).
Definition get_sock (fd : Z) : K (option sock) := gets (fun w => find_sock (socks w) fd).
Definition put_sock (fd : Z) (s : sock) : K unit :=
  modify (fun w => World ((fd, s) :: drop_sock (socks w) fd) (next_fd w) (calls w) (crypto w)).

(** *** The object *)

Definition urandom_setup : K Z := ok ← sys; if ok : bool then open_fd (Sock Urandom None None) else mret (-1).

(** socket and bind. *)
Definition alg_setup (a : alg) : K Z :=
  ok ← sys;
  if negb ok then mret (-1)
  else
    fd ← open_fd (Sock a None None);
    ok ← sys;
    if negb ok then close fd;; mret (-1) else mret fd.
Definition ecb_aes_setup : K Z := alg_setup EcbAes.
Definition cmac_aes_setup : K Z := alg_setup CmacAes.

Definition get_crypto : K bt_crypto := get_some crypto.
Definition put_crypto (c : option bt_crypto) : K unit :=
  modify (fun w => World (socks w) (next_fd w) (calls w) c).

Definition bt_crypto_ref : K unit :=
  c ← get_crypto;
  put_crypto (Some (BtCrypto (ref_count c + 1) (ecb_aes c) (urandom c) (cmac_aes c))).

Definition bt_crypto_new : K bool :=
  ecb ← ecb_aes_setup;
  if ecb <? 0 then mret false
  else
    ur ← urandom_setup;
    if ur <? 0 then close ecb;; mret false
    else
      cm ← cmac_aes_setup;
      if cm <? 0 then close ur;; close ecb;; mret false
      else
        put_crypto (Some (BtCrypto 0 ecb ur cm));;
        bt_crypto_ref;;
        mret true.

Definition bt_crypto_unref : K unit :=
  c ← get_crypto;
  if negb (ref_count c - 1 =? 0)
  then put_crypto (Some (BtCrypto (ref_count c - 1) (ecb_aes c) (urandom c) (cmac_aes c)))
  else
    close (urandom c);;
    close (ecb_aes c);;
    close (cmac_aes c);;
    put_crypto None.

(** The functions below take [has_crypto]: whether the pointer they get is not NULL. *)

(** [None] is a false result. *)
Definition bt_crypto_random_bytes (has_crypto : bool) (num_bytes : Z) : K (option bytes) :=
  if negb has_crypto then mret None
  else
    n ← gets calls;
    ok ← sys;
    if negb ok then mret None
    else if zlen (random n num_bytes) <? num_bytes then mret None
    else mret (Some (random n num_bytes)).

(** *** The ciphers *)

(** [-1] when a call fails. *)
Definition alg_new (fd : Z) (key : bytes) : K Z :=
  ok ← sys;
  if negb ok then mret (-1)
  else
    s ← get_sock fd;
    ok ← sys;
    match s with
    | Some s => if ok : bool then open_fd (Sock (s_alg s) (Some key) None) else mret (-1)
    | None => mret (-1)
    end.

(** What is sent to a socket is encrypted or hashed. *)
Definition send (fd : Z) (msg : bytes) : K bool :=
  ok ← sys;
  s ← get_sock fd;
  match s with
  | Some (Sock a (Some key) _) =>
    if negb ok then mret false
    else
      put_sock fd (Sock a (Some key)
        (Some (match a with EcbAes => aes key msg | _ => cmac key msg end)));;
      mret true
  | _ => mret false
  end.

(** [read] of [len] bytes into a block of [len] bytes: what is not read keeps its
    (undetermined) contents, so that a short result is undefined. *)
Definition read (fd len : Z) : K (option bytes) :=
  ok ← sys;
  s ← get_sock fd;
  match s with
  | Some (Sock _ _ (Some out)) =>
    if negb ok then mret None
    else b ← of_ub (ld out 0 len); mret (Some b)
  | _ => mret None
  end.

Definition alg_encrypt (fd : Z) (inbuf : bytes) (outlen : Z) : K (option bytes) :=
  ok ← send fd inbuf;
  if ok : bool then read fd outlen else mret None.

(** [dst[len - 1 - i] = src[i]] for every [i]. *)
Definition swap_buf (src : bytes) (len : Z) : ub bytes :=
  b ← ld src 0 len; Some (rev b).

Definition bt_crypto_sign_att (has_crypto : bool) (key m : bytes) (m_len sign_cnt : Z)
    : K (option bytes) :=
  let msg_len := u16 (m_len + 4) in
  if negb has_crypto then mret None
  else
    m' ← of_ub (ld m 0 m_len);
    msg ← of_ub (st (replicate (Z.to_nat msg_len) 0) 0 m');
    msg ← of_ub (put_le32 sign_cnt msg m_len);
    tmp ← of_ub (swap_buf key 16);
    c ← get_crypto;
    fd ← alg_new (cmac_aes c) tmp;
    if fd <? 0 then mret None
    else
      msg_s ← of_ub (swap_buf msg msg_len);
      ok ← send fd msg_s;
      if negb ok then close fd;; mret None
      else
        out ← read fd 16;
        match out with
        | None => close fd;; mret None
        | Some out =>
          close fd;;
          out ← of_ub (put_be32 sign_cnt out 8);
          tmp ← of_ub (swap_buf out 16);
          sig ← of_ub (ld tmp 4 12);
          mret (Some sig)
        end.

Definition bt_crypto_e (has_crypto : bool) (key plaintext : bytes) : K (option bytes) :=
  if negb has_crypto then mret None
  else
    tmp ← of_ub (swap_buf key 16);
    c ← get_crypto;
    fd ← alg_new (ecb_aes c) tmp;
    if fd <? 0 then mret None
    else
      in_ ← of_ub (swap_buf plaintext 16);
      out ← alg_encrypt fd in_ 16;
      match out with
      | None => close fd;; mret None
      | Some out =>
        encrypted ← of_ub (swap_buf out 16);
        close fd;;
        mret (Some encrypted)
      end.

Definition bt_crypto_ah (has_crypto : bool) (k r : bytes) : K (option bytes) :=
  if negb has_crypto then mret None
  else
    r3 ← of_ub (ld r 0 3);
    encrypted ← bt_crypto_e true k (r3 ++ replicate 13 0);
    match encrypted with
    | None => mret None
    | Some encrypted => hash ← of_ub (ld encrypted 0 3); mret (Some hash)
    end.

(** Two words of 64 bits. *)
Definition u128_xor (p q : bytes) : ub bytes :=
  pa ← ld p 0 8; pb ← ld p 8 8;
  qa ← ld q 0 8; qb ← ld q 8 8;
  Some (le_bytes 8 (Z.lxor (le_val pa) (le_val qa)) ++ le_bytes 8 (Z.lxor (le_val pb) (le_val qb))).

Definition bt_crypto_c1 (has_crypto : bool) (k r pres preq : bytes) (iat : Z) (ia : bytes) (rat : Z)
    (ra : bytes) : K (option bytes) :=
  preq7 ← of_ub (ld preq 0 7);
  pres7 ← of_ub (ld pres 0 7);
  ra6 ← of_ub (ld ra 0 6);
  ia6 ← of_ub (ld ia 0 6);
  let p1 := [u8 iat; u8 rat] ++ preq7 ++ pres7 in
  let p2 := ra6 ++ ia6 ++ replicate 4 0 in
  res ← of_ub (u128_xor r p1);
  res ← bt_crypto_e has_crypto k res;
  match res with
  | None => mret None
  | Some res =>
    res ← of_ub (u128_xor res p2);
    bt_crypto_e has_crypto k res
  end.

Definition bt_crypto_s1 (has_crypto : bool) (k r1 r2 : bytes) : K (option bytes) :=
  a ← of_ub (ld r2 0 8);
  b ← of_ub (ld r1 0 8);
  bt_crypto_e has_crypto k (a ++ b).

(** A NULL [crypto] is dereferenced. *)
Definition aes_cmac (has_crypto : bool) (key msg : bytes) : K (option bytes) :=
  let msg_len := zlen msg in
  if CMAC_MSG_MAX <? msg_len then mret None
  else
    key_msb ← of_ub (swap_buf key 16);
    c ← (if has_crypto then get_crypto else undef);
    fd ← alg_new (cmac_aes c) key_msb;
    if fd <? 0 then mret None
    else
      msg_msb ← of_ub (swap_buf msg msg_len);
      ok ← send fd msg_msb;
      if negb ok then close fd;; mret None
      else
        out ← read fd 16;
        match out with
        | None => close fd;; mret None
        | Some out =>
          res ← of_ub (swap_buf out 16);
          close fd;;
          mret (Some res)
        end.

Definition bt_crypto_f4 (has_crypto : bool) (u v x : bytes) (z : Z) : K (option bytes) :=
  if negb has_crypto then mret None
  else
    v32 ← of_ub (ld v 0 32);
    u32' ← of_ub (ld u 0 32);
    aes_cmac true x ([u8 z] ++ v32 ++ u32').

Definition btle : bytes := [0x65; 0x6c; 0x74; 0x62].
Definition salt : bytes :=
  [0xbe; 0x83; 0x60; 0x5a; 0xdb; 0x0b; 0x37; 0x60;
   0x38; 0xa5; 0xf5; 0xaa; 0x91; 0x83; 0x88; 0x6c].

(** The MAC key and the long term key. *)
Definition bt_crypto_f5 (has_crypto : bool) (w n1 n2 a1 a2 : bytes) : K (option (bytes * bytes)) :=
  w32 ← of_ub (ld w 0 32);
  t ← aes_cmac has_crypto salt w32;
  match t with
  | None => mret None
  | Some t =>
    a2' ← of_ub (ld a2 0 7);
    a1' ← of_ub (ld a1 0 7);
    n2' ← of_ub (ld n2 0 16);
    n1' ← of_ub (ld n1 0 16);
    let m := [0x00; 0x01] ++ a2' ++ a1' ++ n2' ++ n1' ++ btle in
    mackey ← aes_cmac has_crypto t (m ++ [0]);
    match mackey with
    | None => mret None
    | Some mackey =>
      ltk ← aes_cmac has_crypto t (m ++ [1]);
      match ltk with
      | None => mret None
      | Some ltk => mret (Some (mackey, ltk))
      end
    end
  end.

Definition bt_crypto_f6 (has_crypto : bool) (w n1 n2 r io_cap a1 a2 : bytes) : K (option bytes) :=
  a2' ← of_ub (ld a2 0 7);
  a1' ← of_ub (ld a1 0 7);
  io' ← of_ub (ld io_cap 0 3);
  r' ← of_ub (ld r 0 16);
  n2' ← of_ub (ld n2 0 16);
  n1' ← of_ub (ld n1 0 16);
  aes_cmac has_crypto w (a2' ++ a1' ++ io' ++ r' ++ n2' ++ n1').

Definition bt_crypto_g2 (has_crypto : bool) (u v x y : bytes) : K (option Z) :=
  y' ← of_ub (ld y 0 16);
  v' ← of_ub (ld v 0 32);
  u' ← of_ub (ld u 0 32);
  tmp ← aes_cmac has_crypto x (y' ++ v' ++ u');
  match tmp with
  | None => mret None
  | Some tmp => val ← of_ub (get_le32 tmp 0); mret (Some (val mod 1000000))
  end.

Definition bt_crypto_h6 (has_crypto : bool) (w keyid : bytes) : K (option bytes) :=
  id ← of_ub (ld keyid 0 4);
  aes_cmac has_crypto w id.
End kernel.
