(* ===== verification/CryptoSpec.v ===== *)
(** The functions of Crypto.v against the formulas of the Bluetooth core specification on
    integers, and the descriptors they open. *)
From Stdlib Require Import ZArith Lia.
From S2P Require Import Prelude Blocks StateM Crypto.
From stdpp Require Import base numbers list option.

Local Open Scope Z_scope.

(** ** Descriptors *)

Definition fresh (w : world) : Prop := 0 <= next_fd w /\ Forall (fun x => 0 <= x.1 < next_fd w) (socks w).

(** An object whose sockets are open. *)
Definition ready (w : world) : Prop :=
  fresh w /\ exists c, crypto w = Some c /\
    find_sock (socks w) (ecb_aes c) = Some (Sock EcbAes None None) /\
    find_sock (socks w) (cmac_aes c) = Some (Sock CmacAes None None).

(** Everything that was opened is closed again. *)
Definition same (w w' : world) : Prop :=
  socks w' = socks w /\ crypto w' = crypto w /\ next_fd w <= next_fd w'.

Lemma same_refl w : same w w.
Proof. done. Qed.
Lemma same_trans w1 w2 w3 : same w1 w2 -> same w2 w3 -> same w1 w3.
Proof. intros (H1 & H2 & H3) (H4 & H5 & H6). split_and!; [congruence..|lia]. Qed.

Lemma fresh_le w w' : fresh w -> socks w' = socks w -> next_fd w <= next_fd w' -> fresh w'.
Proof.
  intros (H1 & H2) H3 H4. split; [lia|]. rewrite H3. eapply Forall_impl; [|exact H2].
  cbn. intros x Hx. lia.
Qed.
Lemma ready_same w w' : ready w -> same w w' -> ready w'.
Proof.
  intros (Hf & c & Hc & H1 & H2) (H3 & H4 & H5). split; [by eapply fresh_le|].
  exists c. by rewrite H3, H4.
Qed.

Lemma drop_below l n fd : Forall (fun x : Z * sock => 0 <= x.1 < n) l -> n <= fd -> drop_sock l fd = l.
Proof.
  intros H Hn. induction H as [|x l Hx Hl IH]; [done|]. unfold drop_sock in *. cbn.
  rewrite (proj2 (Z.eqb_neq _ _)) by lia. cbn. by rewrite IH.
Qed.
Lemma drop_fresh l n : Forall (fun x : Z * sock => 0 <= x.1 < n) l -> drop_sock l n = l.
Proof. intros. by eapply drop_below. Qed.
Lemma drop_skip x s l fd : x <> fd -> drop_sock ((x, s) :: l) fd = (x, s) :: drop_sock l fd.
Proof. intros H. unfold drop_sock. cbn. by rewrite (proj2 (Z.eqb_neq _ _)). Qed.

Lemma find_head l fd s : find_sock ((fd, s) :: l) fd = Some s.
Proof. cbn. by rewrite Z.eqb_refl. Qed.

Lemma drop_head l fd s : drop_sock ((fd, s) :: l) fd = drop_sock l fd.
Proof. unfold drop_sock. cbn. by rewrite Z.eqb_refl. Qed.

(** ** Numbers and arrays *)

Lemma rev_le n x : rev (le_bytes n x) = be_bytes n x.
Proof. done. Qed.
Lemma rev_be n x : rev (be_bytes n x) = le_bytes n x.
Proof. unfold be_bytes. apply rev_involutive. Qed.

Lemma le_bytes_app n m x : le_bytes (n + m) x = le_bytes n x ++ le_bytes m (x / 256 ^ Z.of_nat n).
Proof.
  revert x. induction n as [|n IH]; intros x; cbn [le_bytes app Nat.add].
  - by rewrite Z.div_1_r.
  - rewrite IH. do 3 f_equal. rewrite Nat2Z.inj_succ, Z.pow_succ_r by lia.
    rewrite Z.div_div by lia. done.
Qed.

Lemma le_bytes_mod n x : le_bytes n (x mod 256 ^ Z.of_nat n) = le_bytes n x.
Proof.
  rewrite <- le_val_bytes. rewrite <- (le_bytes_length n x) at 1.
  apply le_bytes_val, le_bytes_ok.
Qed.

Lemma lxor_mod x y k : 0 <= k -> Z.lxor (x mod 2 ^ k) (y mod 2 ^ k) = Z.lxor x y mod 2 ^ k.
Proof.
  intros Hk. rewrite <- !Z.land_ones by done. apply Z.bits_inj'. intros i Hi.
  rewrite Z.lxor_spec, !Z.land_spec, Z.lxor_spec.
  destruct (Z.testbit (Z.ones k) i), (Z.testbit x i), (Z.testbit y i); done.
Qed.

Lemma u128_xor_spec x y :
  u128_xor (le_bytes 16 x) (le_bytes 16 y) = Some (le_bytes 16 (Z.lxor x y)).
Proof.
  unfold u128_xor. rewrite !(le_bytes_app 8 8).
  rewrite !(ld_start (le_bytes 8 _)) by (unfold zlen; by rewrite le_bytes_length).
  rewrite !(ld_end (le_bytes 8 _)) by (unfold zlen; by rewrite le_bytes_length).
  cbn [mbind option_bind]. rewrite !le_val_bytes. change (256 ^ Z.of_nat 8) with (2 ^ 64).
  rewrite !lxor_mod by lia. rewrite <- !Z.shiftr_div_pow2 by lia. rewrite <- Z.shiftr_lxor.
  change (2 ^ 64) with (256 ^ Z.of_nat 8). by rewrite !le_bytes_mod.
Qed.

Lemma ld_le n x : ld (le_bytes n x) 0 (Z.of_nat n) = Some (le_bytes n x).
Proof. apply ld_all. len_lia. Qed.

(** [hi || lo] where [lo] has [n] bytes. *)
Definition cat (n : nat) (hi lo : Z) : Z := hi * 256 ^ Z.of_nat n + lo mod 256 ^ Z.of_nat n.

Lemma le_bytes_cat n m hi lo : le_bytes (n + m) (cat n hi lo) = le_bytes n lo ++ le_bytes m hi.
Proof.
  assert (0 < 256 ^ Z.of_nat n) as Hp by lia.
  rewrite le_bytes_app. unfold cat. f_equal.
  - rewrite <- le_bytes_mod. rewrite Z.add_comm, Z_mod_plus_full, Z.mod_mod by lia.
    apply le_bytes_mod.
  - rewrite Z.div_add_l by lia. by rewrite (Z.div_small (lo mod _)), Z.add_0_r by (apply Z.mod_pos_bound; lia).
Qed.

(** ** Sessions with the kernel *)

Section kernel.
Context (fails : nat -> bool) (aes cmac : bytes -> bytes -> bytes).
(** A block and a hash have 16 bytes. *)
Hypothesis aes_block : forall k b, zlen b = 16 -> zlen (aes k b) = 16 /\ bytes_ok (aes k b).
Hypothesis cmac_block : forall k m, zlen (cmac k m) = 16 /\ bytes_ok (cmac k m).

(** The value, or nothing because a system call failed. *)
Definition outcome {A} (v : A) (r : option A) : Prop :=
  r = Some v \/ (r = None /\ exists n, fails n = true).

Lemma wp_sys Q w :
  (Q true (World (socks w) (next_fd w) (S (calls w)) (crypto w))) ->
  (fails (calls w) = true -> Q false (World (socks w) (next_fd w) (S (calls w)) (crypto w))) ->
  wp (sys fails) Q w.
Proof using Type.
  intros H1 H2. unfold sys. eexists _, _. split; [reflexivity|].
  destruct (fails (calls w)); [by apply H2|exact H1].
Qed.

(** The new descriptor is in front of the others. *)
Lemma wp_alg_new fd key a Q w :
  find_sock (socks w) fd = Some (Sock a None None) ->
  (forall n, Q (next_fd w)
       (World ((next_fd w, Sock a (Some key) None) :: socks w) (next_fd w + 1) n (crypto w))) ->
  (forall n m, fails m = true -> Q (-1) (World (socks w) (next_fd w) n (crypto w))) ->
  wp (alg_new fails fd key) Q w.
Proof using Type.
  intros Hs H1 H2. unfold alg_new. apply wp_bind, wp_sys.
  - cbn [negb]. apply wp_bind, wp_gets. cbn [socks]. rewrite Hs. apply wp_bind, wp_sys.
    + eexists _, _. split; [reflexivity|]. apply H1.
    + intros Hf. apply wp_ret. by eapply H2.
  - intros Hf. cbn [negb]. apply wp_ret. by eapply H2.
Qed.

(** A socket that was just opened: send, read 16 bytes, close. *)
Lemma wp_sock_send fd a key out msg l n c Q calls :
  (forall calls, Q true (World ((fd, Sock a (Some key)
       (Some (match a with EcbAes => aes key msg | _ => cmac key msg end))) :: drop_sock l fd) n calls c)) ->
  (forall calls m, fails m = true -> Q false (World ((fd, Sock a (Some key) out) :: l) n calls c)) ->
  wp (send fails aes cmac fd msg) Q (World ((fd, Sock a (Some key) out) :: l) n calls c).
Proof using Type.
  intros H1 H2. unfold send. apply wp_bind, wp_sys.
  - apply wp_bind, wp_gets. cbn [socks]. rewrite find_head. cbn [negb].
    apply wp_bind, wp_modify, wp_ret. cbn [socks next_fd Crypto.calls crypto]. rewrite drop_head.
    apply H1.
  - intros Hf. apply wp_bind, wp_gets. cbn [socks]. rewrite find_head. cbn [negb].
    apply wp_ret. by eapply H2.
Qed.

Lemma wp_read fd a key out l n c Q calls :
  zlen out = 16 ->
  (forall calls, Q (Some out) (World ((fd, Sock a key (Some out)) :: l) n calls c)) ->
  (forall calls m, fails m = true -> Q None (World ((fd, Sock a key (Some out)) :: l) n calls c)) ->
  wp (read fails fd 16) Q (World ((fd, Sock a key (Some out)) :: l) n calls c).
Proof using Type.
  intros Ho H1 H2. unfold read. apply wp_bind, wp_sys.
  - apply wp_bind, wp_gets. cbn [socks]. rewrite find_head. cbn [negb].
    apply wp_bind. unfold of_ub. rewrite ld_all by done. eexists _, _. split; [done|].
    by apply wp_ret.
  - intros Hf. apply wp_bind, wp_gets. cbn [socks]. rewrite find_head. cbn [negb].
    apply wp_ret. by eapply H2.
Qed.

Lemma wp_ub {A} (x : option A) a Q (w : world) : x = Some a -> Q a w -> wp (of_ub x) Q w.
Proof using Type. intros -> HQ. by exists a, w. Qed.

Lemma swap_buf_all b n : n = zlen b -> swap_buf b n = Some (rev b).
Proof using Type. intros ->. unfold swap_buf. by rewrite ld_all. Qed.

(** The result of a session, once its socket is closed. *)
Lemma same_close w l n calls s :
  fresh w -> l = socks w -> next_fd w <= n ->
  same w (World (drop_sock ((next_fd w, s) :: l) (next_fd w)) n calls (crypto w)).
Proof using Type.
  intros (_ & Hf) -> Hn. rewrite drop_head, drop_fresh by done. by split_and!.
Qed.

Lemma e_runs key block w :
  ready w -> zlen key = 16 -> zlen block = 16 ->
  wp (bt_crypto_e fails aes cmac true key block)
    (fun r w' => same w w' /\ outcome (rev (aes (rev key) (rev block))) r) w.
Proof using aes_block.
  intros (Hf & c & Hc & He & _) Hk Hb. unfold bt_crypto_e. cbn [negb].
  assert (forall b : bytes, zlen (rev b) = zlen b) as Hrev by (intros; unfold zlen; by rewrite length_rev).
  apply wp_bind. eapply wp_ub; [by apply swap_buf_all|].
  apply wp_bind. eapply wp_get_some; [exact Hc|].
  apply wp_bind. eapply wp_alg_new; [exact He| |].
  2:{ intros n m Hm. cbn [Z.ltb Z.compare]. apply wp_ret. split; [by split_and!|].
      right. by split; [|exists m]. }
  intros n. pose proof Hf as (Hnn & Hall). rewrite (proj2 (Z.ltb_ge _ _)) by done.
  apply wp_bind. eapply wp_ub; [by apply swap_buf_all|].
  apply wp_bind. unfold alg_encrypt. apply wp_bind, wp_sock_send.
  2:{ intros n1 m Hm. apply wp_ret. apply wp_bind, wp_modify, wp_ret. split.
      - apply (same_close w); [done|reflexivity|cbn; lia].
      - right. by split; [|exists m]. }
  intros n1. rewrite drop_fresh by done. eapply wp_read.
  { apply (aes_block (rev key) (rev block)). by rewrite Hrev. }
  2:{ intros n2 m Hm. apply wp_bind, wp_modify, wp_ret. split.
      - apply (same_close w); [done|reflexivity|cbn; lia].
      - right. by split; [|exists m]. }
  intros n2. apply wp_bind.
  eapply wp_ub; [apply swap_buf_all; rewrite (proj1 (aes_block _ _ ltac:(by rewrite Hrev))); done|].
  apply wp_bind, wp_modify, wp_ret. split.
  - apply (same_close w); [done|reflexivity|cbn; lia].
  - by left.
Qed.

Lemma cmac_runs key msg w :
  ready w -> zlen key = 16 -> zlen msg <= 80 ->
  wp (aes_cmac fails aes cmac true key msg)
    (fun r w' => same w w' /\ outcome (rev (cmac (rev key) (rev msg))) r) w.
Proof using cmac_block.
  intros (Hf & c & Hc & _ & He) Hk Hb. unfold aes_cmac, CMAC_MSG_MAX.
  rewrite (proj2 (Z.ltb_ge _ _)) by done.
  apply wp_bind. eapply wp_ub; [by apply swap_buf_all|].
  apply wp_bind. eapply wp_get_some; [exact Hc|].
  apply wp_bind. eapply wp_alg_new; [exact He| |].
  2:{ intros n m Hm. cbn [Z.ltb Z.compare]. apply wp_ret. split; [by split_and!|].
      right. by split; [|exists m]. }
  intros n. pose proof Hf as (Hnn & Hall). rewrite (proj2 (Z.ltb_ge _ _)) by done.
  apply wp_bind. eapply wp_ub; [by apply swap_buf_all|].
  apply wp_bind, wp_sock_send.
  2:{ intros n1 m Hm. cbn [negb]. apply wp_bind, wp_modify, wp_ret. split.
      - apply (same_close w); [done|reflexivity|cbn; lia].
      - right. by split; [|exists m]. }
  intros n1. cbn [negb]. rewrite drop_fresh by done. apply wp_bind. eapply wp_read.
  { apply cmac_block. }
  2:{ intros n2 m Hm. apply wp_bind, wp_modify, wp_ret. split.
      - apply (same_close w); [done|reflexivity|cbn; lia].
      - right. by split; [|exists m]. }
  intros n2. apply wp_bind.
  eapply wp_ub; [apply swap_buf_all; by rewrite (proj1 (cmac_block _ _))|].
  apply wp_bind, wp_modify, wp_ret. split.
  - apply (same_close w); [done|reflexivity|cbn; lia].
  - by left.
Qed.

(** *** The functions on integers *)

(** The security function e and AES-CMAC of the core specification. *)
Definition E (k p : Z) : Z := be_val (aes (be_bytes 16 k) (be_bytes 16 p)).
Definition MAC (k : Z) (m : bytes) : Z := be_val (cmac (be_bytes 16 k) m).

(** A result of a function of the object: its sockets are unchanged. *)
Definition gives {A} (e : M world (option A)) (v : A) (w : world) : Prop :=
  wp e (fun r w' => same w w' /\ outcome v r) w.

Lemma gives_ret {A} (v : A) w : gives (mret (Some v)) v w.
Proof using Type. apply wp_ret. split; [done|by left]. Qed.

(** The rest of a function runs only when the first call succeeds. *)
Lemma gives_bind {A B} (e : M world (option A)) v (f : A -> M world (option B)) u w :
  ready w -> gives e v w -> (forall w', ready w' -> gives (f v) u w') ->
  gives (r ← e; match r with None => mret None | Some a => f a end) u w.
Proof using Type.
  intros Hw He Hf. apply wp_bind. eapply wp_mono; [|exact He].
  intros r w1 (Hs & [-> | (-> & Hn)]).
  - eapply wp_mono; [|apply Hf; by eapply ready_same]. intros r w2 (Hs2 & Hr).
    split; [by eapply same_trans|done].
  - apply wp_ret. split; [done|by right].
Qed.

Lemma gives_of_ub {A B} (x : option A) a (f : A -> M world (option B)) u w :
  x = Some a -> gives (f a) u w -> gives (b ← of_ub x; f b) u w.
Proof using Type. intros Hx Hf. apply wp_bind. by eapply wp_ub. Qed.

Lemma le_val_rev l n : length l = n -> bytes_ok l -> le_bytes n (be_val l) = rev l.
Proof using Type.
  intros <- Hl. unfold be_val. rewrite <- (length_rev l). by apply le_bytes_val, bytes_ok_rev.
Qed.

Lemma e_gives k p w :
  ready w -> gives (bt_crypto_e fails aes cmac true (le_bytes 16 k) (le_bytes 16 p)) (le_bytes 16 (E k p)) w.
Proof using aes_block.
  intros Hw. unfold E. destruct (aes_block (be_bytes 16 k) (be_bytes 16 p)) as (Hl & Hb); [len_lia|].
  rewrite le_val_rev; [|unfold zlen in Hl; lia|done].
  apply e_runs; [done|len_lia..].
Qed.

Lemma cmac_gives k m w :
  ready w -> zlen m <= 80 ->
  gives (aes_cmac fails aes cmac true (le_bytes 16 k) m) (le_bytes 16 (MAC k (rev m))) w.
Proof using cmac_block.
  intros Hw Hm. unfold MAC. destruct (cmac_block (be_bytes 16 k) (rev m)) as (Hl & Hb).
  rewrite le_val_rev; [|unfold zlen in Hl; lia|done].
  apply cmac_runs; [done|len_lia|done].
Qed.

Lemma gives_e {u} (f : M world (option bytes)) k x p w :
  f = bt_crypto_e fails aes cmac true (le_bytes 16 k) x -> x = le_bytes 16 p -> u = le_bytes 16 (E k p) ->
  ready w -> gives f u w.
Proof using aes_block. intros -> -> -> Hw. by apply e_gives. Qed.

Lemma gives_cmac (f : M world (option bytes)) k x m w :
  f = aes_cmac fails aes cmac true (le_bytes 16 k) x -> zlen x <= 80 -> m = rev x ->
  ready w -> gives f (le_bytes 16 (MAC k m)) w.
Proof using cmac_block. intros -> Hm -> Hw. by apply cmac_gives. Qed.

(** The counter overwrites the middle of the hash. *)
Lemma sign_bytes k msg cnt :
  exists o1, put_be32 cnt (cmac (be_bytes 16 k) msg) 8 = Some o1 /\
  exists o2, swap_buf o1 16 = Some o2 /\
  ld o2 4 12 = Some (le_bytes 4 cnt ++ le_bytes 8 (MAC k msg / 2 ^ 64)).
Proof using cmac_block.
  unfold MAC. destruct (cmac_block (be_bytes 16 k) msg) as (Hl & Hb).
  set (h := cmac (be_bytes 16 k) msg) in *. assert (exists x, be_val h = x /\
    h = rev (le_bytes 8 (x / 2 ^ 64)) ++ rev (le_bytes 4 (x / 2 ^ 32)) ++ rev (le_bytes 4 x)) as (x & Hx & Hh).
  { assert (le_bytes 16 (be_val h) = rev h) as Hr.
    { apply le_val_rev; [unfold zlen in *; lia|done]. }
    remember (be_val h) as x eqn:Ex. exists x. split; [done|]. rewrite <- !rev_app_distr.
    rewrite <- (rev_involutive h), <- Hr. f_equal.
    rewrite (le_bytes_app 4 12 x : le_bytes 16 x = _), (le_bytes_app 4 8 (x / 256 ^ Z.of_nat 4) : le_bytes 12 _ = _).
    rewrite <- app_assoc. do 3 f_equal. by rewrite Z.div_div by lia. }
  rewrite Hx, Hh. eexists. split; [apply st_mid; len_lia|].
  eexists. split; [apply swap_buf_all; len_lia|].
  rewrite !rev_app_distr, !rev_involutive, <- app_assoc, rev_be.
  apply ld_end; len_lia.
Qed.

(** C22. The functions of the pairing over Bluetooth Low Energy are those of the core
    specification: for keys, nonces, addresses and parameters as integers, [e] encrypts, [ah]
    is the low 24 bits of the encryption of the padded number, [c1] encrypts twice under the
    exclusive or with p1 = pres || preq || rat || iat and p2 = ia || ra, [s1] encrypts
    r1' || r2', [f4], [f5], [f6] and [h6] hash the concatenations of the specification most
    significant byte first and [g2] is the low 32 bits of the hash modulo one million; the
    result is that value, or false when a system call failed, and every descriptor the call
    opened is closed. *)
Theorem crypto_pairing_spec w :
  ready w ->
  (forall k p, gives (bt_crypto_e fails aes cmac true (le_bytes 16 k) (le_bytes 16 p))
     (le_bytes 16 (E k p)) w) /\
  (forall k r, gives (bt_crypto_ah fails aes cmac true (le_bytes 16 k) (le_bytes 3 r))
     (le_bytes 3 (E k (cat 3 0 r))) w) /\
  (forall k r pres preq iat ia rat ra,
     gives (bt_crypto_c1 fails aes cmac true (le_bytes 16 k) (le_bytes 16 r) (le_bytes 7 pres)
              (le_bytes 7 preq) iat (le_bytes 6 ia) rat (le_bytes 6 ra))
       (let p1 := cat 9 pres (cat 2 preq (cat 1 rat iat)) in
        let p2 := cat 12 0 (cat 6 ia ra) in
        le_bytes 16 (E k (Z.lxor (E k (Z.lxor r p1)) p2))) w) /\
  (forall k r1 r2, gives (bt_crypto_s1 fails aes cmac true (le_bytes 16 k) (le_bytes 16 r1) (le_bytes 16 r2))
     (le_bytes 16 (E k (cat 8 r1 r2))) w) /\
  (forall u v x z, gives (bt_crypto_f4 fails aes cmac true (le_bytes 32 u) (le_bytes 32 v) (le_bytes 16 x) z)
     (le_bytes 16 (MAC x (be_bytes 32 u ++ be_bytes 32 v ++ be_bytes 1 z))) w) /\
  (forall dh n1 n2 a1 a2,
     gives (bt_crypto_f5 fails aes cmac true (le_bytes 32 dh) (le_bytes 16 n1) (le_bytes 16 n2)
              (le_bytes 7 a1) (le_bytes 7 a2))
       (let t := MAC 0x6C888391AAF5A53860370BDB5A6083BE (be_bytes 32 dh) in
        let m counter := be_bytes 1 counter ++ be_bytes 4 0x62746C65 ++ be_bytes 16 n1 ++
          be_bytes 16 n2 ++ be_bytes 7 a1 ++ be_bytes 7 a2 ++ be_bytes 2 256 in
        (le_bytes 16 (MAC t (m 0)), le_bytes 16 (MAC t (m 1)))) w) /\
  (forall key n1 n2 r io a1 a2,
     gives (bt_crypto_f6 fails aes cmac true (le_bytes 16 key) (le_bytes 16 n1) (le_bytes 16 n2)
              (le_bytes 16 r) (le_bytes 3 io) (le_bytes 7 a1) (le_bytes 7 a2))
       (le_bytes 16 (MAC key (be_bytes 16 n1 ++ be_bytes 16 n2 ++ be_bytes 16 r ++ be_bytes 3 io ++
          be_bytes 7 a1 ++ be_bytes 7 a2))) w) /\
  (forall u v x y,
     gives (bt_crypto_g2 fails aes cmac true (le_bytes 32 u) (le_bytes 32 v) (le_bytes 16 x) (le_bytes 16 y))
       (MAC x (be_bytes 32 u ++ be_bytes 32 v ++ be_bytes 16 y) mod 2 ^ 32 mod 1000000) w) /\
  (forall key id, gives (bt_crypto_h6 fails aes cmac true (le_bytes 16 key) (le_bytes 4 id))
     (le_bytes 16 (MAC key (be_bytes 4 id))) w).
Proof using All.
  intros Hw. split_and!.
  - intros k p. by apply e_gives.
  - intros k r. unfold bt_crypto_ah. cbn [negb].
    eapply gives_of_ub; [apply (ld_le 3)|]. eapply gives_bind; [done| |].
    + eapply (gives_e _ k _ (cat 3 0 r)); [done|by rewrite (le_bytes_cat 3 13)|done..].
    + intros w1 Hw1. cbn beta iota. eapply gives_of_ub; [|apply gives_ret].
      rewrite (le_bytes_app 3 13). apply ld_start. len_lia.
  - intros k r pres preq iat ia rat ra. unfold bt_crypto_c1.
    do 2 (eapply gives_of_ub; [apply (ld_le 7)|]).
    do 2 (eapply gives_of_ub; [apply (ld_le 6)|]). cbv zeta.
    eapply gives_of_ub.
    { replace ([u8 iat; u8 rat] ++ le_bytes 7 preq ++ le_bytes 7 pres) with
        (le_bytes 16 (cat 9 pres (cat 2 preq (cat 1 rat iat)))); [apply u128_xor_spec|].
      rewrite (le_bytes_cat 9 7), (le_bytes_cat 2 7), (le_bytes_cat 1 1). done. }
    eapply gives_bind; [done|by apply e_gives|]. intros w1 Hw1. cbn beta iota.
    eapply gives_of_ub.
    { replace (le_bytes 6 ra ++ le_bytes 6 ia ++ replicate 4 0) with
        (le_bytes 16 (cat 12 0 (cat 6 ia ra))); [apply u128_xor_spec|].
      rewrite (le_bytes_cat 12 4), (le_bytes_cat 6 6). by rewrite <- app_assoc. }
    by apply e_gives.
  - intros k r1 r2. unfold bt_crypto_s1. rewrite (le_bytes_app 8 8 r1 : le_bytes 16 r1 = _), (le_bytes_app 8 8 r2 : le_bytes 16 r2 = _).
    do 2 (eapply gives_of_ub; [apply ld_start; len_lia|]).
    eapply gives_e; [done| |done..]. by rewrite (le_bytes_cat 8 8).
  - intros u v x z. unfold bt_crypto_f4. cbn [negb].
    do 2 (eapply gives_of_ub; [apply (ld_le 32)|]).
    eapply gives_cmac; [done|len_lia| |done]. by rewrite !rev_app_distr, <- app_assoc.
  - intros dh n1 n2 a1 a2. unfold bt_crypto_f5, btle.
    eapply gives_of_ub; [apply (ld_le 32)|]. change salt with (le_bytes 16 0x6C888391AAF5A53860370BDB5A6083BE).
    eapply gives_bind; [done|apply cmac_gives; [done|len_lia]|]. intros w1 Hw1. cbn beta iota.
    do 2 (eapply gives_of_ub; [apply (ld_le 7)|]).
    do 2 (eapply gives_of_ub; [apply (ld_le 16)|]). cbv zeta.
    eapply gives_bind; [done|apply cmac_gives; [done|len_lia]|]. intros w2 Hw2. cbn beta iota.
    eapply gives_bind; [done|apply cmac_gives; [done|len_lia]|]. intros w3 Hw3. cbn beta iota.
    match goal with |- gives (mret (Some ?v)) ?u w3 => replace u with v; [apply gives_ret|] end.
    rewrite !rev_app_distr, <- !app_assoc. done.
  - intros key n1 n2 r io a1 a2. unfold bt_crypto_f6.
    do 2 (eapply gives_of_ub; [apply (ld_le 7)|]). eapply gives_of_ub; [apply (ld_le 3)|].
    do 3 (eapply gives_of_ub; [apply (ld_le 16)|]).
    eapply gives_cmac; [done|len_lia| |done]. by rewrite !rev_app_distr, <- !app_assoc.
  - intros u v x y. unfold bt_crypto_g2.
    eapply gives_of_ub; [apply (ld_le 16)|]. do 2 (eapply gives_of_ub; [apply (ld_le 32)|]).
    eapply gives_bind; [done|apply cmac_gives; [done|len_lia]|]. intros w1 Hw1. cbn beta iota.
    eapply gives_of_ub.
    { unfold get_le32. rewrite (le_bytes_app 4 12), ld_start by len_lia.
      cbn [fmap option_fmap option_map]. by rewrite le_val_bytes. }
    rewrite !rev_app_distr, <- !app_assoc. apply gives_ret.
  - intros key id. unfold bt_crypto_h6. eapply gives_of_ub; [apply (ld_le 4)|].
    by eapply gives_cmac; [done|len_lia| |done].
Qed.

Lemma sign_gives k m cnt w :
  ready w -> zlen m + 4 < 2 ^ 16 ->
  gives (bt_crypto_sign_att fails aes cmac true (le_bytes 16 k) m (zlen m) cnt)
    (le_bytes 4 cnt ++ le_bytes 8 (MAC k (rev (m ++ le_bytes 4 cnt)) / 2 ^ 64)) w.
Proof using cmac_block.
  intros Hw Hm. unfold bt_crypto_sign_att. cbn [negb]. pose proof (zlen_nonneg m) as Hm0.
  rewrite (u16_small (zlen m + 4)) by (unfold is_u16; lia).
  eapply gives_of_ub; [by apply ld_all|]. eapply gives_of_ub.
  { rewrite <- (app_nil_l (replicate _ _)). replace (Z.to_nat (zlen m + 4)) with (length m + 4)%nat by len_lia.
    rewrite replicate_add. apply (st_head (replicate (length m) 0)). len_lia. }
  eapply gives_of_ub.
  { unfold put_le32. rewrite <- (app_nil_r (replicate 4 0)). apply (st_mid m (replicate 4 0) []); len_lia. }
  rewrite app_nil_r. set (msg := m ++ le_bytes 4 cnt).
  assert (zlen m + 4 = zlen msg) as -> by (unfold msg; len_lia).
  destruct Hw as (Hf & c & Hc & _ & He). unfold gives.
  eapply gives_of_ub; [by apply swap_buf_all; len_lia|].
  apply wp_bind. eapply wp_get_some; [exact Hc|].
  apply wp_bind. eapply wp_alg_new; [exact He| |].
  2:{ intros n n1 Hn. cbn [Z.ltb Z.compare]. apply wp_ret. split; [by split_and!|].
      right. by split; [|exists n1]. }
  intros n. pose proof Hf as (Hnn & Hall). rewrite (proj2 (Z.ltb_ge _ _)) by done.
  apply wp_bind. eapply wp_ub; [by apply swap_buf_all|].
  apply wp_bind, wp_sock_send.
  2:{ intros n1 n2 Hn. cbn [negb]. apply wp_bind, wp_modify, wp_ret. split.
      - apply (same_close w); [done|reflexivity|cbn; lia].
      - right. by split; [|exists n2]. }
  intros n1. cbn [negb]. rewrite drop_fresh by done. apply wp_bind. eapply wp_read.
  { apply cmac_block. }
  2:{ intros n2 n3 Hn. apply wp_bind, wp_modify, wp_ret. split.
      - apply (same_close w); [done|reflexivity|cbn; lia].
      - right. by split; [|exists n3]. }
  intros n2. apply wp_bind, wp_modify.
  rewrite rev_le. destruct (sign_bytes k (rev msg) cnt) as (o1 & H1 & o2 & H2 & H3).
  apply wp_bind. eapply wp_ub; [exact H1|]. apply wp_bind. eapply wp_ub; [exact H2|].
  apply wp_bind. eapply wp_ub; [exact H3|]. apply wp_ret. split.
  - apply (same_close w); [done|reflexivity|cbn; lia].
  - by left.
Qed.

(** The signature of an attribute protocol PDU is its counter, then the 64 most
    significant bits of the hash of the PDU followed by the counter, or false when a system
    call failed, for PDUs of up to 65531 bytes; a longer one does not fit the array whose
    16-bit length wraps around, which is undefined. *)
Theorem crypto_sign_att_spec k m cnt w :
  ready w -> zlen m < 2 ^ 16 ->
  if zlen m + 4 <? 2 ^ 16
  then gives (bt_crypto_sign_att fails aes cmac true (le_bytes 16 k) m (zlen m) cnt)
         (le_bytes 4 cnt ++ le_bytes 8 (MAC k (rev (m ++ le_bytes 4 cnt)) / 2 ^ 64)) w
  else bt_crypto_sign_att fails aes cmac true (le_bytes 16 k) m (zlen m) cnt w = None.
Proof using cmac_block.
  intros Hw Hm. destruct (Z.ltb_spec (zlen m + 4) (2 ^ 16)) as [Hl|Hl]; [by apply sign_gives|].
  assert (u16 (zlen m + 4) = zlen m + 4 - 2 ^ 16) as Hu.
  { unfold u16. symmetry. apply (Z.mod_unique _ _ 1); lia. }
  unfold bt_crypto_sign_att. cbn [negb]. rewrite Hu, ld_all by done.
  erewrite bind_run by reflexivity. cbv [of_ub mbind M_bind].
  unfold st. by rewrite decide_False by len_lia.
Qed.

(** *** The life of an object *)

Lemma wp_urandom_setup Q w :
  (forall n, Q (next_fd w) (World ((next_fd w, Sock Urandom None None) :: socks w) (next_fd w + 1) n (crypto w))) ->
  (forall n, Q (-1) (World (socks w) (next_fd w) n (crypto w))) ->
  wp (urandom_setup fails) Q w.
Proof using Type.
  intros H1 H2. apply wp_bind, wp_sys; [|by intros; apply wp_ret].
  eexists _, _. split; [reflexivity|apply H1].
Qed.

Lemma wp_alg_setup a Q w :
  fresh w ->
  (forall n, Q (next_fd w) (World ((next_fd w, Sock a None None) :: socks w) (next_fd w + 1) n (crypto w))) ->
  (forall n m, next_fd w <= m -> Q (-1) (World (socks w) m n (crypto w))) ->
  wp (alg_setup fails a) Q w.
Proof using Type.
  intros (Hn & Hf) H1 H2. apply wp_bind, wp_sys; cbn [negb].
  - apply wp_bind. eexists _, _. split; [reflexivity|]. cbn [socks next_fd calls crypto].
    apply wp_bind, wp_sys; cbn [negb].
    + apply wp_ret, H1.
    + intros _. apply wp_bind, wp_modify, wp_ret. cbn [socks next_fd Crypto.calls crypto].
      rewrite drop_head, drop_fresh by done. apply H2. lia.
  - intros _. apply wp_ret, H2. lia.
Qed.

(** Creation, the use of the object, and the release of the last reference. *)
Definition session {A} (body : M world A) : M world bool :=
  ok ← bt_crypto_new fails;
  if ok : bool then body;; bt_crypto_unref;; mret true else mret false.

Lemma new_runs w :
  fresh w ->
  wp (bt_crypto_new fails)
    (fun r w' => next_fd w <= next_fd w' /\
       if r then exists n u m c, ready w' /\ crypto w' = Some c /\ ref_count c = 1 /\
         n < u < m /\ next_fd w <= n /\ ecb_aes c = n /\ urandom c = u /\ cmac_aes c = m /\
         socks w' = [(m, Sock CmacAes None None); (u, Sock Urandom None None); (n, Sock EcbAes None None)] ++ socks w
       else socks w' = socks w /\ crypto w' = crypto w) w.
Proof using Type.
  intros Hf. pose proof Hf as (Hn & Hall). unfold bt_crypto_new.
  apply wp_bind, wp_alg_setup; [done| |].
  2:{ intros n m Hm. apply wp_ret. by split. }
  intros n1. rewrite (proj2 (Z.ltb_ge _ _)) by done.
  apply wp_bind, wp_urandom_setup; cbn [socks next_fd Crypto.calls crypto].
  2:{ intros n2. apply wp_bind, wp_modify, wp_ret. cbn [socks next_fd Crypto.calls crypto].
      rewrite drop_head, drop_fresh by done. split; [lia|done]. }
  intros n2. rewrite (proj2 (Z.ltb_ge _ _)) by lia.
  assert (fresh (World ((next_fd w + 1, Sock Urandom None None) ::
    (next_fd w, Sock EcbAes None None) :: socks w) (next_fd w + 1 + 1) n2 (crypto w))) as Hf2.
  { split; cbn; [lia|]. repeat constructor; cbn; [lia..|]. eapply Forall_impl; [|exact Hall]. cbn. lia. }
  apply wp_bind, wp_alg_setup; [exact Hf2| |]; cbn [socks next_fd Crypto.calls crypto].
  2:{ intros n3 m Hm. do 2 apply wp_bind, wp_modify. apply wp_ret. cbn [socks next_fd Crypto.calls crypto].
      rewrite drop_head, drop_skip, (drop_below _ _ (next_fd w + 1) Hall) by lia.
      rewrite drop_head, drop_fresh by done. split; [lia|done]. }
  intros n3. rewrite (proj2 (Z.ltb_ge _ _)) by lia. apply wp_bind, wp_modify.
  apply wp_bind, wp_bind. eapply wp_get_some; [reflexivity|]. apply wp_modify, wp_ret.
  cbn [socks next_fd Crypto.calls crypto]. split; [lia|].
  eexists _, _, _, _. split_and!; try reflexivity; cbn; try lia.
  split; [split; cbn; [lia|]|].
  - repeat constructor; cbn; [lia..|]. eapply Forall_impl; [|exact Hall]. cbn. lia.
  - eexists. split; [reflexivity|]. cbn.
    rewrite Z.eqb_refl, !(proj2 (Z.eqb_neq _ _)), Z.eqb_refl by lia. done.
Qed.

(** Whatever uses the object, if it returns the sockets it got, a session from
    bt_crypto_new to the last bt_crypto_unref leaves open exactly the descriptors that were
    open before it, also when the creation fails at any of its system calls. *)
Theorem crypto_session_balanced {A} (body : M world A) w :
  fresh w ->
  (forall w, ready w -> wp body (fun _ w' => same w w') w) ->
  wp (session body) (fun r w' => socks w' = socks w /\ fresh w' /\
    (r = true -> crypto w' = None) /\ (r = false -> crypto w' = crypto w)) w.
Proof using Type.
  intros Hf Hbody. pose proof Hf as (Hn0 & Hall). unfold session. apply wp_bind.
  eapply wp_mono; [|by apply new_runs].
  intros [] w1 (Hn & H).
  2:{ destruct H as (H1 & H2). apply wp_ret. split_and!; try done. by eapply fresh_le. }
  destruct H as (n & u & m & c & Hr & Hc & Href & Hlt & Hle & H1 & H2 & H3 & Hs).
  apply wp_bind. eapply wp_mono; [|by apply Hbody]. intros _ w2 (Hs2 & Hc2 & Hn2).
  apply wp_bind. unfold bt_crypto_unref. apply wp_bind.
  eapply wp_get_some; [by rewrite Hc2|]. rewrite Href. cbn [negb Z.sub Z.add Z.opp Z.pos_sub Z.eqb].
  rewrite H1, H2, H3. do 3 apply wp_bind, wp_modify. apply wp_modify, wp_ret.
  cbn [socks next_fd Crypto.calls crypto].
  assert (drop_sock (drop_sock (drop_sock (socks w2) u) n) m = socks w) as ->.
  { rewrite Hs2, Hs. cbn [app].
    rewrite (drop_skip m), drop_head, (drop_skip n), (drop_below _ _ u Hall) by lia.
    rewrite (drop_skip m), (drop_head _ n), (drop_below _ _ n Hall) by lia.
    by rewrite drop_head, (drop_below _ _ m Hall) by lia. }
  split_and!; try done. eapply fresh_le; [exact Hf|done|cbn; lia].
Qed.
End kernel.

(** *** Witnesses *)

(** A toy cipher and a toy hash. *)
Definition toy_aes (k b : bytes) : bytes := be_bytes 16 (5 * be_val k + 3 * be_val b).
Definition toy_cmac (k m : bytes) : bytes := be_bytes 16 (7 * be_val k + 11 * be_val m).
Definition toy_random (n : nat) (len : Z) : bytes := replicate (Z.to_nat len) (Z.of_nat n).

Lemma toy_aes_block k b : zlen b = 16 -> zlen (toy_aes k b) = 16 /\ bytes_ok (toy_aes k b).
Proof. intros _. split; [unfold toy_aes; len_lia|apply be_bytes_ok]. Qed.
Lemma toy_cmac_block k m : zlen (toy_cmac k m) = 16 /\ bytes_ok (toy_cmac k m).
Proof. split; [unfold toy_cmac; len_lia|apply be_bytes_ok]. Qed.

(** An object with its descriptors; the tenth system call fails. *)
Definition toy_world : world :=
  World [(5, Sock CmacAes None None); (4, Sock Urandom None None); (3, Sock EcbAes None None)] 6 0
    (Some (BtCrypto 1 3 4 5)).
Definition toy_fails (n : nat) : bool := bool_decide (n = 9%nat).

Lemma toy_ready : ready toy_world.
Proof.
  split; [split; [done|repeat constructor; cbn; lia]|]. eexists. split; [reflexivity|done].
Qed.

Lemma crypto_pairing_spec_witness :
  gives toy_fails (bt_crypto_g2 toy_fails toy_aes toy_cmac true (le_bytes 32 1) (le_bytes 32 2)
    (le_bytes 16 3) (le_bytes 16 4)) (MAC toy_cmac 3 (be_bytes 32 1 ++ be_bytes 32 2 ++ be_bytes 16 4)
      mod 2 ^ 32 mod 1000000) toy_world.
Proof.
  apply (crypto_pairing_spec toy_fails toy_aes toy_cmac toy_aes_block toy_cmac_block toy_world toy_ready).
Defined.

Lemma crypto_sign_att_spec_witness :
  gives toy_fails (bt_crypto_sign_att toy_fails toy_aes toy_cmac true (le_bytes 16 9) [0xd2; 1; 0; 7] 4 1)
    (le_bytes 4 1 ++ le_bytes 8 (MAC toy_cmac 9 (rev ([0xd2; 1; 0; 7] ++ le_bytes 4 1)) / 2 ^ 64)) toy_world.
Proof.
  apply (crypto_sign_att_spec toy_fails toy_aes toy_cmac toy_cmac_block 9 [0xd2; 1; 0; 7] 1 toy_world
    toy_ready). done.
Defined.

Lemma crypto_session_balanced_witness :
  wp (session toy_fails (bt_crypto_e toy_fails toy_aes toy_cmac true (le_bytes 16 1) (le_bytes 16 2)))
    (fun r w' => socks w' = [] /\ fresh w' /\ (r = true -> crypto w' = None) /\
       (r = false -> crypto w' = None)) (World [] 3 0 None).
Proof.
  apply (crypto_session_balanced toy_fails (bt_crypto_e toy_fails toy_aes toy_cmac true _ _)
    (World [] 3 0 None)).
  - split; [done|constructor].
  - intros w Hw. eapply wp_mono; [|apply (e_gives toy_fails toy_aes toy_cmac toy_aes_block 1 2 w Hw)].
    by intros r w' (H & _).
Defined.
