(* ===== verification/Att.v ===== *)
(** The attribute protocol transport: [struct bt_att] of src/shared/att.c.  It queues the PDUs
    that are sent, matches responses with requests and confirmations with indications, and
    gives what it receives to the handlers of its opcode.  Operations are objects of a store
    ([ops], by address), since the transport keeps pointers to them while it calls the client,
    and the client may call the transport again from every callback ([client]).  The receive
    buffer is a block with an address: a received PDU is a pointer into it, good as long as
    the transport has that block.  The queues are the lists they are proved to be in
    QueueSpec.v. *)
From Stdlib Require Import ZArith Lia.
From S2P Require Import Prelude Blocks StateM Io Crypto.
From stdpp Require Import base numbers list option gmap.

Local Open Scope Z_scope.

(** ** Opcodes *)

Definition ATT_MIN_PDU_LEN : Z := 1.
Definition ATT_OP_CMD_MASK : Z := 0x40.
Definition ATT_OP_SIGNED_MASK : Z := 0x80.
Definition BT_ATT_SIGNATURE_LEN : Z := 12.

Definition BT_ATT_SECURITY_AUTO : Z := 0.
Definition BT_ATT_SECURITY_LOW : Z := 1.
Definition BT_ATT_SECURITY_MEDIUM : Z := 2.
Definition BT_ATT_SECURITY_HIGH : Z := 3.
Definition BT_ATT_SECURITY_FIPS : Z := 4.

Definition BT_ATT_DEFAULT_LE_MTU : Z := 23.
Definition BT_ATT_LINK_BREDR : Z := 0x00.
Definition BT_ATT_LINK_LE : Z := 0x01.
Definition BT_ATT_LINK_LOCAL : Z := 0xff.

Definition BT_ATT_OP_ERROR_RSP : Z := 0x01.
Definition BT_ATT_OP_MTU_REQ : Z := 0x02.
Definition BT_ATT_OP_MTU_RSP : Z := 0x03.
Definition BT_ATT_OP_FIND_INFO_REQ : Z := 0x04.
Definition BT_ATT_OP_FIND_INFO_RSP : Z := 0x05.
Definition BT_ATT_OP_FIND_BY_TYPE_REQ : Z := 0x06.
Definition BT_ATT_OP_FIND_BY_TYPE_RSP : Z := 0x07.
Definition BT_ATT_OP_READ_BY_TYPE_REQ : Z := 0x08.
Definition BT_ATT_OP_READ_BY_TYPE_RSP : Z := 0x09.
Definition BT_ATT_OP_READ_REQ : Z := 0x0a.
Definition BT_ATT_OP_READ_RSP : Z := 0x0b.
Definition BT_ATT_OP_READ_BLOB_REQ : Z := 0x0c.
Definition BT_ATT_OP_READ_BLOB_RSP : Z := 0x0d.
Definition BT_ATT_OP_READ_MULT_REQ : Z := 0x0e.
Definition BT_ATT_OP_READ_MULT_RSP : Z := 0x0f.
Definition BT_ATT_OP_READ_BY_GRP_TYPE_REQ : Z := 0x10.
Definition BT_ATT_OP_READ_BY_GRP_TYPE_RSP : Z := 0x11.
Definition BT_ATT_OP_WRITE_REQ : Z := 0x12.
Definition BT_ATT_OP_WRITE_RSP : Z := 0x13.
Definition BT_ATT_OP_WRITE_CMD : Z := 0x52.
Definition BT_ATT_OP_SIGNED_WRITE_CMD : Z := 0xd2.
Definition BT_ATT_OP_PREP_WRITE_REQ : Z := 0x16.
Definition BT_ATT_OP_PREP_WRITE_RSP : Z := 0x17.
Definition BT_ATT_OP_EXEC_WRITE_REQ : Z := 0x18.
Definition BT_ATT_OP_EXEC_WRITE_RSP : Z := 0x19.
Definition BT_ATT_OP_HANDLE_VAL_NOT : Z := 0x1b.
Definition BT_ATT_OP_HANDLE_VAL_IND : Z := 0x1d.
Definition BT_ATT_OP_HANDLE_VAL_CONF : Z := 0x1e.
Definition BT_ATT_ALL_REQUESTS : Z := 0x00.

Definition BT_ATT_ERROR_INVALID_HANDLE : Z := 0x01.
Definition BT_ATT_ERROR_AUTHENTICATION : Z := 0x05.
Definition BT_ATT_ERROR_REQUEST_NOT_SUPPORTED : Z := 0x06.
Definition BT_ATT_ERROR_UNLIKELY : Z := 0x0e.
Definition BT_ATT_ERROR_INSUFFICIENT_ENCRYPTION : Z := 0x0f.
Definition BT_ATT_ERROR_INSUFFICIENT_RESOURCES : Z := 0x11.
Definition BT_ERROR_ALREADY_IN_PROGRESS : Z := 0xfe.
Definition BT_ERROR_OUT_OF_RANGE : Z := 0xff.

Definition ENOENT : Z := 2.
Definition EIO : Z := 5.
Definition ENOMEM : Z := 12.
Definition EINVAL : Z := 22.
Definition EOVERFLOW : Z := 75.
Definition EALREADY : Z := 114.
Definition AF_BLUETOOTH : Z := 31.
Definition BTPROTO_L2CAP : Z := 0.
Definition BDADDR_BREDR : Z := 0.

Inductive att_op_type :=
  | ATT_OP_TYPE_REQ | ATT_OP_TYPE_RSP | ATT_OP_TYPE_CMD | ATT_OP_TYPE_IND | ATT_OP_TYPE_NOT
  | ATT_OP_TYPE_CONF | ATT_OP_TYPE_UNKNOWN.

#[export] Instance att_op_type_eq : EqDecision att_op_type.
Proof. solve_decision. Defined.

Definition att_opcode_type_table : list (Z * att_op_type) := [
  (BT_ATT_OP_ERROR_RSP, ATT_OP_TYPE_RSP);
  (BT_ATT_OP_MTU_REQ, ATT_OP_TYPE_REQ);
  (BT_ATT_OP_MTU_RSP, ATT_OP_TYPE_RSP);
  (BT_ATT_OP_FIND_INFO_REQ, ATT_OP_TYPE_REQ);
  (BT_ATT_OP_FIND_INFO_RSP, ATT_OP_TYPE_RSP);
  (BT_ATT_OP_FIND_BY_TYPE_REQ, ATT_OP_TYPE_REQ);
  (BT_ATT_OP_FIND_BY_TYPE_RSP, ATT_OP_TYPE_RSP);
  (BT_ATT_OP_READ_BY_TYPE_REQ, ATT_OP_TYPE_REQ);
  (BT_ATT_OP_READ_BY_TYPE_RSP, ATT_OP_TYPE_RSP);
  (BT_ATT_OP_READ_REQ, ATT_OP_TYPE_REQ);
  (BT_ATT_OP_READ_RSP, ATT_OP_TYPE_RSP);
  (BT_ATT_OP_READ_BLOB_REQ, ATT_OP_TYPE_REQ);
  (BT_ATT_OP_READ_BLOB_RSP, ATT_OP_TYPE_RSP);
  (BT_ATT_OP_READ_MULT_REQ, ATT_OP_TYPE_REQ);
  (BT_ATT_OP_READ_MULT_RSP, ATT_OP_TYPE_RSP);
  (BT_ATT_OP_READ_BY_GRP_TYPE_REQ, ATT_OP_TYPE_REQ);
  (BT_ATT_OP_READ_BY_GRP_TYPE_RSP, ATT_OP_TYPE_RSP);
  (BT_ATT_OP_WRITE_REQ, ATT_OP_TYPE_REQ);
  (BT_ATT_OP_WRITE_RSP, ATT_OP_TYPE_RSP);
  (BT_ATT_OP_WRITE_CMD, ATT_OP_TYPE_CMD);
  (BT_ATT_OP_SIGNED_WRITE_CMD, ATT_OP_TYPE_CMD);
  (BT_ATT_OP_PREP_WRITE_REQ, ATT_OP_TYPE_REQ);
  (BT_ATT_OP_PREP_WRITE_RSP, ATT_OP_TYPE_RSP);
  (BT_ATT_OP_EXEC_WRITE_REQ, ATT_OP_TYPE_REQ);
  (BT_ATT_OP_EXEC_WRITE_RSP, ATT_OP_TYPE_RSP);
  (BT_ATT_OP_HANDLE_VAL_NOT, ATT_OP_TYPE_NOT);
  (BT_ATT_OP_HANDLE_VAL_IND, ATT_OP_TYPE_IND);
  (BT_ATT_OP_HANDLE_VAL_CONF, ATT_OP_TYPE_CONF)].

Definition get_op_type (opcode : Z) : att_op_type :=
  match List.find (fun x => fst x =? opcode) att_opcode_type_table with
  | Some (_, type) => type
  | None => if negb (Z.land opcode ATT_OP_CMD_MASK =? 0) then ATT_OP_TYPE_CMD
            else ATT_OP_TYPE_UNKNOWN
  end.

Definition att_req_rsp_mapping_table : list (Z * Z) := [
  (BT_ATT_OP_MTU_REQ, BT_ATT_OP_MTU_RSP);
  (BT_ATT_OP_FIND_INFO_REQ, BT_ATT_OP_FIND_INFO_RSP);
  (BT_ATT_OP_FIND_BY_TYPE_REQ, BT_ATT_OP_FIND_BY_TYPE_RSP);
  (BT_ATT_OP_READ_BY_TYPE_REQ, BT_ATT_OP_READ_BY_TYPE_RSP);
  (BT_ATT_OP_READ_REQ, BT_ATT_OP_READ_RSP);
  (BT_ATT_OP_READ_BLOB_REQ, BT_ATT_OP_READ_BLOB_RSP);
  (BT_ATT_OP_READ_MULT_REQ, BT_ATT_OP_READ_MULT_RSP);
  (BT_ATT_OP_READ_BY_GRP_TYPE_REQ, BT_ATT_OP_READ_BY_GRP_TYPE_RSP);
  (BT_ATT_OP_WRITE_REQ, BT_ATT_OP_WRITE_RSP);
  (BT_ATT_OP_PREP_WRITE_REQ, BT_ATT_OP_PREP_WRITE_RSP);
  (BT_ATT_OP_EXEC_WRITE_REQ, BT_ATT_OP_EXEC_WRITE_RSP)].

Definition get_req_opcode (rsp_opcode : Z) : Z :=
  match List.find (fun x => snd x =? rsp_opcode) att_req_rsp_mapping_table with
  | Some (req_opcode, _) => req_opcode
  | None => 0
  end.

(** ** Objects

    A callback with its user data is the number of the latter; [callback] and [destroy] of an
    operation say whether the function is there. *)

Record callback := Callback { cb_data : Z; cb_destroy : bool }.

Record att_send_op := SendOp {
  op_id : Z;
  timeout_id : Z;
  op_type : att_op_type;
  opcode : Z;
  pdu : bytes;
  op_callback : bool;
  op_destroy : bool;
  op_data : Z;
}.

Record att_notify := Notify {
  notify_id : Z;
  notify_opcode : Z;
  notify_callback : callback;
}.

Record att_disconn := Disconn {
  disconn_id : Z;
  removed : bool;
  disconn_has_callback : bool;
  disconn_callback : callback;
}.

Record sign_info := Sign { sign_key : bytes; sign_data : Z }.

(** A block of memory at an address, with its contents. *)
Record buffer := Block { block_addr : Z; block_data : bytes }.

Record bt_att := Att {
  ref_count : Z;
  fd : Z;
  has_io : bool;
  io_on_l2cap : bool;
  io_sec_level : Z;
  req_queue : list Z;
  pending_req : option Z;
  ind_queue : list Z;
  pending_ind : option Z;
  write_queue : list Z;
  writer_active : bool;
  notify_list : list (Z * att_notify);
  disconn_list : list (Z * att_disconn);
  in_req : bool;
  buf : option buffer;
  mtu : Z;
  next_send_id : Z;
  next_reg_id : Z;
  timeout_callback : option callback;
  debug_callback : option callback;
  has_crypto : bool;
  local_sign : option sign_info;
  remote_sign : option sign_info;
}.

(** Assignments. *)
Definition set_ref_count (a : bt_att) (x : Z) : bt_att :=
  Att x (fd a) (has_io a) (io_on_l2cap a) (io_sec_level a) (req_queue a) (pending_req a)
    (ind_queue a) (pending_ind a) (write_queue a) (writer_active a) (notify_list a)
    (disconn_list a) (in_req a) (buf a) (mtu a) (next_send_id a) (next_reg_id a)
    (timeout_callback a) (debug_callback a) (has_crypto a) (local_sign a) (remote_sign a).
Definition set_has_io (a : bt_att) (x : bool) : bt_att :=
  Att (ref_count a) (fd a) x (io_on_l2cap a) (io_sec_level a) (req_queue a) (pending_req a)
    (ind_queue a) (pending_ind a) (write_queue a) (writer_active a) (notify_list a)
    (disconn_list a) (in_req a) (buf a) (mtu a) (next_send_id a) (next_reg_id a)
    (timeout_callback a) (debug_callback a) (has_crypto a) (local_sign a) (remote_sign a).
Definition set_io_sec_level (a : bt_att) (x : Z) : bt_att :=
  Att (ref_count a) (fd a) (has_io a) (io_on_l2cap a) x (req_queue a) (pending_req a)
    (ind_queue a) (pending_ind a) (write_queue a) (writer_active a) (notify_list a)
    (disconn_list a) (in_req a) (buf a) (mtu a) (next_send_id a) (next_reg_id a)
    (timeout_callback a) (debug_callback a) (has_crypto a) (local_sign a) (remote_sign a).
Definition set_req_queue (a : bt_att) (x : list Z) : bt_att :=
  Att (ref_count a) (fd a) (has_io a) (io_on_l2cap a) (io_sec_level a) x (pending_req a)
    (ind_queue a) (pending_ind a) (write_queue a) (writer_active a) (notify_list a)
    (disconn_list a) (in_req a) (buf a) (mtu a) (next_send_id a) (next_reg_id a)
    (timeout_callback a) (debug_callback a) (has_crypto a) (local_sign a) (remote_sign a).
Definition set_pending_req (a : bt_att) (x : option Z) : bt_att :=
  Att (ref_count a) (fd a) (has_io a) (io_on_l2cap a) (io_sec_level a) (req_queue a) x
    (ind_queue a) (pending_ind a) (write_queue a) (writer_active a) (notify_list a)
    (disconn_list a) (in_req a) (buf a) (mtu a) (next_send_id a) (next_reg_id a)
    (timeout_callback a) (debug_callback a) (has_crypto a) (local_sign a) (remote_sign a).
Definition set_ind_queue (a : bt_att) (x : list Z) : bt_att :=
  Att (ref_count a) (fd a) (has_io a) (io_on_l2cap a) (io_sec_level a) (req_queue a)
    (pending_req a) x (pending_ind a) (write_queue a) (writer_active a) (notify_list a)
    (disconn_list a) (in_req a) (buf a) (mtu a) (next_send_id a) (next_reg_id a)
    (timeout_callback a) (debug_callback a) (has_crypto a) (local_sign a) (remote_sign a).
Definition set_pending_ind (a : bt_att) (x : option Z) : bt_att :=
  Att (ref_count a) (fd a) (has_io a) (io_on_l2cap a) (io_sec_level a) (req_queue a)
    (pending_req a) (ind_queue a) x (write_queue a) (writer_active a) (notify_list a)
    (disconn_list a) (in_req a) (buf a) (mtu a) (next_send_id a) (next_reg_id a)
    (timeout_callback a) (debug_callback a) (has_crypto a) (local_sign a) (remote_sign a).
Definition set_write_queue (a : bt_att) (x : list Z) : bt_att :=
  Att (ref_count a) (fd a) (has_io a) (io_on_l2cap a) (io_sec_level a) (req_queue a)
    (pending_req a) (ind_queue a) (pending_ind a) x (writer_active a) (notify_list a)
    (disconn_list a) (in_req a) (buf a) (mtu a) (next_send_id a) (next_reg_id a)
    (timeout_callback a) (debug_callback a) (has_crypto a) (local_sign a) (remote_sign a).
Definition set_writer_active (a : bt_att) (x : bool) : bt_att :=
  Att (ref_count a) (fd a) (has_io a) (io_on_l2cap a) (io_sec_level a) (req_queue a)
    (pending_req a) (ind_queue a) (pending_ind a) (write_queue a) x (notify_list a)
    (disconn_list a) (in_req a) (buf a) (mtu a) (next_send_id a) (next_reg_id a)
    (timeout_callback a) (debug_callback a) (has_crypto a) (local_sign a) (remote_sign a).
Definition set_notify_list (a : bt_att) (x : list (Z * att_notify)) : bt_att :=
  Att (ref_count a) (fd a) (has_io a) (io_on_l2cap a) (io_sec_level a) (req_queue a)
    (pending_req a) (ind_queue a) (pending_ind a) (write_queue a) (writer_active a) x
    (disconn_list a) (in_req a) (buf a) (mtu a) (next_send_id a) (next_reg_id a)
    (timeout_callback a) (debug_callback a) (has_crypto a) (local_sign a) (remote_sign a).
Definition set_disconn_list (a : bt_att) (x : list (Z * att_disconn)) : bt_att :=
  Att (ref_count a) (fd a) (has_io a) (io_on_l2cap a) (io_sec_level a) (req_queue a)
    (pending_req a) (ind_queue a) (pending_ind a) (write_queue a) (writer_active a)
    (notify_list a) x (in_req a) (buf a) (mtu a) (next_send_id a) (next_reg_id a)
    (timeout_callback a) (debug_callback a) (has_crypto a) (local_sign a) (remote_sign a).
Definition set_in_req (a : bt_att) (x : bool) : bt_att :=
  Att (ref_count a) (fd a) (has_io a) (io_on_l2cap a) (io_sec_level a) (req_queue a)
    (pending_req a) (ind_queue a) (pending_ind a) (write_queue a) (writer_active a)
    (notify_list a) (disconn_list a) x (buf a) (mtu a) (next_send_id a) (next_reg_id a)
    (timeout_callback a) (debug_callback a) (has_crypto a) (local_sign a) (remote_sign a).
Definition set_buf (a : bt_att) (x : option buffer) : bt_att :=
  Att (ref_count a) (fd a) (has_io a) (io_on_l2cap a) (io_sec_level a) (req_queue a)
    (pending_req a) (ind_queue a) (pending_ind a) (write_queue a) (writer_active a)
    (notify_list a) (disconn_list a) (in_req a) x (mtu a) (next_send_id a) (next_reg_id a)
    (timeout_callback a) (debug_callback a) (has_crypto a) (local_sign a) (remote_sign a).
Definition set_mtu (a : bt_att) (x : Z) : bt_att :=
  Att (ref_count a) (fd a) (has_io a) (io_on_l2cap a) (io_sec_level a) (req_queue a)
    (pending_req a) (ind_queue a) (pending_ind a) (write_queue a) (writer_active a)
    (notify_list a) (disconn_list a) (in_req a) (buf a) x (next_send_id a) (next_reg_id a)
    (timeout_callback a) (debug_callback a) (has_crypto a) (local_sign a) (remote_sign a).
Definition set_next_send_id (a : bt_att) (x : Z) : bt_att :=
  Att (ref_count a) (fd a) (has_io a) (io_on_l2cap a) (io_sec_level a) (req_queue a)
    (pending_req a) (ind_queue a) (pending_ind a) (write_queue a) (writer_active a)
    (notify_list a) (disconn_list a) (in_req a) (buf a) (mtu a) x (next_reg_id a)
    (timeout_callback a) (debug_callback a) (has_crypto a) (local_sign a) (remote_sign a).
Definition set_next_reg_id (a : bt_att) (x : Z) : bt_att :=
  Att (ref_count a) (fd a) (has_io a) (io_on_l2cap a) (io_sec_level a) (req_queue a)
    (pending_req a) (ind_queue a) (pending_ind a) (write_queue a) (writer_active a)
    (notify_list a) (disconn_list a) (in_req a) (buf a) (mtu a) (next_send_id a) x
    (timeout_callback a) (debug_callback a) (has_crypto a) (local_sign a) (remote_sign a).
Definition set_timeout_callback (a : bt_att) (x : option callback) : bt_att :=
  Att (ref_count a) (fd a) (has_io a) (io_on_l2cap a) (io_sec_level a) (req_queue a)
    (pending_req a) (ind_queue a) (pending_ind a) (write_queue a) (writer_active a)
    (notify_list a) (disconn_list a) (in_req a) (buf a) (mtu a) (next_send_id a)
    (next_reg_id a) x (debug_callback a) (has_crypto a) (local_sign a) (remote_sign a).
Definition set_debug_callback (a : bt_att) (x : option callback) : bt_att :=
  Att (ref_count a) (fd a) (has_io a) (io_on_l2cap a) (io_sec_level a) (req_queue a)
    (pending_req a) (ind_queue a) (pending_ind a) (write_queue a) (writer_active a)
    (notify_list a) (disconn_list a) (in_req a) (buf a) (mtu a) (next_send_id a)
    (next_reg_id a) (timeout_callback a) x (has_crypto a) (local_sign a) (remote_sign a).
Definition set_local_sign (a : bt_att) (x : option sign_info) : bt_att :=
  Att (ref_count a) (fd a) (has_io a) (io_on_l2cap a) (io_sec_level a) (req_queue a)
    (pending_req a) (ind_queue a) (pending_ind a) (write_queue a) (writer_active a)
    (notify_list a) (disconn_list a) (in_req a) (buf a) (mtu a) (next_send_id a)
    (next_reg_id a) (timeout_callback a) (debug_callback a) (has_crypto a) x (remote_sign a).
Definition set_remote_sign (a : bt_att) (x : option sign_info) : bt_att :=
  Att (ref_count a) (fd a) (has_io a) (io_on_l2cap a) (io_sec_level a) (req_queue a)
    (pending_req a) (ind_queue a) (pending_ind a) (write_queue a) (writer_active a)
    (notify_list a) (disconn_list a) (in_req a) (buf a) (mtu a) (next_send_id a)
    (next_reg_id a) (timeout_callback a) (debug_callback a) (has_crypto a) (local_sign a) x.

(** What happens.  The calls of the client are [EvResponse] ... [EvDestroy]; those of an
    operation have its id, which the callbacks themselves do not get.  The others tell which
    operations were accepted, cancelled and timed out, when the link went down, what reached
    the kernel, which destroy functions the transport was given with handlers (by their user
    data), and when the receive buffer was allocated and freed (by its address). *)
Inductive event :=
  | EvResponse (id opcode : Z) (pdu : option bytes) (user_data : Z)
  | EvNotify (id opcode : Z) (pdu : bytes) (user_data : Z)
  | EvDisconnect (id err user_data : Z)
  | EvTimeout (id opcode user_data : Z)
  | EvOpDestroy (id user_data : Z)
  | EvDestroy (user_data : Z)
  | EvAccept (id : Z) (type : att_op_type) (destroy : bool) (user_data : Z)
  | EvCancel (id : Z)
  | EvCancelAll
  | EvExpired (id : Z)
  | EvDown
  | EvWrite (pdu : bytes)
  | EvShutdown
  | EvClose (fd : Z)
  | EvGive (user_data : Z)
  | EvAlloc (addr : Z)
  | EvFree (addr : Z).

(** The callbacks the transport gives to its io. *)
Inductive io_fn := CanWriteData | CanReadData | DisconnectCb.
Inductive io_destroy_fn := WriteWatchDestroy.

(** The transport ([None] when it is freed), its operations, its io, the timers with the
    operation each is for, the world of the cryptography, and two counters: of addresses and
    timers, and of the calls of other code. *)
Record world := World {
  att : option bt_att;
  ops : gmap Z att_send_op;
  att_io : option (io io_fn io_destroy_fn);
  timers : list (Z * Z);
  next_addr : Z;
  cw : Crypto.world;
  tick : nat;
  log : list event;
}.

Abbreviation P := (M world).

Definition get_att : P bt_att := get_some att.
Definition put_att_opt (a : option bt_att) : P unit :=
  modify (fun w => World a (ops w) (att_io w) (timers w) (next_addr w) (cw w) (tick w) (log w)).
Definition put_att (a : bt_att) : P unit := put_att_opt (Some a).
Definition free_att : P unit := get_att;; put_att_opt None.
Definition put_ops (l : gmap Z att_send_op) : P unit :=
  modify (fun w => World (att w) l (att_io w) (timers w) (next_addr w) (cw w) (tick w) (log w)).
Definition put_timers (l : list (Z * Z)) : P unit :=
  modify (fun w => World (att w) (ops w) (att_io w) l (next_addr w) (cw w) (tick w) (log w)).
Definition emit (e : event) : P unit :=
  modify (fun w => World (att w) (ops w) (att_io w) (timers w) (next_addr w) (cw w) (tick w)
                     (log w ++ [e])).
(** A new address. *)
Definition fresh_addr : P Z := fun w =>
  Some (next_addr w, World (att w) (ops w) (att_io w) (timers w) (next_addr w + 1) (cw w)
                       (tick w) (log w)).
(** A call of code outside: its number. *)
Definition outside : P nat := fun w =>
  Some (tick w, World (att w) (ops w) (att_io w) (timers w) (next_addr w) (cw w) (S (tick w))
                  (log w)).
Definition of_ub {A} (x : ub A) : P A :=
  fun w => match x with Some a => Some (a, w) | None => None end.
Definition on_crypto {A} (m : M Crypto.world A) : P A := fun w =>
  match m (cw w) with
  | Some (x, c) => Some (x, World (att w) (ops w) (att_io w) (timers w) (next_addr w) c (tick w)
                             (log w))
  | None => None
  end.

(** An operation at an address, which must not be freed. *)
Definition get_op (p : Z) : P att_send_op := get_some (fun w => ops w !! p).
Definition put_op (p : Z) (o : att_send_op) : P unit := l ← gets ops; put_ops (<[p := o]> l).
Definition free_op (p : Z) : P unit := get_op p;; l ← gets ops; put_ops (delete p l).

Definition write_watch_destroy : P unit := a ← get_att; put_att (set_writer_active a false).

#[export] Instance AttIo : IoOwner world io_fn io_destroy_fn := {
  io_of := att_io;
  with_io w i := World (att w) (ops w) i (timers w) (next_addr w) (cw w) (tick w) (log w);
  run_destroy d := match d with WriteWatchDestroy => write_watch_destroy end;
  close_fd f := emit (EvClose f);
}.

Definition timeout_remove (t : Z) : P unit :=
  if t =? 0 then mret tt
  else l ← gets timers; put_timers (filter (fun x => fst x <> t) l).

(** What a callback calls. *)
Inductive att_call :=
  | CallSend (opcode : Z) (pdu : option bytes) (length : Z) (callback : bool) (user_data : Z)
      (destroy : bool)
  | CallSendErrorRsp (opcode handle error : Z)
  | CallCancel (id : Z)
  | CallCancelAll
  | CallRegister (opcode : Z) (c : callback)
  | CallUnregister (id : Z)
  | CallUnregisterAll
  | CallRegisterDisconnect (has_callback : bool) (c : callback)
  | CallUnregisterDisconnect (id : Z)
  | CallSetMtu (mtu : Z)
  | CallSetDebug (c : option callback)
  | CallSetTimeout (c : option callback)
  | CallSetSecurity (level : Z)
  | CallSetLocalKey (key : bytes) (user_data : Z)
  | CallSetRemoteKey (key : bytes) (user_data : Z)
  | CallSetCloseOnUnref (do_close : bool)
  | CallRef
  | CallUnref.

Section transport.
(** The results of the code outside, most by the number of the call: whether the main loop
    takes new events and new timers, the memory of malloc with its contents, the counters of
    the signing keys (for user data and a value), the level of security of the socket and
    whether it can be set, the system calls and ciphers of the cryptography; and what a
    callback of the client calls after some events. *)
Variables (mainloop_modify : Z -> Z -> bool) (timer_ok : nat -> bool)
  (malloc : nat -> Z -> option bytes) (counter : nat -> Z -> Z -> option Z)
  (get_level : nat -> option Z) (set_level : nat -> Z -> bool)
  (fails : nat -> bool) (aes cmac : bytes -> bytes -> bytes)
  (client : list event -> list att_call).

(** [att->io] may be NULL. *)
Definition on_io (e : P bool) : P bool := a ← get_att; if has_io a then e else mret false.
Definition shutdown_io : P unit := on_io (io_shutdown (fun _ => true));; emit EvShutdown.

(** [timeout_add] for an operation: the id of the timer, or 0. *)
Definition timeout_add (id : Z) : P Z :=
  n ← outside;
  if timer_ok n then
    t ← fresh_addr;
    l ← gets timers;
    put_timers (l ++ [(t, id)]);;
    mret t
  else mret 0.


Definition is_nil {A} (l : list A) : bool := match l with [] => true | _ => false end.
Definition is_some {A} (x : option A) : bool := match x with Some _ => true | None => false end.

Definition wakeup_writer : P unit :=
  a ← get_att;
  if writer_active a then mret tt
  else if is_nil (write_queue a) && (is_some (pending_req a) || is_nil (req_queue a)) &&
          (is_some (pending_ind a) || is_nil (ind_queue a)) then mret tt
  else
    set ← on_io (io_set_write_handler mainloop_modify (Some CanWriteData)
                   (Some WriteWatchDestroy));
    if negb set then mret tt
    else a ← get_att; put_att (set_writer_active a true).

(** *** Making an operation *)

(** [op->pdu]; [None] is a false result, after which nothing is allocated. *)
Definition encode_pdu (opcode : Z) (pdu : option bytes) (length : Z) : P (option bytes) :=
  a ← get_att;
  let signed := is_some (local_sign a) && negb (Z.land opcode ATT_OP_SIGNED_MASK =? 0) in
  let pdu_len := if signed then u16 (1 + BT_ATT_SIGNATURE_LEN) else 1 in
  let pdu_len := if negb (length =? 0) && is_some pdu then u16 (pdu_len + length) else pdu_len in
  if mtu a <? pdu_len then mret None
  else
    n ← outside;
    match malloc n pdu_len with
    | None => mret None
    | Some block =>
      block ← of_ub (st block 0 [opcode]);
      block ← (if 1 <? pdu_len then
                 data ← of_ub (match pdu with
                               | Some d => ld d 0 length
                               | None => if length =? 0 then Some [] else None
                               end);
                 of_ub (st block 1 data)
               else mret block);
      if negb signed || negb (has_crypto a) then mret (Some block)
      else
        match local_sign a with
        | None => mret (Some block)
        | Some sign =>
          n ← outside;
          match counter n (sign_data sign) 0 with
          | None => mret None
          | Some sign_cnt =>
            sig ← on_crypto (bt_crypto_sign_att fails aes cmac true (sign_key sign) block
                               (u16 (1 + length)) sign_cnt);
            match sig with
            | Some sig => block ← of_ub (st block (1 + length) sig); mret (Some block)
            | None => mret None
            end
          end
        end
    end.

(** The address of the operation; [None] is NULL. *)
Definition create_att_send_op (opcode : Z) (pdu : option bytes) (length : Z) (callback : bool)
    (user_data : Z) (destroy : bool) : P (option Z) :=
  if negb (length =? 0) && negb (is_some pdu) then mret None
  else
    let type := get_op_type opcode in
    let answered := bool_decide (type = ATT_OP_TYPE_REQ) || bool_decide (type = ATT_OP_TYPE_IND) in
    if bool_decide (type = ATT_OP_TYPE_UNKNOWN) then mret None
    else if callback && negb answered then mret None
    else if negb callback && answered then mret None
    else
      block ← encode_pdu opcode pdu length;
      match block with
      | None => mret None
      | Some block =>
        p ← fresh_addr;
        put_op p (SendOp 0 0 type opcode block callback destroy user_data);;
        mret (Some p)
      end.

(** The id of the operation, or 0.  [queue_push_tail] fails only for a NULL queue. *)
Definition bt_att_send (opcode : Z) (pdu : option bytes) (length : Z) (callback : bool)
    (user_data : Z) (destroy : bool) : P Z :=
  a ← get_att;
  if negb (has_io a) then mret 0
  else
    op ← create_att_send_op opcode pdu length callback user_data destroy;
    match op with
    | None => mret 0
    | Some p =>
      a ← get_att;
      let id := if next_send_id a <? 1 then 1 else next_send_id a in
      put_att (set_next_send_id a (u32 (id + 1)));;
      o ← get_op p;
      put_op p (SendOp id (timeout_id o) (op_type o) (Att.opcode o) (Att.pdu o) (op_callback o)
                  (op_destroy o) (op_data o));;
      a ← get_att;
      put_att (match op_type o with
               | ATT_OP_TYPE_REQ => set_req_queue a (req_queue a ++ [p])
               | ATT_OP_TYPE_IND => set_ind_queue a (ind_queue a ++ [p])
               | _ => set_write_queue a (write_queue a ++ [p])
               end);;
      emit (EvAccept id (op_type o) (op_destroy o) (op_data o));;
      wakeup_writer;;
      mret id
    end.

Definition att_ecode_from_error (err : Z) : Z :=
  if (0 <? err) && (err <? UINT8_MAX) then err
  else if err =? - ENOENT then BT_ATT_ERROR_INVALID_HANDLE
  else if err =? - ENOMEM then BT_ATT_ERROR_INSUFFICIENT_RESOURCES
  else if err =? - EALREADY then BT_ERROR_ALREADY_IN_PROGRESS
  else if err =? - EOVERFLOW then BT_ERROR_OUT_OF_RANGE
  else BT_ATT_ERROR_UNLIKELY.

(** [struct bt_att_pdu_error_rsp]. *)
Definition error_rsp (opcode handle ecode : Z) : bytes := [u8 opcode] ++ le_bytes 2 handle ++ [u8 ecode].

Definition bt_att_send_error_rsp (opcode handle error : Z) : P Z :=
  if opcode =? 0 then mret 0
  else bt_att_send BT_ATT_OP_ERROR_RSP (Some (error_rsp opcode handle (att_ecode_from_error error))) 4
         false 0 false.

Definition respond_not_supported (opcode : Z) : P unit :=
  bt_att_send BT_ATT_OP_ERROR_RSP (Some (error_rsp opcode 0 BT_ATT_ERROR_REQUEST_NOT_SUPPORTED)) 4
    false 0 false;;
  mret tt.

(** *** Settings *)

Definition bt_att_ref : P unit := a ← get_att; put_att (set_ref_count a (ref_count a + 1)).

Definition bt_att_set_close_on_unref (do_close : bool) : P bool :=
  on_io (io_set_close_on_destroy do_close).

Definition bt_att_get_fd : P Z := a ← get_att; mret (fd a).
Definition bt_att_get_mtu : P Z := a ← get_att; mret (mtu a).
Definition bt_att_has_crypto : P bool := a ← get_att; mret (has_crypto a).

(** *** The receive buffer: one block, which is the transport's *)

(** A new block with what [malloc] left in it. *)
Definition new_buf (data : bytes) : P buffer :=
  p ← fresh_addr; emit (EvAlloc p);; mret (Block p data).
Definition free_buf (b : option buffer) : P unit :=
  match b with Some b => emit (EvFree (block_addr b)) | None => mret tt end.

(** A pointer into a block is the block's address and an offset.  What it points to can be
    used as long as the block is the buffer the transport still has. *)
Definition load (p : Z * Z) (len : Z) : P bytes :=
  a ← get_att;
  match buf a with
  | Some b => if block_addr b =? p.1 then of_ub (ld (block_data b) p.2 len) else undef
  | None => undef
  end.
Definition store (p : Z * Z) (data : bytes) : P unit :=
  a ← get_att;
  match buf a with
  | Some b =>
    if block_addr b =? p.1 then
      d ← of_ub (st (block_data b) p.2 data);
      put_att (set_buf a (Some (Block (block_addr b) d)))
    else undef
  | None => undef
  end.

Definition bt_att_set_mtu (mtu : Z) : P bool :=
  if mtu <? BT_ATT_DEFAULT_LE_MTU then mret false
  else
    n ← outside;
    match malloc n mtu with
    | None => mret false
    | Some data =>
      b ← new_buf data;
      a ← get_att;
      free_buf (buf a);;
      put_att (set_buf (set_mtu a mtu) (Some b));;
      mret true
    end.

(** [domain] and [proto] are what getsockopt gives. *)
Definition is_io_l2cap_based (domain proto : option Z) : bool :=
  match domain with
  | None => false
  | Some d =>
    if negb (d =? AF_BLUETOOTH) then false
    else match proto with None => false | Some p => p =? BTPROTO_L2CAP end
  end.

(** [omtu] is what getsockopt gives. *)
Definition get_l2cap_mtu (omtu : option Z) : Z :=
  match omtu with None => 0 | Some m => m end.

(** [bdaddr_type] is what getsockname gives, or minus the error. *)
Definition bt_att_get_link_type (bdaddr_type : option Z * Z) : P Z :=
  a ← get_att;
  if negb (io_on_l2cap a) then mret BT_ATT_LINK_LOCAL
  else match bdaddr_type.1 with
       | None => mret (u8 (- bdaddr_type.2))
       | Some t => mret (if t =? BDADDR_BREDR then BT_ATT_LINK_BREDR else BT_ATT_LINK_LE)
       end.

Definition bt_att_get_security : P Z :=
  a ← get_att;
  if negb (io_on_l2cap a) then mret (io_sec_level a)
  else
    n ← outside;
    match get_level n with None => mret (- EIO) | Some l => mret l end.

Definition bt_att_set_security (level : Z) : P bool :=
  if (level <? BT_ATT_SECURITY_AUTO) || (BT_ATT_SECURITY_HIGH <? level) then mret false
  else
    a ← get_att;
    if negb (io_on_l2cap a) then put_att (set_io_sec_level a level);; mret true
    else n ← outside; mret (set_level n level).

(** The key is a block of at least 16 bytes. *)
Definition sign_set_key (key : bytes) (user_data : Z) : ub sign_info :=
  k ← ld key 0 16; Some (Sign k user_data).
Definition bt_att_set_local_key (key : bytes) (user_data : Z) : P bool :=
  a ← get_att; s ← of_ub (sign_set_key key user_data); put_att (set_local_sign a (Some s));; mret true.
Definition bt_att_set_remote_key (key : bytes) (user_data : Z) : P bool :=
  a ← get_att; s ← of_ub (sign_set_key key user_data); put_att (set_remote_sign a (Some s));; mret true.

(** *** Calls of the client *)

Section with_rec.
(** What runs a call of the client. *)
Variable rec : att_call -> P unit.

Fixpoint run_calls (l : list att_call) : P unit :=
  match l with
  | [] => mret tt
  | c :: l => rec c;; run_calls l
  end.

Definition call (e : event) : P unit := emit e;; l ← gets log; run_calls (client l).

Definition destroy_callback (c : option callback) : P unit :=
  match c with
  | Some c => when (cb_destroy c) (call (EvDestroy (cb_data c)))
  | None => mret tt
  end.

(** A destroy function that is given with user data. *)
Definition give (c : option callback) : P unit :=
  match c with
  | Some c => when (cb_destroy c) (emit (EvGive (cb_data c)))
  | None => mret tt
  end.

Definition destroy_att_send_op (p : Z) : P unit :=
  o ← get_op p;
  timeout_remove (timeout_id o);;
  when (op_destroy o) (call (EvOpDestroy (op_id o) (op_data o)));;
  free_op p.

(** The user data are not used any more. *)
Definition cancel_att_send_op (p : Z) : P unit :=
  o ← get_op p;
  when (op_destroy o) (call (EvOpDestroy (op_id o) (op_data o)));;
  o ← get_op p;
  put_op p (SendOp (op_id o) (timeout_id o) (op_type o) (opcode o) (pdu o) false false 0).

Definition destroy_att_notify (n : att_notify) : P unit :=
  destroy_callback (Some (notify_callback n)).
Definition destroy_att_disconn (d : att_disconn) : P unit :=
  destroy_callback (Some (disconn_callback d)).

Definition respond (p opcode : Z) (pdu : option bytes) : P unit :=
  o ← get_op p;
  when (op_callback o) (call (EvResponse (op_id o) opcode pdu (op_data o))).

Definition disc_att_send_op (p : Z) : P unit :=
  respond p BT_ATT_OP_ERROR_RSP None;;
  destroy_att_send_op p.

(** [queue_remove_all] has detached the elements. *)
Fixpoint for_all {A} (f : A -> P unit) (l : list A) : P unit :=
  match l with
  | [] => mret tt
  | x :: l => f x;; for_all f l
  end.

Definition bt_att_set_debug (c : option callback) : P bool :=
  a ← get_att;
  destroy_callback (debug_callback a);;
  give c;;
  a ← get_att;
  put_att (set_debug_callback a c);;
  mret true.

Definition bt_att_set_timeout_cb (c : option callback) : P bool :=
  a ← get_att;
  destroy_callback (timeout_callback a);;
  give c;;
  a ← get_att;
  put_att (set_timeout_callback a c);;
  mret true.

(** *** Registration: the id, or 0 *)

Definition new_reg_id : P Z :=
  a ← get_att;
  let id := if next_reg_id a <? 1 then 1 else next_reg_id a in
  put_att (set_next_reg_id a (u32 (id + 1)));;
  mret id.

Definition bt_att_register (opcode : Z) (c : callback) : P Z :=
  a ← get_att;
  if negb (has_io a) then mret 0
  else
    id ← new_reg_id;
    p ← fresh_addr;
    give (Some c);;
    a ← get_att;
    put_att (set_notify_list a (notify_list a ++ [(p, Notify id opcode c)]));;
    mret id.

Definition bt_att_register_disconnect (has_callback : bool) (c : callback) : P Z :=
  a ← get_att;
  if negb (has_io a) then mret 0
  else
    id ← new_reg_id;
    p ← fresh_addr;
    give (Some c);;
    a ← get_att;
    put_att (set_disconn_list a (disconn_list a ++ [(p, Disconn id false has_callback c)]));;
    mret id.

Definition match_notify_id (id : Z) (n : Z * att_notify) : bool := notify_id n.2 =? id.
Definition match_disconn_id (id : Z) (d : Z * att_disconn) : bool := disconn_id d.2 =? id.

(** [queue_remove_if]. *)
Fixpoint remove_if {A} (f : A -> bool) (l : list A) : option (A * list A) :=
  match l with
  | [] => None
  | x :: l => if f x then Some (x, l)
              else match remove_if f l with
                   | Some (y, l') => Some (y, x :: l')
                   | None => None
                   end
  end.

Definition bt_att_unregister (id : Z) : P bool :=
  if id =? 0 then mret false
  else
    a ← get_att;
    match remove_if (match_notify_id id) (notify_list a) with
    | None => mret false
    | Some (n, l) => put_att (set_notify_list a l);; destroy_att_notify n.2;; mret true
    end.

(** [disconn->removed] of the first handler with the id. *)
Fixpoint mark_removed (id : Z) (l : list (Z * att_disconn)) : list (Z * att_disconn) :=
  match l with
  | [] => []
  | (p, d) :: l =>
    if disconn_id d =? id
    then (p, Disconn (disconn_id d) true (disconn_has_callback d) (disconn_callback d)) :: l
    else (p, d) :: mark_removed id l
  end.

Definition bt_att_unregister_disconnect (id : Z) : P bool :=
  if id =? 0 then mret false
  else
    a ← get_att;
    if negb (has_io a) then
      match List.find (match_disconn_id id) (disconn_list a) with
      | None => mret false
      | Some _ => put_att (set_disconn_list a (mark_removed id (disconn_list a)));; mret true
      end
    else
      match remove_if (match_disconn_id id) (disconn_list a) with
      | None => mret false
      | Some (d, l) => put_att (set_disconn_list a l);; destroy_att_disconn d.2;; mret true
      end.

Definition bt_att_unregister_all : P bool :=
  a ← get_att;
  put_att (set_notify_list a []);;
  for_all (fun n => destroy_att_notify n.2) (notify_list a);;
  a ← get_att;
  put_att (set_disconn_list a []);;
  for_all (fun d => destroy_att_disconn d.2) (disconn_list a);;
  mret true.

(** *** Cancelling *)

Definition match_op_id (id p : Z) : P bool := o ← get_op p; mret (op_id o =? id).

(** [queue_remove_if] with [match_op_id]. *)
Fixpoint remove_op (id : Z) (q : list Z) : P (option (Z * list Z)) :=
  match q with
  | [] => mret None
  | p :: q =>
    m ← match_op_id id p;
    if m : bool then mret (Some (p, q))
    else
      r ← remove_op id q;
      mret (match r with Some (x, q') => Some (x, p :: q') | None => None end)
  end.

(** Whether a pending operation has the id. *)
Definition pending_has (x : option Z) (id : Z) : P bool :=
  match x with None => mret false | Some p => match_op_id id p end.

Definition cancel_queued (id p : Z) : P bool :=
  emit (EvCancel id);;
  destroy_att_send_op p;;
  wakeup_writer;;
  mret true.

Definition cancel_pending (id p : Z) : P bool :=
  emit (EvCancel id);;
  cancel_att_send_op p;;
  mret true.

Definition bt_att_cancel (id : Z) : P bool :=
  if id =? 0 then mret false
  else
    a ← get_att;
    m ← pending_has (pending_req a) id;
    match pending_req a, m with
    | Some p, true => cancel_pending id p
    | _, _ =>
      m ← pending_has (pending_ind a) id;
      match pending_ind a, m with
      | Some p, true => cancel_pending id p
      | _, _ =>
        r ← remove_op id (req_queue a);
        match r with
        | Some (p, q) => put_att (set_req_queue a q);; cancel_queued id p
        | None =>
          r ← remove_op id (ind_queue a);
          match r with
          | Some (p, q) => put_att (set_ind_queue a q);; cancel_queued id p
          | None =>
            r ← remove_op id (write_queue a);
            match r with
            | Some (p, q) => put_att (set_write_queue a q);; cancel_queued id p
            | None => mret false
            end
          end
        end
      end
    end.

Definition cancel_opt (x : option Z) : P unit :=
  match x with Some p => cancel_att_send_op p | None => mret tt end.

Definition bt_att_cancel_all : P bool :=
  emit EvCancelAll;;
  a ← get_att;
  put_att (set_req_queue a []);;
  for_all destroy_att_send_op (req_queue a);;
  a ← get_att;
  put_att (set_ind_queue a []);;
  for_all destroy_att_send_op (ind_queue a);;
  a ← get_att;
  put_att (set_write_queue a []);;
  for_all destroy_att_send_op (write_queue a);;
  a ← get_att;
  cancel_opt (pending_req a);;
  a ← get_att;
  cancel_opt (pending_ind a);;
  mret true.

(** *** References *)

Definition destroy_opt (x : option Z) : P unit :=
  match x with Some p => destroy_att_send_op p | None => mret tt end.

(** The handlers are gone, the queues are empty when the elements are not leaked. *)
Definition bt_att_free : P unit :=
  a ← get_att;
  destroy_opt (pending_req a);;
  a ← get_att;
  destroy_opt (pending_ind a);;
  on_io (io_destroy;; mret true);;
  a ← get_att;
  when (has_crypto a) (on_crypto bt_crypto_unref);;
  a ← get_att;
  destroy_callback (timeout_callback a);;
  a ← get_att;
  destroy_callback (debug_callback a);;
  a ← get_att;
  free_buf (buf a);;
  free_att.

Definition bt_att_unref : P unit :=
  a ← get_att;
  put_att (set_ref_count a (ref_count a - 1));;
  if negb (ref_count a - 1 =? 0) then mret tt
  else
    bt_att_unregister_all;;
    bt_att_cancel_all;;
    bt_att_free.

(** *** Timeouts *)

Definition timeout_cb (id : Z) : P bool :=
  a ← get_att;
  m ← pending_has (pending_req a) id;
  m' ← (if m : bool then mret false else pending_has (pending_ind a) id);
  let op := match pending_req a, m, pending_ind a, m' with
            | Some p, true, _, _ => Some (p, set_pending_req a None)
            | _, _, Some p, true => Some (p, set_pending_ind a None)
            | _, _, _, _ => None
            end in
  match op with
  | None => mret false
  | Some (p, a) =>
    put_att a;;
    o ← get_op p;
    emit (EvExpired id);;
    match timeout_callback a with
    | Some c => call (EvTimeout (op_id o) (opcode o) (cb_data c))
    | None => mret tt
    end;;
    o ← get_op p;
    put_op p (SendOp (op_id o) 0 (op_type o) (opcode o) (pdu o) (op_callback o) (op_destroy o)
                (op_data o));;
    destroy_att_send_op p;;
    shutdown_io;;
    mret false
  end.

(** The main loop calls the timer, and removes it when it is not to be repeated. *)
Definition fire (t : Z) : P unit :=
  l ← gets timers;
  match List.find (fun x => fst x =? t) l with
  | None => mret tt
  | Some (_, id) =>
    again ← timeout_cb id;
    if again : bool then mret tt else timeout_remove t
  end.

(** *** Writing *)

Definition pick_next_send_op : P (option Z) :=
  a ← get_att;
  match write_queue a with
  | p :: q => put_att (set_write_queue a q);; mret (Some p)
  | [] =>
    match pending_req a, req_queue a with
    | None, p :: q => put_att (set_req_queue a q);; mret (Some p)
    | _, _ =>
      match pending_ind a, ind_queue a with
      | None, p :: q => put_att (set_ind_queue a q);; mret (Some p)
      | _, _ => mret None
      end
    end
  end.

Definition start_timer (p : Z) : P bool :=
  o ← get_op p;
  t ← timeout_add (op_id o);
  o ← get_op p;
  put_op p (SendOp (op_id o) t (op_type o) (opcode o) (pdu o) (op_callback o) (op_destroy o)
              (op_data o));;
  mret true.

(** [writev] of the kernel. *)
Definition can_write_data (writev : Z -> list bytes -> Z) : P bool :=
  op ← pick_next_send_op;
  match op with
  | None => mret false
  | Some p =>
    o ← get_op p;
    ret ← io_send writev [pdu o];
    if ret <? 0 then
      respond p BT_ATT_OP_ERROR_RSP None;;
      destroy_att_send_op p;;
      mret true
    else
      emit (EvWrite (take (Z.to_nat ret) (pdu o)));;
      a ← get_att;
      match op_type o with
      | ATT_OP_TYPE_REQ => put_att (set_pending_req a (Some p));; start_timer p
      | ATT_OP_TYPE_IND => put_att (set_pending_ind a (Some p));; start_timer p
      | ATT_OP_TYPE_RSP => put_att (set_in_req a false);; destroy_att_send_op p;; mret true
      | _ => destroy_att_send_op p;; mret true
      end
  end.

(** *** Disconnection *)

(** A handler that is still in the list. *)
Definition disconn_handler (p err : Z) : P unit :=
  a ← get_att;
  match List.find (fun d => fst d =? p) (disconn_list a) with
  | None => undef
  | Some (_, d) =>
    if removed d then mret tt
    else when (disconn_has_callback d)
           (call (EvDisconnect (disconn_id d) err (cb_data (disconn_callback d))))
  end.

(** [queue_foreach], which ends when the queue has no entries any more.  Handlers are not
    added or removed one by one meanwhile, since the io is gone. *)
Fixpoint disconn_foreach (l : list Z) (err : Z) : P unit :=
  match l with
  | [] => mret tt
  | p :: l =>
    a ← get_att;
    if is_nil (disconn_list a) then mret tt
    else disconn_handler p err;; disconn_foreach l err
  end.

Definition disc_opt (x : option Z) : P unit :=
  match x with Some p => disc_att_send_op p | None => mret tt end.

(** [err] is what getsockopt gives. *)
Definition disconnect_cb (err : option Z) : P bool :=
  let err := match err with Some e => e | None => 0 end in
  emit EvDown;;
  on_io (io_destroy;; mret true);;
  a ← get_att;
  put_att (set_has_io a false);;
  a ← get_att;
  put_att (set_req_queue a []);;
  for_all disc_att_send_op (req_queue a);;
  a ← get_att;
  put_att (set_ind_queue a []);;
  for_all disc_att_send_op (ind_queue a);;
  a ← get_att;
  put_att (set_write_queue a []);;
  for_all disc_att_send_op (write_queue a);;
  a ← get_att;
  disc_opt (pending_req a);;
  a ← get_att;
  put_att (set_pending_req a None);;
  disc_opt (pending_ind a);;
  a ← get_att;
  put_att (set_pending_ind a None);;
  bt_att_ref;;
  a ← get_att;
  disconn_foreach (fst <$> disconn_list a) err;;
  bt_att_unregister_all;;
  bt_att_unref;;
  mret false.

(** *** Receiving *)

Definition change_security (ecode : Z) : P bool :=
  a ← get_att;
  if negb (io_sec_level a =? BT_ATT_SECURITY_AUTO) then mret false
  else
    security ← bt_att_get_security;
    let level :=
      if (ecode =? BT_ATT_ERROR_INSUFFICIENT_ENCRYPTION) && (security <? BT_ATT_SECURITY_MEDIUM)
      then Some BT_ATT_SECURITY_MEDIUM
      else if ecode =? BT_ATT_ERROR_AUTHENTICATION then
        if security <? BT_ATT_SECURITY_MEDIUM then Some BT_ATT_SECURITY_MEDIUM
        else if security <? BT_ATT_SECURITY_HIGH then Some BT_ATT_SECURITY_HIGH
        else if security <? BT_ATT_SECURITY_FIPS then Some BT_ATT_SECURITY_FIPS
        else None
      else None in
    match level with
    | None => mret false
    | Some l => bt_att_set_security l
    end.

(** Whether the operation at [p] is sent again, and [*opcode]. *)
Definition handle_error_rsp (p : Z) (pdu : Z * Z) (pdu_len : Z) : P (bool * Z) :=
  if negb (pdu_len =? 4) then mret (false, 0)
  else
    rsp ← load pdu pdu_len;
    match rsp with
    | [opcode; _; _; ecode] =>
      retry ← change_security ecode;
      if negb retry then mret (false, opcode)
      else
        o ← get_op p;
        timeout_remove (timeout_id o);;
        put_op p (SendOp (op_id o) 0 (op_type o) (Att.opcode o) (Att.pdu o) (op_callback o)
                    (op_destroy o) (op_data o));;
        a ← get_att;
        put_att (set_req_queue (set_pending_req a None) (p :: req_queue a));;
        mret (true, opcode)
    | _ => undef
    end.

(** The end of the pending request, with the response PDU or a failure. *)
Definition end_request (p rsp_opcode : Z) (rsp_pdu : option bytes) : P unit :=
  respond p rsp_opcode rsp_pdu;;
  destroy_att_send_op p;;
  a ← get_att;
  put_att (set_pending_req a None);;
  wakeup_writer.

(** [rsp_pdu] with [rsp_pdu_len]; NULL when there is none. *)
Definition response_pdu (pdu : Z * Z) (pdu_len : Z) : P (option bytes) :=
  if 0 <? pdu_len then d ← load pdu pdu_len; mret (Some d) else mret None.

Definition handle_rsp (opcode : Z) (pdu : Z * Z) (pdu_len : Z) : P unit :=
  a ← get_att;
  match pending_req a with
  | None => shutdown_io
  | Some p =>
    '(retry, req_opcode) ← (if opcode =? BT_ATT_OP_ERROR_RSP then handle_error_rsp p pdu pdu_len
                             else mret (false, get_req_opcode opcode));
    if retry : bool then wakeup_writer
    else
      o ← get_op p;
      if (negb (opcode =? BT_ATT_OP_ERROR_RSP) && (req_opcode =? 0)) ||
         negb (req_opcode =? Att.opcode o)
      then end_request p BT_ATT_OP_ERROR_RSP None
      else
        rsp ← response_pdu pdu pdu_len;
        end_request p opcode rsp
  end.

Definition handle_conf (pdu_len : Z) : P unit :=
  a ← get_att;
  match pending_ind a with
  | None => shutdown_io
  | Some p =>
    if negb (pdu_len =? 0) then shutdown_io
    else
      respond p BT_ATT_OP_HANDLE_VAL_CONF None;;
      destroy_att_send_op p;;
      a ← get_att;
      put_att (set_pending_ind a None);;
      wakeup_writer
  end.

Definition opcode_match (opcode test_opcode : Z) : bool :=
  let op_type := get_op_type test_opcode in
  if (opcode =? BT_ATT_ALL_REQUESTS) &&
     (bool_decide (op_type = ATT_OP_TYPE_REQ) || bool_decide (op_type = ATT_OP_TYPE_CMD))
  then true
  else opcode =? test_opcode.

(** The signature that was computed is stored over the one received. *)
Definition handle_signed (pdu : Z * Z) (pdu_len : Z) : P bool :=
  if pdu_len <? 2 + BT_ATT_SIGNATURE_LEN then mret false
  else
    a ← get_att;
    match remote_sign a with
    | None => mret false
    | Some sign =>
      let signature := pdu_len - BT_ATT_SIGNATURE_LEN in
      d ← load pdu pdu_len;
      sign_cnt ← of_ub (get_le32 d signature);
      n ← outside;
      match counter n (sign_data sign) sign_cnt with
      | None => mret false
      | Some sign_cnt =>
        sig ← on_crypto (bt_crypto_sign_att fails aes cmac (has_crypto a) (sign_key sign) d
                           (u16 (pdu_len - BT_ATT_SIGNATURE_LEN)) sign_cnt);
        match sig with
        | None => mret false
        | Some sig => store (pdu.1, pdu.2 + signature) sig;; mret true
        end
      end
    end.

Fixpoint entry_at {A} (l : list (Z * A)) (p : Z) : option (A * option Z) :=
  match l with
  | [] => None
  | (x, v) :: l => if x =? p then Some (v, fst <$> head l) else entry_at l p
  end.

(** The loop over the entries from the one at [entry], whose next one is read before the
    callback is called; an entry that was removed meanwhile is freed.  Every callback gets the
    pointer into the receive buffer.  Whether a handler was found. *)
Fixpoint notify_loop (n : nat) (entry : option Z) (opcode : Z) (pdu : Z * Z) (pdu_len : Z)
    (found : bool) : P bool :=
  match entry with
  | None => mret found
  | Some p =>
    match n with
    | O => undef
    | S n =>
      a ← get_att;
      match entry_at (notify_list a) p with
      | None => undef
      | Some (notify, next) =>
        if negb (opcode_match (notify_opcode notify) opcode)
        then notify_loop n next opcode pdu pdu_len found
        else
          d ← load pdu pdu_len;
          call (EvNotify (notify_id notify) opcode d (cb_data (notify_callback notify)));;
          a ← get_att;
          if is_nil (notify_list a) then mret true
          else notify_loop n next opcode pdu pdu_len true
      end
    end
  end.

Definition handle_notify (n : nat) (opcode : Z) (pdu : Z * Z) (pdu_len : Z) : P unit :=
  a ← get_att;
  len ← (if negb (Z.land opcode ATT_OP_SIGNED_MASK =? 0) && negb (has_crypto a) then
           signed ← handle_signed pdu pdu_len;
           mret (if signed : bool then Some (pdu_len - BT_ATT_SIGNATURE_LEN) else None)
         else mret (Some pdu_len));
  match len with
  | None => mret tt
  | Some pdu_len =>
    bt_att_ref;;
    a ← get_att;
    found ← notify_loop n (fst <$> head (notify_list a)) opcode pdu pdu_len false;
    when (negb found && negb (bool_decide (get_op_type opcode = ATT_OP_TYPE_CMD)))
      (respond_not_supported opcode);;
    bt_att_unref
  end.

(** [read] of the kernel into the buffer: at most as many bytes as it is asked for. *)
Definition can_read_data (n : nat) (read : Z -> Z -> option bytes) : P bool :=
  a ← get_att;
  match read (fd a) (mtu a), buf a with
  | None, _ => mret false
  | Some _, None => undef
  | Some b, Some blk =>
    store (block_addr blk, 0) b;;
    match b with
    | [] => mret true
    | opcode :: _ =>
      let pdu := (block_addr blk, 1) in
      let pdu_len := zlen b - 1 in
      bt_att_ref;;
      match get_op_type opcode with
      | ATT_OP_TYPE_RSP => handle_rsp opcode pdu pdu_len;; bt_att_unref;; mret true
      | ATT_OP_TYPE_CONF => handle_conf pdu_len;; bt_att_unref;; mret true
      | ATT_OP_TYPE_REQ =>
        a ← get_att;
        if in_req a then shutdown_io;; bt_att_unref;; mret false
        else
          put_att (set_in_req a true);;
          handle_notify n opcode pdu pdu_len;; bt_att_unref;; mret true
      | _ => handle_notify n opcode pdu pdu_len;; bt_att_unref;; mret true
      end
    end
  end.

(** What a callback or the program calls. *)
Definition do_call (c : att_call) : P unit :=
  match c with
  | CallSend opcode pdu length callback user_data destroy =>
    bt_att_send opcode pdu length callback user_data destroy;; mret tt
  | CallSendErrorRsp opcode handle error => bt_att_send_error_rsp opcode handle error;; mret tt
  | CallCancel id => bt_att_cancel id;; mret tt
  | CallCancelAll => bt_att_cancel_all;; mret tt
  | CallRegister opcode c => bt_att_register opcode c;; mret tt
  | CallUnregister id => bt_att_unregister id;; mret tt
  | CallUnregisterAll => bt_att_unregister_all;; mret tt
  | CallRegisterDisconnect has_callback c => bt_att_register_disconnect has_callback c;; mret tt
  | CallUnregisterDisconnect id => bt_att_unregister_disconnect id;; mret tt
  | CallSetMtu mtu => bt_att_set_mtu mtu;; mret tt
  | CallSetDebug c => bt_att_set_debug c;; mret tt
  | CallSetTimeout c => bt_att_set_timeout_cb c;; mret tt
  | CallSetSecurity level => bt_att_set_security level;; mret tt
  | CallSetLocalKey key user_data => bt_att_set_local_key key user_data;; mret tt
  | CallSetRemoteKey key user_data => bt_att_set_remote_key key user_data;; mret tt
  | CallSetCloseOnUnref do_close => bt_att_set_close_on_unref do_close;; mret tt
  | CallRef => bt_att_ref
  | CallUnref => bt_att_unref
  end.
End with_rec.

(** Calls from inside callbacks are nested at most [n] deep. *)
Fixpoint run_call (n : nat) (c : att_call) : P unit :=
  match n with
  | O => undef
  | S n => do_call (run_call n) c
  end.

(** The main loop's call for events [ev] of the descriptor; [n] bounds the nesting and the
    loop over handlers. *)
Definition att_event (n : nat) (read : Z -> Z -> option bytes) (writev : Z -> list bytes -> Z)
    (err : option Z) (ev : Z) : P unit :=
  io_callback
    (fun c => match c with
              | CanReadData => can_read_data (run_call n) n read
              | CanWriteData => can_write_data (run_call n) writev
              | DisconnectCb => disconnect_cb (run_call n) err
              end) ev.

(** [None] of the socket options is a failure of the system call; the address is the type of
    the local address, or the error. *)
Definition bt_att_new (n : nat) (mainloop_add : Z -> Z -> bool) (fd : Z) (ext_signed : bool)
    (domain proto omtu : option Z) (address : option Z * Z) : P bool :=
  let fail := bt_att_free (run_call n);; mret false in
  if fd <? 0 then mret false
  else
    let new crypto l2cap sec mtu :=
      Att 0 fd true l2cap sec [] None [] None [] false [] [] false None mtu 0 0 None None crypto
        None None in
    match io_new mainloop_add fd with
    | None => put_att (set_has_io (new false false 0 0) false);; fail
    | Some i =>
      modify (fun w => with_io w (Some i));;
      crypto ← (if ext_signed then mret false else on_crypto (bt_crypto_new fails));
      put_att (new crypto false 0 0);;
      set ← io_set_read_handler mainloop_modify (Some CanReadData) None;
      if negb set then fail
      else
        set ← io_set_disconnect_handler mainloop_modify (Some DisconnectCb) None;
        if negb set then fail
        else
          let l2cap := is_io_l2cap_based domain proto in
          let sec := if l2cap then 0 else BT_ATT_SECURITY_LOW in
          put_att (new crypto l2cap sec 0);;
          link ← bt_att_get_link_type address;
          let mtu := if link =? BT_ATT_LINK_BREDR then get_l2cap_mtu omtu
                     else BT_ATT_DEFAULT_LE_MTU in
          put_att (new crypto l2cap sec mtu);;
          if mtu <? BT_ATT_DEFAULT_LE_MTU then fail
          else
            k ← outside;
            match malloc k mtu with
            | None => fail
            | Some data =>
              b ← new_buf data;
              put_att (set_buf (new crypto l2cap sec mtu) (Some b));;
              bt_att_ref;;
              mret true
            end
    end.
End transport.
