(* ===== verification/AttTrace.v ===== *)
(** The order of the events of the transport: an automaton of logs, and the relation between
    its state and the queues, the pending operations and the timers of the transport. *)
From Stdlib Require Import ZArith Lia.
From S2P Require Import Prelude Blocks StateM Io Crypto Att.
From stdpp Require Import base numbers list option gmap.

Local Open Scope Z_scope.

(** ** Logs

    Operations with their user data: the requests and the indications that are not answered
    yet, in the order they were accepted, and those whose destroy function is still to be
    called; and whether the link is down. *)
Record tstate := T {
  t_req : list (Z * Z);
  t_ind : list (Z * Z);
  t_alive : list (Z * Z);
  t_down : bool;
}.

Definition drop_id (id : Z) (l : list (Z * Z)) : list (Z * Z) := filter (fun x => x.1 <> id) l.
Definition t_drop (id : Z) (s : tstate) : tstate :=
  T (drop_id id (t_req s)) (drop_id id (t_ind s)) (t_alive s) (t_down s).

(** Whether [x] may be answered: it is the first, or the link is down. *)
Definition answerable (down : bool) (x : Z * Z) (l : list (Z * Z)) : Prop :=
  if down then x ∈ l else head l = Some x.
#[export] Instance answerable_dec down x l : Decision (answerable down x l).
Proof. unfold answerable. destruct down; apply _. Defined.

Definition new_id (id : Z) (s : tstate) : Prop :=
  Forall (fun x : Z * Z => x.1 <> id) (t_req s ++ t_ind s ++ t_alive s).
#[export] Instance new_id_dec id s : Decision (new_id id s).
Proof. unfold new_id. apply _. Defined.

(** What the log must be: every id is new; only an operation that is not answered yet is
    answered, the oldest of its kind while the link is up; every destroy function is called
    once, and no response comes after it. *)
Definition tstep (s : tstate) (e : event) : option tstate :=
  match e with
  | EvAccept id type destroy u =>
    if decide (new_id id s) then
      Some (T (match type with ATT_OP_TYPE_REQ => t_req s ++ [(id, u)] | _ => t_req s end)
              (match type with ATT_OP_TYPE_IND => t_ind s ++ [(id, u)] | _ => t_ind s end)
              (if destroy then t_alive s ++ [(id, u)] else t_alive s) (t_down s))
    else None
  | EvResponse id _ _ u =>
    if decide (answerable (t_down s) (id, u) (t_req s) \/ answerable (t_down s) (id, u) (t_ind s))
    then Some (t_drop id s) else None
  | EvOpDestroy id u =>
    if decide ((id, u) ∈ t_alive s)
    then Some (T (drop_id id (t_req s)) (drop_id id (t_ind s)) (drop_id id (t_alive s)) (t_down s))
    else None
  | EvCancel id | EvExpired id => Some (t_drop id s)
  | EvCancelAll => Some (T [] [] (t_alive s) (t_down s))
  | EvDown => Some (T (t_req s) (t_ind s) (t_alive s) true)
  | _ => Some s
  end.

Fixpoint trace_from (s : tstate) (l : list event) : option tstate :=
  match l with
  | [] => Some s
  | e :: l => match tstep s e with Some s => trace_from s l | None => None end
  end.
Definition trace : list event -> option tstate := trace_from (T [] [] [] false).

Lemma trace_from_snoc l e : forall s,
  trace_from s (l ++ [e]) = match trace_from s l with Some s => tstep s e | None => None end.
Proof.
  induction l as [|x l IH]; intros s; cbn.
  - by destruct (tstep s e).
  - destruct (tstep s x); [apply IH|done].
Qed.
Lemma trace_snoc l e s : trace l = Some s -> trace (l ++ [e]) = tstep s e.
Proof. unfold trace. intros H. by rewrite trace_from_snoc, H. Qed.

(** The ids are given out in order, so they are new as long as there are few of them. *)
Fixpoint accepts (l : list event) : Z :=
  match l with
  | [] => 0
  | EvAccept _ _ _ _ :: l => accepts l + 1
  | _ :: l => accepts l
  end.
Lemma accepts_app l k : accepts (l ++ k) = accepts l + accepts k.
Proof. induction l as [|[] l IH]; cbn; lia. Qed.
Lemma accepts_nonneg l : 0 <= accepts l.
Proof. induction l as [|[] l IH]; cbn; lia. Qed.

Definition few (l : list event) : Prop := accepts l < 2 ^ 32 - 1.
Lemma few_app l k : few (l ++ k) -> few l.
Proof. unfold few. rewrite accepts_app. pose proof (accepts_nonneg k). lia. Qed.

(** Equality while the link is up, any order when it is down. *)
Definition ord (down : bool) (l k : list (Z * Z)) : Prop := if down then l ≡ₚ k else l = k.

Lemma ord_same d l : ord d l l.
Proof. by destruct d. Qed.
Lemma ord_perm d l k : ord d l k -> l ≡ₚ k.
Proof. destruct d; cbn; [done|by intros ->]. Qed.
Lemma ord_drop d id l k : ord d l k -> ord d (drop_id id l) (drop_id id k).
Proof. unfold drop_id. destruct d; cbn; by intros ->. Qed.
Lemma ord_app d l k x : ord d l k -> ord d (l ++ x) (k ++ x).
Proof. unfold drop_id. destruct d; cbn; by intros ->. Qed.
Lemma ord_nil d l : ord d l [] -> l = [].
Proof. destruct d; cbn; [apply Permutation_nil_r|done]. Qed.
Lemma ord_head x l : ord false l (x :: l) -> False.
Proof. cbn. intros H. apply (f_equal length) in H. cbn in H. lia. Qed.

(** ** Views of the store *)

Section views.
Context {B : Type}.
Implicit Types (f : Z -> att_send_op -> option B) (O : gmap Z att_send_op).

Definition oview f O (q : list Z) : list B := omap (fun p => O !! p ≫= f p) q.

Lemma oview_app f O q r : oview f O (q ++ r) = oview f O q ++ oview f O r.
Proof. apply omap_app. Qed.

#[export] Instance oview_perm f O : Proper ((≡ₚ) ==> (≡ₚ)) (oview f O).
Proof.
  unfold oview. induction 1 as [|x l k Hl IH|x y l|l k m Hl IH Hk IH2]; cbn.
  - done.
  - destruct (O !! x ≫= f x); [by constructor|done].
  - destruct (O !! x ≫= f x), (O !! y ≫= f y); first [done|apply perm_swap].
  - by etrans.
Qed.

Lemma oview_ext f g O O' q :
  (forall p, p ∈ q -> O !! p ≫= f p = O' !! p ≫= g p) -> oview f O q = oview g O' q.
Proof.
  intros H. unfold oview. induction q as [|p q IH]; [done|]. cbn.
  rewrite H by set_solver. rewrite IH by (intros; apply H; set_solver). done.
Qed.

Lemma oview_in f O q y : y ∈ oview f O q -> exists p o, p ∈ q /\ O !! p = Some o /\ f p o = Some y.
Proof.
  unfold oview. rewrite list_elem_of_omap. intros (p & Hp & H).
  apply bind_Some in H as (o & Ho & H). eauto.
Qed.
Lemma oview_elem f O q p o y : p ∈ q -> O !! p = Some o -> f p o = Some y -> y ∈ oview f O q.
Proof.
  intros Hp Ho H. unfold oview. apply list_elem_of_omap. exists p. split; [done|]. by rewrite Ho.
Qed.
Lemma oview_nil f O q : (forall p o, p ∈ q -> O !! p = Some o -> f p o = None) -> oview f O q = [].
Proof.
  intros H. unfold oview. induction q as [|p q IH]; [done|]. cbn.
  destruct (O !! p) as [o|] eqn:Ho; cbn.
  - rewrite (H p o) by (done || set_solver). apply IH. intros. eapply H; set_solver.
  - apply IH. intros. eapply H; set_solver.
Qed.
End views.

(** An operation of a kind that is not answered; one with a destroy function; one with a
    timer. *)
Definition unanswered (type : att_op_type) (S : list Z) (p : Z) (o : att_send_op) : option (Z * Z) :=
  if bool_decide (op_type o = type) && op_callback o && bool_decide (p ∉ S)
  then Some (op_id o, op_data o) else None.
Definition alive (p : Z) (o : att_send_op) : option (Z * Z) :=
  if op_destroy o then Some (op_id o, op_data o) else None.
Definition timed (p : Z) (o : att_send_op) : option (Z * Z) :=
  if timeout_id o =? 0 then None else Some (timeout_id o, op_id o).

Definition opt_list (x : option Z) : list Z := match x with Some p => [p] | None => [] end.

(** The addresses the transport keeps. *)
Definition req_addrs (a : bt_att) : list Z := opt_list (pending_req a) ++ req_queue a.
Definition ind_addrs (a : bt_att) : list Z := opt_list (pending_ind a) ++ ind_queue a.
Definition addrs (a : bt_att) : list Z := req_addrs a ++ ind_addrs a ++ write_queue a.

Definition queued (a : bt_att) : list Z := req_queue a ++ ind_queue a ++ write_queue a.

Definition answered_type (type : att_op_type) : bool :=
  bool_decide (type = ATT_OP_TYPE_REQ) || bool_decide (type = ATT_OP_TYPE_IND).

(** ** The invariant

    [X] are the operations that are in no queue and not pending, but in the hands of the
    function that runs; [S] are those that were answered and still exist. *)
Record held (X : list Z) (a : bt_att) (O : gmap Z att_send_op) (N : Z) : Prop := {
  h_nodup : NoDup (X ++ addrs a);
  h_dom : forall p, p ∈ X ++ addrs a <-> is_Some (O !! p);
  h_next : forall p, p ∈ X ++ addrs a -> 0 < p < N;
  h_req : forall p o, p ∈ req_addrs a -> O !! p = Some o -> op_type o = ATT_OP_TYPE_REQ;
  h_ind : forall p o, p ∈ ind_addrs a -> O !! p = Some o -> op_type o = ATT_OP_TYPE_IND;
  h_cb : forall p o, O !! p = Some o -> op_callback o = true ->
    op_type o = ATT_OP_TYPE_REQ \/ op_type o = ATT_OP_TYPE_IND;
  h_wait : forall p o, p ∈ queued a -> O !! p = Some o -> timeout_id o = 0;
  h_write : forall p o, p ∈ write_queue a -> O !! p = Some o -> answered_type (op_type o) = false;
}.

Record timed_ok (X : list Z) (a : bt_att) (O : gmap Z att_send_op) (tm : list (Z * Z)) (N : Z) : Prop := {
  tm_ops : tm ≡ₚ oview timed O (X ++ addrs a);
  tm_nodup : NoDup tm.*1;
  tm_next : Forall (fun t => 0 < t.1 < N) tm;
}.

Record traced (X S : list Z) (a : bt_att) (O : gmap Z att_send_op) (L : list event) (s : tstate) : Prop := {
  tr_trace : trace L = Some s;
  tr_inj : forall p q o u, O !! p = Some o -> O !! q = Some u -> op_id o = op_id u -> p = q;
  tr_ids : forall p o, O !! p = Some o -> 1 <= op_id o <= accepts L;
  tr_next : next_send_id a = (if accepts L =? 0 then 0 else accepts L + 1);
  tr_req : ord (t_down s) (t_req s) (oview (unanswered ATT_OP_TYPE_REQ S) O (X ++ req_addrs a));
  tr_ind : ord (t_down s) (t_ind s) (oview (unanswered ATT_OP_TYPE_IND S) O (X ++ ind_addrs a));
  tr_alive : t_alive s ≡ₚ oview alive O (X ++ addrs a);
}.

Definition core (X S : list Z) (a : bt_att) (O : gmap Z att_send_op) (tm : list (Z * Z)) (N : Z)
    (L : list event) : Prop :=
  held X a O N /\ Forall (fun t => 0 < t.1) tm /\ Forall (fun p => p < N) S /\
  (few L -> timed_ok X a O tm N /\ exists s, traced X S a O L s).

(** Functions on views. *)
Lemma unanswered_in type S p o x : unanswered type S p o = Some x ->
  op_type o = type /\ op_callback o = true /\ p ∉ S /\ x = (op_id o, op_data o).
Proof.
  unfold unanswered. destruct (bool_decide_reflect (op_type o = type)), (op_callback o),
    (bool_decide_reflect (p ∉ S)); cbn; intros; by simplify_eq.
Qed.
Lemma unanswered_some type S p o :
  op_type o = type -> op_callback o = true -> p ∉ S ->
  unanswered type S p o = Some (op_id o, op_data o).
Proof. intros H1 H2 H3. unfold unanswered. by rewrite H2, !bool_decide_true. Qed.
Lemma unanswered_other type S p o : op_type o <> type -> unanswered type S p o = None.
Proof. intros H. unfold unanswered. by rewrite bool_decide_false. Qed.
Lemma unanswered_silent type S p o : op_callback o = false -> unanswered type S p o = None.
Proof. intros H. unfold unanswered. rewrite H. by destruct (bool_decide _). Qed.
Lemma unanswered_mem type S p o : p ∈ S -> unanswered type S p o = None.
Proof.
  intros H. unfold unanswered. rewrite (bool_decide_false (p ∉ S)) by (intros Hn; by apply Hn).
  by rewrite andb_false_r.
Qed.

(** Answering an operation removes its id. *)
Lemma drop_view type S p o O q :
  (forall p q o u, O !! p = Some o -> O !! q = Some u -> op_id o = op_id u -> p = q) ->
  O !! p = Some o ->
  drop_id (op_id o) (oview (unanswered type S) O q) = oview (unanswered type (p :: S)) O q.
Proof.
  intros Hinj Ho. unfold oview, drop_id. induction q as [|x q IH]; [done|]. cbn.
  destruct (O !! x) as [u|] eqn:Hu; cbn; [|done].
  destruct (decide (x = p)) as [->|Hne].
  - rewrite Ho in Hu. injection Hu as <-. rewrite (unanswered_mem _ (p :: S)) by set_solver.
    destruct (unanswered type S p o) as [y|] eqn:Hy; cbn; [|done].
    apply unanswered_in in Hy as (_ & _ & _ & ->). case_decide as Hd; [by destruct Hd|done].
  - assert (unanswered type (p :: S) x u = unanswered type S x u) as ->.
    { unfold unanswered. by rewrite (bool_decide_ext (x ∉ p :: S) (x ∉ S)) by set_solver. }
    destruct (unanswered type S x u) as [y|] eqn:Hy; cbn; [|done].
    apply unanswered_in in Hy as (_ & _ & _ & ->). case_decide as Hd; [by f_equal|].
    exfalso. apply Hne. eapply Hinj; eauto.
Qed.

Lemma drop_alive p o O q :
  (forall p q o u, O !! p = Some o -> O !! q = Some u -> op_id o = op_id u -> p = q) ->
  NoDup q -> O !! p = Some o ->
  drop_id (op_id o) (oview alive O q) = oview alive (delete p O) q.
Proof.
  intros Hinj Hq Ho. unfold oview, drop_id. induction q as [|x q IH]; [done|]. cbn.
  apply NoDup_cons in Hq as (Hx & Hq). specialize (IH Hq).
  destruct (decide (x = p)) as [->|Hne].
  - rewrite lookup_delete_eq, Ho. cbn.
    destruct (alive p o) as [y|] eqn:Hy; cbn; [|done].
    unfold alive in Hy. destruct (op_destroy o); [|done]. injection Hy as <-.
    case_decide as Hd; [by destruct Hd|done].
  - rewrite lookup_delete_ne by done. destruct (O !! x) as [u|] eqn:Hu; cbn; [|done].
    destruct (alive x u) as [y|] eqn:Hy; cbn; [|done].
    unfold alive in Hy. destruct (op_destroy u); [|done]. injection Hy as <-.
    case_decide as Hd; [by f_equal|].
    exfalso. apply Hne. eapply Hinj; eauto.
Qed.

(** Ids in the state of the automaton are those of operations. *)
Lemma traced_old X S a O L s : traced X S a O L s ->
  Forall (fun x : Z * Z => 1 <= x.1 <= accepts L) (t_req s ++ t_ind s ++ t_alive s).
Proof.
  intros H. pose proof (tr_ids _ _ _ _ _ _ H) as Hid. rewrite !Forall_app. split_and!.
  - rewrite (ord_perm _ _ _ (tr_req _ _ _ _ _ _ H)). apply Forall_forall. intros x Hx.
    apply oview_in in Hx as (p & o & _ & Ho & Hx). apply unanswered_in in Hx as (_ & _ & _ & ->).
    cbn. eauto.
  - rewrite (ord_perm _ _ _ (tr_ind _ _ _ _ _ _ H)). apply Forall_forall. intros x Hx.
    apply oview_in in Hx as (p & o & _ & Ho & Hx). apply unanswered_in in Hx as (_ & _ & _ & ->).
    cbn. eauto.
  - rewrite (tr_alive _ _ _ _ _ _ H). apply Forall_forall. intros x Hx.
    apply oview_in in Hx as (p & o & _ & Ho & Hx). unfold alive in Hx.
    destruct (op_destroy o); [|done]. injection Hx as <-. cbn. eauto.
Qed.

Lemma trace_down L s : trace L = Some s -> EvDown ∈ L -> t_down s = true.
Proof.
  revert s. induction L as [|e L IH] using rev_ind; intros s Hs Hin; [set_solver|].
  unfold trace in Hs. rewrite trace_from_snoc in Hs.
  destruct (trace_from _ L) as [s'|] eqn:Hs'; [|done].
  assert (EvDown ∈ L \/ e = EvDown) as [H| ->] by set_solver.
  2:{ cbn in Hs. by injection Hs as <-. }
  - assert (t_down s' = true) as Hd by (by apply IH).
    destruct e; cbn in Hs; try (by injection Hs as <-); try done.
    all: destruct (decide _); by simplify_eq.
Qed.

Lemma ord_trans d l k m : ord d l k -> ord d k m -> ord d l m.
Proof. destruct d; cbn; [by intros -> ->|by intros -> ->]. Qed.

(** ** What the functions do to it *)

(** An event that is not about operations. *)
Definition quiet (e : event) : Prop :=
  match e with
  | EvResponse _ _ _ _ | EvAccept _ _ _ _ | EvOpDestroy _ _ | EvCancel _ | EvCancelAll
  | EvExpired _ | EvDown => False
  | _ => True
  end.

Lemma accepts_snoc_quiet L e : (forall i t d u, e <> EvAccept i t d u) -> accepts (L ++ [e]) = accepts L.
Proof. intros H. rewrite accepts_app. destruct e; cbn; try lia. by edestruct H. Qed.

(** A new event with its effect on the automaton and on what was answered. *)
Lemma core_event X S S' a O tm N L e :
  core X S a O tm N L -> Forall (fun p => p < N) S' ->
  (forall i t d u, e <> EvAccept i t d u) ->
  (forall s, few L -> traced X S a O L s -> exists s', tstep s e = Some s' /\
     ord (t_down s') (t_req s') (oview (unanswered ATT_OP_TYPE_REQ S') O (X ++ req_addrs a)) /\
     ord (t_down s') (t_ind s') (oview (unanswered ATT_OP_TYPE_IND S') O (X ++ ind_addrs a)) /\
     t_alive s' = t_alive s) ->
  core X S' a O tm N (L ++ [e]).
Proof.
  intros (H1 & H2 & _ & H3) HS He Hs. split_and!; [done..|]. intros Hfew.
  destruct (H3 (few_app _ _ Hfew)) as (Htm & s & Ht). split; [done|].
  destruct (Hs s (few_app _ _ Hfew) Ht) as (s' & Hstep & Hr & Hi & Ha). exists s'.
  destruct Ht as [T1 T2 T3 T4 T5 T6 T7]. constructor; try done.
  - by rewrite (trace_snoc _ _ _ T1).
  - by rewrite accepts_snoc_quiet.
  - by rewrite accepts_snoc_quiet.
  - by rewrite Ha.
Qed.

Lemma core_quiet X S a O tm N L e : core X S a O tm N L -> quiet e -> core X S a O tm N (L ++ [e]).
Proof.
  intros H He. eapply core_event; [done|apply H|by destruct e|].
  intros s _ [T1 T2 T3 T4 T5 T6 T7]. exists s. split_and!; try done. by destruct e.
Qed.

(** An operation that is answered, cancelled or timed out. *)
Lemma core_drop X S a O tm N L e p o :
  core X S a O tm N L -> O !! p = Some o ->
  (forall i t d u, e <> EvAccept i t d u) ->
  (forall s, few L -> traced X S a O L s -> tstep s e = Some (t_drop (op_id o) s)) ->
  core X (p :: S) a O tm N (L ++ [e]).
Proof.
  intros H Ho He Hstep. eapply core_event; [done| |done|].
  { apply Forall_cons. split; [|apply H]. destruct H as (H & _).
    apply (h_next _ _ _ _ H). apply (h_dom _ _ _ _ H). eauto. }
  intros s Hf Ht. exists (t_drop (op_id o) s). rewrite Hstep by done. destruct Ht as [T1 T2 T3 T4 T5 T6 T7].
  split_and!; [done| | |done]; cbn [t_drop t_req t_ind t_down].
  - erewrite <- drop_view by done. by apply ord_drop.
  - erewrite <- drop_view by done. by apply ord_drop.
Qed.

Lemma core_cancelled X S a O tm N L p o :
  core X S a O tm N L -> O !! p = Some o -> core X (p :: S) a O tm N (L ++ [EvCancel (op_id o)]).
Proof. intros H Ho. by eapply core_drop. Qed.
Lemma core_expired X S a O tm N L p o :
  core X S a O tm N L -> O !! p = Some o -> core X (p :: S) a O tm N (L ++ [EvExpired (op_id o)]).
Proof. intros H Ho. by eapply core_drop. Qed.

(** An operation that may be answered: the first of its kind, or any when the link is down. *)
Definition next_up (X : list Z) (a : bt_att) (L : list event) (p : Z) (o : att_send_op) : Prop :=
  (op_type o = ATT_OP_TYPE_REQ /\ head (X ++ req_addrs a) = Some p) \/
  (op_type o = ATT_OP_TYPE_IND /\ head (X ++ ind_addrs a) = Some p) \/
  (EvDown ∈ L /\ p ∈ X).

Lemma view_head type S O q p o :
  head q = Some p -> O !! p = Some o -> op_type o = type -> op_callback o = true -> p ∉ S ->
  head (oview (unanswered type S) O q) = Some (op_id o, op_data o).
Proof.
  intros Hq Ho Ht Hc Hp. destruct q as [|x q]; [done|]. cbn in Hq. injection Hq as ->.
  unfold oview. cbn. rewrite Ho. cbn. by rewrite unanswered_some.
Qed.

Lemma answerable_view d type S O q l p o :
  ord d l (oview (unanswered type S) O q) -> O !! p = Some o -> op_type o = type ->
  op_callback o = true -> p ∉ S -> (head q = Some p \/ (d = true /\ p ∈ q)) ->
  answerable d (op_id o, op_data o) l.
Proof.
  intros Hl Ho Ht Hc Hp Hq. unfold answerable. destruct d; cbn in Hl.
  - rewrite Hl. eapply (oview_elem _ _ _ p); [|done|by apply unanswered_some].
    destruct Hq as [Hq|[_ Hq]]; [|done]. destruct q; [done|]. cbn in Hq. injection Hq as ->. set_solver.
  - destruct Hq as [Hq|[Hq _]]; [|done]. rewrite Hl. by apply (view_head _ _ _ _ p).
Qed.

Lemma core_response X S a O tm N L p o opcode pdu :
  core X S a O tm N L -> O !! p = Some o -> op_callback o = true -> p ∉ S ->
  next_up X a L p o ->
  core X (p :: S) a O tm N (L ++ [EvResponse (op_id o) opcode pdu (op_data o)]).
Proof.
  intros H Ho Hc Hp Hn. eapply core_drop; [done..|]. intros s _ [T1 T2 T3 T4 T5 T6 T7]. cbn.
  rewrite decide_True; [done|]. destruct Hn as [[Ht Hn]|[[Ht Hn]|[Hd Hn]]].
  - left. eapply (answerable_view _ _ _ _ _ _ p o); [exact T5|done..|by left].
  - right. eapply (answerable_view _ _ _ _ _ _ p o); [exact T6|done..|by left].
  - pose proof (trace_down _ _ T1 Hd) as Hdown. destruct H as (H & _).
    destruct (h_cb _ _ _ _ H _ _ Ho Hc) as [Ht|Ht]; [left|right];
      (eapply (answerable_view _ _ _ _ _ _ p o); [eassumption|done..|right; split; [done|set_solver]]).
Qed.

(** Everything is cancelled. *)
Lemma core_cancel_all S a O tm N L :
  core [] S a O tm N L -> core [] (addrs a ++ S) a O tm N (L ++ [EvCancelAll]).
Proof.
  intros H. eapply core_event; [done| |done|].
  { apply Forall_app. split; [|apply H]. apply Forall_forall. intros p Hp. destruct H as (H & _).
    apply (h_next _ _ _ _ H). done. }
  intros s _ [T1 T2 T3 T4 T5 T6 T7].
  eexists. split; [reflexivity|]. cbn [t_req t_ind t_alive t_down]. split_and!; [| |done].
  all: rewrite oview_nil; [apply ord_same|].
  all: intros p o Hp _; apply unanswered_mem; unfold addrs; set_solver.
Qed.

Lemma core_down X S a O tm N L :
  core X S a O tm N L -> core X S a O tm N (L ++ [EvDown]).
Proof.
  intros H. eapply core_event; [done|apply H|done|]. intros s _ [T1 T2 T3 T4 T5 T6 T7].
  eexists. split; [reflexivity|]. cbn [t_req t_ind t_alive t_down].
  split_and!; [by eapply ord_perm|by eapply ord_perm|done].
Qed.

(** Operations that move between queues, pending and the hands of a function. *)
Lemma core_move X X' S a a' O tm N L :
  core X S a O tm N L ->
  X ++ addrs a ≡ₚ X' ++ addrs a' -> next_send_id a' = next_send_id a ->
  (forall p o, p ∈ req_addrs a' -> O !! p = Some o -> op_type o = ATT_OP_TYPE_REQ) ->
  (forall p o, p ∈ ind_addrs a' -> O !! p = Some o -> op_type o = ATT_OP_TYPE_IND) ->
  (forall p o, p ∈ queued a' -> O !! p = Some o -> timeout_id o = 0) ->
  (forall p o, p ∈ write_queue a' -> O !! p = Some o -> answered_type (op_type o) = false) ->
  (forall d, (EvDown ∈ L -> d = true) ->
     ord d (oview (unanswered ATT_OP_TYPE_REQ S) O (X ++ req_addrs a))
           (oview (unanswered ATT_OP_TYPE_REQ S) O (X' ++ req_addrs a')) /\
     ord d (oview (unanswered ATT_OP_TYPE_IND S) O (X ++ ind_addrs a))
           (oview (unanswered ATT_OP_TYPE_IND S) O (X' ++ ind_addrs a'))) ->
  core X' S a' O tm N L.
Proof.
  intros ([H1 H2 H3 H4 H5 H6 H7 H8] & Hpos & HS & Ht) Hp Hn Hr Hi Hq Hwr Hv. split_and!; [|done..|].
  - constructor; try done.
    + by rewrite <- Hp.
    + intros p. rewrite <- Hp. apply H2.
    + intros p. rewrite <- Hp. apply H3.
  - intros Hf. destruct (Ht Hf) as ([K1 K2 K3] & s & [T1 T2 T3 T4 T5 T6 T7]). split.
    { constructor; try done. by rewrite <- Hp. }
    exists s.
    destruct (Hv (t_down s)) as (V1 & V2); [intros Hd; by eapply trace_down|].
    constructor; try done.
    + by rewrite Hn.
    + by eapply ord_trans.
    + by eapply ord_trans.
    + by rewrite <- Hp.
Qed.

(** Other fields of the transport. *)
Definition same_ops (a a' : bt_att) : Prop :=
  req_queue a' = req_queue a /\ pending_req a' = pending_req a /\ ind_queue a' = ind_queue a /\
  pending_ind a' = pending_ind a /\ write_queue a' = write_queue a /\ next_send_id a' = next_send_id a.

Lemma core_same X S a a' O tm N L : core X S a O tm N L -> same_ops a a' -> core X S a' O tm N L.
Proof.
  intros H (H1 & H2 & H3 & H4 & H5 & H6). pose proof H as ([] & _).
  assert (req_addrs a' = req_addrs a) as Hr by (unfold req_addrs; congruence).
  assert (ind_addrs a' = ind_addrs a) as Hi by (unfold ind_addrs; congruence).
  eapply core_move; [done| |done| | | | |].
  - unfold addrs. by rewrite Hr, Hi, H5.
  - by rewrite Hr.
  - by rewrite Hi.
  - unfold queued. by rewrite H1, H3, H5.
  - by rewrite H5.
  - intros d _. rewrite Hr, Hi. split; apply ord_same.
Qed.

Section store.
Context {B : Type}.
Implicit Types (f : Z -> att_send_op -> option B) (O : gmap Z att_send_op).

Lemma oview_delete f O p q : p ∉ q -> oview f (delete p O) q = oview f O q.
Proof. intros Hp. apply oview_ext. intros x Hx. rewrite lookup_delete_ne by set_solver. done. Qed.
Lemma oview_insert_ne f O p o q : p ∉ q -> oview f (<[p := o]> O) q = oview f O q.
Proof. intros Hp. apply oview_ext. intros x Hx. rewrite lookup_insert_ne by set_solver. done. Qed.
Lemma oview_insert_same f O p o o' q :
  O !! p = Some o -> f p o' = f p o -> oview f (<[p := o']> O) q = oview f O q.
Proof.
  intros Ho Hf. apply oview_ext. intros x _. destruct (decide (x = p)) as [->|Hne].
  - by rewrite lookup_insert_eq, Ho.
  - by rewrite lookup_insert_ne.
Qed.
(** An element of the list apart. *)
Lemma oview_split f O p o q :
  p ∈ q -> O !! p = Some o -> NoDup q ->
  exists r, q ≡ₚ p :: r /\ p ∉ r /\ oview f O q ≡ₚ option_list (f p o) ++ oview f O r.
Proof.
  intros Hp Ho Hq. apply list_elem_of_split in Hp as (l & r & ->). exists (l ++ r).
  assert (l ++ p :: r ≡ₚ p :: (l ++ r)) as Heq by (symmetry; apply Permutation_middle).
  split_and!; [done| |].
  - rewrite Heq, NoDup_cons in Hq. apply Hq.
  - rewrite Heq. unfold oview at 1. cbn. rewrite Ho. cbn. by destruct (f p o).
Qed.
End store.

Lemma core_id_inj X S a O L s : traced X S a O L s ->
  forall p q o u, O !! p = Some o -> O !! q = Some u -> op_id o = op_id u -> p = q.
Proof. by intros []. Qed.

Definition drop_timer (t : Z) (tm : list (Z * Z)) : list (Z * Z) :=
  filter (fun x => x.1 <> t) tm.

Lemma drop_timer_none t tm : Forall (fun x : Z * Z => x.1 <> t) tm -> drop_timer t tm = tm.
Proof.
  unfold drop_timer. induction 1 as [|x l Hx Hl IH]; [done|]. by rewrite filter_cons_True, IH.
Qed.

Lemma drop_timer_one t i k tm : tm ≡ₚ (t, i) :: k -> NoDup tm.*1 -> drop_timer t tm ≡ₚ k.
Proof.
  intros Hp Hn. unfold drop_timer. rewrite Hp, filter_cons_False by (cbn; lia).
  fold (drop_timer t k). rewrite drop_timer_none; [done|].
  rewrite Hp in Hn. cbn in Hn. apply NoDup_cons in Hn as (Hn & _).
  apply Forall_forall. intros x Hx Ht. apply Hn.
  apply list_elem_of_fmap. by exists x.
Qed.

Lemma drop_timer_sub t tm : drop_timer t tm `sublist_of` tm.
Proof. apply sublist_filter. Qed.

Lemma timed_drop O tm N q p o :
  tm ≡ₚ oview timed O q -> NoDup tm.*1 -> Forall (fun t => 0 < t.1 < N) tm ->
  p ∈ q -> NoDup q -> O !! p = Some o ->
  exists r, q ≡ₚ p :: r /\ p ∉ r /\
    drop_timer (timeout_id o) tm ≡ₚ oview timed O r /\
    NoDup (drop_timer (timeout_id o) tm).*1 /\ Forall (fun t => 0 < t.1 < N) (drop_timer (timeout_id o) tm).
Proof.
  intros H1 H2 H3 Hp Hq Ho. destruct (oview_split timed O p o q Hp Ho Hq) as (r & Hr & Hpr & Hv).
  exists r. split_and!; [done..| | |].
  - rewrite Hv in H1. unfold timed at 1 in H1.
    destruct (Z.eqb_spec (timeout_id o) 0) as [H0|H0].
    + rewrite H0, drop_timer_none; [done|]. eapply Forall_impl; [exact H3|]. cbn. lia.
    + cbn [option_list app] in H1. by eapply (drop_timer_one _ (op_id o)).
  - eapply sublist_NoDup; [exact H2|]. apply fmap_sublist, drop_timer_sub.
  - rewrite !Forall_forall in *. intros x Hx. apply H3. by eapply list_elem_of_filter, Hx.
Qed.

(** The call of the destroy function. *)
Definition destroy_event (o : att_send_op) : list event :=
  if op_destroy o then [EvOpDestroy (op_id o) (op_data o)] else [].

(** An operation leaves the store. *)
Lemma held_remove X a O N p : held (p :: X) a O N -> held X a (delete p O) N.
Proof.
  intros [H1 H2 H3 H4 H5 H6 H7 H8]. cbn in H1. apply NoDup_cons in H1 as (Hpx & Hnd).
  constructor; try done.
  - intros q. rewrite lookup_delete_is_Some, <- H2. set_solver.
  - intros q Hq. apply H3. set_solver.
  - intros q u Hq Hu. apply lookup_delete_Some in Hu as (_ & Hu). eauto.
  - intros q u Hq Hu. apply lookup_delete_Some in Hu as (_ & Hu). eauto.
  - intros q u Hu. apply lookup_delete_Some in Hu as (_ & Hu). eauto.
  - intros q u Hq Hu. apply lookup_delete_Some in Hu as (_ & Hu). eauto.
  - intros q u Hq Hu. apply lookup_delete_Some in Hu as (_ & Hu). eauto.
Qed.

Lemma view_remove type S O p o q :
  p ∉ q -> O !! p = Some o -> p ∈ S \/ op_callback o = false ->
  oview (unanswered type S) O (p :: q) = oview (unanswered type S) (delete p O) q.
Proof.
  intros Hq Ho Hp. rewrite oview_delete by done. unfold oview. cbn. rewrite Ho. cbn.
  destruct Hp as [Hp|Hp]; [by rewrite unanswered_mem|by rewrite unanswered_silent].
Qed.

Lemma drop_view_none type S O p o q :
  (forall p q o u, O !! p = Some o -> O !! q = Some u -> op_id o = op_id u -> p = q) ->
  p ∉ q -> O !! p = Some o ->
  drop_id (op_id o) (oview (unanswered type S) (delete p O) q) = oview (unanswered type S) (delete p O) q.
Proof.
  intros Hinj Hq Ho. rewrite oview_delete by done. erewrite drop_view by done.
  apply oview_ext. intros x Hx. destruct (O !! x) as [u|]; [|done]. cbn. unfold unanswered.
  by rewrite (bool_decide_ext (x ∉ p :: S) (x ∉ S)) by set_solver.
Qed.

Lemma alive_remove O p o q :
  p ∉ q -> O !! p = Some o ->
  oview alive O (p :: q) =
    (if op_destroy o then [(op_id o, op_data o)] else []) ++ oview alive (delete p O) q.
Proof.
  intros Hq Ho. rewrite oview_delete by done. unfold oview. cbn. rewrite Ho. cbn. unfold alive at 1.
  by destruct (op_destroy o).
Qed.

Lemma traced_remove X S a O L s p o :
  traced (p :: X) S a O L s -> NoDup (p :: X ++ addrs a) -> O !! p = Some o ->
  p ∈ S \/ op_callback o = false ->
  exists s', traced X S a (delete p O) (L ++ destroy_event o) s'.
Proof.
  intros Hs (Hpx & Hnd)%NoDup_cons Ho Hp. pose proof (core_id_inj _ _ _ _ _ _ Hs) as Hinj.
  destruct Hs as [T1 T2 T3 T4 T5 T6 T7]. cbn [app] in T5, T6, T7.
  assert (p ∉ X ++ req_addrs a /\ p ∉ X ++ ind_addrs a) as (Hp1 & Hp2) by (unfold addrs in *; set_solver).
  rewrite (view_remove _ _ _ _ o) in T5 by done. rewrite (view_remove _ _ _ _ o) in T6 by done.
  rewrite (alive_remove _ _ o) in T7 by done.
  assert (accepts (L ++ destroy_event o) = accepts L) as Hacc.
  { rewrite accepts_app. unfold destroy_event. destruct (op_destroy o); cbn; lia. }
  assert (forall x y u v, delete p O !! x = Some u -> delete p O !! y = Some v -> op_id u = op_id v -> x = y) as Hinj2.
  { intros x y u v (_ & Hx)%lookup_delete_Some (_ & Hy)%lookup_delete_Some. by eapply Hinj. }
  assert (forall x u, delete p O !! x = Some u -> 1 <= op_id u <= accepts L) as Hids.
  { intros x u (_ & Hu)%lookup_delete_Some. eauto. }
  unfold destroy_event in *. destruct (op_destroy o) eqn:Hd; cbn [app] in T7.
  - exists (T (drop_id (op_id o) (t_req s)) (drop_id (op_id o) (t_ind s)) (drop_id (op_id o) (t_alive s)) (t_down s)).
    constructor; cbn [t_req t_ind t_alive t_down]; rewrite ?Hacc; try done.
    + rewrite (trace_snoc _ _ _ T1). cbn [tstep]. rewrite decide_True; [reflexivity|].
      rewrite T7. set_solver.
    + erewrite <- (drop_view_none _ _ O) by done. by apply ord_drop.
    + erewrite <- (drop_view_none _ _ O) by done. by apply ord_drop.
    + unfold drop_id. rewrite T7. rewrite filter_cons_False by (cbn; tauto).
      fold (drop_id (op_id o) (oview alive (delete p O) (X ++ addrs a))).
      rewrite oview_delete by done. erewrite drop_alive by done. by rewrite oview_delete.
  - exists s. rewrite app_nil_r in *. by constructor.
Qed.

Lemma core_remove X S a O tm N L p o :
  core (p :: X) S a O tm N L -> O !! p = Some o -> p ∈ S \/ op_callback o = false ->
  core X S a (delete p O) (drop_timer (timeout_id o) tm) N (L ++ destroy_event o).
Proof.
  intros (H & Hpos & HS & Ht) Ho Hp. pose proof (h_nodup _ _ _ _ H) as Hnd. cbn in Hnd.
  split_and!; [| |done|].
  - by apply held_remove.
  - rewrite !Forall_forall in *. intros x Hx. apply Hpos. by eapply list_elem_of_filter, Hx.
  - intros Hf. destruct (Ht (few_app _ _ Hf)) as ([K1 K2 K3] & s & Hs).
    split; [|by eapply traced_remove].
    destruct (timed_drop O tm N (p :: X ++ addrs a) p o) as (r & Hr & Hpr & Hd & Hd2 & Hd3); try done.
    { set_solver. }
    apply Permutation_cons_inv in Hr. constructor; [|done..].
    rewrite Hd, oview_delete, Hr; [done|]. apply NoDup_cons in Hnd. tauto.
Qed.

Lemma core_next X S a O tm N N' L : core X S a O tm N L -> N <= N' -> core X S a O tm N' L.
Proof.
  intros ([H1 H2 H3 H4 H5 H6 H7 H8] & Hpos & HS & Ht) HN.
  split_and!; [|done|eapply Forall_impl; [exact HS|]; cbn; lia|].
  - constructor; try done. intros p Hp. specialize (H3 p Hp). lia.
  - intros Hf. destruct (Ht Hf) as ([K1 K2 K3] & Hs). split; [|done].
    constructor; try done. eapply Forall_impl; [exact K3|]. cbn. lia.
Qed.

(** Changes of an operation that keep its id and its kind. *)
Lemma held_put X a O N p o o' :
  held X a O N -> O !! p = Some o -> op_type o' = op_type o ->
  (op_callback o' = true -> op_callback o = true) -> (timeout_id o' = timeout_id o \/ p ∉ queued a) ->
  held X a (<[p := o']> O) N.
Proof.
  intros [H1 H2 H3 H4 H5 H6 H7 H8] Ho Ht Hc Hw.
  assert (forall q u, <[p := o']> O !! q = Some u -> exists v, O !! q = Some v /\ op_type u = op_type v /\
    (op_callback u = true -> op_callback v = true)) as Hold.
  { intros q u Hu. destruct (decide (q = p)) as [->|Hne].
    - rewrite lookup_insert_eq in Hu. injection Hu as <-. eauto.
    - rewrite lookup_insert_ne in Hu by done. eauto. }
  constructor; try done.
  - intros q. rewrite lookup_insert_is_Some, <- H2. rewrite H2.
    split; [|by intros [->|[_ ?]]]. intros Hq. destruct (decide (p = q)); [by left|by right].
  - intros q u Hq Hu. destruct (Hold q u Hu) as (v & Hv & -> & _). eauto.
  - intros q u Hq Hu. destruct (Hold q u Hu) as (v & Hv & -> & _). eauto.
  - intros q u Hu Hcb. destruct (Hold q u Hu) as (v & Hv & -> & Hc'). eauto.
  - intros q u Hq Hu. destruct (decide (q = p)) as [->|Hne].
    + rewrite lookup_insert_eq in Hu. injection Hu as <-. destruct Hw as [->|Hw]; [eauto|done].
    + rewrite lookup_insert_ne in Hu by done. eauto.
  - intros q u Hq Hu. destruct (Hold q u Hu) as (v & Hv & -> & _). eauto.
Qed.

Lemma insert_ids (O : gmap Z att_send_op) p o o' :
  O !! p = Some o -> op_id o' = op_id o ->
  forall q u, <[p := o']> O !! q = Some u -> exists v, O !! q = Some v /\ op_id u = op_id v.
Proof.
  intros Ho Hid q u Hu. destruct (decide (q = p)) as [->|Hne].
  - rewrite lookup_insert_eq in Hu. injection Hu as <-. eauto.
  - rewrite lookup_insert_ne in Hu by done. eauto.
Qed.

Definition with_timer (o : att_send_op) (t : Z) : att_send_op :=
  SendOp (op_id o) t (op_type o) (opcode o) (pdu o) (op_callback o) (op_destroy o) (op_data o).

Lemma core_timer X S a O tm tm' N N' L p o t :
  core X S a O tm N L -> N <= N' -> O !! p = Some o -> p ∉ queued a ->
  Forall (fun t => 0 < t.1) tm' ->
  (timed_ok X a O tm N -> timed_ok X a (<[p := with_timer o t]> O) tm' N') ->
  core X S a (<[p := with_timer o t]> O) tm' N' L.
Proof.
  intros Hc HN Ho Hq Hpos Htm. pose proof (core_next _ _ _ _ _ _ _ _ Hc HN) as (H & _ & HS & _).
  destruct Hc as (_ & _ & _ & Ht).
  split_and!; [eapply held_put; [done..|by right]|done..|].
  intros Hf. destruct (Ht Hf) as (Htm' & s & [T1 T2 T3 T4 T5 T6 T7]). split; [by apply Htm|].
  exists s. constructor; try done.
  - intros x y u v Hx Hy Hid.
    destruct (insert_ids O p o (with_timer o t) Ho eq_refl _ _ Hx) as (u' & Hu & E1).
    destruct (insert_ids O p o (with_timer o t) Ho eq_refl _ _ Hy) as (v' & Hv & E2).
    eapply T2; [done..|congruence].
  - intros x u Hx. destruct (insert_ids O p o (with_timer o t) Ho eq_refl _ _ Hx) as (u' & Hu & ->). eauto.
  - by rewrite (oview_insert_same _ _ _ o).
  - by rewrite (oview_insert_same _ _ _ o).
  - by rewrite (oview_insert_same _ _ _ o).
Qed.

Lemma core_start_timer X S a O tm N L p o :
  core X S a O tm N L -> O !! p = Some o -> p ∉ queued a -> timeout_id o = 0 -> 0 < N ->
  core X S a (<[p := with_timer o N]> O) (tm ++ [(N, op_id o)]) (N + 1) L.
Proof.
  intros H Ho Hq H0 HN. eapply (core_timer _ _ _ _ tm _ N); [done|lia|done..| |].
  { apply Forall_app. split; [apply H|]. by apply Forall_singleton. }
  intros [K1 K2 K3]. destruct H as (H & _).
  assert (p ∈ X ++ addrs a) as Hp by (apply (h_dom _ _ _ _ H); eauto).
  destruct (oview_split timed O p o _ Hp Ho (h_nodup _ _ _ _ H)) as (r & Hr & Hpr & Hv). constructor.
  - rewrite Hr. unfold oview. cbn. rewrite lookup_insert_eq. cbn.
    fold (oview timed (<[p := with_timer o N]> O) r). rewrite oview_insert_ne by done.
    unfold timed at 1. cbn. rewrite (proj2 (Z.eqb_neq N 0)) by lia.
    rewrite K1, Hv. unfold timed at 1. rewrite H0. cbn. by rewrite Permutation_app_comm.
  - rewrite fmap_app. cbn. apply NoDup_app. split_and!; [done| |apply NoDup_singleton].
    intros x Hx Hn. apply list_elem_of_fmap in Hx as (y & -> & Hy). rewrite Forall_forall in K3.
    specialize (K3 y Hy). set_solver by lia.
  - apply Forall_app. split; [eapply Forall_impl; [exact K3|]; cbn; lia|].
    apply Forall_singleton. cbn. lia.
Qed.

Lemma core_stop_timer X S a O tm N L p o :
  core X S a O tm N L -> O !! p = Some o -> p ∉ queued a ->
  core X S a (<[p := with_timer o 0]> O) (drop_timer (timeout_id o) tm) N L.
Proof.
  intros H Ho Hq. eapply (core_timer _ _ _ _ tm _ N); [done..| |].
  { destruct H as (_ & H & _). rewrite !Forall_forall in *. intros x Hx. apply H. by eapply list_elem_of_filter, Hx. }
  intros [K1 K2 K3]. destruct H as (H & _).
  assert (p ∈ X ++ addrs a) as Hp by (apply (h_dom _ _ _ _ H); eauto).
  destruct (timed_drop O tm N (X ++ addrs a) p o K1 K2 K3 Hp (h_nodup _ _ _ _ H) Ho)
    as (r & Hr & Hpr & Hd & Hd2 & Hd3). constructor; [|done..].
  rewrite Hd, Hr. unfold oview at 2. cbn. rewrite lookup_insert_eq. cbn.
  fold (oview timed (<[p := with_timer o 0]> O) r). by rewrite oview_insert_ne.
Qed.

(** A pending operation that is cancelled stays without its functions. *)
Definition silent (o : att_send_op) : att_send_op :=
  SendOp (op_id o) (timeout_id o) (op_type o) (opcode o) (pdu o) false false 0.

Lemma core_silence X S a O tm N L p o :
  core X S a O tm N L -> O !! p = Some o -> p ∈ S ->
  core X S a (<[p := silent o]> O) tm N (L ++ destroy_event o).
Proof.
  intros (H & Hpos & HS & Ht) Ho Hp. split_and!; [eapply held_put; [done..|by left]|done..|].
  - intros Hf. destruct (Ht (few_app _ _ Hf)) as ([K1 K2 K3] & s & Hs). split.
    { constructor; [|done..]. by rewrite (oview_insert_same _ _ _ o). }
    pose proof (core_id_inj _ _ _ _ _ _ Hs) as Hinj.
    destruct Hs as [T1 T2 T3 T4 T5 T6 T7].
    assert (p ∈ X ++ addrs a) as Hpx by (apply (h_dom _ _ _ _ H); eauto).
    pose proof (h_nodup _ _ _ _ H) as Hnd.
    assert (accepts (L ++ destroy_event o) = accepts L) as Hacc.
    { rewrite accepts_app. unfold destroy_event. destruct (op_destroy o); cbn; lia. }
    assert (forall x y u v, <[p := silent o]> O !! x = Some u -> <[p := silent o]> O !! y = Some v ->
      op_id u = op_id v -> x = y) as Hinj2.
    { intros x y u v Hx Hy Hid. destruct (insert_ids O p o (silent o) Ho eq_refl _ _ Hx) as (u' & Hu & E1).
      destruct (insert_ids O p o (silent o) Ho eq_refl _ _ Hy) as (v' & Hv & E2).
      eapply T2; [done..|congruence]. }
    assert (forall x u, <[p := silent o]> O !! x = Some u -> 1 <= op_id u <= accepts L) as Hids.
    { intros x u Hx. destruct (insert_ids O p o (silent o) Ho eq_refl _ _ Hx) as (u' & Hu & ->). eauto. }
    assert (forall type, unanswered type S p (silent o) = unanswered type S p o) as Hun.
    { intros type. by rewrite !unanswered_mem. }
    unfold destroy_event in *. destruct (op_destroy o) eqn:Hd.
    + exists (T (drop_id (op_id o) (t_req s)) (drop_id (op_id o) (t_ind s)) (drop_id (op_id o) (t_alive s)) (t_down s)).
      destruct (oview_split alive O p o _ Hpx Ho Hnd) as (r & Hr & Hpr & Hv).
      assert (alive p o = Some (op_id o, op_data o)) as Hap by (unfold alive; by rewrite Hd).
      rewrite Hap in Hv. change (option_list (Some ?x) ++ ?l) with (x :: l) in Hv.
      assert (forall type q, drop_id (op_id o) (oview (unanswered type S) O q) = oview (unanswered type S) O q) as Hdrop.
      { intros type q. erewrite drop_view by done. apply oview_ext. intros x _.
        destruct (O !! x) as [u|]; [|done]. cbn. unfold unanswered.
        by rewrite (bool_decide_ext (x ∉ p :: S) (x ∉ S)) by set_solver. }
      constructor; cbn [t_req t_ind t_alive t_down]; rewrite ?Hacc; try done.
      * rewrite (trace_snoc _ _ _ T1). cbn [tstep]. rewrite decide_True; [done|].
        rewrite T7, Hv. set_solver.
      * rewrite (oview_insert_same _ _ _ o), <- Hdrop by done. by apply ord_drop.
      * rewrite (oview_insert_same _ _ _ o), <- Hdrop by done. by apply ord_drop.
      * transitivity (oview alive O r).
        { unfold drop_id. rewrite T7, Hv. rewrite filter_cons_False by (cbn; tauto).
          fold (drop_id (op_id o) (oview alive O r)).
          rewrite Hr in Hnd. apply NoDup_cons in Hnd as (_ & Hnd).
          erewrite drop_alive by done. by rewrite oview_delete. }
        rewrite Hr. unfold oview. cbn. rewrite lookup_insert_eq. cbn.
        fold (oview alive (<[p := silent o]> O) r). by rewrite oview_insert_ne.
    + exists s. rewrite app_nil_r in *. constructor; try done.
      * by rewrite (oview_insert_same _ _ _ o).
      * by rewrite (oview_insert_same _ _ _ o).
      * rewrite (oview_insert_same _ _ _ o); [done..|]. unfold alive. by rewrite Hd.
Qed.

(** A new operation goes to the end of its queue. *)
Definition push (a : bt_att) (p : Z) (type : att_op_type) : bt_att :=
  match type with
  | ATT_OP_TYPE_REQ => set_req_queue a (req_queue a ++ [p])
  | ATT_OP_TYPE_IND => set_ind_queue a (ind_queue a ++ [p])
  | _ => set_write_queue a (write_queue a ++ [p])
  end.

Lemma push_addrs a p type : addrs (push a p type) ≡ₚ addrs a ++ [p].
Proof. unfold addrs, req_addrs, ind_addrs. destruct type; cbn; solve_Permutation. Qed.
Lemma push_req a p type : req_addrs (push a p type) =
  req_addrs a ++ (if bool_decide (type = ATT_OP_TYPE_REQ) then [p] else []).
Proof. unfold req_addrs. destruct type; cbn; by rewrite ?app_nil_r, <- ?app_assoc. Qed.
Lemma push_ind a p type : ind_addrs (push a p type) =
  ind_addrs a ++ (if bool_decide (type = ATT_OP_TYPE_IND) then [p] else []).
Proof. unfold ind_addrs. destruct type; cbn; by rewrite ?app_nil_r, <- ?app_assoc. Qed.

Lemma view_push {B} (f : Z -> att_send_op -> option B) O q b p o :
  p ∉ q -> oview f (<[p := o]> O) (q ++ (if b : bool then [p] else [])) =
  oview f O q ++ (if b then option_list (f p o) else []).
Proof.
  intros Hp. rewrite oview_app, oview_insert_ne by done. f_equal. destruct b; [|done].
  unfold oview. cbn. rewrite lookup_insert_eq. cbn. by destruct (f p o).
Qed.

Lemma held_accept X a O N o id :
  held X a O N -> 0 < N -> (op_callback o = true -> answered_type (op_type o) = true) -> timeout_id o = 0 ->
  held X (push (set_next_send_id a id) N (op_type o)) (<[N := o]> O) (N + 1).
Proof.
  intros [H1 H2 H3 H4 H5 H6 H7 H8] HN Hc Ht0.
  assert (N ∉ X ++ addrs a) as Hnew by (intros H%H3; lia).
  assert (forall p, p <> N -> <[N := o]> O !! p = O !! p) as Hne by (intros; by rewrite lookup_insert_ne).
  assert (X ++ addrs (push (set_next_send_id a id) N (op_type o)) ≡ₚ N :: X ++ addrs a) as Hp.
  { rewrite push_addrs. change (addrs (set_next_send_id a id)) with (addrs a). solve_Permutation. }
  constructor.
  - rewrite Hp. by apply NoDup_cons.
  - intros p. rewrite Hp, elem_of_cons, H2, lookup_insert_is_Some.
    destruct (decide (p = N)) as [->|Hd]; [set_solver|]. set_solver.
  - intros p. rewrite Hp, elem_of_cons. intros [-> |Hq]; [lia|]. specialize (H3 p Hq). lia.
  - intros p u Hq Hu. rewrite push_req in Hq. change (req_addrs (set_next_send_id a id)) with (req_addrs a) in Hq.
    destruct (decide (p = N)) as [->|Hd].
    + rewrite lookup_insert_eq in Hu. injection Hu as <-.
      destruct (bool_decide_reflect (op_type o = ATT_OP_TYPE_REQ)); [done|].
      unfold addrs in Hnew. set_solver.
    + rewrite Hne in Hu by done. eapply H4; [|done].
      destruct (bool_decide _); set_solver.
  - intros p u Hq Hu. rewrite push_ind in Hq. change (ind_addrs (set_next_send_id a id)) with (ind_addrs a) in Hq.
    destruct (decide (p = N)) as [->|Hd].
    + rewrite lookup_insert_eq in Hu. injection Hu as <-.
      destruct (bool_decide_reflect (op_type o = ATT_OP_TYPE_IND)); [done|].
      unfold addrs in Hnew. set_solver.
    + rewrite Hne in Hu by done. eapply H5; [|done].
      destruct (bool_decide _); set_solver.
  - intros p u Hu Hcb. destruct (decide (p = N)) as [->|Hd].
    + rewrite lookup_insert_eq in Hu. injection Hu as <-. specialize (Hc Hcb). unfold answered_type in Hc.
      destruct (bool_decide_reflect (op_type o = ATT_OP_TYPE_REQ)); [by left|].
      destruct (bool_decide_reflect (op_type o = ATT_OP_TYPE_IND)); [by right|done].
    + rewrite Hne in Hu by done. eauto.
  - intros p u Hq Hu. destruct (decide (p = N)) as [->|Hd].
    + rewrite lookup_insert_eq in Hu. by injection Hu as <-.
    + rewrite Hne in Hu by done. eapply H7; [|done]. unfold queued in *.
      destruct (op_type o); cbn in Hq; set_solver.
  - intros p u Hq Hu. destruct (decide (p = N)) as [->|Hd].
    + rewrite lookup_insert_eq in Hu. injection Hu as <-.
      assert (N ∉ write_queue a) as Hnw by (unfold addrs in Hnew; set_solver).
      by destruct (op_type o).
    + rewrite Hne in Hu by done. eapply H8; [|done]. destruct (op_type o); cbn in Hq; set_solver.
Qed.

Lemma traced_accept X S a O N L s o :
  traced X S a O L s -> few (L ++ [EvAccept (op_id o) (op_type o) (op_destroy o) (op_data o)]) ->
  (forall p, p ∈ X ++ addrs a -> p <> N) -> O !! N = None -> N ∉ S ->
  op_id o = (if next_send_id a <? 1 then 1 else next_send_id a) ->
  op_callback o = answered_type (op_type o) ->
  exists s', traced X S (push (set_next_send_id a (u32 (op_id o + 1))) N (op_type o)) (<[N := o]> O)
    (L ++ [EvAccept (op_id o) (op_type o) (op_destroy o) (op_data o)]) s'.
Proof.
  intros Ht Hfew Hnew HN HS Hid Hc. pose proof (traced_old _ _ _ _ _ _ Ht) as Hold.
  destruct Ht as [T1 T2 T3 T4 T5 T6 T7]. pose proof (accepts_nonneg L) as Hnn.
  unfold few in Hfew. rewrite accepts_app in Hfew. cbn [accepts] in Hfew.
  assert (op_id o = accepts L + 1) as Hid'.
  { rewrite Hid, T4. destruct (Z.eqb_spec (accepts L) 0) as [->|]; [done|].
    by rewrite (proj2 (Z.ltb_ge _ _)) by lia. }
  set (L' := L ++ [_]). assert (accepts L' = accepts L + 1) as Hacc by (unfold L'; rewrite accepts_app; done).
  assert (forall q u, <[N := o]> O !! q = Some u -> (q = N /\ u = o) \/ (q <> N /\ O !! q = Some u)) as Hins.
  { intros q u Hu. destruct (decide (q = N)) as [->|Hd].
    - rewrite lookup_insert_eq in Hu. injection Hu as <-. by left.
    - rewrite lookup_insert_ne in Hu by done. by right. }
  assert (N ∉ X ++ req_addrs a /\ N ∉ X ++ ind_addrs a /\ N ∉ X ++ addrs a) as (N1 & N2 & N3).
  { unfold addrs in *. split_and!; intros Hx; eapply Hnew; [|done| |done| |done]; set_solver. }
  eexists. constructor.
  - unfold L'. rewrite (trace_snoc _ _ _ T1). cbn [tstep]. rewrite decide_True; [reflexivity|].
    eapply Forall_impl; [exact Hold|]. cbn. lia.
  - intros x y u v Hx Hy Huv. destruct (Hins _ _ Hx) as [[-> ->]|[Hx1 Hx2]], (Hins _ _ Hy) as [[-> ->]|[Hy1 Hy2]].
    + done.
    + specialize (T3 _ _ Hy2). lia.
    + specialize (T3 _ _ Hx2). lia.
    + eauto.
  - intros x u Hx. rewrite Hacc. destruct (Hins _ _ Hx) as [[-> ->]|[Hx1 Hx2]]; [lia|]. specialize (T3 _ _ Hx2). lia.
  - rewrite Hacc, (proj2 (Z.eqb_neq _ _)) by lia.
    transitivity (u32 (op_id o + 1)); [by destruct (op_type o)|]. rewrite u32_small; [lia|]. unfold is_u32. lia.
  - cbn [t_req t_down]. rewrite push_req, app_assoc, view_push by done.
    change (req_addrs (set_next_send_id a _)) with (req_addrs a).
    destruct (op_type o) eqn:Hty; cbn [bool_decide]; try (rewrite bool_decide_false, app_nil_r by done; exact T5).
    rewrite bool_decide_true by done. rewrite unanswered_some by (try done; rewrite Hc; done).
    by apply ord_app.
  - cbn [t_ind t_down]. rewrite push_ind, app_assoc, view_push by done.
    change (ind_addrs (set_next_send_id a _)) with (ind_addrs a).
    destruct (op_type o) eqn:Hty; cbn [bool_decide]; try (rewrite bool_decide_false, app_nil_r by done; exact T6).
    rewrite bool_decide_true by done. rewrite unanswered_some by (try done; rewrite Hc; done).
    by apply ord_app.
  - cbn [t_alive]. rewrite push_addrs, app_assoc.
    change (addrs (set_next_send_id a _)) with (addrs a).
    rewrite (view_push alive O _ true) by done.
    assert (alive N o = if op_destroy o then Some (op_id o, op_data o) else None) as -> by done.
    rewrite <- T7. destruct (op_destroy o); [done|]. by rewrite app_nil_r.
Qed.

Lemma core_accept X S a O tm N L o :
  core X S a O tm N L -> 0 < N ->
  op_id o = (if next_send_id a <? 1 then 1 else next_send_id a) -> timeout_id o = 0 ->
  op_callback o = answered_type (op_type o) ->
  core X S (push (set_next_send_id a (u32 (op_id o + 1))) N (op_type o)) (<[N := o]> O) tm (N + 1)
    (L ++ [EvAccept (op_id o) (op_type o) (op_destroy o) (op_data o)]).
Proof.
  intros (H & Hpos & HS & Ht) HN Hid H0 Hc.
  assert (forall p, p ∈ X ++ addrs a -> p <> N) as Hnew by (intros p Hp%(h_next _ _ _ _ H); lia).
  assert (O !! N = None) as HON.
  { apply eq_None_not_Some. intros Hn%(h_dom _ _ _ _ H). by apply (Hnew N). }
  split_and!; [|done| |].
  - apply held_accept; [done..| |done]. by rewrite Hc.
  - eapply Forall_impl; [exact HS|]. cbn. lia.
  - intros Hf. destruct (Ht (few_app _ _ Hf)) as ([K1 K2 K3] & s & Hs). split.
    { constructor; [|done|].
    + rewrite push_addrs, app_assoc. change (addrs (set_next_send_id a _)) with (addrs a).
      rewrite (view_push timed O _ true) by (intros Hx; by apply (Hnew N)).
      assert (timed N o = None) as -> by (unfold timed; by rewrite H0).
      cbn. by rewrite app_nil_r.
    + eapply Forall_impl; [exact K3|]. cbn. lia. }
    eapply traced_accept; try done.
    rewrite Forall_forall in HS. intros Hx. specialize (HS _ Hx). lia.
Qed.

(** An answered operation that is taken out of its queue. *)
Definition without (p : Z) (q : list Z) : list Z := filter (fun x => x <> p) q.

Lemma without_app p l k : without p (l ++ k) = without p l ++ without p k.
Proof. apply filter_app. Qed.
Lemma without_none p q : p ∉ q -> without p q = q.
Proof.
  unfold without. induction q as [|x q IH]; [done|]. intros H. rewrite filter_cons_True by set_solver.
  rewrite IH by set_solver. done.
Qed.
Lemma without_cons p q : p ∉ q -> without p (p :: q) = q.
Proof. intros H. unfold without. rewrite filter_cons_False by tauto. by apply without_none. Qed.
Lemma without_mid p l k : NoDup (l ++ p :: k) -> without p (l ++ p :: k) = l ++ k.
Proof.
  intros (H1 & H2 & H3)%NoDup_app. apply NoDup_cons in H3 as (H3 & _).
  rewrite without_app, without_cons by done. f_equal. apply without_none. intros Hp.
  apply (H2 p Hp). set_solver.
Qed.
Lemma without_perm p q : NoDup q -> p ∈ q -> q ≡ₚ p :: without p q.
Proof.
  intros Hn Hp. apply list_elem_of_split in Hp as (l & k & ->). rewrite without_mid by done.
  symmetry. apply Permutation_middle.
Qed.
Lemma view_without type S O p q :
  p ∈ S -> oview (unanswered type S) O (without p q) = oview (unanswered type S) O q.
Proof.
  intros Hp. unfold oview, without. induction q as [|x q IH]; [done|].
  destruct (decide (x = p)) as [->|Hne].
  - rewrite filter_cons_False by tauto. cbn. destruct (O !! p) as [o|]; cbn; [|done].
    by rewrite unanswered_mem.
  - rewrite filter_cons_True by done. cbn. by rewrite IH.
Qed.

Lemma core_take X S a a' O tm N L p :
  core X S a O tm N L -> p ∈ S -> p ∈ addrs a -> next_send_id a' = next_send_id a ->
  req_addrs a' = without p (req_addrs a) -> ind_addrs a' = without p (ind_addrs a) ->
  write_queue a' = without p (write_queue a) -> queued a' ⊆ queued a ->
  core (p :: X) S a' O tm N L.
Proof.
  intros H Hp Hpa Hn Hr Hi Hw Hqq. pose proof H as ([H1 H2 H3 H4 H5 H6 H7 H8] & _).
  assert (addrs a ≡ₚ p :: addrs a') as Hperm.
  { unfold addrs. rewrite Hr, Hi, Hw, <- !without_app. apply without_perm; [|done].
    by apply NoDup_app in H1 as (_ & _ & H1). }
  eapply core_move; [exact H| |done| | |intros q o Hq; apply H7; by apply Hqq| |].
  - rewrite Hperm. cbn. by rewrite Permutation_middle.
  - intros q o Hq. apply H4. rewrite Hr in Hq. unfold without in Hq. by apply list_elem_of_filter in Hq as [_ Hq].
  - intros q o Hq. apply H5. rewrite Hi in Hq. unfold without in Hq. by apply list_elem_of_filter in Hq as [_ Hq].
  - intros q o Hq. apply H8. rewrite Hw in Hq. unfold without in Hq. by apply list_elem_of_filter in Hq as [_ Hq].
  - intros d _. assert (forall type q, oview (unanswered type S) O ((p :: X) ++ without p q) =
      oview (unanswered type S) O (X ++ q)) as Hv.
    { intros type q. change ((p :: X) ++ without p q) with ([p] ++ (X ++ without p q)).
      rewrite !oview_app, view_without by done. unfold oview at 1. cbn.
      destruct (O !! p) as [o|]; cbn; [|done]. by rewrite unanswered_mem. }
    rewrite Hr, Hi, !Hv. split; apply ord_same.
Qed.

(** An answered operation that is gone or has no callback any more need not be remembered. *)
Lemma core_forget X S a O tm N L p :
  core X (p :: S) a O tm N L -> (forall o, O !! p = Some o -> op_callback o = false) ->
  core X S a O tm N L.
Proof.
  intros (H & K & HS & Ht) Hp. split_and!; [done..| |].
  - by apply Forall_cons in HS as [_ HS].
  - intros Hf. destruct (Ht Hf) as (Htm & s & [T1 T2 T3 T4 T5 T6 T7]). split; [done|]. exists s.
    assert (forall type q, oview (unanswered type (p :: S)) O q = oview (unanswered type S) O q) as Hv.
    { intros type q. apply oview_ext. intros x _. destruct (O !! x) as [o|] eqn:Ho; [|done]. cbn.
      destruct (decide (x = p)) as [->|Hne].
      - by rewrite !unanswered_silent by (by apply Hp).
      - unfold unanswered. by rewrite (bool_decide_ext (x ∉ p :: S) (x ∉ S)) by set_solver. }
    constructor; rewrite <- ?Hv; done.
Qed.

(** An operation without a callback counts as answered. *)
Lemma core_mark X S a O tm N L p o :
  core X S a O tm N L -> O !! p = Some o -> op_callback o = false -> core X (p :: S) a O tm N L.
Proof.
  intros (H & K & HS & Ht) Ho Hc. split_and!; [done..| |].
  - apply Forall_cons. split; [|done]. apply (h_next _ _ _ _ H), (h_dom _ _ _ _ H). eauto.
  - intros Hf. destruct (Ht Hf) as (Htm & s & [T1 T2 T3 T4 T5 T6 T7]). split; [done|]. exists s.
    assert (forall type q, oview (unanswered type (p :: S)) O q = oview (unanswered type S) O q) as Hv.
    { intros type q. apply oview_ext. intros x _. destruct (O !! x) as [u|] eqn:Hu; [|done]. cbn.
      destruct (decide (x = p)) as [->|Hne].
      - rewrite Ho in Hu. injection Hu as <-. by rewrite !unanswered_silent.
      - unfold unanswered. by rewrite (bool_decide_ext (x ∉ p :: S) (x ∉ S)) by set_solver. }
    constructor; rewrite ?Hv; done.
Qed.
