(* ===== verification/AttSpec.v ===== *)
(** The functions of the transport keep the invariant of AttTrace.v, for clients whose
    callbacks send, cancel and change the MTU, and whose destroy functions do nothing. *)
From Stdlib Require Import ZArith Lia.
From S2P Require Import Prelude Blocks StateM Io Crypto CryptoSpec Att AttTrace.
From stdpp Require Import base numbers list option gmap.

Local Open Scope Z_scope.

(** ** Worlds *)

Definition key_ok (s : option sign_info) : Prop :=
  forall k, s = Some k -> zlen (sign_key k) = 16 /\ bytes_ok (sign_key k).

(** The receive buffer has room for a PDU. *)
Definition has_buf (a : bt_att) : Prop := exists b, buf a = Some b /\ zlen (block_data b) = mtu a.
Definition att_ok (a : bt_att) : Prop :=
  BT_ATT_DEFAULT_LE_MTU <= mtu a < 2 ^ 16 /\ has_buf a /\ key_ok (local_sign a) /\
  key_ok (remote_sign a).

(** The watches of the io. *)
Definition io_ok (i : io io_fn io_destroy_fn) : Prop :=
  (Io.callback (read_watch i) = None \/ Io.callback (read_watch i) = Some CanReadData) /\
  Io.destroy (read_watch i) = None /\
  (Io.callback (write_watch i) = None \/ Io.callback (write_watch i) = Some CanWriteData) /\
  Io.callback (disconnect_watch i) = Some DisconnectCb /\
  Io.destroy (disconnect_watch i) = None.

Record outer (a : bt_att) (i : option (io io_fn io_destroy_fn)) (c : Crypto.world) : Prop := {
  o_att : att_ok a;
  o_io : has_io a = true -> exists j, i = Some j /\ io_ok j;
  o_crypto : has_crypto a = true -> ready c;
}.

(** Addresses of handlers are given out once. *)
Definition listed {A} (l : list (Z * A)) (N : Z) : Prop := NoDup l.*1 /\ Forall (fun x => x.1 < N) l.
Record space (a : bt_att) (N : Z) : Prop := {
  sp_pos : 0 < N;
  sp_notify : listed (notify_list a) N;
  sp_disconn : listed (disconn_list a) N;
}.

Lemma listed_next {A} (l : list (Z * A)) N N' : listed l N -> N <= N' -> listed l N'.
Proof. intros (H1 & H2) HN. split; [done|]. eapply Forall_impl; [exact H2|]. cbn. lia. Qed.
Lemma space_next a N N' : space a N -> N <= N' -> space a N'.
Proof. intros [H1 H2 H3] HN. constructor; [lia|by eapply listed_next..]. Qed.

Definition inv (X S : list Z) (w : world) : Prop :=
  exists a, att w = Some a /\ core X S a (ops w) (timers w) (next_addr w) (log w) /\
    space a (next_addr w) /\ outer a (att_io w) (cw w).

(** What calls of the client do not change. *)
Definition strip (a : bt_att) :=
  (ref_count a, fd a, has_io a, pending_req a, pending_ind a, notify_list a, disconn_list a, in_req a,
   timeout_callback a, debug_callback a, has_crypto a).
Definition istrip (i : io io_fn io_destroy_fn) :=
  (Io.ref_count i, Io.fd i, read_watch i, disconnect_watch i, close_on_destroy i).
Definition old_ops (w w' : world) : Prop := forall p o', p < next_addr w -> ops w' !! p = Some o' ->
  exists o, ops w !! p = Some o /\ timeout_id o = timeout_id o'.
(** The queues when there is no link. *)
Definition shrinks (a a' : bt_att) : Prop :=
  req_queue a' ⊆ req_queue a /\ ind_queue a' ⊆ ind_queue a /\ write_queue a' ⊆ write_queue a.
Definition down_only (w w' : world) : Prop := forall a a', att w = Some a -> att w' = Some a' ->
  has_io a = false -> att_io w' = att_io w /\ shrinks a a'.

Record later (w w' : world) : Prop := {
  lt_log : exists k, log w' = log w ++ k;
  lt_addr : next_addr w <= next_addr w';
  lt_down : down_only w w';
  lt_ops : old_ops w w';
}.
Definition keeps (w w' : world) : Prop :=
  strip <$> att w' = strip <$> att w /\ istrip <$> att_io w' = istrip <$> att_io w /\ later w w'.

Lemma down_same w w' : att w' = att w -> att_io w' = att_io w -> down_only w w'.
Proof. intros H1 H2 a a' Ha Ha' _. split; [done|]. rewrite H1, Ha in Ha'. injection Ha' as <-. done. Qed.
Lemma down_att w w' a a' : att w = Some a -> att w' = Some a' -> att_io w' = att_io w -> shrinks a a' ->
  down_only w w'.
Proof. intros H1 H2 H3 Hs b b' Hb Hb' _. by simplify_eq. Qed.
Lemma old_ops_same w w' : ops w' = ops w -> old_ops w w'.
Proof. intros H p o _. rewrite H. by exists o. Qed.
Lemma later_log w w' k : log w' = log w ++ k -> next_addr w' = next_addr w ->
  att w' = att w -> att_io w' = att_io w -> old_ops w w' -> later w w'.
Proof. intros. constructor; [by exists k|lia|by apply down_same|done]. Qed.
Lemma later_same w w' : log w' = log w -> next_addr w' = next_addr w -> att w' = att w ->
  att_io w' = att_io w -> ops w' = ops w -> later w w'.
Proof. intros. apply (later_log w w' []); [by rewrite app_nil_r|done..|by apply old_ops_same]. Qed.
Lemma old_ops_insert w w' p o o' : ops w' = <[p := o']> (ops w) -> ops w !! p = Some o ->
  timeout_id o' = timeout_id o -> old_ops w w'.
Proof.
  intros H Ho Ht q u _. rewrite H. destruct (decide (p = q)) as [->|Hne].
  - rewrite lookup_insert_eq. intros [= <-]. by exists o.
  - rewrite lookup_insert_ne by done. by exists u.
Qed.
Lemma old_ops_delete w w' p : ops w' = delete p (ops w) -> old_ops w w'.
Proof. intros H q u _. rewrite H. intros (_ & Hu)%lookup_delete_Some. by exists u. Qed.

(** A new operation, made while there is a link. *)
Lemma later_accept w a w' o e : att w = Some a -> has_io a = true ->
  ops w' = <[next_addr w := o]> (ops w) -> next_addr w' = next_addr w + 1 -> log w' = log w ++ [e] -> later w w'.
Proof.
  intros Ha Hio Ho Hn Hl. constructor; [by exists [e]|lia| |].
  - intros b b' Hb _ Hd. congruence.
  - intros p u Hp. rewrite Ho, lookup_insert_ne by lia. by exists u.
Qed.

Lemma strip_io w w' : strip <$> att w' = strip <$> att w -> has_io <$> att w' = has_io <$> att w.
Proof.
  destruct (att w), (att w'); try done. intros H. apply (inj Some) in H. apply (f_equal Some).
  unfold strip in H. congruence.
Qed.
Lemma keeps_refl w : keeps w w.
Proof. split_and!; [done..|]. by apply later_same. Qed.
Lemma keeps_trans w1 w2 w3 : keeps w1 w2 -> keeps w2 w3 -> keeps w1 w3.
Proof.
  intros (H1 & H2 & [(k1 & L1) A1 D1 O1]) (H4 & H5 & [(k2 & L2) A2 D2 O2]). split_and!; [congruence..|].
  constructor.
  - exists (k1 ++ k2). by rewrite L2, L1, app_assoc.
  - lia.
  - intros a1 a3 Ha1 Ha3 Hd. destruct (att w2) as [a2|] eqn:Ha2; [|by rewrite Ha3 in H4].
    rewrite Ha1 in H1. apply (inj Some) in H1. unfold strip in H1.
    destruct (D1 a1 a2 Ha1 Ha2 Hd) as (E1 & S1 & S2 & S3).
    destruct (D2 a2 a3 Ha2 Ha3 ltac:(congruence)) as (E2 & S4 & S5 & S6).
    split; [congruence|]. split_and!; by etrans.
  - intros p o Hp Ho. destruct (O2 p o ltac:(lia) Ho) as (o2 & Ho2 & <-). by apply O1.
Qed.

(** A post-condition of most functions. *)
Definition stays {A} (X S : list Z) (w : world) : A -> world -> Prop :=
  fun _ w' => inv X S w' /\ keeps w w'.

Lemma stays_refl {A} X S w (x : A) : inv X S w -> stays X S w x w.
Proof. intros H. split; [done|apply keeps_refl]. Qed.

Lemma wp_stays {A B} X S (e : P A) (f : A -> P B) w :
  wp e (stays X S w) w ->
  (forall x w', inv X S w' -> keeps w w' -> wp (f x) (stays X S w') w') ->
  wp (x ← e; f x) (stays X S w) w.
Proof.
  intros He Hf. apply wp_bind. eapply wp_mono; [|exact He]. intros x w1 (H1 & H2).
  eapply wp_mono; [|by apply Hf]. intros y w2 (H3 & H4). split; [done|by eapply keeps_trans].
Qed.

(** A new value of the transport with the same operations. *)
Lemma inv_att X S w a a' :
  inv X S w -> att w = Some a -> same_ops a a' -> strip a' = strip a -> att_ok a' ->
  stays X S w tt (World (Some a') (ops w) (att_io w) (timers w) (next_addr w) (cw w) (tick w) (log w)).
Proof.
  intros (b & Hb & Hc & Hn & Ho) Ha Hs Hk Hok. rewrite Ha in Hb. injection Hb as <-. split.
  - exists a'. split_and!; [done|by eapply core_same| |].
    { unfold strip in Hk. destruct Hn as [N1 N2 N3]. constructor; [done|..].
      - replace (notify_list a') with (notify_list a) by congruence. done.
      - replace (disconn_list a') with (disconn_list a) by congruence. done. }
    destruct Ho as [O1 O2 O3]. unfold strip in Hk. constructor; [done| |]; cbn [att_io cw].
    + replace (has_io a') with (has_io a) by congruence. done.
    + replace (has_crypto a') with (has_crypto a) by congruence. done.
  - split_and!; [cbn [att]; rewrite Ha; by apply (f_equal Some)|done|].
    constructor; [exists []; by rewrite app_nil_r|done| |by apply old_ops_same].
    eapply down_att; [done..|]. unfold shrinks. destruct Hs as (-> & _ & -> & _ & -> & _). done.
Qed.

Lemma wp_get_att a Q w : att w = Some a -> Q a w -> wp get_att Q w.
Proof. intros H HQ. by eapply wp_get_some. Qed.
Lemma wp_get_op p o Q w : ops w !! p = Some o -> Q o w -> wp (get_op p) Q w.
Proof. intros H HQ. by eapply wp_get_some. Qed.
Lemma wp_put_op p o Q w :
  Q tt (World (att w) (<[p := o]> (ops w)) (att_io w) (timers w) (next_addr w) (cw w) (tick w) (log w)) ->
  wp (put_op p o) Q w.
Proof. intros H. apply wp_bind, wp_gets, wp_modify. exact H. Qed.
Lemma wp_outside Q w :
  Q (tick w) (World (att w) (ops w) (att_io w) (timers w) (next_addr w) (cw w) (Datatypes.S (tick w)) (log w)) ->
  wp outside Q w.
Proof. intros H. eexists _, _. split; [reflexivity|exact H]. Qed.
Lemma wp_fresh_addr Q w :
  Q (next_addr w) (World (att w) (ops w) (att_io w) (timers w) (next_addr w + 1) (cw w) (tick w) (log w)) ->
  wp fresh_addr Q w.
Proof. intros H. eexists _, _. split; [reflexivity|exact H]. Qed.
Lemma wp_event e Q w :
  Q tt (World (att w) (ops w) (att_io w) (timers w) (next_addr w) (cw w) (tick w) (log w ++ [e])) ->
  wp (emit e) Q w.
Proof. intros H. eexists _, _. split; [reflexivity|exact H]. Qed.
Lemma wp_ub_some {A} (x : ub A) a Q w : x = Some a -> Q a w -> wp (of_ub x) Q w.
Proof. intros -> H. by exists a, w. Qed.
Lemma wp_on_crypto {A} (m : M Crypto.world A) Q w :
  wp m (fun x c => Q x (World (att w) (ops w) (att_io w) (timers w) (next_addr w) c (tick w) (log w))) (cw w) ->
  wp (on_crypto m) Q w.
Proof.
  intros (x & c & Hm & HQ). eexists x, _. split; [|exact HQ]. unfold on_crypto. by rewrite Hm.
Qed.

(** A world with another tick, or another state of the cryptography. *)
Lemma inv_tick X S w c t :
  inv X S w -> (forall a, att w = Some a -> has_crypto a = true -> ready c) ->
  stays X S w tt (World (att w) (ops w) (att_io w) (timers w) (next_addr w) c t (log w)).
Proof.
  intros (a & Ha & Hc & Hn & [O1 O2 O3]) Hr. split.
  - exists a. split_and!; try done. constructor; [done..|]. cbn. eauto.
  - split_and!; [done..|]. by apply later_same.
Qed.

Lemma inv_ready X S w a : inv X S w -> att w = Some a -> has_crypto a = true -> ready (cw w).
Proof. intros (b & Hb & _ & _ & O) Ha. rewrite Ha in Hb. injection Hb as <-. apply O. Qed.

Lemma inv_log X S w e :
  inv X S w -> quiet e ->
  stays X S w tt (World (att w) (ops w) (att_io w) (timers w) (next_addr w) (cw w) (tick w) (log w ++ [e])).
Proof.
  intros (a & Ha & Hc & Hn & O) He. split.
  - exists a. split_and!; try done. by apply core_quiet.
  - split_and!; [done..|]. by apply (later_log _ _ [e]), old_ops_same.
Qed.

(** An event with a new address. *)
Lemma inv_new_addr X S w e :
  inv X S w -> quiet e ->
  stays X S w tt (World (att w) (ops w) (att_io w) (timers w) (next_addr w + 1) (cw w) (tick w) (log w ++ [e])).
Proof.
  intros (a & Ha & Hc & Hn & O) He. split.
  - exists a. split_and!; [done| | |done].
    + apply core_quiet; [|done]. eapply core_next; [exact Hc|]. cbn. lia.
    + eapply space_next; [exact Hn|]. cbn. lia.
  - split_and!; [done..|]. constructor; [by exists [e]|cbn; lia|by apply down_same|by apply old_ops_same].
Qed.

Lemma inv_io X S w i j :
  inv X S w -> att_io w = Some i -> (exists a, att w = Some a /\ has_io a = true) -> io_ok j ->
  istrip j = istrip i ->
  stays X S w tt (World (att w) (ops w) (Some j) (timers w) (next_addr w) (cw w) (tick w) (log w)).
Proof.
  intros (a & Ha & Hc & Hn & [O1 O2 O3]) Hi (b & Hb & Hio) Hj Hk. split.
  - exists a. split_and!; try done. constructor; [done| |done]. cbn. eauto.
  - split_and!; [done| |].
    + cbn [att_io]. rewrite Hi. by apply (f_equal Some).
    + constructor; [exists []; by rewrite app_nil_r|done| |by apply old_ops_same].
      intros c c' Hc1 _ Hd. congruence.
Qed.

Ltac step := cbn [att ops att_io timers next_addr cw tick log].
Ltac world_eq := match goal with |- stays _ _ ?w _ _ => destruct w end.

(** *** The writer *)

Section writer.
Variable mainloop_modify : Z -> Z -> bool.

Lemma wp_destroy_writer X S w (v : watch io_fn io_destroy_fn) :
  inv X S w -> wp (destroy_watch v) (stays X S w) w.
Proof.
  intros Hw. pose proof Hw as (a & Ha & _ & _ & O). unfold destroy_watch. destruct (destroy v) as [[]|].
  - cbn. unfold write_watch_destroy. apply wp_bind, (wp_get_att a); [done|]. apply wp_modify.
    eapply inv_att; [done..|]. apply O.
  - apply wp_ret. by apply stays_refl.
Qed.

Lemma wp_set_writer X S w i :
  inv X S w -> att_io w = Some i -> has_io <$> att w = Some true -> io_ok i ->
  wp (io_set_write_handler mainloop_modify (Some CanWriteData) (Some WriteWatchDestroy)) (stays X S w) w.
Proof.
  intros Hw Hi Hio Hok. unfold io_set_write_handler, io_set_handler.
  apply wp_bind. eapply wp_get_some; [exact Hi|].
  destruct (Io.fd i <? 0); [by apply wp_ret, stays_refl|].
  apply (wp_stays X S); [by apply wp_destroy_writer|]. intros _ w1 Hw1 (Hka & Hk & _).
  assert (exists a1, att w1 = Some a1 /\ has_io a1 = true) as Hio1.
  { rewrite <- (strip_io w w1 Hka) in Hio. destruct (att w1) as [a1|]; [|done]. exists a1. by apply (inj Some) in Hio. }
  rewrite Hi in Hk. destruct (att_io w1) as [i1|] eqn:Hi1; [|done].
  apply (inj Some) in Hk. apply wp_bind. eapply wp_get_some; [exact Hi1|]. cbv zeta.
  set (j := set_write_watch i1 (Watch (Some CanWriteData) (Some WriteWatchDestroy))).
  assert (io_ok j /\ istrip j = istrip i1) as (Hj & Hjk).
  { unfold istrip in Hk. destruct Hok as (H1 & H2 & H3 & H4 & H5), i, i1. cbn in *.
    split; [|done]. unfold io_ok. cbn. split_and!; try (by right); congruence. }
  assert (inv X S w1 -> stays X S w1 true (World (att w1) (ops w1) (Some j) (timers w1) (next_addr w1) (cw w1) (tick w1) (log w1)))
    as Hput by (intros _; by eapply (inv_io X S w1 i1)).
  apply wp_bind, wp_modify. apply wp_bind. eapply wp_get_some; [reflexivity|]. cbv zeta.
  destruct (_ =? Io.events j); [by apply wp_ret, Hput|].
  destruct (negb _).
  - apply wp_ret. by apply Hput.
  - apply wp_bind, wp_modify, wp_ret. by eapply (inv_io X S w1 i1).
Qed.

Lemma wp_wake X S w : inv X S w -> wp (wakeup_writer mainloop_modify) (stays X S w) w.
Proof.
  intros Hw. pose proof Hw as (a & Ha & _ & _ & O). unfold wakeup_writer.
  apply wp_bind, (wp_get_att a); [done|].
  destruct (writer_active a); [by apply wp_ret, stays_refl|].
  destruct (_ && _ && _); [by apply wp_ret, stays_refl|].
  apply (wp_stays X S).
  - unfold on_io. apply wp_bind, (wp_get_att a); [done|].
    destruct (has_io a) eqn:Hio; [|by apply wp_ret, stays_refl].
    destruct (o_io _ _ _ O Hio) as (i & Hi & Hok).
    eapply wp_set_writer; [done..| |done]. rewrite Ha. by apply (f_equal Some).
  - intros ok w1 Hw1 _. destruct (negb ok); [by apply wp_ret, stays_refl|].
    pose proof Hw1 as (a1 & Ha1 & _ & _ & O1). apply wp_bind, (wp_get_att a1); [done|].
    apply wp_modify. eapply inv_att; [done..|]. apply O1.
Qed.
End writer.

(** *** Making an operation *)

Section sign.
Context (fails : nat -> bool) (aes cmac : bytes -> bytes -> bytes).
Hypothesis cmac_block : forall k m, zlen (cmac k m) = 16 /\ bytes_ok (cmac k m).

(** Only the first [n] bytes are signed. *)
Lemma sign_take key m n cnt :
  0 <= n <= zlen m ->
  bt_crypto_sign_att fails aes cmac true key m n cnt =
    bt_crypto_sign_att fails aes cmac true key (take (Z.to_nat n) m) (zlen (take (Z.to_nat n) m)) cnt.
Proof.
  intros Hn. assert (zlen (take (Z.to_nat n) m) = n) as Hl by len_lia.
  unfold bt_crypto_sign_att. rewrite Hl. cbn [negb].
  assert (ld m 0 n = ld (take (Z.to_nat n) m) 0 n) as ->; [|done].
  rewrite (ld_all (take _ m)) by done. unfold ld. rewrite decide_True by lia. done.
Qed.

Lemma wp_sign key m n cnt c :
  ready c -> zlen key = 16 -> bytes_ok key -> 0 <= n <= zlen m -> n + 4 < 2 ^ 16 ->
  wp (bt_crypto_sign_att fails aes cmac true key m n cnt)
    (fun r c' => ready c' /\ forall sig, r = Some sig -> zlen sig = 12) c.
Proof using cmac_block.
  intros Hc Hk Hb Hn Hn4. rewrite sign_take by done.
  rewrite <- (le_bytes_val key Hb). replace (length key) with 16%nat by (unfold zlen in Hk; lia).
  eapply wp_mono; [|apply sign_gives; [done|done|len_lia]].
  intros r c' (Hs & Ho). split; [by eapply ready_same|]. intros sig ->.
  destruct Ho as [Ho|[Ho _]]; [|done]. injection Ho as ->. len_lia.
Qed.
End sign.

(** The arguments of bt_att_send: a length that leaves room for the opcode and a signature in
    16 bits, and a block that has so many bytes. *)
Definition send_ok (opcode : Z) (pdu : option bytes) (length : Z) : Prop :=
  is_u8 opcode /\ 0 <= length < 2 ^ 16 - 13 /\ forall d, pdu = Some d -> length <= zlen d.

Definition world_with (w : world) (c : Crypto.world) (t : nat) : world :=
  World (att w) (ops w) (att_io w) (timers w) (next_addr w) c t (log w).

Section send.
Context (malloc : nat -> Z -> option bytes)
  (counter : nat -> Z -> Z -> option Z) (fails : nat -> bool) (aes cmac : bytes -> bytes -> bytes).
Hypothesis cmac_block : forall k m, zlen (cmac k m) = 16 /\ bytes_ok (cmac k m).
Hypothesis malloc_size : forall n len b, malloc n len = Some b -> zlen b = len.

(** The body behind the opcode: nothing, or the data. *)
Lemma wp_fill block pdu length n Q w :
  (forall d, pdu = Some d -> length <= zlen d) -> 0 <= length -> zlen block = n ->
  1 + length <= n -> (length <> 0 -> is_some pdu = true) ->
  (forall b, zlen b = n -> Q b w) ->
  wp (if 1 <? n then
        data ← of_ub (match pdu with
                      | Some d => ld d 0 length
                      | None => if length =? 0 then Some [] else None
                      end);
        of_ub (st block 1 data)
      else mret block) Q w.
Proof using Type.
  intros Hd Hl Hb Hn Hp HQ. destruct (Z.ltb_spec 1 n).
  - assert (exists d, (match pdu with
                       | Some d => ld d 0 length
                       | None => if length =? 0 then Some [] else None
                       end) = Some d /\ zlen d = length) as (d & -> & Hdl).
    { destruct pdu as [d|].
      - pose proof (Hd _ eq_refl) as Hdl. pose proof (ld_is_Some d 0 length) as Hx.
        rewrite Hx by lia. eexists. split; [done|]. eapply ld_length, Hx; lia.
      - destruct (Z.eqb_spec length 0) as [->|H0]; [by exists []|]. by specialize (Hp H0). }
    apply wp_bind. eapply wp_ub_some; [done|].
    destruct (st_is_Some block 1 d) as (b & Hst); [lia|lia|]. eapply wp_ub_some; [done|].
    apply HQ. apply st_length in Hst. unfold zlen in *. lia.
  - by apply wp_ret, HQ.
Qed.

Lemma wp_encode opcode pdu length a Q w :
  att w = Some a -> att_ok a -> (has_crypto a = true -> ready (cw w)) ->
  send_ok opcode pdu length -> (length <> 0 -> is_some pdu = true) ->
  (forall r c t, (has_crypto a = true -> ready c) -> Q r (world_with w c t)) ->
  wp (encode_pdu malloc counter fails aes cmac opcode pdu length) Q w.
Proof using cmac_block malloc_size.
  intros Ha Hok Hc (H8 & Hlen & Hpdu) Hp HQ. destruct Hok as (Hmtu & _ & Hkey & _).
  unfold encode_pdu. apply wp_bind, (wp_get_att a); [done|]. cbv zeta.
  match goal with |- context [if ?x then u16 (1 + _) else 1] => set (signed := x) end.
  match goal with |- context [mtu a <? ?x] => set (pdu_len := x) end.
  assert (pdu_len = (if signed then 13 else 1) + length) as Hpl.
  { unfold pdu_len. destruct (Z.eqb_spec length 0) as [->|H0]; cbn [negb andb].
    - by destruct signed.
    - rewrite Hp by done. destruct signed; apply u16_small; unfold is_u16, BT_ATT_SIGNATURE_LEN;
        rewrite ?u16_small by (unfold is_u16; lia); lia. }
  clearbody pdu_len. subst pdu_len.
  destruct (Z.ltb_spec (mtu a) ((if signed then 13 else 1) + length)).
  { apply wp_ret. destruct w. by apply (HQ None). }
  apply wp_bind, wp_outside. destruct (malloc _ _) as [block|] eqn:Hm; [|by apply wp_ret, HQ].
  apply malloc_size in Hm.
  apply wp_bind. destruct (st_is_Some block 0 [opcode]) as (b0 & Hb0); [lia|destruct signed; len_lia|].
  eapply wp_ub_some; [done|]. apply st_length in Hb0.
  apply wp_bind. apply wp_fill; [done|lia|unfold zlen in *; lia|destruct signed; lia|done|].
  intros b1 Hb1. destruct signed eqn:Hs; [|by apply wp_ret, HQ].
  destruct (has_crypto a) eqn:Hcr; [|by apply wp_ret, HQ]. cbn [negb orb].
  destruct (local_sign a) as [sign|] eqn:Hsign; [|done].
  destruct (Hkey _ eq_refl) as (Hk1 & Hk2).
  apply wp_bind, wp_outside. destruct (counter _ _ _) as [cnt|]; [|by apply wp_ret, HQ].
  rewrite u16_small by (unfold is_u16; lia).
  apply wp_bind, wp_on_crypto. eapply wp_mono; [|apply (wp_sign fails aes cmac cmac_block); [by apply Hc|done|done|lia|lia]].
  intros [sig|] c (Hr & Hsig); [|by apply wp_ret, HQ]. specialize (Hsig _ eq_refl).
  apply wp_bind. destruct (st_is_Some b1 (1 + length) sig) as (b2 & Hb2); [lia|lia|].
  eapply wp_ub_some; [done|]. by apply wp_ret, HQ.
Qed.

Context (mainloop_modify : Z -> Z -> bool).

(** An operation that is not in a queue yet, with what comes before it is. *)
Lemma wp_create opcode pdu length callback u d a Q w :
  att w = Some a -> att_ok a -> (has_crypto a = true -> ready (cw w)) -> send_ok opcode pdu length ->
  (forall c t, (has_crypto a = true -> ready c) -> Q None (world_with w c t)) ->
  (forall c t block, (has_crypto a = true -> ready c) ->
     callback = answered_type (get_op_type opcode) ->
     Q (Some (next_addr w))
       (World (att w) (<[next_addr w := SendOp 0 0 (get_op_type opcode) opcode block callback d u]> (ops w))
          (att_io w) (timers w) (next_addr w + 1) c t (log w))) ->
  wp (create_att_send_op malloc counter fails aes cmac opcode pdu length callback u d) Q w.
Proof using cmac_block malloc_size.
  intros Ha Hok Hc Hs H1 H2. unfold create_att_send_op.
  assert (Q None w) as HN by (destruct w; by apply (H1 cw tick)).
  destruct (negb (length =? 0) && negb (is_some pdu)) eqn:Hlp; [by apply wp_ret|]. cbv zeta.
  fold (answered_type (get_op_type opcode)). set (type := get_op_type opcode) in *.
  destruct (bool_decide (type = ATT_OP_TYPE_UNKNOWN)); [by apply wp_ret|].
  destruct (callback && negb (answered_type type)) eqn:H3; [by apply wp_ret|].
  destruct (negb callback && answered_type type) eqn:H4; [by apply wp_ret|].
  assert (callback = answered_type type) as Hcb by (by destruct callback, (answered_type type)).
  apply wp_bind. eapply wp_encode; [done|done|done|done| |].
  { intros H0. apply andb_false_iff in Hlp as [Hlp|Hlp].
    - apply negb_false_iff, Z.eqb_eq in Hlp. done.
    - by apply negb_false_iff in Hlp. }
  intros [block|] c t Hr; [|by apply wp_ret, H1].
  apply wp_bind, wp_fresh_addr. cbn [world_with next_addr]. apply wp_bind, wp_put_op, wp_ret.
  by apply H2.
Qed.

Lemma wp_bt_att_send X S opcode pdu length callback u d w :
  inv X S w -> send_ok opcode pdu length ->
  wp (bt_att_send mainloop_modify malloc counter fails aes cmac opcode pdu length callback u d)
    (stays X S w) w.
Proof using cmac_block malloc_size.
  intros Hw Hs. pose proof Hw as (a & Ha & Hc & Hn & O). unfold bt_att_send.
  apply wp_bind, (wp_get_att a); [done|]. destruct (has_io a) eqn:Hio; [|by apply wp_ret, stays_refl].
  cbn [negb]. apply wp_bind. eapply wp_create; [done|apply O|apply O|done| |].
  { intros c t Hr. apply wp_ret. apply (inv_tick X S); [done|]. intros b Hb. rewrite Ha in Hb. by injection Hb as <-. }
  intros c t block Hr Hcb. set (p := next_addr w). set (o := SendOp _ _ _ _ _ _ _ _).
  cbv zeta. apply wp_bind, (wp_get_att a); [done|]. set (id := if next_send_id a <? 1 then _ else _).
  apply wp_bind, wp_modify. apply wp_bind, (wp_get_op p o); [cbn; by rewrite lookup_insert_eq|].
  apply wp_bind, wp_put_op. apply wp_bind. eapply wp_get_att; [reflexivity|].
  apply wp_bind, wp_modify. apply wp_bind, wp_event. step. cbn [op_type o op_destroy op_data timeout_id Att.opcode Att.pdu op_callback].
  set (o' := SendOp id _ _ _ _ _ _ _). rewrite insert_insert_eq.
  set (type := get_op_type opcode) in *.
  set (a' := push (set_next_send_id a (u32 (id + 1))) p type).
  match goal with |- wp _ _ ?x => set (w1 := x) end.
  assert (stays X S w tt w1) as (Hw1 & Hk1).
  { assert (strip a' = strip a /\ att_ok a') as (Hst & Hok) by (unfold a'; by destruct type, O as [[]]).
    split; [|split_and!; [cbn; rewrite Ha; by apply (f_equal Some)|done|by eapply later_accept]].
    exists a'. split_and!; [done| | |].
    - apply (core_accept _ _ _ _ _ _ _ o'); try done. apply Hn.
    - cbn. apply (space_next _ (next_addr w)); [|lia]. unfold a'. by destruct type, Hn.
    - unfold strip in Hst. destruct O as [O1 O2 O3]. constructor; cbn; [done| |].
      + replace (has_io a') with (has_io a) by congruence. done.
      + replace (has_crypto a') with (has_crypto a) by congruence. done. }
  apply wp_bind. eapply wp_mono; [|by eapply wp_wake]. intros _ w2 (Hw2 & Hk2).
  apply wp_ret. split; [done|]. by eapply keeps_trans.
Qed.
End send.

(** ** Calls of the client *)

(** What callbacks may call. *)
Definition call_ok (c : att_call) : Prop :=
  match c with
  | CallSend opcode pdu length _ _ _ => send_ok opcode pdu length
  | CallSendErrorRsp opcode _ _ => is_u8 opcode
  | CallCancel _ => True
  | CallSetMtu mtu => mtu < 2 ^ 16
  | _ => False
  end.

Definition loud (e : event) : bool :=
  match e with
  | EvResponse _ _ _ _ | EvNotify _ _ _ _ | EvDisconnect _ _ _ | EvTimeout _ _ _ => true
  | _ => false
  end.

(** The callback of a handler may change the MTU, and with it the receive buffer its PDU is in,
    when [resizes] allows it for the opcode. *)
Definition may_call (resizes : Z -> bool) (e : event) (c : att_call) : Prop :=
  match c, e with
  | CallSetMtu mtu, EvNotify _ opcode _ _ => mtu < 2 ^ 16 /\ resizes opcode = true
  | _, _ => call_ok c
  end.
Lemma may_call_ok resizes e c : may_call resizes e c -> call_ok c.
Proof. destruct c; try done. destruct e; try done. by intros []. Qed.

(** Destroy functions call nothing. *)
Definition nice (resizes : Z -> bool) (client : list event -> list att_call) : Prop :=
  forall l e, if loud e then Forall (may_call resizes e) (client (l ++ [e])) else client (l ++ [e]) = [].

(** The store without an operation. *)
Definition destroyed (w : world) (p : Z) (o : att_send_op) : world :=
  World (att w) (delete p (ops w)) (att_io w) (drop_timer (timeout_id o) (timers w)) (next_addr w)
    (cw w) (tick w) (log w ++ destroy_event o).

Lemma inv_destroyed X S w p o :
  inv (p :: X) S w -> ops w !! p = Some o -> p ∈ S \/ op_callback o = false ->
  stays X S w tt (destroyed w p o).
Proof.
  intros (a & Ha & Hc & Hn & O) Ho Hp. split.
  - exists a. split_and!; [done| |done|done]. by eapply core_remove.
  - split_and!; [done..|]. by apply (later_log _ _ (destroy_event o)), (old_ops_delete w _ p).
Qed.

Lemma inv_timers X S w : inv X S w -> Forall (fun x => 0 < x.1) (timers w).
Proof. by intros (a & _ & (_ & H & _) & _). Qed.

Lemma wp_timeout_remove t Q w :
  Forall (fun x => 0 < x.1) (timers w) ->
  Q tt (World (att w) (ops w) (att_io w) (drop_timer t (timers w)) (next_addr w) (cw w) (tick w) (log w)) ->
  wp (timeout_remove t) Q w.
Proof.
  intros Ht HQ. unfold timeout_remove. destruct (Z.eqb_spec t 0) as [->|H0].
  - apply wp_ret. rewrite drop_timer_none in HQ; [by destruct w|].
    eapply Forall_impl; [exact Ht|]. cbn. lia.
  - by apply wp_bind, wp_gets, wp_modify.
Qed.

Lemma wp_remove_op id q Q w :
  (forall p, p ∈ q -> is_Some (ops w !! p)) ->
  Q None w ->
  (forall l p k o, q = l ++ p :: k -> ops w !! p = Some o -> op_id o = id -> Q (Some (p, l ++ k)) w) ->
  wp (remove_op id q) Q w.
Proof.
  revert Q. induction q as [|p q IH]; intros Q Hq HN HS; [by apply wp_ret|].
  destruct (Hq p) as (o & Ho); [set_solver|]. cbn [remove_op]. unfold match_op_id.
  apply wp_bind, wp_bind, (wp_get_op p o); [done|]. apply wp_ret.
  destruct (Z.eqb_spec (op_id o) id) as [He|He].
  - apply wp_ret. by apply (HS [] p q o).
  - apply wp_bind. apply IH; [set_solver|by apply wp_ret|].
    intros l x k u -> Hu Hid. apply wp_ret. by apply (HS (p :: l) x k u).
Qed.

Lemma nodup_parts (p : Z) (l k m : list Z) :
  NoDup (l ++ k ++ m) ->
  (p ∈ l -> p ∉ k /\ p ∉ m) /\ (p ∈ k -> p ∉ l /\ p ∉ m) /\ (p ∈ m -> p ∉ l /\ p ∉ k).
Proof. intros (_ & H1 & (_ & H2 & _)%NoDup_app)%NoDup_app. set_solver. Qed.

(** The transport without an operation of a queue. *)
Record taken (a a' : bt_att) (p : Z) : Prop := {
  tk_in : p ∈ addrs a;
  tk_next : next_send_id a' = next_send_id a;
  tk_req : req_addrs a' = without p (req_addrs a);
  tk_ind : ind_addrs a' = without p (ind_addrs a);
  tk_write : write_queue a' = without p (write_queue a);
  tk_queued : shrinks a a';
  tk_notify : notify_list a' = notify_list a;
  tk_disconn : disconn_list a' = disconn_list a;
  tk_io : has_io a' = has_io a;
  tk_crypto : has_crypto a' = has_crypto a;
  tk_ok : att_ok a -> att_ok a';
}.

Lemma taken_req a l p k : NoDup (addrs a) -> req_queue a = l ++ p :: k -> taken a (set_req_queue a (l ++ k)) p.
Proof.
  intros Hnd Hq. destruct (nodup_parts p _ _ _ Hnd) as (Hp & _).
  assert (req_addrs a = (opt_list (pending_req a) ++ l) ++ p :: k) as Hr by (unfold req_addrs; by rewrite Hq, app_assoc).
  destruct Hp as (Hp1 & Hp2); [rewrite Hr; set_solver|]. apply NoDup_app in Hnd as (Hnd & _).
  constructor; try done.
  - unfold addrs. rewrite Hr. set_solver.
  - rewrite Hr, without_mid by (by rewrite <- Hr). unfold req_addrs. cbn. by rewrite app_assoc.
  - by rewrite without_none.
  - by rewrite without_none.
  - unfold shrinks. cbn. rewrite Hq. split_and!; [set_solver|done..].
Qed.
Lemma taken_ind a l p k : NoDup (addrs a) -> ind_queue a = l ++ p :: k -> taken a (set_ind_queue a (l ++ k)) p.
Proof.
  intros Hnd Hq. destruct (nodup_parts p _ _ _ Hnd) as (_ & Hp & _).
  assert (ind_addrs a = (opt_list (pending_ind a) ++ l) ++ p :: k) as Hr by (unfold ind_addrs; by rewrite Hq, app_assoc).
  destruct Hp as (Hp1 & Hp2); [rewrite Hr; set_solver|].
  apply NoDup_app in Hnd as (_ & _ & (Hnd & _)%NoDup_app).
  constructor; try done.
  - unfold addrs. rewrite Hr. set_solver.
  - by rewrite without_none.
  - rewrite Hr, without_mid by (by rewrite <- Hr). unfold ind_addrs. cbn. by rewrite app_assoc.
  - by rewrite without_none.
  - unfold shrinks. cbn. rewrite Hq. split_and!; [done|set_solver|done].
Qed.
Lemma taken_write a l p k : NoDup (addrs a) -> write_queue a = l ++ p :: k -> taken a (set_write_queue a (l ++ k)) p.
Proof.
  intros Hnd Hq. destruct (nodup_parts p _ _ _ Hnd) as (_ & _ & Hp).
  destruct Hp as (Hp1 & Hp2); [rewrite Hq; set_solver|].
  apply NoDup_app in Hnd as (_ & _ & (_ & _ & Hnd)%NoDup_app). rewrite Hq in Hnd.
  constructor; try done.
  - unfold addrs. rewrite Hq. set_solver.
  - by rewrite without_none.
  - by rewrite without_none.
  - rewrite Hq. by rewrite without_mid.
  - unfold shrinks. cbn. rewrite Hq. split_and!; [done..|set_solver].
Qed.

Lemma shrinks_queued a a' : shrinks a a' -> queued a' ⊆ queued a.
Proof. intros (H1 & H2 & H3). unfold queued. set_solver. Qed.

Lemma inv_take X S w a a' p :
  inv X S w -> att w = Some a -> taken a a' p -> p ∈ S ->
  inv (p :: X) S (World (Some a') (ops w) (att_io w) (timers w) (next_addr w) (cw w) (tick w) (log w)).
Proof.
  intros (b & Hb & Hc & HN & [O1 O2 O3]) Ha [K1 K2 K3 K4 K5 K6 K7 K8 K9 K10 K11] Hp. rewrite Ha in Hb. injection Hb as <-.
  exists a'. split_and!; [done|by eapply core_take; [..|apply shrinks_queued]| |].
  { destruct HN as [N1 N2 N3]. constructor; [done|by rewrite K7|by rewrite K8]. }
  constructor; cbn; [by apply K11| |].
  - by rewrite K9.
  - by rewrite K10.
Qed.

Lemma inv_forget X S w p :
  inv X (p :: S) w -> (forall o, ops w !! p = Some o -> op_callback o = false) -> inv X S w.
Proof.
  intros (a & Ha & Hc & Hn & O) Hp. exists a. split_and!; [done| |done..]. by eapply core_forget.
Qed.

Section calls.
Context (mainloop_modify : Z -> Z -> bool) {resizes : Z -> bool} (client : list event -> list att_call).
Hypothesis client_nice : nice resizes client.

Section with_rec.
Variable rec : att_call -> P unit.

Lemma wp_call_quiet e Q w :
  loud e = false ->
  Q tt (World (att w) (ops w) (att_io w) (timers w) (next_addr w) (cw w) (tick w) (log w ++ [e])) ->
  wp (call client rec e) Q w.
Proof using client_nice.
  intros He HQ. apply wp_bind, wp_event. apply wp_bind, wp_gets. step.
  pose proof (client_nice (log w) e) as Hc. rewrite He in Hc. rewrite Hc. by apply wp_ret.
Qed.

Lemma wp_destroy_op p o Q w :
  Forall (fun x => 0 < x.1) (timers w) -> ops w !! p = Some o ->
  Q tt (destroyed w p o) -> wp (destroy_att_send_op client rec p) Q w.
Proof using client_nice.
  intros Ht Ho HQ. unfold destroy_att_send_op. apply wp_bind, (wp_get_op p o); [done|].
  apply wp_bind, wp_timeout_remove; [done|]. unfold free_op.
  assert (forall w', ops w' !! p = Some o -> Q tt (World (att w') (delete p (ops w')) (att_io w') (timers w')
    (next_addr w') (cw w') (tick w') (log w')) ->
    wp (get_op p;; l ← gets ops; put_ops (delete p l)) Q w') as Hfree.
  { intros w' Ho' HQ'. apply wp_bind, (wp_get_op p o); [done|]. by apply wp_bind, wp_gets, wp_modify. }
  apply wp_bind. unfold destroyed, destroy_event in HQ. destruct (op_destroy o).
  - apply wp_when_true, wp_call_quiet; [done|]. by apply Hfree.
  - apply wp_when_false. apply Hfree; [done|]. rewrite app_nil_r in HQ. exact HQ.
Qed.

Lemma wp_silence p o Q w :
  ops w !! p = Some o ->
  Q tt (World (att w) (<[p := silent o]> (ops w)) (att_io w) (timers w) (next_addr w) (cw w) (tick w)
          (log w ++ destroy_event o)) ->
  wp (cancel_att_send_op client rec p) Q w.
Proof using client_nice.
  intros Ho HQ. unfold cancel_att_send_op. apply wp_bind, (wp_get_op p o); [done|].
  apply wp_bind. unfold destroy_event in HQ. destruct (op_destroy o).
  - apply wp_when_true, wp_call_quiet; [done|]. apply wp_bind, (wp_get_op p o); [done|]. by apply wp_put_op.
  - apply wp_when_false. apply wp_bind, (wp_get_op p o); [done|]. apply wp_put_op.
    rewrite app_nil_r in HQ. exact HQ.
Qed.

(** *** Cancelling *)

(** A queued operation: [a'] is the transport without it. *)
Lemma wp_cancel_queued X S w a a' p o :
  inv X S w -> att w = Some a -> ops w !! p = Some o -> taken a a' p ->
  strip a' = strip a ->
  wp (put_att a';; cancel_queued mainloop_modify client rec (op_id o) p) (stays X S w) w.
Proof using client_nice.
  intros Hw Ha Ho Htk Hst. pose proof Hw as (b & Hb & Hc & HN & O).
  rewrite Ha in Hb. injection Hb as <-.
  apply wp_bind, wp_modify. unfold cancel_queued. apply wp_bind, wp_event. step.
  set (w1 := World (Some a') _ _ _ _ _ _ _).
  assert (inv (p :: X) (p :: S) w1) as Hw1.
  { apply (inv_take X (p :: S) (World (att w) (ops w) (att_io w) (timers w) (next_addr w) (cw w) (tick w)
      (log w ++ [EvCancel (op_id o)])) a); [|done|done|apply elem_of_cons; by left].
    exists a. split_and!; try done. by eapply core_cancelled. }
  assert (keeps w w1) as Hk1.
  { split_and!; [cbn; rewrite Ha; by apply (f_equal Some)|done|].
    constructor; [by eexists|done|by eapply down_att; [..|apply Htk]|by apply old_ops_same]. }
  destruct (inv_destroyed X (p :: S) w1 p o Hw1 Ho ltac:(set_solver)) as (Hw2 & Hk2).
  apply wp_bind. eapply wp_destroy_op; [by eapply inv_timers|exact Ho|].
  assert (inv X S (destroyed w1 p o)) as Hw3.
  { eapply inv_forget; [exact Hw2|]. cbn. intros u Hu. by rewrite lookup_delete_eq in Hu. }
  apply wp_bind. eapply wp_mono; [|by eapply wp_wake]. intros _ w3 (Hw4 & Hk3). apply wp_ret.
  split; [done|]. eapply keeps_trans; [exact Hk1|]. by eapply keeps_trans.
Qed.

Lemma wp_cancel_pending X S w p o :
  inv X S w -> ops w !! p = Some o ->
  wp (cancel_pending client rec (op_id o) p) (stays X S w) w.
Proof using client_nice mainloop_modify.
  intros (a & Ha & Hc & HN & O) Ho. unfold cancel_pending. apply wp_bind, wp_event.
  apply wp_bind, (wp_silence p o); [done|]. apply wp_ret. step. split.
  - eapply (inv_forget _ _ _ p); [|cbn; intros u Hu; rewrite lookup_insert_eq in Hu; by injection Hu as <-].
    exists a. split_and!; [done| |done|done].
    apply core_silence; [by eapply core_cancelled|done|set_solver].
  - split_and!; [done..|]. eapply later_log; [cbn; by rewrite <- app_assoc|done..|]. by apply (old_ops_insert w _ p o (silent o)).
Qed.

(** Whether an address that may be there has the id. *)
Lemma wp_pending_has x id Q w :
  (forall p, x = Some p -> is_Some (ops w !! p)) ->
  (forall p o, x = Some p -> ops w !! p = Some o -> op_id o = id -> Q true w) ->
  Q false w ->
  wp (pending_has x id) Q w.
Proof using Type.
  intros Hx Ht Hf. destruct x as [p|]; [|by apply wp_ret]. destruct (Hx p eq_refl) as (o & Ho).
  unfold pending_has, match_op_id. apply wp_bind, (wp_get_op p o); [done|]. apply wp_ret.
  destruct (Z.eqb_spec (op_id o) id); [by eapply Ht|done].
Qed.

Lemma wp_bt_att_cancel X S w id :
  inv X S w -> wp (bt_att_cancel mainloop_modify client rec id) (stays X S w) w.
Proof using client_nice.
  intros Hw. pose proof Hw as (a & Ha & Hc & HN & O). unfold bt_att_cancel.
  assert (@stays bool X S w false w) as Hno by (by apply stays_refl).
  destruct (Z.eqb_spec id 0); [by apply wp_ret|]. apply wp_bind, (wp_get_att a); [done|].
  pose proof Hc as (Hh & _). pose proof (h_dom _ _ _ _ Hh) as Hdom. pose proof (h_nodup _ _ _ _ Hh) as Hnd.
  assert (forall p, p ∈ addrs a -> is_Some (ops w !! p)) as Hin by (intros p Hp; apply Hdom, elem_of_app; by right).
  apply NoDup_app in Hnd as (_ & _ & Hnd).
  assert (forall p, pending_req a = Some p -> is_Some (ops w !! p)) as Hpr.
  { intros p Hp. apply Hin. unfold addrs, req_addrs. rewrite Hp. cbn. apply elem_of_cons. by left. }
  assert (forall p, pending_ind a = Some p -> is_Some (ops w !! p)) as Hpi.
  { intros p Hp. apply Hin. unfold addrs, ind_addrs. rewrite Hp. cbn. rewrite !elem_of_app, elem_of_cons. tauto. }
  apply wp_bind, wp_pending_has; [done| |].
  { intros p o Hp Ho <-. rewrite Hp. by apply wp_cancel_pending. }
  cbn [andb]. match goal with |- wp (match _ with Some _ => ?r | None => _ end) _ _ =>
    assert (wp r (stays X S w) w) as Hrest; [|by destruct (pending_req a)] end.
  apply wp_bind, wp_pending_has; [done| |].
  { intros p o Hp Ho <-. rewrite Hp. by apply wp_cancel_pending. }
  match goal with |- wp (match _ with Some _ => ?r | None => _ end) _ _ =>
    assert (wp r (stays X S w) w) as Hrest; [|by destruct (pending_ind a)] end.
  apply wp_bind, wp_remove_op.
  { intros p Hp. apply Hin. unfold addrs, req_addrs. rewrite !elem_of_app. tauto. }
  2:{ intros l p k o Hl Ho <-. eapply wp_cancel_queued; [done..| |done]. by apply taken_req. }
  apply wp_bind, wp_remove_op.
  { intros p Hp. apply Hin. unfold addrs, ind_addrs. rewrite !elem_of_app. tauto. }
  2:{ intros l p k o Hl Ho <-. eapply wp_cancel_queued; [done..| |done]. by apply taken_ind. }
  apply wp_bind, wp_remove_op.
  { intros p Hp. apply Hin. unfold addrs. rewrite !elem_of_app. tauto. }
  2:{ intros l p k o Hl Ho <-. eapply wp_cancel_queued; [done..| |done]. by apply taken_write. }
  by apply wp_ret.
Qed.
End with_rec.
End calls.

(** What the transport depends on. *)
Class Env := {
  mainloop_modify : Z -> Z -> bool;
  timer_ok : nat -> bool;
  malloc : nat -> Z -> option bytes;
  counter : nat -> Z -> Z -> option Z;
  get_level : nat -> option Z;
  set_level : nat -> Z -> bool;
  fails : nat -> bool;
  aes : bytes -> bytes -> bytes;
  cmac : bytes -> bytes -> bytes;
  resizes : Z -> bool;
  client : list event -> list att_call;
  cmac_block : forall k m, zlen (cmac k m) = 16 /\ bytes_ok (cmac k m);
  malloc_size : forall n len b, malloc n len = Some b -> zlen b = len;
  client_nice : nice resizes client;
}.

Section env.
Context `{ENV : Env}.

Lemma wp_bt_att_set_mtu X S w m : inv X S w -> m < 2 ^ 16 -> wp (bt_att_set_mtu malloc m) (stays X S w) w.
Proof.
  intros Hw Hm. unfold bt_att_set_mtu. destruct (Z.ltb_spec m BT_ATT_DEFAULT_LE_MTU); [by apply wp_ret, stays_refl|].
  apply wp_bind, wp_outside. set (w1 := World _ _ _ _ _ _ _ _).
  assert (stays X S w tt w1) as (Hw1 & Hk1).
  { apply inv_tick; [done|]. intros b Hb. eapply inv_ready; done. }
  destruct (malloc _ _) as [data|] eqn:Hd; [|by apply wp_ret].
  apply malloc_size in Hd. apply wp_bind, wp_bind, wp_fresh_addr. apply wp_bind, wp_event, wp_ret.
  set (p := next_addr w1). set (w2 := World _ _ _ _ _ _ _ _).
  assert (stays X S w1 tt w2) as (Hw2 & Hk2) by (by apply (inv_new_addr X S w1)).
  pose proof Hw2 as (a & Ha & _ & _ & [(O1 & (b & Hb & _) & O3) _ _]). apply wp_bind, (wp_get_att a); [done|].
  rewrite Hb. apply wp_bind, wp_event. set (w3 := World _ _ _ _ _ _ _ _).
  assert (stays X S w2 tt w3) as (Hw3 & Hk3) by (by apply inv_log).
  apply wp_bind, wp_modify, wp_ret.
  destruct (inv_att X S w3 a (set_buf (set_mtu a m) (Some (Block p data))) Hw3 Ha) as (Hw4 & Hk4); try done.
  { split_and!; [done..|by eexists|apply O3|apply O3]. }
  split; [exact Hw4|]. eapply keeps_trans; [exact Hk1|]. eapply keeps_trans; [exact Hk2|]. exact (keeps_trans _ _ _ Hk3 Hk4).
Qed.

Lemma wp_do_call rec c X S w : inv X S w -> call_ok c ->
  wp (do_call mainloop_modify malloc counter set_level fails aes cmac client rec c) (stays X S w) w.
Proof.
  intros Hw Hc. destruct c; try done; cbn [do_call].
  - apply (wp_stays X S); [|intros; by apply wp_ret, stays_refl].
    apply wp_bt_att_send; [apply cmac_block|apply malloc_size|done..].
  - apply (wp_stays X S); [|intros; by apply wp_ret, stays_refl].
    unfold bt_att_send_error_rsp. destruct (_ =? 0); [by apply wp_ret, stays_refl|].
    apply wp_bt_att_send; [apply cmac_block|apply malloc_size|done|].
    split_and!; [done|done|lia|]. intros d Hd. injection Hd as <-. unfold error_rsp. len_lia.
  - apply (wp_stays X S); [|intros; by apply wp_ret, stays_refl].
    eapply wp_bt_att_cancel; [apply client_nice|done].
  - apply (wp_stays X S); [|intros; by apply wp_ret, stays_refl].
    by apply wp_bt_att_set_mtu.
Qed.

(** The calls of a callback. *)
Definition calls : nat -> att_call -> P unit :=
  run_call mainloop_modify malloc counter set_level fails aes cmac client.

Lemma wp_run_calls n l X S w : inv X S w -> Forall call_ok l ->
  wp (run_calls (calls (Datatypes.S n)) l) (stays X S w) w.
Proof.
  intros Hw Hl. revert S w Hw. induction Hl as [|c l Hc Hl IH]; intros S w Hw.
  - by apply wp_ret, stays_refl.
  - cbn [run_calls]. apply (wp_stays X S); [by apply wp_do_call|]. intros _ w1 Hw1 _. by apply IH.
Qed.

(** A callback that answers an event that was added to the log. *)
Lemma wp_client n e X S w : loud e = true ->
  inv X S (World (att w) (ops w) (att_io w) (timers w) (next_addr w) (cw w) (tick w) (log w ++ [e])) ->
  wp (call client (calls (Datatypes.S n)) e) (stays X S w) w.
Proof.
  intros He Hw. apply wp_bind, wp_event. apply wp_bind, wp_gets. step.
  eapply wp_mono; [|apply wp_run_calls; [exact Hw|]].
  - intros x w1 (H1 & H2). split; [done|]. eapply keeps_trans; [|exact H2].
    split_and!; [done..|]. by apply (later_log _ _ [e]), old_ops_same.
  - pose proof (client_nice (log w) e) as Hc. rewrite He in Hc. eapply Forall_impl; [exact Hc|]. apply may_call_ok.
Qed.
End env.
