(* ===== verification/AttFrame.v ===== *)
(** What the functions of the transport leave alone -- the handlers, the callbacks of the
    program and the receive buffer -- and the books of what was given to the transport:
    destroy functions of handlers and blocks of memory. *)
From Stdlib Require Import ZArith Lia.
From S2P Require Import Prelude Blocks StateM Io Crypto Att AttTrace AttSpec.
From stdpp Require Import base numbers list option gmap.

Local Open Scope Z_scope.

(** ** Partial correctness

    [wlp m Q w]: where [m] is defined and ends, it ends with [Q]. *)
Definition wlp {A} (m : P A) (Q : A -> world -> Prop) (w : world) : Prop :=
  forall x w', m w = Some (x, w') -> Q x w'.

Lemma wlp_ret {A} (x : A) (Q : A -> world -> Prop) w : Q x w -> wlp (mret x) Q w.
Proof. intros HQ y w'. cbv [mret M_ret]. by intros [= <- <-]. Qed.
Lemma wlp_undef {A} (Q : A -> world -> Prop) w : wlp undef Q w.
Proof. by intros x w'. Qed.
Lemma wlp_bind {A B} (m : P A) (f : A -> P B) Q w :
  wlp m (fun x w' => wlp (f x) Q w') w -> wlp (m ≫= f) Q w.
Proof.
  intros H y w2. cbv [mbind M_bind]. destruct (m w) as [[x w1]|] eqn:Hm; [|done]. intros Hf.
  exact (H x w1 Hm y w2 Hf).
Qed.
Lemma wlp_mono {A} (m : P A) (Q R : A -> world -> Prop) w :
  (forall x w', Q x w' -> R x w') -> wlp m Q w -> wlp m R w.
Proof. intros H Hm x w' Hr. by apply H, Hm. Qed.
Lemma wlp_assoc {A B C} (m : P A) (f : A -> P B) (g : B -> P C) Q w :
  wlp (x ← m; f x ≫= g) Q w -> wlp ((m ≫= f) ≫= g) Q w.
Proof. unfold wlp. cbv [mbind M_bind]. by destruct (m w) as [[x w1]|]. Qed.
(** Both logics together. *)
Lemma wp_also {A} (m : P A) (Q R : A -> world -> Prop) w :
  wp m Q w -> wlp m R w -> wp m (fun x w' => Q x w' /\ R x w') w.
Proof. intros (x & w' & Hm & HQ) HR. exists x, w'. split; [done|]. split; [done|by apply HR]. Qed.
Lemma wlp_get_att {B} (f : bt_att -> P B) Q w :
  (forall a, att w = Some a -> wlp (f a) Q w) -> wlp (get_att ≫= f) Q w.
Proof.
  intros H. apply wlp_bind. intros a w'. unfold get_att, get_some.
  destruct (att w) as [b|]; [|done]. intros [= <- <-]. by apply H.
Qed.

(** A computation that only reads. *)
Definition reads {A} (m : P A) : Prop := forall w x w', m w = Some (x, w') -> w' = w.
(** What a computation keeps. *)
Definition preserves (I : world -> Prop) {A} (m : P A) : Prop := forall w, I w -> wlp m (fun _ => I) w.

Lemma wlp_read {A B} (m : P A) (f : A -> P B) Q w :
  reads m -> (forall x, wlp (f x) Q w) -> wlp (m ≫= f) Q w.
Proof. intros Hm H. apply wlp_bind. intros x w' Hr. rewrite (Hm _ _ _ Hr). apply H. Qed.
Lemma wlp_then {I} {A B} (m : P A) (f : A -> P B) Q w :
  preserves I m -> I w -> (forall x w', I w' -> wlp (f x) Q w') -> wlp (m ≫= f) Q w.
Proof. intros Hm Hw H. apply wlp_bind. eapply wlp_mono; [|by apply Hm]. exact H. Qed.
Lemma wlp_cut {I : world -> Prop} {A B} (m : P A) (f : A -> P B) Q w :
  wlp m (fun _ => I) w -> (forall x w', I w' -> wlp (f x) Q w') -> wlp (m ≫= f) Q w.
Proof. intros Hm H. apply wlp_bind. eapply wlp_mono; [|exact Hm]. exact H. Qed.

Lemma wp_preserved {A} I (m : P A) (Q : A -> world -> Prop) w :
  wp m Q w -> preserves I m -> I w -> wp m (fun x w' => Q x w' /\ I w') w.
Proof. intros Hm HI Hw. apply wp_also; [done|by apply HI]. Qed.

(** ** Books

    The destroy functions that were given and not called yet, by their user data, and the
    blocks that are not freed yet.  A destroy function that was not given, or was called
    already, and a block that is not there have no entry. *)
Fixpoint strike (x : Z) (l : list Z) : option (list Z) :=
  match l with
  | [] => None
  | y :: l => if y =? x then Some l else l' ← strike x l; Some (y :: l')
  end.
Definition book (s : list Z * list Z) (e : event) : option (list Z * list Z) :=
  match e with
  | EvGive u => Some (u :: s.1, s.2)
  | EvDestroy u => l ← strike u s.1; Some (l, s.2)
  | EvAlloc p => Some (s.1, p :: s.2)
  | EvFree p => l ← strike p s.2; Some (s.1, l)
  | _ => Some s
  end.
Definition books (l : list event) : option (list Z * list Z) :=
  foldl (fun s e => s ← s; book s e) (Some ([], [])) l.
Lemma books_snoc l e : books (l ++ [e]) = s ← books l; book s e.
Proof. unfold books. by rewrite foldl_app. Qed.

(** The books show these destroy functions and blocks. *)
Definition accounts (h b : list Z) (l : list event) : Prop :=
  exists s, books l = Some s /\ s.1 ≡ₚ h /\ s.2 ≡ₚ b.

#[export] Instance accounts_perm : Proper ((≡ₚ) ==> (≡ₚ) ==> (=) ==> iff) accounts.
Proof. intros h h' Hh b b' Hb l l' ->. unfold accounts. by setoid_rewrite Hh; setoid_rewrite Hb. Qed.

Lemma strike_perm x l k : l ≡ₚ x :: k -> exists k', strike x l = Some k' /\ k' ≡ₚ k.
Proof.
  intros Hl. assert (exists k', strike x l = Some k' /\ l ≡ₚ x :: k') as (k' & Hs & Hk).
  2:{ exists k'. split; [done|]. apply (Permutation_cons_inv (a := x)). by rewrite <- Hk. }
  assert (x ∈ l) as Hx by (rewrite Hl; apply elem_of_cons; by left). clear Hl. induction l as [|y l IH]; [set_solver|].
  cbn. destruct (Z.eqb_spec y x) as [->|Hne]; [by exists l|].
  destruct IH as (k' & -> & Hk); [set_solver|]. exists (y :: k'). split; [done|]. rewrite Hk. apply perm_swap.
Qed.

Lemma accounts_give u h b l : accounts h b l -> accounts (u :: h) b (l ++ [EvGive u]).
Proof.
  intros (s & Hs & H1 & H2). exists (u :: s.1, s.2). rewrite books_snoc, Hs. split_and!; [done|by rewrite <- H1|done].
Qed.
Lemma accounts_destroy u h b l : accounts (u :: h) b l -> accounts h b (l ++ [EvDestroy u]).
Proof.
  intros (s & Hs & (k & Hk & H1)%strike_perm & H2). exists (k, s.2). rewrite books_snoc, Hs. cbn. rewrite Hk. done.
Qed.
Lemma accounts_alloc p h b l : accounts h b l -> accounts h (p :: b) (l ++ [EvAlloc p]).
Proof.
  intros (s & Hs & H1 & H2). exists (s.1, p :: s.2). rewrite books_snoc, Hs. split_and!; [done|done|by rewrite <- H2].
Qed.
Lemma accounts_free p h b l : accounts h (p :: b) l -> accounts h b (l ++ [EvFree p]).
Proof.
  intros (s & Hs & H1 & (k & Hk & H2)%strike_perm). exists (s.1, k). rewrite books_snoc, Hs. cbn. rewrite Hk. done.
Qed.

Lemma accounts_eq h h' b l : accounts h b l -> h ≡ₚ h' -> accounts h' b l.
Proof. by intros H <-. Qed.

(** An event that is in no book. *)
Definition unbooked (e : event) : bool :=
  match e with EvGive _ | EvDestroy _ | EvAlloc _ | EvFree _ => false | _ => true end.
Lemma books_unbooked l e : unbooked e = true -> books (l ++ [e]) = books l.
Proof. intros He. rewrite books_snoc. by destruct (books l), e. Qed.

(** ** Frames

    What is given to the transport and stays there. *)
Definition hview (a : bt_att) :=
  (notify_list a, disconn_list a, timeout_callback a, debug_callback a, buf a).
Definition frame (I : world -> Prop) : Prop := forall w w',
  hview <$> att w' = hview <$> att w -> books (log w') = books (log w) -> I w -> I w'.

Lemma preserves_modify I f : frame I ->
  (forall w, att (f w) = att w) -> (forall w, log (f w) = log w) -> preserves I (modify f).
Proof. intros HI Ha Hl w Hw x w' [= <- <-]. eapply HI; [by rewrite Ha|by rewrite Hl|done]. Qed.
Lemma wlp_preserves I {A} (m : P A) w : preserves I m -> I w -> wlp m (fun _ => I) w.
Proof. intros Hm. apply Hm. Qed.
Lemma preserves_reads I {A} (m : P A) : reads m -> preserves I m.
Proof. intros Hm w Hw x w' Hr. by rewrite (Hm _ _ _ Hr). Qed.

Lemma wlp_put {I} {B} a a' (k : P B) Q w :
  frame I -> att w = Some a -> hview a' = hview a -> I w ->
  (forall w', I w' -> att w' = Some a' -> wlp k Q w') -> wlp (put_att a';; k) Q w.
Proof.
  intros HI Ha Hv Hw Hk. apply wlp_bind. intros x w' [= <- <-]. apply Hk; [|done].
  eapply HI; [| |exact Hw]; [|done]. cbn [att]. rewrite Ha. by apply (f_equal Some).
Qed.
Lemma wlp_put_last {I} a a' w :
  frame I -> att w = Some a -> hview a' = hview a -> I w -> wlp (put_att a') (fun _ => I) w.
Proof.
  intros HI Ha Hv Hw x w' [= <- <-]. eapply HI; [| |exact Hw]; [|done]. cbn [att]. rewrite Ha. by apply (f_equal Some).
Qed.

Create HintDb frames.
Ltac same_view := first [reflexivity | match goal with |- context [match ?x with _ => _ end] => destruct x; reflexivity end].

(** Steps through a computation that keeps [I]. *)
Ltac frame :=
  cbv beta zeta;
  lazymatch goal with
  | |- wlp (mret _) _ _ => apply wlp_ret; assumption
  | |- wlp undef _ _ => apply wlp_undef
  | |- wlp (get_att ≫= _) _ _ => apply wlp_get_att; intros ? ?; frame
  | |- wlp (put_att _ ≫= _) (fun _ => ?I) _ =>
    first [ eapply wlp_put; [eassumption|eassumption|same_view|eassumption|intros ? ? ?]
          | apply (wlp_then (I := I)); [solve [auto with frames]|assumption|intros ? ? ?] ]; frame
  | |- wlp (put_att _) _ _ => eapply wlp_put_last; [eassumption|eassumption|same_view|assumption]
  | |- wlp (when ?b _) _ _ => unfold when; frame
  | |- wlp (if ?b then _ else _) _ _ => destruct b; frame
  | |- wlp (match ?x with _ => _ end) _ _ =>
    first [match x with context [match ?y with _ => _ end] => destruct y end | destruct x]; cbv beta iota; frame
  | |- wlp (_ ≫= _) (fun _ => ?I) _ =>
    first [ apply wlp_read; [solve [auto with frames]|intros ?; frame]
          | apply (wlp_then (I := I)); [solve [auto with frames]|assumption|intros ? ? ?; frame]
          | apply (wlp_cut (I := I)); [frame|intros ? ? ?; frame] ]
  | |- wlp _ _ _ => apply wlp_preserves; [solve [auto with frames]|assumption]
  end.
Ltac framed := let w := fresh "w" in intros w ?; frame.

(** Computations that only read. *)
Lemma reads_gets {A} (f : world -> A) : reads (gets f).
Proof. by intros w x w' [= <- <-]. Qed.
Lemma reads_get_some {A} (f : world -> option A) : reads (get_some f).
Proof. intros w x w'. unfold get_some. destruct (f w); [|done]. by intros [= <- <-]. Qed.
Lemma reads_ub {A} (x : ub A) : reads (of_ub x).
Proof. intros w y w'. unfold of_ub. destruct x; [|done]. by intros [= <- <-]. Qed.
Lemma reads_ret {A} (x : A) : reads (mret x).
Proof. by intros w y w' [= <- <-]. Qed.
Lemma reads_undef {A} : reads (@undef world A).
Proof. by intros w y w'. Qed.
Lemma reads_bind {A B} (m : P A) (f : A -> P B) : reads m -> (forall x, reads (f x)) -> reads (m ≫= f).
Proof.
  intros Hm Hf w y w'. cbv [mbind M_bind]. destruct (m w) as [[x w1]|] eqn:Hr; [|done].
  apply Hm in Hr as ->. apply Hf.
Qed.
#[export] Hint Resolve reads_gets reads_get_some reads_ub reads_ret reads_undef reads_bind : frames.
#[export] Hint Extern 2 (reads (if ?b then _ else _)) => destruct b : frames.

Lemma reads_op p : reads (get_op p).
Proof. apply reads_get_some. Qed.
Lemma reads_io : reads (@get_io world io_fn io_destroy_fn _).
Proof. apply reads_get_some. Qed.
#[export] Hint Resolve reads_op reads_io : frames.
Lemma reads_load p len : reads (load p len).
Proof.
  apply reads_bind; [apply reads_get_some|]. intros a. destruct (buf a) as [b|]; [|apply reads_undef].
  destruct (_ =? _); [apply reads_ub|apply reads_undef].
Qed.
Lemma reads_match_op_id id p : reads (match_op_id id p).
Proof. unfold match_op_id. auto with frames. Qed.
Lemma reads_pending_has x id : reads (pending_has x id).
Proof. destruct x; [apply reads_match_op_id|apply reads_ret]. Qed.
Lemma reads_remove_op id q : reads (remove_op id q).
Proof.
  induction q as [|p q IH]; [apply reads_ret|]. apply reads_bind; [apply reads_match_op_id|].
  intros []; [apply reads_ret|]. apply reads_bind; [exact IH|]. intros x. apply reads_ret.
Qed.
#[export] Hint Resolve reads_load reads_match_op_id reads_pending_has reads_remove_op : frames.

(** *** The store, the log and the io *)

Section store.
Variable I : world -> Prop.
Hypothesis HI : frame I.

Lemma preserves_emit e : unbooked e = true -> preserves I (emit e).
Proof using HI. intros He w Hw x w1 [= <- <-]. apply (HI w); [done|by apply books_unbooked|done]. Qed.
Lemma preserves_put_ops l : preserves I (put_ops l).
Proof using HI. by apply preserves_modify. Qed.
Lemma preserves_put_timers l : preserves I (put_timers l).
Proof using HI. by apply preserves_modify. Qed.
Lemma preserves_put_io i : preserves I (@put_io world io_fn io_destroy_fn _ i).
Proof using HI. by apply preserves_modify. Qed.
Lemma preserves_free_io : preserves I (@free_io world io_fn io_destroy_fn _).
Proof using HI. by apply preserves_modify. Qed.
Lemma preserves_fresh_addr : preserves I fresh_addr.
Proof using HI. intros w Hw x w' [= <- <-]. by apply (HI w). Qed.
Lemma preserves_outside : preserves I outside.
Proof using HI. intros w Hw x w' [= <- <-]. by apply (HI w). Qed.
Lemma preserves_on_crypto {A} (m : M Crypto.world A) : preserves I (on_crypto m).
Proof using HI.
  intros w Hw x w'. unfold on_crypto. destruct (m (cw w)) as [[y c]|]; [|done]. intros [= <- <-]. by apply (HI w).
Qed.
Lemma preserves_ret {A} (x : A) : preserves I (mret x).
Proof using Type. apply preserves_reads, reads_ret. Qed.
End store.
#[export] Hint Resolve preserves_put_ops preserves_put_timers preserves_put_io preserves_free_io
  preserves_fresh_addr preserves_outside preserves_on_crypto preserves_ret : frames.
#[export] Hint Extern 1 (preserves _ (emit _)) => (apply preserves_emit; [assumption|reflexivity]) : frames.
#[export] Hint Extern 3 (preserves _ _) => (apply preserves_reads; solve [auto with frames]) : frames.

Section functions.
Context `{ENV : Env}.
Variable I : world -> Prop.
Hypothesis HI : frame I.

Lemma preserves_put_op p o : preserves I (put_op p o).
Proof using HI. unfold put_op. framed. Qed.
Lemma preserves_free_op p : preserves I (free_op p).
Proof using HI. unfold free_op. framed. Qed.
Lemma preserves_timeout_remove t : preserves I (timeout_remove t).
Proof using HI. unfold timeout_remove. framed. Qed.
Lemma preserves_timeout_add id : preserves I (timeout_add timer_ok id).
Proof using HI. unfold timeout_add. framed. Qed.
Hint Resolve preserves_put_op preserves_free_op preserves_timeout_remove preserves_timeout_add : frames.

Lemma preserves_destroy_watch (v : watch io_fn io_destroy_fn) : preserves I (destroy_watch v).
Proof using HI. unfold destroy_watch. destruct (destroy v) as [[]|]; cbn; unfold write_watch_destroy; framed. Qed.
Hint Resolve preserves_destroy_watch : frames.
Lemma preserves_close_fd f : preserves I (@close_fd world io_fn io_destroy_fn _ f).
Proof using HI. cbn. framed. Qed.
Hint Resolve preserves_close_fd : frames.
Lemma preserves_io_ref : preserves I (@io_ref world io_fn io_destroy_fn _).
Proof using HI. unfold io_ref. framed. Qed.
Lemma preserves_io_unref : preserves I (@io_unref world io_fn io_destroy_fn _).
Proof using HI. unfold io_unref. framed. Qed.
Lemma preserves_io_cleanup : preserves I (@io_cleanup world io_fn io_destroy_fn _).
Proof using HI. unfold io_cleanup. framed. Qed.
Hint Resolve preserves_io_cleanup preserves_io_ref preserves_io_unref : frames.
Lemma preserves_io_destroy : preserves I (@io_destroy world io_fn io_destroy_fn _).
Proof using HI. unfold io_destroy, mainloop_remove_fd. framed. Qed.
Hint Resolve preserves_io_destroy : frames.
Lemma preserves_drop_watch v set ev : preserves I (@drop_watch world io_fn io_destroy_fn _ v set ev).
Proof using HI. unfold drop_watch. framed. Qed.
Lemma preserves_io_set_handler v set ev c d :
  preserves I (@io_set_handler world io_fn io_destroy_fn _ mainloop_modify v set ev c d).
Proof using HI. unfold io_set_handler. framed. Qed.
Lemma preserves_io_shutdown f : preserves I (@io_shutdown world io_fn io_destroy_fn _ f).
Proof using HI. unfold io_shutdown. framed. Qed.
Lemma preserves_io_send f l : preserves I (@io_send world io_fn io_destroy_fn _ f l).
Proof using HI. unfold io_send. framed. Qed.
Hint Resolve preserves_drop_watch preserves_io_set_handler preserves_io_shutdown preserves_io_send : frames.

Lemma preserves_on_io e : preserves I e -> preserves I (on_io e).
Proof using HI. intros He. unfold on_io. framed. Qed.
Hint Resolve preserves_on_io : frames.
Lemma preserves_cut_io : preserves I (on_io (io_destroy;; mret true)).
Proof using HI. apply preserves_on_io. framed. Qed.
Lemma preserves_shutdown_io : preserves I shutdown_io.
Proof using HI. unfold shutdown_io. framed. Qed.
Lemma preserves_wakeup_writer : preserves I (wakeup_writer mainloop_modify).
Proof using HI. unfold wakeup_writer, io_set_write_handler. framed. Qed.
Hint Resolve preserves_shutdown_io preserves_wakeup_writer : frames.

(** *** Sending *)

Lemma preserves_encode_pdu opcode pdu len : preserves I (encode_pdu malloc counter fails aes cmac opcode pdu len).
Proof using HI. unfold encode_pdu. framed. Qed.
Hint Resolve preserves_encode_pdu : frames.
Lemma preserves_create opcode pdu len c u d :
  preserves I (create_att_send_op malloc counter fails aes cmac opcode pdu len c u d).
Proof using HI. unfold create_att_send_op. framed. Qed.
Hint Resolve preserves_create : frames.
Lemma preserves_bt_att_send opcode pdu len c u d :
  preserves I (bt_att_send mainloop_modify malloc counter fails aes cmac opcode pdu len c u d).
Proof using HI. unfold bt_att_send. framed. Qed.
Hint Resolve preserves_bt_att_send : frames.
Lemma preserves_send_error_rsp opcode handle error :
  preserves I (bt_att_send_error_rsp mainloop_modify malloc counter fails aes cmac opcode handle error).
Proof using HI. unfold bt_att_send_error_rsp. framed. Qed.
Lemma preserves_not_supported opcode :
  preserves I (respond_not_supported mainloop_modify malloc counter fails aes cmac opcode).
Proof using HI. unfold respond_not_supported. framed. Qed.
Lemma preserves_bt_att_ref : preserves I bt_att_ref.
Proof using HI. unfold bt_att_ref. framed. Qed.
Lemma preserves_start_timer p : preserves I (start_timer timer_ok p).
Proof using HI. unfold start_timer. framed. Qed.
Lemma preserves_pick : preserves I pick_next_send_op.
Proof using HI. unfold pick_next_send_op. framed. Qed.
Lemma preserves_change_security ecode : preserves I (change_security get_level set_level ecode).
Proof using HI. unfold change_security, bt_att_get_security, bt_att_set_security. framed. Qed.
Hint Resolve preserves_change_security : frames.
Lemma preserves_error_rsp p pdu len : preserves I (handle_error_rsp get_level set_level p pdu len).
Proof using HI. unfold handle_error_rsp. framed. Qed.
Lemma preserves_new_reg_id : preserves I new_reg_id.
Proof using HI. unfold new_reg_id. framed. Qed.
End functions.
#[export] Hint Resolve preserves_put_op preserves_free_op preserves_timeout_remove preserves_timeout_add
  preserves_destroy_watch preserves_io_cleanup preserves_io_ref preserves_io_unref preserves_io_destroy preserves_drop_watch
  preserves_io_set_handler preserves_io_send preserves_on_io preserves_cut_io preserves_shutdown_io preserves_wakeup_writer
  preserves_bt_att_send preserves_send_error_rsp preserves_not_supported preserves_bt_att_ref
  preserves_start_timer preserves_pick preserves_change_security preserves_error_rsp preserves_new_reg_id : frames.

(** *** Functions that call the client *)

Lemma preserves_for_all {A} I (f : A -> P unit) l : (forall x, preserves I (f x)) -> preserves I (for_all f l).
Proof. intros Hf. induction l as [|x l IH]; intros w Hw; cbn [for_all]; [by apply wlp_ret|]. by eapply wlp_then. Qed.
#[export] Hint Resolve preserves_for_all : frames.

Section client.
Context `{ENV : Env}.
Variables (I : world -> Prop) (rec : att_call -> P unit).
Hypothesis HI : frame I.

(** A function of the client that calls nothing. *)
Lemma preserves_call_quiet e : loud e = false -> unbooked e = true -> preserves I (call client rec e).
Proof using HI.
  intros He Hu w Hw x w'. unfold call. cbv [mbind M_bind emit modify gets]. cbn [log].
  pose proof (client_nice (log w) e) as Hc. rewrite He in Hc. rewrite Hc. intros [= <- <-].
  apply (HI w); [done|by apply books_unbooked|done].
Qed.
Lemma preserves_destroy_op p : preserves I (destroy_att_send_op client rec p).
Proof using HI.
  unfold destroy_att_send_op. assert (forall id u, preserves I (call client rec (EvOpDestroy id u))) as Hc
    by (intros; by apply preserves_call_quiet). framed.
Qed.
Hint Resolve preserves_destroy_op : frames.
Lemma preserves_cancel_op p : preserves I (cancel_att_send_op client rec p).
Proof using HI.
  unfold cancel_att_send_op. assert (forall id u, preserves I (call client rec (EvOpDestroy id u))) as Hc
    by (intros; by apply preserves_call_quiet). framed.
Qed.
Hint Resolve preserves_cancel_op : frames.
Lemma preserves_cancel_queued id p : preserves I (cancel_queued mainloop_modify client rec id p).
Proof using HI. unfold cancel_queued. framed. Qed.
Lemma preserves_cancel_pending id p : preserves I (cancel_pending client rec id p).
Proof using HI. unfold cancel_pending. framed. Qed.
Hint Resolve preserves_cancel_queued preserves_cancel_pending : frames.
Lemma preserves_bt_att_cancel id : preserves I (bt_att_cancel mainloop_modify client rec id).
Proof using HI. unfold bt_att_cancel. framed. Qed.
Lemma preserves_bt_att_cancel_all : preserves I (bt_att_cancel_all client rec).
Proof using HI. unfold bt_att_cancel_all, cancel_opt. framed. Qed.
Lemma preserves_destroy_opt x : preserves I (destroy_opt client rec x).
Proof using HI. unfold destroy_opt. framed. Qed.

(** *** Functions whose callbacks may call the transport *)

Hypothesis Hloud : forall e, loud e = true -> preserves I (call client rec e).
Hint Extern 1 (preserves _ (call _ _ _)) => (apply Hloud; reflexivity) : frames.

Lemma preserves_respond p opcode pdu : preserves I (respond client rec p opcode pdu).
Proof using HI Hloud. unfold respond. framed. Qed.
Hint Resolve preserves_respond : frames.
Lemma preserves_disc_op p : preserves I (disc_att_send_op client rec p).
Proof using HI Hloud. unfold disc_att_send_op. framed. Qed.
Hint Resolve preserves_disc_op : frames.
Lemma preserves_disc_opt x : preserves I (disc_opt client rec x).
Proof using HI Hloud. unfold disc_opt. framed. Qed.
Lemma preserves_end_request p opcode pdu : preserves I (end_request mainloop_modify client rec p opcode pdu).
Proof using HI Hloud. unfold end_request. framed. Qed.
Hint Resolve preserves_end_request : frames.
Lemma preserves_handle_rsp opcode pdu len :
  preserves I (handle_rsp mainloop_modify get_level set_level client rec opcode pdu len).
Proof using HI Hloud. unfold handle_rsp, response_pdu. framed. Qed.
Lemma preserves_handle_conf len : preserves I (handle_conf mainloop_modify client rec len).
Proof using HI Hloud. unfold handle_conf. framed. Qed.
Lemma preserves_timeout_cb id : preserves I (timeout_cb client rec id).
Proof using HI Hloud. unfold timeout_cb. framed. Qed.
Hint Resolve preserves_timeout_cb : frames.
Lemma preserves_fire t : preserves I (fire client rec t).
Proof using HI Hloud. unfold fire. framed. Qed.
Lemma preserves_can_write writev : preserves I (can_write_data timer_ok client rec writev).
Proof using HI Hloud. unfold can_write_data. framed. Qed.
Lemma preserves_disconn_handler p err : preserves I (disconn_handler client rec p err).
Proof using HI Hloud. unfold disconn_handler. framed. Qed.
Hint Resolve preserves_disconn_handler : frames.
Lemma preserves_disconn_foreach l err : preserves I (disconn_foreach client rec l err).
Proof using HI Hloud. induction l as [|p l IH]; cbn [disconn_foreach]; framed. Qed.
Lemma preserves_notify_loop m : forall entry opcode pdu len found,
  preserves I (notify_loop client rec m entry opcode pdu len found).
Proof using HI Hloud. induction m as [|m IH]; intros [p|] opcode pdu len found; cbn [notify_loop]; framed. Qed.
End client.
#[export] Hint Resolve preserves_destroy_op preserves_bt_att_cancel preserves_bt_att_cancel_all preserves_destroy_opt : frames.

(** ** The books of the transport *)

Definition callback_data (c : callback) : list Z := if cb_destroy c then [cb_data c] else [].
Definition option_data (c : option callback) : list Z := match c with Some c => callback_data c | None => [] end.
Definition notify_data (l : list (Z * att_notify)) : list Z := l ≫= fun x => callback_data (notify_callback x.2).
Definition disconn_data (l : list (Z * att_disconn)) : list Z := l ≫= fun x => callback_data (disconn_callback x.2).

(** The destroy functions the transport still has to call: those of the handlers, and those of
    the debug and the timeout callback; and its block. *)
Definition handlers (a : bt_att) : list Z := notify_data (notify_list a) ++ disconn_data (disconn_list a).
Definition settings (a : bt_att) : list Z := option_data (timeout_callback a) ++ option_data (debug_callback a).
Definition blocks (a : bt_att) : list Z := match buf a with Some b => [block_addr b] | None => [] end.

Definition balanced (w : world) : Prop :=
  match att w with
  | Some a => accounts (handlers a ++ settings a) (blocks a) (log w)
  | None => accounts [] [] (log w)
  end.
Lemma frame_balanced : frame balanced.
Proof.
  intros w w' Hv Hb. unfold balanced, accounts. rewrite Hb. destruct (att w) as [a|], (att w') as [a'|]; try done.
  apply (inj Some) in Hv. unfold hview in Hv. unfold handlers, settings, blocks. by injection Hv as -> -> -> -> ->.
Qed.
Lemma balanced_att w a : att w = Some a ->
  balanced w <-> accounts (handlers a ++ settings a) (blocks a) (log w).
Proof. unfold balanced. by intros ->. Qed.

Section books.
Context `{ENV : Env}.
Variable rec : att_call -> P unit.

(** Destroy functions that are called. *)
Lemma wlp_told {B} c a h b (k : P B) Q w :
  att w = Some a -> accounts (option_data c ++ h) b (log w) ->
  (forall w', att w' = Some a -> accounts h b (log w') -> wlp k Q w') ->
  wlp (destroy_callback client rec c;; k) Q w.
Proof.
  intros Ha Hb Hk. apply wlp_bind. intros x w'. destruct c as [c|]; cbn [destroy_callback].
  2:{ intros [= <- <-]. by apply Hk. }
  unfold option_data, callback_data in Hb. unfold when. destruct (cb_destroy c).
  2:{ intros [= <- <-]. by apply Hk. }
  unfold call. cbv [mbind M_bind emit modify gets]. cbn [log].
  rewrite (client_nice (log w) (EvDestroy (cb_data c))). intros [= <- <-]. apply Hk; [done|]. by apply accounts_destroy.
Qed.
Lemma wlp_told_all {A B} (f : A -> callback) l a h b (k : P B) Q w :
  att w = Some a -> accounts ((l ≫= fun x => callback_data (f x)) ++ h) b (log w) ->
  (forall w', att w' = Some a -> accounts h b (log w') -> wlp k Q w') ->
  wlp (for_all (fun x => destroy_callback client rec (Some (f x))) l;; k) Q w.
Proof.
  intros Ha Hb Hk. revert w Ha Hb. induction l as [|x l IH]; intros w Ha Hb; [by apply Hk|].
  cbn [for_all]. apply wlp_assoc. eapply wlp_told; [exact Ha| |exact IH]. by rewrite app_assoc.
Qed.
Lemma wlp_give {B} c (k : P B) Q w :
  (forall w', att w' = att w -> (forall h b, accounts h b (log w) -> accounts (option_data c ++ h) b (log w')) -> wlp k Q w') ->
  wlp (give c;; k) Q w.
Proof using Type.
  intros Hk. apply wlp_bind. intros x w'. destruct c as [c|]; cbn [give].
  2:{ intros [= <- <-]. by apply Hk. }
  unfold option_data, callback_data in Hk. unfold when. destruct (cb_destroy c).
  - intros [= <- <-]. apply Hk; [done|]. intros h b. by apply accounts_give.
  - intros [= <- <-]. by apply Hk.
Qed.
(** A transport whose books are as they have to be. *)
Lemma wlp_balance {B} a' (k : P B) Q w :
  accounts (handlers a' ++ settings a') (blocks a') (log w) ->
  (forall w', balanced w' -> att w' = Some a' -> wlp k Q w') -> wlp (put_att a';; k) Q w.
Proof using Type. intros Hb Hk. apply wlp_bind. intros x w' [= <- <-]. by apply Hk. Qed.

Lemma preserves_set_debug c : preserves balanced (bt_att_set_debug client rec c).
Proof.
  intros w Hw. unfold bt_att_set_debug. apply wlp_get_att. intros a Ha. rewrite (balanced_att w a Ha) in Hw.
  eapply (wlp_told _ a (handlers a ++ option_data (timeout_callback a))); [exact Ha| |].
  { eapply accounts_eq; [exact Hw|]. unfold settings. solve_Permutation. }
  intros w1 Ha1 Hw1. apply wlp_give. intros w2 Ha2 Hw2. apply Hw2 in Hw1. apply wlp_get_att. intros b Hb.
  rewrite Ha2, Ha1 in Hb. injection Hb as <-. eapply wlp_balance.
  - eapply accounts_eq; [exact Hw1|]. unfold handlers, settings. cbn. solve_Permutation.
  - intros w3 Hw3 _. by apply wlp_ret.
Qed.
Lemma preserves_set_timeout c : preserves balanced (bt_att_set_timeout_cb client rec c).
Proof.
  intros w Hw. unfold bt_att_set_timeout_cb. apply wlp_get_att. intros a Ha. rewrite (balanced_att w a Ha) in Hw.
  eapply (wlp_told _ a (handlers a ++ option_data (debug_callback a))); [exact Ha| |].
  { eapply accounts_eq; [exact Hw|]. unfold settings. solve_Permutation. }
  intros w1 Ha1 Hw1. apply wlp_give. intros w2 Ha2 Hw2. apply Hw2 in Hw1. apply wlp_get_att. intros b Hb.
  rewrite Ha2, Ha1 in Hb. injection Hb as <-. eapply wlp_balance.
  - eapply accounts_eq; [exact Hw1|]. unfold handlers, settings. cbn. solve_Permutation.
  - intros w3 Hw3 _. by apply wlp_ret.
Qed.

(** Handlers. *)
Lemma preserves_register opcode c : preserves balanced (bt_att_register opcode c).
Proof.
  pose proof frame_balanced as HI. intros w Hw. unfold bt_att_register. apply wlp_get_att. intros a _.
  destruct (negb (has_io a)); [by apply wlp_ret|].
  eapply wlp_then; [by apply preserves_new_reg_id|exact Hw|]. intros id w1 Hw1.
  eapply wlp_then; [by apply preserves_fresh_addr|exact Hw1|]. intros p w2 Hw2.
  apply wlp_give. intros w3 Ha3 Hw3. apply wlp_get_att. intros b Hb. rewrite Ha3 in Hb.
  rewrite (balanced_att w2 b Hb) in Hw2. eapply wlp_balance; [|intros w4 Hw4 _; by apply wlp_ret].
  eapply accounts_eq; [exact (Hw3 _ _ Hw2)|]. unfold handlers, settings, notify_data. cbn.
  rewrite bind_app. cbn. rewrite app_nil_r. solve_Permutation.
Qed.
Lemma preserves_register_disconnect h c : preserves balanced (bt_att_register_disconnect h c).
Proof.
  pose proof frame_balanced as HI. intros w Hw. unfold bt_att_register_disconnect. apply wlp_get_att. intros a _.
  destruct (negb (has_io a)); [by apply wlp_ret|].
  eapply wlp_then; [by apply preserves_new_reg_id|exact Hw|]. intros id w1 Hw1.
  eapply wlp_then; [by apply preserves_fresh_addr|exact Hw1|]. intros p w2 Hw2.
  apply wlp_give. intros w3 Ha3 Hw3. apply wlp_get_att. intros b Hb. rewrite Ha3 in Hb.
  rewrite (balanced_att w2 b Hb) in Hw2. eapply wlp_balance; [|intros w4 Hw4 _; by apply wlp_ret].
  eapply accounts_eq; [exact (Hw3 _ _ Hw2)|]. unfold handlers, settings, disconn_data. cbn.
  rewrite bind_app. cbn. rewrite app_nil_r. solve_Permutation.
Qed.

Lemma remove_if_perm {A} (f : A -> bool) l x k : remove_if f l = Some (x, k) -> l ≡ₚ x :: k.
Proof using Type.
  revert k. induction l as [|y l IH]; intros k; [done|]. cbn. destruct (f y); [by intros [= -> ->]|].
  destruct (remove_if f l) as [[z k']|]; [|done]. intros [= -> <-]. rewrite (IH k' eq_refl). apply perm_swap.
Qed.
Lemma preserves_unregister id : preserves balanced (bt_att_unregister client rec id).
Proof.
  intros w Hw. unfold bt_att_unregister. destruct (id =? 0); [by apply wlp_ret|].
  apply wlp_get_att. intros a Ha. pose proof Hw as Hb. rewrite (balanced_att w a Ha) in Hb.
  destruct (remove_if _ _) as [[h l]|] eqn:Hrm; [|by apply wlp_ret]. apply remove_if_perm in Hrm.
  apply wlp_bind. intros x w1 [= <- <-].
  eapply (wlp_told _ (set_notify_list a l) (handlers (set_notify_list a l) ++ settings a)); [done| |].
  - eapply accounts_eq; [exact Hb|]. unfold handlers, notify_data. cbn. rewrite Hrm. cbn. solve_Permutation.
  - intros w2 Ha2 Hw2. apply wlp_ret. by rewrite (balanced_att w2 _ Ha2).
Qed.
Lemma mark_removed_data id l : disconn_data (mark_removed id l) = disconn_data l.
Proof using Type.
  unfold disconn_data. induction l as [|[p d] l IH]; [done|]. cbn. destruct (_ =? _); cbn; [done|by rewrite IH].
Qed.
Lemma preserves_unregister_disconnect id : preserves balanced (bt_att_unregister_disconnect client rec id).
Proof.
  intros w Hw. unfold bt_att_unregister_disconnect. destruct (id =? 0); [by apply wlp_ret|].
  apply wlp_get_att. intros a Ha. pose proof Hw as Hb. rewrite (balanced_att w a Ha) in Hb.
  destruct (negb (has_io a)).
  - destruct (List.find _ _); [|by apply wlp_ret]. eapply wlp_balance; [|intros w1 Hw1 _; by apply wlp_ret].
    unfold handlers in *. cbn. by rewrite mark_removed_data.
  - destruct (remove_if _ _) as [[h l]|] eqn:Hrm; [|by apply wlp_ret]. apply remove_if_perm in Hrm.
    apply wlp_bind. intros x w1 [= <- <-].
    eapply (wlp_told _ (set_disconn_list a l) (handlers (set_disconn_list a l) ++ settings a)); [done| |].
    + eapply accounts_eq; [exact Hb|]. unfold handlers, disconn_data. cbn. rewrite Hrm. cbn. solve_Permutation.
    + intros w2 Ha2 Hw2. apply wlp_ret. by rewrite (balanced_att w2 _ Ha2).
Qed.

(** No handler is left. *)
Definition cleared (w : world) : Prop := balanced w /\ forall a, att w = Some a -> handlers a = [].
Lemma wlp_unregister_all w :
  balanced w -> wlp (bt_att_unregister_all client rec) (fun _ => cleared) w.
Proof.
  intros Hw. unfold bt_att_unregister_all. apply wlp_get_att. intros a Ha. rewrite (balanced_att w a Ha) in Hw.
  apply wlp_bind. intros x w1 [= <- <-]. set (a1 := set_notify_list a []).
  eapply (wlp_told_all (fun x => notify_callback x.2) _ a1 (disconn_data (disconn_list a) ++ settings a)); [done| |].
  { eapply accounts_eq; [exact Hw|]. unfold handlers, notify_data. solve_Permutation. }
  intros w2 Ha2 Hw2. apply wlp_get_att. intros b Hb. rewrite Ha2 in Hb. injection Hb as <-.
  apply wlp_bind. intros x w3 [= <- <-]. set (a2 := set_disconn_list a1 []).
  eapply (wlp_told_all (fun x => disconn_callback x.2) _ a2 (settings a)); [done|exact Hw2|].
  intros w4 Ha4 Hw4. apply wlp_ret. split; [by rewrite (balanced_att w4 _ Ha4)|].
  intros b Hb. rewrite Ha4 in Hb. by injection Hb as <-.
Qed.
Lemma preserves_unregister_all : preserves balanced (bt_att_unregister_all client rec).
Proof. intros w Hw. eapply wlp_mono; [|by apply wlp_unregister_all]. by intros x w' []. Qed.

(** *** The receive buffer *)

Lemma wlp_new_buf {B} data (k : buffer -> P B) Q w :
  (forall p w', att w' = att w -> (forall h b, accounts h b (log w) -> accounts h (p :: b) (log w')) ->
     wlp (k (Block p data)) Q w') ->
  wlp (b ← new_buf data; k b) Q w.
Proof using Type.
  intros Hk. apply wlp_bind. intros b w'. unfold new_buf. cbv [mbind M_bind fresh_addr emit modify mret M_ret].
  intros [= <- <-]. apply Hk; [done|]. intros h b. by apply accounts_alloc.
Qed.
Lemma wlp_free_buf {B} b (k : P B) Q w :
  (forall w', att w' = att w ->
     (forall h, accounts h (match b with Some b => [block_addr b] | None => [] end) (log w) -> accounts h [] (log w')) ->
     (forall h p, accounts h (p :: match b with Some b => [block_addr b] | None => [] end) (log w) -> accounts h [p] (log w')) ->
     wlp k Q w') ->
  wlp (free_buf b;; k) Q w.
Proof using Type.
  intros Hk. apply wlp_bind. intros x w'. destruct b as [b|]; cbn [free_buf].
  2:{ intros [= <- <-]. by apply Hk. }
  intros [= <- <-]. apply Hk; [done| |].
  - intros h. apply accounts_free.
  - intros h p (s & Hs & H1 & H2). apply (accounts_free _ h [p]). exists s. split_and!; [done..|].
    rewrite H2. apply perm_swap.
Qed.
Lemma preserves_set_mtu m : preserves balanced (bt_att_set_mtu malloc m).
Proof.
  pose proof frame_balanced as HI. intros w Hw. unfold bt_att_set_mtu. destruct (_ <? _); [by apply wlp_ret|].
  eapply wlp_then; [by apply preserves_outside|exact Hw|]. intros k w1 Hw1. destruct (malloc _ _) as [data|]; [|by apply wlp_ret].
  apply wlp_new_buf. intros p w2 Ha2 Hw2. apply wlp_get_att. intros a Ha. rewrite Ha2 in Ha.
  rewrite (balanced_att w1 a Ha) in Hw1. apply Hw2 in Hw1. apply wlp_free_buf. intros w3 _ _ Hw3. apply Hw3 in Hw1.
  eapply wlp_balance; [exact Hw1|]. intros w4 Hw4 _. by apply wlp_ret.
Qed.
Lemma preserves_store p d : preserves balanced (store p d).
Proof using Type.
  intros w Hw. unfold store. apply wlp_get_att. intros a Ha. rewrite (balanced_att w a Ha) in Hw.
  destruct (buf a) as [b|] eqn:Hb; [|by apply wlp_undef]. destruct (_ =? _); [|by apply wlp_undef].
  apply wlp_read; [apply reads_ub|]. intros d'. intros x w' [= <- <-]. unfold balanced, blocks in *. cbn. by rewrite Hb in Hw.
Qed.

(** *** The end of the transport *)

Lemma frame_cleared : frame cleared.
Proof using Type.
  intros w w' Hv Hb [H1 H2]. split; [by eapply frame_balanced|]. intros a' Ha'. rewrite Ha' in Hv.
  destruct (att w) as [a|]; [|done]. apply (inj Some) in Hv. unfold hview in Hv. unfold handlers.
  injection Hv as -> -> _ _ _. by apply H2.
Qed.
Lemma wlp_bt_att_free w : cleared w -> wlp (bt_att_free client rec) (fun _ => cleared) w.
Proof.
  pose proof frame_cleared as HI. intros Hw. unfold bt_att_free. apply wlp_get_att. intros a _.
  eapply wlp_then; [by apply preserves_destroy_opt|exact Hw|]. intros x1 w1 Hw1. apply wlp_get_att. intros a1 _.
  eapply wlp_then; [by apply preserves_destroy_opt|exact Hw1|]. intros x2 w2 Hw2.
  eapply (wlp_then (I := cleared)); [by apply preserves_cut_io|exact Hw2|]. intros x3 w3 Hw3.
  apply wlp_get_att. intros a3 _. eapply (wlp_then (I := cleared)); [|exact Hw3|]; [unfold when; framed|].
  intros x4 w4 [Hw4 Hc4]. apply wlp_get_att. intros a4 Ha4. rewrite (balanced_att w4 a4 Ha4), (Hc4 a4 Ha4) in Hw4.
  eapply wlp_told; [exact Ha4|exact Hw4|]. intros w5 Ha5 Hw5. apply wlp_get_att. intros b Hb.
  rewrite Ha5 in Hb. injection Hb as <-.
  eapply (wlp_told _ a4 []); [exact Ha5|by rewrite app_nil_r|]. intros w6 Ha6 Hw6. apply wlp_get_att. intros b Hb.
  rewrite Ha6 in Hb. injection Hb as <-. apply wlp_free_buf. intros w7 _ Hw7 _. apply Hw7 in Hw6.
  unfold free_att. apply wlp_get_att. intros b _ x w' [= <- <-]. split; [exact Hw6|]. by intros a'.
Qed.
Lemma preserves_unref : preserves balanced (bt_att_unref client rec).
Proof.
  pose proof frame_balanced as HI. pose proof frame_cleared as HC. intros w Hw. unfold bt_att_unref. apply wlp_get_att. intros a Ha.
  eapply (wlp_put a _ _ _ w HI); [done|done|done|]. intros w1 Hw1 _. destruct (negb _); [by apply wlp_ret|].
  apply wlp_bind. eapply wlp_mono; [|by apply wlp_unregister_all]. intros x w2 Hw2.
  eapply wlp_then; [by apply preserves_bt_att_cancel_all|exact Hw2|]. intros y w3 Hw3.
  eapply wlp_mono; [|by apply wlp_bt_att_free]. by intros z w' [].
Qed.
End books.
#[export] Hint Resolve frame_balanced frame_cleared preserves_set_debug preserves_set_timeout preserves_register
  preserves_register_disconnect preserves_unregister preserves_unregister_disconnect preserves_unregister_all
  preserves_set_mtu preserves_store preserves_unref : frames.

(** *** Steps *)

Section steps.
Context `{ENV : Env}.
Variable rec : att_call -> P unit.
Hypothesis Hrec : forall c, preserves balanced (rec c).

Lemma preserves_run_calls l : preserves balanced (run_calls rec l).
Proof using Hrec.
  induction l as [|c l IH]; intros w Hw; cbn [run_calls]; [by apply wlp_ret|]. by eapply wlp_then; [apply Hrec|..].
Qed.
Lemma preserves_call e : loud e = true -> preserves balanced (call client rec e).
Proof using Hrec.
  intros He w Hw. unfold call. apply (wlp_then (I := balanced)); [|exact Hw|].
  - apply preserves_emit; [apply frame_balanced|by destruct e].
  - intros _ w1 Hw1. apply wlp_read; [apply reads_gets|]. intros l. by apply preserves_run_calls.
Qed.
Lemma preserves_handle_notify m opcode pdu len :
  preserves balanced (handle_notify mainloop_modify malloc counter fails aes cmac client rec m opcode pdu len).
Proof using Hrec.
  pose proof frame_balanced as HI. pose proof (fun m => preserves_notify_loop balanced rec HI preserves_call m) as Hn.
  unfold handle_notify, handle_signed. framed.
Qed.
Lemma preserves_can_read m read :
  preserves balanced (can_read_data mainloop_modify malloc counter get_level set_level fails aes cmac client rec m read).
Proof using Hrec.
  pose proof frame_balanced as HI. pose proof (fun o => preserves_handle_rsp balanced rec HI preserves_call o) as H1.
  pose proof (preserves_handle_conf balanced rec HI preserves_call) as H2.
  pose proof preserves_handle_notify as H3. unfold can_read_data. framed.
Qed.
Lemma preserves_disconnect err : preserves balanced (disconnect_cb client rec err).
Proof using Hrec.
  pose proof frame_balanced as HI. pose proof (preserves_disc_op balanced rec HI preserves_call) as H1.
  pose proof (preserves_disc_opt balanced rec HI preserves_call) as H2.
  pose proof (fun l => preserves_disconn_foreach balanced rec HI preserves_call l) as H3. unfold disconnect_cb. framed.
Qed.
Lemma preserves_do_call c : preserves balanced (do_call mainloop_modify malloc counter set_level fails aes cmac client rec c).
Proof using Type.
  pose proof frame_balanced as HI. destruct c; cbn [do_call];
    unfold bt_att_set_security, bt_att_set_local_key, bt_att_set_remote_key, bt_att_set_close_on_unref, io_set_close_on_destroy;
    unfold on_io; framed.
Qed.
End steps.

Lemma preserves_calls `{ENV : Env} n c : preserves balanced (calls n c).
Proof.
  revert c. induction n as [|n IH]; intros c w Hw; [by apply wlp_undef|]. by apply preserves_do_call.
Qed.

(** *** A new transport *)

(** Nothing is given to the transport yet. *)
Definition empty_handed (w : world) : Prop :=
  accounts [] [] (log w) /\ forall a, att w = Some a -> hview a = ([], [], None, None, None).
Lemma frame_empty : frame empty_handed.
Proof.
  intros w w' Hv Hb [H1 H2]. split; [unfold accounts in *; by rewrite Hb|]. intros a' Ha'. rewrite Ha' in Hv.
  destruct (att w) as [a|]; [|done]. apply (inj Some) in Hv. rewrite Hv. by apply H2.
Qed.
Lemma empty_cleared w : empty_handed w -> cleared w.
Proof.
  intros [H1 H2]. split.
  - unfold balanced. destruct (att w) as [a|]; [|done]. specialize (H2 a eq_refl).
    unfold hview in H2. unfold handlers, settings, blocks. by injection H2 as -> -> -> -> ->.
  - intros a Ha. specialize (H2 a Ha). unfold hview in H2. unfold handlers. by injection H2 as -> -> _ _ _.
Qed.
Lemma preserves_put_empty a : hview a = ([], [], None, None, None) -> preserves empty_handed (put_att a).
Proof. intros Hv w [H1 H2] x w' [= <- <-]. split; [done|]. intros a' Ha'. by injection Ha' as <-. Qed.

Lemma wlp_new `{ENV : Env} n mainloop_add fd ext_signed domain proto omtu address w :
  empty_handed w ->
  wlp (bt_att_new mainloop_modify malloc counter set_level fails aes cmac client n mainloop_add fd ext_signed domain proto omtu address)
    (fun _ => balanced) w.
Proof.
  pose proof frame_empty as HI. intros Hw. unfold bt_att_new. cbv zeta.
  assert (forall w', empty_handed w' -> wlp (bt_att_free client (run_call mainloop_modify malloc counter set_level fails aes cmac client n);;
    mret false) (fun _ => balanced) w') as Hfail.
  { intros w' Hw'. apply wlp_bind. eapply wlp_mono; [|by apply wlp_bt_att_free, empty_cleared]. intros x w1 [H1 _]. by apply wlp_ret. }
  destruct (fd <? 0); [by apply wlp_ret, empty_cleared|].
  destruct (io_new _ _) as [i|].
  2:{ apply (wlp_then (I := empty_handed)); [by apply preserves_put_empty|exact Hw|]. intros x w1. apply Hfail. }
  apply (wlp_then (I := empty_handed)); [by apply preserves_modify|exact Hw|]. intros x1 w1 Hw1.
  apply (wlp_cut (I := empty_handed)); [frame|]. intros crypto w2 Hw2.
  apply (wlp_then (I := empty_handed)); [by apply preserves_put_empty|exact Hw2|]. intros x3 w3 Hw3.
  unfold io_set_read_handler, io_set_disconnect_handler.
  apply (wlp_then (I := empty_handed)); [auto with frames|exact Hw3|]. intros x4 w4 Hw4. destruct (negb x4); [by apply Hfail|].
  apply (wlp_then (I := empty_handed)); [auto with frames|exact Hw4|]. intros x5 w5 Hw5. destruct (negb x5); [by apply Hfail|].
  apply (wlp_then (I := empty_handed)); [by apply preserves_put_empty|exact Hw5|]. intros x6 w6 Hw6.
  unfold bt_att_get_link_type. apply (wlp_cut (I := empty_handed)); [frame|]. intros link w7 Hw7.
  apply (wlp_then (I := empty_handed)); [by apply preserves_put_empty|exact Hw7|]. intros x8 w8 Hw8.
  match goal with |- context [?x <? BT_ATT_DEFAULT_LE_MTU] => destruct (x <? BT_ATT_DEFAULT_LE_MTU) end; [by apply Hfail|].
  apply (wlp_then (I := empty_handed)); [auto with frames|exact Hw8|]. intros k w9 Hw9.
  destruct (malloc _ _) as [data|]; [|by apply Hfail]. apply wlp_new_buf. intros p w10 _ Hacc.
  destruct Hw9 as [Hw9 _]. apply Hacc in Hw9. eapply wlp_balance; [exact Hw9|]. intros w11 Hw11 _.
  eapply (wlp_then (I := balanced)); [apply preserves_bt_att_ref, frame_balanced|exact Hw11|]. intros y w12 Hw12. by apply wlp_ret.
Qed.

(** *** Events of the descriptor *)

Lemma preserves_att_event `{ENV : Env} n read writev err ev :
  preserves balanced (att_event mainloop_modify timer_ok malloc counter get_level set_level fails aes cmac client n
                        read writev err ev).
Proof.
  pose proof frame_balanced as HI. pose proof (fun m r => preserves_can_read (calls n) (preserves_calls n) m r) as H1.
  pose proof (preserves_can_write balanced (calls n) HI (preserves_call (calls n) (preserves_calls n))) as H2.
  pose proof (preserves_disconnect (calls n) (preserves_calls n)) as H3. unfold calls in *.
  unfold att_event, io_callback, dispatch, mainloop_remove_fd. framed.
Qed.

(** ** The receive buffer

    What a pointer points to while the transport does not change its buffer. *)
Definition readable (pdu : Z * Z) (len : Z) (d : bytes) (w : world) : Prop := exists a b,
  att w = Some a /\ buf a = Some b /\ block_addr b = pdu.1 /\ ld (block_data b) pdu.2 len = Some d.
Lemma frame_readable pdu len d : frame (readable pdu len d).
Proof.
  intros w w' Hv _ (a & b & Ha & Hb & H). rewrite Ha in Hv. destruct (att w') as [a'|] eqn:Ha'; [|done].
  apply (inj Some) in Hv. unfold hview in Hv. exists a', b. split_and!; [done|congruence|apply H..].
Qed.
Lemma wp_load pdu len d Q w : readable pdu len d w -> Q d w -> wp (load pdu len) Q w.
Proof.
  intros (a & b & Ha & Hb & Hp & Hd) HQ. unfold load. apply wp_bind. eapply wp_get_some; [exact Ha|].
  rewrite Hb, Hp, Z.eqb_refl, Hd. by exists d, w.
Qed.
Lemma load_gone pdu len w : (forall d, ~ readable pdu len d w) -> load pdu len w = None.
Proof.
  intros Hn. unfold load. cbv [mbind M_bind]. unfold get_att, get_some. destruct (att w) as [a|] eqn:Ha; [|done].
  destruct (buf a) as [b|] eqn:Hb; [|done]. destruct (Z.eqb_spec (block_addr b) pdu.1) as [Hp|]; [|done].
  unfold of_ub. destruct (ld _ _ _) as [d|] eqn:Hd; [|done]. exfalso. apply (Hn d). by exists a, b.
Qed.

(** The callback of a handler that does not change the MTU leaves the buffer alone. *)
Lemma preserves_small_call `{ENV : Env} I n id opcode d u :
  frame I -> resizes opcode = false -> preserves I (call client (calls (S n)) (EvNotify id opcode d u)).
Proof.
  intros HI Hr w Hw. unfold call. apply wlp_bind. intros x w' [= <- <-]. set (w1 := World _ _ _ _ _ _ _ _).
  assert (I w1) as Hw1 by (apply (HI w); [done|by apply books_unbooked|done]).
  apply wlp_bind. intros l w' [= <- <-]. pose proof (client_nice (log w) (EvNotify id opcode d u)) as Hc. cbn [loud] in Hc.
  change (log w1) with (log w ++ [EvNotify id opcode d u]). clearbody w1. revert w1 Hw1.
  induction Hc as [|c l Hc _ IH]; intros w1 Hw1; cbn [run_calls]; [by apply wlp_ret|].
  eapply (wlp_then (I := I)); [|exact Hw1|intros y w2; apply IH].
  destruct c; try done; cbn [may_call] in Hc; try (cbn [calls run_call do_call]; framed). by destruct Hc; congruence.
Qed.
