(* ===== verification/AttRun.v ===== *)
(** What the transport does with what it receives, writes and waits for keeps the invariant
    of AttTrace.v. *)
From Stdlib Require Import ZArith Lia.
From S2P Require Import Prelude Blocks StateM Io Crypto CryptoSpec Att AttTrace AttSpec AttFrame.
From stdpp Require Import base numbers list option gmap.

Local Open Scope Z_scope.

(** What the functions do not change. *)
Definition strip2 (a : bt_att) :=
  (ref_count a, fd a, has_io a, notify_list a, disconn_list a, has_crypto a).
Definition keeps2 (w w' : world) : Prop :=
  strip2 <$> att w' = strip2 <$> att w /\ istrip <$> att_io w' = istrip <$> att_io w /\
  exists k, log w' = log w ++ k.

Lemma keeps_weaken w w' : keeps w w' -> keeps2 w w'.
Proof.
  intros (H1 & H2 & [H3 _ _ _]). split_and!; [|done..].
  destruct (att w) as [a|], (att w') as [a'|]; try done.
  apply (inj Some) in H1. apply (f_equal Some). unfold strip in H1. unfold strip2. congruence.
Qed.
Lemma keeps2_refl w : keeps2 w w.
Proof. apply keeps_weaken, keeps_refl. Qed.
Lemma keeps2_trans w1 w2 w3 : keeps2 w1 w2 -> keeps2 w2 w3 -> keeps2 w1 w3.
Proof.
  intros (H1 & H2 & k1 & H3) (H4 & H5 & k2 & H6). split_and!; [congruence..|].
  exists (k1 ++ k2). by rewrite H6, H3, app_assoc.
Qed.
Lemma keeps2_att w a a' : att w = Some a -> strip2 a' = strip2 a ->
  keeps2 w (World (Some a') (ops w) (att_io w) (timers w) (next_addr w) (cw w) (tick w) (log w)).
Proof.
  intros Ha Hs. split_and!; [|done|exists []; by rewrite app_nil_r]. cbn [att]. rewrite Ha. by apply (f_equal Some).
Qed.

(** Nothing is in the hands of a function. *)
Definition calm {A} (w : world) : A -> world -> Prop := fun _ w' => inv [] [] w' /\ keeps2 w w'.

Lemma calm_stays {A} w (x : A) w' : stays [] [] w x w' -> calm w x w'.
Proof. intros (H1 & H2). split; [done|by apply keeps_weaken]. Qed.
Lemma calm_refl {A} w (x : A) : inv [] [] w -> calm w x w.
Proof. intros H. by apply calm_stays, stays_refl. Qed.
Lemma wp_calm {A} (e : P A) w : wp e (stays [] [] w) w -> wp e (calm w) w.
Proof. apply wp_mono, calm_stays. Qed.
Lemma wp_calm_then {A B} (e : P A) (f : A -> P B) w :
  wp e (calm w) w ->
  (forall x w', inv [] [] w' -> keeps2 w w' -> wp (f x) (calm w') w') ->
  wp (x ← e; f x) (calm w) w.
Proof.
  intros He Hf. apply wp_bind. eapply wp_mono; [|exact He]. intros x w1 (H1 & H2).
  eapply wp_mono; [|by apply Hf]. intros y w2 (H3 & H4). split; [done|by eapply keeps2_trans].
Qed.

(** The transport after a change that keeps the operations. *)
Lemma inv_set X S w a a' :
  inv X S w -> att w = Some a -> same_ops a a' -> has_io a' = has_io a -> has_crypto a' = has_crypto a ->
  (att_ok a -> att_ok a') -> (space a (next_addr w) -> space a' (next_addr w)) ->
  inv X S (World (Some a') (ops w) (att_io w) (timers w) (next_addr w) (cw w) (tick w) (log w)).
Proof.
  intros (b & Hb & Hc & Hn & [O1 O2 O3]) Ha Hs Hio Hcr Hok Hsp. rewrite Ha in Hb. injection Hb as <-.
  exists a'. split_and!; [done|by eapply core_same|by apply Hsp|]. constructor; cbn; [by apply Hok| |].
  - by rewrite Hio.
  - by rewrite Hcr.
Qed.

Lemma inv_some X S w : inv X S w -> exists a, att w = Some a.
Proof. intros (a & Ha & _). eauto. Qed.
Lemma inv_op X S w a p : inv X S w -> att w = Some a -> p ∈ X ++ addrs a -> exists o, ops w !! p = Some o.
Proof.
  intros (b & Hb & (Hh & _) & _) Ha Hp. rewrite Ha in Hb. injection Hb as <-. by apply (h_dom _ _ _ _ Hh).
Qed.
Lemma inv_nodup X S w a : inv X S w -> att w = Some a -> NoDup (addrs a).
Proof.
  intros (b & Hb & (Hh & _) & _) Ha. rewrite Ha in Hb. injection Hb as <-.
  by apply (h_nodup _ _ _ _), NoDup_app in Hh as (_ & _ & Hh).
Qed.
Lemma inv_gone X S w p o :
  inv (p :: X) (p :: S) w -> ops w !! p = Some o -> inv X S (destroyed w p o).
Proof.
  intros Hw Ho. destruct (inv_destroyed X (p :: S) w p o Hw Ho) as (H & _); [left; apply elem_of_cons; by left|].
  eapply inv_forget; [exact H|]. cbn. intros u Hu. by rewrite lookup_delete_eq in Hu.
Qed.

Lemma taken_pending_req a p : NoDup (addrs a) -> pending_req a = Some p -> taken a (set_pending_req a None) p.
Proof.
  intros Hnd Hp. destruct (nodup_parts p _ _ _ Hnd) as (Hx & _).
  assert (req_addrs a = [] ++ p :: req_queue a) as Hr by (unfold req_addrs; by rewrite Hp).
  destruct Hx as (Hp1 & Hp2); [rewrite Hr; set_solver|]. apply NoDup_app in Hnd as (Hnd & _).
  constructor; try done.
  - unfold addrs. rewrite Hr. set_solver.
  - rewrite Hr, without_mid by (by rewrite <- Hr). done.
  - by rewrite without_none.
  - by rewrite without_none.
Qed.
Lemma taken_pending_ind a p : NoDup (addrs a) -> pending_ind a = Some p -> taken a (set_pending_ind a None) p.
Proof.
  intros Hnd Hp. destruct (nodup_parts p _ _ _ Hnd) as (_ & Hx & _).
  assert (ind_addrs a = [] ++ p :: ind_queue a) as Hr by (unfold ind_addrs; by rewrite Hp).
  destruct Hx as (Hp1 & Hp2); [rewrite Hr; set_solver|].
  apply NoDup_app in Hnd as (_ & _ & (Hnd & _)%NoDup_app).
  constructor; try done.
  - unfold addrs. rewrite Hr. set_solver.
  - by rewrite without_none.
  - rewrite Hr, without_mid by (by rewrite <- Hr). done.
  - by rewrite without_none.
Qed.

(** An operation taken from the head of a queue. *)
Lemma view_skip type O p q : (forall o, O !! p = Some o -> unanswered type [] p o = None) ->
  oview (unanswered type []) O (p :: q) = oview (unanswered type []) O q.
Proof. intros H. unfold oview. cbn. destruct (O !! p) as [o|]; cbn; [by rewrite H|done]. Qed.

Lemma core_pop a a' O tm N L p :
  core [] [] a O tm N L -> addrs a ≡ₚ p :: addrs a' -> next_send_id a' = next_send_id a ->
  req_addrs a' ⊆ req_addrs a -> ind_addrs a' ⊆ ind_addrs a -> queued a' ⊆ queued a ->
  write_queue a' ⊆ write_queue a ->
  oview (unanswered ATT_OP_TYPE_REQ []) O (req_addrs a) =
    oview (unanswered ATT_OP_TYPE_REQ []) O (p :: req_addrs a') ->
  oview (unanswered ATT_OP_TYPE_IND []) O (ind_addrs a) =
    oview (unanswered ATT_OP_TYPE_IND []) O (p :: ind_addrs a') ->
  core [p] [] a' O tm N L.
Proof.
  intros Hc Hp Hn Hr Hi Hq Hw Vr Vi. pose proof Hc as ([H1 H2 H3 H4 H5 H6 H7 H8] & _).
  eapply core_move; [exact Hc|done|done| | | | |].
  - intros x o Hx. apply H4. by apply Hr.
  - intros x o Hx. apply H5. by apply Hi.
  - intros x o Hx. apply H7. by apply Hq.
  - intros x o Hx. apply H8. by apply Hw.
  - intros d _. change ([] ++ ?l) with l. change ([p] ++ ?l) with (p :: l). rewrite Vr, Vi.
    split; apply ord_same.
Qed.

Section run.
Context `{ENV : Env}.
Variable n : nat.
Abbreviation rec := (calls (Datatypes.S n)).

Lemma wp_respond X w a p o opcode pdu :
  inv X [] w -> att w = Some a -> ops w !! p = Some o ->
  (op_callback o = true -> next_up X a (log w) p o) ->
  wp (respond client rec p opcode pdu) (fun _ w' => inv X [p] w' /\ keeps w w') w.
Proof.
  intros Hw Ha Ho Hn. unfold respond. apply wp_bind, (wp_get_op p o); [done|].
  pose proof Hw as (b & Hb & Hc & HN & O). rewrite Ha in Hb. injection Hb as <-.
  destruct (op_callback o) eqn:Hcb.
  - apply wp_when_true. apply wp_client; [done|]. exists a. split_and!; try done. cbn.
    apply core_response; [done..|set_solver|by apply Hn].
  - apply wp_when_false. split; [|apply keeps_refl]. exists a. split_and!; try done. by eapply core_mark.
Qed.

(** A pending operation that was answered is released. *)
Lemma wp_release {A} w a p f (k : P A) Q :
  inv [] [p] w -> att w = Some a -> taken a (f a) p -> strip2 (f a) = strip2 a ->
  (forall w', inv [] [] w' -> keeps2 w w' -> wp k Q w') ->
  wp (destroy_att_send_op client rec p;; a ← get_att; put_att (f a);; k) Q w.
Proof.
  intros Hw Ha Htk Hs HQ. destruct (inv_op [] [p] w a p Hw Ha) as (o & Ho); [apply Htk|].
  apply wp_bind. eapply wp_destroy_op; [apply client_nice|by eapply inv_timers|exact Ho|].
  apply wp_bind, (wp_get_att a); [done|]. apply wp_bind, wp_modify. unfold destroyed. cbn.
  assert (p ∈ [p]) as Hp by (apply elem_of_cons; by left).
  pose proof (inv_take [] [p] w a (f a) p Hw Ha Htk Hp) as Ht. apply HQ.
  - exact (inv_gone [] [] _ p o Ht Ho).
  - split_and!; cbn; [rewrite Ha; by apply (f_equal Some)|done|by eexists].
Qed.

(** The end of a pending operation of either kind. *)
Lemma wp_end_pending w a p f opcode pdu :
  inv [] [] w -> att w = Some a -> p ∈ addrs a ->
  (forall o, ops w !! p = Some o -> next_up [] a (log w) p o) ->
  (forall a', strip a' = strip a -> NoDup (addrs a') -> taken a' (f a') p /\ strip2 (f a') = strip2 a') ->
  wp (respond client rec p opcode pdu;; destroy_att_send_op client rec p;;
      a ← get_att; put_att (f a);; wakeup_writer mainloop_modify) (calm w) w.
Proof.
  intros Hw Ha Hp Hn Hf. destruct (inv_op [] [] w a p Hw Ha Hp) as (o & Ho).
  apply wp_bind. eapply wp_mono; [|eapply wp_respond; [exact Hw|exact Ha|exact Ho|by intros; apply Hn]].
  intros x1 w1 (Hw1 & Hk1). destruct (inv_some _ _ _ Hw1) as (a1 & Ha1).
  assert (strip a1 = strip a) as Hs1.
  { destruct Hk1 as (H1 & _). rewrite Ha, Ha1 in H1. by apply (inj Some) in H1. }
  destruct (Hf a1 Hs1) as (Htk & Hs2); [by eapply inv_nodup|].
  eapply (wp_release w1 a1 p f); [done..|]. intros w2 Hw2 Hk2.
  eapply wp_mono; [|by apply wp_wake]. intros x3 w3 (Hw3 & Hk3). split; [done|].
  eapply keeps2_trans; [by apply keeps_weaken|]. eapply keeps2_trans; [done|]. by apply keeps_weaken.
Qed.

Lemma pending_strip a a' : strip a' = strip a -> pending_req a' = pending_req a /\ pending_ind a' = pending_ind a.
Proof. unfold strip. intros H. split; congruence. Qed.

Lemma wp_end_request w a p opcode pdu :
  inv [] [] w -> att w = Some a -> pending_req a = Some p ->
  wp (end_request mainloop_modify client rec p opcode pdu) (calm w) w.
Proof.
  intros Hw Ha Hp. assert (p ∈ req_addrs a) as Hpa by (unfold req_addrs; rewrite Hp; apply elem_of_cons; by left).
  eapply (wp_end_pending w a p (fun a => set_pending_req a None)); [done|done|unfold addrs; set_solver| |].
  - intros o Ho. left. destruct Hw as (b & Hb & (Hh & _) & _). rewrite Ha in Hb. injection Hb as <-.
    split; [by eapply (h_req _ _ _ _ Hh)|]. unfold req_addrs. by rewrite Hp.
  - intros a' (H1 & _)%pending_strip Hnd. split; [|done]. apply taken_pending_req; [done|by rewrite H1].
Qed.

Lemma wp_shutdown X S w : inv X S w -> wp shutdown_io (stays X S w) w.
Proof.
  intros Hw. unfold shutdown_io. apply (wp_stays X S).
  - pose proof Hw as (a & Ha & _ & _ & O). unfold on_io. apply wp_bind, (wp_get_att a); [done|].
    destruct (has_io a) eqn:Hio; [|by apply wp_ret, stays_refl].
    destruct (o_io _ _ _ O Hio) as (i & Hi & _). unfold io_shutdown. apply wp_bind.
    eapply wp_get_some; [exact Hi|]. destruct (_ <? 0); by apply wp_ret, stays_refl.
  - intros _ w1 Hw1 _. apply wp_event. by apply inv_log.
Qed.

(** A confirmation. *)
Lemma wp_handle_conf w len :
  inv [] [] w -> wp (handle_conf mainloop_modify client rec len) (calm w) w.
Proof.
  intros Hw. destruct (inv_some _ _ _ Hw) as (a & Ha). unfold handle_conf.
  apply wp_bind, (wp_get_att a); [done|].
  destruct (pending_ind a) as [p|] eqn:Hp; [|by apply wp_calm, wp_shutdown].
  destruct (negb (len =? 0)); [by apply wp_calm, wp_shutdown|].
  assert (p ∈ ind_addrs a) as Hpa by (unfold ind_addrs; rewrite Hp; apply elem_of_cons; by left).
  eapply (wp_end_pending w a p (fun a => set_pending_ind a None)); [done|done|unfold addrs; set_solver| |].
  - intros o Ho. right. left. destruct Hw as (b & Hb & (Hh & _) & _). rewrite Ha in Hb. injection Hb as <-.
    split; [by eapply (h_ind _ _ _ _ Hh)|]. unfold ind_addrs. by rewrite Hp.
  - intros a' (_ & H1)%pending_strip Hnd. split; [|done]. apply taken_pending_ind; [done|by rewrite H1].
Qed.

(** *** Responses *)

Lemma wp_get_security w a X S Q :
  inv X S w -> att w = Some a ->
  (forall l t, Q l (world_with w (cw w) t)) -> wp (bt_att_get_security get_level) Q w.
Proof.
  intros Hw Ha HQ. unfold bt_att_get_security. apply wp_bind, (wp_get_att a); [done|].
  assert (forall l, Q l w) as HQ0 by (intros l; destruct w; apply HQ).
  destruct (negb _); [by apply wp_ret|]. apply wp_bind, wp_outside. destruct (get_level _); apply wp_ret, HQ.
Qed.

Lemma wp_set_security X S w l : inv X S w -> wp (bt_att_set_security set_level l) (stays X S w) w.
Proof.
  intros Hw. destruct (inv_some _ _ _ Hw) as (a & Ha). unfold bt_att_set_security.
  destruct (_ || _); [by apply wp_ret, stays_refl|]. apply wp_bind, (wp_get_att a); [done|].
  destruct (negb _).
  - apply wp_bind, wp_modify, wp_ret. eapply inv_att; [done..|].
    destruct Hw as (b & Hb & _ & _ & O). rewrite Ha in Hb. injection Hb as <-. apply O.
  - apply wp_bind, wp_outside, wp_ret. eapply (inv_tick X S w (cw w)); [done|].
    intros b Hb. by eapply inv_ready.
Qed.

Lemma wp_change_security X S w ecode : inv X S w -> wp (change_security get_level set_level ecode) (stays X S w) w.
Proof.
  intros Hw. destruct (inv_some _ _ _ Hw) as (a & Ha). unfold change_security.
  apply wp_bind, (wp_get_att a); [done|]. destruct (negb _); [by apply wp_ret, stays_refl|].
  apply wp_bind. eapply wp_get_security; [done..|]. intros l t. cbv zeta.
  assert (@stays unit X S w tt (world_with w (cw w) t)) as (Hw1 & Hk1).
  { apply (inv_tick X S w (cw w)); [done|]. intros b Hb. by eapply inv_ready. }
  match goal with |- wp (match ?x with _ => _ end) _ _ => destruct x as [l'|] end.
  - eapply wp_mono; [|by apply wp_set_security]. intros r w2 (Hw2 & Hk2). split; [done|]. exact (keeps_trans _ _ _ Hk1 Hk2).
  - by apply wp_ret.
Qed.

(** Sending the request again, or the opcode of the error. *)
Lemma wp_handle_error_rsp w a p pdu len d :
  inv [] [] w -> att w = Some a -> pending_req a = Some p -> readable pdu len d w ->
  wp (handle_error_rsp get_level set_level p pdu len)
    (fun r w' => if fst r : bool then calm w r w' else stays [] [] w r w') w.
Proof.
  intros Hw Ha Hp Hd. unfold handle_error_rsp.
  assert (wp (mret (false, 0)) (fun r w' => if fst r : bool then calm w r w' else stays [] [] w r w') w) as Hno.
  { apply wp_ret. cbn [fst]. by apply stays_refl. }
  destruct (Z.eqb_spec len 4) as [->|]; [|exact Hno]. apply wp_bind. eapply wp_load; [exact Hd|].
  destruct Hd as (_ & _ & _ & _ & _ & Hd%ld_length).
  destruct d as [|op [|h1 [|h2 [|ecode [|x l]]]]]; unfold zlen in Hd; cbn in Hd; try lia.
  apply wp_bind. eapply wp_mono; [|by apply wp_change_security]. intros retry w1 (Hw1 & Hk1).
  destruct retry; [|by apply wp_ret]. cbn [negb].
  destruct (inv_some _ _ _ Hw1) as (a1 & Ha1).
  assert (strip a1 = strip a) as Hs1.
  { destruct Hk1 as (H1 & _). rewrite Ha, Ha1 in H1. by apply (inj Some) in H1. }
  destruct (pending_strip _ _ Hs1) as (Hp1 & _). rewrite Hp in Hp1.
  assert (p ∈ req_addrs a1) as Hpa by (unfold req_addrs; rewrite Hp1; apply elem_of_cons; by left).
  destruct (inv_op [] [] w1 a1 p Hw1 Ha1) as (o & Ho); [unfold addrs; set_solver|].
  apply wp_bind, (wp_get_op p o); [done|]. apply wp_bind, wp_timeout_remove; [by eapply inv_timers|].
  apply wp_bind, wp_put_op. apply wp_bind, (wp_get_att a1); [done|]. apply wp_bind, wp_modify, wp_ret.
  cbn [fst]. destruct Hw1 as (b & Hb & Hc & HN & [O1 O2 O3]). rewrite Ha1 in Hb. injection Hb as <-.
  assert (p ∉ queued a1) as Hq.
  { destruct Hc as (Hh & _). apply h_nodup in Hh. cbn in Hh. unfold addrs, req_addrs in Hh. rewrite Hp1 in Hh.
    cbn in Hh. apply NoDup_cons in Hh as (Hh & _). unfold queued. intros H. apply Hh.
    unfold ind_addrs. rewrite !elem_of_app in *. tauto. }
  split; [|eapply keeps2_trans; [by apply keeps_weaken|]; by apply (keeps2_att w1 a1)].
  eexists. split_and!; [reflexivity| |by destruct HN|by constructor].
  apply (core_move [] [] [] a1); [by eapply core_stop_timer| |done|..]; unfold addrs, req_addrs, ind_addrs; cbn; rewrite ?Hp1; cbn.
  - done.
  - intros q u Hqu Hu. pose proof (core_stop_timer _ _ _ _ _ _ _ _ _ Hc Ho Hq) as (Hh & _).
    eapply (h_req _ _ _ _ Hh); [|done]. unfold req_addrs. by rewrite Hp1.
  - intros q u Hqu Hu. pose proof (core_stop_timer _ _ _ _ _ _ _ _ _ Hc Ho Hq) as (Hh & _).
    by eapply (h_ind _ _ _ _ Hh).
  - intros q u Hqu Hu. pose proof (core_stop_timer _ _ _ _ _ _ _ _ _ Hc Ho Hq) as (Hh & _).
    unfold queued in Hqu. cbn in Hqu. apply elem_of_cons in Hqu as [->|Hqu].
    + rewrite lookup_insert_eq in Hu. by injection Hu as <-.
    + by eapply (h_wait _ _ _ _ Hh).
  - intros q u Hqu Hu. pose proof (core_stop_timer _ _ _ _ _ _ _ _ _ Hc Ho Hq) as (Hh & _).
    by eapply (h_write _ _ _ _ Hh).
  - intros d _. split; apply ord_same.
Qed.

Lemma keeps_pending w w' a : keeps w w' -> att w = Some a ->
  exists a', att w' = Some a' /\ strip a' = strip a.
Proof.
  intros (H1 & _) Ha. rewrite Ha in H1. destruct (att w') as [a'|]; [|done]. exists a'. split; [done|].
  by apply (inj Some) in H1.
Qed.

Lemma wp_handle_rsp w opcode pdu len d :
  inv [] [] w -> readable pdu len d w ->
  wp (handle_rsp mainloop_modify get_level set_level client rec opcode pdu len) (calm w) w.
Proof.
  intros Hw Hd. destruct (inv_some _ _ _ Hw) as (a & Ha). unfold handle_rsp.
  apply wp_bind, (wp_get_att a); [done|].
  destruct (pending_req a) as [p|] eqn:Hp; [|by apply wp_calm, wp_shutdown].
  assert (wp (if opcode =? BT_ATT_OP_ERROR_RSP then handle_error_rsp get_level set_level p pdu len
              else mret (false, get_req_opcode opcode))
    (fun r w' => (if fst r : bool then calm w r w' else stays [] [] w r w') /\ readable pdu len d w') w) as He.
  { destruct (opcode =? BT_ATT_OP_ERROR_RSP).
    - apply wp_preserved; [by eapply wp_handle_error_rsp|by apply preserves_error_rsp, frame_readable|exact Hd].
    - apply wp_ret. cbn [fst]. split; [by apply stays_refl|exact Hd]. }
  apply wp_bind. eapply wp_mono; [|exact He]. intros [[] req_opcode] w1; cbn [fst].
  - intros ((Hw1 & Hk1) & _). eapply wp_mono; [|by apply wp_wake]. intros x w2 (Hw2 & Hk2). split; [done|].
    eapply keeps2_trans; [done|]. by apply keeps_weaken.
  - intros ((Hw1 & Hk1) & Hd1). destruct (keeps_pending _ _ _ Hk1 Ha) as (a1 & Ha1 & (Hp1 & _)%pending_strip).
    rewrite Hp in Hp1. destruct (inv_op [] [] w1 a1 p Hw1 Ha1) as (o & Ho).
    { unfold addrs, req_addrs. rewrite Hp1. apply elem_of_cons. by left. }
    apply wp_bind, (wp_get_op p o); [done|].
    assert (forall opc x, wp (end_request mainloop_modify client rec p opc x) (calm w) w1) as Hend.
    { intros opc x. eapply wp_mono; [|by eapply wp_end_request]. intros y w2 (Hw2 & Hk2). split; [done|].
      eapply keeps2_trans; [by apply keeps_weaken|done]. }
    destruct (_ || _); [apply Hend|]. apply wp_bind. unfold response_pdu. destruct (0 <? len); [|by apply wp_ret].
    apply wp_bind. eapply wp_load; [exact Hd1|]. apply wp_ret, Hend.
Qed.

(** *** Handlers *)

Lemma entry_at_mid {A} (l k : list (Z * A)) p v :
  NoDup ((l ++ (p, v) :: k).*1) -> entry_at (l ++ (p, v) :: k) p = Some (v, fst <$> head k).
Proof.
  induction l as [|[x u] l IH]; cbn; [by rewrite Z.eqb_refl|].
  intros (Hx & Hnd)%NoDup_cons. rewrite (proj2 (Z.eqb_neq _ _)); [by apply IH|].
  intros ->. apply Hx. rewrite fmap_app. cbn. set_solver.
Qed.

(** The handlers an opcode is for. *)
Definition matches (opcode : Z) (l : list (Z * att_notify)) : list (Z * att_notify) :=
  filter (fun x => opcode_match (notify_opcode x.2) opcode = true) l.
(** At most one of them when it may change the MTU. *)
Definition lonely (opcode : Z) (l : list (Z * att_notify)) : Prop :=
  resizes opcode = true -> (length (matches opcode l) <= 1)%nat.

Lemma matches_no opcode x l : opcode_match (notify_opcode x.2) opcode = false -> matches opcode (x :: l) = matches opcode l.
Proof using Type. intros H. unfold matches. cbn. case_decide; [congruence|done]. Qed.
Lemma matches_yes opcode x l : opcode_match (notify_opcode x.2) opcode = true -> matches opcode (x :: l) = x :: matches opcode l.
Proof using Type. intros H. unfold matches. cbn. by case_decide. Qed.

Lemma wp_notify_loop m opcode pdu len d : forall l1 l2 found w a,
  inv [] [] w -> att w = Some a -> notify_list a = l1 ++ l2 -> (length l2 <= m)%nat ->
  (readable pdu len d w /\ lonely opcode l2) \/ matches opcode l2 = [] ->
  wp (notify_loop client rec m (fst <$> head l2) opcode pdu len found) (stays [] [] w) w.
Proof.
  induction m as [|m IH]; intros l1 l2 found w a Hw Ha Hl Hm Hd.
  - destruct l2; [|cbn in Hm; lia]. by apply wp_ret, stays_refl.
  - destruct l2 as [|[p v] l2]; [by apply wp_ret, stays_refl|]. cbn [notify_loop head fmap option_fmap option_map fst].
    apply wp_bind, (wp_get_att a); [done|].
    assert (NoDup (notify_list a).*1) as Hnd.
    { destruct Hw as (b & Hb & _ & Hs & _). rewrite Ha in Hb. injection Hb as <-. by destruct Hs as [_ [] _]. }
    rewrite Hl in Hnd |- *. rewrite entry_at_mid by done.
    assert (l1 ++ (p, v) :: l2 = (l1 ++ [(p, v)]) ++ l2) as Hsplit by (by rewrite <- app_assoc).
    cbn in Hm. destruct (opcode_match (notify_opcode v) opcode) eqn:Hom; cbn [negb].
    + unfold lonely in Hd. rewrite (matches_yes _ (p, v)) in Hd by done. destruct Hd as [[Hd Hone]|]; [|done]. cbn in Hone.
      apply wp_bind. eapply wp_load; [exact Hd|]. apply wp_bind.
      eapply (wp_mono _ (fun x w' => stays [] [] w x w' /\ (resizes opcode = false -> readable pdu len d w'))).
      2:{ apply wp_also; [apply wp_client; [done|by apply inv_log]|]. intros x w' Hr Hsm.
          eapply (preserves_small_call (readable pdu len d)); [apply frame_readable|done|exact Hd|exact Hr]. }
      intros x w1 ((Hw1 & Hk1) & Hd1). eapply (wp_mono _ (stays [] [] w1)).
      { intros y w2 (Hw2 & Hk2). split; [done|by eapply keeps_trans]. }
      destruct (keeps_pending _ _ _ Hk1 Ha) as (a1 & Ha1 & Hs).
      assert (notify_list a1 = notify_list a) as Hn1 by (unfold strip in Hs; congruence).
      apply wp_bind, (wp_get_att a1); [done|]. destruct (is_nil _); [by apply wp_ret, stays_refl|].
      apply (IH (l1 ++ [(p, v)]) l2 true w1 a1); [done..|by rewrite Hn1, Hl|lia|].
      unfold lonely. destruct (resizes opcode); [right|left; by split; [apply Hd1|]].
      destruct (matches opcode l2); [done|]. cbn in Hone. specialize (Hone eq_refl). lia.
    + apply (IH (l1 ++ [(p, v)]) l2 found w a); [done..|by rewrite Hl|lia|].
      unfold lonely in *. by rewrite (matches_no _ (p, v)) in Hd by done.
Qed.

(** *** References *)

Definition with_att (w : world) (a : bt_att) : world :=
  World (Some a) (ops w) (att_io w) (timers w) (next_addr w) (cw w) (tick w) (log w).

Lemma wp_unref_many w a Q :
  att w = Some a -> ref_count a <> 1 ->
  Q tt (with_att w (set_ref_count a (ref_count a - 1))) -> wp (bt_att_unref client rec) Q w.
Proof.
  intros Ha Hr HQ. unfold bt_att_unref. apply wp_bind, (wp_get_att a); [done|].
  apply wp_bind, wp_modify. rewrite (proj2 (Z.eqb_neq (ref_count a - 1) 0)) by lia. by apply wp_ret.
Qed.

Lemma inv_ref X S w a r : inv X S w -> att w = Some a -> inv X S (with_att w (set_ref_count a r)).
Proof. intros Hw Ha. eapply inv_set; try done. intros []. by constructor. Qed.

(** A reference that is held meanwhile. *)
Lemma calm_ref {A} w a (x : A) w2 a2 :
  att w = Some a -> calm (with_att w (set_ref_count a (ref_count a + 1))) x w2 -> att w2 = Some a2 ->
  calm w tt (with_att w2 (set_ref_count a2 (ref_count a2 - 1))) /\ ref_count a2 = ref_count a + 1.
Proof.
  intros Ha (Hw2 & H1 & H2 & H3) Ha2. cbn in H1. rewrite Ha2 in H1. apply (inj Some) in H1.
  unfold strip2 in H1. cbn in H1. assert (ref_count a2 = ref_count a + 1) as Hr by congruence.
  split; [|done]. split; [by apply inv_ref|]. split_and!; [|done..].
  cbn. rewrite Ha. apply (f_equal Some). unfold strip2. cbn. rewrite Hr.
  replace (ref_count a + 1 - 1) with (ref_count a) by lia. congruence.
Qed.

Lemma wp_hold {A B} w a (e : P A) (k : P B) :
  inv [] [] w -> att w = Some a -> 1 <= ref_count a ->
  (let w1 := with_att w (set_ref_count a (ref_count a + 1)) in inv [] [] w1 -> wp e (calm w1) w1) ->
  (forall w2, calm w tt w2 -> wp k (calm w) w2) ->
  wp (bt_att_ref;; e;; bt_att_unref client rec;; k) (calm w) w.
Proof.
  intros Hw Ha Hr He Hk. unfold bt_att_ref. apply wp_bind, wp_bind, (wp_get_att a); [done|]. apply wp_modify.
  set (w1 := with_att w (set_ref_count a (ref_count a + 1))).
  assert (inv [] [] w1) as Hw1 by (by apply inv_ref).
  apply wp_bind. eapply wp_mono; [|by apply He]. intros x w2 Hc2.
  destruct (inv_some _ _ _ (proj1 Hc2)) as (a2 & Ha2).
  destruct (calm_ref w a x w2 a2 Ha Hc2 Ha2) as (Hc & Hr2).
  apply wp_bind, (wp_unref_many _ a2); [done|lia|]. by apply Hk.
Qed.

Lemma wp_handle_signed w a pdu len d Q :
  att w = Some a -> has_crypto a = false -> readable pdu len d w ->
  (forall t, Q false (world_with w (cw w) t)) ->
  wp (handle_signed counter fails aes cmac pdu len) Q w.
Proof.
  intros Ha Hc Hd HQ. unfold handle_signed. cbv zeta. assert (Q false w) as H0 by (destruct w; apply HQ).
  unfold BT_ATT_SIGNATURE_LEN. destruct (Z.ltb_spec len (2 + 12)) as [Hl|Hl]; [by apply wp_ret|].
  apply wp_bind, (wp_get_att a); [done|]. destruct (remote_sign a) as [sign|]; [|by apply wp_ret].
  apply wp_bind. eapply wp_load; [exact Hd|]. destruct Hd as (_ & _ & _ & _ & _ & Hd%ld_length).
  assert (exists c, get_le32 d (len - 12) = Some c) as (c & Hg).
  { unfold get_le32. rewrite ld_is_Some by lia. by eexists. }
  apply wp_bind. eapply wp_ub_some; [exact Hg|]. apply wp_bind, wp_outside.
  destruct (counter _ _ _) as [cnt|]; [|apply wp_ret, HQ].
  apply wp_bind, wp_on_crypto. rewrite Hc. apply wp_ret. apply wp_ret. apply HQ.
Qed.

Lemma wp_respond_not_supported X S w opcode :
  inv X S w -> wp (respond_not_supported mainloop_modify malloc counter fails aes cmac opcode) (stays X S w) w.
Proof.
  intros Hw. unfold respond_not_supported. apply (wp_stays X S); [|intros; by apply wp_ret, stays_refl].
  apply wp_bt_att_send; [apply cmac_block|apply malloc_size|done|].
  split_and!; [done|done|lia|]. intros d Hd. injection Hd as <-. unfold error_rsp. len_lia.
Qed.

Lemma readable_ref w a r pdu len d : att w = Some a -> readable pdu len d w -> readable pdu len d (with_att w (set_ref_count a r)).
Proof using Type. intros Ha. apply frame_readable; [|done]. cbn [att with_att]. rewrite Ha. by apply (f_equal Some). Qed.

Lemma wp_handle_notify w a m opcode pdu len d :
  inv [] [] w -> att w = Some a -> 1 <= ref_count a -> (length (notify_list a) <= m)%nat ->
  readable pdu len d w -> lonely opcode (notify_list a) ->
  wp (handle_notify mainloop_modify malloc counter fails aes cmac client rec m opcode pdu len) (calm w) w.
Proof.
  intros Hw Ha Hr Hm Hd Hlo. unfold handle_notify. apply wp_bind, (wp_get_att a); [done|].
  destruct (negb (Z.land opcode ATT_OP_SIGNED_MASK =? 0) && negb (has_crypto a)) eqn:Hsig.
  { apply andb_true_iff in Hsig as (_ & Hcr). apply negb_true_iff in Hcr.
    apply wp_bind, wp_bind. eapply wp_handle_signed; [done..|]. intros t. apply wp_ret, wp_ret.
    apply calm_stays. apply (inv_tick [] [] w (cw w)); [done|]. intros b Hb. by eapply inv_ready. }
  apply wp_bind, wp_ret. unfold bt_att_ref. apply wp_bind, wp_bind, (wp_get_att a); [done|]. apply wp_modify.
  set (w1 := with_att w (set_ref_count a (ref_count a + 1))).
  assert (inv [] [] w1) as Hw1 by (by apply inv_ref).
  apply wp_bind. eapply wp_get_att; [reflexivity|].
  apply wp_bind. eapply wp_mono; [|eapply (wp_notify_loop m opcode pdu len d [] (notify_list a)); [exact Hw1|reflexivity|done|done|]].
  2:{ left. split; [by apply readable_ref|done]. }
  intros found w2 (Hw2 & Hk2). apply wp_bind.
  assert (wp (when (negb found && negb (bool_decide (get_op_type opcode = ATT_OP_TYPE_CMD)))
    (respond_not_supported mainloop_modify malloc counter fails aes cmac opcode)) (stays [] [] w2) w2) as Hresp.
  { destruct (negb found && _); [by apply wp_when_true, wp_respond_not_supported|].
    by apply wp_when_false, stays_refl. }
  eapply wp_mono; [|exact Hresp]. intros y w3 (Hw3 & Hk3).
  destruct (inv_some _ _ _ Hw3) as (a3 & Ha3).
  assert (calm w1 y w3) as Hc3.
  { split; [done|]. eapply keeps2_trans; by apply keeps_weaken. }
  destruct (calm_ref w a y w3 a3 Ha Hc3 Ha3) as (Hc & Hr3).
  apply (wp_unref_many _ a3); [done|lia|exact Hc].
Qed.

(** *** Reading *)

Lemma wp_hold_notify w a m opcode pdu len d :
  inv [] [] w -> att w = Some a -> 1 <= ref_count a -> (length (notify_list a) <= m)%nat ->
  readable pdu len d w -> lonely opcode (notify_list a) ->
  wp (bt_att_ref;;
      handle_notify mainloop_modify malloc counter fails aes cmac client rec m opcode pdu len;;
      bt_att_unref client rec;; mret true) (calm w) w.
Proof.
  intros Hw Ha Hr Hm Hd Hlo. apply (wp_hold w a); [done..| |].
  - intros w1 Hw1. eapply wp_handle_notify; [done..|cbn; lia|done|by apply readable_ref|done].
  - intros w2 (Hw2 & Hk2). by apply wp_ret.
Qed.

Lemma st_nothing data : st data 0 [] = Some data.
Proof using Type. unfold st. rewrite decide_True by len_lia. done. Qed.
(** What is stored at the start of a block and read behind its first byte. *)
Lemma st_read data x b : zlen (x :: b) <= zlen data ->
  exists data', st data 0 (x :: b) = Some data' /\ zlen data' = zlen data /\ ld data' 1 (zlen (x :: b) - 1) = Some b.
Proof using Type.
  intros Hl. destruct (st_is_Some data 0 (x :: b)) as (data' & Hs); [lia|lia|]. exists data'. split; [done|].
  split; [pose proof (st_length _ _ _ _ Hs); unfold zlen; lia|]. unfold st in Hs.
  rewrite decide_True in Hs by (split; [lia|done]). injection Hs as <-. cbn [Z.to_nat take app].
  apply (ld_mid [x] b); unfold zlen; cbn; lia.
Qed.

(** The buffer with what was read. *)
Lemma inv_buf X S w a b data :
  inv X S w -> att w = Some a -> buf a = Some b -> zlen data = zlen (block_data b) ->
  inv X S (with_att w (set_buf a (Some (Block (block_addr b) data)))).
Proof using Type.
  intros Hw Ha Hb Hl. eapply inv_set; try done.
  - intros (H1 & (b' & Hb' & H2) & H3). split; [exact H1|]. split; [|exact H3]. rewrite Hb in Hb'. injection Hb' as <-.
    eexists. split; [done|]. cbn. congruence.
  - intros []. by constructor.
Qed.

Lemma wp_can_read_data w a m read :
  inv [] [] w -> att w = Some a -> 1 <= ref_count a -> (length (notify_list a) <= m)%nat ->
  (forall fd len b, read fd len = Some b -> zlen b <= len) -> (forall opcode, lonely opcode (notify_list a)) ->
  wp (can_read_data mainloop_modify malloc counter get_level set_level fails aes cmac client rec m read)
    (calm w) w.
Proof.
  intros Hw Ha Hr Hm Hread Hlo. unfold can_read_data. apply wp_bind, (wp_get_att a); [done|].
  assert (exists k, buf a = Some k /\ zlen (block_data k) = mtu a) as (k & Hbuf & Hlen).
  { destruct Hw as (a' & Ha' & _ & _ & [(_ & Hbuf & _) _ _]). rewrite Ha in Ha'. by injection Ha' as <-. }
  destruct (read _ _) as [b|] eqn:Hb; [|by apply wp_ret, calm_refl]. apply Hread in Hb. rewrite Hbuf.
  unfold store. apply wp_bind, wp_bind, (wp_get_att a); [done|]. rewrite Hbuf. cbn [fst snd]. rewrite Z.eqb_refl.
  destruct b as [|opcode pdu].
  { rewrite st_nothing. apply wp_bind. eapply wp_ub_some; [done|]. apply wp_modify, wp_ret.
    split; [by apply inv_buf|]. by apply (keeps2_att w a). }
  destruct (st_read (block_data k) opcode pdu) as (data & Hst & Hdl & Hld); [lia|].
  apply wp_bind. eapply wp_ub_some; [exact Hst|]. apply wp_modify. cbv zeta.
  set (a0 := set_buf a (Some (Block (block_addr k) data))). fold (with_att w a0). set (w0 := with_att w a0).
  set (len := zlen (opcode :: pdu) - 1) in *.
  assert (inv [] [] w0) as Hw0 by (by apply inv_buf).
  assert (readable (block_addr k, 1) len pdu w0) as Hd by (by exists a0, (Block (block_addr k) data)).
  eapply (wp_mono _ (calm w0)).
  { intros x w2 (Hw2 & Hk2). split; [done|]. eapply keeps2_trans; [|exact Hk2]. by apply (keeps2_att w a). }
  destruct (get_op_type opcode); try by apply (wp_hold_notify w0 a0 m opcode (block_addr k, 1) len pdu).
  - (* a request *)
    unfold bt_att_ref. apply wp_bind, wp_bind, (wp_get_att a0); [done|]. apply wp_modify.
    set (a1 := set_ref_count a0 (ref_count a0 + 1)). set (w1 := with_att w0 a1).
    assert (inv [] [] w1) as Hw1 by (by apply inv_ref).
    apply wp_bind. eapply wp_get_att; [reflexivity|].
    assert (forall (x : bool) (e : P unit) v, keeps2 w1 v -> wp e (calm v) v ->
      wp (e;; bt_att_unref client rec;; mret x) (calm w0) v) as Hback.
    { intros x e v Hkv He. apply wp_bind. eapply wp_mono; [|exact He]. intros y w2 (Hi2 & Hk2).
      assert (calm w1 y w2) as Hc2 by (split; [done|by eapply keeps2_trans]).
      destruct (inv_some _ _ _ Hi2) as (a2 & Ha2).
      destruct (calm_ref w0 a0 y w2 a2 eq_refl Hc2 Ha2) as (Hc & Hr2).
      apply wp_bind, (wp_unref_many _ a2); [done|cbn in *; lia|]. by apply wp_ret. }
    destruct (in_req a1).
    + apply Hback; [apply keeps2_refl|]. by apply wp_calm, wp_shutdown.
    + apply wp_bind, wp_modify. set (a2 := set_in_req a1 true). apply Hback.
      * by apply (keeps2_att w1 a1).
      * apply (wp_handle_notify _ a2 m opcode (block_addr k, 1) len pdu); [|done|cbn; lia|done| |apply Hlo].
        -- apply (inv_set [] [] w1 a1 a2); try done. by intros [].
        -- by apply (frame_readable _ _ _ w0).
  - apply (wp_hold w0 a0); [done..| |].
    + intros w1 Hw1. eapply wp_handle_rsp; [done|by apply readable_ref].
    + intros w2 (Hw2 & Hk2). by apply wp_ret.
  - apply (wp_hold w0 a0); [done..| |].
    + intros w1 Hw1. by apply wp_handle_conf.
    + intros w2 (Hw2 & Hk2). by apply wp_ret.
Qed.

(** *** Writing *)

Lemma wp_pick w a Q :
  inv [] [] w -> att w = Some a -> Q None w ->
  (forall p o a', ops w !! p = Some o -> inv [p] [] (with_att w a') -> strip2 a' = strip2 a ->
     timeout_id o = 0 -> (op_type o = ATT_OP_TYPE_REQ -> pending_req a' = None) ->
     (op_type o = ATT_OP_TYPE_IND -> pending_ind a' = None) -> Q (Some p) (with_att w a')) ->
  wp pick_next_send_op Q w.
Proof.
  intros Hw Ha HN HS. unfold pick_next_send_op. apply wp_bind, (wp_get_att a); [done|].
  pose proof Hw as (b & Hb & Hc & [N1 N2 N3] & [O1 O2 O3]). rewrite Ha in Hb. injection Hb as <-.
  pose proof Hc as ([H1 H2 H3 H4 H5 H6 H7 H8] & _). cbn in H1, H2.
  assert (forall p a', p ∈ addrs a -> p ∈ queued a -> core [p] [] a' (ops w) (timers w) (next_addr w) (log w) ->
    strip2 a' = strip2 a -> att_ok a' ->
    (forall o, ops w !! p = Some o -> (op_type o = ATT_OP_TYPE_REQ -> pending_req a' = None) /\
      (op_type o = ATT_OP_TYPE_IND -> pending_ind a' = None)) ->
    wp (put_att a';; mret (Some p)) Q w) as Hput.
  { intros p a' Hp Hq Hcore Hs Hok Hty. destruct (inv_op [] [] w a p Hw Ha Hp) as (o & Ho).
    destruct (Hty o Ho) as (T1 & T2). apply wp_bind, wp_modify, wp_ret. apply (HS p o a'); try done; [|by eapply H7].
    unfold strip2 in Hs. exists a'. split_and!; [done..| |].
    - constructor; [done|..]; cbn.
      + replace (notify_list a') with (notify_list a) by congruence. done.
      + replace (disconn_list a') with (disconn_list a) by congruence. done.
    - constructor; [done|..]; cbn.
      + replace (has_io a') with (has_io a) by congruence. done.
      + replace (has_crypto a') with (has_crypto a) by congruence. done. }
  destruct (write_queue a) as [|p q] eqn:Hwq.
  - assert (forall p o, p ∈ req_addrs a -> ops w !! p = Some o -> unanswered ATT_OP_TYPE_IND [] p o = None) as Hri.
    { intros p o Hp Ho. apply unanswered_other. rewrite (H4 p o Hp Ho). done. }
    assert (forall p o, p ∈ ind_addrs a -> ops w !! p = Some o -> unanswered ATT_OP_TYPE_REQ [] p o = None) as Hir.
    { intros p o Hp Ho. apply unanswered_other. rewrite (H5 p o Hp Ho). done. }
    assert (wp (match pending_ind a, ind_queue a with
                | None, p :: q => put_att (set_ind_queue a q);; mret (Some p)
                | _, _ => mret None
                end) Q w) as Hind.
    { destruct (pending_ind a) as [x|] eqn:Hpi; [by apply wp_ret|].
      destruct (ind_queue a) as [|p q] eqn:Hiq; [by apply wp_ret|].
      assert (ind_addrs a = p :: q) as Hia by (unfold ind_addrs; by rewrite Hpi, Hiq).
      assert (ind_addrs (set_ind_queue a q) = q) as Hia' by (unfold ind_addrs; cbn; by rewrite Hpi).
      assert (p ∈ ind_addrs a) as Hpa by (rewrite Hia; apply elem_of_cons; by left).
      apply Hput; [unfold addrs; rewrite !elem_of_app; tauto|unfold queued; rewrite Hiq; set_solver| |done|exact O1|].
      - apply (core_pop a); [done| |done|done|rewrite Hia, Hia'; set_solver| | | |].
        + unfold addrs. rewrite Hia, Hia'. cbn. symmetry. apply Permutation_middle.
        + unfold queued. cbn. rewrite Hiq. set_solver.
        + done.
        + symmetry. apply view_skip. intros o Ho. by apply Hir.
        + by rewrite Hia, Hia'.
      - intros o Ho. split; [intros Ht; by rewrite (H5 p o Hpa Ho) in Ht|]. by intros _. }
    destruct (pending_req a) as [x|] eqn:Hpr; [done|].
    destruct (req_queue a) as [|p q] eqn:Hrq; [done|].
    assert (req_addrs a = p :: q) as Hra by (unfold req_addrs; by rewrite Hpr, Hrq).
    assert (req_addrs (set_req_queue a q) = q) as Hra' by (unfold req_addrs; cbn; by rewrite Hpr).
    assert (p ∈ req_addrs a) as Hpa by (rewrite Hra; apply elem_of_cons; by left).
    apply Hput; [unfold addrs; rewrite !elem_of_app; tauto|unfold queued; rewrite Hrq; set_solver| |done|exact O1|].
    + apply (core_pop a); [done| |done|rewrite Hra, Hra'; set_solver|done| | | |].
      * unfold addrs. by rewrite Hra, Hra'.
      * unfold queued. cbn. rewrite Hrq. set_solver.
      * done.
      * by rewrite Hra, Hra'.
      * symmetry. apply view_skip. intros o Ho. by apply Hri.
    + intros o Ho. split; [by intros _|]. intros Ht. by rewrite (H4 p o Hpa Ho) in Ht.
  - assert (p ∈ write_queue a) as Hpa by (rewrite Hwq; apply elem_of_cons; by left).
    assert (forall type o, ops w !! p = Some o -> unanswered type [] p o = None) as Hun.
    { intros type o Ho. apply unanswered_silent. destruct (op_callback o) eqn:Hcb; [|done].
      rewrite <- Hwq in H8. specialize (H8 p o Hpa Ho). unfold answered_type in H8.
      destruct (H6 p o Ho Hcb) as [Ht|Ht]; by rewrite Ht in H8. }
    apply Hput; [unfold addrs; rewrite !elem_of_app; tauto|unfold queued; rewrite Hwq; set_solver| |done|exact O1|].
    + apply (core_pop a); [done| |done|done|done| | | |].
      * unfold addrs. cbn. rewrite Hwq. by rewrite !app_assoc, <- Permutation_middle.
      * unfold queued. cbn. rewrite Hwq. set_solver.
      * rewrite Hwq. cbn. set_solver.
      * symmetry. apply view_skip. intros o Ho. by apply Hun.
      * symmetry. apply view_skip. intros o Ho. by apply Hun.
    + intros o Ho. rewrite <- Hwq in H8. specialize (H8 p o Hpa Ho). unfold answered_type in H8.
      split; intros Ht; by rewrite Ht in H8.
Qed.
End run.
