(* ===== verification/AttEvent.v ===== *)
(** The main loop's calls of the transport -- writing, timers and the end of the link -- keep
    the invariant of AttTrace.v. *)
From Stdlib Require Import ZArith Lia.
From S2P Require Import Prelude Blocks StateM Io Crypto CryptoSpec Att AttTrace AttSpec AttRun.
From stdpp Require Import base numbers list option gmap.

Local Open Scope Z_scope.

(** ** Writing *)

(** An operation in the hands of the function that becomes pending. *)
Lemma core_pend a a' O tm N L p o :
  core [p] [] a O tm N L -> O !! p = Some o -> next_send_id a' = next_send_id a ->
  queued a' = queued a -> write_queue a' = write_queue a ->
  (op_type o = ATT_OP_TYPE_REQ /\ req_addrs a' = p :: req_addrs a /\ ind_addrs a' = ind_addrs a) \/
  (op_type o = ATT_OP_TYPE_IND /\ req_addrs a' = req_addrs a /\ ind_addrs a' = p :: ind_addrs a) ->
  core [] [] a' O tm N L.
Proof.
  intros Hc Ho Hn Hq Hw Ht. pose proof Hc as ([H1 H2 H3 H4 H5 H6 H7 H8] & _).
  assert (forall type, op_type o <> type -> forall q,
    oview (unanswered type []) O (p :: q) = oview (unanswered type []) O q) as Hskip.
  { intros type Hne q. apply view_skip. intros u Hu. rewrite Ho in Hu. injection Hu as <-. by apply unanswered_other. }
  eapply core_move; [exact Hc| |done| | |rewrite Hq; done|rewrite Hw; done|].
  - unfold addrs. rewrite Hw. destruct Ht as [(_ & -> & ->)|(_ & -> & ->)]; cbn; [done|].
    apply Permutation_middle.
  - intros x u Hx Hu. destruct Ht as [(Hto & Hr & _)|(_ & Hr & _)]; rewrite Hr in Hx; [|eauto].
    apply elem_of_cons in Hx as [->|Hx]; [|eauto]. rewrite Ho in Hu. by injection Hu as <-.
  - intros x u Hx Hu. destruct Ht as [(_ & _ & Hr)|(Hto & _ & Hr)]; rewrite Hr in Hx; [eauto|].
    apply elem_of_cons in Hx as [->|Hx]; [|eauto]. rewrite Ho in Hu. by injection Hu as <-.
  - intros d _. change ([] ++ ?l) with l. change ([p] ++ ?l) with (p :: l).
    destruct Ht as [(Hto & -> & ->)|(Hto & -> & ->)].
    + rewrite (Hskip ATT_OP_TYPE_IND) by (by rewrite Hto). split; apply ord_same.
    + rewrite (Hskip ATT_OP_TYPE_REQ) by (by rewrite Hto). split; apply ord_same.
Qed.

(** A state of the transport with the same outer fields. *)
Lemma inv_core X S X' S' w a a' :
  inv X S w -> att w = Some a -> strip2 a' = strip2 a -> att_ok a' ->
  core X' S' a' (ops w) (timers w) (next_addr w) (log w) -> inv X' S' (with_att w a').
Proof.
  intros (b & Hb & _ & [N1 N2 N3] & [O1 O2 O3]) Ha Hs Hok Hc. rewrite Ha in Hb. injection Hb as <-.
  unfold strip2 in Hs. exists a'. split_and!; [done..| |].
  - constructor; [done|..]; cbn.
    + replace (notify_list a') with (notify_list a) by congruence. done.
    + replace (disconn_list a') with (disconn_list a) by congruence. done.
  - constructor; [done|..]; cbn.
    + replace (has_io a') with (has_io a) by congruence. done.
    + replace (has_crypto a') with (has_crypto a) by congruence. done.
Qed.

Lemma inv_att_ok X S w a : inv X S w -> att w = Some a -> att_ok a.
Proof. intros (b & Hb & _ & _ & O) Ha. rewrite Ha in Hb. injection Hb as <-. apply O. Qed.
Lemma inv_parts X S w a : inv X S w -> att w = Some a ->
  core X S a (ops w) (timers w) (next_addr w) (log w).
Proof. intros (b & Hb & Hc & _) Ha. rewrite Ha in Hb. by injection Hb as <-. Qed.
Lemma inv_fresh X S w : inv X S w -> 0 < next_addr w.
Proof. by intros (a & _ & _ & [H _ _] & _). Qed.

(** The timer of an operation is removed by its id, after the operation. *)
Lemma core_remove_timer X S a O tm N L p o t :
  core (p :: X) S a O tm N L -> O !! p = Some o -> p ∈ S ->
  (few (L ++ destroy_event o) -> timeout_id o = t) ->
  core X S a (delete p O) (drop_timer t tm) N (L ++ destroy_event o).
Proof.
  intros Hc Ho Hp Ht. destruct (core_remove X S a O tm N L p o Hc Ho ltac:(by left)) as (H1 & _ & H3 & H4).
  destruct Hc as (_ & Hpos & _). split_and!; [done| |done|].
  - apply Forall_forall. intros x Hx. unfold drop_timer in Hx. apply list_elem_of_filter in Hx as [_ Hx].
    by eapply (proj1 (Forall_forall _ _)) in Hpos.
  - intros Hf. rewrite <- (Ht Hf). by apply H4.
Qed.

(** The operation a timer is for. *)
Lemma timer_of X S a O tm N L p o t :
  core X S a O tm N L -> few L -> (t, op_id o) ∈ tm -> O !! p = Some o -> timeout_id o = t.
Proof.
  intros (_ & _ & _ & Hc) Hf Hin Ho. destruct (Hc Hf) as ([K1 _ _] & s & Hs).
  rewrite K1 in Hin. apply oview_in in Hin as (q & u & _ & Hu & Ht). unfold timed in Ht.
  destruct (Z.eqb_spec (timeout_id u) 0) as [|H0]; [done|]. injection Ht as Ht Hid.
  assert (q = p) as -> by (by eapply core_id_inj). rewrite Ho in Hu. by injection Hu as <-.
Qed.

Section event.
Context `{ENV : Env}.
Variable n : nat.
Abbreviation rec := (calls (Datatypes.S n)).

Lemma wp_drop_held {A} w p o (x : A) :
  inv [p] [p] w -> ops w !! p = Some o ->
  wp (destroy_att_send_op client rec p;; mret x) (calm w) w.
Proof.
  intros Hw Ho. apply wp_bind. eapply wp_destroy_op; [apply client_nice|by eapply inv_timers|exact Ho|].
  apply wp_ret. split; [exact (inv_gone [] [] w p o Hw Ho)|]. split_and!; [done..|]. by eexists.
Qed.

(** An operation that cannot be written, or that needs no answer. *)
Lemma wp_fail_held {A} w p o opcode pdu (x : A) :
  inv [p] [] w -> ops w !! p = Some o ->
  wp (respond client rec p opcode pdu;; destroy_att_send_op client rec p;; mret x) (calm w) w.
Proof.
  intros Hw Ho. destruct (inv_some _ _ _ Hw) as (a & Ha). pose proof (inv_parts _ _ _ _ Hw Ha) as (Hh & _).
  apply wp_bind. eapply wp_mono; [|eapply wp_respond; [exact Hw|exact Ha|exact Ho|]].
  - intros y w1 (Hw1 & Hk1). destruct (inv_some _ _ _ Hw1) as (a1 & Ha1).
    destruct (inv_op _ _ _ _ p Hw1 Ha1) as (o1 & Ho1); [set_solver|].
    eapply wp_mono; [|by eapply wp_drop_held]. intros z w2 (Hw2 & Hk2). split; [done|].
    eapply keeps2_trans; [by apply keeps_weaken|done].
  - intros Hcb. destruct (h_cb _ _ _ _ Hh p o Ho Hcb) as [Ht|Ht]; [by left|by right; left].
Qed.
Lemma wp_done_held {A} w p o (x : A) :
  inv [p] [] w -> ops w !! p = Some o -> op_callback o = false ->
  wp (destroy_att_send_op client rec p;; mret x) (calm w) w.
Proof.
  intros Hw Ho Hcb. eapply wp_drop_held; [|exact Ho]. destruct Hw as (a & Ha & Hc & HN & Hou).
  exists a. split_and!; [done| |done..]. by eapply core_mark.
Qed.

Lemma wp_start_timer w a p o :
  inv [] [] w -> att w = Some a -> p ∉ queued a -> ops w !! p = Some o -> timeout_id o = 0 ->
  wp (start_timer timer_ok p) (calm w) w.
Proof.
  intros Hw Ha Hq Ho H0. pose proof (inv_parts _ _ _ _ Hw Ha) as Hc. pose proof (inv_fresh _ _ _ Hw) as HN.
  pose proof (inv_timers _ _ _ Hw) as Htm. destruct Hw as (b & Hb & _ & Hsp & Hou). rewrite Ha in Hb. injection Hb as <-.
  unfold start_timer. apply wp_bind, (wp_get_op p o); [done|]. unfold timeout_add.
  apply wp_bind, wp_bind, wp_outside. destruct (timer_ok _).
  - apply wp_bind, wp_fresh_addr. apply wp_bind, wp_gets. apply wp_bind, wp_modify, wp_ret.
    apply wp_bind, (wp_get_op p o); [done|]. apply wp_bind, wp_put_op, wp_ret. step. split.
    + exists a. split_and!; [done| |apply (space_next _ (next_addr w)); [done|cbn; lia]|done].
      by apply (core_start_timer [] [] a (ops w)).
    + split_and!; [done..|]. exists []. by rewrite app_nil_r.
  - apply wp_ret. apply wp_bind, (wp_get_op p o); [done|]. apply wp_bind, wp_put_op, wp_ret. step. split.
    + exists a. split_and!; [done| |done..]. step.
      pose proof (core_stop_timer [] [] a (ops w) (timers w) (next_addr w) (log w) p o Hc Ho Hq) as Hs.
      rewrite H0, drop_timer_none in Hs; [exact Hs|]. eapply Forall_impl; [exact Htm|]. cbn. lia.
    + split_and!; [done..|]. exists []. by rewrite app_nil_r.
Qed.

(** A request or an indication that was written. *)
Lemma wp_await w a a' p o :
  inv [p] [] w -> att w = Some a -> ops w !! p = Some o -> strip2 a' = strip2 a -> att_ok a' ->
  next_send_id a' = next_send_id a -> queued a' = queued a -> write_queue a' = write_queue a ->
  (op_type o = ATT_OP_TYPE_REQ /\ req_addrs a' = p :: req_addrs a /\ ind_addrs a' = ind_addrs a) \/
  (op_type o = ATT_OP_TYPE_IND /\ req_addrs a' = req_addrs a /\ ind_addrs a' = p :: ind_addrs a) ->
  timeout_id o = 0 ->
  wp (put_att a';; start_timer timer_ok p) (calm w) w.
Proof.
  intros Hw Ha Ho Hs Hok Hn Hq Hwq Ht H0. pose proof (inv_parts _ _ _ _ Hw Ha) as Hc.
  assert (inv [] [] (with_att w a')) as Hw1.
  { eapply inv_core; [exact Hw|exact Ha|done|done|]. by eapply core_pend. }
  assert (p ∉ queued a') as Hpq.
  { destruct Hc as (Hh & _). apply h_nodup, NoDup_cons in Hh as (Hh & _). rewrite Hq. unfold queued.
    cbn in Hh. unfold addrs, req_addrs, ind_addrs in Hh. set_solver. }
  apply wp_bind, wp_modify. eapply wp_mono; [|by eapply (wp_start_timer (with_att w a') a')].
  intros x w2 (Hw2 & Hk2). split; [done|]. eapply keeps2_trans; [|exact Hk2]. by apply (keeps2_att w a).
Qed.

Lemma wp_can_write_data w a writev :
  inv [] [] w -> att w = Some a -> has_io a = true ->
  wp (can_write_data timer_ok client rec writev) (calm w) w.
Proof.
  intros Hw Ha Hio. unfold can_write_data. apply wp_bind. eapply wp_pick; [exact Hw|exact Ha|by apply wp_ret, calm_refl|].
  intros p o a1 Ho Hw1 Hs1 H0 T1 T2. set (w1 := with_att w a1) in *.
  assert (keeps2 w w1) as Hk1 by (by apply (keeps2_att w a)).
  eapply (wp_mono _ (calm w1)).
  { intros x w2 (Hw2 & Hk2). split; [done|]. by eapply keeps2_trans. }
  assert (att w1 = Some a1 /\ ops w1 !! p = Some o) as (Ha1 & Ho1) by done.
  assert (has_io a1 = true) as Hio1 by (unfold strip2 in Hs1; congruence). clearbody w1.
  assert (exists i, att_io w1 = Some i) as (i & Hi).
  { destruct Hw1 as (b & Hb & _ & _ & [_ O2 _]). rewrite Ha1 in Hb. injection Hb as <-.
    destruct (O2 Hio1) as (i & Hi & _). by exists i. }
  pose proof (inv_att_ok _ _ _ _ Hw1 Ha1) as Hok. pose proof (inv_parts _ _ _ _ Hw1 Ha1) as (Hh & _).
  apply wp_bind, (wp_get_op p o); [done|].
  assert (forall r, wp (if r <? 0 then
      respond client rec p BT_ATT_OP_ERROR_RSP None;; destroy_att_send_op client rec p;; mret true
    else
      emit (EvWrite (take (Z.to_nat r) (pdu o)));;
      a ← get_att;
      match op_type o with
      | ATT_OP_TYPE_REQ => put_att (set_pending_req a (Some p));; start_timer timer_ok p
      | ATT_OP_TYPE_IND => put_att (set_pending_ind a (Some p));; start_timer timer_ok p
      | ATT_OP_TYPE_RSP => put_att (set_in_req a false);; destroy_att_send_op client rec p;; mret true
      | _ => destroy_att_send_op client rec p;; mret true
      end) (calm w1) w1) as Hrest.
  2:{ apply wp_bind. unfold io_send. apply wp_bind. eapply wp_get_some; [exact Hi|].
      destruct (_ <? 0); apply wp_ret, Hrest. }
  intros r. destruct (r <? 0); [by eapply wp_fail_held|].
  apply wp_bind, wp_event. set (e := EvWrite _).
  destruct (inv_log [p] [] w1 e Hw1 I) as (Hw2 & Hk2).
  set (w2 := World _ _ _ _ _ _ _ _) in *. eapply (wp_mono _ (calm w2)).
  { intros x w3 (Hw3 & Hk3). split; [done|]. eapply keeps2_trans; [by apply keeps_weaken|done]. }
  assert (att w2 = Some a1 /\ ops w2 !! p = Some o) as (Ha2 & Ho2) by done. clearbody w2.
  apply wp_bind, (wp_get_att a1); [done|].
  assert (answered_type (op_type o) = false -> op_callback o = false) as Hsil.
  { intros Ht. destruct (op_callback o) eqn:Hcb; [|done].
    destruct (h_cb _ _ _ _ Hh p o Ho1 Hcb) as [H|H]; by rewrite H in Ht. }
  destruct (op_type o) eqn:Ht; try (eapply wp_done_held; [exact Hw2|exact Ho2|by apply Hsil]).
  - eapply (wp_await w2 a1 _ p o); try done. left. unfold req_addrs. cbn. by rewrite T1.
  - apply wp_bind, wp_modify. set (a3 := set_in_req a1 false). eapply (wp_mono _ (calm (with_att w2 a3))).
    { intros x w3 (Hw3 & Hk3). split; [done|]. eapply keeps2_trans; [|exact Hk3]. by apply (keeps2_att w2 a1). }
    eapply wp_done_held; [|exact Ho2|by apply Hsil]. apply (inv_set [p] [] w2 a1 a3); try done. by intros [].
  - eapply (wp_await w2 a1 _ p o); try done. right. unfold ind_addrs. cbn. by rewrite T2.
Qed.

(** ** Timers *)

Lemma wp_shutdown_raw w a Q :
  att w = Some a -> (has_io a = true -> exists i, att_io w = Some i) ->
  Q tt (World (att w) (ops w) (att_io w) (timers w) (next_addr w) (cw w) (tick w) (log w ++ [EvShutdown])) ->
  wp shutdown_io Q w.
Proof.
  intros Ha Hio HQ. unfold shutdown_io, on_io. apply wp_bind, wp_bind, (wp_get_att a); [done|].
  destruct (has_io a); [|by apply wp_ret, wp_event]. destruct (Hio eq_refl) as (i & Hi).
  unfold io_shutdown. apply wp_bind. eapply wp_get_some; [exact Hi|].
  destruct (_ <? 0); by apply wp_ret, wp_event.
Qed.

(** What comes after the timer's callback. *)
Definition then_remove (w : world) (t : Z) (again : bool) (w' : world) : Prop :=
  wp (if again then mret tt else timeout_remove t) (calm w) w'.

(** An operation that was answered, with its timer. *)
Lemma wp_drop_timed w p o t :
  inv [p] [p] w -> ops w !! p = Some o -> (few (log w) -> timeout_id o = t) ->
  wp (put_op p (with_timer o 0);; destroy_att_send_op client rec p;; shutdown_io;; mret false)
    (then_remove w t) w.
Proof.
  intros Hw Ho Ht. destruct (inv_some _ _ _ Hw) as (a & Ha). pose proof (inv_parts _ _ _ _ Hw Ha) as Hc.
  pose proof (inv_timers _ _ _ Hw) as Htm. destruct Hw as (b & Hb & _ & Hsp & Hou).
  rewrite Ha in Hb. injection Hb as <-.
  apply wp_bind, wp_put_op. apply wp_bind.
  eapply (wp_destroy_op _ client_nice _ p (with_timer o 0)); [exact Htm|cbn [ops]; by rewrite lookup_insert_eq|].
  unfold destroyed. step. cbn [timeout_id with_timer]. rewrite drop_timer_none, delete_insert_eq.
  2:{ eapply Forall_impl; [exact Htm|]. cbn. lia. }
  apply wp_bind, (wp_shutdown_raw _ a); [done| |].
  { intros Hio. destruct (o_io _ _ _ Hou Hio) as (i & Hi & _). by exists i. }
  step. apply wp_ret. unfold then_remove. apply wp_timeout_remove; [exact Htm|]. step.
  change (destroy_event (with_timer o 0)) with (destroy_event o). split.
  - exists a. split_and!; [done| |done..]. apply core_quiet; [|done].
    eapply core_forget; [apply core_remove_timer; [exact Hc|exact Ho|set_solver|]|].
    + intros Hf. apply Ht. by eapply few_app.
    + cbn. intros u Hu. by rewrite lookup_delete_eq in Hu.
  - split_and!; [done..|]. cbn. rewrite <- app_assoc. by eexists.
Qed.

(** The end of a pending operation whose timer fired. *)
Definition expire (p id : Z) (a' : bt_att) : P bool :=
  put_att a';;
  o ← get_op p;
  emit (EvExpired id);;
  match timeout_callback a' with
  | Some c => call client rec (EvTimeout (op_id o) (opcode o) (cb_data c))
  | None => mret tt
  end;;
  o ← get_op p;
  put_op p (with_timer o 0);;
  destroy_att_send_op client rec p;;
  shutdown_io;;
  mret false.

Lemma wp_expire w a a' p o t :
  inv [] [] w -> att w = Some a -> ops w !! p = Some o -> (t, op_id o) ∈ timers w ->
  taken a a' p -> strip2 a' = strip2 a ->
  wp (expire p (op_id o) a') (then_remove w t) w.
Proof.
  intros Hw Ha Ho Ht Htk Hs. pose proof (inv_parts _ _ _ _ Hw Ha) as Hc.
  assert (p < next_addr w) as Hpn.
  { destruct Hc as (Hh & _). apply (h_next _ _ _ _ Hh). rewrite app_nil_l. apply Htk. }
  unfold expire. apply wp_bind, wp_modify. apply wp_bind, (wp_get_op p o); [done|].
  apply wp_bind, wp_event. set (w1 := World _ _ _ _ _ _ _ _).
  assert (inv [p] [p] w1) as Hw1.
  { apply (inv_take [] [p] (World (att w) (ops w) (att_io w) (timers w) (next_addr w) (cw w) (tick w)
      (log w ++ [EvExpired (op_id o)])) a); [|done|done|set_solver].
    destruct Hw as (b & Hb & _ & Hsp & Hou). rewrite Ha in Hb. injection Hb as <-.
    exists a. split_and!; try done. by eapply core_expired. }
  assert (keeps2 w w1) as Hk1.
  { split_and!; [cbn [att w1]; rewrite Ha; by apply (f_equal Some)|done|by eexists]. }
  apply wp_bind. eapply (wp_mono _ (stays [p] [p] w1)).
  2:{ destruct (timeout_callback a'); [|by apply wp_ret, stays_refl]. apply wp_client; [done|]. by apply inv_log. }
  intros x w2 (Hw2 & Hk2). destruct (inv_some _ _ _ Hw2) as (a2 & Ha2).
  destruct (inv_op _ _ _ _ p Hw2 Ha2) as (o2 & Ho2); [set_solver|].
  apply wp_bind, (wp_get_op p o2); [done|].
  assert (few (log w2) -> timeout_id o2 = t) as Hto.
  { intros Hf. destruct Hk2 as (_ & _ & [(k & Hl) _ _ Hold]).
    destruct (Hold p o2 Hpn Ho2) as (o1 & Ho1 & <-). cbn in Ho1. rewrite Ho in Ho1. injection Ho1 as <-.
    eapply (timer_of _ _ _ _ _ _ _ p); [exact Hc| |exact Ht|exact Ho].
    rewrite Hl in Hf. by do 2 apply few_app in Hf. }
  eapply wp_mono; [|by eapply wp_drop_timed]. intros again w3 Hw3.
  eapply wp_mono; [|exact Hw3]. intros y w4 (Hw4 & Hk4). split; [done|].
  eapply keeps2_trans; [exact Hk1|]. eapply keeps2_trans; [by apply keeps_weaken|exact Hk4].
Qed.

(** No pending operation has the id. *)
Definition not_pending (O : gmap Z att_send_op) (id : Z) (x : option Z) : Prop :=
  forall p o, x = Some p -> O !! p = Some o -> op_id o <> id.

Lemma wp_pending_id x id Q w :
  (forall p, x = Some p -> is_Some (ops w !! p)) ->
  (forall p o, x = Some p -> ops w !! p = Some o -> op_id o = id -> Q true w) ->
  (not_pending (ops w) id x -> Q false w) ->
  wp (pending_has x id) Q w.
Proof using Type.
  intros Hx Ht Hf. destruct x as [p|]; [|by apply wp_ret, Hf]. destruct (Hx p eq_refl) as (o & Ho).
  unfold pending_has, match_op_id. apply wp_bind, (wp_get_op p o); [done|]. apply wp_ret.
  destruct (Z.eqb_spec (op_id o) id); [by eapply Ht|]. apply Hf. intros q u Hq Hu. by simplify_eq.
Qed.

(** A timer that is of no pending operation is of none. *)
Lemma inv_stray w a t id :
  inv [] [] w -> att w = Some a -> (t, id) ∈ timers w -> 
  not_pending (ops w) id (pending_req a) -> not_pending (ops w) id (pending_ind a) ->
  then_remove w t false w.
Proof using Type.
  intros Hw Ha Ht Hr Hi. pose proof (inv_parts _ _ _ _ Hw Ha) as (Hh & Hpos & HS & Hc).
  unfold then_remove. apply wp_timeout_remove; [exact Hpos|]. split; [|split_and!; [done..|exists []; by rewrite app_nil_r]].
  destruct Hw as (b & Hb & _ & Hsp & Hou). rewrite Ha in Hb. injection Hb as <-.
  exists a. split_and!; [done| |done..]. split_and!; [exact Hh| |exact HS|]; step.
  - apply Forall_forall. intros x Hx. unfold drop_timer in Hx. apply list_elem_of_filter in Hx as [_ Hx].
    by eapply (proj1 (Forall_forall _ _)) in Hpos.
  - intros Hf. exfalso. destruct (Hc Hf) as ([K1 _ _] & _). rewrite K1 in Ht.
    apply oview_in in Ht as (q & u & Hq & Hu & Ht). unfold timed in Ht.
    destruct (Z.eqb_spec (timeout_id u) 0) as [|H0]; [done|]. injection Ht as Ht Hid.
    assert (q ∉ queued a) as Hnq by (intros Hqq; by apply H0, (h_wait _ _ _ _ Hh q)).
    unfold addrs, req_addrs, ind_addrs, queued in *. rewrite app_nil_l, !elem_of_app in *.
    assert (q ∈ opt_list (pending_req a) \/ q ∈ opt_list (pending_ind a)) as [Hp|Hp] by tauto.
    + destruct (pending_req a) as [x|]; [|set_solver]. apply list_elem_of_singleton in Hp as ->. by eapply Hr.
    + destruct (pending_ind a) as [x|]; [|set_solver]. apply list_elem_of_singleton in Hp as ->. by eapply Hi.
Qed.

(** A timer of the main loop. *)
Lemma wp_fire w t : inv [] [] w -> wp (fire client rec t) (calm w) w.
Proof.
  intros Hw. destruct (inv_some _ _ _ Hw) as (a & Ha). unfold fire. apply wp_bind, wp_gets.
  destruct (List.find _ _) as [[t' id]|] eqn:Hf; [|by apply wp_ret, calm_refl].
  apply List.find_some in Hf as (Hin & Ht). cbn in Ht. apply Z.eqb_eq in Ht as ->.
  apply list_elem_of_In in Hin. apply wp_bind. change (fun again w' => _) with (then_remove w t).
  assert (forall p, p ∈ addrs a -> is_Some (ops w !! p)) as Hops.
  { intros p Hp. destruct (inv_op _ _ _ _ p Hw Ha Hp) as (o & Ho). by exists o. }
  pose proof (inv_nodup _ _ _ _ Hw Ha) as Hnd.
  assert (forall p, pending_req a = Some p -> p ∈ addrs a) as Hpr.
  { intros p Hp. unfold addrs, req_addrs. rewrite Hp. cbn. apply elem_of_cons. by left. }
  assert (forall p, pending_ind a = Some p -> p ∈ addrs a) as Hpi.
  { intros p Hp. unfold addrs, ind_addrs. rewrite Hp. cbn. rewrite !elem_of_app, elem_of_cons. tauto. }
  unfold timeout_cb. apply wp_bind, (wp_get_att a); [done|].
  apply wp_bind, wp_pending_id; [by auto| |].
  - intros p o Hp Ho <-. apply wp_bind, wp_ret. rewrite Hp.
    eapply (wp_expire w a _ p o); try done. by apply taken_pending_req.
  - intros Hnr. apply wp_bind, wp_pending_id; [by auto| |].
    + intros p o Hp Ho <-. rewrite Hp. destruct (pending_req a);
        (eapply (wp_expire w a _ p o); try done; by apply taken_pending_ind).
    + intros Hni. assert (then_remove w t false w) as Hs by (by eapply inv_stray).
      destruct (pending_req a), (pending_ind a); by apply wp_ret.
Qed.
End event.
