(* ===== verification/AttDown.v ===== *)
(** The end of the link: [disconnect_cb] answers and destroys every operation of the transport,
    tells its handlers and takes them away. *)
From Stdlib Require Import ZArith Lia.
From S2P Require Import Prelude Blocks StateM Io Crypto CryptoSpec Att AttTrace AttSpec AttFrame AttRun AttEvent.
From stdpp Require Import base numbers list option gmap.

Local Open Scope Z_scope.

Lemma wp_assoc {S A B C} (e : M S A) (f : A -> M S B) (g : B -> M S C) Q s :
  wp (x ← e; f x ≫= g) Q s -> wp ((e ≫= f) ≫= g) Q s.
Proof.
  unfold wp. cbv [mbind M_bind]. intros (c & s' & H & HQ). exists c, s'. split; [|done].
  by destruct (e s) as [[]|].
Qed.

Lemma wp_regroup {S A B C} (e : M S A) (f : A -> M S B) (g : B -> M S C) Q s :
  wp ((e ≫= f) ≫= g) Q s -> wp (x ← e; f x ≫= g) Q s.
Proof.
  unfold wp. cbv [mbind M_bind]. intros (c & s' & H & HQ). exists c, s'. split; [|done].
  by destruct (e s) as [[]|].
Qed.

(** ** Callbacks that tell what ended *)

(** Only the log grows, with events that are not about operations. *)
Definition logged (w : world) (k : list event) : world :=
  World (att w) (ops w) (att_io w) (timers w) (next_addr w) (cw w) (tick w) (log w ++ k).
Definition hushed {A} (w : world) : A -> world -> Prop := fun _ w' =>
  exists k, Forall quiet k /\ w' = logged w k.

Lemma hushed_refl {A} w (x : A) : hushed w x w.
Proof. exists []. split; [by constructor|]. unfold logged. rewrite app_nil_r. by destruct w. Qed.
Lemma wp_hushed {A B} (e : P A) (f : A -> P B) w :
  wp e (hushed w) w -> (forall x w', wp (f x) (hushed w') w') -> wp (x ← e; f x) (hushed w) w.
Proof.
  intros He Hf. apply wp_bind. eapply wp_mono; [|exact He]. intros x w1 (k & Hk & ->).
  eapply wp_mono; [|apply Hf]. intros y w2 (k2 & Hk2 & ->). exists (k ++ k2).
  split; [by apply Forall_app|]. unfold logged. cbn. by rewrite app_assoc.
Qed.
Lemma inv_logged X S w k : inv X S w -> Forall quiet k -> inv X S (logged w k) /\ keeps w (logged w k).
Proof.
  intros Hw Hk. revert w Hw. induction Hk as [|e k He Hk IH]; intros w Hw.
  - unfold logged. rewrite app_nil_r. destruct w. split; [done|apply keeps_refl].
  - destruct (inv_log X S w e Hw He) as (Hw1 & Hk1). destruct (IH _ Hw1) as (Hw2 & Hk2).
    assert (logged w (e :: k) = logged (logged w [e]) k) as -> by (unfold logged; cbn; by rewrite <- app_assoc).
    split; [done|]. by eapply keeps_trans.
Qed.

(** ** The io *)

(** No callback is called any more. *)
Record dead (j : io io_fn io_destroy_fn) : Prop := {
  d_read : read_watch j = no_watch;
  d_write : Io.callback (write_watch j) = None;
  d_disconnect : disconnect_watch j = no_watch;
}.

Definition io_released (i j : io io_fn io_destroy_fn) : option (io io_fn io_destroy_fn) :=
  if Io.ref_count i - 1 =? 0 then None else Some j.

Lemma wp_io_unref w i Q :
  att_io w = Some i ->
  Q tt (World (att w) (ops w) (io_released i (Io.set_ref_count i (Io.ref_count i - 1))) (timers w) (next_addr w)
          (cw w) (tick w) (log w)) ->
  wp io_unref Q w.
Proof.
  intros Hi HQ. unfold io_unref. apply wp_bind. eapply wp_get_some; [exact Hi|].
  unfold io_released in HQ. by destruct (_ =? 0); apply wp_modify.
Qed.

Definition written_off (a a' : bt_att) : Prop := a' = a \/ a' = set_writer_active a false.

Lemma wp_io_destroy w a i Q :
  att w = Some a -> att_io w = Some i ->
  Io.destroy (read_watch i) = None -> Io.destroy (disconnect_watch i) = None ->
  (forall a' j k, written_off a a' -> dead j -> Io.ref_count j = Io.ref_count i - 1 -> Forall quiet k ->
     Q tt (World (Some a') (ops w) (io_released i j) (timers w) (next_addr w) (cw w) (tick w) (log w ++ k))) ->
  wp io_destroy Q w.
Proof.
  intros Ha Hi Hr Hd HQ. unfold io_destroy.
  apply wp_bind. eapply wp_get_some; [exact Hi|]. apply wp_bind, wp_modify.
  apply wp_bind. eapply wp_get_some; [reflexivity|]. apply wp_bind, wp_modify.
  apply wp_bind. eapply wp_get_some; [reflexivity|]. apply wp_bind, wp_modify.
  set (i1 := set_disconnect_watch _ _).
  assert (dead i1) as Hi1 by (constructor; [cbn; by rewrite Hr|done|cbn; by rewrite Hd]).
  assert (Io.ref_count i1 = Io.ref_count i) as Hrc by done.
  assert (forall a' j k v, v = World (Some a') (ops w) (Some j) (timers w) (next_addr w) (cw w) (tick w) (log w ++ k) ->
    written_off a a' -> dead j -> Io.ref_count j = Io.ref_count i -> Forall quiet k ->
    wp io_unref Q v) as Hend.
  { intros a' j k v -> Ho Hj Hjr Hk. eapply wp_io_unref; [reflexivity|]. unfold io_released. rewrite Hjr.
    apply (HQ a' (Io.set_ref_count j (Io.ref_count i - 1)) k); try done.
    destruct Hj. by constructor. }
  unfold mainloop_remove_fd. apply wp_bind, wp_bind. eapply wp_get_some; [reflexivity|].
  destruct (Io.fd i1 <? 0).
  { apply wp_ret. eapply (Hend a i1 []); [cbn; by rewrite Ha, app_nil_r|by left|done..]. }
  unfold io_cleanup. apply wp_bind. eapply wp_get_some; [reflexivity|]. apply wp_bind.
  set (w1 := with_io _ _).
  assert (forall a', written_off a a' -> forall v,
    v = World (Some a') (ops w) (Some i1) (timers w) (next_addr w) (cw w) (tick w) (log w) ->
    wp (i ← get_io; destroy_watch (read_watch i);;
        i ← get_io; destroy_watch (disconnect_watch i);;
        i ← get_io; when (close_on_destroy i) (close_fd (Io.fd i));;
        i ← get_io; put_io (set_fd i (-1))) (fun _ v' => wp io_unref Q v') v) as Hcl.
  { intros a' Ha' v ->. apply wp_bind. eapply wp_get_some; [reflexivity|]. destruct Hi1 as [E1 E2 E3].
    rewrite E1. apply wp_bind, wp_ret. apply wp_bind. eapply wp_get_some; [reflexivity|].
    rewrite E3. apply wp_bind, wp_ret. apply wp_bind. eapply wp_get_some; [reflexivity|]. apply wp_bind.
    assert (dead (set_fd i1 (-1))) as Hdead by (by constructor).
    destruct (close_on_destroy i1).
    - apply wp_when_true, wp_event. apply wp_bind. eapply wp_get_some; [reflexivity|]. apply wp_modify.
      eapply (Hend a' _ [EvClose (Io.fd i1)]); [reflexivity|done..|by repeat constructor].
    - apply wp_when_false. apply wp_bind. eapply wp_get_some; [reflexivity|]. apply wp_modify.
      eapply (Hend a' _ []); [cbn; by rewrite app_nil_r|done..]. }
  unfold destroy_watch at 1. destruct (Io.destroy (write_watch i1)) as [[]|].
  - cbn [run_destroy AttIo]. unfold write_watch_destroy. apply wp_bind, (wp_get_att a); [done|].
    apply wp_modify. eapply Hcl; [by right|done].
  - apply wp_ret. eapply (Hcl a); [by left|]. cbn. by rewrite Ha.
Qed.

(** ** Queues that are detached *)

Definition ind_typed (O : gmap Z att_send_op) (a : bt_att) : Prop :=
  forall p o, p ∈ ind_addrs a -> O !! p = Some o -> op_type o = ATT_OP_TYPE_IND.
Definition req_typed (O : gmap Z att_send_op) (a : bt_att) : Prop :=
  forall p o, p ∈ req_addrs a -> O !! p = Some o -> op_type o = ATT_OP_TYPE_REQ.
Definition write_typed (O : gmap Z att_send_op) (a : bt_att) : Prop :=
  forall p o, p ∈ write_queue a -> O !! p = Some o -> answered_type (op_type o) = false.

Lemma view_write type S O a : type = ATT_OP_TYPE_REQ \/ type = ATT_OP_TYPE_IND -> write_typed O a ->
  oview (unanswered type S) O (write_queue a) = [].
Proof.
  intros Ht Hw. apply oview_nil. intros p o Hp Ho. apply unanswered_other. specialize (Hw p o Hp Ho).
  intros He. destruct Ht as [Ht|Ht]; rewrite Ht in He; by rewrite He in Hw.
Qed.
Lemma view_req S O a : ind_typed O a -> write_typed O a ->
  oview (unanswered ATT_OP_TYPE_REQ S) O (addrs a) = oview (unanswered ATT_OP_TYPE_REQ S) O (req_addrs a).
Proof.
  intros Hi Hw. unfold addrs. rewrite !oview_app, (view_write _ S O a) by (done || by left).
  rewrite (oview_nil _ O (ind_addrs a)), !app_nil_r; [done|].
  intros p o Hp Ho. apply unanswered_other. by rewrite (Hi p o Hp Ho).
Qed.
Lemma view_ind S O a : req_typed O a -> write_typed O a ->
  oview (unanswered ATT_OP_TYPE_IND S) O (addrs a) = oview (unanswered ATT_OP_TYPE_IND S) O (ind_addrs a).
Proof.
  intros Hr Hw. unfold addrs. rewrite !oview_app, (view_write _ S O a) by (done || by right).
  rewrite (oview_nil _ O (req_addrs a)), !app_nil_r; [done|].
  intros p o Hp Ho. apply unanswered_other. by rewrite (Hr p o Hp Ho).
Qed.

(** The operations [q] leave a queue; the order of those that are left does not matter when the
    link is down. *)
Lemma core_detach a a' q O tm N L :
  core [] [] a O tm N L -> EvDown ∈ L -> addrs a ≡ₚ q ++ addrs a' -> next_send_id a' = next_send_id a ->
  shrinks a a' -> pending_req a' = pending_req a -> pending_ind a' = pending_ind a ->
  core q [] a' O tm N L.
Proof.
  intros Hc Hd Hp Hn Hs Hpr Hpi. pose proof Hc as ([H1 H2 H3 H4 H5 H6 H7 H8] & _).
  pose proof (shrinks_queued _ _ Hs) as Sq. destruct Hs as (S1 & S2 & S3).
  assert (req_typed O a') as Tr.
  { intros p o Hx. apply H4. unfold req_addrs in *. rewrite Hpr in Hx. set_solver. }
  assert (ind_typed O a') as Ti.
  { intros p o Hx. apply H5. unfold ind_addrs in *. rewrite Hpi in Hx. set_solver. }
  assert (write_typed O a') as Tw by (intros p o Hx; by apply H8, S3).
  eapply core_move; [exact Hc|by rewrite app_nil_l|done|exact Tr|exact Ti| |exact Tw|].
  - intros p o Hx. apply H7. by apply Sq.
  - intros d Hdd. rewrite (Hdd Hd). cbn [ord]. rewrite !app_nil_l, !oview_app.
    rewrite <- (view_req _ _ a), <- (view_ind _ _ a), <- (view_req _ _ a'), <- (view_ind _ _ a') by done.
    rewrite <- !oview_app, Hp. done.
Qed.

Section down.
Context `{ENV : Env}.
Variable n : nat.
Abbreviation rec := (calls (Datatypes.S n)).
Abbreviation disc := (disc_att_send_op client rec).

Lemma wp_destroy_callback w c : wp (destroy_callback client rec c) (hushed w) w.
Proof.
  destruct c as [c|]; [|by apply wp_ret, hushed_refl]. cbn [destroy_callback].
  destruct (cb_destroy c); [|by apply wp_when_false, hushed_refl].
  apply wp_when_true. eapply wp_call_quiet; [apply client_nice|done|]. by exists [EvDestroy (cb_data c)]; split; [repeat constructor|].
Qed.
Lemma wp_destroy_all {A} (f : A -> callback) l w :
  wp (for_all (fun x => destroy_callback client rec (Some (f x))) l) (hushed w) w.
Proof.
  revert w. induction l as [|x l IH]; intros w; [by apply wp_ret, hushed_refl|].
  apply wp_hushed; [apply wp_destroy_callback|]. intros y w'. apply IH.
Qed.

(** The handlers are taken away. *)
Definition bare (a : bt_att) : bt_att := set_disconn_list (set_notify_list a []) [].
Lemma wp_unregister_all w a :
  att w = Some a ->
  wp (bt_att_unregister_all client rec) (fun _ w' => exists k, Forall quiet k /\ w' = logged (with_att w (bare a)) k) w.
Proof.
  intros Ha. unfold bt_att_unregister_all. apply wp_bind, (wp_get_att a); [done|].
  apply wp_bind, wp_modify. apply wp_bind.
  eapply wp_mono; [|apply (wp_destroy_all (fun x : Z * att_notify => notify_callback x.2))].
  intros x w1 (k1 & Hk1 & ->). apply wp_bind. eapply wp_get_att; [reflexivity|]. apply wp_bind, wp_modify.
  apply wp_bind. eapply wp_mono; [|apply (wp_destroy_all (fun x : Z * att_disconn => disconn_callback x.2))].
  intros y w2 (k2 & Hk2 & ->). apply wp_ret. exists (k1 ++ k2). split; [by apply Forall_app|].
  unfold logged. cbn. by rewrite app_assoc.
Qed.

(** *** Operations *)

Lemma wp_disc_one p X w :
  inv (p :: X) [] w -> EvDown ∈ log w -> wp (disc p) (stays X [] w) w.
Proof.
  intros Hw Hd. destruct (inv_some _ _ _ Hw) as (a & Ha).
  destruct (inv_op _ _ _ _ p Hw Ha) as (o & Ho); [set_solver|].
  unfold disc_att_send_op. apply wp_bind. eapply wp_mono; [|eapply wp_respond; [exact Hw|exact Ha|exact Ho|]].
  2:{ intros _. right. right. split; [done|set_solver]. }
  intros x w1 (Hw1 & Hk1). destruct (inv_some _ _ _ Hw1) as (a1 & Ha1).
  destruct (inv_op _ _ _ _ p Hw1 Ha1) as (o1 & Ho1); [set_solver|].
  eapply wp_destroy_op; [apply client_nice|by eapply inv_timers|exact Ho1|].
  destruct (inv_destroyed X [p] w1 p o1 Hw1 Ho1 ltac:(left; set_solver)) as (_ & Hk2).
  split; [by eapply inv_gone|]. by eapply keeps_trans.
Qed.

Lemma down_later w w' : later w w' -> EvDown ∈ log w -> EvDown ∈ log w'.
Proof. intros [(k & ->) _ _ _] H. apply elem_of_app. by left. Qed.

Lemma wp_disc_all l w :
  inv l [] w -> EvDown ∈ log w -> wp (for_all disc l) (stays [] [] w) w.
Proof.
  revert w. induction l as [|p l IH]; intros w Hw Hd; [by apply wp_ret, stays_refl|].
  cbn [for_all]. apply wp_bind. eapply wp_mono; [|by apply wp_disc_one]. intros x w1 (Hw1 & Hk1).
  eapply wp_mono; [|apply IH; [done|eapply down_later; [apply Hk1|done]]].
  intros y w2 (Hw2 & Hk2). split; [done|by eapply keeps_trans].
Qed.

(** What stays when the link is down. *)
Definition quieter (w : world) (a : bt_att) (w' : world) (a' : bt_att) : Prop :=
  inv [] [] w' /\ att w' = Some a' /\ keeps2 w w' /\ att_io w' = att_io w /\ shrinks a a' /\
  EvDown ∈ log w'.

Lemma shrinks_trans a b c : shrinks a b -> shrinks b c -> shrinks a c.
Proof. intros (H1 & H2 & H3) (H4 & H5 & H6). split_and!; by etrans. Qed.
Lemma keeps2_down w w' : keeps2 w w' -> EvDown ∈ log w -> EvDown ∈ log w'.
Proof. intros (_ & _ & k & ->) H. apply elem_of_app. by left. Qed.
Lemma quieter_trans w1 a1 w2 a2 w3 a3 : quieter w1 a1 w2 a2 -> quieter w2 a2 w3 a3 -> quieter w1 a1 w3 a3.
Proof.
  intros (_ & _ & K1 & I1 & S1 & _) (H & A & K2 & I2 & S2 & D).
  split_and!; [done..|by eapply keeps2_trans|congruence|by eapply shrinks_trans|done].
Qed.
Lemma quieter_io w1 a1 w2 a2 : att w1 = Some a1 -> quieter w1 a1 w2 a2 -> strip2 a2 = strip2 a1.
Proof.
  intros Ha (_ & Ha2 & (H & _) & _). rewrite Ha, Ha2 in H. by apply (inj Some) in H.
Qed.

(** One of the queues. *)
Lemma wp_detach {A} w a a' q (k : P A) Q :
  inv [] [] w -> att w = Some a -> EvDown ∈ log w -> has_io a = false -> addrs a ≡ₚ q ++ addrs a' ->
  next_send_id a' = next_send_id a -> shrinks a a' -> strip a' = strip a -> att_ok a' ->
  (forall w2 a2, quieter w a w2 a2 -> strip a2 = strip a -> shrinks a' a2 -> wp k Q w2) ->
  wp (put_att a';; for_all disc q;; k) Q w.
Proof.
  intros Hw Ha Hd Hio Hp Hn Hs Hst Hok HQ. apply wp_bind, wp_modify. set (w1 := World _ _ _ _ _ _ _ _).
  assert (inv q [] w1) as Hw1.
  { eapply (inv_core [] [] q [] w a); [done..| |done|].
    - unfold strip in Hst. unfold strip2. congruence.
    - destruct (pending_strip _ _ Hst). by eapply (core_detach a a' q); [by apply inv_parts|..]. }
  apply wp_bind. eapply wp_mono; [|by apply wp_disc_all]. intros x w2 (Hw2 & Hk2).
  destruct (keeps_pending w1 w2 a' Hk2 eq_refl) as (a2 & Ha2 & Hs2).
  destruct Hk2 as (K1 & K2 & Hl). destruct (lt_down _ _ Hl a' a2 eq_refl Ha2) as (Hi2 & Hsh).
  { unfold strip in Hst. congruence. }
  apply (HQ w2 a2); [|congruence|done]. split_and!; [done..| |done|by eapply shrinks_trans|by eapply down_later].
  eapply (keeps2_trans w w1); [|by apply keeps_weaken]. apply (keeps2_att w a); [done|]. unfold strip in Hst.
  unfold strip2. congruence.
Qed.

(** A pending operation. *)
Lemma wp_disc_pending {A} w a x f (k : bt_att -> P A) Q :
  inv [] [] w -> att w = Some a -> EvDown ∈ log w -> has_io a = false ->
  (forall p o, x = Some p -> ops w !! p = Some o -> next_up [] a (log w) p o) ->
  (forall a', strip a' = strip a -> NoDup (addrs a') -> forall p, x = Some p -> taken a' (f a') p) ->
  (forall a', strip2 (f a') = strip2 a' /\ shrinks a' (f a')) ->
  (x = None -> f a = a) ->
  (forall w2 a', quieter w a w2 (f a') -> strip a' = strip a -> wp (k a') Q w2) ->
  wp (disc_opt client rec x;; a ← get_att; put_att (f a);; k a) Q w.
Proof.
  intros Hw Ha Hd Hio Hn Ht Hf HN HQ. destruct x as [p|]; cbn [disc_opt].
  - pose proof (inv_nodup _ _ _ _ Hw Ha) as Hnd.
    destruct (inv_op _ _ _ _ p Hw Ha) as (o & Ho); [by apply (Ht a eq_refl Hnd)|].
    unfold disc_att_send_op. apply wp_bind, wp_bind.
    eapply wp_mono; [|eapply wp_respond; [exact Hw|exact Ha|exact Ho|by intros; apply Hn]].
    intros y w1 (Hw1 & Hk1). destruct (keeps_pending _ _ _ Hk1 Ha) as (a1 & Ha1 & Hs1).
    destruct Hk1 as (K1 & K2 & Hl). destruct (lt_down _ _ Hl a a1 Ha Ha1 Hio) as (Hi & Hsh).
    assert (taken a1 (f a1) p) as Htk by (eapply Ht; [done|by eapply inv_nodup|done]).
    destruct (inv_op _ _ _ _ p Hw1 Ha1) as (o1 & Ho1); [apply Htk|].
    destruct (Hf a1) as (Hf1 & Hf2).
    eapply wp_destroy_op; [apply client_nice|by eapply inv_timers|exact Ho1|].
    apply wp_bind, (wp_get_att a1); [done|]. apply wp_bind, wp_modify.
    assert (p ∈ [p]) as Hp by set_solver.
    pose proof (inv_gone [] [] _ p o1 (inv_take [] [p] w1 a1 (f a1) p Hw1 Ha1 Htk Hp) Ho1) as Hw2.
    apply (HQ _ a1); [|done]. split_and!; [exact Hw2|done| |done|by eapply shrinks_trans|].
    + eapply (keeps2_trans w w1); [by apply keeps_weaken|]. split_and!; cbn; [rewrite Ha1; by apply (f_equal Some)|done|by eexists].
    + cbn. apply elem_of_app. left. by eapply down_later.
  - apply wp_bind, wp_ret. apply wp_bind, (wp_get_att a); [done|]. apply wp_bind, wp_modify.
    rewrite (HN eq_refl), <- Ha. apply (HQ _ a); [|done]. rewrite (HN eq_refl). destruct w; cbn in *.
    split_and!; [done..|apply keeps2_refl|done|done|done].
Qed.

(** *** Handlers of the disconnection *)

Lemma find_at {A} (l : list (Z * A)) p : p ∈ l.*1 -> exists v, List.find (fun d => fst d =? p) l = Some (p, v).
Proof using Type.
  intros (x & Hp & Hx)%list_elem_of_fmap. induction l as [|[q v] l IH]; [set_solver|]. cbn in *.
  destruct (Z.eqb_spec q p) as [->|Hne]; [by exists v|]. apply IH. apply elem_of_cons in Hx as [->|Hx]; [|done].
  cbn in Hp. congruence.
Qed.

Lemma wp_disconn_foreach l err w a :
  inv [] [] w -> att w = Some a -> l ⊆ (disconn_list a).*1 ->
  wp (disconn_foreach client rec l err) (stays [] [] w) w.
Proof.
  revert w a. induction l as [|p l IH]; intros w a Hw Ha Hl; [by apply wp_ret, stays_refl|].
  cbn [disconn_foreach]. apply wp_bind, (wp_get_att a); [done|].
  destruct (is_nil (disconn_list a)); [by apply wp_ret, stays_refl|].
  destruct (find_at (disconn_list a) p) as (d & Hf); [set_solver|].
  apply (wp_stays [] []).
  - unfold disconn_handler. apply wp_bind, (wp_get_att a); [done|]. rewrite Hf.
    destruct (removed d); [by apply wp_ret, stays_refl|].
    destruct (disconn_has_callback d); [|by apply wp_when_false, stays_refl].
    apply wp_when_true, wp_client; [done|]. by apply inv_log.
  - intros y w1 Hw1 Hk1. destruct (keeps_pending _ _ _ Hk1 Ha) as (a1 & Ha1 & Hs1).
    apply (IH w1 a1); [done..|]. unfold strip in Hs1.
    replace (disconn_list a1) with (disconn_list a) by congruence. set_solver.
Qed.

(** *** The end of the link *)

(** The transport without a link. *)
Record over (w : world) (r c : Z) (w' : world) : Prop := {
  ov_inv : inv [] [] w';
  ov_att : exists a, att w' = Some a /\ ref_count a = r /\ has_io a = false /\ addrs a = [] /\
    notify_list a = [] /\ disconn_list a = [];
  ov_io : exists j, att_io w' = Some j /\ dead j /\ Io.ref_count j = c;
  ov_log : exists k, log w' = log w ++ k /\ EvDown ∈ k;
}.

(** The io is destroyed and given up. *)
Lemma wp_cut {A} w a i (k : P A) Q :
  inv [] [] w -> att w = Some a -> has_io a = true -> att_io w = Some i -> 2 <= Io.ref_count i ->
  (forall w2 a2 j, inv [] [] w2 -> att w2 = Some a2 -> has_io a2 = false -> ref_count a2 = ref_count a ->
     att_io w2 = Some j -> dead j -> Io.ref_count j = Io.ref_count i - 1 ->
     (exists x, log w2 = log w ++ EvDown :: x) -> wp k Q w2) ->
  wp (emit EvDown;; on_io (io_destroy;; mret true);; a ← get_att; put_att (set_has_io a false);; k) Q w.
Proof.
  intros Hw Ha Hio Hi Hr HQ. apply wp_bind, wp_event. unfold on_io.
  pose proof Hw as (b & Hb & Hc & Hsp & Hou). rewrite Ha in Hb. injection Hb as <-.
  destruct (o_io _ _ _ Hou Hio) as (i' & Hi' & (I1 & I2 & I3 & I4 & I5)). rewrite Hi in Hi'. injection Hi' as <-.
  apply wp_bind, wp_bind, (wp_get_att a); [done|]. rewrite Hio. apply wp_bind.
  eapply (wp_io_destroy _ a i); [done..|]. intros a1 j x Ha1 Hj Hjr Hx. step. apply wp_ret.
  unfold io_released. rewrite (proj2 (Z.eqb_neq _ _)) by lia.
  apply wp_bind. eapply wp_get_att; [reflexivity|]. apply wp_bind, wp_modify. step.
  apply (HQ _ (set_has_io a1 false) j); try done.
  - set (w1 := World (Some (set_has_io a1 false)) (ops w) (Some j) (timers w) (next_addr w) (cw w) (tick w) (log w ++ [EvDown])).
    change (inv [] [] (logged w1 x)). apply inv_logged; [|done]. exists (set_has_io a1 false).
    assert (same_ops a (set_has_io a1 false)) as Hsame by (by destruct Ha1 as [->| ->]).
    split_and!; [done| | |].
    + eapply core_same; [|exact Hsame]. by apply core_down.
    + by destruct Ha1 as [->| ->], Hsp.
    + destruct Hou as [O1 O2 O3]. destruct Ha1 as [->| ->]; by constructor.
  - by destruct Ha1 as [->| ->].
  - exists x. cbn. by rewrite <- app_assoc.
Qed.

Lemma quieter_shrinks w a w' a' : quieter w a w' a' -> shrinks a a'.
Proof using Type. by intros (_ & _ & _ & _ & H & _). Qed.

(** The queues are emptied. *)
Lemma wp_flush_queues {A} w a (k : P A) Q :
  inv [] [] w -> att w = Some a -> has_io a = false -> EvDown ∈ log w ->
  (forall w2 a2, quieter w a w2 a2 -> queued a2 = [] -> wp k Q w2) ->
  wp (a ← get_att;
      put_att (set_req_queue a []);;
      for_all disc (req_queue a);;
      a ← get_att;
      put_att (set_ind_queue a []);;
      for_all disc (ind_queue a);;
      a ← get_att;
      put_att (set_write_queue a []);;
      for_all disc (write_queue a);;
      k) Q w.
Proof.
  intros Hw Ha Hio Hd HQ. apply wp_bind, (wp_get_att a); [done|].
  assert (forall w1 a1, quieter w a w1 a1 -> has_io a1 = false) as Hdown.
  { intros w1 a1 H1. pose proof (quieter_io _ _ _ _ Ha H1) as Hs. unfold strip2 in Hs. congruence. }
  eapply (wp_detach w a); [done..| |done| |done|exact (inv_att_ok _ _ _ _ Hw Ha)|].
  { unfold addrs, req_addrs. cbn. rewrite app_nil_r. solve_Permutation. }
  { split_and!; cbn; set_solver. }
  intros w1 a1 H1 _ S1. pose proof H1 as (Hw1 & Ha1 & _ & _ & _ & Hd1). apply wp_bind, (wp_get_att a1); [done|].
  eapply (wp_detach w1 a1); [done..|by eapply Hdown| |done| |done|exact (inv_att_ok _ _ _ _ Hw1 Ha1)|].
  { unfold addrs, ind_addrs. cbn. rewrite app_nil_r. solve_Permutation. }
  { split_and!; cbn; set_solver. }
  intros w2 a2 H2 _ S2. pose proof H2 as (Hw2 & Ha2 & _ & _ & _ & Hd2). apply wp_bind, (wp_get_att a2); [done|].
  pose proof (quieter_trans _ _ _ _ _ _ H1 H2) as C2.
  eapply (wp_detach w2 a2); [done..|by eapply Hdown| |done| |done|exact (inv_att_ok _ _ _ _ Hw2 Ha2)|].
  { unfold addrs. cbn. rewrite app_nil_r. solve_Permutation. }
  { split_and!; cbn; set_solver. }
  intros w3 a3 H3 _ S3. apply (HQ w3 a3); [by eapply quieter_trans|].
  pose proof (quieter_shrinks _ _ _ _ H2) as T2. pose proof (quieter_shrinks _ _ _ _ H3) as T3.
  destruct (shrinks_trans _ _ _ S1 (shrinks_trans _ _ _ T2 T3)) as (E1 & _ & _).
  destruct (shrinks_trans _ _ _ S2 T3) as (_ & E2 & _). destruct S3 as (_ & _ & E3). cbn in E1, E2, E3.
  unfold queued. by rewrite (list_nil_subseteq _ E1), (list_nil_subseteq _ E2), (list_nil_subseteq _ E3).
Qed.

(** The pending operations are answered. *)
Lemma wp_flush_pending {A} w a (k : P A) Q :
  inv [] [] w -> att w = Some a -> has_io a = false -> EvDown ∈ log w -> queued a = [] ->
  (forall w2 a2, quieter w a w2 a2 -> addrs a2 = [] -> wp k Q w2) ->
  wp (a ← get_att;
      disc_opt client rec (pending_req a);;
      a ← get_att;
      put_att (set_pending_req a None);;
      disc_opt client rec (pending_ind a);;
      a ← get_att;
      put_att (set_pending_ind a None);;
      k) Q w.
Proof.
  intros Hw Ha Hio Hd Hq HQ. apply wp_bind, (wp_get_att a); [done|].
  pose proof (inv_parts _ _ _ _ Hw Ha) as (Hh & _).
  eapply (wp_disc_pending w a (pending_req a) (fun a => set_pending_req a None)
    (fun a => disc_opt client rec (pending_ind a);; a ← get_att; put_att (set_pending_ind a None);; k));
    [done..| | |done| |].
  { intros p o Hp Ho. left. unfold req_addrs. rewrite Hp. split; [|done].
    eapply (h_req _ _ _ _ Hh); [|done]. unfold req_addrs. rewrite Hp. set_solver. }
  { intros a' (Hp' & _)%pending_strip Hnd p Hp. apply taken_pending_req; [done|by rewrite Hp']. }
  { intros Hp. destruct a. cbn in *. by rewrite Hp. }
  intros w4 a4 H4 Hs4. pose proof H4 as (Hw4 & Ha4 & _ & _ & S4 & Hd4).
  pose proof (inv_parts _ _ _ _ Hw4 Ha4) as (Hh4 & _).
  eapply (wp_disc_pending w4 (set_pending_req a4 None) (pending_ind a4) (fun a => set_pending_ind a None) (fun _ => k));
    [done..| | | |done| |].
  { pose proof (quieter_io _ _ _ _ Ha H4) as Hs. unfold strip2 in Hs. cbn in *. congruence. }
  { intros p o Hp Ho. right. left. unfold ind_addrs. cbn. rewrite Hp. split; [|done].
    eapply (h_ind _ _ _ _ Hh4); [|done]. unfold ind_addrs. cbn. rewrite Hp. set_solver. }
  { intros a' (_ & Hp')%pending_strip Hnd p Hp. apply taken_pending_ind; [done|]. by rewrite Hp'. }
  { intros Hp. destruct a4. cbn in *. by rewrite Hp. }
  intros w5 a5 H5 Hs5. pose proof (quieter_trans _ _ _ _ _ _ H4 H5) as C5. apply (HQ _ _ C5).
  destruct (pending_strip _ _ Hs5) as (Hpr5 & _). cbn in Hpr5.
  apply quieter_shrinks, shrinks_queued in C5. rewrite Hq in C5. apply list_nil_subseteq in C5.
  unfold queued in C5. cbn in C5. apply app_eq_nil in C5 as (E1 & (E2 & E3)%app_eq_nil).
  unfold addrs, req_addrs, ind_addrs. cbn. by rewrite Hpr5, E1, E2, E3.
Qed.

Lemma wp_disconnect_cb w a i err :
  inv [] [] w -> att w = Some a -> has_io a = true -> 1 <= ref_count a -> att_io w = Some i ->
  2 <= Io.ref_count i ->
  wp (disconnect_cb client rec err)
    (fun r w' => r = false /\ over w (ref_count a) (Io.ref_count i - 1) w') w.
Proof.
  intros Hw Ha Hio Hr Hi Hir. unfold disconnect_cb.
  eapply (wp_cut w a i); [done..|]. intros w1 a1 j Hw1 Ha1 Hio1 Hr1 Hj Hdj Hjr (x & Hx).
  assert (EvDown ∈ log w1) as Hd1 by (rewrite Hx; set_solver).
  eapply (wp_flush_queues w1 a1); [done..|]. intros w2 a2 H2 Hq2.
  pose proof H2 as (Hw2 & Ha2 & _ & _ & _ & Hd2). pose proof (quieter_io _ _ _ _ Ha1 H2) as Hs2.
  eapply (wp_flush_pending w2 a2); [done..|unfold strip2 in Hs2; congruence|done|done|].
  intros w3 a3 H3 Hq3. pose proof (quieter_trans _ _ _ _ _ _ H2 H3) as C3.
  pose proof C3 as (Hw3 & Ha3 & (_ & _ & y & Hy) & Hi3 & _ & _).
  pose proof (quieter_io _ _ _ _ Ha1 C3) as Hs3. unfold strip2 in Hs3.
  unfold bt_att_ref. apply wp_bind, wp_bind, (wp_get_att a3); [done|]. apply wp_modify.
  set (a4 := set_ref_count a3 (ref_count a3 + 1)). set (w4 := World _ _ _ _ _ _ _ _).
  assert (inv [] [] w4) as Hw4 by (by apply (inv_ref [] [] w3)).
  apply wp_bind. eapply wp_get_att; [reflexivity|]. apply wp_bind.
  eapply wp_mono; [|by apply (wp_disconn_foreach _ _ w4 a4)]. intros z w5 (Hw5 & Hk5).
  destruct (keeps_pending _ _ _ Hk5 eq_refl) as (a5 & Ha5 & Hs5). destruct Hk5 as (_ & _ & Hl5).
  destruct (lt_down _ _ Hl5 a4 a5 eq_refl Ha5) as (Hi5 & Hsh5); [cbn; congruence|].
  destruct (lt_log _ _ Hl5) as (u & Hu). cbn in Hu.
  apply wp_bind. eapply wp_mono; [|by apply (wp_unregister_all w5 a5)]. intros b w6 (v & Hv & ->).
  assert (inv [] [] (with_att w5 (bare a5))) as Hw6.
  { eapply inv_set; try done. intros []. by constructor; [|split; [constructor|by constructor]..]. }
  assert (ref_count a5 = ref_count a + 1 /\ has_io a5 = false /\ pending_req a5 = pending_req a3 /\
    pending_ind a5 = pending_ind a3) as (Hr5 & Hio5 & Hp5 & Hp5').
  { unfold strip in Hs5. cbn in Hs5. split_and!; congruence. }
  assert (addrs (bare a5) = []) as Hq5.
  { unfold addrs, req_addrs, ind_addrs in *. cbn. apply app_eq_nil in Hq3 as ((E1 & E2)%app_eq_nil & ((E3 & E4)%app_eq_nil & E5)%app_eq_nil).
    destruct Hsh5 as (S1 & S2 & S3). cbn in S1, S2, S3. rewrite E2 in S1. rewrite E4 in S2. rewrite E5 in S3.
    apply list_nil_subseteq in S1, S2, S3. by rewrite Hp5, Hp5', S1, S2, S3, E1, E3. }
  destruct (inv_logged _ _ _ v Hw6 Hv) as (Hw7 & _).
  apply wp_bind, (wp_unref_many _ _ (bare a5)); [done|cbn; lia|]. apply wp_ret. split; [done|]. constructor.
  - by apply (inv_ref [] [] (logged (with_att w5 (bare a5)) v)).
  - eexists. split; [reflexivity|]. cbn. split_and!; [lia|done|exact Hq5|done..].
  - exists j. cbn. rewrite Hi5. cbn. by rewrite Hi3.
  - exists (EvDown :: x ++ y ++ u ++ v). cbn. split; [|set_solver]. rewrite Hu, Hy, Hx.
    by rewrite <- !app_assoc.
Qed.
End down.
