(* ===== verification/AttLife.v ===== *)
(** The main loop's calls of the transport, and runs of it: calls of the program, timers and
    events of the descriptor in any order. *)
From Stdlib Require Import ZArith Lia.
From S2P Require Import Prelude Blocks StateM Io Crypto CryptoSpec Att AttTrace AttSpec AttFrame AttRun AttEvent AttDown.
From stdpp Require Import base numbers list option gmap.

Local Open Scope Z_scope.

(** ** Events of the descriptor *)

Definition with_io_of (w : world) (i : option (io io_fn io_destroy_fn)) : world :=
  World (att w) (ops w) i (timers w) (next_addr w) (cw w) (tick w) (log w).

(** While the main loop calls the io. *)
Record busy (r : Z) (l : list (Z * att_notify)) (w : world) : Prop := {
  b_inv : inv [] [] w;
  b_att : exists a, att w = Some a /\ ref_count a = r /\ has_io a = true /\ notify_list a = l;
  b_io : exists i, att_io w = Some i /\ Io.ref_count i = 2;
}.

Lemma busy_calm {A} r l w (x : A) w' : busy r l w -> calm w x w' -> busy r l w'.
Proof.
  intros [Hw (a & Ha & H1 & H2 & H3) (i & Hi & Hir)] (Hw' & K1 & K2 & _). constructor; [done| |].
  - rewrite Ha in K1. destruct (att w') as [a'|]; [|done]. apply (inj Some) in K1. unfold strip2 in K1.
    exists a'. split_and!; congruence.
  - rewrite Hi in K2. destruct (att_io w') as [i'|]; [|done]. apply (inj Some) in K2. unfold istrip in K2.
    exists i'. split; congruence.
Qed.

Lemma busy_io r l w i : busy r l w -> io_ok i -> Io.ref_count i = 2 -> busy r l (with_io_of w (Some i)).
Proof.
  intros [(b & Hb & Hc & Hsp & [O1 O2 O3]) Ha _] Hi Hr. constructor; [|done|by exists i].
  exists b. split_and!; try done. constructor; [done| |done]. intros _. by exists i.
Qed.
Lemma busy_ok r l w i : busy r l w -> att_io w = Some i -> io_ok i.
Proof.
  intros [(b & Hb & _ & _ & [_ O _]) (a & Ha & _ & Hio & _) _] Hi. rewrite Ha in Hb. injection Hb as <-.
  destruct (O Hio) as (j & Hj & Hok). rewrite Hi in Hj. by injection Hj as <-.
Qed.

Section loop.
Context `{ENV : Env}.
Variable n : nat.
Abbreviation rec := (calls (Datatypes.S n)).
Variables (read : Z -> Z -> option bytes) (writev : Z -> list bytes -> Z) (err : option Z).
Hypothesis read_size : forall fd len b, read fd len = Some b -> zlen b <= len.

Definition run_io (c : io_fn) : P bool :=
  match c with
  | CanReadData => can_read_data mainloop_modify malloc counter get_level set_level fails aes cmac client rec (Datatypes.S n) read
  | CanWriteData => can_write_data timer_ok client rec writev
  | DisconnectCb => disconnect_cb client rec err
  end.

Lemma wp_dispatch_read r l w :
  busy r l w -> 1 <= r -> (length l <= Datatypes.S n)%nat -> (forall opcode, lonely opcode l) ->
  wp (dispatch run_io read_watch set_read_watch EPOLLIN) (fun _ => busy r l) w.
Proof using read_size.
  intros Hb Hr Hl Hlo. pose proof Hb as [Hw (a & Ha & Hra & Hio & Hn) (i & Hi & Hir)].
  destruct (busy_ok _ _ _ _ Hb Hi) as ([I1|I1] & _); unfold dispatch; apply wp_bind;
    (eapply wp_get_some; [exact Hi|]); rewrite I1; [by apply wp_ret|]; cbn [run_io].
  apply wp_bind. eapply wp_mono; [|apply (wp_can_read_data n w a (Datatypes.S n) read); [exact Hw|exact Ha|lia|by rewrite Hn|exact read_size|by rewrite Hn]].
  intros again w1 Hc. pose proof (busy_calm _ _ _ _ _ Hb Hc) as Hb1. destruct again; [by apply wp_ret|].
  pose proof Hb1 as [_ _ (i1 & Hi1 & Hir1)]. pose proof (busy_ok _ _ _ _ Hb1 Hi1) as (J1 & J2 & J3 & J4 & J5).
  unfold drop_watch. apply wp_bind. eapply wp_get_some; [exact Hi1|]. unfold destroy_watch. rewrite J2.
  apply wp_bind, wp_ret. apply wp_bind. eapply wp_get_some; [exact Hi1|]. apply wp_modify.
  apply (busy_io r l w1); [done| |done]. split_and!; [by left|done..].
Qed.

Lemma wp_dispatch_write r l w :
  busy r l w -> wp (dispatch run_io write_watch set_write_watch EPOLLOUT) (fun _ => busy r l) w.
Proof using Type.
  intros Hb. pose proof Hb as [Hw (a & Ha & Hra & Hio & Hn) (i & Hi & Hir)].
  destruct (busy_ok _ _ _ _ Hb Hi) as (_ & _ & [I1|I1] & _); unfold dispatch; apply wp_bind;
    (eapply wp_get_some; [exact Hi|]); rewrite I1; [by apply wp_ret|]; cbn [run_io].
  apply wp_bind. eapply wp_mono; [|apply (wp_can_write_data n w a writev); [exact Hw|exact Ha|exact Hio]].
  intros again w1 Hc. pose proof (busy_calm _ _ _ _ _ Hb Hc) as Hb1. destruct again; [by apply wp_ret|].
  pose proof Hb1 as [Hw1 _ (i1 & Hi1 & Hir1)].
  unfold drop_watch. apply wp_bind. eapply wp_get_some; [exact Hi1|].
  apply wp_bind. eapply wp_mono; [|exact (wp_destroy_writer [] [] w1 _ Hw1)]. intros x w2 Hc2.
  pose proof (busy_calm _ _ _ _ _ Hb1 (calm_stays _ _ _ Hc2)) as Hb2. pose proof Hb2 as [_ _ (i2 & Hi2 & Hir2)].
  pose proof (busy_ok _ _ _ _ Hb2 Hi2) as (J1 & J2 & J3 & J4 & J5).
  apply wp_bind. eapply wp_get_some; [exact Hi2|]. apply wp_modify.
  apply (busy_io r l w2); [done| |done]. split_and!; try done. by left.
Qed.

(** Events that tell that the link is down. *)
Definition hangup (ev : Z) : bool := negb (Z.land ev (Z.lor EPOLLRDHUP (Z.lor EPOLLHUP EPOLLERR)) =? 0).

(** The opcodes of the handlers. *)
Definition registered (a : bt_att) : list Z := (fun x => notify_opcode x.2) <$> notify_list a.
(** At most one handler among these is for an opcode whose handlers may change the MTU. *)
Definition single (R : list Z) : Prop := forall opcode, resizes opcode = true ->
  (length (filter (fun x => opcode_match x opcode = true) R) <= 1)%nat.

Lemma single_sub R R' : single R -> R' `sublist_of` R -> single R'.
Proof using Type.
  intros H Hs opcode Ho. specialize (H opcode Ho). etrans; [|exact H]. clear H Ho.
  induction Hs as [|x R' R _ IH|x R' R _ IH]; rewrite ?filter_cons; [done| |]; case_decide; cbn; lia.
Qed.
Lemma single_lonely a opcode : single (registered a) -> lonely opcode (notify_list a).
Proof using Type.
  intros H Ho. specialize (H opcode Ho). etrans; [|exact H]. unfold matches, registered. clear H Ho.
  induction (notify_list a) as [|x l IH]; [done|]. rewrite fmap_cons, !filter_cons. case_decide; cbn; lia.
Qed.

(** Between events; [R] are the opcodes handlers were registered for so far. *)
Record rest (R : list Z) (w : world) : Prop := {
  r_inv : inv [] [] w;
  r_att : exists a, att w = Some a /\ ref_count a = 1 /\ registered a `sublist_of` R /\
    if has_io a then exists i, att_io w = Some i /\ Io.ref_count i = 1
    else att_io w = None /\ addrs a = [] /\ notify_list a = [] /\ disconn_list a = [];
}.

Lemma over_over w r c w1 w2 j :
  over w r c w1 -> w2 = with_io_of w1 (Some j) -> dead j -> Io.ref_count j = c -> over w r c w2.
Proof using Type.
  intros [(b & Hb & Hc & Hsp & [O1 O2 O3]) (a & Ha & Hra & Hio & Hq) _ Hl] -> Hj Hjr. constructor; [|by exists a|by exists j|done].
  rewrite Ha in Hb. injection Hb as <-. exists a. split_and!; try done. constructor; [done| |done]. by rewrite Hio.
Qed.

Lemma wp_dispatch_down w r c w1 (watch_of : io io_fn io_destroy_fn -> watch io_fn io_destroy_fn) set_watch ev :
  over w r c w1 -> (forall j, dead j -> Io.callback (watch_of j) = None) ->
  wp (dispatch run_io watch_of set_watch ev) (fun _ => over w r c) w1.
Proof using Type.
  intros Ho Hj. pose proof Ho as [_ _ (j & Hi & Hdj & _) _]. unfold dispatch. apply wp_bind.
  eapply wp_get_some; [exact Hi|]. rewrite (Hj j Hdj). by apply wp_ret.
Qed.

Lemma wp_when {S} b (e : M S unit) (Q : unit -> S -> Prop) s : wp e Q s -> Q tt s -> wp (when b e) Q s.
Proof using Type. intros He HQ. destruct b; [by apply wp_when_true|by apply wp_when_false]. Qed.

(** The end of the link. *)
Lemma wp_hangup w a i :
  inv [] [] w -> att w = Some a -> has_io a = true -> 1 <= ref_count a -> att_io w = Some i -> Io.ref_count i = 2 ->
  wp (dispatch run_io disconnect_watch set_disconnect_watch EPOLLRDHUP) (fun _ => over w (ref_count a) 1) w.
Proof using Type.
  intros Hw Ha Hio Hr Hi Hir. pose proof Hw as (b & Hb & _ & _ & Hou). rewrite Ha in Hb. injection Hb as <-.
  destruct (o_io _ _ _ Hou Hio) as (i' & Hi' & (_ & _ & _ & I4 & _)). rewrite Hi in Hi'. injection Hi' as <-.
  unfold dispatch. apply wp_bind. eapply wp_get_some; [exact Hi|]. rewrite I4. cbn [run_io]. apply wp_bind.
  eapply wp_mono; [|apply (wp_disconnect_cb n w a i err); [done..|lia]]. intros r w1 (-> & Ho).
  rewrite Hir in Ho. change (2 - 1) with 1 in Ho. pose proof Ho as [_ _ (j & Hj & Hdj & Hjr) _].
  unfold drop_watch. apply wp_bind. eapply wp_get_some; [exact Hj|]. unfold destroy_watch. rewrite (d_disconnect _ Hdj).
  apply wp_bind, wp_ret. apply wp_bind. eapply wp_get_some; [exact Hj|]. apply wp_modify.
  eapply over_over; [exact Ho|reflexivity| |done]. destruct Hdj. by constructor.
Qed.

Lemma wp_att_event w R ev :
  rest R w -> (length R <= Datatypes.S n)%nat -> single R -> is_Some (att_io w) ->
  wp (att_event mainloop_modify timer_ok malloc counter get_level set_level fails aes cmac client (Datatypes.S n)
        read writev err ev)
    (fun _ w' => rest R w' /\ (hangup ev = true -> EvDown ∈ log w' /\ att_io w' = None)) w.
Proof using read_size.
  intros [Hw (a & Ha & Hr & Hn & Hio)] Hm HR (i & Hi). rewrite Hi in Hio.
  destruct (has_io a) eqn:Hh; [|by destruct Hio]. destruct Hio as (i' & Hi' & Hir). injection Hi' as <-.
  assert (busy 1 (notify_list a) (with_io_of w (Some (Io.set_ref_count i (Io.ref_count i + 1))))) as Hb.
  { constructor; [|by exists a|]; [|eexists; split; [reflexivity|cbn; lia]].
    destruct Hw as (b & Hb & Hc & Hsp & [O1 O2 O3]). rewrite Ha in Hb. injection Hb as <-.
    exists a. split_and!; try done. constructor; [done| |done]. intros H. destruct (O2 H) as (j & Hj & Hok).
    rewrite Hi in Hj. injection Hj as <-. by eexists. }
  unfold att_event. change (fun c : io_fn => _) with run_io. unfold io_callback, io_ref.
  apply wp_bind, wp_bind. eapply wp_get_some; [exact Hi|]. apply wp_modify.
  set (i1 := Io.set_ref_count i (Io.ref_count i + 1)) in *. set (w1 := with_io_of w (Some i1)) in *.
  change (with_io w (Some i1)) with w1. fold (hangup ev). destruct (hangup ev).
  - pose proof (busy_ok _ _ _ _ Hb eq_refl) as (J1 & J2 & J3 & J4 & J5).
    apply wp_bind, wp_bind. eapply wp_get_some; [reflexivity|]. apply wp_bind, wp_modify.
    apply wp_bind. eapply wp_get_some; [reflexivity|]. cbn [disconnect_watch set_write_watch set_read_watch].
    rewrite J4. set (i2 := set_write_watch _ _).
    assert (busy 1 (notify_list a) (with_io_of w1 (Some i2))) as Hb2.
    { apply busy_io; [done| |cbn; lia]. split_and!; [by left|done|by left|done..]. }
    apply wp_bind. eapply wp_mono; [|apply (wp_hangup (with_io_of w1 (Some i2)) a i2); [apply Hb2|done..|lia|done|cbn; lia]].
    intros x w3 H3. apply wp_ret. rewrite Hr in H3.
    apply wp_bind. eapply (wp_mono _ (fun _ => over (with_io_of w1 (Some i2)) 1 1)).
    2:{ apply wp_when; [|exact H3]. eapply wp_dispatch_down; [exact H3|]. intros j [Hd _ _]. by rewrite Hd. }
    intros y w4 H4. apply wp_bind. eapply (wp_mono _ (fun _ => over (with_io_of w1 (Some i2)) 1 1)).
    2:{ apply wp_when; [|exact H4]. eapply wp_dispatch_down; [exact H4|]. by intros j [_ Hd _]. }
    intros z w5 [Hw5 (a5 & Ha5 & Hr5 & Hio5 & Hq5 & Hn5 & Hd5) (j & Hj & Hdj & Hjr) (k & Hk & Hkd)].
    eapply wp_io_unref; [exact Hj|]. unfold io_released. rewrite Hjr. cbn [Z.sub Z.opp Z.add Z.pos_sub Z.eqb].
    split; [|split; [cbn; rewrite Hk; set_solver|done]]. constructor.
    + destruct Hw5 as (b & Hb5 & Hc5 & Hsp5 & [O1 O2 O3]). rewrite Ha5 in Hb5. injection Hb5 as <-.
      exists a5. split_and!; try done. constructor; [done| |done]. by rewrite Hio5.
    + exists a5. unfold registered. rewrite Hio5, Hn5. split_and!; [done|done|apply sublist_nil_l|done..].
  - apply wp_bind, wp_ret. apply wp_bind. eapply (wp_mono _ (fun _ => busy 1 (notify_list a))).
    2:{ apply wp_when; [|exact Hb]. apply wp_dispatch_read; [done|lia| |].
        - apply sublist_length in Hn. unfold registered in Hn. rewrite length_fmap in Hn. lia.
        - intros opcode. apply single_lonely. by eapply single_sub. }
    intros x w2 Hb2. apply wp_bind. eapply (wp_mono _ (fun _ => busy 1 (notify_list a))).
    2:{ apply wp_when; [|exact Hb2]. by apply wp_dispatch_write. }
    intros y w3 Hb3. pose proof Hb3 as [Hw3 (a3 & Ha3 & Hr3 & Hio3 & Hn3) (j & Hj & Hjr)].
    pose proof (busy_ok _ _ _ _ Hb3 Hj) as Hok.
    eapply wp_io_unref; [exact Hj|]. unfold io_released. rewrite Hjr. cbn [Z.sub Z.opp Z.add Z.pos_sub Z.eqb].
    split; [|done]. constructor.
    + destruct Hw3 as (b & Hb5 & Hc5 & Hsp5 & [O1 O2 O3]). rewrite Ha3 in Hb5. injection Hb5 as <-.
      exists a3. split_and!; try done. constructor; [done| |done]. intros _. by eexists.
    + exists a3. unfold registered. rewrite Hio3, Hn3. split_and!; [done..|]. by eexists.
Qed.
End loop.

(** ** Runs *)

Inductive input :=
  | InCall (c : att_call)
  | InTimer (t : Z)
  | InEvent (ev : Z) (read : Z -> Z -> option bytes) (writev : Z -> list bytes -> Z) (err : option Z).

(** What the program may call; references are kept by the one that made the transport. *)
Definition program_call (c : att_call) : Prop :=
  match c with
  | CallRef | CallUnref => False
  | CallSend opcode pdu length _ _ _ => send_ok opcode pdu length
  | CallSendErrorRsp opcode _ _ => is_u8 opcode
  | CallSetMtu mtu => mtu < 2 ^ 16
  | CallSetLocalKey key _ | CallSetRemoteKey key _ => 16 <= zlen key /\ bytes_ok key
  | _ => True
  end.
Definition input_ok (i : input) : Prop :=
  match i with
  | InCall c => program_call c
  | InTimer _ => True
  | InEvent _ read _ _ => forall fd len b, read fd len = Some b -> zlen b <= len
  end.
Definition registers (i : input) : list Z := match i with InCall (CallRegister opcode _) => [opcode] | _ => [] end.

(** ** Calls of the program *)

Lemma rest_stays {A} R w (x : A) w' : rest R w -> stays [] [] w x w' -> rest R w'.
Proof.
  intros [Hw (a & Ha & Hr & Hn & Hio)] (Hw' & Hk). constructor; [done|].
  destruct (keeps_pending _ _ _ Hk Ha) as (a' & Ha' & Hs). destruct Hk as (_ & K2 & Hl).
  exists a'. unfold strip in Hs.
  unfold registered in *. replace (ref_count a') with (ref_count a) by congruence.
  replace (notify_list a') with (notify_list a) by congruence. replace (disconn_list a') with (disconn_list a) by congruence.
  replace (has_io a') with (has_io a) by congruence. split_and!; [done..|]. destruct (has_io a) eqn:Hh.
  - destruct Hio as (i & Hi & Hir). rewrite Hi in K2. destruct (att_io w') as [i'|]; [|done].
    apply (inj Some) in K2. unfold istrip in K2. exists i'. split; congruence.
  - destruct Hio as (Hi & Hq & Hnd). destruct (lt_down _ _ Hl a a' Ha Ha' Hh) as (-> & (S1 & S2 & S3)).
    split; [done|]. split; [|done].
    unfold addrs, req_addrs, ind_addrs in *.
    apply app_eq_nil in Hq as ((E1 & E2)%app_eq_nil & ((E3 & E4)%app_eq_nil & E5)%app_eq_nil).
    rewrite E2 in S1. rewrite E4 in S2. rewrite E5 in S3. apply list_nil_subseteq in S1, S2, S3.
    replace (pending_req a') with (pending_req a) by congruence. replace (pending_ind a') with (pending_ind a) by congruence.
    by rewrite S1, S2, S3, E1, E3.
Qed.

(** Handlers. *)
Lemma inv_handlers X S w a a' N :
  inv X S w -> att w = Some a -> same_ops a a' -> has_io a' = has_io a -> has_crypto a' = has_crypto a ->
  (att_ok a -> att_ok a') -> (space a (next_addr w) -> space a' N) -> next_addr w <= N ->
  inv X S (World (Some a') (ops w) (att_io w) (timers w) N (cw w) (tick w) (log w)).
Proof.
  intros (b & Hb & Hc & Hn & [O1 O2 O3]) Ha Hs Hio Hcr Hok Hsp HN. rewrite Ha in Hb. injection Hb as <-.
  exists a'. split_and!; [done|eapply core_same; [by eapply core_next|done]|by apply Hsp|]. constructor; cbn; [by apply Hok| |].
  - by rewrite Hio.
  - by rewrite Hcr.
Qed.
Lemma listed_snoc {A} (l : list (Z * A)) N v : listed l N -> listed (l ++ [(N, v)]) (N + 1).
Proof.
  intros (H1 & H2). split.
  - rewrite fmap_app. apply NoDup_app. split_and!; [done| |by apply NoDup_singleton]. cbn. intros x Hx.
    intros ->%list_elem_of_singleton. apply list_elem_of_fmap in Hx as (y & Hy & Hx).
    eapply (proj1 (Forall_forall _ _)) in Hx; [|exact H2]. cbn in Hx. lia.
  - apply Forall_app. split; [|constructor; [cbn; lia|by constructor]]. eapply Forall_impl; [exact H2|]. cbn. lia.
Qed.
Lemma listed_sub {A} (l k : list (Z * A)) N : listed l N -> k `sublist_of` l -> listed k N.
Proof.
  intros (H1 & H2) Hk. split; [eapply sublist_NoDup; [exact H1|by apply fmap_sublist]|].
  rewrite Forall_forall in *. intros x Hx. apply H2. by eapply sublist_subseteq.
Qed.
Lemma listed_nil {A} N : listed (@nil (Z * A)) N.
Proof. split; constructor. Qed.
Lemma remove_if_sub {A} (f : A -> bool) l x k : remove_if f l = Some (x, k) -> k `sublist_of` l.
Proof.
  revert k. induction l as [|y l IH]; intros k; [done|]. cbn. destruct (f y).
  - intros [= -> ->]. by apply sublist_cons.
  - destruct (remove_if f l) as [[z k']|]; [|done]. intros [= -> <-]. by apply sublist_skip, IH.
Qed.
Lemma mark_removed_fst id l : (mark_removed id l).*1 = l.*1.
Proof. induction l as [|[p d] l IH]; [done|]. cbn. destruct (_ =? _); cbn; [done|by rewrite IH]. Qed.
Lemma listed_mark id l N : listed l N -> listed (mark_removed id l) N.
Proof.
  unfold listed. rewrite mark_removed_fst. intros (H1 & H2). split; [done|].
  rewrite Forall_forall in *. intros x Hx. apply (list_elem_of_fmap_2 fst) in Hx. rewrite mark_removed_fst in Hx.
  apply list_elem_of_fmap in Hx as (y & -> & Hy). by apply H2.
Qed.

(** Only the handlers changed, and some of them are told. *)
Lemma rest_handlers R w a a' N k :
  rest R w -> att w = Some a -> same_ops a a' -> ref_count a' = ref_count a -> has_io a' = has_io a ->
  has_crypto a' = has_crypto a -> (att_ok a -> att_ok a') -> (space a (next_addr w) -> space a' N) ->
  next_addr w <= N -> registered a' `sublist_of` R ++ k ->
  (has_io a = false -> notify_list a = [] -> disconn_list a = [] -> notify_list a' = [] /\ disconn_list a' = []) ->
  rest (R ++ k) (World (Some a') (ops w) (att_io w) (timers w) N (cw w) (tick w) (log w)).
Proof.
  intros [Hw (b & Hb & Hr & Hn & Hio)] Ha Hs Hrc Hh Hcr Hok Hsp HN Hl Hnil. rewrite Ha in Hb. injection Hb as <-.
  constructor; [by eapply inv_handlers|]. exists a'. rewrite Hrc, Hh. split_and!; [done..|].
  destruct (has_io a); [done|]. destruct Hio as (Hi & Hq & Hn1 & Hn2). destruct (Hnil eq_refl Hn1 Hn2) as (-> & ->).
  split; [done|]. split; [|done].
  destruct Hs as (E1 & E2 & E3 & E4 & E5 & _). unfold addrs, req_addrs, ind_addrs in *.
  by rewrite E1, E2, E3, E4, E5.
Qed.
Lemma rest_hushed {A} R w (x : A) w' : rest R w -> hushed w x w' -> rest R w'.
Proof.
  intros Hr (k & Hk & ->). apply (rest_stays R w x _ Hr). pose proof Hr as [Hw _]. by apply inv_logged.
Qed.
Lemma rest_more R k w : rest R w -> rest (R ++ k) w.
Proof.
  intros [Hw (a & Ha & Hr & Hn & Hio)]. constructor; [done|]. exists a. split_and!; [done..| |done].
  etrans; [exact Hn|]. by apply sublist_inserts_r.
Qed.

(** ** Cancelling everything *)

Definition answered_all (S : list Z) (O : gmap Z att_send_op) (q : list Z) : Prop :=
  forall type p o, p ∈ q -> O !! p = Some o -> unanswered type S p o = None.

Lemma core_take_all a a' q S O tm N L :
  core [] S a O tm N L -> answered_all S O (addrs a) -> addrs a ≡ₚ q ++ addrs a' -> next_send_id a' = next_send_id a ->
  req_addrs a' ⊆ req_addrs a -> ind_addrs a' ⊆ ind_addrs a -> queued a' ⊆ queued a ->
  write_queue a' ⊆ write_queue a -> core q S a' O tm N L.
Proof.
  intros Hc HS Hp Hn Hr Hi Hq Hw. pose proof Hc as ([H1 H2 H3 H4 H5 H6 H7 H8] & _).
  assert (forall type r, r ⊆ addrs a -> oview (unanswered type S) O r = []) as Hv.
  { intros type r Hr'. apply oview_nil. intros p o Hpr. by apply HS, Hr'. }
  assert (q ++ addrs a' ⊆ addrs a) as Hqs by (by rewrite Hp).
  eapply core_move; [exact Hc|by rewrite app_nil_l|done| | | | |].
  - intros p o Hx. by apply H4, Hr.
  - intros p o Hx. by apply H5, Hi.
  - intros p o Hx. by apply H7, Hq.
  - intros p o Hx. by apply H8, Hw.
  - intros d _. rewrite !Hv; [split; apply ord_same|..]; unfold addrs in *; set_solver.
Qed.

Lemma inv_forget_all S w :
  inv [] S w -> (forall p o, ops w !! p = Some o -> op_callback o = false) -> inv [] [] w.
Proof.
  induction S as [|p S IH]; intros Hw Ho; [done|]. apply IH; [|done]. eapply inv_forget; [exact Hw|].
  intros o. apply Ho.
Qed.

(** What the destruction of operations leaves. *)
Definition spared (w : world) (w' : world) : Prop :=
  att w' = att w /\ att_io w' = att_io w /\ cw w' = cw w /\ (exists k, log w' = log w ++ k).
Lemma spared_refl w : spared w w.
Proof. split_and!; [done..|]. exists []. by rewrite app_nil_r. Qed.
Lemma spared_trans w1 w2 w3 : spared w1 w2 -> spared w2 w3 -> spared w1 w3.
Proof.
  intros (A1 & I1 & C1 & k1 & L1) (A2 & I2 & C2 & k2 & L2). split_and!; [congruence..|].
  exists (k1 ++ k2). by rewrite L2, L1, app_assoc.
Qed.

Section life.
Context `{ENV : Env}.
Variable n : nat.
Abbreviation rec := (calls (Datatypes.S n)).

Lemma wp_destroy_ops q S w :
  inv q S w -> q ⊆ S -> wp (for_all (destroy_att_send_op client rec) q)
    (fun _ w' => inv [] S w' /\ spared w w') w.
Proof.
  revert w. induction q as [|p q IH]; intros w Hw Hq; [apply wp_ret; split; [done|apply spared_refl]|].
  destruct (inv_some _ _ _ Hw) as (a & Ha). destruct (inv_op _ _ _ _ p Hw Ha) as (o & Ho); [set_solver|].
  cbn [for_all]. apply wp_bind. eapply wp_destroy_op; [apply client_nice|by eapply inv_timers|exact Ho|].
  destruct (inv_destroyed q S w p o Hw Ho ltac:(left; set_solver)) as (Hw1 & _).
  eapply wp_mono; [|apply IH; [exact Hw1|set_solver]]. intros x w2 (Hw2 & Hs2). split; [done|].
  eapply spared_trans; [|exact Hs2]. split_and!; [done..|]. by eexists.
Qed.

(** A queue whose operations are cancelled. *)
Lemma wp_take_queue {A} S w a a' q (k : P A) Q :
  inv [] S w -> att w = Some a -> addrs a ⊆ S -> addrs a ≡ₚ q ++ addrs a' -> next_send_id a' = next_send_id a ->
  shrinks a a' -> strip a' = strip a -> att_ok a' ->
  (forall w2, inv [] S w2 -> spared (with_att w a') w2 -> wp k Q w2) ->
  wp (put_att a';; for_all (destroy_att_send_op client rec) q;; k) Q w.
Proof.
  intros Hw Ha HS Hp Hn Hsh Hst Hok HQ. apply wp_bind, wp_modify. fold (with_att w a').
  assert (inv q S (with_att w a')) as Hw1.
  { eapply (inv_core [] S q S w a); [done..| |done|].
    - unfold strip in Hst. unfold strip2. congruence.
    - destruct (pending_strip _ _ Hst) as (P1 & P2). pose proof (shrinks_queued _ _ Hsh) as Hq. destruct Hsh as (S1 & S2 & S3).
      apply (core_take_all a a' q S); try done; [by apply inv_parts| | |].
      + intros type p o Hpa _. by apply unanswered_mem, HS.
      + unfold req_addrs. rewrite P1. set_solver.
      + unfold ind_addrs. rewrite P2. set_solver. }
  apply wp_bind. eapply wp_mono; [|apply wp_destroy_ops; [exact Hw1|]].
  - intros x w2 (Hw2 & Hs2). by apply HQ.
  - intros x Hx. apply HS. rewrite Hp. apply elem_of_app. by left.
Qed.

Definition silenced (x : option Z) (w : world) : Prop :=
  forall p o, x = Some p -> ops w !! p = Some o -> op_callback o = false.

Lemma wp_cancel_opt x y S w :
  inv [] S w -> (forall p, x = Some p -> p ∈ S /\ is_Some (ops w !! p)) -> silenced y w ->
  wp (cancel_opt client rec x)
    (fun _ w' => inv [] S w' /\ spared w w' /\ silenced x w' /\ silenced y w' /\ dom (ops w') = dom (ops w)) w.
Proof.
  intros Hw Hx Hy. destruct x as [p|]; cbn [cancel_opt].
  2:{ apply wp_ret. split_and!; [done|apply spared_refl|done..]. }
  destruct (Hx p eq_refl) as (Hp & (o & Ho)). eapply wp_silence; [apply client_nice|exact Ho|]. split_and!.
  - destruct Hw as (a & Ha & Hc & HN & O). exists a. split_and!; [done| |done..]. by apply core_silence.
  - split_and!; [done..|]. by eexists.
  - intros q u [= <-]. cbn [ops]. rewrite lookup_insert_eq. by intros [= <-].
  - intros q u Hq. cbn [ops]. destruct (decide (p = q)) as [->|Hne].
    + rewrite lookup_insert_eq. by intros [= <-].
    + rewrite lookup_insert_ne by done. by apply Hy.
  - cbn [ops]. rewrite dom_insert_L. apply elem_of_dom_2 in Ho. set_solver.
Qed.

Definition emptied (a : bt_att) : bt_att := set_write_queue (set_ind_queue (set_req_queue a []) []) [].

Lemma spared_put w a a' w1 w2 :
  spared (with_att w a) w1 -> spared (with_att w1 a') w2 -> spared (with_att w a') w2.
Proof using Type.
  intros (A1 & I1 & C1 & k1 & L1) (A2 & I2 & C2 & k2 & L2). cbn in *. split_and!; cbn; [congruence..|].
  exists (k1 ++ k2). by rewrite L2, L1, app_assoc.
Qed.

Lemma wp_cancel_queues {A} S w a (k : P A) Q :
  inv [] S w -> att w = Some a -> addrs a ⊆ S ->
  (forall w', inv [] S w' -> spared (with_att w (emptied a)) w' -> wp k Q w') ->
  wp (a ← get_att;
      put_att (set_req_queue a []);;
      for_all (destroy_att_send_op client rec) (req_queue a);;
      a ← get_att;
      put_att (set_ind_queue a []);;
      for_all (destroy_att_send_op client rec) (ind_queue a);;
      a ← get_att;
      put_att (set_write_queue a []);;
      for_all (destroy_att_send_op client rec) (write_queue a);;
      k) Q w.
Proof.
  intros Hw Ha HS HQ. pose proof (inv_att_ok _ _ _ _ Hw Ha) as Hok. apply wp_bind, (wp_get_att a); [done|].
  eapply (wp_take_queue S w a); [exact Hw|done|exact HS| |done| |done|exact Hok|].
  { unfold addrs, req_addrs. cbn. rewrite app_nil_r. solve_Permutation. }
  { split_and!; cbn; set_solver. }
  intros w2 Hw2 Hs2. set (a2 := set_req_queue a []) in *. pose proof (proj1 Hs2) as Ha2. cbn [att with_att] in Ha2.
  assert (addrs a2 ⊆ addrs a) as Hq2 by (unfold addrs, req_addrs, ind_addrs; cbn; set_solver).
  apply wp_bind, (wp_get_att a2); [done|].
  eapply (wp_take_queue S w2 a2); [exact Hw2|done|by etrans| |done| |done|exact Hok|].
  { unfold addrs, ind_addrs. cbn. rewrite app_nil_r. solve_Permutation. }
  { split_and!; cbn; set_solver. }
  intros w3 Hw3 Hs3. set (a3 := set_ind_queue a2 []) in *. pose proof (proj1 Hs3) as Ha3. cbn [att with_att] in Ha3.
  assert (addrs a3 ⊆ addrs a2) as Hq3 by (unfold addrs, req_addrs, ind_addrs; cbn; set_solver).
  apply wp_bind, (wp_get_att a3); [done|].
  eapply (wp_take_queue S w3 a3); [exact Hw3|done|by do 2 (etrans; [eassumption|])| |done| |done|exact Hok|].
  { unfold addrs. cbn. rewrite app_nil_r. solve_Permutation. }
  { split_and!; cbn; set_solver. }
  intros w4 Hw4 Hs4. apply HQ; [done|]. eapply spared_put; [|exact Hs4]. by eapply spared_put.
Qed.

(** The pending operations stay, without their functions. *)
Lemma wp_cancel_all w a :
  inv [] [] w -> att w = Some a ->
  wp (bt_att_cancel_all client rec)
    (fun _ w' => inv [] [] w' /\ spared (with_att w (emptied a)) w' /\
       forall p o, ops w' !! p = Some o -> op_callback o = false) w.
Proof.
  intros Hw Ha. unfold bt_att_cancel_all. apply wp_bind, wp_event. set (w1 := World _ _ _ _ _ _ _ _).
  set (S := addrs a ++ []).
  assert (inv [] S w1) as Hw1.
  { destruct Hw as (b & Hb & Hc & HN & O). rewrite Ha in Hb. injection Hb as <-. exists a.
    split_and!; [done| |done..]. by apply core_cancel_all. }
  assert (addrs a ⊆ S) as HS by (unfold S; rewrite app_nil_r; done).
  eapply (wp_cancel_queues S w1 a); [exact Hw1|done|exact HS|]. intros w2 Hw2 Hs2.
  pose proof (proj1 Hs2) as Ha2. cbn [att with_att] in Ha2.
  assert (forall p, p ∈ addrs (emptied a) -> p ∈ S /\ is_Some (ops w2 !! p)) as Hin.
  { intros p Hp. destruct (inv_op _ _ _ _ p Hw2 Ha2 Hp) as (o & Ho). split; [|by exists o]. apply HS.
    unfold addrs, req_addrs, ind_addrs in *. cbn in Hp. set_solver. }
  apply wp_bind, (wp_get_att (emptied a)); [done|]. apply wp_bind.
  eapply wp_mono; [|apply (wp_cancel_opt (pending_req (emptied a)) None S w2); [exact Hw2| |by intros ??]].
  2:{ intros p Hp. apply Hin. unfold addrs, req_addrs. rewrite Hp. set_solver. }
  intros x w3 (Hw3 & Hs3 & Q3 & _ & D3). pose proof (proj1 Hs3) as Ha3. rewrite Ha2 in Ha3.
  apply wp_bind, (wp_get_att (emptied a)); [done|]. apply wp_bind.
  eapply wp_mono; [|apply (wp_cancel_opt (pending_ind (emptied a)) (pending_req (emptied a)) S w3); [exact Hw3| |exact Q3]].
  2:{ intros p Hp. destruct (Hin p) as (H1 & H2); [unfold addrs, ind_addrs; rewrite Hp; set_solver|].
      split; [done|]. apply elem_of_dom. rewrite D3. by apply elem_of_dom. }
  intros y w4 (Hw4 & Hs4 & Q4 & Q4' & D4). pose proof (proj1 Hs4) as Ha4. rewrite Ha3 in Ha4.
  assert (forall p o, ops w4 !! p = Some o -> op_callback o = false) as Hsil.
  { intros p o Ho.
    pose proof (inv_parts _ _ _ _ Hw4 Ha4) as (Hh & _).
    assert (p ∈ addrs (emptied a)) as Hp by (apply (h_dom _ _ _ _ Hh p); by exists o).
    unfold addrs, req_addrs, ind_addrs in Hp. cbn in Hp. rewrite !app_nil_r, elem_of_app in Hp.
    destruct Hp as [Hp|Hp].
    + apply (Q4' p o); [|done]. cbn. destruct (pending_req a); set_solver.
    + apply (Q4 p o); [|done]. cbn. destruct (pending_ind a); set_solver. }
  apply wp_ret. split_and!; [by eapply inv_forget_all| |done].
  - pose proof (spared_trans _ _ _ Hs3 Hs4) as (E1 & E2 & E3 & u & E4).
    destruct Hs2 as (F1 & F2 & F3 & v & F4). cbn in F1, F2, F3, F4. split_and!; cbn; [congruence..|].
    rewrite E4, F4. exists ([EvCancelAll] ++ v ++ u). by rewrite <- !app_assoc.
Qed.

(** ** One input *)

Lemma rest_emptied R w a w' :
  rest R w -> att w = Some a -> inv [] [] w' -> spared (with_att w (emptied a)) w' -> rest R w'.
Proof using Type.
  intros [_ (b & Hb & Hr & Hn & Hio)] Ha Hw' (A1 & I1 & _). rewrite Ha in Hb. injection Hb as <-. cbn in A1, I1.
  constructor; [done|]. exists (emptied a). split_and!; [done..|]. cbn. rewrite I1. destruct (has_io a); [done|].
  destruct Hio as (Hi & Hq & Hnd). split; [done|]. split; [|done]. unfold addrs, req_addrs, ind_addrs in *.
  apply app_eq_nil in Hq as ((E1 & E2)%app_eq_nil & ((E3 & E4)%app_eq_nil & E5)%app_eq_nil).
  cbn. by rewrite E1, E3.
Qed.

Lemma wp_give w c : wp (give c) (hushed w) w.
Proof using Type.
  destruct c as [c|]; [|by apply wp_ret, hushed_refl]. cbn [give].
  destruct (cb_destroy c); [|by apply wp_when_false, hushed_refl].
  apply wp_when_true, wp_event. exists [EvGive (cb_data c)]. split; [by repeat constructor|done].
Qed.

(** Making the id of a handler. *)
Lemma wp_new_reg_id a w Q :
  att w = Some a -> (forall id x, Q id (with_att w (set_next_reg_id a x))) -> wp new_reg_id Q w.
Proof using Type.
  intros Ha HQ. unfold new_reg_id. apply wp_bind, (wp_get_att a); [done|]. apply wp_bind, wp_modify, wp_ret, HQ.
Qed.

Lemma wp_register R w opcode c :
  rest R w -> wp (bt_att_register opcode c) (fun _ => rest (R ++ [opcode])) w.
Proof using Type.
  intros Hr. pose proof Hr as [Hw (a & Ha & Hrc & Hn & Hio)]. unfold bt_att_register.
  apply wp_bind, (wp_get_att a); [done|]. destruct (has_io a) eqn:Hh; [|by apply wp_ret, rest_more]. cbn [negb].
  apply wp_bind. eapply wp_new_reg_id; [done|]. intros id x. apply wp_bind, wp_fresh_addr. step.
  apply wp_bind. eapply wp_mono; [|apply wp_give]. intros y w1 (k & Hk & ->).
  apply wp_bind. eapply wp_get_att; [reflexivity|]. apply wp_bind, wp_modify, wp_ret. set (a' := set_notify_list _ _).
  apply (rest_hushed _ (World (Some a') (ops w) (att_io w) (timers w) (next_addr w + 1) (cw w) (tick w) (log w)) tt);
    [|by exists k].
  eapply (rest_handlers R w a a' (next_addr w + 1) [opcode]); [exact Hr|exact Ha|try done..|lia| |congruence].
  - intros [H1 H2 H3]. constructor; [cbn; lia|by apply listed_snoc|]. eapply listed_next; [exact H3|lia].
  - unfold registered. cbn. rewrite fmap_app. by apply sublist_app.
Qed.

Lemma wp_register_disconnect R w b c :
  rest R w -> wp (bt_att_register_disconnect b c) (fun _ => rest R) w.
Proof using Type.
  intros Hr. pose proof Hr as [Hw (a & Ha & Hrc & Hn & Hio)]. unfold bt_att_register_disconnect.
  apply wp_bind, (wp_get_att a); [done|]. destruct (has_io a) eqn:Hh; [|by apply wp_ret]. cbn [negb].
  apply wp_bind. eapply wp_new_reg_id; [done|]. intros id x. apply wp_bind, wp_fresh_addr. step.
  apply wp_bind. eapply wp_mono; [|apply wp_give]. intros y w1 (k & Hk & ->).
  apply wp_bind. eapply wp_get_att; [reflexivity|]. apply wp_bind, wp_modify, wp_ret. set (a' := set_disconn_list _ _).
  apply (rest_hushed _ (World (Some a') (ops w) (att_io w) (timers w) (next_addr w + 1) (cw w) (tick w) (log w)) tt);
    [|by exists k].
  rewrite <- (app_nil_r R). eapply (rest_handlers R w a a' (next_addr w + 1) []); [exact Hr|exact Ha|try done..|lia| |congruence].
  - intros [H1 H2 H3]. constructor; [cbn; lia| |by apply listed_snoc]. eapply listed_next; [exact H2|lia].
  - by rewrite app_nil_r.
Qed.

(** Handlers that are taken away, or changed. *)
Lemma rest_fewer R w a a' :
  rest R w -> att w = Some a -> same_ops a a' -> ref_count a' = ref_count a -> has_io a' = has_io a ->
  has_crypto a' = has_crypto a -> (att_ok a -> att_ok a') -> (space a (next_addr w) -> space a' (next_addr w)) ->
  notify_list a' `sublist_of` notify_list a -> (disconn_list a = [] -> disconn_list a' = []) ->
  rest R (with_att w a').
Proof using Type.
  intros Hr Ha Hs Hrc Hh Hcr Hok Hsp Hn Hd. rewrite <- (app_nil_r R).
  eapply (rest_handlers R w a a' (next_addr w) []); [exact Hr|exact Ha|done..|lia| |].
  - rewrite app_nil_r. pose proof Hr as [_ (b & Hb & _ & Hsub & _)]. rewrite Ha in Hb. injection Hb as <-.
    etrans; [|exact Hsub]. by apply fmap_sublist.
  - intros _ Hnil Hnil'. rewrite Hnil in Hn. apply sublist_nil_r in Hn. by split; [|apply Hd].
Qed.

Lemma wp_unregister R w id :
  rest R w -> wp (bt_att_unregister client rec id) (fun _ => rest R) w.
Proof.
  intros Hr. pose proof Hr as [Hw (a & Ha & Hrc & Hn & Hio)]. unfold bt_att_unregister.
  destruct (id =? 0); [by apply wp_ret|]. apply wp_bind, (wp_get_att a); [done|].
  destruct (remove_if _ _) as [[h l]|] eqn:Hrm; [|by apply wp_ret]. apply remove_if_sub in Hrm.
  apply wp_bind, wp_modify. apply wp_bind. eapply wp_mono; [|apply wp_destroy_callback].
  intros x w' Hh. apply wp_ret. eapply rest_hushed; [|exact Hh].
  eapply (rest_fewer R w a); [exact Hr|exact Ha|try done..].
  intros [H1 H2 H3]. constructor; [done|by eapply listed_sub|done].
Qed.

Lemma wp_unregister_disconnect R w id :
  rest R w -> wp (bt_att_unregister_disconnect client rec id) (fun _ => rest R) w.
Proof.
  intros Hr. pose proof Hr as [Hw (a & Ha & Hrc & Hn & Hio)]. unfold bt_att_unregister_disconnect.
  destruct (id =? 0); [by apply wp_ret|]. apply wp_bind, (wp_get_att a); [done|].
  assert (forall l, (space a (next_addr w) -> listed l (next_addr w)) -> (disconn_list a = [] -> l = []) ->
    rest R (with_att w (set_disconn_list a l))) as Hput.
  { intros l Hl Hnil. eapply (rest_fewer R w a); [exact Hr|exact Ha|try done..].
    intros Hsp. constructor; [apply Hsp|apply Hsp|by apply Hl]. }
  destruct (negb (has_io a)).
  - destruct (List.find _ _); [|by apply wp_ret]. apply wp_bind, wp_modify, wp_ret.
    apply Hput; [intros Hsp; apply listed_mark, Hsp|by intros ->].
  - destruct (remove_if _ _) as [[h l]|] eqn:Hrm; [|by apply wp_ret]. apply remove_if_sub in Hrm.
    apply wp_bind, wp_modify. apply wp_bind. eapply wp_mono; [|apply wp_destroy_callback].
    intros x w' Hh. apply wp_ret. eapply rest_hushed; [|exact Hh]. apply Hput.
    + intros Hsp. eapply listed_sub; [apply Hsp|done].
    + intros Hnil. rewrite Hnil in Hrm. by apply sublist_nil_r in Hrm.
Qed.

(** Another debug or timeout callback. *)
Lemma wp_set_callback R w a (f : bt_att -> option callback -> bt_att) old c :
  rest R w -> att w = Some a -> strip2 (f a c) = strip2 a -> same_ops a (f a c) -> (att_ok a -> att_ok (f a c)) ->
  wp (destroy_callback client rec old;; give c;; a ← get_att; put_att (f a c);; mret true) (fun _ => rest R) w.
Proof.
  intros Hr Ha Hs Hsame Hok. unfold strip2 in Hs. apply wp_bind. eapply wp_mono; [|apply wp_destroy_callback]. intros x w1 (k1 & Hk1 & ->).
  apply wp_bind. eapply wp_mono; [|apply wp_give]. intros y w2 (k2 & Hk2 & ->).
  apply wp_bind. eapply wp_get_att; [exact Ha|]. apply wp_bind, wp_modify, wp_ret.
  apply (rest_hushed R (with_att w (f a c)) tt); [|exists (k1 ++ k2); split; [by apply Forall_app|]].
  - eapply (rest_fewer R w a); [exact Hr|exact Ha|done|congruence..|done| | |].
    + intros [H1 H2 H3]. constructor; [done|..]; [replace (notify_list (f a c)) with (notify_list a) by congruence|
        replace (disconn_list (f a c)) with (disconn_list a) by congruence]; done.
    + by replace (notify_list (f a c)) with (notify_list a) by congruence.
    + by replace (disconn_list (f a c)) with (disconn_list a) by congruence.
  - unfold logged. cbn. by rewrite app_assoc.
Qed.

(** The key that is kept. *)
Lemma sign_set_key_ok key u : 16 <= zlen key -> bytes_ok key -> exists s, sign_set_key key u = Some s /\ key_ok (Some s).
Proof using Type.
  intros Hl Hk. unfold sign_set_key. rewrite ld_is_Some by lia. eexists. split; [done|]. intros s [= <-]. cbn [sign_key].
  split; [len_lia|]. by apply Forall_take, Forall_drop.
Qed.
Lemma rest_key R w a a' :
  rest R w -> att w = Some a -> strip a' = strip a -> same_ops a a' -> (att_ok a -> att_ok a') -> rest R (with_att w a').
Proof using Type.
  intros Hr Ha Hs Hsame Hok. apply (rest_stays R w tt); [done|]. apply (inv_att [] [] w a); try done; [apply Hr|].
  apply Hok. destruct Hr as [Hw _]. by eapply inv_att_ok.
Qed.
Lemma wp_set_close R w c : rest R w -> wp (bt_att_set_close_on_unref c) (fun _ => rest R) w.
Proof using Type.
  intros Hr. pose proof Hr as [Hw (a & Ha & Hrc & Hn & Hio)]. unfold bt_att_set_close_on_unref, on_io.
  apply wp_bind, (wp_get_att a); [done|]. destruct (has_io a) eqn:Hh; [|by apply wp_ret]. destruct Hio as (i & Hi & Hir).
  unfold io_set_close_on_destroy. apply wp_bind. eapply wp_get_some; [exact Hi|]. apply wp_bind, wp_modify, wp_ret.
  destruct Hw as (b & Hb & Hc & Hsp & [O1 O2 O3]). rewrite Ha in Hb. injection Hb as <-.
  destruct (O2 Hh) as (i' & Hi' & Hok). rewrite Hi in Hi'. injection Hi' as <-. constructor.
  - exists a. split_and!; try done. constructor; [done| |done]. intros _. by eexists.
  - exists a. rewrite Hh. split_and!; [done..|]. by eexists.
Qed.

Lemma wp_program_call R w c :
  rest R w -> program_call c -> wp (calls (Datatypes.S (Datatypes.S n)) c) (fun _ => rest (R ++ registers (InCall c))) w.
Proof.
  intros Hr Hc. pose proof Hr as [Hw (a & Ha & Hrc & Hn & Hio)].
  assert (registers (InCall c) = [] -> call_ok c ->
    wp (calls (Datatypes.S (Datatypes.S n)) c) (fun _ => rest (R ++ registers (InCall c))) w) as Hok.
  { intros -> Hcc. eapply wp_mono; [|by apply (wp_do_call _ c [] [] w Hw)]. intros x w' Hs.
    rewrite app_nil_r. by apply (rest_stays R w x). }
  destruct c; try (by apply Hok); try done; change (calls (Datatypes.S (Datatypes.S n)) ?c) with
    (do_call mainloop_modify malloc counter set_level fails aes cmac client rec c); cbn [do_call registers]; apply wp_bind.
  - eapply wp_mono; [|by apply (wp_cancel_all w a)]. intros x w' (Hw' & Hs & _). apply wp_ret, rest_more.
    exact (rest_emptied R w a w' Hr Ha Hw' Hs).
  - eapply wp_mono; [|by apply wp_register]. intros x w' H. by apply wp_ret.
  - eapply wp_mono; [|by apply wp_unregister]. intros x w' H. by apply wp_ret, rest_more.
  - eapply wp_mono; [|by apply (wp_unregister_all n w a)]. intros x w' (k & Hk & ->). apply wp_ret, rest_more.
    apply (rest_hushed R (with_att w (bare a)) tt); [|by exists k].
    eapply (rest_fewer R w a); [exact Hr|exact Ha|try done..].
    + intros [H1 H2 H3]. constructor; [done|apply listed_nil..].
    + apply sublist_nil_l.
  - eapply wp_mono; [|by apply wp_register_disconnect]. intros x w' H. by apply wp_ret, rest_more.
  - eapply wp_mono; [|by apply wp_unregister_disconnect]. intros x w' H. by apply wp_ret, rest_more.
  - unfold bt_att_set_debug. apply wp_bind, (wp_get_att a); [done|].
    eapply wp_mono; [|by apply (wp_set_callback R w a set_debug_callback (debug_callback a) c)]. intros x w' H. by apply wp_ret, rest_more.
  - unfold bt_att_set_timeout_cb. apply wp_bind, (wp_get_att a); [done|].
    eapply wp_mono; [|by apply (wp_set_callback R w a set_timeout_callback (timeout_callback a) c)]. intros x w' H. by apply wp_ret, rest_more.
  - eapply wp_mono; [|by apply (wp_set_security [] [] w)]. intros x w' Hs. by apply wp_ret, rest_more, (rest_stays R w x).
  - destruct Hc as (H1 & H2). destruct (sign_set_key_ok key user_data H1 H2) as (s & Hs & Hk). unfold bt_att_set_local_key.
    apply wp_bind, (wp_get_att a); [done|]. rewrite Hs. apply wp_bind, (wp_ub_some _ s); [done|]. apply wp_bind, wp_modify, wp_ret, wp_ret.
    apply rest_more. eapply (rest_key R w a); try done. intros (O1 & O2 & _ & O4). exact (conj O1 (conj O2 (conj Hk O4))).
  - destruct Hc as (H1 & H2). destruct (sign_set_key_ok key user_data H1 H2) as (s & Hs & Hk). unfold bt_att_set_remote_key.
    apply wp_bind, (wp_get_att a); [done|]. rewrite Hs. apply wp_bind, (wp_ub_some _ s); [done|]. apply wp_bind, wp_modify, wp_ret, wp_ret.
    apply rest_more. eapply (rest_key R w a); try done. intros (O1 & O2 & O3 & _). exact (conj O1 (conj O2 (conj O3 Hk))).
  - eapply wp_mono; [|by apply wp_set_close]. intros x w' H. by apply wp_ret, rest_more.
Qed.

Lemma wp_timer R w t : rest R w -> wp (fire client rec t) (fun _ => rest R) w.
Proof.
  intros Hr. pose proof Hr as [Hw (a & Ha & Hrc & Hn & Hio)]. destruct (has_io a) eqn:Hh.
  - eapply wp_mono; [|by apply wp_fire]. intros x w' (Hw' & K1 & K2 & _). constructor; [done|].
    rewrite Ha in K1. destruct (att w') as [a'|]; [|done]. apply (inj Some) in K1. unfold strip2 in K1.
    exists a'. replace (ref_count a') with (ref_count a) by congruence. replace (has_io a') with (has_io a) by congruence.
    unfold registered in *. replace (notify_list a') with (notify_list a) by congruence. rewrite Hh. split_and!; [done..|].
    destruct Hio as (i & Hi & Hir). rewrite Hi in K2. destruct (att_io w') as [i'|]; [|done].
    apply (inj Some) in K2. unfold istrip in K2. exists i'. split; congruence.
  - destruct Hio as (Hi & Hq & Hnd).
    assert (pending_req a = None /\ pending_ind a = None) as (P1 & P2).
    { apply app_eq_nil in Hq as ((E1 & _)%app_eq_nil & ((E3 & _)%app_eq_nil & _)%app_eq_nil).
      by destruct (pending_req a), (pending_ind a). }
    unfold fire. apply wp_bind, wp_gets. destruct (List.find _ _) as [[t' id]|] eqn:Hf; [|by apply wp_ret].
    apply List.find_some in Hf as (Hin & Ht). cbn in Ht. apply Z.eqb_eq in Ht as ->. apply list_elem_of_In in Hin.
    apply wp_bind. unfold timeout_cb. apply wp_bind, (wp_get_att a); [done|]. rewrite P1, P2.
    apply wp_bind, wp_ret, wp_bind, wp_ret, wp_ret.
    assert (then_remove w t false w) as Hs.
    { eapply inv_stray; [exact Hw|exact Ha|exact Hin|by rewrite P1|by rewrite P2]. }
    unfold then_remove, timeout_remove in Hs. unfold timeout_remove. destruct (t =? 0); [by apply wp_ret|].
    apply wp_bind, wp_gets, wp_modify. destruct Hs as (x & w2 & Hrun & Hw2 & _). cbv [mbind M_bind gets put_timers modify] in Hrun.
    injection Hrun as <- <-. constructor; [exact Hw2|]. exists a. rewrite Hh. done.
Qed.

(** ** The last reference *)

(** Nothing is left: every operation was answered, cancelled or timed out, its destroy function
    was called, and no timer runs. *)
Definition settled (tm : list (Z * Z)) (L : list event) : Prop :=
  tm = [] /\ exists s, trace L = Some s /\ t_req s = [] /\ t_ind s = [] /\ t_alive s = [].

Lemma core_end a O tm N L :
  core [] [] a O tm N L -> addrs a = [] -> O = ∅ /\ (few L -> settled tm L).
Proof using Type.
  intros (Hh & _ & _ & Hc) Hq. split.
  - apply map_empty. intros p. apply eq_None_not_Some. intros Hp%(h_dom _ _ _ _ Hh). rewrite Hq in Hp. set_solver.
  - intros Hf. destruct (Hc Hf) as ([K1 _ _] & s & [T1 _ _ _ T5 T6 T7]). rewrite Hq in K1, T7. cbn in K1, T7.
    apply app_eq_nil in Hq as (Hr & (Hi & _)%app_eq_nil). rewrite Hr in T5. rewrite Hi in T6.
    split; [by apply Permutation_nil_r|]. exists s. split_and!; [done|by eapply ord_nil..|by apply Permutation_nil_r].
Qed.

(** A pending operation that is destroyed with the transport, which still points to it; [a'] is
    the transport without it. *)
Lemma wp_destroy_pending w a a' x :
  inv [] [] (with_att w a) -> (forall p o, ops w !! p = Some o -> op_callback o = false) ->
  (forall p, x = Some p -> addrs a ≡ₚ p :: addrs a') -> (x = None -> a' = a) -> 
  next_send_id a' = next_send_id a -> strip2 a' = strip2 a -> att_ok a' ->
  req_addrs a' ⊆ req_addrs a -> ind_addrs a' ⊆ ind_addrs a -> queued a' ⊆ queued a -> write_queue a' ⊆ write_queue a ->
  wp (destroy_opt client rec x)
    (fun _ w' => inv [] [] (with_att w' a') /\ spared w w' /\ forall p o, ops w' !! p = Some o -> op_callback o = false) w.
Proof.
  intros Hw Hsil Hp HN Hn Hst Hok Hr Hi Hq Hwq. destruct x as [p|]; cbn [destroy_opt].
  2:{ apply wp_ret. rewrite HN by done. split_and!; [done|apply spared_refl|done]. }
  specialize (Hp p eq_refl).
  destruct (inv_op _ _ _ _ p Hw eq_refl) as (o & Ho); [rewrite app_nil_l, Hp; set_solver|]. cbn in Ho.
  assert (inv [p] [] (with_att w a')) as Hw1.
  { eapply (inv_core [] [] [p] [] (with_att w a) a); [done..|].
    apply (core_take_all a a' [p] []); try done; [by apply (inv_parts _ _ _ _ Hw)|].
    intros type q u _ Hu. apply unanswered_silent. by eapply Hsil. }
  pose proof (inv_timers _ _ _ Hw) as Htm.
  eapply wp_destroy_op; [apply client_nice|exact Htm|exact Ho|].
  destruct (inv_destroyed [] [] (with_att w a') p o Hw1 Ho) as (Hw2 & _); [right; by eapply Hsil|].
  split_and!; [exact Hw2|split_and!; [done..|by eexists]|]. cbn. intros q u (_ & Hu)%lookup_delete_Some. by eapply Hsil.
Qed.

Lemma wp_crypto_unref (Q : unit -> Crypto.world -> Prop) c : ready c -> (forall c', Q tt c') -> wp bt_crypto_unref Q c.
Proof using Type.
  intros (_ & x & Hx & _) HQ. unfold bt_crypto_unref. apply wp_bind. eapply wp_get_some; [exact Hx|].
  destruct (negb _); [apply wp_modify, HQ|]. do 3 apply wp_bind, wp_modify. apply wp_modify, HQ.
Qed.

(** The world without the transport. *)
Record gone (w' : world) : Prop := {
  g_att : att w' = None;
  g_io : att_io w' = None;
  g_ops : ops w' = ∅;
  g_log : few (log w') -> settled (timers w') (log w');
}.

Lemma gone_logged w w' k :
  ops w = ∅ -> (few (log w) -> settled (timers w) (log w)) -> Forall quiet k ->
  att w' = None -> att_io w' = None -> ops w' = ops w -> timers w' = timers w -> log w' = log w ++ k -> gone w'.
Proof using Type.
  intros Ho Hs Hk Ha Hi Ho' Ht Hl. constructor; [done|done|by rewrite Ho'|]. rewrite Ht, Hl. clear Hl Ht Ho' Ha Hi.
  revert Hs. generalize (log w). induction Hk as [|e k He Hk IH]; intros L Hs Hf; [rewrite app_nil_r in *; by apply Hs|].
  change (e :: k) with ([e] ++ k) in *. rewrite app_assoc in *. apply IH; [|done]. intros Hf1.
  destruct (Hs (few_app _ _ Hf1)) as (Htm & s & Hs1 & Hs2). split; [done|]. exists s. split; [|done].
  rewrite (trace_snoc _ _ _ Hs1). by destruct e.
Qed.

Lemma wp_free_buf w b : wp (free_buf b) (hushed w) w.
Proof using Type.
  destruct b as [b|]; [|by apply wp_ret, hushed_refl]. apply wp_event. exists [EvFree (block_addr b)].
  split; [by repeat constructor|done].
Qed.

(** The fields that are destroyed after the operations. *)
Lemma wp_free_rest w a Q :
  att w = Some a -> (has_crypto a = true -> ready (cw w)) ->
  (forall w' k, Forall quiet k -> att w' = None -> att_io w' = att_io w -> ops w' = ops w -> timers w' = timers w ->
     log w' = log w ++ k -> Q tt w') ->
  wp (a ← get_att;
      when (has_crypto a) (on_crypto bt_crypto_unref);;
      a ← get_att;
      destroy_callback client rec (timeout_callback a);;
      a ← get_att;
      destroy_callback client rec (debug_callback a);;
      a ← get_att;
      free_buf (buf a);;
      free_att) Q w.
Proof.
  intros Ha Hc HQ. apply wp_bind, (wp_get_att a); [done|]. apply wp_bind.
  assert (forall c, wp (a ← get_att; destroy_callback client rec (timeout_callback a);; a ← get_att;
    destroy_callback client rec (debug_callback a);; a ← get_att; free_buf (buf a);; free_att) Q (world_with w c (tick w))) as Hrest.
  { intros c. apply wp_bind, (wp_get_att a); [done|]. apply wp_bind.
    eapply wp_mono; [|apply wp_destroy_callback]. intros x w1 (k1 & Hk1 & ->).
    apply wp_bind, (wp_get_att a); [done|]. apply wp_bind.
    eapply wp_mono; [|apply wp_destroy_callback]. intros y w2 (k2 & Hk2 & ->).
    apply wp_bind, (wp_get_att a); [done|]. apply wp_bind.
    eapply wp_mono; [|apply wp_free_buf]. intros z w3 (k3 & Hk3 & ->).
    unfold free_att. apply wp_bind, (wp_get_att a); [done|]. apply wp_modify.
    apply (HQ _ (k1 ++ k2 ++ k3)); try done; [by rewrite !Forall_app|]. cbn. by rewrite !app_assoc. }
  destruct (has_crypto a).
  - apply wp_when_true, wp_on_crypto. apply wp_crypto_unref; [by apply Hc|]. intros c. exact (Hrest c).
  - apply wp_when_false. specialize (Hrest (cw w)). by destruct w.
Qed.

Lemma wp_bt_att_free w a :
  inv [] [] w -> att w = Some a -> queued a = [] -> (forall p o, ops w !! p = Some o -> op_callback o = false) ->
  (if has_io a then exists i, att_io w = Some i /\ Io.ref_count i = 1 else att_io w = None) ->
  wp (bt_att_free client rec) (fun _ => gone) w.
Proof.
  intros Hw Ha Hq Hsil Hio. pose proof (inv_att_ok _ _ _ _ Hw Ha) as Hok. unfold bt_att_free.
  pose proof Hw as (b & Hb & _ & _ & Hou). rewrite Ha in Hb. injection Hb as <-.
  unfold queued in Hq. apply app_eq_nil in Hq as (E1 & (E2 & E3)%app_eq_nil).
  set (a1 := set_pending_req a None). set (a2 := set_pending_ind a1 None).
  apply wp_bind, (wp_get_att a); [done|]. apply wp_bind.
  eapply wp_mono; [|apply (wp_destroy_pending w a a1 (pending_req a)); [..|exact Hsil| | | | |exact Hok| | | |]]; try done.
  2:{ destruct w; cbn in *; by subst. }
  2:{ intros p Hp. unfold addrs, req_addrs. by rewrite Hp. }
  2:{ intros Hp. unfold a1. destruct a; cbn in *; by rewrite Hp. }
  2:{ unfold req_addrs. cbn. set_solver. }
  intros x w1 (Hw1 & (A1 & I1 & C1 & _) & Hsil1). rewrite Ha in A1.
  apply wp_bind, (wp_get_att a); [done|]. apply wp_bind.
  eapply wp_mono; [|apply (wp_destroy_pending w1 a1 a2 (pending_ind a)); [exact Hw1|exact Hsil1| | | | |exact Hok| | | |]]; try done.
  2:{ intros p Hp. unfold addrs, req_addrs, ind_addrs. cbn. rewrite Hp, E1. done. }
  2:{ intros Hp. unfold a2, a1. destruct a; cbn in *; by rewrite Hp. }
  2:{ unfold ind_addrs. cbn. set_solver. }
  intros y w2 (Hw2 & (A2 & I2 & C2 & _) & _). rewrite A1 in A2.
  destruct (core_end a2 (ops w2) (timers w2) (next_addr w2) (log w2)) as (Ho & Hs);
    [exact (inv_parts _ _ _ _ Hw2 eq_refl)|unfold addrs, req_addrs, ind_addrs; cbn; by rewrite E1, E2, E3|].
  assert (forall w3 a3 k, att w3 = Some a3 -> has_crypto a3 = has_crypto a -> cw w3 = cw w2 -> att_io w3 = None -> ops w3 = ops w2 ->
    timers w3 = timers w2 -> log w3 = log w2 ++ k -> Forall quiet k ->
    wp (a ← get_att; when (has_crypto a) (on_crypto bt_crypto_unref);; a ← get_att;
      destroy_callback client rec (timeout_callback a);; a ← get_att;
      destroy_callback client rec (debug_callback a);; a ← get_att; free_buf (buf a);; free_att) (fun _ => gone) w3) as Hend.
  { intros w3 a3 k Ha3 Hcr3 Hcw Hi3 Ho3 Ht3 Hl3 Hk. apply (wp_free_rest w3 a3); [done| |].
    - intros Hcr. rewrite Hcw, C2, C1. apply (o_crypto _ _ _ Hou). by rewrite <- Hcr3.
    - intros w4 k4 Hk4 A4 I4 O4 T4 L4. apply (gone_logged w2 w4 (k ++ k4)); [exact Ho|exact Hs|by apply Forall_app|congruence..|].
      by rewrite L4, Hl3, app_assoc. }
  unfold on_io. apply wp_bind, wp_bind, (wp_get_att a); [done|]. destruct (has_io a) eqn:Hh.
  - destruct Hio as (i & Hi & Hir). assert (att_io w2 = Some i) as Hi2 by congruence.
    destruct (o_io _ _ _ Hou Hh) as (i' & Hi' & (_ & J2 & _ & _ & J5)). rewrite Hi in Hi'. injection Hi' as <-.
    apply wp_bind. eapply (wp_io_destroy w2 a i); [done..|]. intros a3 j k Ha3 Hj Hjr Hk.
    unfold io_released. rewrite Hir. cbn [Z.sub Z.opp Z.add Z.pos_sub Z.eqb]. apply wp_ret.
    eapply (Hend _ a3 k); try done. by destruct Ha3 as [->| ->].
  - apply wp_ret. eapply (Hend w2 a []); try done; [congruence|by rewrite app_nil_r].
Qed.

Lemma wp_last_unref R w : rest R w -> wp (bt_att_unref client rec) (fun _ => gone) w.
Proof.
  intros [Hw (a & Ha & Hr & _ & Hio)]. unfold bt_att_unref. apply wp_bind, (wp_get_att a); [done|].
  apply wp_bind, wp_modify. rewrite Hr. cbn [Z.sub Z.opp Z.add Z.pos_sub Z.eqb negb].
  set (a1 := set_ref_count a 0). fold (with_att w a1).
  assert (inv [] [] (with_att w a1)) as Hw1 by (by apply inv_ref).
  apply wp_bind. eapply wp_mono; [|by apply (wp_unregister_all n _ a1)]. intros x w2 (k & Hk & ->).
  assert (inv [] [] (with_att w (bare a1))) as Hw2.
  { apply (inv_set [] [] (with_att w a1) a1); try done. intros []. by constructor; [|apply listed_nil..]. }
  destruct (inv_logged _ _ _ k Hw2 Hk) as (Hw3 & _).
  apply wp_bind. eapply wp_mono; [|by apply (wp_cancel_all _ (bare a1))]. intros y w4 (Hw4 & (A4 & I4 & _) & Hsil).
  eapply (wp_bt_att_free w4); [done|exact A4|done|done|]. cbn in I4. rewrite I4. cbn.
  destruct (has_io a); [done|]. apply Hio.
Qed.
End life.
