(* ===== verification/AttNew.v ===== *)
(** A new transport, and what holds of it whatever happens to it. *)
From Stdlib Require Import ZArith Lia.
From S2P Require Import Prelude Blocks StateM Io Crypto CryptoSpec Att AttTrace AttSpec AttFrame AttRun AttEvent AttDown AttLife.
From stdpp Require Import base numbers list option gmap.

Local Open Scope Z_scope.

(** ** Creation *)

(** No transport, with room for one. *)
Record blank (w : world) : Prop := {
  bl_att : att w = None;
  bl_ops : ops w = ∅;
  bl_io : att_io w = None;
  bl_timers : timers w = [];
  bl_addr : 0 < next_addr w;
  bl_crypto : CryptoSpec.fresh (cw w);
  bl_log : log w = [];
}.

(** The options of the socket. *)
Definition mtu_ok (omtu : option Z) : Prop := forall m, omtu = Some m -> is_u16 m.

Lemma inv_new a w :
  att w = Some a -> ops w = ∅ -> timers w = [] -> log w = [] -> 0 < next_addr w -> addrs a = [] ->
  next_send_id a = 0 -> notify_list a = [] -> disconn_list a = [] -> outer a (att_io w) (cw w) -> inv [] [] w.
Proof.
  intros Ha Ho Ht Hl HN Hq Hn H1 H2 Hou. exists a.
  assert (forall p, ~ p ∈ addrs a) as Hno by (rewrite Hq; set_solver).
  pose proof Hq as (Hr & (Hi & Hw)%app_eq_nil)%app_eq_nil.
  split_and!; [done| |by constructor; [|rewrite H1; apply listed_nil|rewrite H2; apply listed_nil]|done].
  rewrite Ho, Ht, Hl. split_and!; [|by constructor..|].
  - constructor; try (intros p o _ Hp; by rewrite lookup_empty in Hp).
    + rewrite Hq. constructor.
    + intros p. rewrite app_nil_l, Hq, lookup_empty. split; [set_solver|by intros []].
    + intros p Hp. rewrite app_nil_l, Hq in Hp. set_solver.
    + intros p o Hp. by rewrite lookup_empty in Hp.
  - intros _. split; [constructor; [by rewrite Hq|by constructor..]|]. exists (T [] [] [] false).
    constructor; [done| | |done|by rewrite Hr|by rewrite Hi|by rewrite Hq].
    + intros p q o u Hp. by rewrite lookup_empty in Hp.
    + intros p o Hp. by rewrite lookup_empty in Hp.
Qed.

Section new.
Context `{ENV : Env}.
Variable n : nat.
Abbreviation rec := (calls (Datatypes.S n)).

(** A transport that is given up while it is made. *)
Record partial (w : world) (a : bt_att) : Prop := {
  pa_att : att w = Some a;
  pa_req : pending_req a = None;
  pa_ind : pending_ind a = None;
  pa_io : if has_io a then exists i, att_io w = Some i /\ Io.ref_count i = 1 /\ Io.destroy (read_watch i) = None /\
    Io.destroy (disconnect_watch i) = None else att_io w = None;
  pa_crypto : has_crypto a = true -> ready (cw w);
}.

Lemma wp_give_up w a (Q : bool -> world -> Prop) :
  partial w a -> (forall w', att w' = None -> att_io w' = None -> ops w' = ops w -> timers w' = timers w -> Q false w') ->
  wp (bt_att_free client rec;; mret false) Q w.
Proof.
  intros [Ha Hr Hi Hio Hc] HQ. unfold bt_att_free. apply wp_bind, wp_bind, (wp_get_att a); [done|]. rewrite Hr.
  apply wp_bind, wp_ret. apply wp_bind, (wp_get_att a); [done|]. rewrite Hi. apply wp_bind, wp_ret.
  assert (forall w3 a3, att w3 = Some a3 -> has_crypto a3 = has_crypto a -> cw w3 = cw w -> att_io w3 = None ->
    ops w3 = ops w -> timers w3 = timers w ->
    wp (a ← get_att; when (has_crypto a) (on_crypto bt_crypto_unref);; a ← get_att;
      destroy_callback client rec (timeout_callback a);; a ← get_att;
      destroy_callback client rec (debug_callback a);; a ← get_att; free_buf (buf a);; free_att) (fun _ w' => wp (mret false) Q w') w3) as Hend.
  { intros w3 a3 Ha3 Hcr3 Hcw Hi3 Ho3 Ht3. apply (wp_free_rest n w3 a3); [done|rewrite Hcw, Hcr3; done|].
    intros w4 k Hk A4 I4 O4 T4 _. apply wp_ret. apply HQ; congruence. }
  unfold on_io. apply wp_bind, wp_bind, (wp_get_att a); [done|]. destruct (has_io a).
  - destruct Hio as (i & Hii & Hir & J2 & J5). apply wp_bind. eapply (wp_io_destroy w a i); [done..|].
    intros a3 j k Ha3 _ _ _. unfold io_released. rewrite Hir. cbn [Z.sub Z.opp Z.add Z.pos_sub Z.eqb]. apply wp_ret.
    eapply (Hend _ a3); try done. by destruct Ha3 as [->| ->].
  - apply wp_ret. by eapply (Hend w a).
Qed.

(** A handler that is set on a watch that has none. *)
Lemma wp_first_handler w i (watch_of : io io_fn io_destroy_fn -> watch io_fn io_destroy_fn) set_watch ev c Q :
  att_io w = Some i -> watch_of i = no_watch ->
  Q false w ->
  (forall b ev', Q b (with_io_of w (Some (set_events (set_watch i (Watch (Some c) None)) ev')))) ->
  wp (io_set_handler mainloop_modify watch_of set_watch ev (Some c) None) Q w.
Proof.
  intros Hi Hno HF HQ. unfold io_set_handler. apply wp_bind. eapply wp_get_some; [exact Hi|].
  destruct (_ <? 0); [by apply wp_ret|]. unfold destroy_watch. rewrite Hno. cbn [Io.destroy no_watch].
  apply wp_bind, wp_ret. apply wp_bind. eapply wp_get_some; [exact Hi|]. cbv zeta. apply wp_bind, wp_modify.
  apply wp_bind. eapply wp_get_some; [reflexivity|]. set (j := set_watch i _).
  assert (forall b, Q b (with_io_of w (Some j))) as Hj.
  { intros b. specialize (HQ b (Io.events j)). fold j in HQ. by destruct j. }
  destruct (_ =? _); [apply wp_ret, Hj|]. destruct (negb _); [apply wp_ret, Hj|].
  apply wp_bind, wp_modify, wp_ret. apply HQ.
Qed.

(** The transport between the steps of its creation. *)
Definition made (crypto l2cap : bool) (fd sec mtu : Z) : bt_att :=
  Att 0 fd true l2cap sec [] None [] None [] false [] [] false None mtu 0 0 None None crypto None None.

Definition made_io (fd e : Z) (r d : option io_fn) : io io_fn io_destroy_fn :=
  Io 1 fd e false (Watch r None) no_watch (Watch d None).

(** The world of a transport that is made. *)
Record making (w : world) (a : bt_att) (i : io io_fn io_destroy_fn) : Prop := {
  mk_att : att w = Some a;
  mk_ops : ops w = ∅;
  mk_io : att_io w = Some i;
  mk_timers : timers w = [];
  mk_addr : 0 < next_addr w;
  mk_crypto : has_crypto a = true -> ready (cw w);
  mk_log : log w = [];
}.

(** What [bt_att_new] returns. *)
Definition new_post (r : bool) (w : world) : Prop :=
  if r then rest [] w else att w = None /\ att_io w = None /\ ops w = ∅ /\ timers w = [].

Lemma wp_new_fail w crypto l2cap fd sec mtu e r d :
  making w (made crypto l2cap fd sec mtu) (made_io fd e r d) ->
  wp (bt_att_free client rec;; mret false) new_post w.
Proof.
  intros [Ha Ho Hi Ht HN Hc Hl]. eapply wp_give_up; [constructor; [exact Ha|done|done| |exact Hc]|].
  - cbn. exists (made_io fd e r d). done.
  - intros w' A I O T. split_and!; congruence.
Qed.

(** After the handlers. *)
Lemma wp_new_rest w crypto fd e domain proto omtu address :
  making w (made crypto false fd 0 0) (made_io fd e (Some CanReadData) (Some DisconnectCb)) -> mtu_ok omtu ->
  let l2cap := is_io_l2cap_based domain proto in
  let sec := if l2cap then 0 else BT_ATT_SECURITY_LOW in
  wp (put_att (made crypto l2cap fd sec 0);;
      link ← bt_att_get_link_type address;
      let mtu := if link =? BT_ATT_LINK_BREDR then get_l2cap_mtu omtu else BT_ATT_DEFAULT_LE_MTU in
      put_att (made crypto l2cap fd sec mtu);;
      if mtu <? BT_ATT_DEFAULT_LE_MTU then bt_att_free client rec;; mret false
      else
        k ← outside;
        match malloc k mtu with
        | None => bt_att_free client rec;; mret false
        | Some data =>
          b ← new_buf data;
          put_att (set_buf (made crypto l2cap fd sec mtu) (Some b));;
          bt_att_ref;;
          mret true
        end) new_post w.
Proof.
  intros [Ha Ho Hi Ht HN Hc Hl] Hm l2cap sec. apply wp_bind, wp_modify. step.
  assert (forall link, wp (let mtu := if link =? BT_ATT_LINK_BREDR then get_l2cap_mtu omtu else BT_ATT_DEFAULT_LE_MTU in
      put_att (made crypto l2cap fd sec mtu);;
      if mtu <? BT_ATT_DEFAULT_LE_MTU then bt_att_free client rec;; mret false
      else
        k ← outside;
        match malloc k mtu with
        | None => bt_att_free client rec;; mret false
        | Some data =>
          b ← new_buf data;
          put_att (set_buf (made crypto l2cap fd sec mtu) (Some b));;
          bt_att_ref;;
          mret true
        end) new_post (with_att w (made crypto l2cap fd sec 0))) as Hrest.
  2:{ unfold bt_att_get_link_type. apply wp_bind, wp_bind. eapply wp_get_att; [reflexivity|].
      destruct (negb _); [apply wp_ret, Hrest|]. destruct address.1; apply wp_ret, Hrest. }
  intros link. set (mtu := if link =? _ then _ else _). cbv zeta. apply wp_bind, wp_modify. step.
  assert (mtu < 2 ^ 16) as Hmtu.
  { unfold mtu, BT_ATT_DEFAULT_LE_MTU. destruct (link =? _); [|lia]. unfold get_l2cap_mtu. destruct omtu as [m|]; [|lia].
    specialize (Hm m eq_refl). unfold is_u16 in Hm. lia. }
  set (a := made crypto l2cap fd sec mtu).
  assert (forall t, making (World (Some a) (ops w) (att_io w) (timers w) (next_addr w) (cw w) t (log w)) a
    (made_io fd e (Some CanReadData) (Some DisconnectCb))) as Hmk by (intros t; by constructor).
  destruct (Z.ltb_spec mtu BT_ATT_DEFAULT_LE_MTU) as [|Hmin]; [by eapply wp_new_fail|].
  apply wp_bind, wp_outside. step. destruct (malloc _ _) as [data|] eqn:Hmal; [|by eapply wp_new_fail].
  apply malloc_size in Hmal. apply wp_bind, wp_bind, wp_fresh_addr. apply wp_bind, wp_event, wp_ret. step.
  set (b := Block _ data). apply wp_bind, wp_modify. step. change (made crypto l2cap fd sec mtu) with a.
  unfold bt_att_ref. apply wp_bind, wp_bind. eapply wp_get_att; [reflexivity|]. apply wp_modify, wp_ret. step.
  set (a1 := set_ref_count (set_buf a (Some b)) _). set (ev := EvAlloc _).
  set (w1 := World (Some a1) (ops w) (att_io w) (timers w) (next_addr w + 1) (cw w) (Datatypes.S (tick w)) (log w)).
  assert (inv [] [] w1) as Hw1.
  { apply (inv_new a1); try done; [cbn; lia|]. constructor; [|intros _|exact Hc].
    - split; [done|]. split; [by exists b|]. by split.
    - eexists. split; [exact Hi|]. split_and!; [by right|done|by left|done..]. }
  constructor; [by destruct (inv_log [] [] w1 ev Hw1 I)|].
  exists a1. split_and!; [done..|]. eexists. split; [exact Hi|done].
Qed.

Lemma wp_bt_att_new w mainloop_add fd ext_signed domain proto omtu address :
  blank w -> mtu_ok omtu ->
  wp (bt_att_new mainloop_modify malloc counter set_level fails aes cmac client (Datatypes.S n) mainloop_add fd ext_signed
        domain proto omtu address) new_post w.
Proof.
  intros [Ha Ho Hi Ht HN Hc Hl] Hm. unfold bt_att_new.
  change (run_call mainloop_modify malloc counter set_level fails aes cmac client (Datatypes.S n)) with rec.
  destruct (Z.ltb_spec fd 0) as [Hfd|Hfd]; [by apply wp_ret|].
  destruct (io_new mainloop_add fd) as [i|] eqn:Hio; cbv zeta.
  2:{ apply wp_bind, wp_modify. eapply wp_give_up; [by constructor|]. intros w' A I O T. split_and!; [done..| |]; by etrans. }
  assert (i = made_io fd 0 None None) as ->.
  { unfold io_new in Hio. destruct (_ <? 0); [done|]. destruct (negb _); [done|]. by injection Hio as <-. }
  apply wp_bind, wp_modify. change (with_io w ?j) with (with_io_of w j). apply wp_bind.
  assert (forall crypto c, (crypto = true -> ready c) ->
    making (World (Some (made crypto false fd 0 0)) (ops w) (Some (made_io fd 0 None None)) (timers w) (next_addr w) c (tick w) (log w))
      (made crypto false fd 0 0) (made_io fd 0 None None)) as Hmk by (intros crypto c Hr; by constructor).
  eapply (wp_mono _ (fun crypto w1 => making (with_att w1 (made crypto false fd 0 0)) (made crypto false fd 0 0) (made_io fd 0 None None))).
  2:{ destruct ext_signed; [apply wp_ret; by apply (Hmk false)|]. apply wp_on_crypto.
      eapply wp_mono; [|by apply new_runs]. intros [] c (_ & H); apply Hmk; [|done].
      intros _. by destruct H as (x & u & m & y & Hr & _). }
  intros crypto w1 Hmk1. apply wp_bind, wp_modify. clear Hmk.
  match goal with |- wp ?e ?Q _ => change (wp e Q (with_att w1 (made crypto false fd 0 0))) end.
  set (w2 := with_att w1 _) in *. clearbody w2.
  assert (forall v j b e r d, making v (made crypto false fd 0 0) (made_io fd j r d) ->
    making (with_io_of v (Some (made_io fd e b d))) (made crypto false fd 0 0) (made_io fd e b d)) as Hrd
    by (intros v j b e r d []; by constructor).
  apply wp_bind. eapply (wp_mono _ (fun ok v => exists e r, (ok = true -> r = Some CanReadData) /\
    making v (made crypto false fd 0 0) (made_io fd e r None))).
  2:{ eapply wp_first_handler; [exact (mk_io _ _ _ Hmk1)|done|by exists 0, None|].
      intros b e. exists e, (Some CanReadData). split; [done|]. by eapply Hrd. }
  intros ok w3 (e & r & Hr & Hmk3). destruct ok; cbn [negb]; [|by eapply wp_new_fail].
  specialize (Hr eq_refl) as ->. apply wp_bind.
  eapply (wp_mono _ (fun ok v => exists e d, (ok = true -> d = Some DisconnectCb) /\
    making v (made crypto false fd 0 0) (made_io fd e (Some CanReadData) d))).
  2:{ eapply wp_first_handler; [exact (mk_io _ _ _ Hmk3)|done|by exists e, None|].
      intros b e'. exists e', (Some DisconnectCb). split; [done|]. destruct Hmk3. by constructor. }
  intros ok w4 (e' & d & Hd & Hmk4). destruct ok; cbn [negb]; [|by eapply wp_new_fail].
  specialize (Hd eq_refl) as ->. by eapply wp_new_rest.
Qed.
End new.
