(* ===== verification/AttProps.v ===== *)
(** What the transport promises: the order of its answers, and that nothing is left when the
    link or the transport ends.  The functions are composed as the main loop and the program
    call them. *)
From Stdlib Require Import ZArith Lia.
From S2P Require Import Prelude Blocks StateM Io Crypto CryptoSpec Att AttTrace AttSpec AttFrame AttRun AttEvent AttDown AttLife AttNew.
From stdpp Require Import base numbers list option gmap.

Local Open Scope Z_scope.

Section props.
Context `{ENV : Env}.

(** One input, with calls in callbacks nested at most [n] + 1 deep and at most [n] + 1 handlers.
    A descriptor that is not watched any more has no events. *)
Definition step (n : nat) (i : input) : P unit :=
  match i with
  | InCall c => calls (S (S n)) c
  | InTimer t => fire client (calls (S n)) t
  | InEvent ev read writev err =>
    i ← gets att_io;
    match i with
    | None => mret tt
    | Some _ => att_event mainloop_modify timer_ok malloc counter get_level set_level fails aes cmac client (S n)
                  read writev err ev
    end
  end.

(** The options of the socket a transport is made with. *)
Record socket := Socket {
  so_fd : Z;
  so_ext_signed : bool;
  so_domain : option Z;
  so_proto : option Z;
  so_omtu : option Z;
  so_address : option Z * Z;
}.

(** A transport and what happens to it; [end_] is what comes last. *)
Definition session (n : nat) (mainloop_add : Z -> Z -> bool) (s : socket) (l : list input) (end_ : P unit) : P bool :=
  ok ← bt_att_new mainloop_modify malloc counter set_level fails aes cmac client (S n) mainloop_add (so_fd s) (so_ext_signed s)
         (so_domain s) (so_proto s) (so_omtu s) (so_address s);
  if ok : bool then for_all (step n) l;; end_;; mret true else mret false.

(** The opcodes the program registers handlers for. *)
Definition all_registers (l : list input) : list Z := l ≫= registers.

Lemma wp_step n R i w :
  rest R w -> input_ok i -> (length R <= S n)%nat -> single R -> wp (step n i) (fun _ => rest (R ++ registers i)) w.
Proof.
  intros Hr Hi Hm HR. destruct i as [c|t|ev read writev err]; cbn [step registers].
  - by apply wp_program_call.
  - eapply wp_mono; [|by apply wp_timer]. intros x w'. apply rest_more.
  - apply wp_bind, wp_gets. destruct (att_io w) as [i|] eqn:Hio; [|by apply wp_ret, rest_more].
    eapply wp_mono; [|apply (wp_att_event n read writev err Hi w R ev Hr Hm HR); by exists i].
    intros x w' (H & _). by apply rest_more.
Qed.

Lemma wp_steps n l : forall R w, rest R w -> Forall input_ok l -> (length (R ++ all_registers l) <= S n)%nat ->
  single (R ++ all_registers l) -> wp (for_all (step n) l) (fun _ => rest (R ++ all_registers l)) w.
Proof.
  unfold all_registers. induction l as [|i l IH]; intros R w Hr Hl Hm HR; cbn in *.
  - apply wp_ret. by rewrite app_nil_r.
  - apply Forall_cons in Hl as (Hi & Hl). rewrite app_assoc in *.
    apply wp_bind. eapply wp_mono; [|apply wp_step; [exact Hr|exact Hi| |]].
    + intros x w1 H1. by apply IH.
    + rewrite !length_app in Hm. lia.
    + eapply single_sub; [exact HR|]. by do 2 apply sublist_inserts_r.
Qed.

(** The books along a session. *)
Lemma preserves_step n i : preserves balanced (step n i).
Proof.
  destruct i as [c|t|ev read writev err]; cbn [step].
  - apply preserves_calls.
  - apply preserves_fire; [apply frame_balanced|]. apply preserves_call, preserves_calls.
  - intros w Hw. apply wlp_read; [apply reads_gets|]. intros [i|]; [by apply preserves_att_event|by apply wlp_ret].
Qed.
Lemma wlp_session n mainloop_add s l end_ w :
  blank w -> preserves balanced end_ -> wlp (session n mainloop_add s l end_) (fun _ => balanced) w.
Proof.
  intros Hw He. assert (empty_handed w) as Hb.
  { destruct Hw as [Ha _ _ _ _ _ Hl]. split; [|intros a Ha'; congruence]. rewrite Hl. by exists ([], []). }
  unfold session. apply (wlp_cut (I := balanced)); [by apply wlp_new|]. intros [] w1 Hw1; [|by apply wlp_ret].
  apply (wlp_then (I := balanced)); [apply preserves_for_all, preserves_step|exact Hw1|]. intros x w2 Hw2.
  apply (wlp_then (I := balanced)); [exact He|exact Hw2|]. intros y w3 Hw3. by apply wlp_ret.
Qed.

Lemma wp_session n mainloop_add s l end_ (Q : world -> Prop) w :
  blank w -> mtu_ok (so_omtu s) -> Forall input_ok l -> (length (all_registers l) <= S n)%nat -> single (all_registers l) ->
  (forall w1, rest (all_registers l) w1 -> wp end_ (fun _ => Q) w1) -> preserves balanced end_ ->
  wp (session n mainloop_add s l end_)
    (fun ok w' => (if ok : bool then Q w' else att w' = None /\ att_io w' = None /\ ops w' = ∅ /\ timers w' = []) /\
       balanced w') w.
Proof.
  intros Hw Hs Hl Hn HR He Hb. apply wp_also; [|by apply wlp_session].
  unfold session. apply wp_bind. eapply wp_mono; [|by apply wp_bt_att_new].
  intros [] w1 H1; [|by apply wp_ret].
  apply wp_bind. eapply wp_mono; [|by apply (wp_steps n l [])]. intros x w2 H2.
  apply wp_bind. eapply wp_mono; [|by apply He]. intros y w3 H3. by apply wp_ret.
Qed.

(** What a log tells about a transport. *)
Definition faithful (w : world) (s : tstate) : Prop :=
  exists a, att w = Some a /\
    ord (t_down s) (t_req s) (oview (unanswered ATT_OP_TYPE_REQ []) (ops w) (req_addrs a)) /\
    ord (t_down s) (t_ind s) (oview (unanswered ATT_OP_TYPE_IND []) (ops w) (ind_addrs a)) /\
    t_alive s ≡ₚ oview alive (ops w) (addrs a) /\
    timers w ≡ₚ oview timed (ops w) (opt_list (pending_req a) ++ opt_list (pending_ind a)).

Lemma timers_pending a O tm N :
  held [] a O N -> tm ≡ₚ oview timed O (addrs a) ->
  tm ≡ₚ oview timed O (opt_list (pending_req a) ++ opt_list (pending_ind a)).
Proof using Type.
  intros [_ _ _ _ _ _ Hq _] Ht. rewrite Ht.
  assert (addrs a ≡ₚ (opt_list (pending_req a) ++ opt_list (pending_ind a)) ++ queued a) as ->.
  { unfold addrs, req_addrs, ind_addrs, queued. solve_Permutation. }
  rewrite (oview_app timed O _ (queued a)), (oview_nil timed O (queued a)), app_nil_r; [done|].
  intros p o Hp Ho. unfold timed. by rewrite (Hq p o Hp Ho).
Qed.

Lemma rest_faithful R w : rest R w -> few (log w) ->
  (exists s, trace (log w) = Some s /\ faithful w s) /\ (att_io w = None -> settled (timers w) (log w)).
Proof using Type.
  intros [Hw (a & Ha & _ & _ & Hio)] Hf. pose proof (inv_parts _ _ _ _ Hw Ha) as Hc. split.
  - destruct Hc as (Hh & _ & _ & Hc). destruct (Hc Hf) as ([K1 _ _] & s & [T1 _ _ _ T5 T6 T7]).
    exists s. split; [done|]. exists a. split_and!; [done..|]. by eapply timers_pending.
  - intros Hn. destruct (has_io a); [destruct Hio as (i & Hi & _); congruence|]. destruct Hio as (_ & Hq & _).
    by eapply core_end.
Qed.

(** What the transport owns: one receive buffer, and the destroy functions of the handlers and
    of the callbacks it has. *)
Lemma rest_owns R w : rest R w -> balanced w ->
  exists a b, att w = Some a /\ buf a = Some b /\ zlen (block_data b) = mtu a /\
    accounts (handlers a ++ settings a) [block_addr b] (log w).
Proof using Type.
  intros [Hw (a & Ha & _)] Hb. pose proof (inv_att_ok _ _ _ _ Hw Ha) as (_ & (b & Hbuf & Hl) & _).
  exists a, b. apply (balanced_att w a Ha) in Hb. unfold blocks in Hb. by rewrite Hbuf in Hb.
Qed.

(** C8. The transport never does anything undefined and keeps the promise of its callbacks,
    whatever order the program's calls, the timers and the events of the descriptor come in,
    whatever the peer sends, whichever system calls and allocations fail, and with callbacks
    that send, cancel and change the MTU themselves.  A response callback is called only for a
    request or an indication that was accepted and is not answered, cancelled or timed out yet,
    in the order they were accepted while there is a link; the destroy function of an operation
    is called at most once, and no response comes after it; those that wait are exactly the
    operations in the transport's queues, a timer runs for at most the pending ones, and when
    the io is gone nothing waits.  The destroy functions of the handlers and of the debug and
    timeout callbacks, too, are called at most once, and only when they were given, and those
    that were not called are exactly those of what the transport still has; of the receive
    buffers every one but the last, which has the size of the MTU, was freed, and once.

    Conditions: callbacks call nothing but that, and destroy functions nothing; the program
    passes blocks as long as it says, PDUs below 2^16 - 13 bytes and an MTU below 2^16, and
    leaves the references alone meanwhile ([input_ok]); for what is said of operations, fewer
    than 2^32 - 1 are accepted; and for an opcode whose handlers may change the MTU
    ([resizes]) the program registers at most one handler.  The last is needed: the PDU is in
    the receive buffer, which bt_att_set_mtu frees, and handle_notify gives it to the next
    handler all the same ([att_notify_freed] below). *)
Theorem att_trace n mainloop_add s l w :
  blank w -> mtu_ok (so_omtu s) -> Forall input_ok l -> (length (all_registers l) <= S n)%nat ->
  single (all_registers l) ->
  wp (session n mainloop_add s l (mret tt))
    (fun ok w' => ok = true ->
       (exists a b, att w' = Some a /\ buf a = Some b /\ zlen (block_data b) = mtu a /\
          accounts (handlers a ++ settings a) [block_addr b] (log w')) /\
       (few (log w') ->
          (exists t, trace (log w') = Some t /\ faithful w' t) /\
          (att_io w' = None -> settled (timers w') (log w')))) w.
Proof.
  intros Hw Hs Hl Hn HR.
  eapply wp_mono; [|apply (wp_session n mainloop_add s l (mret tt) (rest (all_registers l)) w Hw Hs Hl Hn HR)].
  - intros [] w' (H & Hb); [|done]. intros _. split; [by eapply rest_owns|]. intros Hf. by apply (rest_faithful _ w' H).
  - intros w1 H1. by apply wp_ret.
  - apply preserves_ret.
Qed.

(** C9. When the transport ends, by its last reference, everything that was accepted has been
    answered, cancelled or timed out, every destroy function that was given with an operation,
    a handler, a disconnect handler or a debug or timeout callback has been called exactly
    once, no timer runs, and the operations, the io with its watches, every receive buffer and
    the transport are freed, each once, whatever happened before and also when the link is
    already down; so they are when the creation fails.  The conditions are those of C8. *)
Theorem att_close n mainloop_add s l w :
  blank w -> mtu_ok (so_omtu s) -> Forall input_ok l -> (length (all_registers l) <= S n)%nat ->
  single (all_registers l) ->
  wp (session n mainloop_add s l (bt_att_unref client (calls (S n))))
    (fun ok w' => att w' = None /\ att_io w' = None /\ ops w' = ∅ /\ accounts [] [] (log w') /\
       (ok = true -> few (log w') -> settled (timers w') (log w'))) w.
Proof.
  intros Hw Hs Hl Hn HR.
  eapply wp_mono; [|apply (wp_session n mainloop_add s l (bt_att_unref client (calls (S n))) gone w Hw Hs Hl Hn HR)].
  - intros [] w' (H & Hb); [destruct H as [H1 H2 H3 H4]|destruct H as (H1 & H2 & H3 & _)];
      unfold balanced in Hb; rewrite H1 in Hb; by split_and!.
  - intros w1 H1. by eapply wp_last_unref.
  - apply preserves_unref.
Qed.

(** C16. When the peer hangs up, or the socket has an error, everything that was accepted is
    answered, with a failure, or was cancelled or timed out before, the destroy function of
    every operation, every handler and every disconnect handler has been called exactly once
    and no timer runs when the main loop's call returns; what is left are the callbacks for
    timeouts and debug output and the receive buffer.  The conditions are those of C8. *)
Theorem att_hangup n mainloop_add s l ev read writev err w :
  blank w -> mtu_ok (so_omtu s) -> Forall input_ok l -> (length (all_registers l) <= S n)%nat ->
  single (all_registers l) ->
  (forall fd len b, read fd len = Some b -> zlen b <= len) -> hangup ev = true ->
  wp (session n mainloop_add s l (step n (InEvent ev read writev err)))
    (fun ok w' => ok = true -> att_io w' = None /\
       (exists a b, att w' = Some a /\ buf a = Some b /\ accounts (settings a) [block_addr b] (log w')) /\
       (few (log w') -> settled (timers w') (log w'))) w.
Proof.
  intros Hw Hs Hl Hn HR Hread Hev.
  eapply wp_mono; [|apply (wp_session n mainloop_add s l (step n (InEvent ev read writev err))
    (fun w' => rest (all_registers l) w' /\ att_io w' = None) w Hw Hs Hl Hn HR)].
  - intros [] w' (H & Hb); [|done]. destruct H as (Hr & Hi). intros _. split; [done|]. split.
    + destruct (rest_owns _ _ Hr Hb) as (a & b & Ha & Hbuf & _ & Hacc). exists a, b. split_and!; [done..|].
      destruct Hr as [_ (a' & Ha' & _ & _ & Hio)]. rewrite Ha in Ha'. injection Ha' as <-.
      destruct (has_io a); [destruct Hio as (i & Hi' & _); congruence|]. destruct Hio as (_ & _ & Hn1 & Hn2).
      unfold handlers in Hacc. by rewrite Hn1, Hn2 in Hacc.
    + intros Hf. by apply (rest_faithful _ w' Hr Hf).
  - intros w1 H1. cbn [step]. apply wp_bind, wp_gets. destruct (att_io w1) as [i|] eqn:Hio; [|by apply wp_ret].
    eapply wp_mono; [|apply (wp_att_event n read writev err Hread w1 _ ev H1 Hn HR); by exists i].
    intros x w' (H2 & H3). split; [done|]. by apply H3.
  - apply preserves_step.
Qed.

(** The first handler of a command gets it as it came when there is a crypto object. *)
Lemma wp_handler_called n w a p h l opcode pdu len d :
  inv [] [] w -> att w = Some a -> 1 <= ref_count a -> (length (notify_list a) <= S n)%nat -> has_crypto a = true ->
  readable pdu len d w -> lonely opcode (notify_list a) ->
  notify_list a = (p, h) :: l -> opcode_match (notify_opcode h) opcode = true ->
  wp (handle_notify mainloop_modify malloc counter fails aes cmac client (calls (S n)) (S n) opcode pdu len)
    (fun _ w' => exists k, log w' = log w ++ EvNotify (notify_id h) opcode d (cb_data (notify_callback h)) :: k) w.
Proof.
  intros Hw Ha Hr Hn Hcr Hd Hlo Hl Hm. rewrite Hl in Hn, Hlo. unfold lonely in Hlo.
  rewrite (matches_yes _ (p, h)) in Hlo by done. cbn in Hlo. set (e := EvNotify _ _ _ _).
  unfold handle_notify. apply wp_bind, (wp_get_att a); [done|]. rewrite Hcr, andb_false_r.
  apply wp_bind, wp_ret. unfold bt_att_ref. apply wp_bind, wp_bind, (wp_get_att a); [done|]. apply wp_modify.
  set (a1 := set_ref_count a (ref_count a + 1)). fold (with_att w a1).
  assert (inv [] [] (with_att w a1)) as Hw1 by (by apply inv_ref).
  apply wp_bind. eapply wp_get_att; [reflexivity|]. cbn [notify_list a1 set_ref_count]. rewrite Hl. cbn [head fmap option_fmap option_map fst].
  apply wp_bind. cbn [notify_loop]. apply wp_bind. eapply wp_get_att; [reflexivity|].
  cbn [notify_list a1 set_ref_count]. rewrite Hl. cbn [entry_at]. rewrite Z.eqb_refl, Hm. cbn [negb].
  assert (readable pdu len d (with_att w a1)) as Hd1 by (by apply readable_ref).
  apply wp_bind. eapply wp_load; [exact Hd1|]. apply wp_bind.
  destruct (inv_log [] [] (with_att w a1) e Hw1 I) as (Hw2 & Hk2). set (w2 := World _ _ _ _ _ _ _ _) in *.
  eapply (wp_mono _ (fun x w3 => stays [] [] w2 x w3 /\ (resizes opcode = false -> readable pdu len d w3))).
  2:{ apply wp_also.
      - unfold call. apply wp_bind, wp_event. apply wp_bind, wp_gets. apply (wp_run_calls n _ [] [] w2 Hw2).
        pose proof (client_nice (log w) e) as Hc. eapply Forall_impl; [exact Hc|apply may_call_ok].
      - intros x w3 Hrun Hsm. eapply (preserves_small_call (readable pdu len d)); [apply frame_readable|done|exact Hd1|exact Hrun]. }
  intros x w3 ((Hw3 & Hk3) & Hd3). destruct (keeps_pending w2 w3 a1 Hk3 eq_refl) as (a3 & Ha3 & Hs3).
  assert (notify_list a3 = (p, h) :: l /\ ref_count a3 = ref_count a + 1) as (Hn3 & Hr3).
  { unfold strip in Hs3. cbn in Hs3. split; congruence. }
  destruct Hk3 as (_ & _ & [(k3 & L3) _ _ _]). change (log w2) with (log w ++ [e]) in L3.
  apply wp_bind, (wp_get_att a3); [done|]. rewrite Hn3. cbn [is_nil].
  eapply wp_mono; [|apply (wp_notify_loop n n opcode pdu len d [(p, h)] l true w3 a3); [done..|cbn in Hn; lia|]].
  2:{ unfold lonely. destruct (resizes opcode); [right|left; by split; [apply Hd3|]].
      destruct (matches opcode l); [done|]. specialize (Hlo eq_refl). cbn in Hlo. lia. }
  intros found w4 (Hw4 & Hk4). destruct (keeps_pending w3 w4 a3 Hk4 Ha3) as (a4 & Ha4 & Hs4).
  destruct Hk4 as (_ & _ & [(k4 & L4) _ _ _]). apply wp_bind.
  eapply (wp_mono _ (stays [] [] w4)).
  2:{ destruct (negb found && _); [by apply wp_when_true, wp_respond_not_supported|by apply wp_when_false, stays_refl]. }
  intros y w5 (Hw5 & Hk5). destruct (keeps_pending w4 w5 a4 Hk5 Ha4) as (a5 & Ha5 & Hs5).
  destruct Hk5 as (_ & _ & [(k5 & L5) _ _ _]).
  apply (wp_unref_many n w5 a5); [done|unfold strip in Hs4, Hs5; cbn in *; intros ?; enough (ref_count a5 = ref_count a3) by lia; congruence|].
  exists (k3 ++ k4 ++ k5). cbn. rewrite L5, L4, L3, <- !app_assoc. done.
Qed.

(** C20. The signature of a signed command is never checked.  A transport with a crypto object
    gives the command, the bytes [d] its pointer leads to in the receive buffer, to its first
    handler as it came, whatever signature it has, and with the twelve bytes of the signature
    at its end; one without a crypto object, which cannot compute the signature, drops every
    signed command.  [handle_notify] tests [!att->crypto] where it means [att->crypto].  If
    handlers of the opcode may change the MTU, there is only one for it ([lonely]; see C8). *)
Theorem att_signed_command n w a opcode pdu len d :
  inv [] [] w -> att w = Some a -> 1 <= ref_count a -> (length (notify_list a) <= S n)%nat ->
  readable pdu len d w -> lonely opcode (notify_list a) -> Z.land opcode ATT_OP_SIGNED_MASK <> 0 ->
  wp (handle_notify mainloop_modify malloc counter fails aes cmac client (calls (S n)) (S n) opcode pdu len)
    (fun _ w' =>
       if has_crypto a
       then forall p h l, notify_list a = (p, h) :: l -> opcode_match (notify_opcode h) opcode = true ->
              exists k, log w' = log w ++ EvNotify (notify_id h) opcode d (cb_data (notify_callback h)) :: k
       else log w' = log w) w.
Proof.
  intros Hw Ha Hr Hn Hd Hlo Hsig. destruct (has_crypto a) eqn:Hcr.
  2:{ unfold handle_notify. apply wp_bind, (wp_get_att a); [done|]. rewrite Hcr, (proj2 (Z.eqb_neq _ _) Hsig). cbn [negb andb].
      apply wp_bind, wp_bind. eapply wp_handle_signed; [done..|]. intros t. by apply wp_ret, wp_ret. }
  destruct (notify_list a) as [|[p h] l] eqn:Hl.
  { eapply wp_mono; [|eapply (wp_handle_notify n w a (S n) opcode pdu); [done..|rewrite Hl; cbn; lia|done|by rewrite Hl]]. done. }
  destruct (opcode_match (notify_opcode h) opcode) eqn:Hm.
  - eapply wp_mono; [|eapply (wp_handler_called n w a p h l opcode pdu); [done..|by rewrite Hl|done|done|by rewrite Hl|done|done]].
    intros x w' Hk q g k [= <- <- <-] _. exact Hk.
  - eapply wp_mono; [|eapply (wp_handle_notify n w a (S n) opcode pdu); [done..|by rewrite Hl|done|by rewrite Hl]].
    intros x w' _ q g k [= <- <- <-] Hgm. congruence.
Qed.

(** Why one handler at most may change the MTU.  When two are for the opcode and the first
    changes the MTU, the receive buffer with the PDU is freed, and the second one gets a
    pointer to it. *)
Lemma att_notify_freed n w a p h q k l opcode pdu len d m data :
  att w = Some a -> Z.land opcode ATT_OP_SIGNED_MASK = 0 -> readable pdu len d w -> pdu.1 < next_addr w ->
  notify_list a = (p, h) :: (q, k) :: l -> p <> q ->
  opcode_match (notify_opcode h) opcode = true -> opcode_match (notify_opcode k) opcode = true ->
  client (log w ++ [EvNotify (notify_id h) opcode d (cb_data (notify_callback h))]) = [CallSetMtu m] ->
  BT_ATT_DEFAULT_LE_MTU <= m -> malloc (tick w) m = Some data ->
  handle_notify mainloop_modify malloc counter fails aes cmac client (calls (S n)) (S (S n)) opcode pdu len w = None.
Proof.
  intros Ha Hs Hd Hp Hl Hpq Hh Hk Hc Hm Hmal. unfold handle_notify. apply bind_none, (wp_get_att a); [done|].
  rewrite Hs. cbn [Z.eqb negb andb]. apply bind_none, wp_ret. unfold bt_att_ref.
  apply bind_none, wp_bind, (wp_get_att a); [done|]. apply wp_modify. set (a1 := set_ref_count a _).
  fold (with_att w a1). apply bind_none. eapply wp_get_att; [reflexivity|]. cbn [notify_list a1 set_ref_count]. rewrite Hl.
  cbn [head fmap option_fmap option_map fst]. apply bind_none_l. cbn [notify_loop].
  apply bind_none. eapply wp_get_att; [reflexivity|]. cbn [notify_list a1 set_ref_count]. rewrite Hl. cbn [entry_at].
  rewrite Z.eqb_refl, Hh. cbn [negb head fmap option_fmap option_map fst]. apply bind_none. eapply wp_load; [by apply readable_ref|].
  apply bind_none. unfold call. apply wp_bind, wp_event. apply wp_bind, wp_gets. step. change (log (with_att w a1)) with (log w). rewrite Hc. cbn [run_calls].
  change (calls (S n) (CallSetMtu m)) with (bt_att_set_mtu malloc m;; mret tt). unfold bt_att_set_mtu.
  destruct (Z.ltb_spec m BT_ATT_DEFAULT_LE_MTU) as [|_]; [lia|]. apply wp_bind, wp_bind, wp_bind, wp_outside. step. change (tick (with_att w a1)) with (tick w). rewrite Hmal.
  apply wp_bind, wp_bind, wp_fresh_addr. apply wp_bind, wp_event, wp_ret. step. set (b := Block _ _).
  apply wp_bind. eapply wp_get_att; [reflexivity|]. apply wp_bind. unfold free_buf. destruct (buf a1);
    [apply wp_event|apply wp_ret]; (apply wp_bind, wp_modify, wp_ret, wp_ret, wp_ret; step; apply bind_none;
    eapply wp_get_att; [reflexivity|]; cbn [notify_list a1 set_ref_count set_buf set_mtu]; rewrite Hl; cbn [is_nil];
    apply bind_none; (eapply wp_get_att; [reflexivity|]); cbn [notify_list a1 set_ref_count set_buf set_mtu]; rewrite Hl;
    cbn [entry_at]; rewrite (proj2 (Z.eqb_neq p q)), Z.eqb_refl, Hk by done; cbn [negb]; apply bind_none_l, load_gone;
    intros d' (a' & b' & Ha' & Hb' & Hp' & _); cbn in Ha'; injection Ha' as <-; cbn in Hb'; injection Hb' as <-; cbn in Hp'; lia).
Qed.
End props.

(** *** Witnesses *)

(** The first response makes the client send a request and change the MTU, a request of the peer
    an answer, and the MTU request both. *)
Definition toy_reply (e : event) : list att_call :=
  match e with
  | EvResponse 1 _ _ _ => [CallSend BT_ATT_OP_READ_REQ (Some [7; 0]) 2 true 20 true; CallSetMtu 40]
  | EvNotify _ 0x0a _ _ => [CallSend BT_ATT_OP_READ_RSP (Some [9]) 1 false 0 false]
  | EvNotify _ 0x02 _ _ => [CallSetMtu 50; CallSend BT_ATT_OP_MTU_RSP (Some [50; 0]) 2 false 0 false]
  | _ => []
  end.
Definition toy_resizes (opcode : Z) : bool := opcode =? BT_ATT_OP_MTU_REQ.
Definition toy_client (l : list event) : list att_call :=
  match last l with Some e => toy_reply e | None => [] end.

Lemma send_ok_some opcode d length :
  is_u8 opcode -> 0 <= length < 2 ^ 16 - 13 -> length <= zlen d -> send_ok opcode (Some d) length.
Proof. intros H1 H2 H3. split_and!; [done..|lia|lia|]. by intros x [= <-]. Qed.
Lemma toy_client_nice : nice toy_resizes toy_client.
Proof.
  intros l e. unfold toy_client. rewrite last_snoc.
  destruct e as [[|[]|] ? ? ?|? opcode ? ?| | | | | | | | | | | | | | |]; cbn; try done.
  - apply Forall_cons. split; [by apply send_ok_some|]. apply Forall_cons. by split; [cbn; lia|constructor].
  - destruct opcode as [|x|]; [done| |done]. do 4 try (destruct x as [x|x|]; try done).
    + apply Forall_cons. split; [by apply send_ok_some|constructor].
    + apply Forall_cons. split; [by split; [lia|]|]. apply Forall_cons. split; [by apply send_ok_some|constructor].
Qed.

Definition toy_malloc (n : nat) (len : Z) : option bytes :=
  if len <? 0 then None else Some (replicate (Z.to_nat len) 0).
Lemma toy_malloc_size n len b : toy_malloc n len = Some b -> zlen b = len.
Proof. unfold toy_malloc. destruct (Z.ltb_spec len 0); [done|]. intros [= <-]. len_lia. Qed.

#[local] Instance ToyEnv : Env := {
  mainloop_modify fd ev := true;
  timer_ok n := true;
  malloc := toy_malloc;
  counter n u x := Some (u + x);
  get_level n := Some 1;
  set_level n l := true;
  fails n := false;
  aes := toy_aes;
  cmac := toy_cmac;
  resizes := toy_resizes;
  client := toy_client;
  cmac_block := toy_cmac_block;
  malloc_size := toy_malloc_size;
  client_nice := toy_client_nice;
}.

Definition toy_new : world := World None ∅ None [] 1 (Crypto.World [] 3 0 None) 0 [].
Definition toy_socket : socket := Socket 8 false None None None (None, 1).
Definition toy_event (ev : Z) (data : bytes) : input :=
  InEvent ev (fun fd len => if len <? zlen data then None else Some data) (fun fd l => zlen (concat l)) None.
Definition toy_send (opcode : Z) (data : bytes) (user : Z) : input :=
  InCall (CallSend opcode (Some data) (zlen data) (answered_type (get_op_type opcode)) user true).

(** A handler, a disconnect handler and a timeout callback; two requests, of which the first is
    answered and the second times out, a request that a callback sends, a notification and two
    requests of the peer; and two changes of the MTU in callbacks. *)
Definition toy_inputs : list input := [
  InCall (CallRegister BT_ATT_ALL_REQUESTS (Callback 30 true));
  InCall (CallRegisterDisconnect true (Callback 31 true));
  InCall (CallSetTimeout (Some (Callback 32 true)));
  toy_send BT_ATT_OP_MTU_REQ [23; 0] 10;
  toy_send BT_ATT_OP_READ_REQ [5; 0] 11;
  toy_send BT_ATT_OP_HANDLE_VAL_NOT [5; 0; 1] 12;
  toy_event EPOLLOUT []; toy_event EPOLLOUT [];
  toy_event EPOLLIN [BT_ATT_OP_MTU_RSP; 23; 0];
  toy_event (Z.lor EPOLLIN EPOLLOUT) [BT_ATT_OP_READ_REQ; 1; 0];
  toy_event EPOLLOUT [];
  toy_event (Z.lor EPOLLIN EPOLLOUT) [BT_ATT_OP_MTU_REQ; 50; 0];
  InTimer 11].

Definition toy_run (end_ : P unit) : option (bool * list event) :=
  match session 3 (fun _ _ => true) toy_socket toy_inputs end_ toy_new with
  | Some (ok, w) => Some (ok, log w)
  | None => None
  end.

Definition toy_log : list event := [
  EvAlloc 1; EvGive 30; EvGive 31; EvGive 32;
  EvAccept 1 ATT_OP_TYPE_REQ true 10; EvAccept 2 ATT_OP_TYPE_REQ true 11; EvAccept 3 ATT_OP_TYPE_NOT true 12;
  EvWrite [27; 5; 0; 1]; EvOpDestroy 3 12; EvWrite [2; 23; 0];
  EvResponse 1 3 (Some [23; 0]) 10; EvAccept 4 ATT_OP_TYPE_REQ true 20; EvAlloc 9; EvFree 1; EvOpDestroy 1 10;
  EvNotify 1 10 [1; 0] 30; EvAccept 5 ATT_OP_TYPE_RSP false 0; EvWrite [11; 9];
  EvWrite [10; 5; 0];
  EvNotify 1 2 [50; 0] 30; EvAlloc 12; EvFree 9; EvAccept 6 ATT_OP_TYPE_RSP false 0; EvWrite [3; 50; 0];
  EvExpired 2; EvTimeout 2 10 32; EvOpDestroy 2 11; EvShutdown].

Lemma toy_blank : blank toy_new.
Proof. by constructor. Qed.
Lemma toy_read_ok ev data : input_ok (toy_event ev data).
Proof. intros fd len b. destruct (Z.ltb_spec len (zlen data)); [done|]. by intros [= <-]. Qed.
Lemma toy_inputs_ok : Forall input_ok toy_inputs.
Proof.
  unfold toy_inputs. repeat (apply Forall_cons; split; [first [apply toy_read_ok|exact I|by apply send_ok_some]|]).
  constructor.
Qed.

Lemma toy_single : single (all_registers toy_inputs).
Proof. intros opcode _. cbn [all_registers toy_inputs mbind list_bind registers app]. rewrite filter_cons. case_decide; cbn; lia. Qed.

(** What ends the transport: its last reference, which cancels the request of the callback, or
    the peer, so that it is answered with an error. *)
Definition toy_closed : list event :=
  toy_log ++ [EvDestroy 30; EvDestroy 31; EvCancelAll; EvOpDestroy 4 20; EvDestroy 32; EvFree 12].
Definition toy_down : list event :=
  toy_log ++ [EvDown; EvResponse 4 1 None 20; EvOpDestroy 4 20; EvDisconnect 2 0 31; EvDestroy 30; EvDestroy 31].

Lemma toy_runs :
  toy_run (mret tt) = Some (true, toy_log) /\
  toy_run (bt_att_unref client (calls 4)) = Some (true, toy_closed) /\
  toy_run (step 3 (toy_event EPOLLHUP [])) = Some (true, toy_down).
Proof. split_and!; vm_compute; reflexivity. Qed.
Lemma toy_few : few toy_log /\ few toy_closed /\ few toy_down.
Proof. by vm_compute. Qed.
Lemma toy_trace t : trace toy_log = Some t -> t_req t = [(4, 20)].
Proof. assert (trace toy_log = Some (T [(4, 20)] [] [(4, 20)] false)) as -> by by vm_compute. by intros [= <-]. Qed.

Lemma toy_run_inv end_ ok w' log' :
  toy_run end_ = Some (true, log') ->
  session 3 (fun _ _ => true) toy_socket toy_inputs end_ toy_new = Some (ok, w') -> ok = true /\ log w' = log'.
Proof. unfold toy_run. intros H Hr. rewrite Hr in H. clear Hr. injection H as H1 H2. split; assumption. Qed.

(** The run, after which the request of the callback waits, and the transport has the buffer at
    12 and three destroy functions. *)
Lemma att_trace_witness :
  exists w' t a b, session 3 (fun _ _ => true) toy_socket toy_inputs (mret tt) toy_new = Some (true, w') /\
    log w' = toy_log /\ trace toy_log = Some t /\ t_req t = [(4, 20)] /\ faithful w' t /\
    att w' = Some a /\ buf a = Some b /\ zlen (block_data b) = mtu a /\
    accounts (handlers a ++ settings a) [block_addr b] toy_log.
Proof.
  destruct (att_trace 3 (fun _ _ => true) toy_socket toy_inputs toy_new) as (ok & w' & Hrun & Hpost);
    [exact toy_blank|done|exact toy_inputs_ok|cbn; lia|exact toy_single|].
  destruct (toy_run_inv _ _ _ _ (proj1 toy_runs) Hrun) as (-> & Hlog). rewrite Hlog in Hpost.
  destruct (Hpost eq_refl) as ((a & b & Ha & Hb & Hl & Hacc) & Hpost').
  destruct (Hpost' (proj1 toy_few)) as ((t & Ht & Hf) & _).
  exists w', t, a, b. split_and!; [exact Hrun|exact Hlog|exact Ht|exact (toy_trace t Ht)|exact Hf|exact Ha|exact Hb|exact Hl|exact Hacc].
Defined.

Lemma att_close_witness :
  exists w', session 3 (fun _ _ => true) toy_socket toy_inputs (bt_att_unref client (calls 4)) toy_new = Some (true, w') /\
    log w' = toy_closed /\ att w' = None /\ ops w' = ∅ /\ accounts [] [] toy_closed /\ settled (timers w') toy_closed.
Proof.
  destruct (att_close 3 (fun _ _ => true) toy_socket toy_inputs toy_new) as (ok & w' & Hrun & Ha & Hi & Ho & Hacc & Hpost);
    [exact toy_blank|done|exact toy_inputs_ok|cbn; lia|exact toy_single|].
  destruct (toy_run_inv _ _ _ _ (proj1 (proj2 toy_runs)) Hrun) as (-> & Hlog). rewrite Hlog in Hpost, Hacc.
  exact (ex_intro _ w' (conj Hrun (conj Hlog (conj Ha (conj Ho (conj Hacc (Hpost eq_refl (proj1 (proj2 toy_few))))))))).
Defined.

Lemma att_hangup_witness :
  exists w' a b, session 3 (fun _ _ => true) toy_socket toy_inputs (step 3 (toy_event EPOLLHUP [])) toy_new = Some (true, w') /\
    log w' = toy_down /\ att_io w' = None /\ settled (timers w') toy_down /\
    att w' = Some a /\ buf a = Some b /\ accounts (settings a) [block_addr b] toy_down.
Proof.
  destruct (att_hangup 3 (fun _ _ => true) toy_socket toy_inputs EPOLLHUP
    (fun fd len => if len <? zlen (@nil Z) then None else Some []) (fun fd l => zlen (concat l)) None toy_new)
    as (ok & w' & Hrun & Hpost);
    [exact toy_blank|done|exact toy_inputs_ok|cbn; lia|exact toy_single|exact (toy_read_ok EPOLLHUP [])|done|].
  destruct (toy_run_inv _ _ _ _ (proj2 (proj2 toy_runs)) Hrun) as (-> & Hlog). rewrite Hlog in Hpost.
  destruct (Hpost eq_refl) as (Hi & (a & b & Ha & Hb & Hacc) & Hs). exists w', a, b.
  split_and!; [exact Hrun|exact Hlog|exact Hi|exact (Hs (proj2 (proj2 toy_few)))|exact Ha|exact Hb|exact Hacc].
Defined.

(** A transport with a crypto object and a handler for signed writes. *)
Definition toy_signed_pdu : bytes := [3; 0; 5] ++ replicate 12 0.
Definition toy_signed_bare : bt_att :=
  set_buf (set_ref_count (made true false 8 1 23) 1)
    (Some (Block 2 (BT_ATT_OP_SIGNED_WRITE_CMD :: toy_signed_pdu ++ replicate 7 0))).
Definition toy_signed : bt_att :=
  set_notify_list toy_signed_bare [(1, Notify 1 BT_ATT_OP_SIGNED_WRITE_CMD (Callback 40 false))].
Definition toy_signed_world : world :=
  World (Some toy_signed) ∅ (Some (made_io 8 0 (Some CanReadData) (Some DisconnectCb))) [] 3 toy_world 0 [].

Lemma toy_signed_inv : inv [] [] toy_signed_world.
Proof.
  assert (inv [] [] (with_att toy_signed_world toy_signed_bare)) as Hw.
  { eapply (inv_new toy_signed_bare); try done. constructor.
    - split; [done|]. split; [by eexists|done].
    - intros _. eexists. split; [reflexivity|]. split_and!; [by right|done|by left|done..].
    - intros _. apply toy_ready. }
  apply (inv_set [] [] (with_att toy_signed_world toy_signed_bare) toy_signed_bare toy_signed Hw); try done.
  intros []. constructor; [done| |done]. split; [by apply NoDup_singleton|]. by repeat constructor.
Qed.

(** A write of 5 to handle 3 with a signature of zeros reaches the handler. *)
Lemma att_signed_command_witness :
  exists w' k, handle_notify mainloop_modify malloc counter fails aes cmac client (calls 1) 1 BT_ATT_OP_SIGNED_WRITE_CMD
      (2, 1) 15 toy_signed_world = Some (tt, w') /\
    log w' = EvNotify 1 BT_ATT_OP_SIGNED_WRITE_CMD ([3; 0; 5] ++ replicate 12 0) 40 :: k.
Proof.
  destruct (att_signed_command 0 toy_signed_world toy_signed BT_ATT_OP_SIGNED_WRITE_CMD (2, 1) 15 toy_signed_pdu)
    as ([] & w' & Hrun & Hpost);
    [exact toy_signed_inv|done|done|done|by eexists _, _|done|done|].
  destruct (Hpost 1 _ [] eq_refl eq_refl) as (k & Hk). exact (ex_intro _ w' (ex_intro _ k (conj Hrun Hk))).
Defined.
