(* ===== verification/Sdp.v ===== *)
(** lib/sdp.c: data elements, service records and their attributes.

    A data element is a tree; a pointer to a chain of elements ([next]) is the list of them,
    and whoever holds the pointer owns the chain.  The union [val] of an element is the
    member that was written last: reading it as another member of the same bytes is
    defined where the bytes are (numbers, UUIDs, NULL), and the low half of an address is
    an argument.  malloc succeeds, as calls of it that fail return before anything changes;
    what free gives back is not tracked. *)
From Stdlib Require Import ZArith Lia.
From S2P Require Import Prelude Libc Uuid Eir.
From stdpp Require Import base numbers list option.

Local Open Scope Z_scope.

(** ** Computations

    [Fault] is undefined behaviour, [NoFuel] a loop or recursion that took more rounds than
    it was given. *)
Inductive run (A : Type) := Done (a : A) | Fault | NoFuel.
Arguments Done {A} a.
Arguments Fault {A}.
Arguments NoFuel {A}.

#[export] Instance run_ret : MRet run := fun A a => Done a.
#[export] Instance run_bind : MBind run := fun A B f e =>
  match e with Done a => f a | Fault => Fault | NoFuel => NoFuel end.

Definition lift {A} (e : ub A) : run A := match e with Some a => Done a | None => Fault end.

(** An [int] computed without overflow. *)
Definition as_int (x : Z) : run Z := if (- 2 ^ 31 <=? x) && (x <? 2 ^ 31) then Done x else Fault.

(** Conversion of a 32-bit word to [int]. *)
Definition s32 (x : Z) : Z := if x <? 2 ^ 31 then x else x - 2 ^ 32.

(** ** Data element types of lib/sdp.h *)

(** The type of an element and the bytes of its value, or of the length in front of it. *)
Inductive kind :=
  | KNil | KUint (n : nat) | KInt (n : nat) | KBool | KUuid (n : nat)
  | KText (n : nat) | KUrl (n : nat) | KSeq (n : nat) | KAlt (n : nat).

#[export] Instance kind_eq_dec : EqDecision kind.
Proof. solve_decision. Defined.

Module Dtd.
Definition SDP_DATA_NIL : Z := 0x00.
Definition SDP_UINT8 : Z := 0x08.
Definition SDP_UINT16 : Z := 0x09.
Definition SDP_UINT32 : Z := 0x0A.
Definition SDP_UINT64 : Z := 0x0B.
Definition SDP_UINT128 : Z := 0x0C.
Definition SDP_INT8 : Z := 0x10.
Definition SDP_INT16 : Z := 0x11.
Definition SDP_INT32 : Z := 0x12.
Definition SDP_INT64 : Z := 0x13.
Definition SDP_INT128 : Z := 0x14.
Definition SDP_UUID16 : Z := 0x19.
Definition SDP_UUID32 : Z := 0x1A.
Definition SDP_UUID128 : Z := 0x1C.
Definition SDP_TEXT_STR8 : Z := 0x25.
Definition SDP_TEXT_STR16 : Z := 0x26.
Definition SDP_TEXT_STR32 : Z := 0x27.
Definition SDP_BOOL : Z := 0x28.
Definition SDP_SEQ8 : Z := 0x35.
Definition SDP_SEQ16 : Z := 0x36.
Definition SDP_SEQ32 : Z := 0x37.
Definition SDP_ALT8 : Z := 0x3D.
Definition SDP_ALT16 : Z := 0x3E.
Definition SDP_ALT32 : Z := 0x3F.
Definition SDP_URL_STR8 : Z := 0x45.
Definition SDP_URL_STR16 : Z := 0x46.
Definition SDP_URL_STR32 : Z := 0x47.

Definition table : list (Z * kind) :=
  [(SDP_DATA_NIL, KNil);
   (SDP_UINT8, KUint 1); (SDP_UINT16, KUint 2); (SDP_UINT32, KUint 4); (SDP_UINT64, KUint 8);
   (SDP_UINT128, KUint 16);
   (SDP_INT8, KInt 1); (SDP_INT16, KInt 2); (SDP_INT32, KInt 4); (SDP_INT64, KInt 8);
   (SDP_INT128, KInt 16);
   (SDP_UUID16, KUuid 2); (SDP_UUID32, KUuid 4); (SDP_UUID128, KUuid 16);
   (SDP_TEXT_STR8, KText 1); (SDP_TEXT_STR16, KText 2); (SDP_TEXT_STR32, KText 4);
   (SDP_BOOL, KBool);
   (SDP_SEQ8, KSeq 1); (SDP_SEQ16, KSeq 2); (SDP_SEQ32, KSeq 4);
   (SDP_ALT8, KAlt 1); (SDP_ALT16, KAlt 2); (SDP_ALT32, KAlt 4);
   (SDP_URL_STR8, KUrl 1); (SDP_URL_STR16, KUrl 2); (SDP_URL_STR32, KUrl 4)].
End Dtd.

Fixpoint switch_case {A} (x : Z) (l : list (Z * A)) : option A :=
  match l with
  | [] => None
  | (y, a) :: l => if x =? y then Some a else switch_case x l
  end.

(** The case of a [switch (dtd)]; [None] is [default]. *)
Definition dtd_kind (dtd : Z) : option kind := switch_case dtd Dtd.table.

Arguments dtd_kind : simpl never.

Definition SDP_IS_UUID (dtd : Z) : bool :=
  (dtd =? Dtd.SDP_UUID16) || (dtd =? Dtd.SDP_UUID32) || (dtd =? Dtd.SDP_UUID128).
Definition SDP_IS_SEQ (dtd : Z) : bool :=
  (dtd =? Dtd.SDP_SEQ8) || (dtd =? Dtd.SDP_SEQ16) || (dtd =? Dtd.SDP_SEQ32).
Definition SDP_IS_TEXT_STR (dtd : Z) : bool :=
  (dtd =? Dtd.SDP_TEXT_STR8) || (dtd =? Dtd.SDP_TEXT_STR16) || (dtd =? Dtd.SDP_TEXT_STR32).

Definition SDP_ATTR_RECORD_HANDLE : Z := 0x0000.
Definition SDP_ATTR_SVCLASS_ID_LIST : Z := 0x0001.
Definition USHRT_MAX : Z := 65535.
Definition UCHAR_MAX : Z := 255.

(** ** Data elements and records *)

(** The union: a number by its bytes in the order of the host, a UUID, a string in a block
    of its own (or NULL), the children.  The zeroed union of a sequence is [VSeq []]. *)
Inductive sdp_val (D : Type) :=
  | VNum (v : Z)
  | VUuid (uuid : uuid_t)
  | VStr (str : option bytes)
  | VSeq (dataseq : list D).
Arguments VNum {D} v.
Arguments VUuid {D} uuid.
Arguments VStr {D} str.
Arguments VSeq {D} dataseq.

Inductive sdp_data := Data {
  dtd : Z;
  attrId : Z;
  unitSize : Z;
  val : sdp_val sdp_data;
}.

Definition set_attrId (d : sdp_data) (a : Z) : sdp_data := Data (dtd d) a (unitSize d) (val d).
Definition set_dtd (d : sdp_data) (t : Z) : sdp_data := Data t (attrId d) (unitSize d) (val d).

Record sdp_record := Rec {
  handle : Z;
  pattern : list uuid_t;
  attrlist : list sdp_data;
  svclass : uuid_t;
}.

Definition set_handle (r : sdp_record) (h : Z) : sdp_record :=
  Rec h (pattern r) (attrlist r) (svclass r).
Definition set_pattern (r : sdp_record) (p : list uuid_t) : sdp_record :=
  Rec (handle r) p (attrlist r) (svclass r).
Definition set_attrlist (r : sdp_record) (l : list sdp_data) : sdp_record :=
  Rec (handle r) (pattern r) l (svclass r).
Definition set_svclass (r : sdp_record) (u : uuid_t) : sdp_record :=
  Rec (handle r) (pattern r) (attrlist r) u.

Definition sdp_record_alloc : sdp_record := Rec 0xffffffff [] [] SDP_UUID_UNSPEC.

(** ** Lists *)

Definition sdp_list_append {A} (l : list A) (d : A) : list A := l ++ [d].

(** The node whose data is [d]: [is_d] tells it from the others. *)
Fixpoint sdp_list_remove {A} (is_d : A -> bool) (l : list A) : list A :=
  match l with
  | [] => []
  | x :: l => if is_d x then l else x :: sdp_list_remove is_d l
  end.

(** Before the first element that does not compare lower. *)
Fixpoint sdp_list_insert_sorted {A} (f : A -> A -> Z) (l : list A) (d : A) : list A :=
  match l with
  | [] => [d]
  | x :: l => if 0 <=? f x d then d :: x :: l else x :: sdp_list_insert_sorted f l d
  end.

Fixpoint sdp_list_find {A B} (f : A -> B -> Z) (l : list A) (u : B) : option A :=
  match l with
  | [] => None
  | x :: l => if f x u =? 0 then Some x else sdp_list_find f l u
  end.

(** ** UUIDs *)

Definition sdp_uuid16_create (v : Z) : uuid_t := SDP_UUID16 v.
Definition sdp_uuid32_create (v : Z) : uuid_t := SDP_UUID32 v.
Definition sdp_uuid128_create (v : bytes) : uuid_t := SDP_UUID128 v.

Definition sdp_uuid_to_uuid128 (uuid : uuid_t) : uuid_t :=
  match uuid with
  | SDP_UUID128 v => SDP_UUID128 v
  | SDP_UUID32 v => SDP_UUID128 (sdp_uuid32_to_uuid128 v)
  | SDP_UUID16 v => SDP_UUID128 (sdp_uuid16_to_uuid128 v)
  | SDP_UUID_UNSPEC => SDP_UUID_UNSPEC
  end.

(** The 16 bytes of the union, which was zeroed first. *)
Definition uuid_value (uuid : uuid_t) : bytes :=
  match uuid with
  | SDP_UUID_UNSPEC => replicate 16 0
  | SDP_UUID16 v => le_bytes 2 v ++ replicate 14 0
  | SDP_UUID32 v => le_bytes 4 v ++ replicate 12 0
  | SDP_UUID128 v => v
  end.

Definition uuid_type (uuid : uuid_t) : Z :=
  match uuid with
  | SDP_UUID_UNSPEC => 0
  | SDP_UUID16 _ => Dtd.SDP_UUID16
  | SDP_UUID32 _ => Dtd.SDP_UUID32
  | SDP_UUID128 _ => Dtd.SDP_UUID128
  end.

Definition sdp_uuid128_cmp (p1 p2 : uuid_t) : Z := Libc.memcmp (uuid_value p1) (uuid_value p2).
Definition sdp_uuid16_cmp (p1 p2 : uuid_t) : Z :=
  Libc.memcmp (take 2 (uuid_value p1)) (take 2 (uuid_value p2)).
Definition sdp_uuid_cmp (p1 p2 : uuid_t) : Z :=
  sdp_uuid128_cmp (sdp_uuid_to_uuid128 p1) (sdp_uuid_to_uuid128 p2).

(** The UUID after the call, and what it returns. *)
Definition sdp_uuid128_to_uuid (uuid : uuid_t) : uuid_t * Z :=
  match uuid with
  | SDP_UUID128 u =>
      if bool_decide (drop 4 Uuid.bluetooth_base_uuid = drop 4 u) then
        let data := htonl (le_val (take 4 u)) in
        if data <=? 0xffff then (SDP_UUID16 data, 1) else (SDP_UUID32 data, 1)
      else (uuid, 0)
  | _ => (uuid, 1)
  end.

Definition sdp_uuid_to_proto (uuid : uuid_t) : Z :=
  match sdp_uuid128_to_uuid uuid with
  | (SDP_UUID16 v, 1) => v
  | (SDP_UUID32 v, 1) => s32 v
  | _ => 0
  end.

Definition sdp_pattern_add_uuid (rec : sdp_record) (uuid : uuid_t) : sdp_record :=
  let uuid128 := sdp_uuid_to_uuid128 uuid in
  match sdp_list_find sdp_uuid128_cmp (pattern rec) uuid128 with
  | None => set_pattern rec (sdp_list_insert_sorted sdp_uuid128_cmp (pattern rec) uuid128)
  | Some _ => rec
  end.

Definition sdp_pattern_add_uuidseq (rec : sdp_record) (seq : list uuid_t) : sdp_record :=
  foldl sdp_pattern_add_uuid rec seq.

(** ** Attributes of a record *)

Definition sdp_attrid_comp_func (d1 d2 : sdp_data) : Z := attrId d1 - attrId d2.

Definition sdp_data_get (rec : sdp_record) (attr : Z) : option sdp_data :=
  sdp_list_find (fun d a => attrId d - a) (attrlist rec) attr.

(** [uuid] after the call. *)
Definition extract_svclass_uuid (data : sdp_data) (uuid : uuid_t) : run uuid_t :=
  if negb (SDP_IS_SEQ (dtd data)) then Done uuid else
  match val data with
  | VSeq [] => Done uuid
  | VSeq (d :: _) =>
      if (dtd d <? Dtd.SDP_UUID16) || (Dtd.SDP_UUID128 <? dtd d) then Done uuid else
      match val d with VUuid u => Done u | _ => Fault end
  | _ => Fault
  end.

(** The element removed is the one [sdp_data_get] found, the first with its [attrId]. *)
Definition remove_attr (rec : sdp_record) (attr : Z) : sdp_record :=
  set_attrlist rec (sdp_list_remove (fun d => attrId d =? attr) (attrlist rec)).

Definition insert_attr (rec : sdp_record) (attr : Z) (d : sdp_data) : run sdp_record :=
  let d := set_attrId d attr in
  let rec := set_attrlist rec (sdp_list_insert_sorted sdp_attrid_comp_func (attrlist rec) d) in
  if attr =? SDP_ATTR_SVCLASS_ID_LIST then
    u ← extract_svclass_uuid d (svclass rec);
    Done (set_svclass rec u)
  else Done rec.

Definition sdp_attr_add (rec : sdp_record) (attr : Z) (d : sdp_data) : run (Z * sdp_record) :=
  match sdp_data_get rec attr with
  | Some _ => Done (-1, rec)
  | None => rec ← insert_attr rec attr d; Done (0, rec)
  end.

Definition sdp_attr_remove (rec : sdp_record) (attr : Z) : sdp_record :=
  let rec := match sdp_data_get rec attr with
             | Some _ => remove_attr rec attr
             | None => rec
             end in
  if attr =? SDP_ATTR_SVCLASS_ID_LIST then set_svclass rec SDP_UUID_UNSPEC else rec.

Definition sdp_attr_replace (rec : sdp_record) (attr : Z) (d : sdp_data) : run sdp_record :=
  let rec := match sdp_data_get rec attr with
             | Some _ => remove_attr rec attr
             | None => rec
             end in
  insert_attr rec attr d.

(** ** Making elements *)

(** The [void *] of a value: memory, or a chain of elements. *)
Inductive value_ptr :=
  | PNull
  | PMem (block : bytes)
  | PSeq (chain : list sdp_data).

Definition memory (value : value_ptr) : run bytes :=
  match value with PMem b => Done b | _ => Fault end.

Definition chain_of (value : value_ptr) : run (list sdp_data) :=
  match value with PNull => Done [] | PSeq l => Done l | PMem _ => Fault end.

Definition is_null (value : value_ptr) : bool :=
  match value with PNull | PSeq [] => true | _ => false end.

(** The number of a host with little-endian words in the [n] bytes at the value. *)
Definition load_num (value : value_ptr) (n : nat) : run Z :=
  b ← memory value;
  l ← lift (ld b 0 (Z.of_nat n));
  Done (le_val l).

Definition strlen (b : bytes) : run Z :=
  let s := until_null b in
  if zlen s <? zlen b then Done (zlen s) else Fault.

Definition sum_unitSize (l : list sdp_data) : Z := foldr (fun d n => unitSize d + n) 0 l.

Definition sdp_data_alloc_with_length (dtd : Z) (value : value_ptr) (length : Z) :
    run (option sdp_data) :=
  match dtd_kind dtd with
  | Some KNil => Done (Some (Data dtd 0 1 (VNum 0)))
  | Some (KUint n) | Some (KInt n) =>
      v ← load_num value n;
      Done (Some (Data dtd 0 (1 + Z.of_nat n) (VNum v)))
  | Some KBool =>
      v ← load_num value 1;
      Done (Some (Data dtd 0 2 (VNum v)))
  | Some (KUuid n) =>
      b ← memory value;
      l ← lift (ld b 0 (Z.of_nat n));
      let u := if (n =? 2)%nat then sdp_uuid16_create (le_val l)
               else if (n =? 4)%nat then sdp_uuid32_create (le_val l)
               else sdp_uuid128_create l in
      Done (Some (Data dtd 0 (1 + Z.of_nat n) (VUuid u)))
  | Some (KUrl n) | Some (KText n) =>
      if (n =? 4)%nat then Done (Some (Data dtd 0 1 (VStr None)))
      else if is_null value then Done None
      else if length <=? USHRT_MAX then
        b ← memory value;
        s ← lift (ld b 0 length);
        Done (Some (Data dtd 0 (1 + length) (VStr (Some s))))
      else Done None
  | Some (KSeq n) | Some (KAlt n) =>
      seq ← chain_of value;
      Done (Some (Data dtd 0 (1 + Z.of_nat n + sum_unitSize seq) (VSeq seq)))
  | None => Done None
  end.

Definition sdp_data_alloc (dtd : Z) (value : value_ptr) : run (option sdp_data) :=
  match dtd_kind dtd with
  | Some (KUrl n) | Some (KText n) =>
      if (n =? 4)%nat then sdp_data_alloc_with_length dtd value 0
      else if is_null value then Done None
      else
        b ← memory value;
        length ← strlen b;
        sdp_data_alloc_with_length dtd value length
  | _ => sdp_data_alloc_with_length dtd value 0
  end.

(** [d] loses the chain behind it. *)
Definition sdp_seq_append (seq : list sdp_data) (d : sdp_data) : list sdp_data := seq ++ [d].

(** The loops of the two constructors of sequences: [seq] up to [curr], and the chain that
    starts at [curr]; the next element takes the place of what follows [curr]. *)
Fixpoint seq_alloc_loop (data_of : Z -> value_ptr -> Z -> run (list sdp_data))
    (elems : list (Z * value_ptr * Z)) (seq curr : list sdp_data) :
    run (option (list sdp_data)) :=
  match elems with
  | [] => Done (Some (seq ++ curr))
  | (dtd, value, length) :: elems =>
      data ← data_of dtd value length;
      match data with
      | [] => Done None
      | _ :: _ => seq_alloc_loop data_of elems (seq ++ take 1 curr) data
      end
  end.

Definition as_chain (d : option sdp_data) : list sdp_data :=
  match d with Some d => [d] | None => [] end.

Definition s8 (x : Z) : Z := if x <? 2 ^ 7 then x else x - 2 ^ 8.

Definition sdp_seq_alloc_with_length (elems : list (Z * value_ptr * Z)) :
    run (option sdp_data) :=
  seq ← seq_alloc_loop (fun dtd value length =>
    let dtd := s8 dtd in
    if (Dtd.SDP_SEQ8 <=? dtd) && (dtd <=? Dtd.SDP_ALT32) then chain_of value
    else d ← sdp_data_alloc_with_length (u8 dtd) value length; Done (as_chain d)) elems [] [];
  match seq with
  | None => Done None
  | Some seq => sdp_data_alloc Dtd.SDP_SEQ8 (PSeq seq)
  end.

Definition sdp_seq_alloc (elems : list (Z * value_ptr)) : run (option sdp_data) :=
  seq ← seq_alloc_loop (fun dtd value _ =>
    if (Dtd.SDP_SEQ8 <=? dtd) && (dtd <=? Dtd.SDP_ALT32) then chain_of value
    else d ← sdp_data_alloc dtd value; Done (as_chain d)) ((fun e => (e, 0)) <$> elems) [] [];
  match seq with
  | None => Done None
  | Some seq => sdp_data_alloc Dtd.SDP_SEQ8 (PSeq seq)
  end.

Definition sdp_attr_add_new_with_length (rec : sdp_record) (attr dtd : Z) (value : value_ptr)
    (len : Z) : run (Z * sdp_record) :=
  d ← sdp_data_alloc_with_length dtd value len;
  match d with
  | None => Done (-1, rec)
  | Some d => rec ← sdp_attr_replace rec attr d; Done (0, rec)
  end.

Definition sdp_attr_add_new (rec : sdp_record) (attr dtd : Z) (value : value_ptr) :
    run (Z * sdp_record) :=
  d ← sdp_data_alloc dtd value;
  match d with
  | None => Done (-1, rec)
  | Some d => rec ← sdp_attr_replace rec attr d; Done (0, rec)
  end.

(** ** Copying records *)

(** The memory at a member of the union that holds numbers: its 24 bytes. *)
Definition num_block (v : sdp_val sdp_data) : run value_ptr :=
  match v with VNum x => Done (PMem (le_bytes 24 x)) | _ => Fault end.

(** The loop of [sdp_copy_seq]; [cur] tells whether [cur] is not NULL. *)
Fixpoint copy_seq_loop (value_of : sdp_data -> run (value_ptr * Z)) (l : list sdp_data)
    (seq : list sdp_data) (cur : bool) : run (list sdp_data) :=
  match l with
  | [] => Done seq
  | tmp :: l =>
      v ← value_of tmp;
      datatmp ← sdp_data_alloc_with_length (dtd tmp) v.1 (unitSize tmp);
      copy_seq_loop value_of l (if cur then seq ++ as_chain datatmp else as_chain datatmp)
        (bool_decide (is_Some datatmp))
  end.

(** The value, and the length when the caller asks for it (0 where it is left alone). *)
Fixpoint sdp_data_value (data : sdp_data) : run (value_ptr * Z) :=
  match data with
  | Data dtd _ unitSize val =>
      match dtd_kind dtd with
      | Some KNil | None => Done (PNull, 0)
      | Some (KUint _) | Some (KInt _) | Some KBool => p ← num_block val; Done (p, 0)
      | Some (KUuid _) =>
          match val with VUuid u => Done (PMem (uuid_value u), 0) | _ => Fault end
      | Some (KUrl _) | Some (KText _) =>
          match val with
          | VStr (Some s) => Done (PMem s, u32 (unitSize - 1))
          | VStr None => Done (PNull, u32 (unitSize - 1))
          | _ => Fault
          end
      | Some (KSeq _) | Some (KAlt _) =>
          match val with
          | VSeq l => l' ← copy_seq_loop sdp_data_value l [] false; Done (PSeq l', 0)
          | _ => Fault
          end
      end
  end.

Definition sdp_copy_seq (data : list sdp_data) : run (list sdp_data) :=
  copy_seq_loop sdp_data_value data [] false.

Definition sdp_copy_attrlist (data : sdp_data) (rec : sdp_record) : run sdp_record :=
  v ← sdp_data_value data;
  let '(value, len) := v in
  r ← (if len =? 0 then sdp_attr_add_new rec (attrId data) (dtd data) value
       else sdp_attr_add_new_with_length rec (attrId data) (dtd data) value len);
  Done r.2.

Fixpoint fold_run {A B} (f : A -> B -> run B) (l : list A) (b : B) : run B :=
  match l with
  | [] => Done b
  | x :: l => b ← f x b; fold_run f l b
  end.

Definition sdp_copy_record (rec : sdp_record) : run sdp_record :=
  let cpy := set_handle sdp_record_alloc (handle rec) in
  let cpy := foldl sdp_pattern_add_uuid cpy (pattern rec) in
  cpy ← fold_run sdp_copy_attrlist (attrlist rec) cpy;
  Done (set_svclass cpy (svclass rec)).

(** ** Reading attributes *)

Section values.
(** The low 32 bits of a pointer in the union. *)
Context (low32 : sdp_val sdp_data -> Z).

(** [val.uint32], whatever was written. *)
Definition val_uint32 (v : sdp_val sdp_data) : Z :=
  match v with
  | VNum x => u32 x
  | VUuid u => uuid_type u
  | VStr None | VSeq [] => 0
  | VStr (Some _) | VSeq (_ :: _) => low32 v
  end.

(** The value, and [None] for -1. *)
Definition sdp_get_int_attr (rec : sdp_record) (attr : Z) : option Z :=
  match sdp_data_get rec attr with
  | None => None
  | Some d =>
      match dtd_kind (dtd d) with
      | Some KBool | Some (KUint 1) | Some (KUint 2) | Some (KUint 4)
      | Some (KInt 1) | Some (KInt 2) | Some (KInt 4) => Some (s32 (val_uint32 (val d)))
      | _ => None
      end
  end.

Definition sdp_get_service_ttl (rec : sdp_record) : option Z :=
  (fun d => val_uint32 (val d)) <$> sdp_data_get rec 0x0007.
Definition sdp_get_record_state (rec : sdp_record) : option Z :=
  (fun d => val_uint32 (val d)) <$> sdp_data_get rec 0x0002.
Definition sdp_get_database_state (rec : sdp_record) : option Z :=
  (fun d => val_uint32 (val d)) <$> sdp_data_get rec 0x0201.
Definition sdp_get_service_avail (rec : sdp_record) : option Z :=
  (fun d => u8 (val_uint32 (val d))) <$> sdp_data_get rec 0x0008.
End values.

(** What is copied to a buffer of [valuelen] bytes, the NUL left out. *)
Definition sdp_get_string_attr (rec : sdp_record) (attr valuelen : Z) : run (option bytes) :=
  match sdp_data_get rec attr with
  | None => Done None
  | Some d =>
      if SDP_IS_TEXT_STR (dtd d) then
        match val d with
        | VStr (Some s) =>
            n ← strlen s;
            Done (if n <? valuelen then Some (until_null s) else None)
        | _ => Fault
        end
      else Done None
  end.

(** [__find_port] on a protocol descriptor. *)
Definition find_port (seq : list sdp_data) (proto : Z) : run Z :=
  match seq with
  | d :: next :: _ =>
      if SDP_IS_UUID (dtd d) then
        match val d with
        | VUuid u =>
            if sdp_uuid_to_proto u =? proto then
              match dtd_kind (dtd next), val next with
              | Some (KUint 1), VNum v => Done (u8 v)
              | Some (KUint 2), VNum v => Done (u16 v)
              | Some (KUint 1), _ | Some (KUint 2), _ => Fault
              | _, _ => Done 0
              end
            else Done 0
        | _ => Fault
        end
      else Done 0
  | _ => Done 0
  end.
