(* ===== verification/SdpPdu.v ===== *)
(** lib/sdp.c: data elements and records as bytes, written and read.

    [malloc n] is the contents of a fresh block of [n] bytes.  C leaves open when the left
    operand of [+=] is read; [late] says that it is read after the call on the right. *)
From Stdlib Require Import ZArith Lia.
From S2P Require Import Prelude Libc Uuid Eir Sdp.
From stdpp Require Import base numbers list option.

Local Open Scope Z_scope.

(** [sdp_buf_t]: [data] is a block, NULL while only sizes are counted. *)
Record sdp_buf := Buf {
  data : option bytes;
  data_size : Z;
  buf_size : Z;
}.

Definition empty_buf : sdp_buf := Buf None 0 0.

(** A store to [buf->data]. *)
Definition buf_put (buf : sdp_buf) (put : bytes -> ub bytes) : run sdp_buf :=
  match data buf with
  | None => Fault
  | Some b => b ← lift (put b); Done (Buf (Some b) (data_size buf) (buf_size buf))
  end.

Definition set_data_size (buf : sdp_buf) (n : Z) : sdp_buf := Buf (data buf) (u32 n) (buf_size buf).
Definition set_buf_size (buf : sdp_buf) (n : Z) : sdp_buf := Buf (data buf) (data_size buf) (u32 n).

(** ** Generation *)

(** The length behind the type at [ptr]. *)
Definition sdp_set_seq_len (b : bytes) (ptr : Z) (length : Z) : ub bytes :=
  dtd ← get_u8 b ptr;
  match dtd_kind dtd with
  | Some (KSeq 1) | Some (KAlt 1) | Some (KText 1) | Some (KUrl 1) => put_u8 length b (ptr + 1)
  | Some (KSeq 2) | Some (KAlt 2) | Some (KText 2) | Some (KUrl 2) => put_be16 length b (ptr + 1)
  | Some (KSeq 4) | Some (KAlt 4) | Some (KText 4) | Some (KUrl 4) => put_be32 length b (ptr + 1)
  | _ => Some b
  end.

Definition sdp_get_data_type_size (dtd : Z) : Z :=
  match dtd_kind dtd with
  | Some (KSeq n) | Some (KText n) | Some (KUrl n) | Some (KAlt n) => 1 + Z.of_nat n
  | _ => 1
  end.

Definition sdp_set_attrid (buf : sdp_buf) (attr : Z) : run sdp_buf :=
  buf ← buf_put buf (fun b => put_u8 Dtd.SDP_UINT16 b 0);
  buf ← buf_put buf (fun b => put_be16 attr b 1);
  Done (set_data_size buf 3).

(** The bytes at [src]: those of the value in network order, or the string. *)
Definition gen_src (d : sdp_data) : run (option bytes) :=
  match dtd_kind (dtd d), val d with
  | Some (KUint n), VNum v | Some (KInt n), VNum v => Done (Some (be_bytes n v))
  | Some KBool, VNum v => Done (Some (be_bytes 1 v))
  | Some (KUuid 2), VUuid u => Done (Some (rev (take 2 (uuid_value u))))
  | Some (KUuid 4), VUuid u => Done (Some (rev (take 4 (uuid_value u))))
  | Some (KUuid 16), VUuid u => Done (Some (uuid_value u))
  | Some (KText _), VStr s | Some (KUrl _), VStr s => Done s
  | Some KNil, _ | None, _ => Done None
  | _, _ => Fault
  end.

(** The children, generated or counted by [each]; they may be changed by it. *)
Fixpoint get_data_size (each : sdp_buf -> sdp_data -> run (sdp_buf * sdp_data * Z))
    (buf : sdp_buf) (l : list sdp_data) (n : Z) : run (sdp_buf * list sdp_data * Z) :=
  match l with
  | [] => Done (buf, [], n)
  | d :: l =>
      r ← each buf d;
      let '(buf, d, k) := r in
      r ← get_data_size each buf l (n + k);
      let '(buf, l, n) := r in
      Done (buf, d :: l, n)
  end.

Definition sdp_get_data_size (each : sdp_buf -> sdp_data -> run (sdp_buf * sdp_data * Z))
    (buf : sdp_buf) (d : sdp_data) : run (sdp_buf * sdp_data * Z) :=
  match dtd_kind (dtd d) with
  | Some (KUint n) | Some (KInt n) | Some (KUuid n) => Done (buf, d, Z.of_nat n)
  | Some KBool => Done (buf, d, 1)
  | Some (KText _) | Some (KUrl _) => Done (buf, d, u32 (unitSize d - 1))
  | Some (KSeq _) | Some (KAlt _) =>
      match val d with
      | VSeq l =>
          r ← get_data_size each buf l 0;
          let '(buf, l, n) := r in
          Done (buf, Data (dtd d) (attrId d) (unitSize d) (VSeq l), n)
      | _ => Fault
      end
  | Some KNil | None => Done (buf, d, 0)
  end.

(** What [sdp_gen_pdu] does once the size of the value is known: the header at [seqp], and
    the value of an element without children. *)
Definition gen_element (buf : sdp_buf) (seqp : Z) (d : sdp_data) (size : Z) : run sdp_buf :=
  buf ← buf_put buf (fun b => put_u8 (dtd d) b seqp);
  match dtd_kind (dtd d) with
  | Some (KSeq _) | Some (KAlt _) => buf_put buf (fun b => sdp_set_seq_len b seqp size)
  | k =>
      src ← gen_src d;
      buf ← match k with
            | Some (KText _) | Some (KUrl _) => buf_put buf (fun b => sdp_set_seq_len b seqp size)
            | _ => Done buf
            end;
      match src with
      | Some s =>
          if u32 (data_size buf + size) <=? buf_size buf then
            s ← lift (ld s 0 size);
            buf ← buf_put buf (fun b => st b (data_size buf) s);
            Done (set_data_size buf (data_size buf + size))
          else Done buf
      | None => Done buf
      end
  end.

Section gen.
Context (late : bool).

Fixpoint sdp_gen_buffer (fuel : nat) (buf : sdp_buf) (d : sdp_data) :
    run (sdp_buf * sdp_data * Z) :=
  match fuel with
  | O => NoFuel
  | S fuel =>
      let orig := buf_size buf in
      let buf := if (buf_size buf =? 0) && (dtd d =? 0) then set_buf_size buf (buf_size buf + 2)
                 else buf in
      let buf := set_buf_size buf (buf_size buf + 3) in
      let buf := set_buf_size buf (buf_size buf + sdp_get_data_type_size (dtd d)) in
      let early := buf_size buf in
      r ← sdp_get_data_size (each_child fuel) buf d;
      let '(buf, d, n) := r in
      let buf := set_buf_size buf ((if late then buf_size buf else early) + n) in
      let buf := if (UCHAR_MAX <? buf_size buf) && (dtd d =? Dtd.SDP_SEQ8)
                 then set_buf_size buf (buf_size buf + 1) else buf in
      Done (buf, d, u32 (buf_size buf - orig))
  end
with sdp_gen_pdu (fuel : nat) (buf : sdp_buf) (d : sdp_data) : run (sdp_buf * sdp_data * Z) :=
  match fuel with
  | O => NoFuel
  | S fuel =>
      let seqp := data_size buf in
      let pdu_size := sdp_get_data_type_size (dtd d) in
      r ← sdp_get_data_size (each_child fuel) (set_data_size buf (seqp + pdu_size)) d;
      let '(buf, d, n) := r in
      r ← (if (UCHAR_MAX <? n) && (dtd d =? Dtd.SDP_SEQ8) then
             let d := set_dtd d Dtd.SDP_SEQ16 in
             let pdu_size := sdp_get_data_type_size (dtd d) in
             r ← sdp_get_data_size (each_child fuel) (set_data_size buf (seqp + pdu_size)) d;
             let '(buf, d, n) := r in
             Done (buf, d, n, pdu_size)
           else Done (buf, d, n, pdu_size));
      let '(buf, d, n, pdu_size) := r in
      buf ← gen_element buf seqp d n;
      Done (buf, d, pdu_size + n)
  end
with each_child (fuel : nat) (buf : sdp_buf) (d : sdp_data) : run (sdp_buf * sdp_data * Z) :=
  match fuel with
  | O => NoFuel
  | S fuel =>
      match data buf with
      | Some _ => sdp_gen_pdu fuel buf d
      | None => sdp_gen_buffer fuel buf d
      end
  end.

(** The first byte of the sequence in [dst]. *)
Definition buf_dtd (dst : sdp_buf) : run Z :=
  match data dst with Some b => lift (get_u8 b 0) | None => Fault end.

(** The three parts of [sdp_append_to_buf]: the initial sequence; the copy, with the move
    when the sequence gets a longer header; the length in the header. *)
Definition append_start (dst : sdp_buf) : run sdp_buf :=
  dtd ← buf_dtd dst;
  if (data_size dst =? 0) && (dtd =? 0) then
    dst ← buf_put dst (fun b => put_u8 Dtd.SDP_SEQ8 b 0);
    Done (set_data_size dst (data_size dst + 2))
  else Done dst.

Definition append_copy (dst : sdp_buf) (src : bytes) (len : Z) : run sdp_buf :=
  s ← lift (ld src 0 len);
  dst ← buf_put dst (fun b => st b (data_size dst) s);
  let dst := set_data_size dst (data_size dst + len) in
  dtd ← buf_dtd dst;
  if (UCHAR_MAX <? data_size dst) && (dtd =? Dtd.SDP_SEQ8) then
    dst ← buf_put dst (fun b => m ← ld b 2 (data_size dst - 2); st b 3 m);
    dst ← buf_put dst (fun b => put_u8 Dtd.SDP_SEQ16 b 0);
    Done (set_data_size dst (data_size dst + 1))
  else Done dst.

Definition append_length (dst : sdp_buf) : run sdp_buf :=
  dtd ← buf_dtd dst;
  match dtd_kind dtd with
  | Some (KSeq 1) => buf_put dst (fun b => put_u8 (data_size dst - 2) b 1)
  | Some (KSeq 2) => buf_put dst (fun b => put_be16 (data_size dst - 3) b 1)
  | Some (KSeq 4) => buf_put dst (fun b => put_be32 (data_size dst - 5) b 1)
  | _ => Done dst
  end.

(** Appends [len] bytes of [src] to the sequence in [dst]. *)
Definition sdp_append_to_buf (dst : sdp_buf) (src : bytes) (len : Z) : run sdp_buf :=
  dst ← append_start dst;
  dst ← append_copy dst src len;
  append_length dst.

Context (malloc : Z -> bytes).

(** The buffer, and the element with the types that generation changed. *)
Definition sdp_append_to_pdu (fuel : nat) (pdu : sdp_buf) (d : sdp_data) :
    run (sdp_buf * sdp_data) :=
  r ← sdp_gen_buffer fuel empty_buf d;
  let '(append, d, _) := r in
  let append := Buf (Some (malloc (buf_size append))) (data_size append) (buf_size append) in
  append ← sdp_set_attrid append (attrId d);
  r ← sdp_gen_pdu fuel append d;
  let '(append, d, _) := r in
  src ← match data append with Some b => Done b | None => Fault end;
  pdu ← sdp_append_to_buf pdu src (data_size append);
  Done (pdu, d).

(** The two passes over the attributes. *)
Fixpoint attr_sizes (fuel : nat) (l : list sdp_data) (buf : sdp_buf) : run sdp_buf :=
  match l with
  | [] => Done buf
  | d :: l => r ← sdp_gen_buffer fuel buf d; attr_sizes fuel l r.1.1
  end.

Fixpoint attr_pdus (fuel : nat) (l : list sdp_data) (buf : sdp_buf) :
    run (sdp_buf * list sdp_data) :=
  match l with
  | [] => Done (buf, [])
  | d :: l =>
      r ← sdp_append_to_pdu fuel buf d;
      let '(buf, d) := r in
      r ← attr_pdus fuel l buf;
      let '(buf, l) := r in
      Done (buf, d :: l)
  end.

Definition sdp_gen_record_pdu (fuel : nat) (rec : sdp_record) : run (sdp_buf * sdp_record) :=
  buf ← attr_sizes fuel (attrlist rec) empty_buf;
  let buf := Buf (Some (replicate (Z.to_nat (buf_size buf)) 0)) 0 (buf_size buf) in
  r ← attr_pdus fuel (attrlist rec) buf;
  let '(buf, l) := r in
  Done (buf, set_attrlist rec l).
End gen.

(** ** Extraction *)

(** [n] bytes at [p]; the callers have checked the length that they know. *)
Definition rd (b : bytes) (p : Z) (n : nat) : run bytes := lift (ld b p (Z.of_nat n)).

Definition rd_u8 (b : bytes) (p : Z) : run Z := l ← rd b p 1; Done (le_val l).

(** The UUID, [None] for -1, and what is added to [scanned]. *)
Definition sdp_uuid_extract (b : bytes) (p bufsize : Z) : run (option uuid_t * Z) :=
  if bufsize <? 1 then Done (None, 0) else
  type ← rd_u8 b p;
  if negb (SDP_IS_UUID type) then Done (None, 0) else
  let p := p + 1 in
  let bufsize := bufsize - 1 in
  if type =? Dtd.SDP_UUID16 then
    if bufsize <? 2 then Done (None, 1) else
    l ← rd b p 2;
    Done (Some (sdp_uuid16_create (be_val l)), 3)
  else if type =? Dtd.SDP_UUID32 then
    if bufsize <? 4 then Done (None, 1) else
    l ← rd b p 4;
    Done (Some (sdp_uuid32_create (be_val l)), 5)
  else
    if bufsize <? 16 then Done (None, 1) else
    l ← rd b p 16;
    Done (Some (sdp_uuid128_create l), 17).

(** A number of [n] bytes, behind the type: the cases of [extract_int]. *)
Definition extract_num (b : bytes) (dtd p bufsize : Z) (n : nat) : run (option sdp_data * Z) :=
  if bufsize <? Z.of_nat n then Done (None, 1) else
  l ← rd b p n;
  Done (Some (Data dtd 0 0 (VNum (be_val l))), 1 + Z.of_nat n).

(** The element, and what is added to [len]. *)
Definition extract_int (b : bytes) (p bufsize : Z) : run (option sdp_data * Z) :=
  if bufsize <? 1 then Done (None, 0) else
  dtd ← rd_u8 b p;
  let p := p + 1 in
  let bufsize := bufsize - 1 in
  match dtd_kind dtd with
  | Some KNil => Done (Some (Data dtd 0 0 (VNum 0)), 1)
  | Some KBool => extract_num b dtd p bufsize 1
  | Some (KInt n) | Some (KUint n) => extract_num b dtd p bufsize n
  | _ => Done (None, 1)
  end.

Definition pattern_add (rec : option sdp_record) (u : uuid_t) : option sdp_record :=
  (fun rec => sdp_pattern_add_uuid rec u) <$> rec.

Definition extract_uuid (b : bytes) (p bufsize : Z) (rec : option sdp_record) :
    run (option sdp_data * Z * option sdp_record) :=
  r ← sdp_uuid_extract b p bufsize;
  let '(uuid, len) := r in
  match uuid with
  | None => Done (None, len, rec)
  | Some u =>
      dtd ← rd_u8 b p;
      Done (Some (Data dtd 0 0 (VUuid u)), len, pattern_add rec u)
  end.

(** A string behind a length of [w] bytes: the rest of [extract_str]. *)
Definition extract_chars (b : bytes) (dtd p bufsize : Z) (w : nat) : run (option sdp_data * Z) :=
  if bufsize <? Z.of_nat w then Done (None, 1) else
  l ← rd b p w;
  let n := be_val l in
  let p := p + Z.of_nat w in
  let bufsize := bufsize - Z.of_nat w in
  if bufsize <? n then Done (None, 1 + Z.of_nat w) else
  s ← lift (ld b p n);
  Done (Some (Data dtd 0 (n + 1) (VStr (Some (s ++ [0])))), 1 + Z.of_nat w + n).

Definition extract_str (b : bytes) (p bufsize : Z) : run (option sdp_data * Z) :=
  if bufsize <? 1 then Done (None, 0) else
  dtd ← rd_u8 b p;
  let p := p + 1 in
  let bufsize := bufsize - 1 in
  match dtd_kind dtd with
  | Some (KText 1) | Some (KUrl 1) => extract_chars b dtd p bufsize 1
  | Some (KText 2) | Some (KUrl 2) => extract_chars b dtd p bufsize 2
  | _ => Done (None, 1)
  end.

(** The offset behind the header, 0 on failure; the values of [dtdp] and [size]. *)
Definition sdp_extract_seqtype (b : bytes) (p bufsize dtdp size : Z) : run (Z * Z * Z) :=
  if bufsize <? 1 then Done (0, dtdp, size) else
  dtd ← rd_u8 b p;
  let p := p + 1 in
  let bufsize := bufsize - 1 in
  match dtd_kind dtd with
  | Some (KSeq n) | Some (KAlt n) =>
      if bufsize <? Z.of_nat n then Done (0, dtd, size) else
      l ← rd b p n;
      Done (1 + Z.of_nat n, dtd, s32 (be_val l))
  | _ => Done (0, dtd, size)
  end.

Section extract.
Context (b : bytes).

(** The loop of [extract_seq]: the children, [n] and the record. *)
Fixpoint extract_seq_loop
    (extract : Z -> Z -> option sdp_record -> run (option sdp_data * Z * option sdp_record))
    (fuel : nat) (p bufsize n seqlen : Z) (seq : list sdp_data) (rec : option sdp_record) :
    run (list sdp_data * Z * option sdp_record) :=
  match fuel with
  | O => NoFuel
  | S fuel =>
      if n <? seqlen then
        r ← extract p bufsize rec;
        let '(curr, attrlen, rec) := r in
        match curr with
        | None => Done (seq, n, rec)
        | Some curr =>
            extract_seq_loop extract fuel (p + attrlen) (bufsize - attrlen) (n + attrlen) seqlen
              (seq ++ [curr]) rec
        end
      else Done (seq, n, rec)
  end.

Definition extract_seq
    (extract : Z -> Z -> option sdp_record -> run (option sdp_data * Z * option sdp_record))
    (fuel : nat) (p bufsize : Z) (rec : option sdp_record) :
    run (option sdp_data * Z * option sdp_record) :=
  r ← sdp_extract_seqtype b p bufsize 0 0;
  let '(len, dtd, seqlen) := r in
  if len =? 0 then Done (Some (Data dtd 0 0 (VSeq [])), 0, rec)
  else if bufsize <? len then Done (None, len, rec)
  else
    r ← extract_seq_loop extract fuel (p + len) (bufsize - len) 0 seqlen [] rec;
    let '(seq, n, rec) := r in
    Done (Some (Data dtd 0 0 (VSeq seq)), len + n, rec).

(** The element, what is added to [size], and the record. *)
Fixpoint sdp_extract_attr (fuel : nat) (p bufsize : Z) (rec : option sdp_record) :
    run (option sdp_data * Z * option sdp_record) :=
  match fuel with
  | O => NoFuel
  | S fuel =>
      if bufsize <? 1 then Done (None, 0, rec) else
      dtd ← rd_u8 b p;
      match dtd_kind dtd with
      | Some KNil | Some KBool | Some (KUint _) | Some (KInt _) =>
          r ← extract_int b p bufsize; Done (r, rec)
      | Some (KUuid _) => extract_uuid b p bufsize rec
      | Some (KText _) | Some (KUrl _) => r ← extract_str b p bufsize; Done (r, rec)
      | Some (KSeq _) | Some (KAlt _) =>
          extract_seq (sdp_extract_attr fuel) fuel p bufsize rec
      | None => Done (None, 0, rec)
      end
  end.

Context (low32 : sdp_val sdp_data -> Z).

(** What [sdp_extract_pdu] does with an attribute. *)
Definition take_attr (rec : sdp_record) (attr : Z) (data : sdp_data) : run sdp_record :=
  let rec := if attr =? SDP_ATTR_RECORD_HANDLE then set_handle rec (val_uint32 low32 (val data))
             else rec in
  rec ← (if attr =? SDP_ATTR_SVCLASS_ID_LIST then
           u ← extract_svclass_uuid data (svclass rec);
           Done (set_svclass rec u)
         else Done rec);
  sdp_attr_replace rec attr data.

Fixpoint extract_pdu_loop (fuel : nat) (p bufsize extracted seqlen : Z) (rec : sdp_record) :
    run sdp_record :=
  match fuel with
  | O => NoFuel
  | S fuel' =>
      if (extracted <? seqlen) && (0 <? bufsize) then
        if bufsize <? 3 then Done rec else
        l ← rd b (p + 1) 2;
        let attr := be_val l in
        r ← sdp_extract_attr fuel (p + 3) (bufsize - 3) (Some rec);
        let '(data, attrlen, rec') := r in
        let rec := default rec rec' in
        let n := 3 + attrlen in
        match data with
        | None => Done rec
        | Some data =>
            rec ← take_attr rec attr data;
            extract_pdu_loop fuel' (p + n) (bufsize - n) (extracted + n) seqlen rec
        end
      else Done rec
  end.

(** The record and [*scanned]. *)
Definition sdp_extract_pdu (fuel : nat) (bufsize : Z) : run (sdp_record * Z) :=
  r ← sdp_extract_seqtype b 0 bufsize 0 0;
  let '(scanned, _, seqlen) := r in
  rec ← extract_pdu_loop fuel scanned (bufsize - scanned) 0 seqlen sdp_record_alloc;
  scanned ← as_int (scanned + seqlen);
  Done (rec, scanned).
End extract.

(** [count] handles from [pdu], as far as the buffer goes; and what is added to [scanned]. *)
Fixpoint extract_record_handle_seq (count : nat) (b : bytes) (p bufsize : Z) : run (list Z * Z) :=
  match count with
  | O => Done ([], 0)
  | S count =>
      if bufsize <? 4 then Done ([], 0) else
      l ← rd b p 4;
      r ← extract_record_handle_seq count b (p + 4) (bufsize - 4);
      Done (be_val l :: r.1, 4 + r.2)
  end.
