(* ===== verification/SdpSpec.v ===== *)
(** The bytes of data elements, and the generator of lib/sdp.c against them: well-typed
    elements ([well_typed]), their wire format ([wire]), the types that generation gives
    them ([settle]), and the buffer that sdp_gen_buffer asks for. *)
From Stdlib Require Import ZArith Lia.
From S2P Require Import Prelude Blocks Libc Uuid Eir Sdp SdpPdu.
From stdpp Require Import base numbers list option.

Local Open Scope Z_scope.

(** ** Elements *)

Definition kids (d : sdp_data) : list sdp_data :=
  match val d with VSeq l => l | _ => [] end.

Lemma sdp_data_ind' (P : sdp_data -> Prop) :
  (forall dtd a u v, Forall P (kids (Data dtd a u v)) -> P (Data dtd a u v)) -> forall d, P d.
Proof.
  intros H. fix IH 1. intros [dtd a u v]. apply H.
  destruct v as [x|x|x|l]; [constructor..|].
  cbn. induction l as [|d l IHl]; constructor; [apply IH|apply IHl].
Qed.

Definition uuid_ok (n : nat) (u : uuid_t) : bool :=
  match u with
  | SDP_UUID16 v => (n =? 2)%nat && bool_decide (is_u16 v)
  | SDP_UUID32 v => (n =? 4)%nat && bool_decide (is_u32 v)
  | SDP_UUID128 l => (n =? 16)%nat && bool_decide (bytes_ok l) && (length l =? 16)%nat
  | SDP_UUID_UNSPEC => false
  end.

(** The value of an element without children is one of its type: a number of its width, a
    UUID of its size, a string that its length describes. *)
Definition leaf_ok (k : kind) (unitSize : Z) (v : sdp_val sdp_data) : bool :=
  match k, v with
  | KNil, VNum _ => true
  | KUint n, VNum v | KInt n, VNum v => (0 <=? v) && (v <? 256 ^ Z.of_nat n)
  | KBool, VNum v => (0 <=? v) && (v <? 256)
  | KUuid n, VUuid u => uuid_ok n u
  | KText n, VStr (Some s) | KUrl n, VStr (Some s) =>
      (n <? 4)%nat && (1 <=? unitSize) && (unitSize - 1 <=? zlen s)
      && (unitSize - 1 <? 256 ^ Z.of_nat n) && bool_decide (bytes_ok s)
  | _, _ => false
  end.

Fixpoint well_typed (d : sdp_data) : bool :=
  match d with
  | Data dtd _ unitSize val =>
      match dtd_kind dtd with
      | Some (KSeq _) | Some (KAlt _) =>
          match val with VSeq l => forallb well_typed l | _ => false end
      | Some k => leaf_ok k unitSize val
      | None => false
      end
  end.

(** Every string has the length that its element gives, and its last byte is the null byte. *)
Fixpoint terminated (d : sdp_data) : bool :=
  match d with
  | Data _ _ unitSize val =>
      match val with
      | VStr (Some s) => (zlen s =? unitSize) && bool_decide (list.last s = Some 0)
      | VSeq l => forallb terminated l
      | _ => true
      end
  end.

(** What the readers make. *)
Definition read_ok (d : sdp_data) : bool := well_typed d && terminated d.

Definition uuid_be (u : uuid_t) : bytes :=
  match u with
  | SDP_UUID16 v => be_bytes 2 v
  | SDP_UUID32 v => be_bytes 4 v
  | SDP_UUID128 l => l
  | SDP_UUID_UNSPEC => []
  end.

(** The value of an element without children. *)
Definition leaf_wire (k : kind) (unitSize : Z) (v : sdp_val sdp_data) : bytes :=
  match k, v with
  | KUint n, VNum v | KInt n, VNum v => be_bytes n v
  | KBool, VNum v => be_bytes 1 v
  | KUuid _, VUuid u => uuid_be u
  | KText _, VStr (Some s) | KUrl _, VStr (Some s) => take (Z.to_nat (unitSize - 1)) s
  | _, _ => []
  end.

(** The header of an element: the type, and the length of the value where it has one. *)
Definition header (dtd len : Z) : bytes :=
  dtd :: match dtd_kind dtd with
         | Some (KSeq n) | Some (KAlt n) | Some (KText n) | Some (KUrl n) => be_bytes n len
         | _ => []
         end.

Fixpoint wire (d : sdp_data) : bytes :=
  match d with
  | Data dtd _ unitSize val =>
      let body := match val with
                  | VSeq l => flat_map wire l
                  | _ => match dtd_kind dtd with Some k => leaf_wire k unitSize val | None => [] end
                  end in
      header dtd (zlen body) ++ body
  end.

(** The value, behind the header. *)
Definition body (d : sdp_data) : bytes :=
  match val d with
  | VSeq l => flat_map wire l
  | v => match dtd_kind (dtd d) with Some k => leaf_wire k (unitSize d) v | None => [] end
  end.

Lemma wire_body d : wire d = header (dtd d) (zlen (body d)) ++ body d.
Proof. by destruct d as [? ? ? []]. Qed.

(** The types after generation: a sequence too long for its 8-bit length gets 16 bits. *)
Fixpoint settle (d : sdp_data) : sdp_data :=
  match d with
  | Data dtd a u (VSeq l) =>
      let l := map settle l in
      Data (if (UCHAR_MAX <? zlen (flat_map wire l)) && (dtd =? Dtd.SDP_SEQ8)
            then Dtd.SDP_SEQ16 else dtd) a u (VSeq l)
  | d => d
  end.

(** Every length can be written in the bytes that the type gives it. *)
Definition len_ok (dtd len : Z) : bool :=
  match dtd_kind dtd with
  | Some (KSeq n) | Some (KAlt n) => len <? (if (n =? 4)%nat then 2 ^ 31 else 256 ^ Z.of_nat n)
  | _ => true
  end.

Fixpoint fits (d : sdp_data) : bool :=
  match d with
  | Data dtd _ _ (VSeq l) => len_ok dtd (zlen (flat_map wire l)) && forallb fits l
  | _ => true
  end.

Fixpoint depth (d : sdp_data) : nat :=
  match d with
  | Data _ _ _ (VSeq l) => S (foldr (fun c n => Nat.max (depth c) n) 0%nat l)
  | _ => 1%nat
  end.

(** ** Lemmas on types *)

Lemma switch_case_in {A} x (l : list (Z * A)) a : switch_case x l = Some a -> (x, a) ∈ l.
Proof.
  induction l as [|[y b] l IH]; cbn; [done|].
  destruct (Z.eqb_spec x y) as [->|]; intros H; [simplify_eq|]; rewrite elem_of_cons; auto.
Qed.

(** A property of all types of the table. *)
Lemma dtd_cases (P : Z -> kind -> Prop) dtd k :
  Forall (fun e => P e.1 e.2) Dtd.table -> dtd_kind dtd = Some k -> P dtd k.
Proof.
  intros HF H. apply switch_case_in in H. rewrite Forall_forall in HF.
  apply list_elem_of_In in H. exact (HF _ H).
Qed.

Ltac each_dtd := unfold Dtd.table; repeat (apply List.Forall_cons); try apply List.Forall_nil; cbn.

Lemma dtd_u8 dtd k : dtd_kind dtd = Some k -> is_u8 dtd.
Proof.
  apply (dtd_cases (fun dtd _ => is_u8 dtd)). each_dtd; by unfold is_u8.
Qed.

Lemma dtd_seq8 dtd : dtd_kind dtd = Some (KSeq 1) -> dtd = Dtd.SDP_SEQ8.
Proof.
  intros H. refine (dtd_cases (fun dtd k => k = KSeq 1 -> dtd = Dtd.SDP_SEQ8) dtd _ _ H eq_refl).
  each_dtd; done.
Qed.

Definition sized (k : kind) : option nat :=
  match k with KSeq n | KAlt n | KText n | KUrl n => Some n | _ => None end.

Lemma dtd_width dtd k n :
  dtd_kind dtd = Some k -> sized k = Some n -> n = 1%nat \/ n = 2%nat \/ n = 4%nat.
Proof.
  intros H Hn. revert n Hn.
  apply (dtd_cases (fun _ k => forall n, sized k = Some n -> n = 1%nat \/ n = 2%nat \/ n = 4%nat)
    dtd k); [|done].
  each_dtd; intros n' ?; simplify_eq; auto.
Qed.

Lemma header_length dtd len : zlen (header dtd len) = sdp_get_data_type_size dtd.
Proof.
  unfold header, sdp_get_data_type_size. destruct (dtd_kind dtd) as [[]|]; len_lia.
Qed.

Lemma type_size_pos dtd : 1 <= sdp_get_data_type_size dtd.
Proof. unfold sdp_get_data_type_size. destruct (dtd_kind dtd) as [[]|]; lia. Qed.

Lemma type_size_max dtd : sdp_get_data_type_size dtd <= 5.
Proof.
  unfold sdp_get_data_type_size. destruct (dtd_kind dtd) as [k|] eqn:Hk; [|lia].
  pose proof (fun n => dtd_width dtd k n Hk) as Hw.
  destruct k; try lia; destruct (Hw _ eq_refl) as [ -> |[ -> | -> ]]; lia.
Qed.

Lemma elem_wire_length d : zlen (wire d) = sdp_get_data_type_size (dtd d) + zlen (body d).
Proof. rewrite wire_body, zlen_app, header_length. done. Qed.

Lemma wire_pos d : 1 <= zlen (wire d).
Proof. rewrite elem_wire_length. pose proof (type_size_pos (dtd d)). pose proof (zlen_nonneg (body d)). lia. Qed.

(** ** Stores at an offset *)

(** [b] with [w] written at [o]. *)
Definition upd (b : bytes) (o : Z) (w : bytes) : bytes :=
  take (Z.to_nat o) b ++ w ++ drop (Z.to_nat (o + zlen w)) b.

Lemma st_upd b o w : 0 <= o -> o + zlen w <= zlen b -> st b o w = Some (upd b o w).
Proof. intros. unfold st. by rewrite decide_True. Qed.

Lemma upd_length b o w : 0 <= o -> o + zlen w <= zlen b -> zlen (upd b o w) = zlen b.
Proof. intros. unfold upd. len_lia. Qed.

Lemma upd_nth b o w j :
  0 <= o -> o + zlen w <= zlen b ->
  nth j (upd b o w) 0 = if decide (o <= Z.of_nat j < o + zlen w)
                        then nth (Z.to_nat (Z.of_nat j - o)) w 0 else nth j b 0.
Proof. intros. apply (st_nth b o). by apply st_upd. Qed.

Lemma upd_length_nat b o w :
  0 <= o -> o + zlen w <= zlen b -> length (upd b o w) = length b.
Proof. intros H1 H2. pose proof (upd_length b o w H1 H2). unfold zlen in *. lia. Qed.

Lemma upd_app b o x y :
  0 <= o -> o + zlen x + zlen y <= zlen b ->
  upd (upd b o x) (o + zlen x) y = upd b o (x ++ y).
Proof.
  intros Ho Hl. pose proof (zlen_nonneg x). pose proof (zlen_nonneg y).
  pose proof (upd_length b o x Ho ltac:(lia)) as L1.
  assert (zlen (x ++ y) = zlen x + zlen y) as L2 by apply zlen_app.
  apply bytes_ext; [rewrite !upd_length_nat by lia; done|].
  intros j _. rewrite (upd_nth (upd b o x)), !upd_nth by lia. rewrite L2.
  unfold zlen in *. repeat case_decide; try lia; try done.
  - rewrite app_nth2 by lia. f_equal. lia.
  - by rewrite app_nth1 by lia.
Qed.

(** A store over everything that an earlier one wrote. *)
Lemma upd_under b o w o' x :
  0 <= o -> o <= o' -> o' + zlen x <= o + zlen w -> o + zlen w <= zlen b ->
  upd (upd b o' x) o w = upd b o w.
Proof.
  intros Ho Hoo Hx Hw. pose proof (zlen_nonneg x).
  pose proof (upd_length b o' x ltac:(lia) ltac:(lia)) as L1.
  apply bytes_ext; [rewrite !upd_length_nat by lia; done|].
  intros j _. rewrite (upd_nth (upd b o' x)), !upd_nth by lia.
  repeat case_decide; try lia; done.
Qed.

(** A store right in front of an earlier one. *)
Lemma upd_front b o h x :
  0 <= o -> o + zlen h + zlen x <= zlen b ->
  upd (upd b (o + zlen h) x) o h = upd b o (h ++ x).
Proof.
  intros Ho Hl. pose proof (zlen_nonneg x). pose proof (zlen_nonneg h).
  pose proof (upd_length b (o + zlen h) x ltac:(lia) ltac:(lia)) as L1.
  assert (zlen (h ++ x) = zlen h + zlen x) as L2 by apply zlen_app.
  apply bytes_ext; [rewrite !upd_length_nat by lia; done|].
  intros j _. rewrite (upd_nth (upd b (o + zlen h) x)), !upd_nth by lia. rewrite L2.
  unfold zlen in *. repeat case_decide; try lia; try done.
  - by rewrite app_nth1 by lia.
  - rewrite app_nth2 by lia. f_equal. lia.
Qed.

Lemma upd_nil b o : 0 <= o -> o <= zlen b -> upd b o [] = b.
Proof.
  intros. unfold upd. cbn [app]. rewrite zlen_nil, Z.add_0_r. apply take_drop.
Qed.

Lemma get_u8_upd b o x w :
  0 <= o -> o + zlen (x :: w) <= zlen b -> get_u8 (upd b o (x :: w)) o = Some x.
Proof.
  intros Ho Hl. unfold upd. pose proof (zlen_nonneg w). rewrite zlen_cons in Hl.
  change ((x :: w) ++ drop (Z.to_nat (o + zlen (x :: w))) b)
    with ([x] ++ (w ++ drop (Z.to_nat (o + zlen (x :: w))) b)).
  apply get_u8_mid. len_lia.
Qed.

(** ** Headers *)

Lemma sdp_set_seq_len_header b o dtd k n len :
  dtd_kind dtd = Some k -> sized k = Some n -> 0 <= o ->
  o + 1 + Z.of_nat n <= zlen b ->
  sdp_set_seq_len (upd b o [dtd]) o len = Some (upd b o (header dtd len)).
Proof.
  intros Hk Hn Ho Hl. unfold sdp_set_seq_len.
  rewrite get_u8_upd by len_lia. cbn [mbind option_bind].
  assert (forall w, zlen w = Z.of_nat n ->
    st (upd b o [dtd]) (o + 1) w = Some (upd b o ([dtd] ++ w))) as Hst.
  { intros w Hw. rewrite st_upd by (rewrite ?upd_length by len_lia; len_lia).
    change (o + 1) with (o + zlen [dtd]). by rewrite upd_app by len_lia. }
  unfold header, put_u8, put_be16, put_be32. rewrite Hk.
  assert (be_bytes 1 len = [u8 len]) as Hb1.
  { reflexivity. }
  destruct (dtd_width dtd k n Hk Hn) as [ -> |[ -> | -> ]];
    (destruct k; simplify_eq/=; try rewrite Hb1; apply Hst; len_lia).
Qed.

(** ** Facts on the settled element *)

Lemma forallb_Forall {A} (f : A -> bool) l : forallb f l = true <-> Forall (fun x => f x = true) l.
Proof.
  induction l as [|x l IH]; cbn; [split; auto|]. rewrite andb_true_iff, IH, list.Forall_cons. done.
Qed.

Lemma well_typed_seq dtd a u l :
  well_typed (Data dtd a u (VSeq l)) = true ->
  exists n k, dtd_kind dtd = Some k /\ (k = KSeq n \/ k = KAlt n) /\ forallb well_typed l = true.
Proof.
  cbn. destruct (dtd_kind dtd) as [k|]; [|done].
  destruct k as [|n|n| |n|n|n|n|n]; try (intros H; discriminate H); intros H;
    exists n; eexists; (split; [reflexivity|]); auto.
Qed.

Lemma well_typed_kids d : well_typed d = true -> Forall (fun c => well_typed c = true) (kids d).
Proof.
  destruct d as [dtd a u [v|v|v|l]]; intros H; try constructor.
  apply forallb_Forall. by destruct (well_typed_seq _ _ _ _ H) as (n & k & _ & _ & ?).
Qed.

Lemma map_ext_forall {A B} (f g : A -> B) l : Forall (fun x => f x = g x) l -> map f l = map g l.
Proof. induction 1; cbn; congruence. Qed.

Lemma settle_idem d : settle (settle d) = settle d.
Proof.
  induction d as [dtd a u v IH] using sdp_data_ind'. destruct v as [v|v|v|l]; try done.
  cbn in IH. assert (map settle (map settle l) = map settle l) as Hl.
  { rewrite map_map. apply map_ext_forall. exact IH. }
  cbn. rewrite Hl. f_equal.
  destruct (UCHAR_MAX <? zlen (flat_map wire (map settle l))); [|done].
  cbn. destruct (Z.eqb_spec dtd Dtd.SDP_SEQ8) as [->|Hd]; [done|].
  by rewrite (proj2 (Z.eqb_neq _ _) Hd).
Qed.

Lemma depth_settle d : depth (settle d) = depth d.
Proof.
  induction d as [dtd a u v IH] using sdp_data_ind'. destruct v as [v|v|v|l]; try done.
  cbn in *. f_equal. induction IH as [|c l Hc Hl IH']; [done|]. cbn. by rewrite Hc, IH'.
Qed.

Lemma well_typed_settle d : well_typed d = true -> well_typed (settle d) = true.
Proof.
  induction d as [dtd a u v IH] using sdp_data_ind'. destruct v as [v|v|v|l]; try done.
  intros H. destruct (well_typed_seq _ _ _ _ H) as (n & k & Hk & Hn & Hl).
  apply forallb_Forall in Hl. cbn in IH.
  assert (forallb well_typed (map settle l) = true) as Hl'.
  { apply forallb_Forall. apply Forall_map. clear H. induction IH as [|c l Hc Hl2 IH']; [done|].
    inversion Hl; subst. constructor; auto. }
  cbn [settle well_typed].
  destruct (UCHAR_MAX <? zlen (flat_map wire (map settle l))) eqn:Hu; cbn [andb].
  - destruct (Z.eqb_spec dtd Dtd.SDP_SEQ8); [done|]. rewrite Hk. by destruct Hn as [ -> | -> ].
  - rewrite Hk. by destruct Hn as [ -> | -> ].
Qed.

Lemma attrId_settle d : attrId (settle d) = attrId d.
Proof. by destruct d as [? ? ? []]. Qed.

(** ** Elements without children *)

Definition is_seq (k : kind) : bool := match k with KSeq _ | KAlt _ => true | _ => false end.

Lemma rev_le_be n x : rev (le_bytes n x) = be_bytes n x.
Proof. done. Qed.

Lemma uuid_be_value n u :
  uuid_ok n u = true ->
  exists s, uuid_be u = s /\ zlen s = Z.of_nat n /\ (n = 2%nat \/ n = 4%nat \/ n = 16%nat) /\
    (if (n =? 16)%nat then uuid_value u else rev (take n (uuid_value u))) = s.
Proof.
  destruct u as [|v|v|l]; cbn [uuid_ok uuid_be]; [done|..]; intros H.
  - destruct (Nat.eqb_spec n 2) as [->|]; [|done]. eexists; split_and!; auto; len_lia.
  - destruct (Nat.eqb_spec n 4) as [->|]; [|done]. eexists; split_and!; auto; len_lia.
  - destruct (Nat.eqb_spec n 16) as [->|]; [|done].
    apply andb_true_iff in H as [_ H%Nat.eqb_eq]. eexists; split_and!; auto.
    unfold zlen. by rewrite H.
Qed.

Lemma zlen_be_bytes n x : zlen (be_bytes n x) = Z.of_nat n.
Proof. unfold zlen. by rewrite be_bytes_length. Qed.

(** The source of a copy and its size. *)
Lemma gen_src_leaf dtd a u v k :
  dtd_kind dtd = Some k -> is_seq k = false -> leaf_ok k u v = true ->
  let d := Data dtd a u v in
  (forall each buf, sdp_get_data_size each buf d = Done (buf, d, zlen (leaf_wire k u v))) /\
  exists src, gen_src d = Done src /\
    match src with
    | Some s => ld s 0 (zlen (leaf_wire k u v)) = Some (leaf_wire k u v)
    | None => k = KNil
    end.
Proof.
  intros Hk Hs Hl d. unfold sdp_get_data_size, gen_src. subst d.
  cbn [Sdp.dtd Sdp.val Sdp.unitSize]. rewrite Hk.
  destruct k; try done; destruct v as [x|x|[s|]|l]; try done; cbn [leaf_ok leaf_wire] in *.
  - split; [done|]. by exists None.
  - rewrite zlen_be_bytes. split; [done|]. eexists; split; [done|]. apply ld_all. by rewrite zlen_be_bytes.
  - rewrite zlen_be_bytes. split; [done|]. eexists; split; [done|]. apply ld_all. by rewrite zlen_be_bytes.
  - split; [done|]. eexists; split; [done|]. by apply ld_all.
  - destruct (uuid_be_value n x Hl) as (s & Hs1 & Hs2 & Hn & Hs3). rewrite Hs1, Hs2.
    split; [done|].
    destruct Hn as [ -> |[ -> | -> ]]; cbn in Hs3; eexists; (split; [done|]);
      rewrite Hs3; apply ld_all; done.
  - rewrite !andb_true_iff in Hl. destruct Hl as [[[[Hl1%Nat.ltb_lt Hl2%Z.leb_le] Hl3%Z.leb_le]
      Hl4%Z.ltb_lt] _].
    assert (u - 1 < 2 ^ 32) as Hu.
    { destruct (dtd_width dtd _ n Hk eq_refl) as [ -> |[ -> | -> ]]; lia. }
    assert (zlen (take (Z.to_nat (u - 1)) s) = u - 1) as Hlen by (apply zlen_take; lia).
    rewrite Hlen. split; [intros; rewrite u32_small; [done|unfold is_u32; lia]|].
    exists (Some s). split; [done|]. rewrite ld_is_Some by lia. by rewrite drop_0.
  - rewrite !andb_true_iff in Hl. destruct Hl as [[[[Hl1%Nat.ltb_lt Hl2%Z.leb_le] Hl3%Z.leb_le]
      Hl4%Z.ltb_lt] _].
    assert (u - 1 < 2 ^ 32) as Hu.
    { destruct (dtd_width dtd _ n Hk eq_refl) as [ -> |[ -> | -> ]]; lia. }
    assert (zlen (take (Z.to_nat (u - 1)) s) = u - 1) as Hlen by (apply zlen_take; lia).
    rewrite Hlen. split; [intros; rewrite u32_small; [done|unfold is_u32; lia]|].
    exists (Some s). split; [done|]. rewrite ld_is_Some by lia. by rewrite drop_0.
Qed.

(** ** Generation writes the wire format *)

Section generate.
Context (late : bool).

(** What the generator does with an element: its settled form, its bytes at the end of the
    data, in a block with room for them. *)
Definition writes (gen : sdp_buf -> sdp_data -> run (sdp_buf * sdp_data * Z)) (d : sdp_data) : Prop :=
  forall b ds, 0 <= ds -> zlen b < 2 ^ 32 -> ds + zlen (wire (settle d)) <= zlen b ->
    gen (Buf (Some b) ds (zlen b)) d
      = Done (Buf (Some (upd b ds (wire (settle d)))) (ds + zlen (wire (settle d))) (zlen b),
              settle d, zlen (wire (settle d))).

Lemma get_data_size_writes gen l b ds n :
  Forall (writes gen) l -> 0 <= ds -> zlen b < 2 ^ 32 ->
  ds + zlen (flat_map wire (map settle l)) <= zlen b ->
  get_data_size gen (Buf (Some b) ds (zlen b)) l n
    = Done (Buf (Some (upd b ds (flat_map wire (map settle l))))
              (ds + zlen (flat_map wire (map settle l))) (zlen b),
            map settle l, n + zlen (flat_map wire (map settle l))).
Proof.
  intros HF. revert b ds n.
  induction HF as [|d l Hd Hl IH]; intros b ds n Hds Hb Hfit; cbn [get_data_size map flat_map] in *.
  { rewrite upd_nil by (rewrite zlen_nil in Hfit; lia). by rewrite zlen_nil, !Z.add_0_r. }
  rewrite zlen_app in *. pose proof (zlen_nonneg (flat_map wire (map settle l))).
  pose proof (zlen_nonneg (wire (settle d))).
  rewrite Hd by lia. cbn [mbind run_bind].
  assert (zlen (upd b ds (wire (settle d))) = zlen b) as Hlen by (apply upd_length; lia).
  rewrite <- Hlen at 1. rewrite IH by lia. cbn [mbind run_bind].
  rewrite Hlen, upd_app by lia. by rewrite !Z.add_assoc.
Qed.

Lemma gen_element_leaf b ds dtd a u v k :
  dtd_kind dtd = Some k -> is_seq k = false -> leaf_ok k u v = true ->
  let d := Data dtd a u v in
  0 <= ds -> zlen b < 2 ^ 32 -> ds + zlen (wire d) <= zlen b ->
  gen_element (Buf (Some b) (ds + sdp_get_data_type_size dtd) (zlen b)) ds d (zlen (leaf_wire k u v))
    = Done (Buf (Some (upd b ds (wire d))) (ds + zlen (wire d)) (zlen b)).
Proof.
  intros Hk Hs Hl d Hds Hb Hfit. subst d. set (d := Data dtd a u v) in *.
  destruct (gen_src_leaf dtd a u v k Hk Hs Hl) as [_ (src & Hsrc & Hld)].
  assert (body d = leaf_wire k u v) as Hbody.
  { unfold body, d. cbn. rewrite Hk. destruct v; try done. by destruct k. }
  rewrite (elem_wire_length d), Hbody in *. rewrite wire_body, Hbody. cbn [Sdp.dtd d] in *.
  set (w := leaf_wire k u v) in *. pose proof (zlen_nonneg w).
  pose proof (type_size_pos dtd) as Hts. rewrite <- (header_length dtd (zlen w)) in *.
  set (h := header dtd (zlen w)) in *.
  unfold gen_element. change (Sdp.dtd d) with dtd. rewrite Hk. change d with (Data dtd a u v).
  rewrite Hsrc.
  assert (buf_put (Buf (Some b) (ds + zlen h) (zlen b)) (fun b => put_u8 dtd b ds)
    = Done (Buf (Some (upd b ds [dtd])) (ds + zlen h) (zlen b))) as H1.
  { unfold buf_put, put_u8. cbn [data]. rewrite u8_small by (eapply dtd_u8, Hk).
    by rewrite st_upd by len_lia. }
  assert (forall n, sized k = Some n ->
    buf_put (Buf (Some (upd b ds [dtd])) (ds + zlen h) (zlen b))
      (fun b => sdp_set_seq_len b ds (zlen w))
    = Done (Buf (Some (upd b ds h)) (ds + zlen h) (zlen b))) as H2.
  { intros n Hn. unfold buf_put. cbn [data].
    rewrite (sdp_set_seq_len_header b ds dtd k n) by
      (done || (assert (zlen h = 1 + Z.of_nat n); [unfold h, header; rewrite Hk;
         destruct k; simplify_eq/=; len_lia|lia])). done. }
  assert (sized k = None -> h = [dtd]) as H3.
  { unfold h, header. rewrite Hk. by destruct k. }
  rewrite H1. cbn [mbind run_bind].
  assert (zlen (upd b ds h) = zlen b) as Hl1 by (apply upd_length; len_lia).
  assert (forall s, ld s 0 (zlen w) = Some w ->
    (if u32 (ds + zlen h + zlen w) <=? zlen b then
       s ← lift (ld s 0 (zlen w));
       buf ← buf_put (Buf (Some (upd b ds h)) (ds + zlen h) (zlen b)) (fun b => st b (ds + zlen h) s);
       Done (set_data_size buf (data_size buf + zlen w))
     else Done (Buf (Some (upd b ds h)) (ds + zlen h) (zlen b)))
    = Done (Buf (Some (upd b ds (h ++ w))) (ds + (zlen h + zlen w)) (zlen b))) as H4.
  { intros s Hs'. rewrite u32_small by (unfold is_u32; lia).
    rewrite (proj2 (Z.leb_le _ _)) by lia. rewrite Hs'. cbn [lift mbind run_bind].
    unfold buf_put. cbn [data]. rewrite st_upd by lia. cbn [lift mbind run_bind].
    unfold set_data_size. cbn [data data_size buf_size].
    rewrite upd_app by lia. rewrite u32_small by (unfold is_u32; lia).
    by rewrite Z.add_assoc. }
  destruct src as [s|].
  - destruct k; try done; try (rewrite <- (H3 eq_refl)); try (rewrite (H2 _ eq_refl));
      cbn [mbind run_bind data_size buf_size]; apply H4; exact Hld.
  - subst k. assert (w = []) as Hw by (unfold w; by destruct v).
    rewrite Hw, app_nil_r, zlen_nil, Z.add_0_r.
    rewrite <- (H3 eq_refl). done.
Qed.

Lemma sdp_gen_pdu_S fuel buf d :
  sdp_gen_pdu late (S fuel) buf d =
    (let seqp := data_size buf in
     let pdu_size := sdp_get_data_type_size (dtd d) in
     r ← sdp_get_data_size (each_child late fuel) (set_data_size buf (seqp + pdu_size)) d;
     let '(buf, d, n) := r in
     r ← (if (UCHAR_MAX <? n) && (dtd d =? Dtd.SDP_SEQ8) then
            let d := set_dtd d Dtd.SDP_SEQ16 in
            let pdu_size := sdp_get_data_type_size (dtd d) in
            r ← sdp_get_data_size (each_child late fuel) (set_data_size buf (seqp + pdu_size)) d;
            let '(buf, d, n) := r in
            Done (buf, d, n, pdu_size)
          else Done (buf, d, n, pdu_size));
     let '(buf, d, n, pdu_size) := r in
     buf ← gen_element buf seqp d n;
     Done (buf, d, pdu_size + n)).
Proof. done. Qed.

Lemma gen_pdu_leaf fuel dtd a u v k :
  dtd_kind dtd = Some k -> is_seq k = false -> leaf_ok k u v = true ->
  writes (sdp_gen_pdu late (S fuel)) (Data dtd a u v).
Proof.
  intros Hk Hs Hl b ds Hds Hb Hfit.
  assert (settle (Data dtd a u v) = Data dtd a u v) as Hset.
  { destruct v; try done. by destruct k. }
  rewrite Hset in *. set (d := Data dtd a u v) in *.
  assert (body d = leaf_wire k u v) as Hbody.
  { unfold body, d. cbn. rewrite Hk. destruct v; try done. by destruct k. }
  pose proof (elem_wire_length d) as Hwl. rewrite Hbody in Hwl. change (Sdp.dtd d) with dtd in Hwl.
  pose proof (type_size_pos dtd). pose proof (zlen_nonneg (leaf_wire k u v)).
  rewrite sdp_gen_pdu_S. cbn [data_size]. unfold set_data_size. cbn [data buf_size].
  change (Sdp.dtd d) with dtd. rewrite u32_small by (unfold is_u32; lia).
  destruct (gen_src_leaf dtd a u v k Hk Hs Hl) as [Hsize _]. fold d in Hsize.
  rewrite Hsize. cbn [mbind run_bind]. change (Sdp.dtd d) with dtd.
  destruct (Z.eqb_spec dtd Dtd.SDP_SEQ8) as [->|Hne].
  { vm_compute in Hk. by simplify_eq. }
  rewrite andb_false_r. cbn [mbind run_bind].
  pose proof (gen_element_leaf b ds dtd a u v k Hk Hs Hl Hds Hb Hfit) as HG.
  cbn zeta in HG. fold d in HG. rewrite HG. cbn [mbind run_bind]. by rewrite Hwl.
Qed.

(** The header of a sequence, in front of its children. *)
Lemma gen_element_seq b ds dtd a u l k n x :
  dtd_kind dtd = Some k -> k = KSeq n \/ k = KAlt n ->
  let d := Data dtd a u (VSeq l) in
  0 <= ds -> zlen b < 2 ^ 32 -> ds + zlen (wire d) <= zlen b ->
  gen_element (Buf (Some (upd b (ds + sdp_get_data_type_size dtd) (flat_map wire l))) x (zlen b))
    ds d (zlen (flat_map wire l))
    = Done (Buf (Some (upd b ds (wire d))) x (zlen b)).
Proof.
  intros Hk Hn d Hds Hb Hfit. subst d. set (d := Data dtd a u (VSeq l)) in *.
  rewrite (elem_wire_length d) in Hfit. rewrite (wire_body d). change (body d) with (flat_map wire l) in *.
  change (Sdp.dtd d) with dtd in *. set (w := flat_map wire l) in *. pose proof (zlen_nonneg w).
  pose proof (type_size_pos dtd) as Hts. rewrite <- (header_length dtd (zlen w)) in *.
  set (h := header dtd (zlen w)) in *.
  assert (zlen (upd b (ds + zlen h) w) = zlen b) as Hl1 by (apply upd_length; lia).
  assert (sized k = Some n) as Hsz by (destruct Hn as [ -> | -> ]; done).
  assert (zlen h = 1 + Z.of_nat n) as Hh.
  { unfold h, header. rewrite Hk. destruct Hn as [ -> | -> ]; len_lia. }
  unfold gen_element, buf_put, put_u8. cbn [data data_size buf_size]. change (Sdp.dtd d) with dtd.
  rewrite u8_small by (eapply dtd_u8, Hk). rewrite st_upd by len_lia.
  cbn [lift mbind run_bind data data_size buf_size]. rewrite Hk.
  rewrite (sdp_set_seq_len_header _ ds dtd k n) by (done || len_lia).
  fold h. rewrite upd_front by lia. by destruct Hn as [ -> | -> ].
Qed.

Lemma gen_pdu_seq fuel dtd a u l k n :
  dtd_kind dtd = Some k -> k = KSeq n \/ k = KAlt n ->
  Forall (writes (each_child late fuel)) l ->
  Forall (writes (each_child late fuel)) (map settle l) ->
  writes (sdp_gen_pdu late (S fuel)) (Data dtd a u (VSeq l)).
Proof.
  intros Hk Hn Hl1 Hl2 b ds Hds Hb Hfit.
  set (d := Data dtd a u (VSeq l)) in *.
  set (w := flat_map wire (map settle l)).
  set (dtd' := if (UCHAR_MAX <? zlen w) && (dtd =? Dtd.SDP_SEQ8) then Dtd.SDP_SEQ16 else dtd).
  assert (settle d = Data dtd' a u (VSeq (map settle l))) as Hset by done.
  rewrite Hset in *. set (d' := Data dtd' a u (VSeq (map settle l))) in *.
  pose proof (elem_wire_length d') as Hwl. change (Sdp.dtd d') with dtd' in Hwl.
  change (body d') with w in Hwl. pose proof (zlen_nonneg w).
  pose proof (type_size_pos dtd). pose proof (type_size_pos dtd').
  assert (sdp_get_data_type_size dtd <= sdp_get_data_type_size dtd') as Hmono.
  { unfold dtd'. destruct (UCHAR_MAX <? zlen w), (Z.eqb_spec dtd Dtd.SDP_SEQ8); cbn [andb]; try lia.
    subst dtd. done. }
  rewrite sdp_gen_pdu_S. cbn [data_size]. unfold set_data_size. cbn [data buf_size].
  change (Sdp.dtd d) with dtd. rewrite u32_small by (unfold is_u32; lia).
  assert (forall dtd0 k0 b0 o l0, dtd_kind dtd0 = Some k0 -> (k0 = KSeq n \/ k0 = KAlt n \/ k0 = KSeq 2) ->
    Forall (writes (each_child late fuel)) l0 -> zlen b0 = zlen b ->
    map settle l0 = map settle l -> 0 <= o -> o + zlen w <= zlen b ->
    sdp_get_data_size (each_child late fuel) (Buf (Some b0) o (zlen b)) (Data dtd0 a u (VSeq l0))
      = Done (Buf (Some (upd b0 o w)) (o + zlen w) (zlen b), Data dtd0 a u (VSeq (map settle l)), zlen w))
    as Hsize.
  { intros dtd0 k0 b0 o l0 Hk0 Hn0 Hl0 Hb0 Hset0 Ho Hfit0. unfold sdp_get_data_size.
    cbn [Sdp.dtd Sdp.val Sdp.attrId Sdp.unitSize]. rewrite Hk0.
    pose proof (get_data_size_writes _ l0 b0 o 0 Hl0 Ho ltac:(lia)) as HG. rewrite Hb0, Hset0 in HG.
    rewrite (HG Hfit0). cbn [mbind run_bind].
    by destruct Hn0 as [ -> |[ -> | -> ]]. }
  change d with (Data dtd a u (VSeq l)).
  rewrite (Hsize dtd k b) by (done || tauto || lia). cbn [mbind run_bind Sdp.dtd].
  destruct ((UCHAR_MAX <? zlen w) && (dtd =? Dtd.SDP_SEQ8)) eqn:Hup.
  - change (set_dtd (Data dtd a u (VSeq (map settle l))) Dtd.SDP_SEQ16)
      with (Data Dtd.SDP_SEQ16 a u (VSeq (map settle l))).
    unfold set_data_size. cbn [data data_size buf_size Sdp.dtd].
    change (Data Dtd.SDP_SEQ16 a u (VSeq (map settle l))) with d'.
    change Dtd.SDP_SEQ16 with dtd'. rewrite u32_small by (unfold is_u32; lia).
    assert (zlen (upd b (ds + sdp_get_data_type_size dtd) w) = zlen b) as Hlb
      by (apply upd_length; lia).
    assert (map settle (map settle l) = map settle l) as Hidem.
    { rewrite map_map. apply map_ext. intros. apply settle_idem. }
    pose proof (Hsize dtd' (KSeq 2) (upd b (ds + sdp_get_data_type_size dtd) w)
      (ds + sdp_get_data_type_size dtd') (map settle l)) as HS. fold d' in HS.
    rewrite HS; [|done|tauto|done|done|done|lia|lia].
    cbn [mbind run_bind].
    pose proof (gen_element_seq (upd b (ds + sdp_get_data_type_size dtd) w) ds dtd' a u
      (map settle l) (KSeq 2) 2 (ds + sdp_get_data_type_size dtd' + zlen w)) as HG.
    cbn zeta in HG. fold w d' in HG. rewrite Hlb in HG.
    rewrite HG; [|done|by left|lia..]. cbn [mbind run_bind].
    rewrite upd_under by lia. rewrite Hwl. by rewrite Z.add_assoc.
  - cbn [mbind run_bind].
    assert (dtd = dtd') as Hd' by (unfold dtd'; by rewrite ?Hup).
    assert (Data dtd a u (VSeq (map settle l)) = d') as Hdd by (unfold d', dtd'; by rewrite ?Hup).
    rewrite Hdd, Hd'.
    pose proof (gen_element_seq b ds dtd' a u (map settle l) k n
      (ds + sdp_get_data_type_size dtd' + zlen w)) as HG.
    rewrite <- Hd' in HG at 1. specialize (HG Hk Hn).
    cbn zeta in HG. fold w d' in HG. rewrite HG by lia.
    cbn [mbind run_bind]. rewrite Hwl. by rewrite Z.add_assoc.
Qed.

Lemma depth_kid c l n :
  c ∈ l -> (foldr (fun c n => Nat.max (depth c) n) 0 l <= n)%nat -> (depth c <= n)%nat.
Proof.
  induction l as [|x l IH]; cbn; [by intros ?%elem_of_nil|].
  intros [->|Hc]%elem_of_cons Hn; [lia|]. apply IH; [done|lia].
Qed.

Lemma well_typed_leaf dtd a u v :
  well_typed (Data dtd a u v) = true ->
  (exists k, dtd_kind dtd = Some k /\ is_seq k = false /\ leaf_ok k u v = true) \/
  (exists l, v = VSeq l).
Proof.
  cbn. destruct (dtd_kind dtd) as [k|]; [|done].
  destruct k as [|n|n| |n|n|n|n|n]; intros H; try (left; eauto; fail);
    right; destruct v; try done; eauto.
Qed.

(** The element as generated twice in a row, which is what sequences do to their children. *)
Lemma gen_pdu_writes2 d :
  well_typed d = true -> forall fuel, (2 * depth d <= fuel)%nat ->
  writes (sdp_gen_pdu late fuel) d /\ writes (sdp_gen_pdu late fuel) (settle d).
Proof.
  induction d as [dtd a u v IH] using sdp_data_ind'. intros Hd fuel Hf.
  destruct (well_typed_leaf _ _ _ _ Hd) as [(k & Hk & Hs & Hl)|(l & ->)].
  - assert (settle (Data dtd a u v) = Data dtd a u v) as ->.
    { destruct v; try done. by destruct k. }
    destruct fuel as [|fuel]; [destruct v; cbn in Hf; lia|].
    by split; apply (gen_pdu_leaf _ _ _ _ _ k).
  - cbn in IH. destruct fuel as [|[|fuel]]; [cbn in Hf; lia..|].
    assert (Forall (fun c => writes (each_child late (S fuel)) c /\
      writes (each_child late (S fuel)) (settle c)) l) as Hl.
    { apply well_typed_kids in Hd. cbn in Hd. rewrite list.Forall_forall in *. intros c Hc.
      apply (IH c Hc (Hd c Hc) fuel). pose proof (depth_kid c l _ Hc (le_n _)). cbn in Hf. lia. }
    destruct (well_typed_seq _ _ _ _ Hd) as (n & k & Hk & Hn & _).
    assert (Forall (writes (each_child late (S fuel))) (map settle l)) as Hl'.
    { apply Forall_map. eapply list.Forall_impl; [exact Hl|]. by intros c [_ ?]. }
    split; [apply (gen_pdu_seq _ _ _ _ _ k n); try done|].
    { eapply list.Forall_impl; [exact Hl|]. by intros c [? _]. }
    pose proof (well_typed_settle _ Hd) as Hd'. cbn [settle] in *.
    destruct (well_typed_seq _ _ _ _ Hd') as (n' & k' & Hk' & Hn' & _).
    apply (gen_pdu_seq _ _ _ _ _ k' n'); try done.
    rewrite map_map, (map_ext _ settle); [done|]. intros. apply settle_idem.
Qed.

Lemma sdp_gen_pdu_writes d fuel :
  well_typed d = true -> (2 * depth d <= fuel)%nat -> writes (sdp_gen_pdu late fuel) d.
Proof. intros Hd Hf. by destruct (gen_pdu_writes2 d Hd fuel Hf). Qed.
End generate.

(** ** The size that is asked for *)

(** The elements in a tree. *)
Fixpoint nodes (d : sdp_data) : Z :=
  match d with
  | Data _ _ _ (VSeq l) => 1 + foldr (fun c n => nodes c + n) 0 l
  | _ => 1
  end.

(** A bound of what sdp_gen_buffer counts: with [late] the children count twice. *)
Fixpoint room (late : bool) (d : sdp_data) : Z :=
  match d with
  | Data _ _ _ (VSeq l) => 11 + (if late then 2 else 1) * foldr (fun c n => room late c + n) 0 l
  | _ => 11 + zlen (body d)
  end.

Definition sum {A} (f : A -> Z) (l : list A) : Z := foldr (fun c n => f c + n) 0 l.

Lemma sum_nonneg {A} (f : A -> Z) l : (forall x, 0 <= f x) -> 0 <= sum f l.
Proof. intros H. unfold sum. induction l as [|x l IH]; cbn; [lia|]. specialize (H x). lia. Qed.

Lemma room_pos late d : 11 <= room late d.
Proof.
  induction d as [dtd a u v IH] using sdp_data_ind'.
  destruct v as [v|v|v|l]; cbn [room]; try (pose proof (zlen_nonneg (body (Data dtd a u v))); lia).
  - pose proof (zlen_nonneg (body (Data dtd a u (VNum v)))); lia.
  - pose proof (zlen_nonneg (body (Data dtd a u (VUuid v)))); lia.
  - pose proof (zlen_nonneg (body (Data dtd a u (VStr v)))); lia.
  - cbn in IH. assert (0 <= foldr (fun c n => room late c + n) 0 l) as H.
    { induction IH as [|c l Hc Hl IH']; cbn; lia. }
    destruct late; lia.
Qed.

Lemma nodes_pos d : 1 <= nodes d.
Proof.
  induction d as [dtd a u v IH] using sdp_data_ind'. destruct v as [v|v|v|l]; cbn [nodes]; try lia.
  cbn in IH. assert (0 <= foldr (fun c n => nodes c + n) 0 l) as H; [|lia].
  induction IH as [|c l Hc Hl IH']; cbn; lia.
Qed.

Section counting.
Context (late : bool).

(** What counting does with an element: at least its bytes and three more for every element
    of the tree, at most [room]. *)
Definition counts (gen : sdp_buf -> sdp_data -> run (sdp_buf * sdp_data * Z)) (d : sdp_data) : Prop :=
  forall ds s, 0 <= s -> s + room late d < 2 ^ 32 ->
    exists s', gen (Buf None ds s) d = Done (Buf None ds s', d, s' - s) /\
      s + 3 * nodes d + zlen (wire (settle d)) <= s' <= s + room late d.

Lemma get_data_size_counts gen l ds s n :
  Forall (counts gen) l -> 0 <= s -> s + sum (room late) l < 2 ^ 32 ->
  exists s', get_data_size gen (Buf None ds s) l n = Done (Buf None ds s', l, n + (s' - s)) /\
    s + 3 * sum nodes l + zlen (flat_map wire (map settle l)) <= s' <= s + sum (room late) l.
Proof.
  intros HF. revert s n.
  induction HF as [|d l Hd Hl IH]; intros s n Hs Hr; cbn [get_data_size map flat_map] in *.
  { exists s. split; [by rewrite Z.sub_diag, Z.add_0_r|rewrite (zlen_nil (A:=Z)); unfold sum; cbn; lia]. }
  unfold sum in *. cbn [foldr] in *. pose proof (room_pos late d). pose proof (nodes_pos d).
  pose proof (sum_nonneg (room late) l ltac:(intros x; pose proof (room_pos late x); lia)).
  pose proof (zlen_nonneg (wire (settle d))).
  unfold sum in *. destruct (Hd ds s Hs ltac:(lia)) as (s1 & Heq & Hs1). rewrite Heq.
  cbn [mbind run_bind].
  destruct (IH s1 (n + (s1 - s)) ltac:(lia) ltac:(lia)) as (s2 & Heq2 & Hs2). rewrite Heq2.
  exists s2. cbn [mbind run_bind]. rewrite zlen_app.
  split; [|lia]. by replace (n + (s1 - s) + (s2 - s1)) with (n + (s2 - s)) by lia.
Qed.

Lemma set_buf_size_small ds s n : 0 <= n < 2 ^ 32 -> set_buf_size (Buf None ds s) n = Buf None ds n.
Proof. intros. unfold set_buf_size. cbn [data data_size]. by rewrite u32_small. Qed.

Lemma sdp_gen_buffer_S fuel ds s d :
  0 <= s -> s + 10 < 2 ^ 32 ->
  sdp_gen_buffer late (S fuel) (Buf None ds s) d =
    (let s1 := s + (if (s =? 0) && (dtd d =? 0) then 2 else 0) + 3 + sdp_get_data_type_size (dtd d) in
     r ← sdp_get_data_size (each_child late fuel) (Buf None ds s1) d;
     let '(buf, d, n) := r in
     let buf := set_buf_size buf ((if late then buf_size buf else s1) + n) in
     let buf := if (UCHAR_MAX <? buf_size buf) && (dtd d =? Dtd.SDP_SEQ8)
                then set_buf_size buf (buf_size buf + 1) else buf in
     Done (buf, d, u32 (buf_size buf - s))).
Proof.
  intros Hs Hs2. pose proof (type_size_pos (dtd d)). pose proof (type_size_max (dtd d)).
  cbn [sdp_gen_buffer buf_size].
  destruct ((s =? 0) && (dtd d =? 0));
    repeat (rewrite set_buf_size_small by (cbn [buf_size]; lia); cbn [buf_size]);
    rewrite ?Z.add_0_r; done.
Qed.

(** An element without children counts for exactly its bytes. *)
Lemma gen_buffer_leaf fuel ds s dtd a u v k :
  dtd_kind dtd = Some k -> is_seq k = false -> leaf_ok k u v = true ->
  let d := Data dtd a u v in
  0 <= s -> s + 11 + zlen (body d) < 2 ^ 32 ->
  let s' := s + (if (s =? 0) && (dtd =? 0) then 2 else 0) + 3 + zlen (wire d) in
  sdp_gen_buffer late (S fuel) (Buf None ds s) d = Done (Buf None ds s', d, s' - s).
Proof.
  intros Hk Hs Hl d H0 Hr s'.
  assert (body d = leaf_wire k u v) as Hbody.
  { unfold body, d. cbn. rewrite Hk. destruct v; try done. by destruct k. }
  pose proof (elem_wire_length d) as Hwl. rewrite Hbody in *. change (Sdp.dtd d) with dtd in Hwl.
  pose proof (zlen_nonneg (leaf_wire k u v)). pose proof (type_size_pos dtd).
  pose proof (type_size_max dtd).
  rewrite sdp_gen_buffer_S by lia. cbn zeta. change (Sdp.dtd d) with dtd.
  destruct (gen_src_leaf dtd a u v k Hk Hs Hl) as [Hsize _]. fold d in Hsize. rewrite Hsize.
  cbn [mbind run_bind buf_size].
  assert (forall x : Z, (if late then x else x) = x) as -> by (intros; by destruct late).
  destruct (Z.eqb_spec dtd Dtd.SDP_SEQ8) as [->|Hne].
  { vm_compute in Hk. by simplify_eq. }
  change (Sdp.dtd d) with dtd. rewrite (proj2 (Z.eqb_neq _ _) Hne), andb_false_r.
  rewrite set_buf_size_small by (destruct ((s =? 0) && (dtd =? 0)); lia). cbn [buf_size].
  assert (forall x, s + x + 3 + sdp_get_data_type_size dtd + zlen (leaf_wire k u v)
    = s + x + 3 + zlen (wire d)) as -> by (intros; lia).
  fold s'. rewrite u32_small; [done|]. unfold is_u32, s'. destruct ((s =? 0) && (dtd =? 0)); lia.
Qed.

Lemma gen_buffer_counts d :
  well_typed d = true -> forall fuel, (2 * depth d <= fuel)%nat ->
  counts (sdp_gen_buffer late fuel) d.
Proof.
  induction d as [dtd a u v IH] using sdp_data_ind'. intros Hd fuel Hf ds s Hs Hr.
  destruct (well_typed_leaf _ _ _ _ Hd) as [(k & Hk & Hsq & Hl)|(l & ->)].
  - assert (settle (Data dtd a u v) = Data dtd a u v /\ nodes (Data dtd a u v) = 1 /\
      room late (Data dtd a u v) = 11 + zlen (body (Data dtd a u v))) as (-> & -> & Hroom).
    { destruct v; try done. by destruct k. }
    rewrite Hroom in *. destruct fuel as [|fuel]; [destruct v; cbn in Hf; lia|].
    rewrite (gen_buffer_leaf fuel ds s dtd a u v k) by (done || lia).
    eexists; split; [done|]. rewrite elem_wire_length. cbn [Sdp.dtd].
    pose proof (type_size_max dtd). destruct ((s =? 0) && (dtd =? 0)); lia.
  - cbn [kids val] in IH. destruct fuel as [|[|fuel]]; [cbn in Hf; lia..|].
    destruct (well_typed_seq _ _ _ _ Hd) as (n & k & Hk & Hn & _).
    assert (Forall (counts (each_child late (S fuel))) l) as Hl.
    { apply well_typed_kids in Hd. cbn in Hd. rewrite list.Forall_forall in *. intros c Hc.
      pose proof (depth_kid c l _ Hc (le_n _)). cbn in Hf.
      apply (IH c Hc (Hd c Hc) fuel). lia. }
    set (d := Data dtd a u (VSeq l)) in *.
    change (room late d) with (11 + (if late then 2 else 1) * sum (room late) l) in *.
    pose proof (sum_nonneg (room late) l ltac:(intros x; pose proof (room_pos late x); lia)).
    pose proof (sum_nonneg nodes l ltac:(intros x; pose proof (nodes_pos x); lia)).
    pose proof (type_size_max dtd). pose proof (type_size_pos dtd).
    rewrite sdp_gen_buffer_S by (destruct late; lia). cbn zeta. change (Sdp.dtd d) with dtd.
    assert (dtd <> 0) as Hd0. { intros ->. vm_compute in Hk. destruct Hn; simplify_eq. }
    rewrite (proj2 (Z.eqb_neq dtd 0)) by done. rewrite andb_false_r, Z.add_0_r.
    set (s1 := s + 3 + sdp_get_data_type_size dtd).
    destruct (get_data_size_counts _ l ds s1 0 Hl ltac:(lia)
      ltac:(unfold s1; destruct late; lia)) as (s2 & Heq & Hs2).
    set (w := flat_map wire (map settle l)) in *. pose proof (zlen_nonneg w).
    assert (sdp_get_data_size (each_child late (S fuel)) (Buf None ds s1) d
      = Done (Buf None ds s2, d, s2 - s1)) as Hsize.
    { unfold sdp_get_data_size. change (Sdp.dtd d) with dtd. rewrite Hk. cbn [Sdp.val d].
      rewrite Heq. by destruct Hn as [ -> | -> ]. }
    rewrite Hsize. cbn [mbind run_bind buf_size]. change (Sdp.dtd d) with dtd.
    set (s3 := (if late then s2 else s1) + (s2 - s1)).
    assert (s2 <= s3 <= s1 + (if late then 2 else 1) * sum (room late) l) as Hs3
      by (unfold s3; destruct late; lia).
    rewrite set_buf_size_small by (unfold s1 in *; lia). cbn [buf_size].
    assert (zlen (wire (settle d)) = zlen w + sdp_get_data_type_size dtd +
      (if (UCHAR_MAX <? zlen w) && (dtd =? Dtd.SDP_SEQ8) then 1 else 0)) as Hw.
    { rewrite elem_wire_length. change (body (settle d)) with w.
      change (Sdp.dtd (settle d)) with
        (if (UCHAR_MAX <? zlen w) && (dtd =? Dtd.SDP_SEQ8) then Dtd.SDP_SEQ16 else dtd).
      destruct (UCHAR_MAX <? zlen w), (Z.eqb_spec dtd Dtd.SDP_SEQ8) as [->|]; cbn [andb]; try lia.
      change (sdp_get_data_type_size Dtd.SDP_SEQ16) with 3.
      change (sdp_get_data_type_size Dtd.SDP_SEQ8) with 2. lia. }
    change (nodes d) with (1 + sum nodes l).
    exists (s3 + (if (UCHAR_MAX <? s3) && (dtd =? Dtd.SDP_SEQ8) then 1 else 0)).
    rewrite Hw. unfold UCHAR_MAX, s1 in *.
    destruct (Z.ltb_spec 255 s3), (Z.ltb_spec 255 (zlen w)), (dtd =? Dtd.SDP_SEQ8); cbn [andb];
      rewrite ?set_buf_size_small by lia; cbn [buf_size];
      (split; [rewrite ?Z.add_0_r; rewrite u32_small by (unfold is_u32; lia); done|lia]).
Qed.
End counting.
