(* ===== verification/SdpRecord.v ===== *)
(** Service records as bytes: what sdp_append_to_buf and sdp_gen_record_pdu of lib/sdp.c
    write, and when the block that sdp_gen_buffer asked for is too small for it. *)
From Stdlib Require Import ZArith Lia.
From S2P Require Import Prelude Blocks Libc Uuid Eir Sdp SdpPdu SdpSpec.
From stdpp Require Import base numbers list option.

Local Open Scope Z_scope.

(** An attribute: its identifier and its value. *)
Definition attr_wire (d : sdp_data) : bytes :=
  [Dtd.SDP_UINT16] ++ be_bytes 2 (attrId d) ++ wire (settle d).

(** The sequence of [y] in the buffer of a record: the type changes once type, length and
    data are more than 255 bytes. *)
Definition long (y : bytes) : bool := UCHAR_MAX <? 2 + zlen y.

Definition outer_header (y : bytes) : bytes :=
  if long y then Dtd.SDP_SEQ16 :: be_bytes 2 (zlen y) else [Dtd.SDP_SEQ8; u8 (zlen y)].

Definition outer (y : bytes) : bytes := outer_header y ++ y.

Definition record_wire (l : list sdp_data) : bytes := outer (flat_map attr_wire l).

Lemma outer_header_length y : zlen (outer_header y) = if long y then 3 else 2.
Proof. unfold outer_header. destruct (long y); len_lia. Qed.

Lemma outer_length y : zlen (outer y) = (if long y then 3 else 2) + zlen y.
Proof. unfold outer. by rewrite zlen_app, outer_header_length. Qed.

Lemma attr_wire_length d : zlen (attr_wire d) = 3 + zlen (wire (settle d)).
Proof. unfold attr_wire. rewrite !zlen_app, zlen_be_bytes. unfold zlen at 1. cbn. lia. Qed.

Lemma zlen_1 (x : Z) : zlen [x] = 1.
Proof. done. Qed.

(** A store inside an earlier one. *)
Lemma upd_inner b o x y y' z :
  0 <= o -> zlen y' = zlen y -> o + zlen x + zlen y + zlen z <= zlen b ->
  upd (upd b o (x ++ y ++ z)) (o + zlen x) y' = upd b o (x ++ y' ++ z).
Proof.
  intros Ho Hy Hl. pose proof (zlen_nonneg x). pose proof (zlen_nonneg y).
  pose proof (zlen_nonneg z).
  rewrite (app_assoc x y z), <- (upd_app b o (x ++ y) z) by (rewrite ?zlen_app; lia).
  rewrite (app_assoc x y' z), <- (upd_app b o (x ++ y') z) by (rewrite ?zlen_app; lia).
  set (b1 := upd b o (x ++ y)). assert (zlen b1 = zlen b) as Hb1.
  { apply upd_length; [lia|]. rewrite zlen_app. lia. }
  assert (upd (upd b1 (o + zlen (x ++ y)) z) (o + zlen x) y'
    = upd (upd b1 (o + zlen x) y') (o + zlen (x ++ y')) z) as ->.
  { rewrite !zlen_app, Hy.
    apply bytes_ext.
    { rewrite !upd_length_nat by (rewrite ?upd_length by lia; lia). done. }
    intros j _. rewrite !upd_nth by (rewrite ?upd_length by lia; lia).
    repeat case_decide; try lia; done. }
  unfold b1. rewrite <- (upd_app b o x y) by lia.
  rewrite (upd_under (upd b o x) (o + zlen x) y' (o + zlen x) y) by (rewrite ?upd_length by lia; lia).
  by rewrite upd_app by lia.
Qed.

Section append.
Context (b : bytes).
Hypothesis Hb : zlen b < 2 ^ 32.

(** The buffer holds the sequence of [y]; before anything is appended it is zeroed. *)
Definition holds (y : bytes) (ds : Z) (blk : bytes) : Prop :=
  (y = [] /\ ds = 0 /\ blk = b /\ get_u8 b 0 = Some 0) \/
  (ds = zlen (outer y) /\ blk = upd b 0 (outer y) /\ zlen (outer y) <= zlen b).

(** Data behind a header of which only the type matters. *)
Definition with_header (y : bytes) (ds : Z) (blk : bytes) : Prop :=
  exists h, blk = upd b 0 (h ++ y) /\ ds = zlen h + zlen y /\ ds <= zlen b /\
    zlen h = (if long y then 3 else 2) /\
    take 1 h = [if long y then Dtd.SDP_SEQ16 else Dtd.SDP_SEQ8].

Lemma upd_first x : 2 <= zlen b -> upd b 0 [x] = upd b 0 ([x; nth 1 b 0] ++ []).
Proof.
  intros Hl. apply bytes_ext; [by rewrite !upd_length_nat by (rewrite ?zlen_app; len_lia)|].
  intros j _. rewrite !upd_nth by (rewrite ?zlen_app; len_lia).
  change (zlen [x]) with 1. change (zlen ([x; nth 1 b 0] ++ [])) with 2.
  destruct j as [|[|j]]; repeat case_decide; try lia; done.
Qed.

Lemma holds_header y ds blk :
  holds y ds blk -> ds <> 0 -> with_header y ds blk.
Proof.
  intros [(-> & -> & _)|(-> & -> & Hl)] Hds; [done|]. exists (outer_header y).
  rewrite outer_length in *. rewrite outer_header_length. split_and!; try done; try lia.
  unfold outer_header. by destruct (long y).
Qed.

Lemma get_u8_upd0 h y :
  zlen (h ++ y) <= zlen b -> forall x, take 1 h = [x] -> get_u8 (upd b 0 (h ++ y)) 0 = Some x.
Proof.
  intros Hl x Hx. destruct h as [|x' h]; [done|]. cbn in Hx. simplify_eq.
  cbn [app] in *. apply get_u8_upd; lia.
Qed.

Lemma append_length_spec h y bs :
  zlen h = (if long y then 3 else 2) -> zlen h + zlen y <= zlen b ->
  take 1 h = [if long y then Dtd.SDP_SEQ16 else Dtd.SDP_SEQ8] ->
  append_length (Buf (Some (upd b 0 (h ++ y))) (zlen h + zlen y) bs)
    = Done (Buf (Some (upd b 0 (outer y))) (zlen (outer y)) bs).
Proof.
  intros Hh Hl Ht. unfold append_length, buf_dtd. cbn [data].
  rewrite (get_u8_upd0 h y ltac:(rewrite zlen_app; lia) _ Ht). cbn [lift mbind run_bind].
  assert (forall w, zlen w + 1 = zlen h ->
    st (upd b 0 (h ++ y)) 1 w = Some (upd b 0 ((take 1 h ++ w) ++ y))) as Hst.
  { intros w Hw. pose proof (zlen_nonneg y). pose proof (zlen_nonneg w).
    rewrite st_upd by (rewrite ?upd_length; rewrite ?zlen_app; lia).
    assert (zlen (take 1 h) = 1) as H1 by (by rewrite Ht).
    assert (zlen (drop 1 h) = zlen w) as H2.
    { rewrite <- (take_drop 1 h) in Hw. rewrite zlen_app in Hw. lia. }
    pose proof (upd_inner b 0 (take 1 h) (drop 1 h) w y) as HU.
    rewrite (app_assoc (take 1 h) (drop 1 h) y), take_drop, H1 in HU.
    change (0 + 1) with 1 in HU. rewrite <- app_assoc. f_equal. apply HU; lia. }
  unfold outer, outer_header, buf_put. cbn [data data_size]. rewrite Ht in Hst.
  destruct (long y); cbn [data].
  - change (dtd_kind Dtd.SDP_SEQ16) with (Some (KSeq 2)). cbn iota beta.
    unfold put_be16. rewrite Hst by (rewrite zlen_be_bytes; lia). cbn [lift mbind run_bind].
    do 2 f_equal; [|rewrite !zlen_app; change (zlen [Dtd.SDP_SEQ16]) with 1;
      rewrite ?zlen_cons, zlen_be_bytes; lia].
    replace (zlen h + zlen y - 3) with (zlen y) by lia. done.
  - change (dtd_kind Dtd.SDP_SEQ8) with (Some (KSeq 1)). cbn iota beta.
    unfold put_u8. rewrite Hst by (change (zlen (A:=Z) [u8 (zlen h + zlen y - 2)]) with 1; lia).
    cbn [lift mbind run_bind]. replace (zlen h + zlen y - 2) with (zlen y) by lia.
    do 2 f_equal. rewrite !zlen_app. change (zlen [Dtd.SDP_SEQ8; u8 (zlen y)]) with 2. lia.
Qed.

(** The move of the data behind a longer header. *)
Lemma widen h m :
  zlen h = 2 -> 3 + zlen m <= zlen b ->
  upd (upd (upd b 0 (h ++ m)) 3 m) 0 [Dtd.SDP_SEQ16]
    = upd b 0 ([Dtd.SDP_SEQ16; nth 1 h 0; nth 0 (m ++ [nth 2 b 0]) 0] ++ m).
Proof.
  intros Hh Hl. pose proof (zlen_nonneg m).
  assert (zlen (h ++ m) = 2 + zlen m) as H1 by (rewrite zlen_app; lia).
  assert (zlen (upd b 0 (h ++ m)) = zlen b) as H2 by (apply upd_length; lia).
  assert (zlen (upd (upd b 0 (h ++ m)) 3 m) = zlen b) as H3 by (rewrite upd_length; lia).
  assert (zlen ([Dtd.SDP_SEQ16; nth 1 h 0; nth 0 (m ++ [nth 2 b 0]) 0] ++ m) = 3 + zlen m) as H4
    by (rewrite zlen_app; done).
  assert (length h = 2%nat) as Hh' by (unfold zlen in Hh; lia).
  apply bytes_ext.
  { match goal with |- length ?x = length ?y =>
      enough (zlen x = zlen y) by (unfold zlen in *; lia) end.
    rewrite (upd_length b) by lia. rewrite upd_length; [done|lia|].
    rewrite H3. change (zlen [Dtd.SDP_SEQ16]) with 1. lia. }
  intros j _. rewrite (upd_nth (upd (upd b 0 (h ++ m)) 3 m)) by (rewrite ?H3; change (zlen [Dtd.SDP_SEQ16]) with 1; lia).
  rewrite (upd_nth (upd b 0 (h ++ m))) by lia. rewrite !upd_nth by lia. rewrite H1, H4.
  change (zlen [Dtd.SDP_SEQ16]) with 1.
  destruct h as [|h0 [|h1 [|]]]; try done.
  destruct j as [|[|[|j]]].
  - repeat case_decide; try lia; done.
  - repeat case_decide; try lia; done.
  - destruct m as [|m0 m].
    + change (zlen (A:=Z) []) with 0 in *. repeat case_decide; try lia; done.
    + pose proof (zlen_cons m0 m). pose proof (zlen_nonneg m).
      repeat case_decide; try lia; done.
  - repeat case_decide; try lia; try done.
    cbn [app]. replace (Z.to_nat (Z.of_nat (S (S (S j))) - 0)) with (S (S (S j))) by lia.
    cbn [nth]. f_equal. lia.
Qed.

Lemma buf_put_none blk ds bs f : f blk = None -> buf_put (Buf (Some blk) ds bs) f = Fault.
Proof. intros H. unfold buf_put. cbn [data]. by rewrite H. Qed.

Lemma buf_put_some blk blk' ds bs f :
  f blk = Some blk' -> buf_put (Buf (Some blk) ds bs) f = Done (Buf (Some blk') ds bs).
Proof. intros H. unfold buf_put. cbn [data]. by rewrite H. Qed.

Lemma st_none blk o w : zlen blk < o + zlen w -> st blk o w = None.
Proof. intros H. unfold st. rewrite decide_False; [done|]. lia. Qed.

Lemma long_app y x : long y = true -> long (y ++ x) = true.
Proof.
  unfold long. rewrite zlen_app, !Z.ltb_lt. pose proof (zlen_nonneg x). lia.
Qed.

Lemma append_copy_spec h y x src bs :
  zlen h = (if long y then 3 else 2) -> zlen h + zlen y <= zlen b ->
  take 1 h = [if long y then Dtd.SDP_SEQ16 else Dtd.SDP_SEQ8] ->
  ld src 0 (zlen x) = Some x ->
  match append_copy (Buf (Some (upd b 0 (h ++ y))) (zlen h + zlen y) bs) src (zlen x) with
  | Done buf => zlen (outer (y ++ x)) <= zlen b /\
      exists h', zlen h' = (if long (y ++ x) then 3 else 2) /\
        take 1 h' = [if long (y ++ x) then Dtd.SDP_SEQ16 else Dtd.SDP_SEQ8] /\
        buf = Buf (Some (upd b 0 (h' ++ (y ++ x)))) (zlen h' + zlen (y ++ x)) bs
  | Fault => zlen b < zlen (outer (y ++ x))
  | NoFuel => False
  end.
Proof using Hb.
  intros Hh Hl Ht Hx. unfold append_copy. rewrite Hx. cbn [lift mbind run_bind data_size].
  pose proof (zlen_nonneg x). pose proof (zlen_nonneg y). pose proof (zlen_nonneg h).
  assert (zlen (h ++ y) = zlen h + zlen y) as Hhy by apply zlen_app.
  assert (zlen (upd b 0 (h ++ y)) = zlen b) as Hu by (apply upd_length; lia).
  pose proof (outer_length (y ++ x)) as Ho. rewrite zlen_app in Ho.
  assert (long y = true -> long (y ++ x) = true) as Hmono by apply long_app.
  destruct (decide (zlen h + zlen y + zlen x <= zlen b)) as [Hfit|Hfit].
  2:{ rewrite buf_put_none by (apply st_none; lia). cbn [mbind run_bind].
      destruct (long y); [rewrite Hmono in Ho by done; lia|]. destruct (long (y ++ x)); lia. }
  rewrite (buf_put_some _ (upd (upd b 0 (h ++ y)) (zlen h + zlen y) x)) by (apply st_upd; lia).
  cbn [mbind run_bind].
  replace (zlen h + zlen y) with (0 + zlen (h ++ y)) by lia. rewrite upd_app by lia.
  rewrite <- app_assoc. unfold set_data_size, buf_dtd. cbn [data data_size buf_size].
  rewrite (get_u8_upd0 h (y ++ x) ltac:(rewrite !zlen_app; lia) _ Ht). cbn [lift mbind run_bind].
  rewrite u32_small by (unfold is_u32; lia).
  replace (0 + zlen (h ++ y) + zlen x) with (zlen h + zlen (y ++ x)) by (rewrite !zlen_app; lia).
  destruct (long y) eqn:Hy.
  - rewrite andb_false_r. rewrite Hmono in * by done.
    split; [lia|]. exists h. split_and!; try done.
  - change (Dtd.SDP_SEQ8 =? Dtd.SDP_SEQ8) with true. rewrite andb_true_r.
    assert ((UCHAR_MAX <? zlen h + zlen (y ++ x)) = long (y ++ x)) as -> by (by rewrite Hh).
    destruct (long (y ++ x)) eqn:Hyx.
    2:{ split; [lia|]. exists h. split_and!; try done. }
    assert (ld (upd b 0 (h ++ y ++ x)) 2 (zlen h + zlen (y ++ x) - 2) = Some (y ++ x)) as Hld.
    { unfold upd. change (Z.to_nat 0) with 0%nat. rewrite take_0, app_nil_l. rewrite <- (app_assoc h (y ++ x)).
      apply ld_mid; lia. }
    assert (zlen (upd b 0 (h ++ y ++ x)) = zlen b) as Hu2.
    { apply upd_length; [lia|]. rewrite !zlen_app. lia. }
    destruct (decide (3 + zlen (y ++ x) <= zlen b)) as [Hfit2|Hfit2].
    2:{ rewrite buf_put_none.
        { cbn [mbind run_bind]. rewrite zlen_app in Hfit2. lia. }
        rewrite Hld. cbn [mbind option_bind]. apply st_none. lia. }
    rewrite (buf_put_some _ (upd (upd b 0 (h ++ y ++ x)) 3 (y ++ x))).
    2:{ rewrite Hld. cbn [mbind option_bind]. apply st_upd; lia. }
    cbn [mbind run_bind].
    rewrite (buf_put_some _ (upd (upd (upd b 0 (h ++ y ++ x)) 3 (y ++ x)) 0 [Dtd.SDP_SEQ16])).
    2:{ apply st_upd; [lia|]. rewrite upd_length by lia.
        rewrite zlen_cons, (zlen_nil (A:=Z)), zlen_app in *. lia. }
    cbn [mbind run_bind data_size buf_size data].
    rewrite widen by lia. split; [rewrite zlen_app in Hfit2; lia|].
    eexists [_; _; _]. split_and!; [done|done|].
    pose proof (zlen_nonneg (y ++ x)). rewrite u32_small by (unfold is_u32; lia).
    match goal with |- Buf ?d ?m ?n = Buf _ ?m' _ => enough (m = m') as -> by done end.
    rewrite !zlen_cons, (zlen_nil (A:=Z)). lia.
Qed.

Lemma append_start_spec y ds blk bs :
  holds y ds blk ->
  exists h, append_start (Buf (Some blk) ds bs) = Done (Buf (Some (upd b 0 (h ++ y))) (zlen h + zlen y) bs)
    /\ zlen h = (if long y then 3 else 2) /\ zlen h + zlen y <= zlen b /\
    take 1 h = [if long y then Dtd.SDP_SEQ16 else Dtd.SDP_SEQ8]
  \/ zlen b < 2 /\ y = [] /\ ds = 0 /\ blk = b /\
    append_start (Buf (Some blk) ds bs) = Done (Buf (Some (upd b 0 [Dtd.SDP_SEQ8])) 2 bs).
Proof.
  intros Hh. destruct (decide (ds = 0)) as [->|Hds].
  - destruct Hh as [(-> & _ & -> & H0)|(Hl & _ & _)].
    2:{ rewrite outer_length in Hl. pose proof (zlen_nonneg y). destruct (long y); lia. }
    assert (1 <= zlen b) as Hb1.
    { unfold get_u8 in H0. destruct (ld b 0 1) eqn:Hld; [|done]. unfold ld in Hld.
      case_decide; [lia|done]. }
    assert (append_start (Buf (Some b) 0 bs) = Done (Buf (Some (upd b 0 [Dtd.SDP_SEQ8])) 2 bs)) as HA.
    { unfold append_start, buf_dtd. cbn [data]. rewrite H0. cbn [lift mbind run_bind data_size].
      change ((0 =? 0) && (0 =? 0)) with true. cbn iota. unfold buf_put, put_u8. cbn [data].
      rewrite st_upd; [done|lia|]. change (zlen (A:=Z) [u8 Dtd.SDP_SEQ8]) with 1. lia. }
    destruct (decide (2 <= zlen b)) as [Hb2|Hb2].
    + eexists [Dtd.SDP_SEQ8; nth 1 b 0]. left. rewrite HA, upd_first by done. split_and!; done.
    + exists []. right. split_and!; try done. lia.
  - destruct (holds_header y ds blk Hh Hds) as (h & -> & -> & Hl & Hlen & Ht).
    exists h. left. split_and!; try done. unfold append_start, buf_dtd. cbn [data].
    rewrite (get_u8_upd0 h y ltac:(rewrite zlen_app; lia) _ Ht). cbn [lift mbind run_bind data_size].
    by rewrite (proj2 (Z.eqb_neq _ _) Hds).
Qed.

(** Appending [x] to the sequence of [y]: the sequence of both, or a store outside the
    block exactly when that does not fit. *)
Lemma append_to_buf_spec y ds blk x src bs :
  holds y ds blk -> ld src 0 (zlen x) = Some x ->
  sdp_append_to_buf (Buf (Some blk) ds bs) src (zlen x)
    = if zlen (outer (y ++ x)) <=? zlen b
      then Done (Buf (Some (upd b 0 (outer (y ++ x)))) (zlen (outer (y ++ x))) bs) else Fault.
Proof using Hb.
  intros Hh Hx. unfold sdp_append_to_buf.
  destruct (append_start_spec y ds blk bs Hh) as (h & [(HA & Hl & Hfit & Ht)|(Hb2 & -> & -> & -> & HA)]);
    rewrite HA; cbn [mbind run_bind].
  - pose proof (append_copy_spec h y x src bs Hl Hfit Ht Hx) as HC.
    destruct (append_copy _ src (zlen x)) as [buf| |]; cbn [mbind run_bind]; [| |done].
    + destruct HC as (Hle & h' & Hl' & Ht' & ->). rewrite (proj2 (Z.leb_le _ _)) by done.
      rewrite outer_length in Hle. rewrite append_length_spec; try done. lia.
    + by rewrite (proj2 (Z.leb_gt _ _)).
  - assert (zlen (outer ([] ++ x)) > zlen b) as Ho.
    { rewrite outer_length. cbn [app]. pose proof (zlen_nonneg x). destruct (long x); lia. }
    rewrite (proj2 (Z.leb_gt _ _)) by lia. unfold append_copy. rewrite Hx. cbn [lift mbind run_bind].
    rewrite buf_put_none; [done|]. apply st_none. cbn [data_size].
    pose proof (zlen_nonneg x). unfold upd. len_lia.
Qed.
End append.

(** ** Records *)

Lemma outer_mono y x : zlen (outer y) <= zlen (outer (y ++ x)).
Proof.
  rewrite !outer_length, zlen_app. pose proof (zlen_nonneg x). pose proof (long_app y x) as Hm.
  destruct (long y); [rewrite Hm by done; lia|]. destruct (long (y ++ x)); lia.
Qed.

(** What generation needs of an element: types that agree with the values, a size that does
    not wrap around, and rounds for the recursion. *)
Definition gen_ok (late : bool) (fuel : nat) (d : sdp_data) : Prop :=
  well_typed d = true /\ room late d < 2 ^ 32 /\ (2 * depth d <= fuel)%nat.

Section record.
Context (late : bool) (malloc : Z -> bytes) (fuel : nat).
Hypothesis malloc_len : forall n, 0 <= n -> zlen (malloc n) = n.

Lemma append_to_pdu_spec b y ds blk bs d :
  zlen b < 2 ^ 32 -> holds b y ds blk -> gen_ok late fuel d ->
  sdp_append_to_pdu late malloc fuel (Buf (Some blk) ds bs) d
    = if zlen (outer (y ++ attr_wire d)) <=? zlen b
      then Done (Buf (Some (upd b 0 (outer (y ++ attr_wire d)))) (zlen (outer (y ++ attr_wire d))) bs,
                 settle d)
      else Fault.
Proof using malloc_len.
  intros Hb Hh (Hd & Hroom & Hf). unfold sdp_append_to_pdu.
  destruct (gen_buffer_counts late d Hd fuel Hf 0 0 ltac:(lia) ltac:(lia)) as (s & Heq & Hs1 & Hs2).
  unfold empty_buf. rewrite Heq. cbn [mbind run_bind data_size buf_size].
  pose proof (nodes_pos d). pose proof (zlen_nonneg (wire (settle d))).
  pose proof (malloc_len s ltac:(lia)) as Hm. set (m := malloc s) in *.
  unfold sdp_set_attrid.
  rewrite (buf_put_some _ (upd m 0 [Dtd.SDP_UINT16])).
  2:{ apply st_upd; [lia|]. rewrite zlen_1. lia. }
  cbn [mbind run_bind].
  rewrite (buf_put_some _ (upd m 0 ([Dtd.SDP_UINT16] ++ be_bytes 2 (attrId d)))).
  2:{ unfold put_be16. rewrite st_upd.
      - f_equal. apply (upd_app m 0 [Dtd.SDP_UINT16]); [lia|].
        rewrite zlen_be_bytes, zlen_1. lia.
      - lia.
      - rewrite upd_length, zlen_be_bytes; rewrite ?zlen_1; lia. }
  cbn [mbind run_bind]. set (h := [Dtd.SDP_UINT16] ++ be_bytes 2 (attrId d)).
  assert (zlen h = 3) as Hh3. { unfold h. rewrite zlen_app, zlen_be_bytes. done. }
  assert (zlen (upd m 0 h) = s) as Hum by (rewrite upd_length; lia).
  unfold set_data_size. cbn [data data_size buf_size].
  rewrite u32_small by (unfold is_u32; lia).
  pose proof (sdp_gen_pdu_writes late d fuel Hd Hf (upd m 0 h) 3) as HW. rewrite Hum in HW.
  rewrite HW by lia. cbn [mbind run_bind data data_size].
  change 3 with (0 + 3) at 1. rewrite <- Hh3 at 1. rewrite upd_app by lia.
  assert (h ++ wire (settle d) = attr_wire d) as -> by (unfold h, attr_wire; by rewrite <- app_assoc).
  rewrite <- (attr_wire_length d).
  rewrite (append_to_buf_spec b Hb y ds blk (attr_wire d) _ bs Hh).
  - by destruct (zlen (outer (y ++ attr_wire d)) <=? zlen b).
  - unfold upd. change (Z.to_nat 0) with 0%nat. rewrite take_0, app_nil_l. by apply ld_start.
Qed.

Lemma attr_pdus_spec b bs l :
  zlen b < 2 ^ 32 -> Forall (gen_ok late fuel) l -> forall y ds blk, l <> [] -> holds b y ds blk ->
  let w := outer (y ++ flat_map attr_wire l) in
  attr_pdus late malloc fuel l (Buf (Some blk) ds bs)
    = if zlen w <=? zlen b then Done (Buf (Some (upd b 0 w)) (zlen w) bs, map settle l) else Fault.
Proof using malloc_len.
  intros Hb HF. induction HF as [|d l Hd Hl IH]; intros y ds blk Hne Hh w; [done|].
  subst w. cbn [attr_pdus flat_map map].
  rewrite (append_to_pdu_spec b y) by done. rewrite (app_assoc y).
  set (y1 := y ++ attr_wire d). pose proof (outer_mono y1 (flat_map attr_wire l)) as Hmono.
  destruct (Z.leb_spec (zlen (outer y1)) (zlen b)) as [Hle|Hgt].
  - cbn [mbind run_bind]. destruct l as [|d2 l].
    + cbn [flat_map attr_pdus map mbind run_bind]. rewrite app_nil_r.
      by rewrite (proj2 (Z.leb_le _ _)).
    + rewrite (IH y1); [|done|right; done].
      by destruct (zlen (outer (y1 ++ flat_map attr_wire (d2 :: l))) <=? zlen b).
  - by rewrite (proj2 (Z.leb_gt _ _)) by lia.
Qed.

(** The number of bytes asked for, between the bytes needed and the bound. *)
Lemma attr_sizes_spec l :
  Forall (gen_ok late fuel) l -> forall s, 0 <= s -> s + sum (room late) l < 2 ^ 32 ->
  exists s', attr_sizes late fuel l (Buf None 0 s) = Done (Buf None 0 s') /\
    s + 3 * sum nodes l + sum (fun d => zlen (wire (settle d))) l <= s' <= s + sum (room late) l.
Proof.
  induction 1 as [|d l (Hd & Hr & Hf) Hl IH]; intros s Hs Hsum; cbn [attr_sizes sum foldr] in *.
  { exists s. split; [done|]. unfold sum. cbn. lia. }
  fold (sum (room late) l) in *. fold (sum nodes l).
  fold (sum (fun d => zlen (wire (settle d))) l).
  pose proof (sum_nonneg (room late) l ltac:(intros x; pose proof (room_pos late x); lia)).
  pose proof (nodes_pos d). pose proof (zlen_nonneg (wire (settle d))).
  destruct (gen_buffer_counts late d Hd fuel Hf 0 s Hs ltac:(lia)) as (s1 & Heq & Hs1).
  rewrite Heq. cbn [mbind run_bind fst].
  destruct (IH s1 ltac:(lia) ltac:(lia)) as (s2 & Heq2 & Hs2). exists s2. split; [done|lia].
Qed.

Lemma body_length l :
  zlen (flat_map attr_wire l) = 3 * zlen l + sum (fun d => zlen (wire (settle d))) l.
Proof.
  unfold sum. induction l as [|d l IH]; cbn [flat_map foldr]; [done|].
  rewrite zlen_app, attr_wire_length, IH, zlen_cons. lia.
Qed.

Lemma sum_nodes_length l : zlen l <= sum nodes l.
Proof.
  unfold sum. induction l as [|d l IH]; cbn [foldr]; [done|]. rewrite zlen_cons.
  pose proof (nodes_pos d). lia.
Qed.

(** With an element inside another, the block is large enough and holds the record. *)
Lemma gen_record_fits rec :
  attrlist rec <> [] -> Forall (gen_ok late fuel) (attrlist rec) ->
  sum (room late) (attrlist rec) < 2 ^ 32 ->
  zlen (attrlist rec) < sum nodes (attrlist rec) ->
  exists rest bs, sdp_gen_record_pdu late malloc fuel rec
    = Done (Buf (Some (record_wire (attrlist rec) ++ rest)) (zlen (record_wire (attrlist rec))) bs,
            set_attrlist rec (map settle (attrlist rec))) /\
    zlen (record_wire (attrlist rec)) < 2 ^ 32.
Proof using malloc_len.
  intros Hne HF Hsum Hnest. unfold sdp_gen_record_pdu. set (l := attrlist rec) in *.
  destruct (attr_sizes_spec l HF 0 ltac:(lia) ltac:(lia)) as (s & Heq & Hs1 & Hs2).
  unfold empty_buf. rewrite Heq. cbn [mbind run_bind buf_size].
  pose proof (body_length l) as Hbl. pose proof (outer_length (flat_map attr_wire l)) as Hol.
  pose proof (zlen_nonneg (flat_map attr_wire l)). pose proof (zlen_nonneg l).
  set (b := replicate (Z.to_nat s) 0).
  assert (zlen b = s) as Hb by (unfold b; len_lia).
  assert (holds b [] 0 b) as Hh.
  { left. split_and!; try done. unfold get_u8. rewrite ld_is_Some by lia.
    unfold b. destruct (Z.to_nat s) as [|k] eqn:Hk; [lia|]. done. }
  rewrite (attr_pdus_spec b s l ltac:(lia) HF [] 0 b Hne Hh). cbn [app].
  rewrite (proj2 (Z.leb_le _ _)) by (destruct (long (flat_map attr_wire l)); lia).
  cbn [mbind run_bind]. unfold record_wire, upd.
  change (Z.to_nat 0) with 0%nat. rewrite take_0, app_nil_l. eexists _, _. split; [done|].
  destruct (long (flat_map attr_wire l)); lia.
Qed.

(** ** The missing header *)

Definition leaf (d : sdp_data) : bool :=
  match dtd_kind (dtd d) with Some k => negb (is_seq k) | None => false end.

Lemma attr_sizes_leaf l :
  Forall (gen_ok late fuel) l -> Forall (fun d => leaf d = true) l ->
  forall s, 0 <= s -> (s = 0 -> match l with [] => True | d :: _ => dtd d <> 0 end) ->
  s + sum (room late) l < 2 ^ 32 ->
  attr_sizes late fuel l (Buf None 0 s) = Done (Buf None 0 (s + zlen (flat_map attr_wire l))).
Proof.
  induction 1 as [|d l (Hd & Hr & Hf) Hl IH]; intros HL s Hs Hnil Hsum; cbn [attr_sizes flat_map].
  { by rewrite Z.add_0_r. }
  inversion HL as [|? ? Hlf HL']; subst. cbn [sum foldr] in Hsum. fold (sum (room late) l) in Hsum.
  pose proof (sum_nonneg (room late) l ltac:(intros x; pose proof (room_pos late x); lia)).
  destruct d as [dtd a u v]. unfold leaf in Hlf. cbn in Hlf.
  destruct (dtd_kind dtd) as [k|] eqn:Hk; [|done]. apply negb_true_iff in Hlf.
  assert (leaf_ok k u v = true) as Hok. { cbn in Hd. rewrite Hk in Hd. by destruct k. }
  assert (settle (Data dtd a u v) = Data dtd a u v /\
    room late (Data dtd a u v) = 11 + zlen (body (Data dtd a u v))) as (Hset & Hroom).
  { destruct v; try done. by destruct k. }
  rewrite Hroom in *. destruct fuel as [|fuel'] eqn:Hfuel; [destruct v; cbn in Hf; lia|].
  rewrite (gen_buffer_leaf late fuel' 0 s dtd a u v k) by (done || lia).
  cbn [mbind run_bind fst].
  assert ((s =? 0) && (dtd =? 0) = false) as ->.
  { destruct (Z.eqb_spec s 0) as [->|]; [|done]. cbn. apply Z.eqb_neq. by apply Hnil. }
  pose proof (attr_wire_length (Data dtd a u v)) as Hal. rewrite Hset in Hal.
  pose proof (zlen_nonneg (wire (Data dtd a u v))).
  pose proof (elem_wire_length (Data dtd a u v)) as Hwl. cbn [Sdp.dtd] in Hwl.
  pose proof (type_size_max dtd).
  rewrite IH by (done || lia). rewrite zlen_app, Hal.
  match goal with |- Done (Buf _ _ ?x) = Done (Buf _ _ ?y) => by replace x with y by lia end.
Qed.

(** Without one, the two bytes of the outermost header are missing: the last attribute is
    stored behind the block. *)
Lemma gen_record_overflow rec d l :
  attrlist rec = d :: l -> dtd d <> Dtd.SDP_DATA_NIL ->
  Forall (gen_ok late fuel) (attrlist rec) -> Forall (fun d => leaf d = true) (attrlist rec) ->
  sum (room late) (attrlist rec) < 2 ^ 32 ->
  sdp_gen_record_pdu late malloc fuel rec = Fault.
Proof using malloc_len.
  intros Hne Hnil HF HL Hsum. unfold sdp_gen_record_pdu.
  assert (attrlist rec <> []) as Hne' by (rewrite Hne; done).
  pose proof (attr_sizes_spec (attrlist rec) HF 0 ltac:(lia) ltac:(lia)) as (s0 & Heq0 & Hs0).
  pose proof (attr_sizes_leaf (attrlist rec) HF HL 0 ltac:(lia)) as Heq.
  rewrite Hne in Heq at 1. specialize (Heq (fun _ => Hnil) ltac:(lia)).
  unfold empty_buf. rewrite Heq. cbn [mbind run_bind buf_size].
  set (w := flat_map attr_wire (attrlist rec)) in *. pose proof (zlen_nonneg w).
  rewrite Heq0 in Heq. simplify_eq. 
  set (b := replicate (Z.to_nat (0 + zlen w)) 0).
  assert (zlen b = zlen w) as Hb by (unfold b; len_lia).
  assert (0 < zlen w) as Hpos.
  { unfold w. rewrite Hne. cbn [flat_map]. rewrite zlen_app, attr_wire_length.
    pose proof (zlen_nonneg (wire (settle d))). pose proof (zlen_nonneg (flat_map attr_wire l)). lia. }
  assert (holds b [] 0 b) as Hh.
  { left. split_and!; try done. unfold get_u8. rewrite ld_is_Some by lia.
    unfold b. destruct (Z.to_nat (0 + zlen w)) as [|k] eqn:Hk; [lia|]. done. }
  rewrite (attr_pdus_spec b _ (attrlist rec) ltac:(lia) HF [] 0 b Hne' Hh). cbn [app].
  fold w. rewrite (proj2 (Z.leb_gt _ _)); [done|].
  rewrite outer_length. destruct (long w); lia.
Qed.
End record.
