(* ===== verification/SdpParse.v ===== *)
(** sdp_extract_attr of lib/sdp.c on arbitrary bytes: it stays inside the buffer, what it
    returns is well typed, and it ends unless the buffer stops in the header of a sequence;
    and the way back from the bytes of an element to the element. *)
From Stdlib Require Import ZArith Lia.
From S2P Require Import Prelude Blocks Libc Uuid Eir Sdp SdpPdu SdpSpec.
From stdpp Require Import base numbers list option.

Local Open Scope Z_scope.

(** ** UUIDs of an element, in the order of its bytes *)

Fixpoint uuids (d : sdp_data) : list uuid_t :=
  match d with
  | Data _ _ _ (VUuid u) => [u]
  | Data _ _ _ (VSeq l) => flat_map uuids l
  | _ => []
  end.

Definition uuids_of (d : option sdp_data) : list uuid_t :=
  match d with Some d => uuids d | None => [] end.

(** The record with UUIDs added to its pattern. *)
Definition pattern_all (rec : option sdp_record) (us : list uuid_t) : option sdp_record :=
  (fun r => foldl sdp_pattern_add_uuid r us) <$> rec.

Lemma pattern_all_nil rec : pattern_all rec [] = rec.
Proof. by destruct rec. Qed.

Lemma pattern_all_app rec us vs :
  pattern_all (pattern_all rec us) vs = pattern_all rec (us ++ vs).
Proof. destruct rec; cbn; [by rewrite foldl_app|done]. Qed.

(** ** Buffers that stop in the header of a sequence *)

Definition cut_header (l : bytes) : bool :=
  match l with
  | [] => false
  | dtd :: rest =>
      match dtd_kind dtd with
      | Some (KSeq n) | Some (KAlt n) => zlen rest <? Z.of_nat n
      | _ => false
      end
  end.

Fixpoint ends_in_header (l : bytes) : bool :=
  match l with
  | [] => false
  | x :: t => cut_header l || ends_in_header t
  end.

Lemma ends_here l : cut_header l = true -> ends_in_header l = true.
Proof. destruct l; [done|]. intros H. cbn [ends_in_header]. by rewrite H. Qed.

Lemma ends_later l k : ends_in_header (drop k l) = true -> ends_in_header l = true.
Proof.
  revert l. induction k as [|k IH]; intros [|x l]; try done. cbn [drop ends_in_header].
  intros H. rewrite (IH l H). apply orb_true_r.
Qed.

Section bytes.
Context (b : bytes).
Hypothesis Hb : bytes_ok b.

Definition cuts (p : Z) : Prop := ends_in_header (drop (Z.to_nat p) b) = true.

Lemma cuts_later p k : 0 <= p -> 0 <= k -> cuts (p + k) -> cuts p.
Proof.
  unfold cuts. intros Hp Hk H. apply (ends_later _ (Z.to_nat k)). rewrite drop_drop.
  by replace (Z.to_nat p + Z.to_nat k)%nat with (Z.to_nat (p + k)) by lia.
Qed.

Lemma rd_ok p n :
  0 <= p -> p + Z.of_nat n <= zlen b ->
  exists l, rd b p n = Done l /\ bytes_ok l /\ zlen l = Z.of_nat n /\
    l = take n (drop (Z.to_nat p) b).
Proof using Hb.
  intros Hp Hl. destruct (ld_total b p (Z.of_nat n) Hb Hp ltac:(lia) Hl) as (l & H1 & H2 & H3).
  exists l. unfold rd. rewrite H1. split_and!; try done.
  rewrite ld_is_Some in H1 by lia. simplify_eq. by rewrite Nat2Z.id.
Qed.

Lemma rd_u8_ok p :
  0 <= p -> p + 1 <= zlen b ->
  exists x, rd_u8 b p = Done x /\ is_u8 x /\ drop (Z.to_nat p) b = x :: drop (Z.to_nat (p + 1)) b.
Proof using Hb.
  intros Hp Hl. destruct (rd_ok p 1 Hp ltac:(lia)) as (l & H1 & H2 & H3 & H4).
  assert (length l = 1%nat) as Hlen by (unfold zlen in H3; lia).
  destruct l as [|x [|? ?]]; try done.
  exists x. unfold rd_u8. rewrite H1. cbn [mbind run_bind le_val].
  split_and!; [f_equal; lia|by inversion H2|].
  replace (Z.to_nat (p + 1)) with (Z.to_nat p + 1)%nat by lia. rewrite <- drop_drop.
  destruct (drop (Z.to_nat p) b); [done|]. cbn in *. by simplify_eq.
Qed.

(** The outcome of reading an element that needs no rounds. *)
Definition leaf_spec (p bufsize : Z) (r : run (option sdp_data * Z)) : Prop :=
  match r with
  | Done (d, len) => 0 <= len <= bufsize /\
      forall e, d = Some e -> read_ok e = true /\ 0 < len /\ uuids e = []
  | _ => False
  end.

Lemma be_val_width l n : bytes_ok l -> zlen l = Z.of_nat n -> 0 <= be_val l < 256 ^ Z.of_nat n.
Proof. intros Hl Hn. rewrite <- Hn. by apply be_val_range. Qed.

Lemma num_typed dtd k n v :
  dtd_kind dtd = Some k -> k = KUint n \/ k = KInt n \/ k = KBool /\ n = 1%nat ->
  0 <= v < 256 ^ Z.of_nat n -> read_ok (Data dtd 0 0 (VNum v)) = true.
Proof.
  intros Hk Hn Hv. unfold read_ok. cbn [well_typed terminated]. rewrite andb_true_r, Hk.
  destruct Hn as [ -> |[ -> |[-> ->]]]; cbn [leaf_ok]; apply andb_true_iff;
    rewrite Z.leb_le, Z.ltb_lt; cbn in Hv |- *; lia.
Qed.

Lemma extract_int_ok p bufsize :
  0 <= p -> 0 <= bufsize -> p + bufsize <= zlen b -> leaf_spec p bufsize (extract_int b p bufsize).
Proof using Hb.
  intros Hp Hbs Hl. unfold extract_int. destruct (Z.ltb_spec bufsize 1); [cbn; split; [lia|done]|].
  destruct (rd_u8_ok p Hp ltac:(lia)) as (dtd & Hr & _ & _). rewrite Hr. cbn [mbind run_bind].
  assert (forall n k, dtd_kind dtd = Some k -> k = KUint n \/ k = KInt n \/ k = KBool /\ n = 1%nat ->
    leaf_spec p bufsize (extract_num b dtd (p + 1) (bufsize - 1) n)) as Hnum.
  { intros n k Hk Hn. unfold extract_num.
    destruct (Z.ltb_spec (bufsize - 1) (Z.of_nat n)); [cbn; split; [lia|done]|].
    destruct (rd_ok (p + 1) n ltac:(lia) ltac:(lia)) as (l & Hrd & Hlok & Hlen & _).
    rewrite Hrd. cbn [mbind run_bind leaf_spec]. split; [lia|]. intros e ?; simplify_eq.
    split_and!; [|lia|done]. eapply num_typed; [done..|]. by apply be_val_width. }
  destruct (dtd_kind dtd) as [k|] eqn:Hk; [|cbn; split; [lia|done]].
  destruct k; try (cbn; split; [lia|done]); try (eapply Hnum; [done|tauto]).
  cbn. split; [lia|]. intros e ?; simplify_eq. split_and!; [|lia|done].
  unfold read_ok. cbn [well_typed]. by rewrite Hk.
Qed.

Lemma extract_str_ok p bufsize :
  0 <= p -> 0 <= bufsize -> p + bufsize <= zlen b -> leaf_spec p bufsize (extract_str b p bufsize).
Proof using Hb.
  intros Hp Hbs Hl. unfold extract_str. destruct (Z.ltb_spec bufsize 1); [cbn; split; [lia|done]|].
  destruct (rd_u8_ok p Hp ltac:(lia)) as (dtd & Hr & _ & _). rewrite Hr. cbn [mbind run_bind].
  assert (forall n k, dtd_kind dtd = Some k -> k = KText n \/ k = KUrl n -> (n < 4)%nat ->
    leaf_spec p bufsize (extract_chars b dtd (p + 1) (bufsize - 1) n)) as Hstr.
  { intros n k Hk Hn Hn4. unfold extract_chars.
    destruct (Z.ltb_spec (bufsize - 1) (Z.of_nat n)); [cbn; split; [lia|done]|].
    destruct (rd_ok (p + 1) n ltac:(lia) ltac:(lia)) as (l & Hrd & Hlok & Hlen & _).
    rewrite Hrd. cbn [mbind run_bind]. pose proof (be_val_width l n Hlok Hlen) as Hv.
    destruct (Z.ltb_spec (bufsize - 1 - Z.of_nat n) (be_val l)); [cbn; split; [lia|done]|].
    destruct (ld_total b (p + 1 + Z.of_nat n) (be_val l) Hb ltac:(lia) ltac:(lia) ltac:(lia))
      as (s & Hld & Hsok & Hslen).
    rewrite Hld. cbn [lift mbind run_bind leaf_spec]. split; [lia|]. intros e ?; simplify_eq.
    split_and!; [|lia|done]. unfold read_ok. cbn [well_typed terminated].
    rewrite zlen_app, Hslen, Z.eqb_refl, last_snoc, bool_decide_eq_true_2, andb_true_r, Hk by done.
    assert (leaf_ok (KText n) (be_val l + 1) (VStr (Some (s ++ [0]))) = true) as Hok.
    { cbn [leaf_ok]. rewrite !andb_true_iff, Nat.ltb_lt, !Z.leb_le, Z.ltb_lt, bool_decide_eq_true.
      rewrite zlen_app. change (zlen [0]) with 1. split_and!; try lia.
      apply Forall_app. split; [done|]. constructor; [unfold is_u8; lia|constructor]. }
    destruct Hn as [ -> | -> ]; exact Hok. }
  destruct (dtd_kind dtd) as [k|] eqn:Hk; [|cbn; split; [lia|done]].
  destruct k as [|n|n| |n|n|n|n|n]; try (cbn; split; [lia|done]);
    destruct n as [|[|[|n]]]; try (cbn; split; [lia|done]); eapply Hstr; try done; auto; lia.
Qed.

Lemma dtd_is_uuid dtd n :
  dtd_kind dtd = Some (KUuid n) ->
  (dtd = Dtd.SDP_UUID16 /\ n = 2%nat) \/ (dtd = Dtd.SDP_UUID32 /\ n = 4%nat) \/
  (dtd = Dtd.SDP_UUID128 /\ n = 16%nat).
Proof.
  intros H. refine (dtd_cases (fun dtd k => forall n, k = KUuid n ->
    (dtd = Dtd.SDP_UUID16 /\ n = 2%nat) \/ (dtd = Dtd.SDP_UUID32 /\ n = 4%nat) \/
    (dtd = Dtd.SDP_UUID128 /\ n = 16%nat)) dtd _ _ H n eq_refl).
  each_dtd; intros n' ?; simplify_eq; auto.
Qed.

Lemma extract_uuid_ok p bufsize rec n dtd :
  0 <= p -> 0 <= bufsize -> p + bufsize <= zlen b ->
  rd_u8 b p = Done dtd -> dtd_kind dtd = Some (KUuid n) -> 1 <= bufsize ->
  match extract_uuid b p bufsize rec with
  | Done (d, len, rec') => 0 <= len <= bufsize /\ rec' = pattern_all rec (uuids_of d) /\
      forall e, d = Some e -> read_ok e = true /\ 0 < len
  | _ => False
  end.
Proof using Hb.
  intros Hp Hbs Hl Hr Hk Hbs1. unfold extract_uuid, sdp_uuid_extract.
  rewrite (proj2 (Z.ltb_ge _ _)) by lia. rewrite Hr. cbn [mbind run_bind].
  assert (forall m u len, n = m -> uuid_ok m u = true -> 0 < len <= bufsize ->
    0 <= len <= bufsize /\ pattern_add rec u = pattern_all rec (uuids_of (Some (Data dtd 0 0 (VUuid u)))) /\
    forall e, Some (Data dtd 0 0 (VUuid u)) = Some e -> read_ok e = true /\ 0 < len) as Hdone.
  { intros m u len -> Hu Hlen. split; [lia|]. split; [by destruct rec|].
    intros e ?; simplify_eq. split; [|lia]. unfold read_ok. cbn [well_typed terminated].
    rewrite Hk, andb_true_r. exact Hu. }
  destruct (dtd_is_uuid dtd n Hk) as [[-> ->]|[[-> ->]|[-> ->]]]; cbn [negb SDP_IS_UUID Z.eqb].
  - destruct (Z.ltb_spec (bufsize - 1) 2); [cbn; rewrite pattern_all_nil; split_and!; done || lia|].
    destruct (rd_ok (p + 1) 2 ltac:(lia) ltac:(lia)) as (l & Hrd & Hlok & Hlen & _).
    change (negb (SDP_IS_UUID Dtd.SDP_UUID16)) with false. cbn iota.
    change (Dtd.SDP_UUID16 =? Dtd.SDP_UUID16) with true. cbn iota. rewrite Hrd.
    cbn [mbind run_bind]. apply (Hdone 2%nat); [done| |lia].
    cbn. apply bool_decide_eq_true. pose proof (be_val_width l 2 Hlok Hlen). unfold is_u16. lia.
  - change (negb (SDP_IS_UUID Dtd.SDP_UUID32)) with false. cbn iota.
    change (Dtd.SDP_UUID32 =? Dtd.SDP_UUID16) with false. cbn iota.
    change (Dtd.SDP_UUID32 =? Dtd.SDP_UUID32) with true. cbn iota.
    destruct (Z.ltb_spec (bufsize - 1) 4); [cbn; rewrite pattern_all_nil; split_and!; done || lia|].
    destruct (rd_ok (p + 1) 4 ltac:(lia) ltac:(lia)) as (l & Hrd & Hlok & Hlen & _). rewrite Hrd.
    cbn [mbind run_bind]. apply (Hdone 4%nat); [done| |lia].
    cbn. apply bool_decide_eq_true. pose proof (be_val_width l 4 Hlok Hlen). unfold is_u32. lia.
  - change (negb (SDP_IS_UUID Dtd.SDP_UUID128)) with false. cbn iota.
    change (Dtd.SDP_UUID128 =? Dtd.SDP_UUID16) with false. cbn iota.
    change (Dtd.SDP_UUID128 =? Dtd.SDP_UUID32) with false. cbn iota.
    destruct (Z.ltb_spec (bufsize - 1) 16); [cbn; rewrite pattern_all_nil; split_and!; done || lia|].
    destruct (rd_ok (p + 1) 16 ltac:(lia) ltac:(lia)) as (l & Hrd & Hlok & Hlen & _). rewrite Hrd.
    cbn [mbind run_bind]. apply (Hdone 16%nat); [done| |lia].
    cbn. apply andb_true_iff. split; [by apply bool_decide_eq_true|].
    apply Nat.eqb_eq. unfold zlen in Hlen. lia.
Qed.

Lemma seqtype_ok p bufsize :
  0 <= p -> 1 <= bufsize -> p + bufsize = zlen b ->
  forall dtd k, rd_u8 b p = Done dtd -> dtd_kind dtd = Some k -> is_seq k = true ->
  (sdp_extract_seqtype b p bufsize 0 0 = Done (0, dtd, 0) /\ cut_header (drop (Z.to_nat p) b) = true) \/
  (exists n size, sdp_extract_seqtype b p bufsize 0 0 = Done (1 + Z.of_nat n, dtd, size) /\
    (n = 1%nat \/ n = 2%nat \/ n = 4%nat) /\ 1 + Z.of_nat n <= bufsize).
Proof using Hb.
  intros Hp Hbs Hl dtd k Hr Hk Hs. unfold sdp_extract_seqtype.
  rewrite (proj2 (Z.ltb_ge _ _)) by lia. rewrite Hr. cbn [mbind run_bind]. rewrite Hk.
  destruct (rd_u8_ok p Hp ltac:(lia)) as (x & Hx & _ & Hdrop). rewrite Hr in Hx. simplify_eq.
  assert (zlen (drop (Z.to_nat (p + 1)) b) = bufsize - 1) as Hrest by (rewrite zlen_drop; lia).
  pose proof (fun n => dtd_width x k n Hk) as Hw.
  destruct k as [|n|n| |n|n|n|n|n]; try done.
  all: destruct (Z.ltb_spec (bufsize - 1) (Z.of_nat n)) as [Hlt|Hge];
    [left; split; [done|]; rewrite Hdrop; cbn [cut_header]; rewrite Hk; apply Z.ltb_lt; lia|right].
  all: destruct (rd_ok (p + 1) n ltac:(lia) ltac:(lia)) as (l & Hrd & Hlok & Hlen & _);
    rewrite Hrd; cbn [mbind run_bind]; exists n; eexists; split_and!; [done|by apply Hw|lia].
Qed.

Lemma read_ok_seq dtd k l : dtd_kind dtd = Some k -> is_seq k = true ->
  forallb read_ok l = true -> read_ok (Data dtd 0 0 (VSeq l)) = true.
Proof.
  intros Hk Hs Hl. unfold read_ok. cbn [well_typed terminated]. rewrite Hk.
  assert (forallb well_typed l = true /\ forallb terminated l = true) as [H1 H2].
  { induction l as [|d l IH]; [done|]. cbn [forallb] in *. apply andb_true_iff in Hl as [Hd Hl].
    apply andb_true_iff in Hd as [-> ->]. by apply IH. }
  destruct k; try done; by rewrite H1, H2.
Qed.

(** The outcome of [sdp_extract_attr] with [fuel] rounds on the rest of the buffer. *)
Definition attr_spec (fuel : nat) (p bufsize : Z) (rec : option sdp_record)
    (r : run (option sdp_data * Z * option sdp_record)) : Prop :=
  match r with
  | Fault => False
  | NoFuel => cuts p \/ Z.of_nat fuel <= bufsize
  | Done (d, len, rec') =>
      0 <= len <= bufsize /\ rec' = pattern_all rec (uuids_of d) /\
      forall e, d = Some e -> read_ok e = true /\ (0 < len \/ cuts p)
  end.

Lemma seq_loop_ok extract f0 :
  (forall p bufsize rec, 0 <= p -> 0 <= bufsize -> p + bufsize = zlen b ->
    attr_spec f0 p bufsize rec (extract p bufsize rec)) ->
  forall fuel p bufsize n seqlen seq rec, 0 <= p -> 0 <= bufsize -> p + bufsize = zlen b ->
  match extract_seq_loop extract fuel p bufsize n seqlen seq rec with
  | Fault => False
  | NoFuel => cuts p \/ Z.of_nat fuel <= bufsize \/ Z.of_nat f0 <= bufsize
  | Done (l, n', rec') => n <= n' <= n + bufsize /\
      exists l', l = seq ++ l' /\ forallb read_ok l' = true /\
        rec' = pattern_all rec (flat_map uuids l')
  end.
Proof.
  intros Hext fuel. induction fuel as [|fuel IH]; intros p bufsize n seqlen seq rec Hp Hbs Hl;
    cbn [extract_seq_loop]; [lia|].
  destruct (n <? seqlen).
  2:{ split; [lia|]. exists []. rewrite app_nil_r. cbn. by rewrite pattern_all_nil. }
  pose proof (Hext p bufsize rec Hp Hbs Hl) as HE.
  destruct (extract p bufsize rec) as [[[curr len] rec']| |]; cbn [mbind run_bind].
  - destruct HE as (Hlen & -> & Hcurr). destruct curr as [e|].
    2:{ split; [lia|]. exists []. rewrite app_nil_r. by cbn. }
    destruct (Hcurr e eq_refl) as [Hty Hpos].
    pose proof (IH (p + len) (bufsize - len) (n + len) seqlen (seq ++ [e])
      (pattern_all rec (uuids e)) ltac:(lia) ltac:(lia) ltac:(lia)) as HI.
    cbn [uuids_of]. destruct (extract_seq_loop _ _ _ _ _ _ _ _) as [[[l n'] rec'']| |]; [|done|].
    + destruct HI as (Hn & l' & -> & Hl' & ->). split; [lia|]. exists (e :: l').
      rewrite <- app_assoc. split_and!; [done| |by rewrite pattern_all_app]. cbn. by rewrite Hty.
    + destruct HI as [Hc|HI]; [left; by apply (cuts_later p len); [|lia|]|].
      destruct Hpos as [Hpos|Hc]; [right; lia|by left].
  - done.
  - destruct HE as [?|?]; auto.
Qed.

Theorem extract_attr_ok fuel p bufsize rec :
  0 <= p -> 0 <= bufsize -> p + bufsize = zlen b ->
  attr_spec fuel p bufsize rec (sdp_extract_attr b fuel p bufsize rec).
Proof using Hb.
  revert p bufsize rec. induction fuel as [|fuel IH]; intros p bufsize rec Hp Hbs Hl;
    cbn [sdp_extract_attr]; [right; lia|].
  destruct (Z.ltb_spec bufsize 1).
  { cbn. rewrite pattern_all_nil. split_and!; done || lia. }
  destruct (rd_u8_ok p Hp ltac:(lia)) as (dtd & Hr & _ & Hdrop). rewrite Hr. cbn [mbind run_bind].
  assert (forall r : run (option sdp_data * Z), leaf_spec p bufsize r ->
    attr_spec (S fuel) p bufsize rec (r ← r; Done (r, rec))) as Hleaf.
  { intros [[d len]| |]; cbn; [|done..]. intros [Hlen Hd]. split; [lia|].
    destruct d as [e|]; [|by rewrite pattern_all_nil].
    destruct (Hd e eq_refl) as (? & ? & Hu). cbn. rewrite Hu, pattern_all_nil.
    split; [done|]. intros ? ?; simplify_eq. auto. }
  assert (attr_spec (S fuel) p bufsize rec (Done (None, 0, rec))) as Hnone.
  { cbn. rewrite pattern_all_nil. split_and!; done || lia. }
  destruct (dtd_kind dtd) as [k|] eqn:Hk; [|exact Hnone].
  assert (is_seq k = true ->
    attr_spec (S fuel) p bufsize rec
      (extract_seq b (sdp_extract_attr b fuel) fuel p bufsize rec)) as Hseq.
  { intros Hs. unfold extract_seq.
    destruct (seqtype_ok p bufsize Hp ltac:(lia) Hl dtd k Hr Hk Hs)
      as [[-> Hcut]|(n & size & -> & Hn & Hle)]; cbn [mbind run_bind].
    - cbn. rewrite pattern_all_nil. split_and!; [lia|lia|done|]. intros e ?; simplify_eq.
      split; [|right; by apply ends_here]. by apply (read_ok_seq dtd k).
    - rewrite (proj2 (Z.eqb_neq _ _)) by lia. rewrite (proj2 (Z.ltb_ge _ _)) by lia.
      pose proof (seq_loop_ok (sdp_extract_attr b fuel) fuel IH fuel (p + (1 + Z.of_nat n))
        (bufsize - (1 + Z.of_nat n)) 0 size [] rec ltac:(lia) ltac:(lia) ltac:(lia)) as HS.
      destruct (extract_seq_loop _ _ _ _ _ _ _ _) as [[[l n'] rec']| |]; cbn [mbind run_bind];
        [|done|].
      + destruct HS as (Hn' & l' & -> & Hl' & ->). cbn. split; [lia|]. split; [done|].
        intros e ?; simplify_eq. split; [|left; lia]. by apply (read_ok_seq dtd k).
      + destruct HS as [Hc|HS]; [left; by apply (cuts_later p (1 + Z.of_nat n)); [|lia|]|].
        right. lia. }
  destruct k as [|n|n| |n|n|n|n|n]; try (by apply Hseq); try (apply Hleaf);
    try (apply extract_int_ok; lia); try (apply extract_str_ok; lia).
  pose proof (extract_uuid_ok p bufsize rec n dtd Hp Hbs ltac:(lia) Hr Hk ltac:(lia)) as HU.
  destruct (extract_uuid b p bufsize rec) as [[[d len] rec']| |]; [|done..].
  destruct HU as (Hlen & Hrec & HU). split; [lia|]. split; [done|].
  intros e He. destruct (HU e He). auto.
Qed.
End bytes.

(** ** From the bytes back to the element *)

(** The element that is read back: identifiers and sizes are those of the reader, and a
    string ends in a NUL. *)
Fixpoint canon (d : sdp_data) : sdp_data :=
  match d with
  | Data dtd _ u v =>
      match v with
      | VNum x => Data dtd 0 0 (VNum (if dtd =? Dtd.SDP_DATA_NIL then 0 else x))
      | VUuid x => Data dtd 0 0 (VUuid x)
      | VStr (Some s) => Data dtd 0 u (VStr (Some (take (Z.to_nat (u - 1)) s ++ [0])))
      | VStr None => Data dtd 0 0 (VStr None)
      | VSeq l => Data dtd 0 0 (VSeq (map canon l))
      end
  end.

Lemma rd_mid pre x post p n :
  p = zlen pre -> Z.of_nat n = zlen x -> rd (pre ++ x ++ post) p n = Done x.
Proof. intros -> Hn. unfold rd. by rewrite (ld_mid pre x post). Qed.

Lemma rd_u8_mid pre x post p : p = zlen pre -> rd_u8 (pre ++ [x] ++ post) p = Done x.
Proof.
  intros ->. unfold rd_u8. rewrite (rd_mid pre [x] post) by done. cbn [mbind run_bind le_val].
  f_equal. lia.
Qed.

Section leaf.
Context (pre post : bytes) (dtd a u : Z) (v : sdp_val sdp_data) (k : kind) (bufsize : Z).
Let d := Data dtd a u v.
Let b := pre ++ wire d ++ post.
Let p := zlen pre.
Hypothesis Hk : dtd_kind dtd = Some k.
Hypothesis Hv : leaf_ok k u v = true.
Hypothesis Hlow : zlen (wire d) <= bufsize.

Lemma extract_int_wire :
  (match k with KNil | KBool | KUint _ | KInt _ => true | _ => false end) = true ->
  extract_int b p bufsize = Done (Some (canon d), zlen (wire d)) /\ uuids d = [].
Proof using Hk Hv Hlow.
  intros Hint. unfold extract_int. pose proof (wire_pos d).
  rewrite (proj2 (Z.ltb_ge _ _)) by lia.
  assert (exists n, leaf_wire k u v = be_bytes n (match v with VNum x => x | _ => 0 end) /\
    (k = KNil /\ n = 0%nat \/ k = KBool /\ n = 1%nat \/ k = KUint n \/ k = KInt n) /\
    exists x, v = VNum x /\ (k <> KNil -> 0 <= x < 256 ^ Z.of_nat n)) as (n & Hw & Hn & x & -> & Hx).
  { destruct k as [|n|n| |n|n|n|n|n]; try done; destruct v as [x|x|x|x]; try done;
      cbn [leaf_ok leaf_wire] in *; try (apply andb_true_iff in Hv as [?%Z.leb_le ?%Z.ltb_lt]).
    - exists 0%nat. split_and!; auto. by exists x.
    - exists n. split_and!; auto. by exists x.
    - exists n. split_and!; auto. by exists x.
    - exists 1%nat. split_and!; auto. by exists x. }
  assert (wire d = [dtd] ++ be_bytes n x) as Hwire.
  { rewrite wire_body. unfold header, body, d. cbn [Sdp.dtd Sdp.val Sdp.unitSize]. rewrite Hk, Hw.
    by destruct Hn as [[-> ->]|[[-> ->]|[ -> | -> ]]]. }
  assert (zlen (wire d) = 1 + Z.of_nat n) as Hwl.
  { rewrite Hwire, zlen_app, zlen_be_bytes. done. }
  assert (b = pre ++ [dtd] ++ be_bytes n x ++ post) as Hb. { unfold b. by rewrite Hwire, <- app_assoc. }
  rewrite Hb, (rd_u8_mid pre dtd (be_bytes n x ++ post)) by done. cbn [mbind run_bind]. rewrite Hk.
  assert (k <> KNil -> extract_num (pre ++ [dtd] ++ be_bytes n x ++ post) dtd (p + 1) (bufsize - 1) n
    = Done (Some (canon d), zlen (wire d))) as Hnum.
  { intros Hnil. unfold extract_num. rewrite (proj2 (Z.ltb_ge _ _)) by lia.
    rewrite (app_assoc pre [dtd]), (rd_mid (pre ++ [dtd]) (be_bytes n x) post).
    2: { rewrite zlen_app. done. } 2: by rewrite zlen_be_bytes.
    cbn [mbind run_bind]. rewrite be_val_bytes, Z.mod_small by auto. rewrite Hwl.
    unfold d, canon. destruct (Z.eqb_spec dtd Dtd.SDP_DATA_NIL) as [->|]; [|done].
    vm_compute in Hk. by simplify_eq. }
  split; [|done].
  destruct Hn as [[-> ->]|[[-> ->]|[ -> | -> ]]]; try (by apply Hnum).
  assert (dtd = Dtd.SDP_DATA_NIL) as Hnil.
  { refine (dtd_cases (fun dtd k => k = KNil -> dtd = Dtd.SDP_DATA_NIL) dtd _ _ Hk eq_refl).
    each_dtd; done. }
  rewrite Hwl. unfold d, canon. by rewrite Hnil.
Qed.

Lemma extract_str_wire :
  (match k with KText _ | KUrl _ => true | _ => false end) = true ->
  extract_str b p bufsize = Done (Some (canon d), zlen (wire d)) /\ uuids d = [].
Proof using Hk Hv Hlow.
  intros Hstr. unfold extract_str. pose proof (wire_pos d).
  rewrite (proj2 (Z.ltb_ge _ _)) by lia.
  assert (exists n s, (k = KText n \/ k = KUrl n) /\ v = VStr (Some s) /\ (n < 4)%nat /\
    1 <= u /\ u - 1 <= zlen s /\ u - 1 < 256 ^ Z.of_nat n) as (n & s & Hn & -> & Hn4 & Hu1 & Hu2 & Hu3).
  { destruct k as [|n|n| |n|n|n|n|n]; try done; destruct v as [x|x|[s|]|x]; try done;
      cbn [leaf_ok] in Hv; rewrite !andb_true_iff, Nat.ltb_lt, !Z.leb_le, Z.ltb_lt in Hv;
      exists n, s; split_and!; auto; lia. }
  set (t := take (Z.to_nat (u - 1)) s).
  assert (zlen t = u - 1) as Ht by (apply zlen_take; lia).
  assert (wire d = [dtd] ++ be_bytes n (u - 1) ++ t) as Hwire.
  { rewrite wire_body. unfold header, body, d. cbn [Sdp.dtd Sdp.val Sdp.unitSize]. rewrite Hk.
    destruct Hn as [ -> | -> ]; cbn [leaf_wire]; fold t; by rewrite Ht. }
  assert (zlen (wire d) = 1 + Z.of_nat n + (u - 1)) as Hwl.
  { rewrite Hwire, !zlen_app, zlen_be_bytes, Ht. change (zlen [dtd]) with 1. lia. }
  assert (b = pre ++ [dtd] ++ be_bytes n (u - 1) ++ t ++ post) as Hb.
  { unfold b. by rewrite Hwire, <- !app_assoc. }
  rewrite Hb, (rd_u8_mid pre dtd (be_bytes n (u - 1) ++ t ++ post)) by done.
  cbn [mbind run_bind]. rewrite Hk.
  assert (extract_chars (pre ++ [dtd] ++ be_bytes n (u - 1) ++ t ++ post) dtd (p + 1) (bufsize - 1) n
    = Done (Some (canon d), zlen (wire d))) as Hchars.
  { unfold extract_chars. rewrite (proj2 (Z.ltb_ge _ _)) by lia.
    rewrite (app_assoc pre [dtd]), (rd_mid (pre ++ [dtd]) (be_bytes n (u - 1)) (t ++ post)).
    2: { rewrite zlen_app. done. } 2: by rewrite zlen_be_bytes.
    cbn [mbind run_bind]. rewrite be_val_bytes, Z.mod_small by lia.
    rewrite (proj2 (Z.ltb_ge _ _)) by lia.
    rewrite (app_assoc (pre ++ [dtd])), (ld_mid ((pre ++ [dtd]) ++ be_bytes n (u - 1)) t post).
    2: { rewrite !zlen_app, zlen_be_bytes. done. } 2: done.
    cbn [lift mbind run_bind]. rewrite Hwl. unfold d, canon. fold t.
    by replace (u - 1 + 1) with u by lia. }
  split; [|done].
  destruct (dtd_width dtd k n Hk ltac:(by destruct Hn as [ -> | -> ])) as [ -> |[ -> | -> ]];
    destruct Hn as [ -> | -> ]; done || lia.
Qed.

Lemma extract_uuid_wire rec n :
  k = KUuid n -> extract_uuid b p bufsize rec
    = Done (Some (canon d), zlen (wire d), pattern_all rec (uuids d)).
Proof using Hk Hv Hlow.
  intros ->. unfold extract_uuid, sdp_uuid_extract. pose proof (wire_pos d).
  rewrite (proj2 (Z.ltb_ge _ _)) by lia.
  destruct v as [x|x|x|x] eqn:Hvx; try done. cbn [leaf_ok] in Hv.
  assert (wire d = [dtd] ++ uuid_be x) as Hwire.
  { rewrite wire_body. unfold header, body, d. cbn [Sdp.dtd Sdp.val Sdp.unitSize]. rewrite Hk. done. }
  destruct (uuid_be_value n x Hv) as (s & Hs & Hsl & _ & _).
  assert (zlen (wire d) = 1 + Z.of_nat n) as Hwl. { by rewrite Hwire, zlen_app, Hs, Hsl. }
  assert (b = pre ++ [dtd] ++ uuid_be x ++ post) as Hb. { unfold b. by rewrite Hwire, <- app_assoc. }
  assert (forall m, m = n -> rd (pre ++ [dtd] ++ uuid_be x ++ post) (p + 1) m = Done (uuid_be x)) as Hrd.
  { intros m ->. rewrite (app_assoc pre [dtd]), (rd_mid (pre ++ [dtd]) (uuid_be x) post); [done| |].
    - by rewrite zlen_app. - by rewrite Hs. }
  rewrite Hb, (rd_u8_mid pre dtd (uuid_be x ++ post)) by done. cbn [mbind run_bind].
  rewrite Hwl. destruct (dtd_is_uuid dtd n Hk) as [[-> ->]|[[-> ->]|[-> ->]]];
    cbn [negb SDP_IS_UUID Z.eqb].
  - change (negb (SDP_IS_UUID Dtd.SDP_UUID16)) with false. cbn iota.
    change (Dtd.SDP_UUID16 =? Dtd.SDP_UUID16) with true. cbn iota.
    rewrite (proj2 (Z.ltb_ge _ _)) by lia. rewrite Hrd by done. cbn [mbind run_bind].
    destruct x as [|x|x|x]; try done. cbn in Hv. apply bool_decide_eq_true in Hv. cbn [uuid_be].
    rewrite be_val_bytes, Z.mod_small by (unfold is_u16 in Hv; cbn; lia). by destruct rec.
  - change (negb (SDP_IS_UUID Dtd.SDP_UUID32)) with false. cbn iota.
    change (Dtd.SDP_UUID32 =? Dtd.SDP_UUID16) with false. cbn iota.
    change (Dtd.SDP_UUID32 =? Dtd.SDP_UUID32) with true. cbn iota.
    rewrite (proj2 (Z.ltb_ge _ _)) by lia. rewrite Hrd by done. cbn [mbind run_bind].
    destruct x as [|x|x|x]; try done. cbn in Hv. apply bool_decide_eq_true in Hv. cbn [uuid_be].
    rewrite be_val_bytes, Z.mod_small by (unfold is_u32 in Hv; cbn; lia). by destruct rec.
  - change (negb (SDP_IS_UUID Dtd.SDP_UUID128)) with false. cbn iota.
    change (Dtd.SDP_UUID128 =? Dtd.SDP_UUID16) with false. cbn iota.
    change (Dtd.SDP_UUID128 =? Dtd.SDP_UUID32) with false. cbn iota.
    rewrite (proj2 (Z.ltb_ge _ _)) by lia. rewrite Hrd by done. cbn [mbind run_bind].
    by destruct x as [|x|x|x].
Qed.
End leaf.

Lemma s32_small x : 0 <= x < 2 ^ 31 -> s32 x = x.
Proof. intros [_ H]. unfold s32. by rewrite (proj2 (Z.ltb_lt _ _)). Qed.

(** What reading the bytes of an element yields. *)
Definition reads (d : sdp_data) : Prop :=
  forall fuel pre post bufsize rec,
    zlen (wire d) <= bufsize -> zlen (wire d) < Z.of_nat fuel ->
    sdp_extract_attr (pre ++ wire d ++ post) fuel (zlen pre) bufsize rec
      = Done (Some (canon d), zlen (wire d), pattern_all rec (uuids d)).

Lemma seq_loop_reads f0 l :
  Forall reads l -> forall fuel pre post bufsize n seq rec,
  zlen (flat_map wire l) <= bufsize -> zlen (flat_map wire l) < Z.of_nat fuel ->
  zlen (flat_map wire l) < Z.of_nat f0 ->
  extract_seq_loop (sdp_extract_attr (pre ++ flat_map wire l ++ post) f0) fuel (zlen pre) bufsize n
    (n + zlen (flat_map wire l)) seq rec
    = Done (seq ++ map canon l, n + zlen (flat_map wire l), pattern_all rec (flat_map uuids l)).
Proof.
  induction 1 as [|d l Hd Hl IH]; intros fuel pre post bufsize n seq rec Hbs Hf Hf0;
    cbn [flat_map map] in *.
  - destruct fuel as [|fuel]; [rewrite zlen_nil in Hf; lia|]. cbn [extract_seq_loop].
    rewrite zlen_nil, Z.add_0_r, Z.ltb_irrefl. by rewrite app_nil_r, pattern_all_nil.
  - rewrite zlen_app in *. pose proof (wire_pos d). pose proof (zlen_nonneg (flat_map wire l)).
    destruct fuel as [|fuel]; [lia|]. cbn [extract_seq_loop].
    rewrite (proj2 (Z.ltb_lt _ _)) by lia. rewrite <- app_assoc.
    rewrite Hd by lia. cbn [mbind run_bind]. rewrite (app_assoc pre (wire d)).
    replace (zlen pre + zlen (wire d)) with (zlen (pre ++ wire d)) by (by rewrite zlen_app).
    rewrite Z.add_assoc, IH by lia. rewrite <- app_assoc, pattern_all_app. done.
Qed.

Lemma extract_attr_wire d : well_typed d = true -> fits d = true -> reads d.
Proof.
  induction d as [dtd a u v IH] using sdp_data_ind'.
  intros Hty Hfit fuel pre post bufsize rec Hbs Hf.
  destruct fuel as [|fuel]; [pose proof (wire_pos (Data dtd a u v)); lia|].
  cbn [sdp_extract_attr]. set (d := Data dtd a u v) in *. pose proof (wire_pos d).
  rewrite (proj2 (Z.ltb_ge _ _)) by lia.
  assert (rd_u8 (pre ++ wire d ++ post) (zlen pre) = Done dtd) as Hr.
  { rewrite wire_body. change (header (Sdp.dtd d) (zlen (body d)))
      with ([dtd] ++ drop 1 (header dtd (zlen (body d)))). rewrite <- !app_assoc.
    by apply rd_u8_mid. }
  rewrite Hr. cbn [mbind run_bind].
  destruct (well_typed_leaf _ _ _ _ Hty) as [(k & Hk & Hs & Hl)|(l & ->)].
  - rewrite Hk.
    destruct k as [|n|n| |n|n|n|n|n]; try done;
      try (edestruct extract_int_wire as [HE HU]; [exact Hk|exact Hl|exact Hbs|done|]; rewrite HE;
           change (uuids d) with (uuids (Data dtd a u v)); rewrite HU; by rewrite pattern_all_nil);
      try (edestruct extract_str_wire as [HE HU]; [exact Hk|exact Hl|exact Hbs|done|]; rewrite HE;
           change (uuids d) with (uuids (Data dtd a u v)); rewrite HU; by rewrite pattern_all_nil).
    by apply (extract_uuid_wire pre post dtd a u v (KUuid n) bufsize Hk Hl Hbs rec n).
  - destruct (well_typed_seq _ _ _ _ Hty) as (n & k & Hk & Hn & Hall). rewrite Hk.
    cbn in IH. cbn [fits d] in Hfit. apply andb_true_iff in Hfit as [Hlen Hfits].
    set (w := flat_map wire l) in *. pose proof (zlen_nonneg w).
    assert (Forall reads l) as Hreads.
    { apply forallb_Forall in Hall, Hfits. rewrite list.Forall_forall in *. auto. }
    assert (wire d = [dtd] ++ be_bytes n (zlen w) ++ w) as Hwire.
    { rewrite wire_body. unfold header. change (Sdp.dtd d) with dtd. rewrite Hk.
      by destruct Hn as [ -> | -> ]. }
    assert (zlen (wire d) = 1 + Z.of_nat n + zlen w) as Hwl.
    { rewrite Hwire, !zlen_app, zlen_be_bytes. change (zlen [dtd]) with 1. lia. }
    assert (0 <= zlen w < 2 ^ 31 /\ zlen w < 256 ^ Z.of_nat n) as [Hw1 Hw2].
    { unfold len_ok in Hlen. rewrite Hk in Hlen.
      destruct (dtd_width dtd k n Hk ltac:(by destruct Hn as [ -> | -> ])) as [ -> |[ -> | -> ]];
        destruct Hn as [ -> | -> ]; apply Z.ltb_lt in Hlen; cbn in Hlen |- *; lia. }
    assert (sdp_extract_seqtype (pre ++ wire d ++ post) (zlen pre) bufsize 0 0
      = Done (1 + Z.of_nat n, dtd, zlen w)) as Hst.
    { unfold sdp_extract_seqtype. rewrite (proj2 (Z.ltb_ge _ _)) by lia. rewrite Hr.
      cbn [mbind run_bind]. rewrite Hk.
      assert ((if bufsize - 1 <? Z.of_nat n then Done (0, dtd, 0) else
        l0 ← rd (pre ++ wire d ++ post) (zlen pre + 1) n;
        Done (1 + Z.of_nat n, dtd, s32 (be_val l0))) = Done (1 + Z.of_nat n, dtd, zlen w)) as HH.
      { rewrite (proj2 (Z.ltb_ge _ _)) by lia. rewrite Hwire, <- !app_assoc, (app_assoc pre).
        rewrite (rd_mid (pre ++ [dtd]) (be_bytes n (zlen w))).
        2: by rewrite zlen_app. 2: by rewrite zlen_be_bytes.
        cbn [mbind run_bind]. rewrite be_val_bytes, Z.mod_small by lia. by rewrite s32_small. }
      destruct Hn as [ -> | -> ]; exact HH. }
    assert (extract_seq (pre ++ wire d ++ post) (sdp_extract_attr (pre ++ wire d ++ post) fuel) fuel
      (zlen pre) bufsize rec = Done (Some (canon d), zlen (wire d), pattern_all rec (uuids d))) as HE.
    { unfold extract_seq. rewrite Hst. cbn [mbind run_bind].
      rewrite (proj2 (Z.eqb_neq _ _)) by lia. rewrite (proj2 (Z.ltb_ge _ _)) by lia.
      set (pre2 := pre ++ [dtd] ++ be_bytes n (zlen w)).
      assert (pre ++ wire d ++ post = pre2 ++ w ++ post) as ->.
      { unfold pre2. by rewrite Hwire, <- !app_assoc. }
      assert (zlen pre + (1 + Z.of_nat n) = zlen pre2) as ->.
      { unfold pre2. rewrite !zlen_app, zlen_be_bytes. change (zlen [dtd]) with 1. lia. }
      pose proof (seq_loop_reads fuel l Hreads fuel pre2 post
        (bufsize - (1 + Z.of_nat n)) 0 [] rec) as HL. fold w in HL. rewrite Z.add_0_l in HL.
      rewrite HL by lia. cbn [mbind run_bind app]. by rewrite Hwl. }
    by destruct Hn as [ -> | -> ].
Qed.
