(* ===== verification/SdpProps.v ===== *)
(** Theorems on the data elements and records of lib/sdp.c: what is read is well typed,
    reading ends or loops, records survive being written and read, and where the block for
    a record is too small. *)
From Stdlib Require Import ZArith Lia Sorted.
From S2P Require Import Prelude Blocks Libc Uuid Eir Sdp SdpPdu SdpSpec SdpRecord SdpParse.
From stdpp Require Import base numbers list option.

Local Open Scope Z_scope.

(** ** Sorted lists without repetition *)

(** A three-way comparison that [sdp_list_insert_sorted] sorts by. *)
Class Comparison {A} (f : A -> A -> Z) (P : A -> Prop) := {
  cmp_antisym x y : P x -> P y -> f y x = - f x y;
  cmp_trans x y z : P x -> P y -> P z -> f x y < 0 -> f y z < 0 -> f x z < 0;
}.

Section sorted.
Context {A : Type} (f : A -> A -> Z) (P : A -> Prop) {CMP : Comparison f P}.

Definition below (x y : A) : Prop := f x y < 0.

Lemma insert_elem l d x : x ∈ sdp_list_insert_sorted f l d <-> x = d \/ x ∈ l.
Proof.
  induction l as [|y l IH]; cbn; [rewrite list_elem_of_singleton, elem_of_nil; tauto|].
  destruct (0 <=? f y d); rewrite !elem_of_cons; [|rewrite IH]; tauto.
Qed.

Lemma insert_below l d :
  Forall P l -> P d -> StronglySorted below l -> Forall (fun x => f x d <> 0) l ->
  StronglySorted below (sdp_list_insert_sorted f l d).
Proof using CMP.
  intros HP Hd. revert HP. induction l as [|x l IH]; intros HP Hs Hne; cbn.
  { repeat constructor. }
  inversion HP as [|? ? Hx HPl]; inversion Hs as [|? ? Hsl Hxl]; inversion Hne as [|? ? Hxd Hl]; subst.
  destruct (Z.leb_spec 0 (f x d)) as [Hle|Hlt].
  - assert (below d x) as Hdx. { unfold below. rewrite (cmp_antisym (P:=P) x d) by done. lia. }
    constructor; [done|]. constructor; [done|].
    rewrite list.Forall_forall in *. intros y Hy. unfold below in *.
    apply (cmp_trans (P:=P) d x y); auto.
  - constructor; [by apply IH|]. rewrite list.Forall_forall in *. intros y Hy.
    apply insert_elem in Hy as [->|Hy]; [done|auto].
Qed.

(** An element above all others goes to the end. *)
Lemma insert_last l d :
  Forall (fun x => f x d < 0) l -> sdp_list_insert_sorted f l d = l ++ [d].
Proof.
  induction 1 as [|x l Hx Hl IH]; [done|]. cbn. rewrite (proj2 (Z.leb_gt _ _)) by done. by rewrite IH.
Qed.
End sorted.

Lemma find_none {A B} (f : A -> B -> Z) l u :
  sdp_list_find f l u = None <-> Forall (fun x => f x u <> 0) l.
Proof.
  induction l as [|x l IH]; cbn; [by split|]. rewrite list.Forall_cons.
  destruct (Z.eqb_spec (f x u) 0); [split; [done|tauto]|]. rewrite IH. tauto.
Qed.

Lemma find_some {A B} (f : A -> B -> Z) l u x :
  sdp_list_find f l u = Some x -> x ∈ l /\ f x u = 0.
Proof.
  induction l as [|y l IH]; cbn; [done|]. destruct (Z.eqb_spec (f y u) 0); intros H.
  - simplify_eq. split; [left|done].
  - destruct (IH H). split; [by right|done].
Qed.

Lemma remove_elem {A} (is_d : A -> bool) l x : x ∈ sdp_list_remove is_d l -> x ∈ l.
Proof.
  induction l as [|y l IH]; cbn; [done|]. destruct (is_d y); [by right|].
  rewrite !elem_of_cons. tauto.
Qed.

Lemma remove_sorted {A} (R : A -> A -> Prop) is_d l :
  StronglySorted R l -> StronglySorted R (sdp_list_remove is_d l).
Proof.
  induction 1 as [|x l Hl IH Hx]; cbn; [constructor|]. destruct (is_d x); [done|].
  constructor; [done|]. rewrite list.Forall_forall in *. intros y Hy%remove_elem. auto.
Qed.

(** ** Patterns *)

(** The UUIDs of a pattern: of 128 bits. *)
Definition uuid128_ok (u : uuid_t) : Prop :=
  exists l, u = SDP_UUID128 l /\ length l = 16%nat.

Lemma memcmp_trans a b c :
  length a = length b -> length b = length c ->
  Libc.memcmp a b < 0 -> Libc.memcmp b c < 0 -> Libc.memcmp a c < 0.
Proof.
  revert b c. induction a as [|x a IH]; intros [|y b] [|z c] H1 H2; try done; cbn.
  cbn in H1, H2. simplify_eq.
  destruct (Z.ltb_spec x y), (Z.ltb_spec y x), (Z.ltb_spec y z), (Z.ltb_spec z y),
    (Z.ltb_spec x z), (Z.ltb_spec z x); try lia. by apply IH.
Qed.

#[export] Instance uuid128_comparison : Comparison sdp_uuid128_cmp uuid128_ok.
Proof.
  split.
  - intros x y _ _. apply Libc.memcmp_antisym.
  - intros x y z (a & -> & Ha) (b & -> & Hb) (c & -> & Hc). apply memcmp_trans; cbn; lia.
Qed.

#[export] Instance attrid_comparison : Comparison sdp_attrid_comp_func (fun _ => True).
Proof. split; unfold sdp_attrid_comp_func; intros; lia. Qed.

(** The UUIDs that elements may have. *)
Definition uuid_any_ok (u : uuid_t) : Prop := exists n, uuid_ok n u = true.

Lemma to_uuid128_ok u : uuid_any_ok u -> uuid128_ok (sdp_uuid_to_uuid128 u).
Proof.
  intros [n Hu]. destruct u as [|v|v|l]; cbn [uuid_ok sdp_uuid_to_uuid128] in *; [done|..].
  - eexists; split; [done|]. unfold sdp_uuid16_to_uuid128.
    by rewrite !length_app, length_take, length_drop, le_bytes_length.
  - eexists; split; [done|]. unfold sdp_uuid32_to_uuid128.
    by rewrite !length_app, length_drop, le_bytes_length.
  - rewrite !andb_true_iff in Hu. destruct Hu as [[_ _] Hl%Nat.eqb_eq]. by eexists.
Qed.

Definition pattern_ok (p : list uuid_t) : Prop :=
  StronglySorted (below sdp_uuid128_cmp) p /\ Forall uuid128_ok p.

Lemma pattern_add_ok rec u :
  pattern_ok (pattern rec) -> uuid_any_ok u ->
  pattern_ok (pattern (sdp_pattern_add_uuid rec u)) /\
  (forall v, v ∈ pattern (sdp_pattern_add_uuid rec u) <->
    v = sdp_uuid_to_uuid128 u \/ v ∈ pattern rec) /\
  handle (sdp_pattern_add_uuid rec u) = handle rec /\
  attrlist (sdp_pattern_add_uuid rec u) = attrlist rec /\
  svclass (sdp_pattern_add_uuid rec u) = svclass rec.
Proof.
  intros [Hs Hp] Hu. pose proof (to_uuid128_ok u Hu) as Hu'. unfold sdp_pattern_add_uuid.
  destruct (sdp_list_find _ _ _) as [w|] eqn:Hf.
  - split_and!; try done. intros v. split; [auto|]. intros [->|]; [|done].
    apply find_some in Hf as [Hw Hcmp]. rewrite list.Forall_forall in Hp.
    destruct (Hp w Hw) as (a & -> & Ha), Hu' as (c & Hc & Hlc). rewrite Hc in *.
    apply Libc.memcmp_eq in Hcmp; [|cbn; lia]. cbn in Hcmp. by subst.
  - apply find_none in Hf. unfold set_pattern. cbn [pattern handle attrlist svclass].
    split; [split|split_and!; try done; intros v; apply insert_elem].
    + by apply (insert_below _ uuid128_ok).
    + rewrite list.Forall_forall in *. intros v [->|Hv]%insert_elem; auto.
Qed.

Lemma pattern_all_ok us rec :
  pattern_ok (pattern rec) -> Forall uuid_any_ok us ->
  let rec' := foldl sdp_pattern_add_uuid rec us in
  pattern_ok (pattern rec') /\
  (forall v, v ∈ pattern rec' <-> v ∈ sdp_uuid_to_uuid128 <$> us \/ v ∈ pattern rec) /\
  handle rec' = handle rec /\ attrlist rec' = attrlist rec /\ svclass rec' = svclass rec.
Proof.
  revert rec. induction us as [|u us IH]; intros rec Hp Hus; cbn [foldl].
  { split_and!; try done. intros v. cbn. rewrite elem_of_nil. tauto. }
  inversion Hus; subst. destruct (pattern_add_ok rec u Hp) as (Hp1 & Hel & Hh & Ha & Hs); [done|].
  destruct (IH _ Hp1) as (Hp2 & Hel2 & Hh2 & Ha2 & Hs2); [done|].
  split_and!; try done; try congruence. intros v. rewrite Hel2, Hel, fmap_cons, elem_of_cons. tauto.
Qed.

Lemma uuids_ok d : well_typed d = true -> Forall uuid_any_ok (uuids d).
Proof.
  induction d as [dtd a u v IH] using sdp_data_ind'. intros Hd.
  destruct (well_typed_leaf _ _ _ _ Hd) as [(k & Hk & Hs & Hl)|(l & ->)].
  - destruct v as [x|x|x|x]; try constructor; [|constructor|by destruct k].
    destruct k; try done. by eexists.
  - apply well_typed_kids in Hd. cbn in *. induction l as [|c l IHl]; cbn; [done|].
    inversion IH; inversion Hd; subst. apply Forall_app. auto.
Qed.

(** ** Records *)

(** The attributes are sorted by their identifiers, which occur once, their values are well
    typed; the pattern is sorted, without repetitions, and has every UUID of the
    attributes. *)
Record rec_ok (rec : sdp_record) : Prop := {
  rec_sorted : StronglySorted (below sdp_attrid_comp_func) (attrlist rec);
  rec_typed : Forall (fun d => well_typed d = true /\ is_u16 (attrId d)) (attrlist rec);
  rec_pattern : pattern_ok (pattern rec);
  rec_uuids : forall d u, d ∈ attrlist rec -> u ∈ uuids d -> sdp_uuid_to_uuid128 u ∈ pattern rec;
}.

Lemma rec_ok_alloc : rec_ok sdp_record_alloc.
Proof.
  split; cbn; [constructor|constructor|split; constructor|]. by intros d u ?%elem_of_nil.
Qed.

Lemma rec_ok_set_handle rec h : rec_ok rec -> rec_ok (set_handle rec h).
Proof. by intros []. Qed.

Lemma rec_ok_set_svclass rec u : rec_ok rec -> rec_ok (set_svclass rec u).
Proof. by intros []. Qed.

Lemma rec_ok_pattern rec us :
  rec_ok rec -> Forall uuid_any_ok us -> rec_ok (foldl sdp_pattern_add_uuid rec us) /\
  forall u, u ∈ us -> sdp_uuid_to_uuid128 u ∈ pattern (foldl sdp_pattern_add_uuid rec us).
Proof.
  intros [H1 H2 H3 H4] Hus. destruct (pattern_all_ok us rec H3 Hus) as (Hp & Hel & _ & Ha & _).
  split; [split; rewrite ?Ha; try done|].
  - intros d u Hd Hu. apply Hel. right. by apply (H4 d).
  - intros u Hu. apply Hel. left. by apply list_elem_of_fmap_2.
Qed.

Lemma well_typed_set_attrId d a : well_typed (set_attrId d a) = well_typed d.
Proof. by destruct d. Qed.

Lemma uuids_set_attrId d a : uuids (set_attrId d a) = uuids d.
Proof. by destruct d. Qed.

Lemma svclass_ok d u : well_typed d = true -> exists u', extract_svclass_uuid d u = Done u'.
Proof.
  intros Hd. unfold extract_svclass_uuid. destruct (SDP_IS_SEQ (dtd d)) eqn:Hs; cbn [negb]; [|eauto].
  destruct (well_typed_leaf (dtd d) (attrId d) (unitSize d) (val d)) as [(k & Hk & Hn & _)|(l & Hv)].
  { by destruct d. }
  { exfalso. unfold SDP_IS_SEQ in Hs. apply orb_true_iff in Hs as [[Hs|Hs]%orb_true_iff|Hs];
      apply Z.eqb_eq in Hs; rewrite Hs in Hk; vm_compute in Hk; by simplify_eq. }
  rewrite Hv. destruct l as [|c l]; [eauto|].
  destruct ((dtd c <? Dtd.SDP_UUID16) || (Dtd.SDP_UUID128 <? dtd c)) eqn:Hr; [eauto|].
  apply orb_false_iff in Hr as [H1%Z.ltb_ge H2%Z.ltb_ge].
  assert (well_typed c = true) as Hc.
  { pose proof (well_typed_kids d Hd) as Hk. unfold kids in Hk. rewrite Hv in Hk. by inversion Hk. }
  destruct c as [dc ac uc vc]. cbn in Hc, H1, H2.
  destruct (dtd_kind dc) as [k|] eqn:Hk; [|done].
  assert (exists n, k = KUuid n) as [n ->].
  { refine (dtd_cases (fun dtd k => Dtd.SDP_UUID16 <= dtd -> dtd <= Dtd.SDP_UUID128 ->
      exists n, k = KUuid n) dc k _ Hk H1 H2). each_dtd; vm_compute; try done; eauto; by intros. }
  destruct vc; try done. cbn. eauto.
Qed.

Lemma find_remove_none rec attr :
  StronglySorted (below sdp_attrid_comp_func) (attrlist rec) ->
  Forall (fun x => attrId x <> attr)
    (attrlist (match sdp_data_get rec attr with Some _ => remove_attr rec attr | None => rec end)).
Proof.
  intros Hs. unfold sdp_data_get. destruct (sdp_list_find _ _ _) as [d|] eqn:Hf.
  2:{ apply find_none in Hf. eapply list.Forall_impl; [exact Hf|]. cbn. lia. }
  clear Hf d. unfold remove_attr, set_attrlist. cbn [attrlist].
  induction Hs as [|x l Hl IH Hx]; cbn; [constructor|]. destruct (Z.eqb_spec (attrId x) attr).
  - eapply list.Forall_impl; [exact Hx|]. unfold below, sdp_attrid_comp_func. cbn. lia.
  - by constructor.
Qed.

Lemma attr_replace_ok rec attr d :
  rec_ok rec -> well_typed d = true -> is_u16 attr ->
  (forall u, u ∈ uuids d -> sdp_uuid_to_uuid128 u ∈ pattern rec) ->
  exists rec', sdp_attr_replace rec attr d = Done rec' /\ rec_ok rec'.
Proof.
  intros [H1 H2 H3 H4] Hd Ha Hu. unfold sdp_attr_replace, insert_attr.
  pose proof (find_remove_none rec attr H1) as Hnone.
  set (r0 := match sdp_data_get rec attr with Some _ => remove_attr rec attr | None => rec end) in *.
  assert (pattern r0 = pattern rec /\ (forall x, x ∈ attrlist r0 -> x ∈ attrlist rec) /\
    StronglySorted (below sdp_attrid_comp_func) (attrlist r0)) as (Hp & Hsub & Hs).
  { unfold r0. destruct (sdp_data_get rec attr); [|done]. split_and!; [done| |].
    - intros x. apply remove_elem. - by apply remove_sorted. }
  set (d' := set_attrId d attr).
  set (r1 := set_attrlist r0 (sdp_list_insert_sorted sdp_attrid_comp_func (attrlist r0) d')).
  assert (rec_ok r1) as Hr1.
  { split; unfold r1; cbn [set_attrlist attrlist pattern].
    - apply (insert_below _ (fun _ => True)); try done.
      + by apply list.Forall_forall.
      + eapply list.Forall_impl; [exact Hnone|]. unfold sdp_attrid_comp_func, d'. cbn. lia.
    - rewrite list.Forall_forall in *. intros x [->|Hx]%insert_elem; [|auto].
      unfold d'. by rewrite well_typed_set_attrId.
    - by rewrite Hp.
    - rewrite Hp. intros x u [->|Hx]%insert_elem; [|by eauto].
      unfold d'. rewrite uuids_set_attrId. apply Hu. }
  destruct (attr =? SDP_ATTR_SVCLASS_ID_LIST); [|eauto].
  destruct (svclass_ok d' (svclass r1)) as [u' Hu']; [by unfold d'; rewrite well_typed_set_attrId|].
  rewrite Hu'. cbn [mbind run_bind]. eexists; split; [done|]. by apply rec_ok_set_svclass.
Qed.

(** ** Attributes in sorted lists *)

(** An element goes in front of those with its number. *)
Lemma find_insert_new l d :
  sdp_list_find (fun x a => attrId x - a) (sdp_list_insert_sorted sdp_attrid_comp_func l d) (attrId d) = Some d.
Proof.
  induction l as [|x l IH]; cbn [sdp_list_insert_sorted].
  - cbn. by rewrite Z.sub_diag.
  - unfold sdp_attrid_comp_func at 1. destruct (Z.leb_spec 0 (attrId x - attrId d)); cbn [sdp_list_find].
    + by rewrite Z.sub_diag.
    + rewrite (proj2 (Z.eqb_neq _ _)) by lia. exact IH.
Qed.

Lemma find_insert_other l d a :
  a <> attrId d ->
  sdp_list_find (fun x a => attrId x - a) (sdp_list_insert_sorted sdp_attrid_comp_func l d) a
    = sdp_list_find (fun x a => attrId x - a) l a.
Proof.
  intros Ha. induction l as [|x l IH]; cbn [sdp_list_insert_sorted].
  - cbn. by rewrite (proj2 (Z.eqb_neq _ _)) by lia.
  - destruct (0 <=? _); cbn [sdp_list_find].
    + by rewrite (proj2 (Z.eqb_neq (attrId d - a) 0)) by lia.
    + destruct (attrId x - a =? 0); [done|exact IH].
Qed.

Lemma find_remove_other l attr a :
  a <> attr ->
  sdp_list_find (fun x a => attrId x - a) (sdp_list_remove (fun d => attrId d =? attr) l) a
    = sdp_list_find (fun x a => attrId x - a) l a.
Proof.
  intros Ha. induction l as [|x l IH]; [done|]. cbn [sdp_list_remove].
  destruct (Z.eqb_spec (attrId x) attr); cbn [sdp_list_find].
  - by rewrite (proj2 (Z.eqb_neq (attrId x - a) 0)) by lia.
  - by rewrite IH.
Qed.

(** The attribute is there, the others are as before. *)
Definition sets (rec rec' : sdp_record) (attr : Z) (d : sdp_data) : Prop :=
  sdp_data_get rec' attr = Some (set_attrId d attr) /\
  (forall a, a <> attr -> sdp_data_get rec' a = sdp_data_get rec a) /\
  pattern rec' = pattern rec /\ handle rec' = handle rec.

Lemma insert_sets rec attr d rec' :
  insert_attr rec attr d = Done rec' -> sets rec rec' attr d.
Proof.
  intros Hi. unfold insert_attr in Hi.
  assert (attrlist rec' = sdp_list_insert_sorted sdp_attrid_comp_func (attrlist rec) (set_attrId d attr) /\
    pattern rec' = pattern rec /\ handle rec' = handle rec) as (Ha & Hp & Hh).
  { destruct (attr =? SDP_ATTR_SVCLASS_ID_LIST); [|by simplify_eq].
    destruct (extract_svclass_uuid _ _); cbn [mbind run_bind] in Hi; by simplify_eq. }
  unfold sets, sdp_data_get. rewrite Ha. split_and!; [| |done|done].
  - by apply (find_insert_new (attrlist rec) (set_attrId d attr)).
  - intros a Hn. by apply find_insert_other.
Qed.

Lemma replace_sets rec attr d rec' :
  sdp_attr_replace rec attr d = Done rec' -> sets rec rec' attr d.
Proof.
  intros Hr. unfold sdp_attr_replace in Hr.
  set (r0 := match sdp_data_get rec attr with Some _ => remove_attr rec attr | None => rec end) in *.
  destruct (insert_sets r0 attr d rec' Hr) as (H1 & H2 & H3 & H4).
  assert ((forall a, a <> attr -> sdp_data_get r0 a = sdp_data_get rec a) /\
    pattern r0 = pattern rec /\ handle r0 = handle rec) as (G1 & G2 & G3).
  { unfold r0. destruct (sdp_data_get rec attr); [|done]. split_and!; [|done|done].
    intros a Ha. by apply find_remove_other. }
  split_and!; [done| |by rewrite H3|by rewrite H4]. intros a Ha. by rewrite H2, G1.
Qed.

Section pdu.
Context (low32 : sdp_val sdp_data -> Z) (b : bytes).
Hypothesis Hb : bytes_ok b.

Lemma take_attr_ok rec attr d :
  rec_ok rec -> well_typed d = true -> is_u16 attr ->
  (forall u, u ∈ uuids d -> sdp_uuid_to_uuid128 u ∈ pattern rec) ->
  exists rec', take_attr low32 rec attr d = Done rec' /\ rec_ok rec'.
Proof.
  intros Hr Hd Ha Hu. unfold take_attr.
  set (r0 := if attr =? SDP_ATTR_RECORD_HANDLE then _ else rec).
  assert (rec_ok r0 /\ pattern r0 = pattern rec) as [Hr0 Hp].
  { unfold r0. destruct (attr =? SDP_ATTR_RECORD_HANDLE); [|done].
    split; [by apply rec_ok_set_handle|done]. }
  destruct (attr =? SDP_ATTR_SVCLASS_ID_LIST).
  - destruct (svclass_ok d (svclass r0) Hd) as [u' ->]. cbn [mbind run_bind].
    apply attr_replace_ok; try done; [by apply rec_ok_set_svclass|]. cbn. by rewrite Hp.
  - cbn [mbind run_bind]. apply attr_replace_ok; try done. by rewrite Hp.
Qed.

Lemma pdu_loop_ok fuel p bufsize extracted seqlen rec :
  0 <= p -> 0 <= bufsize -> p + bufsize = zlen b -> rec_ok rec ->
  match extract_pdu_loop b low32 fuel p bufsize extracted seqlen rec with
  | Fault => False
  | NoFuel => cuts b p \/ Z.of_nat fuel <= bufsize
  | Done rec' => rec_ok rec'
  end.
Proof using Hb.
  revert p bufsize extracted rec.
  induction fuel as [|fuel IH]; intros p bufsize extracted rec Hp Hbs Hl Hr;
    cbn [extract_pdu_loop]; [by right|].
  destruct ((extracted <? seqlen) && (0 <? bufsize)); [|done].
  destruct (Z.ltb_spec bufsize 3); [done|].
  destruct (rd_ok b Hb (p + 1) 2 ltac:(lia) ltac:(lia)) as (l & Hrd & Hlok & Hlen & _).
  rewrite Hrd. cbn [mbind run_bind].
  pose proof (extract_attr_ok b Hb (S fuel) (p + 3) (bufsize - 3) (Some rec)
    ltac:(lia) ltac:(lia) ltac:(lia)) as HA.
  destruct (sdp_extract_attr b (S fuel) (p + 3) (bufsize - 3) (Some rec)) as [[[d len] rec']| |];
    cbn [mbind run_bind]; [|done|].
  - destruct HA as (Hlen' & -> & Hd). destruct d as [d|]; cbn [uuids_of pattern_all fmap option_fmap
      option_map default]; [|done].
    destruct (Hd d eq_refl) as [[Hty _]%andb_true_iff _].
    destruct (rec_ok_pattern rec (uuids d) Hr (uuids_ok d Hty)) as [Hr' Hin].
    assert (is_u16 (be_val l)) as Hattr.
    { pose proof (be_val_width l 2 Hlok Hlen). unfold is_u16. lia. }
    destruct (take_attr_ok _ (be_val l) d Hr' Hty Hattr Hin) as (r2 & Heq & Hr2).
    match goal with |- context [take_attr low32 ?r _ _] =>
      change r with (foldl sdp_pattern_add_uuid rec (uuids d)) end. rewrite Heq. cbn [mbind run_bind].
    pose proof (IH (p + (3 + len)) (bufsize - (3 + len)) (extracted + (3 + len)) r2
      ltac:(lia) ltac:(lia) ltac:(lia) Hr2) as HI.
    destruct (extract_pdu_loop _ _ _ _ _ _ _ _); [done|done|].
    destruct HI as [Hc|?]; [left; by apply (cuts_later b p (3 + len)); [|lia|]|right; lia].
  - destruct HA as [Hc|?]; [left; by apply (cuts_later b p 3); [|lia|]|right; lia].
Qed.
End pdu.

(** ** Reading arbitrary bytes *)

(** C10. Whatever the bytes, an element that sdp_extract_attr returns is well typed: its
    value is one of its type, of the width of the type, down to the last child, and every
    string in it has the length it says and ends in a null byte; it took no more bytes than
    there are; exactly its UUIDs went to the pattern of the record, and a record that was
    well formed still is, with all UUIDs of the element in its pattern. *)
Theorem sdp_extract_attr_typed b fuel rec d len rec' :
  bytes_ok b -> sdp_extract_attr b fuel 0 (zlen b) rec = Done (Some d, len, rec') ->
  well_typed d = true /\ terminated d = true /\ 0 <= len <= zlen b /\
  rec' = pattern_all rec (uuids d) /\
  (forall r, rec = Some r -> rec_ok r ->
     exists r', rec' = Some r' /\ rec_ok r' /\ attrlist r' = attrlist r /\
       forall u, u ∈ uuids d -> sdp_uuid_to_uuid128 u ∈ pattern r').
Proof.
  intros Hb H. pose proof (zlen_nonneg b).
  pose proof (extract_attr_ok b Hb fuel 0 (zlen b) rec ltac:(lia) ltac:(lia) ltac:(lia)) as HA.
  rewrite H in HA. destruct HA as (Hlen & -> & Hd).
  destruct (Hd d eq_refl) as [[Hty Ht]%andb_true_iff _]. split_and!; try done; try lia.
  intros r -> Hr. pose proof (uuids_ok d Hty) as Hus.
  destruct (rec_ok_pattern r (uuids d) Hr Hus) as [Hr' Hin].
  destruct (pattern_all_ok (uuids d) r (rec_pattern r Hr) Hus) as (_ & _ & _ & Ha & _).
  by eexists.
Qed.

Lemma sdp_extract_attr_typed_witness :
  exists d r, sdp_extract_attr [0x35; 7; 0x19; 0x11; 0x01; 0x25; 2; 0x41; 0x42; 9] 20 0 10
      (Some sdp_record_alloc) = Done (Some d, 9, Some r) /\
    well_typed d = true /\ terminated d = true /\ rec_ok r.
Proof.
  eexists _, _. split; [vm_compute; reflexivity|].
  refine ((fun H => _) (sdp_extract_attr_typed [0x35; 7; 0x19; 0x11; 0x01; 0x25; 2; 0x41; 0x42; 9]
    20 (Some sdp_record_alloc) _ 9 _ _ _)).
  2:{ apply (bool_decide_unpack _). vm_compute. exact I. }
  2:{ vm_compute. reflexivity. }
  destruct H as (H1 & H2 & _ & _ & H3). split; [exact H1|]. split; [exact H2|].
  destruct (H3 _ eq_refl rec_ok_alloc) as (r' & Hr' & Hok & _). injection Hr' as ->. exact Hok.
Defined.

(** sdp_extract_pdu on any bytes: no access is outside the buffer, the record it
    returns has attributes of different identifiers in order, well typed, and their UUIDs in
    its sorted pattern; it ends within as many rounds as there are bytes, unless the bytes
    stop in the header of a sequence.  The one undefined operation is the last addition,
    for a length just below 2^31. *)
Theorem sdp_extract_pdu_safe low32 b fuel :
  bytes_ok b ->
  match sdp_extract_pdu b low32 fuel (zlen b) with
  | Done (rec, _) => rec_ok rec
  | Fault => 2 ^ 31 - 5 <= be_val (take 4 (drop 1 b))
  | NoFuel => ends_in_header b = true \/ Z.of_nat fuel <= zlen b
  end.
Proof.
  intros Hb. unfold sdp_extract_pdu. pose proof (zlen_nonneg b) as Hlb.
  assert (exists scanned dtd size, sdp_extract_seqtype b 0 (zlen b) 0 0 = Done (scanned, dtd, size) /\
    0 <= scanned <= zlen b /\ (scanned + size < 2 ^ 31 \/ 2 ^ 31 - 5 <= be_val (take 4 (drop 1 b))) /\
    - 2 ^ 31 <= scanned + size) as (scanned & dtd & size & -> & Hsc & Hov & Hun).
  { unfold sdp_extract_seqtype. destruct (Z.ltb_spec (zlen b) 1); [eexists _, _, _; split; [done|lia]|].
    destruct (rd_u8_ok b Hb 0 ltac:(lia) ltac:(lia)) as (dtd & Hr & _ & _). rewrite Hr.
    cbn [mbind run_bind]. destruct (dtd_kind dtd) as [k|] eqn:Hk; [|eexists _, _, _; split; [done|lia]].
    destruct (sized k) as [n|] eqn:Hn; [|destruct k; try done; eexists _, _, _; (split; [done|lia])].
    pose proof (dtd_width dtd k n Hk Hn) as Hw.
    destruct k as [|m|m| |m|m|m|m|m]; try done; try (eexists _, _, _; split; [done|lia]);
      cbn in Hn; simplify_eq;
      (destruct (Z.ltb_spec (zlen b - 1) (Z.of_nat n)); [eexists _, _, _; split; [done|lia]|]);
      destruct (rd_ok b Hb (0 + 1) n ltac:(lia) ltac:(lia)) as (l & Hrd & Hlok & Hlen & Hl);
      rewrite Hrd; cbn [mbind run_bind]; eexists _, _, _; (split; [done|]);
      pose proof (be_val_width l n Hlok Hlen) as Hv; (split; [lia|]);
      (destruct Hw as [ -> |[ -> | -> ]]; cbn in Hv; unfold s32;
       destruct (Z.ltb_spec (be_val l) (2 ^ 31)); try lia;
       (split; [|lia]); change (drop (Z.to_nat (0 + 1)) b) with (drop 1 b) in Hl; rewrite <- Hl;
       destruct (decide (1 + Z.of_nat 4 + be_val l < 2 ^ 31)); [by left|right; lia]). }
  cbn [mbind run_bind].
  pose proof (pdu_loop_ok low32 b Hb fuel scanned (zlen b - scanned) 0 size sdp_record_alloc
    ltac:(lia) ltac:(lia) ltac:(lia) rec_ok_alloc) as HP.
  destruct (extract_pdu_loop _ _ _ _ _ _ _ _) as [rec| |]; cbn [mbind run_bind]; [|done|].
  - unfold as_int. destruct ((- 2 ^ 31 <=? scanned + size) && (scanned + size <? 2 ^ 31)) eqn:Hc;
      cbn [mbind run_bind]; [done|].
    destruct Hov as [Hov|Hov]; [|done].
    rewrite (proj2 (Z.leb_le _ _)), (proj2 (Z.ltb_lt _ _)) in Hc by lia. done.
  - destruct HP as [Hc|?]; [left; apply (cuts_later b 0 scanned); [lia|lia|exact Hc]|right; lia].
Qed.

Lemma sdp_extract_pdu_safe_witness :
  exists rec, sdp_extract_pdu [0x35; 8; 9; 0; 0; 0x0A; 0; 1; 0; 1] (fun _ => 0) 20 10 = Done (rec, 10) /\
    rec_ok rec.
Proof.
  eexists. split; [vm_compute; reflexivity|].
  refine (sdp_extract_pdu_safe (fun _ => 0) [0x35; 8; 9; 0; 0; 0x0A; 0; 1; 0; 1] 20 _).
  apply (bool_decide_unpack _). vm_compute. exact I.
Defined.

(** ** The loop that does not end *)

Lemma loop_stuck extract fuel p bufsize n seqlen seq rec e :
  extract p bufsize rec = Done (Some e, 0, rec) -> n < seqlen ->
  extract_seq_loop extract fuel p bufsize n seqlen seq rec = NoFuel.
Proof.
  intros He Hn. revert seq. induction fuel as [|fuel IH]; intros seq; [done|].
  cbn [extract_seq_loop]. rewrite (proj2 (Z.ltb_lt _ _)) by done. rewrite He. cbn [mbind run_bind].
  rewrite !Z.add_0_r, Z.sub_0_r. apply IH.
Qed.

Lemma loop_nofuel extract fuel p bufsize n seqlen seq rec :
  extract p bufsize rec = NoFuel -> n < seqlen ->
  extract_seq_loop extract fuel p bufsize n seqlen seq rec = NoFuel.
Proof.
  intros He Hn. destruct fuel as [|fuel]; [done|]. cbn [extract_seq_loop].
  rewrite (proj2 (Z.ltb_lt _ _)) by done. by rewrite He.
Qed.

(** More rounds do not change a result. *)
Lemma loop_mono e1 e2 f1 f2 :
  (forall p n r, e1 p n r <> NoFuel -> e2 p n r = e1 p n r) -> (f1 <= f2)%nat ->
  forall p bufsize n seqlen seq rec,
  extract_seq_loop e1 f1 p bufsize n seqlen seq rec <> NoFuel ->
  extract_seq_loop e2 f2 p bufsize n seqlen seq rec = extract_seq_loop e1 f1 p bufsize n seqlen seq rec.
Proof.
  intros He. revert f2. induction f1 as [|f1 IH]; intros f2 Hf p bufsize n seqlen seq rec Hne; [done|].
  destruct f2 as [|f2]; [lia|]. cbn [extract_seq_loop] in *. destruct (n <? seqlen); [|done].
  rewrite He by (intros H; by rewrite H in Hne).
  destruct (e1 p bufsize rec) as [[[curr len] rec']| |]; cbn [mbind run_bind] in *; [|done..].
  destruct curr; [|done]. apply IH; [lia|done].
Qed.

Lemma extract_attr_mono b f1 : forall f2 p bufsize rec,
  (f1 <= f2)%nat -> sdp_extract_attr b f1 p bufsize rec <> NoFuel ->
  sdp_extract_attr b f2 p bufsize rec = sdp_extract_attr b f1 p bufsize rec.
Proof.
  induction f1 as [|f1 IH]; intros f2 p bufsize rec Hf Hne; [done|].
  destruct f2 as [|f2]; [lia|]. cbn [sdp_extract_attr] in *.
  destruct (bufsize <? 1); [done|]. destruct (rd_u8 b p) as [dtd| |]; cbn [mbind run_bind] in *; [|done..].
  assert (extract_seq b (sdp_extract_attr b f1) f1 p bufsize rec <> NoFuel ->
    extract_seq b (sdp_extract_attr b f2) f2 p bufsize rec
      = extract_seq b (sdp_extract_attr b f1) f1 p bufsize rec) as Hseq.
  { unfold extract_seq. destruct (sdp_extract_seqtype b p bufsize 0 0) as [[[len t] sz]| |];
      cbn [mbind run_bind]; [|done..]. destruct (len =? 0); [done|]. destruct (bufsize <? len); [done|].
    intros Hne2. rewrite (loop_mono (sdp_extract_attr b f1) (sdp_extract_attr b f2) f1 f2); [done| |lia|].
    - intros q k r. apply IH. lia.
    - intros H. by rewrite H in Hne2. }
  destruct (dtd_kind dtd) as [[]|]; try done; by apply Hseq.
Qed.

Lemma loop_stuck_behind l f0 fuel pre cut bufsize n seqlen seq rec :
  Forall (fun d => well_typed d = true /\ fits d = true) l -> bytes_ok (pre ++ flat_map wire l ++ cut) ->
  cut_header cut = true -> bufsize = zlen (flat_map wire l ++ cut) ->
  n + zlen (flat_map wire l) < seqlen ->
  extract_seq_loop (sdp_extract_attr (pre ++ flat_map wire l ++ cut) f0) fuel (zlen pre) bufsize n seqlen
    seq rec = NoFuel.
Proof.
  intros HF Hb Hcut. revert fuel pre bufsize n seq rec Hb.
  induction HF as [|d l [Hty Hfit] Hl IH]; intros fuel pre bufsize n seq rec Hb Hbs Hn; cbn [flat_map app] in *.
  - rewrite (zlen_nil (A:=Z)) in Hn. destruct cut as [|dtd rest]; [done|]. cbn [cut_header] in Hcut.
    destruct f0 as [|f0]; [apply loop_nofuel; [done|lia]|].
    apply (loop_stuck _ _ _ _ _ _ _ _ (Data dtd 0 0 (VSeq []))); [|lia].
    cbn [sdp_extract_attr]. subst bufsize. rewrite zlen_cons. pose proof (zlen_nonneg rest).
    rewrite (proj2 (Z.ltb_ge _ _)) by lia.
    change (dtd :: rest) with ([dtd] ++ rest). rewrite rd_u8_mid by done. cbn [mbind run_bind].
    destruct (dtd_kind dtd) as [k|] eqn:Hk; [|done].
    assert (sdp_extract_seqtype (pre ++ [dtd] ++ rest) (zlen pre) (1 + zlen rest) 0 0 = Done (0, dtd, 0)) as Hst.
    { unfold sdp_extract_seqtype. rewrite (proj2 (Z.ltb_ge _ _)) by lia. rewrite rd_u8_mid by done.
      cbn [mbind run_bind]. rewrite Hk.
      destruct k; try done; apply Z.ltb_lt in Hcut; by rewrite (proj2 (Z.ltb_lt _ _)) by lia. }
    destruct k; try done; unfold extract_seq; by rewrite Hst.
  - rewrite <- app_assoc in *. rewrite zlen_app in *. pose proof (wire_pos d).
    pose proof (zlen_nonneg (flat_map wire l ++ cut)) as Hnn.
    destruct fuel as [|fuel]; [done|]. cbn [extract_seq_loop].
    pose proof (zlen_nonneg (flat_map wire l)). rewrite (proj2 (Z.ltb_lt _ _)) by lia.
    set (b := pre ++ wire d ++ flat_map wire l ++ cut) in *.
    assert (sdp_extract_attr b f0 (zlen pre) bufsize rec = NoFuel \/
      sdp_extract_attr b f0 (zlen pre) bufsize rec
        = Done (Some (canon d), zlen (wire d), pattern_all rec (uuids d))) as [->| ->].
    { set (big := (f0 + S (Z.to_nat (zlen (wire d))))%nat).
      pose proof (extract_attr_wire d Hty Hfit big pre (flat_map wire l ++ cut) bufsize rec
        ltac:(lia) ltac:(unfold big; lia)) as Hbig. fold b in Hbig.
      destruct (sdp_extract_attr b f0 (zlen pre) bufsize rec) eqn:He; [right|right|by left];
        rewrite <- Hbig, <- He; symmetry; apply extract_attr_mono; unfold big; try lia; by rewrite He. }
    + done.
    + cbn [mbind run_bind]. unfold b. rewrite (app_assoc pre).
      replace (zlen pre + zlen (wire d)) with (zlen (pre ++ wire d)) by (by rewrite zlen_app).
      apply IH; [by rewrite <- app_assoc|rewrite Hbs, zlen_app; lia|lia].
Qed.

(** C26. A sequence that announces more than the well-formed elements in it, behind which
    the buffer stops in the header of another sequence, is read for ever: extract_seq
    returns an element and no length for the header, and its caller does not advance. *)
Theorem sdp_extract_attr_loops l cut len fuel rec :
  Forall (fun d => well_typed d = true /\ fits d = true) l ->
  bytes_ok (flat_map wire l ++ cut) -> cut_header cut = true ->
  zlen (flat_map wire l) < len < 256 ->
  let b := [Dtd.SDP_SEQ8; len] ++ flat_map wire l ++ cut in
  sdp_extract_attr b fuel 0 (zlen b) rec = NoFuel.
Proof.
  intros HF Hb Hcut Hlen b. destruct fuel as [|fuel]; [done|]. cbn [sdp_extract_attr].
  pose proof (zlen_nonneg (flat_map wire l)). pose proof (zlen_nonneg cut).
  assert (zlen b = 2 + (zlen (flat_map wire l) + zlen cut)) as Hbl.
  { unfold b. rewrite !zlen_app. done. }
  rewrite (proj2 (Z.ltb_ge _ _)) by lia.
  assert (rd_u8 b 0 = Done Dtd.SDP_SEQ8) as Hr by (by apply (rd_u8_mid [])).
  rewrite Hr. cbn [mbind run_bind]. change (dtd_kind Dtd.SDP_SEQ8) with (Some (KSeq 1)). cbn iota.
  unfold extract_seq, sdp_extract_seqtype. rewrite (proj2 (Z.ltb_ge _ _)) by lia. rewrite Hr.
  cbn [mbind run_bind]. change (dtd_kind Dtd.SDP_SEQ8) with (Some (KSeq 1)). cbn iota.
  rewrite (proj2 (Z.ltb_ge _ _)) by lia.
  assert (rd b (0 + 1) 1 = Done [len]) as ->.
  { unfold b. by apply (rd_mid [Dtd.SDP_SEQ8] [len] (flat_map wire l ++ cut)). }
  cbn [mbind run_bind]. assert (be_val [len] = len) as -> by (unfold be_val; cbn; lia).
  rewrite s32_small by lia. change (1 + Z.of_nat 1 =? 0) with false. cbn iota.
  rewrite (proj2 (Z.ltb_ge _ _)) by lia.
  pose proof (loop_stuck_behind l fuel fuel [Dtd.SDP_SEQ8; len] cut (zlen b - (1 + Z.of_nat 1)) 0 len
    [] rec HF) as HL.
  change (zlen [Dtd.SDP_SEQ8; len]) with (0 + (1 + Z.of_nat 1)) in HL. fold b in HL.
  rewrite HL; [done| |done| |lia].
  - constructor; [unfold is_u8; done|]. constructor; [unfold is_u8; lia|done].
  - rewrite zlen_app. lia.
Qed.

(** Three bytes are enough; a thousand rounds are not. *)
Lemma sdp_extract_attr_loops_witness :
  sdp_extract_attr [0x35; 2; 0x35] 1000 0 3 None = NoFuel.
Proof.
  apply (sdp_extract_attr_loops [] [0x35] 2 1000 None).
  - constructor.
  - apply (bool_decide_unpack _). vm_compute. exact I.
  - reflexivity.
  - split; reflexivity.
Defined.

(** ** Records written and read back *)

Lemma well_typed_canon d : well_typed d = true -> well_typed (canon d) = true.
Proof.
  induction d as [dtd a u v IH] using sdp_data_ind'. intros Hd.
  destruct (well_typed_leaf _ _ _ _ Hd) as [(k & Hk & Hs & Hl)|(l & ->)].
  - assert (forall u' v', leaf_ok k u' v' = true -> well_typed (Data dtd 0 u' v') = true) as Hok.
    { intros u' v' H. cbn [well_typed]. rewrite Hk. by destruct k. }
    destruct v as [x|x|[s|]|x]; cbn [canon]; try apply Hok.
    + destruct (Z.eqb_spec dtd Dtd.SDP_DATA_NIL) as [->|_]; [|by destruct k].
      vm_compute in Hk. by simplify_eq.
    + by destruct k.
    + set (t := take (Z.to_nat (u - 1)) s).
      assert (forall n, leaf_ok (KText n) u (VStr (Some s)) = true ->
        leaf_ok (KText n) u (VStr (Some (t ++ [0]))) = true) as Htext.
      { intros n. cbn [leaf_ok]. rewrite !andb_true_iff, !bool_decide_eq_true, !Z.leb_le.
        intros [[[[H1 H2] H3] H4] H5]. split_and!; try done.
        - unfold t. rewrite zlen_app, zlen_take by lia. change (zlen [0]) with 1. lia.
        - apply Forall_app. split; [by apply Forall_take|]. constructor; [done|constructor]. }
      destruct k; try done; by apply Htext.
    + by destruct k.
    + by destruct k.
  - destruct (well_typed_seq _ _ _ _ Hd) as (n & k & Hk & Hn & Hl). cbn [canon well_typed].
    rewrite Hk. cbn in IH. assert (forallb well_typed (map canon l) = true) as Hl'.
    { apply forallb_Forall. apply forallb_Forall in Hl. apply Forall_map.
      rewrite list.Forall_forall in *. auto. }
    by destruct Hn as [ -> | -> ].
Qed.

Lemma uuids_settle d : uuids (settle d) = uuids d.
Proof.
  induction d as [dtd a u v IH] using sdp_data_ind'. destruct v as [v|v|v|l]; try done.
  cbn in *. induction IH as [|c l Hc Hl IH']; [done|]. cbn. by rewrite Hc, IH'.
Qed.

(** An attribute that was written and read back. *)
Definition canon_attr (d : sdp_data) : sdp_data := set_attrId (canon (settle d)) (attrId d).

Fixpoint handle_after (low32 : sdp_val sdp_data -> Z) (l : list sdp_data) (h : Z) : Z :=
  match l with
  | [] => h
  | d :: l =>
      handle_after low32 l
        (if attrId d =? SDP_ATTR_RECORD_HANDLE then val_uint32 low32 (val (canon_attr d)) else h)
  end.

Definition attr_ok (d : sdp_data) : Prop :=
  well_typed d = true /\ fits (settle d) = true /\ is_u16 (attrId d).

Lemma take_attr_last low32 rec d :
  well_typed d = true -> Forall (fun x => attrId x < attrId d) (attrlist rec) ->
  exists rec', take_attr low32 rec (attrId d) (canon (settle d)) = Done rec' /\
    attrlist rec' = attrlist rec ++ [canon_attr d] /\ pattern rec' = pattern rec /\
    handle rec' = handle_after low32 [d] (handle rec).
Proof.
  intros Hd Hlow. unfold take_attr, sdp_attr_replace, insert_attr.
  set (c := canon (settle d)).
  assert (well_typed c = true) as Hc by (by apply well_typed_canon, well_typed_settle).
  set (r0 := if attrId d =? SDP_ATTR_RECORD_HANDLE then _ else rec).
  assert (attrlist r0 = attrlist rec /\ pattern r0 = pattern rec /\
    handle r0 = handle_after low32 [d] (handle rec)) as (Ha0 & Hp0 & Hh0).
  { unfold r0. cbn [handle_after]. destruct (attrId d =? SDP_ATTR_RECORD_HANDLE); [|done].
    split_and!; done. }
  assert (forall r, attrlist r = attrlist rec ->
    sdp_data_get r (attrId d) = None /\
    sdp_list_insert_sorted sdp_attrid_comp_func (attrlist r) (set_attrId c (attrId d))
      = attrlist rec ++ [canon_attr d]) as Hins.
  { intros r Hr. unfold sdp_data_get. rewrite Hr. split.
    - apply find_none. eapply list.Forall_impl; [exact Hlow|]. cbn. lia.
    - apply insert_last. eapply list.Forall_impl; [exact Hlow|].
      unfold sdp_attrid_comp_func. cbn. lia. }
  destruct (attrId d =? SDP_ATTR_SVCLASS_ID_LIST).
  - destruct (svclass_ok c (svclass r0) Hc) as [u' ->]. cbn [mbind run_bind].
    destruct (Hins (set_svclass r0 u') Ha0) as [-> Hi]. cbn [set_svclass attrlist] in Hi.
    rewrite Ha0 in *.
    destruct (svclass_ok (set_attrId c (attrId d)) u') as [u2 Hu2];
      [by rewrite well_typed_set_attrId|].
    cbn [set_svclass set_attrlist attrlist svclass]. rewrite Ha0, Hi, Hu2. cbn [mbind run_bind].
    eexists; split; [done|]. split; [done|]. split; [exact Hp0|exact Hh0].
  - cbn [mbind run_bind]. destruct (Hins r0 Ha0) as [-> Hi]. rewrite Ha0 in *. rewrite Hi.
    eexists; split; [done|]. split; [done|]. split; [exact Hp0|exact Hh0].
Qed.

Lemma foldl_pattern_frame us rec :
  let r := foldl sdp_pattern_add_uuid rec us in
  handle r = handle rec /\ attrlist r = attrlist rec /\ svclass r = svclass rec.
Proof.
  revert rec. induction us as [|u us IH]; intros rec; cbn [foldl]; [done|].
  destruct (IH (sdp_pattern_add_uuid rec u)) as (-> & -> & ->).
  unfold sdp_pattern_add_uuid. by destruct (sdp_list_find _ _ _).
Qed.

Lemma foldl_pattern_only us r1 r2 :
  pattern r1 = pattern r2 ->
  pattern (foldl sdp_pattern_add_uuid r1 us) = pattern (foldl sdp_pattern_add_uuid r2 us).
Proof.
  revert r1 r2. induction us as [|u us IH]; intros r1 r2 H; cbn [foldl]; [done|]. apply IH.
  unfold sdp_pattern_add_uuid. rewrite H. by destruct (sdp_list_find _ _ _).
Qed.

Lemma pdu_loop_reads low32 l : forall fuel pre post bufsize extracted rec,
  Forall attr_ok l -> StronglySorted (below sdp_attrid_comp_func) l ->
  Forall (fun x => Forall (fun y => attrId x < attrId y) l) (attrlist rec) ->
  zlen (flat_map attr_wire l) <= bufsize -> zlen (flat_map attr_wire l) < Z.of_nat fuel ->
  exists rec', extract_pdu_loop (pre ++ flat_map attr_wire l ++ post) low32 fuel (zlen pre) bufsize
      extracted (extracted + zlen (flat_map attr_wire l)) rec = Done rec' /\
    attrlist rec' = attrlist rec ++ map canon_attr l /\
    pattern rec' = pattern (foldl sdp_pattern_add_uuid rec (flat_map uuids l)) /\
    handle rec' = handle_after low32 l (handle rec).
Proof.
  induction l as [|d l IH]; intros fuel pre post bufsize extracted rec HF Hs Hlow Hbs Hf.
  { destruct fuel as [|fuel]; [cbn in Hf; unfold zlen in Hf; cbn in Hf; lia|]. cbn.
    rewrite (zlen_nil (A:=Z)), Z.add_0_r, Z.ltb_irrefl. cbn. exists rec.
    by rewrite app_nil_r. }
  inversion HF as [|? ? (Hty & Hfit & Ha) HFl]; inversion Hs as [|? ? Hsl Hdl]; subst.
  cbn [flat_map map]. cbn [flat_map] in Hbs, Hf. rewrite zlen_app, attr_wire_length in *.
  set (w := wire (settle d)) in *. set (rest := flat_map attr_wire l) in *.
  pose proof (wire_pos (settle d)). fold w in H. pose proof (zlen_nonneg rest).
  destruct fuel as [|fuel]; [lia|]. cbn [extract_pdu_loop].
  rewrite (proj2 (Z.ltb_lt extracted _)), (proj2 (Z.ltb_lt 0 _)) by lia. cbn [andb].
  rewrite (proj2 (Z.ltb_ge _ _)) by lia.
  set (b := pre ++ (attr_wire d ++ rest) ++ post).
  assert (b = (pre ++ [Dtd.SDP_UINT16]) ++ be_bytes 2 (attrId d) ++ (w ++ rest ++ post)) as Hb1.
  { unfold b, attr_wire. fold w. by rewrite <- !app_assoc. }
  assert (b = (pre ++ [Dtd.SDP_UINT16] ++ be_bytes 2 (attrId d)) ++ w ++ (rest ++ post)) as Hb2.
  { unfold b, attr_wire. fold w. by rewrite <- !app_assoc. }
  assert (b = (pre ++ attr_wire d) ++ rest ++ post) as Hb3.
  { unfold b. by rewrite <- !app_assoc. }
  assert (rd b (zlen pre + 1) 2 = Done (be_bytes 2 (attrId d))) as ->.
  { rewrite Hb1. apply rd_mid; [by rewrite zlen_app|by rewrite zlen_be_bytes]. }
  cbn [mbind run_bind].
  assert (be_val (be_bytes 2 (attrId d)) = attrId d) as ->.
  { rewrite be_val_bytes. apply Z.mod_small. unfold is_u16 in Ha. cbn. lia. }
  assert (sdp_extract_attr b (S fuel) (zlen pre + 3) (bufsize - 3) (Some rec)
    = Done (Some (canon (settle d)), zlen w, pattern_all (Some rec) (uuids d))) as ->.
  { rewrite Hb2. replace (zlen pre + 3) with (zlen (pre ++ [Dtd.SDP_UINT16] ++ be_bytes 2 (attrId d))).
    2:{ rewrite !zlen_app, zlen_be_bytes. change (zlen [Dtd.SDP_UINT16]) with 1. lia. }
    unfold w. rewrite (extract_attr_wire (settle d)).
    - by rewrite uuids_settle. - by apply well_typed_settle. - done. - fold w. lia. - fold w. lia. }
  cbn [mbind run_bind pattern_all fmap option_fmap option_map].
  set (r1 := foldl sdp_pattern_add_uuid rec (uuids d)).
  destruct (foldl_pattern_frame (uuids d) rec) as (Hh1 & Ha1 & _). fold r1 in Hh1, Ha1.
  destruct (take_attr_last low32 r1 d Hty) as (r2 & Ht & Ha2 & Hp2 & Hh2).
  { rewrite Ha1. eapply list.Forall_impl; [exact Hlow|]. cbn. intros x Hx. by inversion Hx. }
  match goal with |- context [take_attr low32 ?r _ _] => change r with r1 end.
  rewrite Ht. cbn [mbind run_bind].
  destruct (IH fuel (pre ++ attr_wire d) post (bufsize - (3 + zlen w)) (extracted + (3 + zlen w)) r2)
    as (r3 & Heq & Ha3 & Hp3 & Hh3); try done; try lia.
  { rewrite Ha2, Ha1. apply Forall_app. split.
    - eapply list.Forall_impl; [exact Hlow|]. cbn. intros x Hx. by inversion Hx.
    - constructor; [|constructor]. eapply list.Forall_impl; [exact Hdl|].
      unfold below, sdp_attrid_comp_func. cbn. lia. }
  exists r3. split.
  - rewrite Hb3. rewrite zlen_app, attr_wire_length in Heq. fold w in Heq.
    rewrite Z.add_assoc in Heq |- *. rewrite <- Heq. f_equal. lia.
  - split_and!.
    + rewrite Ha3, Ha2, Ha1, <- app_assoc. done.
    + rewrite Hp3, foldl_app. apply foldl_pattern_only. by rewrite Hp2.
    + rewrite Hh3, Hh2, Hh1. done.
Qed.

Lemma seqtype_mid pre dtd n len post bufsize :
  dtd_kind dtd = Some (KSeq n) -> 0 <= len < 2 ^ 31 -> len < 256 ^ Z.of_nat n ->
  1 + Z.of_nat n <= bufsize ->
  sdp_extract_seqtype (pre ++ ([dtd] ++ be_bytes n len) ++ post) (zlen pre) bufsize 0 0
    = Done (1 + Z.of_nat n, dtd, len).
Proof.
  intros Hk Hlen Hn Hb. unfold sdp_extract_seqtype. rewrite <- app_assoc.
  rewrite (proj2 (Z.ltb_ge bufsize 1)) by lia.
  rewrite rd_u8_mid by done. cbn [mbind run_bind]. rewrite Hk.
  rewrite (proj2 (Z.ltb_ge _ _)) by lia. rewrite app_assoc.
  rewrite (rd_mid (pre ++ [dtd]) (be_bytes n len)) by (rewrite ?zlen_be_bytes, ?zlen_app; done).
  cbn [mbind run_bind]. by rewrite be_val_bytes, Z.mod_small, s32_small by lia.
Qed.

Lemma seqtype_outer pre y rest bufsize :
  zlen y < 2 ^ 16 -> zlen (outer y) <= bufsize ->
  exists dtd, sdp_extract_seqtype (pre ++ outer y ++ rest) (zlen pre) bufsize 0 0
    = Done (zlen (outer_header y), dtd, zlen y).
Proof.
  intros Hy Hbs. rewrite outer_length in Hbs. pose proof (zlen_nonneg y).
  unfold outer. rewrite <- app_assoc. unfold outer_header, long, UCHAR_MAX in *.
  destruct (Z.ltb_spec 255 (2 + zlen y)).
  - exists Dtd.SDP_SEQ16. change (Dtd.SDP_SEQ16 :: be_bytes 2 (zlen y)) with
      ([Dtd.SDP_SEQ16] ++ be_bytes 2 (zlen y)). rewrite seqtype_mid; try done; cbn; lia.
  - exists Dtd.SDP_SEQ8. change ([Dtd.SDP_SEQ8; u8 (zlen y)]) with
      ([Dtd.SDP_SEQ8] ++ be_bytes 1 (zlen y)). rewrite seqtype_mid; try done; cbn; lia.
Qed.

(** C6. A record that sdp_gen_record_pdu writes is the record that sdp_extract_pdu reads:
    the attributes with their values, the handle from its attribute, and the pattern of
    all UUIDs; the buffer that was counted for it is large enough, whichever operand of the
    additions is read first, as soon as one attribute has an element inside another. *)
Theorem sdp_record_roundtrip late malloc low32 rec fuel fuel2 :
  (forall n, 0 <= n -> zlen (malloc n) = n) -> attrlist rec <> [] ->
  Forall attr_ok (attrlist rec) -> StronglySorted (below sdp_attrid_comp_func) (attrlist rec) ->
  Forall (gen_ok late fuel) (attrlist rec) -> sum (room late) (attrlist rec) < 2 ^ 32 ->
  zlen (attrlist rec) < sum nodes (attrlist rec) ->
  zlen (flat_map attr_wire (attrlist rec)) < 2 ^ 16 ->
  zlen (record_wire (attrlist rec)) < Z.of_nat fuel2 ->
  exists b n size rec1 rec2,
    sdp_gen_record_pdu late malloc fuel rec = Done (Buf (Some b) n size, rec1) /\
    sdp_extract_pdu b low32 fuel2 n = Done (rec2, n) /\
    attrlist rec2 = map canon_attr (attrlist rec) /\
    handle rec2 = handle_after low32 (attrlist rec) 0xffffffff /\
    pattern rec2 = pattern (foldl sdp_pattern_add_uuid sdp_record_alloc
      (flat_map uuids (attrlist rec))).
Proof.
  intros Hm Hne HF Hs HG Hroom Hnest Hlen Hf2.
  destruct (gen_record_fits late malloc fuel Hm rec Hne HG Hroom Hnest) as (rest & bs & Hgen & _).
  set (l := attrlist rec) in *. set (y := flat_map attr_wire l) in *.
  assert (zlen (record_wire l) = zlen (outer_header y) + zlen y) as Hrl.
  { unfold record_wire. fold y. unfold outer. by rewrite zlen_app. }
  pose proof (zlen_nonneg y). pose proof (zlen_nonneg (outer_header y)).
  destruct (pdu_loop_reads low32 l fuel2 (outer_header y) rest (zlen y) 0 sdp_record_alloc HF Hs)
    as (rec2 & Hloop & Ha & Hp & Hh); [constructor|fold y; lia|fold y; lia|].
  eexists _, _, bs, _, rec2. split; [exact Hgen|].
  split; [|done]. unfold sdp_extract_pdu.
  destruct (seqtype_outer [] y rest (zlen (record_wire l)) Hlen ltac:(done)) as (dtd & Hst).
  change (zlen []) with 0 in Hst. cbn [app] in Hst.
  change (outer y) with (record_wire l) in Hst. rewrite Hst. cbn [mbind run_bind].
  assert (record_wire l ++ rest = outer_header y ++ y ++ rest) as ->.
  { unfold record_wire. fold y. unfold outer. by rewrite <- app_assoc. }
  rewrite Hrl. replace (zlen (outer_header y) + zlen y - zlen (outer_header y)) with (zlen y) by lia.
  fold y in Hloop. rewrite Z.add_0_l in Hloop. rewrite Hloop. cbn [mbind run_bind].
  unfold as_int. rewrite outer_header_length in *. rewrite (proj2 (Z.leb_le _ _)), (proj2 (Z.ltb_lt _ _))
    by (destruct (long y); lia). done.
Qed.

(** A record with a handle and the classes of a service. *)
Definition sample : sdp_record :=
  Rec 0x10001 []
    [Data Dtd.SDP_UINT32 0 5 (VNum 0x10001);
     Data Dtd.SDP_SEQ8 1 8 (VSeq [Data Dtd.SDP_UUID16 0 3 (VUuid (SDP_UUID16 0x1101));
                                  Data Dtd.SDP_TEXT_STR8 0 3 (VStr (Some [0x41; 0x42]))])]
    SDP_UUID_UNSPEC.

Lemma sdp_record_roundtrip_witness :
  exists b n size rec1 rec2,
    sdp_gen_record_pdu true (fun n => replicate (Z.to_nat n) 170) 10 sample
      = Done (Buf (Some b) n size, rec1) /\
    sdp_extract_pdu b (fun _ => 0) 40 n = Done (rec2, n) /\
    attrlist rec2 = map canon_attr (attrlist sample) /\
    handle rec2 = handle_after (fun _ => 0) (attrlist sample) 0xffffffff /\
    pattern rec2 = pattern (foldl sdp_pattern_add_uuid sdp_record_alloc
      (flat_map uuids (attrlist sample))).
Proof.
  apply sdp_record_roundtrip.
  - intros n Hn. unfold zlen. rewrite length_replicate. lia.
  - discriminate.
  - repeat constructor; reflexivity || discriminate.
  - repeat constructor.
  - repeat constructor; vm_compute; reflexivity || discriminate || lia.
  - reflexivity.
  - reflexivity.
  - reflexivity.
  - reflexivity.
Defined.

(** C25. Without such an attribute the buffer is too small: the two bytes of the outermost
    header are counted for an attribute of type NIL only, so every record of plain values
    is written behind the end of its block. *)
Theorem sdp_gen_record_pdu_overflow late malloc fuel rec d l :
  (forall n, 0 <= n -> zlen (malloc n) = n) ->
  attrlist rec = d :: l -> dtd d <> Dtd.SDP_DATA_NIL ->
  Forall (gen_ok late fuel) (attrlist rec) -> Forall (fun d => leaf d = true) (attrlist rec) ->
  sum (room late) (attrlist rec) < 2 ^ 32 ->
  sdp_gen_record_pdu late malloc fuel rec = Fault.
Proof. intros. by eapply gen_record_overflow. Qed.

Lemma sdp_gen_record_pdu_overflow_witness :
  sdp_gen_record_pdu false (fun n => replicate (Z.to_nat n) 0) 10
    (Rec 0x10001 [] [Data Dtd.SDP_UINT32 0 5 (VNum 0x10001)] SDP_UUID_UNSPEC) = Fault.
Proof.
  apply (sdp_gen_record_pdu_overflow false _ 10 _ (Data Dtd.SDP_UINT32 0 5 (VNum 0x10001)) []).
  - intros n Hn. unfold zlen. rewrite length_replicate. lia.
  - reflexivity.
  - discriminate.
  - repeat constructor; vm_compute; reflexivity || discriminate || lia.
  - repeat constructor.
  - reflexivity.
Defined.

(** ** Copies *)

(** sdp_copy_record reads one byte behind a string that sdp_data_alloc made, when it is
    inside a sequence: sdp_copy_seq takes the size with the type byte for the length. *)
Theorem sdp_copy_string_overread rec s dtd seqtype d :
  (dtd = Dtd.SDP_TEXT_STR8 \/ dtd = Dtd.SDP_URL_STR8) -> Forall (fun c => c <> 0) s ->
  1 <= zlen s <= UCHAR_MAX ->
  sdp_data_alloc dtd (PMem (s ++ [0])) = Done (Some d) ->
  seqtype = Dtd.SDP_SEQ8 -> attrlist rec = [Data seqtype 1 0 (VSeq [d])] ->
  sdp_copy_record rec = Fault.
Proof.
  intros Hdtd Hs Hlen Hd -> Hl.
  assert (d = Data dtd 0 (1 + zlen s) (VStr (Some s))) as ->.
  { unfold sdp_data_alloc in Hd. assert (strlen (s ++ [0]) = Done (zlen s)) as Hstr.
    { unfold strlen. rewrite until_null_string by done. rewrite zlen_app.
      change (zlen [0]) with 1. by rewrite (proj2 (Z.ltb_lt _ _)) by lia. }
    assert (ld (s ++ [0]) 0 (zlen s) = Some s) as Hld by (by apply ld_start).
    unfold sdp_data_alloc_with_length in Hd. unfold UCHAR_MAX in Hlen.
    destruct Hdtd as [-> | ->].
    - change (dtd_kind Dtd.SDP_TEXT_STR8) with (Some (KText 1)) in Hd. cbn in Hd.
      rewrite Hstr in Hd. cbn in Hd. unfold USHRT_MAX in Hd.
      rewrite (proj2 (Z.leb_le _ _)), Hld in Hd by lia. cbn in Hd. by simplify_eq.
    - change (dtd_kind Dtd.SDP_URL_STR8) with (Some (KUrl 1)) in Hd. cbn in Hd.
      rewrite Hstr in Hd. cbn in Hd. unfold USHRT_MAX in Hd.
      rewrite (proj2 (Z.leb_le _ _)), Hld in Hd by lia. cbn in Hd. by simplify_eq. }
  assert (sdp_data_value (Data dtd 0 (1 + zlen s) (VStr (Some s))) = Done (PMem s, zlen s)) as Hval.
  { cbn [sdp_data_value]. unfold UCHAR_MAX in Hlen.
    replace (u32 (1 + zlen s - 1)) with (zlen s) by (rewrite u32_small; [lia|unfold is_u32; lia]).
    by destruct Hdtd as [-> | ->]. }
  assert (sdp_data_alloc_with_length dtd (PMem s) (1 + zlen s) = Fault) as Hal.
  { unfold sdp_data_alloc_with_length, UCHAR_MAX, USHRT_MAX in *.
    assert (ld s 0 (1 + zlen s) = None) as Hld.
    { unfold ld. rewrite decide_False; [done|lia]. }
    destruct Hdtd as [-> | ->].
    - change (dtd_kind Dtd.SDP_TEXT_STR8) with (Some (KText 1)). cbn [Nat.eqb is_null].
      rewrite (proj2 (Z.leb_le _ _)) by lia. cbn [memory mbind run_bind]. by rewrite Hld.
    - change (dtd_kind Dtd.SDP_URL_STR8) with (Some (KUrl 1)). cbn [Nat.eqb is_null].
      rewrite (proj2 (Z.leb_le _ _)) by lia. cbn [memory mbind run_bind]. by rewrite Hld. }
  unfold sdp_copy_record. rewrite Hl. cbn [fold_run]. unfold sdp_copy_attrlist.
  assert (sdp_data_value (Data Dtd.SDP_SEQ8 1 0 (VSeq [Data dtd 0 (1 + zlen s) (VStr (Some s))]))
    = Fault) as ->; [|done].
  cbn [sdp_data_value]. change (dtd_kind Dtd.SDP_SEQ8) with (Some (KSeq 1)). cbn iota.
  cbn [copy_seq_loop]. rewrite Hval. cbn [mbind run_bind fst Sdp.dtd unitSize]. by rewrite Hal.
Qed.

Lemma sdp_copy_string_overread_witness :
  sdp_copy_record (Rec 5 [] [Data Dtd.SDP_SEQ8 1 0 (VSeq [Data Dtd.SDP_TEXT_STR8 0 3 (VStr (Some [65; 66]))])]
    SDP_UUID_UNSPEC) = Fault.
Proof.
  apply (sdp_copy_string_overread _ [65; 66] Dtd.SDP_TEXT_STR8 Dtd.SDP_SEQ8
    (Data Dtd.SDP_TEXT_STR8 0 3 (VStr (Some [65; 66])))).
  - by left.
  - repeat constructor; discriminate.
  - split; vm_compute; discriminate.
  - reflexivity.
  - reflexivity.
  - reflexivity.
Defined.
