(* ===== verification/SdpDb.v ===== *)
(** src/sdpd-database.c: the repository of the SDP server.

    Records are in a store; the lists hold their addresses.  An access to a record that was
    freed, or to NULL, is [Fault].  malloc succeeds. *)
From Stdlib Require Import ZArith Lia.
From S2P Require Import Prelude Eir Sdp SdpPdu.
From stdpp Require Import base numbers list gmap option.

Local Open Scope Z_scope.

Definition bdaddr : Type := bytes.
Definition BDADDR_ANY : bdaddr := replicate 6 0.
(** [bacmp] is zero for equal addresses. *)
Definition bacmp (a b : bdaddr) : bool := negb (bool_decide (a = b)).

Record sdp_access := Access { acc_handle : Z; acc_device : bdaddr }.
Record sdp_indexed := Indexed { ix_sock : Z; ix_record : Z }.

(** The static data of the server: [cstates] are the responses kept for continuation, by
    their time stamps. *)
Record server := Srv {
  store : gmap Z sdp_record;
  next_addr : Z;
  service_db : list Z;
  access_db : list sdp_access;
  socket_index : list sdp_indexed;
  cstates : list (Z * bytes);
  own_record : option Z;
}.

Definition set_store (s : server) (x : gmap Z sdp_record) : server :=
  Srv x (next_addr s) (service_db s) (access_db s) (socket_index s) (cstates s) (own_record s).
Definition set_service_db (s : server) (x : list Z) : server :=
  Srv (store s) (next_addr s) x (access_db s) (socket_index s) (cstates s) (own_record s).
Definition set_access_db (s : server) (x : list sdp_access) : server :=
  Srv (store s) (next_addr s) (service_db s) x (socket_index s) (cstates s) (own_record s).
Definition set_socket_index (s : server) (x : list sdp_indexed) : server :=
  Srv (store s) (next_addr s) (service_db s) (access_db s) x (cstates s) (own_record s).
Definition set_cstates (s : server) (x : list (Z * bytes)) : server :=
  Srv (store s) (next_addr s) (service_db s) (access_db s) (socket_index s) x (own_record s).

(** The record at an address. *)
Definition deref (s : server) (r : Z) : run sdp_record := lift (store s !! r).

Definition assign (s : server) (r : Z) (rec : sdp_record) : server :=
  set_store s (<[r := rec]> (store s)).

(** [sdp_record_alloc] for the server, and [sdp_record_free]. *)
Definition new_record (s : server) (rec : sdp_record) : Z * server :=
  (next_addr s,
   Srv (<[next_addr s := rec]> (store s)) (next_addr s + 1) (service_db s) (access_db s)
     (socket_index s) (cstates s) (own_record s)).

Definition sdp_record_free (s : server) (r : Z) : run server :=
  _ ← deref s r; Done (set_store s (delete r (store s))).

(** A difference of 32-bit words, as an [int]. *)
Definition sub32 (x y : Z) : Z := s32 (u32 (x - y)).

Definition record_sort (s : server) (r1 r2 : Z) : run Z :=
  a ← deref s r1; b ← deref s r2; Done (sub32 (handle a) (handle b)).

Definition access_sort (a b : sdp_access) : Z := sub32 (acc_handle a) (acc_handle b).
Definition compare_indices (a b : sdp_indexed) : Z := sub32 (ix_sock a) (ix_sock b).

(** [sdp_list_insert_sorted] and [sdp_list_find] with [record_sort]. *)
Fixpoint insert_record (s : server) (l : list Z) (r : Z) : run (list Z) :=
  match l with
  | [] => Done [r]
  | x :: l' =>
      c ← record_sort s x r;
      if 0 <=? c then Done (r :: x :: l')
      else l' ← insert_record s l' r; Done (x :: l')
  end.

Fixpoint find_record (s : server) (l : list Z) (h : Z) : run (option Z) :=
  match l with
  | [] => Done None
  | x :: l =>
      a ← deref s x;
      if sub32 (handle a) h =? 0 then Done (Some x) else find_record s l h
  end.

Definition sdp_record_add (s : server) (device : bdaddr) (r : Z) : run server :=
  l ← insert_record s (service_db s) r;
  rec ← deref s r;
  let s := set_service_db s l in
  Done (set_access_db s (sdp_list_insert_sorted access_sort (access_db s)
    (Access (handle rec) device))).

Definition record_locate (s : server) (h : Z) : run (option Z) := find_record s (service_db s) h.

Definition access_locate (s : server) (h : Z) : option sdp_access :=
  sdp_list_find (fun a h => sub32 (acc_handle a) h) (access_db s) h.

Definition sdp_record_find (s : server) (h : Z) : run (option Z) := record_locate s h.

(** The result, and the server; the access entry is the first with the handle. *)
Definition sdp_record_remove (s : server) (h : Z) : run (Z * server) :=
  p ← record_locate s h;
  match p with
  | None => Done (-1, s)
  | Some r =>
      let s := set_service_db s (sdp_list_remove (fun x => x =? r) (service_db s)) in
      match access_locate s h with
      | None => Done (0, s)
      | Some _ =>
          Done (0, set_access_db s
            (sdp_list_remove (fun a => sub32 (acc_handle a) h =? 0) (access_db s)))
      end
  end.

Definition sdp_get_record_list (s : server) : list Z := service_db s.

Definition sdp_check_access (s : server) (h : Z) (device : bdaddr) : bool :=
  match access_locate s h with
  | None => true
  | Some a =>
      negb (bacmp (acc_device a) device && bacmp (acc_device a) BDADDR_ANY
            && bacmp device BDADDR_ANY)
  end.

Fixpoint next_handle_loop (fuel : nat) (s : server) (h : Z) : run Z :=
  match fuel with
  | O => NoFuel
  | S fuel =>
      p ← sdp_record_find s h;
      match p with
      | None => Done h
      | Some _ => next_handle_loop fuel s (u32 (h + 1))
      end
  end.

Definition sdp_next_handle (fuel : nat) (s : server) : run Z := next_handle_loop fuel s 0x10000.

(** ** Records of clients *)

Definition sdp_svcdb_set_collectable (s : server) (r sock : Z) : server :=
  set_socket_index s (sdp_list_insert_sorted compare_indices (socket_index s) (Indexed sock r)).

(** The entry of the record goes; the record stays. *)
Definition sdp_svcdb_collect (s : server) (r : Z) : server :=
  set_socket_index s (sdp_list_remove (fun i => ix_record i =? r) (socket_index s)).

(** The loop over the index, [q] being the entries that stay. *)
Fixpoint collect_loop (l : list sdp_indexed) (q : list sdp_indexed) (sock : Z) (s : server) :
    run (list sdp_indexed * server) :=
  match l with
  | [] => Done (q, s)
  | item :: next =>
      if ix_sock item =? sock then
        rec ← deref s (ix_record item);
        r ← sdp_record_remove s (handle rec);
        s ← sdp_record_free r.2 (ix_record item);
        collect_loop next q sock s
      else if sock <? ix_sock item then Done (q ++ l, s)
      else collect_loop next (q ++ [item]) sock s
  end.

Definition sdp_svcdb_collect_all (s : server) (sock : Z) : run server :=
  r ← collect_loop (socket_index s) [] sock s;
  Done (set_socket_index r.2 r.1).

Fixpoint free_records (l : list Z) (s : server) : run server :=
  match l with
  | [] => Done s
  | r :: l => s ← sdp_record_free s r; free_records l s
  end.

Definition sdp_svcdb_reset (s : server) : run server :=
  s ← free_records (service_db s) s;
  Done (set_access_db (set_service_db s []) []).
