(* ===== verification/SdpRequest.v ===== *)
(** src/sdpd-request.c and the requests of src/sdpd-service.c: the SDP server on one
    request.  The request and the response are blocks; [now] is the time in seconds.
    Pulling the header in front of a response is splitting its block. *)
From Stdlib Require Import ZArith Lia.
From S2P Require Import Prelude Libc Uuid Eir Sdp SdpPdu SdpDb.
From stdpp Require Import base numbers list gmap option.

Local Open Scope Z_scope.

Definition SDP_INVALID_RECORD_HANDLE : Z := 0x0002.
Definition SDP_INVALID_SYNTAX : Z := 0x0003.
Definition SDP_INVALID_PDU_SIZE : Z := 0x0004.
Definition SDP_INVALID_CSTATE : Z := 0x0005.
Definition SDP_ERROR_RSP : Z := 0x01.
Definition SDP_SVC_SEARCH_REQ : Z := 0x02.
Definition SDP_SVC_ATTR_REQ : Z := 0x04.
Definition SDP_SVC_SEARCH_ATTR_REQ : Z := 0x06.
Definition SDP_SVC_REGISTER_REQ : Z := 0x75.
Definition SDP_SVC_UPDATE_REQ : Z := 0x77.
Definition SDP_SVC_REMOVE_REQ : Z := 0x79.
(** [sizeof(sdp_pdu_hdr_t)], [SDP_CONT_STATE_SIZE]. *)
Definition HDR : Z := 5.
Definition SDP_CONT_STATE_SIZE : Z := 1 + 8.

Record sdp_req := Req {
  req_device : bdaddr;
  req_local : bool;
  req_sock : Z;
  req_mtu : Z;
  req_buf : bytes;
  req_len : Z;
}.

(** [sdp_cont_state_t]; the two bytes of padding are copied with it. *)
Record cont_state := CState { timestamp : Z; sent : Z; pad : bytes }.

Definition cstate_bytes (c : cont_state) : bytes := le_bytes 4 (timestamp c) ++ le_bytes 2 (sent c) ++ pad c.

(** ** Cached responses *)

Definition sdp_get_cached_rsp (s : server) (c : cont_state) : option bytes :=
  snd <$> sdp_list_find (fun p t => fst p - t) (cstates s) (timestamp c).

Definition sdp_cstate_alloc_buf (now : Z) (s : server) (buf : sdp_buf) : run (Z * server) :=
  match data buf with
  | None => Fault
  | Some b =>
      d ← lift (ld b 0 (data_size buf));
      Done (now, set_cstates s ((now, d) :: cstates s))
  end.

Definition sdp_set_cstate_pdu (buf : sdp_buf) (c : option cont_state) : run (sdp_buf * Z) :=
  match c with
  | Some c =>
      buf ← buf_put buf (fun b => put_u8 8 b (data_size buf));
      buf ← buf_put buf (fun b => st b (data_size buf + 1) (cstate_bytes c));
      Done (set_data_size buf (data_size buf + 9), 9)
  | None =>
      buf ← buf_put buf (fun b => put_u8 0 b (data_size buf));
      Done (set_data_size buf (data_size buf + 1), 1)
  end.

(** [None] is an error; the inner option is [*cstate]. *)
Definition sdp_cstate_get (b : bytes) (p len : Z) : run (option (option cont_state)) :=
  size ← rd_u8 b p;
  if size =? 0 then Done (Some None)
  else if u64 (len - 1) <? 8 then Done None
  else
    l ← rd b (p + 1) 8;
    Done (Some (Some (CState (le_val (take 4 l)) (le_val (take 2 (drop 4 l))) (drop 6 l)))).

(** ** Lists in requests *)

(** [SDP_TYPE_UUID] and [SDP_TYPE_ATTRID], the two expected types that are used. *)
Inductive expected := TypeUuid | TypeAttrid.

(** An element of the list: a UUID, or a [struct attrid]. *)
Inductive des := DUuid (u : uuid_t) | DAttr (dtd v : Z).

Definition type_expected (e : expected) (dataType : Z) : bool :=
  match e with
  | TypeUuid => SDP_IS_UUID dataType
  | TypeAttrid => (dataType =? Dtd.SDP_UINT16) || (dataType =? Dtd.SDP_UINT32)
  end.

(** One element: it and its length, or [None]. *)
Definition extract_elem (b : bytes) (p bufsize dataType : Z) : run (option (des * Z)) :=
  match dtd_kind dataType with
  | Some (KUint 2) =>
      if bufsize - 1 <? 2 then Done None else
      l ← rd b (p + 1) 2; Done (Some (DAttr dataType (be_val l), 3))
  | Some (KUint 4) =>
      if bufsize - 1 <? 4 then Done None else
      l ← rd b (p + 1) 4; Done (Some (DAttr dataType (be_val l), 5))
  | Some (KUuid _) =>
      r ← sdp_uuid_extract b p bufsize;
      Done (match r with (Some u, n) => Some (DUuid u, n) | (None, _) => None end)
  | _ => Done None
  end.

Fixpoint extract_des_loop (fuel : nat) (b : bytes) (p bufsize seqlen data_size len : Z)
    (e : expected) (pSeq : list des) : run (option (list des * Z)) :=
  match fuel with
  | O => NoFuel
  | S fuel =>
      if bufsize <? 1 then Done None else
      dataType ← rd_u8 b p;
      if negb (type_expected e dataType) then Done None else
      r ← extract_elem b p bufsize dataType;
      match r with
      | None => Done None
      | Some (elem, n) =>
          let seqlen := seqlen + n in
          if seqlen =? data_size then Done (Some (pSeq ++ [elem], seqlen))
          else if (data_size <? seqlen) || (len <? seqlen) then Done None
          else extract_des_loop fuel b (p + n) (bufsize - n) seqlen data_size len e (pSeq ++ [elem])
      end
  end.

(** The list and what was scanned; [None] for -1. *)
Definition extract_des (fuel : nat) (b : bytes) (p len : Z) (e : expected) :
    run (option (list des * Z)) :=
  r ← sdp_extract_seqtype b p len 0 0;
  let '(scanned, seqType, data_size) := r in
  if (scanned =? 0) || (negb (seqType =? Dtd.SDP_SEQ8) && negb (seqType =? Dtd.SDP_SEQ16))
  then Done None
  else
    r ← extract_des_loop fuel b (p + scanned) (len - scanned) 0 data_size len e [];
    Done (match r with Some (l, seqlen) => Some (l, scanned + seqlen) | None => None end).

(** ** Matching *)

Fixpoint match_uuids (search : list uuid_t) (pattern : list uuid_t) : Z :=
  match search with
  | [] => 1
  | u :: search =>
      match sdp_list_find sdp_uuid128_cmp pattern (sdp_uuid_to_uuid128 u) with
      | None => 0
      | Some _ => match_uuids search pattern
      end
  end.

Definition sdp_match_uuid (search pattern : list uuid_t) : Z :=
  if zlen pattern <? zlen search then -1 else match_uuids search pattern.

Definition des_uuids (l : list des) : list uuid_t :=
  omap (fun d => match d with DUuid u => Some u | DAttr _ _ => None end) l.

(** A record that the search and the access entries let through. *)
Definition rec_matches (s : server) (search : list uuid_t) (device : bdaddr) (rec : sdp_record) : bool :=
  (0 <? sdp_match_uuid search (pattern rec)) && sdp_check_access s (handle rec) device.

(** MIN of two values of the same type. *)
Definition MIN (x y : Z) : Z := if x <? y then x else y.

Definition s16 (x : Z) : Z := if x <? 2 ^ 15 then x else x - 2 ^ 16.

(** ** Service search *)

(** The handles of the matching records, at most [expected]: the buffer, [rsp_count]. *)
Fixpoint search_loop (s : server) (l : list Z) (search : list uuid_t) (device : bdaddr)
    (expected rsp_count pdata : Z) (buf : sdp_buf) : run (sdp_buf * Z) :=
  match l with
  | [] => Done (buf, rsp_count)
  | r :: l =>
      if rsp_count <? expected then
        rec ← deref s r;
        if rec_matches s search device rec then
          buf ← buf_put buf (fun b => put_be32 (handle rec) b pdata);
          search_loop s l search device expected (rsp_count + 1) (pdata + 4) buf
        else search_loop s l search device expected rsp_count pdata buf
      else Done (buf, rsp_count)
  end.

(** Handles from index [i] of the cached response, [n] at most: the buffer, the next index. *)
Fixpoint copy_handles (n : nat) (cache : bytes) (i rsp_count pdata : Z) (buf : sdp_buf) :
    run (sdp_buf * Z) :=
  match n with
  | O => Done (buf, i)
  | S n =>
      if i <? rsp_count then
        h ← lift (ld cache (4 + 4 * i) 4);
        buf ← buf_put buf (fun b => st b pdata h);
        copy_handles n cache (i + 1) rsp_count (pdata + 4) buf
      else Done (buf, i)
  end.

(** Counters and continuation at the end of a response with [i - lastIndex] handles. *)
Definition search_finish (buf : sdp_buf) (rsp_count i lastIndex handleSize : Z)
    (newState : cont_state) : run sdp_buf :=
  let buf := set_data_size buf (data_size buf + handleSize) in
  buf ← buf_put buf (fun b => put_be16 rsp_count b 0);
  buf ← buf_put buf (fun b => put_be16 (i - lastIndex) b 2);
  r ← sdp_set_cstate_pdu buf (if i =? rsp_count then None
        else Some (CState (timestamp newState) (u16 i) (pad newState)));
  Done r.1.

Section requests.
Context (late : bool) (malloc : Z -> bytes) (fuel : nat) (now : Z).

(** [service_search_req] behind the checks of the request: [expected] handles of the records
    that match [pattern], or the next ones of a cached response.  The status, the response,
    and the server. *)
Definition search_respond (s : server) (req : sdp_req) (pattern : list des) (expected : Z)
    (cstate : option cont_state) (buf : sdp_buf) : run (Z * sdp_buf * server) :=
  let mtu := req_mtu req - HDR - 2 - 2 - SDP_CONT_STATE_SIZE in
  let actual := u16 (MIN expected (Z.shiftr mtu 2)) in
  buf ← buf_put buf (fun b => put_be16 0 b 0);
  let buf := set_data_size buf (data_size buf + 2) in
  buf ← buf_put buf (fun b => put_be16 0 b 2);
  let buf := set_data_size buf (data_size buf + 2) in
  match cstate with
  | None =>
      r ← search_loop s (sdp_get_record_list s) (des_uuids pattern) (req_device req)
            expected 0 4 buf;
      let '(buf, rsp_count) := r in
      let handleSize := 4 * rsp_count in
      let buf := set_data_size buf (data_size buf + handleSize) in
      buf ← buf_put buf (fun b => put_be16 rsp_count b 0);
      buf ← buf_put buf (fun b => put_be16 rsp_count b 2);
      if actual <? rsp_count then
        r ← sdp_cstate_alloc_buf now s buf;
        let '(cStateId, s) := r in
        let buf := set_data_size buf (data_size buf - handleSize) in
        if 0 <? cStateId then
          buf ← search_finish buf rsp_count actual 0 (4 * actual) (CState cStateId 0 [0; 0]);
          Done (0, buf, s)
        else Done (0, buf, s)
      else
        r ← sdp_set_cstate_pdu buf None;
        Done (0, r.1, s)
  | Some c =>
      match sdp_get_cached_rsp s c with
      | None => Done (SDP_INVALID_CSTATE, buf, s)
      | Some cache =>
          l ← lift (ld cache 0 2);
          let rsp_count := be_val l in
          let lastIndex := s16 (sent c) in
          r ← copy_handles (Z.to_nat actual) cache lastIndex rsp_count 4 buf;
          let '(buf, i) := r in
          buf ← search_finish buf rsp_count i lastIndex (4 * (i - lastIndex)) c;
          Done (0, buf, s)
      end
  end.

Definition service_search_req (s : server) (req : sdp_req) (buf : sdp_buf) :
    run (Z * sdp_buf * server) :=
  let b := req_buf req in
  let data_left := req_len req - HDR in
  r ← extract_des fuel b HDR data_left TypeUuid;
  match r with
  | None => Done (SDP_INVALID_SYNTAX, buf, s)
  | Some (pattern, scanned) =>
      let pdata := HDR + scanned in
      let data_left := data_left - scanned in
      pl ← rd b 3 2;
      let plen := be_val pl in
      let mlen := scanned + 2 + 1 in
      bad ← (if plen <? mlen then Done true
             else c ← rd_u8 b (pdata + 2); Done (negb (plen =? mlen + c)));
      if bad : bool then Done (SDP_INVALID_SYNTAX, buf, s) else
      if data_left <? 2 then Done (SDP_INVALID_SYNTAX, buf, s) else
      l ← rd b pdata 2;
      let expected := be_val l in
      r ← sdp_cstate_get b (pdata + 2) (data_left - 2);
      match r with
      | None => Done (SDP_INVALID_SYNTAX, buf, s)
      | Some cstate => search_respond s req pattern expected cstate buf
      end
  end.

(** ** Attributes *)

(** The element that [sdp_data_get] found was changed to [d]. *)
Fixpoint update_found (l : list sdp_data) (attr : Z) (d : sdp_data) : list sdp_data :=
  match l with
  | [] => []
  | x :: l => if attrId x =? attr then d :: l else x :: update_found l attr d
  end.

(** An attribute of the record, when it has it, at the end of the response. *)
Definition append_attr (rec : sdp_record) (attr : Z) (buf : sdp_buf) : run (sdp_buf * sdp_record) :=
  match sdp_data_get rec attr with
  | None => Done (buf, rec)
  | Some a =>
      r ← sdp_append_to_pdu late malloc fuel buf a;
      Done (r.1, set_attrlist rec (update_found (attrlist rec) attr r.2))
  end.

Fixpoint append_attrs (rec : sdp_record) (attrs : list Z) (buf : sdp_buf) :
    run (sdp_buf * sdp_record) :=
  match attrs with
  | [] => Done (buf, rec)
  | attr :: attrs => r ← append_attr rec attr buf; append_attrs r.2 attrs r.1
  end.

(** [low], ..., [high - 1]. *)
Definition attr_range (low high : Z) : list Z :=
  (fun i => low + Z.of_nat i) <$> seq 0 (Z.to_nat (high - low)).

Fixpoint extract_attrs_loop (rec : sdp_record) (pdu : sdp_buf) (seq : list des) (buf : sdp_buf) :
    run (Z * sdp_buf * sdp_record) :=
  match seq with
  | [] => Done (0, buf, rec)
  | DUuid _ :: _ => Done (SDP_INVALID_SYNTAX, buf, rec)
  | DAttr dtd v :: seq =>
      if dtd =? Dtd.SDP_UINT16 then
        r ← append_attr rec v buf;
        extract_attrs_loop r.2 pdu seq r.1
      else if dtd =? Dtd.SDP_UINT32 then
        let low := Z.shiftr (Z.land 0xffff0000 v) 16 in
        let high := Z.land 0x0000ffff v in
        if (low =? 0x0000) && (high =? 0xffff) && (data_size pdu <=? buf_size buf) then
          p ← match data pdu with Some p => lift (ld p 0 (data_size pdu)) | None => Fault end;
          buf ← buf_put buf (fun b => st b 0 p);
          Done (0, set_data_size buf (data_size pdu), rec)
        else
          r ← append_attrs rec (attr_range low high) buf;
          r ← append_attr r.2 high r.1;
          extract_attrs_loop r.2 pdu seq r.1
      else Done (SDP_INVALID_SYNTAX, buf, rec)
  end.

(** The status, the response and the record; [rec] is NULL when no record was found. *)
Definition extract_attrs (rec : option sdp_record) (seq : list des) (buf : sdp_buf) :
    run (Z * sdp_buf * option sdp_record) :=
  match rec with
  | None => Done (SDP_INVALID_RECORD_HANDLE, buf, None)
  | Some rec =>
      match seq with
      | [] => Done (0, buf, Some rec)
      | _ =>
          r ← sdp_gen_record_pdu late malloc fuel rec;
          let '(pdu, rec) := r in
          r ← extract_attrs_loop rec pdu seq buf;
          let '(status, buf, rec) := r in
          Done (status, buf, Some rec)
      end
  end.

(** [buf->data += 2], and back with what was in front. *)
Definition pull_header (buf : sdp_buf) : run (bytes * sdp_buf) :=
  match data buf with
  | None => Fault
  | Some b =>
      front ← lift (ld b 0 2);
      Done (front, Buf (Some (drop 2 b)) (data_size buf) (buf_size buf - 2))
  end.

Definition push_header (front : bytes) (buf : sdp_buf) : sdp_buf :=
  Buf ((fun b => front ++ b) <$> data buf) (data_size buf) (buf_size buf + 2).

(** The byte count in front of the attribute list. *)
Definition attr_finish (buf : sdp_buf) (cstate_size : Z) : run sdp_buf :=
  buf ← buf_put buf (fun b => put_be16 (data_size buf - cstate_size) b 0);
  Done (set_data_size buf (data_size buf + 2)).

(** The rest of a cached response: [len] bytes from where [c] says. *)
Definition send_cached (cache : bytes) (c : cont_state) (len : Z) (buf : sdp_buf) :
    run (sdp_buf * Z) :=
  l ← lift (ld cache (sent c) len);
  buf ← buf_put buf (fun b => st b 0 l);
  let buf := set_data_size buf (data_size buf + len) in
  let c := CState (timestamp c) (u16 (sent c + len)) (pad c) in
  sdp_set_cstate_pdu buf (if sent c =? zlen cache then None else Some c).

(** The start of a response that is too long for one packet. *)
Definition send_first (s : server) (buf : sdp_buf) (max : Z) : run (sdp_buf * Z * server) :=
  r ← sdp_cstate_alloc_buf now s buf;
  let '(t, s) := r in
  let buf := set_data_size buf max in
  r ← sdp_set_cstate_pdu buf (Some (CState t (u16 max) [0; 0]));
  Done (r.1, r.2, s).

(** The record at [r], as [rec] has it after its attributes were read. *)
Definition keep_record (s : server) (r : option Z) (rec : option sdp_record) : server :=
  match r, rec with Some r, Some rec => assign s r rec | _, _ => s end.

(** [service_attr_req] behind the checks of the request. *)
Definition attr_respond (s : server) (req : sdp_req) (h max_rsp_size : Z) (seq : list des)
    (cstate : option cont_state) (buf : sdp_buf) : run (Z * sdp_buf * server) :=
  let max_rsp_size :=
    u32 (MIN max_rsp_size (u64 (req_mtu req - HDR - 4 - SDP_CONT_STATE_SIZE - 2))) in
  r ← pull_header buf;
  let '(front, buf) := r in
  match cstate with
  | Some c =>
      match sdp_get_cached_rsp s c with
      | Some cache =>
          let n := s16 (u16 (MIN max_rsp_size (u32 (zlen cache - sent c)))) in
          r ← send_cached cache c n buf;
          buf ← attr_finish (push_header front r.1) r.2;
          Done (0, buf, s)
      | None => Done (SDP_INVALID_CSTATE, push_header front buf, s)
      end
  | None =>
      rp ← sdp_record_find s h;
      rec ← match rp with Some r => rec ← deref s r; Done (Some rec) | None => Done None end;
      r ← extract_attrs rec seq buf;
      let '(status, buf, rec) := r in
      let s := keep_record s rp rec in
      r ← (if max_rsp_size <? data_size buf then send_first s buf max_rsp_size
           else
             buf ← (if data_size buf =? 0 then sdp_append_to_buf buf [] 0 else Done buf);
             r ← sdp_set_cstate_pdu buf None;
             Done (r.1, r.2, s));
      let '(buf, cstate_size, s) := r in
      let buf := push_header front buf in
      if status =? 0 then
        buf ← attr_finish buf cstate_size;
        Done (0, buf, s)
      else Done (status, buf, s)
  end.

Definition service_attr_req (s : server) (req : sdp_req) (buf : sdp_buf) :
    run (Z * sdp_buf * server) :=
  let b := req_buf req in
  let data_left := req_len req - HDR in
  if data_left <? 4 then Done (SDP_INVALID_SYNTAX, buf, s) else
  l ← rd b HDR 4;
  let h := be_val l in
  let data_left := data_left - 4 in
  if data_left <? 2 then Done (SDP_INVALID_SYNTAX, buf, s) else
  l ← rd b (HDR + 4) 2;
  let max_rsp_size := be_val l in
  let data_left := data_left - 2 in
  if data_left <? HDR then Done (SDP_INVALID_SYNTAX, buf, s) else
  r ← extract_des fuel b (HDR + 6) data_left TypeAttrid;
  match r with
  | None => Done (SDP_INVALID_SYNTAX, buf, s)
  | Some (seq, scanned) =>
      let pdata := HDR + 6 + scanned in
      let data_left := data_left - scanned in
      pl ← rd b 3 2;
      let plen := be_val pl in
      let mlen := scanned + 4 + 2 + 1 in
      bad ← (if plen <? mlen then Done true
             else c ← rd_u8 b pdata; Done (negb (plen =? mlen + c)));
      if bad : bool then Done (SDP_INVALID_PDU_SIZE, buf, s) else
      r ← sdp_cstate_get b pdata data_left;
      match r with
      | None => Done (SDP_INVALID_SYNTAX, buf, s)
      | Some cstate =>
          if max_rsp_size <? 0x0007 then Done (SDP_INVALID_SYNTAX, buf, s) else
          attr_respond s req h max_rsp_size seq cstate buf
      end
  end.

(** The loop over the records: the status, the response, the number of matches. *)
Fixpoint search_attr_loop (s : server) (l : list Z) (search : list uuid_t) (seq : list des)
    (device : bdaddr) (buf : sdp_buf) (rsp_count : Z) : run (Z * sdp_buf * Z * server) :=
  match l with
  | [] => Done (0, buf, rsp_count, s)
  | r :: l =>
      rec ← deref s r;
      if rec_matches s search device rec then
        let tmpbuf := Buf (Some (replicate (Z.to_nat USHRT_MAX) 0)) 0 USHRT_MAX in
        e ← extract_attrs (Some rec) seq tmpbuf;
        let '(status, tmpbuf, rec') := e in
        let s := keep_record s (Some r) rec' in
        if negb (status =? 0) then Done (status, buf, rsp_count + 1, s)
        else if data_size buf + data_size tmpbuf <? buf_size buf then
          t ← match data tmpbuf with Some t => Done t | None => Fault end;
          buf ← sdp_append_to_buf buf t (data_size tmpbuf);
          search_attr_loop s l search seq device buf (rsp_count + 1)
        else Done (0, buf, rsp_count + 1, s)
      else search_attr_loop s l search seq device buf rsp_count
  end.

(** [service_search_attr_req] behind the checks of the request. *)
Definition search_attr_respond (s : server) (req : sdp_req) (pattern : list des) (max : Z)
    (seq : list des) (cstate : option cont_state) (buf : sdp_buf) : run (Z * sdp_buf * server) :=
  let max := u32 (MIN max (u64 (req_mtu req - HDR - SDP_CONT_STATE_SIZE - 2))) in
  r ← pull_header buf;
  let '(front, buf) := r in
  r ← (match cstate with
       | None =>
           r ← search_attr_loop s (sdp_get_record_list s) (des_uuids pattern) seq
                 (req_device req) buf 0;
           let '(status, buf, rsp_count, s) := r in
           r ← (if max <? data_size buf then send_first s buf max
                else r ← sdp_set_cstate_pdu buf None; Done (r.1, r.2, s));
           let '(buf, cstate_size, s) := r in
           if rsp_count =? 0 then
             let buf := set_data_size buf 0 in
             buf ← sdp_append_to_buf buf [] 0;
             r ← sdp_set_cstate_pdu buf None;
             Done (status, r.1, cstate_size, s)
           else Done (status, buf, cstate_size, s)
       | Some c =>
           match sdp_get_cached_rsp s c with
           | Some cache =>
               if sent c <? zlen cache then
                 r ← send_cached cache c (u16 (MIN max (u32 (zlen cache - sent c)))) buf;
                 Done (0, r.1, r.2, s)
               else Done (SDP_INVALID_CSTATE, buf, 0, s)
           | None => Done (SDP_INVALID_CSTATE, buf, 0, s)
           end
       end);
  let '(status, buf, cstate_size, s) := r in
  let buf := push_header front buf in
  if status =? 0 then
    buf ← attr_finish buf cstate_size;
    Done (0, buf, s)
  else Done (status, buf, s).

Definition service_search_attr_req (s : server) (req : sdp_req) (buf : sdp_buf) :
    run (Z * sdp_buf * server) :=
  let b := req_buf req in
  let data_left := req_len req - HDR in
  r ← extract_des fuel b HDR data_left TypeUuid;
  match r with
  | None => Done (SDP_INVALID_SYNTAX, buf, s)
  | Some (pattern, scanned) =>
      let totscanned := scanned in
      let pdata := HDR + scanned in
      let data_left := data_left - scanned in
      if data_left <? 2 then Done (SDP_INVALID_SYNTAX, buf, s) else
      l ← rd b pdata 2;
      let max := be_val l in
      let pdata := pdata + 2 in
      let data_left := data_left - 2 in
      if data_left <? HDR then Done (SDP_INVALID_SYNTAX, buf, s) else
      r ← extract_des fuel b pdata data_left TypeAttrid;
      match r with
      | None => Done (SDP_INVALID_SYNTAX, buf, s)
      | Some (seq, scanned) =>
          let pdata := pdata + scanned in
          let data_left := data_left - scanned in
          let totscanned := totscanned + scanned + 2 + 1 in
          pl ← rd b 3 2;
          let plen := be_val pl in
          bad ← (if plen <? totscanned then Done true
                 else c ← rd_u8 b pdata; Done (negb (plen =? totscanned + c)));
          if bad : bool then Done (SDP_INVALID_PDU_SIZE, buf, s) else
          r ← sdp_cstate_get b pdata data_left;
          match r with
          | None => Done (SDP_INVALID_SYNTAX, buf, s)
          | Some cstate =>
              search_attr_respond s req pattern max seq cstate buf
          end
      end
  end.

(** ** Registration *)

(** The time stamp for changes of the database. *)
Context (fixed_dbts : Z).

Definition SDP_ATTR_BROWSE_GRP_LIST : Z := 0x0005.
Definition SDP_ATTR_SVCDB_STATE : Z := 0x0201.
Definition PUBLIC_BROWSE_GROUP : Z := 0x1002.

Definition uint32_data (v : Z) : sdp_data := Data Dtd.SDP_UINT32 0 5 (VNum v).

Definition update_db_timestamp (s : server) : run server :=
  match own_record s with
  | None => Done s
  | Some r =>
      rec ← deref s r;
      rec ← sdp_attr_replace rec SDP_ATTR_SVCDB_STATE
        (uint32_data (if fixed_dbts =? 0 then now else fixed_dbts));
      Done (assign s r rec)
  end.

Fixpoint pdu_server_loop (n : nat) (b : bytes) (p bufsize localLen seqlen : Z) (s : server) (r : Z)
    (status : Z) : run (server * Z) :=
  match n with
  | O => NoFuel
  | S n =>
      if localLen <? seqlen then
        if bufsize <? 3 then Done (s, status) else
        l ← rd b (p + 1) 2;
        rec ← deref s r;
        e ← sdp_extract_attr b fuel (p + 3) (s32 (u32 (bufsize - 3))) (Some rec);
        let '(pAttr, len, rec') := e in
        let rec := default rec rec' in
        let s := assign s r rec in
        match pAttr with
        | None => Done (s, status)
        | Some d =>
            rec ← sdp_attr_replace rec (be_val l) d;
            pdu_server_loop n b (p + (3 + len)) (u32 (bufsize - (3 + len))) (localLen + (3 + len))
              seqlen (assign s r rec) r 0
        end
      else Done (s, status)
  end.

(** The record, whose attributes are replaced when it was known; [None] for NULL. *)
Definition extract_pdu_server (s : server) (device : bdaddr) (b : bytes) (p bufsize handleExpected : Z) :
    run (option Z * server) :=
  r ← sdp_extract_seqtype b p (s32 bufsize) 0 0;
  let '(scanned, _, seqlen) := r in
  let p := p + scanned in
  let bufsize := u32 (bufsize - scanned) in
  if bufsize <? 2 then Done (None, s) else
  l ← rd b (p + 1) 2;
  let ahead := be_val l in
  if (ahead =? SDP_ATTR_RECORD_HANDLE) && (bufsize <? 8) then Done (None, s) else
  wanted ← (if ahead =? SDP_ATTR_RECORD_HANDLE then h ← rd b (p + 4) 4; Done (Some (be_val h))
            else Done (if handleExpected =? 0xffffffff then None else Some handleExpected));
  found ← match wanted with Some h => sdp_record_find s h | None => Done None end;
  rs ← match found with
       | Some r =>
           rec ← deref s r;
           Done (r, assign s r (set_attrlist rec []))
       | None =>
           match wanted with
           | Some h =>
               let '(r, s) := new_record s (set_handle sdp_record_alloc h) in
               s ← sdp_record_add s device r; Done (r, s)
           | None => Done (new_record s sdp_record_alloc)
           end
       end;
  let '(r, s) := rs in
  e ← pdu_server_loop fuel b p bufsize 0 seqlen s r (-1);
  _ ← (if e.2 =? 0 then as_int (scanned + seqlen) else Done 0);
  Done (Some r, e.1).

(** The record belongs to the public group when it names none, and the database changed. *)
Definition register_success (s : server) (r : Z) (rsp : sdp_buf) : run (Z * sdp_buf * server) :=
  rec ← deref s r;
  let s := match sdp_data_get rec SDP_ATTR_BROWSE_GRP_LIST with
           | None => assign s r (sdp_pattern_add_uuid rec (sdp_uuid16_create PUBLIC_BROWSE_GROUP))
           | Some _ => s
           end in
  s ← update_db_timestamp s;
  rsp ← buf_put rsp (fun b => put_be32 (handle rec) b 0);
  Done (0, set_data_size rsp 4, s).

Definition register_invalid (s : server) (rsp : sdp_buf) : run (Z * sdp_buf * server) :=
  rsp ← buf_put rsp (fun b => put_be16 SDP_INVALID_SYNTAX b 0);
  Done (-1, set_data_size rsp 2, s).

Definition service_register_req (s : server) (req : sdp_req) (rsp : sdp_buf) :
    run (Z * sdp_buf * server) :=
  let b := req_buf req in
  let bufsize := req_len req - HDR in
  flags ← rd_u8 b HDR;
  d ← (if negb (Z.land flags 0x02 =? 0) then l ← rd b (HDR + 1) 6; Done (l, HDR + 7, bufsize - 6)
       else Done (req_device req, HDR + 1, bufsize));
  let '(device, p, bufsize) := d in
  e ← extract_pdu_server s device b p (u32 bufsize) 0xffffffff;
  let '(r, s) := e in
  match r with
  | None => register_invalid s rsp
  | Some r =>
      rec ← deref s r;
      known ← (if handle rec =? 0xffffffff then Done false
               else f ← sdp_record_find s (handle rec); Done (bool_decide (is_Some f)));
      if known : bool then register_success s r rsp
      else
        h ← (if handle rec =? 0xffffffff then sdp_next_handle fuel s else Done (handle rec));
        if (handle rec =? 0xffffffff) && (h <? 0x10000) then
          s ← sdp_record_free s r; register_invalid s rsp
        else
          let s := assign s r (set_handle rec h) in
          s ← sdp_record_add s device r;
          let s := if Z.land flags 0x01 =? 0 then sdp_svcdb_set_collectable s r (req_sock req) else s in
          rec ← deref s r;
          rec ← sdp_attr_replace rec SDP_ATTR_RECORD_HANDLE (uint32_data (handle rec));
          register_success (assign s r rec) r rsp
  end.

Definition status_rsp (status : Z) (s : server) (rsp : sdp_buf) : run (Z * sdp_buf * server) :=
  rsp ← buf_put rsp (fun b => put_be16 status b 0);
  Done (status, set_data_size rsp 2, s).

(** The assertion that the record is the one with the handle is [Fault] when it fails. *)
Definition service_update_req (s : server) (req : sdp_req) (rsp : sdp_buf) :
    run (Z * sdp_buf * server) :=
  let b := req_buf req in
  l ← rd b HDR 4;
  let h := be_val l in
  orec ← sdp_record_find s h;
  match orec with
  | None => status_rsp SDP_INVALID_RECORD_HANDLE s rsp
  | Some o =>
      e ← extract_pdu_server s BDADDR_ANY b (HDR + 4) (u32 (req_len req - HDR - 4)) h;
      let '(nrec, s) := e in
      match nrec with
      | None => status_rsp SDP_INVALID_SYNTAX s rsp
      | Some r =>
          if r =? o then s ← update_db_timestamp s; status_rsp 0 s rsp
          else Fault
      end
  end.

Definition service_remove_req (s : server) (req : sdp_req) (rsp : sdp_buf) :
    run (Z * sdp_buf * server) :=
  l ← rd (req_buf req) HDR 4;
  let h := be_val l in
  rec ← sdp_record_find s h;
  match rec with
  | None => status_rsp SDP_INVALID_RECORD_HANDLE s rsp
  | Some r =>
      let s := sdp_svcdb_collect s r in
      e ← sdp_record_remove s h;
      let '(status, s) := e in
      s ← sdp_record_free s r;
      s ← (if status =? 0 then update_db_timestamp s else Done s);
      status_rsp status s rsp
  end.

(** ** Requests *)

(** The status and the type of the response. *)
Definition dispatch (s : server) (req : sdp_req) (pdu_id : Z) (rsp : sdp_buf) :
    run (Z * sdp_buf * server * Z) :=
  let with_id id e := r ← e; Done (r, id) in
  if pdu_id =? SDP_SVC_SEARCH_REQ then with_id 0x03 (service_search_req s req rsp)
  else if pdu_id =? SDP_SVC_ATTR_REQ then with_id 0x05 (service_attr_req s req rsp)
  else if pdu_id =? SDP_SVC_SEARCH_ATTR_REQ then with_id 0x07 (service_search_attr_req s req rsp)
  else if (pdu_id =? SDP_SVC_REGISTER_REQ) && req_local req then
    with_id 0x76 (service_register_req s req rsp)
  else if (pdu_id =? SDP_SVC_UPDATE_REQ) && req_local req then
    with_id 0x78 (service_update_req s req rsp)
  else if (pdu_id =? SDP_SVC_REMOVE_REQ) && req_local req then
    with_id 0x80 (service_remove_req s req rsp)
  else Done (SDP_INVALID_SYNTAX, rsp, s, 0).

(** The packet that is sent back, and the server. *)
Definition process_request (s : server) (req : sdp_req) : run (bytes * server) :=
  let rsp := Buf (Some (replicate (Z.to_nat (USHRT_MAX - HDR)) 0)) 0 (USHRT_MAX - HDR) in
  pdu_id ← rd_u8 (req_buf req) 0;
  tid ← rd (req_buf req) 1 2;
  pl ← rd (req_buf req) 3 2;
  r ← (if be_val pl =? u64 (req_len req - HDR) then dispatch s req pdu_id rsp
       else Done (SDP_INVALID_PDU_SIZE, rsp, s, 0));
  let '(status, rsp, s, id) := r in
  rsp ← (if status =? 0 then Done rsp
         else rsp ← buf_put rsp (fun b => put_be16 status b 0); Done (set_data_size rsp 2));
  let id := if status =? 0 then id else SDP_ERROR_RSP in
  out ← match data rsp with Some b => lift (ld b 0 (data_size rsp)) | None => Fault end;
  Done ([id] ++ tid ++ be_bytes 2 (data_size rsp) ++ out, s).
End requests.
