(* ===== verification/SdpServer.v ===== *)
(** Theorems on the SDP server (src/sdpd-request.c, sdpd-service.c, sdpd-database.c): the
    lists that it reads in requests, the attributes and handles it answers with, the
    continuation of responses, and requests that make it access memory outside a block. *)
From Stdlib Require Import ZArith Lia Sorted.
From S2P Require Import Prelude Blocks Libc Uuid Eir Sdp SdpPdu SdpSpec SdpRecord SdpParse SdpProps SdpDb SdpRequest.
From stdpp Require Import base numbers list gmap option.

Local Open Scope Z_scope.

(** ** Lists in requests *)

Definition des_dtd (d : des) : Z :=
  match d with DUuid u => uuid_type u | DAttr dtd _ => dtd end.

Definition des_body (d : des) : bytes :=
  match d with
  | DUuid u => uuid_be u
  | DAttr dtd v => if dtd =? Dtd.SDP_UINT16 then be_bytes 2 v else be_bytes 4 v
  end.

Definition des_wire (d : des) : bytes := [des_dtd d] ++ des_body d.

Definition list_wire (l : list des) : bytes :=
  [Dtd.SDP_SEQ8; zlen (flat_map des_wire l)] ++ flat_map des_wire l.

(** Elements of the expected type, with values of their width. *)
Definition des_ok (e : expected) (d : des) : Prop :=
  match e, d with
  | TypeUuid, DUuid u => uuid_any_ok u
  | TypeAttrid, DAttr dtd v =>
      (dtd = Dtd.SDP_UINT16 /\ is_u16 v) \/ (dtd = Dtd.SDP_UINT32 /\ is_u32 v)
  | _, _ => False
  end.

Lemma des_expected e d : des_ok e d -> type_expected e (des_dtd d) = true.
Proof.
  destruct e, d as [u|dtd v]; cbn; try done.
  - intros [n Hu]. by destruct u.
  - by intros [[-> _]|[-> _]].
Qed.

Lemma rd_u8_uuid_extract pre u post bufsize :
  uuid_any_ok u -> zlen (des_wire (DUuid u)) <= bufsize ->
  sdp_uuid_extract (pre ++ des_wire (DUuid u) ++ post) (zlen pre) bufsize
    = Done (Some u, zlen (des_wire (DUuid u))).
Proof.
  intros [n Hu] Hbs.
  assert (dtd_kind (uuid_type u) = Some (KUuid n)) as Hk.
  { destruct u; cbn in Hu; try done.
    - destruct (Nat.eqb_spec n 2) as [Hn|]; [by rewrite Hn|done].
    - destruct (Nat.eqb_spec n 4) as [Hn|]; [by rewrite Hn|done].
    - destruct (Nat.eqb_spec n 16) as [Hn|]; [by rewrite Hn|done]. }
  assert (wire (Data (uuid_type u) 0 0 (VUuid u)) = des_wire (DUuid u)) as Hw.
  { unfold wire, header. by rewrite Hk. }
  pose proof (extract_uuid_wire pre post (uuid_type u) 0 0 (VUuid u) (KUuid n) bufsize Hk Hu) as HE.
  rewrite Hw in HE. specialize (HE Hbs None n eq_refl). unfold extract_uuid in HE.
  destruct (sdp_uuid_extract _ _ _) as [[[w|] len]| |]; cbn [mbind run_bind] in HE; try done.
  assert (rd_u8 (pre ++ des_wire (DUuid u) ++ post) (zlen pre) = Done (uuid_type u)) as Hr.
  { unfold des_wire. rewrite <- app_assoc. by apply rd_u8_mid. }
  rewrite Hr in HE. cbn [mbind run_bind canon] in HE. by simplify_eq.
Qed.

Lemma extract_elem_wire e pre d post bufsize :
  des_ok e d -> zlen (des_wire d) <= bufsize ->
  extract_elem (pre ++ des_wire d ++ post) (zlen pre) bufsize (des_dtd d)
    = Done (Some (d, zlen (des_wire d))).
Proof.
  intros Hd Hbs. unfold extract_elem. destruct e, d as [u|dtd v]; try done.
  - assert (exists n, dtd_kind (des_dtd (DUuid u)) = Some (KUuid n)) as [n ->].
    { destruct Hd as [n Hu]. destruct u; try done; by eexists. }
    by rewrite rd_u8_uuid_extract.
  - destruct Hd as [[-> Hv]|[-> Hv]]; cbn [des_dtd].
    + change (dtd_kind Dtd.SDP_UINT16) with (Some (KUint 2)). cbn iota.
      assert (des_wire (DAttr Dtd.SDP_UINT16 v) = [Dtd.SDP_UINT16] ++ be_bytes 2 v) as Hw by done.
      assert (zlen (des_wire (DAttr Dtd.SDP_UINT16 v)) = 3) as Hl.
      { by rewrite Hw, zlen_app, zlen_be_bytes. }
      rewrite (proj2 (Z.ltb_ge _ _)) by lia. rewrite Hl, Hw, <- app_assoc, (app_assoc pre).
      rewrite (rd_mid (pre ++ [Dtd.SDP_UINT16]) (be_bytes 2 v) post).
      2: by rewrite zlen_app. 2: by rewrite zlen_be_bytes.
      cbn [mbind run_bind]. rewrite be_val_bytes, Z.mod_small; [done|]. unfold is_u16 in Hv. cbn. lia.
    + change (dtd_kind Dtd.SDP_UINT32) with (Some (KUint 4)). cbn iota.
      assert (des_wire (DAttr Dtd.SDP_UINT32 v) = [Dtd.SDP_UINT32] ++ be_bytes 4 v) as Hw by done.
      assert (zlen (des_wire (DAttr Dtd.SDP_UINT32 v)) = 5) as Hl.
      { by rewrite Hw, zlen_app, zlen_be_bytes. }
      rewrite (proj2 (Z.ltb_ge _ _)) by lia. rewrite Hl, Hw, <- app_assoc, (app_assoc pre).
      rewrite (rd_mid (pre ++ [Dtd.SDP_UINT32]) (be_bytes 4 v) post).
      2: by rewrite zlen_app. 2: by rewrite zlen_be_bytes.
      cbn [mbind run_bind]. rewrite be_val_bytes, Z.mod_small; [done|]. unfold is_u32 in Hv. cbn. lia.
Qed.

Lemma des_wire_pos d : 1 <= zlen (des_wire d).
Proof.
  unfold des_wire. rewrite zlen_app. pose proof (zlen_nonneg (des_body d)).
  change (zlen [des_dtd d]) with 1. lia.
Qed.

Lemma des_loop_wire e l : Forall (des_ok e) l -> l <> [] -> forall fuel pre post bufsize seqlen len acc,
  zlen (flat_map des_wire l) <= bufsize -> zlen (flat_map des_wire l) < Z.of_nat fuel ->
  0 <= seqlen -> seqlen + zlen (flat_map des_wire l) <= len ->
  extract_des_loop fuel (pre ++ flat_map des_wire l ++ post) (zlen pre) bufsize seqlen
    (seqlen + zlen (flat_map des_wire l)) len e acc
    = Done (Some (acc ++ l, seqlen + zlen (flat_map des_wire l))).
Proof.
  induction 1 as [|d l Hd Hl IH]; intros Hne fuel pre post bufsize seqlen len acc Hbs Hf Hs Hlen; [done|].
  cbn [flat_map] in *. rewrite zlen_app in *. pose proof (des_wire_pos d).
  pose proof (zlen_nonneg (flat_map des_wire l)).
  destruct fuel as [|fuel]; [lia|]. cbn [extract_des_loop].
  rewrite (proj2 (Z.ltb_ge _ _)) by lia. rewrite <- app_assoc.
  assert (rd_u8 (pre ++ des_wire d ++ flat_map des_wire l ++ post) (zlen pre) = Done (des_dtd d)) as ->.
  { unfold des_wire at 1. rewrite <- app_assoc. by apply rd_u8_mid. }
  cbn [mbind run_bind]. rewrite (des_expected e d Hd). cbn [negb].
  rewrite (extract_elem_wire e) by done || lia. cbn [mbind run_bind].
  destruct l as [|d2 l].
  - cbn [flat_map]. rewrite zlen_nil, Z.add_0_r, Z.eqb_refl. done.
  - pose proof (des_wire_pos d2). cbn [flat_map] in *. rewrite zlen_app in *.
    pose proof (zlen_nonneg (flat_map des_wire l)).
    rewrite (proj2 (Z.eqb_neq _ _)) by lia.
    rewrite (proj2 (Z.ltb_ge _ _)), (proj2 (Z.ltb_ge _ _)) by lia. cbn [orb].
    rewrite (app_assoc pre).
    replace (zlen pre + zlen (des_wire d)) with (zlen (pre ++ des_wire d)) by (by rewrite zlen_app).
    replace (seqlen + (zlen (des_wire d) + (zlen (des_wire d2) + zlen (flat_map des_wire l))))
      with (seqlen + zlen (des_wire d) + (zlen (des_wire d2) + zlen (flat_map des_wire l))) by lia.
    rewrite IH by (done || lia). by rewrite <- app_assoc.
Qed.

Lemma list_wire_length l : zlen (list_wire l) = 2 + zlen (flat_map des_wire l).
Proof. unfold list_wire. rewrite zlen_app. done. Qed.

Lemma extract_des_wire e l fuel pre post len :
  Forall (des_ok e) l -> l <> [] -> zlen (flat_map des_wire l) < 256 ->
  zlen (list_wire l) <= len -> zlen (flat_map des_wire l) < Z.of_nat fuel ->
  extract_des fuel (pre ++ list_wire l ++ post) (zlen pre) len e
    = Done (Some (l, zlen (list_wire l))).
Proof.
  intros HF Hne Hlen Hl Hf. pose proof (list_wire_length l) as Hll.
  set (w := flat_map des_wire l) in *. pose proof (zlen_nonneg w).
  assert (pre ++ list_wire l ++ post = pre ++ [Dtd.SDP_SEQ8] ++ ([zlen w] ++ w ++ post)) as Hb1.
  { unfold list_wire. fold w. by rewrite <- app_assoc. }
  assert (pre ++ list_wire l ++ post = (pre ++ [Dtd.SDP_SEQ8]) ++ [zlen w] ++ (w ++ post)) as Hb2.
  { rewrite Hb1. by rewrite <- app_assoc. }
  assert (pre ++ list_wire l ++ post = (pre ++ [Dtd.SDP_SEQ8; zlen w]) ++ w ++ post) as Hb3.
  { rewrite Hb1. by rewrite <- app_assoc. }
  unfold extract_des, sdp_extract_seqtype. rewrite (proj2 (Z.ltb_ge _ _)) by lia.
  rewrite Hb1, rd_u8_mid by done. cbn [mbind run_bind].
  change (dtd_kind Dtd.SDP_SEQ8) with (Some (KSeq 1)). cbn iota.
  rewrite (proj2 (Z.ltb_ge _ _)) by lia. rewrite <- Hb1.
  rewrite Hb2, (rd_mid (pre ++ [Dtd.SDP_SEQ8]) [zlen w]) by (rewrite ?zlen_app; done).
  cbn [mbind run_bind]. assert (be_val [zlen w] = zlen w) as -> by (unfold be_val; cbn; lia).
  rewrite s32_small by lia. change (1 + Z.of_nat 1 =? 0) with false.
  change (Dtd.SDP_SEQ8 =? Dtd.SDP_SEQ8) with true. cbn [negb andb orb].
  rewrite <- Hb2, Hb3. pose proof (des_loop_wire e l HF Hne fuel (pre ++ [Dtd.SDP_SEQ8; zlen w]) post
    (len - (1 + Z.of_nat 1)) 0 len []) as HL. fold w in HL. rewrite Z.add_0_l in HL.
  replace (zlen pre + (1 + Z.of_nat 1)) with (zlen (pre ++ [Dtd.SDP_SEQ8; zlen w])) by (by rewrite zlen_app).
  rewrite HL by lia. cbn [mbind run_bind app]. by rewrite Hll.
Qed.

(** ** Requests *)

Definition cont_wire (c : option cont_state) : bytes :=
  match c with None => [0] | Some c => [8] ++ cstate_bytes c end.

Definition cont_ok (c : option cont_state) : Prop :=
  match c with
  | None => True
  | Some c => is_u32 (timestamp c) /\ is_u16 (sent c) /\ length (pad c) = 2%nat
  end.

Lemma cont_wire_length c :
  match c with None => True | Some c => length (pad c) = 2%nat end ->
  1 <= zlen (cont_wire c) <= 9.
Proof.
  destruct c as [[t n p]|]; [|done]. cbn [pad]. intros Hp. cbn [cont_wire].
  unfold cstate_bytes. cbn [timestamp sent pad]. rewrite !zlen_app. unfold zlen.
  by rewrite !le_bytes_length, Hp.
Qed.

Lemma cstate_get_wire pre c len :
  cont_ok c -> len = zlen (cont_wire c) ->
  sdp_cstate_get (pre ++ cont_wire c) (zlen pre) len = Done (Some c).
Proof.
  intros Hc ->. unfold sdp_cstate_get. destruct c as [[t n p]|]; cbn [cont_wire cont_ok] in *.
  - destruct Hc as (Ht & Hn & Hp). cbn in Ht, Hn, Hp.
    rewrite rd_u8_mid by done. cbn [mbind run_bind]. change (8 =? 0) with false. cbn iota.
    assert (zlen (cstate_bytes (CState t n p)) = 8) as Hl.
    { unfold cstate_bytes. cbn [timestamp sent pad]. rewrite !zlen_app. unfold zlen.
      rewrite !le_bytes_length, Hp. done. }
    assert (zlen ([8] ++ cstate_bytes (CState t n p)) = 9) as -> by (by rewrite zlen_app, Hl).
    change (u64 (9 - 1) <? 8) with false. cbn iota.
    assert (rd (pre ++ [8] ++ cstate_bytes (CState t n p)) (zlen pre + 1) 8
            = Done (cstate_bytes (CState t n p))) as ->.
    { rewrite (app_assoc pre). rewrite <- (app_nil_r (cstate_bytes (CState t n p))) at 1.
      apply rd_mid; [by rewrite zlen_app|by rewrite Hl]. }
    cbn [mbind run_bind]. unfold cstate_bytes. cbn [timestamp sent pad].
    assert (forall (a b c : bytes), length a = 4%nat -> length b = 2%nat ->
      take 4 (a ++ b ++ c) = a /\ take 2 (drop 4 (a ++ b ++ c)) = b /\ drop 6 (a ++ b ++ c) = c) as Hsplit.
    { intros [|? [|? [|? [|? [|? ?]]]]] [|? [|? [|? ?]]] c; done. }
    destruct (Hsplit (le_bytes 4 t) (le_bytes 2 n) p) as (-> & -> & ->); [done|done|].
    rewrite !le_val_bytes, !Z.mod_small; [done|unfold is_u16 in Hn; cbn; lia|unfold is_u32 in Ht; cbn; lia].
  - assert (rd_u8 (pre ++ [0]) (zlen pre) = Done 0) as -> by (by apply (rd_u8_mid pre 0 [])). done.
Qed.

(** A packet: the type, the transaction, the length, and the body. *)
Definition packet (id : Z) (tid body : bytes) : bytes := [id] ++ tid ++ be_bytes 2 (zlen body) ++ body.

Definition request (loc : bool) (dev : bdaddr) (sock mtu id : Z) (tid body : bytes) : sdp_req :=
  Req dev loc sock mtu (packet id tid body) (zlen (packet id tid body)).

Definition attr_body (h max : Z) (l : list des) (c : option cont_state) : bytes :=
  be_bytes 4 h ++ be_bytes 2 max ++ list_wire l ++ cont_wire c.

Lemma packet_length id tid body : length tid = 2%nat -> zlen (packet id tid body) = 5 + zlen body.
Proof.
  intros Ht. unfold packet. rewrite !zlen_app, zlen_be_bytes. unfold zlen at 2. rewrite Ht.
  change (zlen [id]) with 1. lia.
Qed.

Lemma packet_plen id tid body :
  length tid = 2%nat -> rd (packet id tid body) 3 2 = Done (be_bytes 2 (zlen body)).
Proof.
  intros Ht. unfold packet. rewrite (app_assoc [id]). apply rd_mid; [|by rewrite zlen_be_bytes].
  rewrite zlen_app. unfold zlen. rewrite Ht. done.
Qed.

Lemma packet_body id tid body :
  packet id tid body = ([id] ++ tid ++ be_bytes 2 (zlen body)) ++ body.
Proof. unfold packet. by rewrite <- !app_assoc. Qed.

Section server.
Context (late : bool) (malloc : Z -> bytes) (fuel : nat) (now : Z).

Lemma service_attr_req_wire s loc dev sock mtu tid h max l c buf :
  length tid = 2%nat -> is_u32 h -> is_u16 max -> 7 <= max -> Forall (des_ok TypeAttrid) l -> l <> [] ->
  zlen (flat_map des_wire l) < 256 -> zlen (flat_map des_wire l) < Z.of_nat fuel -> cont_ok c ->
  service_attr_req late malloc fuel now s (request loc dev sock mtu SDP_SVC_ATTR_REQ tid (attr_body h max l c)) buf
    = attr_respond late malloc fuel now s
        (request loc dev sock mtu SDP_SVC_ATTR_REQ tid (attr_body h max l c)) h max l c buf.
Proof.
  intros Ht Hh Hmax Hmax7 HF Hne Hlen Hf Hc.
  set (body := attr_body h max l c). set (id := SDP_SVC_ATTR_REQ).
  pose proof (packet_length id tid body Ht) as Hpl. pose proof (list_wire_length l) as Hll.
  pose proof (zlen_nonneg (flat_map des_wire l)) as Hnn.
  assert (1 <= zlen (cont_wire c) <= 9) as Hcl.
  { apply cont_wire_length. destruct c; [apply Hc|done]. }
  assert (3 <= zlen (flat_map des_wire l)) as Hl3.
  { destruct l as [|[u|dtd v] l]; [done|by inversion HF|]. cbn [flat_map]. rewrite zlen_app.
    pose proof (zlen_nonneg (flat_map des_wire l)). apply list.Forall_cons in HF.
    destruct HF as [[[-> _]|[-> _]] _].
    - change (zlen (des_wire (DAttr Dtd.SDP_UINT16 v))) with 3. lia.
    - change (zlen (des_wire (DAttr Dtd.SDP_UINT32 v))) with 5. lia. }
  assert (zlen body = 6 + zlen (list_wire l) + zlen (cont_wire c)) as Hbl.
  { unfold body, attr_body. rewrite !zlen_app, !zlen_be_bytes. lia. }
  set (hd := [id] ++ tid ++ be_bytes 2 (zlen body)).
  assert (zlen hd = 5) as Hhd.
  { unfold hd. rewrite !zlen_app, zlen_be_bytes. unfold zlen. rewrite Ht. done. }
  assert (packet id tid body = hd ++ body) as Hpk by apply packet_body.
  unfold service_attr_req, request. cbn [req_buf req_len]. unfold HDR.
  rewrite Hpl. replace (5 + zlen body - 5) with (zlen body) by lia.
  rewrite (proj2 (Z.ltb_ge _ _)) by lia.
  assert (rd (packet id tid body) 5 4 = Done (be_bytes 4 h)) as ->.
  { rewrite Hpk. unfold body, attr_body. apply rd_mid; [by rewrite Hhd|by rewrite zlen_be_bytes]. }
  cbn [mbind run_bind]. rewrite (proj2 (Z.ltb_ge _ _)) by lia.
  assert (rd (packet id tid body) (5 + 4) 2 = Done (be_bytes 2 max)) as ->.
  { rewrite Hpk. unfold body, attr_body. rewrite (app_assoc hd).
    apply rd_mid; [by rewrite zlen_app, zlen_be_bytes, Hhd|by rewrite zlen_be_bytes]. }
  cbn [mbind run_bind]. rewrite !be_val_bytes. rewrite (Z.mod_small h), (Z.mod_small max).
  2: unfold is_u16 in Hmax; cbn; lia. 2: unfold is_u32 in Hh; cbn; lia.
  rewrite (proj2 (Z.ltb_ge _ _)) by lia.
  set (hd2 := (hd ++ be_bytes 4 h) ++ be_bytes 2 max).
  assert (zlen hd2 = 5 + 6) as Hhd2. { unfold hd2. rewrite !zlen_app, !zlen_be_bytes, Hhd. done. }
  assert (packet id tid body = hd2 ++ list_wire l ++ cont_wire c) as Hpk2.
  { rewrite Hpk. unfold body, attr_body, hd2. by rewrite <- !app_assoc. }
  rewrite Hpk2 at 1. rewrite <- Hhd2 at 1.
  rewrite (extract_des_wire TypeAttrid l fuel hd2 (cont_wire c)) by (done || lia).
  cbn [mbind run_bind]. rewrite packet_plen by done. cbn [mbind run_bind].
  assert (0 <= zlen body < 2 ^ 16) as Hb16 by lia.
  rewrite be_val_bytes, (Z.mod_small (zlen body)) by exact Hb16.
  rewrite (proj2 (Z.ltb_ge _ _)) by lia.
  set (hd3 := hd2 ++ list_wire l).
  assert (packet id tid body = hd3 ++ cont_wire c) as Hpk3.
  { rewrite Hpk2. unfold hd3. by rewrite <- app_assoc. }
  assert (zlen hd3 = 5 + 6 + zlen (list_wire l)) as Hhd3. { unfold hd3. rewrite zlen_app, Hhd2. done. }
  assert (rd_u8 (packet id tid body) (5 + 6 + zlen (list_wire l)) = Done (zlen (cont_wire c) - 1)) as ->.
  { rewrite Hpk3. destruct c as [[t n p]|]; cbn [cont_wire cont_ok] in *.
    - rewrite rd_u8_mid by done. f_equal. destruct Hc as (_ & _ & Hp). cbn in Hp.
      unfold cstate_bytes. cbn [timestamp sent pad]. rewrite !zlen_app. unfold zlen.
      rewrite !le_bytes_length, Hp. done.
    - apply (rd_u8_mid hd3 0 []). done. }
  cbn [mbind run_bind].
  replace (zlen body =? zlen (list_wire l) + 4 + 2 + 1 + (zlen (cont_wire c) - 1)) with true
    by (symmetry; apply Z.eqb_eq; lia).
  cbn [negb]. rewrite (proj2 (Z.ltb_ge _ _)) by lia. cbn [mbind run_bind].
  rewrite Hpk3. rewrite <- Hhd3.
  by rewrite cstate_get_wire by (done || lia).
Qed.

(** ** Continuation *)

(** How much of a response of [rest] bytes goes in one packet. *)
Definition chunk (max mtu rest : Z) : Z := Z.min (Z.min max (mtu - 20)) rest.

Definition next_state (c : cont_state) (n : Z) : cont_state :=
  CState (timestamp c) (sent c + n) (pad c).

(** The part of the cached response from where [c] says, with count and continuation. *)
Definition chunk_wire (cache : bytes) (c : cont_state) (n : Z) : bytes :=
  be_bytes 2 n ++ take (Z.to_nat n) (drop (Z.to_nat (sent c)) cache) ++
  cont_wire (if sent c + n =? zlen cache then None else Some (next_state c n)).

Lemma chunk_length max mtu rest n :
  is_u16 max -> 7 <= max -> 21 <= mtu < 2 ^ 31 -> Z.min max (mtu - 20) < 2 ^ 15 ->
  n = s16 (u16 (MIN (u32 (MIN max (u64 (mtu - HDR - 4 - SDP_CONT_STATE_SIZE - 2)))) (u32 rest))) ->
  (0 <= rest < 2 ^ 32 -> n = chunk max mtu rest) /\
  (- 2 ^ 16 < rest < 0 -> n = Z.min max (mtu - 20)).
Proof.
  intros Hmax Hm7 Hmtu Hmin. unfold is_u16 in Hmax.
  replace (mtu - HDR - 4 - SDP_CONT_STATE_SIZE - 2) with (mtu - 20) by (unfold HDR, SDP_CONT_STATE_SIZE; lia).
  assert (u64 (mtu - 20) = mtu - 20) as -> by (unfold u64; apply Z.mod_small; lia).
  assert (forall x y, MIN x y = Z.min x y) as HM.
  { intros x y. unfold MIN. destruct (Z.ltb_spec x y); lia. }
  rewrite !HM. assert (u32 (Z.min max (mtu - 20)) = Z.min max (mtu - 20)) as ->
    by (unfold u32; apply Z.mod_small; lia).
  set (m := Z.min max (mtu - 20)) in *. assert (1 <= m) by lia.
  assert (forall k, 0 <= k < 2 ^ 15 -> s16 (u16 k) = k) as Hs.
  { intros k Hk. unfold u16, s16. rewrite Z.mod_small by lia. by rewrite (proj2 (Z.ltb_lt _ _)) by lia. }
  intros ->. split; intros Hr.
  - assert (u32 rest = rest) as -> by (unfold u32; apply Z.mod_small; lia).
    unfold chunk. fold m. apply Hs. lia.
  - assert (u32 rest = rest + 2 ^ 32) as ->.
    { unfold u32. rewrite <- (Z_mod_plus_full rest 1), Z.mod_small by lia. lia. }
    rewrite Z.min_l by lia. apply Hs. lia.
Qed.

Lemma send_cached_wire cache c n front b size :
  0 <= sent c -> 0 <= n -> sent c + n <= zlen cache -> zlen cache <= USHRT_MAX ->
  length (pad c) = 2%nat -> length front = 2%nat -> n + 9 <= zlen b ->
  (r ← send_cached cache c n (Buf (Some b) 0 size); attr_finish (push_header front r.1) r.2)
    = Done (Buf (Some (chunk_wire cache c n ++ drop (length (chunk_wire cache c n)) (front ++ b)))
              (zlen (chunk_wire cache c n)) (size + 2)).
Proof.
  intros Hs Hn Hle Hc Hp Hf Hb. unfold send_cached, ld. rewrite decide_True by lia.
  cbn [lift mbind run_bind]. set (x := take _ (drop _ cache)).
  assert (zlen x = n) as Hx.
  { unfold x, zlen in *. rewrite length_take, length_drop. lia. }
  unfold buf_put at 1. cbn [data]. rewrite st_0 by lia. cbn [lift mbind run_bind].
  unfold set_data_size at 1. cbn [data_size data buf_size sent]. rewrite Z.add_0_l.
  unfold USHRT_MAX in Hc.
  assert (forall k, 0 <= k < 2 ^ 32 -> u32 k = k) as Hu by (intros; unfold u32; by apply Z.mod_small).
  rewrite (Hu n) by lia.
  assert (u16 (sent c + n) = sent c + n) as -> by (unfold u16; apply Z.mod_small; lia).
  set (k := if sent c + n =? zlen cache then None else Some (next_state c n)).
  assert (chunk_wire cache c n = be_bytes 2 n ++ x ++ cont_wire k) as -> by done.
  assert (sdp_set_cstate_pdu (Buf (Some (x ++ drop (length x) b)) n size)
    (if sent c + n =? zlen cache then None else Some (CState (timestamp c) (sent c + n) (pad c)))
    = Done (Buf (Some ((x ++ cont_wire k) ++ drop (length (x ++ cont_wire k)) b))
        (n + zlen (cont_wire k)) size, zlen (cont_wire k))) as ->.
  { unfold k. destruct (Z.eqb_spec (sent c + n) (zlen cache)) as [He|He]; unfold sdp_set_cstate_pdu.
    - unfold buf_put, put_u8. cbn [data data_size]. rewrite st_pre by (rewrite ?zlen_1; lia).
      cbn [lift mbind run_bind data data_size buf_size]. unfold set_data_size. cbn [data buf_size].
      by rewrite Hu by lia.
    - unfold buf_put, put_u8. cbn [data data_size]. rewrite st_pre by (rewrite ?zlen_1; lia).
      cbn [lift mbind run_bind data data_size buf_size].
      assert (zlen (cstate_bytes (CState (timestamp c) (sent c + n) (pad c))) = 8) as H8.
      { unfold cstate_bytes. cbn [timestamp sent pad]. rewrite !zlen_app. unfold zlen.
        rewrite !le_bytes_length, Hp. done. }
      rewrite st_pre; [|by rewrite zlen_app, Hx|rewrite zlen_app, Hx, H8, zlen_1; lia].
      cbn [lift mbind run_bind data data_size buf_size]. unfold set_data_size. cbn [data buf_size].
      cbn [cont_wire]. change (u8 8) with 8. unfold next_state.
      rewrite (app_assoc x [8]).
      rewrite zlen_app, H8, Hu by lia. done. }
  cbn [mbind run_bind fst snd]. set (w := x ++ cont_wire k).
  unfold attr_finish, push_header, buf_put. cbn [data data_size buf_size fmap option_fmap option_map].
  replace (n + zlen (cont_wire k) - zlen (cont_wire k)) with n by lia.
  unfold put_be16. pose proof (zlen_be_bytes 2 n) as Hbe.
  assert (length (be_bytes 2 n) = 2%nat) as Hbl by (unfold zlen in Hbe; lia).
  assert (zlen front = 2) as Hfz by (unfold zlen; by rewrite Hf).
  rewrite st_0 by (rewrite Hbe, zlen_app, Hfz; pose proof (zlen_nonneg (w ++ drop (length w) b)); lia).
  cbn [lift mbind run_bind]. unfold set_data_size. cbn [data data_size buf_size].
  assert (1 <= zlen (cont_wire k) <= 9) as Hk9.
  { apply cont_wire_length. unfold k. by destruct (_ =? _). }
  rewrite Hu by lia.
  rewrite Hbl, <- Hf, drop_app_length, Hf.
  assert (length (be_bytes 2 n ++ w) = (2 + length w)%nat) as Hlw by (rewrite length_app, Hbl; done).
  rewrite Hlw, drop_app_ge by lia. rewrite Hf, <- app_assoc. replace (2 + length w - 2)%nat with (length w) by lia.
  replace (zlen (be_bytes 2 n ++ w)) with (n + zlen (cont_wire k) + 2); [done|].
  unfold w. rewrite !zlen_app, Hbe, Hx. lia.
Qed.
End server.

(** C19. A request for attributes that continues a response is answered with the next bytes
    of the cached response, their number in front and behind them the next state, or none at
    the end; but when the state, which comes from the client, lies behind the response, the
    server sends what is behind it in memory. *)
Theorem sdp_attr_continuation late malloc fuel now s loc dev sock mtu tid h max l c bs size cache :
  length tid = 2%nat -> is_u32 h -> is_u16 max -> 7 <= max -> Forall (des_ok TypeAttrid) l -> l <> [] ->
  zlen (flat_map des_wire l) < 256 -> zlen (flat_map des_wire l) < Z.of_nat fuel ->
  cont_ok (Some c) -> 21 <= mtu < 2 ^ 31 -> Z.min max (mtu - 20) < 2 ^ 15 ->
  sdp_get_cached_rsp s c = Some cache -> zlen cache <= USHRT_MAX -> Z.min max (mtu - 20) + 11 <= zlen bs ->
  let n := chunk max mtu (zlen cache - sent c) in
  service_attr_req late malloc fuel now s
      (request loc dev sock mtu SDP_SVC_ATTR_REQ tid (attr_body h max l (Some c))) (Buf (Some bs) 0 size)
    = if zlen cache <? sent c then Fault
      else Done (0, Buf (Some (chunk_wire cache c n ++ drop (length (chunk_wire cache c n)) bs))
                  (zlen (chunk_wire cache c n)) size, s).
Proof.
  intros Ht Hh Hmax Hm7 HF Hne Hlen Hf Hc Hmtu Hmin Hcache Hcl Hbs n.
  rewrite service_attr_req_wire by done. unfold attr_respond, request. cbn [req_mtu].
  destruct Hc as (_ & Hs & Hp). unfold is_u16 in Hs, Hmax. unfold USHRT_MAX in Hcl.
  pose proof (zlen_nonneg cache).
  unfold pull_header, ld. cbn [data]. rewrite decide_True by lia. cbn [lift mbind run_bind data_size buf_size].
  rewrite Hcache. set (m := s16 _).
  destruct (chunk_length max mtu (zlen cache - sent c) m Hmax Hm7 Hmtu Hmin eq_refl) as [Hin Hout].
  destruct (Z.ltb_spec (zlen cache) (sent c)) as [Hlt|Hge].
  - rewrite Hout by lia. unfold send_cached, ld. rewrite decide_False by lia. done.
  - rewrite Hin by lia. unfold n.
    assert (length (take (Z.to_nat 2) (drop (Z.to_nat 0) bs)) = 2%nat) as H2.
    { rewrite length_take, length_drop. unfold zlen in Hbs. lia. }
    pose proof (send_cached_wire cache c (chunk max mtu (zlen cache - sent c))
      (take (Z.to_nat 2) (drop (Z.to_nat 0) bs)) (drop 2 bs) (size - 2)) as HS.
    assert (take (Z.to_nat 2) (drop (Z.to_nat 0) bs) ++ drop 2 bs = bs) as Hbs2 by apply (take_drop 2 bs).
    rewrite Hbs2 in HS. replace (size - 2 + 2) with size in HS by lia.
    destruct (send_cached _ _ _ _) as [r| |]; cbn [mbind run_bind] in *.
    + rewrite HS; try done; unfold chunk, USHRT_MAX in *; try lia.
      unfold zlen in *. rewrite length_drop. lia.
    + discriminate HS; try done; unfold chunk, USHRT_MAX in *; try lia.
      unfold zlen in *. rewrite length_drop. lia.
    + discriminate HS; try done; unfold chunk, USHRT_MAX in *; try lia.
      unfold zlen in *. rewrite length_drop. lia.
Qed.

(** A server without records that cached a response of ten bytes. *)
Definition caching : server := Srv ∅ 0 [] [] [] [(5, replicate 10 7)] None.

(** The client asks for what is behind byte 200 of it. *)
Lemma sdp_attr_continuation_witness :
  service_attr_req false (fun n => replicate (Z.to_nat n) 0) 10 0 caching
    (request false BDADDR_ANY 1 672 SDP_SVC_ATTR_REQ [0; 1]
      (attr_body 0x10000 100 [DAttr Dtd.SDP_UINT16 1] (Some (CState 5 200 [0; 0]))))
    (Buf (Some (replicate 120 0)) 0 USHRT_MAX) = Fault.
Proof.
  rewrite (sdp_attr_continuation false (fun n => replicate (Z.to_nat n) 0) 10 0 caching false BDADDR_ANY
    1 672 [0; 1] 0x10000 100 [DAttr Dtd.SDP_UINT16 1] (CState 5 200 [0; 0]) (replicate 120 0) USHRT_MAX
    (replicate 10 7)); try reflexivity; try done.
  - constructor; [|constructor]. left. done.
Defined.
