(* ===== verification/SdpSelect.v ===== *)
(** Theorems on what the SDP server (src/sdpd-request.c) selects: the attributes of a record
    that a request names, and the records that match a search. *)
From Stdlib Require Import ZArith Lia.
From S2P Require Import Prelude Blocks Libc Uuid Eir Sdp SdpPdu SdpSpec SdpRecord SdpParse SdpProps SdpDb SdpRequest.
From stdpp Require Import base numbers list gmap option.

Local Open Scope Z_scope.

(** ** Attributes *)

Lemma room_settle late d : room late (settle d) = room late d.
Proof.
  induction d as [dtd a u v IH] using sdp_data_ind'. destruct v as [v|v|v|l]; try done.
  cbn in IH. cbn [settle room]. do 2 f_equal.
  induction IH as [|c l Hc _ IHl]; cbn [map foldr]; [done|]. by rewrite Hc, IHl.
Qed.

Lemma gen_ok_settle late fuel d : gen_ok late fuel d -> gen_ok late fuel (settle d).
Proof.
  intros (Hd & Hr & Hf). unfold gen_ok. rewrite room_settle, depth_settle.
  split_and!; [by apply well_typed_settle|done|done].
Qed.

Lemma attr_wire_settle d : attr_wire (settle d) = attr_wire d.
Proof. unfold attr_wire. by rewrite settle_idem, attrId_settle. Qed.

(** The first attribute with the number. *)
Definition attr_of (l : list sdp_data) (id : Z) : option sdp_data :=
  sdp_list_find (fun d a => attrId d - a) l id.

Lemma attr_of_settle l id : attr_of (map settle l) id = settle <$> attr_of l id.
Proof.
  unfold attr_of. induction l as [|d l IH]; [done|]. cbn [map sdp_list_find].
  rewrite attrId_settle. by destruct (attrId d - id =? 0).
Qed.

Lemma attr_of_elem l id d : attr_of l id = Some d -> d ∈ l /\ attrId d = id.
Proof.
  unfold attr_of. induction l as [|x l IH]; [done|]. cbn [sdp_list_find].
  destruct (Z.eqb_spec (attrId x - id) 0) as [He|_].
  - intros [= ->]. split; [constructor|lia].
  - intros Hd. destruct (IH Hd). split; [by constructor|done].
Qed.

Lemma update_found_same l id d : attr_of l id = Some d -> update_found l id d = l.
Proof.
  unfold attr_of. induction l as [|x l IH]; [done|]. cbn [sdp_list_find update_found].
  destruct (Z.eqb_spec (attrId x - id) 0) as [He|He].
  - intros [= ->]. by rewrite (proj2 (Z.eqb_eq _ _)) by lia.
  - intros Hd. rewrite (proj2 (Z.eqb_neq _ _)) by lia. by rewrite IH.
Qed.

(** The numbers that an element of the request names: a number, or the range of two. *)
Definition des_ids (d : des) : list Z :=
  match d with
  | DUuid _ => []
  | DAttr dtd v =>
      if dtd =? Dtd.SDP_UINT16 then [v]
      else attr_range (Z.shiftr (Z.land 0xffff0000 v) 16) (Z.land 0x0000ffff v)
             ++ [Z.land 0x0000ffff v]
  end.

(** The range of all numbers, when the record, generated to [n] bytes, is not longer than the
    response may be: the server then copies the whole record. *)
Definition names_all (n size : Z) (d : des) : Prop :=
  match d with
  | DUuid _ => False
  | DAttr dtd v => dtd = Dtd.SDP_UINT32 /\ Z.shiftr (Z.land 0xffff0000 v) 16 = 0 /\
      Z.land 0x0000ffff v = 0xffff /\ n <= size
  end.

(** An attribute number, or another range. *)
Definition names_some (n size : Z) (d : des) : Prop :=
  match d with
  | DUuid _ => False
  | DAttr dtd v => dtd = Dtd.SDP_UINT16 \/ dtd = Dtd.SDP_UINT32 /\ ~ names_all n size d
  end.

(** Neither a number nor a range. *)
Definition names_wrong (d : des) : Prop :=
  match d with DUuid _ => True | DAttr dtd _ => dtd <> Dtd.SDP_UINT16 /\ dtd <> Dtd.SDP_UINT32 end.

(** What is in the response behind the attributes [sel]. *)
Definition answer (b : bytes) (size : Z) (sel : list sdp_data) : run sdp_buf :=
  let w := outer (flat_map attr_wire sel) in
  if bool_decide (sel = []) then Done (Buf (Some b) 0 size)
  else if zlen w <=? zlen b then Done (Buf (Some (upd b 0 w)) (zlen w) size)
  else Fault.

Section attributes.
Context (late : bool) (malloc : Z -> bytes) (fuel : nat) (b : bytes) (size : Z).
Hypothesis malloc_len : forall n, 0 <= n -> zlen (malloc n) = n.
Hypothesis Hb : zlen b < 2 ^ 32.
Hypothesis Hb0 : get_u8 b 0 = Some 0.

(** The record has its types settled. *)
Context (rec : sdp_record).
Hypothesis HF : Forall (gen_ok late fuel) (attrlist rec).
Hypothesis Hset : map settle (attrlist rec) = attrlist rec.

Lemma answer_more sel sel' : answer b size sel = Fault -> answer b size (sel ++ sel') = Fault.
Proof using Type.
  unfold answer. case_bool_decide as Hn; [done|].
  rewrite bool_decide_eq_false_2 by (destruct sel; done). rewrite flat_map_app.
  pose proof (outer_mono (flat_map attr_wire sel) (flat_map attr_wire sel')).
  destruct (Z.leb_spec (zlen (outer (flat_map attr_wire sel))) (zlen b)); [done|].
  by rewrite (proj2 (Z.leb_gt _ _)) by lia.
Qed.

Lemma append_attr_spec sel id :
  (r ← answer b size sel; append_attr late malloc fuel rec id r)
    = (r ← answer b size (sel ++ option_list (attr_of (attrlist rec) id)); Done (r, rec)).
Proof using malloc_len Hb Hb0 HF Hset.
  destruct (attr_of (attrlist rec) id) as [d|] eqn:Hd; cbn [option_list].
  2:{ rewrite app_nil_r. unfold append_attr, sdp_data_get. fold (attr_of (attrlist rec) id).
      rewrite Hd. done. }
  destruct (attr_of_elem _ _ _ Hd) as [Hin _].
  assert (settle d = d) as Hsd.
  { pose proof (attr_of_settle (attrlist rec) id) as He. rewrite Hset, Hd in He. cbn in He. congruence. }
  assert (gen_ok late fuel d) as Hg by (by eapply list.Forall_forall in HF).
  assert (forall blk ds, holds b (flat_map attr_wire sel) ds blk ->
    append_attr late malloc fuel rec id (Buf (Some blk) ds size)
    = (r ← answer b size (sel ++ [d]); Done (r, rec))) as Hstep.
  { intros blk ds Hh. unfold append_attr, sdp_data_get. fold (attr_of (attrlist rec) id).
    rewrite Hd, (append_to_pdu_spec late malloc fuel malloc_len b (flat_map attr_wire sel)) by done.
    unfold answer. rewrite bool_decide_eq_false_2 by (destruct sel; done).
    rewrite flat_map_app. cbn [flat_map]. rewrite app_nil_r.
    destruct (_ <=? _); [|done]. cbn [mbind run_bind fst snd].
    rewrite Hsd, update_found_same by done. by destruct rec. }
  destruct (answer b size sel) as [r| |] eqn:Ha; cbn [mbind run_bind].
  - unfold answer in Ha. case_bool_decide as Hn.
    + simplify_eq. apply Hstep. left. done.
    + destruct (Z.leb_spec (zlen (outer (flat_map attr_wire sel))) (zlen b)); simplify_eq.
      apply Hstep. right. done.
  - by rewrite answer_more.
  - unfold answer in Ha. case_bool_decide; [done|]. by destruct (_ <=? _).
Qed.

Definition selection (ids : list Z) : list sdp_data := omap (attr_of (attrlist rec)) ids.

Lemma selection_app ids ids' : selection (ids ++ ids') = selection ids ++ selection ids'.
Proof using Type. apply omap_app. Qed.

Lemma selection_cons id ids :
  selection (id :: ids) = option_list (attr_of (attrlist rec) id) ++ selection ids.
Proof using Type. unfold selection. cbn [omap list_omap]. by destruct (attr_of (attrlist rec) id). Qed.

Lemma append_attrs_spec ids : forall sel,
  (r ← answer b size sel; append_attrs late malloc fuel rec ids r)
    = (r ← answer b size (sel ++ selection ids); Done (r, rec)).
Proof using malloc_len Hb Hb0 HF Hset.
  induction ids as [|id ids IH]; intros sel.
  - cbn. by rewrite app_nil_r.
  - pose proof (append_attr_spec sel id) as H1. pose proof (IH (sel ++ option_list (attr_of (attrlist rec) id))) as H2.
    rewrite <- app_assoc in H2.
    rewrite <- selection_cons in H2. rewrite <- H2.
    destruct (answer b size sel) as [r| |]; cbn [mbind run_bind append_attrs] in *.
    + rewrite H1. destruct (answer b size (sel ++ _)); done.
    + destruct (answer b size (sel ++ _)); done.
    + destruct (answer b size (sel ++ _)); done.
Qed.

Lemma answer_size sel r : answer b size sel = Done r -> buf_size r = size.
Proof using Type.
  unfold answer. case_bool_decide; [by intros [= <-]|]. destruct (_ <=? _); [by intros [= <-]|done].
Qed.

Lemma extract_attrs_loop_spec pdu l l2 : Forall (names_some (data_size pdu) size) l -> forall sel,
  (r ← answer b size sel; extract_attrs_loop late malloc fuel rec pdu (l ++ l2) r)
    = (r ← answer b size (sel ++ selection (flat_map des_ids l));
       extract_attrs_loop late malloc fuel rec pdu l2 r).
Proof using malloc_len Hb Hb0 HF Hset.
  induction 1 as [|d l Hd Hl IH]; intros sel.
  - cbn. by rewrite app_nil_r.
  - destruct d as [u|dtd v]; [done|]. cbn [flat_map]. rewrite selection_app, app_assoc, <- IH.
    pose proof (append_attrs_spec (des_ids (DAttr dtd v)) sel) as H1.
    cbn [app extract_attrs_loop]. cbn [des_ids] in *.
    destruct Hd as [->|[-> Hw]]; cbn [Z.eqb] in *.
    + change (Dtd.SDP_UINT16 =? Dtd.SDP_UINT16) with true in *. cbn iota in *.
      set (sel1 := sel ++ _) in *.
      destruct (answer b size sel) as [r| |]; destruct (answer b size sel1) as [r1| |];
        cbn [mbind run_bind append_attrs] in *;
        try destruct (append_attr late malloc fuel rec v r) as [[? ?]| |]; cbn in *; by simplify_eq.
    + change (Dtd.SDP_UINT32 =? Dtd.SDP_UINT16) with false in *.
      change (Dtd.SDP_UINT32 =? Dtd.SDP_UINT32) with true in *. cbn iota in *.
      cbn [names_all] in Hw.
      set (low := Z.shiftr (Z.land 0xffff0000 v) 16) in *. set (high := Z.land 0x0000ffff v) in *.
      assert ((low =? 0) && (high =? 0xffff) && (data_size pdu <=? size) = false) as Hno.
      { destruct (Z.eqb_spec low 0), (Z.eqb_spec high 0xffff), (Z.leb_spec (data_size pdu) size); try done. tauto. }
      pose proof (append_attrs_spec (attr_range low high) sel) as H2.
      pose proof (append_attr_spec (sel ++ selection (attr_range low high)) high) as H3.
      assert (sel ++ selection (attr_range low high ++ [high])
        = (sel ++ selection (attr_range low high)) ++ option_list (attr_of (attrlist rec) high)) as ->.
      { rewrite selection_app, app_assoc. by f_equal. }
      pose proof (answer_size sel) as Hsz.
      set (sel1 := sel ++ selection (attr_range low high)) in *. set (sel2 := sel1 ++ _) in *.
      clear H1.
      destruct (answer b size sel) as [r| |]; destruct (answer b size sel1) as [r1| |];
        destruct (answer b size sel2) as [r2| |]; cbn [mbind run_bind] in *;
        try (rewrite (Hsz r eq_refl)); rewrite ?Hno;
        try done; try rewrite H2; cbn [mbind run_bind fst snd] in *; try rewrite H3; try done.
Qed.
End attributes.

Lemma answer_settle b size sel : answer b size (map settle sel) = answer b size sel.
Proof.
  unfold answer. assert (flat_map attr_wire (map settle sel) = flat_map attr_wire sel) as ->.
  { induction sel as [|d sel IH]; [done|]. cbn [map flat_map]. by rewrite attr_wire_settle, IH. }
  by destruct sel.
Qed.

Lemma selection_settle rec ids :
  selection (set_attrlist rec (map settle (attrlist rec))) ids = map settle (selection rec ids).
Proof.
  induction ids as [|id ids IH]; [done|]. rewrite !selection_cons, IH.
  cbn [attrlist set_attrlist]. rewrite attr_of_settle. by destruct (attr_of (attrlist rec) id).
Qed.

(** C17. For a record with an element inside another (so that the block that
    sdp_gen_record_pdu counts for it has room), the server answers with the attributes that
    the request names, in the order of the request, as often as it names them, each with its
    number, in one sequence; the only limit is the block of the response, behind whose end
    the server writes when the attributes do not fit.  The range 0x0000-0xffff is an exception
    when the whole record is not longer than the response may be: the record is copied over
    what was written for the names in front of it, and the names behind it are ignored.  An
    element that is neither a number nor a range ends the request with an error, and what the
    names in front of it gave stays in the response. *)
Theorem sdp_extract_attrs_selects late malloc fuel rec l b size :
  (forall n, 0 <= n -> zlen (malloc n) = n) -> attrlist rec <> [] ->
  Forall (gen_ok late fuel) (attrlist rec) -> sum (room late) (attrlist rec) < 2 ^ 32 ->
  zlen (attrlist rec) < sum nodes (attrlist rec) ->
  let whole := record_wire (attrlist rec) in
  Forall (names_some (zlen whole) size) l -> zlen b < 2 ^ 32 -> get_u8 b 0 = Some 0 ->
  let named := answer b size (selection rec (flat_map des_ids l)) in
  let rec' := Some (set_attrlist rec (map settle (attrlist rec))) in
  (l <> [] -> extract_attrs late malloc fuel (Some rec) l (Buf (Some b) 0 size)
    = (r ← named; Done (0, r, rec'))) /\
  (forall d l2, names_all (zlen whole) size d ->
     extract_attrs late malloc fuel (Some rec) (l ++ d :: l2) (Buf (Some b) 0 size)
       = (r ← named; blk ← lift (blk ← data r; st blk 0 whole);
          Done (0, Buf (Some blk) (zlen whole) size, rec'))) /\
  (forall d l2, names_wrong d ->
     extract_attrs late malloc fuel (Some rec) (l ++ d :: l2) (Buf (Some b) 0 size)
       = (r ← named; Done (SDP_INVALID_SYNTAX, r, rec'))).
Proof.
  intros Hm Hne HF Hsum Hnest whole HN Hb Hb0 named rec'.
  destruct (gen_record_fits late malloc fuel Hm rec Hne HF Hsum Hnest) as (rest & bs & Hgen & Hsmall).
  fold whole in Hgen, Hsmall. set (rec1 := set_attrlist rec (map settle (attrlist rec))) in *.
  set (pdu := Buf (Some (whole ++ rest)) (zlen whole) bs) in *.
  assert (Forall (gen_ok late fuel) (attrlist rec1)) as HF1.
  { cbn. apply Forall_map. eapply list.Forall_impl; [exact HF|]. cbn. apply gen_ok_settle. }
  assert (map settle (attrlist rec1) = attrlist rec1) as Hset.
  { cbn. rewrite map_map. apply map_ext. apply settle_idem. }
  assert (forall l2, l ++ l2 <> [] -> extract_attrs late malloc fuel (Some rec) (l ++ l2) (Buf (Some b) 0 size)
    = (r ← named; '(status, buf, rec) ← extract_attrs_loop late malloc fuel rec1 pdu l2 r;
       Done (status, buf, Some rec))) as Hloop.
  { intros l2 Hl. unfold extract_attrs. rewrite Hgen.
    pose proof (extract_attrs_loop_spec late malloc fuel b size Hm Hb Hb0 rec1 HF1 Hset pdu l l2 HN []) as HE.
    assert (answer b size [] = Done (Buf (Some b) 0 size)) as Ha by done.
    rewrite Ha in HE. cbn [mbind run_bind app] in HE |- *.
    destruct (l ++ l2) as [|d l3]; [done|]. rewrite HE. unfold rec1, named.
    rewrite selection_settle, answer_settle. by destruct (answer b size _). }
  split_and!.
  - intros Hl. rewrite <- (app_nil_r l) at 1. rewrite Hloop by (by rewrite app_nil_r). reflexivity.
  - intros d l2 Hd. rewrite Hloop by (by destruct l). destruct d as [u|dtd v]; [done|].
    destruct Hd as (-> & Hlow & Hhigh & Hle). unfold named.
    destruct (answer b size _) as [r| |] eqn:Ha; [|done..]. apply answer_size in Ha.
    cbn [mbind run_bind extract_attrs_loop]. rewrite Hlow, Hhigh, Ha.
    change (Dtd.SDP_UINT32 =? Dtd.SDP_UINT16) with false.
    change (Dtd.SDP_UINT32 =? Dtd.SDP_UINT32) with true. cbn [Z.eqb andb pdu data data_size].
    rewrite (proj2 (Z.leb_le _ _)) by done. cbn iota. change (0 =? 0) with true.
    rewrite (ld_mid [] whole rest) by done.
    destruct r as [[blk|] ds bs']; cbn in *; [|done]. subst.
    destruct (st blk 0 whole); [|done]. cbn. unfold set_data_size.
    by rewrite u32_small by (unfold is_u32; pose proof (zlen_nonneg whole); lia).
  - intros d l2 Hd. rewrite Hloop by (by destruct l). unfold named.
    destruct (answer b size _) as [r| |]; [|done..]. cbn [mbind run_bind extract_attrs_loop].
    destruct d as [u|dtd v]; [done|]. destruct Hd as [H1 H2].
    by rewrite (proj2 (Z.eqb_neq _ _) H1), (proj2 (Z.eqb_neq _ _) H2).
Qed.

(** The second attribute, and the range that has both, fit 40 bytes; once more is too much;
    behind the range of all numbers nothing is read, not even what is wrong there. *)
Lemma sdp_extract_attrs_selects_witness :
  let m := fun n => replicate (Z.to_nat n) 170 in
  let l := [DAttr Dtd.SDP_UINT16 1; DAttr Dtd.SDP_UINT32 1] in
  extract_attrs true m 10 (Some sample) l (Buf (Some (replicate 40 0)) 0 USHRT_MAX)
    = Done (0, Buf (Some ([0x35; 32; 9; 0; 1; 0x35; 7; 0x19; 0x11; 1; 0x25; 2; 0x41; 0x42;
                           9; 0; 0; 10; 0; 1; 0; 1;
                           9; 0; 1; 0x35; 7; 0x19; 0x11; 1; 0x25; 2; 0x41; 0x42] ++ replicate 6 0))
              34 USHRT_MAX, Some sample) /\
  extract_attrs true m 10 (Some sample) (l ++ l) (Buf (Some (replicate 40 0)) 0 USHRT_MAX) = Fault /\
  extract_attrs true m 10 (Some sample) (l ++ [DAttr Dtd.SDP_UINT32 0xffff; DUuid (SDP_UUID16 1)])
      (Buf (Some (replicate 40 0)) 0 USHRT_MAX)
    = Done (0, Buf (Some ([0x35; 20; 9; 0; 0; 10; 0; 1; 0; 1;
                           9; 0; 1; 0x35; 7; 0x19; 0x11; 1; 0x25; 2; 0x41; 0x42] ++
                           [9; 0; 1; 0x35; 7; 0x19; 0x11; 1; 0x25; 2; 0x41; 0x42] ++
                           replicate 6 0))
              22 USHRT_MAX, Some sample).
Proof.
  assert (Forall (names_some (zlen (record_wire (attrlist sample))) USHRT_MAX)
    [DAttr Dtd.SDP_UINT16 1; DAttr Dtd.SDP_UINT32 1]) as Hl.
  { constructor; [left; reflexivity|]. constructor; [right|constructor].
    split; [reflexivity|]. intros (_ & _ & H & _). vm_compute in H. discriminate H. }
  assert (Forall (gen_ok true 10) (attrlist sample)) as Hg
    by (repeat constructor; vm_compute; reflexivity || discriminate || lia).
  assert (forall n, 0 <= n -> zlen (replicate (Z.to_nat n) 170) = n) as Hm
    by (intros n Hn; unfold zlen; rewrite length_replicate; lia).
  pose proof (fun l H => sdp_extract_attrs_selects true (fun n => replicate (Z.to_nat n) 170) 10 sample
      l (replicate 40 0) USHRT_MAX Hm ltac:(discriminate) Hg ltac:(reflexivity) ltac:(reflexivity)
      H ltac:(reflexivity) ltac:(reflexivity)) as HT.
  split; [|split].
  - etransitivity; [apply (proj1 (HT _ Hl)); discriminate|vm_compute; reflexivity].
  - etransitivity; [apply (proj1 (HT _ (Forall_app_2 _ _ _ Hl Hl))); discriminate|vm_compute; reflexivity].
  - etransitivity; [apply (proj1 (proj2 (HT _ Hl)))|vm_compute; reflexivity].
    split; [reflexivity|]. split; [reflexivity|]. split; [reflexivity|]. vm_compute. discriminate.
Defined.
