(* ===== verification/SdpSearch.v ===== *)
(** Theorems on the search of the SDP server (src/sdpd-request.c): which records match, and
    the pages of handles with which the server answers. *)
From Stdlib Require Import ZArith Lia.
From S2P Require Import Prelude Blocks Libc Uuid Eir Sdp SdpPdu SdpSpec SdpRecord SdpParse SdpProps SdpDb SdpRequest SdpServer.
From stdpp Require Import base numbers list gmap option.

Local Open Scope Z_scope.

#[export] Instance uuid_t_eq_dec : EqDecision uuid_t.
Proof. solve_decision. Defined.

(** ** Matching *)

(** All UUIDs of the search are in the pattern of the record. *)
Definition satisfies (us : list uuid_t) (rec : sdp_record) : bool :=
  bool_decide (Forall (fun u => sdp_uuid_to_uuid128 u ∈ pattern rec) us).

Lemma find_uuid p u :
  Forall uuid128_ok p -> uuid128_ok u ->
  sdp_list_find sdp_uuid128_cmp p u = (if bool_decide (u ∈ p) then Some u else None).
Proof.
  intros Hp (b & -> & Hb). induction Hp as [|x p (a & -> & Ha) Hp IH]; [done|].
  cbn [sdp_list_find]. destruct (Z.eqb_spec (sdp_uuid128_cmp (SDP_UUID128 a) (SDP_UUID128 b)) 0) as [He|He].
  - apply Libc.memcmp_eq in He; [|cbn; lia]. cbn in He. subst.
    rewrite bool_decide_eq_true_2 by constructor. done.
  - rewrite IH. destruct (decide (SDP_UUID128 b ∈ p)) as [Hin|Hin].
    + by rewrite !bool_decide_eq_true_2 by (done || by constructor).
    + rewrite !bool_decide_eq_false_2; [done| |done].
      rewrite elem_of_cons. intros [[= ->]|]; [|done]. apply He. unfold sdp_uuid128_cmp. cbn.
      by apply Libc.memcmp_eq.
Qed.

Lemma match_uuids_spec us rec :
  Forall uuid128_ok (pattern rec) -> Forall uuid_any_ok us ->
  match_uuids us (pattern rec) = (if satisfies us rec then 1 else 0).
Proof.
  intros Hp Hus. unfold satisfies. induction Hus as [|u us Hu Hus IH]; [done|].
  cbn [match_uuids]. rewrite find_uuid by (done || by apply to_uuid128_ok).
  destruct (decide (sdp_uuid_to_uuid128 u ∈ pattern rec)) as [Hin|Hin].
  - rewrite bool_decide_eq_true_2 by done. rewrite IH.
    destruct (decide (Forall (fun u => sdp_uuid_to_uuid128 u ∈ pattern rec) us)).
    + by rewrite !bool_decide_eq_true_2 by (done || by constructor).
    + rewrite !bool_decide_eq_false_2; [done| |done]. intros H. by inversion H.
  - rewrite (bool_decide_eq_false_2 _ Hin). rewrite bool_decide_eq_false_2; [done|].
    intros H. by inversion H.
Qed.

(** When the search names no UUID twice, the comparison of the lengths changes nothing. *)
Lemma match_uuid_spec us rec :
  Forall uuid128_ok (pattern rec) -> Forall uuid_any_ok us -> NoDup (sdp_uuid_to_uuid128 <$> us) ->
  (0 <? sdp_match_uuid us (pattern rec)) = satisfies us rec.
Proof.
  intros Hp Hus Hnd. unfold sdp_match_uuid.
  destruct (Z.ltb_spec (zlen (pattern rec)) (zlen us)) as [Hlt|_].
  - unfold satisfies. rewrite bool_decide_eq_false_2; [done|]. intros HF.
    assert (sdp_uuid_to_uuid128 <$> us ⊆+ pattern rec) as Hsub.
    { apply NoDup_submseteq; [done|]. intros v Hv. apply list_elem_of_fmap in Hv as (u & -> & Hin).
      rewrite list.Forall_forall in HF. by apply HF. }
    apply submseteq_length in Hsub. rewrite length_fmap in Hsub. unfold zlen in Hlt. lia.
  - rewrite match_uuids_spec by done. by destruct (satisfies us rec).
Qed.

(** ** Handles *)

(** The handles of the records that are found, in the order of the database. *)
Definition found (s : server) (us : list uuid_t) (device : bdaddr) (l : list Z) : list Z :=
  omap (fun r => rec ← store s !! r;
    if satisfies us rec && sdp_check_access s (handle rec) device then Some (handle rec) else None) l.

Lemma found_cons s us device r rec l :
  store s !! r = Some rec ->
  found s us device (r :: l)
    = (if satisfies us rec && sdp_check_access s (handle rec) device then [handle rec] else [])
      ++ found s us device l.
Proof.
  intros Hr. unfold found. cbn [omap list_omap]. rewrite Hr. cbn [mbind option_bind].
  by destruct (_ && _).
Qed.

Definition handles (l : list Z) : bytes := flat_map (be_bytes 4) l.

Lemma handles_app l k : handles (l ++ k) = handles l ++ handles k.
Proof. apply flat_map_app. Qed.

Lemma handles_length l : zlen (handles l) = 4 * zlen l.
Proof.
  induction l as [|h l IH]; [done|]. unfold handles in *. cbn [flat_map].
  rewrite zlen_app, zlen_be_bytes, IH, zlen_cons. lia.
Qed.

(** The records that the database names exist, and their patterns are UUIDs of 128 bits. *)
Definition db_live (s : server) : Prop :=
  Forall (fun r => exists rec, store s !! r = Some rec /\ Forall uuid128_ok (pattern rec)) (service_db s).

Section search.
Context (s : server) (us : list uuid_t) (device : bdaddr) (b : bytes) (ds size : Z).
Hypothesis Hus : Forall uuid_any_ok us.
Hypothesis Hnd : NoDup (sdp_uuid_to_uuid128 <$> us).

(** The block in which [pre] was written. *)
Definition written (pre : bytes) (ds : Z) : sdp_buf := Buf (Some (pre ++ drop (length pre) b)) ds size.

Lemma put_written pre ds' x off :
  off = zlen pre -> zlen pre + zlen x <= zlen b ->
  buf_put (written pre ds') (fun b => st b off x) = Done (written (pre ++ x) ds').
Proof using Type. intros -> Hlen. unfold buf_put, written. cbn [data]. by rewrite st_pre. Qed.

Lemma search_loop_spec l expected :
  Forall (fun r => exists rec, store s !! r = Some rec /\ Forall uuid128_ok (pattern rec)) l ->
  forall pre cnt hs, cnt <= expected -> hs = take (Z.to_nat (expected - cnt)) (found s us device l) ->
  zlen pre + 4 * zlen hs <= zlen b ->
  search_loop s l us device expected cnt (zlen pre) (written pre ds)
    = Done (written (pre ++ handles hs) ds, cnt + zlen hs).
Proof using Hus Hnd.
  induction 1 as [|r l (rec & Hr & Hp) Hl IH]; intros pre cnt hs Hcnt Hhs Hlen; cbn [search_loop].
  - cbn in Hhs. rewrite take_nil in Hhs. subst. by rewrite app_nil_r, Z.add_0_r.
  - destruct (Z.ltb_spec cnt expected) as [Hlt|Hge].
    2:{ replace (Z.to_nat (expected - cnt)) with 0%nat in Hhs by lia. rewrite take_0 in Hhs. subst.
        by rewrite app_nil_r, Z.add_0_r. }
    unfold deref. rewrite Hr. cbn [lift mbind run_bind]. unfold rec_matches.
    rewrite match_uuid_spec by done. rewrite (found_cons _ _ _ _ rec) in Hhs by done.
    destruct (satisfies us rec && sdp_check_access s (handle rec) device).
    + replace (Z.to_nat (expected - cnt)) with (S (Z.to_nat (expected - (cnt + 1)))) in Hhs by lia.
      cbn [take app] in Hhs. set (hs1 := take _ (found s us device l)) in Hhs. subst hs.
      rewrite zlen_cons in Hlen. pose proof (zlen_nonneg hs1).
      unfold put_be32. rewrite put_written by (rewrite ?zlen_be_bytes; lia). cbn [mbind run_bind].
      replace (zlen pre + 4) with (zlen (pre ++ be_bytes 4 (handle rec))) by (by rewrite zlen_app, zlen_be_bytes).
      rewrite (IH _ (cnt + 1) hs1); [|lia|done|rewrite zlen_app, zlen_be_bytes; lia].
      unfold handles. cbn [flat_map]. rewrite <- app_assoc, zlen_cons.
      by replace (cnt + 1 + zlen hs1) with (cnt + (1 + zlen hs1)) by lia.
    + by apply IH.
Qed.
End search.

(** ** Pages *)

Lemma put16_written b size pre ds v off :
  off = zlen pre -> zlen pre + 2 <= zlen b ->
  buf_put (written b size pre ds) (fun b => put_be16 v b off)
    = Done (written b size (pre ++ be_bytes 2 v) ds).
Proof. intros. apply put_written; [done|by rewrite zlen_be_bytes]. Qed.

Lemma st_behind x y w off :
  off = zlen x -> zlen w <= zlen y -> st (x ++ y) off w = Some ((x ++ w) ++ drop (length w) y).
Proof.
  intros -> Hw. unfold st. pose proof (zlen_nonneg x).
  rewrite decide_True by (rewrite zlen_app; lia). unfold zlen.
  replace (Z.to_nat (Z.of_nat (length x) + Z.of_nat (length w))) with (length x + length w)%nat by lia.
  rewrite Nat2Z.id, take_app_length, <- drop_drop, drop_app_length. by rewrite app_assoc.
Qed.

Lemma put_behind x y w off ds size :
  off = zlen x -> zlen w <= zlen y ->
  buf_put (Buf (Some (x ++ y)) ds size) (fun b => st b off w)
    = Done (Buf (Some ((x ++ w) ++ drop (length w) y)) ds size).
Proof. intros. unfold buf_put. cbn [data]. by rewrite st_behind. Qed.

Lemma set_cstate_behind x y c ds size :
  ds = zlen x -> zlen x + 9 < 2 ^ 32 -> zlen (cont_wire c) <= zlen y ->
  match c with None => True | Some c => length (pad c) = 2%nat end ->
  exists y', sdp_set_cstate_pdu (Buf (Some (x ++ y)) ds size) c
    = Done (Buf (Some ((x ++ cont_wire c) ++ y')) (zlen (x ++ cont_wire c)) size, zlen (cont_wire c)).
Proof.
  intros -> Hds Hy Hc. pose proof (cont_wire_length c Hc) as Hcl. pose proof (zlen_nonneg x).
  assert (forall k, 0 <= k < 2 ^ 32 -> u32 k = k) as Hu by (intros; unfold u32; by apply Z.mod_small).
  unfold sdp_set_cstate_pdu. destruct c as [c|]; cbn [data_size].
  - unfold put_u8. rewrite (put_behind x y [u8 8]) by (rewrite ?zlen_1; lia). cbn [mbind run_bind data_size].
    assert (zlen (cstate_bytes c) = 8) as H8.
    { unfold cstate_bytes. rewrite !zlen_app. unfold zlen. by rewrite !le_bytes_length, Hc. }
    cbn [cont_wire] in *. rewrite zlen_app, H8 in Hy.
    rewrite (put_behind (x ++ [u8 8])).
    + cbn [mbind run_bind]. unfold set_data_size. cbn [data data_size buf_size].
      exists (drop (length (cstate_bytes c)) (drop 1 y)).
      rewrite <- (app_assoc x [u8 8]), !zlen_app, H8, Hu by lia.
      change (u8 8) with 8. done.
    + rewrite zlen_app. done.
    + rewrite H8. change (length [u8 8]) with 1%nat. unfold zlen in *. rewrite length_drop. cbn in Hy. lia.
  - unfold put_u8. cbn [cont_wire] in *. rewrite (put_behind x y [u8 0]) by (rewrite ?zlen_1; lia).
    cbn [mbind run_bind]. unfold set_data_size. cbn [data data_size buf_size].
    exists (drop 1 y). rewrite zlen_app, zlen_1, Hu by lia. done.
Qed.

Lemma put_over x w v y off ds size :
  off = zlen x -> length w = 2%nat ->
  buf_put (Buf (Some (x ++ w ++ y)) ds size) (fun b => put_be16 v b off)
    = Done (Buf (Some (x ++ be_bytes 2 v ++ y)) ds size).
Proof.
  intros -> Hw. unfold put_be16. pose proof (zlen_be_bytes 2 v) as Hv. unfold zlen in Hv.
  assert (length (be_bytes 2 v) = 2%nat) as Hv2 by lia.
  rewrite put_behind; [|done|unfold zlen; rewrite length_app; lia].
  by rewrite Hv2, <- Hw, drop_app_length, <- app_assoc.
Qed.

Lemma put_over0 w v y ds size :
  length w = 2%nat ->
  buf_put (Buf (Some (w ++ y)) ds size) (fun b => put_be16 v b 0)
    = Done (Buf (Some (be_bytes 2 v ++ y)) ds size).
Proof. intros Hw. by apply (put_over [] w v y 0 ds size). Qed.

(** What is sent of a response. *)
Definition sent_bytes (buf : sdp_buf) : option bytes :=
  b ← data buf; ld b 0 (data_size buf).

(** The handles from number [i] on, [n] at most: how many there are, how many are in the page,
    the handles, and where the next page starts. *)
Definition page (hs : list Z) (i n t : Z) (p : bytes) : bytes :=
  let part := take (Z.to_nat n) (drop (Z.to_nat i) hs) in
  be_bytes 2 (zlen hs) ++ be_bytes 2 (zlen part) ++ handles part ++
  cont_wire (if i + zlen part =? zlen hs then None else Some (CState t (i + zlen part) p)).

(** The response that is kept. *)
Definition whole (hs : list Z) : bytes :=
  be_bytes 2 (zlen hs) ++ be_bytes 2 (zlen hs) ++ handles hs.

Lemma finish_page w1 w2 part y size n i last t s0 p :
  length w1 = 2%nat -> length w2 = 2%nat -> length p = 2%nat -> i - last = zlen part ->
  4 * zlen part < 2 ^ 18 -> is_u16 i -> 9 <= zlen y ->
  exists y', search_finish (Buf (Some (w1 ++ w2 ++ handles part ++ y)) 4 size) n i last
      (4 * zlen part) (CState t s0 p)
    = let x := be_bytes 2 n ++ be_bytes 2 (zlen part) ++ handles part ++
               cont_wire (if i =? n then None else Some (CState t i p)) in
      Done (Buf (Some (x ++ y')) (zlen x) size).
Proof.
  intros Hw1 Hw2 Hp Hi Hpart Hi16 Hy. unfold search_finish, set_data_size. cbn [data data_size buf_size].
  pose proof (zlen_nonneg part). unfold is_u16 in Hi16.
  assert (u32 (4 + 4 * zlen part) = 4 + 4 * zlen part) as -> by (unfold u32; apply Z.mod_small; lia).
  rewrite put_over0 by done. cbn [mbind run_bind].
  rewrite (put_over (be_bytes 2 n) w2) by (done || by rewrite zlen_be_bytes). cbn [mbind run_bind].
  rewrite Hi. cbn [timestamp pad]. assert (u16 i = i) as -> by (unfold u16; apply Z.mod_small; lia).
  set (c := if i =? n then None else Some (CState t i p)).
  assert (match c with None => True | Some c => length (pad c) = 2%nat end) as Hc.
  { unfold c. by destruct (i =? n). }
  pose proof (cont_wire_length c Hc).
  set (x := be_bytes 2 n ++ be_bytes 2 (zlen part) ++ handles part).
  assert (zlen x = 4 + 4 * zlen part) as Hx.
  { unfold x. rewrite !zlen_app, !zlen_be_bytes, handles_length. lia. }
  destruct (set_cstate_behind x y c (4 + 4 * zlen part) size) as (y' & HS); [by rewrite Hx|lia|lia|done|].
  exists y'. unfold x in HS. rewrite <- !app_assoc in HS. rewrite HS. cbn [mbind run_bind fst].
  by rewrite <- !app_assoc.
Qed.

Lemma copy_handles_spec hs w b size ds n : forall i pre,
  length w = 4%nat -> 0 <= i <= zlen hs ->
  let part := take n (drop (Z.to_nat i) hs) in
  zlen pre + 4 * zlen part <= zlen b ->
  copy_handles n (w ++ handles hs) i (zlen hs) (zlen pre) (written b size pre ds)
    = Done (written b size (pre ++ handles part) ds, i + zlen part).
Proof.
  induction n as [|n IH]; intros i pre Hw Hi part Hlen; cbn [copy_handles].
  { unfold part. rewrite take_0. cbn. by rewrite app_nil_r, Z.add_0_r. }
  destruct (Z.ltb_spec i (zlen hs)) as [Hlt|Hge].
  2:{ unfold part. rewrite drop_ge by (unfold zlen in *; lia). rewrite take_nil. cbn.
      by rewrite app_nil_r, Z.add_0_r. }
  destruct (lookup_lt_is_Some_2 hs (Z.to_nat i)) as [h Hh]; [unfold zlen in *; lia|].
  pose proof (drop_S hs h (Z.to_nat i) Hh) as Hd.
  assert (w ++ handles hs = (w ++ handles (take (Z.to_nat i) hs)) ++ be_bytes 4 h
    ++ handles (drop (S (Z.to_nat i)) hs)) as Hc.
  { rewrite <- (take_drop (Z.to_nat i) hs) at 1. rewrite Hd, handles_app. by rewrite <- app_assoc. }
  rewrite Hc at 1. rewrite (ld_mid (w ++ handles (take (Z.to_nat i) hs)) (be_bytes 4 h)).
  2:{ rewrite zlen_app, handles_length. unfold zlen at 1. rewrite Hw. unfold zlen.
      rewrite length_take. unfold zlen in Hlt. lia. }
  2:{ by rewrite zlen_be_bytes. }
  cbn [lift mbind run_bind]. unfold part in Hlen |- *. rewrite Hd in Hlen |- *. cbn [take] in *.
  set (part1 := take n (drop (S (Z.to_nat i)) hs)) in *. rewrite zlen_cons in Hlen.
  pose proof (zlen_nonneg part1).
  rewrite put_written by (rewrite ?zlen_be_bytes; lia). cbn [mbind run_bind].
  replace (zlen pre + 4) with (zlen (pre ++ be_bytes 4 h)) by (by rewrite zlen_app, zlen_be_bytes).
  assert (take n (drop (Z.to_nat (i + 1)) hs) = part1) as Hp1.
  { unfold part1. do 2 f_equal. lia. }
  rewrite (IH (i + 1)); [|done|lia|].
  - rewrite Hp1. unfold handles at 2. cbn [flat_map]. rewrite <- app_assoc, zlen_cons.
    by replace (i + 1 + zlen part1) with (i + (1 + zlen part1)) by lia.
  - rewrite Hp1, zlen_app, zlen_be_bytes. lia.
Qed.

Lemma page_count mtu expected :
  is_u16 expected -> 18 <= mtu < 2 ^ 31 ->
  u16 (MIN expected (Z.shiftr (mtu - HDR - 2 - 2 - SDP_CONT_STATE_SIZE) 2))
    = Z.min expected ((mtu - 18) / 4).
Proof.
  intros He Hm. unfold is_u16 in He. unfold HDR, SDP_CONT_STATE_SIZE.
  replace (mtu - 5 - 2 - 2 - (1 + 8)) with (mtu - 18) by lia. rewrite Z.shiftr_div_pow2 by lia.
  change (2 ^ 2) with 4. assert (0 <= (mtu - 18) / 4) by (apply Z.div_pos; lia).
  unfold u16, MIN. destruct (Z.ltb_spec expected ((mtu - 18) / 4)).
  - rewrite Z.min_l, Z.mod_small by lia. done.
  - rewrite Z.min_r, Z.mod_small by lia. done.
Qed.

Lemma des_uuids_map us : des_uuids (DUuid <$> us) = us.
Proof. unfold des_uuids. induction us as [|u us IH]; [done|]. cbn in *. by f_equal. Qed.

Lemma sent_bytes_start x y size : sent_bytes (Buf (Some (x ++ y)) (zlen x) size) = Some x.
Proof. unfold sent_bytes. cbn [data data_size mbind option_bind]. by apply ld_start. Qed.

(** The counters at the start, still zero. *)
Definition zeros : bytes := be_bytes 2 0 ++ be_bytes 2 0.

Lemma take_all_z {A} (n : Z) (l : list A) : zlen l <= n -> take (Z.to_nat n) l = l.
Proof. unfold zlen. intros. apply take_ge. lia. Qed.

Section pages.
Context (now : Z) (s : server) (req : sdp_req) (us : list uuid_t) (expected : Z).
Hypothesis Hus : Forall uuid_any_ok us.
Hypothesis Hnd : NoDup (sdp_uuid_to_uuid128 <$> us).
Hypothesis He : is_u16 expected.
Hypothesis Hmtu : 18 <= req_mtu req < 2 ^ 31.
Let n := Z.min expected ((req_mtu req - 18) / 4).
Let hs := take (Z.to_nat expected) (found s us (req_device req) (service_db s)).

Lemma hs_short : zlen hs <= expected.
Proof using He. unfold hs, zlen, is_u16 in *. rewrite length_take. lia. Qed.

Lemma first_page b size :
  db_live s -> 0 < now -> 13 + 4 * zlen hs <= zlen b ->
  exists rsp s', search_respond now s req (DUuid <$> us) expected None (Buf (Some b) 0 size)
      = Done (0, rsp, s') /\
    sent_bytes rsp = Some (page hs 0 n now [0; 0]) /\
    s' = (if n <? zlen hs then set_cstates s ((now, whole hs) :: cstates s) else s).
Proof using Hus Hnd He Hmtu.
  intros Hlive Hnow Hb. pose proof (zlen_nonneg hs) as Hnn. pose proof hs_short as Hle. unfold is_u16 in He.
  assert (0 <= n) as Hn0 by (unfold n; pose proof (Z.div_pos (req_mtu req - 18) 4); lia).
  unfold search_respond. rewrite page_count by done. fold n. rewrite des_uuids_map.
  change (Buf (Some b) 0 size) with (written b size [] 0).
  rewrite put16_written by (rewrite ?zlen_be_bytes, ?(zlen_nil (A:=Z)); lia). cbn [mbind run_bind app].
  change (set_data_size (written b size (be_bytes 2 0) 0) _) with (written b size (be_bytes 2 0) 2).
  rewrite put16_written by (rewrite ?zlen_be_bytes, ?(zlen_nil (A:=Z)); lia). cbn [mbind run_bind app].
  change (set_data_size (written b size (be_bytes 2 0 ++ be_bytes 2 0) 2) _) with (written b size zeros 4).
  pose proof (search_loop_spec s us (req_device req) b 4 size Hus Hnd (service_db s) expected Hlive
    zeros 0 hs ltac:(lia)) as HL.
  change (zlen zeros) with 4 in HL. unfold sdp_get_record_list. rewrite HL; [|by rewrite Z.sub_0_r|change (zlen (be_bytes 2 0 ++ be_bytes 2 0)) with 4; lia].
  cbn [mbind run_bind]. rewrite Z.add_0_l.
  set (y := drop (length (zeros ++ handles hs)) b).
  assert (zlen y = zlen b - 4 - 4 * zlen hs) as Hy.
  { unfold y. pose proof (handles_length hs) as Hh. unfold zlen in *. rewrite length_drop, length_app.
    change (length zeros) with 4%nat. lia. }
  assert (forall k, 0 <= k < 2 ^ 32 -> u32 k = k) as Hu by (intros; unfold u32; by apply Z.mod_small).
  assert (set_data_size (written b size (zeros ++ handles hs) 4)
      (data_size (written b size (zeros ++ handles hs) 4) + 4 * zlen hs)
    = Buf (Some (be_bytes 2 0 ++ be_bytes 2 0 ++ handles hs ++ y)) (4 + 4 * zlen hs) size) as ->.
  { unfold set_data_size, written. cbn [data data_size buf_size]. fold y. rewrite Hu by lia.
    by rewrite <- app_assoc. }
  rewrite put_over0 by done. cbn [mbind run_bind].
  rewrite (put_over (be_bytes 2 (zlen hs))) by (done || by rewrite zlen_be_bytes). cbn [mbind run_bind].
  assert (zlen (whole hs) = 4 + 4 * zlen hs) as Hwl.
  { unfold whole. rewrite !zlen_app, !zlen_be_bytes, handles_length. lia. }
  assert (be_bytes 2 (zlen hs) ++ be_bytes 2 (zlen hs) ++ handles hs ++ y = whole hs ++ y) as Hwy.
  { unfold whole. by rewrite <- !app_assoc. }
  destruct (Z.ltb_spec n (zlen hs)) as [Hlt|Hge].
  - unfold sdp_cstate_alloc_buf. cbn [data data_size]. rewrite Hwy, <- Hwl, ld_start by done.
    cbn [lift mbind run_bind].
    rewrite (proj2 (Z.ltb_lt 0 now)) by done. rewrite <- Hwy.
    assert (handles hs = handles (take (Z.to_nat n) hs) ++ handles (drop (Z.to_nat n) hs)) as Hhh.
    { by rewrite <- handles_app, take_drop. }
    assert (zlen (take (Z.to_nat n) hs) = n) as Htn by (unfold zlen in *; rewrite length_take; lia).
    set (part := take (Z.to_nat n) hs) in *.
    assert (set_data_size (Buf (Some (be_bytes 2 (zlen hs) ++ be_bytes 2 (zlen hs) ++ handles hs ++ y))
        (zlen (whole hs)) size) (zlen (whole hs) - 4 * zlen hs)
      = Buf (Some (be_bytes 2 (zlen hs) ++ be_bytes 2 (zlen hs) ++ handles part
          ++ (handles (drop (Z.to_nat n) hs) ++ y))) 4 size) as ->.
    { unfold set_data_size. cbn [data data_size buf_size]. rewrite Hwl, Hu, Hhh, <- app_assoc by lia.
      by replace (4 + 4 * zlen hs - 4 * zlen hs) with 4 by lia. }
    destruct (finish_page (be_bytes 2 (zlen hs)) (be_bytes 2 (zlen hs)) part
      (handles (drop (Z.to_nat n) hs) ++ y) size (zlen hs) n 0 now 0 [0; 0]) as (y' & HFP);
      try done; try lia; try (unfold is_u16; lia).
    { rewrite zlen_app. pose proof (zlen_nonneg (handles (drop (Z.to_nat n) hs))). lia. }
    rewrite Htn in HFP. rewrite HFP.
    cbn [mbind run_bind]. eexists _, _. split; [done|]. split; [|done].
    cbv zeta. rewrite sent_bytes_start. unfold page. cbv zeta. change (drop (Z.to_nat 0) hs) with hs.
    fold part. by rewrite Htn, Z.add_0_l.
  - rewrite Hwy, <- Hwl.
    destruct (set_cstate_behind (whole hs) y None (zlen (whole hs)) size) as (y' & ->);
      [done|lia|change (zlen (cont_wire None)) with 1; lia|done|].
    cbn [mbind run_bind fst snd]. eexists _, _. split; [done|]. split; [|done].
    rewrite sent_bytes_start. unfold page, whole. cbv zeta. change (drop (Z.to_nat 0) hs) with hs.
    rewrite take_all_z by done. rewrite Z.add_0_l, Z.eqb_refl. by rewrite <- !app_assoc.
Qed.

Lemma next_page s1 c pat b size :
  sdp_get_cached_rsp s1 c = Some (whole hs) -> 0 <= sent c <= zlen hs -> length (pad c) = 2%nat ->
  zlen hs < 2 ^ 15 -> 13 + 4 * n <= zlen b ->
  exists rsp, search_respond now s1 req pat expected (Some c) (Buf (Some b) 0 size) = Done (0, rsp, s1) /\
    sent_bytes rsp = Some (page hs (sent c) n (timestamp c) (pad c)).
Proof using He Hmtu.
  intros Hc Hi Hp Hshort Hb. pose proof (zlen_nonneg hs) as Hnn. unfold is_u16 in He.
  assert (0 <= n <= 65535) as Hn0 by (unfold n; pose proof (Z.div_pos (req_mtu req - 18) 4); lia).
  unfold search_respond. rewrite page_count by done. fold n.
  change (Buf (Some b) 0 size) with (written b size [] 0).
  rewrite put16_written by (rewrite ?zlen_be_bytes, ?(zlen_nil (A:=Z)); lia). cbn [mbind run_bind app].
  change (set_data_size (written b size (be_bytes 2 0) 0) _) with (written b size (be_bytes 2 0) 2).
  rewrite put16_written by (rewrite ?zlen_be_bytes, ?(zlen_nil (A:=Z)); lia). cbn [mbind run_bind app].
  change (set_data_size (written b size (be_bytes 2 0 ++ be_bytes 2 0) 2) _) with (written b size zeros 4).
  rewrite Hc. unfold whole. rewrite ld_start by (by rewrite zlen_be_bytes). cbn [lift mbind run_bind].
  rewrite be_val_bytes, Z.mod_small by (change (256 ^ Z.of_nat 2) with 65536; lia).
  assert (s16 (sent c) = sent c) as ->.
  { unfold s16. by rewrite (proj2 (Z.ltb_lt _ _)) by lia. }
  set (part := take (Z.to_nat n) (drop (Z.to_nat (sent c)) hs)).
  assert (zlen part <= n) as Hpn.
  { unfold part, zlen. rewrite length_take. lia. }
  assert (sent c + zlen part <= zlen hs) as Hpe.
  { unfold part, zlen in *. rewrite length_take, length_drop. lia. }
  pose proof (zlen_nonneg part).
  pose proof (copy_handles_spec hs (be_bytes 2 (zlen hs) ++ be_bytes 2 (zlen hs)) b size 4 (Z.to_nat n)
    (sent c) zeros ltac:(done) Hi) as HC. cbv zeta in HC. fold part in HC.
  change (zlen zeros) with 4 in HC. rewrite <- app_assoc in HC.
  rewrite HC by lia. cbn [mbind run_bind].
  replace (sent c + zlen part - sent c) with (zlen part) by lia.
  unfold written. set (y := drop _ b).
  assert (zlen y = zlen b - 4 - 4 * zlen part) as Hy.
  { unfold y. pose proof (handles_length part) as Hh. unfold zlen in *. rewrite length_drop, length_app.
    change (length zeros) with 4%nat. lia. }
  assert ((zeros ++ handles part) ++ y = be_bytes 2 0 ++ be_bytes 2 0 ++ handles part ++ y) as ->.
  { unfold zeros. by rewrite <- !app_assoc. }
  destruct c as [t i p]. cbn [sent timestamp pad] in *.
  destruct (finish_page (be_bytes 2 0) (be_bytes 2 0) part y size (zlen hs) (i + zlen part) i t i p)
    as (y' & ->); try done; try lia; try (unfold is_u16; lia).
  cbn [mbind run_bind]. eexists. split; [done|]. cbv zeta. rewrite sent_bytes_start. done.
Qed.
End pages.

(** C11. A search that names no UUID twice is answered with the handles of the records that
    have all its UUIDs and that the device may see, in the order of the database and at most
    as many as asked for: as many as one packet holds, the response being kept when these are
    not all, and the following ones from the kept response on every request that continues
    within it. *)
Theorem sdp_search_pages now s req us expected b size :
  Forall uuid_any_ok us -> NoDup (sdp_uuid_to_uuid128 <$> us) -> is_u16 expected ->
  18 <= req_mtu req < 2 ^ 31 -> db_live s -> 0 < now ->
  let n := Z.min expected ((req_mtu req - 18) / 4) in
  let hs := take (Z.to_nat expected) (found s us (req_device req) (service_db s)) in
  13 + 4 * zlen hs <= zlen b -> 13 + 4 * n <= zlen b -> zlen hs < 2 ^ 15 ->
  (exists rsp s', search_respond now s req (DUuid <$> us) expected None (Buf (Some b) 0 size)
      = Done (0, rsp, s') /\
    sent_bytes rsp = Some (page hs 0 n now [0; 0]) /\
    s' = (if n <? zlen hs then set_cstates s ((now, whole hs) :: cstates s) else s)) /\
  (forall s1 c pat, sdp_get_cached_rsp s1 c = Some (whole hs) -> 0 <= sent c <= zlen hs ->
    length (pad c) = 2%nat ->
    exists rsp, search_respond now s1 req pat expected (Some c) (Buf (Some b) 0 size) = Done (0, rsp, s1) /\
      sent_bytes rsp = Some (page hs (sent c) n (timestamp c) (pad c))).
Proof.
  intros Hus Hnd He Hmtu Hlive Hnow n hs Hb1 Hb2 Hshort. split.
  - by apply first_page.
  - intros s1 c pat Hc Hi Hp. by apply next_page.
Qed.

(** Three records, two of which have the UUID 0x1101; a packet takes one handle. *)
Definition three : server :=
  let rec h u := Rec h [sdp_uuid_to_uuid128 (SDP_UUID16 u)] [] SDP_UUID_UNSPEC in
  Srv (<[0 := rec 0x10000 0x1101]> (<[1 := rec 0x10001 0x1102]> (<[2 := rec 0x10002 0x1101]> ∅))) 3
    [0; 1; 2] [] [] [] None.

Definition client_req : sdp_req := Req BDADDR_ANY false 1 22 [] 0.

Lemma sdp_search_pages_witness :
  (exists rsp s', search_respond 7 three client_req [DUuid (SDP_UUID16 0x1101)] 100 None
      (Buf (Some (replicate 40 0)) 0 40) = Done (0, rsp, s') /\
    sent_bytes rsp = Some ([0; 2; 0; 1; 0; 1; 0; 0; 8; 7; 0; 0; 0; 1; 0; 0; 0]) /\
    s' = set_cstates three [(7, [0; 2; 0; 2; 0; 1; 0; 0; 0; 1; 0; 2])]) /\
  (exists rsp, search_respond 7 (set_cstates three [(7, [0; 2; 0; 2; 0; 1; 0; 0; 0; 1; 0; 2])])
      client_req [] 100 (Some (CState 7 1 [0; 0])) (Buf (Some (replicate 40 0)) 0 40)
      = Done (0, rsp, set_cstates three [(7, [0; 2; 0; 2; 0; 1; 0; 0; 0; 1; 0; 2])]) /\
    sent_bytes rsp = Some [0; 2; 0; 1; 0; 1; 0; 2; 0]).
Proof.
  destruct (sdp_search_pages 7 three client_req [SDP_UUID16 0x1101] 100 (replicate 40 0) 40)
    as [H1 H2].
  - constructor; [|constructor]. exists 2%nat. reflexivity.
  - apply (bool_decide_unpack _). vm_compute. exact I.
  - unfold is_u16. split; reflexivity || discriminate.
  - split; reflexivity || discriminate.
  - unfold db_live. cbn [service_db three]. repeat constructor;
      (eexists; split; [reflexivity|]; constructor; [eexists; split; reflexivity|constructor]).
  - reflexivity.
  - vm_compute. discriminate.
  - vm_compute. discriminate.
  - vm_compute. reflexivity.
  - split.
    + exact H1.
    + apply (H2 (set_cstates three [(7, [0; 2; 0; 2; 0; 1; 0; 0; 0; 1; 0; 2])]) (CState 7 1 [0; 0]) []).
      * vm_compute. reflexivity.
      * split; vm_compute; discriminate.
      * reflexivity.
Defined.
