(* ===== verification/SdpRepo.v ===== *)
(** Theorems on the repository of the SDP server (src/sdpd-database.c): an invariant of its
    lists, and the removal of records, by request and when a client goes. *)
From Stdlib Require Import ZArith Lia Sorted.
From S2P Require Import Prelude Blocks Libc Uuid Eir Sdp SdpPdu SdpSpec SdpRecord SdpParse SdpProps SdpDb SdpRequest SdpServer SdpSearch.
From stdpp Require Import base numbers list gmap option.

Local Open Scope Z_scope.

(** ** The lists *)

(** The records of the database exist, once each, with handles of their own; every handle
    has its entry for access. *)
Record db_ok (s : server) : Prop := {
  db_nodup : NoDup (service_db s);
  db_record r : r ∈ service_db s -> exists rec, store s !! r = Some rec /\ is_u32 (handle rec);
  db_handle r1 r2 rec1 rec2 : r1 ∈ service_db s -> r2 ∈ service_db s ->
    store s !! r1 = Some rec1 -> store s !! r2 = Some rec2 -> handle rec1 = handle rec2 -> r1 = r2;
  db_access : NoDup (acc_handle <$> access_db s);
  db_access_of h : h ∈ acc_handle <$> access_db s <->
    exists r rec, r ∈ service_db s /\ store s !! r = Some rec /\ handle rec = h;
}.

(** The records of clients are in the database, by increasing socket. *)
Record index_ok (s : server) (l : list sdp_indexed) : Prop := {
  index_sorted : StronglySorted (fun a b => ix_sock a <= ix_sock b) l;
  index_nodup : NoDup (ix_record <$> l);
  index_live i : i ∈ l -> ix_record i ∈ service_db s;
}.

Lemma sub32_0 x y : is_u32 x -> is_u32 y -> (sub32 x y =? 0) = bool_decide (x = y).
Proof.
  unfold is_u32, sub32, u32, s32. intros Hx Hy.
  destruct (decide (x = y)) as [->|Hn].
  - rewrite bool_decide_eq_true_2 by done. by rewrite Z.sub_diag.
  - rewrite bool_decide_eq_false_2 by done. apply Z.eqb_neq.
    assert ((x - y) mod 2 ^ 32 <> 0) as Hm.
    { intros H. apply Z.mod_divide in H as [k Hk]; [|done].
      assert (k = 0) by lia. subst. lia. }
    pose proof (Z.mod_pos_bound (x - y) (2 ^ 32)). case_match; lia.
Qed.

Lemma filter_every {A} (P : A -> Prop) `{forall x, Decision (P x)} (l : list A) :
  Forall P l -> filter P l = l.
Proof. induction 1; [done|]. rewrite filter_cons_True by done. by f_equal. Qed.

Lemma filter_no {A} (P : A -> Prop) `{forall x, Decision (P x)} (l : list A) :
  Forall (fun x => ~ P x) l -> filter P l = [].
Proof. induction 1; [done|]. by rewrite filter_cons_False. Qed.

Lemma list_remove_filter {A} (f : A -> bool) (P : A -> Prop) `{forall x, Decision (P x)} (l : list A) :
  (forall x, x ∈ l -> f x = bool_decide (~ P x)) ->
  (forall l1 x l2, l = l1 ++ x :: l2 -> ~ P x -> Forall P l2) ->
  sdp_list_remove f l = filter P l.
Proof.
  induction l as [|x l IH]; intros Hf Hone; [done|]. cbn [sdp_list_remove].
  rewrite Hf by constructor. destruct (decide (P x)) as [Hx|Hx].
  - rewrite bool_decide_eq_false_2 by tauto. rewrite filter_cons_True by done. f_equal. apply IH.
    + intros y Hy. apply Hf. by constructor.
    + intros l1 y l2 -> Hy. by apply (Hone (x :: l1) y l2).
  - rewrite bool_decide_eq_true_2 by done. rewrite filter_cons_False by done.
    assert (Forall P l) as HP by (by apply (Hone [] x l)).
    by rewrite filter_every.
Qed.

(** In a list where no two have the same key, the first with a key is the only one. *)
Lemma remove_key {A} (key : A -> Z) (f : A -> bool) (k : Z) (l : list A) :
  NoDup (key <$> l) -> (forall x, x ∈ l -> f x = bool_decide (key x = k)) ->
  sdp_list_remove f l = filter (fun x => key x <> k) l.
Proof.
  intros Hnd Hf. apply list_remove_filter.
  - intros x Hx. rewrite Hf by done. apply bool_decide_ext. destruct (decide (key x = k)); tauto.
  - intros l1 x l2 -> Hx. assert (key x = k) as <- by (destruct (decide (key x = k)); tauto).
    rewrite fmap_app, fmap_cons in Hnd. apply list.NoDup_app in Hnd as (_ & _ & Hnd).
    apply list.NoDup_cons in Hnd as [Hnot _]. apply list.Forall_forall. intros y Hy Heq. apply Hnot.
    rewrite <- Heq. by apply list_elem_of_fmap_2.
Qed.

(** ** Finding *)

Lemma find_record_spec s l h :
  is_u32 h -> (forall r, r ∈ l -> exists rec, store s !! r = Some rec /\ is_u32 (handle rec)) ->
  exists o, find_record s l h = Done o /\
    match o with
    | Some r => r ∈ l /\ exists rec, store s !! r = Some rec /\ handle rec = h
    | None => forall r rec, r ∈ l -> store s !! r = Some rec -> handle rec <> h
    end.
Proof.
  intros Hh. induction l as [|r l IH]; intros Hl.
  { exists None. split; [done|]. intros r rec Hr. by apply elem_of_nil in Hr. }
  destruct (Hl r) as (rec & Hr & Hu); [constructor|]. cbn [find_record].
  unfold deref. rewrite Hr. cbn [lift mbind run_bind]. rewrite sub32_0 by done.
  destruct (decide (handle rec = h)) as [He|He].
  - rewrite bool_decide_eq_true_2 by done. exists (Some r). split; [done|].
    split; [constructor|]. by exists rec.
  - rewrite bool_decide_eq_false_2 by done.
    destruct IH as (o & -> & Ho); [intros r' Hr'; apply Hl; by constructor|].
    exists o. split; [done|]. destruct o as [r'|].
    + destruct Ho as [Hin Hrec]. split; [by constructor|done].
    + intros r' rec' [->|Hin]%elem_of_cons Hr'; [by simplify_eq|by apply (Ho r')].
Qed.

Lemma find_known s r rec :
  db_ok s -> r ∈ service_db s -> store s !! r = Some rec ->
  sdp_record_find s (handle rec) = Done (Some r).
Proof.
  intros Hdb Hr Hrec. destruct (db_record s Hdb r Hr) as (rec' & Hrec' & Hu). simplify_eq.
  destruct (find_record_spec s (service_db s) (handle rec) Hu (db_record s Hdb)) as (o & Hf & Ho).
  unfold sdp_record_find, record_locate. rewrite Hf. destruct o as [r'|].
  - destruct Ho as (Hr' & rec' & Hrec2 & He). do 2 f_equal. by eapply (db_handle s Hdb).
  - by destruct (Ho r rec Hr Hrec).
Qed.

Lemma find_unknown s h :
  db_ok s -> is_u32 h -> (forall r rec, r ∈ service_db s -> store s !! r = Some rec -> handle rec <> h) ->
  sdp_record_find s h = Done None.
Proof.
  intros Hdb Hh Hno.
  destruct (find_record_spec s (service_db s) h Hh (db_record s Hdb)) as (o & Hf & Ho).
  unfold sdp_record_find, record_locate. rewrite Hf. destruct o as [r|]; [|done].
  destruct Ho as (Hr & rec & Hrec & He). by destruct (Hno r rec Hr Hrec).
Qed.

(** ** Removing *)

(** The record at [r] is gone from the database and freed. *)
Definition without (s : server) (r : Z) : server :=
  match store s !! r with
  | None => s
  | Some rec =>
      Srv (delete r (store s)) (next_addr s) (filter (fun x => x <> r) (service_db s))
        (filter (fun a => acc_handle a <> handle rec) (access_db s)) (socket_index s) (cstates s)
        (own_record s)
  end.

Lemma access_u32 s a : db_ok s -> a ∈ access_db s -> is_u32 (acc_handle a).
Proof.
  intros Hdb Ha. apply (list_elem_of_fmap_2 acc_handle) in Ha.
  apply (db_access_of s Hdb) in Ha as (r & rec & Hr & Hrec & <-).
  destruct (db_record s Hdb r Hr) as (rec' & Hrec' & Hu). by simplify_eq.
Qed.

Lemma remove_known s r rec :
  db_ok s -> r ∈ service_db s -> store s !! r = Some rec ->
  exists s1, sdp_record_remove s (handle rec) = Done (0, s1) /\
    sdp_record_free s1 r = Done (without s r).
Proof.
  intros Hdb Hr Hrec. unfold sdp_record_remove.
  pose proof (find_known s r rec Hdb Hr Hrec) as Hf. unfold sdp_record_find in Hf. rewrite Hf.
  cbn [mbind run_bind].
  destruct (db_record s Hdb r Hr) as (rec' & Hrec' & Hu). simplify_eq.
  assert (sdp_list_remove (fun x => x =? r) (service_db s) = filter (fun x => x <> r) (service_db s)) as ->.
  { apply (remove_key (fun x => x)); [rewrite list_fmap_id; apply (db_nodup s Hdb)|].
    intros x _. destruct (Z.eqb_spec x r); [by rewrite bool_decide_eq_true_2|by rewrite bool_decide_eq_false_2]. }
  set (s1 := set_service_db s _).
  assert (exists a, access_locate s1 (handle rec) = Some a) as [a ->].
  { unfold access_locate. destruct (sdp_list_find _ _ _) as [a|] eqn:Ha; [by exists a|].
    apply SdpProps.find_none in Ha. exfalso. assert (handle rec ∈ acc_handle <$> access_db s) as Hin.
    { apply (db_access_of s Hdb). by exists r, rec. }
    apply list_elem_of_fmap in Hin as (a & He & Hin). rewrite list.Forall_forall in Ha.
    apply (Ha a Hin). rewrite <- He. unfold sub32. by rewrite Z.sub_diag. }
  eexists. split; [done|]. unfold sdp_record_free, deref. cbn. rewrite Hrec. cbn.
  unfold without. rewrite Hrec. unfold set_store, set_access_db, s1, set_service_db. cbn.
  by rewrite (remove_key acc_handle _ (handle rec)); [|apply (db_access s Hdb)|
    intros x Hx; rewrite sub32_0 by (done || by apply (access_u32 s))].
Qed.

Lemma without_ok s r : db_ok s -> r ∈ service_db s -> db_ok (without s r).
Proof.
  intros Hdb Hr. destruct (db_record s Hdb r Hr) as (rec & Hrec & Hu).
  unfold without. rewrite Hrec. split; cbn.
  - apply list.NoDup_filter, (db_nodup s Hdb).
  - intros x [Hx Hin]%list_elem_of_filter. destruct (db_record s Hdb x Hin) as (y & Hy & Hyu).
    exists y. by rewrite lookup_delete_ne by done.
  - intros r1 r2 rec1 rec2 [Hn1 H1]%list_elem_of_filter [Hn2 H2]%list_elem_of_filter.
    rewrite !lookup_delete_ne by done. by apply (db_handle s Hdb).
  - pose proof (db_access s Hdb) as Hnd. induction (access_db s) as [|a l IH]; [done|].
    rewrite fmap_cons in Hnd. apply list.NoDup_cons in Hnd as [Hnot Hnd].
    destruct (decide (acc_handle a <> handle rec)); [rewrite filter_cons_True by done|rewrite filter_cons_False by done; auto].
    rewrite fmap_cons. apply list.NoDup_cons. split; [|auto]. intros Hin. apply Hnot.
    apply list_elem_of_fmap in Hin as (b & -> & [_ Hb]%list_elem_of_filter). by apply list_elem_of_fmap_2.
  - intros h. split.
    + intros (a & -> & [Hne Ha]%list_elem_of_filter)%list_elem_of_fmap.
      apply (list_elem_of_fmap_2 acc_handle), (db_access_of s Hdb) in Ha as (x & y & Hx & Hy & Hh).
      exists x, y. rewrite <- Hh in Hne. assert (x <> r) as Hxr by (intros ->; by simplify_eq).
      split; [by apply list_elem_of_filter|]. by rewrite lookup_delete_ne.
    + intros (x & y & [Hn Hx]%list_elem_of_filter & Hy & <-). rewrite lookup_delete_ne in Hy by done.
      assert (handle y ∈ acc_handle <$> access_db s) as Ha by (apply (db_access_of s Hdb); by exists x, y).
      apply list_elem_of_fmap in Ha as (a & He & Ha). rewrite He. apply list_elem_of_fmap_2.
      apply list_elem_of_filter. split; [|done]. rewrite <- He. intros Heq. apply Hn.
      by eapply (db_handle s Hdb).
Qed.

Lemma index_without s r l :
  index_ok s l -> r ∈ service_db s -> r ∉ ix_record <$> l -> index_ok (without s r) l.
Proof.
  intros [H1 H2 H3] Hr Hn. split; try done. intros i Hi.
  unfold without. destruct (store s !! r); [|auto]. cbn. apply list_elem_of_filter. split; [|auto].
  intros <-. apply Hn. by apply list_elem_of_fmap_2.
Qed.

Lemma index_filter s l (P : sdp_indexed -> Prop) `{forall x, Decision (P x)} :
  index_ok s l -> index_ok s (filter P l).
Proof.
  intros [Hs Hnd Hl]. split; [| |intros i [_ Hi]%list_elem_of_filter; by apply Hl].
  - clear -Hs. induction Hs as [|i l Hs IH Hi]; [constructor|].
    destruct (decide (P i)); [rewrite filter_cons_True by done|by rewrite filter_cons_False].
    constructor; [done|]. apply list.Forall_forall. intros j [_ Hj]%list_elem_of_filter.
    rewrite list.Forall_forall in Hi. by apply Hi.
  - clear -Hnd. induction l as [|i l IH]; [constructor|].
    rewrite fmap_cons in Hnd. apply list.NoDup_cons in Hnd as [Hnot Hnd].
    destruct (decide (P i)); [rewrite filter_cons_True by done|rewrite filter_cons_False by done; auto].
    rewrite fmap_cons. apply list.NoDup_cons. split; [|auto].
    intros (j & He & [_ Hj]%list_elem_of_filter)%list_elem_of_fmap. apply Hnot. rewrite He.
    by apply list_elem_of_fmap_2.
Qed.

(** ** A client goes *)

Lemma collect_loop_spec sock l : forall s q, db_ok s -> index_ok s l ->
  collect_loop l q sock s
    = Done (q ++ filter (fun i => ix_sock i <> sock) l,
            foldl without s (ix_record <$> filter (fun i => ix_sock i = sock) l)).
Proof.
  induction l as [|i l IH]; intros s q Hdb Hix; [cbn; by rewrite app_nil_r|].
  cbn [collect_loop]. destruct Hix as [Hs Hnd Hl]. inversion Hs as [|? ? Hs' Hle]; subst.
  rewrite fmap_cons in Hnd. apply list.NoDup_cons in Hnd as [Hnot Hnd].
  assert (index_ok s l) as Hix'.
  { split; [done|done|]. intros j Hj. apply Hl. by constructor. }
  destruct (Z.eqb_spec (ix_sock i) sock) as [He|He].
  - assert (ix_record i ∈ service_db s) as Hi by (apply Hl; constructor).
    destruct (db_record s Hdb _ Hi) as (rec & Hrec & _).
    destruct (remove_known s _ rec Hdb Hi Hrec) as (s1 & Hrem & Hfree).
    unfold deref. rewrite Hrec. cbn [lift mbind run_bind]. rewrite Hrem. cbn [mbind run_bind snd].
    rewrite Hfree. cbn [mbind run_bind]. rewrite IH by (by apply without_ok || by apply index_without).
    rewrite filter_cons_False by tauto. by rewrite filter_cons_True by done.
  - destruct (Z.ltb_spec sock (ix_sock i)) as [Hlt|Hge].
    + assert (Forall (fun j => ix_sock j <> sock) (i :: l)) as Hall.
      { constructor; [done|]. eapply list.Forall_impl; [exact Hle|]. cbn. lia. }
      assert (filter (fun j => ix_sock j <> sock) (i :: l) = i :: l) as ->.
      { by apply filter_every. }
      assert (filter (fun j => ix_sock j = sock) (i :: l) = []) as ->; [|done].
      apply filter_no. eapply list.Forall_impl; [exact Hall|]. cbn. tauto.
    + rewrite IH by done. rewrite filter_cons_True by done. rewrite filter_cons_False by done.
      by rewrite <- app_assoc.
Qed.

Lemma foldl_without rs : forall s, db_ok s -> NoDup rs -> (forall r, r ∈ rs -> r ∈ service_db s) ->
  let s' := foldl without s rs in
  db_ok s' /\ socket_index s' = socket_index s /\ own_record s' = own_record s /\
  (forall r, r ∈ service_db s' <-> r ∈ service_db s /\ r ∉ rs) /\
  (forall r, r ∈ rs -> store s' !! r = None).
Proof.
  induction rs as [|r rs IH]; intros s Hdb Hnd Hin s'.
  { split_and!; try done. intros r. rewrite elem_of_nil. tauto. intros r Hr. by apply elem_of_nil in Hr. }
  apply list.NoDup_cons in Hnd as [Hnot Hnd]. cbn in s'.
  assert (r ∈ service_db s) as Hr by (apply Hin; constructor).
  destruct (db_record s Hdb r Hr) as (rec & Hrec & _).
  assert (forall x, x ∈ service_db (without s r) <-> x ≠ r /\ x ∈ service_db s) as Hw.
  { intros x. unfold without. rewrite Hrec. cbn. by rewrite list_elem_of_filter. }
  destruct (IH (without s r)) as (H1 & H2 & H3 & H4 & H5); [by apply without_ok|done| |].
  { intros x Hx. apply Hw. split; [by intros ->|]. apply Hin. by constructor. }
  assert (socket_index (without s r) = socket_index s /\ own_record (without s r) = own_record s) as [E1 E2].
  { unfold without. by rewrite Hrec. }
  split_and!; [exact H1|by rewrite <- E1|by rewrite <- E2| |].
  - intros x. rewrite elem_of_cons. unfold s'. rewrite H4, Hw. tauto.
  - intros x [->|Hx]%elem_of_cons; [|by apply H5].
    assert (forall l s0, store s0 !! r = None -> store (foldl without s0 l) !! r = None) as Hgone.
    { clear. induction l as [|y l IHl]; intros s0 Hs0; [done|]. cbn. apply IHl.
      unfold without. destruct (store s0 !! y) eqn:Hy; [|done]. cbn.
      apply lookup_delete_None. by right. }
    apply Hgone. unfold without. rewrite Hrec. cbn. apply lookup_delete_eq.
Qed.

(** The records that the client behind the socket has registered. *)
Definition of_client (s : server) (sock : Z) : list Z :=
  ix_record <$> filter (fun i => ix_sock i = sock) (socket_index s).

(** C14. When a client goes, exactly its records are removed and freed, each once, and what
    stays is in order. *)
Theorem sdp_collect_all s sock :
  db_ok s -> index_ok s (socket_index s) ->
  exists s', sdp_svcdb_collect_all s sock = Done s' /\
    db_ok s' /\ index_ok s' (socket_index s') /\
    socket_index s' = filter (fun i => ix_sock i <> sock) (socket_index s) /\
    (forall r, r ∈ service_db s' <-> r ∈ service_db s /\ r ∉ of_client s sock) /\
    (forall r, r ∈ of_client s sock -> store s' !! r = None).
Proof.
  intros Hdb Hix. unfold sdp_svcdb_collect_all. rewrite collect_loop_spec by done.
  cbn [mbind run_bind fst snd app]. fold (of_client s sock).
  pose proof Hix as [Hs Hnd Hl]. set (l := socket_index s) in *.
  destruct (foldl_without (of_client s sock) s Hdb) as (H1 & H2 & H3 & H4 & H5).
  - unfold of_client. by apply (index_filter s).
  - intros r (j & -> & [_ Hj]%list_elem_of_filter)%list_elem_of_fmap. by apply Hl.
  - eexists. split; [done|]. set (s' := foldl without s (of_client s sock)) in *.
    assert (db_ok (set_socket_index s' (filter (fun i => ix_sock i <> sock) l))) as Hdb'.
    { destruct H1. by split. }
    split; [done|]. split; [|done]. cbn.
    destruct (index_filter s l (fun i => ix_sock i <> sock) Hix) as [F1 F2 _].
    split; [done|done|]. intros i [Hi Hin]%list_elem_of_filter. cbn. apply H4.
    split; [by apply Hl|]. intros (j & He & [Hj Hjn]%list_elem_of_filter)%list_elem_of_fmap.
    assert (i = j) as ->; [|done].
    clear -Hnd He Hin Hjn. fold l in Hin, Hjn. clearbody l. induction l as [|x l IH].
    { by apply elem_of_nil in Hin. }
    rewrite fmap_cons in Hnd. apply list.NoDup_cons in Hnd as [Hnot Hnd].
    apply elem_of_cons in Hin as [->|Hin], Hjn as [->|Hjn]; auto.
    + destruct Hnot. rewrite He. by apply list_elem_of_fmap_2.
    + destruct Hnot. rewrite <- He. by apply list_elem_of_fmap_2.
Qed.

(** The three records with their access entries, two of client 4 and one of client 9. *)
Definition owned : server :=
  Srv (store three) 3 [0; 1; 2]
    [Access 0x10000 BDADDR_ANY; Access 0x10001 BDADDR_ANY; Access 0x10002 BDADDR_ANY]
    [Indexed 4 0; Indexed 4 2; Indexed 9 1] [] (Some 1).

Lemma owned_ok : db_ok owned.
Proof.
  assert (forall r rec, r ∈ service_db owned -> store owned !! r = Some rec ->
    handle rec = 0x10000 + r /\ (r = 0 \/ r = 1 \/ r = 2)) as Hh.
  { intros r rec Hr Hrec. cbn in Hr. rewrite !elem_of_cons in Hr.
    destruct Hr as [->|[->|[->|Hr]]]; [vm_compute in Hrec; injection Hrec as <-; split; [reflexivity|lia]..|by apply elem_of_nil in Hr]. }
  split.
  - apply (bool_decide_unpack _). vm_compute. exact I.
  - intros r Hr. cbn in Hr. rewrite !elem_of_cons in Hr.
    destruct Hr as [->|[->|[->|Hr]]]; [eexists; split; [vm_compute; reflexivity|unfold is_u32; cbn; lia]..|by apply elem_of_nil in Hr].
  - intros r1 r2 rec1 rec2 H1 H2 E1 E2 He.
    destruct (Hh r1 rec1 H1 E1) as [-> _] in He. destruct (Hh r2 rec2 H2 E2) as [-> _] in He. lia.
  - apply (bool_decide_unpack _). vm_compute. exact I.
  - intros h. split.
    + cbn. rewrite !elem_of_cons. intros [->|[->|[->|Hr]]]; [exists 0|exists 1|exists 2|by apply elem_of_nil in Hr];
        (eexists; split; [apply (bool_decide_unpack _); vm_compute; exact I|split; [vm_compute; reflexivity|done]]).
    + intros (r & rec & Hr & Hrec & <-). destruct (Hh r rec Hr Hrec) as [-> [->|[->| ->]]];
        apply (bool_decide_unpack _); vm_compute; exact I.
Qed.

Lemma owned_index : index_ok owned (socket_index owned).
Proof.
  split.
  - repeat constructor; discriminate.
  - apply (bool_decide_unpack _). vm_compute. exact I.
  - intros i Hi. cbn in Hi. rewrite !elem_of_cons in Hi.
    destruct Hi as [->|[->|[->|Hi]]]; [apply (bool_decide_unpack _); vm_compute; exact I..|by apply elem_of_nil in Hi].
Qed.

Lemma sdp_collect_all_witness :
  exists s', sdp_svcdb_collect_all owned 4 = Done s' /\ service_db s' = [1] /\
    socket_index s' = [Indexed 9 1] /\ store s' !! 0 = None.
Proof.
  destruct (sdp_collect_all owned 4 owned_ok owned_index) as (s' & Hs & _ & _ & Hix & _ & Hst).
  exists s'. split; [exact Hs|]. split; [|split; [exact Hix|]].
  - assert (sdp_svcdb_collect_all owned 4 = Done s') as He by exact Hs. vm_compute in He.
    injection He as <-. reflexivity.
  - apply Hst. apply (bool_decide_unpack _). vm_compute. exact I.
Defined.

(** ** Removal by request *)

Lemma without_facts s r rec :
  store s !! r = Some rec ->
  (forall x, x ∈ service_db (without s r) <-> x ∈ service_db s /\ x <> r) /\
  store (without s r) = delete r (store s) /\
  socket_index (without s r) = socket_index s /\ own_record (without s r) = own_record s.
Proof.
  intros Hrec. unfold without. rewrite Hrec. split_and!; try done.
  intros x. cbn. rewrite list_elem_of_filter. tauto.
Qed.

(** The attribute that carries the time of the last change, and nothing else, is set. *)
Lemma replace_stamp rec d : exists rec', sdp_attr_replace rec SDP_ATTR_SVCDB_STATE d = Done rec' /\
  sets rec rec' SDP_ATTR_SVCDB_STATE d.
Proof.
  assert (exists rec', sdp_attr_replace rec SDP_ATTR_SVCDB_STATE d = Done rec') as [rec' H]; [by eexists|].
  exists rec'. split; [done|]. by apply replace_sets.
Qed.

(** A record changes but for its handle. *)
Lemma assign_ok s r rec rec' :
  db_ok s -> store s !! r = Some rec -> handle rec' = handle rec -> db_ok (assign s r rec').
Proof.
  intros [H1 H2 H3 H4 H5] Hrec Hh.
  assert (forall x y, store (assign s r rec') !! x = Some y ->
    exists z, store s !! x = Some z /\ handle z = handle y) as Hold.
  { intros x y. cbn. destruct (decide (x = r)) as [->|Hn].
    - rewrite lookup_insert_eq. intros [= <-]. by exists rec.
    - rewrite lookup_insert_ne by done. by exists y. }
  assert (forall x z, store s !! x = Some z ->
    exists y, store (assign s r rec') !! x = Some y /\ handle y = handle z) as Hnew.
  { intros x z Hz. cbn. destruct (decide (x = r)) as [->|Hn].
    - rewrite lookup_insert_eq. exists rec'. by simplify_eq.
    - rewrite lookup_insert_ne by done. by exists z. }
  split; try done.
  - intros x Hx. destruct (H2 x Hx) as (z & Hz & Hu). destruct (Hnew x z Hz) as (y & Hy & Hyz).
    exists y. by rewrite Hyz.
  - intros r1 r2 y1 y2 Hr1 Hr2 Hy1 Hy2 He. destruct (Hold r1 y1 Hy1) as (z1 & Hz1 & E1).
    destruct (Hold r2 y2 Hy2) as (z2 & Hz2 & E2). apply (H3 r1 r2 z1 z2); [exact Hr1|exact Hr2|done|done|congruence].
  - intros h. rewrite (H5 h). split; intros (x & y & Hx & Hy & He).
    + destruct (Hnew x y Hy) as (z & Hz & Ez). exists x, z. split_and!; [done|done|congruence].
    + destruct (Hold x y Hy) as (z & Hz & Ez). exists x, z. split_and!; [done|done|congruence].
Qed.

(** The records behind the change that [update_db_timestamp] makes when the time is [t]: the
    record of the server has it in the attribute ServiceDatabaseState, and nothing else is
    different. *)
Definition stamped (t : Z) (s s' : server) : Prop :=
  own_record s' = own_record s /\
  (forall x, own_record s <> Some x -> store s' !! x = store s !! x) /\
  match own_record s with
  | Some r0 => exists o o', store s !! r0 = Some o /\ store s' !! r0 = Some o' /\
      sets o o' SDP_ATTR_SVCDB_STATE (uint32_data t)
  | None => True
  end.

(** C24. The request of a local client to remove a record removes it from the lists, frees it
    and marks the change: the attribute ServiceDatabaseState of the record of the server gets
    the time, or the fixed value that the daemon was started with, and no other attribute
    and no other record changes; but nothing keeps the client from the record of the server
    itself, which is then read and written after it was freed. *)
Theorem sdp_remove_request now fixed s dev sock mtu tid b size r rec :
  db_ok s -> index_ok s (socket_index s) ->
  match own_record s with Some r0 => r0 ∈ service_db s | None => True end ->
  r ∈ service_db s -> store s !! r = Some rec -> length tid = 2%nat -> 2 <= zlen b ->
  let req := request true dev sock mtu SDP_SVC_REMOVE_REQ tid (be_bytes 4 (handle rec)) in
  if decide (own_record s = Some r) then
    service_remove_req now fixed s req (Buf (Some b) 0 size) = Fault
  else exists s', service_remove_req now fixed s req (Buf (Some b) 0 size)
      = Done (0, Buf (Some ([0; 0] ++ drop 2 b)) 2 size, s') /\
    db_ok s' /\ index_ok s' (socket_index s') /\
    (forall x, x ∈ service_db s' <-> x ∈ service_db s /\ x <> r) /\
    (forall i, i ∈ socket_index s' <-> i ∈ socket_index s /\ ix_record i <> r) /\
    store s' !! r = None /\
    stamped (if fixed =? 0 then now else fixed) (set_store s (delete r (store s))) s'.
Proof.
  intros Hdb Hix Hown Hr Hrec Ht Hb req.
  destruct (db_record s Hdb r Hr) as (rec1 & Hrec1 & Hu). simplify_eq.
  unfold service_remove_req.
  assert (rd (req_buf req) HDR 4 = Done (be_bytes 4 (handle rec))) as ->.
  { unfold req, request. cbn [req_buf]. rewrite packet_body.
    rewrite <- (app_nil_r (be_bytes 4 (handle rec))) at 2. apply rd_mid; [|by rewrite zlen_be_bytes].
    rewrite !zlen_app, zlen_be_bytes. unfold zlen. by rewrite Ht. }
  cbn [mbind run_bind]. rewrite be_val_bytes, Z.mod_small by exact Hu.
  rewrite (find_known s r rec) by done. cbn [mbind run_bind].
  set (l := filter (fun i => ix_record i <> r) (socket_index s)).
  assert (sdp_svcdb_collect s r = set_socket_index s l) as ->.
  { unfold sdp_svcdb_collect. f_equal. apply remove_key; [apply Hix|]. intros i _.
    destruct (Z.eqb_spec (ix_record i) r); [by rewrite bool_decide_eq_true_2|by rewrite bool_decide_eq_false_2]. }
  assert (db_ok (set_socket_index s l)) as Hdb1 by (destruct Hdb; by split).
  destruct (remove_known (set_socket_index s l) r rec Hdb1 Hr Hrec) as (s1 & -> & Hfree).
  cbn [mbind run_bind]. rewrite Hfree. cbn [mbind run_bind Z.eqb].
  pose proof (without_ok _ r Hdb1 Hr) as Hdb2.
  destruct (without_facts (set_socket_index s l) r rec Hrec) as (Hsv & Hst & Hsi & Hor).
  set (s2 := without (set_socket_index s l) r) in *. cbn in Hsv, Hst, Hsi, Hor.
  assert (index_ok s2 l) as Hix2.
  { destruct (index_filter s (socket_index s) (fun i => ix_record i <> r) Hix) as [F1 F2 F3].
    split; [done|done|]. intros i Hi. apply Hsv. split; [by apply F3|].
    by apply list_elem_of_filter in Hi as [? _]. }
  unfold update_db_timestamp. rewrite Hor.
  assert (forall i, i ∈ l <-> i ∈ socket_index s /\ ix_record i <> r) as Hli.
  { intros i. unfold l. rewrite list_elem_of_filter. tauto. }
  assert (forall s', status_rsp 0 s' (Buf (Some b) 0 size) = Done (0, Buf (Some ([0; 0] ++ drop 2 b)) 2 size, s'))
    as Hrsp.
  { intros s'. unfold status_rsp, buf_put, put_be16. cbn [data]. rewrite st_0 by (rewrite zlen_be_bytes; lia). done. }
  case_decide as Hd.
  - rewrite Hd. unfold deref. rewrite Hst, lookup_delete_eq. done.
  - destruct (own_record s) as [r0|] eqn:Hos; cbn [mbind run_bind].
    + assert (r0 <> r) as Hn by (intros ->; done).
      destruct (db_record s2 Hdb2 r0) as (o & Ho & _); [apply Hsv; done|].
      unfold deref. rewrite Ho. cbn [lift mbind run_bind].
      destruct (replace_stamp o (uint32_data (if fixed =? 0 then now else fixed))) as (o' & -> & Hset).
      cbn [mbind run_bind]. rewrite Hrsp. eexists. split; [done|].
      split; [by apply (assign_ok _ _ o); [done| |apply Hset]|].
      split; [destruct Hix2; cbn; rewrite Hsi; by split|].
      split; [exact Hsv|]. cbn. rewrite Hsi, Hst. split; [exact Hli|].
      split; [rewrite lookup_insert_ne by done; apply lookup_delete_eq|].
      unfold stamped. cbn -[sets SDP_ATTR_SVCDB_STATE uint32_data]. rewrite Hos, Hst.
      split; [exact Hor|]. split.
      * intros x Hx. by rewrite lookup_insert_ne by congruence.
      * exists o, o'. rewrite Hst in Ho. by rewrite lookup_insert_eq.
    + rewrite Hrsp. eexists. split; [done|]. split; [done|]. split; [by rewrite Hsi|].
      split; [exact Hsv|]. rewrite Hsi, Hst. split; [exact Hli|].
      split; [apply lookup_delete_eq|]. unfold stamped. cbn. rewrite Hos, Hor, Hst. done.
Qed.

(** Record 0 goes; the attempt to remove record 1, that of the server, is a use after free. *)
Lemma sdp_remove_request_witness :
  let req h := request true BDADDR_ANY 4 672 SDP_SVC_REMOVE_REQ [0; 1] (be_bytes 4 h) in
  (exists s', service_remove_req 7 0 owned (req 0x10000) (Buf (Some [9; 9; 9]) 0 3)
      = Done (0, Buf (Some [0; 0; 9]) 2 3, s') /\ store s' !! 0 = None /\
    exists o, store s' !! 1 = Some o /\
      sdp_data_get o SDP_ATTR_SVCDB_STATE = Some (Data Dtd.SDP_UINT32 SDP_ATTR_SVCDB_STATE 5 (VNum 7))) /\
  service_remove_req 7 0 owned (req 0x10001) (Buf (Some [9; 9; 9]) 0 3) = Fault.
Proof.
  split.
  - pose proof (sdp_remove_request 7 0 owned BDADDR_ANY 4 672 [0; 1] [9; 9; 9] 3 0
      (Rec 0x10000 [sdp_uuid_to_uuid128 (SDP_UUID16 0x1101)] [] SDP_UUID_UNSPEC) owned_ok owned_index) as H.
    destruct H as (s' & H1 & _ & _ & _ & _ & H2 & _ & _ & o & o' & _ & H3 & H4 & _);
      [apply (bool_decide_unpack _); vm_compute; exact I..|reflexivity|reflexivity|discriminate|].
    exists s'. split; [exact H1|]. split; [exact H2|]. exists o'. split; [exact H3|exact H4].
  - apply (sdp_remove_request 7 0 owned BDADDR_ANY 4 672 [0; 1] [9; 9; 9] 3 1
      (Rec 0x10001 [sdp_uuid_to_uuid128 (SDP_UUID16 0x1102)] [] SDP_UUID_UNSPEC) owned_ok owned_index);
      [apply (bool_decide_unpack _); vm_compute; exact I..|reflexivity|reflexivity|discriminate].
Defined.
