(* ===== verification/SdpAttr.v ===== *)
(** lib/sdp.c: the setters and getters of attributes that hold lists, and lib/sdp_lib.h.

    A pointer to the elements of a sequence is the list of them.  An attribute of a record
    has no elements behind it, as after extraction; sdp_set_access_protos with several
    lists of protocols, which chains attributes, is left out. *)
From Stdlib Require Import ZArith Lia.
From S2P Require Import Prelude Libc Uuid Eir Sdp SdpPdu.
From stdpp Require Import base numbers list option.

Local Open Scope Z_scope.

Definition SDP_ATTR_SERVICE_ID : Z := 0x0003.
Definition SDP_ATTR_PROTO_DESC_LIST : Z := 0x0004.
Definition SDP_ATTR_LANG_BASE_ATTR_ID_LIST : Z := 0x0006.
Definition SDP_ATTR_PFILE_DESC_LIST : Z := 0x0009.
Definition SDP_ATTR_DOC_URL : Z := 0x000a.
Definition SDP_ATTR_CLNT_EXEC_URL : Z := 0x000b.
Definition SDP_ATTR_ICON_URL : Z := 0x000c.
Definition SDP_ATTR_ADD_PROTO_DESC_LIST : Z := 0x000d.
Definition SDP_ATTR_GROUP_ID : Z := 0x0200.
Definition SDP_ATTR_VERSION_NUM_LIST : Z := 0x0200.
Definition SDP_PRIMARY_LANG_BASE : Z := 0x0100.
Definition SDP_ATTR_SVCNAME_PRIMARY : Z := 0x0000 + SDP_PRIMARY_LANG_BASE.
Definition SDP_ATTR_SVCDESC_PRIMARY : Z := 0x0001 + SDP_PRIMARY_LANG_BASE.
Definition SDP_ATTR_PROVNAME_PRIMARY : Z := 0x0002 + SDP_PRIMARY_LANG_BASE.
Definition L2CAP_UUID : Z := 0x0100.
Definition RFCOMM_UUID : Z := 0x0003.

Definition SDP_IS_ALT (dtd : Z) : bool :=
  (dtd =? Dtd.SDP_ALT8) || (dtd =? Dtd.SDP_ALT16) || (dtd =? Dtd.SDP_ALT32).

Record sdp_lang_attr := Lang { code_ISO639 : Z; encoding : Z; base_offset : Z }.
Record sdp_profile_desc := Profile { profile_uuid : uuid_t; version : Z }.

(** The type and the value of a UUID, as they go to [sdp_seq_alloc]; [None] by default. *)
Definition uuid_arg (u : uuid_t) : option (Z * value_ptr) :=
  match u with
  | SDP_UUID_UNSPEC => None
  | SDP_UUID16 _ | SDP_UUID32 _ | SDP_UUID128 _ => Some (uuid_type u, PMem (uuid_value u))
  end.

Definition u16_arg (v : Z) : Z * value_ptr := (Dtd.SDP_UINT16, PMem (le_bytes 2 v)).

(** A sequence that was made, as an argument for the next one. *)
Definition seq_arg (d : sdp_data) : Z * value_ptr := (dtd d, PSeq [d]).

(** An attribute that the setter did not get dereferences NULL. *)
Definition not_null (d : option sdp_data) : run sdp_data :=
  match d with Some d => Done d | None => Fault end.

(** [sdp_attr_add] with what an allocation returned. *)
Definition attr_add_alloc (rec : sdp_record) (attr : Z) (d : option sdp_data) : run sdp_record :=
  match sdp_data_get rec attr with
  | Some _ => Done rec
  | None => d ← not_null d; r ← sdp_attr_add rec attr d; Done r.2
  end.

Definition more {A} (x : A) (r : option (list A)) : option (list A) :=
  match r with Some l => Some (x :: l) | None => None end.

(** ** UUIDs *)

(** The members of a sequence of UUIDs. *)
Fixpoint uuids_of (l : list sdp_data) : run (option (list uuid_t)) :=
  match l with
  | [] => Done (Some [])
  | d :: l =>
      if (dtd d <? Dtd.SDP_UUID16) || (Dtd.SDP_UUID128 <? dtd d) then Done None else
      match val d with
      | VUuid u => r ← uuids_of l; Done (more u r)
      | _ => Fault
      end
  end.

(** [None] is -1. *)
Definition sdp_get_uuidseq_attr (rec : sdp_record) (attr : Z) : run (option (list uuid_t)) :=
  match sdp_data_get rec attr with
  | Some d =>
      if SDP_IS_SEQ (dtd d) then match val d with VSeq l => uuids_of l | _ => Fault end
      else Done None
  | None => Done None
  end.

(** The list may have NULL in it. *)
Definition sdp_set_uuidseq_attr (rec : sdp_record) (aid : Z) (seq : list (option uuid_t)) :
    run (Z * sdp_record) :=
  match seq with
  | [] => Done (-1, rec)
  | _ =>
      match mapM (fun p => p ≫= uuid_arg) seq with
      | None => Done (-1, rec)
      | Some elems =>
          d ← sdp_seq_alloc elems;
          d ← not_null d;
          rec ← sdp_attr_replace rec aid d;
          Done (0, sdp_pattern_add_uuidseq rec (omap id seq))
      end
  end.

Definition sdp_set_service_classes (rec : sdp_record) (seq : list (option uuid_t)) :=
  sdp_set_uuidseq_attr rec SDP_ATTR_SVCLASS_ID_LIST seq.
Definition sdp_get_service_classes (rec : sdp_record) :=
  sdp_get_uuidseq_attr rec SDP_ATTR_SVCLASS_ID_LIST.
Definition SDP_ATTR_BROWSE_GRP_LIST : Z := 0x0005.
Definition sdp_set_browse_groups (rec : sdp_record) (seq : list (option uuid_t)) :=
  sdp_set_uuidseq_attr rec SDP_ATTR_BROWSE_GRP_LIST seq.

(** [sdp_set_service_id] and [sdp_set_group_id]. *)
Definition set_uuid_attr (rec : sdp_record) (attr : Z) (uuid : uuid_t) : run sdp_record :=
  rec ← match uuid_arg uuid with
        | Some (dtd, value) => r ← sdp_attr_add_new rec attr dtd value; Done r.2
        | None => Done rec
        end;
  Done (sdp_pattern_add_uuid rec uuid).

Definition sdp_set_service_id (rec : sdp_record) (uuid : uuid_t) : run sdp_record :=
  set_uuid_attr rec SDP_ATTR_SERVICE_ID uuid.
Definition sdp_set_group_id (rec : sdp_record) (uuid : uuid_t) : run sdp_record :=
  set_uuid_attr rec SDP_ATTR_GROUP_ID uuid.

(** ** Texts: [None] is NULL, the others end in a null byte *)

Definition text_arg (s : option bytes) : value_ptr :=
  match s with Some s => PMem s | None => PNull end.

Definition add_text (rec : sdp_record) (attr dtd : Z) (s : option bytes) : run sdp_record :=
  r ← sdp_attr_add_new rec attr dtd (text_arg s); Done r.2.

Definition sdp_set_info_attr (rec : sdp_record) (name prov desc : option bytes) : run sdp_record :=
  let set rec attr s :=
    match s with Some _ => add_text rec attr Dtd.SDP_TEXT_STR8 s | None => Done rec end in
  rec ← set rec SDP_ATTR_SVCNAME_PRIMARY name;
  rec ← set rec SDP_ATTR_PROVNAME_PRIMARY prov;
  set rec SDP_ATTR_SVCDESC_PRIMARY desc.

Definition sdp_set_url_attr (rec : sdp_record) (client doc icon : option bytes) : run sdp_record :=
  rec ← add_text rec SDP_ATTR_CLNT_EXEC_URL Dtd.SDP_URL_STR8 client;
  rec ← add_text rec SDP_ATTR_DOC_URL Dtd.SDP_URL_STR8 doc;
  add_text rec SDP_ATTR_ICON_URL Dtd.SDP_URL_STR8 icon.

(** ** Numbers *)

Definition add_num (rec : sdp_record) (attr dtd : Z) (n : nat) (v : Z) : run (Z * sdp_record) :=
  sdp_attr_add_new rec attr dtd (PMem (le_bytes n v)).

Definition sdp_set_service_ttl (rec : sdp_record) (ttl : Z) := add_num rec 0x0007 Dtd.SDP_UINT32 4 ttl.
Definition sdp_set_record_state (rec : sdp_record) (state : Z) :=
  add_num rec 0x0002 Dtd.SDP_UINT32 4 state.
Definition sdp_set_service_avail (rec : sdp_record) (avail : Z) :=
  add_num rec 0x0008 Dtd.SDP_UINT8 1 avail.

(** [None] is -1; pointers to the versions are the versions. *)
Fixpoint versions_of (l : list sdp_data) : run (option (list Z)) :=
  match l with
  | [] => Done (Some [])
  | d :: l =>
      if negb (dtd d =? Dtd.SDP_UINT16) then Done None else
      match val d with
      | VNum v => r ← versions_of l; Done (more (u16 v) r)
      | _ => Fault
      end
  end.

Definition sdp_get_server_ver (rec : sdp_record) : run (option (list Z)) :=
  match sdp_data_get rec SDP_ATTR_VERSION_NUM_LIST with
  | None => Done None
  | Some d =>
      if negb (SDP_IS_SEQ (dtd d)) then Done None else
      match val d with
      | VSeq [] => Done None
      | VSeq l => versions_of l
      | _ => Fault
      end
  end.

(** ** Languages *)

Definition lang_args (l : sdp_lang_attr) : list (Z * value_ptr) :=
  [u16_arg (code_ISO639 l); u16_arg (encoding l); u16_arg (base_offset l)].

Definition sdp_set_lang_attr (rec : sdp_record) (seq : list (option sdp_lang_attr)) :
    run (Z * sdp_record) :=
  match mapM id seq with
  | None => Done (-1, rec)
  | Some langs =>
      d ← sdp_seq_alloc (langs ≫= lang_args);
      rec ← attr_add_alloc rec SDP_ATTR_LANG_BASE_ATTR_ID_LIST d;
      Done (0, rec)
  end.

Definition num16 (d : sdp_data) : run Z :=
  match val d with VNum v => Done (u16 v) | _ => Fault end.

Fixpoint langs_of (l : list sdp_data) : run (option (list sdp_lang_attr)) :=
  match l with
  | [] => Done (Some [])
  | pCode :: l =>
      if negb (dtd pCode =? Dtd.SDP_UINT16) then Done None else
      match l with
      | pEncoding :: pOffset :: l =>
          if negb (dtd pEncoding =? Dtd.SDP_UINT16) then Done None else
          if negb (dtd pOffset =? Dtd.SDP_UINT16) then Done None else
          c ← num16 pCode; e ← num16 pEncoding; b ← num16 pOffset;
          r ← langs_of l;
          Done (more (Lang c e b) r)
      | _ => Done None
      end
  end.

(** [None] is -1. *)
Definition sdp_get_lang_attr (rec : sdp_record) : run (option (list sdp_lang_attr)) :=
  match sdp_data_get rec SDP_ATTR_LANG_BASE_ATTR_ID_LIST with
  | None => Done None
  | Some d =>
      if negb (SDP_IS_SEQ (dtd d)) then Done None else
      match val d with VSeq l => langs_of l | _ => Fault end
  end.

(** ** Profiles *)

(** The loop over the profiles: the sequences, unless one could not be made, and the record
    with the UUIDs so far. *)
Fixpoint profile_seqs (l : list (option sdp_profile_desc)) (rec : sdp_record) :
    run (option (list sdp_data) * sdp_record) :=
  match l with
  | [] => Done (Some [], rec)
  | p :: l =>
      match p with
      | None => Done (None, rec)
      | Some profile =>
          match uuid_arg (profile_uuid profile) with
          | None => Done (None, rec)
          | Some arg =>
              seq ← sdp_seq_alloc [arg; u16_arg (version profile)];
              match seq with
              | None => Done (None, rec)
              | Some seq =>
                  r ← profile_seqs l (sdp_pattern_add_uuid rec (profile_uuid profile));
                  Done (more seq r.1, r.2)
              end
          end
      end
  end.

Definition sdp_set_profile_descs (rec : sdp_record) (profiles : list (option sdp_profile_desc)) :
    run (Z * sdp_record) :=
  r ← profile_seqs profiles rec;
  match r with
  | (None, rec) => Done (-1, rec)
  | (Some seqs, rec) =>
      d ← sdp_seq_alloc (seq_arg <$> seqs);
      rec ← attr_add_alloc rec SDP_ATTR_PFILE_DESC_LIST d;
      Done (0, rec)
  end.

Definition uuid_val (d : sdp_data) : run uuid_t :=
  match val d with VUuid u => Done u | _ => Fault end.

(** A UUID outside a sequence takes the version from the next element when it has one. *)
Fixpoint profiles_of (l : list sdp_data) : run (option (list sdp_profile_desc)) :=
  match l with
  | [] => Done (Some [])
  | seq :: l =>
      if SDP_IS_UUID (dtd seq) then
        uuid ← uuid_val seq;
        match l with
        | next :: l' =>
            if dtd next =? Dtd.SDP_UINT16 then
              v ← num16 next;
              r ← profiles_of l'; Done (more (Profile uuid v) r)
            else r ← profiles_of l; Done (more (Profile uuid 0x100) r)
        | [] => Done (Some [Profile uuid 0x100])
        end
      else if SDP_IS_SEQ (dtd seq) then
        match val seq with
        | VSeq [] => Done None
        | VSeq (puuid :: rest) =>
            if negb (SDP_IS_UUID (dtd puuid)) then Done None else
            match rest with
            | [] => Done None
            | pVnum :: _ =>
                if negb (dtd pVnum =? Dtd.SDP_UINT16) then Done None else
                uuid ← uuid_val puuid;
                v ← num16 pVnum;
                r ← profiles_of l; Done (more (Profile uuid v) r)
            end
        | _ => Fault
        end
      else Done None
  end.

(** [None] is -1. *)
Definition sdp_get_profile_descs (rec : sdp_record) : run (option (list sdp_profile_desc)) :=
  match sdp_data_get rec SDP_ATTR_PFILE_DESC_LIST with
  | None => Done None
  | Some d =>
      if negb (SDP_IS_SEQ (dtd d)) then Done None else
      match val d with
      | VSeq [] => Done None
      | VSeq l => profiles_of l
      | _ => Fault
      end
  end.

(** ** Protocols *)

(** An element of a description: a [uuid_t], or a data element with a type that is not a
    UUID; the first byte tells them apart. *)
Inductive proto_elem := PUuid (u : uuid_t) | PData (d : sdp_data).

Definition elem_dtd (e : proto_elem) : Z :=
  match e with PUuid u => uuid_type u | PData d => dtd d end.

(** [values[pslen]] for the element; what the switch has no case for leaves the old value.
    A data element of a UUID type would be read as a [uuid_t]. *)
Definition elem_value (e : proto_elem) (old : option value_ptr) : run (option value_ptr) :=
  match e with
  | PUuid u => Done (match uuid_arg u with Some (_, v) => Some v | None => old end)
  | PData d =>
      match dtd_kind (dtd d) with
      | Some (KUuid _) => Fault
      | Some (KUint 1) =>
          match val d with VNum v => Done (Some (PMem (le_bytes 1 v))) | _ => Fault end
      | Some (KUint 2) =>
          match val d with VNum v => Done (Some (PMem (le_bytes 2 v))) | _ => Fault end
      | Some (KSeq _) => Done (Some (PSeq [d]))
      | _ => Done old
      end
  end.

(** The arrays after the loop over one description, of which the first ten elements count:
    the arguments of [sdp_seq_alloc], [values], and the last UUID. *)
Fixpoint fill_values (l : list proto_elem) (values : list (option value_ptr)) :
    run (list (Z * option value_ptr) * list (option value_ptr) * option uuid_t) :=
  match l, values with
  | e :: l, old :: values =>
      v ← elem_value e old;
      r ← fill_values l values;
      let '(args, values, uuid) := r in
      let uuid := match uuid, e with
                  | Some u, _ => Some u
                  | None, PUuid SDP_UUID_UNSPEC => None
                  | None, PUuid u => Some u
                  | None, PData _ => None
                  end in
      Done ((elem_dtd e, v) :: args, v :: values, uuid)
  | _, _ => Done ([], values, None)
  end.

(** Using an array element that was never written is [Fault]. *)
Definition written_args (args : list (Z * option value_ptr)) : run (list (Z * value_ptr)) :=
  match mapM (fun a : Z * option value_ptr => (fun v => (a.1, v)) <$> a.2) args with
  | Some l => Done l
  | None => Fault
  end.

(** The loop over the descriptions of a list: [None] where no sequence could be made. *)
Fixpoint proto_seqs (l : list (list proto_elem)) (values : list (option value_ptr)) (rec : sdp_record) :
    run (list (option sdp_data) * sdp_record) :=
  match l with
  | [] => Done ([], rec)
  | elt :: l =>
      r ← fill_values elt values;
      let '(args, values, uuid) := r in
      args ← written_args args;
      s ← sdp_seq_alloc args;
      let rec := match s, uuid with
                 | Some _, Some u => sdp_pattern_add_uuid rec u
                 | _, _ => rec
                 end in
      r ← proto_seqs l values rec;
      Done (s :: r.1, r.2)
  end.

Definition access_proto_to_dataseq (rec : sdp_record) (proto : list (list proto_elem)) :
    run (option sdp_data * sdp_record) :=
  r ← proto_seqs proto (replicate 10 None) rec;
  seqs ← match mapM id r.1 with Some seqs => Done seqs | None => Fault end;
  d ← sdp_seq_alloc (seq_arg <$> seqs);
  Done (d, r.2).

(** The loop over the lists of protocols; [sdp_seq_append] of NULL is [Fault]. *)
Fixpoint append_protos (ap : list (list (list proto_elem))) (protos : list sdp_data) (rec : sdp_record) :
    run (list sdp_data * sdp_record) :=
  match ap with
  | [] => Done (protos, rec)
  | p :: ap =>
      r ← access_proto_to_dataseq rec p;
      d ← not_null r.1;
      append_protos ap (sdp_seq_append protos d) r.2
  end.

(** For one list of protocols, and for none, where NULL is added. *)
Definition sdp_set_access_protos (rec : sdp_record) (ap : option (list (list proto_elem))) :
    run sdp_record :=
  r ← append_protos (option_list ap) [] rec;
  attr_add_alloc r.2 SDP_ATTR_PROTO_DESC_LIST (head r.1).

Definition sdp_set_add_access_protos (rec : sdp_record) (ap : list (list (list proto_elem))) :
    run sdp_record :=
  r ← append_protos ap [] rec;
  d ← match r.1 with [] => Done None | l => sdp_data_alloc Dtd.SDP_SEQ8 (PSeq l) end;
  attr_add_alloc r.2 SDP_ATTR_ADD_PROTO_DESC_LIST d.

(** The chains of the descriptions of a list; [None] when one is not a sequence. *)
Fixpoint desc_chains (l : list sdp_data) : run (option (list (list sdp_data))) :=
  match l with
  | [] => Done (Some [])
  | curr :: l =>
      if negb (SDP_IS_SEQ (dtd curr)) then Done None else
      match val curr with
      | VSeq c => r ← desc_chains l; Done (more c r)
      | _ => Fault
      end
  end.

Fixpoint desc_lists (l : list sdp_data) : run (option (list (list (list sdp_data)))) :=
  match l with
  | [] => Done (Some [])
  | pdlist :: l =>
      if negb (SDP_IS_SEQ (dtd pdlist)) && negb (SDP_IS_ALT (dtd pdlist)) then Done None else
      match val pdlist with
      | VSeq c =>
          pds ← desc_chains c;
          match pds with
          | None => Done None
          | Some pds => r ← desc_lists l; Done (more pds r)
          end
      | _ => Fault
      end
  end.

(** [None] is -1. *)
Definition sdp_get_proto_descs (attr_id : Z) (rec : sdp_record) :
    run (option (list (list (list sdp_data)))) :=
  match sdp_data_get rec attr_id with
  | None => Done None
  | Some pdlist =>
      if attr_id =? SDP_ATTR_ADD_PROTO_DESC_LIST then
        if negb (SDP_IS_SEQ (dtd pdlist)) then Done None else
        match val pdlist with VSeq l => desc_lists l | _ => Fault end
      else desc_lists [pdlist]
  end.

Definition sdp_get_access_protos (rec : sdp_record) := sdp_get_proto_descs SDP_ATTR_PROTO_DESC_LIST rec.
Definition sdp_get_add_access_protos (rec : sdp_record) :=
  sdp_get_proto_descs SDP_ATTR_ADD_PROTO_DESC_LIST rec.

(** The first port that is not zero. *)
Fixpoint first_port (l : list (list sdp_data)) (proto : Z) : run Z :=
  match l with
  | [] => Done 0
  | seq :: l => port ← find_port seq proto; if port =? 0 then first_port l proto else Done port
  end.

Definition sdp_get_proto_port (l : list (list (list sdp_data))) (proto : Z) : run Z :=
  if negb (proto =? L2CAP_UUID) && negb (proto =? RFCOMM_UUID) then Done (-1)
  else first_port (concat l) proto.

(** What follows the UUID of the protocol, [None] for NULL. *)
Fixpoint first_desc (l : list (list sdp_data)) (proto : Z) : run (option (list sdp_data)) :=
  match l with
  | [] => Done None
  | seq :: l =>
      match seq with
      | [] => Fault
      | d :: next =>
          if SDP_IS_UUID (dtd d) then
            u ← uuid_val d;
            if sdp_uuid_to_proto u =? proto then Done (match next with [] => None | _ => Some next end)
            else first_desc l proto
          else first_desc l proto
      end
  end.

Definition sdp_get_proto_desc (l : list (list (list sdp_data))) (proto : Z) : run (option (list sdp_data)) :=
  first_desc (concat l) proto.
