(* ===== verification/SdpAttrSpec.v ===== *)
(** Theorems on the attributes of records with lists (lib/sdp.c): what was set is what is
    read, except where an attribute exists already. *)
From Stdlib Require Import ZArith Lia Sorted.
From S2P Require Import Prelude Blocks Libc Uuid Eir Sdp SdpPdu SdpSpec SdpRecord SdpParse SdpProps SdpAttr.
From stdpp Require Import base numbers list option.

Local Open Scope Z_scope.

(** ** Attributes of records *)

Lemma pattern_add_get rec us a :
  sdp_data_get (foldl sdp_pattern_add_uuid rec us) a = sdp_data_get rec a.
Proof.
  revert rec. induction us as [|u us IH]; intros rec; [done|]. cbn. rewrite IH.
  unfold sdp_pattern_add_uuid. by destruct (sdp_list_find _ _ _).
Qed.

Lemma pattern_add_attrs rec us : attrlist (foldl sdp_pattern_add_uuid rec us) = attrlist rec.
Proof.
  revert rec. induction us as [|u us IH]; intros rec; [done|]. cbn. rewrite IH.
  unfold sdp_pattern_add_uuid. by destruct (sdp_list_find _ _ _).
Qed.

(** ** Sequences that are made *)

Definition seq_of (l : list sdp_data) : sdp_data :=
  Data Dtd.SDP_SEQ8 0 (1 + Z.of_nat 1 + sum_unitSize l) (VSeq l).

Definition uuid_data (u : uuid_t) : sdp_data :=
  Data (uuid_type u) 0 (match u with SDP_UUID16 _ => 3 | SDP_UUID32 _ => 5 | _ => 17 end) (VUuid u).

Definition u16_data (v : Z) : sdp_data := Data Dtd.SDP_UINT16 0 3 (VNum v).

(** An argument of [sdp_seq_alloc] that makes the element [d]. *)
Definition makes (e : Z * value_ptr) (d : sdp_data) : Prop :=
  (if (Dtd.SDP_SEQ8 <=? e.1) && (e.1 <=? Dtd.SDP_ALT32) then chain_of e.2
   else r ← sdp_data_alloc e.1 e.2; Done (as_chain r)) = Done [d].

Lemma seq_alloc_makes elems ds :
  Forall2 makes elems ds -> sdp_seq_alloc elems = Done (Some (seq_of ds)).
Proof.
  intros HF. unfold sdp_seq_alloc. set (f := fun (dtd : Z) (value : value_ptr) (_ : Z) => _).
  assert (forall seq curr, (length curr <= 1)%nat ->
    seq_alloc_loop f ((fun e => (e, 0)) <$> elems) seq curr = Done (Some (seq ++ curr ++ ds))) as HL.
  { induction HF as [|[dtd v] d elems ds Hd HF IH]; intros seq curr Hc.
    - cbn. by rewrite app_nil_r.
    - cbn [fmap list_fmap seq_alloc_loop]. assert (f dtd v 0 = Done [d]) as -> by exact Hd.
      cbn [mbind run_bind]. rewrite IH by (cbn; lia).
      replace (take 1 curr) with curr by (destruct curr as [|? [|? ?]]; [done|done|cbn in Hc; lia]).
      by rewrite <- app_assoc. }
  rewrite HL by (cbn; lia). done.
Qed.

Lemma uuid_makes u : uuid_any_ok u -> exists e, uuid_arg u = Some e /\ makes e (uuid_data u).
Proof.
  intros [n Hu]. destruct u as [|v|v|l]; [done|..]; (eexists; split; [done|]); unfold makes; cbn [fst snd];
    unfold uuid_ok in Hu.
  - rewrite andb_true_iff, bool_decide_eq_true in Hu. destruct Hu as [_ Hu].
    change (Dtd.SDP_SEQ8 <=? uuid_type (SDP_UUID16 v)) with false. cbn [andb].
    unfold sdp_data_alloc, sdp_data_alloc_with_length.
    change (dtd_kind (uuid_type (SDP_UUID16 v))) with (Some (KUuid 2)). cbn [memory mbind run_bind uuid_value].
    rewrite ld_start by done. cbn [lift mbind run_bind as_chain Nat.eqb].
    unfold uuid_data, sdp_uuid16_create. rewrite le_val_bytes, Z.mod_small by exact Hu. done.
  - rewrite andb_true_iff, bool_decide_eq_true in Hu. destruct Hu as [_ Hu].
    change (Dtd.SDP_SEQ8 <=? uuid_type (SDP_UUID32 v)) with false. cbn [andb].
    unfold sdp_data_alloc, sdp_data_alloc_with_length.
    change (dtd_kind (uuid_type (SDP_UUID32 v))) with (Some (KUuid 4)). cbn [memory mbind run_bind uuid_value].
    rewrite ld_start by done. cbn [lift mbind run_bind as_chain Nat.eqb].
    unfold uuid_data, sdp_uuid32_create. rewrite le_val_bytes, Z.mod_small by exact Hu. done.
  - rewrite !andb_true_iff in Hu. destruct Hu as [[_ _] Hl%Nat.eqb_eq].
    change (Dtd.SDP_SEQ8 <=? uuid_type (SDP_UUID128 l)) with false. cbn [andb].
    unfold sdp_data_alloc, sdp_data_alloc_with_length.
    change (dtd_kind (uuid_type (SDP_UUID128 l))) with (Some (KUuid 16)). cbn [memory mbind run_bind uuid_value].
    rewrite ld_all by (unfold zlen; by rewrite Hl). done.
Qed.

Lemma u16_makes v : is_u16 v -> makes (u16_arg v) (u16_data v).
Proof.
  intros Hv. unfold makes, u16_arg. cbn [fst snd]. change (Dtd.SDP_SEQ8 <=? Dtd.SDP_UINT16) with false.
  cbn [andb]. unfold sdp_data_alloc, sdp_data_alloc_with_length, load_num.
  change (dtd_kind Dtd.SDP_UINT16) with (Some (KUint 2)). cbn [memory mbind run_bind].
  rewrite ld_all by (unfold zlen; by rewrite le_bytes_length). cbn [lift mbind run_bind as_chain].
  rewrite le_val_bytes, Z.mod_small by exact Hv. done.
Qed.

Lemma seq_makes l : makes (seq_arg (seq_of l)) (seq_of l).
Proof. done. Qed.

(** ** Lists read back *)

Lemma uuids_of_data us : Forall uuid_any_ok us -> uuids_of (uuid_data <$> us) = Done (Some us).
Proof.
  induction 1 as [|u us [n Hu] Hus IH]; [done|]. cbn [fmap list_fmap uuids_of].
  destruct u as [|v|v|l]; [done|..]; cbn -[uuids_of]; change (list_fmap _ _ uuid_data us) with (uuid_data <$> us);
    rewrite IH; done.
Qed.

Lemma uuid_args us : Forall uuid_any_ok us ->
  exists es, mapM (fun p => p ≫= uuid_arg) (Some <$> us) = Some es /\ Forall2 makes es (uuid_data <$> us).
Proof.
  induction 1 as [|u us Hu Hus (es & He & HF)]; [exists []; done|].
  destruct (uuid_makes u Hu) as (e & Ha & Hm). exists (e :: es). split; [|by constructor].
  cbn [fmap list_fmap mapM]. cbn [mbind option_bind]. rewrite Ha. cbn.
  change (list_fmap _ _ Some us) with (Some <$> us) in *. by rewrite He.
Qed.

Lemma omap_some {A} (l : list A) : omap id (Some <$> l) = l.
Proof. induction l as [|x l IH]; [done|]. cbn. by f_equal. Qed.

Lemma mapM_some {A} (l : list A) : mapM id (Some <$> l) = Some l.
Proof. induction l as [|x l IH]; [done|]. cbn. change (list_fmap _ _ Some l) with (Some <$> l). by rewrite IH. Qed.

Definition profile_ok (p : sdp_profile_desc) : Prop := uuid_any_ok (profile_uuid p) /\ is_u16 (version p).

Definition profile_data (p : sdp_profile_desc) : sdp_data :=
  seq_of [uuid_data (profile_uuid p); u16_data (version p)].

Lemma profile_seqs_spec ps : Forall profile_ok ps -> forall rec,
  profile_seqs (Some <$> ps) rec
    = Done (Some (profile_data <$> ps), foldl sdp_pattern_add_uuid rec (profile_uuid <$> ps)).
Proof.
  induction 1 as [|p ps [Hu Hv] Hps IH]; intros rec; [done|]. cbn [fmap list_fmap profile_seqs foldl].
  destruct (uuid_makes _ Hu) as (e & -> & He).
  rewrite (seq_alloc_makes [e; u16_arg (version p)] [uuid_data (profile_uuid p); u16_data (version p)])
    by (repeat constructor; [done|by apply u16_makes]).
  cbn [mbind run_bind]. change (list_fmap _ _ Some ps) with (Some <$> ps). rewrite IH. done.
Qed.

Lemma profiles_make ps : Forall2 makes (seq_arg <$> (profile_data <$> ps)) (profile_data <$> ps).
Proof. induction ps as [|p ps IH]; [constructor|]. constructor; [apply seq_makes|exact IH]. Qed.

Lemma is_uuid_data u : uuid_any_ok u -> SDP_IS_UUID (dtd (uuid_data u)) = true.
Proof. intros [n Hu]. by destruct u. Qed.

Lemma profiles_of_data ps : Forall profile_ok ps -> profiles_of (profile_data <$> ps) = Done (Some ps).
Proof.
  induction 1 as [|p ps [Hu Hv] Hps IH]; [done|]. cbn [fmap list_fmap].
  change (list_fmap _ _ profile_data ps) with (profile_data <$> ps). cbn [profiles_of].
  change (SDP_IS_UUID (dtd (profile_data p))) with false. change (SDP_IS_SEQ (dtd (profile_data p))) with true.
  cbn iota. change (val (profile_data p))
    with (VSeq [uuid_data (profile_uuid p); u16_data (version p)]). cbn iota.
  rewrite is_uuid_data by done. cbn [negb]. change (dtd (u16_data (version p)) =? Dtd.SDP_UINT16) with true.
  cbn [negb]. unfold uuid_val, num16. cbn [val uuid_data u16_data mbind run_bind]. rewrite IH.
  cbn [mbind run_bind more]. assert (u16 (version p) = version p) as -> by (unfold u16; by apply Z.mod_small).
  by destruct p.
Qed.

Definition lang_ok (l : sdp_lang_attr) : Prop :=
  is_u16 (code_ISO639 l) /\ is_u16 (encoding l) /\ is_u16 (base_offset l).

Definition lang_data (l : sdp_lang_attr) : list sdp_data :=
  [u16_data (code_ISO639 l); u16_data (encoding l); u16_data (base_offset l)].

Lemma lang_makes ls : Forall lang_ok ls -> Forall2 makes (ls ≫= lang_args) (ls ≫= lang_data).
Proof.
  induction 1 as [|l ls (H1 & H2 & H3) Hls IH]; [constructor|]. cbn.
  by repeat (constructor; [by apply u16_makes|]).
Qed.

Lemma langs_of_data ls : Forall lang_ok ls -> langs_of (ls ≫= lang_data) = Done (Some ls).
Proof.
  induction 1 as [|l ls (H1 & H2 & H3) Hls IH]; [done|].
  change (langs_of ((l :: ls) ≫= lang_data)) with
    (r ← langs_of (ls ≫= lang_data);
     Done (more (Lang (u16 (code_ISO639 l)) (u16 (encoding l)) (u16 (base_offset l))) r)).
  rewrite IH. cbn [mbind run_bind more]. unfold u16. rewrite !Z.mod_small by done. by destruct l.
Qed.

(** [sdp_attr_add] of an element: nothing happens when the attribute is there. *)
Lemma add_alloc_spec rec attr d :
  well_typed d = true ->
  exists rec', attr_add_alloc rec attr (Some d) = Done rec' /\
    match sdp_data_get rec attr with Some _ => rec' = rec | None => sets rec rec' attr d end.
Proof.
  intros Hd. unfold attr_add_alloc. destruct (sdp_data_get rec attr) eqn:Hg; [by eexists|].
  cbn [not_null mbind run_bind]. unfold sdp_attr_add. rewrite Hg.
  assert (exists rec', insert_attr rec attr d = Done rec') as [rec' Hi].
  { unfold insert_attr. destruct (attr =? SDP_ATTR_SVCLASS_ID_LIST); [|by eexists].
    destruct (svclass_ok (set_attrId d attr) (svclass (set_attrlist rec
      (sdp_list_insert_sorted sdp_attrid_comp_func (attrlist rec) (set_attrId d attr))))) as [u Hu];
      [by rewrite well_typed_set_attrId|]. rewrite Hu. by eexists. }
  rewrite Hi. cbn [mbind run_bind snd]. eexists; split; [done|]. by apply insert_sets.
Qed.

Lemma seq_of_typed l : forallb well_typed l = true -> well_typed (seq_of l) = true.
Proof. intros Hl. unfold seq_of. cbn [well_typed]. change (dtd_kind Dtd.SDP_SEQ8) with (Some (KSeq 1)). done. Qed.

Lemma uuid_data_typed u : uuid_any_ok u -> well_typed (uuid_data u) = true.
Proof.
  intros [n Hu]. unfold uuid_data. cbn [well_typed].
  destruct u as [|v|v|l]; [done|..]; cbn [uuid_type]; unfold uuid_ok in Hu.
  - change (dtd_kind Dtd.SDP_UUID16) with (Some (KUuid 2)). apply andb_true_iff in Hu as [_ Hu].
    cbn [leaf_ok uuid_ok]. by rewrite Hu.
  - change (dtd_kind Dtd.SDP_UUID32) with (Some (KUuid 4)). apply andb_true_iff in Hu as [_ Hu].
    cbn [leaf_ok uuid_ok]. by rewrite Hu.
  - change (dtd_kind Dtd.SDP_UUID128) with (Some (KUuid 16)). rewrite !andb_true_iff in Hu.
    destruct Hu as [[_ H1] H2]. cbn [leaf_ok uuid_ok]. by rewrite H1, H2.
Qed.

Lemma u16_data_typed v : is_u16 v -> well_typed (u16_data v) = true.
Proof.
  intros Hv. unfold u16_data. cbn [well_typed]. change (dtd_kind Dtd.SDP_UINT16) with (Some (KUint 2)).
  unfold leaf_ok. unfold is_u16 in Hv. rewrite !andb_true_iff, ?Z.leb_le, ?Z.ltb_lt. cbn. lia.
Qed.

Lemma forallb_fmap_typed {A} (f : A -> sdp_data) (P : A -> Prop) l :
  Forall P l -> (forall x, P x -> well_typed (f x) = true) -> forallb well_typed (f <$> l) = true.
Proof. intros HF Hf. induction HF; [done|]. cbn. by rewrite Hf. Qed.

Lemma profile_data_typed p : profile_ok p -> well_typed (profile_data p) = true.
Proof.
  intros [Hu Hv]. apply seq_of_typed. cbn [forallb]. by rewrite uuid_data_typed, u16_data_typed.
Qed.

Lemma lang_data_typed ls : Forall lang_ok ls -> forallb well_typed (ls ≫= lang_data) = true.
Proof.
  induction 1 as [|l ls (H1 & H2 & H3) Hls IH]; [done|].
  change (well_typed (u16_data (code_ISO639 l)) && (well_typed (u16_data (encoding l)) &&
    (well_typed (u16_data (base_offset l)) && forallb well_typed (ls ≫= lang_data))) = true).
  by rewrite !u16_data_typed, IH.
Qed.

(** C18. A list of UUIDs that is set for an attribute is read back, its UUIDs are in the
    pattern, and no other attribute changes.  Profiles and languages are read back too, but
    only when the record had none: otherwise nothing is replaced though the call succeeds.
    Setting no protocols dereferences NULL instead of removing the attribute. *)
Theorem sdp_attributes_set_get rec aid us ps ls :
  rec_ok rec -> Forall uuid_any_ok us -> us <> [] -> Forall profile_ok ps -> ps <> [] -> Forall lang_ok ls ->
  (exists rec', sdp_set_uuidseq_attr rec aid (Some <$> us) = Done (0, rec') /\
    sdp_get_uuidseq_attr rec' aid = Done (Some us) /\
    (forall a, a <> aid -> sdp_data_get rec' a = sdp_data_get rec a) /\
    (forall v, v ∈ pattern rec' <-> v ∈ sdp_uuid_to_uuid128 <$> us \/ v ∈ pattern rec)) /\
  (exists rec', sdp_set_profile_descs rec (Some <$> ps) = Done (0, rec') /\
    sdp_get_profile_descs rec' = (if sdp_data_get rec SDP_ATTR_PFILE_DESC_LIST
                                  then sdp_get_profile_descs rec else Done (Some ps))) /\
  (exists rec', sdp_set_lang_attr rec (Some <$> ls) = Done (0, rec') /\
    sdp_get_lang_attr rec' = (if sdp_data_get rec SDP_ATTR_LANG_BASE_ATTR_ID_LIST
                              then sdp_get_lang_attr rec else Done (Some ls))) /\
  sdp_set_access_protos rec None
    = (if sdp_data_get rec SDP_ATTR_PROTO_DESC_LIST then Done rec else Fault).
Proof.
  intros Hr Hus Hne Hps Hpne Hls. split_and!.
  - destruct (uuid_args us Hus) as (es & He & HF). unfold sdp_set_uuidseq_attr.
    destruct us as [|u us]; [done|]. cbn [fmap list_fmap] in He |- *. rewrite He.
    rewrite (seq_alloc_makes _ _ HF). cbn [mbind run_bind not_null].
    set (l := u :: us) in *. set (d := seq_of (uuid_data <$> l)).
    assert (exists rec1, sdp_attr_replace rec aid d = Done rec1) as [rec1 Hrep].
    { unfold sdp_attr_replace, insert_attr. destruct (aid =? SDP_ATTR_SVCLASS_ID_LIST); [|by eexists].
      destruct (svclass_ok (set_attrId d aid) (svclass (set_attrlist (match sdp_data_get rec aid with
        Some _ => remove_attr rec aid | None => rec end) (sdp_list_insert_sorted sdp_attrid_comp_func
        (attrlist (match sdp_data_get rec aid with Some _ => remove_attr rec aid | None => rec end))
        (set_attrId d aid))))) as [v Hv].
      { rewrite well_typed_set_attrId. apply seq_of_typed.
        apply (forallb_fmap_typed _ uuid_any_ok); [done|]. apply uuid_data_typed. }
      rewrite Hv. by eexists. }
    destruct (replace_sets rec aid d rec1 Hrep) as (Hg & Ho & Hp & _).
    rewrite Hrep. cbn [mbind run_bind]. eexists. split; [done|].
    match goal with |- context [omap id ?x] => change (omap id x) with (omap id (Some <$> l)) end.
    rewrite omap_some.
    unfold sdp_pattern_add_uuidseq. split; [|split].
    + unfold sdp_get_uuidseq_attr. rewrite pattern_add_get, Hg.
      change (SDP_IS_SEQ (dtd (set_attrId d aid))) with true. cbn iota.
      change (val (set_attrId d aid)) with (VSeq (uuid_data <$> l)). cbn iota. by apply uuids_of_data.
    + intros a Ha. by rewrite pattern_add_get, Ho.
    + assert (pattern_ok (pattern rec1)) as Hpok by (rewrite Hp; apply (rec_pattern rec Hr)).
      destruct (pattern_all_ok l rec1 Hpok Hus) as (_ & Hel & _). intros v. by rewrite Hel, Hp.
  - unfold sdp_set_profile_descs. rewrite profile_seqs_spec by done. cbn [mbind run_bind].
    rewrite (seq_alloc_makes _ _ (profiles_make ps)).
    cbn [mbind run_bind]. set (rec1 := foldl sdp_pattern_add_uuid rec (profile_uuid <$> ps)).
    set (d := seq_of (profile_data <$> ps)).
    destruct (add_alloc_spec rec1 SDP_ATTR_PFILE_DESC_LIST d) as (rec' & -> & Hs).
    { apply seq_of_typed, (forallb_fmap_typed _ profile_ok); [done|]. apply profile_data_typed. }
    cbn [mbind run_bind]. eexists. split; [done|]. unfold rec1 in Hs at 1. rewrite pattern_add_get in Hs.
    destruct (sdp_data_get rec SDP_ATTR_PFILE_DESC_LIST) as [o|] eqn:Ho.
    + subst rec'. unfold sdp_get_profile_descs, rec1. by rewrite pattern_add_get, Ho.
    + destruct Hs as (Hg & _). unfold sdp_get_profile_descs. rewrite Hg.
      change (SDP_IS_SEQ (dtd (set_attrId d SDP_ATTR_PFILE_DESC_LIST))) with true. cbn [negb].
      change (val (set_attrId d SDP_ATTR_PFILE_DESC_LIST)) with (VSeq (profile_data <$> ps)).
      rewrite <- (profiles_of_data ps Hps). by destruct ps.
  - unfold sdp_set_lang_attr. rewrite mapM_some. rewrite (seq_alloc_makes _ _ (lang_makes ls Hls)).
    cbn [mbind run_bind]. set (d := seq_of (ls ≫= lang_data)).
    destruct (add_alloc_spec rec SDP_ATTR_LANG_BASE_ATTR_ID_LIST d) as (rec' & -> & Hs).
    { by apply seq_of_typed, lang_data_typed. }
    cbn [mbind run_bind]. eexists. split; [done|].
    destruct (sdp_data_get rec SDP_ATTR_LANG_BASE_ATTR_ID_LIST) as [o|] eqn:Ho; [by subst rec'|].
    destruct Hs as (Hg & _). unfold sdp_get_lang_attr. rewrite Hg.
    change (SDP_IS_SEQ (dtd (set_attrId d SDP_ATTR_LANG_BASE_ATTR_ID_LIST))) with true. cbn [negb].
    change (val (set_attrId d SDP_ATTR_LANG_BASE_ATTR_ID_LIST)) with (VSeq (ls ≫= lang_data)).
    by apply langs_of_data.
  - unfold sdp_set_access_protos, attr_add_alloc.
    change (append_protos (option_list None) [] rec) with (Done (@nil sdp_data, rec)).
    cbn [mbind run_bind fst snd list.head not_null].
    destruct (sdp_data_get rec SDP_ATTR_PROTO_DESC_LIST); reflexivity.
Qed.

(** A new record: all three lists are read back, and setting no protocols is undefined. *)
Lemma sdp_attributes_set_get_witness :
  (exists rec', sdp_set_uuidseq_attr sdp_record_alloc 1 [Some (SDP_UUID16 0x1101)] = Done (0, rec') /\
    sdp_get_uuidseq_attr rec' 1 = Done (Some [SDP_UUID16 0x1101])) /\
  (exists rec', sdp_set_profile_descs sdp_record_alloc [Some (Profile (SDP_UUID16 0x1101) 0x0100)]
      = Done (0, rec') /\
    sdp_get_profile_descs rec' = Done (Some [Profile (SDP_UUID16 0x1101) 0x0100])) /\
  (exists rec', sdp_set_lang_attr sdp_record_alloc [Some (Lang 0x656e 106 0x100)] = Done (0, rec') /\
    sdp_get_lang_attr rec' = Done (Some [Lang 0x656e 106 0x100])) /\
  sdp_set_access_protos sdp_record_alloc None = Fault.
Proof.
  destruct (sdp_attributes_set_get sdp_record_alloc 1 [SDP_UUID16 0x1101]
    [Profile (SDP_UUID16 0x1101) 0x0100] [Lang 0x656e 106 0x100]) as (H1 & H2 & H3 & H4).
  - exact rec_ok_alloc.
  - constructor; [|constructor]. exists 2%nat. reflexivity.
  - discriminate.
  - constructor; [|constructor]. split; [exists 2%nat; reflexivity|]. split; reflexivity || discriminate.
  - discriminate.
  - constructor; [|constructor]. repeat split; reflexivity || discriminate.
  - destruct H1 as (r1 & A1 & B1 & _). split; [exists r1; split; [exact A1|exact B1]|].
    split; [exact H2|]. split; [exact H3|exact H4].
Defined.
