(* ===== verification/SdpService.v ===== *)
(** src/sdpd-service.c: the records that the server registers for itself, and the calls by
    which the daemon adds and removes records.  src/sdpd-server.c: start, stop and sessions
    of the server, with the callers of [process_request] in src/sdpd-request.c.

    What the system calls say are arguments: whether the socket has a peer, and what it
    received.  Sockets, watches and texts for the log are left out. *)
From Stdlib Require Import ZArith Lia.
From S2P Require Import Prelude Libc Uuid Eir Sdp SdpPdu SdpAttr SdpDb SdpRequest.
From stdpp Require Import base numbers list gmap option.

Local Open Scope Z_scope.

Definition SDP_SERVER_RECORD_HANDLE : Z := 0x0000.
Definition SDP_SERVER_SVCLASS_ID : Z := 0x1000.
Definition BROWSE_GRP_DESC_SVCLASS_ID : Z := 0x1001.
Definition PNP_INFO_SVCLASS_ID : Z := 0x1200.
Definition PNP_INFO_PROFILE_ID : Z := PNP_INFO_SVCLASS_ID.
Definition MPS_SVCLASS_ID : Z := 0x113B.
Definition MPS_PROFILE_ID : Z := 0x113A.
Definition DIALUP_NET_SVCLASS_ID : Z := 0x1103.
Definition AUDIO_SOURCE_SVCLASS_ID : Z := 0x110a.
Definition AUDIO_SINK_SVCLASS_ID : Z := 0x110b.
Definition AV_REMOTE_TARGET_SVCLASS_ID : Z := 0x110c.
Definition AV_REMOTE_CONTROLLER_SVCLASS_ID : Z := 0x110f.
Definition PANU_SVCLASS_ID : Z := 0x1115.
Definition NAP_SVCLASS_ID : Z := 0x1116.
Definition HANDSFREE_SVCLASS_ID : Z := 0x111e.
Definition HANDSFREE_AGW_SVCLASS_ID : Z := 0x111f.
Definition PBAP_PCE_SVCLASS_ID : Z := 0x112e.
Definition PBAP_PSE_SVCLASS_ID : Z := 0x112f.
Definition SDP_ATTR_MPSD_SCENARIOS : Z := 0x0200.
Definition SDP_ATTR_MPMD_SCENARIOS : Z := 0x0201.
Definition SDP_ATTR_MPS_DEPENDENCIES : Z := 0x0202.

(** ** Features of multiple profiles

    A mask is the union of the bits of its scenarios. *)
Definition bits (l : list Z) : Z := foldr (fun i n => Z.lor (Z.shiftl 1 i) n) 0 l.

Definition MPS_MPSD_HFP_AG : Z := bits [0; 2; 4; 6; 8; 10; 14; 12; 16; 18; 24; 26; 28; 30].
Definition MPS_MPSD_HFP_HF : Z := bits [1; 3; 5; 7; 9; 11; 13; 15; 17; 19; 25; 27; 29; 31].
Definition MPS_MPSD_A2DP_SRC : Z := bits [0; 2; 4; 6; 8; 10; 12; 20; 22; 32; 34; 36].
Definition MPS_MPSD_A2DP_SNK : Z := bits [1; 3; 5; 7; 9; 11; 13; 21; 23; 33; 35; 37].
Definition MPS_MPSD_AVRCP_CT : Z := MPS_MPSD_A2DP_SNK.
Definition MPS_MPSD_AVRCP_TG : Z := MPS_MPSD_A2DP_SRC.
Definition MPS_MPSD_DUN_GW : Z := bits [14; 16; 18; 20; 22; 24].
Definition MPS_MPSD_DUN_DT : Z := bits [15; 17; 19; 21; 23; 25].
Definition MPS_MPSD_PAN_NAP : Z := bits [26; 28; 30; 32; 34].
Definition MPS_MPSD_PAN_PANU : Z := bits [27; 29; 31; 33; 35].
Definition MPS_MPSD_PBAP_SRC : Z := bits [36].
Definition MPS_MPSD_PBAP_CLI : Z := bits [37].
Definition union (l : list Z) : Z := foldr Z.lor 0 l.
Definition MPS_MPSD_ALL : Z :=
  union [MPS_MPSD_HFP_AG; MPS_MPSD_HFP_HF; MPS_MPSD_A2DP_SRC; MPS_MPSD_A2DP_SNK; MPS_MPSD_AVRCP_CT;
         MPS_MPSD_AVRCP_TG; MPS_MPSD_DUN_GW; MPS_MPSD_DUN_DT; MPS_MPSD_PAN_NAP; MPS_MPSD_PAN_PANU;
         MPS_MPSD_PBAP_SRC; MPS_MPSD_PBAP_CLI].

Definition MPS_MPMD_HFP_AG : Z := bits [6].
Definition MPS_MPMD_HFP_HF : Z := bits [0; 2; 4; 7; 9].
Definition MPS_MPMD_A2DP_SRC : Z := bits [1; 3; 5; 8; 10; 12; 14; 15; 17].
Definition MPS_MPMD_A2DP_SNK : Z := bits [0; 2; 4; 7; 9; 16; 18].
Definition MPS_MPMD_AVRCP_CT : Z := MPS_MPMD_A2DP_SNK.
Definition MPS_MPMD_AVRCP_CT_ONLY : Z := bits [11; 13].
Definition MPS_MPMD_AVRCP_TG : Z := MPS_MPMD_A2DP_SRC.
Definition MPS_MPMD_DUN_DT : Z := bits [16; 18].
Definition MPS_MPMD_ALL : Z :=
  union [MPS_MPMD_HFP_AG; MPS_MPMD_HFP_HF; MPS_MPMD_A2DP_SRC; MPS_MPMD_A2DP_SNK; MPS_MPMD_AVRCP_CT;
         MPS_MPMD_AVRCP_CT_ONLY; MPS_MPMD_AVRCP_TG; MPS_MPMD_DUN_DT].

Definition MPS_DEFAULT_DEPS : Z := bits [1; 2; 3].

(** The loop of [class_supported]. *)
Fixpoint class_in (s : server) (l : list Z) (class : Z) : run bool :=
  match l with
  | [] => Done false
  | r :: l =>
      rec ← deref s r;
      if sdp_uuid_cmp (svclass rec) (sdp_uuid16_create class) =? 0 then Done true
      else class_in s l class
  end.

Definition class_supported (s : server) (class : Z) : run bool :=
  class_in s (sdp_get_record_list s) class.

(** [feat &= ~mask]. *)
Definition without_bits (feat mask : Z) : Z := Z.ldiff feat mask.

(** [feat] without the mask of a class that no record has. *)
Definition unless_supported (s : server) (feat class mask : Z) : run Z :=
  b ← class_supported s class;
  Done (if b : bool then feat else without_bits feat mask).

Definition mps_mpsd_features (s : server) : run Z :=
  let feat := MPS_MPSD_ALL in
  feat ← unless_supported s feat HANDSFREE_AGW_SVCLASS_ID MPS_MPSD_HFP_AG;
  feat ← unless_supported s feat HANDSFREE_SVCLASS_ID MPS_MPSD_HFP_HF;
  feat ← unless_supported s feat AUDIO_SOURCE_SVCLASS_ID MPS_MPSD_A2DP_SRC;
  feat ← unless_supported s feat AUDIO_SINK_SVCLASS_ID MPS_MPSD_A2DP_SNK;
  feat ← unless_supported s feat AV_REMOTE_CONTROLLER_SVCLASS_ID MPS_MPSD_AVRCP_CT;
  feat ← unless_supported s feat AV_REMOTE_TARGET_SVCLASS_ID MPS_MPSD_AVRCP_TG;
  feat ← unless_supported s feat DIALUP_NET_SVCLASS_ID MPS_MPSD_DUN_GW;
  let feat := without_bits feat MPS_MPSD_DUN_DT in
  feat ← unless_supported s feat NAP_SVCLASS_ID MPS_MPSD_PAN_NAP;
  feat ← unless_supported s feat PANU_SVCLASS_ID MPS_MPSD_PAN_PANU;
  feat ← unless_supported s feat PBAP_PSE_SVCLASS_ID MPS_MPSD_PBAP_SRC;
  unless_supported s feat PBAP_PCE_SVCLASS_ID MPS_MPSD_PBAP_CLI.

Definition mps_mpmd_features (s : server) : run Z :=
  let feat := MPS_MPMD_ALL in
  feat ← unless_supported s feat HANDSFREE_AGW_SVCLASS_ID MPS_MPMD_HFP_AG;
  feat ← unless_supported s feat HANDSFREE_SVCLASS_ID MPS_MPMD_HFP_HF;
  feat ← unless_supported s feat AUDIO_SOURCE_SVCLASS_ID MPS_MPMD_A2DP_SRC;
  b ← class_supported s AUDIO_SINK_SVCLASS_ID;
  let feat := without_bits feat (if b : bool then MPS_MPMD_AVRCP_CT_ONLY else MPS_MPMD_A2DP_SNK) in
  b ← class_supported s AV_REMOTE_CONTROLLER_SVCLASS_ID;
  let feat := if b : bool then feat
              else without_bits (without_bits feat MPS_MPMD_AVRCP_CT) MPS_MPMD_AVRCP_CT_ONLY in
  feat ← unless_supported s feat AV_REMOTE_TARGET_SVCLASS_ID MPS_MPMD_AVRCP_TG;
  Done (without_bits feat MPS_MPMD_DUN_DT).

(** ** Records *)

(** [sdp_attr_add] of a number of [n] bytes. *)
Definition attr_add_num (rec : sdp_record) (attr dtd : Z) (n : nat) (v : Z) : run sdp_record :=
  d ← sdp_data_alloc dtd (PMem (le_bytes n v));
  attr_add_alloc rec attr d.

Definition class_list (class : Z) : list (option uuid_t) := [Some (sdp_uuid16_create class)].

Definition text (l : list Z) : bytes := l ++ [0].

Definition mps_record (mpmd : bool) : run sdp_record :=
  let rec := sdp_record_alloc in
  r ← sdp_set_browse_groups rec (class_list PUBLIC_BROWSE_GROUP);
  r ← sdp_set_service_classes r.2 (class_list MPS_SVCLASS_ID);
  r ← sdp_set_profile_descs r.2 [Some (Profile (sdp_uuid16_create MPS_PROFILE_ID) 0x0100)];
  rec ← attr_add_num r.2 SDP_ATTR_MPSD_SCENARIOS Dtd.SDP_UINT64 8 0;
  rec ← (if mpmd then attr_add_num rec SDP_ATTR_MPMD_SCENARIOS Dtd.SDP_UINT64 8 0 else Done rec);
  rec ← attr_add_num rec SDP_ATTR_MPS_DEPENDENCIES Dtd.SDP_UINT16 2 MPS_DEFAULT_DEPS;
  sdp_set_info_attr rec
    (Some (text [77; 117; 108; 116; 105; 32; 80; 114; 111; 102; 105; 108; 101])) None None.

(** The record at [r] is changed by [f]. *)
Definition change (s : server) (r : Z) (f : sdp_record -> run sdp_record) : run server :=
  rec ← deref s r;
  rec ← f rec;
  Done (assign s r rec).

Section service.
Context (fuel : nat) (now fixed_dbts : Z).

Definition register_public_browse_group (s : server) : run server :=
  let '(browse, s) := new_record s (set_handle sdp_record_alloc (SDP_SERVER_RECORD_HANDLE + 1)) in
  s ← sdp_record_add s BDADDR_ANY browse;
  change s browse (fun rec =>
    rec ← attr_add_num rec SDP_ATTR_RECORD_HANDLE Dtd.SDP_UINT32 4 (handle rec);
    r ← sdp_set_service_classes rec (class_list BROWSE_GRP_DESC_SVCLASS_ID);
    r ← sdp_attr_add_new r.2 SDP_ATTR_GROUP_ID Dtd.SDP_UUID16 (PMem (le_bytes 2 PUBLIC_BROWSE_GROUP));
    Done r.2).

Definition register_server_service (s : server) : run server :=
  let '(r, s) := new_record s (set_handle sdp_record_alloc SDP_SERVER_RECORD_HANDLE) in
  let s := Srv (store s) (next_addr s) (service_db s) (access_db s) (socket_index s) (cstates s) (Some r) in
  s ← sdp_record_add s BDADDR_ANY r;
  s ← change s r (fun rec =>
    rec ← attr_add_num rec SDP_ATTR_RECORD_HANDLE Dtd.SDP_UINT32 4 (handle rec);
    c ← sdp_set_service_classes rec (class_list SDP_SERVER_SVCLASS_ID);
    pData ← sdp_seq_alloc [u16_arg (Z.lor (Z.shiftl 1 8) 0)];
    attr_add_alloc c.2 SDP_ATTR_VERSION_NUM_LIST pData);
  update_db_timestamp now fixed_dbts s.

Definition register_device_id (s : server) (source vendor product version : Z) : run server :=
  h ← sdp_next_handle fuel s;
  let '(r, s) := new_record s (set_handle sdp_record_alloc h) in
  s ← sdp_record_add s BDADDR_ANY r;
  s ← change s r (fun rec =>
    rec ← attr_add_num rec SDP_ATTR_RECORD_HANDLE Dtd.SDP_UINT32 4 (handle rec);
    c ← sdp_set_service_classes rec (class_list PNP_INFO_SVCLASS_ID);
    c ← sdp_set_browse_groups c.2 (class_list PUBLIC_BROWSE_GROUP);
    c ← sdp_set_profile_descs c.2 [Some (Profile (sdp_uuid16_create PNP_INFO_PROFILE_ID) 0x0103)];
    rec ← attr_add_num c.2 0x0200 Dtd.SDP_UINT16 2 0x0103;
    rec ← attr_add_num rec 0x0201 Dtd.SDP_UINT16 2 vendor;
    rec ← attr_add_num rec 0x0202 Dtd.SDP_UINT16 2 product;
    rec ← attr_add_num rec 0x0203 Dtd.SDP_UINT16 2 version;
    rec ← attr_add_num rec 0x0204 Dtd.SDP_BOOL 1 1;
    attr_add_num rec 0x0205 Dtd.SDP_UINT16 2 source);
  update_db_timestamp now fixed_dbts s.

(** The server with [mps_handle] and [mps_mpmd]. *)
Record service := Svc { srv : server; mps_handle : Z; mps_mpmd : bool }.

Definition set_srv (v : service) (s : server) : service := Svc s (mps_handle v) (mps_mpmd v).

(** [sdp_attr_replace] with a number of 64 bits. *)
Definition replace_u64 (rec : sdp_record) (attr v : Z) : run sdp_record :=
  d ← sdp_data_alloc Dtd.SDP_UINT64 (PMem (le_bytes 8 v));
  d ← not_null d;
  sdp_attr_replace rec attr d.

Definition update_mps (v : service) : run service :=
  let s := srv v in
  if mps_handle v =? 0 then Done v else
  p ← sdp_record_find s (mps_handle v);
  match p with
  | None => Done v
  | Some r =>
      mpsd_feat ← mps_mpsd_features s;
      s ← change s r (fun rec => replace_u64 rec SDP_ATTR_MPSD_SCENARIOS mpsd_feat);
      if mps_mpmd v then
        mpmd_feat ← mps_mpmd_features s;
        s ← change s r (fun rec => replace_u64 rec SDP_ATTR_MPMD_SCENARIOS mpmd_feat);
        Done (set_srv v s)
      else Done (set_srv v s)
  end.

Definition EINVAL : Z := 22.
Definition ENOENT : Z := 2.
Definition ENOSPC : Z := 28.
Definition EEXIST : Z := 17.

(** [add_record_to_server] once the record has its handle. *)
Definition add_record (v : service) (src : bdaddr) (r : Z) : run (Z * service) :=
  s ← sdp_record_add (srv v) src r;
  s ← change s r (fun rec => sdp_attr_replace rec SDP_ATTR_RECORD_HANDLE (uint32_data (handle rec)));
  s ← change s r (fun rec => Done (match sdp_data_get rec SDP_ATTR_BROWSE_GRP_LIST with
        | None => sdp_pattern_add_uuid rec (sdp_uuid16_create PUBLIC_BROWSE_GROUP)
        | Some _ => rec
        end));
  v ← update_mps (set_srv v s);
  s ← update_db_timestamp now fixed_dbts (srv v);
  Done (0, set_srv v s).

Definition add_record_to_server (v : service) (src : bdaddr) (r : Z) : run (Z * service) :=
  rec ← deref (srv v) r;
  if handle rec =? 0xffffffff then
    h ← sdp_next_handle fuel (srv v);
    let v := set_srv v (assign (srv v) r (set_handle rec h)) in
    if h <? 0x10000 then Done (- ENOSPC, v) else add_record v src r
  else
    p ← sdp_record_find (srv v) (handle rec);
    match p with
    | Some _ => Done (- EEXIST, v)
    | None => add_record v src r
    end.

Definition remove_record_from_server (v : service) (h : Z) : run (Z * service) :=
  if h =? SDP_SERVER_RECORD_HANDLE then Done (- EINVAL, v) else
  p ← sdp_record_find (srv v) h;
  match p with
  | None => Done (- ENOENT, v)
  | Some r =>
      e ← sdp_record_remove (srv v) h;
      v ← (if e.1 =? 0 then
             v ← update_mps (set_srv v e.2);
             s ← update_db_timestamp now fixed_dbts (srv v);
             Done (set_srv v s)
           else Done (set_srv v e.2));
      s ← sdp_record_free (srv v) r;
      Done (0, set_srv v s)
  end.

Definition register_mps (v : service) (mpmd : bool) : run service :=
  rec ← mps_record mpmd;
  let '(r, s) := new_record (srv v) rec in
  e ← add_record_to_server (set_srv v s) BDADDR_ANY r;
  if e.1 <? 0 then s ← sdp_record_free (srv e.2) r; Done (set_srv e.2 s)
  else rec ← deref (srv e.2) r; Done (Svc (srv e.2) (handle rec) mpmd).
End service.

(** ** Sessions (src/sdpd-server.c) *)

(** The static data of a process that starts. *)
Definition no_server : server := Srv ∅ 0 [] [] [] [] None.

(** Where a socket leads: to a device, with our address and the MTU, or to a local client. *)
Inductive peer := Remote (device : bdaddr) (mtu : Z) | Local.

(** The conditions of an event on a socket. *)
Record condition := Cond { G_IO_NVAL : bool; G_IO_HUP : bool; G_IO_ERR : bool }.

Section sessions.
Context (late : bool) (malloc : Z -> bytes) (fuel : nat) (now fixed_dbts : Z).

(** The records that the server starts with. *)
Definition init_server (s : server) : run server :=
  s ← register_public_browse_group s;
  register_server_service now fixed_dbts s.

Definition stop_sdp_server (s : server) : run server := sdp_svcdb_reset s.

(** The request of [handle_request]. *)
Definition peer_req (p : peer) (sk : Z) (data : bytes) (len : Z) : sdp_req :=
  match p with
  | Remote device mtu => Req device false sk mtu data len
  | Local => Req BDADDR_ANY true sk 2048 data len
  end.

(** A request of a test program: from no device, and not as a local client. *)
Definition handle_internal_request (s : server) (sk mtu : Z) (data : bytes) (len : Z) : run (bytes * server) :=
  process_request late malloc fuel now fixed_dbts s (Req BDADDR_ANY false sk mtu data len).

(** What is sent, if anything; a socket without a peer is not answered. *)
Definition handle_request (s : server) (p : option peer) (sk : Z) (data : bytes) (len : Z) :
    run (option bytes * server) :=
  match p with
  | None => Done (None, s)
  | Some p =>
      r ← process_request late malloc fuel now fixed_dbts s (peer_req p sk data len);
      Done (Some r.1, r.2)
  end.

(** An event on the socket of a client, of which [hdr] was peeked and [data] received, and
    which are [None] when the call failed: whether the watch stays, what is sent, and the
    server. *)
Definition io_session_event (s : server) (cond : condition) (sk : Z) (hdr data : option bytes)
    (p : option peer) : run (bool * option bytes * server) :=
  if G_IO_NVAL cond then Done (false, None, s) else
  let gone :=
    s ← sdp_svcdb_collect_all s sk;
    Done (false, None, s) in
  if G_IO_HUP cond || G_IO_ERR cond then gone else
  match hdr with
  | None => gone
  | Some hdr =>
      if zlen hdr <? HDR then gone else
      l ← lift (ld hdr 3 2);
      let size := HDR + be_val l in
      match data with
      | None => gone
      | Some data =>
          if zlen data <=? 0 then gone else
          let buf := data ++ drop (length data) (malloc size) in
          r ← handle_request s p sk buf (zlen data);
          Done (true, r.1, r.2)
      end
  end.
End sessions.
