(* ===== verification/SdpSession.v ===== *)
(** Requests of clients to the SDP server: the invariant of the server, operations that
    change no list and no handle, and the requests that register, update and remove. *)
From Stdlib Require Import ZArith Lia Sorted.
From S2P Require Import Prelude Blocks Libc Uuid Eir Sdp SdpPdu SdpSpec SdpRecord SdpParse SdpProps SdpAttr SdpDb SdpRequest SdpServer SdpSearch SdpRepo SdpService.
From stdpp Require Import base numbers list gmap option.

Local Open Scope Z_scope.

(** ** Outcomes *)

(** What holds when there is a result. *)
Definition post {A} (e : run A) (Q : A -> Prop) : Prop :=
  match e with Done a => Q a | Fault | NoFuel => True end.

Lemma post_bind {A B} (e : run A) (f : A -> run B) Q : post e (fun x => post (f x) Q) -> post (e ≫= f) Q.
Proof. by destruct e. Qed.

Lemma post_mono {A} (e : run A) (P Q : A -> Prop) : post e P -> (forall x, P x -> Q x) -> post e Q.
Proof. destruct e; cbn; auto. Qed.

Lemma post_any {A B} (e : run A) (f : A -> run B) Q : (forall x, post (f x) Q) -> post (e ≫= f) Q.
Proof. intros H. destruct e; cbn; auto. Qed.

Lemma post_use {A B} (e : run A) (f : A -> run B) P Q :
  post e P -> (forall x, P x -> post (f x) Q) -> post (e ≫= f) Q.
Proof. intros He H. destruct e; cbn in *; auto. Qed.

Lemma post_done {A} (e : run A) Q x : post e Q -> e = Done x -> Q x.
Proof. by intros H ->. Qed.

(** ** Servers with the same lists *)

(** The records keep their handles; what else they hold and the responses may differ. *)
Record kin (s s' : server) : Prop := {
  kin_db : service_db s' = service_db s;
  kin_access : access_db s' = access_db s;
  kin_index : socket_index s' = socket_index s;
  kin_own : own_record s' = own_record s;
  kin_next : next_addr s' = next_addr s;
  kin_store r : handle <$> store s' !! r = handle <$> store s !! r;
}.

#[export] Instance kin_preorder : PreOrder kin.
Proof.
  split.
  - intros s. by split.
  - intros s1 s2 s3 [A1 A2 A3 A4 A5 A6] [B1 B2 B3 B4 B5 B6]. split; congruence.
Qed.

Lemma kin_assign s r rec rec' :
  store s !! r = Some rec -> handle rec' = handle rec -> kin s (assign s r rec').
Proof.
  intros Hr Hh. split; try done. intros x. cbn. destruct (decide (x = r)) as [->|Hn].
  - rewrite lookup_insert_eq, Hr. cbn. by rewrite Hh.
  - by rewrite lookup_insert_ne.
Qed.

Lemma kin_cstates s c : kin s (set_cstates s c).
Proof. by split. Qed.

Lemma kin_lookup s s' r rec :
  kin s s' -> store s' !! r = Some rec -> exists rec0, store s !! r = Some rec0 /\ handle rec0 = handle rec.
Proof.
  intros Hk Hr. pose proof (kin_store s s' Hk r) as H. rewrite Hr in H.
  destruct (store s !! r) as [rec0|]; [|done]. exists rec0. split; [done|]. cbn in H. congruence.
Qed.

Lemma kin_lookup' s s' r rec :
  kin s s' -> store s !! r = Some rec -> exists rec', store s' !! r = Some rec' /\ handle rec' = handle rec.
Proof.
  intros Hk Hr. pose proof (kin_store s s' Hk r) as H. rewrite Hr in H.
  destruct (store s' !! r) as [rec'|]; [|done]. exists rec'. split; [done|]. cbn in H. congruence.
Qed.

(** ** The invariant *)

Record server_ok (s : server) : Prop := {
  ok_db : db_ok s;
  ok_index : index_ok s (socket_index s);
  ok_fresh r : next_addr s <= r -> store s !! r = None;
  ok_handle r rec : r ∈ service_db s -> store s !! r = Some rec -> handle rec <> 0xffffffff;
  ok_socks : Forall (fun i => 0 <= ix_sock i < 2 ^ 31) (socket_index s);
  ok_own r : own_record s = Some r -> r ∈ service_db s /\ r ∉ ix_record <$> socket_index s /\
    exists rec, store s !! r = Some rec /\ handle rec = 0;
}.

(** Only the records of the database, and the lists, matter for [db_ok]. *)
Lemma db_ok_agree s s' :
  db_ok s -> service_db s' = service_db s -> access_db s' = access_db s ->
  (forall r, r ∈ service_db s -> handle <$> store s' !! r = handle <$> store s !! r) -> db_ok s'.
Proof.
  intros [H1 H2 H3 H4 H5] Hd Ha Hs.
  assert (forall r rec, r ∈ service_db s -> store s' !! r = Some rec ->
    exists rec0, store s !! r = Some rec0 /\ handle rec0 = handle rec) as Hto.
  { intros r rec Hr Hrec. specialize (Hs r Hr). rewrite Hrec in Hs.
    destruct (store s !! r) as [rec0|]; [|done]. exists rec0. cbn in Hs. split; [done|congruence]. }
  assert (forall r rec, r ∈ service_db s -> store s !! r = Some rec ->
    exists rec', store s' !! r = Some rec' /\ handle rec' = handle rec) as Hfrom.
  { intros r rec Hr Hrec. specialize (Hs r Hr). rewrite Hrec in Hs.
    destruct (store s' !! r) as [rec'|]; [|done]. exists rec'. cbn in Hs. split; [done|congruence]. }
  split; rewrite ?Hd, ?Ha; try done.
  - intros r Hr. destruct (H2 r Hr) as (rec & Hrec & Hu). destruct (Hfrom r rec Hr Hrec) as (rec' & Hrec' & Hh).
    exists rec'. by rewrite Hh.
  - intros r1 r2 rec1 rec2 Hr1 Hr2 E1 E2 He. destruct (Hto r1 rec1 Hr1 E1) as (y1 & Y1 & Z1).
    destruct (Hto r2 rec2 Hr2 E2) as (y2 & Y2 & Z2). apply (H3 r1 r2 y1 y2); try done. congruence.
  - intros h. rewrite (H5 h). split; intros (r & rec & Hr & Hrec & He).
    + destruct (Hfrom r rec Hr Hrec) as (y & Y & Z). exists r, y. split_and!; [done|done|congruence].
    + destruct (Hto r rec Hr Hrec) as (y & Y & Z). exists r, y. split_and!; [done|done|congruence].
Qed.

Lemma kin_ok s s' : kin s s' -> server_ok s -> server_ok s'.
Proof.
  intros Hk [H1 [I1 I2 I3] H3 H4 HS H5]. split.
  - apply (db_ok_agree s); [done|apply Hk|apply Hk|]. intros r _. apply (kin_store s s' Hk).
  - rewrite (kin_index s s' Hk). split; [done|done|]. rewrite (kin_db s s' Hk). done.
  - intros r. rewrite (kin_next s s' Hk). intros Hr. specialize (H3 r Hr).
    pose proof (kin_store s s' Hk r) as Hs. rewrite H3 in Hs. by destruct (store s' !! r).
  - intros r rec. rewrite (kin_db s s' Hk). intros Hr Hrec.
    destruct (kin_lookup s s' r rec Hk Hrec) as (y & Hy & <-). by apply (H4 r).
  - by rewrite (kin_index s s' Hk).
  - intros r. rewrite (kin_own s s' Hk), (kin_db s s' Hk), (kin_index s s' Hk). intros Hr.
    destruct (H5 r Hr) as (A & B & rec & C & D). split_and!; [done|done|].
    destruct (kin_lookup' s s' r rec Hk C) as (y & Hy & E). exists y. by rewrite E.
Qed.

(** ** Records that keep their handle *)

Lemma replace_handle rec attr d : post (sdp_attr_replace rec attr d) (fun rec' => handle rec' = handle rec).
Proof.
  unfold sdp_attr_replace, insert_attr.
  assert (handle (match sdp_data_get rec attr with Some _ => remove_attr rec attr | None => rec end)
    = handle rec) as Hh by (by destruct (sdp_data_get rec attr)).
  destruct (attr =? SDP_ATTR_SVCLASS_ID_LIST); [apply post_any; intros ?|]; exact Hh.
Qed.

Lemma pattern_add_handle rec u : handle (sdp_pattern_add_uuid rec u) = handle rec.
Proof. unfold sdp_pattern_add_uuid. by destruct (sdp_list_find _ _ _). Qed.

(** The record that extraction gives back. *)
Definition same_handle (rec : sdp_record) (rec' : option sdp_record) : Prop :=
  exists r, rec' = Some r /\ handle r = handle rec.

Lemma seq_loop_handle extract :
  (forall p bufsize rec, post (extract p bufsize (Some rec)) (fun r => same_handle rec r.2)) ->
  forall fuel p bufsize n seqlen seq rec,
    post (extract_seq_loop extract fuel p bufsize n seqlen seq (Some rec)) (fun r => same_handle rec r.2).
Proof.
  intros HE. induction fuel as [|fuel IH]; intros p bufsize n seqlen seq rec; [done|]. cbn [extract_seq_loop].
  destruct (n <? seqlen); [|by exists rec].
  eapply post_use; [apply HE|]. intros [[curr len] r'] (rec' & Hr & Hh). cbn in Hr. subst r'.
  destruct curr as [curr|]; [|by exists rec'].
  eapply post_mono; [apply IH|]. intros x (r & Hx & Hh2). exists r. split; [done|congruence].
Qed.

Lemma extract_handle b fuel : forall p bufsize rec,
  post (sdp_extract_attr b fuel p bufsize (Some rec)) (fun r => same_handle rec r.2).
Proof.
  induction fuel as [|fuel IH]; intros p bufsize rec; [done|]. cbn [sdp_extract_attr].
  assert (same_handle rec (Some rec)) as Hsame by (by exists rec).
  destruct (bufsize <? 1); [done|]. apply post_any; intros dt.
  assert (post (extract_uuid b p bufsize (Some rec)) (fun r => same_handle rec r.2)) as HU.
  { unfold extract_uuid. apply post_any; intros [[u|] len]; [|done]. apply post_any; intros t.
    exists (sdp_pattern_add_uuid rec u). split; [done|apply pattern_add_handle]. }
  assert (post (extract_seq b (sdp_extract_attr b fuel) fuel p bufsize (Some rec)) (fun r => same_handle rec r.2)) as HS.
  { unfold extract_seq. apply post_any; intros [[len t] seqlen]. destruct (len =? 0); [done|].
    destruct (bufsize <? len); [done|]. eapply post_use; [by apply seq_loop_handle|].
    intros [[seq n] r'] H. exact H. }
  destruct (dtd_kind dt) as [[| | | | | | | |]|]; try done; by apply post_any; intros ?.
Qed.

Section requests.
Context (late : bool) (malloc : Z -> bytes) (fuel : nat) (now fixed : Z).

Lemma append_attr_handle rec attr buf :
  post (append_attr late malloc fuel rec attr buf) (fun r => handle r.2 = handle rec).
Proof. unfold append_attr. destruct (sdp_data_get rec attr); [|done]. by apply post_any; intros ?. Qed.

Lemma append_attrs_handle attrs : forall rec buf,
  post (append_attrs late malloc fuel rec attrs buf) (fun r => handle r.2 = handle rec).
Proof.
  induction attrs as [|a attrs IH]; intros rec buf; [done|]. cbn [append_attrs].
  eapply post_use; [apply append_attr_handle|]. intros r Hr.
  eapply post_mono; [apply IH|]. cbn. congruence.
Qed.

Lemma extract_loop_handle pdu seq : forall rec buf,
  post (extract_attrs_loop late malloc fuel rec pdu seq buf) (fun r => handle r.2 = handle rec).
Proof.
  induction seq as [|[u|dt v] seq IH]; intros rec buf; [done|done|]. cbn [extract_attrs_loop].
  destruct (dt =? Dtd.SDP_UINT16).
  { eapply post_use; [apply append_attr_handle|]. intros r Hr. eapply post_mono; [apply IH|]. cbn. congruence. }
  destruct (dt =? Dtd.SDP_UINT32); [|done].
  destruct (_ && _); [apply post_any; intros p; by apply post_any; intros ?|].
  eapply post_use; [apply append_attrs_handle|]. intros r Hr.
  eapply post_use; [apply append_attr_handle|]. intros r2 Hr2.
  eapply post_mono; [apply IH|]. cbn. congruence.
Qed.

Lemma extract_attrs_handle rec seq buf :
  post (extract_attrs late malloc fuel (Some rec) seq buf) (fun r => same_handle rec r.2).
Proof.
  unfold extract_attrs. destruct seq as [|d seq]; [by exists rec|].
  unfold sdp_gen_record_pdu. apply post_bind. apply post_any; intros b0. apply post_any; intros [b1 l].
  eapply post_use; [apply extract_loop_handle|]. intros [[st b2] rec2] Hr. by exists rec2.
Qed.

Lemma keep_kin s r rec rec' :
  store s !! r = Some rec -> same_handle rec rec' -> kin s (keep_record s (Some r) rec').
Proof. intros Hr (x & -> & Hx). by apply (kin_assign s r rec). Qed.

Lemma cstate_alloc_kin s buf : post (sdp_cstate_alloc_buf now s buf) (fun r => kin s r.2).
Proof. unfold sdp_cstate_alloc_buf. destruct (data buf); [|done]. apply post_any; intros d. apply kin_cstates. Qed.

Lemma send_first_kin s buf max : post (send_first now s buf max) (fun r => kin s r.2).
Proof.
  unfold send_first. eapply post_use; [apply cstate_alloc_kin|]. intros [t s1] H.
  by apply post_any; intros ?.
Qed.

Lemma search_respond_kin s req pattern expected cstate buf :
  post (search_respond now s req pattern expected cstate buf) (fun r => kin s r.2).
Proof.
  unfold search_respond. apply post_any; intros b1. apply post_any; intros b2. destruct cstate as [c|].
  - destruct (sdp_get_cached_rsp s c) as [cache|]; [|done]. apply post_any; intros l0. apply post_any; intros [b3 i].
    by apply post_any; intros b4.
  - apply post_any; intros [b3 n]. apply post_any; intros b4. apply post_any; intros b5.
    destruct (_ <? n); [|by apply post_any; intros r].
    eapply post_use; [apply cstate_alloc_kin|]. intros [t s1] H.
    destruct (0 <? t); [by apply post_any; intros b6|done].
Qed.

Lemma service_search_kin s req buf :
  post (service_search_req fuel now s req buf) (fun r => kin s r.2).
Proof.
  unfold service_search_req. apply post_any; intros [[pattern scanned]|]; [|done].
  apply post_any; intros pl. apply post_any; intros [|]; [done|].
  destruct (_ <? 2); [done|]. apply post_any; intros l. apply post_any; intros [c|]; [|done].
  apply search_respond_kin.
Qed.

Lemma attr_respond_kin s req h max seq cstate buf :
  post (attr_respond late malloc fuel now s req h max seq cstate buf) (fun r => kin s r.2).
Proof.
  unfold attr_respond. apply post_any; intros [front b1]. destruct cstate as [c|].
  - destruct (sdp_get_cached_rsp s c); [|done]. apply post_any; intros r. by apply post_any; intros b2.
  - apply post_any; intros rp.
    eapply (post_use _ _ (fun rec => match rp, rec with
      | Some r, Some rec => store s !! r = Some rec | None, None => True | _, _ => False end)).
    { destruct rp as [r|]; [|done]. unfold deref. by destruct (store s !! r). }
    intros rec Hrec.
    eapply (post_use _ _ (fun e => kin s (keep_record s rp e.2))).
    { destruct rp as [r|], rec as [rec|]; try done.
      eapply post_mono; [apply extract_attrs_handle|]. intros e He. by apply (keep_kin s r rec). }
    intros [[st b2] rec2] Hk. cbn [snd] in Hk.
    eapply (post_use _ _ (fun r => kin s r.2)).
    { destruct (_ <? data_size b2).
      - eapply post_mono; [apply send_first_kin|]. intros x Hx. by etrans.
      - apply post_any; intros b3. by apply post_any; intros r. }
    intros [[b3 n] s2] H2. destruct (st =? 0); [by apply post_any; intros b4|done].
Qed.

Lemma service_attr_kin s req buf :
  post (service_attr_req late malloc fuel now s req buf) (fun r => kin s r.2).
Proof.
  unfold service_attr_req. destruct (_ <? 4); [done|]. apply post_any; intros l1.
  destruct (_ <? 2); [done|]. apply post_any; intros l2. destruct (_ <? HDR); [done|].
  apply post_any; intros [[seq scanned]|]; [|done]. apply post_any; intros pl.
  apply post_any; intros [|]; [done|]. apply post_any; intros [c|]; [|done].
  destruct (_ <? 7); [done|]. apply attr_respond_kin.
Qed.

Lemma search_attr_loop_kin search seq device l : forall s buf n,
  post (search_attr_loop late malloc fuel s l search seq device buf n) (fun r => kin s r.2).
Proof.
  induction l as [|r l IH]; intros s buf n; [done|]. cbn [search_attr_loop].
  unfold deref. destruct (store s !! r) as [rec|] eqn:Hr; [|done]. cbn [lift mbind run_bind].
  destruct (rec_matches s search device rec); [|apply IH].
  eapply post_use; [apply extract_attrs_handle|]. intros [[st tb] rec'] He. cbn [snd] in He.
  pose proof (keep_kin s r rec rec' Hr He) as Hk. destruct (negb (st =? 0)); [done|].
  destruct (_ <? buf_size buf); [|done]. apply post_any; intros t. apply post_any; intros b2.
  eapply post_mono; [apply IH|]. intros x Hx. by etrans.
Qed.

Lemma search_attr_respond_kin s req pattern max seq cstate buf :
  post (search_attr_respond late malloc fuel now s req pattern max seq cstate buf) (fun r => kin s r.2).
Proof.
  unfold search_attr_respond. apply post_any; intros [front b1].
  eapply (post_use _ _ (fun r => kin s r.2)).
  - destruct cstate as [c|].
    + destruct (sdp_get_cached_rsp s c); [|done]. destruct (_ <? _); [|done]. by apply post_any; intros r.
    + eapply post_use; [apply search_attr_loop_kin|]. intros [[[st b2] n] s1] H1. cbn [snd] in H1.
      eapply (post_use _ _ (fun r => kin s r.2)).
      * destruct (_ <? data_size b2).
        -- eapply post_mono; [apply send_first_kin|]. intros x Hx. by etrans.
        -- by apply post_any; intros r.
      * intros [[b3 m] s2] H2. destruct (n =? 0); [|done]. apply post_any; intros b4. by apply post_any; intros r.
  - intros [[[st b2] n] s1] H1. destruct (st =? 0); [by apply post_any; intros b4|done].
Qed.

Lemma service_search_attr_kin s req buf :
  post (service_search_attr_req late malloc fuel now s req buf) (fun r => kin s r.2).
Proof.
  unfold service_search_attr_req. apply post_any; intros [[pattern scanned]|]; [|done].
  destruct (_ <? 2); [done|]. apply post_any; intros l. destruct (_ <? HDR); [done|].
  apply post_any; intros [[seq scanned2]|]; [|done]. apply post_any; intros pl.
  apply post_any; intros [|]; [done|]. apply post_any; intros [c|]; [|done]. apply search_attr_respond_kin.
Qed.

(** ** Changes of records *)

Lemma timestamp_kin s : post (update_db_timestamp now fixed s) (kin s).
Proof.
  unfold update_db_timestamp. destruct (own_record s) as [r|]; [|done].
  unfold deref. destruct (store s !! r) as [rec|] eqn:Hr; [|done]. cbn [lift mbind run_bind].
  eapply post_use; [apply replace_handle|]. intros rec' Hh. by apply (kin_assign s r rec).
Qed.

Lemma pdu_loop_kin b n : forall p bufsize len seqlen s r st,
  post (pdu_server_loop fuel n b p bufsize len seqlen s r st) (fun e => kin s e.1).
Proof.
  induction n as [|n IH]; intros p bufsize len seqlen s r st; [done|]. cbn [pdu_server_loop].
  destruct (len <? seqlen); [|done]. destruct (bufsize <? 3); [done|]. apply post_any; intros l.
  unfold deref. destruct (store s !! r) as [rec|] eqn:Hr; [|done]. cbn [lift mbind run_bind].
  eapply post_use; [apply extract_handle|]. intros [[d n2] rec'] (rec1 & He & Hh). cbn in He. subst rec'.
  cbn [default]. pose proof (kin_assign s r rec rec1 Hr Hh) as Hk.
  destruct d as [d|]; [|done]. eapply post_use; [apply replace_handle|]. intros rec2 Hh2.
  eapply post_mono; [apply IH|]. intros x Hx. etrans; [|exact Hx]. etrans; [exact Hk|].
  apply (kin_assign _ r rec1); [|done]. cbn. apply lookup_insert_eq.
Qed.
End requests.

(** ** Adding a record *)

Lemma insert_sorted_perm {A} (f : A -> A -> Z) l d : sdp_list_insert_sorted f l d ≡ₚ d :: l.
Proof.
  induction l as [|x l IH]; [done|]. cbn. destruct (0 <=? f x d); [done|].
  rewrite IH. apply Permutation_swap.
Qed.

Lemma insert_record_perm s r l :
  (forall x, x ∈ r :: l -> is_Some (store s !! x)) ->
  exists l', insert_record s l r = Done l' /\ l' ≡ₚ r :: l.
Proof.
  induction l as [|x l IH]; intros Hl; [by exists [r]|]. cbn [insert_record].
  destruct (Hl x) as [a Ha]; [by right; left|]. destruct (Hl r) as [b Hr]; [by left|].
  unfold record_sort, deref. rewrite Ha, Hr. cbn [lift mbind run_bind].
  destruct (0 <=? _); [by eexists|].
  destruct IH as (l' & -> & Hp).
  { intros y [->|Hy]%elem_of_cons; apply Hl; [by left|by right; right]. }
  exists (x :: l'). split; [done|]. rewrite Hp. apply Permutation_swap.
Qed.

(** No record of the database has the handle. *)
Definition unused (s : server) (h : Z) : Prop :=
  forall r rec, r ∈ service_db s -> store s !! r = Some rec -> handle rec <> h.

Lemma unused_access s h : db_ok s -> unused s h -> h ∉ acc_handle <$> access_db s.
Proof. intros Hdb Hn (r & rec & Hr & Hrec & He)%(db_access_of s Hdb). by apply (Hn r rec). Qed.

Lemma record_add_ok s dev r rec :
  db_ok s -> store s !! r = Some rec -> r ∉ service_db s -> is_u32 (handle rec) -> unused s (handle rec) ->
  exists s', sdp_record_add s dev r = Done s' /\ db_ok s' /\ service_db s' ≡ₚ r :: service_db s /\
    store s' = store s /\ next_addr s' = next_addr s /\ socket_index s' = socket_index s /\
    own_record s' = own_record s.
Proof.
  intros Hdb Hrec Hr Hu Hun. unfold sdp_record_add.
  destruct (insert_record_perm s r (service_db s)) as (l & -> & Hl).
  { intros x [->|Hx]%elem_of_cons; [by rewrite Hrec|].
    destruct (db_record s Hdb x Hx) as (y & -> & _). done. }
  cbn [mbind run_bind]. unfold deref. rewrite Hrec. cbn [lift mbind run_bind].
  eexists. split; [done|]. split_and!; try done.
  assert (forall x, x ∈ l <-> x = r \/ x ∈ service_db s) as Hin.
  { intros x. by rewrite Hl, elem_of_cons. }
  set (acc := sdp_list_insert_sorted _ _ _).
  assert (acc_handle <$> acc ≡ₚ handle rec :: (acc_handle <$> access_db s)) as Hacc.
  { unfold acc. by rewrite insert_sorted_perm. }
  split; cbn [service_db store access_db set_access_db set_service_db].
  - rewrite Hl. apply list.NoDup_cons. split; [done|apply (db_nodup s Hdb)].
  - intros x [->|Hx]%Hin; [by exists rec|by apply (db_record s Hdb)].
  - intros r1 r2 rec1 rec2 [->|H1]%Hin [->|H2]%Hin E1 E2 He; try done.
    + simplify_eq. by destruct (Hun r2 rec2 H2 E2).
    + simplify_eq. by destruct (Hun r1 rec1 H1 E1).
    + by apply (db_handle s Hdb r1 r2 rec1 rec2).
  - rewrite Hacc. apply list.NoDup_cons. split; [by apply unused_access|apply (db_access s Hdb)].
  - intros h. rewrite Hacc, elem_of_cons, (db_access_of s Hdb h). split.
    + intros [->|(x & y & Hx & Hy & He)]; [exists r, rec|exists x, y]; split_and!; try done; apply Hin; tauto.
    + intros (x & y & [->|Hx]%Hin & Hy & He); [left; by simplify_eq|right; by exists x, y].
Qed.

(** A record that is not in the database may change, and appear. *)
Lemma stray_ok s r rec :
  server_ok s -> r ∉ service_db s -> r < next_addr s -> server_ok (assign s r rec).
Proof.
  intros [H1 [I1 I2 I3] H3 H4 HS H5] Hr Hlt.
  assert (forall x, x ∈ service_db s -> store (assign s r rec) !! x = store s !! x) as Hst.
  { intros x Hx. cbn. apply lookup_insert_ne. by intros ->. }
  split; try done.
  - apply (db_ok_agree s); try done. intros x Hx. by rewrite Hst.
  - intros x Hx. cbn. rewrite lookup_insert_ne; [by apply H3|]. intros ->. cbn in Hx. lia.
  - intros x y Hx. rewrite Hst by done. by apply H4.
  - intros x Hx. destruct (H5 x Hx) as (A & B & y & C & D). split_and!; [done|done|].
    exists y. by rewrite Hst.
Qed.

Lemma new_record_ok s rec :
  server_ok s -> let '(r, s') := new_record s rec in
  server_ok s' /\ store s' !! r = Some rec /\ r ∉ service_db s' /\ r < next_addr s' /\
  service_db s' = service_db s /\ (forall h, unused s h -> unused s' h).
Proof.
  intros Hok. cbn.
  assert (next_addr s ∉ service_db s) as Hn.
  { intros Hin. destruct (db_record s (ok_db s Hok) _ Hin) as (y & Hy & _).
    rewrite (ok_fresh s Hok) in Hy; [done|lia]. }
  set (s0 := Srv (store s) (next_addr s + 1) (service_db s) (access_db s) (socket_index s) (cstates s) (own_record s)).
  assert (server_ok s0) as H0.
  { destruct Hok as [[A1 A2 A3 A4 A5] [I1 I2 I3] H3 H4 HS H5]. split; [by split|by split| |done|done|done].
    intros r Hr. apply H3. cbn in Hr. lia. }
  split_and!; try done.
  - apply (stray_ok s0 (next_addr s) rec H0 Hn). cbn. lia.
  - apply lookup_insert_eq.
  - lia.
  - intros h Hun r y Hr. cbn in *. rewrite lookup_insert_ne by (intros He; by rewrite He in Hn). by apply Hun.
Qed.

(** The record at [r] joins the database. *)
Lemma server_add_ok s dev r rec :
  server_ok s -> store s !! r = Some rec -> r ∉ service_db s -> is_u32 (handle rec) ->
  handle rec <> 0xffffffff -> unused s (handle rec) ->
  exists s', sdp_record_add s dev r = Done s' /\ server_ok s' /\ service_db s' ≡ₚ r :: service_db s /\
    store s' = store s /\ next_addr s' = next_addr s /\ socket_index s' = socket_index s /\
    own_record s' = own_record s.
Proof.
  intros Hok Hrec Hr Hu Hne Hun.
  destruct (record_add_ok s dev r rec (ok_db s Hok) Hrec Hr Hu Hun) as (s' & He & Hdb & Hp & Hst & Hna & Hix & Hown).
  exists s'. split; [done|]. split; [|done]. destruct Hok as [H1 [I1 I2 I3] H3 H4 HS H5].
  split; rewrite ?Hst, ?Hna, ?Hix, ?Hown; try done.
  - split; [done|done|]. intros i Hi. rewrite Hp. right. by apply I3.
  - intros x y. rewrite Hp, elem_of_cons. intros [->|Hx] Hy; [by simplify_eq|by apply (H4 x)].
  - intros x Hx. destruct (H5 x Hx) as (A & B & C). split_and!; [|done|done]. rewrite Hp. by right.
Qed.

(** ** Handles for new records *)

Definition used (s : server) (h : Z) : Prop :=
  exists r rec, r ∈ service_db s /\ store s !! r = Some rec /\ handle rec = h.

(** Handles in use are at most as many as records. *)
Lemma used_count s low n :
  0 <= n -> (forall h, low <= h < low + n -> used s h) -> n <= zlen (service_db s).
Proof.
  intros Hn Hu.
  set (hs := (fun r => default 0 (handle <$> store s !! r)) <$> service_db s).
  assert (seqZ low n ⊆+ hs) as Hs.
  { apply NoDup_submseteq; [apply NoDup_seqZ|]. intros h Hh%elem_of_seqZ.
    destruct (Hu h Hh) as (r & rec & Hr & Hrec & <-). apply list_elem_of_fmap. exists r.
    split; [by rewrite Hrec|done]. }
  apply submseteq_length in Hs. unfold hs in Hs. rewrite length_seqZ, length_fmap in Hs.
  unfold zlen. lia.
Qed.

Lemma next_handle_loop_least s (Hdb : db_ok s) : zlen (service_db s) < 0xfffeffff ->
  forall fuel h, 0x10000 <= h -> (forall x, 0x10000 <= x < h -> used s x) ->
  match next_handle_loop fuel s h with
  | Done h' => unused s h' /\ h <= h' < 0xffffffff /\ forall x, 0x10000 <= x < h' -> used s x
  | NoFuel => Z.of_nat fuel <= 0x10000 + zlen (service_db s) - h
  | Fault => False
  end.
Proof.
  intros Hsmall.
  assert (forall h, 0x10000 <= h -> (forall x, 0x10000 <= x < h -> used s x) ->
    h - 0x10000 <= zlen (service_db s)) as Hcount.
  { intros h Hh Hu. apply (used_count s 0x10000); [lia|]. intros x Hx. apply Hu. lia. }
  induction fuel as [|fuel IH]; intros h Hh Hused; specialize (Hcount h Hh Hused).
  { cbn. lia. }
  cbn [next_handle_loop]. unfold sdp_record_find, record_locate.
  destruct (find_record_spec s (service_db s) h ltac:(unfold is_u32; lia) (db_record s Hdb)) as (o & -> & Ho).
  cbn [mbind run_bind]. destruct o as [r|]; [|split_and!; [done|lia|lia|done]].
  assert (u32 (h + 1) = h + 1) as -> by (unfold u32; apply Z.mod_small; lia).
  destruct Ho as (Hr & rec & Hrec & He).
  assert (forall x, 0x10000 <= x < h + 1 -> used s x) as Hused'.
  { intros x Hx. destruct (decide (x = h)) as [->|]; [by exists r, rec|apply Hused; lia]. }
  specialize (IH (h + 1) ltac:(lia) Hused').
  destruct (next_handle_loop fuel s (h + 1)); [|done|lia].
  destruct IH as (A & B & C). split_and!; [done|lia|lia|done].
Qed.

Lemma next_handle_post fuel s :
  db_ok s -> zlen (service_db s) < 0xfffeffff ->
  post (sdp_next_handle fuel s) (fun h => unused s h /\ 0x10000 <= h < 0xffffffff).
Proof.
  intros Hdb Hs. pose proof (next_handle_loop_least s Hdb Hs fuel 0x10000 ltac:(lia)) as H.
  unfold sdp_next_handle. destruct (next_handle_loop fuel s 0x10000); [|done|done].
  destruct H as (A & B & _); [intros x Hx; lia|]. by split.
Qed.

(** ** Records of clients *)

Lemma insert_index_sorted l i :
  Forall (fun j => 0 <= ix_sock j < 2 ^ 31) l -> 0 <= ix_sock i < 2 ^ 31 ->
  StronglySorted (fun a b => ix_sock a <= ix_sock b) l ->
  StronglySorted (fun a b => ix_sock a <= ix_sock b) (sdp_list_insert_sorted compare_indices l i).
Proof.
  intros Hl Hi Hs. induction Hs as [|j l Hs IH Hj]; [by repeat constructor|].
  inversion Hl as [|? ? Hjr Hlr]; subst. cbn [sdp_list_insert_sorted].
  assert (compare_indices j i = ix_sock j - ix_sock i) as ->.
  { unfold compare_indices, sub32, s32, u32. destruct (Z.le_gt_cases (ix_sock i) (ix_sock j)).
    - rewrite Z.mod_small by lia. case_match; lia.
    - assert ((ix_sock j - ix_sock i) mod 2 ^ 32 = ix_sock j - ix_sock i + 2 ^ 32) as ->; [|case_match; lia].
      symmetry. apply (Z.mod_unique _ _ (-1)); lia. }
  destruct (Z.leb_spec 0 (ix_sock j - ix_sock i)).
  - constructor; [by constructor|]. constructor; [lia|]. eapply list.Forall_impl; [exact Hj|]. cbn. lia.
  - constructor; [by apply IH|]. apply list.Forall_forall. intros x [->|Hx]%insert_elem; [lia|].
    rewrite list.Forall_forall in Hj. by apply Hj.
Qed.

Lemma collectable_ok s r sock :
  server_ok s -> 0 <= sock < 2 ^ 31 -> r ∈ service_db s -> r ∉ ix_record <$> socket_index s ->
  own_record s <> Some r -> server_ok (sdp_svcdb_set_collectable s r sock).
Proof.
  intros [H1 [I1 I2 I3] H3 H4 HS H5] Hsock Hr Hn Hown.
  assert (forall l, sdp_list_insert_sorted compare_indices l (Indexed sock r) ≡ₚ Indexed sock r :: l) as Hp.
  { intros l. apply insert_sorted_perm. }
  split; try done.
  - destruct H1. by split.
  - split; cbn.
    + by apply insert_index_sorted.
    + rewrite Hp. by apply list.NoDup_cons.
    + intros i. rewrite Hp, elem_of_cons. intros [->|Hi]; [done|by apply I3].
  - cbn. rewrite Hp. by apply list.Forall_cons.
  - intros x Hx. destruct (H5 x Hx) as (A & B & C). split_and!; [done| |done]. cbn. rewrite Hp.
    rewrite fmap_cons, elem_of_cons. cbn. intros [->|Hin]; [by destruct Hown|done].
Qed.

(** ** Requests that change the database *)

(** The record that a request carries names no handle by its first attribute: 0xffffffff is
    the handle of records without one. *)
Definition names_none (b : bytes) (p bufsize : Z) : Prop :=
  exists scanned t n l h, sdp_extract_seqtype b p (s32 bufsize) 0 0 = Done (scanned, t, n) /\
    rd b (p + scanned + 1) 2 = Done l /\ be_val l = SDP_ATTR_RECORD_HANDLE /\
    rd b (p + scanned + 4) 4 = Done h /\ be_val h = 0xffffffff.

(** The record at [r] is in the database, or it is new and has no handle, and the database
    is still [db]. *)
Definition listed_or_new (db : list Z) (s : server) (r : Z) : Prop :=
  r < next_addr s /\ exists rec, store s !! r = Some rec /\
    (r ∈ service_db s \/ r ∉ service_db s /\ handle rec = 0xffffffff /\ service_db s = db).

Lemma listed_kin db s s' r : kin s s' -> listed_or_new db s r -> listed_or_new db s' r.
Proof.
  intros Hk (Hlt & rec & Hrec & Hor). destruct (kin_lookup' s s' r rec Hk Hrec) as (rec' & Hrec' & Hh).
  split; [by rewrite (kin_next s s' Hk)|]. exists rec'. by rewrite (kin_db s s' Hk), Hh.
Qed.

Lemma find_post s h :
  db_ok s -> is_u32 h ->
  post (sdp_record_find s h) (fun o =>
    match o with
    | Some r => r ∈ service_db s /\ exists rec, store s !! r = Some rec /\ handle rec = h
    | None => unused s h
    end).
Proof.
  intros Hdb Hh. destruct (find_record_spec s (service_db s) h Hh (db_record s Hdb)) as (o & He & Ho).
  unfold sdp_record_find, record_locate. rewrite He. destruct o; [done|]. intros r rec. apply Ho.
Qed.

Lemma listed_lt s r : server_ok s -> r ∈ service_db s -> r < next_addr s.
Proof.
  intros Hok Hr. destruct (db_record s (ok_db s Hok) r Hr) as (rec & Hrec & _).
  destruct (Z.lt_ge_cases r (next_addr s)) as [|Hge]; [done|].
  rewrite (ok_fresh s Hok r Hge) in Hrec. done.
Qed.

Lemma rd_u32 b p : bytes_ok b -> post (rd b p 4) (fun l => is_u32 (be_val l)).
Proof.
  intros Hb. unfold rd. change (Z.of_nat 4) with 4. destruct (ld b p 4) as [l|] eqn:Hl; [|done]. cbn.
  unfold ld in Hl. case_decide as Hd; [|done]. injection Hl as <-.
  assert (bytes_ok (take 4 (drop (Z.to_nat p) b))) as Hok by (by apply Forall_take, Forall_drop).
  pose proof (be_val_range _ Hok) as Hv. revert Hv.
  assert (zlen (take 4 (drop (Z.to_nat p) b)) = 4) as ->; [|intros Hv; exact Hv].
  unfold zlen in *. rewrite length_take, length_drop. lia.
Qed.

Section registration.
Context (late : bool) (malloc : Z -> bytes) (fuel : nat) (now fixed : Z).

(** The record that the attributes go to. *)
Lemma record_for_ok s dev wanted :
  server_ok s -> (forall h, wanted = Some h -> is_u32 h) ->
  post (found ← match wanted with Some h => sdp_record_find s h | None => Done None end;
    match found with
    | Some r => rec ← deref s r; Done (r, assign s r (set_attrlist rec []))
    | None =>
        match wanted with
        | Some h =>
            let '(r, s) := new_record s (set_handle sdp_record_alloc h) in
            s ← sdp_record_add s dev r; Done (r, s)
        | None => Done (new_record s sdp_record_alloc)
        end
    end) (fun e => server_ok e.2 /\ listed_or_new (service_db s) e.2 e.1 \/
      wanted = Some 0xffffffff /\ e.1 ∉ service_db s).
Proof.
  intros Hok Hw. destruct wanted as [h|].
  - pose proof (Hw h eq_refl) as Hh.
    eapply post_use; [by apply find_post, Hh; apply (ok_db s Hok)|]. intros [r|].
    + intros (Hr & rec & Hrec & He). unfold deref. rewrite Hrec. cbn [lift mbind run_bind post fst snd].
      pose proof (kin_assign s r rec (set_attrlist rec []) Hrec eq_refl) as Hk. left.
      split; [by apply (kin_ok s)|]. apply (listed_kin _ s); [done|].
      split; [by apply listed_lt|]. exists rec. auto.
    + intros Hun. pose proof (new_record_ok s (set_handle sdp_record_alloc h) Hok) as Hn.
      destruct (new_record s (set_handle sdp_record_alloc h)) as [r s1].
      destruct Hn as (Hok1 & Hrec & Hr & Hlt & Hdb & Hun1).
      destruct (decide (h = 0xffffffff)) as [->|Hne].
      { apply post_any; intros s2. right. split; [done|]. by rewrite <- Hdb. }
      destruct (server_add_ok s1 dev r _ Hok1 Hrec Hr Hh Hne (Hun1 h Hun)) as (s2 & -> & Hok2 & Hp & Hst & Hna & _).
      cbn [mbind run_bind post fst snd]. left. split; [done|]. split; [by rewrite Hna|].
      eexists. rewrite Hst. split; [done|]. left. rewrite Hp. by left.
  - cbn [mbind run_bind]. pose proof (new_record_ok s sdp_record_alloc Hok) as Hn.
    destruct (new_record s sdp_record_alloc) as [r s1]. destruct Hn as (Hok1 & Hrec & Hr & Hlt & Hdb & _).
    cbn. left. split; [done|]. split; [done|]. eexists. split; [done|]. right. by rewrite Hdb in *.
Qed.

Lemma extract_pdu_server_ok b p bufsize s dev expected :
  server_ok s -> bytes_ok b -> is_u32 expected ->
  post (extract_pdu_server fuel s dev b p bufsize expected) (fun e =>
    server_ok e.2 /\ match e.1 with Some r => listed_or_new (service_db s) e.2 r | None => True end \/
    names_none b p bufsize /\ exists r, e.1 = Some r /\ r ∉ service_db s).
Proof.
  intros Hok Hb He. unfold extract_pdu_server.
  destruct (sdp_extract_seqtype b p (s32 bufsize) 0 0) as [[[scanned t] n]| |] eqn:Hseq; [|done|done].
  cbn [mbind run_bind]. destruct (_ <? 2); [by left|].
  destruct (rd b (p + scanned + 1) 2) as [l| |] eqn:Hl; [|done|done]. cbn [mbind run_bind].
  destruct (_ && _); [by left|].
  eapply (post_use _ _ (fun wanted => forall h, wanted = Some h ->
    is_u32 h /\ (h = 0xffffffff -> names_none b p bufsize))).
  { destruct (Z.eqb_spec (be_val l) SDP_ATTR_RECORD_HANDLE) as [Ha|Ha].
    - pose proof (rd_u32 b (p + scanned + 4) Hb) as Hu.
      destruct (rd b (p + scanned + 4) 4) as [h| |] eqn:Hh; [|done|done]. cbn in *.
      intros x [= <-]. split; [done|]. intros Hx. by exists scanned, t, n, l, h.
    - cbn. intros h. destruct (Z.eqb_spec expected 0xffffffff); [done|]. by intros [= <-]. }
  intros wanted Hw. pose proof (record_for_ok s dev wanted Hok (fun h E => proj1 (Hw h E))) as Hfor. revert Hfor.
  destruct (match wanted with Some h => sdp_record_find s h | None => Done None end) as [found| |]; [|done|done].
  cbn [mbind run_bind]. intros Hfor. eapply post_use; [exact Hfor|]. intros [r s1] Hr. cbn [fst snd] in *.
  eapply post_use; [apply (pdu_loop_kin fuel)|]. intros [s2 st] Hk. cbn [fst snd] in *.
  apply post_any; intros _. cbn. destruct Hr as [[Hok1 Hr]|[Hnone Hr]].
  - left. split; [by apply (kin_ok s1)|by apply (listed_kin _ s1)].
  - right. split; [by apply (Hw _ Hnone)|by exists r].
Qed.

Lemma register_success_kin s r rsp : post (register_success now fixed s r rsp) (fun e => kin s e.2).
Proof.
  unfold register_success, deref. destruct (store s !! r) as [rec|] eqn:Hr; [|done]. cbn [lift mbind run_bind].
  eapply (post_use _ _ (kin s)); [|intros s2 Hk; by apply post_any; intros ?].
  destruct (sdp_data_get rec SDP_ATTR_BROWSE_GRP_LIST); [apply timestamp_kin|].
  eapply post_mono; [apply timestamp_kin|]. intros x Hx. etrans; [|exact Hx].
  apply (kin_assign s r rec); [done|apply pattern_add_handle].
Qed.

Lemma status_rsp_kin status s rsp : post (status_rsp status s rsp) (fun e => e.2 = s).
Proof. unfold status_rsp. by apply post_any; intros ?. Qed.

Lemma register_invalid_kin s rsp : post (register_invalid s rsp) (fun e => e.2 = s).
Proof. unfold register_invalid. by apply post_any; intros ?. Qed.

(** The record that is registered joins the database, and the records of its client. *)
Lemma register_new_ok {A} (k : server -> run A) Q s dev r rec sock (owned : bool) :
  server_ok s -> 0 <= sock < 2 ^ 31 -> store s !! r = Some rec -> r ∉ service_db s ->
  is_u32 (handle rec) -> handle rec <> 0xffffffff -> unused s (handle rec) ->
  (forall s', server_ok s' -> post (k s') Q) ->
  post (s ← sdp_record_add s dev r;
    let s := if owned then sdp_svcdb_set_collectable s r sock else s in
    rec ← deref s r;
    rec ← sdp_attr_replace rec SDP_ATTR_RECORD_HANDLE (uint32_data (handle rec));
    k (assign s r rec)) Q.
Proof.
  intros Hok Hsock Hrec Hr Hu Hne Hun HQ.
  destruct (server_add_ok s dev r rec Hok Hrec Hr Hu Hne Hun) as (s1 & -> & Hok1 & Hp & Hst & Hna & Hix & Hown).
  cbn [mbind run_bind]. set (s2 := if owned then _ else s1).
  assert (server_ok s2) as Hok2.
  { unfold s2. destruct owned; [|done]. apply collectable_ok; [done|done|by rewrite Hp; left| |].
    - rewrite Hix. intros (i & -> & Hi)%list_elem_of_fmap. apply Hr. by apply (index_live s _ (ok_index s Hok)).
    - rewrite Hown. intros Ho. by destruct (ok_own s Hok r Ho). }
  assert (store s2 !! r = Some rec) as Hrec2 by (unfold s2; destruct owned; cbn; by rewrite Hst).
  unfold deref. rewrite Hrec2. cbn [lift mbind run_bind].
  eapply post_use; [apply replace_handle|]. intros rec' Hh.
  apply HQ, (kin_ok s2); [|done]. by apply (kin_assign s2 r rec).
Qed.

(** What a client with a registration may send: its socket, bytes, and a handle if any. *)
Definition names_no_handle (req : sdp_req) : Prop :=
  exists flags, rd_u8 (req_buf req) HDR = Done flags /\
    if negb (Z.land flags 0x02 =? 0) then names_none (req_buf req) (HDR + 7) (u32 (req_len req - HDR - 6))
    else names_none (req_buf req) (HDR + 1) (u32 (req_len req - HDR)).

Lemma free_stray_ok s r : server_ok s -> r ∉ service_db s -> post (sdp_record_free s r) server_ok.
Proof.
  intros [H1 [I1 I2 I3] H3 H4 HS H5] Hr. unfold sdp_record_free. apply post_any; intros _. cbn.
  assert (forall x, x ∈ service_db s -> store (set_store s (delete r (store s))) !! x = store s !! x) as Hst.
  { intros x Hx. cbn. apply lookup_delete_ne. by intros ->. }
  split; try done.
  - apply (db_ok_agree s); try done. intros x Hx. by rewrite Hst.
  - intros x Hx. cbn. apply lookup_delete_None. right. by apply H3.
  - intros x y Hx. rewrite Hst by done. by apply H4.
  - intros x Hx. destruct (H5 x Hx) as (A & B & y & C & D). split_and!; [done|done|].
    exists y. by rewrite Hst.
Qed.

Lemma service_register_ok s req rsp :
  server_ok s -> zlen (service_db s) < 0xfffeffff -> bytes_ok (req_buf req) -> 0 <= req_sock req < 2 ^ 31 ->
  ~ names_no_handle req ->
  post (service_register_req fuel now fixed s req rsp) (fun e => server_ok e.2).
Proof.
  intros Hok Hsmall Hb Hsock Hnot. unfold service_register_req.
  destruct (rd_u8 (req_buf req) HDR) as [flags| |] eqn:Hf; [|done|done]. cbn [mbind run_bind].
  eapply (post_use _ _ (fun d => ~ names_none (req_buf req) d.1.2 (u32 d.2))).
  { destruct (negb (Z.land flags 2 =? 0)) eqn:Hfl; [apply post_any; intros l|]; cbn; intros Hn;
      apply Hnot; exists flags; (split; [done|]); by rewrite Hfl. }
  intros [[dev p] bufsize] Hn. cbn [fst snd] in Hn.
  eapply post_use; [by apply (extract_pdu_server_ok _ _ _ s); [done|done|unfold is_u32; lia]|].
  intros [[r|] s1] [[Hok1 Hr]|[? _]]; [|done| |done]; cbn [fst snd] in *; [|eapply post_mono; [apply register_invalid_kin|]; by intros x ->].
  destruct Hr as (Hlt & rec & Hrec & Hr). assert (deref s1 r = Done rec) as -> by (unfold deref; by rewrite Hrec).
  cbn [mbind run_bind].
  destruct (Z.eqb_spec (handle rec) 0xffffffff) as [He|He].
  - cbn [mbind run_bind andb]. destruct Hr as [Hr|(Hr & _ & Hdb)]; [by destruct (ok_handle s1 Hok1 r rec)|].
    eapply post_use; [apply next_handle_post; [apply Hok1|by rewrite Hdb]|]. intros h [Hun Hh].
    rewrite (proj2 (Z.ltb_ge _ _)) by lia.
    pose proof (stray_ok s1 r (set_handle rec h) Hok1 Hr Hlt) as Hok2.
    apply (register_new_ok (fun s => register_success now fixed s r rsp) _ _ dev r (set_handle rec h)
      (req_sock req) (Z.land flags 1 =? 0)); [done|done|by cbn; rewrite lookup_insert_eq|done|
      by cbn; unfold is_u32; lia|by cbn; lia| |].
    + intros x y Hx. cbn. rewrite lookup_insert_ne by (by intros ->). by apply Hun.
    + intros s' Hok'. eapply post_mono; [apply register_success_kin|]. intros e Hk. by apply (kin_ok s').
  - destruct Hr as [Hr|(_ & Hr & _)]; [|done].
    rewrite (find_known s1 r rec) by (done || apply Hok1). cbn [mbind run_bind].
    rewrite bool_decide_eq_true_2 by done.
    eapply post_mono; [apply register_success_kin|]. intros e Hk. by apply (kin_ok s1).
Qed.

Lemma service_update_ok s req rsp :
  server_ok s -> bytes_ok (req_buf req) ->
  post (service_update_req fuel now fixed s req rsp) (fun e => server_ok e.2).
Proof.
  intros Hok Hb. unfold service_update_req.
  eapply post_use; [by apply rd_u32|]. intros l Hl.
  eapply post_use; [by apply find_post, Hl; apply Hok|].
  intros [o|]; [intros (Ho & _)|intros _; eapply post_mono; [apply status_rsp_kin|]; by intros x ->].
  eapply post_use; [by apply (extract_pdu_server_ok _ _ _ s)|].
  intros [[r|] s1] [[Hok1 _]|(_ & r' & Hr & Hn)]; cbn [fst snd] in *;
    [| |eapply post_mono; [apply status_rsp_kin|]; by intros x ->|done].
  - destruct (r =? o); [|done]. eapply post_use; [apply timestamp_kin|]. intros s2 Hk.
    eapply post_mono; [apply status_rsp_kin|]. intros x ->. by apply (kin_ok s1).
  - injection Hr as ->. destruct (Z.eqb_spec r' o); [by subst|done].
Qed.
End registration.

(** ** Removing *)

Lemma index_part_ok s l :
  server_ok s -> index_ok s l -> (forall i, i ∈ l -> i ∈ socket_index s) -> server_ok (set_socket_index s l).
Proof.
  intros [H1 [I1 I2 I3] H3 H4 HS H5] [J1 J2 J3] Hl. split; try done.
  - destruct H1. by split.
  - cbn. rewrite list.Forall_forall in *. auto.
  - intros x Hx. destruct (H5 x Hx) as (A & B & C). split_and!; [done| |done]. cbn.
    intros (i & -> & Hi)%list_elem_of_fmap. apply B, list_elem_of_fmap_2. by apply Hl.
Qed.

Lemma without_server_ok s r :
  server_ok s -> r ∈ service_db s -> r ∉ ix_record <$> socket_index s -> own_record s <> Some r ->
  server_ok (without s r).
Proof.
  intros Hok Hr Hn Hown. pose proof (without_ok s r (ok_db s Hok) Hr) as Hdb.
  destruct (db_record s (ok_db s Hok) r Hr) as (rec & Hrec & _).
  destruct (without_facts s r rec Hrec) as (Hsv & Hst & Hsi & Hor).
  assert (next_addr (without s r) = next_addr s) as Hna by (unfold without; by rewrite Hrec).
  pose proof (index_without s r _ (ok_index s Hok) Hr Hn) as Hix.
  destruct Hok as [H1 _ H3 H4 HS H5]. split; rewrite ?Hsi; try done.
  - intros x. rewrite Hna, Hst. intros Hx. apply lookup_delete_None. right. by apply H3.
  - intros x y [Hx _]%Hsv. rewrite Hst. intros [_ Hy]%lookup_delete_Some. by apply (H4 x).
  - intros x. rewrite Hor. intros Hx. destruct (H5 x Hx) as (A & B & y & C & D).
    assert (x <> r) by (intros ->; done). split_and!; [by apply Hsv|done|].
    exists y. rewrite Hst. by rewrite lookup_delete_ne.
Qed.

(** What goes on between the removal of a record and its release. *)
Lemma kin_free s s' r rec :
  kin s s' -> store s !! r = Some rec ->
  exists s1, sdp_record_free s' r = Done s1 /\ kin (set_store s (delete r (store s))) s1.
Proof.
  intros Hk Hr. destruct (kin_lookup' s s' r rec Hk Hr) as (rec' & Hr' & _).
  unfold sdp_record_free, deref. rewrite Hr'. eexists. split; [done|].
  split; try apply Hk. intros x. cbn. destruct (decide (x = r)) as [->|Hn].
  - by rewrite !lookup_delete_eq.
  - rewrite !lookup_delete_ne by done. apply (kin_store s s' Hk).
Qed.

Lemma foldl_without_ok rs : forall s,
  server_ok s -> NoDup rs -> (forall r, r ∈ rs -> r ∈ service_db s /\
    r ∉ ix_record <$> socket_index s /\ own_record s <> Some r) ->
  server_ok (foldl without s rs).
Proof.
  induction rs as [|r rs IH]; intros s Hok Hnd Hrs; [done|].
  apply list.NoDup_cons in Hnd as [Hnot Hnd]. cbn.
  destruct (Hrs r) as (Hr & Hn & Hown); [by left|].
  destruct (db_record s (ok_db s Hok) r Hr) as (rec & Hrec & _).
  destruct (without_facts s r rec Hrec) as (Hsv & _ & Hsi & Hor).
  apply IH; [by apply without_server_ok|done|]. intros x Hx. rewrite Hsi, Hor, Hsv.
  destruct (Hrs x) as (A & B & C); [by right|]. split_and!; [done|by intros ->|done|done].
Qed.

Lemma foldl_without_index rs l : forall s,
  foldl without (set_socket_index s l) rs = set_socket_index (foldl without s rs) l.
Proof.
  induction rs as [|r rs IH]; intros s; [done|]. cbn. rewrite <- IH. f_equal.
  unfold without. cbn. by destruct (store s !! r).
Qed.

(** A client may go at any time. *)
Lemma collect_all_ok s sock :
  server_ok s -> exists s', sdp_svcdb_collect_all s sock = Done s' /\ server_ok s' /\
    socket_index s' = filter (fun i => ix_sock i <> sock) (socket_index s).
Proof.
  intros Hok. unfold sdp_svcdb_collect_all.
  rewrite collect_loop_spec by apply Hok. cbn [mbind run_bind fst snd app].
  set (l := filter (fun i => ix_sock i <> sock) (socket_index s)).
  eexists. split; [done|]. split; [|done]. rewrite <- foldl_without_index.
  assert (server_ok (set_socket_index s l)) as Hok1.
  { apply index_part_ok; [done|by apply index_filter, (ok_index s Hok)|].
    by intros i [_ Hi]%list_elem_of_filter. }
  pose proof (index_nodup s _ (ok_index s Hok)) as Hnd.
  apply foldl_without_ok; [done| |].
  - by apply (index_filter s), (ok_index s Hok).
  - intros r (i & -> & [Hs Hi]%list_elem_of_filter)%list_elem_of_fmap. cbn.
    split_and!; [by apply (index_live s _ (ok_index s Hok))| |].
    + intros (j & He & [Hsj Hj]%list_elem_of_filter)%list_elem_of_fmap.
      destruct (list_elem_of_lookup_1 _ _ Hi) as [m Hm], (list_elem_of_lookup_1 _ _ Hj) as [n Hn].
      assert (m = n) as ->; [|by simplify_eq].
      apply (NoDup_lookup (ix_record <$> socket_index s) m n (ix_record i)); [done| |].
      * by rewrite list_lookup_fmap, Hm.
      * by rewrite list_lookup_fmap, Hn, He.
    + intros Ho. destruct (ok_own s Hok _ Ho) as (_ & B & _). apply B. by apply list_elem_of_fmap_2.
Qed.

Lemma collect_filter s r :
  server_ok s -> sdp_svcdb_collect s r = set_socket_index s (filter (fun i => ix_record i <> r) (socket_index s)).
Proof.
  intros Hok. unfold sdp_svcdb_collect. f_equal. apply remove_key; [apply (ok_index s Hok)|]. intros i _.
  destruct (Z.eqb_spec (ix_record i) r); [by rewrite bool_decide_eq_true_2|by rewrite bool_decide_eq_false_2].
Qed.

Lemma collect_ok s r :
  server_ok s -> server_ok (sdp_svcdb_collect s r) /\ r ∉ ix_record <$> socket_index (sdp_svcdb_collect s r).
Proof.
  intros Hok. rewrite collect_filter by done. split.
  - apply index_part_ok; [done|by apply index_filter, (ok_index s Hok)|].
    by intros i [_ Hi]%list_elem_of_filter.
  - intros (i & -> & [Hn Hi]%list_elem_of_filter)%list_elem_of_fmap. done.
Qed.

Section requests.
Context (late : bool) (malloc : Z -> bytes) (fuel : nat) (now fixed : Z).

Lemma service_remove_ok s req rsp :
  server_ok s -> bytes_ok (req_buf req) ->
  post (service_remove_req now fixed s req rsp) (fun e => server_ok e.2).
Proof.
  intros Hok Hb. unfold service_remove_req.
  eapply post_use; [by apply rd_u32|]. intros l Hl.
  eapply post_use; [by apply find_post, Hl; apply Hok|].
  intros [r|]; [|intros _; eapply post_mono; [apply status_rsp_kin|]; by intros x ->].
  intros (Hr & rec & Hrec & <-). destruct (collect_ok s r Hok) as [Hok1 Hn].
  set (s1 := sdp_svcdb_collect s r) in *. cbv zeta.
  destruct (remove_known s1 r rec (ok_db s1 Hok1) Hr Hrec) as (s2 & -> & Hfree).
  cbn [mbind run_bind]. rewrite Hfree. cbn [mbind run_bind Z.eqb].
  destruct (decide (own_record s1 = Some r)) as [Ho|Ho].
  { assert (own_record (without s1 r) = Some r /\ store (without s1 r) !! r = None) as [E1 E2].
    { destruct (without_facts s1 r rec Hrec) as (_ & -> & _ & ->). split; [done|apply lookup_delete_eq]. }
    unfold update_db_timestamp, deref. by rewrite E1, E2. }
  pose proof (without_server_ok s1 r Hok1 Hr Hn Ho) as Hok2.
  eapply post_use; [apply timestamp_kin|]. intros s3 Hk.
  eapply post_mono; [apply status_rsp_kin|]. intros x ->. by apply (kin_ok (without s1 r)).
Qed.

(** What a client may send: bytes, and no record that names the handle of those without. *)
Record acceptable (req : sdp_req) : Prop := {
  acc_bytes : bytes_ok (req_buf req);
  acc_sock : 0 <= req_sock req < 2 ^ 31;
  acc_register : rd_u8 (req_buf req) 0 = Done SDP_SVC_REGISTER_REQ -> req_local req = true ->
    ~ names_no_handle req;
}.

Lemma dispatch_ok s req id rsp :
  server_ok s -> zlen (service_db s) < 0xfffeffff -> acceptable req -> rd_u8 (req_buf req) 0 = Done id ->
  post (dispatch late malloc fuel now fixed s req id rsp) (fun e => server_ok e.1.2).
Proof.
  intros Hok Hsmall [Hb Hsock Hreg] Hid. unfold dispatch. cbv zeta.
  assert (forall (A B : Type) (e : run A) (b : B) (P : A -> Prop), post e P -> post (r ← e; Done (r, b)) (fun x => P x.1)) as Hwith.
  { intros A B e b P He. eapply post_use; [exact He|]. done. }
  assert (forall e : run (Z * sdp_buf * server), post e (fun r => kin s r.2) -> post e (fun r => server_ok r.2)) as Hkin.
  { intros e He. eapply post_mono; [exact He|]. intros x Hx. by apply (kin_ok s). }
  repeat match goal with
  | |- post (if ?x =? ?y then _ else _) _ => destruct (Z.eqb_spec x y)
  | |- post (if (?x =? ?y) && ?c then _ else _) _ => destruct (Z.eqb_spec x y); cbn [andb]; [destruct c eqn:?|]
  end; try done; apply (Hwith (Z * sdp_buf * server)%type Z _ _ (fun r => server_ok r.2)).
  - apply Hkin, service_search_kin.
  - apply Hkin, service_attr_kin.
  - apply Hkin, service_search_attr_kin.
  - apply service_register_ok; try done. by apply Hreg; subst.
  - by apply service_update_ok.
  - by apply service_remove_ok.
Qed.

Lemma process_request_ok s req :
  server_ok s -> zlen (service_db s) < 0xfffeffff -> acceptable req ->
  post (process_request late malloc fuel now fixed s req) (fun e => server_ok e.2).
Proof.
  intros Hok Hsmall Hreq. unfold process_request. cbv zeta.
  destruct (rd_u8 (req_buf req) 0) as [id| |] eqn:Hid; [|done|done]. cbn [mbind run_bind].
  apply post_any; intros tid. apply post_any; intros pl.
  eapply (post_use _ _ (fun e => server_ok e.1.2)).
  { destruct (be_val pl =? _); [by apply dispatch_ok|done]. }
  intros [[[st rsp] s1] id'] H1. cbn [fst snd] in H1. apply post_any; intros rsp'. by apply post_any; intros out.
Qed.
End requests.
