(* ===== verification/SdpLife.v ===== *)
(** The SDP server over its life: what the daemon and the clients do to it, one after the
    other, from its start. *)
From Stdlib Require Import ZArith Lia Sorted.
From S2P Require Import Prelude Blocks Libc Uuid Eir Sdp SdpPdu SdpSpec SdpRecord SdpParse SdpProps SdpAttr SdpDb SdpRequest SdpServer SdpSearch SdpRepo SdpService SdpSession.
From stdpp Require Import base numbers list gmap option relations.

Local Open Scope Z_scope.

(** ** Setters keep the handle *)

Definition keeps (f : sdp_record -> run sdp_record) : Prop :=
  forall rec, post (f rec) (fun rec' => handle rec' = handle rec).

Lemma keeps_skip {A} (e : run A) f : (forall x, keeps (f x)) -> keeps (fun rec => x ← e; f x rec).
Proof. intros Hf rec. apply post_any; intros x. apply Hf. Qed.

Lemma insert_attr_keeps attr d : keeps (fun rec => insert_attr rec attr d).
Proof. intros rec. unfold insert_attr. destruct (attr =? _); [by apply post_any; intros ?|done]. Qed.

Lemma attr_add_keeps attr d rec : post (sdp_attr_add rec attr d) (fun r => handle r.2 = handle rec).
Proof.
  unfold sdp_attr_add. destruct (sdp_data_get rec attr); [done|].
  eapply post_use; [apply insert_attr_keeps|]. done.
Qed.

Lemma attr_add_alloc_keeps attr d : keeps (fun rec => attr_add_alloc rec attr d).
Proof.
  intros rec. unfold attr_add_alloc. destruct (sdp_data_get rec attr); [done|].
  apply post_any; intros x. eapply post_use; [apply attr_add_keeps|]. done.
Qed.

Lemma attr_add_num_keeps attr dtd n v : keeps (fun rec => attr_add_num rec attr dtd n v).
Proof. apply keeps_skip; intros d. apply attr_add_alloc_keeps. Qed.

Lemma attr_add_new_keeps attr dtd value rec :
  post (sdp_attr_add_new rec attr dtd value) (fun r => handle r.2 = handle rec).
Proof.
  unfold sdp_attr_add_new. apply post_any; intros [d|]; [|done].
  eapply post_use; [apply replace_handle|]. done.
Qed.

Lemma pattern_seq_handle us : forall rec, handle (sdp_pattern_add_uuidseq rec us) = handle rec.
Proof.
  induction us as [|u us IH]; intros rec; [done|]. unfold sdp_pattern_add_uuidseq in *. cbn.
  by rewrite IH, pattern_add_handle.
Qed.

Lemma set_uuidseq_keeps aid seq rec :
  post (sdp_set_uuidseq_attr rec aid seq) (fun r => handle r.2 = handle rec).
Proof.
  unfold sdp_set_uuidseq_attr. destruct seq as [|p seq]; [done|].
  destruct (mapM _ _); [|done]. apply post_any; intros d. apply post_any; intros d'.
  eapply post_use; [apply replace_handle|]. intros rec' Hh. cbn [post snd]. by rewrite pattern_seq_handle.
Qed.

Lemma profile_seqs_keeps l : forall rec, post (profile_seqs l rec) (fun r => handle r.2 = handle rec).
Proof.
  induction l as [|[p|] l IH]; intros rec; [done| |done]. cbn [profile_seqs].
  destruct (uuid_arg _); [|done]. apply post_any; intros [seq|]; [|done].
  eapply post_use; [apply IH|]. intros r Hr. cbn. by rewrite Hr, pattern_add_handle.
Qed.

Lemma profile_descs_keeps l rec : post (sdp_set_profile_descs rec l) (fun r => handle r.2 = handle rec).
Proof.
  unfold sdp_set_profile_descs. eapply post_use; [apply profile_seqs_keeps|].
  intros [[seqs|] rec'] Hr; [|done]. cbn in Hr. apply post_any; intros d.
  eapply post_use; [apply attr_add_alloc_keeps|]. cbn. congruence.
Qed.

Lemma replace_u64_keeps attr v : keeps (fun rec => replace_u64 rec attr v).
Proof.
  intros rec. unfold replace_u64. apply post_any; intros d. apply post_any; intros d'. apply replace_handle.
Qed.

Lemma change_kin s r f : keeps f -> post (change s r f) (kin s).
Proof.
  intros Hf. unfold change, deref. destruct (store s !! r) as [rec|] eqn:Hr; [|done].
  cbn [lift mbind run_bind]. eapply post_use; [apply Hf|]. intros rec' Hh. by apply (kin_assign s r rec).
Qed.

(** ** The records of the daemon *)

(** A new record of the daemon joins the database, and is changed. *)
Lemma daemon_record_ok s rec dev f :
  server_ok s -> is_u32 (handle rec) -> handle rec <> 0xffffffff -> unused s (handle rec) -> keeps f ->
  post (let '(r, s) := new_record s rec in s ← sdp_record_add s dev r; change s r f) server_ok.
Proof.
  intros Hok Hu Hne Hun Hf. pose proof (new_record_ok s rec Hok) as Hn.
  destruct (new_record s rec) as [r s1]. destruct Hn as (Hok1 & Hrec & Hr & Hlt & Hdb & Hun1).
  destruct (server_add_ok s1 dev r rec Hok1 Hrec Hr Hu Hne (Hun1 _ Hun)) as (s2 & -> & Hok2 & _).
  cbn [mbind run_bind]. eapply post_mono; [by apply change_kin|]. intros s3 Hk. by apply (kin_ok s2).
Qed.

Lemma daemon_record_then s rec dev f k Q :
  server_ok s -> is_u32 (handle rec) -> handle rec <> 0xffffffff -> unused s (handle rec) -> keeps f ->
  (forall s', server_ok s' -> post (k s') Q) ->
  post (let '(r, s) := new_record s rec in s ← sdp_record_add s dev r; s ← change s r f; (k s : run server)) Q.
Proof.
  intros Hok Hu Hne Hun Hf Hk. pose proof (daemon_record_ok s rec dev f Hok Hu Hne Hun Hf) as H.
  destruct (new_record s rec) as [r s1]. destruct (sdp_record_add s1 dev r) as [s2| |]; [|done|done].
  cbn [mbind run_bind] in *. by eapply post_use.
Qed.

Lemma no_server_ok : server_ok no_server.
Proof.
  split; [|split| | | |].
  - split; cbn.
    + constructor.
    + intros r Hr. by apply elem_of_nil in Hr.
    + intros r1 r2 rec1 rec2 Hr. by apply elem_of_nil in Hr.
    + constructor.
    + intros h. split; [intros Hh; by apply elem_of_nil in Hh|]. intros (r & rec & Hr & _). by apply elem_of_nil in Hr.
  - constructor.
  - constructor.
  - intros i Hi. by apply elem_of_nil in Hi.
  - done.
  - intros r rec Hr. by apply elem_of_nil in Hr.
  - constructor.
  - done.
Qed.

Definition set_own (s : server) (o : option Z) : server :=
  Srv (store s) (next_addr s) (service_db s) (access_db s) (socket_index s) (cstates s) o.

Lemma insert_record_own s o r l : insert_record (set_own s o) l r = insert_record s l r.
Proof. induction l as [|x l IH]; [done|]. cbn [insert_record]. by rewrite IH. Qed.

Lemma record_add_own s o dev r s' :
  sdp_record_add s dev r = Done s' -> sdp_record_add (set_own s o) dev r = Done (set_own s' o).
Proof.
  unfold sdp_record_add. cbn [set_own service_db]. rewrite insert_record_own.
  destruct (insert_record s (service_db s) r) as [l| |]; [|done|done]. cbn [mbind run_bind].
  unfold deref. cbn [set_own store]. destruct (store s !! r) as [rec|]; [|done].
  cbn [lift mbind run_bind]. by intros [= <-].
Qed.

Lemma own_ok s r rec :
  server_ok s -> r ∈ service_db s -> r ∉ ix_record <$> socket_index s -> store s !! r = Some rec ->
  handle rec = 0 -> server_ok (set_own s (Some r)).
Proof.
  intros [[A1 A2 A3 A4 A5] [I1 I2 I3] H3 H4 HS H5] Hr Hn Hrec Hh.
  split; try done; try (by split). intros x [= <-]. split_and!; [done|done|]. by exists rec.
Qed.

Section daemon.
Context (late : bool) (malloc : Z -> bytes) (fuel : nat) (now fixed : Z).

Lemma browse_group_ok :
  post (register_public_browse_group no_server) (fun s => server_ok s /\ own_record s = None /\ unused s 0).
Proof.
  destruct (register_public_browse_group no_server) as [s| |] eqn:He; [|done|done].
  assert (post (register_public_browse_group no_server) server_ok) as Hok.
  { unfold register_public_browse_group. apply daemon_record_ok; [apply no_server_ok|done|done| |].
    - intros r rec Hr. by apply elem_of_nil in Hr.
    - intros rec. eapply post_use; [apply attr_add_num_keeps|]. intros r1 H1.
      eapply post_use; [apply set_uuidseq_keeps|]. intros r2 H2.
      eapply post_use; [apply attr_add_new_keeps|]. cbn. congruence. }
  rewrite He in Hok. vm_compute in He. injection He as <-. split; [exact Hok|]. split; [done|].
  intros r rec Hr. cbn in Hr. apply list_elem_of_singleton in Hr as ->. vm_compute. intros [= <-]. done.
Qed.

Lemma server_service_ok s :
  server_ok s -> unused s 0 -> post (register_server_service now fixed s) server_ok.
Proof.
  intros Hok Hun. unfold register_server_service.
  pose proof (new_record_ok s (set_handle sdp_record_alloc SDP_SERVER_RECORD_HANDLE) Hok) as Hn.
  destruct (new_record s (set_handle sdp_record_alloc SDP_SERVER_RECORD_HANDLE)) as [r s1].
  destruct Hn as (Hok1 & Hrec & Hr & Hlt & Hdb & Hun1).
  destruct (server_add_ok s1 BDADDR_ANY r _ Hok1 Hrec Hr ltac:(done) ltac:(done) (Hun1 0 Hun))
    as (s2 & He & Hok2 & Hp & Hst & _ & Hix & _).
  fold (set_own s1 (Some r)). rewrite (record_add_own _ _ _ _ _ He). cbn [mbind run_bind].
  assert (server_ok (set_own s2 (Some r))) as Hok3.
  { eapply own_ok; [done|by rewrite Hp; left| |by rewrite Hst|done].
    rewrite Hix. intros (i & -> & Hi)%list_elem_of_fmap. apply Hr. by apply (index_live s1 _ (ok_index s1 Hok1)). }
  eapply post_use; [apply change_kin|].
  { intros rec. eapply post_use; [apply attr_add_num_keeps|]. intros r1 H1.
    eapply post_use; [apply set_uuidseq_keeps|]. intros r2 H2. apply post_any; intros d.
    eapply post_mono; [apply attr_add_alloc_keeps|]. congruence. }
  intros s3 Hk. eapply post_mono; [apply timestamp_kin|]. intros s4 Hk2.
  apply (kin_ok s3); [done|]. by apply (kin_ok (set_own s2 (Some r))).
Qed.

Lemma device_keeps source vendor product version : keeps (fun rec =>
    rec ← attr_add_num rec SDP_ATTR_RECORD_HANDLE Dtd.SDP_UINT32 4 (handle rec);
    c ← sdp_set_service_classes rec (class_list PNP_INFO_SVCLASS_ID);
    c ← sdp_set_browse_groups c.2 (class_list PUBLIC_BROWSE_GROUP);
    c ← sdp_set_profile_descs c.2 [Some (Profile (sdp_uuid16_create PNP_INFO_PROFILE_ID) 0x0103)];
    rec ← attr_add_num c.2 0x0200 Dtd.SDP_UINT16 2 0x0103;
    rec ← attr_add_num rec 0x0201 Dtd.SDP_UINT16 2 vendor;
    rec ← attr_add_num rec 0x0202 Dtd.SDP_UINT16 2 product;
    rec ← attr_add_num rec 0x0203 Dtd.SDP_UINT16 2 version;
    rec ← attr_add_num rec 0x0204 Dtd.SDP_BOOL 1 1;
    attr_add_num rec 0x0205 Dtd.SDP_UINT16 2 source).
Proof.
  intros rec. eapply post_use; [apply attr_add_num_keeps|]. intros r0 H0.
  eapply post_use; [apply set_uuidseq_keeps|]. intros r1 H1.
  eapply post_use; [apply set_uuidseq_keeps|]. intros r2 H2.
  eapply post_use; [apply profile_descs_keeps|]. intros r3 H3.
  do 5 (eapply post_use; [apply attr_add_num_keeps|]; intros ? ?).
  eapply post_mono; [apply attr_add_num_keeps|]. congruence.
Qed.

Lemma device_id_ok s source vendor product version :
  server_ok s -> zlen (service_db s) < 0xfffeffff ->
  post (register_device_id fuel now fixed s source vendor product version) server_ok.
Proof.
  intros Hok Hsmall. unfold register_device_id.
  eapply post_use; [by apply next_handle_post; [apply Hok|]|]. intros h [Hun Hh].
  apply daemon_record_then; [done|unfold is_u32; cbn; lia|cbn; lia|done|apply device_keeps|].
  intros s' Hok'. eapply post_mono; [apply timestamp_kin|]. intros s4 Hk. by apply (kin_ok s').
Qed.

Lemma update_mps_kin v : post (update_mps v) (fun v' => kin (srv v) (srv v')).
Proof.
  unfold update_mps. destruct (mps_handle v =? 0); [done|]. apply post_any; intros [r|]; [|done].
  apply post_any; intros mpsd. eapply post_use; [apply change_kin, replace_u64_keeps|]. intros s1 H1.
  destruct (mps_mpmd v); [|done]. apply post_any; intros mpmd.
  eapply post_use; [apply change_kin, replace_u64_keeps|]. intros s2 H2. cbn. by etrans.
Qed.

Lemma add_record_ok v src r rec :
  server_ok (srv v) -> store (srv v) !! r = Some rec -> r ∉ service_db (srv v) ->
  is_u32 (handle rec) -> handle rec <> 0xffffffff -> unused (srv v) (handle rec) ->
  post (add_record now fixed v src r) (fun e => e.1 = 0 /\ server_ok (srv e.2)).
Proof.
  intros Hok Hrec Hr Hu Hne Hun. unfold add_record.
  destruct (server_add_ok (srv v) src r rec Hok Hrec Hr Hu Hne Hun) as (s1 & -> & Hok1 & _).
  cbn [mbind run_bind].
  eapply post_use; [apply change_kin; intros x; apply replace_handle|]. intros s2 H2.
  eapply post_use; [apply change_kin|].
  { intros x. cbn. destruct (sdp_data_get x SDP_ATTR_BROWSE_GRP_LIST); [done|apply pattern_add_handle]. }
  intros s3 H3. eapply post_use; [apply update_mps_kin|]. intros v4 H4.
  eapply post_use; [apply timestamp_kin|]. intros s5 H5. cbn. split; [done|].
  apply (kin_ok s1); [|done]. etrans; [exact H2|]. etrans; [exact H3|]. etrans; [exact H4|exact H5].
Qed.

Lemma add_record_to_server_ok v src r rec :
  server_ok (srv v) -> zlen (service_db (srv v)) < 0xfffeffff -> store (srv v) !! r = Some rec ->
  r ∉ service_db (srv v) -> r < next_addr (srv v) -> is_u32 (handle rec) ->
  post (add_record_to_server fuel now fixed v src r) (fun e =>
    server_ok (srv e.2) /\ (e.1 < 0 -> r ∉ service_db (srv e.2))).
Proof.
  intros Hok Hsmall Hrec Hr Hlt Hu. unfold add_record_to_server.
  assert (deref (srv v) r = Done rec) as -> by (unfold deref; by rewrite Hrec). cbn [mbind run_bind].
  destruct (Z.eqb_spec (handle rec) 0xffffffff) as [He|He].
  - eapply post_use; [by apply next_handle_post; [apply Hok|]|]. intros h [Hun Hh].
    rewrite (proj2 (Z.ltb_ge _ _)) by lia.
    pose proof (stray_ok (srv v) r (set_handle rec h) Hok Hr Hlt) as Hok2.
    eapply post_mono; [apply (add_record_ok _ src r (set_handle rec h))|].
    + done.
    + cbn. by rewrite lookup_insert_eq.
    + done.
    + unfold is_u32. cbn. lia.
    + cbn. lia.
    + intros x y Hx. cbn. rewrite lookup_insert_ne by (by intros ->). by apply Hun.
    + intros e [-> Hoke]. split; [done|]. lia.
  - eapply post_use; [by apply find_post; [apply Hok|]|]. intros [x|]; [done|]. intros Hun.
    eapply post_mono; [by apply (add_record_ok v src r rec)|]. intros e [-> Hoke]. split; [done|]. lia.
Qed.

Lemma remove_record_ok v h :
  server_ok (srv v) -> is_u32 h ->
  (forall r rec, r ∈ service_db (srv v) -> store (srv v) !! r = Some rec -> handle rec = h ->
    r ∉ ix_record <$> socket_index (srv v)) ->
  post (remove_record_from_server now fixed v h) (fun e => server_ok (srv e.2)).
Proof.
  intros Hok Hh Hnot. unfold remove_record_from_server.
  destruct (Z.eqb_spec h SDP_SERVER_RECORD_HANDLE) as [|H0]; [done|].
  eapply post_use; [by apply find_post; [apply Hok|]|]. intros [r|]; [|done].
  intros (Hr & rec & Hrec & <-).
  assert (own_record (srv v) <> Some r) as Hown.
  { intros Ho. destruct (ok_own _ Hok r Ho) as (_ & _ & y & Hy & Hz). by simplify_eq. }
  destruct (remove_known (srv v) r rec (ok_db _ Hok) Hr Hrec) as (s1 & -> & Hfree).
  cbn [mbind run_bind fst snd Z.eqb].
  pose proof (without_server_ok _ r Hok Hr (Hnot r rec Hr Hrec eq_refl) Hown) as Hok1.
  unfold sdp_record_free, deref in Hfree. destruct (store s1 !! r) as [rec1|] eqn:Hrec1; [|done].
  cbn [lift mbind run_bind] in Hfree. injection Hfree as Hfree.
  eapply (post_use _ _ (fun v' => kin s1 (srv v'))).
  { eapply post_use; [apply update_mps_kin|]. intros v2 H2.
    eapply post_use; [apply timestamp_kin|]. intros s3 H3. cbn in *. by etrans. }
  intros v2 H2. destruct (kin_free s1 (srv v2) r rec1 H2 Hrec1) as (s4 & -> & Hk4).
  cbn. apply (kin_ok (without (srv v) r)); [|done]. by rewrite <- Hfree.
Qed.

Lemma mps_record_handle mpmd : post (mps_record mpmd) (fun rec => handle rec = 0xffffffff).
Proof. destruct mpmd; by vm_compute. Qed.

Lemma register_mps_ok v mpmd :
  server_ok (srv v) -> zlen (service_db (srv v)) < 0xfffeffff ->
  post (register_mps fuel now fixed v mpmd) (fun v' => server_ok (srv v')).
Proof.
  intros Hok Hsmall. unfold register_mps. eapply post_use; [apply mps_record_handle|]. intros rec Hh.
  pose proof (new_record_ok (srv v) rec Hok) as Hn. destruct (new_record (srv v) rec) as [r s1].
  destruct Hn as (Hok1 & Hrec & Hr & Hlt & Hdb & _).
  eapply post_use.
  { apply (add_record_to_server_ok _ BDADDR_ANY r rec); cbn [srv set_srv]; try done.
    - by rewrite Hdb.
    - by rewrite Hh. }
  intros [e v2] [Hok2 Hneg]. cbn [fst snd] in *. destruct (Z.ltb_spec e 0).
  - eapply post_use; [apply free_stray_ok; auto|]. done.
  - by apply post_any; intros x.
Qed.
End daemon.

(** ** Sessions *)

(** What the block of a message of a client holds, when [hdr] was peeked. *)
Definition message (malloc : Z -> bytes) (hdr data : bytes) : bytes :=
  data ++ drop (length data) (malloc (HDR + be_val (take 2 (drop 3 hdr)))).

Lemma session_event_ok late malloc fuel now fixed s cond sk hdr data p :
  server_ok s -> zlen (service_db s) < 0xfffeffff ->
  (forall h d q, hdr = Some h -> data = Some d -> p = Some q ->
    acceptable (peer_req q sk (message malloc h d) (zlen d))) ->
  post (io_session_event late malloc fuel now fixed s cond sk hdr data p) (fun e => server_ok e.2).
Proof.
  intros Hok Hsmall Hacc. unfold io_session_event. destruct (G_IO_NVAL cond); [done|].
  assert (post (s ← sdp_svcdb_collect_all s sk; Done (false, None (A:=bytes), s)) (fun e => server_ok e.2)) as Hgone.
  { destruct (collect_all_ok s sk Hok) as (s' & -> & Hok' & _). done. }
  destruct (G_IO_HUP cond || G_IO_ERR cond); [exact Hgone|].
  destruct hdr as [hdr|]; [|exact Hgone]. destruct (zlen hdr <? HDR); [exact Hgone|].
  destruct (ld hdr 3 2) as [l|] eqn:Hl; [|done]. cbn [lift mbind run_bind].
  destruct data as [data|]; [|exact Hgone]. destruct (zlen data <=? 0); [exact Hgone|].
  assert (l = take 2 (drop 3 hdr)) as ->.
  { unfold ld in Hl. case_decide; [|done]. by injection Hl as <-. }
  fold (message malloc hdr data). unfold handle_request. destruct p as [p|]; [|done].
  eapply (post_use _ _ (fun r => server_ok r.2)); [|done].
  eapply post_use; [by apply process_request_ok; [done|done|apply Hacc]|]. done.
Qed.

Section life.
Context (late : bool) (malloc : Z -> bytes) (fuel : nat) (fixed : Z).

(** There are handles left. *)
Definition sdp_small (v : service) : Prop := zlen (service_db (srv v)) < 0xfffeffff.

(** One thing that the daemon or a client does to the server. *)
Inductive sdp_step (v : service) : service -> Prop :=
  | StepSession now cond sk hdr data p keep out s :
      sdp_small v ->
      (forall h d q, hdr = Some h -> data = Some d -> p = Some q ->
        acceptable (peer_req q sk (message malloc h d) (zlen d))) ->
      io_session_event late malloc fuel now fixed (srv v) cond sk hdr data p = Done (keep, out, s) ->
      sdp_step v (set_srv v s)
  | StepAdd now src rec r s e v' :
      sdp_small v -> is_u32 (handle rec) -> new_record (srv v) rec = (r, s) ->
      add_record_to_server fuel now fixed (set_srv v s) src r = Done (e, v') ->
      sdp_step v v'
  | StepRemove now h e v' :
      is_u32 h ->
      (forall r rec, r ∈ service_db (srv v) -> store (srv v) !! r = Some rec -> handle rec = h ->
        r ∉ ix_record <$> socket_index (srv v)) ->
      remove_record_from_server now fixed v h = Done (e, v') ->
      sdp_step v v'
  | StepDeviceId now source vendor product version s :
      sdp_small v ->
      register_device_id fuel now fixed (srv v) source vendor product version = Done s ->
      sdp_step v (set_srv v s)
  | StepMps now mpmd v' :
      sdp_small v -> register_mps fuel now fixed v mpmd = Done v' ->
      sdp_step v v'.

Lemma step_ok v v' : server_ok (srv v) -> sdp_step v v' -> server_ok (srv v').
Proof.
  intros Hok Hs. destruct Hs.
  - by eapply (post_done _ (fun e => server_ok e.2)) in H1; [|by apply session_event_ok].
  - pose proof (new_record_ok (srv v) rec Hok) as Hn. rewrite H1 in Hn.
    destruct Hn as (Hok1 & Hrec & Hr & Hlt & Hdb & _).
    eapply (post_done _ (fun e => server_ok (srv e.2) /\ (e.1 < 0 -> r ∉ service_db (srv e.2)))) in H2;
      [by destruct H2|]. apply (add_record_to_server_ok _ _ _ _ _ _ rec); cbn [srv set_srv]; try done.
    by rewrite Hdb.
  - by eapply (post_done _ (fun e => server_ok (srv e.2))) in H1; [|by apply remove_record_ok].
  - by eapply (post_done _ server_ok) in H0; [|by apply device_id_ok].
  - by eapply (post_done _ (fun v' => server_ok (srv v'))) in H0; [|by apply register_mps_ok].
Qed.

Lemma init_server_ok now : exists s, init_server now fixed no_server = Done s /\ server_ok s.
Proof.
  pose proof browse_group_ok as Hb. unfold init_server.
  destruct (register_public_browse_group no_server) as [s| |] eqn:Hs; [| |]; [|by vm_compute in Hs..].
  destruct Hb as (Hok & _ & Hun). cbn [mbind run_bind].
  pose proof (server_service_ok now fixed s Hok Hun) as Hserver.
  destruct (register_server_service now fixed s) as [s'| |] eqn:Hs'; [by exists s'| |];
    vm_compute in Hs; injection Hs as <-; by vm_compute in Hs'.
Qed.
End life.

(** C12. From the start of the server on, whatever the daemon adds, removes and registers and
    whatever packets its clients send, in any order, the repository stays in order: records
    and access entries correspond, handles are unique, records of clients are in the index of
    their sockets, and the record of the server is in place.  So a client may go at any time
    without use after free, and the next handle is the least one that is not in use.  This
    leaves out what breaks the repository or ends the model, and [sdp_step] says so: a
    registration whose first attribute names the handle 0xffffffff (it enters the record
    twice), the removal by the daemon of a record that belongs to a client (its entry in the
    index stays), more than 0xfffeffff records (the handles run out), and requests and calls
    whose outcome is undefined, such as the removal of the record of the server itself, which
    lead to no state. *)
Theorem sdp_server_invariant late malloc fuel fixed now :
  exists s0, init_server now fixed no_server = Done s0 /\
  forall v, rtc (sdp_step late malloc fuel fixed) (Svc s0 0 false) v ->
    server_ok (srv v) /\
    (forall sk, exists s', sdp_svcdb_collect_all (srv v) sk = Done s' /\ server_ok s' /\ of_client s' sk = []) /\
    (sdp_small v -> zlen (service_db (srv v)) < Z.of_nat fuel ->
      exists h, sdp_next_handle fuel (srv v) = Done h /\ 0x10000 <= h < 0xffffffff /\
        unused (srv v) h /\ forall x, 0x10000 <= x < h -> used (srv v) x).
Proof.
  destruct (init_server_ok fixed now) as (s0 & Hs0 & Hok0). exists s0. split; [done|].
  intros v Hv. assert (server_ok (srv v)) as Hok.
  { assert (server_ok (srv (Svc s0 0 false))) as H0 by done. revert H0.
    induction Hv as [|v1 v2 v3 H12 _ IH]; [done|]. intros H1. apply IH. by eapply step_ok. }
  split; [done|]. split.
  - intros sk. destruct (collect_all_ok (srv v) sk Hok) as (s' & He & Hok' & Hix). exists s'.
    split; [done|]. split; [done|]. unfold of_client. rewrite Hix, list_filter_filter.
    rewrite filter_no; [done|]. apply list.Forall_forall. tauto.
  - intros Hsmall Hfuel. unfold sdp_next_handle.
    pose proof (next_handle_loop_least (srv v) (ok_db _ Hok) Hsmall fuel 0x10000 ltac:(lia)) as Hn.
    destruct (next_handle_loop fuel (srv v) 0x10000) as [h| |];
      [|exfalso; apply Hn; lia|exfalso; assert (Z.of_nat fuel <= 0x10000 + zlen (service_db (srv v)) - 0x10000) by (apply Hn; lia); lia].
    exists h. destruct Hn as (A & B & C); [lia|]. done.
Qed.

Definition zeros (n : Z) : bytes := replicate (Z.to_nat n) 0.

(** A message from the local client behind socket 5, and its departure. *)
Definition says (s : server) (data : bytes) : run (bool * option bytes * server) :=
  io_session_event true zeros 40 8 0 s (Cond false false false) 5 (Some (take 5 data)) (Some data) (Some Local).
Definition goes (s : server) : run (bool * option bytes * server) :=
  io_session_event true zeros 40 8 0 s (Cond false true false) 5 None None (Some Local).

(** The registration of a record with one attribute. *)
Definition register_packet (attr : Z) (value : bytes) : bytes :=
  let seq := [9; attr / 256; attr mod 256] ++ value in
  [SDP_SVC_REGISTER_REQ; 0; 1; 0; 3 + zlen seq; 0; Dtd.SDP_SEQ8; zlen seq] ++ seq.

(** A client registers a record of the public group, and goes. *)
Lemma sdp_server_invariant_witness :
  exists s0 s1 s2 v, init_server 7 0 no_server = Done s0 /\
    says s0 (register_packet 1 [0x35; 3; 0x19; 0x11; 1]) = Done (true, Some [118; 0; 1; 0; 4; 0; 1; 0; 0], s1) /\
    socket_index s1 = [Indexed 5 2] /\
    goes s1 = Done (false, None, s2) /\ v = Svc s2 0 false /\ server_ok (srv v) /\ service_db (srv v) = [1; 0].
Proof.
  destruct (sdp_server_invariant true zeros 40 0 7) as (s0 & Hs0 & Hall).
  pose proof Hs0 as Hs0'. vm_compute in Hs0'. injection Hs0' as Hs0'.
  set (data := register_packet 1 [0x35; 3; 0x19; 0x11; 1]).
  destruct (says s0 data) as [[[keep out] s1]| |] eqn:H1; [|rewrite <- Hs0' in H1; vm_compute in H1; discriminate H1..].
  pose proof H1 as H1'. rewrite <- Hs0' in H1'. vm_compute in H1'. injection H1' as <- <- Hs1.
  destruct (goes s1) as [[[keep out] s2]| |] eqn:H2; [|rewrite <- Hs1 in H2; vm_compute in H2; discriminate H2..].
  pose proof H2 as H2'. rewrite <- Hs1 in H2'. vm_compute in H2'. injection H2' as <- <- Hs2.
  exists s0, s1, s2, (Svc s2 0 false). split; [exact Hs0|]. split; [exact H1|].
  split; [rewrite <- Hs1; reflexivity|]. split; [exact H2|]. split; [reflexivity|].
  split; [|rewrite <- Hs2; reflexivity].
  apply Hall. apply (rtc_l _ _ (Svc s1 0 false)).
  - apply (StepSession true zeros 40 0 (Svc s0 0 false) 8 (Cond false false false) 5 (Some (take 5 data)) (Some data)
      (Some Local) true (Some [118; 0; 1; 0; 4; 0; 1; 0; 0])); [|..|exact H1].
    + unfold sdp_small. rewrite <- Hs0'. reflexivity.
    + intros h d q [= <-] [= <-] [= <-]. split.
      * apply (bool_decide_unpack _). vm_compute. exact I.
      * cbn. lia.
      * intros _ _ (flags & Hf & Hn). vm_compute in Hf. injection Hf as <-.
        destruct Hn as (sc & t & n & l & h & E1 & E2 & E3 & _). vm_compute in E1. injection E1 as <- <- <-.
        vm_compute in E2. injection E2 as <-. discriminate E3.
  - apply rtc_once.
    apply (StepSession true zeros 40 0 (Svc s1 0 false) 8 (Cond false true false) 5 None None
      (Some Local) false None); [|done|exact H2].
    unfold sdp_small. rewrite <- Hs1. reflexivity.
Defined.

(** ** A registration with the handle 0xffffffff *)

(** [sdp_attr_replace] with a well-typed element succeeds. *)
Lemma replace_typed rec attr d : well_typed d = true -> exists rec', sdp_attr_replace rec attr d = Done rec'.
Proof.
  intros Hd. unfold sdp_attr_replace, insert_attr. destruct (attr =? SDP_ATTR_SVCLASS_ID_LIST); [|by eexists].
  match goal with |- context [extract_svclass_uuid ?d ?u] => destruct (svclass_ok d u) as [v ->] end;
    [by rewrite well_typed_set_attrId|by eexists].
Qed.

Lemma pdu_server_reads fuel l : forall n pre tail bufsize len s r st,
  Forall attr_ok l -> is_Some (store s !! r) ->
  zlen (flat_map attr_wire l) <= bufsize < 2 ^ 31 ->
  zlen (flat_map attr_wire l) < Z.of_nat n -> zlen (flat_map attr_wire l) < Z.of_nat fuel ->
  exists e, pdu_server_loop fuel n (pre ++ flat_map attr_wire l ++ tail) (zlen pre) bufsize len
    (len + zlen (flat_map attr_wire l)) s r st = Done e.
Proof.
  induction l as [|d l IH]; intros n pre tail bufsize len s r st HF [rec Hrec] Hbs Hn Hf.
  { destruct n as [|n]; [cbn in Hn; unfold zlen in Hn; cbn in Hn; lia|]. cbn.
    rewrite (zlen_nil (A:=Z)), Z.add_0_r, Z.ltb_irrefl. by eexists. }
  inversion HF as [|? ? (Hty & Hfit & Ha) HFl]; subst.
  cbn [flat_map]. cbn [flat_map] in Hbs, Hn, Hf. rewrite zlen_app, attr_wire_length in *.
  set (w := wire (settle d)) in *. set (rest := flat_map attr_wire l) in *.
  pose proof (wire_pos (settle d)). fold w in H. pose proof (zlen_nonneg rest).
  destruct n as [|n]; [lia|]. cbn [pdu_server_loop].
  rewrite (proj2 (Z.ltb_lt len _)) by lia. rewrite (proj2 (Z.ltb_ge _ _)) by lia.
  set (b := pre ++ (attr_wire d ++ rest) ++ tail).
  assert (b = (pre ++ [Dtd.SDP_UINT16]) ++ be_bytes 2 (attrId d) ++ (w ++ rest ++ tail)) as Hb1.
  { unfold b, attr_wire. fold w. by rewrite <- !app_assoc. }
  assert (b = (pre ++ [Dtd.SDP_UINT16] ++ be_bytes 2 (attrId d)) ++ w ++ (rest ++ tail)) as Hb2.
  { unfold b, attr_wire. fold w. by rewrite <- !app_assoc. }
  assert (b = (pre ++ attr_wire d) ++ rest ++ tail) as Hb3.
  { unfold b. by rewrite <- !app_assoc. }
  assert (rd b (zlen pre + 1) 2 = Done (be_bytes 2 (attrId d))) as ->.
  { rewrite Hb1. apply rd_mid; [by rewrite zlen_app|by rewrite zlen_be_bytes]. }
  cbn [mbind run_bind]. unfold deref. rewrite Hrec. cbn [lift mbind run_bind].
  rewrite u32_small by (unfold is_u32; lia). rewrite s32_small by lia.
  assert (sdp_extract_attr b fuel (zlen pre + 3) (bufsize - 3) (Some rec)
    = Done (Some (canon (settle d)), zlen w, pattern_all (Some rec) (uuids d))) as ->.
  { rewrite Hb2. replace (zlen pre + 3) with (zlen (pre ++ [Dtd.SDP_UINT16] ++ be_bytes 2 (attrId d))).
    2:{ rewrite !zlen_app, zlen_be_bytes. change (zlen [Dtd.SDP_UINT16]) with 1. lia. }
    unfold w. rewrite (extract_attr_wire (settle d)).
    - by rewrite uuids_settle. - by apply well_typed_settle. - done. - fold w. lia. - fold w. lia. }
  cbn [mbind run_bind pattern_all fmap option_fmap option_map default from_option].
  match goal with |- context [sdp_attr_replace ?r0 ?a ?c] =>
    destruct (replace_typed r0 a c) as [rec' ->]; [by apply well_typed_canon, well_typed_settle|] end.
  cbn [mbind run_bind].
  match goal with |- context [pdu_server_loop fuel n b _ _ _ _ ?s' r 0] =>
    destruct (IH n (pre ++ attr_wire d) tail (bufsize - (3 + zlen w)) (len + (3 + zlen w)) s' r 0 HFl)
      as (e & He); [cbn; rewrite lookup_insert_eq; by eexists|lia|lia|lia|] end.
  exists e. rewrite Hb3. rewrite zlen_app, attr_wire_length in He. fold w in He.
  rewrite u32_small by (unfold is_u32; lia). rewrite <- He. f_equal. lia.
Qed.

(** The attribute that names the handle. *)
Definition invalid_handle : sdp_data := Data Dtd.SDP_UINT32 SDP_ATTR_RECORD_HANDLE 5 (VNum 0xffffffff).

(** The records of [s] are in [s'], under their handles, and [r] is a new one. *)
Record keeps_records (s s' : server) (r : Z) : Prop := {
  kr_new : r ∉ service_db s /\ own_record s <> Some r /\ r ∉ ix_record <$> socket_index s;
  kr_store x : x ∈ service_db s -> handle <$> store s' !! x = handle <$> store s !! x;
  kr_own : own_record s' = own_record s;
}.

Lemma keeps_kin s s1 s2 r : keeps_records s s1 r -> kin s1 s2 -> keeps_records s s2 r.
Proof.
  intros [A B C] Hk. split; [done| |].
  - intros x Hx. by rewrite (kin_store s1 s2 Hk), B.
  - by rewrite (kin_own s1 s2 Hk).
Qed.

Lemma keeps_assign s s1 r rec : keeps_records s s1 r -> keeps_records s (assign s1 r rec) r.
Proof.
  intros [A B C]. split; [done| |done]. intros x Hx. cbn. rewrite lookup_insert_ne; [by apply B|].
  intros ->. by destruct A.
Qed.

Lemma keeps_live s s' r x : server_ok s -> keeps_records s s' r -> x ∈ service_db s ->
  exists rec rec', store s !! x = Some rec /\ store s' !! x = Some rec' /\ handle rec' = handle rec /\ is_u32 (handle rec).
Proof.
  intros Hok Hk Hx. destruct (db_record s (ok_db s Hok) x Hx) as (rec & Hrec & Hu).
  pose proof (kr_store s s' r Hk x Hx) as Hs. rewrite Hrec in Hs.
  destruct (store s' !! x) as [rec'|] eqn:Hx'; [|done]. exists rec, rec'. cbn in Hs. split_and!; try done. congruence.
Qed.

Section invalid.
Context (fuel : nat) (now fixed : Z).

Lemma extract_invalid s dev pre tail bufsize l :
  server_ok s -> Forall attr_ok l ->
  let y := flat_map attr_wire (invalid_handle :: l) in
  zlen y < 2 ^ 16 -> zlen (outer y) <= bufsize < 2 ^ 31 -> zlen y < Z.of_nat fuel ->
  exists r s2 rec, extract_pdu_server fuel s dev (pre ++ outer y ++ tail) (zlen pre) bufsize 0xffffffff
      = Done (Some r, s2) /\
    keeps_records s s2 r /\ db_ok s2 /\ service_db s2 ≡ₚ r :: service_db s /\
    store s2 !! r = Some rec /\ handle rec = 0xffffffff /\ socket_index s2 = socket_index s.
Proof.
  intros Hok Hl y Hy Hbs Hf. unfold extract_pdu_server. rewrite s32_small by (pose proof (zlen_nonneg (outer y)); lia).
  destruct (seqtype_outer pre y tail bufsize Hy ltac:(lia)) as (dtd & ->). cbn [mbind run_bind].
  pose proof (outer_length y) as Hol. pose proof (outer_header_length y) as Hoh.
  set (hd := zlen (outer_header y)) in *.
  assert (0 <= hd <= 3) as Hhd by (destruct (long y); lia).
  assert (zlen (outer y) = hd + zlen y) as Hlen by (destruct (long y); lia).
  assert (y = [9; 0; 0; 10; 255; 255; 255; 255] ++ flat_map attr_wire l) as Hyw by done.
  assert (zlen y = 8 + zlen (flat_map attr_wire l)) as Hyl by (rewrite Hyw, zlen_app; done).
  pose proof (zlen_nonneg (flat_map attr_wire l)) as Hl0.
  set (b := pre ++ outer y ++ tail).
  assert (b = (pre ++ outer_header y) ++ y ++ tail) as Hb0 by (unfold b, outer; by rewrite <- !app_assoc).
  assert (zlen (pre ++ outer_header y) = zlen pre + hd) as Hpre by (by rewrite zlen_app).
  rewrite u32_small by (unfold is_u32; lia). rewrite (proj2 (Z.ltb_ge _ 2)) by lia.
  assert (rd b (zlen pre + hd + 1) 2 = Done [0; 0]) as ->.
  { rewrite Hb0, Hyw. change ([9; 0; 0; 10; 255; 255; 255; 255] ++ flat_map attr_wire l)
      with ([9] ++ [0; 0] ++ ([10; 255; 255; 255; 255] ++ flat_map attr_wire l)).
    rewrite <- !app_assoc, (app_assoc pre), (app_assoc (pre ++ outer_header y)). apply rd_mid; [|done].
    rewrite zlen_app, Hpre. done. }
  cbn [mbind run_bind]. change (be_val [0; 0] =? SDP_ATTR_RECORD_HANDLE) with true. cbn [andb].
  rewrite (proj2 (Z.ltb_ge _ 8)) by lia.
  assert (rd b (zlen pre + hd + 4) 4 = Done [255; 255; 255; 255]) as ->.
  { rewrite Hb0, Hyw. change ([9; 0; 0; 10; 255; 255; 255; 255] ++ flat_map attr_wire l)
      with ([9; 0; 0; 10] ++ [255; 255; 255; 255] ++ flat_map attr_wire l).
    rewrite <- !app_assoc, (app_assoc pre), (app_assoc (pre ++ outer_header y)). apply rd_mid; [|done].
    rewrite zlen_app, Hpre. done. }
  cbn [mbind run_bind]. change (be_val [255; 255; 255; 255]) with 0xffffffff.
  rewrite (find_unknown s 0xffffffff) by (apply Hok || done || intros x rx Hx Hrx; by apply (ok_handle s Hok x)).
  cbn [mbind run_bind].
  pose proof (new_record_ok s (set_handle sdp_record_alloc 0xffffffff) Hok) as Hn.
  destruct (new_record s (set_handle sdp_record_alloc 0xffffffff)) as [r s1] eqn:Hnew.
  destruct Hn as (Hok1 & Hrec & Hr & Hlt & Hdb & Hun1).
  assert (unused s1 0xffffffff) as Hun by (apply Hun1; intros x rx Hx Hrx; by apply (ok_handle s Hok x)).
  destruct (record_add_ok s1 dev r _ (ok_db s1 Hok1) Hrec Hr ltac:(done) Hun)
    as (s2 & -> & Hdb2 & Hp & Hst & Hna & Hix & Hown). cbn [mbind run_bind].
  destruct (pdu_server_reads fuel (invalid_handle :: l) fuel (pre ++ outer_header y) tail (bufsize - hd) 0 s2 r (-1))
    as ([s3 st] & Hloop).
  { constructor; [|done]. split; [reflexivity|]. split; [reflexivity|]. done. }
  { rewrite Hst, Hrec. done. }
  { fold y. lia. } { fold y. lia. } { fold y. lia. }
  fold y in Hloop. rewrite <- Hb0, Hpre, Z.add_0_l in Hloop. rewrite Hloop. cbn [mbind run_bind fst snd].
  pose proof (pdu_loop_kin fuel b fuel (zlen pre + hd) (bufsize - hd) 0 (zlen y) s2 r (-1)) as Hk.
  rewrite Hloop in Hk. cbn in Hk.
  assert ((if st =? 0 then as_int (hd + zlen y) else Done 0)
    = Done (if st =? 0 then hd + zlen y else 0)) as ->.
  { destruct (st =? 0); [|done]. unfold as_int.
    by rewrite (proj2 (Z.leb_le _ _)), (proj2 (Z.ltb_lt _ _)) by lia. }
  cbn [mbind run_bind].
  assert (keeps_records s s2 r) as Hkeep.
  { injection Hnew as <- <-. split.
    - split; [by rewrite <- Hdb|]. split.
      + intros Ho. by destruct (ok_own s Hok _ Ho).
      + intros (i & Hi & Hin)%list_elem_of_fmap. apply Hr. cbn in Hi. rewrite Hi.
        by apply (index_live s _ (ok_index s Hok)).
    - intros x Hx. rewrite Hst. cbn. rewrite lookup_insert_ne; [done|]. intros <-. by rewrite Hdb in Hr.
    - by rewrite Hown. }
  destruct (kin_lookup' s2 s3 r (set_handle sdp_record_alloc 0xffffffff) Hk) as (rec & Hrec3 & Hh);
    [by rewrite Hst|].
  exists r, s3, rec. split; [done|]. split; [by apply (keeps_kin s s2)|].
  split; [apply (db_ok_agree s2); [done|apply Hk|apply Hk|]; intros x _; apply (kin_store s2 s3 Hk)|].
  split; [rewrite (kin_db s2 s3 Hk), Hp; by rewrite Hdb|]. split; [done|]. split; [done|].
  rewrite (kin_index s2 s3 Hk), Hix. by injection Hnew as <- <-.
Qed.

(** The state behind the registration: [r] is in the database twice, once in the index. *)
Record twice (s s1 : server) (r sock : Z) : Prop := {
  tw_keeps : keeps_records s s1 r;
  tw_db : service_db s1 ≡ₚ r :: r :: service_db s;
  tw_index : socket_index s1 = sdp_list_insert_sorted compare_indices (socket_index s) (Indexed sock r);
  tw_record : exists rec, store s1 !! r = Some rec /\ 0x10000 <= handle rec < 0xffffffff /\ unused s (handle rec);
}.

Lemma twice_kin s s1 s2 r sock : twice s s1 r sock -> kin s1 s2 -> twice s s2 r sock.
Proof.
  intros [A B C (rec & Hr & D)] Hk. split.
  - by apply (keeps_kin s s1).
  - by rewrite (kin_db s1 s2 Hk).
  - by rewrite (kin_index s1 s2 Hk).
  - destruct (kin_lookup' s1 s2 r rec Hk Hr) as (rec' & Hr' & Hh). exists rec'. by rewrite Hh.
Qed.

Lemma timestamp_done s : match own_record s with Some r0 => is_Some (store s !! r0) | None => True end ->
  exists s', update_db_timestamp now fixed s = Done s' /\ kin s s'.
Proof.
  intros Ho. pose proof (timestamp_kin now fixed s) as Hk. unfold update_db_timestamp in *.
  destruct (own_record s) as [r0|]; [|by eexists]. destruct Ho as [rec Hrec]. unfold deref in *. rewrite Hrec in *.
  cbn [lift mbind run_bind] in *.
  destruct (replace_stamp rec (uint32_data (if fixed =? 0 then now else fixed))) as (rec' & E & _). rewrite E in *.
  by eexists.
Qed.

Lemma success_done s r rec b ds bs :
  store s !! r = Some rec -> match own_record s with Some r0 => is_Some (store s !! r0) | None => True end ->
  4 <= zlen b ->
  exists rsp s', register_success now fixed s r (Buf (Some b) ds bs) = Done (0, rsp, s') /\ kin s s'.
Proof.
  intros Hr Ho Hb. pose proof (register_success_kin now fixed s r (Buf (Some b) ds bs)) as Hk.
  unfold register_success in *. unfold deref in *. rewrite Hr in *. cbn [lift mbind run_bind] in *.
  set (s1 := match sdp_data_get rec SDP_ATTR_BROWSE_GRP_LIST with Some _ => s | None => _ end) in *.
  destruct (timestamp_done s1) as (s2 & E & _).
  { unfold s1. destruct (sdp_data_get _ _); [done|]. cbn. destruct (own_record s) as [r0|]; [|done].
    destruct (decide (r0 = r)) as [->|]; [rewrite lookup_insert_eq; by eexists|by rewrite lookup_insert_ne]. }
  rewrite E in *. cbn [mbind run_bind] in *. unfold buf_put, put_be32 in *. cbn [data] in *.
  rewrite st_0 in * by (rewrite zlen_be_bytes; lia). cbn [lift mbind run_bind post] in *. by eexists _, _.
Qed.

Lemma keeps_own s s' r : server_ok s -> keeps_records s s' r ->
  match own_record s' with Some r0 => is_Some (store s' !! r0) | None => True end.
Proof.
  intros Hok Hk. rewrite (kr_own s s' r Hk). destruct (own_record s) as [r0|] eqn:Ho; [|done].
  destruct (ok_own s Hok r0 Ho) as (Hin & _). by destruct (keeps_live s s' r r0 Hok Hk Hin) as (? & ? & _ & -> & _).
Qed.

(** The bytes of a registration: the flags, the device when the flags say so, the record. *)
Definition registration (flags : Z) (dev : bytes) (l : list sdp_data) : bytes :=
  flags :: dev ++ record_wire l.

Lemma register_invalid_twice s dev0 sock mtu tid flags dev l b ds bs :
  server_ok s -> zlen (service_db s) < 0xfffeffff - 1 -> 0 <= sock < 2 ^ 31 ->
  is_u8 flags -> Z.land flags 1 = 0 -> length dev = (if Z.land flags 2 =? 0 then 0%nat else 6%nat) ->
  length tid = 2%nat -> Forall attr_ok l ->
  let y := flat_map attr_wire (invalid_handle :: l) in
  zlen y < 2 ^ 16 -> zlen y < Z.of_nat fuel -> zlen (service_db s) + 1 < Z.of_nat fuel -> 4 <= zlen b ->
  let req := request true dev0 sock mtu SDP_SVC_REGISTER_REQ tid (registration flags dev (invalid_handle :: l)) in
  exists rsp s1 r, service_register_req fuel now fixed s req (Buf (Some b) ds bs) = Done (0, rsp, s1) /\
    twice s s1 r sock.
Proof.
  intros Hok Hsmall Hsock Hflags Hpersist Hdev Htid Hl y Hy Hfy Hfdb Hb req.
  set (hd := [SDP_SVC_REGISTER_REQ] ++ tid ++ be_bytes 2 (zlen (registration flags dev (invalid_handle :: l)))).
  assert (zlen hd = 5) as Hhd by (unfold hd; rewrite !zlen_app, zlen_be_bytes; unfold zlen at 2; by rewrite Htid).
  assert (req_buf req = hd ++ [flags] ++ dev ++ outer y) as Hbuf by (unfold req, request; cbn [req_buf]; by rewrite packet_body).
  pose proof (outer_length y) as Hol. pose proof (zlen_nonneg y) as Hy0.
  assert (req_len req = 6 + zlen dev + zlen (outer y)) as Hlen.
  { unfold req, request. cbn [req_len]. change (packet _ _ _) with (req_buf req). rewrite Hbuf, !zlen_app, Hhd.
    change (zlen [flags]) with 1. lia. }
  unfold service_register_req. rewrite Hbuf, Hlen.
  rewrite (rd_u8_mid hd flags) by done. cbn [mbind run_bind].
  match goal with |- context [if negb (Z.land flags 2 =? 0) then ?x else ?z] =>
    assert (exists dev', (if negb (Z.land flags 2 =? 0) then x else z)
      = Done (dev', 6 + zlen dev, 1 + zlen (outer y))) as [dev' ->] end.
  { destruct (Z.land flags 2 =? 0); cbn [negb].
    - exists (req_device req). assert (zlen dev = 0) as -> by (unfold zlen; by rewrite Hdev).
      unfold HDR. do 3 f_equal; lia.
    - exists dev. assert (zlen dev = 6) as Hd by (unfold zlen; by rewrite Hdev). rewrite app_assoc.
      rewrite (rd_mid (hd ++ [flags]) dev) by (rewrite ?zlen_app, ?Hhd; done).
      cbn [mbind run_bind]. rewrite Hd. unfold HDR. do 3 f_equal; lia. }
  cbn [mbind run_bind]. rewrite u32_small by (unfold is_u32; destruct (long y); lia).
  destruct (extract_invalid s dev' (hd ++ [flags] ++ dev) [] (1 + zlen (outer y)) l Hok Hl Hy)
    as (r & s2 & rec & He & Hkeep & Hdb2 & Hp & Hrec & Hh & Hix); [fold y; destruct (long y); lia|done|].
  fold y in He. rewrite !zlen_app, Hhd, app_nil_r, <- !app_assoc in He. change (zlen [flags]) with 1 in He.
  replace (5 + (1 + zlen dev)) with (6 + zlen dev) in He by lia. rewrite He. cbn [mbind run_bind].
  assert (deref s2 r = Done rec) as -> by (unfold deref; by rewrite Hrec). cbn [mbind run_bind]. rewrite Hh, Z.eqb_refl. cbn [mbind run_bind andb].
  assert (zlen (service_db s2) = zlen (service_db s) + 1) as Hcount by (unfold zlen; rewrite Hp; cbn; lia).
  pose proof (next_handle_loop_least s2 Hdb2 ltac:(lia) fuel 0x10000 ltac:(lia)) as Hnext.
  unfold sdp_next_handle. destruct (next_handle_loop fuel s2 0x10000) as [h| |];
    [|exfalso; apply Hnext; lia|exfalso; assert (Z.of_nat fuel <= 0x10000 + zlen (service_db s2) - 0x10000)
      by (apply Hnext; lia); lia].
  destruct Hnext as (Hun & Hhr & _); [lia|]. cbn [mbind run_bind]. rewrite (proj2 (Z.ltb_ge _ _)) by lia.
  set (s3 := assign s2 r (set_handle rec h)).
  assert (keeps_records s s3 r) as Hk3 by (by apply keeps_assign).
  unfold sdp_record_add. change (service_db s3) with (service_db s2).
  destruct (insert_record_perm s3 r (service_db s2)) as (db & Hins & Hdb).
  { intros x. rewrite Hp, !elem_of_cons. unfold s3. cbn.
    intros Hx. destruct (decide (x = r)) as [->|Hn]; [rewrite lookup_insert_eq; by eexists|].
    rewrite lookup_insert_ne by done. destruct Hx as [?|[?|Hx]]; [done..|].
    by destruct (keeps_live s s2 r x Hok Hkeep Hx) as (? & ? & _ & -> & _). }
  rewrite Hins. cbn [mbind run_bind].
  assert (deref s3 r = Done (set_handle rec h)) as ->
    by (unfold deref, s3; cbn; by rewrite lookup_insert_eq).
  cbn [mbind run_bind]. rewrite Hpersist. change (0 =? 0) with true. cbn iota.
  change (req_sock req) with sock.
  match goal with |- context [sdp_svcdb_set_collectable ?x r sock] =>
    set (s4 := sdp_svcdb_set_collectable x r sock) end.
  assert (twice s s4 r sock) as Htw.
  { split.
    - split; [apply Hk3|apply Hk3|apply Hk3].
    - cbn. by rewrite Hdb, Hp.
    - cbn. by rewrite Hix.
    - exists (set_handle rec h). cbn. split; [apply lookup_insert_eq|]. split; [lia|].
      intros x rx Hx Hrx. destruct (keeps_live s s2 r x Hok Hkeep Hx) as (z & z' & Hz & Hz' & Hzh & _).
      simplify_eq. rewrite <- Hzh. apply (Hun x); [rewrite Hp; by right|done]. }
  assert (store s4 !! r = Some (set_handle rec h)) as Hr4 by (cbn; apply lookup_insert_eq).
  assert (deref s4 r = Done (set_handle rec h)) as -> by (unfold deref; by rewrite Hr4). cbn [mbind run_bind].
  destruct (replace_typed (set_handle rec h) SDP_ATTR_RECORD_HANDLE (uint32_data h)) as [rec5 Hrep].
  { unfold uint32_data. cbn [well_typed]. change (dtd_kind Dtd.SDP_UINT32) with (Some (KUint 4)).
    cbn [leaf_ok]. apply andb_true_iff. rewrite Z.leb_le, Z.ltb_lt. cbn. lia. }
  cbn [handle set_handle] in *. rewrite Hrep. cbn [mbind run_bind].
  pose proof (replace_handle (set_handle rec h) SDP_ATTR_RECORD_HANDLE (uint32_data h)) as Hrh.
  rewrite Hrep in Hrh. cbn in Hrh.
  pose proof (kin_assign s4 r (set_handle rec h) rec5 Hr4 Hrh) as Hk5.
  pose proof (twice_kin s s4 (assign s4 r rec5) r sock Htw Hk5) as Htw5.
  destruct (success_done (assign s4 r rec5) r rec5 b ds bs) as (rsp & s6 & Hdone & Hk6);
    [cbn; apply lookup_insert_eq|by apply (keeps_own s _ r); [|apply Htw5]|done|].
  exists rsp, s6, r. split; [exact Hdone|]. by apply (twice_kin s (assign s4 r rec5)).
Qed.
End invalid.

(** *** What is left when the client goes *)

Lemma compare_indices_diff i j : 0 <= ix_sock i < 2 ^ 31 -> 0 <= ix_sock j < 2 ^ 31 ->
  compare_indices i j = ix_sock i - ix_sock j.
Proof.
  intros Hi Hj. unfold compare_indices, sub32, s32, u32. destruct (Z.le_gt_cases (ix_sock j) (ix_sock i)).
  - rewrite Z.mod_small by lia. case_match; lia.
  - assert ((ix_sock i - ix_sock j) mod 2 ^ 32 = ix_sock i - ix_sock j + 2 ^ 32) as ->; [|case_match; lia].
    symmetry. apply (Z.mod_unique _ _ (-1)); lia.
Qed.

(** The entry of a new client stands between those of the smaller and of the larger sockets. *)
Lemma insert_index_split l i :
  Forall (fun j => 0 <= ix_sock j < 2 ^ 31) l -> 0 <= ix_sock i < 2 ^ 31 ->
  StronglySorted (fun a b => ix_sock a <= ix_sock b) l -> Forall (fun j => ix_sock j <> ix_sock i) l ->
  exists l1 l2, l = l1 ++ l2 /\ sdp_list_insert_sorted compare_indices l i = l1 ++ i :: l2 /\
    Forall (fun j => ix_sock j < ix_sock i) l1 /\ Forall (fun j => ix_sock i < ix_sock j) l2.
Proof.
  intros Hl Hi Hs Hne. induction Hs as [|j l Hs IH Hj]; [by exists [], []|].
  apply list.Forall_cons in Hl as [Hjr Hl]. apply list.Forall_cons in Hne as [Hji Hne].
  cbn [sdp_list_insert_sorted]. rewrite compare_indices_diff by done.
  destruct (Z.leb_spec 0 (ix_sock j - ix_sock i)).
  - exists [], (j :: l). split_and!; [done|done|constructor|]. constructor; [lia|].
    eapply list.Forall_impl; [exact Hj|]. cbn. lia.
  - destruct (IH Hl Hne) as (l1 & l2 & -> & -> & H1 & H2). exists (j :: l1), l2.
    split_and!; [done|done| |done]. constructor; [lia|done].
Qed.

Lemma collect_loop_one l1 i l2 sock s s' : Forall (fun j => ix_sock j < sock) l1 -> ix_sock i = sock ->
  Forall (fun j => sock < ix_sock j) l2 ->
  (rec ← deref s (ix_record i); e ← sdp_record_remove s (handle rec); sdp_record_free e.2 (ix_record i)) = Done s' ->
  forall q, collect_loop (l1 ++ i :: l2) q sock s = Done (q ++ l1 ++ l2, s').
Proof.
  intros H1 Hi H2 Hdo. induction H1 as [|j l1 Hj H1 IH]; intros q.
  - cbn [app collect_loop]. rewrite Hi, Z.eqb_refl.
    destruct (deref s (ix_record i)) as [rec| |]; cbn [mbind run_bind] in *; [|done..].
    destruct (sdp_record_remove s (handle rec)) as [e| |]; cbn [mbind run_bind] in *; [|done..].
    rewrite Hdo. cbn [mbind run_bind]. destruct H2 as [|j l2 Hj H2]; [by rewrite app_nil_r|].
    cbn [collect_loop]. rewrite (proj2 (Z.eqb_neq _ _)) by lia. by rewrite (proj2 (Z.ltb_lt _ _)).
  - cbn [app collect_loop]. rewrite (proj2 (Z.eqb_neq _ _)), (proj2 (Z.ltb_ge _ _)) by lia.
    rewrite IH. by rewrite <- app_assoc.
Qed.

Lemma remove_first {A} (f : A -> bool) l x : x ∈ l -> (forall y, f y = true <-> y = x) ->
  l ≡ₚ x :: sdp_list_remove f l.
Proof.
  intros Hx Hf. induction l as [|y l IH]; [by apply elem_of_nil in Hx|]. cbn [sdp_list_remove].
  destruct (f y) eqn:Hy; [by apply Hf in Hy as ->|].
  apply elem_of_cons in Hx as [->|Hx]; [by rewrite (proj2 (Hf y) eq_refl) in Hy|].
  rewrite (IH Hx) at 1. apply Permutation_swap.
Qed.

Lemma twice_collect s s1 r sock :
  server_ok s -> 0 <= sock < 2 ^ 31 -> of_client s sock = [] -> twice s s1 r sock ->
  exists s2, sdp_svcdb_collect_all s1 sock = Done s2 /\ service_db s2 ≡ₚ r :: service_db s /\
    store s2 !! r = None /\ socket_index s2 = socket_index s.
Proof.
  intros Hok Hsock Hnone [Hk Hdb Hix (rec & Hrec & Hh & Hun)].
  assert (Forall (fun j => ix_sock j <> sock) (socket_index s)) as Hne.
  { apply list.Forall_forall. intros j Hj He. assert (ix_record j ∈ of_client s sock) as Hin.
    { unfold of_client. apply list_elem_of_fmap. exists j. split; [done|]. by apply list_elem_of_filter. }
    rewrite Hnone in Hin. by apply elem_of_nil in Hin. }
  destruct (insert_index_split (socket_index s) (Indexed sock r) (ok_socks s Hok) Hsock
    (index_sorted s _ (ok_index s Hok)) Hne) as (l1 & l2 & Hl & Hins & H1 & H2).
  unfold sdp_svcdb_collect_all. rewrite Hix, Hins.
  assert (sdp_record_remove s1 (handle rec) = Done (0, match access_locate (set_service_db s1
      (sdp_list_remove (fun x => x =? r) (service_db s1))) (handle rec) with
    | None => set_service_db s1 (sdp_list_remove (fun x => x =? r) (service_db s1))
    | Some _ => set_access_db (set_service_db s1 (sdp_list_remove (fun x => x =? r) (service_db s1)))
        (sdp_list_remove (fun a => sub32 (acc_handle a) (handle rec) =? 0) (access_db s1)) end)) as Hrem.
  { unfold sdp_record_remove, record_locate.
    destruct (find_record_spec s1 (service_db s1) (handle rec)) as (o & -> & Ho).
    - unfold is_u32. lia.
    - intros x. rewrite Hdb, !elem_of_cons. intros Hx.
      destruct (decide (x = r)) as [->|Hn]; [exists rec; split; [done|unfold is_u32; lia]|].
      destruct Hx as [?|[?|Hx]]; [done..|].
      destruct (keeps_live s s1 r x Hok Hk Hx) as (z & z' & _ & Hz & He & Hu). exists z'. by rewrite He.
    - cbn [mbind run_bind]. destruct o as [x|]; [|by destruct (Ho r rec); [rewrite Hdb; left| |]].
      destruct Ho as (Hx & rx & Hrx & He).
      assert (x = r) as ->.
      { destruct (decide (x = r)) as [|Hn]; [done|]. rewrite Hdb, !elem_of_cons in Hx.
        destruct Hx as [?|[?|Hx]]; [done..|].
        destruct (keeps_live s s1 r x Hok Hk Hx) as (z & z' & Hz & Hz' & Hzh & _).
        simplify_eq. destruct (Hun x z Hx Hz). congruence. }
      by destruct (access_locate _ _). }
  set (s1' := match access_locate _ _ with Some _ => _ | None => _ end) in Hrem.
  assert (service_db s1' = sdp_list_remove (fun x => x =? r) (service_db s1) /\ store s1' = store s1) as [Hdb' Hst'].
  { unfold s1'. by destruct (access_locate _ _). }
  rewrite (collect_loop_one l1 (Indexed sock r) l2 sock s1 (set_store s1' (delete r (store s1'))) H1 eq_refl H2).
  2:{ cbn [ix_record]. unfold deref. rewrite Hrec. cbn [lift mbind run_bind]. rewrite Hrem. cbn [mbind run_bind snd].
      unfold sdp_record_free, deref. rewrite Hst', Hrec. done. }
  cbn [mbind run_bind fst snd app]. eexists. split; [done|]. cbn. split; [|split; [apply lookup_delete_eq|by rewrite Hl]].
  rewrite Hdb'. apply (Permutation_cons_inv (a := r)). rewrite <- Hdb. symmetry. apply remove_first.
  - rewrite Hdb. left.
  - intros y. apply Z.eqb_eq.
Qed.

(** A search that is not satisfied before it reaches a freed record uses it. *)
Lemma search_freed s l us device expected r : r ∈ l -> store s !! r = None ->
  forall cnt p buf, cnt + zlen l <= expected -> search_loop s l us device expected cnt p buf = Fault.
Proof.
  intros Hr Hs. induction l as [|x l IH]; intros cnt p buf Hcnt; [by apply elem_of_nil in Hr|].
  rewrite zlen_cons in Hcnt. pose proof (zlen_nonneg l). cbn [search_loop].
  rewrite (proj2 (Z.ltb_lt _ _)) by lia. unfold deref. destruct (store s !! x) as [rec|] eqn:Hx; [|done].
  cbn [lift mbind run_bind]. apply elem_of_cons in Hr as [->|Hr]; [congruence|].
  destruct (rec_matches s us device rec); [|by apply IH; [|lia]].
  destruct (buf_put _ _) as [b| |] eqn:Hb; cbn [mbind run_bind]; [by apply IH; [|lia]|done|].
  unfold buf_put in Hb. destruct (data buf); [|done]. by destruct (put_be32 _ _ _).
Qed.

Lemma twice_of_client s s1 r sock :
  server_ok s -> 0 <= sock < 2 ^ 31 -> of_client s sock = [] -> twice s s1 r sock -> of_client s1 sock = [r].
Proof.
  intros Hok Hsock Hnone Htw. unfold of_client in *. rewrite (tw_index s s1 r sock Htw).
  apply fmap_nil_inv in Hnone.
  assert (Permutation (filter (fun i => ix_sock i = sock)
    (sdp_list_insert_sorted compare_indices (socket_index s) (Indexed sock r))) [Indexed sock r]) as Hp.
  { rewrite insert_sorted_perm, filter_cons. by rewrite decide_True, Hnone. }
  symmetry in Hp. apply Permutation_length_1_inv in Hp. by rewrite Hp.
Qed.

Lemma buf_put_result buf f : buf_put buf f = Fault \/ exists buf', buf_put buf f = Done buf'.
Proof. unfold buf_put. destruct (data buf); [|by left]. destruct (f _); cbn; [right; by eexists|by left]. Qed.

(** C13. In whatever state of the server, a local client that registers a record, not to be kept,
    with the handle 0xffffffff in its first attribute, whatever its other attributes are, gets
    it into the database twice, and into the index once.  When the client, which has no other
    record, hangs up, one entry goes and the record is freed, but the other entry stays: every
    search that asks for more handles than there are other records uses the freed record. *)
Theorem sdp_register_invalid_handle late malloc fuel now fixed s device sock mtu tid flags dev l b ds bs :
  server_ok s -> zlen (service_db s) < 0xfffeffff - 1 -> 0 <= sock < 2 ^ 31 -> of_client s sock = [] ->
  is_u8 flags -> Z.land flags 1 = 0 -> length dev = (if Z.land flags 2 =? 0 then 0%nat else 6%nat) ->
  length tid = 2%nat -> Forall attr_ok l ->
  let y := flat_map attr_wire (invalid_handle :: l) in
  zlen y < 2 ^ 16 -> zlen y < Z.of_nat fuel -> zlen (service_db s) + 1 < Z.of_nat fuel -> 4 <= zlen b ->
  let req := request true device sock mtu SDP_SVC_REGISTER_REQ tid (registration flags dev (invalid_handle :: l)) in
  exists rsp s1 r, service_register_req fuel now fixed s req (Buf (Some b) ds bs) = Done (0, rsp, s1) /\
    r ∉ service_db s /\ service_db s1 ≡ₚ r :: r :: service_db s /\ of_client s1 sock = [r] /\
    exists s2,
      (forall cond hdr data p, G_IO_NVAL cond = false -> G_IO_HUP cond || G_IO_ERR cond = true ->
        io_session_event late malloc fuel now fixed s1 cond sock hdr data p = Done (false, None, s2)) /\
      service_db s2 ≡ₚ r :: service_db s /\ store s2 !! r = None /\
      forall req pattern expected rsp, zlen (service_db s) < expected ->
        search_respond now s2 req pattern expected None rsp = Fault.
Proof.
  intros Hok Hsmall Hsock Hnone Hflags Hpersist Hdev Htid Hl y Hy Hf1 Hf2 Hb req.
  destruct (register_invalid_twice fuel now fixed s device sock mtu tid flags dev l b ds bs Hok Hsmall Hsock
    Hflags Hpersist Hdev Htid Hl Hy Hf1 Hf2 Hb) as (rsp & s1 & r & Hreg & Htw).
  destruct (twice_collect s s1 r sock Hok Hsock Hnone Htw) as (s2 & Hgo & Hdb2 & Hfree & _).
  exists rsp, s1, r. split; [exact Hreg|]. split; [apply (kr_new s s1 r (tw_keeps s s1 r sock Htw))|].
  split; [apply Htw|]. split; [by apply (twice_of_client s)|]. exists s2. split.
  { intros cond hdr data p H1 H2. unfold io_session_event. by rewrite H1, H2, Hgo. }
  split; [done|]. split; [done|]. intros req' pattern expected rsp' He. unfold search_respond.
  destruct (buf_put_result rsp' (fun b => put_be16 0 b 0)) as [->|[b1 ->]]; [done|]. cbn [mbind run_bind].
  match goal with |- context [buf_put ?x ?f] => destruct (buf_put_result x f) as [->|[b2 ->]] end; [done|].
  cbn [mbind run_bind]. unfold sdp_get_record_list.
  rewrite (search_freed s2 (service_db s2) _ _ expected r); [done|rewrite Hdb2; left|done|].
  unfold zlen in *. rewrite Hdb2. cbn [length]. lia.
Qed.

(** The registration of a record with only its handle, by the first client after the start. *)
Lemma sdp_register_invalid_handle_witness :
  exists s0 rsp s1 s2 r, init_server 7 0 no_server = Done s0 /\
    service_register_req 40 8 0 s0 (request true BDADDR_ANY 5 672 SDP_SVC_REGISTER_REQ [0; 1]
      [0; Dtd.SDP_SEQ8; 8; 9; 0; 0; Dtd.SDP_UINT32; 255; 255; 255; 255]) (Buf (Some (zeros 9)) 0 9) = Done (0, rsp, s1) /\
    service_db s1 ≡ₚ [r; r; 1; 0] /\ goes s1 = Done (false, None, s2) /\ store s2 !! r = None /\
    service_db s2 ≡ₚ [r; 1; 0] /\
    search_respond 8 s2 (request true BDADDR_ANY 5 672 SDP_SVC_SEARCH_REQ [0; 2] []) [DUuid (SDP_UUID16 0x1002)] 9
      None (Buf (Some (zeros 99)) 0 99) = Fault.
Proof.
  destruct (init_server_ok 0 7) as (s0 & Hs0 & Hok). pose proof Hs0 as Hs0'. vm_compute in Hs0'. injection Hs0' as Hs0'.
  assert (service_db s0 = [1; 0] /\ of_client s0 5 = []) as [Hdb Hof] by (rewrite <- Hs0'; split; reflexivity).
  destruct (sdp_register_invalid_handle true zeros 40 8 0 s0 BDADDR_ANY 5 672 [0; 1] 0 [] [] (zeros 9) 0 9 Hok)
    as (rsp & s1 & r & H1 & _ & H2 & _ & s2 & H3 & H4 & H5 & H6);
    [rewrite Hdb; reflexivity|lia|exact Hof|split; reflexivity || discriminate|reflexivity|reflexivity|reflexivity
    |constructor|reflexivity|reflexivity|rewrite Hdb; reflexivity|discriminate|].
  rewrite Hdb in H2, H4, H6. exists s0, rsp, s1, s2, r. split; [exact Hs0|]. split; [exact H1|]. split; [exact H2|].
  split; [apply H3; reflexivity|]. split; [exact H5|]. split; [exact H4|]. apply H6. reflexivity.
Defined.
